(* ===== verification/_CoqProject ===== *)
-Q . S2P
Prelude.v
NginxCore.v
Acl.v
Host.v
Chains.v
BodyFilter.v
Bodies.v
ShmQueue.v
ShmKv.v
ShmZones.v
Histogram.v
Metrics.v
Escape.v
Pairs.v
ProxyWasm.v
Abi.v
Instances.v
Frame.v
Stores.v
FilterChain.v
HttpProxyWasm.v
Ops.v
ResponseBuffering.v
Headers.v
Maps.v
HostBuffers.v
HostShm.v
HostMetrics.v
MetricsReload.v
Upstream.v
UpstreamPolicy.v
Properties.v
LocalResponse.v
HttpConf.v
HttpPhases.v
Pointers.v
Readers.v
SocketTcp.v
Dispatch.v
Wasi.v
WavmHost.v
Wavm.v
