(* ===== verification/Prelude.v ===== *)
(** * A verified model of the WebAssembly module for nginx

    The program runs WebAssembly modules, proxy-wasm filters above all, inside nginx: filters
    see and change the requests and responses of a location, answer requests themselves, choose
    the servers of an upstream, keep data and metrics in memory shared by the workers.  This
    library models its C code under src/src/ and proves what makes it correct.  The root file
    holds what all files share, below: machine integers, bytes, codes, faults, the state monad
    [SM] with three small logics ([wlp], [twp], [preserves]), and lemmas on lists.

    ** How the parts work together

    nginx calls the handlers of the phases of a request ([HttpPhases]).  They create its context,
    with bits of the configuration ([HttpConf]), and resume the operations its location has in
    the phase ([Ops]): calls of functions of a module and chains of proxy-wasm filters.  A chain
    is run by [FilterChain] on the instances and contexts of [Instances] and [Stores], as loaded
    by [Abi], through the callbacks of the HTTP subsystem ([HttpProxyWasm]).  A filter runs in an
    instance of the VM ([Wavm]) and calls the host back through a trampoline ([WavmHost]); the
    host functions read and write the memory of the guest ([Host]) and use maps of headers
    ([Maps] over [Headers], encoded by [Pairs] and escaped by [Escape]), buffers ([HostBuffers]
    over [Bodies] and [Chains]), shared memory ([HostShm] over [ShmZones], [ShmKv], [ShmQueue]),
    metrics ([HostMetrics] over [Metrics] and [Histogram]), properties ([Properties]), upstreams
    ([Upstream] with the access lists of [Acl]), local responses ([LocalResponse]) and HTTP calls
    ([Dispatch]), each of which owns a socket ([SocketTcp]) and a reader ([Readers]) and is driven
    by the events nginx gives; when the last one is done the chain of the filter is resumed.  WASI
    ([Wasi]) is what modules see of the system.  The response leaves through the header filter
    ([HttpPhases]) and the body filter ([BodyFilter], [ResponseBuffering]).

    ** Files and sources

    In dependency order; a definition has the name of the C function, type or field it models.
    Paths are below src/src/.

    - [NginxCore]: interfaces of nginx's red-black trees and slab allocator, with a reference
      implementation that shows their laws can hold.
    - [Acl]: common/ngx_wasm_acl.c and the [acl] directives of wasm/ngx_wasm_directives.c.
    - [Host]: what the host functions share: wasm/vm/ngx_wavm.h, ngx_wavm_host.h,
      common/proxy_wasm/ngx_proxy_wasm.h.
    - [Chains]: the buffer chains of wasm/ngx_wasm_util.c, in a store of links.
    - [BodyFilter]: the body filter of http/ngx_http_wasm_filter_module.c.
    - [Bodies]: bodies in http/ngx_http_wasm_util.c.
    - [ShmQueue], [ShmKv], [ShmZones]: common/shm/ngx_wa_shm_queue.c, ngx_wa_shm_kv.c,
      ngx_wa_shm.c.
    - [Histogram], [Metrics], [MetricsReload]: common/metrics/.
    - [Escape]: http/ngx_http_wasm_escape.c.
    - [Pairs]: common/proxy_wasm/ngx_proxy_wasm_util.c.
    - [ProxyWasm], [Abi], [Instances], [Frame], [Stores], [FilterChain]:
      common/proxy_wasm/ngx_proxy_wasm.h and ngx_proxy_wasm.c; the heap of contexts, instances
      and stores, loading, life of instances, what runs leave alone, stores, runs of a chain.
    - [HttpProxyWasm]: http/proxy_wasm/ngx_http_proxy_wasm.c and http/ngx_http_wasm_headers_shims.c.
    - [Ops]: wasm/ngx_wasm_ops.c and the phases of http/ngx_http_wasm_module.c.
    - [ResponseBuffering]: [BodyFilter] composed with [Ops], [FilterChain] and [HttpProxyWasm].
    - [Headers]: http/ngx_http_wasm_headers.c, ngx_http_wasm_headers_request.c and
      ngx_http_wasm_headers_response.c.
    - [Maps]: common/proxy_wasm/ngx_proxy_wasm_maps.c with the host functions on maps.
    - [HostBuffers], [HostShm], [HostMetrics]: host functions of
      common/proxy_wasm/ngx_proxy_wasm_host.c on buffers, shared memory and metrics.
    - [Upstream], [UpstreamPolicy]: http/ngx_http_wasm_upstream.c, and what holds while nginx
      tries servers.
    - [Properties]: common/proxy_wasm/ngx_proxy_wasm_properties.c.
    - [LocalResponse]: http/ngx_http_wasm_local_response.c, http/ngx_http_wasm_host.c and the
      sending functions of http/ngx_http_wasm_util.c.
    - [HttpConf], [HttpPhases]: http/ngx_http_wasm_module.c, with the defaults of
      wasm/ngx_wasm_core_module.c and the header filter.
    - [Pointers]: the same chains for what follows, with pointers that may leave the memory they
      were made for and memory that is freed.
    - [Readers]: common/ngx_wa_readers.c and ngx_wasm_socket_tcp_readers.c.
    - [SocketTcp]: common/ngx_wasm_socket_tcp.c.
    - [Dispatch]: http/proxy_wasm/ngx_http_proxy_wasm_dispatch.c, the queue of calls of
      ngx_proxy_wasm.c and the host function of ngx_proxy_wasm_host.c.
    - [Wasi], [WavmHost], [Wavm]: wasm/wasi/ngx_wasi_preview1_host.c, wasm/vm/ngx_wavm_host.c,
      wasm/vm/ngx_wavm.c.

    State is explicit: a record per component, assigned by [with_] and [set_] functions; objects
    that point to each other live in stores indexed by addresses (the heap of [ProxyWasm], the
    links of [Chains], the nodes of [ShmKv]), so that aliasing and use after free are visible: an
    access to what is not there is [Fault F_memory].  A failed [ngx_wa_assert] is
    [Fault F_assert] when the parameter [debug] is true and nothing otherwise.  Allocations
    succeed or fail as a script or a pool says, and every failing branch is modelled.  Unsigned
    integers are [Z] with their wrap-around written out ([wrap32], [wrap64]).

    ** What is proved

    - Chains of filters: a step runs every filter once and in order; a pause, a failure and a
      local response end it as they should; after the last step nothing of the chain is left
      ([FilterChain]).  Looking for an instance ends with a usable one and destroying a store
      leaves no reference ([Stores]); a filter is accepted exactly when its interface is supported
      ([Abi]).
    - Answers: a local response is kept as it was given, sent once at most, and its sending
      preempts the operations and the content handler of the request ([LocalResponse],
      [HttpPhases]); the content handler that was replaced runs once at most and handling a
      content ends ([HttpPhases]).
    - The VM: what a module imports is resolved to the function of that name and type; a trapped
      instance runs nothing; a run that goes well gives back all it took ([WavmHost], [Wavm]).
    - Guests: an accepted pointer reaches only the memory of the guest, for the 32-bit size that
      is checked ([Host]); headers are changed only where the interface allows it, and a path is
      read back as set ([Maps]); constant properties stay constant and the paths of a variable
      are one property ([Properties]).
    - Bodies: buffering a chunk that is in memory keeps every byte in order, and a buffered
      response goes on to the next filter of nginx ([BodyFilter], [ResponseBuffering]); a guest
      reads the body there is, and a new request body is what is sent ([HostBuffers]).
    - Shared memory: the queue refines an abstract FIFO ([ShmQueue]); the store stays well formed,
      reads return what was written and a stale counter writes nothing ([ShmKv], [HostShm]);
      counters count all, and counters and gauges survive a reload ([HostMetrics],
      [MetricsReload]).
    - Encodings: maps are decoded as encoded ([Pairs]), the servers of an upstream too
      ([Upstream]), and the environment is read as it is ([Wasi]); escaping fills its buffer
      exactly and what it gives is safe in a header ([Escape]).
    - Policies: access lists decide by the most specific rule for an address and by the exact
      name for a host ([Acl]), and nginx never connects
      to a server they refuse ([UpstreamPolicy]); a location inherits its configuration level by
      level ([HttpConf]).
    - HTTP calls: in every order of events the calls that live are those of the queue of their
      filter, with a socket, a reader and at most one event each ([Dispatch]).
    Each [Runs] module evaluates the definitions on concrete inputs, applies the theorems there,
    and shows the behaviours that look like mistakes of the code.

    ** Fuel

    A recursion that is not structural takes fuel, computed from the state by the definition that
    starts it (the number of links of a store, of elements of a list, of nodes of a tree, of
    instances of a store), and [Fault F_fuel] is shown not to happen where the recursion matters:
    for chains from [seg] (a list of distinct links, in [Chains]), for instances in
    [Stores.get_instance_usable], for headers in [Headers.set_header_helper_outcome], for the
    passes of a content in [HttpPhases.content_passes].  The header search does loop on a header
    whose hash is 0 ([Headers.hash_0_loops]).  Sending takes a round per link and per byte, which
    is enough when nginx sends a byte at least ([SocketTcp.send_fuel]).  The rounds of receiving
    depend on what the network gives, and so does how often the handler of a call is called again
    from within the filter it resumes: their fuel ([io_fuel] and the argument of the handler) is a
    parameter, any number of which the theorems cover.

    ** Parameters

    Code that is not in src/src/ is a parameter: operations of a class, and laws of a second class
    that state its documented behaviour.  They are nginx's trees and slabs ([RbtreeLaws],
    [SlabLaws]), pools and lists ([NgxPoolLaws]), string functions ([NgxStrings]), radix trees and
    address parsers ([AclLaws]), hashes ([NgxHashLaws]), filters and requests ([HttpOutLaws],
    [PhaseLaws]), connections, events, the resolver and TLS ([NetEnv], [NetStrings]), the parsers
    of HTTP responses ([HttpParsers]), chains ([NgxChains]), the runtimes of WebAssembly ([Wrt]),
    and what guests do ([Wavm], [WavmLaws], [DispatchExt]).
    Each class has an instance, used by the witnesses.  Components of the program meet through
    classes as well: [Subsystem] is what a chain of filters asks of its subsystem, implemented in
    [HttpProxyWasm]; [MetricStore] what metrics ask of a store, implemented by [ShmKv];
    [PhaseEnv] what the phases ask of [Ops].

    ** Not modelled

    - Foreign functions (common/proxy_wasm/ngx_proxy_wasm_foreign_call.c), which call the resolver
      of nginx.
    - The certificates of sockets (common/ngx_wasm_ssl.c), kqueue and the stream subsystem in
      common/ngx_wasm_socket_tcp.c.
    - The Lua bridge (common/lua/): threads and FFI of OpenResty.
    - The bindings of the runtimes (wasm/wrt/): the C interfaces of Wasmtime, Wasmer and V8; what
      they implement is the class [Wrt].
    - Directives and blocks (wasm/ngx_wasm_core_module.c, ngx_wasm_directives.c,
      http/ngx_http_wasm_directives.c, ngx_wasmx.c), except those of the components above: they
      fill configurations through nginx's parser.
    - Logging, files and fake requests in wasm/ngx_wasm_util.c and http/ngx_http_wasm_util.c; the
      messages of logs in general.
    - The debug, stream and IPC modules, which check other components or do nothing yet. *)
From Stdlib Require Export ZArith Lia.
From Stdlib Require Export Strings.Byte.
From Stdlib Require Strings.String.
Export String.StringSyntax.
From stdpp Require Export base tactics option numbers list countable.

#[global] Open Scope Z_scope.

(** ** Notations of the development, in a scope of their own *)

Declare Scope wasmx_scope.
Delimit Scope wasmx_scope with wx.
#[global] Open Scope wasmx_scope.

(** ** Return codes

    The return codes of nginx's core ([NGX_OK], [NGX_ERROR], ...) and the HTTP
    statuses which the subsystems also return as an [ngx_int_t].  The source
    only compares these codes for equality, so they are constructors. *)

Inductive ngx_rc :=
| NGX_OK
| NGX_ERROR
| NGX_AGAIN
| NGX_BUSY
| NGX_DONE
| NGX_DECLINED
| NGX_ABORT
| NGX_STATUS (code : Z).

#[export] Instance ngx_rc_eq_dec : EqDecision ngx_rc.
Proof. solve_decision. Defined.

Definition is_ok (rc : ngx_rc) : bool := bool_decide (rc = NGX_OK).

(** ** Outcomes

    [Fault] is the outcome of a C execution that the source does not define: a
    failed [ngx_wa_assert] of a debug build ([F_assert]), an access outside of an object
    or to a freed one ([F_memory]).  [F_fuel] belongs to the model: a loop ran out
    of the fuel given to it. *)

Inductive fault := F_assert | F_memory | F_fuel.

Inductive outcome (A : Type) :=
| Ret (a : A)
| Fault (f : fault).
Arguments Ret {A} a.
Arguments Fault {A} f.

#[export] Instance fault_eq_dec : EqDecision fault.
Proof. solve_decision. Defined.

Definition obind {A B} (m : outcome A) (k : A -> outcome B) : outcome B :=
  match m with
  | Ret a => k a
  | Fault f => Fault f
  end.

Notation "'let?' x := m 'in' k" := (obind m (fun x => k))
  (at level 10, x pattern, m at level 100, k at level 200)
  : wasmx_scope.

(** A pointer dereference: [None] is an invalid pointer. *)
Definition deref {A} (o : option A) : outcome A :=
  match o with
  | Some a => Ret a
  | None => Fault F_memory
  end.

(** [ngx_wa_assert]: checked in debug builds only (src/src/ngx_wasmx.h). *)
Definition ngx_wa_assert (debug cond : bool) : outcome unit :=
  if debug && negb cond then Fault F_assert else Ret tt.

Definition outcome_ok {A} (m : outcome A) : bool :=
  match m with Ret _ => true | Fault _ => false end.

Lemma obind_Ret {A B} (a : A) (k : A -> outcome B) : obind (Ret a) k = k a.
Proof. reflexivity. Qed.

Lemma obind_Ret_inv {A B} (m : outcome A) (k : A -> outcome B) b :
  obind m k = Ret b -> exists a, m = Ret a /\ k a = Ret b.
Proof. destruct m; simpl; [eauto | discriminate]. Qed.

Lemma deref_Ret_inv {A} (o : option A) a : deref o = Ret a -> o = Some a.
Proof. destruct o; simpl; congruence. Qed.

Lemma ngx_wa_assert_release c : ngx_wa_assert false c = Ret tt.
Proof. reflexivity. Qed.

Lemma ngx_wa_assert_true d : ngx_wa_assert d true = Ret tt.
Proof. by destruct d. Qed.

(** ** Computations over a store

    A C function on a store [S] of objects: a value and the next store, or a
    fault.  The notations are those of stdpp's monads. *)
Definition SM (S A : Type) : Type := S -> outcome (A * S).

#[export] Instance SM_ret S : MRet (SM S) := fun A a s => Ret (a, s).
#[export] Instance SM_bind S : MBind (SM S) := fun A B k m s =>
  match m s with
  | Ret (a, s') => k a s'
  | Fault f => Fault f
  end.

Definition slift {S A} (o : outcome A) : SM S A := fun s => let? a := o in Ret (a, s).

Lemma SM_bind_Ret {S A B} (m : SM S A) (k : A -> SM S B) s a s' :
  m s = Ret (a, s') -> (m ≫= k) s = k a s'.
Proof. unfold mbind, SM_bind. by intros ->. Qed.

Lemma SM_bind_Ret_inv {S A B} (m : SM S A) (k : A -> SM S B) s b s' :
  (m ≫= k) s = Ret (b, s') -> exists a s1, m s = Ret (a, s1) /\ k a s1 = Ret (b, s').
Proof. unfold mbind, SM_bind. destruct (m s) as [[a s1]|]; [eauto|done]. Qed.

Lemma SM_bind_ext {S A B} (m : SM S A) (k k' : A -> SM S B) s :
  (forall a s1, m s = Ret (a, s1) -> k a s1 = k' a s1) -> (m ≫= k) s = (m ≫= k') s.
Proof. unfold mbind, SM_bind. intros Hk. destruct (m s) as [[a s1]|]; [by apply Hk|done]. Qed.

(** What holds of a computation when it returns. *)
Definition wlp {S A} (m : SM S A) (s : S) (Q : A -> S -> Prop) : Prop :=
  forall a s', m s = Ret (a, s') -> Q a s'.

Lemma wlp_ret {S A} (a : A) (s : S) Q : Q a s -> wlp (mret a) s Q.
Proof. by intros HQ b s' [= <- <-]. Qed.

Lemma wlp_bind {S A B} (m : SM S A) (k : A -> SM S B) s Q :
  wlp m s (fun a s' => wlp (k a) s' Q) -> wlp (m ≫= k) s Q.
Proof. intros Hm b s' (a & s1 & E1 & E2)%SM_bind_Ret_inv. by eapply Hm. Qed.

Lemma wlp_mono {S A} (m : SM S A) s (Q Q' : A -> S -> Prop) :
  wlp m s Q -> (forall a s', Q a s' -> Q' a s') -> wlp m s Q'.
Proof. intros Hm HQ a s' E. by apply HQ, Hm. Qed.

Lemma wlp_slift {S A} (o : outcome A) (s : S) (Q : A -> S -> Prop) :
  (forall a, o = Ret a -> Q a s) -> wlp (slift o) s Q.
Proof. intros HQ a s' E. unfold slift in E. destruct o; [|done]. injection E as <- <-. by apply HQ. Qed.

(** What holds after a computation, which returns. *)
Definition twp {S A} (m : SM S A) (s : S) (Q : A -> S -> Prop) : Prop :=
  exists a s', m s = Ret (a, s') /\ Q a s'.

Lemma twp_ret {S A} (a : A) (s : S) Q : Q a s -> twp (mret a) s Q.
Proof. intros HQ. by exists a, s. Qed.

Lemma twp_bind {S A B} (m : SM S A) (k : A -> SM S B) s Q :
  twp m s (fun a s' => twp (k a) s' Q) -> twp (m ≫= k) s Q.
Proof. intros (a & s1 & E1 & b & s2 & E2 & HQ). exists b, s2. by rewrite (SM_bind_Ret _ _ _ _ _ E1). Qed.

Lemma twp_mono {S A} (m : SM S A) s (Q Q' : A -> S -> Prop) :
  twp m s Q -> (forall a s', Q a s' -> Q' a s') -> twp m s Q'.
Proof. intros (a & s' & E & HQ) HQQ. exists a, s'. auto. Qed.

Lemma twp_slift {S A} (o : outcome A) (a : A) (s : S) (Q : A -> S -> Prop) :
  o = Ret a -> Q a s -> twp (slift o) s Q.
Proof. intros -> HQ. by exists a, s. Qed.

(** What every run that returns keeps, as a relation of the states before and after. *)
Definition preserves {S A} (R : S -> S -> Prop) (m : SM S A) : Prop :=
  forall s a s', m s = Ret (a, s') -> R s s'.

Section preserves.
Context {S : Type} (R : S -> S -> Prop) `{!PreOrder R}.

Lemma preserves_ret {A} (a : A) : preserves R (mret a).
Proof. by intros s b s' [= _ <-]. Qed.

Lemma preserves_bind {A B} (m : SM S A) (k : A -> SM S B) :
  preserves R m -> (forall a, preserves R (k a)) -> preserves R (m ≫= k).
Proof. intros Hm Hk s b s' (a & s1 & E1 & E2)%SM_bind_Ret_inv. etrans; [by eapply Hm|by eapply Hk]. Qed.

Lemma preserves_slift {A} (o : outcome A) : preserves R (slift o).
Proof. intros s a s'. unfold slift. destruct o; [|done]. by intros [= _ <-]. Qed.

Lemma preserves_gets {A} (f : S -> A) : preserves R (fun s => Ret (f s, s)).
Proof. by intros s a s' [= _ <-]. Qed.

Lemma preserves_puts (f : S -> S) : (forall s, R s (f s)) -> preserves R (fun s => Ret (tt, f s)).
Proof. intros Hf s a s' [= _ <-]. apply Hf. Qed.
End preserves.

Create HintDb preserve.
#[export] Hint Resolve preserves_ret preserves_slift preserves_gets : preserve.

#[export] Hint Extern 1 (PreOrder _) => typeclasses eauto : preserve.

(** Goes through the binds and the branches of a computation. *)
Ltac preserves_steps :=
  repeat first
    [ solve [eauto with preserve]
    | apply preserves_bind; [try typeclasses eauto| |intros ?]
    | match goal with
      | |- preserves _ (match ?x with _ => _ end) => destruct x
      | |- preserves _ (if ?x then _ else _) => destruct x
      | |- preserves _ (let '_ := ?x in _) => destruct x
      end ].

(** ** Machine integers

    [ngx_uint_t], [size_t] and [uint64_t] are 64-bit, [uint32_t] 32-bit; both
    wrap around. *)

Definition wrap32 (z : Z) : Z := z mod 2 ^ 32.
Definition wrap64 (z : Z) : Z := z mod 2 ^ 64.
Definition NGX_MAX_UINT32_VALUE : Z := 2 ^ 32 - 1.

Definition is_u32 (z : Z) : Prop := 0 <= z < 2 ^ 32.
Definition is_u64 (z : Z) : Prop := 0 <= z < 2 ^ 64.

Lemma wrap32_id z : is_u32 z -> wrap32 z = z.
Proof. apply Z.mod_small. Qed.

Lemma wrap64_id z : is_u64 z -> wrap64 z = z.
Proof. apply Z.mod_small. Qed.

Lemma wrap32_range z : is_u32 (wrap32 z).
Proof. apply Z.mod_pos_bound. lia. Qed.

Lemma wrap64_range z : is_u64 (wrap64 z).
Proof. apply Z.mod_pos_bound. lia. Qed.

(** ** Bytes *)

#[export] Instance byte_eq_dec : EqDecision byte := Byte.byte_eq_dec.
#[export] Instance byte_inhabited : Inhabited byte := populate x00.

Definition b2z (b : byte) : Z := Z.of_N (Byte.to_N b).

Definition z2b (z : Z) : byte :=
  match Byte.of_N (Z.to_N (z mod 256)) with
  | Some b => b
  | None => x00
  end.

Lemma b2z_range b : 0 <= b2z b < 256.
Proof.
  unfold b2z. pose proof (Byte.to_N_bounded b) as H. lia.
Qed.

Lemma b2z_z2b z : b2z (z2b z) = z mod 256.
Proof.
  unfold b2z, z2b.
  pose proof (Z.mod_pos_bound z 256 ltac:(lia)) as Hr.
  destruct (Byte.of_N (Z.to_N (z mod 256))) as [b|] eqn:E.
  - apply Byte.to_of_N in E. rewrite E. lia.
  - apply Byte.of_N_None_iff in E. lia.
Qed.

Lemma z2b_b2z b : z2b (b2z b) = b.
Proof.
  unfold z2b. rewrite Z.mod_small by apply b2z_range.
  unfold b2z. rewrite N2Z.id, Byte.of_to_N. done.
Qed.

Lemma b2z_inj b c : b2z b = b2z c -> b = c.
Proof. intros H. by rewrite <- (z2b_b2z b), <- (z2b_b2z c), H. Qed.

#[export] Instance byte_countable : Countable byte := inj_countable' b2z z2b z2b_b2z.

(** An [ngx_str_t]: its [len] is the length of the list.  [ngx_string] is the
    C macro over a string literal. *)
Abbreviation bytes := (list byte).
Definition ngx_string (s : String.string) : bytes := String.list_byte_of_string s.
Arguments ngx_string s%_string_scope.

(** The length of a string or an array, as the machine integer the code keeps. *)
Definition zlen {A} (l : list A) : Z := Z.of_nat (length l).

Lemma zlen_nil {A} : zlen (@nil A) = 0.
Proof. done. Qed.
Lemma zlen_cons {A} (x : A) l : zlen (x :: l) = 1 + zlen l.
Proof. unfold zlen. simpl length. lia. Qed.
Lemma zlen_app {A} (l k : list A) : zlen (l ++ k) = zlen l + zlen k.
Proof. unfold zlen. rewrite length_app. lia. Qed.
Lemma zlen_nonneg {A} (l : list A) : 0 <= zlen l.
Proof. unfold zlen. lia. Qed.
Lemma zlen_fmap {A B} (f : A -> B) l : zlen (f <$> l) = zlen l.
Proof. unfold zlen. by rewrite length_fmap. Qed.

Create HintDb wx.
Create Rewrite HintDb wx.
#[export] Hint Rewrite @zlen_nil @zlen_cons @zlen_app @zlen_fmap : wx.
#[export] Hint Resolve zlen_nonneg wrap32_range wrap64_range b2z_range : wx.

(** ** 32-bit integers in memory

    Wasm linear memory is little-endian and so are the platforms nginx is built
    for here; a [uint32_t] stored through a pointer is these four bytes. *)

Definition enc32 (z : Z) : bytes :=
  [z2b z; z2b (z / 2 ^ 8); z2b (z / 2 ^ 16); z2b (z / 2 ^ 24)].

Definition dec32 (bs : bytes) : option Z :=
  match bs with
  | [b0; b1; b2; b3] =>
      Some (b2z b0 + 2 ^ 8 * b2z b1 + 2 ^ 16 * b2z b2 + 2 ^ 24 * b2z b3)
  | _ => None
  end.

Lemma length_enc32 z : length (enc32 z) = 4%nat.
Proof. done. Qed.

Lemma zlen_enc32 z : zlen (enc32 z) = 4.
Proof. done. Qed.

Lemma dec32_enc32 z : dec32 (enc32 z) = Some (wrap32 z).
Proof.
  unfold dec32, enc32, wrap32. f_equal. rewrite !b2z_z2b.
  Z.to_euclidean_division_equations. lia.
Qed.

#[export] Hint Rewrite zlen_enc32 length_enc32 dec32_enc32 : wx.

(** ** Reading and writing inside of a memory object

    [memcpy] in and out of a fixed-size object: outside of its bounds the
    access faults. *)

Definition mem_read (m : bytes) (off n : Z) : outcome bytes :=
  if (0 <=? off) && (0 <=? n) && (off + n <=? zlen m)
  then Ret (take (Z.to_nat n) (drop (Z.to_nat off) m))
  else Fault F_memory.

Definition mem_write (m : bytes) (off : Z) (data : bytes) : outcome bytes :=
  if (0 <=? off) && (off + zlen data <=? zlen m)
  then Ret (take (Z.to_nat off) m ++ data ++ drop (Z.to_nat (off + zlen data)) m)
  else Fault F_memory.

Lemma mem_read_in m off n :
  0 <= off -> 0 <= n -> off + n <= zlen m ->
  mem_read m off n = Ret (take (Z.to_nat n) (drop (Z.to_nat off) m)).
Proof.
  intros. unfold mem_read.
  rewrite !(proj2 (Z.leb_le _ _)) by lia. done.
Qed.

Lemma mem_write_in m off data :
  0 <= off -> off + zlen data <= zlen m ->
  mem_write m off data =
    Ret (take (Z.to_nat off) m ++ data ++ drop (Z.to_nat (off + zlen data)) m).
Proof.
  intros. unfold mem_write.
  rewrite !(proj2 (Z.leb_le _ _)) by lia. done.
Qed.

Lemma mem_write_length m off data m' :
  mem_write m off data = Ret m' -> length m' = length m.
Proof.
  unfold mem_write. case_match eqn:E; [|discriminate].
  apply andb_true_iff in E as [E1 E2]. apply Z.leb_le in E1, E2.
  intros [= <-]. unfold zlen in *. rewrite !length_app, length_take, length_drop. lia.
Qed.

(** What was written is read back, and the rest is unchanged. *)
Lemma mem_read_write_same m off data m' :
  mem_write m off data = Ret m' -> mem_read m' off (zlen data) = Ret data.
Proof.
  intros Hw. pose proof (mem_write_length _ _ _ _ Hw) as Hlen.
  unfold mem_write in Hw. case_match eqn:E; [|discriminate].
  apply andb_true_iff in E as [E1 E2]. apply Z.leb_le in E1, E2.
  injection Hw as Hw.
  rewrite mem_read_in by (unfold zlen in *; lia). rewrite <- Hw.
  unfold zlen in *. rewrite Nat2Z.id.
  rewrite drop_app_ge by (rewrite length_take; lia).
  rewrite length_take, Nat.min_l, Nat.sub_diag by lia. by rewrite drop_0, take_app_length.
Qed.

Lemma mem_read_write_other m off data m' off2 n :
  mem_write m off data = Ret m' -> (off2 + n <= off \/ off + zlen data <= off2) ->
  mem_read m' off2 n = mem_read m off2 n.
Proof.
  intros Hw Hd. pose proof (mem_write_length _ _ _ _ Hw) as Hlen.
  unfold mem_read. replace (zlen m') with (zlen m) by (unfold zlen; by rewrite Hlen).
  case_match eqn:E; [|done].
  apply andb_true_iff in E as [E E3]. apply andb_true_iff in E as [E1 E2].
  apply Z.leb_le in E1, E2, E3. f_equal.
  unfold mem_write in Hw. case_match eqn:E'; [|discriminate].
  apply andb_true_iff in E' as [E4 E5]. apply Z.leb_le in E4, E5. injection Hw as <-.
  unfold zlen in *. apply list_eq. intros i.
  destruct (decide (i < Z.to_nat n)%nat); [|by rewrite !lookup_take_ge by lia].
  rewrite !lookup_take_lt, !lookup_drop by lia. destruct Hd.
  - rewrite lookup_app_l by (rewrite length_take; lia). by rewrite lookup_take_lt by lia.
  - rewrite !lookup_app_r by (rewrite ?length_take; lia).
    rewrite lookup_drop, length_take. f_equal. lia.
Qed.

(** 64-bit words in memory. *)
Definition enc64 (z : Z) : bytes := enc32 z ++ enc32 (z / 2 ^ 32).
Definition dec64 (bs : bytes) : option Z :=
  match dec32 (take 4 bs), dec32 (drop 4 bs) with
  | Some lo, Some hi => Some (lo + 2 ^ 32 * hi)
  | _, _ => None
  end.

Lemma zlen_enc64 z : zlen (enc64 z) = 8.
Proof. done. Qed.

Lemma dec64_enc64 z : dec64 (enc64 z) = Some (wrap64 z).
Proof.
  unfold dec64, enc64. rewrite take_app_length' by done. rewrite drop_app_length' by done.
  rewrite !dec32_enc32. f_equal. unfold wrap32, wrap64. Z.to_euclidean_division_equations. lia.
Qed.

#[export] Hint Rewrite zlen_enc64 dec64_enc64 : wx.

Lemma Forall_elem {A} (P : A -> Prop) l : Forall P l <-> (forall x, x ∈ l -> P x).
Proof.
  rewrite List.Forall_forall. split; intros H x Hx; apply H; by apply list_elem_of_In.
Qed.

Lemma Forall_weaken {A} (P Q : A -> Prop) l :
  Forall P l -> (forall x, P x -> Q x) -> Forall Q l.
Proof. rewrite !Forall_elem. auto. Qed.

(** ** Tactics *)

Ltac deex :=
  repeat match goal with
    | H : exists x, _ |- _ => let y := fresh x in destruct H as [y H]
    | H : _ /\ _ |- _ => destruct H
    end.

(** Destructs the innermost boolean or decidable tests of the goal first,
    turning each into an arithmetic or equational fact. *)
Ltac no_match t :=
  lazymatch t with context [match _ with _ => _ end] => fail | _ => idtac end.

Ltac case_test :=
  match goal with
  | |- context [if Z.leb ?a ?b then _ else _] =>
      no_match a; no_match b; destruct (Z.leb_spec a b)
  | |- context [if Z.ltb ?a ?b then _ else _] =>
      no_match a; no_match b; destruct (Z.ltb_spec a b)
  | |- context [if Z.eqb ?a ?b then _ else _] =>
      no_match a; no_match b; destruct (Z.eqb_spec a b)
  | |- context [if decide ?P then _ else _] => no_match P; destruct (decide P)
  | |- context [if bool_decide ?P then _ else _] => no_match P; case_bool_decide
  end.

(** Opens the binds of an [outcome] computation that returned. *)
Ltac outcome_inv :=
  repeat match goal with
    | H : obind _ _ = Ret _ |- _ =>
        apply obind_Ret_inv in H; destruct H as (? & ? & H)
    | H : deref _ = Ret _ |- _ => apply deref_Ret_inv in H
    | H : Ret _ = Ret _ |- _ => injection H as H; subst
    | H : Fault _ = Ret _ |- _ => discriminate H
    end.

Ltac zlen_simpl := autorewrite with wx in *.
Ltac zlia := unfold zlen, is_u32, is_u64 in *; lia.
