(* ===== verification/NginxCore.v ===== *)
(** * Interfaces to the nginx core

    The modelled code calls nginx's red-black trees and slab allocator, which
    are not part of this repository.  They are the operations of two type
    classes; [RbtreeLaws] and [SlabLaws] state the documented behaviour the
    code relies on.  Module [Reference] implements both classes (an ordered
    spine and a quota allocator), so every hypothesis about them is satisfiable
    and concrete executions can be evaluated. *)
From S2P Require Import Prelude.
From stdpp Require Export sorting gmap.
From stdpp Require Export list.
#[global] Open Scope Z_scope.

Abbreviation addr := positive.

(** ** Red-black trees *)

(** A node is known by its address; [key] is [node->key].  Colours and parent
    links are internal to nginx. *)
Inductive rbtree :=
| Sentinel
| RbNode (left : rbtree) (node : addr) (key : Z) (right : rbtree).

Fixpoint rb_elements (t : rbtree) : list (addr * Z) :=
  match t with
  | Sentinel => []
  | RbNode l a k r => rb_elements l ++ (a, k) :: rb_elements r
  end.

Definition rb_keys (t : rbtree) : list Z := (rb_elements t).*2.

(** The keys met in order are sorted. *)
Definition rb_ordered (t : rbtree) : Prop := StronglySorted Z.le (rb_keys t).

Class Rbtree := {
  (** [str] is the string of an [ngx_str_node_t], the second insertion key. *)
  ngx_rbtree_insert : rbtree -> addr -> Z -> bytes -> rbtree;
  ngx_rbtree_delete : rbtree -> addr -> rbtree;
}.

Class RbtreeLaws (R : Rbtree) : Prop := {
  rb_insert_elements t a k str :
    rb_elements (ngx_rbtree_insert t a k str) ≡ₚ (a, k) :: rb_elements t;
  rb_insert_ordered t a k str :
    rb_ordered t -> rb_ordered (ngx_rbtree_insert t a k str);
  rb_delete_elements t a k :
    NoDup (rb_elements t).*1 -> (a, k) ∈ rb_elements t ->
    rb_elements t ≡ₚ (a, k) :: rb_elements (ngx_rbtree_delete t a);
  rb_delete_ordered t a :
    rb_ordered t -> rb_ordered (ngx_rbtree_delete t a);
}.

(** Descending from a node towards [key], as every lookup of the code does. *)
Fixpoint rb_find (key : Z) (t : rbtree) : option addr :=
  match t with
  | Sentinel => None
  | RbNode l a k r =>
      if negb (key =? k) then if key <? k then rb_find key l else rb_find key r
      else Some a
  end.

Lemma rb_keys_node l a k r : rb_keys (RbNode l a k r) = rb_keys l ++ k :: rb_keys r.
Proof. unfold rb_keys. simpl. by rewrite fmap_app. Qed.

Lemma rb_ordered_node l a k r :
  rb_ordered (RbNode l a k r) ->
  rb_ordered l /\ rb_ordered r /\
  (forall x, x ∈ rb_keys l -> x <= k) /\ (forall x, x ∈ rb_keys r -> k <= x).
Proof.
  unfold rb_ordered. rewrite rb_keys_node, StronglySorted_app.
  intros (Hlr & Hl & Hr). apply StronglySorted_inv in Hr as [Hr Hk].
  split_and!; [done|done| |]; intros x Hx.
  - apply Hlr; [done|]. by left.
  - exact (proj1 (Forall_elem _ _) Hk x Hx).
Qed.

Lemma rb_find_Some key t a : rb_find key t = Some a -> (a, key) ∈ rb_elements t.
Proof.
  induction t as [|l IHl b k r IHr]; simpl; [done|].
  destruct (Z.eqb_spec key k) as [->|Hne]; simpl.
  - intros [= ->]. set_solver.
  - case_match; set_solver.
Qed.

Lemma rb_find_complete key t a :
  rb_ordered t -> (a, key) ∈ (rb_elements t) -> is_Some (rb_find key t).
Proof.
  induction t as [|l IHl b k r IHr]; simpl; [set_solver|].
  intros Ho Hin. apply rb_ordered_node in Ho as (Hl & Hr & Hlk & Hkr).
  destruct (Z.eqb_spec key k) as [->|Hne]; simpl; [by eexists|].
  assert (Hkeys : forall t', (a, key) ∈ rb_elements t' -> key ∈ rb_keys t').
  { intros t' H. unfold rb_keys. apply list_elem_of_fmap. by exists (a, key). }
  apply elem_of_app in Hin as [Hin | Hin].
  - specialize (Hlk _ (Hkeys _ Hin)). rewrite (proj2 (Z.ltb_lt _ _)) by lia. auto.
  - apply elem_of_cons in Hin as [[= -> ->]|Hin]; [done|].
    specialize (Hkr _ (Hkeys _ Hin)). rewrite (proj2 (Z.ltb_ge _ _)) by lia. auto.
Qed.

(** ** Slab allocator *)

Class Slab (P : Type) := {
  (** [ngx_slab_calloc_locked]; the memory returned is zeroed. *)
  slab_calloc : P -> Z -> option (addr * P);
  slab_free : P -> addr -> P;
  (** The chunks in use. *)
  slab_live : P -> gset addr;
}.

Class SlabLaws (P : Type) `{Slab P} : Prop := {
  slab_calloc_fresh p size a p' :
    slab_calloc p size = Some (a, p') ->
    (a ∉ slab_live p) /\ slab_live p' = {[a]} ∪ slab_live p;
  (** Chunks of at least one byte in a 64-bit address space. *)
  slab_calloc_bounded p size a p' :
    slab_calloc p size = Some (a, p') -> Z.of_nat (base.size (slab_live p')) < 2 ^ 64 - 1;
  slab_free_live p a : slab_live (slab_free p a) = slab_live p ∖ {[a]};
}.

(** The owner of some live chunks can count one more after an allocation. *)
Lemma slab_calloc_room `{SlabLaws P} {V} (m : gmap addr V) p size a p' :
  (forall b, is_Some (m !! b) -> b ∈ slab_live p) -> slab_calloc p size = Some (a, p') ->
  Z.of_nat (base.size m) + 1 < 2 ^ 64 - 1.
Proof.
  intros Hlive Ha. pose proof (slab_calloc_bounded _ _ _ _ Ha) as Hb.
  destruct (slab_calloc_fresh _ _ _ _ Ha) as [Hfr Hl].
  assert (Hsub : {[a]} ∪ dom m ⊆ slab_live p').
  { rewrite Hl. intros b. rewrite !elem_of_union, elem_of_dom. naive_solver. }
  apply subseteq_size in Hsub. rewrite size_union, size_singleton, size_dom in Hsub; [lia|].
  intros b ->%elem_of_singleton Hd. apply elem_of_dom, Hlive in Hd. done.
Qed.

(** ** Reference implementations *)

Module Reference.

Fixpoint spine_insert (t : rbtree) (a : addr) (k : Z) : rbtree :=
  match t with
  | Sentinel => RbNode Sentinel a k Sentinel
  | RbNode l b j r =>
      if k <=? j then RbNode Sentinel a k (RbNode l b j r)
      else RbNode l b j (spine_insert r a k)
  end.

(** The tree as a right spine in key order. *)
Fixpoint spine (es : list (addr * Z)) : rbtree :=
  match es with
  | [] => Sentinel
  | (a, k) :: es => RbNode Sentinel a k (spine es)
  end.

Fixpoint sorted_insert (a : addr) (k : Z) (es : list (addr * Z)) : list (addr * Z) :=
  match es with
  | [] => [(a, k)]
  | (b, j) :: es => if k <=? j then (a, k) :: (b, j) :: es else (b, j) :: sorted_insert a k es
  end.

#[export] Instance spine_rbtree : Rbtree := {
  ngx_rbtree_insert t a k _ := spine (sorted_insert a k (rb_elements t));
  ngx_rbtree_delete t a := spine (filter (fun e => e.1 <> a) (rb_elements t));
}.

Lemma spine_elements es : rb_elements (spine es) = es.
Proof. induction es as [|[a k] es IH]; simpl; by rewrite ?IH. Qed.

Lemma sorted_insert_perm a k es : sorted_insert a k es ≡ₚ (a, k) :: es.
Proof.
  induction es as [|[b j] es IH]; simpl; [done|].
  case_match; [done|]. rewrite IH. apply Permutation_swap.
Qed.

Lemma sorted_insert_sorted a k es :
  StronglySorted Z.le es.*2 -> StronglySorted Z.le (sorted_insert a k es).*2.
Proof.
  induction es as [|[b j] es IH]; simpl; intros Hs.
  - repeat constructor.
  - apply StronglySorted_inv in Hs as [Hs Hj].
    destruct (Z.leb_spec k j); simpl.
    + constructor; [by constructor|]. constructor; [done|].
      eapply Forall_weaken; [exact Hj|]. simpl. lia.
    + constructor; [auto|]. rewrite sorted_insert_perm. simpl. constructor; [lia|done].
Qed.

Lemma filter_sorted (P : addr * Z -> Prop) `{forall x, Decision (P x)} es :
  StronglySorted Z.le es.*2 -> StronglySorted Z.le (filter P es).*2.
Proof.
  induction es as [|e es IH]; [done|]. intros Hs.
  apply StronglySorted_inv in Hs as [Hs He]. rewrite filter_cons.
  case_decide; [|auto]. constructor; [auto|].
  change (Forall (Z.le e.2) (es.*2)) in He. change (Forall (Z.le e.2) (filter P es).*2).
  rewrite Forall_fmap in He |- *. rewrite Forall_elem in He |- *.
  intros x Hx. apply list_elem_of_filter in Hx as [_ Hx]. auto.
Qed.

#[export] Instance spine_laws : RbtreeLaws spine_rbtree.
Proof.
  split; simpl.
  - intros. rewrite spine_elements. apply sorted_insert_perm.
  - unfold rb_ordered, rb_keys. intros. rewrite spine_elements. by apply sorted_insert_sorted.
  - intros t a k Hnd Hin. rewrite spine_elements.
    induction (rb_elements t) as [|[b j] es IH]; [set_solver|].
    simpl in Hnd. apply NoDup_cons in Hnd as [Hb Hnd].
    rewrite filter_cons. simpl. case_decide as Hba.
    + apply elem_of_cons in Hin as [[= -> ->]|Hin]; [done|].
      rewrite (IH Hnd Hin) at 1. apply Permutation_swap.
    + assert (b = a) as -> by (destruct (decide (b = a)); [done|tauto]).
      assert (Hj : (a, k) = (a, j)).
      { apply elem_of_cons in Hin as [|Hin]; [done|].
        exfalso. apply Hb. apply list_elem_of_fmap. by exists (a, k). }
      injection Hj as ->. constructor. clear IH Hin Hba.
      induction es as [|[c i] es IH]; [done|]. simpl in Hb, Hnd.
      apply NoDup_cons in Hnd as [_ Hnd]. rewrite filter_cons. simpl.
      rewrite decide_True by set_solver. constructor. apply IH; set_solver.
  - unfold rb_ordered, rb_keys. intros. rewrite spine_elements. by apply filter_sorted.
Qed.

(** An allocator with a byte quota. *)
Record quota := { q_left : Z; q_live : gmap addr Z }.

#[export] Instance quota_slab : Slab quota := {
  slab_calloc p size :=
    if (size <=? q_left p) && (Z.of_nat (base.size (q_live p)) <? 2 ^ 63) then
      let a := fresh (dom (q_live p) : gset addr) in
      Some (a, {| q_left := q_left p - size; q_live := <[a := size]> (q_live p) |})
    else None;
  slab_free p a :=
    {| q_left := q_left p + default 0 (q_live p !! a); q_live := delete a (q_live p) |};
  slab_live p := dom (q_live p);
}.

#[export] Instance quota_laws : SlabLaws quota.
Proof.
  split; simpl.
  - intros p size a p'. case_match; [|done]. intros [= <- <-]. simpl.
    split; [apply is_fresh | by rewrite dom_insert_L].
  - intros p size a p'. case_match eqn:E; [|done]. intros [= <- <-]. simpl.
    apply andb_true_iff in E as [_ E]. apply Z.ltb_lt in E.
    rewrite size_dom, map_size_insert. case_match; simpl; lia.
  - intros. by rewrite dom_delete_L.
Qed.

End Reference.
