(* ===== verification/Acl.v ===== *)
(** * Access control lists

    src/src/common/ngx_wasm_acl.c and the directives of an [acl] block in
    src/src/wasm/ngx_wasm_directives.c: the rules on address ranges and host
    names, the addresses recorded while a filter runs, and the decisions on an
    address and on a host.  nginx's radix trees, hashes, address parsers and
    [ngx_cidr_match] are the operations of class [AclEnv]. *)
From S2P Require Import Prelude.
From stdpp Require Export list sets.
#[global] Open Scope Z_scope.

Module Acl.

(** ** Data *)

Inductive ngx_wasm_acl_type_e := ACL_ALLOW | ACL_DENY.

#[export] Instance acl_type_eq_dec : EqDecision ngx_wasm_acl_type_e.
Proof. solve_decision. Defined.

Record ngx_wasm_acl_host_t := {
  ah_host : bytes;
  ah_wildcard : bool;
  ah_type : ngx_wasm_acl_type_e;
}.

(** [sin_addr.s_addr] is in network byte order; [sin6_addr] is the 128-bit
    integer its sixteen bytes write, most significant first. *)
Inductive sockaddr :=
| Sockaddr_in (s_addr : Z)
| Sockaddr_in6 (s6_addr : Z)
| Sockaddr_other.

#[export] Instance sockaddr_eq_dec : EqDecision sockaddr.
Proof. solve_decision. Defined.

(** [ngx_cidr_t]: address and mask, in network byte order. *)
Inductive ngx_cidr_t :=
| Cidr_in (addr mask : Z)
| Cidr_in6 (addr mask : Z).

#[export] Instance cidr_eq_dec : EqDecision ngx_cidr_t.
Proof. solve_decision. Defined.

(** [ngx_hash_key_t]: key and value. *)
Abbreviation ngx_hash_key_t := (bytes * ngx_wasm_acl_type_e)%type.

Definition INADDR_NONE : Z := 2 ^ 32 - 1.

(** [ntohl] on a little-endian platform. *)
Definition ntohl (z : Z) : Z := default 0 (dec32 (rev (enc32 z))).

Definition tolower (b : byte) : byte :=
  if (65 <=? b2z b) && (b2z b <=? 90) then z2b (b2z b + 32) else b.

Definition ngx_strlow (s : bytes) : bytes := tolower <$> s.

(** [ngx_strlchr]: the position of the first [c]. *)
Definition ngx_strlchr (s : bytes) (c : byte) : option nat :=
  fst <$> list_find (fun b => b = c) s.

(** ** What the component calls

    [T] is a radix tree, [HA] an [ngx_hash_keys_arrays_t], [H] a built hash.
    [NGX_RADIX_NO_VALUE] and a [NULL] hash entry are [None]. *)
Class AclEnv (T HA H : Type) := {
  ngx_radix_tree_insert : T -> Z -> Z -> ngx_wasm_acl_type_e -> ngx_rc * T;
  ngx_radix_tree_find : T -> Z -> option ngx_wasm_acl_type_e;
  ngx_cidr_match : sockaddr -> list ngx_cidr_t -> ngx_rc;
  ngx_inet_addr : bytes -> Z;
  ngx_inet6_addr : bytes -> option Z;
  ngx_ptocidr : bytes -> ngx_rc * ngx_cidr_t;
  NGX_MAXHOSTNAMELEN : Z;
  ngx_hash_keys_array_init : option HA;
  ngx_hash_add_key : HA -> bytes -> ngx_wasm_acl_type_e -> bool -> ngx_rc * HA;
  ha_keys : HA -> list ngx_hash_key_t;
  ha_dns_wc_head : HA -> list ngx_hash_key_t;
  ha_dns_wc_tail : HA -> list ngx_hash_key_t;
  ngx_dns_strcmp : bytes -> bytes -> Z;
  ngx_qsort : (ngx_hash_key_t -> ngx_hash_key_t -> Z) -> list ngx_hash_key_t ->
              list ngx_hash_key_t;
  ngx_hash_key_lc : bytes -> Z;
  ngx_hash_init : list ngx_hash_key_t -> option H;
  ngx_hash_wildcard_init : list ngx_hash_key_t -> option H;
  (** [ngx_hash_find_combined] on the exact hash, [wc_head] and [wc_tail]. *)
  ngx_hash_find_combined : option H -> option H -> option H -> Z -> bytes ->
                           option ngx_wasm_acl_type_e;
}.

Section acl.
Context {T HA H : Type} `{!AclEnv T HA H}.

Record ngx_wasm_acl_ctx_t := {
  ac_name : bytes;
  ac_addrs_v4 : T;
  ac_addrs_v6 : T;
  ac_hosts_arr : list ngx_wasm_acl_host_t;
  ac_hash : option H;
  ac_wc_head : option H;
  ac_wc_tail : option H;
}.

Record ngx_wasm_acl_t := {
  acl_ctx : ngx_wasm_acl_ctx_t;
  acl_recorded_addrs : list ngx_cidr_t;
}.

Definition set_addrs_v4 t c := {| ac_name := ac_name c; ac_addrs_v4 := t;
  ac_addrs_v6 := ac_addrs_v6 c; ac_hosts_arr := ac_hosts_arr c; ac_hash := ac_hash c;
  ac_wc_head := ac_wc_head c; ac_wc_tail := ac_wc_tail c |}.
Definition set_addrs_v6 t c := {| ac_name := ac_name c; ac_addrs_v4 := ac_addrs_v4 c;
  ac_addrs_v6 := t; ac_hosts_arr := ac_hosts_arr c; ac_hash := ac_hash c;
  ac_wc_head := ac_wc_head c; ac_wc_tail := ac_wc_tail c |}.
Definition set_hosts_arr l c := {| ac_name := ac_name c; ac_addrs_v4 := ac_addrs_v4 c;
  ac_addrs_v6 := ac_addrs_v6 c; ac_hosts_arr := l; ac_hash := ac_hash c;
  ac_wc_head := ac_wc_head c; ac_wc_tail := ac_wc_tail c |}.
Definition set_hashes h hd tl c := {| ac_name := ac_name c; ac_addrs_v4 := ac_addrs_v4 c;
  ac_addrs_v6 := ac_addrs_v6 c; ac_hosts_arr := ac_hosts_arr c; ac_hash := h;
  ac_wc_head := hd; ac_wc_tail := tl |}.

(** ** Configuration *)

(** [acls] are the contexts of the core configuration, [None] without one. *)
Definition ngx_wasm_acl_find_ctx (acls : option (list ngx_wasm_acl_ctx_t)) (name : bytes)
    : option ngx_wasm_acl_ctx_t :=
  match acls with
  | None => None
  | Some acls => snd <$> list_find (fun c => ac_name c = name) acls
  end.

(** [alloc]: the array was allocated. *)
Definition ngx_wasm_acl_init (alloc : bool) (ctx : ngx_wasm_acl_ctx_t)
    : option ngx_wasm_acl_t :=
  if alloc then Some {| acl_ctx := ctx; acl_recorded_addrs := [] |} else None.

Definition ngx_wasm_acl_dns_wildcards (one two : ngx_hash_key_t) : Z :=
  ngx_dns_strcmp one.1 two.1.

(** The loop on [hosts_arr]. *)
Fixpoint add_hosts (ha : HA) (entries : list ngx_wasm_acl_host_t) : option HA :=
  match entries with
  | [] => Some ha
  | e :: entries =>
      let '(rc, ha) := ngx_hash_add_key ha (ah_host e) (ah_type e) (ah_wildcard e) in
      if bool_decide (rc = NGX_OK) then add_hosts ha entries else None
  end.

(** A hash of wildcard keys, built when there are some. *)
Definition wildcard_hash (keys : list ngx_hash_key_t) (old : option H)
    : option (option H) :=
  match keys with
  | [] => Some old
  | _ => match ngx_hash_wildcard_init (ngx_qsort ngx_wasm_acl_dns_wildcards keys) with
         | Some h => Some (Some h)
         | None => None
         end
  end.

(** [alloc]: the name was allocated. *)
Definition ngx_wasm_acl_ctx_init (alloc : bool) (c : ngx_wasm_acl_ctx_t)
    : ngx_rc * ngx_wasm_acl_ctx_t :=
  if negb alloc then (NGX_ERROR, c) else
  match ngx_hash_keys_array_init with
  | None => (NGX_ERROR, c)
  | Some ha =>
  match add_hosts ha (ac_hosts_arr c) with
  | None => (NGX_ERROR, c)
  | Some ha =>
  match ngx_hash_init (ha_keys ha) with
  | None => (NGX_ERROR, c)
  | Some h =>
      let c := set_hashes (Some h) (ac_wc_head c) (ac_wc_tail c) c in
      match wildcard_hash (ha_dns_wc_tail ha) (ac_wc_tail c) with
      | None => (NGX_ERROR, c)
      | Some tl =>
          let c := set_hashes (ac_hash c) (ac_wc_head c) tl c in
          match wildcard_hash (ha_dns_wc_head ha) (ac_wc_head c) with
          | None => (NGX_ERROR, c)
          | Some hd => (NGX_OK, set_hashes (ac_hash c) hd (ac_wc_tail c) c)
          end
      end
  end end end.

Definition ngx_wasm_acl_ctx_insert_cidr (c : ngx_wasm_acl_ctx_t) (cidr : ngx_cidr_t)
    (type : ngx_wasm_acl_type_e) : ngx_rc * ngx_wasm_acl_ctx_t :=
  match cidr with
  | Cidr_in6 a m =>
      let '(rc, t) := ngx_radix_tree_insert (ac_addrs_v6 c) a m type in
      (rc, set_addrs_v6 t c)
  | Cidr_in a m =>
      let '(rc, t) := ngx_radix_tree_insert (ac_addrs_v4 c) (ntohl a) (ntohl m) type in
      (rc, set_addrs_v4 t c)
  end.

(** The type a directive's name starts: [cmd->name.data[0] == 'a']. *)
Definition directive_type (name : bytes) : ngx_wasm_acl_type_e :=
  if bool_decide (head name = Some x61) then ACL_ALLOW else ACL_DENY.

(** [true] is [NGX_CONF_OK]. *)
Definition ngx_wasm_acl_addr_rule (c : ngx_wasm_acl_ctx_t) (cmd arg : bytes)
    : bool * ngx_wasm_acl_ctx_t :=
  let '(rc, cidr) := ngx_ptocidr arg in
  if bool_decide (rc = NGX_ERROR) then (false, c) else
  let '(rc, c) := ngx_wasm_acl_ctx_insert_cidr c cidr (directive_type cmd) in
  (bool_decide (rc = NGX_OK), c).

(** [alloc]: the slot was allocated. *)
Definition ngx_wasm_acl_host_rule (alloc : bool) (c : ngx_wasm_acl_ctx_t) (cmd arg : bytes)
    : bool * ngx_wasm_acl_ctx_t :=
  if zlen arg =? 0 then (false, c) else
  if 255 <? zlen arg then (false, c) else
  if negb alloc then (false, c) else
  let slot := {| ah_wildcard := bool_decide (is_Some (ngx_strlchr arg x2a));
                 ah_type := directive_type cmd;
                 ah_host := arg |} in
  (true, set_hosts_arr (ac_hosts_arr c ++ [slot]) c).

(** [ngx_wasm_acl_block]: the allocations and trees it gets are arguments, and
    [parse] is [ngx_conf_parse] on the block, which runs the two handlers above on
    the new context.  [acls] keeps pointers, so the context is in it from before
    the parsing, as the directives leave it. *)
Definition ngx_wasm_acl_block (calloc : bool) (v4 v6 : option T) (array push init : bool)
    (parse : ngx_wasm_acl_ctx_t -> bool * ngx_wasm_acl_ctx_t)
    (acls : list ngx_wasm_acl_ctx_t) (name : bytes) : bool * list ngx_wasm_acl_ctx_t :=
  match ngx_wasm_acl_find_ctx (Some acls) name with
  | Some _ => (false, acls)
  | None =>
  if negb calloc then (false, acls) else
  match v4 with None => (false, acls) | Some v4 =>
  match v6 with None => (false, acls) | Some v6 =>
  if negb array then (false, acls) else
  if negb push then (false, acls) else
  let c := {| ac_name := name; ac_addrs_v4 := v4; ac_addrs_v6 := v6; ac_hosts_arr := [];
              ac_hash := None; ac_wc_head := None; ac_wc_tail := None |} in
  let '(rv, c) := parse c in
  let '(rc, c) := ngx_wasm_acl_ctx_init init c in
  (if bool_decide (rc = NGX_OK) then rv else false, acls ++ [c])
  end end end.

(** ** Decisions *)

Definition ngx_wasm_acl_tree_lookup (c : ngx_wasm_acl_ctx_t) (sa : sockaddr)
    : option ngx_wasm_acl_type_e :=
  match sa with
  | Sockaddr_in6 a => ngx_radix_tree_find (ac_addrs_v6 c) a
  | Sockaddr_in a => ngx_radix_tree_find (ac_addrs_v4 c) (ntohl a)
  | Sockaddr_other => None
  end.

Definition ngx_wasm_acl_check_addr (acl : ngx_wasm_acl_t) (sa : sockaddr) : ngx_rc :=
  match ngx_wasm_acl_tree_lookup (acl_ctx acl) sa with
  | Some ACL_ALLOW => NGX_OK
  | Some ACL_DENY => NGX_DECLINED
  | None =>
      if bool_decide (ngx_cidr_match sa (acl_recorded_addrs acl) = NGX_OK) then NGX_OK
      else NGX_DECLINED
  end.

(** The name in a host: [None] when a bracket is not closed. *)
Definition host_name (host : bytes) : option bytes :=
  if bool_decide (head host = Some x5b) then
    match ngx_strlchr host x5d with
    | None => None
    | Some p => Some (take (p - 1) (drop 1 host))
    end
  else
    match ngx_strlchr host x3a with
    | Some p => Some (take p host)
    | None => Some host
    end.

Definition ngx_wasm_acl_check_host (acl : ngx_wasm_acl_t) (host : bytes) : ngx_rc :=
  if zlen host =? 0 then NGX_ERROR else
  match host_name host with
  | None => NGX_DECLINED
  | Some name =>
      let v4 := ngx_inet_addr name in
      if negb (v4 =? INADDR_NONE) then ngx_wasm_acl_check_addr acl (Sockaddr_in v4) else
      match ngx_inet6_addr name with
      | Some v6 => ngx_wasm_acl_check_addr acl (Sockaddr_in6 v6)
      | None =>
          if (zlen name =? 0) || (NGX_MAXHOSTNAMELEN <? zlen name) then NGX_DECLINED else
          let buf := ngx_strlow name in
          let key := ngx_hash_key_lc buf in
          match ngx_hash_find_combined (ac_hash (acl_ctx acl)) (ac_wc_head (acl_ctx acl))
                  (ac_wc_tail (acl_ctx acl)) key buf with
          | None => NGX_DECLINED
          | Some ACL_ALLOW => NGX_OK
          | Some ACL_DENY => NGX_DECLINED
          end
      end
  end.

(** ** Recording a resolved address *)

Definition ngx_wasm_sockaddr_to_cidr (sa : sockaddr) : option ngx_cidr_t :=
  match sa with
  | Sockaddr_in a => Some (Cidr_in a (2 ^ 32 - 1))
  | Sockaddr_in6 a => Some (Cidr_in6 a (2 ^ 128 - 1))
  | Sockaddr_other => None
  end.

(** [alloc]: the slot was allocated. *)
Definition ngx_wasm_acl_add_addr (alloc : bool) (acl : ngx_wasm_acl_t) (sa : sockaddr)
    : ngx_rc * ngx_wasm_acl_t :=
  if bool_decide (ngx_wasm_acl_tree_lookup (acl_ctx acl) sa = Some ACL_DENY)
  then (NGX_DECLINED, acl) else
  match ngx_wasm_sockaddr_to_cidr sa with
  | None => (NGX_ERROR, acl)
  | Some cidr =>
      if alloc then
        (NGX_OK, {| acl_ctx := acl_ctx acl;
                    acl_recorded_addrs := acl_recorded_addrs acl ++ [cidr] |})
      else (NGX_ERROR, acl)
  end.

End acl.

Arguments ngx_wasm_acl_ctx_t : clear implicits.
Arguments ngx_wasm_acl_t : clear implicits.

(** ** The behaviour the code relies on *)

(** A rule of a radix tree: address, mask and value. *)
Abbreviation radix_rule := (Z * Z * ngx_wasm_acl_type_e)%type.

Definition rule_matches (k : Z) (r : radix_rule) : bool :=
  Z.land k r.1.2 =? Z.land r.1.1 r.1.2.

(** The value of the matching rule with the longest mask. *)
Fixpoint longest (rules : list radix_rule) (k : Z) : option (Z * ngx_wasm_acl_type_e) :=
  match rules with
  | [] => None
  | r :: rules =>
      match longest rules k with
      | Some (m, v) =>
          if rule_matches k r && (m <? r.1.2) then Some (r.1.2, r.2) else Some (m, v)
      | None => if rule_matches k r then Some (r.1.2, r.2) else None
      end
  end.

(** [::ffff:a.b.c.d], which [ngx_cidr_match] compares as an IPv4 address. *)
Definition v4_mapped (s6_addr : Z) : bool := Z.shiftr s6_addr 32 =? 2 ^ 16 - 1.

(** The address [ngx_cidr_match] compares. *)
Definition compared (sa : sockaddr) : sockaddr :=
  match sa with
  | Sockaddr_in6 a => if v4_mapped a then Sockaddr_in (ntohl (Z.land a (2 ^ 32 - 1))) else sa
  | _ => sa
  end.

(** An address as the kernel and the parsers give it. *)
Definition sockaddr_ok (sa : sockaddr) : Prop :=
  match sa with
  | Sockaddr_in a => 0 <= a < 2 ^ 32
  | Sockaddr_in6 a => 0 <= a < 2 ^ 128
  | Sockaddr_other => True
  end.

Definition cidr_matches (sa : sockaddr) (c : ngx_cidr_t) : bool :=
  match sa, c with
  | Sockaddr_in a, Cidr_in b m => Z.land a m =? b
  | Sockaddr_in6 a, Cidr_in6 b m => Z.land a m =? b
  | _, _ => false
  end.

Class AclLaws (T HA H : Type) `{!AclEnv T HA H} := {
  (** The rules in a tree; the search finds the one with the longest mask. *)
  radix_rules : T -> list radix_rule;
  radix_find t k : ngx_radix_tree_find t k = snd <$> longest (radix_rules t) k;
  radix_insert_ok t a m v t' :
    ngx_radix_tree_insert t a m v = (NGX_OK, t') -> radix_rules t' = (a, m, v) :: radix_rules t;
  (** IPv4 and IPv6. *)
  cidr_match_spec sa cs : sa <> Sockaddr_other ->
    ngx_cidr_match sa cs = NGX_OK <-> existsb (cidr_matches (compared sa)) cs = true;
  inet_addr_range s : is_u32 (ngx_inet_addr s);
  (** Keys start empty; an exact key is stored in lower case and once; a pattern
      leaves the exact keys alone. *)
  keys_init ha : ngx_hash_keys_array_init = Some ha ->
    ha_keys ha = [] /\ ha_dns_wc_head ha = [] /\ ha_dns_wc_tail ha = [];
  add_exact ha k v ha' : ngx_hash_add_key ha k v false = (NGX_OK, ha') ->
    ngx_strlow k ∉ (ha_keys ha).*1 /\ ha_keys ha' = ha_keys ha ++ [(ngx_strlow k, v)] /\
    ha_dns_wc_head ha' = ha_dns_wc_head ha /\ ha_dns_wc_tail ha' = ha_dns_wc_tail ha;
  add_wildcard ha k v ha' : ngx_hash_add_key ha k v true = (NGX_OK, ha') ->
    x2a ∈ k -> ha_keys ha' = ha_keys ha;
  (** An exact key is found before the patterns; without patterns nothing else is. *)
  find_exact keys h hd tl n v : ngx_hash_init keys = Some h -> NoDup keys.*1 ->
    (n, v) ∈ keys -> ngx_hash_find_combined (Some h) hd tl (ngx_hash_key_lc n) n = Some v;
  find_absent keys h n : ngx_hash_init keys = Some h -> n ∉ keys.*1 ->
    ngx_hash_find_combined (Some h) None None (ngx_hash_key_lc n) n = None;
}.

(** ** Blocks *)

Section blocks.
Context {T HA H : Type} `{!AclEnv T HA H}.

Lemma list_find_app_None {A} (P : A -> Prop) `{forall x, Decision (P x)} l k :
  list_find P l = None -> snd <$> list_find P (l ++ k) = snd <$> list_find P k.
Proof.
  induction l as [|x l IH]; [done|]. simpl. case_decide; [done|].
  destruct (list_find P l) as [[]|]; [done|]. intros _. specialize (IH eq_refl).
  by destruct (list_find P (l ++ k)) as [[]|], (list_find P k) as [[]|].
Qed.

Lemma ctx_init_name (init : bool) (c : ngx_wasm_acl_ctx_t T H) :
  ac_name (ngx_wasm_acl_ctx_init init c).2 = ac_name c.
Proof.
  unfold ngx_wasm_acl_ctx_init. destruct init; [|done]. cbn [negb].
  repeat (case_match; try done).
Qed.

(** An accepted block is the one its name finds, and it hides no other. *)
Lemma acl_block_found calloc v4 v6 array push init parse
    (acls acls' : list (ngx_wasm_acl_ctx_t T H)) name :
  (forall c, ac_name (parse c).2 = ac_name c) ->
  ngx_wasm_acl_block calloc v4 v6 array push init parse acls name = (true, acls') ->
  exists c, acls' = acls ++ [c] /\ ngx_wasm_acl_find_ctx (Some acls') name = Some c /\
    ngx_wasm_acl_find_ctx (Some acls) name = None.
Proof.
  intros Hparse. unfold ngx_wasm_acl_block, ngx_wasm_acl_find_ctx.
  destruct (list_find _ acls) as [[]|] eqn:E; [done|]. simpl.
  destruct calloc, v4 as [v4|], v6 as [v6|], array, push; simpl; try done.
  match goal with |- context [parse ?c] => set (c0 := c) end.
  pose proof (Hparse c0) as Hn. destruct (parse c0) as [rv c]. simpl in Hn.
  pose proof (ctx_init_name init c) as Hn'.
  destruct (ngx_wasm_acl_ctx_init init c) as [rc c'].
  intros [= _ <-]. exists c'. split_and!; [done| |done].
  rewrite list_find_app_None by done. simpl in *. by rewrite decide_True by congruence.
Qed.

End blocks.

(** ** Address rules *)

Section addresses.
Context {T HA H : Type} `{!AclEnv T HA H} `{!AclLaws T HA H}.
Abbreviation ctx := (ngx_wasm_acl_ctx_t T H).
Abbreviation acl := (ngx_wasm_acl_t T H).

(** [ngx_wasm_acl_ctx_insert_cidr] on each rule of a block; it stops at the
    first that is refused. *)
Fixpoint insert_rules (c : ctx) (rules : list (ngx_cidr_t * ngx_wasm_acl_type_e))
    : ngx_rc * ctx :=
  match rules with
  | [] => (NGX_OK, c)
  | (cidr, type) :: rules =>
      let '(rc, c) := ngx_wasm_acl_ctx_insert_cidr c cidr type in
      if bool_decide (rc = NGX_OK) then insert_rules c rules else (rc, c)
  end.

(** The addresses resolved one after the other, with the result of each
    allocation. *)
Definition add_addrs (l : acl) (sas : list (sockaddr * bool)) : acl :=
  foldl (fun l '(sa, alloc) => (ngx_wasm_acl_add_addr alloc l sa).2) l sas.

(** The rules of a block for one family, in host byte order. *)
Definition rules_v4 (rules : list (ngx_cidr_t * ngx_wasm_acl_type_e)) : list radix_rule :=
  omap (fun '(c, t) => match c with Cidr_in a m => Some (ntohl a, ntohl m, t) | _ => None end)
    rules.
Definition rules_v6 (rules : list (ngx_cidr_t * ngx_wasm_acl_type_e)) : list radix_rule :=
  omap (fun '(c, t) => match c with Cidr_in6 a m => Some (a, m, t) | _ => None end) rules.

(** What the most specific rule says about an address. *)
Definition verdict (rules : list (ngx_cidr_t * ngx_wasm_acl_type_e)) (sa : sockaddr)
    : option ngx_wasm_acl_type_e :=
  match sa with
  | Sockaddr_in a => snd <$> longest (reverse (rules_v4 rules)) (ntohl a)
  | Sockaddr_in6 a => snd <$> longest (reverse (rules_v6 rules)) a
  | Sockaddr_other => None
  end.

Lemma insert_rules_trees c rules c' :
  insert_rules c rules = (NGX_OK, c') ->
  radix_rules (ac_addrs_v4 c') = reverse (rules_v4 rules) ++ radix_rules (ac_addrs_v4 c) /\
  radix_rules (ac_addrs_v6 c') = reverse (rules_v6 rules) ++ radix_rules (ac_addrs_v6 c).
Proof.
  revert c. induction rules as [|[cidr t] rules IH]; intros c; simpl.
  - by intros [= <-].
  - destruct (ngx_wasm_acl_ctx_insert_cidr c cidr t) as [rc c1] eqn:E.
    case_bool_decide as Hrc; [|by intros [= ->]]. subst rc. intros [H4 H6]%IH.
    rewrite H4, H6. clear IH H4 H6. destruct cidr as [a m|a m]; simpl in E |- *;
      destruct (ngx_radix_tree_insert _ _ _ _) as [rc t'] eqn:Et;
      injection E as -> <-; apply radix_insert_ok in Et; simpl; rewrite Et;
      by rewrite reverse_cons, <- app_assoc.
Qed.

Lemma tree_lookup_verdict c rules c' sa :
  insert_rules c rules = (NGX_OK, c') ->
  radix_rules (ac_addrs_v4 c) = [] -> radix_rules (ac_addrs_v6 c) = [] ->
  ngx_wasm_acl_tree_lookup c' sa = verdict rules sa.
Proof.
  intros [H4 H6]%insert_rules_trees E4 E6. rewrite E4, app_nil_r in H4.
  rewrite E6, app_nil_r in H6. destruct sa; simpl; by rewrite ?radix_find, ?H4, ?H6.
Qed.

Lemma add_addrs_ctx l sas : acl_ctx (add_addrs l sas) = acl_ctx l.
Proof.
  revert l. induction sas as [|[sa al] sas IH]; intros l; [done|]. unfold add_addrs in *.
  simpl. rewrite IH. unfold ngx_wasm_acl_add_addr.
  case_bool_decide; [done|]. by destruct (ngx_wasm_sockaddr_to_cidr sa), al.
Qed.

Lemma land_full k a : 0 <= a < 2 ^ k -> 0 <= k -> Z.land a (2 ^ k - 1) = a.
Proof.
  intros Ha Hk. replace (2 ^ k - 1) with (Z.ones k) by (rewrite Z.ones_equiv; lia).
  rewrite Z.land_ones by lia. by apply Z.mod_small.
Qed.

(** A recorded address matches itself and no other. *)
Lemma cidr_matches_own sa sb c :
  sockaddr_ok sa -> ngx_wasm_sockaddr_to_cidr sb = Some c ->
  cidr_matches sa c = bool_decide (sa = sb).
Proof.
  intros Hok. destruct sa as [a|a|], sb as [b|b|]; intros [= <-];
    cbn [cidr_matches]; rewrite ?bool_decide_eq_false_2 by done; try done.
  - simpl in Hok. rewrite land_full by lia.
    apply eq_true_iff_eq. rewrite Z.eqb_eq, bool_decide_eq_true. naive_solver.
  - simpl in Hok. rewrite land_full by lia.
    apply eq_true_iff_eq. rewrite Z.eqb_eq, bool_decide_eq_true. naive_solver.
Qed.

(** What is recorded: the addresses resolved that no rule denies. *)
Lemma recorded_match l sas sa :
  sockaddr_ok sa -> sa <> Sockaddr_other ->
  existsb (cidr_matches sa) (acl_recorded_addrs (add_addrs l sas)) =
  existsb (cidr_matches sa) (acl_recorded_addrs l) ||
    bool_decide ((sa, true) ∈ sas /\ ngx_wasm_acl_tree_lookup (acl_ctx l) sa <> Some ACL_DENY).
Proof.
  intros Hok Hoth. revert l. induction sas as [|[sb al] sas IH]; intros l.
  - rewrite bool_decide_eq_false_2 by set_solver. by rewrite orb_false_r.
  - unfold add_addrs in *. simpl.
    assert (Hctx : acl_ctx (ngx_wasm_acl_add_addr al l sb).2 = acl_ctx l)
      by exact (add_addrs_ctx l [(sb, al)]).
    rewrite IH, Hctx. clear IH Hctx.
    set (den := ngx_wasm_acl_tree_lookup (acl_ctx l) sa).
    assert (Hdec : bool_decide ((sa, true) ∈ (sb, al) :: sas /\ den <> Some ACL_DENY) =
      (al && bool_decide (sa = sb /\ den <> Some ACL_DENY)) ||
      bool_decide ((sa, true) ∈ sas /\ den <> Some ACL_DENY)).
    { apply eq_true_iff_eq.
      rewrite orb_true_iff, andb_true_iff, !bool_decide_eq_true, elem_of_cons.
      destruct al; naive_solver. }
    rewrite Hdec, orb_assoc. f_equal. unfold ngx_wasm_acl_add_addr.
    destruct (bool_decide_reflect (ngx_wasm_acl_tree_lookup (acl_ctx l) sb = Some ACL_DENY))
      as [Hd|Hd].
    + simpl. rewrite (bool_decide_eq_false_2 (sa = sb /\ _)) by (unfold den; naive_solver).
      by rewrite andb_false_r, orb_false_r.
    + assert (Hs : bool_decide (sa = sb /\ den <> Some ACL_DENY) = bool_decide (sa = sb))
        by (apply bool_decide_ext; unfold den; naive_solver).
      rewrite Hs. destruct (ngx_wasm_sockaddr_to_cidr sb) as [c|] eqn:Ec.
      * destruct al; simpl; [|by rewrite orb_false_r].
        rewrite existsb_app. simpl. rewrite orb_false_r. by erewrite cidr_matches_own.
      * simpl. rewrite (bool_decide_eq_false_2 (sa = sb)); [by rewrite andb_false_r, orb_false_r|].
        intros ->. by destruct sb.
Qed.

Lemma ntohl_range z : 0 <= ntohl z < 2 ^ 32.
Proof.
  unfold ntohl, enc32. cbn [rev app dec32 default]. unfold id.
  pose proof (b2z_range (z2b z)). pose proof (b2z_range (z2b (z / 2 ^ 8))).
  pose proof (b2z_range (z2b (z / 2 ^ 16))). pose proof (b2z_range (z2b (z / 2 ^ 24))). lia.
Qed.

Lemma compared_ok sa :
  sockaddr_ok sa -> sa <> Sockaddr_other ->
  sockaddr_ok (compared sa) /\ compared sa <> Sockaddr_other.
Proof.
  destruct sa as [a|a|]; cbn [compared]; [done| |done]. intros Ha _.
  destruct (v4_mapped a); [|done]. split; [apply ntohl_range|done].
Qed.


End addresses.

(** ** Host rules *)

Section hosts.
Context {T HA H : Type} `{!AclEnv T HA H} `{!AclLaws T HA H}.
Abbreviation ctx := (ngx_wasm_acl_ctx_t T H).
Abbreviation acl := (ngx_wasm_acl_t T H).

Definition host_directive (t : ngx_wasm_acl_type_e) : bytes :=
  match t with
  | ACL_ALLOW => ngx_string "allow_host"
  | ACL_DENY => ngx_string "deny_host"
  end.

(** The host directives of a block; parsing stops at the first error. *)
Fixpoint host_rules (c : ctx) (rules : list (bytes * ngx_wasm_acl_type_e)) : option ctx :=
  match rules with
  | [] => Some c
  | (arg, t) :: rules =>
      let '(ok, c) := ngx_wasm_acl_host_rule true c (host_directive t) arg in
      if ok then host_rules c rules else None
  end.

Definition entry (r : bytes * ngx_wasm_acl_type_e) : ngx_wasm_acl_host_t :=
  {| ah_host := r.1; ah_wildcard := bool_decide (x2a ∈ r.1); ah_type := r.2 |}.

(** The exact keys of the rules. *)
Definition exact_keys (rules : list (bytes * ngx_wasm_acl_type_e)) : list ngx_hash_key_t :=
  omap (fun r => if bool_decide (x2a ∈ r.1) then None else Some (ngx_strlow r.1, r.2)) rules.

Lemma ngx_strlchr_is_Some s c : is_Some (ngx_strlchr s c) <-> c ∈ s.
Proof.
  unfold ngx_strlchr. rewrite fmap_is_Some. split.
  - intros [[i b] (Hi & -> & _)%list_find_Some]. by eapply list_elem_of_lookup_2.
  - intros Hc. by eapply list_find_elem_of.
Qed.

Lemma ngx_strlchr_app s c k : c ∉ s -> head k = Some c -> ngx_strlchr (s ++ k) c = Some (length s).
Proof.
  intros Hs Hk. destruct k as [|b k]; [done|]. injection Hk as ->. unfold ngx_strlchr.
  erewrite (proj2 (list_find_Some _ _ (length s) c)); [done|]. split_and!; [|done|].
  - by rewrite lookup_app_r, Nat.sub_diag by lia.
  - intros j y Hj Hlt ->. rewrite lookup_app_l in Hj by done.
    by apply list_elem_of_lookup_2 in Hj.
Qed.

Lemma host_rules_arr c rules c' :
  host_rules c rules = Some c' ->
  ac_hosts_arr c' = ac_hosts_arr c ++ (entry <$> rules) /\
  ac_wc_head c' = ac_wc_head c /\ ac_wc_tail c' = ac_wc_tail c.
Proof.
  revert c. induction rules as [|[arg t] rules IH]; intros c; simpl.
  - intros [= <-]. by rewrite app_nil_r.
  - unfold ngx_wasm_acl_host_rule. repeat case_test; try done. simpl.
    intros (Ha & Hh & Ht)%IH. rewrite Ha, Hh, Ht. simpl. split_and!; try done.
    rewrite <- app_assoc. simpl. do 2 f_equal. unfold entry. f_equal; simpl.
    + apply bool_decide_ext. apply ngx_strlchr_is_Some.
    + by destruct t.
Qed.

Lemma add_hosts_keys ha rules ha' :
  add_hosts ha (entry <$> rules) = Some ha' -> NoDup (ha_keys ha).*1 ->
  ha_keys ha' = ha_keys ha ++ exact_keys rules /\ NoDup (ha_keys ha').*1 /\
  ((forall r, r ∈ rules -> x2a ∉ r.1) ->
   ha_dns_wc_head ha' = ha_dns_wc_head ha /\ ha_dns_wc_tail ha' = ha_dns_wc_tail ha).
Proof.
  revert ha. induction rules as [|[arg t] rules IH]; intros ha; simpl.
  - intros [= <-]. by rewrite app_nil_r.
  - destruct (ngx_hash_add_key _ _ _ _) as [rc ha1] eqn:E.
    destruct (bool_decide_reflect (rc = NGX_OK)) as [->|]; [|done].
    destruct (bool_decide_reflect (x2a ∈ arg)) as [Hs|Hs]; intros Hadd Hnd.
    + apply add_wildcard in E as Ek; [|done].
      apply IH in Hadd as (Hk & Hnd' & Hw); [|by rewrite Ek].
      rewrite Hk, Ek. rewrite Hk, Ek in Hnd'. split_and!; [done|done|].
      intros Hno. exfalso. apply (Hno (arg, t)); [by left|done].
    + apply add_exact in E as (Hin & Ek & Eh & Et).
      apply IH in Hadd as (Hk & Hnd' & Hw).
      * split_and!; [by rewrite Hk, Ek, <- app_assoc|done|].
        intros Hno. rewrite <- Eh, <- Et. apply Hw. intros r Hr. apply Hno. by right.
      * rewrite Ek, fmap_app. apply NoDup_app. split_and!; [done| |apply NoDup_singleton].
        intros x Hx ->%list_elem_of_singleton. done.
Qed.

Lemma elem_of_exact_keys rules n v :
  (n, v) ∈ exact_keys rules <-> exists r, (r, v) ∈ rules /\ x2a ∉ r /\ n = ngx_strlow r.
Proof.
  unfold exact_keys. rewrite list_elem_of_omap. split.
  - intros ([r t] & Hr & E). simpl in E. case_bool_decide; [done|].
    injection E as <- <-. eauto.
  - intros (r & Hr & Hs & ->). exists (r, v). split; [done|]. simpl.
    by rewrite bool_decide_eq_false_2.
Qed.

(** The hashes of a block that was accepted. *)
Lemma ctx_init_hashes c rules c' :
  ac_hosts_arr c = entry <$> rules -> ac_wc_head c = None -> ac_wc_tail c = None ->
  ngx_wasm_acl_ctx_init true c = (NGX_OK, c') ->
  exists keys h, ngx_hash_init keys = Some h /\ ac_hash c' = Some h /\
    keys = exact_keys rules /\ NoDup keys.*1 /\
    ((forall r, r ∈ rules -> x2a ∉ r.1) -> ac_wc_head c' = None /\ ac_wc_tail c' = None).
Proof.
  unfold ngx_wasm_acl_ctx_init. intros Harr Hhd Htl. cbn [negb].
  destruct ngx_hash_keys_array_init as [ha0|] eqn:E0; [|done].
  apply keys_init in E0 as (Ek0 & Eh0 & Et0).
  destruct (add_hosts ha0 _) as [ha|] eqn:Ea; [|done].
  rewrite Harr in Ea. apply add_hosts_keys in Ea as (Hk & Hnd & Hw);
    [|rewrite Ek0; constructor].
  rewrite Ek0 in Hk. simpl in Hk.
  destruct (ngx_hash_init (ha_keys ha)) as [h|] eqn:Eh; [|done]. simpl.
  destruct (wildcard_hash (ha_dns_wc_tail ha) _) as [tl|] eqn:Etl; [|done].
  destruct (wildcard_hash (ha_dns_wc_head ha) _) as [hd|] eqn:Ehd; [|done].
  intros [= <-]. exists (ha_keys ha), h. split_and!; [done|done|done|done|].
  intros Hno. destruct (Hw Hno) as [Wh Wt]. rewrite Wh, Eh0 in Ehd. rewrite Wt, Et0 in Etl.
  simpl in *. split; congruence.
Qed.

(** C36. A host name, with or without a port and in any case, is decided by the
    rule of the block for exactly this name, before any pattern; a name that no
    rule lists is refused when the block has no pattern. *)
Theorem acl_host_decision (c0 c c' : ctx) rules (l : acl) name port
  (Hrules : host_rules c0 rules = Some c)
  (Hfresh : ac_hosts_arr c0 = [] /\ ac_wc_head c0 = None /\ ac_wc_tail c0 = None)
  (Hinit : ngx_wasm_acl_ctx_init true c = (NGX_OK, c')) (Hl : acl_ctx l = c')
  (Hport : port = [] \/ head port = Some x3a)
  (Hname : name <> [] /\ x3a ∉ name /\ head name <> Some x5b /\
           zlen name <= NGX_MAXHOSTNAMELEN)
  (Hlit : ngx_inet_addr name = INADDR_NONE /\ ngx_inet6_addr name = None) :
  (forall r t, (r, t) ∈ rules -> x2a ∉ r -> ngx_strlow r = ngx_strlow name ->
     ngx_wasm_acl_check_host l (name ++ port) =
     match t with ACL_ALLOW => NGX_OK | ACL_DENY => NGX_DECLINED end) /\
  ((forall r, r ∈ rules -> x2a ∉ r.1 /\ ngx_strlow r.1 <> ngx_strlow name) ->
     ngx_wasm_acl_check_host l (name ++ port) = NGX_DECLINED).
Proof.
  destruct Hfresh as (Fa & Fh & Ft). destruct Hname as (Hne & Hcol & Hbr & Hlen).
  apply host_rules_arr in Hrules as (Ha & Hh & Ht). rewrite Fa in Ha.
  apply (ctx_init_hashes c rules) in Hinit as (keys & h & Eh & Ech & -> & Hnd & Hw);
    [|done|congruence|congruence].
  assert (Hhn : host_name (name ++ port) = Some name).
  { unfold host_name. destruct name as [|b name]; [done|].
    rewrite bool_decide_eq_false_2 by (simpl in *; congruence).
    destruct Hport as [->|Hp].
    - rewrite app_nil_r. destruct (ngx_strlchr (b :: name) x3a) eqn:E; [|done].
      exfalso. apply Hcol, ngx_strlchr_is_Some. by eexists.
    - rewrite ngx_strlchr_app by done. by rewrite take_app_length. }
  assert (Hz : 0 < zlen name) by (destruct name; [done|rewrite zlen_cons; pose proof (zlen_nonneg name); lia]).
  assert (Hck : ngx_wasm_acl_check_host l (name ++ port) =
    match ngx_hash_find_combined (Some h) (ac_wc_head c') (ac_wc_tail c')
            (ngx_hash_key_lc (ngx_strlow name)) (ngx_strlow name) with
    | Some ACL_ALLOW => NGX_OK | _ => NGX_DECLINED end).
  { unfold ngx_wasm_acl_check_host. rewrite Hhn, (proj1 Hlit), (proj2 Hlit), Hl, Ech.
    rewrite zlen_app. pose proof (zlen_nonneg port).
    rewrite (proj2 (Z.eqb_neq (zlen name + zlen port) 0)) by lia. rewrite Z.eqb_refl.
    cbn [negb]. rewrite (proj2 (Z.eqb_neq (zlen name) 0)), (proj2 (Z.ltb_ge _ _)) by lia.
    simpl. by destruct (ngx_hash_find_combined _ _ _ _ _) as [[]|]. }
  split.
  - intros r t Hr Hs Hlow. rewrite Hck.
    rewrite (find_exact _ _ _ _ _ t Eh Hnd); [by destruct t|].
    apply elem_of_exact_keys. exists r. by rewrite Hlow.
  - intros Hno. rewrite Hck. destruct Hw as [-> ->]; [intros r Hr; by apply Hno|].
    rewrite (find_absent _ _ _ Eh); [done|].
    intros ([n v] & E & (r & Hr & Hs & ->)%elem_of_exact_keys)%list_elem_of_fmap.
    simpl in E. by apply (proj2 (Hno _ Hr)).
Qed.

End hosts.

End Acl.

(** ** A concrete environment

    Rule lists for the radix trees, association lists for the hashes, a decimal
    parser for IPv4 and a table for the IPv6 literals of the examples. *)
Module AclReference.
Import Acl.

Record hash_keys := {
  hk_keys : list ngx_hash_key_t;
  hk_head : list ngx_hash_key_t;
  hk_tail : list ngx_hash_key_t;
}.

Definition tree_insert (t : list radix_rule) (a m : Z) (v : ngx_wasm_acl_type_e)
    : ngx_rc * list radix_rule :=
  if existsb (fun r => (Z.land r.1.1 r.1.2 =? Z.land a m) && (r.1.2 =? m)) t
  then (NGX_BUSY, t) else (NGX_OK, (a, m, v) :: t).

Definition cidr_match (sa : sockaddr) (cs : list ngx_cidr_t) : ngx_rc :=
  if existsb (cidr_matches (compared sa)) cs then NGX_OK else NGX_DECLINED.

(** Four decimal octets; the result is in network byte order. *)
Definition octet_step (st : option (list Z * option Z)) (b : byte) : option (list Z * option Z) :=
  match st with
  | None => None
  | Some (done, cur) =>
      let d := b2z b - 48 in
      if (0 <=? d) && (d <=? 9) then
        let v := 10 * default 0 cur + d in
        if v <=? 255 then Some (done, Some v) else None
      else if bool_decide (b = x2e) then
        match cur with Some v => Some (done ++ [v], None) | None => None end
      else None
  end.

Definition inet_addr (s : bytes) : Z :=
  match foldl octet_step (Some ([], None)) s with
  | Some ([a; b; c], Some d) => wrap32 (a + 2 ^ 8 * b + 2 ^ 16 * c + 2 ^ 24 * d)
  | _ => INADDR_NONE
  end.

Definition inet6_table : list (bytes * Z) :=
  [(ngx_string "::1", 1); (ngx_string "::ffff:10.0.0.13", 2 ^ 32 * (2 ^ 16 - 1) + 10 * 2 ^ 24 + 13);
   (ngx_string "2001:db8::13", 0x2001_0db8 * 2 ^ 96 + 0x13)].

Definition assoc {A} (s : bytes) (l : list (bytes * A)) : option A :=
  snd <$> (snd <$> list_find (fun e => e.1 = s) l).

Definition add_key (ha : hash_keys) (k : bytes) (v : ngx_wasm_acl_type_e) (wildcard : bool)
    : ngx_rc * hash_keys :=
  if wildcard then
    if bool_decide (head k = Some x2a) then
      (NGX_OK, {| hk_keys := hk_keys ha; hk_head := hk_head ha ++ [(ngx_strlow k, v)];
                  hk_tail := hk_tail ha |})
    else (NGX_DECLINED, ha)
  else if bool_decide (ngx_strlow k ∈ (hk_keys ha).*1) then (NGX_BUSY, ha)
  else (NGX_OK, {| hk_keys := hk_keys ha ++ [(ngx_strlow k, v)]; hk_head := hk_head ha;
                   hk_tail := hk_tail ha |}).

(** A pattern [*.suffix] matches what ends in [.suffix]. *)
Definition suffix_find (o : option (list ngx_hash_key_t)) (n : bytes)
    : option ngx_wasm_acl_type_e :=
  match o with
  | None => None
  | Some l => snd <$> (snd <$> list_find (fun e => reverse (drop 1 e.1) `prefix_of` reverse n) l)
  end.

Definition find_combined (h hd tl : option (list ngx_hash_key_t)) (key : Z) (n : bytes)
    : option ngx_wasm_acl_type_e :=
  match h with
  | Some h => match assoc n h with Some v => Some v | None => suffix_find hd n end
  | None => suffix_find hd n
  end.

#[export] Instance reference_env
    : AclEnv (list radix_rule) hash_keys (list ngx_hash_key_t) := {
  ngx_radix_tree_insert := tree_insert;
  ngx_radix_tree_find t k := snd <$> longest t k;
  ngx_cidr_match := cidr_match;
  ngx_inet_addr := inet_addr;
  ngx_inet6_addr s := assoc s inet6_table;
  ngx_ptocidr s := let a := inet_addr s in
    if a =? INADDR_NONE then (NGX_ERROR, Cidr_in 0 0) else (NGX_OK, Cidr_in a (2 ^ 32 - 1));
  NGX_MAXHOSTNAMELEN := 256;
  ngx_hash_keys_array_init := Some {| hk_keys := []; hk_head := []; hk_tail := [] |};
  ngx_hash_add_key := add_key;
  ha_keys := hk_keys;
  ha_dns_wc_head := hk_head;
  ha_dns_wc_tail := hk_tail;
  ngx_dns_strcmp _ _ := 0;
  ngx_qsort _ l := l;
  ngx_hash_key_lc := zlen;
  ngx_hash_init l := Some l;
  ngx_hash_wildcard_init l := Some l;
  ngx_hash_find_combined := find_combined;
}.

Lemma assoc_Some {A} s (l : list (bytes * A)) v : assoc s l = Some v -> (s, v) ∈ l.
Proof.
  unfold assoc. destruct (list_find _ l) as [[i [s' v']]|] eqn:E; [|done].
  apply list_find_Some in E as (Hi & Hs & _). simpl in Hs. subst s'. simpl.
  intros [= ->]. by eapply list_elem_of_lookup_2.
Qed.

Lemma assoc_elem {A} s (l : list (bytes * A)) v :
  NoDup l.*1 -> (s, v) ∈ l -> assoc s l = Some v.
Proof.
  intros Hnd Hin. destruct (assoc s l) as [w|] eqn:E.
  - apply assoc_Some in E. f_equal.
    induction l as [|[s' v'] l IH]; [by apply not_elem_of_nil in Hin|].
    simpl in Hnd. apply NoDup_cons in Hnd as [Hn Hnd].
    assert (Hfst : forall x, (s, x) ∈ l -> s ∈ l.*1)
      by (intros x Hx; apply list_elem_of_fmap; by exists (s, x)).
    apply elem_of_cons in Hin as [Hin|Hin], E as [E|E]; [congruence| | |auto];
      exfalso; apply Hn; [injection Hin as -> ->|injection E as -> ->]; eauto.
  - unfold assoc in E. destruct (list_find _ l) as [[]|] eqn:El; [done|].
    apply list_find_None in El. rewrite Forall_elem in El. by specialize (El _ Hin).
Qed.

#[export] Instance reference_laws
    : AclLaws (list radix_rule) hash_keys (list ngx_hash_key_t).
Proof.
  refine {| radix_rules t := t |}.
  - done.
  - intros t a m v t'. simpl. unfold tree_insert. case_match; congruence.
  - intros sa cs _. simpl. unfold cidr_match. case_match; naive_solver.
  - intros s. simpl. unfold inet_addr. repeat case_match; first [apply wrap32_range | by unfold is_u32, INADDR_NONE].
  - intros ha [= <-]. done.
  - intros ha k v ha'. simpl. unfold add_key. case_bool_decide; [done|].
    intros [= <-]. done.
  - intros ha k v ha'. simpl. unfold add_key. case_bool_decide; [|done].
    by intros [= <-].
  - intros keys h hd tl n v [= ->] Hnd Hin. simpl. unfold find_combined.
    by rewrite (assoc_elem _ _ _ Hnd Hin).
  - intros keys h n [= ->] Hn. simpl. unfold find_combined.
    destruct (assoc n h) as [v|] eqn:E; [|done]. apply assoc_Some in E.
    exfalso. apply Hn. apply list_elem_of_fmap. by exists (n, v).
Defined.

Abbreviation ctx := (ngx_wasm_acl_ctx_t (list radix_rule) (list ngx_hash_key_t)).

Definition empty_ctx : ctx :=
  {| ac_name := []; ac_addrs_v4 := []; ac_addrs_v6 := []; ac_hosts_arr := []; ac_hash := None;
     ac_wc_head := None; ac_wc_tail := None |}.

(** [10.0.0.0/8] allowed, [10.0.0.13] denied, every IPv6 address allowed. *)
Definition block : list (ngx_cidr_t * ngx_wasm_acl_type_e) :=
  [(Cidr_in 10 255, ACL_ALLOW); (Cidr_in (inet_addr (ngx_string "10.0.0.13")) (2 ^ 32 - 1), ACL_DENY);
   (Cidr_in6 0 0, ACL_ALLOW)].

Definition hosts : list (bytes * ngx_wasm_acl_type_e) :=
  [(ngx_string "Allowed.example", ACL_ALLOW); (ngx_string "evil.example", ACL_DENY)].

Definition host_ctx : ctx := default empty_ctx (host_rules empty_ctx hosts).


Definition host_acl : ngx_wasm_acl_t (list radix_rule) (list ngx_hash_key_t) :=
  {| acl_ctx := (ngx_wasm_acl_ctx_init true host_ctx).2; acl_recorded_addrs := [] |}.

Lemma acl_host_decision_witness :
  ngx_wasm_acl_check_host host_acl (ngx_string "ALLOWED.example" ++ ngx_string ":80") = NGX_OK /\
  ngx_wasm_acl_check_host host_acl (ngx_string "other.example" ++ []) = NGX_DECLINED.
Proof.
  assert (Hr : host_rules empty_ctx hosts = Some host_ctx) by by vm_compute.
  assert (Hi : ngx_wasm_acl_ctx_init true host_ctx = (NGX_OK, acl_ctx host_acl)) by by vm_compute.
  pose proof (fun n p => acl_host_decision _ _ _ _ _ n p Hr
    (conj eq_refl (conj eq_refl eq_refl)) Hi eq_refl) as D. split.
  - refine (proj1 (D (ngx_string "ALLOWED.example") (ngx_string ":80") _ _ _)
      (ngx_string "Allowed.example") ACL_ALLOW _ _ _).
    + by right.
    + split_and!; refine (bool_decide_unpack _ _); by vm_compute.
    + by vm_compute.
    + by left.
    + refine (bool_decide_unpack _ _); by vm_compute.
    + by vm_compute.
  - refine (proj2 (D (ngx_string "other.example") [] _ _ _) _).
    + by left.
    + split_and!; refine (bool_decide_unpack _ _); by vm_compute.
    + by vm_compute.
    + apply Forall_elem. refine (bool_decide_unpack _ _). by vm_compute.
Defined.

(** An IPv4-mapped IPv6 literal is looked up among the IPv6 rules only: the deny
    rule of the IPv4 address does not cover it. *)
Example mapped_address_escapes_deny :
  let c := (insert_rules empty_ctx block).2 in
  let l := {| acl_ctx := c; acl_recorded_addrs := [] |} in
  ngx_wasm_acl_check_host l (ngx_string "10.0.0.13") = NGX_DECLINED /\
  ngx_wasm_acl_check_host l (ngx_string "[::ffff:10.0.0.13]") = NGX_OK.
Proof. by vm_compute. Qed.

(** An allow rule inside of a denied range wins. *)
Example narrow_allow_wins :
  let rules := [(Cidr_in 10 255, ACL_DENY);
                (Cidr_in (inet_addr (ngx_string "10.0.0.13")) (2 ^ 32 - 1), ACL_ALLOW)] in
  let l := {| acl_ctx := (insert_rules empty_ctx rules).2; acl_recorded_addrs := [] |} in
  ngx_wasm_acl_check_host l (ngx_string "10.0.0.12") = NGX_DECLINED /\
  ngx_wasm_acl_check_host l (ngx_string "10.0.0.13") = NGX_OK.
Proof. by vm_compute. Qed.

(** A resolved IPv4 address opens its mapped form; a resolved mapped address opens nothing,
    not even itself. *)
Example recorded_mapped_address :
  let mapped := Sockaddr_in6 (2 ^ 32 * (2 ^ 16 - 1) + 8 * 2 ^ 24 + 8 * 2 ^ 16 + 8 * 2 ^ 8 + 8) in
  let v4 := Sockaddr_in (inet_addr (ngx_string "8.8.8.8")) in
  let l := {| acl_ctx := empty_ctx; acl_recorded_addrs := [] |} in
  ngx_wasm_acl_check_addr (add_addrs l [(v4, true)]) mapped = NGX_OK /\
  ngx_wasm_acl_check_addr (add_addrs l [(mapped, true)]) mapped = NGX_DECLINED.
Proof. by vm_compute. Qed.

(** The port is cut at the first colon, so an IPv6 literal needs its brackets. *)
Example ipv6_needs_brackets :
  let c := (insert_rules empty_ctx block).2 in
  let l := {| acl_ctx := c; acl_recorded_addrs := [] |} in
  ngx_wasm_acl_check_host l (ngx_string "[::1]:80") = NGX_OK /\
  ngx_wasm_acl_check_host l (ngx_string "::1") = NGX_DECLINED.
Proof. by vm_compute. Qed.

End AclReference.
