(* ===== verification/Host.v ===== *)
(** * The vocabulary of the host functions

    A host function (src/src/common/proxy_wasm/ngx_proxy_wasm_host.c) runs for a guest: it
    reads its arguments, turns pointers of the guest into pointers of the host
    (src/src/wasm/vm/ngx_wavm.h, ngx_wavm_host.h), has the guest allocate the memory of
    what it answers, and ends with a result code or a trap
    (src/src/common/proxy_wasm/ngx_proxy_wasm.h, src/src/wasm/vm/ngx_wavm.c). *)
From S2P Require Import Prelude.
From stdpp Require Export list.
#[global] Open Scope Z_scope.

Module Host.

(** ** Results *)

(** The code of the VM, and [rets[0]] when the function set it. *)
Definition host_ret : Type := Z * option Z.

Definition NGX_WAVM_OK : Z := 0.
Definition NGX_WAVM_ERROR : Z := -10.
Definition NGX_WAVM_BAD_ARG : Z := -11.
Definition NGX_WAVM_BAD_USAGE : Z := -12.
Definition NGX_WAVM_NYI : Z := -13.

Definition NGX_PROXY_WASM_RESULT_OK : Z := 0.
Definition NGX_PROXY_WASM_RESULT_NOT_FOUND : Z := 1.
Definition NGX_PROXY_WASM_RESULT_BAD_ARGUMENT : Z := 2.
Definition NGX_PROXY_WASM_RESULT_INVALID_MEM_ACCESS : Z := 6.
Definition NGX_PROXY_WASM_RESULT_EMPTY : Z := 7.
Definition NGX_PROXY_WASM_RESULT_CAS_MISMATCH : Z := 8.
Definition NGX_PROXY_WASM_RESULT_INTERNAL_FAILURE : Z := 10.

Definition ngx_proxy_wasm_result_ok : host_ret := (NGX_WAVM_OK, Some NGX_PROXY_WASM_RESULT_OK).
Definition ngx_proxy_wasm_result_err : host_ret := (NGX_WAVM_OK, Some NGX_PROXY_WASM_RESULT_INTERNAL_FAILURE).
Definition ngx_proxy_wasm_result_badarg : host_ret := (NGX_WAVM_OK, Some NGX_PROXY_WASM_RESULT_BAD_ARGUMENT).
Definition ngx_proxy_wasm_result_notfound : host_ret := (NGX_WAVM_OK, Some NGX_PROXY_WASM_RESULT_NOT_FOUND).
Definition ngx_proxy_wasm_result_invalid_mem : host_ret :=
  (NGX_WAVM_OK, Some NGX_PROXY_WASM_RESULT_INVALID_MEM_ACCESS).
Definition ngx_proxy_wasm_result_cas_mismatch : host_ret :=
  (NGX_WAVM_OK, Some NGX_PROXY_WASM_RESULT_CAS_MISMATCH).
Definition ngx_proxy_wasm_result_empty : host_ret := (NGX_WAVM_OK, Some NGX_PROXY_WASM_RESULT_EMPTY).

(** A name in double quotes, in a message. *)
Definition quoted (name : String.string) : bytes := x22 :: ngx_string name ++ [x22].
Arguments quoted name%_string_scope.

(** ** The memory of a module *)

(** The bytes of the linear memory, and where they are: growing it may move them. *)
Record memory := { mem_base : Z; mem_data : bytes }.

(** A pointer of the host into it. *)
Record gptr := { g_base : Z; g_off : Z }.

Definition ngx_wavm_memory_data_size (m : memory) : Z := zlen (mem_data m).

(** [p], [size] and [align] are 32-bit; [None] is [NULL], and the boolean tells that there
    was no error. *)
Definition ngx_wavm_memory_lift (m : memory) (p size align : Z) : option gptr * bool :=
  if p =? 0 then (None, size =? 0)
  else if (wrap32 (p + size) <? p) || (ngx_wavm_memory_data_size m <? wrap32 (p + size)) then (None, false)
  else if (1 <? align) && negb (Z.land p (align - 1) =? 0) then (None, false)
  else (Some {| g_base := mem_base m; g_off := p |}, true).

(** Reading and writing through a pointer: it is lost when the memory moved. *)
Definition load (m : memory) (ptr : option gptr) (len : Z) : outcome bytes :=
  match ptr with
  | None => if len =? 0 then Ret [] else Fault F_memory
  | Some g => if g_base g =? mem_base m then mem_read (mem_data m) (g_off g) len else Fault F_memory
  end.

Definition set_data (m : memory) (d : bytes) : memory := {| mem_base := mem_base m; mem_data := d |}.

Definition store_at (m : memory) (ptr : option gptr) (data : bytes) : outcome memory :=
  match ptr with
  | None => if zlen data =? 0 then Ret m else Fault F_memory
  | Some g =>
      if g_base g =? mem_base m then let? d := mem_write (mem_data m) (g_off g) data in Ret (set_data m d)
      else Fault F_memory
  end.

(** Whether there was no error, and the memory. *)
Definition ngx_wavm_memory_memcpy (m : memory) (p : Z) (buf : bytes) : outcome (bool * memory) :=
  let '(dest, ok) := ngx_wavm_memory_lift m p (wrap32 (zlen buf)) 1 in
  if negb ok then Ret (false, m) else let? m := store_at m dest buf in Ret (true, m).

Definition ngx_wavm_memory_cpymem (m : memory) (p : Z) (buf : bytes) : outcome (Z * memory) :=
  let? (ok, m) := ngx_wavm_memory_memcpy m p buf in
  Ret (if ok : bool then wrap32 (p + zlen buf) else 0, m).

(** ** Running a host function *)

(** The memory of the module, the message of the trap, and what else the function uses. *)
Record host (E : Type) := { h_memory : memory; h_trap : bytes; h_env : E }.
Arguments h_memory {E}. Arguments h_trap {E}. Arguments h_env {E}.

Section host_functions.
Context {E : Type}.
Abbreviation M := (SM (host E)).

Definition set_memory (m : memory) (h : host E) : host E :=
  {| h_memory := m; h_trap := h_trap h; h_env := h_env h |}.
Definition set_trap (msg : bytes) (h : host E) : host E :=
  {| h_memory := h_memory h; h_trap := msg; h_env := h_env h |}.
Definition set_env (e : E) (h : host E) : host E :=
  {| h_memory := h_memory h; h_trap := h_trap h; h_env := e |}.

Definition gets {A} (f : host E -> A) : M A := fun h => Ret (f h, h).
Definition puts (f : host E -> host E) : M unit := fun h => Ret (tt, f h).

(** A computation on the memory, one on the rest. *)
Definition on_memory {A} (f : memory -> outcome (A * memory)) : M A := fun h =>
  let? (a, m) := f (h_memory h) in Ret (a, set_memory m h).
Definition on_env {A} (f : SM E A) : M A := fun h =>
  let? (a, e) := f (h_env h) in Ret (a, set_env e h).

Definition read_at (ptr : option gptr) (len : Z) : M bytes :=
  fun h => let? bs := load (h_memory h) ptr len in Ret (bs, h).
Definition write_at (ptr : option gptr) (data : bytes) : M unit :=
  on_memory (fun m => let? m := store_at m ptr data in Ret (tt, m)).

(** [ngx_vsnprintf] on a buffer of a length, for a format without arguments: [None] when it
    takes one. *)
Context (ngx_vsnprintf : nat -> bytes -> option bytes).

Definition NGX_WAVM_HFUNCS_MAX_TRAP_LEN : nat := 256.

(** The first message is kept. *)
Definition ngx_wavm_instance_trap_printf (fmt : bytes) : M unit := fun h =>
  if negb (zlen (h_trap h) =? 0) then Ret (tt, h)
  else let? msg := deref (ngx_vsnprintf (NGX_WAVM_HFUNCS_MAX_TRAP_LEN - 1) fmt) in
       Ret (tt, set_trap msg h).

Definition ngx_proxy_wasm_result_trap (trapmsg : bytes) (rc : Z) : M host_ret :=
  ngx_wavm_instance_trap_printf trapmsg;;
  mret (rc, Some NGX_PROXY_WASM_RESULT_OK).

(** A pointer of the guest, an [i32], to an object or to a slice whose length was widened
    from an [i32]. *)
Definition NGX_WAVM_HOST_LIFT (wasm_ptr sizeof align : Z) (k : option gptr -> M host_ret) : M host_ret :=
  m ← gets h_memory;
  let '(ptr, ok) := ngx_wavm_memory_lift m (wrap32 wasm_ptr) sizeof align in
  if negb ok then
    ngx_wavm_instance_trap_printf (ngx_string "invalid data pointer passed to host function");;
    mret (NGX_WAVM_BAD_USAGE, None)
  else k ptr.

Definition NGX_WAVM_HOST_LIFT_SLICE (wasm_ptr len : Z) (k : option gptr -> M host_ret) : M host_ret :=
  m ← gets h_memory;
  let '(ptr, ok) := ngx_wavm_memory_lift m (wrap32 wasm_ptr) (wrap32 len) 1 in
  if negb ok then
    ngx_wavm_instance_trap_printf (ngx_string "invalid slice pointer passed to host function");;
    mret (NGX_WAVM_BAD_USAGE, None)
  else k ptr.

(** [ngx_proxy_wasm_alloc]: the guest allocates, and may grow its memory.  0 when it failed. *)
Context (ngx_proxy_wasm_alloc : memory -> Z -> Z * memory).

Definition alloc (size : Z) : M Z := on_memory (fun m => Ret (ngx_proxy_wasm_alloc m size)).

(** The message of a failed lift is printed as it is. *)
Definition plain_formats : Prop :=
  forall n fmt, "%"%byte ∉ fmt -> ngx_vsnprintf n fmt = Some (take n fmt).

End host_functions.

(** An [i32] widened to a [size_t]: with its sign. *)
Definition size_of_i32 (arg : Z) : Z := wrap64 arg.
Definition is_i32 (arg : Z) : Prop := - 2 ^ 31 <= arg < 2 ^ 31.


(** ** Accesses through pointers of the guest *)

Lemma mem_write_nil (m : bytes) p : 0 <= p <= zlen m -> mem_write m p [] = Ret m.
Proof.
  intros Hp. rewrite mem_write_in by (rewrite ?zlen_nil; lia).
  by rewrite zlen_nil, Z.add_0_r, app_nil_l, take_drop.
Qed.

Lemma mem_write_app (m : bytes) p a b m1 m2 :
  mem_write m p a = Ret m1 -> mem_write m1 (p + zlen a) b = Ret m2 -> mem_write m p (a ++ b) = Ret m2.
Proof.
  intros H1 H2. pose proof (mem_write_length _ _ _ _ H1) as Hlen.
  pose proof (zlen_nonneg a). pose proof (zlen_nonneg b).
  unfold mem_write in *. destruct (_ && _) eqn:E1 in H1; [|done].
  apply andb_true_iff in E1 as [E1%Z.leb_le E2%Z.leb_le]. injection H1 as H1.
  destruct (_ && _) eqn:E3 in H2; [|done]. apply andb_true_iff in E3 as [E3%Z.leb_le E4%Z.leb_le].
  injection H2 as <-. rewrite zlen_app. unfold zlen in E2, E4. rewrite Hlen in E4.
  rewrite !(proj2 (Z.leb_le _ _)) by zlia. cbn [andb]. f_equal. subst m1. unfold zlen in *.
  set (x := take (Z.to_nat p) m ++ a).
  assert (Hx : length x = Z.to_nat (p + Z.of_nat (length a)))
    by (unfold x; rewrite length_app, length_take; lia).
  rewrite (app_assoc (take _ m) a), <- (app_assoc a b), (app_assoc (take _ m) a). fold x.
  rewrite take_app_length' by lia. do 2 f_equal.
  rewrite drop_app_ge, drop_drop by lia. f_equal. lia.
Qed.

Lemma lift_ok m p size align ptr :
  is_u32 p -> is_u32 size -> ngx_wavm_memory_lift m p size align = (ptr, true) ->
  (p = 0 /\ size = 0 /\ ptr = None) \/
  (0 < p /\ p + size <= zlen (mem_data m) /\ ptr = Some {| g_base := mem_base m; g_off := p |}).
Proof.
  intros Hp Hs. unfold ngx_wavm_memory_lift, ngx_wavm_memory_data_size.
  destruct (Z.eqb_spec p 0) as [->|Hp0]; [intros [= <- ->%Z.eqb_eq]; auto|].
  destruct (_ || _) eqn:E; [done|]. apply orb_false_iff in E as [E1%Z.ltb_ge E2%Z.ltb_ge].
  destruct (_ && _); [done|]. intros [= <-]. right.
  assert (Hw : wrap32 (p + size) = p + size); [|rewrite Hw in E2; split_and!; [zlia|lia|done]].
  unfold wrap32 in *. destruct (decide (p + size < 2 ^ 32)); [apply Z.mod_small; zlia|].
  exfalso. revert E1. rewrite <- (Z_mod_plus_full (p + size) (-1)), Z.mod_small by zlia. zlia.
Qed.

(** The refused pointers: outside of the memory or misaligned. *)
Lemma lift_refused m p size align :
  is_u32 p -> is_u32 size -> (ngx_wavm_memory_lift m p size align).2 = false ->
  (p = 0 /\ 0 < size) \/ 2 ^ 32 <= p + size \/ zlen (mem_data m) < p + size \/
  (1 < align /\ Z.land p (align - 1) <> 0).
Proof.
  intros Hp Hs. unfold ngx_wavm_memory_lift, ngx_wavm_memory_data_size.
  destruct (Z.eqb_spec p 0) as [->|Hp0]; [intros E%Z.eqb_neq; left; zlia|].
  destruct (_ || _) eqn:E.
  - intros _. destruct (decide (p + size < 2 ^ 32)); [|by right; left; zlia].
    right; right; left. apply orb_true_iff in E.
    rewrite (wrap32_id (p + size)) in E by zlia. destruct E as [E%Z.ltb_lt|E%Z.ltb_lt]; zlia.
  - destruct (_ && _) eqn:E'; [|done]. intros _.
    apply andb_true_iff in E' as [E1%Z.ltb_lt E2%negb_true_iff%Z.eqb_neq]. auto.
Qed.

Lemma load_in m p n :
  0 <= p -> 0 <= n -> p + n <= zlen (mem_data m) ->
  load m (Some {| g_base := mem_base m; g_off := p |}) n =
    Ret (take (Z.to_nat n) (drop (Z.to_nat p) (mem_data m))).
Proof. intros. cbn. rewrite Z.eqb_refl. by apply mem_read_in. Qed.

Lemma store_at_in m p data :
  0 <= p -> p + zlen data <= zlen (mem_data m) ->
  exists d, mem_write (mem_data m) p data = Ret d /\
    store_at m (Some {| g_base := mem_base m; g_off := p |}) data = Ret (set_data m d).
Proof. intros. cbn. rewrite Z.eqb_refl. rewrite mem_write_in by done. eexists. by split. Qed.

(** A part of what was read. *)
Lemma load_take m g len n body :
  load m g len = Ret body -> 0 <= n <= len -> load m g n = Ret (take (Z.to_nat n) body) /\ zlen body = len.
Proof.
  intros Hl Hn. destruct g as [g|]; cbn in *.
  - destruct (g_base g =? mem_base m); [|done]. unfold mem_read in *.
    destruct (_ && _) eqn:E; [|done]. apply andb_true_iff in E as [[E1%Z.leb_le E2%Z.leb_le]%andb_true_iff E3%Z.leb_le].
    injection Hl as <-. rewrite !(proj2 (Z.leb_le _ _)) by lia. cbn [andb].
    rewrite take_take. split; [do 2 f_equal; lia|]. unfold zlen in *. rewrite length_take, length_drop. lia.
  - destruct (Z.eqb_spec len 0) as [->|]; [|done]. injection Hl as <-.
    replace n with 0 by lia. done.
Qed.

(** The memory [m'] after the guest allocated in [m]: it did not move nor shrink. *)
Definition grown (m m' : memory) : Prop :=
  mem_base m' = mem_base m /\ zlen (mem_data m) <= zlen (mem_data m').

Lemma grown_refl m : grown m m.
Proof. by split. Qed.

Lemma memcpy_spec m p buf ok m' :
  is_u32 p -> zlen buf < 2 ^ 32 -> ngx_wavm_memory_memcpy m p buf = Ret (ok, m') ->
  if ok then mem_write (mem_data m) p buf = Ret (mem_data m') /\ mem_base m' = mem_base m \/
             (p = 0 /\ buf = [] /\ m' = m)
  else m' = m.
Proof.
  intros Hp Hb. unfold ngx_wavm_memory_memcpy.
  destruct (ngx_wavm_memory_lift _ _ _ _) as [dest ok'] eqn:E. destruct ok'; cbn [negb].
  - rewrite wrap32_id in E by zlia. apply lift_ok in E; [|done|zlia].
    destruct E as [(-> & Hz & ->)|(H0 & Hin & ->)]; cbn [store_at].
    + rewrite Hz. cbn. intros [= <- <-]. right. by destruct buf.
    + rewrite Z.eqb_refl. destruct (mem_write _ _ _) eqn:Ew; [|done]. cbn. intros [= <- <-]. by left.
  - by intros [= <- <-].
Qed.

(** The copy never faults. *)
Lemma memcpy_total m p buf :
  is_u32 p -> zlen buf < 2 ^ 32 -> exists ok m', ngx_wavm_memory_memcpy m p buf = Ret (ok, m').
Proof.
  intros Hp Hb. unfold ngx_wavm_memory_memcpy.
  destruct (ngx_wavm_memory_lift _ _ _ _) as [dest ok'] eqn:E. destruct ok'; cbn [negb]; [|eauto].
  rewrite wrap32_id in E by zlia. apply lift_ok in E; [|done|zlia].
  destruct E as [(-> & Hz & ->)|(H0 & Hin & ->)].
  - cbn. rewrite Hz. cbn. eauto.
  - destruct (store_at_in m p buf) as (d & _ & ->); [lia|done|]. cbn. eauto.
Qed.

(** Where there is room, it is written. *)
Lemma memcpy_in m p buf :
  0 < p -> is_u32 p -> p + zlen buf <= zlen (mem_data m) -> p + zlen buf < 2 ^ 32 ->
  exists d, mem_write (mem_data m) p buf = Ret d /\ ngx_wavm_memory_memcpy m p buf = Ret (true, set_data m d).
Proof.
  intros H0 Hp Hin H32. pose proof (zlen_nonneg buf). unfold ngx_wavm_memory_memcpy.
  destruct (ngx_wavm_memory_lift _ _ _ _) as [dest ok'] eqn:E. rewrite (wrap32_id (zlen buf)) in E by zlia.
  destruct ok'; cbn [negb].
  - apply lift_ok in E; [|done|zlia]. destruct E as [(-> & _)|(_ & _ & ->)]; [lia|].
    destruct (store_at_in m p buf) as (d & Hd & ->); [lia|done|]. by exists d.
  - pose proof (lift_refused m p (zlen buf) 1) as Hr. rewrite E in Hr. cbn in Hr.
    specialize (Hr Hp ltac:(zlia) eq_refl). lia.
Qed.

(** ** Arguments *)

(** A slice given by a guest, and the bytes in it. *)
Record slice_arg (m : memory) (ptr len : Z) (g : option gptr) (bs : bytes) : Prop := {
  sa_len : 0 <= len < 2 ^ 31;
  sa_lift : ngx_wavm_memory_lift m (wrap32 ptr) len 1 = (g, true);
  sa_load : load m g len = Ret bs;
}.

(** Where a guest wants a [uint32_t] to be written. *)
Definition out_arg (m : memory) (ptr : Z) (g : option gptr) : Prop :=
  ngx_wavm_memory_lift m (wrap32 ptr) 4 4 = (g, true).

Lemma sa_size m ptr len g bs : slice_arg m ptr len g bs -> size_of_i32 len = len.
Proof. intros [Hl _ _]. apply wrap64_id. zlia. Qed.

Lemma sa_zlen m ptr len g bs : slice_arg m ptr len g bs -> zlen bs = len.
Proof. intros [Hl _ E]. by destruct (load_take _ _ _ len _ E) as [_ <-]; [lia|]. Qed.

Section args.
Context {E : Type} (ngx_vsnprintf : nat -> bytes -> option bytes).

Lemma LIFT_arg ptr g (h : host E) k :
  out_arg (h_memory h) ptr g -> NGX_WAVM_HOST_LIFT ngx_vsnprintf ptr 4 4 k h = k g h.
Proof.
  intros E'. unfold NGX_WAVM_HOST_LIFT. erewrite SM_bind_Ret by reflexivity. unfold out_arg in E'. by rewrite E'.
Qed.

Lemma LIFT_SLICE_lifted ptr len g (h : host E) k :
  0 <= len < 2 ^ 32 -> ngx_wavm_memory_lift (h_memory h) (wrap32 ptr) len 1 = (g, true) ->
  NGX_WAVM_HOST_LIFT_SLICE ngx_vsnprintf ptr len k h = k g h.
Proof.
  intros Hl E'. unfold NGX_WAVM_HOST_LIFT_SLICE. erewrite SM_bind_Ret by reflexivity.
  rewrite (wrap32_id len) by zlia. by rewrite E'.
Qed.

Lemma LIFT_SLICE_arg ptr len g bs (h : host E) k :
  slice_arg (h_memory h) ptr len g bs ->
  NGX_WAVM_HOST_LIFT_SLICE ngx_vsnprintf ptr (size_of_i32 len) k h = k g h.
Proof.
  intros Ha. rewrite (sa_size _ _ _ _ _ Ha). destruct Ha as [Hl E' _]. apply LIFT_SLICE_lifted; [lia|done].
Qed.

Lemma read_arg ptr len g bs (h : host E) :
  slice_arg (h_memory h) ptr len g bs -> read_at g (size_of_i32 len) h = Ret (bs, h).
Proof. intros Ha. rewrite (sa_size _ _ _ _ _ Ha). unfold read_at. by rewrite (sa_load _ _ _ _ _ Ha). Qed.

(** Writing to an argument after the memory grew in place. *)
Lemma write_lifted p size align g data m (h : host E) :
  is_u32 p -> is_u32 size -> 0 < size -> zlen data = size ->
  ngx_wavm_memory_lift m p size align = (g, true) -> grown m (h_memory h) ->
  exists d, mem_write (mem_data (h_memory h)) p data = Ret d /\
    write_at g data h = Ret (tt, set_memory (set_data (h_memory h) d) h).
Proof.
  intros Hp Hs Hpos Hd Hl [Hb Hg]. apply lift_ok in Hl; [|done|done].
  destruct Hl as [(_ & ? & _)|(H0 & Hin & ->)]; [lia|]. rewrite <- Hb.
  destruct (store_at_in (h_memory h) p data) as (d & Hw & Hst); [lia|lia|].
  exists d. split; [done|]. unfold write_at, on_memory. rewrite Hst. done.
Qed.

Lemma write_arg ptr g z m (h : host E) :
  out_arg m ptr g -> grown m (h_memory h) ->
  exists d, mem_write (mem_data (h_memory h)) (wrap32 ptr) (enc32 z) = Ret d /\
    write_at g (enc32 z) h = Ret (tt, set_memory (set_data (h_memory h) d) h).
Proof.
  intros Hl Hg. by eapply (write_lifted _ 4 4); [apply wrap32_range|split; lia|lia|apply zlen_enc32|..].
Qed.

Lemma LIFT_lifted ptr size align g (h : host E) k :
  ngx_wavm_memory_lift (h_memory h) (wrap32 ptr) size align = (g, true) ->
  NGX_WAVM_HOST_LIFT ngx_vsnprintf ptr size align k h = k g h.
Proof.
  intros E'. unfold NGX_WAVM_HOST_LIFT. erewrite SM_bind_Ret by reflexivity. by rewrite E'.
Qed.

End args.

(** Growing and writing. *)
Lemma grown_write m m' p data d :
  grown m m' -> mem_write (mem_data m') p data = Ret d -> grown m (set_data m' d).
Proof.
  intros [Hb Hg] Hw. apply mem_write_length in Hw. split; [done|]. cbn. unfold zlen in *. lia.
Qed.

(** C11. A pointer of the guest that is accepted for a 32-bit size can be used for that size: every
    byte of the object or slice is read and written inside of the memory of the module, what is
    written is read back and no other byte changes, also after the guest grew its memory in place.
    A pointer is refused only when it is null for something that is not empty, when its end leaves
    the memory or reaches 4 GiB, or when it is misaligned. Of slices of 2 GiB or more the callers
    read more than the 32-bit size that is checked here: [long_slice] below. *)
Theorem lift_access m p size align :
  is_u32 p -> is_u32 size ->
  match ngx_wavm_memory_lift m p size align with
  | (ptr, true) =>
      forall m' data, grown m m' -> zlen data = size ->
        (exists bs, load m' ptr size = Ret bs /\ zlen bs = size) /\
        exists m2, store_at m' ptr data = Ret m2 /\ load m2 ptr size = Ret data /\
          forall q n, q + n <= p \/ p + size <= q ->
            mem_read (mem_data m2) q n = mem_read (mem_data m') q n
  | (ptr, false) =>
      ptr = None /\
      ((p = 0 /\ 0 < size) \/ 2 ^ 32 <= p + size \/ zlen (mem_data m) < p + size \/
       (1 < align /\ Z.land p (align - 1) <> 0))
  end.
Proof.
  intros Hp Hs. destruct (ngx_wavm_memory_lift m p size align) as [ptr ok] eqn:E. destruct ok.
  - intros m' data [Hb Hg] Hd. apply lift_ok in E; [|done|done].
    destruct E as [(-> & -> & ->)|(H0 & Hin & ->)].
    + destruct data; [|pose proof (zlen_nonneg data); rewrite zlen_cons in Hd; lia].
      split; [by exists []|]. exists m'. by split_and!.
    + rewrite <- Hb. split.
      * rewrite load_in by zlia. eexists. split; [reflexivity|].
        unfold zlen in *. rewrite length_take, length_drop. lia.
      * destruct (store_at_in m' p data) as (d & Hw & ->); [lia|lia|].
        eexists. split_and!; [reflexivity| |].
        -- cbn. rewrite Z.eqb_refl, <- Hd. by eapply mem_read_write_same.
        -- intros q n Hq. cbn. eapply mem_read_write_other; [exact Hw|lia].
  - split; [|by apply lift_refused; [done|done|rewrite E]].
    revert E. unfold ngx_wavm_memory_lift.
    destruct (p =? 0); [by intros [= <- _]|]. destruct (_ || _); [by intros [= <-]|].
    destruct (_ && _); [by intros [= <-]|done].
Qed.

(** A slice of 2 GiB: its length is negative as an [i32] and is widened with its sign, but
    checked in 32 bits; what reads it leaves the memory. *)
Lemma long_slice m :
  zlen (mem_data m) = 2 ^ 31 + 8 ->
  let len := size_of_i32 (- 2 ^ 31) in
  let '(ptr, ok) := ngx_wavm_memory_lift m 8 (wrap32 len) 1 in
  ok = true /\ load m ptr len = Fault F_memory.
Proof.
  intros Hm len. unfold ngx_wavm_memory_lift, ngx_wavm_memory_data_size.
  rewrite Hm. change (8 =? 0) with false. cbv iota.
  replace (wrap32 len) with (2 ^ 31) by reflexivity. cbn [orb].
  change ((wrap32 (8 + 2 ^ 31) <? 8) || (2 ^ 31 + 8 <? wrap32 (8 + 2 ^ 31))) with false. cbv iota. cbn [andb].
  change (1 <? 1) with false. cbn [andb]. cbv iota. split; [done|].
  cbn. rewrite Z.eqb_refl. unfold mem_read. rewrite Hm. reflexivity.
Qed.

Lemma lift_access_witness :
  is_u32 8 /\ is_u32 4 /\
  let m := {| mem_base := 4096; mem_data := replicate 16 x00 |} in
  exists ptr, ngx_wavm_memory_lift m 8 4 4 = (ptr, true) /\ load m ptr 4 = Ret [x00; x00; x00; x00].
Proof.
  split; [split; lia|]. split; [split; lia|]. intros m.
  pose proof (lift_access m 8 4 4 ltac:(split; lia) ltac:(split; lia)) as H.
  eexists. split; [reflexivity|]. cbn in H.
  destruct (H m (enc32 0) (grown_refl m) eq_refl) as [(bs & E & _) _]. by vm_compute.
Defined.

End Host.

(** ** For the executions *)

Module HostRuns.
Import Host.

(** A [ngx_vsnprintf] for formats without arguments. *)
Definition printf_noargs (n : nat) (fmt : bytes) : option bytes :=
  if bool_decide ("%"%byte ∈ fmt) then None else Some (take n fmt).

Lemma printf_noargs_plain : plain_formats printf_noargs.
Proof. intros n fmt H. unfold printf_noargs. by rewrite bool_decide_false. Qed.

(** A guest that always gives the same memory. *)
Definition alloc_at (p : Z) (m : memory) (n : Z) : Z * memory := (p, m).

Definition memory_of (n : nat) : memory := {| mem_base := 4096; mem_data := replicate n x00 |}.

(** What is at [p]. *)
Definition peek (m : memory) (p n : Z) : outcome bytes := mem_read (mem_data m) p n.

End HostRuns.
