(* ===== verification/Chains.v ===== *)
(** * Buffer chains

    The functions on [ngx_chain_t] of src/src/wasm/ngx_wasm_util.c, which read,
    truncate and extend the bodies of requests and responses.  Links point to
    each other, so they live in a store of links; a link carries its buffer. *)
From S2P Require Import Prelude NginxCore.
From stdpp Require Export list gmap.
#[global] Open Scope Z_scope.

Module Chains.

(** ** Data *)

(** [ngx_buf_t]: [b_mem] is the memory from [start] to [end] ([start] is [NULL]
    when [b_alloc] is false), [b_pos] and [b_last] are offsets in it.
    [b_memory] is the flag [memory] or [mmap]; [b_file_size] is
    [file_last - file_pos]. *)
Record ngx_buf_t := {
  b_mem : bytes;
  b_alloc : bool;
  b_pos : nat;
  b_last : nat;
  b_tag : Z;
  b_temporary : bool;
  b_memory : bool;
  b_flush : bool;
  b_last_buf : bool;
  b_last_in_chain : bool;
  b_file_size : nat;
}.

Record ngx_chain_t := {
  cl_buf : ngx_buf_t;
  cl_next : option addr;
}.

(** The links, and whether the next allocations from the pool succeed. *)
Record store := {
  s_links : gmap addr ngx_chain_t;
  s_pool : list bool;
}.

Definition zero_buf : ngx_buf_t :=
  {| b_mem := []; b_alloc := false; b_pos := 0; b_last := 0; b_tag := 0;
     b_temporary := false; b_memory := false; b_flush := false; b_last_buf := false;
     b_last_in_chain := false; b_file_size := 0 |}.

(** Assignments to fields. *)
Definition set_window (pos last : nat) (b : ngx_buf_t) : ngx_buf_t :=
  {| b_mem := b_mem b; b_alloc := b_alloc b; b_pos := pos; b_last := last; b_tag := b_tag b;
     b_temporary := b_temporary b; b_memory := b_memory b; b_flush := b_flush b;
     b_last_buf := b_last_buf b; b_last_in_chain := b_last_in_chain b;
     b_file_size := b_file_size b |}.
Definition set_mem (mem : bytes) (alloc : bool) (b : ngx_buf_t) : ngx_buf_t :=
  {| b_mem := mem; b_alloc := alloc; b_pos := b_pos b; b_last := b_last b; b_tag := b_tag b;
     b_temporary := b_temporary b; b_memory := b_memory b; b_flush := b_flush b;
     b_last_buf := b_last_buf b; b_last_in_chain := b_last_in_chain b;
     b_file_size := b_file_size b |}.
Definition set_kind (tag : Z) (temporary memory : bool) (b : ngx_buf_t) : ngx_buf_t :=
  {| b_mem := b_mem b; b_alloc := b_alloc b; b_pos := b_pos b; b_last := b_last b;
     b_tag := tag; b_temporary := temporary; b_memory := memory; b_flush := b_flush b;
     b_last_buf := b_last_buf b; b_last_in_chain := b_last_in_chain b;
     b_file_size := b_file_size b |}.
Definition set_flags (flush last_buf last_in_chain : bool) (b : ngx_buf_t) : ngx_buf_t :=
  {| b_mem := b_mem b; b_alloc := b_alloc b; b_pos := b_pos b; b_last := b_last b;
     b_tag := b_tag b; b_temporary := b_temporary b; b_memory := b_memory b;
     b_flush := flush; b_last_buf := last_buf; b_last_in_chain := last_in_chain;
     b_file_size := b_file_size b |}.

Definition set_next (n : option addr) (l : ngx_chain_t) : ngx_chain_t :=
  {| cl_buf := cl_buf l; cl_next := n |}.
Definition on_buf (f : ngx_buf_t -> ngx_buf_t) (l : ngx_chain_t) : ngx_chain_t :=
  {| cl_buf := f (cl_buf l); cl_next := cl_next l |}.

Definition ngx_buf_in_memory (b : ngx_buf_t) : bool := b_temporary b || b_memory b.

Definition ngx_buf_size (b : ngx_buf_t) : nat :=
  if ngx_buf_in_memory b then b_last b - b_pos b else b_file_size b.

(** [b->last_buf || b->last_in_chain] *)
Definition is_eof (b : ngx_buf_t) : bool := b_last_buf b || b_last_in_chain b.

(** ** The store *)

Definition read_link (a : addr) : SM store ngx_chain_t := fun s =>
  match s_links s !! a with
  | Some l => Ret (l, s)
  | None => Fault F_memory
  end.

Definition write_link (a : addr) (f : ngx_chain_t -> ngx_chain_t) : SM store unit := fun s =>
  match s_links s !! a with
  | Some l => Ret (tt, {| s_links := <[a := f l]> (s_links s); s_pool := s_pool s |})
  | None => Fault F_memory
  end.

(** [ngx_free_chain] *)
Definition ngx_free_chain (a : addr) : SM store unit := fun s =>
  Ret (tt, {| s_links := delete a (s_links s); s_pool := s_pool s |}).

(** An allocation from the pool. *)
Definition palloc : SM store bool := fun s =>
  match s_pool s with
  | [] => Ret (false, s)
  | ok :: p => Ret (ok, {| s_links := s_links s; s_pool := p |})
  end.

Definition new_link (b : ngx_buf_t) : SM store addr := fun s =>
  let a := fresh (dom (s_links s) : gset addr) in
  Ret (a, {| s_links := <[a := {| cl_buf := b; cl_next := None |}]> (s_links s);
             s_pool := s_pool s |}).

Definition sfault {A} (f : fault) : SM store A := fun _ => Fault f.

(** A walk of a chain meets every link at most once. *)
Definition links_fuel (s : store) : nat := S (size (s_links s)).

(** ** Operations *)

(** [eof] is [None] for a [NULL] pointer, its value otherwise. *)
Fixpoint chain_len_loop (fuel : nat) (cl : option addr) (len : nat) (eof : option bool)
    : SM store (nat * option bool) :=
  match cl with
  | None => mret (len, eof)
  | Some a =>
      match fuel with
      | O => sfault F_fuel
      | S fuel =>
          l ← read_link a;
          let len := (len + ngx_buf_size (cl_buf l))%nat in
          if is_eof (cl_buf l) then mret (len, (fun _ => true) <$> eof)
          else chain_len_loop fuel (cl_next l) len eof
      end
  end.

Definition ngx_wasm_chain_len (cl : option addr) (eof : option bool)
    : SM store (nat * option bool) := fun s => chain_len_loop (links_fuel s) cl 0 eof s.

(** One buffer of [ngx_wasm_chain_clear]: the position after it, and the buffer. *)
Definition clear_buf (offset pos : nat) (b : ngx_buf_t) : nat * ngx_buf_t :=
  let len := (b_last b - b_pos b)%nat in
  let '(pos, b) :=
    if negb (offset =? 0)%nat && (offset <? pos + len)%nat then
      let n := (len - ((pos + len) - offset))%nat in
      ((pos + n)%nat, set_window (b_pos b) (b_pos b + n) b)
    else if (pos =? offset)%nat then (pos, set_window (b_last b) (b_last b) b)
    else ((pos + len)%nat, b) in
  (pos, set_flags false false false b).

(** The loop of [ngx_wasm_chain_clear]; its caller passes both pointers. *)
Fixpoint clear_loop (fuel : nat) (cl : option addr) (offset pos : nat) (eof flush : bool)
    : SM store (nat * bool * bool) :=
  match cl with
  | None => mret (pos, eof, flush)
  | Some a =>
      match fuel with
      | O => sfault F_fuel
      | S fuel =>
          l ← read_link a;
          let eof := eof || is_eof (cl_buf l) in
          let flush := flush || b_flush (cl_buf l) in
          let '(pos, b) := clear_buf offset pos (cl_buf l) in
          write_link a (on_buf (fun _ => b));;
          clear_loop fuel (cl_next l) offset pos eof flush
      end
  end.

(** The fill, [eof] and [flush]. *)
Definition ngx_wasm_chain_clear (debug : bool) (cl : option addr) (offset : nat)
    (eof flush : bool) : SM store (nat * bool * bool) := fun s =>
  ('(pos, eof, flush) ← (fun s => clear_loop (links_fuel s) cl offset 0 eof flush s);
   let fill := if (pos <? offset)%nat then (offset - pos)%nat else O in
   slift (ngx_wa_assert debug (pos + fill =? offset)%nat);;
   mret (fill, eof, flush)) s.

(** The buffer of a reused link, or of a new one, over [len] bytes. *)
Definition clean_buf (mem : bytes) (alloc : bool) (tag : Z) (temporary : bool) : ngx_buf_t :=
  set_kind tag temporary false (set_mem mem alloc zero_buf).

(** The link, [None] for [NULL], and the next value of [*free]. *)
Definition ngx_wasm_chain_get_free_buf (free : option addr) (len : nat) (tag : Z) (reuse : bool)
    : SM store (option addr * option addr) :=
  match (if reuse then free else None) with
  | Some cl =>
      l ← read_link cl;
      let free := cl_next l in
      write_link cl (set_next None);;
      let b := cl_buf l in
      if b_alloc b && (len <=? length (b_mem b))%nat then
        write_link cl (on_buf (fun _ => clean_buf (b_mem b) true tag (negb (len =? 0)%nat)));;
        mret (Some cl, free)
      else
        write_link cl (on_buf (fun _ => zero_buf));;
        if (len =? 0)%nat then mret (Some cl, free)
        else
          ok ← palloc;
          if (ok : bool) then
            write_link cl (on_buf (fun _ => clean_buf (replicate len x00) true tag true));;
            mret (Some cl, free)
          else mret (None, free)
  | None =>
      ok ← palloc;
      if negb ok then mret (None, free)
      else
        ok ← palloc;
        if negb ok then mret (None, free)
        else
          cl ← new_link (if (len =? 0)%nat then clean_buf [] false tag false
                         else clean_buf (replicate len x00) true tag true);
          mret (Some cl, free)
  end.

(** [b->last = ngx_cpymem(b->last, data, len)] *)
Definition cpymem (a : addr) (data : bytes) : SM store unit :=
  l ← read_link a;
  let b := cl_buf l in
  mem ← slift (mem_write (b_mem b) (Z.of_nat (b_last b)) data);
  write_link a (on_buf (fun b =>
    set_window (b_pos b) (b_last b + length data) (set_mem mem (b_alloc b) b))).

(** [rc], [*in] and [*free]. *)
Definition ngx_wasm_chain_prepend (cin : option addr) (str : bytes) (free : option addr)
    (tag : Z) : SM store (ngx_rc * option addr * option addr) :=
  '(first, free) ← ngx_wasm_chain_get_free_buf free (length str) tag true;
  match first with
  | None => mret (NGX_ERROR, cin, free)
  | Some first =>
      cpymem first str;;
      write_link first (set_next cin);;
      mret (NGX_OK, Some first, free)
  end.

(** The loop [get tail] of [ngx_wasm_chain_append]: [ll] is the last link with
    data; empty links are freed, or moved to a free list that is not empty. *)
Fixpoint tail_loop (fuel : nat) (cl ll free : option addr) (tag : Z)
    : SM store (option addr * option addr) :=
  match cl with
  | None => mret (ll, free)
  | Some a =>
      match fuel with
      | O => sfault F_fuel
      | S fuel =>
          l ← read_link a;
          if negb (ngx_buf_size (cl_buf l) =? 0)%nat then
            tail_loop fuel (cl_next l) (Some a) free tag
          else if negb (b_tag (cl_buf l) =? tag) then
            (match ll with
             | Some p => write_link p (set_next (cl_next l))
             | None => mret tt
             end);;
            ngx_free_chain a;;
            cl ← (match ll with
                  | Some p => l ← read_link p; mret (cl_next l)
                  | None => mret None
                  end);
            tail_loop fuel cl ll free tag
          else
            write_link a (on_buf (set_window 0 0));;
            write_link a (set_next free);;
            tail_loop fuel (cl_next l) ll
              (match free with Some _ => Some a | None => None end) tag
      end
  end.

(** [rc], [*in] and [*free]. *)
Definition ngx_wasm_chain_append (debug : bool) (cin : option addr) (pos : nat) (str : bytes)
    (free : option addr) (tag : Z) (extend : bool)
    : SM store (ngx_rc * option addr * option addr) :=
  '(fill, eof, flush) ← ngx_wasm_chain_clear debug cin pos false false;
  let fill := if (extend : bool) then fill else O in
  let rest := (length str + fill)%nat in
  '(ll, free) ← (fun s => tail_loop (links_fuel s) cin None free tag s);
  '(nl, free) ← ngx_wasm_chain_get_free_buf free rest tag true;
  match nl with
  | None => mret (NGX_ERROR, cin, free)
  | Some nl =>
      slift (ngx_wa_assert debug (negb extend));;
      slift (ngx_wa_assert debug (rest =? length str)%nat);;
      cpymem nl str;;
      (if (flush : bool) then
         write_link nl (on_buf (fun b => set_flags true (b_last_buf b) (b_last_in_chain b) b))
       else mret tt);;
      (if (eof : bool) then
         write_link nl (on_buf (fun b => set_flags (b_flush b) true true b))
       else mret tt);;
      match ll with
      | Some p => write_link p (set_next (Some nl));; mret (NGX_OK, cin, free)
      | None => mret (NGX_OK, Some nl, free)
      end
  end.

(** ** Chains as lists *)

(** The bytes of a buffer. *)
Definition buf_bytes (b : ngx_buf_t) : bytes := take (b_last b - b_pos b) (drop (b_pos b) (b_mem b)).

(** A buffer in memory, or an empty special one. *)
Definition buf_ok (b : ngx_buf_t) : Prop :=
  (b_pos b <= b_last b <= length (b_mem b))%nat /\
  (ngx_buf_in_memory b = true \/ b_pos b = b_last b /\ b_file_size b = 0%nat).

Implicit Types (m : gmap addr ngx_chain_t) (ls : list addr) (s : store).

(** The links [ls] lead from [p] to [q]. *)
Fixpoint seg m (p : option addr) ls (q : option addr) : Prop :=
  match ls with
  | [] => p = q
  | a :: ls => p = Some a /\ exists l, m !! a = Some l /\ seg m (cl_next l) ls q
  end.

Definition bufs m ls : list ngx_buf_t := omap (fun a => cl_buf <$> m !! a) ls.
Definition content m ls : bytes := concat (buf_bytes <$> bufs m ls).

Lemma chain_seg_app m p l1 l2 q : seg m p (l1 ++ l2) q <-> exists r, seg m p l1 r /\ seg m r l2 q.
Proof.
  revert p. induction l1 as [|a l1 IH]; intros p; simpl.
  - naive_solver.
  - split.
    + intros (-> & l & Hl & (r & H1 & H2)%IH). eauto 8.
    + intros (r & (-> & l & Hl & H1) & H2). split; [done|]. exists l. rewrite IH. eauto.
Qed.

Lemma seg_frame m m' p ls q :
  (forall a, a ∈ ls -> m' !! a = m !! a) -> seg m p ls q -> seg m' p ls q.
Proof.
  revert p. induction ls as [|a ls IH]; intros p Hm; simpl; [done|].
  intros (-> & l & Hl & Hs). split; [done|]. exists l. rewrite Hm by by left.
  split; [done|]. apply IH; [|done]. intros b Hb. apply Hm. by right.
Qed.

Lemma seg_dom m p ls q a : seg m p ls q -> a ∈ ls -> is_Some (m !! a).
Proof.
  revert p. induction ls as [|b ls IH]; intros p; simpl; [by rewrite elem_of_nil|].
  intros (_ & l & Hl & Hs) [->|Ha]%elem_of_cons; eauto.
Qed.

Lemma seg_fuel m p ls q : seg m p ls q -> NoDup ls -> (length ls <= size m)%nat.
Proof.
  intros Hs Hnd. rewrite <- (size_list_to_set (C := gset addr)) by done. rewrite <- size_dom.
  apply subseteq_size. intros a Ha%elem_of_list_to_set. apply elem_of_dom.
  by eapply seg_dom.
Qed.

Lemma bufs_cons m a l ls : m !! a = Some l -> bufs m (a :: ls) = cl_buf l :: bufs m ls.
Proof. unfold bufs. simpl. by intros ->. Qed.

Lemma bufs_app m l1 l2 : bufs m (l1 ++ l2) = bufs m l1 ++ bufs m l2.
Proof. unfold bufs. apply omap_app. Qed.

Lemma bufs_frame m m' ls : (forall a, a ∈ ls -> m' !! a = m !! a) -> bufs m' ls = bufs m ls.
Proof.
  intros Hm. apply list_omap_ext. induction ls as [|a ls IH]; constructor.
  - by rewrite Hm by by left.
  - apply IH. intros b Hb. apply Hm. by right.
Qed.

Lemma content_cons m a l ls :
  m !! a = Some l -> content m (a :: ls) = buf_bytes (cl_buf l) ++ content m ls.
Proof. intros Hl. unfold content. by rewrite (bufs_cons _ _ _ _ Hl). Qed.

Lemma content_app m l1 l2 : content m (l1 ++ l2) = content m l1 ++ content m l2.
Proof. unfold content. by rewrite bufs_app, fmap_app, concat_app. Qed.

Lemma content_frame m m' ls :
  (forall a, a ∈ ls -> m' !! a = m !! a) -> content m' ls = content m ls.
Proof. intros Hm. unfold content. by rewrite (bufs_frame m m'). Qed.

Lemma content_empty m ls : Forall (fun b => buf_bytes b = []) (bufs m ls) -> content m ls = [].
Proof.
  unfold content. induction 1 as [|b l Hb _ IH]; [done|]. rewrite fmap_cons. simpl.
  by rewrite Hb, IH.
Qed.

Lemma elem_of_bufs m ls b : b ∈ bufs m ls <-> exists a l, a ∈ ls /\ m !! a = Some l /\ b = cl_buf l.
Proof.
  unfold bufs. rewrite list_elem_of_omap. split.
  - intros (a & Ha & E). apply fmap_Some in E as (l & Hl & ->). eauto.
  - intros (a & l & Ha & Hl & ->). exists a. by rewrite Hl.
Qed.

Lemma buf_bytes_length b : buf_ok b -> length (buf_bytes b) = (b_last b - b_pos b)%nat.
Proof. intros [Hb _]. unfold buf_bytes. rewrite length_take, length_drop. lia. Qed.

Lemma ngx_buf_size_bytes b : buf_ok b -> ngx_buf_size b = length (buf_bytes b).
Proof.
  intros Hb. rewrite buf_bytes_length by done. unfold ngx_buf_size.
  destruct Hb as [_ [->|[E ->]]]; [done|]. case_match; lia.
Qed.

Lemma ngx_buf_size_zero b : buf_ok b -> (ngx_buf_size b =? 0)%nat = bool_decide (buf_bytes b = []).
Proof.
  intros Hb. rewrite ngx_buf_size_bytes by done.
  destruct (buf_bytes b); [by rewrite bool_decide_eq_true_2|by rewrite bool_decide_eq_false_2].
Qed.

(** ** Reading and writing links *)

Lemma read_link_Ret a l s : s_links s !! a = Some l -> read_link a s = Ret (l, s).
Proof. unfold read_link. by intros ->. Qed.

Lemma write_link_Ret a l f s :
  s_links s !! a = Some l ->
  write_link a f s = Ret (tt, {| s_links := <[a := f l]> (s_links s); s_pool := s_pool s |}).
Proof. unfold write_link. by intros ->. Qed.

(** Executes the next read or write of a link known by [H]. *)
Ltac sstep E := rewrite (SM_bind_Ret _ _ _ _ _ E).
Ltac rd H := erewrite SM_bind_Ret by (apply read_link_Ret; exact H).
Ltac wr H := erewrite SM_bind_Ret by (apply write_link_Ret; exact H).

(** ** Truncating *)

Lemma clear_buf_ok offset pos b pos' b' :
  buf_ok b -> (pos <= offset)%nat -> (offset = 0%nat -> pos = 0%nat) ->
  clear_buf offset pos b = (pos', b') ->
  buf_ok b' /\ buf_bytes b' = take (offset - pos) (buf_bytes b) /\
  pos' = (pos + length (buf_bytes b'))%nat /\ b_tag b' = b_tag b /\
  b_flush b' = false /\ is_eof b' = false.
Proof.
  intros Hb Hle H0. pose proof (buf_bytes_length b Hb) as Hlen.
  pose proof Hb as [Hw Hm]. unfold clear_buf.
  destruct (negb (offset =? 0)%nat && (offset <? pos + (b_last b - b_pos b))%nat) eqn:E.
  - apply andb_true_iff in E as [E1 E2]. apply Nat.ltb_lt in E2.
    replace (b_last b - b_pos b - (pos + (b_last b - b_pos b) - offset))%nat
      with (offset - pos)%nat by lia.
    intros [= <- <-].
    assert (Hbytes : buf_bytes (set_flags false false false
      (set_window (b_pos b) (b_pos b + (offset - pos)) b)) = take (offset - pos) (buf_bytes b)).
    { unfold buf_bytes. simpl. rewrite take_take. f_equal. lia. }
    split_and!; [|done| |done|done|done].
    + split; simpl; [lia|]. destruct Hm as [Hm|[]]; [by left|lia].
    + rewrite Hbytes, length_take. lia.
  - destruct (Nat.eqb_spec pos offset) as [->|Hne]; intros [= <- <-].
    + rewrite Nat.sub_diag, take_0.
      assert (Hbytes : buf_bytes (set_flags false false false
        (set_window (b_last b) (b_last b) b)) = []).
      { unfold buf_bytes. simpl. by rewrite Nat.sub_diag, take_0. }
      rewrite Hbytes. split_and!; [|done|simpl; lia|done|done|done].
      split; simpl; [lia|]. destruct Hm as [Hm|[]]; [by left|by right].
    + apply andb_false_iff in E as [E|E].
      { apply negb_false_iff, Nat.eqb_eq in E. lia. }
      apply Nat.ltb_ge in E.
      assert (Hbytes : buf_bytes (set_flags false false false b) = buf_bytes b) by done.
      rewrite Hbytes. split_and!; [done| |lia|done|done|done].
      by rewrite take_ge by lia.
Qed.

Definition nonempty (b : ngx_buf_t) : Prop := buf_bytes b <> [].
Definition clean (b : ngx_buf_t) : Prop := buf_ok b /\ b_flush b = false /\ is_eof b = false.

(** After [ngx_wasm_chain_clear] the buffers before the offset hold its bytes, and
    those past it are empty. *)
Lemma clear_loop_ok offset ls : forall fuel p pos eof flush s,
  seg (s_links s) p ls None -> NoDup ls -> (length ls <= fuel)%nat ->
  (pos <= offset)%nat -> (offset = 0%nat -> pos = 0%nat) ->
  Forall buf_ok (bufs (s_links s) ls) ->
  ((pos < offset)%nat -> Forall nonempty (bufs (s_links s) ls)) ->
  exists m' l1 l2 pos',
    clear_loop fuel p offset pos eof flush s =
      Ret ((pos', eof || existsb is_eof (bufs (s_links s) ls),
            flush || existsb b_flush (bufs (s_links s) ls)),
           {| s_links := m'; s_pool := s_pool s |}) /\
    (pos <= pos' <= offset)%nat /\ ls = l1 ++ l2 /\ seg m' p ls None /\
    (forall a, a ∉ ls -> m' !! a = s_links s !! a) /\
    Forall clean (bufs m' ls) /\ Forall nonempty (bufs m' l1) /\
    Forall (fun b => buf_bytes b = []) (bufs m' l2) /\
    content m' l1 = take (offset - pos) (content (s_links s) ls).
Proof.
  induction ls as [|a ls IH]; intros fuel p pos eof flush s Hs Hnd Hfuel Hle H0 Hok Hne.
  - simpl in Hs. subst p. exists (s_links s), [], [], pos.
    change (content (s_links s) []) with (@nil byte).
    destruct fuel; simpl; rewrite !orb_false_r, take_nil; destruct s;
      (split_and!; [done|done|lia|done|done|done|constructor|constructor|constructor|done]).
  - simpl in Hs. destruct Hs as (-> & l & Hl & Hs). destruct fuel as [|fuel]; simpl in Hfuel; [lia|].
    apply NoDup_cons in Hnd as [Ha Hnd]. rewrite (bufs_cons _ _ _ _ Hl) in *.
    apply Forall_cons in Hok as [Hok1 Hok].
    cbn [clear_loop]. rd Hl.
    destruct (clear_buf offset pos (cl_buf l)) as [pos1 b1] eqn:Ec.
    destruct (clear_buf_ok _ _ _ _ _ Hok1 Hle H0 Ec) as (Kok & Kb & Kp & _ & Kf & Ke).
    wr Hl. set (m1 := <[a:=on_buf (fun _ => b1) l]> (s_links s)).
    assert (Hm1 : forall x, x ∈ ls -> m1 !! x = s_links s !! x).
    { intros x Hx. unfold m1. rewrite lookup_insert_ne; [done|]. by intros ->. }
    assert (Hlen : (length (buf_bytes b1) <= offset - pos)%nat)
      by (rewrite Kb, length_take; lia).
    destruct (IH fuel (cl_next l) pos1 (eof || is_eof (cl_buf l))
      (flush || b_flush (cl_buf l)) {| s_links := m1; s_pool := s_pool s |})
      as (m' & l1 & l2 & pos' & -> & Hp' & -> & Hs' & Hm' & Hcl & Hn1 & He2 & Hc); simpl.
    + by apply (seg_frame (s_links s)).
    + done.
    + lia.
    + lia.
    + intros E. specialize (H0 E). destruct (buf_bytes b1); simpl in *; lia.
    + by rewrite (bufs_frame (s_links s) m1).
    + intros Hlt. rewrite (bufs_frame (s_links s) m1) by done.
      assert (Hlt' : (pos < offset)%nat) by lia.
      by specialize (Hne Hlt') as [_ ?]%Forall_cons.
    + assert (Hla : m' !! a = Some (on_buf (fun _ => b1) l)).
      { rewrite Hm' by done. simpl. unfold m1. by rewrite lookup_insert_eq. }
      rewrite (bufs_frame (s_links s) m1) by done.
      simpl in Hc. rewrite (content_frame (s_links s) m1) in Hc by done.
      assert (Hcl' : Forall clean (bufs m' (a :: l1 ++ l2))).
      { rewrite (bufs_cons _ _ _ _ Hla). constructor; [|done]. by split_and!. }
      assert (Hout : forall x, x ∉ a :: l1 ++ l2 -> m' !! x = s_links s !! x).
      { intros x [Hxa Hx]%not_elem_of_cons. rewrite Hm' by done. simpl. unfold m1.
        by rewrite lookup_insert_ne by done. }
      destruct (decide (pos < offset)%nat) as [Hlt|Hge].
      * exists m', (a :: l1), l2, pos'.
        specialize (Hne Hlt) as [Hne1 _]%Forall_cons.
        split_and!; [by rewrite !orb_assoc|lia|lia|done|done|eauto|exact Hout|done| |done|].
        { rewrite (bufs_cons _ _ _ _ Hla). constructor; [|done]. unfold nonempty in *. simpl.
          rewrite Kb. destruct (buf_bytes (cl_buf l)) as [|c t]; [done|].
          by replace (offset - pos)%nat with (S (offset - pos - 1)) by lia. }
        rewrite (content_cons _ _ _ _ Hla), (content_cons _ _ _ _ Hl), take_app. simpl.
        f_equal; [done|]. rewrite Hc. f_equal. rewrite Kp, Kb, length_take. lia.
      * exists m', [], (a :: l1 ++ l2), pos'. replace pos with offset in * by lia.
        rewrite Nat.sub_diag, take_0 in Kb. rewrite Kb in Kp. simpl in Kp.
        replace pos1 with offset in * by lia.
        rewrite Nat.sub_diag, take_0 in *.
        split_and!; [by rewrite !orb_assoc|lia|lia|done|done|eauto|exact Hout|done| | |done].
        { constructor. }
        rewrite (bufs_cons _ _ _ _ Hla). constructor; [done|]. rewrite bufs_app.
        apply Forall_app. split; [|done].
        assert (Hb1 : forall b, b ∈ bufs m' l1 -> buf_bytes b = []).
        { intros b Hb. unfold content in Hc. apply list_elem_of_split in Hb as (k1 & k2 & E).
          rewrite E, fmap_app, concat_app in Hc. apply app_nil in Hc as [_ Hc]. simpl in Hc.
          by apply app_nil in Hc as [? _]. }
        by apply Forall_elem.
Qed.

(** ** Finding the tail *)

Definition store_with s m : store := {| s_links := m; s_pool := s_pool s |}.

(** Over links with data the loop only advances. *)
Lemma tail_loop_data l1 : forall fuel p q ll free tag s,
  seg (s_links s) p l1 q -> Forall buf_ok (bufs (s_links s) l1) ->
  Forall nonempty (bufs (s_links s) l1) ->
  tail_loop (length l1 + fuel) p ll free tag s =
  tail_loop fuel q (match last l1 with Some a => Some a | None => ll end) free tag s.
Proof.
  induction l1 as [|a l1 IH]; intros fuel p q ll free tag s Hs Hok Hne; simpl in Hs.
  - by subst.
  - destruct Hs as (-> & l & Hl & Hs). rewrite (bufs_cons _ _ _ _ Hl) in *.
    apply Forall_cons in Hok as [Hok1 Hok], Hne as [Hne1 Hne].
    cbn [tail_loop length Nat.add]. rd Hl. rewrite ngx_buf_size_zero by done.
    rewrite bool_decide_eq_false_2 by done. cbn [negb]. rewrite (IH _ _ _ _ _ _ _ Hs Hok Hne).
    f_equal. destruct l1 as [|b l1]; [done|]. rewrite last_cons_cons.
    by destruct (last (b :: l1)) eqn:E; [|apply last_None in E].
Qed.

(** One empty link: moved to the free list, or freed. *)
Section empty_link.
Context (fuel : nat) (a : addr) (l : ngx_chain_t) (s : store).
Hypothesis (Hl : s_links s !! a = Some l).
Hypothesis (Hok : buf_ok (cl_buf l)) (Hempty : buf_bytes (cl_buf l) = []).

Lemma tail_loop_move ll free tag :
  b_tag (cl_buf l) = tag ->
  tail_loop (S fuel) (Some a) ll free tag s =
  tail_loop fuel (cl_next l) ll (match free with Some _ => Some a | None => None end) tag
    (store_with s (<[a := set_next free (on_buf (set_window 0 0) l)]> (s_links s))).
Proof.
  intros <-. cbn [tail_loop]. rd Hl. rewrite ngx_buf_size_zero by done.
  rewrite bool_decide_eq_true_2, Z.eqb_refl by done. cbn [negb]. wr Hl.
  set (l' := on_buf (set_window 0 0) l).
  assert (Hl' : s_links (store_with s (<[a := l']> (s_links s))) !! a = Some l')
    by (simpl; by rewrite lookup_insert_eq).
  erewrite SM_bind_Ret by (apply write_link_Ret; exact Hl'). cbn [store_with s_links s_pool].
  by rewrite insert_insert_eq.
Qed.

Lemma tail_loop_free p lp free tag :
  b_tag (cl_buf l) <> tag -> s_links s !! p = Some lp -> p <> a ->
  tail_loop (S fuel) (Some a) (Some p) free tag s =
  tail_loop fuel (cl_next l) (Some p) free tag
    (store_with s (delete a (<[p := set_next (cl_next l) lp]> (s_links s)))).
Proof.
  intros Ht Hp Hpa. cbn [tail_loop]. rd Hl. rewrite ngx_buf_size_zero by done.
  rewrite bool_decide_eq_true_2, (proj2 (Z.eqb_neq _ _) Ht) by done. cbn [negb]. wr Hp.
  unfold ngx_free_chain at 1. erewrite SM_bind_Ret by reflexivity. cbn [s_links s_pool].
  erewrite SM_bind_Ret; [reflexivity|]. erewrite SM_bind_Ret.
  2: { apply read_link_Ret. simpl. rewrite lookup_delete_ne by done. apply lookup_insert_eq. }
  reflexivity.
Qed.

Lemma tail_loop_free_first free tag :
  b_tag (cl_buf l) <> tag ->
  tail_loop (S fuel) (Some a) None free tag s =
  Ret ((None, free), store_with s (delete a (s_links s))).
Proof.
  intros Ht. cbn [tail_loop]. rd Hl. rewrite ngx_buf_size_zero by done.
  rewrite bool_decide_eq_true_2, (proj2 (Z.eqb_neq _ _) Ht) by done. cbn [negb].
  by destruct fuel.
Qed.

End empty_link.

(** What the loop leaves: an unchanged tail, a free list made of the old one and
    of the empty links, and everything else as it was but for the pointer out of
    the tail. *)
Definition tail_post s (l2 : list addr) (ll : option addr) (fs : list addr) m'
    (free' : option addr) : Prop :=
  exists fs', seg m' free' fs' None /\ NoDup fs' /\ (forall a, a ∈ fs' -> a ∈ l2 \/ a ∈ fs) /\
    (forall a, a ∉ l2 -> ll <> Some a -> m' !! a = s_links s !! a) /\
    (forall p l, ll = Some p -> s_links s !! p = Some l -> exists n, m' !! p = Some (set_next n l)).

Lemma tail_post_move s a l2 ll (free : option addr) fs l' m' free' :
  let m1 := <[a := l']> (s_links s) in
  (forall p, ll = Some p -> p <> a) ->
  tail_post (store_with s m1) l2 ll (match free with Some _ => a :: fs | None => [] end) m' free' ->
  tail_post s (a :: l2) ll fs m' free'.
Proof.
  intros m1 Hpa (fs' & Hs' & Hnd' & Hsub & Hfr & Hp). exists fs'.
  split_and!; [done|done| | |].
  - intros x Hx. destruct (Hsub _ Hx) as [Hx'|Hx']; [by left; right|].
    destruct (free : option addr); [|by apply not_elem_of_nil in Hx'].
    apply elem_of_cons in Hx' as [->|Hx']; [left; by left|by right].
  - intros x [Hxa Hx]%not_elem_of_cons Hxl. rewrite Hfr by done. apply lookup_insert_ne. done.
  - intros p lp Hp' Hlp. apply (Hp p lp Hp'). simpl. unfold m1.
    by rewrite lookup_insert_ne by (apply not_eq_sym; auto).
Qed.

Lemma tail_post_free s a l2 p n lp fs m' free' :
  let m1 := delete a (<[p := set_next n lp]> (s_links s)) in
  s_links s !! p = Some lp -> p <> a ->
  tail_post (store_with s m1) l2 (Some p) fs m' free' -> tail_post s (a :: l2) (Some p) fs m' free'.
Proof.
  intros m1 Hlp Hpa (fs' & Hs' & Hnd' & Hsub & Hfr & Hp). exists fs'.
  split_and!; [done|done| | |].
  - intros x Hx. destruct (Hsub _ Hx); [left; by right|by right].
  - intros x [Hxa Hx]%not_elem_of_cons Hxl. rewrite Hfr by done. simpl. unfold m1.
    rewrite lookup_delete_ne by done. apply lookup_insert_ne. congruence.
  - intros p' lp' [= <-] Hlp'. simplify_eq. destruct (Hp p (set_next n lp) eq_refl) as [n' Hn].
    + simpl. unfold m1. rewrite lookup_delete_ne by done. apply lookup_insert_eq.
    + exists n'. by rewrite Hn.
Qed.

(** Over empty links it changes only them and the link before, and keeps a free
    list. *)
Lemma tail_loop_empty l2 : forall fuel cl ll free fs tag s,
  seg (s_links s) cl l2 None -> NoDup l2 -> (length l2 <= fuel)%nat ->
  Forall (fun b => buf_ok b /\ buf_bytes b = []) (bufs (s_links s) l2) ->
  seg (s_links s) free fs None -> NoDup fs -> l2 ## fs ->
  (forall p, ll = Some p -> p ∉ l2 /\ p ∉ fs /\ is_Some (s_links s !! p)) ->
  exists m' free', tail_loop fuel cl ll free tag s = Ret ((ll, free'), store_with s m') /\
    tail_post s l2 ll fs m' free'.
Proof.
  induction l2 as [|a l2 IH]; intros fuel cl ll free fs tag s Hs Hnd Hfuel Hok Hfree Hfs Hdisj Hll.
  { simpl in Hs. subst cl. exists (s_links s), free. split; [by destruct fuel, s|].
    exists fs. split_and!; [done|done|auto|done|]. intros p l _ Hl. exists (cl_next l). by destruct l. }
  simpl in Hs. destruct Hs as (-> & l & Hl & Hs).
  destruct fuel as [|fuel]; simpl in Hfuel; [lia|].
  apply NoDup_cons in Hnd as [Ha Hnd]. rewrite (bufs_cons _ _ _ _ Hl) in Hok.
  apply Forall_cons in Hok as [[Hok1 He1] Hok].
  assert (Hpa : forall p, ll = Some p -> p <> a)
    by (intros p Hp ->; destruct (Hll _ Hp) as [Hn _]; apply Hn; by left).
  assert (Hafs : a ∉ fs) by (intros Hx; apply (Hdisj a); [by left|done]).
  assert (Hd2 : l2 ## fs) by (intros x Hx; apply Hdisj; by right).
  destruct (decide (b_tag (cl_buf l) = tag)) as [Ht|Ht].
  - rewrite (tail_loop_move _ _ _ _ Hl Hok1 He1) by done.
    set (l' := set_next free (on_buf (set_window 0 0) l)). set (m1 := <[a := l']> (s_links s)).
    assert (Hm1 : forall x, x <> a -> m1 !! x = s_links s !! x)
      by (intros x Hx; unfold m1; by rewrite lookup_insert_ne).
    set (fs1 := match free with Some _ => a :: fs | None => [] end).
    edestruct (IH fuel (cl_next l) ll (match free with Some _ => Some a | None => None end) fs1 tag
      (store_with s m1)) as (m' & free' & E & Hpost); [..|exists m', free'; split; [exact E|]].
    + apply (seg_frame (s_links s)); [|done]. intros x Hx. apply Hm1. by intros ->.
    + done.
    + lia.
    + simpl. rewrite (bufs_frame (s_links s) m1); [done|]. intros x Hx. apply Hm1. by intros ->.
    + unfold fs1. destruct free as [f|]; [|done]. split; [done|]. exists l'.
      split; [simpl; unfold m1; by rewrite lookup_insert_eq|].
      apply (seg_frame (s_links s)); [|done]. intros x Hx. apply Hm1. by intros ->.
    + unfold fs1. destruct free; [by apply NoDup_cons|constructor].
    + unfold fs1. destruct free; [|by intros x _ ?%not_elem_of_nil].
      intros x Hx [->|Hxf]%elem_of_cons; [done|by apply (Hd2 x)].
    + intros p Hp'. destruct (Hll _ Hp') as (H1 & H2 & H3). simpl. rewrite Hm1 by auto.
      split_and!; [by intros Hx; apply H1; right| |done].
      unfold fs1. destruct free; [|apply not_elem_of_nil]. apply not_elem_of_cons. auto.
    + by apply (tail_post_move _ _ _ _ free _ l').
  - destruct ll as [p|].
    2: { rewrite (tail_loop_free_first _ _ _ _ Hl Hok1 He1) by done.
         exists (delete a (s_links s)), free. split; [done|]. exists fs.
         split_and!; [|done|auto| |done].
         - apply (seg_frame (s_links s)); [|done]. intros x Hx. apply lookup_delete_ne.
           by intros <-.
         - intros x [Hxa Hx]%not_elem_of_cons _. by apply lookup_delete_ne. }
    destruct (Hll p eq_refl) as (H1 & H2 & lp & Hlp). specialize (Hpa p eq_refl).
    rewrite (tail_loop_free _ _ _ _ Hl Hok1 He1 p lp) by done.
    set (m1 := delete a (<[p := set_next (cl_next l) lp]> (s_links s))).
    assert (Hm1 : forall x, x <> a -> x <> p -> m1 !! x = s_links s !! x).
    { intros x Hx Hxp. unfold m1. rewrite lookup_delete_ne by done. by apply lookup_insert_ne. }
    assert (Hp2 : p ∉ l2) by (intros Hx; apply H1; by right).
    edestruct (IH fuel (cl_next l) (Some p) free fs tag (store_with s m1))
      as (m' & free' & E & Hpost); [..|exists m', free'; split; [exact E|]].
    + apply (seg_frame (s_links s)); [|done]. intros x Hx. apply Hm1; by intros ->.
    + done.
    + lia.
    + simpl. rewrite (bufs_frame (s_links s) m1); [done|]. intros x Hx. apply Hm1; by intros ->.
    + apply (seg_frame (s_links s)); [|done]. intros x Hx. apply Hm1; by intros ->.
    + done.
    + done.
    + intros p' [= <-]. split_and!; [done|done|]. simpl. unfold m1.
      rewrite lookup_delete_ne by done. rewrite lookup_insert_eq. by eexists.
    + by apply (tail_post_free _ _ _ _ (cl_next l) lp).
Qed.

(** ** Buffers from the free list *)

(** A buffer ready to be written with [len] bytes. *)
Definition writable (len : nat) (b : ngx_buf_t) : Prop :=
  b_pos b = 0%nat /\ b_last b = 0%nat /\ (len <= length (b_mem b))%nat /\
  b_flush b = false /\ is_eof b = false /\ b_file_size b = 0%nat /\
  (len = 0%nat \/ b_temporary b = true).

Lemma get_free_buf_ok free fs len tag s :
  seg (s_links s) free fs None -> NoDup fs ->
  exists r free' fs' m' pool',
    ngx_wasm_chain_get_free_buf free len tag true s =
      Ret ((r, free'), {| s_links := m'; s_pool := pool' |}) /\
    ((exists p2, s_pool s = true :: true :: p2) -> r <> None) /\
    (exists k, (k <= 2)%nat /\ pool' = drop k (s_pool s)) /\
    (forall nl, r = Some nl ->
       (nl ∈ fs \/ s_links s !! nl = None) /\
       (forall a, a <> nl -> m' !! a = s_links s !! a) /\
       (exists b, m' !! nl = Some {| cl_buf := b; cl_next := None |} /\ writable len b) /\
       seg m' free' fs' None /\ fs' ⊆ fs /\ nl ∉ fs' /\ NoDup fs').
Proof.
  intros Hs Hnd. unfold ngx_wasm_chain_get_free_buf. cbn match.
  assert (Hw : forall mem, (len <= length mem)%nat ->
    writable len (clean_buf mem true tag (negb (len =? 0)%nat))).
  { intros mem Hmem. split_and!; try done. destruct (Nat.eqb_spec len 0); [by left|by right]. }
  destruct fs as [|a fs]; simpl in Hs.
  - subst free. destruct s as [m [|[] [|[] pool]]]; unfold palloc; simpl.
    1,2,4-7: (eexists None, None, [], m, _; split_and!; [reflexivity|naive_solver| |done];
      first [by exists 0%nat; split; [lia|] | by exists 1%nat; split; [lia|]
            | by exists 2%nat; split; [lia|]]).
    eexists (Some _), None, [], _, _.
    split_and!; [reflexivity|done|exists 2%nat; by split; [lia|]|].
    intros nl [= <-]. pose proof (is_fresh (dom m : gset addr)) as Hfr.
    split_and!.
    + right. simpl. by apply not_elem_of_dom.
    + intros a Ha. simpl. by rewrite lookup_insert_ne by done.
    + eexists. rewrite lookup_insert_eq. split; [reflexivity|].
      destruct (Nat.eqb_spec len 0) as [->|]; split_and!; try done; try (by left); try (by right).
      simpl. rewrite length_replicate. lia.
    + done.
    + done.
    + apply not_elem_of_nil.
    + constructor.
  - destruct Hs as (-> & l & Hl & Hs). apply NoDup_cons in Hnd as [Ha Hnd]. rd Hl. wr Hl.
    set (m1 := <[a := set_next None l]> (s_links s)).
    assert (Hl1 : s_links {| s_links := m1; s_pool := s_pool s |} !! a = Some (set_next None l))
      by (simpl; unfold m1; by rewrite lookup_insert_eq).
    assert (Hfin : forall b, let m2 := <[a := {| cl_buf := b; cl_next := None |}]> m1 in
      writable len b ->
      (a ∈ a :: fs \/ s_links s !! a = None) /\
      (forall x, x <> a -> m2 !! x = s_links s !! x) /\
      (exists b, m2 !! a = Some {| cl_buf := b; cl_next := None |} /\ writable len b) /\
      seg m2 (cl_next l) fs None /\ fs ⊆ a :: fs /\ a ∉ fs /\ NoDup fs).
    { intros b m2 Hb.
      assert (Hm2 : forall x, x <> a -> m2 !! x = s_links s !! x).
      { intros x Hx. unfold m2, m1. by rewrite !lookup_insert_ne by done. }
      split_and!; [left; by left|done| | |set_solver|done|done].
      - exists b. unfold m2. by rewrite lookup_insert_eq.
      - apply (seg_frame (s_links s)); [|done]. intros x Hx. apply Hm2. by intros ->. }
    destruct (b_alloc (cl_buf l) && (len <=? length (b_mem (cl_buf l)))%nat) eqn:E.
    + erewrite SM_bind_Ret by (apply write_link_Ret; exact Hl1).
      eexists (Some a), _, fs, _, _.
      split_and!; [reflexivity|done|exists 0%nat; split; [lia|done]|].
      intros nl [= <-]. apply Hfin, Hw. apply andb_true_iff in E as [_ E].
      by apply Nat.leb_le in E.
    + erewrite SM_bind_Ret by (apply write_link_Ret; exact Hl1).
      destruct (Nat.eqb_spec len 0) as [->|Hlen]; cbn match.
      * eexists (Some a), _, fs, _, _.
        split_and!; [reflexivity|done|exists 0%nat; split; [lia|done]|].
        intros nl [= <-]. apply Hfin. split_and!; try done. by left.
      * unfold palloc at 1. unfold mbind at 1, SM_bind at 1. simpl.
        destruct (s_pool s) as [|[] pool] eqn:Ep.
        1,3: (eexists None, _, [], _, _; split_and!;
              [reflexivity|intros [p2 ?]; congruence| |done];
              first [by exists 0%nat; split; [lia|] | by exists 1%nat; split; [lia|]]).
        erewrite SM_bind_Ret by (apply write_link_Ret; simpl; apply lookup_insert_eq).
        simpl. rewrite insert_insert_eq.
        eexists (Some a), _, fs, _, _.
        split_and!; [reflexivity|done|exists 1%nat; split; [lia|done]|].
        intros nl [= <-]. apply Hfin. split_and!; try done; [|by right].
        simpl. rewrite length_replicate. lia.
Qed.

Lemma cpymem_ok a b n data s :
  s_links s !! a = Some {| cl_buf := b; cl_next := n |} -> writable (length data) b ->
  exists b', cpymem a data s =
      Ret (tt, store_with s (<[a := {| cl_buf := b'; cl_next := n |}]> (s_links s))) /\
    buf_ok b' /\ buf_bytes b' = data /\ b_flush b' = false /\ is_eof b' = false /\
    b_last_buf b' = false /\ b_last_in_chain b' = false.
Proof.
  intros Hl (Hp & Hla & Hlen & Hf & He & Hfile & Ht). unfold cpymem. rd Hl. cbn [cl_buf].
  rewrite Hla. unfold slift.
  assert (E : mem_write (b_mem b) (Z.of_nat 0) data =
    Ret (data ++ drop (length data) (b_mem b))).
  { rewrite mem_write_in by zlia.
    by replace (Z.to_nat (Z.of_nat 0 + zlen data)) with (length data) by zlia. }
  erewrite SM_bind_Ret by (rewrite E; reflexivity).
  erewrite write_link_Ret by exact Hl. eexists. split; [reflexivity|]. simpl.
  rewrite Hla, Hp. apply orb_false_iff in He as [He1 He2]. split_and!; try done.
  - split; simpl; [rewrite length_app; lia|]. destruct Ht as [Ht|Ht].
    + right. split; [lia|done].
    + left. unfold ngx_buf_in_memory. simpl. by rewrite Ht.
  - unfold buf_bytes. simpl. rewrite Nat.sub_0_r, drop_0. by rewrite take_app_length.
  - unfold is_eof. simpl. by rewrite He1, He2.
Qed.

(** ** Extending *)

(** What precedes [at] and the new data, on the links [ls']; only the last buffer
    carries the end flags, when some buffer did. *)
Definition extended m (ls : list addr) (at_ : nat) (str : bytes) m' (ls' : list addr) : Prop :=
  content m' ls' = take at_ (content m ls) ++ str /\
  Forall buf_ok (bufs m' ls') /\
  exists k nl b, ls' = k ++ [nl] /\ bufs m' [nl] = [b] /\
    Forall (fun b => is_eof b = false) (bufs m' k) /\
    is_eof b = existsb is_eof (bufs m ls) /\ b_flush b = existsb b_flush (bufs m ls).

(** Linking the new buffer after the data kept. *)
Lemma link_tail m p k q nl l :
  seg m p k q -> NoDup k -> nl ∉ k -> m !! nl = Some l -> cl_next l = None ->
  match last k with
  | Some a => forall la, m !! a = Some la ->
      seg (<[a := set_next (Some nl) la]> m) p (k ++ [nl]) None /\
      (forall x, x ∈ k ++ [nl] ->
         cl_buf <$> (<[a := set_next (Some nl) la]> m) !! x = cl_buf <$> m !! x)
  | None => seg m (Some nl) (k ++ [nl]) None
  end.
Proof.
  intros Hs Hnd Hnl Hl Hn. destruct (last k) as [a|] eqn:Ek.
  - intros la Hla. apply last_Some in Ek as [k' ->].
    apply NoDup_app in Hnd as (Hnd & Hk & _).
    assert (Hak : a ∉ k') by (intros Hx; apply (Hk a Hx); by left).
    assert (Hna : nl <> a) by (intros ->; apply Hnl, elem_of_app; right; by left).
    split.
    + apply chain_seg_app in Hs as (r & Hs & Hs2). simpl in Hs2. destruct Hs2 as (-> & l' & Hl' & _).
      rewrite <- app_assoc. apply chain_seg_app. exists (Some a). split.
      * apply (seg_frame m); [|done]. intros x Hx. rewrite lookup_insert_ne; [done|by intros ->].
      * simpl. split; [done|]. exists (set_next (Some nl) la). rewrite lookup_insert_eq.
        split; [done|]. split; [done|]. exists l. by rewrite lookup_insert_ne.
    + intros x _. destruct (decide (x = a)) as [->|].
      * by rewrite lookup_insert_eq, Hla.
      * by rewrite lookup_insert_ne.
  - apply last_None in Ek as ->. simpl. split; [done|]. exists l. by rewrite Hn.
Qed.

Lemma bufs_ext m m' ls :
  (forall a, a ∈ ls -> cl_buf <$> m' !! a = cl_buf <$> m !! a) -> bufs m' ls = bufs m ls.
Proof.
  intros Hm. apply list_omap_ext. induction ls as [|a ls IH]; constructor.
  - apply Hm. by left.
  - apply IH. intros b Hb. apply Hm. by right.
Qed.

(** Only the pointer out of the last link changed. *)
Lemma seg_set_last m m' p k q :
  seg m p k q -> NoDup k ->
  (forall a, a ∈ k -> last k <> Some a -> m' !! a = m !! a) ->
  (forall a l, last k = Some a -> m !! a = Some l -> exists n, m' !! a = Some (set_next n l)) ->
  (exists q', seg m' p k q') /\ bufs m' k = bufs m k.
Proof.
  intros Hs Hnd Hfr Hlast. split.
  - destruct (last k) as [a|] eqn:Ek.
    + apply last_Some in Ek as [k' ->]. apply NoDup_app in Hnd as (_ & Hk & _).
      apply chain_seg_app in Hs as (r & Hs & Hs2). simpl in Hs2. destruct Hs2 as (-> & l & Hl & _).
      destruct (Hlast a l eq_refl Hl) as [n Hn]. exists n. apply chain_seg_app. exists (Some a). split.
      * apply (seg_frame m); [|done]. intros x Hx. apply Hfr; [set_solver|].
        intros [= ->]. apply (Hk x Hx). by left.
      * simpl. split; [done|]. eauto.
    + apply last_None in Ek as ->. eauto.
  - apply bufs_ext. intros a Ha. destruct (decide (last k = Some a)) as [E|E].
    + destruct (seg_dom _ _ _ _ _ Hs Ha) as [l Hl].
      destruct (Hlast a l E Hl) as [n Hn]. by rewrite Hl, Hn.
    + by rewrite Hfr.
Qed.

(** Truncating and finding the tail: [l1] is what is kept, the free list stays
    apart from it. *)
Lemma truncated_ok debug s cin ls at_ free fs tag :
  seg (s_links s) cin ls None -> NoDup ls -> Forall buf_ok (bufs (s_links s) ls) ->
  (at_ = 0%nat \/ Forall nonempty (bufs (s_links s) ls)) ->
  seg (s_links s) free fs None -> NoDup fs -> ls ## fs ->
  exists m1 fill m2 l1 free' fs',
    ngx_wasm_chain_clear debug cin at_ false false s =
      Ret ((fill, existsb is_eof (bufs (s_links s) ls), existsb b_flush (bufs (s_links s) ls)),
           store_with s m1) /\
    tail_loop (links_fuel (store_with s m1)) cin None free tag (store_with s m1) =
      Ret ((last l1, free'), store_with s m2) /\
    (exists q, seg m2 cin l1 q) /\ NoDup l1 /\ (l1 = [] \/ exists a, cin = Some a) /\
    Forall clean (bufs m2 l1) /\ content m2 l1 = take at_ (content (s_links s) ls) /\
    seg m2 free' fs' None /\ NoDup fs' /\ l1 ## fs' /\
    (forall a, a ∈ l1 -> is_Some (m2 !! a)).
Proof.
  intros Hs Hnd Hok Hne Hfree Hfs Hdisj.
  destruct (clear_loop_ok at_ ls (links_fuel s) cin 0 false false s) as
    (m1 & l1 & l2 & pos & E & Hpos & -> & Hs1 & Hfr1 & Hcl & Hn1 & He2 & Hc); try done; try lia.
  { pose proof (seg_fuel _ _ _ _ Hs Hnd). unfold links_fuel. lia. }
  { intros Hlt. destruct Hne as [->|]; [lia|done]. }
  rewrite !orb_false_l in E. rewrite Nat.sub_0_r in Hc.
  pose proof (seg_fuel _ _ _ _ Hs1 Hnd) as Hfuel. rewrite length_app in Hfuel.
  pose proof Hs1 as (q & Hsl1 & Hsl2)%chain_seg_app.
  rewrite bufs_app in Hcl. apply Forall_app in Hcl as [Hcl1 Hcl2].
  apply NoDup_app in Hnd as Hnd'. destruct Hnd' as (Hnd1 & H12 & Hnd2).
  assert (Hok1 : Forall buf_ok (bufs m1 l1)).
  { eapply Forall_weaken; [exact Hcl1|]. by intros b []. }
  destruct (tail_loop_empty l2 (links_fuel (store_with s m1) - length l1) q (last l1) free fs tag
    (store_with s m1)) as (m2 & free' & Et & fs' & Hfs' & Hndf & Hsub & Hfr2 & Hset); simpl.
  { done. } { done. } { unfold links_fuel. simpl. lia. }
  { rewrite Forall_elem in Hcl2, He2 |- *. intros b Hb. split; [apply Hcl2|apply He2]; done. }
  { apply (seg_frame (s_links s)); [|done]. intros a Ha. apply Hfr1. intros Hx.
    by apply (Hdisj a). }
  { done. } { intros a Ha. apply Hdisj. apply elem_of_app. by right. }
  { intros p [k' ->]%last_Some. assert (Hp : p ∈ k' ++ [p]) by set_solver. split_and!.
    - by apply H12.
    - intros Hf. apply (Hdisj p); [|done]. apply elem_of_app. by left.
    - exact (seg_dom _ _ _ _ _ Hsl1 Hp). }
  destruct (seg_set_last m1 m2 cin l1 q) as [[q' Hq'] Hb]; [done|done| | |].
  { intros a Ha Hl. apply Hfr2; [by apply H12|done]. }
  { intros a l Hl Hla. by apply (Hset a l). }
  assert (Etail : tail_loop (links_fuel (store_with s m1)) cin None free tag (store_with s m1) =
    Ret ((last l1, free'), store_with s m2)).
  { replace (links_fuel (store_with s m1)) with
      (length l1 + (links_fuel (store_with s m1) - length l1))%nat
      by (unfold links_fuel; cbn [store_with s_links]; lia).
    rewrite (tail_loop_data l1 _ cin q None free tag (store_with s m1) Hsl1 Hok1 Hn1).
    destruct (last l1); exact Et. }
  eexists m1, _, m2, l1, free', fs'. split_and!.
  - unfold ngx_wasm_chain_clear. erewrite SM_bind_Ret by exact E. cbn match.
    replace (pos + (if (pos <? at_)%nat then at_ - pos else 0) =? at_)%nat with true;
      [erewrite SM_bind_Ret by (destruct debug; reflexivity); reflexivity|].
    symmetry. apply Nat.eqb_eq. case_match eqn:El; [apply Nat.ltb_lt in El|apply Nat.ltb_ge in El]; lia.
  - exact Etail.
  - by exists q'.
  - done.
  - destruct l1 as [|a l1]; [by left|right]. destruct Hsl1 as [-> _]. by exists a.
  - by rewrite Hb.
  - unfold content at 1. by rewrite Hb.
  - done.
  - done.
  - intros a Ha Hf. destruct (Hsub a Hf) as [H2|H2].
    + by apply (H12 a Ha).
    + apply (Hdisj a); [|done]. apply elem_of_app. by left.
  - intros a Ha. by eapply seg_dom.
Qed.

(** The new buffer, written and flagged. *)
Lemma write_tail_ok nl str eof flush b s :
  s_links s !! nl = Some {| cl_buf := b; cl_next := None |} -> writable (length str) b ->
  exists b' m', (cpymem nl str;;
     (if (flush : bool) then
        write_link nl (on_buf (fun b => set_flags true (b_last_buf b) (b_last_in_chain b) b))
      else mret tt);;
     (if (eof : bool) then write_link nl (on_buf (fun b => set_flags (b_flush b) true true b))
      else mret tt)) s = Ret (tt, store_with s m') /\
    m' !! nl = Some {| cl_buf := b'; cl_next := None |} /\
    (forall a, a <> nl -> m' !! a = s_links s !! a) /\
    buf_ok b' /\ buf_bytes b' = str /\ is_eof b' = eof /\ b_flush b' = flush.
Proof.
  intros Hl Hw. destruct (cpymem_ok _ _ _ _ _ Hl Hw) as (b1 & E & Hok & Hb & Hf & He & He1 & He2).
  erewrite SM_bind_Ret by exact E.
  set (m1 := <[nl := {| cl_buf := b1; cl_next := None |}]> (s_links s)).
  assert (Hm1 : m1 !! nl = Some {| cl_buf := b1; cl_next := None |})
    by (unfold m1; by rewrite lookup_insert_eq).
  assert (Hoth : forall b2 a, a <> nl ->
    <[nl := {| cl_buf := b2; cl_next := None |}]> m1 !! a = s_links s !! a)
    by (intros b2 a Ha; unfold m1; by rewrite !lookup_insert_ne by done).
  destruct flush.
  - erewrite SM_bind_Ret by (apply write_link_Ret; exact Hm1). simpl.
    destruct eof.
    + erewrite write_link_Ret by (simpl; apply lookup_insert_eq).
      eexists _, _. split; [reflexivity|]. simpl. rewrite insert_insert_eq, lookup_insert_eq.
      split_and!; [reflexivity|apply Hoth|exact Hok|exact Hb|done|done].
    + eexists _, _. split; [reflexivity|]. simpl. rewrite lookup_insert_eq.
      split_and!; [reflexivity|apply Hoth|exact Hok|exact Hb|exact He|done].
  - erewrite SM_bind_Ret by reflexivity. destruct eof.
    + erewrite write_link_Ret by exact Hm1.
      eexists _, _. split; [reflexivity|]. simpl. rewrite lookup_insert_eq.
      split_and!; [reflexivity|apply Hoth|exact Hok|exact Hb|done|exact Hf].
    + eexists _, _. split; [reflexivity|]. simpl. unfold m1. rewrite lookup_insert_eq.
      split_and!; [reflexivity|intros; by rewrite lookup_insert_ne|done|exact Hb|exact He|exact Hf].
Qed.

Lemma extended_intro m ls at_ str m2 k m5 nl b :
  content m2 k = take at_ (content m ls) -> Forall clean (bufs m2 k) ->
  (forall x, x ∈ k -> cl_buf <$> m5 !! x = cl_buf <$> m2 !! x) ->
  cl_buf <$> m5 !! nl = Some b -> buf_ok b -> buf_bytes b = str ->
  is_eof b = existsb is_eof (bufs m ls) -> b_flush b = existsb b_flush (bufs m ls) ->
  extended m ls at_ str m5 (k ++ [nl]).
Proof.
  intros Hc Hcl Hk Hnl Hok Hb He Hf.
  assert (E : bufs m5 [nl] = [b]) by (unfold bufs; simpl; by rewrite Hnl).
  pose proof (bufs_ext m2 m5 k Hk) as Ek.
  assert (Hc5 : content m5 k = content m2 k) by (unfold content; by rewrite Ek).
  unfold extended. rewrite content_app, Hc5, Hc.
  rewrite bufs_app, Ek, E. split_and!.
  - unfold content at 2. rewrite E. simpl. by rewrite Hb, app_nil_r.
  - apply Forall_app. split; [|constructor; [exact Hok|constructor]].
    eapply Forall_weaken; [exact Hcl|]. by intros ? [].
  - exists k, nl, b. rewrite Ek. split_and!; try done.
    eapply Forall_weaken; [exact Hcl|]. by intros ? (_ & _ & ?).
Qed.

(** Setting a chain from an offset: it holds the first [at] bytes of the old one and
    then the new data, its last buffer carries the flags the old chain carried, and
    the free list stays apart from it.  It fails only when the pool does.  This
    needs that no buffer of the old chain is empty, unless everything is replaced. *)
Lemma chain_append_ok debug s cin ls at_ str free fs tag
  (Hs : seg (s_links s) cin ls None) (Hnd : NoDup ls)
  (Hok : Forall buf_ok (bufs (s_links s) ls))
  (Hne : at_ = 0%nat \/ Forall nonempty (bufs (s_links s) ls))
  (Hfree : seg (s_links s) free fs None) (Hfs : NoDup fs) (Hdisj : ls ## fs) :
  exists rc cin' free' s',
    ngx_wasm_chain_append debug cin at_ str free tag false s = Ret ((rc, cin', free'), s') /\
    ((rc = NGX_OK /\ exists ls' fs', seg (s_links s') cin' ls' None /\ NoDup ls' /\
        extended (s_links s) ls at_ str (s_links s') ls' /\
        seg (s_links s') free' fs' None /\ ls' ## fs') \/
     (rc = NGX_ERROR /\ ~ exists p, s_pool s = true :: true :: p)).
Proof.
  destruct (truncated_ok debug s cin ls at_ free fs tag) as
    (m1 & fill & m2 & k & fr2 & fs2 & E1 & E2 & [q Hq] & Hk & Hcin & Hcl & Hc & Hf2 & Hnd2 & Hd2
     & Hdom); try done.
  unfold ngx_wasm_chain_append. erewrite SM_bind_Ret by exact E1. cbn match.
  erewrite SM_bind_Ret by exact E2. cbn match. rewrite Nat.add_0_r.
  destruct (get_free_buf_ok fr2 fs2 (length str) tag (store_with s m2) Hf2 Hnd2) as
    (r & fr3 & fs3 & m3 & pool & E3 & Hpool & _ & Hr).
  erewrite SM_bind_Ret by exact E3. cbn match. destruct r as [nl|].
  2: { eexists _, _, _, _. split; [reflexivity|]. right. split; [done|].
       intros Hp. by apply Hpool. }
  destruct (Hr nl eq_refl) as (Hin & Hm3 & (b & Hb & Hw) & Hf3 & Hsub & Hnl3 & _). clear Hr Hpool.
  assert (Hnlk : nl ∉ k).
  { intros Hx. destruct Hin as [Hin|Hin]; [by apply (Hd2 nl)|].
    destruct (Hdom nl Hx) as [l Hl]. simpl in Hin. congruence. }
  erewrite SM_bind_Ret by (destruct debug; reflexivity). rewrite Nat.eqb_refl.
  erewrite SM_bind_Ret by (destruct debug; reflexivity).
  destruct (write_tail_ok nl str (existsb is_eof (bufs (s_links s) ls))
    (existsb b_flush (bufs (s_links s) ls)) b {| s_links := m3; s_pool := pool |} Hb Hw)
    as (b' & m4 & E4 & Hb' & Hm4 & Kok & Kb & Ke & Kf).
  simpl in Hm3, Hm4.
  match type of E4 with (?a ≫= _) ?st = _ => set (T := a) in *; set (st0 := st) in * end.
  apply SM_bind_Ret_inv in E4 as ([] & s4 & E4 & E5).
  erewrite SM_bind_Ret by exact E4. apply SM_bind_Ret_inv in E5 as ([] & s5 & E5 & E6).
  erewrite SM_bind_Ret by exact E5. erewrite SM_bind_Ret by exact E6.
  assert (Hm : forall a, a <> nl -> m4 !! a = m2 !! a)
    by (intros a Ha; rewrite Hm4, Hm3 by done; done).
  assert (Hkm : forall a, a ∈ k -> m4 !! a = m2 !! a)
    by (intros a Ha; apply Hm; by intros ->).
  assert (Hq4 : seg m4 cin k q) by (by apply (seg_frame m2)).
  pose proof (link_tail m4 cin k q nl _ Hq4 Hk Hnlk Hb' eq_refl) as Hlink.
  assert (Hseg3 : forall m5, (forall a, a ∈ fs3 -> m5 !! a = m4 !! a) -> seg m5 fr3 fs3 None).
  { intros m5 H5. apply (seg_frame m3); [|done]. intros a Ha. rewrite H5, Hm4 by set_solver. done. }
  assert (Hext : forall m5, (forall x, x ∈ k ++ [nl] -> cl_buf <$> m5 !! x = cl_buf <$> m4 !! x) ->
    extended (s_links s) ls at_ str m5 (k ++ [nl])).
  { intros m5 H5. apply (extended_intro _ _ _ _ m2 _ _ _ b'); try done.
    - intros x Hx. rewrite H5, Hkm by set_solver. done.
    - rewrite H5, Hb' by set_solver. done. }
  assert (Hnd5 : NoDup (k ++ [nl])).
  { apply NoDup_app. split_and!; [done| |apply NoDup_singleton]. set_solver. }
  assert (Hd5 : k ++ [nl] ## fs3) by (intros a; specialize (Hd2 a); set_solver).
  destruct (last k) as [p|] eqn:Ek.
  - assert (Hp : p ∈ k) by (apply last_Some in Ek as [k' ->]; set_solver).
    destruct (Hdom p Hp) as [lp Hlp]. rewrite <- Hkm in Hlp by done.
    destruct (Hlink lp Hlp) as [Hl1 Hl2].
    erewrite SM_bind_Ret by (apply write_link_Ret; exact Hlp).
    eexists _, _, _, _. split; [reflexivity|]. left. split; [done|]. exists (k ++ [nl]), fs3.
    split_and!; [exact Hl1|done|by apply Hext| |done]. apply Hseg3. intros a Ha. simpl.
    rewrite lookup_insert_ne; [done|]. intros <-. apply (Hd2 p); [done|]. by apply Hsub.
  - eexists _, _, _, _. split; [reflexivity|]. left. split; [done|].
    apply last_None in Ek as Ek'. exists (k ++ [nl]), fs3.
    split_and!; [exact Hlink|done|by apply Hext|by apply Hseg3|done].
Qed.

(** Prepending: the new data precedes the old chain, which is unchanged. *)
Lemma chain_prepend_content s cin ls str free fs tag
  (Hs : seg (s_links s) cin ls None) (Hfree : seg (s_links s) free fs None) (Hfs : NoDup fs)
  (Hdisj : ls ## fs) :
  exists rc cin' free' s',
    ngx_wasm_chain_prepend cin str free tag s = Ret ((rc, cin', free'), s') /\
    ((rc = NGX_OK /\ exists nl b, seg (s_links s') cin' (nl :: ls) None /\ nl ∉ ls /\
        bufs (s_links s') (nl :: ls) = b :: bufs (s_links s) ls /\ buf_ok b /\ is_eof b = false /\
        content (s_links s') (nl :: ls) = str ++ content (s_links s) ls) \/
     (rc = NGX_ERROR /\ ~ exists p, s_pool s = true :: true :: p)).
Proof.
  destruct (get_free_buf_ok free fs (length str) tag s Hfree Hfs) as
    (r & fr & fs' & m & pool & E & Hpool & _ & Hr).
  unfold ngx_wasm_chain_prepend. erewrite SM_bind_Ret by exact E. cbn match.
  destruct r as [nl|].
  2: { eexists _, _, _, _. split; [reflexivity|]. right. split; [done|].
       intros Hp. by apply Hpool. }
  destruct (Hr nl eq_refl) as (Hin & Hm & (b & Hb & Hw) & _). clear Hr Hpool.
  assert (Hnl : nl ∉ ls).
  { intros Hx. destruct Hin as [Hin|Hin]; [by apply (Hdisj nl)|].
    destruct (seg_dom _ _ _ _ _ Hs Hx) as [l Hl]. congruence. }
  destruct (cpymem_ok nl b None str {| s_links := m; s_pool := pool |} Hb Hw)
    as (b' & Ec & Kok & Kb & _ & Ke & _).
  erewrite SM_bind_Ret by exact Ec.
  erewrite SM_bind_Ret by (apply write_link_Ret; simpl; apply lookup_insert_eq).
  eexists _, _, _, _. split; [reflexivity|]. left. split; [done|]. exists nl, b'.
  assert (Hls : forall a, a ∈ ls -> <[nl := {| cl_buf := b'; cl_next := cin |}]> m !! a
    = s_links s !! a).
  { intros a Ha. rewrite lookup_insert_ne, Hm; [done| |]; by intros ->. }
  simpl. rewrite insert_insert_eq. unfold set_next. simpl. split_and!; [done| |done| |done|done|].
  - eexists. rewrite lookup_insert_eq. split; [reflexivity|]. by apply (seg_frame (s_links s)).
  - match goal with |- ?l = _ => change l with (bufs (<[nl := {| cl_buf := b'; cl_next := cin |}]> m) (nl :: ls)) end.
    rewrite (bufs_cons _ _ {| cl_buf := b'; cl_next := cin |}) by apply lookup_insert_eq.
    by rewrite (bufs_frame (s_links s)).
  - rewrite (content_cons _ _ {| cl_buf := b'; cl_next := cin |}) by apply lookup_insert_eq.
    simpl. by rewrite Kb, (content_frame (s_links s)).
Qed.

(** The length of a chain is that of its bytes, when only its last buffer may
    carry an end flag. *)
Lemma chain_len_loop_ok ls : forall fuel p len eof s,
  seg (s_links s) p ls None -> (length ls <= fuel)%nat ->
  Forall buf_ok (bufs (s_links s) ls) ->
  (forall k a, ls = k ++ [a] -> Forall (fun b => is_eof b = false) (bufs (s_links s) k)) ->
  chain_len_loop fuel p len eof s =
    Ret (((len + length (content (s_links s) ls))%nat,
          if existsb is_eof (bufs (s_links s) ls) then (fun _ => true) <$> eof else eof), s).
Proof.
  induction ls as [|a ls IH]; intros fuel p len eof s Hs Hfuel Hok Hlast; simpl in Hs.
  - subst p. unfold content. simpl. rewrite Nat.add_0_r. by destruct fuel.
  - destruct Hs as (-> & l & Hl & Hs). destruct fuel as [|fuel]; simpl in Hfuel; [lia|].
    rewrite (bufs_cons _ _ _ _ Hl) in *. apply Forall_cons in Hok as [Hok1 Hok].
    cbn [chain_len_loop]. rd Hl. rewrite ngx_buf_size_bytes by done.
    rewrite (content_cons _ _ _ _ Hl), length_app. simpl.
    destruct (is_eof (cl_buf l)) eqn:He; simpl.
    + destruct (decide (ls = [])) as [->|Hne].
      * unfold content. simpl. by rewrite Nat.add_0_r.
      * exfalso. apply exists_last in Hne as (k & b & ->).
        specialize (Hlast (a :: k) b eq_refl). rewrite (bufs_cons _ _ _ _ Hl) in Hlast.
        apply Forall_cons in Hlast as [Hlast _]. congruence.
    + rewrite IH; [by rewrite Nat.add_assoc|done|lia|done|].
      intros k b ->. specialize (Hlast (a :: k) b eq_refl).
      rewrite (bufs_cons _ _ _ _ Hl) in Hlast. by apply Forall_cons in Hlast as [_ ?].
Qed.

Lemma chain_len_content p ls eof s :
  seg (s_links s) p ls None -> NoDup ls -> Forall buf_ok (bufs (s_links s) ls) ->
  (forall k a, ls = k ++ [a] -> Forall (fun b => is_eof b = false) (bufs (s_links s) k)) ->
  ngx_wasm_chain_len p eof s =
    Ret ((length (content (s_links s) ls),
          if existsb is_eof (bufs (s_links s) ls) then (fun _ => true) <$> eof else eof), s).
Proof.
  intros Hs Hnd Hok Hlast. pose proof (seg_fuel _ _ _ _ Hs Hnd).
  exact (chain_len_loop_ok ls (links_fuel s) p 0 eof s Hs ltac:(unfold links_fuel; lia) Hok Hlast).
Qed.

End Chains.

(** ** Executions *)

Module ChainRuns.
Import Chains.

(** A full buffer. *)
Definition data_buf (d : bytes) (tag : Z) : ngx_buf_t :=
  set_window 0 (length d) (clean_buf d true tag true).

(** The buffers linked in order from an address. *)
Fixpoint link_from (base : positive) (l : list ngx_buf_t) : gmap addr ngx_chain_t :=
  match l with
  | [] => ∅
  | b :: l =>
      <[base := {| cl_buf := b;
                   cl_next := match l with [] => None | _ => Some (Pos.succ base) end |}]>
        (link_from (Pos.succ base) l)
  end.

Fixpoint walk (n : nat) (m : gmap addr ngx_chain_t) (p : option addr) : option bytes :=
  match p, n with
  | None, _ => Some []
  | Some _, O => None
  | Some a, S n =>
      match m !! a with
      | Some l => app (buf_bytes (cl_buf l)) <$> walk n m (cl_next l)
      | None => None
      end
  end.

(** The body after [ngx_wasm_chain_append] with tag 7 and an empty free list. *)
Definition append_to (l : list ngx_buf_t) (at_ : nat) (str : bytes) : option (ngx_rc * bytes) :=
  match ngx_wasm_chain_append true (Some 1%positive) at_ str None 7 false
          {| s_links := link_from 1 l; s_pool := [true; true] |} with
  | Ret ((rc, cin, _), s) => pair rc <$> walk 10 (s_links s) cin
  | Fault _ => None
  end.

Example append_replaces_from_the_middle :
  append_to [data_buf (ngx_string "abc") 7; data_buf (ngx_string "def") 7] 4 (ngx_string "XYZ")
  = Some (NGX_OK, ngx_string "abcdXYZ").
Proof. by vm_compute. Qed.

(** An empty first buffer of another owner ends the search of the tail: what
    precedes the offset is lost. *)
Example append_drops_data_after_an_empty_buffer :
  append_to [data_buf [] 3; data_buf (ngx_string "def") 7] 3 (ngx_string "XYZ")
  = Some (NGX_OK, ngx_string "XYZ").
Proof. by vm_compute. Qed.

(** An empty buffer of the same owner is not unlinked: what follows it, the new
    data included, is lost. *)
Example append_loses_the_new_data :
  append_to [data_buf (ngx_string "ab") 7; data_buf [] 7; data_buf (ngx_string "def") 7] 5
    (ngx_string "XYZ")
  = Some (NGX_OK, ngx_string "ab").
Proof. by vm_compute. Qed.

Definition two_links : store :=
  {| s_links := link_from 1 [data_buf (ngx_string "abc") 7; data_buf (ngx_string "def") 7];
     s_pool := [true; true] |}.

End ChainRuns.
