(* ===== verification/BodyFilter.v ===== *)
(** * Buffering of response bodies

    src/src/http/ngx_http_wasm_filter_module.c: the body filter runs the filters of
    a request on each chunk of a response and, once one of them asked for it, copies
    the chunks into buffers until the end of the response or until they are full. *)
From S2P Require Import Prelude NginxCore Chains.
From stdpp Require Export list gmap.
#[global] Open Scope Z_scope.

Module BodyFilter.
Import Chains.

(** ** Data *)

(** The fields of the request context the filter uses.  [rx_data] is whether
    [rctx->data] is set, [rx_main] whether [rctx->r] is the main request. *)
Record ngx_http_wasm_req_ctx_t := {
  rx_free_bufs : option addr;
  rx_resp_bufs : option addr;
  rx_resp_buf_last : option addr;
  rx_resp_bufs_count : nat;
  rx_resp_chunk : option addr;
  rx_resp_chunk_len : nat;
  rx_resp_chunk_eof : bool;
  rx_resp_buffering : bool;
  rx_resp_chunk_override : bool;
  rx_entered_header_filter : bool;
  rx_entered_body_filter : bool;
  rx_buf_tag : Z;
  rx_data : bool;
  rx_main : bool;
}.

Definition set_buffers (bufs last : option addr) (count : nat) (free : option addr)
    (x : ngx_http_wasm_req_ctx_t) : ngx_http_wasm_req_ctx_t :=
  {| rx_free_bufs := free; rx_resp_bufs := bufs; rx_resp_buf_last := last;
     rx_resp_bufs_count := count; rx_resp_chunk := rx_resp_chunk x;
     rx_resp_chunk_len := rx_resp_chunk_len x; rx_resp_chunk_eof := rx_resp_chunk_eof x;
     rx_resp_buffering := rx_resp_buffering x;
     rx_resp_chunk_override := rx_resp_chunk_override x;
     rx_entered_header_filter := rx_entered_header_filter x;
     rx_entered_body_filter := rx_entered_body_filter x;
     rx_buf_tag := rx_buf_tag x; rx_data := rx_data x; rx_main := rx_main x |}.

Definition set_chunk (chunk : option addr) (len : nat) (eof : bool)
    (x : ngx_http_wasm_req_ctx_t) : ngx_http_wasm_req_ctx_t :=
  {| rx_free_bufs := rx_free_bufs x; rx_resp_bufs := rx_resp_bufs x;
     rx_resp_buf_last := rx_resp_buf_last x; rx_resp_bufs_count := rx_resp_bufs_count x;
     rx_resp_chunk := chunk; rx_resp_chunk_len := len; rx_resp_chunk_eof := eof;
     rx_resp_buffering := rx_resp_buffering x;
     rx_resp_chunk_override := rx_resp_chunk_override x;
     rx_entered_header_filter := rx_entered_header_filter x;
     rx_entered_body_filter := rx_entered_body_filter x;
     rx_buf_tag := rx_buf_tag x; rx_data := rx_data x; rx_main := rx_main x |}.

Definition set_flags_rx (buffering override entered : bool) (x : ngx_http_wasm_req_ctx_t)
    : ngx_http_wasm_req_ctx_t :=
  {| rx_free_bufs := rx_free_bufs x; rx_resp_bufs := rx_resp_bufs x;
     rx_resp_buf_last := rx_resp_buf_last x; rx_resp_bufs_count := rx_resp_bufs_count x;
     rx_resp_chunk := rx_resp_chunk x; rx_resp_chunk_len := rx_resp_chunk_len x;
     rx_resp_chunk_eof := rx_resp_chunk_eof x; rx_resp_buffering := buffering;
     rx_resp_chunk_override := override;
     rx_entered_header_filter := rx_entered_header_filter x;
     rx_entered_body_filter := entered;
     rx_buf_tag := rx_buf_tag x; rx_data := rx_data x; rx_main := rx_main x |}.

(** [loc->resp_body_buffers] *)
Record ngx_bufs_t := { bf_num : nat; bf_size : nat }.

(** ** Copying a chunk into the buffers *)

Section buffer.
Context (debug : bool) (conf : ngx_bufs_t).
Abbreviation rctx := ngx_http_wasm_req_ctx_t.

(** The buffers are full: the links with data are linked as they are. *)
Fixpoint link_rest (fuel : nat) (rl : option addr) (last : addr) : SM store addr :=
  match rl with
  | None => mret last
  | Some a =>
      match fuel with
      | O => sfault F_fuel
      | S fuel =>
          l ← read_link a;
          if negb (ngx_buf_size (cl_buf l) =? 0)%nat then
            write_link last (set_next (Some a));;
            l ← read_link a;
            link_rest fuel (cl_next l) a
          else link_rest fuel (cl_next l) last
      end
  end.

(** A new buffer at the end of the buffers: [None] when the allocation failed. *)
Definition new_resp_buf (x : rctx) : SM store (option addr * rctx) :=
  '(cl, free) ← ngx_wasm_chain_get_free_buf (rx_free_bufs x) (bf_size conf) (rx_buf_tag x) true;
  let x := set_buffers (rx_resp_bufs x) (rx_resp_buf_last x) (rx_resp_bufs_count x) free x in
  match cl with
  | None => mret (None, x)
  | Some cl =>
      write_link cl (on_buf (fun b =>
        set_kind (rx_buf_tag x) (b_temporary b) true (set_window 0 0 b)));;
      write_link cl (set_next None);;
      bufs ← (match rx_resp_bufs x with
              | None => mret (Some cl)
              | Some bufs =>
                  (match rx_resp_buf_last x with
                   | Some last => write_link last (set_next (Some cl))
                   | None => mret tt
                   end);;
                  mret (Some bufs)
              end);
      mret (Some cl, set_buffers bufs (Some cl) (S (rx_resp_bufs_count x)) free x)
  end.

(** The part of the copy that fits into [cl]: its length. *)
Definition copy_part (ll cl : addr) (copy : nat) : SM store unit :=
  l ← read_link ll;
  let b := cl_buf l in
  data ← slift (mem_read (b_mem b) (Z.of_nat (b_pos b)) (Z.of_nat copy));
  c ← read_link cl;
  mem ← slift (mem_write (b_mem (cl_buf c)) (Z.of_nat (b_last (cl_buf c))) data);
  write_link cl (on_buf (set_mem mem (b_alloc (cl_buf c))));;
  write_link ll (on_buf (fun b => set_window (b_pos b + copy) (b_last b) b));;
  write_link cl (on_buf (fun b => set_window (b_pos b) (b_last b + copy) b));;
  l ← read_link ll;
  write_link cl (on_buf (set_flags (b_flush (cl_buf l)) (b_last_buf (cl_buf l))
                           (b_last_in_chain (cl_buf l)))).

(** The loop [while (n)] on the link [ll]: a code when the function returns, the
    current buffer and the context. *)
Fixpoint copy_loop (fuel : nat) (ll : addr) (n : nat) (cl : option addr) (x : rctx)
    : SM store (option ngx_rc * option addr * rctx) :=
  if (n =? 0)%nat then mret (None, cl, x)
  else
    match fuel with
    | O => sfault F_fuel
    | S fuel =>
        '(rc, cl, x) ←
          (match cl with
           | Some _ => mret (None, cl, x)
           | None =>
               if (bf_num conf <=? rx_resp_bufs_count x)%nat then
                 match rx_resp_buf_last x with
                 | Some last =>
                     last ← (fun s => link_rest (links_fuel s) (Some ll) last s);
                     mret (Some NGX_DONE, None, set_buffers (rx_resp_bufs x) (Some last)
                             (rx_resp_bufs_count x) (rx_free_bufs x) x)
                 | None => mret (Some NGX_DONE, None, x)
                 end
               else
                 '(cl, x) ← new_resp_buf x;
                 match cl with
                 | None => mret (Some NGX_ERROR, None, x)
                 | Some _ => mret (None, cl, x)
                 end
           end);
        match rc, cl with
        | None, Some c =>
            l ← read_link c;
            let avail := (length (b_mem (cl_buf l)) - b_last (cl_buf l))%nat in
            let copy := (n `min` avail)%nat in
            if (copy =? 0)%nat then copy_loop fuel ll n None x
            else
              copy_part ll c copy;;
              if (copy <? n)%nat then
                l ← read_link c;
                slift (ngx_wa_assert debug
                         (b_last (cl_buf l) =? length (b_mem (cl_buf l)))%nat);;
                copy_loop fuel ll (n - copy) None
                  (set_buffers (rx_resp_bufs x) (Some c) (rx_resp_bufs_count x) (rx_free_bufs x) x)
              else copy_loop fuel ll (n - copy) cl x
        | _, _ => mret (rc, cl, x)
        end
    end.

(** An empty link that ends the response or the chain is linked as it is. *)
Definition link_special (ll : addr) (b : ngx_buf_t) (x : rctx) : SM store rctx :=
  if is_eof b then
    match rx_resp_bufs x with
    | None => mret (set_buffers (Some ll) (rx_resp_buf_last x) (rx_resp_bufs_count x)
                      (rx_free_bufs x) x)
    | Some bufs =>
        last ← slift (deref (rx_resp_buf_last x));
        write_link last (set_next (Some ll));;
        mret (set_buffers (Some bufs) (Some ll) (rx_resp_bufs_count x) (rx_free_bufs x) x)
    end
  else mret x.

(** Every iteration on a link copies a byte or follows an allocation. *)
Definition copy_fuel (n : nat) (x : rctx) : nat := (n + bf_num conf + 2)%nat.

Fixpoint buffer_loop (fuel : nat) (ll : option addr) (cl : option addr) (x : rctx)
    : SM store (ngx_rc * rctx) :=
  match ll with
  | None => mret (NGX_OK, x)
  | Some a =>
      match fuel with
      | O => sfault F_fuel
      | S fuel =>
          l ← read_link a;
          let n := ngx_buf_size (cl_buf l) in
          x ← (if (n =? 0)%nat then link_special a (cl_buf l) x else mret x);
          '(rc, cl, x) ← copy_loop (copy_fuel n x) a n cl x;
          match rc with
          | Some rc => mret (rc, x)
          | None => l ← read_link a; buffer_loop fuel (cl_next l) cl x
          end
      end
  end.

Definition ngx_http_wasm_body_filter_buffer (x : rctx) (cin : option addr)
    : SM store (ngx_rc * rctx) :=
  (slift (ngx_wa_assert debug (rx_resp_buffering x)) : SM store unit);;
  ((fun s => buffer_loop (links_fuel s) cin (rx_resp_buf_last x) x s)
     : SM store (ngx_rc * ngx_http_wasm_req_ctx_t)).

End buffer.

(** ** The filter *)

(** What the filter calls: [ngx_wasm_ops_resume] for the body and the trailers,
    which runs the proxy-wasm filters of the request ([E] is their state) and may
    change the context; the next action of the stream; the next body filter; and
    [ngx_chain_update_chains]. *)
Class FilterEnv (E : Type) := {
  ops_resume_body : ngx_http_wasm_req_ctx_t -> SM (store * E) ngx_http_wasm_req_ctx_t;
  ops_resume_trailers : ngx_http_wasm_req_ctx_t -> SM (store * E) ngx_http_wasm_req_ctx_t;
  set_next_action_continue : E -> E;
  ngx_http_next_body_filter : option addr -> SM (store * E) ngx_rc;
  ngx_chain_update_chains : ngx_http_wasm_req_ctx_t -> SM (store * E) ngx_http_wasm_req_ctx_t;
}.

Section filter.
Context {E : Type} `{!FilterEnv E} (debug : bool) (conf : ngx_bufs_t).
(** [NGX_WASM_RESPONSE_TRAILERS] *)
Context (response_trailers : bool).

Definition on_store {A} (m : SM store A) : SM (store * E) A := fun '(s, e) =>
  match m s with
  | Ret (a, s') => Ret (a, (s', e))
  | Fault f => Fault f
  end.

(** The length of the chunk up to its end, and whether the response ends there. *)
Fixpoint scan_chunk (fuel : nat) (main : bool) (cl : option addr) (len : nat) (eof : bool)
    : SM store (nat * bool) :=
  match cl with
  | None => mret (len, eof)
  | Some a =>
      match fuel with
      | O => sfault F_fuel
      | S fuel =>
          l ← read_link a;
          let b := cl_buf l in
          let len := (len + ngx_buf_size b)%nat in
          if b_last_buf b then mret (len, true)
          else if b_last_in_chain b then mret (len, if main then eof else true)
          else scan_chunk fuel main (cl_next l) len eof
      end
  end.

Definition ngx_http_wasm_body_filter_resume (x : ngx_http_wasm_req_ctx_t) (cin : option addr)
    : SM (store * E) ngx_http_wasm_req_ctx_t :=
  '(len, eof) ← on_store (fun s =>
     scan_chunk (links_fuel s) (rx_main x) cin 0 (rx_resp_chunk_eof x) s);
  let x := set_chunk cin len eof x in
  if negb (rx_resp_buffering x) then
    (if rx_data x then fun '(s, e) => Ret (tt, (s, set_next_action_continue e))
     else mret tt);;
    ops_resume_body x
  else mret x.

Definition set_resp_buffering (v : bool) (x : ngx_http_wasm_req_ctx_t) :=
  set_flags_rx v (rx_resp_chunk_override x) (rx_entered_body_filter x) x.

(** From the label [done]. *)
Definition body_filter_done (rc : ngx_rc) (x : option ngx_http_wasm_req_ctx_t)
    : SM (store * E) (ngx_rc * option ngx_http_wasm_req_ctx_t) :=
  slift (ngx_wa_assert debug (bool_decide (rc ∈ [NGX_OK; NGX_AGAIN; NGX_ERROR])));;
  match x with
  | Some x' =>
      if is_ok rc && rx_resp_chunk_eof x' then
        x' ← ngx_chain_update_chains x'; mret (rc, Some x')
      else mret (rc, x)
  | None => mret (rc, x)
  end.

(** The chunk, or the buffers once they are complete, to the next filter. *)
Definition body_filter_next (no_parent : bool) (x : ngx_http_wasm_req_ctx_t)
    : SM (store * E) (ngx_rc * option ngx_http_wasm_req_ctx_t) :=
  rc ← ngx_http_next_body_filter (rx_resp_chunk x);
  if bool_decide (rc = NGX_ERROR) || bool_decide (rc = NGX_AGAIN)
  then body_filter_done rc (Some x)
  else
    let x := set_chunk None (rx_resp_chunk_len x) (rx_resp_chunk_eof x) x in
    x ← (if response_trailers && rx_resp_chunk_eof x && no_parent
         then ops_resume_trailers x else mret x);
    body_filter_done rc (Some x).

(** The contexts of the request and of its main request. *)
Definition filter_ctx (is_main : bool) (own main : ngx_rc * option ngx_http_wasm_req_ctx_t)
    : ngx_rc * option ngx_http_wasm_req_ctx_t :=
  let '(rc, x) := own in
  if bool_decide (rc = NGX_ERROR) then (NGX_ERROR, None)
  else if bool_decide (rc = NGX_DECLINED)
          || negb (match x with Some x => rx_entered_header_filter x | None => true end) then
    let rc := if is_main then rc else main.1 in
    if negb is_main && bool_decide (rc = NGX_ERROR) then (NGX_ERROR, x)
    else match x with
         | None =>
             if bool_decide (rc = NGX_DECLINED) then (NGX_DECLINED, None)
             else if is_main then (NGX_OK, None) else (NGX_OK, main.2)
         | Some x => (NGX_OK, Some x)
         end
  else (NGX_OK, x).

(** [own] and [main] are the results of [ngx_http_wasm_rctx] on the request and on
    its main request. *)
Definition ngx_http_wasm_body_filter_handler (is_main no_parent : bool)
    (own main : ngx_rc * option ngx_http_wasm_req_ctx_t) (cin : option addr)
    : SM (store * E) (ngx_rc * option ngx_http_wasm_req_ctx_t) :=
  let '(rc, x) := filter_ctx is_main own main in
  if bool_decide (rc = NGX_ERROR) then body_filter_done NGX_ERROR x
  else if bool_decide (rc = NGX_DECLINED) then
    rc ← ngx_http_next_body_filter cin;
    body_filter_done rc None
  else
    x ← slift (deref x);
    let cin := if rx_resp_chunk_override x then rx_resp_chunk x else cin in
    let x := set_flags_rx (rx_resp_buffering x) false true x in
    x ← ngx_http_wasm_body_filter_resume x cin;
    if rx_resp_buffering x then
      '(rc, x) ← on_store (ngx_http_wasm_body_filter_buffer debug conf x cin);
      match rc with
      | NGX_ERROR => body_filter_done NGX_ERROR (Some x)
      | NGX_OK =>
          slift (ngx_wa_assert debug (bool_decide (rx_resp_bufs x <> None)));;
          if negb (rx_resp_chunk_eof x) then body_filter_done NGX_AGAIN (Some x)
          else
            x ← ngx_http_wasm_body_filter_resume (set_resp_buffering false x) (rx_resp_bufs x);
            body_filter_next no_parent x
      | NGX_DONE =>
          x ← ngx_http_wasm_body_filter_resume (set_resp_buffering false x) (rx_resp_bufs x);
          body_filter_next no_parent x
      | _ =>
          slift (ngx_wa_assert debug false);;
          body_filter_next no_parent x
      end
    else body_filter_next no_parent x.

End filter.

(** ** Buffers as lists *)

(** The fields that buffering does not change. *)
Definition rx_kept (x : ngx_http_wasm_req_ctx_t) : bool * bool :=
  (rx_resp_buffering x, rx_data x).

(** A buffer of the filter: in memory, or without memory. *)
Definition ours (b : ngx_buf_t) : Prop :=
  buf_ok b /\ (ngx_buf_in_memory b = true \/ b_mem b = []).

(** The buffers [bs], the links [ls] still to be copied and the free list [fs] are
    apart; [cl], when set, is the last buffer. *)
Record binv (m : gmap addr ngx_chain_t) (x : ngx_http_wasm_req_ctx_t) (cl : option addr)
    (bs ls fs : list addr) : Prop := {
  bi_seg : seg m (rx_resp_bufs x) bs None;
  bi_last : rx_resp_buf_last x = last bs;
  bi_cl : cl = None \/ cl = last bs;
  bi_free : seg m (rx_free_bufs x) fs None;
  bi_nd : NoDup bs /\ NoDup ls /\ NoDup fs;
  bi_disj : bs ## ls /\ bs ## fs /\ ls ## fs;
  bi_ours : Forall ours (bufs m bs);
  bi_in : Forall buf_ok (bufs m ls);
  bi_dom : forall a, a ∈ ls -> is_Some (m !! a);
  bi_count : rx_resp_bufs_count x = 0%nat \/ bs <> [];
}.

(** Enough of the next allocations succeed for [n] buffers. *)
Definition pool_ok (pool : list bool) (n : nat) : Prop :=
  forall i, (i < 2 * n)%nat -> pool !! i = Some true.

Lemma pool_ok_drop pool n k : pool_ok pool (S n) -> (k <= 2)%nat -> pool_ok (drop k pool) n.
Proof. intros Hp Hk i Hi. rewrite lookup_drop. apply Hp. lia. Qed.

Lemma pool_ok_cons pool n : pool_ok pool (S n) -> exists p, pool = true :: true :: p.
Proof.
  intros Hp. pose proof (Hp 0%nat ltac:(lia)) as H0. pose proof (Hp 1%nat ltac:(lia)) as H1.
  destruct pool as [|b0 [|b1 p]]; simpl in *; try done. exists p. congruence.
Qed.

Lemma pool_ok_le pool n k : pool_ok pool n -> (k <= n)%nat -> pool_ok pool k.
Proof. intros Hp Hk i Hi. apply Hp. lia. Qed.

Section copying.
Context (debug : bool) (conf : ngx_bufs_t).

(** A new buffer is empty and last. *)
Lemma new_resp_buf_ok x bs ls fs s :
  binv (s_links s) x None bs ls fs ->
  exists r x' m' pool',
    new_resp_buf conf x s = Ret ((r, x'), {| s_links := m'; s_pool := pool' |}) /\
    (exists k, (k <= 2)%nat /\ pool' = drop k (s_pool s)) /\
    (pool_ok (s_pool s) 1 -> r <> None) /\
    rx_kept x' = rx_kept x /\
    (forall c, r = Some c -> exists fs' b,
       binv m' x' (Some c) (bs ++ [c]) ls fs' /\ rx_resp_bufs_count x' = S (rx_resp_bufs_count x) /\
       content m' (bs ++ [c]) = content (s_links s) bs /\
       (forall a, a ∈ ls -> m' !! a = s_links s !! a) /\
       m' !! c = Some {| cl_buf := b; cl_next := None |} /\
       ngx_buf_in_memory b = true /\ b_pos b = 0%nat /\ b_last b = 0%nat /\
       (bf_size conf <= length (b_mem b))%nat).
Proof.
  intros [Hseg Hlast _ Hfree (Hnd1 & Hnd2 & Hnd3) (Hd1 & Hd2 & Hd3) Hours Hin Hdom Hcount].
  destruct (get_free_buf_ok _ fs (bf_size conf) (rx_buf_tag x) s Hfree Hnd3) as
    (r & fr & fs' & m1 & pool & E & Hpool & Hk & Hr).
  unfold new_resp_buf. erewrite SM_bind_Ret by exact E. cbn match. destruct r as [c|].
  2: { eexists None, _, _, _. split_and!; [reflexivity|done| |done|done].
       intros Hp. apply Hpool. by apply pool_ok_cons in Hp. }
  destruct (Hr c eq_refl) as (Hc & Hm1 & (b & Hb & Hw) & Hf' & Hsub & Hcf & Hndf). clear Hr Hpool E.
  assert (Hcbs : c ∉ bs).
  { intros Hx. destruct Hc as [Hc|Hc]; [by apply (Hd2 c)|].
    destruct (seg_dom _ _ _ _ _ Hseg Hx). congruence. }
  assert (Hcls : c ∉ ls).
  { intros Hx. destruct Hc as [Hc|Hc]; [by apply (Hd3 c)|].
    destruct (Hdom _ Hx). congruence. }
  set (b1 := set_kind (rx_buf_tag x) (b_temporary b) true (set_window 0 0 b)).
  erewrite SM_bind_Ret by (apply write_link_Ret; exact Hb).
  erewrite SM_bind_Ret by (apply write_link_Ret; apply lookup_insert_eq).
  cbn [s_links s_pool]. rewrite insert_insert_eq.
  change (set_next None (on_buf (fun b0 => set_kind (rx_buf_tag _) (b_temporary b0) true
    (set_window 0 0 b0)) {| cl_buf := b; cl_next := None |}))
    with {| cl_buf := b1; cl_next := None |}.
  set (m2 := <[c := {| cl_buf := b1; cl_next := None |}]> m1).
  assert (Hm2c : m2 !! c = Some {| cl_buf := b1; cl_next := None |}) by apply lookup_insert_eq.
  assert (Hm2 : forall a, a <> c -> m2 !! a = s_links s !! a).
  { intros a Ha. unfold m2. by rewrite lookup_insert_ne, Hm1. }
  assert (Hm2l : forall a, a ∈ ls -> m2 !! a = s_links s !! a)
    by (intros a Ha; apply Hm2; by intros ->).
  assert (Hm2b : forall a, a ∈ bs -> m2 !! a = s_links s !! a)
    by (intros a Ha; apply Hm2; by intros ->).
  assert (Hb1 : buf_bytes b1 = []) by done.
  assert (Hours1 : ours b1).
  { split; [split; simpl; [lia|]|]; left; unfold ngx_buf_in_memory; simpl; by rewrite orb_true_r. }
  (* the state after the link, for the three ways to make it *)
  assert (Hfin : forall m3, seg m3 (match rx_resp_bufs x with Some p => Some p | None => Some c end)
      (bs ++ [c]) None ->
    (forall a, a ∈ bs -> cl_buf <$> m3 !! a = cl_buf <$> m2 !! a) ->
    (forall a, a ∉ bs -> m3 !! a = m2 !! a) ->
    let x' := set_buffers (match rx_resp_bufs x with Some p => Some p | None => Some c end)
      (Some c) (S (rx_resp_bufs_count x)) fr x in
    binv m3 x' (Some c) (bs ++ [c]) ls fs' /\ rx_resp_bufs_count x' = S (rx_resp_bufs_count x) /\
    content m3 (bs ++ [c]) = content (s_links s) bs /\
    (forall a, a ∈ ls -> m3 !! a = s_links s !! a) /\
    m3 !! c = Some {| cl_buf := b1; cl_next := None |}).
  { intros m3 Hs3 Hb3 Hm3.
    assert (Hbufs : bufs m3 (bs ++ [c]) = bufs (s_links s) bs ++ [b1]).
    { rewrite bufs_app. f_equal.
      - rewrite (bufs_ext m2 m3) by done. by apply bufs_frame.
      - by rewrite (bufs_cons _ _ {| cl_buf := b1; cl_next := None |}) by (by rewrite Hm3). }
    assert (Hl3 : forall a, a ∈ ls -> m3 !! a = s_links s !! a).
    { intros a Ha. rewrite Hm3; [by apply Hm2l|]. intros Hx. by apply (Hd1 a). }
    split_and!; [|done| |done|by rewrite Hm3].
    - split; simpl; try done.
      + by rewrite last_snoc.
      + rewrite last_snoc. by right.
      + apply (seg_frame m1); [|done]. intros a Ha. rewrite Hm3.
        * unfold m2. rewrite lookup_insert_ne; [done|]. by intros ->.
        * intros Hx. apply (Hd2 a); [done|]. by apply Hsub.
      + split_and!; [|done|done]. apply NoDup_app. split_and!; [done| |apply NoDup_singleton].
        intros a Ha ->%list_elem_of_singleton. done.
      + split_and!.
        * intros a [Ha|Ha%list_elem_of_singleton]%elem_of_app Hl; [by apply (Hd1 a)|by subst].
        * intros a [Ha|Ha%list_elem_of_singleton]%elem_of_app Hf; [|by subst].
          apply (Hd2 a); [done|]. by apply Hsub.
        * intros a Ha Hf. apply (Hd3 a); [done|]. by apply Hsub.
      + rewrite Hbufs. apply Forall_app. split; [done|]. constructor; [done|constructor].
      + by rewrite (bufs_frame (s_links s)).
      + intros a Ha. rewrite Hl3 by done. by apply Hdom.
      + right. by destruct bs.
    - unfold content. rewrite Hbufs, fmap_app, concat_app. simpl. by rewrite app_nil_r. }
  assert (Hseg2 : seg m2 (rx_resp_bufs x) bs None) by (by apply (seg_frame (s_links s))).
  pose proof (link_tail m2 _ bs None c _ Hseg2 Hnd1 Hcbs Hm2c eq_refl) as Hlink.
  destruct bs as [|b0 bs].
  - simpl in Hseg. cbn [set_buffers rx_resp_bufs]. rewrite Hseg in *.
    erewrite SM_bind_Ret by reflexivity. eexists (Some c), _, m2, _.
    split_and!; [reflexivity|done|done|done|]. intros ? [= <-]. exists fs', b1.
    destruct (Hfin m2) as (F1 & F2 & F3 & F4 & F5); [done|done|done|].
    split_and!; try done. { unfold ngx_buf_in_memory. simpl. by rewrite orb_true_r. }
    by destruct Hw as (_ & _ & ? & _).
  - assert (Hb0 : rx_resp_bufs x = Some b0) by (by destruct Hseg as [? _]).
    cbn [set_buffers rx_resp_bufs rx_resp_buf_last]. rewrite Hb0, Hlast in *.
    destruct (last (b0 :: bs)) as [p|] eqn:Ep; [|by apply last_None in Ep].
    assert (Hp : p ∈ b0 :: bs) by (apply last_Some in Ep as [k ->]; set_solver).
    destruct (seg_dom _ _ _ _ _ Hseg2 Hp) as [lp Hlp].
    destruct (Hlink lp Hlp) as [Hl1 Hl2].
    erewrite SM_bind_Ret.
    2: { erewrite SM_bind_Ret by (apply write_link_Ret; exact Hlp). reflexivity. }
    eexists (Some c), _, _, _. split_and!; [reflexivity|done|done|done|].
    intros ? [= <-]. exists fs', b1.
    destruct (Hfin (<[p := set_next (Some c) lp]> m2)) as (F1 & F2 & F3 & F4 & F5).
    + exact Hl1.
    + intros a Ha. apply Hl2. apply elem_of_app. by left.
    + intros a Ha. rewrite lookup_insert_ne; [done|]. by intros <-.
    + split_and!; try done. { unfold ngx_buf_in_memory. simpl. by rewrite orb_true_r. }
      by destruct Hw as (_ & _ & ? & _).
Qed.

(** Copying moves bytes from the front of [ll] to the end of [cl]. *)
Lemma copy_part_ok ll cl copy l c s :
  s_links s !! ll = Some l -> s_links s !! cl = Some c -> ll <> cl ->
  buf_ok (cl_buf l) -> buf_ok (cl_buf c) -> ngx_buf_in_memory (cl_buf c) = true ->
  (copy <= b_last (cl_buf l) - b_pos (cl_buf l))%nat ->
  (copy <= length (b_mem (cl_buf c)) - b_last (cl_buf c))%nat ->
  exists bl bc,
    copy_part ll cl copy s = Ret (tt, store_with s
      (<[cl := on_buf (fun _ => bc) c]> (<[ll := on_buf (fun _ => bl) l]> (s_links s)))) /\
    buf_ok bl /\ buf_bytes bl = drop copy (buf_bytes (cl_buf l)) /\
    ngx_buf_in_memory bl = ngx_buf_in_memory (cl_buf l) /\
    buf_ok bc /\ buf_bytes bc = buf_bytes (cl_buf c) ++ take copy (buf_bytes (cl_buf l)) /\
    ngx_buf_in_memory bc = true /\ length (b_mem bc) = length (b_mem (cl_buf c)) /\
    b_last bc = (b_last (cl_buf c) + copy)%nat /\ b_pos bc = b_pos (cl_buf c) /\
    is_eof bl = is_eof (cl_buf l).
Proof.
  intros Hl Hc Hne Hokl Hokc Hmem Hcl Hcc. destruct l as [bl nl], c as [bc nc]. simpl in *.
  destruct Hokl as [Hwl Hml], Hokc as [Hwc Hmc].
  set (data := take copy (drop (b_pos bl) (b_mem bl))).
  assert (Hdata : length data = copy)
    by (unfold data; rewrite length_take, length_drop; lia).
  unfold copy_part. rd Hl. cbn [cl_buf].
  erewrite SM_bind_Ret.
  2: { unfold slift. rewrite mem_read_in by zlia. rewrite !Nat2Z.id. reflexivity. }
  fold data. rd Hc. cbn [cl_buf]. erewrite SM_bind_Ret.
  2: { unfold slift. rewrite mem_write_in by zlia. rewrite Nat2Z.id. reflexivity. }
  replace (Z.to_nat (Z.of_nat (b_last bc) + zlen data)) with (b_last bc + copy)%nat by zlia.
  set (mem := take (b_last bc) (b_mem bc) ++ data ++ drop (b_last bc + copy) (b_mem bc)).
  wr Hc. erewrite SM_bind_Ret
    by (apply write_link_Ret; simpl; rewrite lookup_insert_ne by done; exact Hl).
  cbn [s_links s_pool].
  erewrite SM_bind_Ret by (apply write_link_Ret; simpl; rewrite lookup_insert_ne by done;
    apply lookup_insert_eq).
  cbn [s_links s_pool].
  erewrite SM_bind_Ret by (apply read_link_Ret; simpl; rewrite lookup_insert_ne by done;
    apply lookup_insert_eq).
  cbn [s_links s_pool].
  erewrite write_link_Ret by apply lookup_insert_eq. cbn [s_links s_pool].
  assert (Hmlen : length mem = length (b_mem bc)).
  { unfold mem. rewrite !length_app, length_take, length_drop. lia. }
  eexists (set_window (b_pos bl + copy) (b_last bl) bl), _. split.
  { unfold store_with. do 3 f_equal. rewrite insert_insert_eq.
    rewrite (insert_insert_ne _ ll cl) by done. rewrite insert_insert_eq.
    unfold on_buf at 1 2. simpl. reflexivity. }
  simpl. split_and!; try done.
  - split; simpl; [lia|]. destruct Hml as [|[]]; [by left|right]. split; [lia|done].
  - unfold buf_bytes. simpl. rewrite skipn_firstn_comm, drop_drop.
    f_equal; lia.
  - split; simpl; [lia|by left].
  - unfold buf_bytes. simpl. unfold mem.
    rewrite drop_app, skipn_firstn_comm. rewrite length_take, Nat.min_l by lia.
    replace (b_pos bc - b_last bc)%nat with 0%nat by lia. rewrite drop_0.
    rewrite take_app. rewrite length_take, length_drop.
    rewrite (take_ge (take _ _)) by (rewrite length_take, length_drop; lia). f_equal.
    replace (b_last bc + copy - b_pos bc - (b_last bc - b_pos bc) `min` (length (b_mem bc) - b_pos bc))%nat
      with copy by lia.
    rewrite take_app_le by lia. rewrite take_ge by lia. unfold data.
    rewrite take_take. f_equal. lia.
Qed.

(** Linking what is left: [es] are empty links skipped since the last one. *)
Lemma link_rest_ok ls : forall fuel p last es s,
  seg (s_links s) p ls None -> NoDup (last :: es ++ ls) -> (length ls <= fuel)%nat ->
  seg (s_links s) (Some last) (last :: es ++ ls) None ->
  Forall buf_ok (bufs (s_links s) ls) ->
  Forall (fun b => buf_bytes b = []) (bufs (s_links s) es) ->
  exists m' last' tail, link_rest fuel p last s = Ret (last', store_with s m') /\
    seg m' (Some last) (last :: tail) None /\
    content m' tail = content (s_links s) ls /\
    (forall a, cl_buf <$> m' !! a = cl_buf <$> s_links s !! a) /\
    (forall a, a ∉ last :: ls -> m' !! a = s_links s !! a).
Proof.
  induction ls as [|a ls IH]; intros fuel p last es s Hs Hnd Hfuel Hlast Hok Hes.
  - simpl in Hs. subst p. rewrite app_nil_r in *. exists (s_links s), last, es.
    assert (E : link_rest fuel None last s = Ret (last, store_with s (s_links s)))
      by (by destruct fuel, s).
    refine (conj E (conj Hlast (conj _ (conj _ _)))); [|done|done].
    by rewrite content_empty.
  - simpl in Hs. destruct Hs as (-> & l & Hl & Hs). destruct fuel as [|fuel]; simpl in Hfuel; [lia|].
    rewrite (bufs_cons _ _ _ _ Hl) in Hok. apply Forall_cons in Hok as [Hok1 Hok].
    cbn [link_rest]. rd Hl. rewrite ngx_buf_size_zero by done.
    rewrite (content_cons _ _ _ _ Hl).
    destruct (bool_decide_reflect (buf_bytes (cl_buf l) = [])) as [Hz|Hz]; cbn [negb].
    + destruct (IH fuel (cl_next l) last (es ++ [a]) s) as (m' & last' & tail & E & H1 & H2 & H3 & H4);
        [done| |lia| |done| |].
      * by rewrite <- app_assoc.
      * by rewrite <- app_assoc.
      * rewrite bufs_app. apply Forall_app. split; [done|]. rewrite (bufs_cons _ _ _ _ Hl).
        constructor; [done|constructor].
      * exists m', last', tail. rewrite Hz. refine (conj E (conj H1 (conj H2 (conj H3 _)))).
        intros x Hx. apply H4. set_solver.
    + destruct Hlast as (_ & ll & Hll & _).
      assert (Hal : a <> last).
      { intros ->. apply NoDup_cons in Hnd as [Hn _]. apply Hn. set_solver. }
      wr Hll. set (m1 := <[last := set_next (Some a) ll]> (s_links s)).
      assert (Hm1 : forall x, x <> last -> m1 !! x = s_links s !! x)
        by (intros x Hx; unfold m1; by rewrite lookup_insert_ne).
      erewrite SM_bind_Ret by (apply read_link_Ret; simpl; rewrite Hm1 by done; exact Hl).
      assert (Hnd' : NoDup (a :: ls)).
      { apply NoDup_cons in Hnd as [_ Hnd]. by apply NoDup_app in Hnd as (_ & _ & ?). }
      assert (Hlls : last ∉ ls).
      { apply NoDup_cons in Hnd as [Hn _]. intros Hx. apply Hn. set_solver. }
      assert (Hm1s : forall x, x ∈ ls -> m1 !! x = s_links s !! x)
        by (intros x Hx; apply Hm1; by intros ->).
      destruct (IH fuel (cl_next l) a [] (store_with s m1)) as
        (m' & last' & tail & E & H1 & H2 & H3 & H4); simpl.
      * by apply (seg_frame (s_links s)).
      * done.
      * lia.
      * split; [done|]. exists l. rewrite Hm1 by done. split; [done|].
        by apply (seg_frame (s_links s)).
      * by rewrite (bufs_frame (s_links s)).
      * constructor.
      * assert (Hla : m' !! last = Some (set_next (Some a) ll)).
        { rewrite H4; [apply lookup_insert_eq|]. set_solver. }
        assert (Hbuf : forall x, cl_buf <$> m' !! x = cl_buf <$> s_links s !! x).
        { intros x. rewrite H3. simpl. unfold m1. destruct (decide (x = last)) as [->|Hx].
          - by rewrite lookup_insert_eq, Hll.
          - by rewrite lookup_insert_ne. }
        pose proof (Hbuf a) as Hba. rewrite Hl in Hba.
        apply fmap_Some in Hba as (la & Hla' & Hbl).
        exists m', last', (a :: tail). refine (conj E (conj _ (conj _ (conj Hbuf _)))).
        -- split; [done|]. by exists (set_next (Some a) ll).
        -- rewrite (content_cons _ _ _ _ Hla'), <- Hbl. f_equal. simpl in H2. rewrite H2.
           by apply content_frame.
        -- intros x Hx. rewrite H4 by set_solver. apply Hm1. set_solver.
Qed.

Lemma content_ext m m' ls :
  (forall a, a ∈ ls -> cl_buf <$> m' !! a = cl_buf <$> m !! a) -> content m' ls = content m ls.
Proof. intros Hm. unfold content. by rewrite (bufs_ext m m'). Qed.

(** The full buffers [bs], then the rest of the chunk. *)
Lemma link_rest_full p0 bs p ll l rest s :
  seg (s_links s) p0 bs None -> last bs = Some p -> s_links s !! ll = Some l ->
  seg (s_links s) (cl_next l) rest None -> NoDup bs -> NoDup (ll :: rest) -> bs ## ll :: rest ->
  Forall buf_ok (bufs (s_links s) (ll :: rest)) -> buf_bytes (cl_buf l) <> [] ->
  exists m' last' bs', link_rest (links_fuel s) (Some ll) p s = Ret (last', store_with s m') /\
    seg m' p0 bs' None /\
    content m' bs' = content (s_links s) bs ++ content (s_links s) (ll :: rest).
Proof.
  intros Hbs Ep Hl Hrest Hnd Hndl Hdisj Hok Hne.
  assert (Hp : p ∈ bs) by (apply last_Some in Ep as [k ->]; set_solver).
  assert (Hfuel : (length (ll :: rest) <= size (s_links s))%nat).
  { eapply (seg_fuel _ (Some ll)); [|done]. split; [done|]. by exists l. }
  assert (Hpll : ll <> p) by (intros ->; apply (Hdisj p); [done|by left]).
  rewrite (bufs_cons _ _ _ _ Hl) in Hok. apply Forall_cons in Hok as [Hok1 Hok].
  destruct (seg_dom _ _ _ _ _ Hbs Hp) as [lp Hlp].
  apply NoDup_cons in Hndl as [Hllr Hndr].
  unfold links_fuel. cbn [link_rest]. rd Hl. rewrite ngx_buf_size_zero by done.
  rewrite bool_decide_eq_false_2 by done. cbn [negb]. wr Hlp.
  set (m1 := <[p := set_next (Some ll) lp]> (s_links s)).
  assert (Hm1 : forall x, x <> p -> m1 !! x = s_links s !! x)
    by (intros x Hx; unfold m1; by rewrite lookup_insert_ne).
  erewrite SM_bind_Ret by (apply read_link_Ret; simpl; rewrite Hm1 by done; exact Hl).
  assert (Hm1s : forall x, x ∈ rest -> m1 !! x = s_links s !! x).
  { intros x Hx. apply Hm1. intros ->. apply (Hdisj p); [done|by right]. }
  destruct (link_rest_ok rest (size (s_links s)) (cl_next l) ll [] (store_with s m1)) as
    (m' & last' & tail & E & H1 & H2 & H3 & H4); simpl.
  { by apply (seg_frame (s_links s)). } { by apply NoDup_cons. } { simpl in Hfuel. lia. }
  { split; [done|]. exists l. rewrite Hm1 by done. split; [done|]. by apply (seg_frame (s_links s)). }
  { by rewrite (bufs_frame (s_links s)). } { constructor. }
  assert (Hbs' : forall x, x ∈ bs -> m' !! x = m1 !! x).
  { intros x Hx. rewrite H4; [done|]. intros Hx'. by apply (Hdisj x). }
  exists m', last', (bs ++ ll :: tail). split; [exact E|]. split.
  - apply last_Some in Ep as [k ->]. rewrite <- app_assoc.
    apply chain_seg_app in Hbs as (r & Hk & Hr). apply chain_seg_app. exists r.
    apply NoDup_app in Hnd as (_ & Hkp & _). split.
    + apply (seg_frame (s_links s)); [|done]. intros x Hx.
      rewrite Hbs' by set_solver. apply Hm1. intros ->. apply (Hkp p Hx). by left.
    + destruct Hr as (-> & _). split; [done|]. exists (set_next (Some ll) lp).
      rewrite Hbs' by set_solver. split; [apply lookup_insert_eq|exact H1].
  - destruct H1 as (_ & ll' & Hll' & _).
    rewrite content_app, (content_cons _ _ _ _ Hl), (content_cons _ _ _ _ Hll').
    assert (Hb : cl_buf ll' = cl_buf l).
    { specialize (H3 ll). simpl in H3. rewrite Hll', Hm1, Hl in H3 by done. by injection H3. }
    rewrite Hb, H2. simpl. f_equal.
    + apply content_ext. intros x Hx. rewrite H3. simpl. unfold m1.
      destruct (decide (x = p)) as [->|]; [by rewrite lookup_insert_eq, Hlp|].
      by rewrite lookup_insert_ne.
    + f_equal. by apply content_frame.
Qed.

Lemma seg_next_ext m m' p ls q :
  (forall a, a ∈ ls -> cl_next <$> m' !! a = cl_next <$> m !! a) -> seg m p ls q -> seg m' p ls q.
Proof.
  revert p. induction ls as [|a ls IH]; intros p Hm; simpl; [done|].
  intros (-> & l & Hl & Hs). split; [done|]. specialize (Hm a ltac:(by left)) as Ha.
  rewrite Hl in Ha. apply fmap_Some in Ha as (l' & Hl' & E). exists l'. split; [done|].
  rewrite <- E. apply IH; [|done]. intros b Hb. apply Hm. by right.
Qed.

(** What a copy does to the invariant. *)
Lemma binv_copied m x cl bs ll rest fs c l lc bl bc copy :
  binv m x cl bs (ll :: rest) fs -> last bs = Some c -> m !! ll = Some l -> m !! c = Some lc ->
  buf_ok bl -> ours bc -> buf_bytes bc = buf_bytes (cl_buf lc) ++ take copy (buf_bytes (cl_buf l)) ->
  let m' := <[c := on_buf (fun _ => bc) lc]> (<[ll := on_buf (fun _ => bl) l]> m) in
  binv m' x cl bs (ll :: rest) fs /\
  content m' bs = content m bs ++ take copy (buf_bytes (cl_buf l)) /\
  (forall a, a ∈ rest -> m' !! a = m !! a) /\ ll <> c.
Proof.
  intros [Hseg Hlast Hcl Hfree (Hnd1 & Hnd2 & Hnd3) (Hd1 & Hd2 & Hd3) Hours Hin Hdom Hcount]
    Ec Hl Hc Hokl Hoursc Hbytes m'.
  assert (Hcb : c ∈ bs) by (apply last_Some in Ec as [k ->]; set_solver).
  assert (Hne : ll <> c) by (intros ->; apply (Hd1 c); [done|by left]).
  assert (Hm' : forall a, a <> c -> a <> ll -> m' !! a = m !! a).
  { intros a H1 H2. unfold m'. by rewrite !lookup_insert_ne. }
  assert (Hnext : forall a, cl_next <$> m' !! a = cl_next <$> m !! a).
  { intros a. unfold m'. destruct (decide (a = c)) as [->|].
    - by rewrite lookup_insert_eq, Hc.
    - rewrite lookup_insert_ne by done. destruct (decide (a = ll)) as [->|].
      + by rewrite lookup_insert_eq, Hl.
      + by rewrite lookup_insert_ne. }
  assert (Hmc : m' !! c = Some (on_buf (fun _ => bc) lc)) by apply lookup_insert_eq.
  assert (Hml : m' !! ll = Some (on_buf (fun _ => bl) l)).
  { unfold m'. rewrite lookup_insert_ne by done. apply lookup_insert_eq. }
  apply last_Some in Ec as [k ->]. apply NoDup_app in Hnd1 as Hk. destruct Hk as (_ & Hkc & _).
  assert (Hmk : forall a, a ∈ k -> m' !! a = m !! a).
  { intros a Ha. apply Hm'; intros ->.
    - apply (Hkc c Ha). by left.
    - apply (Hd1 ll); [set_solver|by left]. }
  assert (Hmr : forall a, a ∈ rest -> m' !! a = m !! a).
  { apply NoDup_cons in Hnd2 as [Hn _]. intros a Ha. apply Hm'; intros ->; [|done].
    apply (Hd1 c); [done|by right]. }
  assert (Hb : bufs m' (k ++ [c]) = bufs m k ++ [bc]).
  { rewrite bufs_app, (bufs_frame m) by done. f_equal. by rewrite (bufs_cons _ _ _ _ Hmc). }
  split_and!; [|by unfold content; rewrite Hb, bufs_app, (bufs_cons _ _ _ _ Hc), !fmap_app,
    !concat_app; simpl; rewrite Hbytes, !app_nil_r, <- app_assoc|done|done].
  split; try done.
  - by apply (seg_next_ext m).
  - by apply (seg_next_ext m).
  - rewrite Hb. rewrite bufs_app in Hours. apply Forall_app in Hours as [Hk _].
    apply Forall_app. split; [done|]. constructor; [done|constructor].
  - rewrite (bufs_cons _ _ _ _ Hml), (bufs_frame m) by done.
    rewrite (bufs_cons _ _ _ _ Hl) in Hin. apply Forall_cons in Hin as [_ Hin]. by constructor.
  - intros a [->|Ha]%elem_of_cons; [by eexists|]. rewrite Hmr by done. apply Hdom. by right.
Qed.

(** What the loop on a link promises, from buffers that hold [before]: [None] when
    the link was copied. *)
Definition copy_post s x ll l rest (before : bytes) rc cl' x' s' : Prop :=
  rx_kept x' = rx_kept x /\
  match rc with
  | None => exists bs' fs' l',
      binv (s_links s') x' cl' bs' (ll :: rest) fs' /\
      content (s_links s') bs' = before ++ buf_bytes (cl_buf l) /\
      s_links s' !! ll = Some l' /\ cl_next l' = cl_next l /\
      (forall a, a ∈ rest -> s_links s' !! a = s_links s !! a) /\
      (pool_ok (s_pool s) (bf_num conf - rx_resp_bufs_count x) ->
       pool_ok (s_pool s') (bf_num conf - rx_resp_bufs_count x'))
  | Some NGX_DONE => exists bs', seg (s_links s') (rx_resp_bufs x') bs' None /\
      content (s_links s') bs' = before ++ buf_bytes (cl_buf l) ++ content (s_links s) rest
  | Some NGX_ERROR => ~ pool_ok (s_pool s) (bf_num conf - rx_resp_bufs_count x)
  | Some _ => False
  end.

(** Composition of two parts of the copy. *)
Lemma copy_post_trans s1 x1 ll l1 rest before s x l d rc cl' x' s' :
  copy_post s1 x1 ll l1 rest (before ++ d) rc cl' x' s' ->
  rx_kept x1 = rx_kept x ->
  buf_bytes (cl_buf l) = d ++ buf_bytes (cl_buf l1) -> cl_next l1 = cl_next l ->
  (forall a, a ∈ rest -> s_links s1 !! a = s_links s !! a) ->
  (pool_ok (s_pool s) (bf_num conf - rx_resp_bufs_count x) ->
   pool_ok (s_pool s1) (bf_num conf - rx_resp_bufs_count x1)) ->
  copy_post s x ll l rest before rc cl' x' s'.
Proof.
  intros [Hbuf Hpost] Hb1 Hd Hn Hr Hp. split; [congruence|].
  destruct rc as [[]|]; try done.
  - auto.
  - destruct Hpost as (bs' & Hs & Hc). exists bs'. split; [done|].
    rewrite Hc, Hd, <- !app_assoc. by rewrite (content_frame (s_links s)).
  - destruct Hpost as (bs' & fs' & l' & Hi & Hc & Hl & Hnx & Hrest & Hpool).
    exists bs', fs', l'. split_and!; [done| |done|congruence| |auto].
    + by rewrite Hc, Hd, <- app_assoc.
    + intros a Ha. rewrite Hrest by done. by apply Hr.
Qed.

(** The fuel left is enough. *)
Definition copy_steps (n : nat) (x : ngx_http_wasm_req_ctx_t) (cl : option addr) : nat :=
  (n + (bf_num conf - rx_resp_bufs_count x) + match cl with Some _ => 1 | None => 0 end)%nat.

Lemma binv_set_last m x cl bs ls fs c :
  binv m x cl bs ls fs -> last bs = Some c ->
  binv m (set_buffers (rx_resp_bufs x) (Some c) (rx_resp_bufs_count x) (rx_free_bufs x) x)
    None bs ls fs.
Proof. intros [] Hc. split; simpl; try done. by left. Qed.

Lemma binv_no_cl m x cl bs ls fs : binv m x cl bs ls fs -> binv m x None bs ls fs.
Proof. intros []. split; try done. by left. Qed.

Lemma ours_room b : ours b -> (b_last b < length (b_mem b))%nat -> ngx_buf_in_memory b = true.
Proof. intros [_ [H|H]] Hlt; [done|]. rewrite H in Hlt. simpl in Hlt. lia. Qed.

(** Copying into the current buffer, given what the next iterations do. *)
Lemma copy_into_ok fuel k ll l rest x c bs fs s :
  (forall n cl x bs fs l s,
    binv (s_links s) x cl bs (ll :: rest) fs -> s_links s !! ll = Some l ->
    n = length (buf_bytes (cl_buf l)) -> seg (s_links s) (cl_next l) rest None ->
    (copy_steps n x cl <= k)%nat ->
    exists rc cl' x' s', copy_loop debug conf fuel ll n cl x s = Ret ((rc, cl', x'), s') /\
      copy_post s x ll l rest (content (s_links s) bs) rc cl' x' s') ->
  binv (s_links s) x (Some c) bs (ll :: rest) fs -> s_links s !! ll = Some l ->
  seg (s_links s) (cl_next l) rest None -> buf_bytes (cl_buf l) <> [] ->
  (copy_steps (length (buf_bytes (cl_buf l))) x None <= k)%nat ->
  let n := length (buf_bytes (cl_buf l)) in
  exists rc cl' x' s',
    (l ← read_link c;
     let avail := (length (b_mem (cl_buf l)) - b_last (cl_buf l))%nat in
     let copy := (n `min` avail)%nat in
     if (copy =? 0)%nat then copy_loop debug conf fuel ll n None x
     else
       copy_part ll c copy;;
       if (copy <? n)%nat then
         l ← read_link c;
         slift (ngx_wa_assert debug (b_last (cl_buf l) =? length (b_mem (cl_buf l)))%nat);;
         copy_loop debug conf fuel ll (n - copy) None
           (set_buffers (rx_resp_bufs x) (Some c) (rx_resp_bufs_count x) (rx_free_bufs x) x)
       else copy_loop debug conf fuel ll (n - copy) (Some c) x) s = Ret ((rc, cl', x'), s') /\
    copy_post s x ll l rest (content (s_links s) bs) rc cl' x' s'.
Proof.
  intros IH Hinv Hl Hrest Hne Hfuel n.
  assert (Ec : last bs = Some c) by (destruct (bi_cl _ _ _ _ _ _ Hinv) as [?|E]; done).
  assert (Hcb : c ∈ bs) by (apply last_Some in Ec as [? ->]; set_solver).
  destruct (seg_dom _ _ _ _ _ (bi_seg _ _ _ _ _ _ Hinv) Hcb) as [lc Hlc].
  assert (Hours : ours (cl_buf lc)).
  { pose proof (bi_ours _ _ _ _ _ _ Hinv) as Ho. rewrite Forall_elem in Ho. apply Ho.
    apply elem_of_bufs. eauto. }
  assert (Hokl : buf_ok (cl_buf l)).
  { pose proof (bi_in _ _ _ _ _ _ Hinv) as Ho. rewrite Forall_elem in Ho. apply Ho.
    apply elem_of_bufs. exists ll, l. split_and!; [by left|done|done]. }
  rd Hlc. cbn zeta.
  set (copy := (n `min` (length (b_mem (cl_buf lc)) - b_last (cl_buf lc)))%nat).
  assert (Hn : n = (b_last (cl_buf l) - b_pos (cl_buf l))%nat) by (by apply buf_bytes_length).
  assert (Hn0 : (0 < n)%nat) by (unfold n; destruct (buf_bytes (cl_buf l)); simpl; [done|lia]).
  destruct (Nat.eqb_spec copy 0) as [Hz|Hz].
  - apply (IH n None x bs fs l s); try done. by eapply binv_no_cl.
  - destruct (copy_part_ok ll c copy l lc s Hl Hlc) as
      (bl & bc & E & Kokl & Kbl & _ & Kokc & Kbc & Kmem & Klen & Klast & _); try done; try lia.
    { intros ->. destruct (bi_disj _ _ _ _ _ _ Hinv) as [Hd _]. apply (Hd c); [done|by left]. }
    { apply Hours. } { apply ours_room; [done|lia]. }
    erewrite SM_bind_Ret by exact E. clear E.
    assert (Hoursc : ours bc) by (split; [done|by left]).
    destruct (binv_copied _ _ _ _ _ _ _ _ _ _ _ _ copy Hinv Ec Hl Hlc Kokl Hoursc Kbc)
      as (Hinv' & Hc' & Hr' & Hne').
    set (m' := <[c := on_buf (fun _ => bc) lc]> (<[ll := on_buf (fun _ => bl) l]> (s_links s))) in *.
    assert (Hl' : m' !! ll = Some (on_buf (fun _ => bl) l)).
    { unfold m'. rewrite lookup_insert_ne by done. apply lookup_insert_eq. }
    assert (Hrest' : seg m' (cl_next l) rest None) by (by apply (seg_frame (s_links s))).
    assert (Hlen : (n - copy)%nat = length (buf_bytes bl)) by (rewrite Kbl, length_drop; done).
    assert (Hsplit : buf_bytes (cl_buf l) =
      take copy (buf_bytes (cl_buf l)) ++ buf_bytes (cl_buf (on_buf (fun _ => bl) l))).
    { simpl. rewrite Kbl. by rewrite take_drop. }
    destruct (Nat.ltb_spec copy n) as [Hlt|Hge].
    + erewrite SM_bind_Ret by (apply read_link_Ret; apply lookup_insert_eq).
      erewrite SM_bind_Ret.
      2: { simpl. replace (b_last bc =? length (b_mem bc))%nat with true.
           - unfold slift. by rewrite ngx_wa_assert_true.
           - symmetry. apply Nat.eqb_eq. destruct Hours as [[? _] _]. lia. }
      edestruct (IH (n - copy)%nat None
        (set_buffers (rx_resp_bufs x) (Some c) (rx_resp_bufs_count x) (rx_free_bufs x) x) bs fs
        (on_buf (fun _ => bl) l) (store_with s m')) as (rc & cl' & x' & s' & E & Hpost).
      * eapply binv_set_last; done.
      * done.
      * done.
      * done.
      * unfold copy_steps in *. cbn [set_buffers rx_resp_bufs_count]. lia.
      * exists rc, cl', x', s'. split; [exact E|]. simpl in Hpost. rewrite Hc' in Hpost.
        eapply copy_post_trans; done.
    + edestruct (IH (n - copy)%nat (Some c) x bs fs (on_buf (fun _ => bl) l) (store_with s m'))
        as (rc & cl' & x' & s' & E & Hpost); try done.
      * unfold copy_steps in *. lia.
      * exists rc, cl', x', s'. split; [exact E|]. simpl in Hpost. rewrite Hc' in Hpost.
        eapply copy_post_trans; done.
Qed.

Lemma copy_loop_ok ll rest (Hnum : (0 < bf_num conf)%nat) : forall fuel n cl x bs fs l s,
  binv (s_links s) x cl bs (ll :: rest) fs -> s_links s !! ll = Some l ->
  n = length (buf_bytes (cl_buf l)) -> seg (s_links s) (cl_next l) rest None ->
  (copy_steps n x cl <= fuel)%nat ->
  exists rc cl' x' s', copy_loop debug conf (S fuel) ll n cl x s = Ret ((rc, cl', x'), s') /\
    copy_post s x ll l rest (content (s_links s) bs) rc cl' x' s'.
Proof.
  intros fuel. induction fuel as [|fuel IH]; intros n cl x bs fs l s Hinv Hl -> Hrest Hfuel.
  all: destruct (buf_bytes (cl_buf l)) as [|b0 bytes] eqn:Eb.
  1,3: (exists None, cl, x, s; split; [done|]; split; [done|];
        exists bs, fs, l; rewrite Eb, app_nil_r; split_and!; done).
  { unfold copy_steps in Hfuel. simpl in Hfuel. lia. }
  rewrite <- Eb in *. assert (Hne : buf_bytes (cl_buf l) <> []) by (by rewrite Eb).
  assert (Hn : (length (buf_bytes (cl_buf l)) =? 0)%nat = false) by (by rewrite Eb).
  remember (S fuel) as fuel1 eqn:Hf1. cbn [copy_loop]. rewrite Hn.
  destruct cl as [c|].
  { erewrite SM_bind_Ret by reflexivity. cbn match.
    apply (copy_into_ok fuel1 fuel ll l rest x c bs fs s); try done.
    unfold copy_steps in *. lia. }
  pose proof Hinv as [Hseg Hlast _ Hfree (Hnd1 & Hnd2 & Hnd3) (Hd1 & Hd2 & Hd3) Hours Hin Hdom Hcount].
  destruct (Nat.leb_spec (bf_num conf) (rx_resp_bufs_count x)) as [Hfull|Hroom].
  - (* full *)
    assert (Hbs : bs <> []) by (destruct Hcount; [lia|done]).
    destruct (last bs) as [p|] eqn:Ep; [|by apply last_None in Ep].
    rewrite Hlast.
    destruct (link_rest_full _ bs p ll l rest s Hseg Ep Hl Hrest Hnd1 Hnd2 Hd1 Hin Hne)
      as (m' & last' & bs' & E & Hs' & Hc').
    erewrite SM_bind_Ret. 2: { cbn match. refine (eq_trans (SM_bind_Ret
      (fun s => link_rest (links_fuel s) (Some ll) p s) _ s last' _ E) _). reflexivity. }
    cbn match. eexists (Some NGX_DONE), _, _, _. split; [reflexivity|]. split; [done|].
    exists bs'. split; [exact Hs'|]. simpl. rewrite Hc'. f_equal. by apply content_cons.
  - destruct (new_resp_buf_ok x bs (ll :: rest) fs s Hinv) as
      (r & x1 & m1 & pool & E & (k & Hk & ->) & Hpool & Hbuf & Hr).
    destruct r as [c|].
    + erewrite SM_bind_Ret. 2: { erewrite SM_bind_Ret by exact E. reflexivity. }
      cbn match.
      destruct (Hr c eq_refl) as (fs1 & b1 & Hinv1 & Hcnt & Hc1 & Hm1 & _).
      assert (Hl1 : m1 !! ll = Some l) by (rewrite Hm1; [done|by left]).
      assert (Hrest1 : seg m1 (cl_next l) rest None).
      { apply (seg_frame (s_links s)); [|done]. intros a Ha. apply Hm1. by right. }
      destruct (copy_into_ok fuel1 fuel ll l rest x1 c (bs ++ [c]) fs1
        {| s_links := m1; s_pool := drop k (s_pool s) |}) as (rc & cl' & x' & s' & E' & Hpost);
        try done.
      { unfold copy_steps in *. rewrite Hcnt. lia. }
      exists rc, cl', x', s'. split; [exact E'|]. simpl in Hpost. rewrite Hc1 in Hpost.
      rewrite <- (app_nil_r (content (s_links s) bs)) in Hpost.
      eapply copy_post_trans; [exact Hpost|done|done|done| |].
      * intros a Ha. apply Hm1. by right.
      * simpl. intros Hp. rewrite Hcnt. apply pool_ok_drop; [|done].
        by replace (S (bf_num conf - S (rx_resp_bufs_count x)))
          with (bf_num conf - rx_resp_bufs_count x)%nat by lia.
    + erewrite SM_bind_Ret. 2: { erewrite SM_bind_Ret by exact E. reflexivity. }
      cbn match. eexists (Some NGX_ERROR), _, _, _. split; [reflexivity|]. split; [done|].
      intros Hp. apply Hpool; [|done]. eapply pool_ok_le; [exact Hp|]. lia.
Qed.

(** ** A whole chunk *)

(** A chunk: links with data, then possibly one empty link that ends it. *)
Definition chunk_ok (m : gmap addr ngx_chain_t) (ls : list addr) : Prop :=
  forall k a r, ls = k ++ a :: r -> r <> [] ->
    exists l, m !! a = Some l /\ buf_bytes (cl_buf l) <> [].

(** What is buffered after a chunk. *)
Definition buffer_post s x bs ls rc x' s' : Prop :=
  rx_kept x' = rx_kept x /\
  match rc with
  | NGX_OK => exists bs' fs', seg (s_links s') (rx_resp_bufs x') bs' None /\
      content (s_links s') bs' = content (s_links s) bs ++ content (s_links s) ls /\
      (Forall nonempty (bufs (s_links s) ls) ->
       binv (s_links s') x' (last bs') bs' [] fs' /\
       (pool_ok (s_pool s) (bf_num conf - rx_resp_bufs_count x) ->
        pool_ok (s_pool s') (bf_num conf - rx_resp_bufs_count x')))
  | NGX_DONE => exists bs', seg (s_links s') (rx_resp_bufs x') bs' None /\
      content (s_links s') bs' = content (s_links s) bs ++ content (s_links s) ls
  | NGX_ERROR => ~ pool_ok (s_pool s) (bf_num conf - rx_resp_bufs_count x)
  | _ => False
  end.

Lemma binv_any_cl m x cl bs ls fs : binv m x cl bs ls fs -> binv m x (last bs) bs ls fs.
Proof. intros []. split; try done. by right. Qed.

Lemma binv_copied_link m x cl bs a ls fs : binv m x cl bs (a :: ls) fs -> binv m x cl bs ls fs.
Proof.
  intros [Hseg Hlast Hcl Hfree (Hnd1 & Hnd2 & Hnd3) (Hd1 & Hd2 & Hd3) Hours Hin Hdom Hcount].
  apply NoDup_cons in Hnd2 as [_ Hnd2].
  destruct (Hdom a ltac:(by left)) as [l Hl]. rewrite (bufs_cons _ _ _ _ Hl) in Hin.
  apply Forall_cons in Hin as [_ Hin].
  split; try done.
  - split_and!; [|done|]; intros b Hb Hb'; [apply (Hd1 b)|apply (Hd3 b)]; try done; by right.
  - intros b Hb. apply Hdom. by right.
Qed.

(** The empty link at the end of a chunk. *)
Lemma link_special_ok x cl bs a fs l s :
  binv (s_links s) x cl bs [a] fs -> s_links s !! a = Some l -> cl_next l = None ->
  buf_bytes (cl_buf l) = [] ->
  exists x' m' bs', link_special a (cl_buf l) x s = Ret (x', store_with s m') /\
    rx_kept x' = rx_kept x /\
    seg m' (rx_resp_bufs x') bs' None /\ content m' bs' = content (s_links s) bs /\
    m' !! a = Some l.
Proof.
  intros [Hseg Hlast _ _ (Hnd & _) (Hd & _) _ _ _ _] Hl Hn Hb. unfold link_special.
  destruct (is_eof (cl_buf l)).
  2: { exists x, (s_links s), bs. destruct s. by split_and!. }
  assert (Ha : a ∉ bs) by (intros Hx; apply (Hd a); [done|by left]).
  assert (Hca : content (s_links s) [a] = []).
  { rewrite (content_cons _ _ _ _ Hl), Hb. done. }
  destruct bs as [|b0 bs].
  - simpl in Hseg. rewrite Hseg. eexists _, (s_links s), [a]. destruct s as [m pool].
    split; [reflexivity|]. simpl in *. split_and!; [done|done| |done|done].
    exists l. done.
  - assert (Hb0 : rx_resp_bufs x = Some b0) by (by destruct Hseg as [? _]).
    pose proof (link_tail (s_links s) _ (b0 :: bs) None a _ Hseg Hnd Ha Hl Hn) as Hlink.
    rewrite Hb0, Hlast. destruct (last (b0 :: bs)) as [p|] eqn:Ep; [|by apply last_None in Ep].
    assert (Hp : p ∈ b0 :: bs) by (apply last_Some in Ep as [k ->]; set_solver).
    destruct (seg_dom _ _ _ _ _ Hseg Hp) as [lp Hlp].
    destruct (Hlink lp Hlp) as [Hl1 Hl2].
    erewrite SM_bind_Ret by reflexivity.
    erewrite SM_bind_Ret by (apply write_link_Ret; exact Hlp).
    eexists _, _, ((b0 :: bs) ++ [a]). split; [reflexivity|]. split; [done|].
    split; [by rewrite Hb0 in Hl1|]. split.
    + rewrite (content_ext (s_links s)) by done. by rewrite content_app, Hca, app_nil_r.
    + rewrite lookup_insert_ne; [done|]. by intros ->.
Qed.

Lemma buffer_loop_ok (Hnum : (0 < bf_num conf)%nat) ls : forall fuel p cl x bs fs s,
  binv (s_links s) x cl bs ls fs -> seg (s_links s) p ls None -> (length ls <= fuel)%nat ->
  chunk_ok (s_links s) ls ->
  exists rc x' s', buffer_loop debug conf fuel p cl x s = Ret ((rc, x'), s') /\
    buffer_post s x bs ls rc x' s'.
Proof.
  induction ls as [|a ls IH]; intros fuel p cl x bs fs s Hinv Hs Hfuel Hchunk.
  { simpl in Hs. subst p. exists NGX_OK, x, s. split; [by destruct fuel|]. split; [done|].
    exists bs, fs. split_and!; [apply Hinv|by rewrite app_nil_r|].
    intros _. split; [by eapply binv_any_cl|done]. }
  simpl in Hs. destruct Hs as (-> & l & Hl & Hs). destruct fuel as [|fuel]; simpl in Hfuel; [lia|].
  assert (Hok : buf_ok (cl_buf l)).
  { pose proof (bi_in _ _ _ _ _ _ Hinv) as Hin. rewrite (bufs_cons _ _ _ _ Hl) in Hin.
    by apply Forall_cons in Hin as [? _]. }
  cbn [buffer_loop]. rd Hl. rewrite ngx_buf_size_zero, ngx_buf_size_bytes by done.
  unfold buffer_post in *. rewrite (content_cons _ _ _ _ Hl).
  destruct (bool_decide_reflect (buf_bytes (cl_buf l) = [])) as [Hz|Hz].
  - assert (ls = []) as ->.
    { destruct ls as [|b ls]; [done|]. exfalso.
      destruct (Hchunk [] a (b :: ls) eq_refl ltac:(done)) as (l' & Hl' & Hne). congruence. }
    simpl in Hs. destruct (link_special_ok _ _ _ _ _ _ _ Hinv Hl Hs Hz) as
      (x1 & m1 & bs1 & E & Hb & Hs1 & Hc1 & Hl1).
    erewrite SM_bind_Ret by exact E. rewrite Hz. cbn [length copy_loop Nat.eqb].
    unfold copy_fuel. rewrite Nat.add_comm. cbn [copy_loop Nat.add Nat.eqb].
    erewrite SM_bind_Ret by reflexivity. cbn match. rd Hl1. rewrite Hs.
    eexists NGX_OK, x1, _. split; [by destruct fuel|]. split; [done|]. exists bs1, [].
    split_and!; [done|simpl; by rewrite Hc1, app_nil_r|].
    rewrite (bufs_cons _ _ _ _ Hl). intros [Hne _]%Forall_cons. done.
  - erewrite SM_bind_Ret by reflexivity.
    set (n := length (buf_bytes (cl_buf l))).
    replace (copy_fuel conf n x) with (S (n + bf_num conf + 1)) by (unfold copy_fuel; lia).
    destruct (copy_loop_ok a ls Hnum (n + bf_num conf + 1) n cl x bs fs l s)
      as (rc & cl' & x' & s' & E & Hb & Hpost); try done.
    { unfold copy_steps. destruct cl; lia. }
    erewrite SM_bind_Ret by exact E. cbn match. destruct rc as [rc|].
    { exists rc, x', s'. split; [done|]. split; [done|].
      by destruct rc. }
    destruct Hpost as (bs' & fs' & l' & Hinv' & Hc' & Hl' & Hn' & Hrest & Hpool).
    rd Hl'. rewrite Hn'.
    destruct (IH fuel (cl_next l) cl' x' bs' fs' s') as (rc & x2 & s2 & E2 & Hb2 & Hpost2).
    { by eapply binv_copied_link. } { by apply (seg_frame (s_links s)). } { lia. }
    { intros k b r -> Hr. destruct (Hchunk (a :: k) b r eq_refl Hr) as (lb & Hlb & Hne).
      exists lb. rewrite Hrest by set_solver. done. }
    exists rc, x2, s2. split; [exact E2|]. split; [congruence|].
    rewrite (content_frame (s_links s) (s_links s') ls Hrest), Hc', <- app_assoc in Hpost2.
    destruct rc; try done.
    + destruct Hpost2 as (bs2 & fs2 & H1 & H2 & H3). exists bs2, fs2. split_and!; [done|done|].
      rewrite (bufs_cons _ _ _ _ Hl). intros [_ Hne]%Forall_cons.
      rewrite (bufs_frame (s_links s) (s_links s') ls Hrest) in H3. destruct (H3 Hne) as [H4 H5].
      split; [done|]. auto.
    + auto.
Qed.

Lemma buffer_ok x bs ls fs cin s
  (Hnum : (0 < bf_num conf)%nat) (Hbuf : rx_resp_buffering x = true)
  (Hinv : binv (s_links s) x (last bs) bs ls fs)
  (Hin : seg (s_links s) cin ls None) (Hchunk : chunk_ok (s_links s) ls) :
  exists rc x' s', ngx_http_wasm_body_filter_buffer debug conf x cin s = Ret ((rc, x'), s') /\
    buffer_post s x bs ls rc x' s'.
Proof.
  unfold ngx_http_wasm_body_filter_buffer. rewrite Hbuf.
  erewrite SM_bind_Ret by (unfold slift; rewrite ngx_wa_assert_true; reflexivity).
  rewrite (bi_last _ _ _ _ _ _ Hinv). apply (buffer_loop_ok Hnum ls _ _ _ _ _ fs); try done.
  pose proof (seg_fuel _ _ _ _ Hin (proj1 (proj2 (bi_nd _ _ _ _ _ _ Hinv)))).
  unfold links_fuel. lia.
Qed.

(** C16. Buffering a chunk of a response, when buffering is on, whose buffers are in memory and of
    which only the last link may be empty, keeps its bytes: the buffers hold what they held and
    then the whole chunk, in order, also when it did not fit and was linked as it was
    ([NGX_DONE]); the copy always ends, never accesses memory outside of a buffer, and fails only
    when an allocation does. When every link has data the next chunk finds the buffers in order
    again. ([data_after_special_lost] and [file_link_faults] are the chunks left out.) *)
Theorem buffer_conserves x bs ls fs cin s
  (Hnum : (0 < bf_num conf)%nat) (Hbuf : rx_resp_buffering x = true)
  (Hinv : binv (s_links s) x (last bs) bs ls fs)
  (Hin : seg (s_links s) cin ls None) (Hchunk : chunk_ok (s_links s) ls) :
  exists rc x' s', ngx_http_wasm_body_filter_buffer debug conf x cin s = Ret ((rc, x'), s') /\
    buffer_post s x bs ls rc x' s'.
Proof. by apply (buffer_ok x bs ls fs). Qed.

End copying.

(** ** The filter while it buffers *)

Section buffering.
Context {E : Type} `{!FilterEnv E} (debug : bool) (conf : ngx_bufs_t) (response_trailers : bool).

Lemma scan_chunk_ok ls main : forall fuel p len eof s,
  seg (s_links s) p ls None -> (length ls <= fuel)%nat ->
  exists len' eof', scan_chunk fuel main p len eof s = Ret ((len', eof'), s).
Proof.
  induction ls as [|a ls IH]; intros fuel p len eof s Hs Hfuel; simpl in Hs.
  - subst p. exists len, eof. by destruct fuel.
  - destruct Hs as (-> & l & Hl & Hs). destruct fuel as [|fuel]; simpl in Hfuel; [lia|].
    cbn [scan_chunk]. erewrite SM_bind_Ret by (apply read_link_Ret; exact Hl).
    destruct (b_last_buf _); [by eexists _, _|]. destruct (b_last_in_chain _); [by eexists _, _|].
    apply IH; [done|lia].
Qed.

Lemma binv_fields m x x' cl bs ls fs :
  rx_resp_bufs x' = rx_resp_bufs x -> rx_resp_buf_last x' = rx_resp_buf_last x ->
  rx_free_bufs x' = rx_free_bufs x -> rx_resp_bufs_count x' = rx_resp_bufs_count x ->
  binv m x cl bs ls fs -> binv m x' cl bs ls fs.
Proof. intros E1 E2 E3 E4 []. split; by rewrite ?E1, ?E2, ?E3, ?E4. Qed.

(** What the handler does with the code of the copy. *)
Definition after_buffer (no_parent : bool) (rc : ngx_rc) (x : ngx_http_wasm_req_ctx_t)
    (s : store) (e : E) : outcome ((ngx_rc * option ngx_http_wasm_req_ctx_t) * (store * E)) :=
  if bool_decide (rc = NGX_ERROR) then Ret ((NGX_ERROR, Some x), (s, e))
  else if is_ok rc && negb (rx_resp_chunk_eof x) then Ret ((NGX_AGAIN, Some x), (s, e))
  else (x ← ngx_http_wasm_body_filter_resume (set_resp_buffering false x) (rx_resp_bufs x);
        body_filter_next debug response_trailers no_parent x) (s, e).

(** While the response is buffered, a chunk that does not end it is added to the
    buffers and nothing is passed on ([NGX_AGAIN]); when it ends the response, or no
    longer fits, the filters run once on the buffers, which hold every byte received so
    far in order, and the result goes to the next filter. *)
Lemma body_filter_accumulates x bs ls fs cin s e is_main no_parent main
  (Hnum : (0 < bf_num conf)%nat) (Hbuf : rx_resp_buffering x = true)
  (Hhdr : rx_entered_header_filter x = true) (Hovr : rx_resp_chunk_override x = false)
  (Hinv : binv (s_links s) x (last bs) bs ls fs)
  (Hin : seg (s_links s) cin ls None) (Hchunk : chunk_ok (s_links s) ls)
  (Hdata : content (s_links s) bs ++ content (s_links s) ls <> []) :
  exists len eof rc x' s',
    let x1 := set_chunk cin len eof (set_flags_rx true false true x) in
    buffer_post conf s x1 bs ls rc x' s' /\
    ngx_http_wasm_body_filter_handler debug conf response_trailers is_main no_parent
      (NGX_OK, Some x) main cin (s, e) = after_buffer no_parent rc x' s' e.
Proof.
  assert (Hnd : NoDup ls) by apply Hinv.
  destruct (scan_chunk_ok ls (rx_main x) (links_fuel s) cin 0 (rx_resp_chunk_eof x) s Hin)
    as (len & eof & Escan).
  { pose proof (seg_fuel _ _ _ _ Hin Hnd). unfold links_fuel. lia. }
  set (x1 := set_chunk cin len eof (set_flags_rx true false true x)).
  destruct (buffer_ok debug conf x1 bs ls fs cin s) as (rc & x' & s' & Eb & Hpost);
    try done.
  { by apply (binv_fields _ x). }
  exists len, eof, rc, x', s'. split; [exact Hpost|].
  unfold ngx_http_wasm_body_filter_handler, filter_ctx.
  rewrite (bool_decide_eq_false_2 (NGX_OK = NGX_ERROR)), Hhdr by done. cbn [negb].
  rewrite (bool_decide_eq_false_2 (NGX_OK = NGX_DECLINED)) by done. cbn [orb]. cbn match.
  rewrite (bool_decide_eq_false_2 (NGX_OK = NGX_ERROR)) by done. cbn match.
  rewrite (bool_decide_eq_false_2 (NGX_OK = NGX_DECLINED)) by done. cbn match.
  erewrite SM_bind_Ret by reflexivity.
  rewrite Hovr, Hbuf.
  erewrite (SM_bind_Ret (ngx_http_wasm_body_filter_resume _ cin) _ (s, e) x1 (s, e)).
  2: { unfold ngx_http_wasm_body_filter_resume. erewrite SM_bind_Ret.
       2: { unfold on_store. cbn [set_flags_rx rx_main rx_resp_chunk_eof]. rewrite Escan.
            reflexivity. }
       reflexivity. }
  change (rx_resp_buffering x1) with true. cbn match.
  erewrite SM_bind_Ret. 2: { unfold on_store. rewrite Eb. reflexivity. }
  cbn match. unfold after_buffer. destruct Hpost as [_ Hpost]. destruct rc; try done.
  - change (bool_decide (NGX_OK = NGX_ERROR)) with false. change (is_ok NGX_OK) with true.
    cbn [andb]. cbn match.
    destruct Hpost as (bs' & fs' & Hs' & Hc' & _).
    assert (Hne : rx_resp_bufs x' <> None).
    { destruct bs' as [|b bs']; [|by destruct Hs' as [-> _]].
      unfold content at 1 in Hc'. simpl in Hc'. congruence. }
    rewrite bool_decide_eq_true_2 by done.
    erewrite SM_bind_Ret by (unfold slift; rewrite ngx_wa_assert_true; reflexivity).
    destruct (rx_resp_chunk_eof x'); cbn [negb]; [done|].
    unfold body_filter_done. erewrite SM_bind_Ret.
    2: { unfold slift. rewrite bool_decide_eq_true_2 by set_solver.
         rewrite ngx_wa_assert_true. reflexivity. }
    done.
  - change (bool_decide (NGX_ERROR = NGX_ERROR)) with true. cbn match.
    unfold body_filter_done. erewrite SM_bind_Ret.
    2: { unfold slift. rewrite bool_decide_eq_true_2 by set_solver.
         rewrite ngx_wa_assert_true. reflexivity. }
    done.
Qed.

End buffering.

End BodyFilter.

(** ** Executions *)

Module BodyRuns.
Import Chains ChainRuns BodyFilter.

(** A response whose filters asked for buffering. *)
Definition buffering_ctx : ngx_http_wasm_req_ctx_t :=
  {| rx_free_bufs := None; rx_resp_bufs := None; rx_resp_buf_last := None;
     rx_resp_bufs_count := 0; rx_resp_chunk := None; rx_resp_chunk_len := 0;
     rx_resp_chunk_eof := false; rx_resp_buffering := true; rx_resp_chunk_override := false;
     rx_entered_header_filter := true; rx_entered_body_filter := true; rx_buf_tag := 7;
     rx_data := true; rx_main := true |}.

Definition four_by_four : ngx_bufs_t := {| bf_num := 4; bf_size := 4 |}.

Definition chunk (l : list ngx_buf_t) : store :=
  {| s_links := link_from 1 l; s_pool := replicate 16 true |}.

(** The buffer that ends a response. *)
Definition ended (b : ngx_buf_t) : ngx_buf_t := set_flags false true false b.

(** The code, the bytes buffered and the length [on_response_body] is given. *)
Definition buffered (l : list ngx_buf_t) : option (ngx_rc * bytes * nat) :=
  match ngx_http_wasm_body_filter_buffer true four_by_four buffering_ctx (Some 1%positive)
          (chunk l) with
  | Ret ((rc, x), s) =>
      match walk 20 (s_links s) (rx_resp_bufs x),
            scan_chunk 20 true (rx_resp_bufs x) 0 false s with
      | Some d, Ret ((n, _), _) => Some (rc, d, n)
      | _, _ => None
      end
  | Fault _ => None
  end.

Example buffers_two_links :
  buffered [data_buf (ngx_string "abc") 3; data_buf (ngx_string "def") 3; ended (data_buf [] 3)]
  = Some (NGX_OK, ngx_string "abcdef", 6%nat).
Proof. by vm_compute. Qed.

Example full_buffers_keep_the_rest :
  buffered [data_buf (ngx_string "abcdefghijklmnop") 3; data_buf (ngx_string "qrs") 3]
  = Some (NGX_DONE, ngx_string "abcdefghijklmnopqrs", 19%nat).
Proof. by vm_compute. Qed.

(** The end flag is copied with the first part of a link that does not fit: the
    chunk the filters see stops there. *)
Example end_flag_too_early :
  buffered [ended (data_buf (ngx_string "abcdef") 3)] = Some (NGX_OK, ngx_string "abcdef", 4%nat).
Proof. by vm_compute. Qed.

(** An empty link that ends a chain, when it is the first buffered, is not recorded
    as the last buffer: what follows is copied and never linked. *)
Example data_after_special_lost :
  buffered [set_flags false false true (data_buf [] 3); data_buf (ngx_string "abc") 3]
  = Some (NGX_OK, [], 0%nat).
Proof. by vm_compute. Qed.

(** A link over a file has a size and no memory. *)
Example file_link_faults :
  ngx_http_wasm_body_filter_buffer true four_by_four buffering_ctx (Some 1%positive)
    (chunk [{| b_mem := []; b_alloc := false; b_pos := 0; b_last := 0; b_tag := 3;
               b_temporary := false; b_memory := false; b_flush := false; b_last_buf := true;
               b_last_in_chain := false; b_file_size := 6 |}])
  = Fault F_memory.
Proof. by vm_compute. Qed.

(** A chunk of two links. *)
Definition two_links_chunk (b : ngx_buf_t) : store :=
  chunk [data_buf (ngx_string "abcdef") 3; b].

Lemma two_links_binv b : buf_ok b ->
  binv (s_links (two_links_chunk b)) buffering_ctx (last []) [] [1%positive; 2%positive] [].
Proof.
  intros Hb. split; try done; simpl.
  - by left.
  - split_and!; [constructor| |constructor]. refine (bool_decide_unpack _ _).
    by vm_compute.
  - repeat split; intros a Ha Hx; first [by apply not_elem_of_nil in Ha | by apply not_elem_of_nil in Hx].
  - change (Forall buf_ok [data_buf (ngx_string "abcdef") 3; b]).
    constructor; [|constructor; [done|constructor]]. split; [simpl; lia|by left].
  - intros a [->|[->|Ha%not_elem_of_nil]%elem_of_cons]%elem_of_cons; [by eexists|by eexists|done].
  - by left.
Qed.

Lemma two_links_in b :
  seg (s_links (two_links_chunk b)) (Some 1%positive) [1%positive; 2%positive] None /\
  chunk_ok (s_links (two_links_chunk b)) [1%positive; 2%positive].
Proof.
  split.
  - split; [done|]. eexists. split; [reflexivity|]. split; [done|]. eexists. by split.
  - intros [|c [|d k]] a r [= <- <-] Hr; simplify_eq; try done.
    + eexists. by split.
    + by destruct k.
Qed.

Definition two_chunk : store := two_links_chunk (data_buf (ngx_string "gh") 3).

Lemma data_buf_ok l : buf_ok (data_buf l 3).
Proof. split; [simpl; lia|by left]. Qed.

Lemma buffer_conserves_witness :
  exists rc x' s', ngx_http_wasm_body_filter_buffer true four_by_four buffering_ctx
      (Some 1%positive) two_chunk = Ret ((rc, x'), s') /\
    buffer_post four_by_four two_chunk buffering_ctx [] [1%positive; 2%positive] rc x' s'.
Proof.
  destruct (two_links_in (data_buf (ngx_string "gh") 3)) as [Hin Hc].
  apply (buffer_conserves true four_by_four buffering_ctx [] [1%positive; 2%positive] []).
  - simpl. lia.
  - done.
  - apply two_links_binv, data_buf_ok.
  - exact Hin.
  - exact Hc.
Defined.

End BodyRuns.
