(* ===== verification/Bodies.v ===== *)
(** * Replacing bodies

    The functions of src/src/http/ngx_http_wasm_util.c behind the host calls that
    set or extend the body of a request and the chunk of a response, on the buffer
    chains of [Chains]. *)
From S2P Require Import Prelude NginxCore Chains BodyFilter.
From stdpp Require Export list gmap.
#[global] Open Scope Z_scope.

Module Bodies.
Import Chains BodyFilter.

(** The request: its body ([NULL] or with [bufs]) and its content length. *)
Record request := {
  rq_request_body : option (option addr);
  rq_content_length_n : Z;
}.

Section bodies.
Context (debug : bool).
(** [buf_tag], the address of the http module. *)
Context (buf_tag : Z).

Definition set_free_bufs (free : option addr) (x : ngx_http_wasm_req_ctx_t) :=
  set_buffers (rx_resp_bufs x) (rx_resp_buf_last x) (rx_resp_bufs_count x) free x.

(** [None] is [NULL]; a new body is zeroed. *)
Definition get_request_body (r : request) : SM store (option (option addr) * request) :=
  match rq_request_body r with
  | Some rb => mret (Some rb, r)
  | None =>
      ok ← palloc;
      if (ok : bool) then
        mret (Some None, {| rq_request_body := Some None;
                            rq_content_length_n := rq_content_length_n r |})
      else mret (None, r)
  end.

(** The end of [set_req_body] and [prepend_req_body]. *)
Definition update_req_body (rc : ngx_rc) (bufs free : option addr) (r : request)
    (x : ngx_http_wasm_req_ctx_t) : SM store (ngx_rc * request * ngx_http_wasm_req_ctx_t) :=
  let x := set_free_bufs free x in
  let r := {| rq_request_body := Some bufs; rq_content_length_n := rq_content_length_n r |} in
  if negb (is_ok rc) then mret (NGX_ERROR, r, x)
  else
    '(len, _) ← ngx_wasm_chain_len bufs None;
    mret (NGX_OK, {| rq_request_body := Some bufs; rq_content_length_n := Z.of_nat len |}, x).

Definition ngx_http_wasm_set_req_body (r : request) (x : ngx_http_wasm_req_ctx_t)
    (body : bytes) (at_ max : nat) : SM store (ngx_rc * request * ngx_http_wasm_req_ctx_t) :=
  if rx_entered_header_filter x then mret (NGX_ABORT, r, x)
  else
    '(rb, r) ← get_request_body r;
    match rb with
    | None => mret (NGX_ERROR, r, x)
    | Some bufs =>
        let body := take max body in
        '(rc, bufs, free) ←
          ngx_wasm_chain_append debug bufs at_ body (rx_free_bufs x) buf_tag false;
        update_req_body rc bufs free r x
    end.

Definition ngx_http_wasm_prepend_req_body (r : request) (x : ngx_http_wasm_req_ctx_t)
    (body : bytes) : SM store (ngx_rc * request * ngx_http_wasm_req_ctx_t) :=
  if rx_entered_header_filter x then mret (NGX_ABORT, r, x)
  else
    '(rb, r) ← get_request_body r;
    match rb with
    | None => mret (NGX_ERROR, r, x)
    | Some bufs =>
        '(rc, bufs, free) ← ngx_wasm_chain_prepend bufs body (rx_free_bufs x) buf_tag;
        update_req_body rc bufs free r x
    end.

(** The length of the chunk and whether it ends the response. *)
Definition measure_chunk (x : ngx_http_wasm_req_ctx_t) : SM store ngx_http_wasm_req_ctx_t :=
  '(len, eof) ← ngx_wasm_chain_len (rx_resp_chunk x) (Some (rx_resp_chunk_eof x));
  mret (set_chunk (rx_resp_chunk x) len (default (rx_resp_chunk_eof x) eof) x).

(** A chunk emptied by a filter. *)
Definition discard_chunk (x : ngx_http_wasm_req_ctx_t) : SM store ngx_http_wasm_req_ctx_t :=
  if negb (rx_resp_chunk_len x =? 0)%nat then mret x
  else if rx_entered_body_filter x then
    mret (set_chunk None (rx_resp_chunk_len x) (rx_resp_chunk_eof x) x)
  else
    c ← slift (deref (rx_resp_chunk x));
    write_link c (on_buf (fun b => set_flags (b_flush b) true true b));;
    mret x.

(** [log_phase] is [rctx->entered_log_phase]. *)
Definition ngx_http_wasm_set_resp_body (log_phase : bool) (x : ngx_http_wasm_req_ctx_t)
    (body : bytes) (at_ max : nat) : SM store (ngx_rc * ngx_http_wasm_req_ctx_t) :=
  '(rc, x) ←
    (match rx_resp_chunk x with
     | Some _ => mret (NGX_OK, x)
     | None =>
         if log_phase then mret (NGX_ABORT, x)
         else
           '(c, free) ← ngx_wasm_chain_get_free_buf (rx_free_bufs x) (length body)
                          (rx_buf_tag x) true;
           let x := set_free_bufs free x in
           match c with
           | None => mret (NGX_ERROR, x)
           | Some c => mret (NGX_OK, set_chunk (Some c) (rx_resp_chunk_len x)
                                       (rx_resp_chunk_eof x) x)
           end
     end);
  if negb (is_ok rc) then mret (rc, x)
  else
    let body := take max body in
    '(rc, chunk, free) ← ngx_wasm_chain_append debug (rx_resp_chunk x) at_ body
                           (rx_free_bufs x) (rx_buf_tag x) false;
    let x := set_chunk chunk (rx_resp_chunk_len x) (rx_resp_chunk_eof x) (set_free_bufs free x) in
    if negb (is_ok rc) then mret (NGX_ERROR, x)
    else
      x ← measure_chunk x;
      x ← discard_chunk x;
      mret (NGX_OK, x).

Definition ngx_http_wasm_prepend_resp_body (x : ngx_http_wasm_req_ctx_t) (body : bytes)
    : SM store (ngx_rc * ngx_http_wasm_req_ctx_t) :=
  match rx_resp_chunk x with
  | None => mret (NGX_ABORT, x)
  | Some _ =>
      '(rc, chunk, free) ← ngx_wasm_chain_prepend (rx_resp_chunk x) body (rx_free_bufs x) buf_tag;
      let x := set_chunk chunk (rx_resp_chunk_len x) (rx_resp_chunk_eof x) (set_free_bufs free x) in
      if negb (is_ok rc) then mret (NGX_ERROR, x)
      else
        x ← measure_chunk x;
        slift (ngx_wa_assert debug (negb (rx_resp_chunk_len x =? 0)%nat));;
        mret (NGX_OK, x)
  end.

(** ** What a filter set is what is sent *)

Lemma extended_len m ls at_ str s cin ls' eof :
  seg (s_links s) cin ls' None -> NoDup ls' -> extended m ls at_ str (s_links s) ls' ->
  ngx_wasm_chain_len cin eof s =
    Ret ((length (take at_ (content m ls) ++ str),
          if existsb is_eof (bufs m ls) then (fun _ => true) <$> eof else eof), s).
Proof.
  intros Hs Hnd (Hc & Hok & k & nl & b & -> & Hb & Hk & He & _).
  rewrite (chain_len_content cin (k ++ [nl])); try done.
  - rewrite Hc. do 3 f_equal. rewrite bufs_app, Hb, existsb_app. simpl. rewrite orb_false_r, He.
    replace (existsb is_eof (bufs (s_links s) k)) with false; [done|]. symmetry.
    apply not_true_is_false. intros (b' & Hin & Hb')%existsb_exists.
    rewrite Forall_elem in Hk. rewrite Hk in Hb' by (by apply list_elem_of_In). done.
  - intros k' a [<- _]%app_inj_tail. done.
Qed.

(** A filter that sets the body of a request from an offset sends the first
    bytes of the old body and then its own, at most [max] of them, with the
    matching content length; only the last buffer carries the end flags, when the
    old body did.  It fails only when an allocation does; once the response started
    it is refused and nothing changes.  This needs that no buffer of the old body is
    empty, unless everything is replaced. *)
Lemma set_req_body_content r x bufs ls fs body at_ max s
  (Hr : rq_request_body r = Some bufs)
  (Hs : seg (s_links s) bufs ls None) (Hnd : NoDup ls)
  (Hok : Forall buf_ok (Chains.bufs (s_links s) ls))
  (Hne : at_ = 0%nat \/ Forall nonempty (Chains.bufs (s_links s) ls))
  (Hfree : seg (s_links s) (rx_free_bufs x) fs None) (Hfs : NoDup fs) (Hdisj : ls ## fs) :
  (rx_entered_header_filter x = true ->
     ngx_http_wasm_set_req_body r x body at_ max s = Ret ((NGX_ABORT, r, x), s)) /\
  (rx_entered_header_filter x = false ->
     exists rc r' x' s',
       ngx_http_wasm_set_req_body r x body at_ max s = Ret ((rc, r', x'), s') /\
       ((rc = NGX_OK /\ exists bufs' ls',
           rq_request_body r' = Some bufs' /\ seg (s_links s') bufs' ls' None /\
           extended (s_links s) ls at_ (take max body) (s_links s') ls' /\
           rq_content_length_n r' = zlen (content (s_links s') ls')) \/
        (rc = NGX_ERROR /\ ~ exists p, s_pool s = true :: true :: p))).
Proof.
  split; intros Hh; unfold ngx_http_wasm_set_req_body; rewrite Hh; [done|].
  unfold get_request_body. rewrite Hr. erewrite SM_bind_Ret by reflexivity. cbn match.
  destruct (chain_append_ok debug s bufs ls at_ (take max body) (rx_free_bufs x) fs buf_tag)
    as (rc & cin' & free' & s' & E & Hpost); try done.
  erewrite SM_bind_Ret by exact E. cbn match. unfold update_req_body.
  destruct Hpost as [(-> & ls' & fs' & Hs' & Hnd' & Hext & _)|(-> & Hpool)].
  - change (is_ok NGX_OK) with true. cbn [negb].
    erewrite SM_bind_Ret by exact (extended_len _ _ _ _ _ _ _ None Hs' Hnd' Hext).
    eexists _, _, _, _. split; [reflexivity|]. left. split; [done|].
    exists cin', ls'. split_and!; [done|done|done|]. destruct Hext as (Hc & _). by rewrite Hc.
  - change (is_ok NGX_ERROR) with false. cbn [negb].
    eexists _, _, _, _. split; [reflexivity|]. by right.
Qed.

(** A filter that prepends to the body of a request. *)
Lemma prepend_req_body_content r x bufs ls fs body s
  (Hr : rq_request_body r = Some bufs)
  (Hs : seg (s_links s) bufs ls None) (Hnd : NoDup ls)
  (Hok : Forall buf_ok (Chains.bufs (s_links s) ls))
  (Hlast : forall k a, ls = k ++ [a] -> Forall (fun b => is_eof b = false) (Chains.bufs (s_links s) k))
  (Hfree : seg (s_links s) (rx_free_bufs x) fs None) (Hfs : NoDup fs) (Hdisj : ls ## fs)
  (Hh : rx_entered_header_filter x = false) :
  exists rc r' x' s',
    ngx_http_wasm_prepend_req_body r x body s = Ret ((rc, r', x'), s') /\
    ((rc = NGX_OK /\ exists bufs' ls',
        rq_request_body r' = Some bufs' /\ seg (s_links s') bufs' ls' None /\
        content (s_links s') ls' = body ++ content (s_links s) ls /\
        rq_content_length_n r' = zlen (content (s_links s') ls')) \/
     (rc = NGX_ERROR /\ ~ exists p, s_pool s = true :: true :: p)).
Proof.
  unfold ngx_http_wasm_prepend_req_body. rewrite Hh. unfold get_request_body. rewrite Hr.
  erewrite SM_bind_Ret by reflexivity. cbn match.
  destruct (chain_prepend_content s bufs ls body (rx_free_bufs x) fs buf_tag)
    as (rc & cin' & free' & s' & E & Hpost); try done.
  erewrite SM_bind_Ret by exact E. cbn match. unfold update_req_body.
  destruct Hpost as [(-> & nl & b & Hs' & Hnl & Hb & Hbok & Hbe & Hc)|(-> & Hpool)].
  - change (is_ok NGX_OK) with true. cbn [negb].
    assert (Hlen : ngx_wasm_chain_len cin' None s' =
      Ret ((length (content (s_links s') (nl :: ls)), None), s')).
    { erewrite chain_len_content; [by destruct (existsb _ _)|done|by constructor| |].
      - rewrite Hb. by constructor.
      - intros k a Hk. destruct k as [|nl' k]; [by constructor|].
        cbn in Hk. injection Hk as <- Hk. rewrite Hk in *.
        destruct (seg_dom (s_links s) bufs (k ++ [a]) None a) as [l Hl]; [done|set_solver|].
        destruct (seg_dom (s_links s') cin' (nl :: k ++ [a]) None a) as [l' Hl']; [done|set_solver|].
        rewrite app_comm_cons, !bufs_app, (bufs_cons _ _ _ _ Hl), (bufs_cons _ _ _ _ Hl') in Hb.
        rewrite app_comm_cons in Hb. apply app_inj_tail in Hb as [-> _].
        constructor; [done|]. by apply (Hlast k a). }
    erewrite SM_bind_Ret by exact Hlen.
    eexists _, _, _, _. split; [reflexivity|]. left. split; [done|].
    exists cin', (nl :: ls). by split_and!.
  - change (is_ok NGX_ERROR) with false. cbn [negb].
    eexists _, _, _, _. split; [reflexivity|]. by right.
Qed.

End bodies.

End Bodies.

(** ** An execution *)

Module BodyExample.
Import Chains ChainRuns BodyFilter BodyRuns Bodies.

Definition request_ctx : ngx_http_wasm_req_ctx_t :=
  {| rx_free_bufs := None; rx_resp_bufs := None; rx_resp_buf_last := None;
     rx_resp_bufs_count := 0; rx_resp_chunk := None; rx_resp_chunk_len := 0;
     rx_resp_chunk_eof := false; rx_resp_buffering := false; rx_resp_chunk_override := false;
     rx_entered_header_filter := false; rx_entered_body_filter := false; rx_buf_tag := 7;
     rx_data := true; rx_main := true |}.

Definition six_bytes : request :=
  {| rq_request_body := Some (Some 1%positive); rq_content_length_n := 6 |}.

Example set_req_body_runs :
  match ngx_http_wasm_set_req_body true 7 six_bytes request_ctx (ngx_string "XYZ!!") 4 3 two_links with
  | Ret ((rc, r, _), s) => rc = NGX_OK /\ rq_content_length_n r = 7 /\
      option_map (walk 9 (s_links s)) (rq_request_body r) = Some (Some (ngx_string "abcdXYZ"))
  | Fault _ => False
  end.
Proof. by vm_compute. Qed.

End BodyExample.
