(* ===== verification/ShmQueue.v ===== *)
(** * Shared-memory queue (src/src/common/shm/ngx_wa_shm_queue.c)

    A FIFO of byte strings in a ring buffer of shared memory.  Each entry is the
    4-byte length of a message followed by its bytes; [push_ptr] and [pop_ptr]
    are offsets in the buffer and [rising_occupancy] tells a full queue from an
    empty one when they are equal.

    Module [Spec] is the abstract queue; Module [ShmQueue] models the code, and
    relates the two by [represents]. *)
From S2P Require Import Prelude.

Module Spec.

Record queue := { capacity : Z; messages : list bytes }.

Definition entry_size (m : bytes) : Z := 4 + zlen m.

Definition occupancy (ms : list bytes) : Z := foldr (fun m n => entry_size m + n) 0 ms.

Definition push (q : queue) (m : bytes) : option queue :=
  if occupancy (messages q) + entry_size m <=? capacity q
  then Some {| capacity := capacity q; messages := messages q ++ [m] |}
  else None.

Definition pop (q : queue) : option (bytes * queue) :=
  match messages q with
  | [] => None
  | m :: ms => Some (m, {| capacity := capacity q; messages := ms |})
  end.

Lemma occupancy_cons m ms : occupancy (m :: ms) = 4 + zlen m + occupancy ms.
Proof. done. Qed.

Lemma occupancy_app ms ms' : occupancy (ms ++ ms') = occupancy ms + occupancy ms'.
Proof. induction ms; simpl; lia. Qed.

Lemma occupancy_nonneg ms : 0 <= occupancy ms.
Proof.
  induction ms as [|m ms IH]; simpl; [lia|].
  unfold entry_size. pose proof (zlen_nonneg m). lia.
Qed.

End Spec.

Module ShmQueue.

Record ngx_wa_shm_queue_t := {
  buffer : bytes;            (* [buffer, buffer_end) *)
  push_ptr : Z;
  pop_ptr : Z;
  rising_occupancy : bool;
}.

Definition set_buffer (q : ngx_wa_shm_queue_t) b :=
  {| buffer := b; push_ptr := push_ptr q; pop_ptr := pop_ptr q;
     rising_occupancy := rising_occupancy q |}.
Definition set_push_ptr (q : ngx_wa_shm_queue_t) p :=
  {| buffer := buffer q; push_ptr := p; pop_ptr := pop_ptr q;
     rising_occupancy := rising_occupancy q |}.
Definition set_pop_ptr (q : ngx_wa_shm_queue_t) p :=
  {| buffer := buffer q; push_ptr := push_ptr q; pop_ptr := p;
     rising_occupancy := rising_occupancy q |}.
Definition set_rising_occupancy (q : ngx_wa_shm_queue_t) r :=
  {| buffer := buffer q; push_ptr := push_ptr q; pop_ptr := pop_ptr q;
     rising_occupancy := r |}.

Definition queue_capacity (queue : ngx_wa_shm_queue_t) : Z := zlen (buffer queue).

Definition queue_occupancy (queue : ngx_wa_shm_queue_t) : Z :=
  if pop_ptr queue <? push_ptr queue then
    wrap64 (push_ptr queue - pop_ptr queue)
  else if push_ptr queue <? pop_ptr queue then
    wrap64 (queue_capacity queue - (pop_ptr queue - push_ptr queue))
  else if rising_occupancy queue then queue_capacity queue else 0.

Section Operations.

(** [true] in a build with [NGX_DEBUG]. *)
Variable debug : bool.

(** The new value of [*ptr]. *)
Definition inc_ptr (queue : ngx_wa_shm_queue_t) (ptr n : Z) : outcome Z :=
  let new_ptr := wrap64 (ptr + n) in
  let cap := queue_capacity queue in
  if cap <=? new_ptr then
    let new_ptr := wrap64 (new_ptr - cap) in
    let? _ := ngx_wa_assert debug (new_ptr <? cap) in
    Ret new_ptr
  else Ret new_ptr.

Definition circular_write (queue : ngx_wa_shm_queue_t) (ptr : Z) (data : bytes)
  : outcome ngx_wa_shm_queue_t :=
  let data_size := zlen data in
  let cap := queue_capacity queue in
  let forward_capacity := wrap64 (cap - ptr) in
  let? _ := ngx_wa_assert debug (data_size <=? wrap64 (cap - queue_occupancy queue)) in
  let? _ := ngx_wa_assert debug (ptr <? cap) in
  if forward_capacity <=? data_size then
    let? head := mem_read data 0 forward_capacity in
    let? b := mem_write (buffer queue) ptr head in
    let? tail := mem_read data forward_capacity (wrap64 (data_size - forward_capacity)) in
    let? b := mem_write b 0 tail in
    Ret (set_buffer queue b)
  else
    let? b := mem_write (buffer queue) ptr data in
    Ret (set_buffer queue b).

(** The bytes copied to [data_out]; [data_out] is the null pointer when
    [out_null]. *)
Definition circular_read (queue : ngx_wa_shm_queue_t) (ptr data_size : Z) (out_null : bool)
  : outcome bytes :=
  let cap := queue_capacity queue in
  let forward_capacity := wrap64 (cap - ptr) in
  let? _ := ngx_wa_assert debug (data_size <=? queue_occupancy queue) in
  let? _ := ngx_wa_assert debug (ptr <? cap) in
  let? _ := ngx_wa_assert debug (negb out_null) in
  if forward_capacity <=? data_size then
    let? head := mem_read (buffer queue) ptr forward_capacity in
    let? tail := mem_read (buffer queue) 0 (wrap64 (data_size - forward_capacity)) in
    Ret (head ++ tail)
  else mem_read (buffer queue) ptr data_size.

Definition check_queue_invariance (queue : ngx_wa_shm_queue_t) : outcome unit :=
  let cap := queue_capacity queue in
  let? _ := ngx_wa_assert debug (push_ptr queue <? cap) in
  ngx_wa_assert debug (pop_ptr queue <? cap).

(** [slab_calloc size] tells whether the slab allocator has [size] bytes;
    [pool_size] is [shpool->end - shpool->start].  [None] leaves [shm->data]
    unset. *)
Definition ngx_wa_shm_queue_init (slab_calloc : Z -> bool) (pool_size ngx_pagesize : Z)
  : outcome (ngx_rc * option ngx_wa_shm_queue_t) :=
  let reserved_size := ngx_pagesize in
  let sizeof_queue := 40 in
  if negb (slab_calloc sizeof_queue) then Ret (NGX_ERROR, None)
  else
    let buffer_size := pool_size in
    let? _ := ngx_wa_assert debug (reserved_size <? buffer_size) in
    let buffer_size := wrap64 (buffer_size - reserved_size) in
    if negb (slab_calloc buffer_size) then Ret (NGX_ERROR, None)
    else
      let queue := {| buffer := replicate (Z.to_nat buffer_size) x00;
                      push_ptr := 0; pop_ptr := 0; rising_occupancy := false |} in
      let? _ := check_queue_invariance queue in
      Ret (NGX_OK, Some queue).

Definition ngx_wa_shm_queue_push_locked (queue : ngx_wa_shm_queue_t) (data : bytes)
  : outcome (ngx_rc * ngx_wa_shm_queue_t) :=
  let len := wrap32 (zlen data) in
  let entry_size := wrap64 (4 + zlen data) in
  if queue_capacity queue <? wrap64 (queue_occupancy queue + entry_size) then
    Ret (NGX_ABORT, queue)
  else
    let? queue := circular_write queue (push_ptr queue) (enc32 len) in
    let? p := inc_ptr queue (push_ptr queue) 4 in
    let queue := set_push_ptr queue p in
    let? queue := circular_write queue (push_ptr queue) data in
    let? p := inc_ptr queue (push_ptr queue) (zlen data) in
    let queue := set_push_ptr queue p in
    let queue := set_rising_occupancy queue true in
    let? _ := check_queue_invariance queue in
    Ret (NGX_OK, queue).

(** [alloc] is the caller's allocator.  The third component is [*data_out]. *)
Definition ngx_wa_shm_queue_pop_locked (queue : ngx_wa_shm_queue_t) (alloc : Z -> bool)
  : outcome (ngx_rc * ngx_wa_shm_queue_t * option bytes) :=
  if queue_occupancy queue <? 4 then Ret (NGX_AGAIN, queue, None)
  else
    let? header := circular_read queue (pop_ptr queue) 4 false in
    let? len := deref (dec32 header) in
    if negb (len =? 0) && negb (alloc len) then Ret (NGX_ERROR, queue, None)
    else
      let buf_null := len =? 0 in
      let? p := inc_ptr queue (pop_ptr queue) 4 in
      let queue := set_pop_ptr queue p in
      let? _ := ngx_wa_assert debug (negb buf_null) in
      let? data := circular_read queue (pop_ptr queue) len buf_null in
      let? p := inc_ptr queue (pop_ptr queue) len in
      let queue := set_pop_ptr queue p in
      let queue := set_rising_occupancy queue false in
      let? _ := check_queue_invariance queue in
      Ret (NGX_OK, queue, Some data).

End Operations.

(** ** Segments of a circular buffer *)

(** The position [k] past the start of a buffer of [cap] bytes. *)
Definition wrapi (cap k : Z) : Z := if k <? cap then k else k - cap.

(** The [n] bytes found from offset [p] on, wrapping around once. *)
Definition seg (b : bytes) (p n : Z) : bytes :=
  take (Z.to_nat n) (drop (Z.to_nat p) (b ++ b)).

(** The buffer after [data] has been written from offset [p] on. *)
Definition splice (b : bytes) (p : Z) (data : bytes) : bytes :=
  let fc := Z.to_nat (zlen b - p) in
  if (fc <=? length data)%nat
  then drop fc data ++ drop (length data - fc) (take (Z.to_nat p) b) ++ take fc data
  else take (Z.to_nat p) b ++ data ++ drop (Z.to_nat p + length data) b.

Definition in_buffer (b : bytes) (p : Z) : Prop := 0 <= p < zlen b.

Ltac ib := first [assumption | unfold in_buffer in *; zlia].

Lemma lookup_dup (b : bytes) i :
  (i < 2 * length b)%nat ->
  (b ++ b) !! i = b !! (Z.to_nat (wrapi (zlen b) (Z.of_nat i))).
Proof.
  intros Hi. unfold wrapi, zlen. case_test.
  - rewrite lookup_app_l by lia. f_equal. lia.
  - rewrite lookup_app_r by lia. f_equal. lia.
Qed.

Lemma seg_length b p n :
  in_buffer b p -> 0 <= n <= zlen b -> length (seg b p n) = Z.to_nat n.
Proof.
  unfold in_buffer, seg. intros. rewrite length_take, length_drop, length_app. zlia.
Qed.

Lemma zlen_seg b p n :
  in_buffer b p -> 0 <= n <= zlen b -> zlen (seg b p n) = n.
Proof. intros. unfold zlen. rewrite seg_length by done. lia. Qed.

Lemma lookup_seg b p n i :
  in_buffer b p -> 0 <= n <= zlen b -> Z.of_nat i < n ->
  seg b p n !! i = b !! Z.to_nat (wrapi (zlen b) (p + Z.of_nat i)).
Proof.
  intros [Hp1 Hp2] Hn Hi. unfold seg.
  rewrite lookup_take_lt by lia. rewrite lookup_drop.
  rewrite lookup_dup by zlia. do 3 f_equal. lia.
Qed.

Lemma seg_app b p m n :
  in_buffer b p -> 0 <= m -> 0 <= n -> m + n <= zlen b -> 
  seg b p (m + n) = seg b p m ++ seg b (wrapi (zlen b) (p + m)) n.
Proof.
  intros Hp Hm Hn Hmn.
  assert (n = 0 \/ 0 < n) as [->|Hn'] by lia.
  { rewrite Z.add_0_r. unfold seg at 3. by rewrite Z2Nat.inj_0, take_0, app_nil_r. }
  assert (Hw : in_buffer b (wrapi (zlen b) (p + m))).
  { unfold in_buffer, wrapi in *. case_test; lia. }
  apply list_eq_same_length with (n := Z.to_nat (m + n)).
  - rewrite length_app, !seg_length; ib.
  - rewrite seg_length; ib.
  - intros i x y Hi Hx Hy.
    rewrite lookup_seg in Hx by (ib).
    destruct (decide (Z.of_nat i < m)).
    + rewrite lookup_app_l in Hy by (rewrite seg_length; ib).
      rewrite lookup_seg in Hy by (ib). congruence.
    + rewrite lookup_app_r in Hy by (rewrite seg_length; ib).
      rewrite seg_length in Hy by (ib).
      rewrite lookup_seg in Hy by (ib).
      enough (Z.to_nat (wrapi (zlen b) (p + Z.of_nat i)) =
              Z.to_nat (wrapi (zlen b) (wrapi (zlen b) (p + m) + Z.of_nat (i - Z.to_nat m))))
        by congruence.
      f_equal. unfold wrapi, in_buffer in *. repeat case_test; lia.
Qed.

Lemma splice_length b p data :
  in_buffer b p -> zlen data <= zlen b -> length (splice b p data) = length b.
Proof.
  unfold in_buffer, splice. intros. case_match;
    rewrite !length_app, ?length_drop, ?length_take;
    rewrite ?Nat.leb_le, ?Nat.leb_gt in *; zlia.
Qed.

Lemma zlen_splice b p data :
  in_buffer b p -> zlen data <= zlen b -> zlen (splice b p data) = zlen b.
Proof. intros. unfold zlen. by rewrite splice_length. Qed.

(** What is read at a position after a write. *)
Lemma lookup_splice b p data j :
  in_buffer b p -> zlen data <= zlen b -> 0 <= j < zlen b ->
  splice b p data !! Z.to_nat j =
    if decide (p <= j < p + zlen data) then data !! Z.to_nat (j - p)
    else if decide (j + zlen b < p + zlen data) then data !! Z.to_nat (j + zlen b - p)
    else b !! Z.to_nat j.
Proof.
  unfold in_buffer, splice. intros Hp Hd Hj.
  destruct (_ <=? length data)%nat eqn:E;
    [apply Nat.leb_le in E | apply Nat.leb_gt in E].
  - destruct (decide (j + zlen b < p + zlen data)).
    + rewrite decide_False by lia.
      rewrite lookup_app_l by (rewrite length_drop; zlia).
      rewrite lookup_drop. f_equal. zlia.
    + rewrite lookup_app_r by (rewrite length_drop; zlia).
      rewrite length_drop.
      destruct (decide (j < p)).
      * rewrite decide_False by lia.
        rewrite lookup_app_l by (rewrite length_drop, length_take; zlia).
        rewrite lookup_drop, lookup_take_lt by zlia. f_equal. zlia.
      * rewrite decide_True by zlia.
        rewrite lookup_app_r by (rewrite length_drop, length_take; zlia).
        rewrite length_drop, length_take.
        rewrite lookup_take_lt by zlia. f_equal. zlia.
  - rewrite (decide_False (P := j + zlen b < _)) by zlia.
    destruct (decide (j < p)).
    + rewrite decide_False by lia.
      rewrite lookup_app_l by (rewrite length_take; zlia).
      by rewrite lookup_take_lt by lia.
    + rewrite lookup_app_r by (rewrite length_take; zlia). rewrite length_take.
      case_decide.
      * rewrite lookup_app_l by zlia. f_equal. zlia.
      * rewrite lookup_app_r by zlia. rewrite lookup_drop. f_equal. zlia.
Qed.

(** Writing [data] just past the [n] bytes that start at [p] appends it to them. *)
Lemma seg_splice b p n data :
  in_buffer b p -> 0 <= n -> n + zlen data <= zlen b ->
  seg (splice b (wrapi (zlen b) (p + n)) data) p (n + zlen data) = seg b p n ++ data.
Proof.
  intros Hp Hn Hd. pose proof (zlen_nonneg data) as Hd0.
  set (w := wrapi (zlen b) (p + n)).
  destruct (decide (data = [])) as [->|Hne].
  { rewrite zlen_nil, Z.add_0_r, app_nil_r. f_equal. unfold splice.
    case_match eqn:E; simpl.
    - rewrite Nat.leb_le in E. simpl in E. unfold w, wrapi, in_buffer in *.
      destruct (Z.ltb_spec (p + n) (zlen b)); unfold zlen in *; lia.
    - rewrite Nat.add_0_r. apply take_drop. }
  assert (0 < zlen data) by (destruct data; [done|rewrite zlen_cons; pose proof (zlen_nonneg data); lia]).
  assert (Hw : in_buffer b w).
  { unfold in_buffer, w, wrapi in *. case_test; lia. }
  assert (Hl : zlen (splice b w data) = zlen b) by (apply zlen_splice; [done|lia]).
  assert (Hp' : in_buffer (splice b w data) p) by (unfold in_buffer in *; by rewrite Hl).
  apply list_eq_same_length with (n := Z.to_nat (n + zlen data)).
  - rewrite length_app, seg_length by (unfold in_buffer in *; lia). zlia.
  - apply seg_length; [done|lia].
  - intros i x y Hi Hx Hy.
    rewrite lookup_seg in Hx by (rewrite ?Hl; ib).
    rewrite Hl in Hx.
    assert (Hr : 0 <= wrapi (zlen b) (p + Z.of_nat i) < zlen b).
    { unfold wrapi, in_buffer in *. case_test; lia. }
    rewrite lookup_splice in Hx by (ib).
    destruct (decide (Z.of_nat i < n)).
    + rewrite lookup_app_l in Hy by (rewrite seg_length; ib).
      rewrite lookup_seg in Hy by (ib).
      rewrite !decide_False in Hx; [congruence|..];
        unfold w, wrapi, in_buffer in *; repeat case_test; lia.
    + rewrite lookup_app_r in Hy by (rewrite seg_length; ib).
      rewrite seg_length in Hy by (ib).
      revert Hx. unfold w, wrapi, in_buffer in *.
      repeat case_test; intros Hx; try lia;
        (rewrite <- Hx, <- Hy || idtac); try (rewrite <- Hy in Hx); 
        match goal with
        | Hx : data !! ?a = Some ?x, Hy : data !! ?b = Some ?y |- _ =>
            replace a with b in Hx by lia; congruence
        | _ => idtac
        end.
Qed.

(** ** Well-formed queues *)

Record wf (q : ngx_wa_shm_queue_t) : Prop := {
  wf_push : in_buffer (buffer q) (push_ptr q);
  wf_pop : in_buffer (buffer q) (pop_ptr q);
  wf_cap : queue_capacity q < 2 ^ 63;
}.

(** An entry as it is laid out in the buffer. *)
Definition entry (m : bytes) : bytes := enc32 (zlen m) ++ m.

Definition contents (q : ngx_wa_shm_queue_t) : bytes :=
  seg (buffer q) (pop_ptr q) (queue_occupancy q).

(** The buffer holds exactly the entries of [ms], oldest first. *)
Record represents (q : ngx_wa_shm_queue_t) (ms : list bytes) : Prop := {
  rep_wf : wf q;
  rep_contents : contents q = concat (entry <$> ms);
  rep_sizes : Forall (fun m => zlen m < 2 ^ 32) ms;
}.

Lemma zlen_entry m : zlen (entry m) = Spec.entry_size m.
Proof. unfold entry, Spec.entry_size. by rewrite zlen_app, zlen_enc32. Qed.

Lemma zlen_entries ms : zlen (concat (entry <$> ms)) = Spec.occupancy ms.
Proof.
  induction ms as [|m ms IH]; [done|].
  cbn [fmap list_fmap concat Spec.occupancy foldr].
  rewrite zlen_app, zlen_entry. unfold Spec.occupancy in IH. lia.
Qed.

Section Facts.
Variable debug : bool.

Lemma occupancy_range q : wf q -> 0 <= queue_occupancy q <= queue_capacity q.
Proof.
  intros [[Hp1 Hp2] [Hq1 Hq2] Hc]. unfold queue_occupancy, queue_capacity in *.
  repeat case_test; rewrite ?wrap64_id by (unfold is_u64; lia); try lia.
  case_match; lia.
Qed.

(** [push_ptr] is [queue_occupancy] bytes past [pop_ptr]. *)
Lemma push_position q :
  wf q -> push_ptr q = wrapi (queue_capacity q) (pop_ptr q + queue_occupancy q).
Proof.
  intros [[Hp1 Hp2] [Hq1 Hq2] Hc]. unfold queue_occupancy, queue_capacity, wrapi in *.
  repeat (case_test || case_match); rewrite ?wrap64_id in * by (unfold is_u64; lia); lia.
Qed.

Lemma inc_ptr_spec q ptr n :
  in_buffer (buffer q) ptr -> queue_capacity q < 2 ^ 63 -> 0 <= n <= queue_capacity q ->
  inc_ptr debug q ptr n = Ret (wrapi (queue_capacity q) (ptr + n)) /\
  in_buffer (buffer q) (wrapi (queue_capacity q) (ptr + n)).
Proof.
  unfold in_buffer, inc_ptr, queue_capacity, wrapi. intros.
  rewrite (wrap64_id (ptr + n)) by (unfold is_u64; lia).
  destruct (Z.leb_spec (zlen (buffer q)) (ptr + n)).
  - rewrite wrap64_id by (unfold is_u64; lia).
    rewrite (proj2 (Z.ltb_lt _ _)) by lia.
    rewrite ngx_wa_assert_true. simpl. case_test; split; (f_equal || idtac); lia.
  - case_test; split; (f_equal || idtac); lia.
Qed.

Lemma circular_write_spec q ptr data :
  in_buffer (buffer q) ptr -> queue_capacity q < 2 ^ 63 ->
  0 <= queue_occupancy q -> zlen data <= queue_capacity q - queue_occupancy q ->
  circular_write debug q ptr data = Ret (set_buffer q (splice (buffer q) ptr data)).
Proof.
  intros Hp Hc Ho Hd. pose proof (zlen_nonneg data) as H0. unfold circular_write.
  unfold in_buffer, queue_capacity in *.
  rewrite !(wrap64_id (_ - _)) by (unfold is_u64; lia).
  rewrite (proj2 (Z.leb_le (zlen data) _)), (proj2 (Z.ltb_lt _ _)) by lia.
  rewrite !ngx_wa_assert_true. cbn [obind].
  unfold splice. destruct (Z.leb_spec (zlen (buffer q) - ptr) (zlen data)) as [Hw|Hw].
  - rewrite (proj2 (Nat.leb_le _ _)) by zlia.
    rewrite (wrap64_id (_ - _)) by (unfold is_u64; lia).
    rewrite !mem_read_in by lia. cbn [obind].
    rewrite Z2Nat.inj_0, drop_0.
    rewrite mem_write_in by (unfold zlen; rewrite ?length_take; zlia). cbn [obind].
    rewrite (drop_ge (buffer q)) by (unfold zlen; rewrite ?length_take; zlia).
    rewrite app_nil_r.
    rewrite (take_ge (drop _ data)) by (rewrite length_drop; zlia).
    rewrite mem_write_in
      by (unfold zlen; rewrite ?length_app, ?length_take, ?length_drop; zlia).
    cbn [obind]. do 2 f_equal. rewrite Z2Nat.inj_0, take_0. cbn [app].
    unfold zlen. rewrite Z.add_0_l, Nat2Z.id, length_drop, drop_app, length_take.
    f_equal. f_equal. rewrite Nat.min_l by zlia.
    rewrite (proj2 (Nat.sub_0_le _ _)) by zlia. by rewrite drop_0.
  - rewrite (proj2 (Nat.leb_gt _ _)) by zlia.
    rewrite mem_write_in by lia. cbn [obind]. do 4 f_equal.
    unfold zlen. f_equal. lia.
Qed.

Lemma circular_read_spec q ptr n out_null :
  in_buffer (buffer q) ptr -> queue_capacity q < 2 ^ 63 ->
  0 <= n <= queue_occupancy q -> queue_occupancy q <= queue_capacity q ->
  debug = false \/ out_null = false ->
  circular_read debug q ptr n out_null = Ret (seg (buffer q) ptr n).
Proof.
  intros Hp Hc Hn Ho Hd. unfold circular_read, in_buffer, queue_capacity in *.
  rewrite !(wrap64_id (_ - ptr)) by (unfold is_u64; lia).
  rewrite (proj2 (Z.leb_le n _)), (proj2 (Z.ltb_lt _ _)) by lia.
  rewrite !ngx_wa_assert_true. cbn [obind].
  replace (ngx_wa_assert debug (negb out_null)) with (Ret tt)
    by (destruct Hd as [-> | ->]; [done | by rewrite ngx_wa_assert_true]).
  cbn [obind]. unfold seg.
  destruct (Z.leb_spec (zlen (buffer q) - ptr) n) as [Hw|Hw].
  - rewrite (wrap64_id (_ - _)) by (unfold is_u64; lia).
    rewrite !mem_read_in by lia. cbn [obind]. f_equal.
    rewrite drop_app_le by zlia. rewrite take_app_ge by (rewrite length_drop; zlia).
    rewrite (take_ge (drop (Z.to_nat ptr) (buffer q))) by (rewrite length_drop; zlia).
    rewrite Z2Nat.inj_0, drop_0. do 2 f_equal. rewrite length_drop. zlia.
  - rewrite mem_read_in by lia. f_equal.
    rewrite drop_app_le by zlia. by rewrite take_app_le by (rewrite length_drop; zlia).
Qed.

(** The queue holds [occ] bytes from [pop_ptr] to [push_ptr]; the occupancy the
    code computes may only be lower (it is 0 for a full buffer whose
    [rising_occupancy] is not set yet). *)
Record filled (q : ngx_wa_shm_queue_t) (occ : Z) : Prop := {
  filled_wf : wf q;
  filled_range : 0 <= occ <= queue_capacity q;
  filled_push : push_ptr q = wrapi (queue_capacity q) (pop_ptr q + occ);
  filled_occ : queue_occupancy q <= occ;
}.

(** One [circular_write] at [push_ptr] and the [inc_ptr] that follows it. *)
Lemma append_spec q occ data :
  filled q occ -> occ + zlen data <= queue_capacity q ->
  exists b p,
    circular_write debug q (push_ptr q) data = Ret (set_buffer q b) /\
    inc_ptr debug (set_buffer q b) (push_ptr q) (zlen data) = Ret p /\
    zlen b = queue_capacity q /\ in_buffer b p /\
    p = wrapi (queue_capacity q) (pop_ptr q + (occ + zlen data)) /\
    seg b (pop_ptr q) (occ + zlen data) = seg (buffer q) (pop_ptr q) occ ++ data.
Proof.
  intros [[Hp Hq Hc] Hr Hpos Hocc] Hd. pose proof (zlen_nonneg data).
  pose proof (occupancy_range q ltac:(by split)) as Ho.
  set (b := splice (buffer q) (push_ptr q) data).
  assert (Hl : zlen b = queue_capacity q).
  { apply zlen_splice; [done|]. unfold queue_capacity in *. lia. }
  assert (Hb : forall p, in_buffer b p <-> in_buffer (buffer q) p).
  { intros. unfold in_buffer, queue_capacity in *. by rewrite Hl. }
  assert (Hcap : queue_capacity (set_buffer q b) = queue_capacity q) by done.
  destruct (inc_ptr_spec (set_buffer q b) (push_ptr q) (zlen data)) as [E Hin];
    [by apply Hb | lia.. |].
  exists b, (wrapi (queue_capacity q) (push_ptr q + zlen data)).
  rewrite Hcap in *. split_and!; try done.
  - apply circular_write_spec; [done|lia..].
  - rewrite Hpos. unfold queue_capacity, wrapi, in_buffer in *. repeat case_test; lia.
  - unfold b. rewrite Hpos. apply seg_splice; [done|lia|]. unfold queue_capacity in *. lia.
Qed.

Lemma check_ok q : wf q -> check_queue_invariance debug q = Ret tt.
Proof.
  intros [[? ?] [? ?] ?]. unfold check_queue_invariance, queue_capacity.
  rewrite !(proj2 (Z.ltb_lt _ _)) by lia. by rewrite !ngx_wa_assert_true.
Qed.

(** Once [rising_occupancy] is set, a non-empty buffer has its true occupancy. *)
Lemma occupancy_rising q occ :
  wf q -> rising_occupancy q = true -> 0 < occ <= queue_capacity q ->
  push_ptr q = wrapi (queue_capacity q) (pop_ptr q + occ) ->
  queue_occupancy q = occ.
Proof.
  intros [[Hp1 Hp2] [Hq1 Hq2] Hc] Hr Ho Hpos.
  unfold queue_occupancy, queue_capacity, wrapi in *. rewrite Hr.
  repeat (case_test || case_match); rewrite ?wrap64_id by (unfold is_u64; lia); lia.
Qed.

Lemma represents_occupancy q ms :
  represents q ms -> queue_occupancy q = Spec.occupancy ms.
Proof.
  intros [Hwf Hcont _]. rewrite <- zlen_entries, <- Hcont. unfold contents.
  symmetry. apply zlen_seg; [apply Hwf | by apply occupancy_range].
Qed.

Lemma represents_filled q ms : represents q ms -> filled q (Spec.occupancy ms).
Proof.
  intros Hr. rewrite <- (represents_occupancy q ms Hr). destruct Hr as [Hwf _ _].
  split; [done | by apply occupancy_range | by apply push_position | lia].
Qed.

Lemma occupancy_le_filled q p b occ :
  wf q -> in_buffer b p -> zlen b = queue_capacity q ->
  0 < occ <= queue_capacity q -> p = wrapi (queue_capacity q) (pop_ptr q + occ) ->
  filled {| buffer := b; push_ptr := p; pop_ptr := pop_ptr q;
            rising_occupancy := rising_occupancy q |} occ.
Proof.
  intros [[Hp1 Hp2] [Hq1 Hq2] Hc] [Hb1 Hb2] Hl Ho Hpos.
  unfold queue_capacity, in_buffer in *.
  split; [split|..]; unfold in_buffer, queue_occupancy, queue_capacity; cbn;
    try lia; [by rewrite Hl|].
  unfold wrapi in Hpos.
  repeat (case_test || case_match); rewrite ?wrap64_id by (unfold is_u64; lia); lia.
Qed.

Lemma push_spec q ms m :
  represents q ms -> zlen m < 2 ^ 32 ->
  if queue_capacity q <? Spec.occupancy ms + Spec.entry_size m
  then ngx_wa_shm_queue_push_locked debug q m = Ret (NGX_ABORT, q)
  else exists q', ngx_wa_shm_queue_push_locked debug q m = Ret (NGX_OK, q') /\
    represents q' (ms ++ [m]) /\ queue_capacity q' = queue_capacity q.
Proof.
  intros Hr Hm. pose proof (zlen_nonneg m).
  pose proof (represents_filled q ms Hr) as Hf.
  pose proof (represents_occupancy q ms Hr) as Hocc.
  destruct Hr as [Hwf Hcont Hsz]. pose proof (wf_cap q Hwf).
  pose proof (occupancy_range q Hwf) as Ho.
  unfold ngx_wa_shm_queue_push_locked, Spec.entry_size. rewrite Hocc in *.
  rewrite (wrap64_id (4 + _)) by (unfold is_u64; lia).
  rewrite (wrap64_id (_ + (4 + _))) by (unfold is_u64; lia).
  rewrite (wrap32_id (zlen m)) by (unfold is_u32; lia).
  case_test; [done|].
  destruct (append_spec q _ (enc32 (zlen m)) Hf) as (b1 & p1 & -> & Ei1 & Hl1 & Hb1 & Hp1 & Hs1);
    [rewrite zlen_enc32; lia|].
  rewrite zlen_enc32 in *. cbn [obind set_buffer push_ptr]. rewrite Ei1. cbn [obind].
  set (q1 := set_push_ptr _ p1).
  assert (Hf1 : filled q1 (Spec.occupancy ms + 4))
    by (apply (occupancy_le_filled q); (done || lia)).
  destruct (append_spec q1 _ m Hf1) as (b2 & p2 & -> & Ei2 & Hl2 & Hb2 & Hp2 & Hs2);
    [change (queue_capacity q1) with (zlen b1); lia|].
  change (queue_capacity q1) with (zlen b1) in *.
  cbn [obind set_buffer push_ptr q1 set_push_ptr]. change (push_ptr q1) with p1 in Ei2.
  rewrite Ei2. cbn [obind].
  set (q2 := set_rising_occupancy _ true).
  assert (Hq2 : wf q2).
  { destruct Hwf as [_ [? ?] ?]. unfold queue_capacity in *.
    split; unfold in_buffer, queue_capacity in *; cbn in *; lia. }
  rewrite check_ok by done. cbn [obind]. exists q2. split_and!; [done| |change (zlen b2 = queue_capacity q); lia].
  split; [done| |apply Forall_app; by rewrite Forall_singleton].
  assert (queue_occupancy q2 = Spec.occupancy ms + 4 + zlen m) as Hocc2.
  { apply occupancy_rising; try done; change (queue_capacity q2) with (zlen b2);
      [lia | by rewrite Hl2]. }
  unfold contents. rewrite Hocc2. cbn in *. rewrite Hs2, Hs1.
  unfold contents in Hcont. rewrite Hocc in Hcont. rewrite Hcont.
  rewrite fmap_app, concat_app, <- app_assoc. cbn. by rewrite app_nil_r.
Qed.

(** Consuming [n] bytes from [pop_ptr]. *)
Lemma consume_occupancy q n :
  wf q -> 0 < n <= queue_occupancy q ->
  let p := wrapi (queue_capacity q) (pop_ptr q + n) in
  queue_occupancy {| buffer := buffer q; push_ptr := push_ptr q; pop_ptr := p;
                     rising_occupancy := false |} = queue_occupancy q - n.
Proof.
  intros Hwf Hn p. pose proof (occupancy_range q Hwf) as Ho.
  pose proof (push_position q Hwf) as Hpos. subst p.
  destruct Hwf as [Hp [Hq1 Hq2] Hc]. revert Hn Ho Hpos.
  generalize (queue_occupancy q) as occ. intros occ Hn Ho Hpos.
  unfold queue_occupancy. cbn. rewrite Hpos.
  unfold queue_capacity, in_buffer, wrapi in *. cbn. clear Hpos.
  repeat case_test; rewrite ?wrap64_id by (unfold is_u64; lia); lia.
Qed.

(** After the header only: [rising_occupancy] is not reset yet. *)
Lemma header_occupancy q :
  wf q -> 4 <= queue_occupancy q ->
  queue_occupancy q - 4 <=
    queue_occupancy (set_pop_ptr q (wrapi (queue_capacity q) (pop_ptr q + 4))) <=
    queue_capacity q.
Proof.
  intros Hwf Hn. pose proof (occupancy_range q Hwf) as Ho.
  pose proof (push_position q Hwf) as Hpos.
  destruct Hwf as [Hp [Hq1 Hq2] Hc]. revert Hn Ho Hpos.
  generalize (queue_occupancy q) as occ. intros occ Hn Ho Hpos.
  unfold queue_occupancy. cbn. rewrite Hpos.
  unfold queue_capacity, in_buffer, wrapi in *. cbn. clear Hpos.
  destruct (rising_occupancy q);
    repeat case_test; rewrite ?wrap64_id by (unfold is_u64; lia); lia.
Qed.

(** The three parts of the contents: header, message, remaining entries. *)
Lemma contents_cons q m ms :
  represents q (m :: ms) ->
  let cap := queue_capacity q in
  let p1 := wrapi cap (pop_ptr q + 4) in
  let p2 := wrapi cap (p1 + zlen m) in
  seg (buffer q) (pop_ptr q) 4 = enc32 (zlen m) /\
  seg (buffer q) p1 (zlen m) = m /\
  seg (buffer q) p2 (Spec.occupancy ms) = concat (entry <$> ms).
Proof.
  intros Hr cap p1 p2. pose proof (represents_occupancy _ _ Hr) as Hocc.
  rewrite Spec.occupancy_cons in Hocc.
  destruct Hr as [Hwf Hcont _]. pose proof (occupancy_range q Hwf).
  pose proof (Spec.occupancy_nonneg ms). pose proof (zlen_nonneg m).
  destruct Hwf as [Hp Hq Hc]. unfold queue_capacity in *.
  assert (Hp1 : in_buffer (buffer q) p1)
    by (unfold p1, cap, wrapi, in_buffer in *; case_test; lia).
  unfold contents in Hcont. rewrite Hocc, <- Z.add_assoc in Hcont.
  rewrite !seg_app in Hcont by (done || lia).
  cbn [fmap list_fmap concat] in Hcont. unfold entry at 1 in Hcont.
  rewrite <- app_assoc in Hcont.
  apply app_inj_1 in Hcont; [|by rewrite seg_length by (done || lia)].
  destruct Hcont as [H4 Hcont].
  apply app_inj_1 in Hcont; [|rewrite seg_length by (done || lia); zlia].
  by destruct Hcont.
Qed.

Lemma pop_spec q m ms alloc :
  represents q (m :: ms) -> debug = false \/ m <> [] ->
  if (zlen m =? 0) || alloc (zlen m)
  then exists q', ngx_wa_shm_queue_pop_locked debug q alloc = Ret (NGX_OK, q', Some m) /\
    represents q' ms /\ queue_capacity q' = queue_capacity q
  else ngx_wa_shm_queue_pop_locked debug q alloc = Ret (NGX_ERROR, q, None).
Proof.
  intros Hr Hd. destruct (contents_cons q m ms Hr) as (Hs4 & Hsm & Hsms).
  pose proof (represents_occupancy _ _ Hr) as Hocc.
  rewrite Spec.occupancy_cons in Hocc.
  pose proof (zlen_nonneg m). pose proof (Spec.occupancy_nonneg ms).
  destruct Hr as [Hwf Hcont Hsz]. apply Forall_cons_1 in Hsz as [Hm Hsz].
  pose proof (occupancy_range q Hwf) as Ho. pose proof (wf_cap q Hwf).
  unfold ngx_wa_shm_queue_pop_locked.
  rewrite (proj2 (Z.ltb_ge _ _)) by lia.
  rewrite circular_read_spec by (try apply Hwf; lia || by right).
  rewrite Hs4. cbn [obind].
  rewrite dec32_enc32, wrap32_id by (unfold is_u32; lia). cbn [deref obind].
  rewrite <- negb_orb. destruct ((zlen m =? 0) || alloc (zlen m)); cbn [negb]; [|done].
  destruct (inc_ptr_spec q (pop_ptr q) 4) as [E1 Hin1]; [apply Hwf|lia..|].
  rewrite E1. cbn [obind]. set (p1 := wrapi _ (pop_ptr q + 4)) in *.
  assert (Hnull : debug = false \/ (zlen m =? 0) = false).
  { destruct Hd as [-> | Hne]; [by left | right]. apply Z.eqb_neq.
    destruct m; [done|]. rewrite zlen_cons. pose proof (zlen_nonneg m). lia. }
  replace (ngx_wa_assert debug (negb (zlen m =? 0))) with (Ret tt)
    by (destruct Hnull as [-> | ->]; [done | by rewrite ngx_wa_assert_true]).
  pose proof (header_occupancy q Hwf ltac:(lia)) as Hho.
  fold p1 in Hho. cbn [obind]. change (pop_ptr (set_pop_ptr q p1)) with p1.
  rewrite (circular_read_spec (set_pop_ptr q p1))
    by (done || change (queue_capacity (set_pop_ptr q p1)) with (queue_capacity q); lia).
  cbn [obind]. change (buffer (set_pop_ptr q p1)) with (buffer q).
  rewrite Hsm.
  destruct (inc_ptr_spec (set_pop_ptr q p1) p1 (zlen m)) as [E2 Hin2];
    [done|done|change (0 <= zlen m <= queue_capacity q); lia|].
  rewrite E2. cbn [obind].
  change (queue_capacity (set_pop_ptr q p1)) with (queue_capacity q) in *.
  set (p2 := wrapi _ (p1 + zlen m)) in *.
  assert (Hwf2 : wf (set_rising_occupancy (set_pop_ptr q p2) false)).
  { destruct Hwf. by split. }
  change (set_rising_occupancy _ false) with (set_rising_occupancy (set_pop_ptr q p2) false).
  rewrite check_ok by done. cbn [obind]. eexists. split_and!; [done| |done].
  split; [done| |done]. unfold contents. rewrite <- Hsms. f_equal.
  assert (p2 = wrapi (queue_capacity q) (pop_ptr q + (4 + zlen m))) as ->.
  { unfold p2, p1. destruct Hwf as [? [? ?] ?]. unfold queue_capacity, wrapi in *.
    repeat case_test; lia. }
  etransitivity; [apply (consume_occupancy q (4 + zlen m)); [done|lia]|lia].
Qed.

Lemma pop_empty_spec q alloc :
  represents q [] -> ngx_wa_shm_queue_pop_locked debug q alloc = Ret (NGX_AGAIN, q, None).
Proof.
  intros Hr. pose proof (represents_occupancy _ _ Hr) as Hocc.
  unfold ngx_wa_shm_queue_pop_locked. by rewrite Hocc.
Qed.

(** A fresh queue is empty. *)
Lemma init_spec slab_calloc pool_size ngx_pagesize :
  slab_calloc 40 = true -> slab_calloc (pool_size - ngx_pagesize) = true ->
  0 <= ngx_pagesize < pool_size -> pool_size < 2 ^ 63 ->
  exists q, ngx_wa_shm_queue_init debug slab_calloc pool_size ngx_pagesize = Ret (NGX_OK, Some q) /\
    represents q [] /\ queue_capacity q = pool_size - ngx_pagesize.
Proof.
  intros H1 H2 Hp Hs. unfold ngx_wa_shm_queue_init. rewrite H1. cbn [negb].
  rewrite (proj2 (Z.ltb_lt _ _)), ngx_wa_assert_true by lia. cbn [obind].
  rewrite wrap64_id by (unfold is_u64; lia). rewrite H2. cbn [negb].
  set (q := Build_ngx_wa_shm_queue_t _ _ _ _).
  assert (Hc : queue_capacity q = pool_size - ngx_pagesize).
  { unfold queue_capacity, q, zlen. cbn. rewrite length_replicate. lia. }
  assert (Hwf : wf q).
  { split; unfold in_buffer; change (zlen (buffer q)) with (queue_capacity q); cbn; lia. }
  rewrite check_ok by done. exists q. split_and!; [done| |done]. by split.
Qed.

End Facts.

(** ** Sequences of calls *)

Inductive call := Push (data : bytes) | Pop (alloc_ok : bool).

(** Messages a [uint32_t] counts, and in a debug build not empty: the pop of an empty one
    fails an assertion ([pop_asserts_iff_empty] below). *)
Definition takeable (debug : bool) (m : bytes) : Prop := debug = false \/ m <> [].
Definition sendable (debug : bool) (c : call) : Prop :=
  match c with Push m => zlen m < 2 ^ 32 /\ takeable debug m | Pop _ => True end.

Fixpoint run (debug : bool) (calls : list call) (q : ngx_wa_shm_queue_t)
  : outcome (list (ngx_rc * option bytes) * ngx_wa_shm_queue_t) :=
  match calls with
  | [] => Ret ([], q)
  | Push m :: calls =>
      let? (rc, q) := ngx_wa_shm_queue_push_locked debug q m in
      let? (rs, q) := run debug calls q in
      Ret ((rc, None) :: rs, q)
  | Pop ok :: calls =>
      let? (rc, q, out) := ngx_wa_shm_queue_pop_locked debug q (fun _ => ok) in
      let? (rs, q) := run debug calls q in
      Ret ((rc, out) :: rs, q)
  end.

(** What the abstract queue answers to the same calls. *)
Fixpoint spec_run (calls : list call) (s : Spec.queue)
  : list (ngx_rc * option bytes) * Spec.queue :=
  match calls with
  | [] => ([], s)
  | Push m :: calls =>
      let '(rc, s) := match Spec.push s m with
                      | Some s => (NGX_OK, s)
                      | None => (NGX_ABORT, s)
                      end in
      let '(rs, s) := spec_run calls s in ((rc, None) :: rs, s)
  | Pop ok :: calls =>
      let '(rc, out, s) := match Spec.pop s with
                           | Some (m, s') =>
                               if (zlen m =? 0) || ok
                               then (NGX_OK, Some m, s') else (NGX_ERROR, None, s)
                           | None => (NGX_AGAIN, None, s)
                           end in
      let '(rs, s) := spec_run calls s in ((rc, out) :: rs, s)
  end.

Lemma run_refines debug calls : forall q ms,
  represents q ms -> Forall (takeable debug) ms -> Forall (sendable debug) calls ->
  exists q', run debug calls q =
      Ret ((spec_run calls {| Spec.capacity := queue_capacity q; Spec.messages := ms |}).1, q') /\
    represents q' (Spec.messages (spec_run calls {| Spec.capacity := queue_capacity q; Spec.messages := ms |}).2).
Proof.
  induction calls as [|c calls IH]; intros q ms Hr Ht Hs; [by exists q|].
  apply Forall_cons_1 in Hs as [Hc Hs]. destruct c as [m|ok]; cbn.
  - destruct Hc as [Hc Hm].
    pose proof (push_spec debug q ms m Hr Hc) as Hp. unfold Spec.push. cbn.
    rewrite Z.ltb_antisym in Hp. destruct (_ <=? _); cbn in Hp.
    + destruct Hp as (q1 & -> & Hr1 & Hcap). cbn.
      destruct (IH q1 _ Hr1 ltac:(apply Forall_app; auto) Hs) as (q' & E & Hr').
      rewrite Hcap in *. rewrite E. cbn. exists q'. by destruct (spec_run calls _).
    + rewrite Hp. cbn. destruct (IH q _ Hr Ht Hs) as (q' & E & Hr'). rewrite E. cbn.
      exists q'. by destruct (spec_run calls _).
  - destruct ms as [|m ms]; cbn.
    + rewrite pop_empty_spec by done. cbn.
      destruct (IH q _ Hr Ht Hs) as (q' & E & Hr'). rewrite E. cbn.
      exists q'. by destruct (spec_run calls _).
    + pose proof (Forall_inv Ht) as Hm. pose proof (Forall_inv_tail Ht) as Ht'.
      pose proof (pop_spec debug q m ms (fun _ => ok) Hr Hm) as Hp.
      destruct ((zlen m =? 0) || ok).
      * destruct Hp as (q1 & -> & Hr1 & Hcap). cbn.
        destruct (IH q1 _ Hr1 Ht' Hs) as (q' & E & Hr'). rewrite Hcap in *. rewrite E. cbn.
        exists q'. by destruct (spec_run calls _).
      * rewrite Hp. cbn. destruct (IH q _ Hr Ht Hs) as (q' & E & Hr'). rewrite E. cbn.
        exists q'. by destruct (spec_run calls _).
Qed.

(** C23. Refinement, of both builds: whatever sequence of enqueue and dequeue calls is made on a
    freshly initialised queue (in a debug build: with messages that are not empty), no access
    leaves the ring buffer, no assertion fails, and the codes and messages returned are those
    of the abstract bounded FIFO, wrap-around and "full" included. *)
Theorem shm_queue_refines_fifo (debug : bool) (slab_calloc : Z -> bool)
    (pool_size ngx_pagesize : Z) (calls : list call) :
  slab_calloc 40 = true -> slab_calloc (pool_size - ngx_pagesize) = true ->
  0 <= ngx_pagesize < pool_size -> pool_size < 2 ^ 63 ->
  Forall (sendable debug) calls ->
  let s := {| Spec.capacity := pool_size - ngx_pagesize; Spec.messages := [] |} in
  exists q q',
    ngx_wa_shm_queue_init debug slab_calloc pool_size ngx_pagesize = Ret (NGX_OK, Some q) /\
    run debug calls q = Ret ((spec_run calls s).1, q') /\
    represents q' (Spec.messages (spec_run calls s).2).
Proof.
  intros H1 H2 Hp Hs Hc s.
  destruct (init_spec debug slab_calloc pool_size ngx_pagesize) as (q & E & Hr & Hcap); [done..|].
  destruct (run_refines debug calls q [] Hr (Forall_nil_2 _) Hc) as (q' & Er & Hr').
  rewrite Hcap in *. by exists q, q'.
Qed.

Definition example_calls : list call :=
  [ Push (ngx_string "abc"); Push (ngx_string "defg"); Push (ngx_string "no room");
    Pop true; Pop false; Push (ngx_string "hi"); Pop true; Pop true; Pop true ].

Lemma shm_queue_refines_fifo_witness :
  let s := {| Spec.capacity := 18; Spec.messages := [] |} in
  (spec_run example_calls s).1 =
    [ (NGX_OK, None); (NGX_OK, None); (NGX_ABORT, None);
      (NGX_OK, Some (ngx_string "abc")); (NGX_ERROR, None); (NGX_OK, None);
      (NGX_OK, Some (ngx_string "defg")); (NGX_OK, Some (ngx_string "hi"));
      (NGX_AGAIN, None) ] /\
  exists q q',
    ngx_wa_shm_queue_init true (fun _ => true) 4114 4096 = Ret (NGX_OK, Some q) /\
    run true example_calls q = Ret ((spec_run example_calls s).1, q') /\
    represents q' (Spec.messages (spec_run example_calls s).2).
Proof.
  split; [vm_compute; reflexivity|].
  apply (shm_queue_refines_fifo true (fun _ => true) 4114 4096 example_calls);
    [reflexivity|reflexivity|lia|lia|].
  unfold example_calls.
  repeat (apply Forall_nil_2 || apply Forall_cons_2);
    first [exact I | split; [vm_compute; reflexivity | right; discriminate]].
Defined.

(** In a debug build, dequeuing a message fails an assertion exactly when the
    message is empty: the null buffer of an empty message is asserted not to be
    null although the release build returns it. *)
Lemma pop_asserts_iff_empty (q : ngx_wa_shm_queue_t) (m : bytes) (ms : list bytes) :
  represents q (m :: ms) ->
  ngx_wa_shm_queue_pop_locked true q (fun _ => true) = Fault F_assert <-> m = [].
Proof.
  intros Hr. split.
  - intros E. destruct m as [|b m]; [done|].
    pose proof (pop_spec true q (b :: m) ms (fun _ => true) Hr ltac:(by right)) as Hp.
    rewrite orb_true_r in Hp. destruct Hp as (q' & Hp & _). congruence.
  - intros ->. pose proof (represents_occupancy _ _ Hr) as Hocc.
    rewrite Spec.occupancy_cons, zlen_nil in Hocc. pose proof (Spec.occupancy_nonneg ms).
    destruct (contents_cons q [] ms Hr) as (Hs4 & _ & _).
    destruct Hr as [Hwf _ _]. pose proof (occupancy_range q Hwf).
    unfold ngx_wa_shm_queue_pop_locked. rewrite (proj2 (Z.ltb_ge _ _)) by lia.
    rewrite circular_read_spec by (try apply Hwf; lia || by right).
    rewrite Hs4. cbn [obind]. rewrite dec32_enc32. cbn [deref obind].
    destruct (inc_ptr_spec true q (pop_ptr q) 4) as [-> _];
      [apply Hwf | apply Hwf | lia | done].
Qed.

Example pop_of_empty_asserts :
  let q := {| buffer := enc32 0 ++ replicate 8 x00; push_ptr := 4; pop_ptr := 0;
              rising_occupancy := true |} in
  represents q [[]] /\
  (ngx_wa_shm_queue_pop_locked true q (fun _ => true) = Fault F_assert <-> @nil byte = []).
Proof.
  intros q. assert (H : represents q [[]]).
  { split; [split; vm_compute; split; discriminate + done | reflexivity | repeat constructor].
    }
  split; [exact H | exact (pop_asserts_iff_empty q [] [] H)].
Defined.

End ShmQueue.
