(* ===== verification/ShmKv.v ===== *)
(** * Shared-memory key/value store (src/src/common/shm/ngx_wa_shm_kv.c)

    A store maps the CRC-32 of a key to a node holding a value and its
    compare-and-swap counter.  Nodes are chunks of a slab; the red-black tree
    finds them by hash and, when the zone evicts, one LRU queue (policy [LRU]) or
    one queue per slab slot (policy [SLRU]) orders them by last use.

    The heap of nodes is explicit ([nodes]), so that a node freed by an eviction
    and used afterwards is a [Fault F_memory]. *)
From S2P Require Import Prelude NginxCore.

Inductive ngx_wa_shm_eviction_e :=
| NGX_WA_SHM_EVICTION_LRU
| NGX_WA_SHM_EVICTION_SLRU
| NGX_WA_SHM_EVICTION_NONE.

#[export] Instance eviction_eq_dec : EqDecision ngx_wa_shm_eviction_e.
Proof. solve_decision. Defined.

Module ShmKv.

(** ** Slab slots and SLRU queues *)

(** The fields of [ngx_slab_pool_t] and of the page size used by the store. *)
Record slab_geometry := {
  ngx_pagesize_shift : Z;
  min_shift : Z;
}.

Definition ngx_pagesize (g : slab_geometry) : Z := Z.shiftl 1 (ngx_pagesize_shift g).
Definition min_size (g : slab_geometry) : Z := Z.shiftl 1 (min_shift g).
Definition NGX_WASM_SLAB_MAX_SIZE (g : slab_geometry) : Z := ngx_pagesize g / 2.
Definition NGX_WASM_SLAB_SLOTS (g : slab_geometry) : Z := ngx_pagesize_shift g - min_shift g.
Definition NGX_WASM_SLRU_NQUEUES (g : slab_geometry) : Z := NGX_WASM_SLAB_SLOTS g + 1.

(** [for (s = size - 1; s >>= 1; shift++)]: at most 64 turns for a [size_t]. *)
Fixpoint slru_shift (fuel : nat) (s shift : Z) : Z :=
  match fuel with
  | O => shift
  | S fuel =>
      let s := Z.shiftr s 1 in
      if s =? 0 then shift else slru_shift fuel s (shift + 1)
  end.

Definition slru_index_for_size (g : slab_geometry) (size : Z) : Z :=
  if NGX_WASM_SLAB_MAX_SIZE g <? size then NGX_WASM_SLRU_NQUEUES g - 1
  else if min_size g <? size then slru_shift 64 (size - 1) 1 - min_shift g
  else 0.

(** ** The store *)

Record ngx_wa_shm_kv_node_t := {
  n_hash : Z;               (* key.node.key *)
  n_key : bytes;            (* key.str *)
  n_value : bytes;          (* value *)
  n_cas : Z;
}.

Definition sizeof_ngx_wa_shm_kv_node_t : Z := 96.

Definition node_size (n : ngx_wa_shm_kv_node_t) : Z :=
  sizeof_ngx_wa_shm_kv_node_t + zlen (n_key n) + zlen (n_value n).

Section Store.
Context {P : Type} `{Slab P} `{Rbtree}.
(** [ngx_crc32_long] *)
Variable ngx_crc32_long : bytes -> Z.
Variable eviction : ngx_wa_shm_eviction_e.
Variable geometry : slab_geometry.

Record ngx_wa_shm_kv_t := {
  tree : rbtree;
  nelts : Z;
  queues : list (list addr);     (* lru_queue, or slru_queues; head first *)
  nodes : gmap addr ngx_wa_shm_kv_node_t;
  shpool : P;
}.

Definition set_links (kv : ngx_wa_shm_kv_t) t qs :=
  {| tree := t; nelts := nelts kv; queues := qs; nodes := nodes kv; shpool := shpool kv |}.
Definition set_queues (kv : ngx_wa_shm_kv_t) qs := set_links kv (tree kv) qs.
Definition set_tree (kv : ngx_wa_shm_kv_t) t := set_links kv t (queues kv).
Definition set_nelts (kv : ngx_wa_shm_kv_t) n :=
  {| tree := tree kv; nelts := n; queues := queues kv; nodes := nodes kv; shpool := shpool kv |}.
Definition set_node (kv : ngx_wa_shm_kv_t) a n :=
  {| tree := tree kv; nelts := nelts kv; queues := queues kv;
     nodes := <[a := n]> (nodes kv); shpool := shpool kv |}.
Definition set_heap (kv : ngx_wa_shm_kv_t) ns p :=
  {| tree := tree kv; nelts := nelts kv; queues := queues kv; nodes := ns; shpool := p |}.

Definition evicts : bool :=
  match eviction with
  | NGX_WA_SHM_EVICTION_LRU | NGX_WA_SHM_EVICTION_SLRU => true
  | NGX_WA_SHM_EVICTION_NONE => false
  end.

(** [sizeof(ngx_wa_shm_kv_t)] and [sizeof(ngx_queue_t)] on a 64-bit platform. *)
Definition kv_init_size : Z :=
  match eviction with
  | NGX_WA_SHM_EVICTION_SLRU => 88 + 16 * NGX_WASM_SLRU_NQUEUES geometry
  | _ => 88
  end.

Definition ngx_wa_shm_kv_init (pool : P) : ngx_rc * option ngx_wa_shm_kv_t :=
  match slab_calloc pool kv_init_size with
  | None => (NGX_ERROR, None)
  | Some (_, pool) =>
      (NGX_OK,
       Some {| tree := Sentinel; nelts := 0;
               queues :=
                 match eviction with
                 | NGX_WA_SHM_EVICTION_LRU => [[]]
                 | NGX_WA_SHM_EVICTION_SLRU =>
                     replicate (Z.to_nat (NGX_WASM_SLRU_NQUEUES geometry)) []
                 | NGX_WA_SHM_EVICTION_NONE => []
                 end;
               nodes := ∅; shpool := pool |})
  end.

(** [ngx_queue_remove]: unlinks a node from the queue it is in; the links of a
    node in no queue are not valid pointers. *)
Definition ngx_queue_remove (qs : list (list addr)) (a : addr) : outcome (list (list addr)) :=
  if bool_decide (a ∈ concat qs) then Ret (filter (fun b => b <> a) <$> qs)
  else Fault F_memory.

Definition ngx_queue_insert_head (qs : list (list addr)) (i : nat) (a : addr)
  : list (list addr) := alter (cons a) i qs.

(** The index of the queue a node belongs to. *)
Definition queue_for_node (n : ngx_wa_shm_kv_node_t) : nat :=
  match eviction with
  | NGX_WA_SHM_EVICTION_SLRU => Z.to_nat (slru_index_for_size geometry (node_size n))
  | _ => 0
  end.

Definition ngx_wa_shm_rbtree_lookup (kv : ngx_wa_shm_kv_t) (key_hash : Z) : option addr :=
  rb_find key_hash (tree kv).

(** The value and the cas returned through [value_out] and [cas]. *)
Definition ngx_wa_shm_kv_get_locked (kv : ngx_wa_shm_kv_t) (key : bytes) (key_hash : option Z)
  : outcome (ngx_rc * ngx_wa_shm_kv_t * option (bytes * Z)) :=
  let h := match key_hash with Some h => h | None => ngx_crc32_long key end in
  match ngx_wa_shm_rbtree_lookup kv h with
  | None => Ret (NGX_DECLINED, kv, None)
  | Some a =>
      let? n := deref (nodes kv !! a) in
      let? kv :=
        (if evicts then
           let? qs := ngx_queue_remove (queues kv) a in
           Ret (set_queues kv (ngx_queue_insert_head qs (queue_for_node n) a))
         else Ret kv) in
      Ret (NGX_OK, kv, Some (n_value n, n_cas n))
  end.

(** [ngx_slab_free_locked] of a node. *)
Definition free_node (kv : ngx_wa_shm_kv_t) (a : addr) : ngx_wa_shm_kv_t :=
  set_heap kv (delete a (nodes kv)) (slab_free (shpool kv) a).

Definition queue_expire (kv : ngx_wa_shm_kv_t) (q : addr) : outcome (ngx_rc * ngx_wa_shm_kv_t) :=
  let? _ := deref (nodes kv !! q) in
  let? qs := ngx_queue_remove (queues kv) q in
  let kv := set_queues kv qs in
  let kv := set_tree kv (ngx_rbtree_delete (tree kv) q) in
  let kv := free_node kv q in
  Ret (NGX_OK, set_nelts kv (wrap64 (nelts kv - 1))).

(** The scan of [slru_expire] over the queues of the given indices. *)
Fixpoint slru_scan (kv : ngx_wa_shm_kv_t) (idxs : list nat) : outcome (ngx_rc * ngx_wa_shm_kv_t) :=
  match idxs with
  | [] => Ret (NGX_ABORT, kv)
  | i :: idxs =>
      let? queue := deref (queues kv !! i) in
      match last queue with
      | Some q => queue_expire kv q
      | None => slru_scan kv idxs
      end
  end.

Definition slru_expire (kv : ngx_wa_shm_kv_t) (size : Z) : outcome (ngx_rc * ngx_wa_shm_kv_t) :=
  let n := Z.to_nat (NGX_WASM_SLRU_NQUEUES geometry) in
  let start := Z.to_nat (slru_index_for_size geometry size) in
  (* from the correct queue into larger slots, then smaller slots downwards *)
  slru_scan kv (seq start (n - start) ++ reverse (seq 0 start)).

Definition lru_expire (kv : ngx_wa_shm_kv_t) : outcome (ngx_rc * ngx_wa_shm_kv_t) :=
  let? lru_queue := deref (queues kv !! 0%nat) in
  match last lru_queue with
  | None => Ret (NGX_ABORT, kv)
  | Some q => queue_expire kv q
  end.

Definition expire (kv : ngx_wa_shm_kv_t) (size : Z) : outcome (ngx_rc * ngx_wa_shm_kv_t) :=
  match eviction with
  | NGX_WA_SHM_EVICTION_LRU => lru_expire kv
  | NGX_WA_SHM_EVICTION_SLRU => slru_expire kv size
  | NGX_WA_SHM_EVICTION_NONE => Ret (NGX_ABORT, kv)
  end.

Definition node_queue_remove (kv : ngx_wa_shm_kv_t) (a : addr) : outcome ngx_wa_shm_kv_t :=
  if evicts then
    let? qs := ngx_queue_remove (queues kv) a in Ret (set_queues kv qs)
  else Ret kv.

(** [for ( ;; )] around [ngx_slab_calloc_locked]: [None] is the NGX_ERROR exit. *)
Fixpoint alloc_loop (fuel : nat) (kv : ngx_wa_shm_kv_t) (size : Z)
  : outcome (option addr * ngx_wa_shm_kv_t) :=
  match fuel with
  | O => Fault F_fuel
  | S fuel =>
      match slab_calloc (shpool kv) size with
      | Some (n, pool) => Ret (Some n, set_heap kv (nodes kv) pool)
      | None =>
          let? (rc, kv) := expire kv size in
          if is_ok rc then alloc_loop fuel kv size else Ret (None, kv)
      end
  end.

(** Every turn of the loop but the last frees one node. *)
Definition alloc_fuel (kv : ngx_wa_shm_kv_t) : nat := S (S (size (nodes kv))).

(** The node [n], found or just allocated, receives the value. *)
Definition store_value (kv : ngx_wa_shm_kv_t) (a : addr) (value : bytes)
  : outcome (ngx_rc * ngx_wa_shm_kv_t * option bool) :=
  let? n := deref (nodes kv !! a) in
  let? v := mem_write (n_value n) 0 value in
  let n := {| n_hash := n_hash n; n_key := n_key n; n_value := v;
              n_cas := wrap32 (n_cas n + 1) |} in
  Ret (NGX_OK, set_node kv a n, Some true).

(** The node allocated by the loop, once its lengths, hash and strings are set. *)
Definition new_node (key value : bytes) (cas : Z) : ngx_wa_shm_kv_node_t :=
  {| n_hash := ngx_crc32_long key; n_key := key;
     n_value := replicate (length value) x00; n_cas := cas |}.

(** The third component is the value left in [*written], if any.
    [value = None] is the null pointer. *)
Definition ngx_wa_shm_kv_set_locked (kv : ngx_wa_shm_kv_t) (key : bytes)
    (value : option bytes) (cas : Z)
  : outcome (ngx_rc * ngx_wa_shm_kv_t * option bool) :=
  let key_hash := ngx_crc32_long key in
  let found := ngx_wa_shm_rbtree_lookup kv key_hash in
  let? cur := match found with
              | None => Ret None
              | Some a => let? n := deref (nodes kv !! a) in Ret (Some (a, n))
              end in
  let cur_cas := match cur with None => 0 | Some (_, n) => n_cas n end in
  if negb (cas =? cur_cas) then Ret (NGX_OK, kv, Some false)
  else
    match value, cur with
    | None, None => Ret (NGX_OK, kv, Some false)
    | None, Some (a, _) =>
        let? kv := node_queue_remove kv a in
        let kv := set_tree kv (ngx_rbtree_delete (tree kv) a) in
        let kv := free_node kv a in
        Ret (NGX_OK, set_nelts kv (wrap64 (nelts kv - 1)), Some true)
    | Some value, _ =>
        let '(n, old) :=
          match cur with
          | Some (a, nd) =>
              if zlen (n_value nd) <? zlen value then (None, Some a) else (Some (a, nd), None)
          | None => (None, None)
          end in
        match n with
        | Some (a, nd) =>
            let nd := {| n_hash := n_hash nd; n_key := n_key nd;
                         n_value := take (length value) (n_value nd); n_cas := n_cas nd |} in
            let kv := set_node kv a nd in
            let? kv :=
              (if evicts then
                 let? qs := ngx_queue_remove (queues kv) a in
                 Ret (set_queues kv (ngx_queue_insert_head qs (queue_for_node nd) a))
               else Ret kv) in
            store_value kv a value
        | None =>
            let size := sizeof_ngx_wa_shm_kv_node_t + zlen key + zlen value in
            let? (allocated, kv) := alloc_loop (alloc_fuel kv) kv size in
            match allocated with
            | None => Ret (NGX_ERROR, kv, None)
            | Some a =>
                let kv := set_node kv a (new_node key value 0) in
                let? kv :=
                  match old with
                  | Some o =>
                      let? on := deref (nodes kv !! o) in
                      let? kv := node_queue_remove kv o in
                      let kv := set_node kv a (new_node key value (n_cas on)) in
                      let kv := set_tree kv (ngx_rbtree_delete (tree kv) o) in
                      Ret (free_node kv o)
                  | None => Ret (set_nelts kv (wrap64 (nelts kv + 1)))
                  end in
                let? nd := deref (nodes kv !! a) in
                let kv := set_tree kv (ngx_rbtree_insert (tree kv) a (n_hash nd) (n_key nd)) in
                let kv :=
                  if evicts
                  then set_queues kv (ngx_queue_insert_head (queues kv) (queue_for_node nd) a)
                  else kv in
                store_value kv a value
            end
        end
    end.

End Store.

Arguments ngx_wa_shm_kv_t P : clear implicits.

(** ** Slots *)

(** Page and slab sizes as nginx computes them. *)
Record geometry_ok (g : slab_geometry) : Prop := {
  geo_min : 0 <= min_shift g;
  geo_page : min_shift g < ngx_pagesize_shift g <= 63;
}.

Lemma slru_shift_log2 fuel : forall s shift,
  0 <= s < 2 ^ Z.of_nat fuel -> slru_shift fuel s shift = shift + Z.log2 s.
Proof.
  induction fuel as [|fuel IH]; intros s shift Hs.
  - assert (s = 0) as -> by (change (2 ^ Z.of_nat 0) with 1 in Hs; lia). cbn. lia.
  - rewrite Nat2Z.inj_succ, Z.pow_succ_r in Hs by lia. cbn [slru_shift].
    rewrite Z.shiftr_div_pow2, Z.pow_1_r by lia.
    destruct (Z.eqb_spec (s / 2) 0) as [E|E].
    + assert (s = 0 \/ s = 1) as [-> | ->]
        by (Z.to_euclidean_division_equations; lia); cbn; lia.
    + assert (Hs2 : 0 < s / 2) by (Z.to_euclidean_division_equations; lia).
      rewrite IH by (Z.to_euclidean_division_equations; lia).
      assert (Z.log2 s = Z.succ (Z.log2 (s / 2))); [|lia].
      destruct (Z.eq_dec (s mod 2) 0).
      * rewrite <- Z.log2_double by done. f_equal. Z.to_euclidean_division_equations; lia.
      * rewrite <- Z.log2_succ_double by done. f_equal. Z.to_euclidean_division_equations; lia.
Qed.

Lemma slab_max_size g :
  geometry_ok g -> NGX_WASM_SLAB_MAX_SIZE g = 2 ^ (ngx_pagesize_shift g - 1).
Proof.
  intros [Hm Hp]. unfold NGX_WASM_SLAB_MAX_SIZE, ngx_pagesize.
  rewrite Z.shiftl_1_l.
  replace (ngx_pagesize_shift g) with (Z.succ (ngx_pagesize_shift g - 1)) at 1 by lia.
  rewrite Z.pow_succ_r by lia. rewrite Z.mul_comm. by apply Z.div_mul.
Qed.

Lemma slru_index_middle g size :
  geometry_ok g -> min_size g < size <= NGX_WASM_SLAB_MAX_SIZE g ->
  slru_index_for_size g size = 1 + Z.log2 (size - 1) - min_shift g.
Proof.
  intros Hg Hs. rewrite (slab_max_size g Hg) in Hs. destruct Hg as [Hm Hp].
  unfold slru_index_for_size. rewrite slab_max_size by done.
  unfold min_size in *. rewrite Z.shiftl_1_l in *.
  rewrite (proj2 (Z.ltb_ge _ _)), (proj2 (Z.ltb_lt _ _)) by lia.
  rewrite slru_shift_log2; [lia|].
  assert (2 ^ (ngx_pagesize_shift g - 1) <= 2 ^ 64) by (apply Z.pow_le_mono_r; lia).
  assert (0 < 2 ^ min_shift g) by (apply Z.pow_pos_nonneg; lia).
  change (Z.of_nat 64) with 64. lia.
Qed.

Lemma slru_index_range g size :
  geometry_ok g -> 0 <= slru_index_for_size g size < NGX_WASM_SLRU_NQUEUES g.
Proof.
  intros Hg. destruct (decide (min_size g < size <= NGX_WASM_SLAB_MAX_SIZE g)) as [Hs|Hs].
  - rewrite slru_index_middle by done. rewrite (slab_max_size g Hg) in Hs.
    destruct Hg as [Hm Hp]. unfold NGX_WASM_SLRU_NQUEUES, NGX_WASM_SLAB_SLOTS.
    unfold min_size in Hs. rewrite Z.shiftl_1_l in Hs.
    assert (0 < 2 ^ min_shift g) by (apply Z.pow_pos_nonneg; lia).
    assert (min_shift g <= Z.log2 (size - 1)).
    { rewrite <- (Z.log2_pow2 (min_shift g)) by lia. apply Z.log2_le_mono. lia. }
    assert (Z.log2 (size - 1) < ngx_pagesize_shift g - 1).
    { apply Z.log2_lt_pow2; lia. }
    lia.
  - destruct Hg as [Hm Hp]. unfold slru_index_for_size, NGX_WASM_SLRU_NQUEUES, NGX_WASM_SLAB_SLOTS in *.
    repeat case_test; lia.
Qed.

(** The queue of a size is always one of the queues allocated, and for a size
    the slab serves from a slot it is that slot: the smallest power of two from
    [min_size] on that holds the size.  Larger sizes share the last queue. *)
Lemma slru_index_slot (g : slab_geometry) (size : Z) :
  geometry_ok g ->
  let i := slru_index_for_size g size in
  0 <= i < NGX_WASM_SLRU_NQUEUES g /\
  (size <= NGX_WASM_SLAB_MAX_SIZE g ->
     i < NGX_WASM_SLAB_SLOTS g /\ size <= 2 ^ (min_shift g + i) /\
     (0 < i -> 2 ^ (min_shift g + i - 1) < size)) /\
  (NGX_WASM_SLAB_MAX_SIZE g < size -> i = NGX_WASM_SLAB_SLOTS g).
Proof.
  intros Hg i. pose proof (slru_index_range g size Hg) as Hr. fold i in Hr.
  split; [done|]. split.
  - intros Hmax. destruct (Z.le_gt_cases size (min_size g)) as [Hle|Hgt].
    + assert (i = 0) as ->.
      { unfold i, slru_index_for_size. by repeat case_test; try lia. }
      destruct Hg as [Hm Hp]. unfold NGX_WASM_SLAB_SLOTS, min_size in *.
      rewrite Z.shiftl_1_l in Hle. rewrite Z.add_0_r. lia.
    + assert (Hi : i = 1 + Z.log2 (size - 1) - min_shift g) by by apply slru_index_middle.
      rewrite slab_max_size in Hmax by done. destruct Hg as [Hm Hp].
      unfold NGX_WASM_SLAB_SLOTS, min_size in *. rewrite Z.shiftl_1_l in Hgt.
      assert (0 < 2 ^ min_shift g) by (apply Z.pow_pos_nonneg; lia).
      pose proof (Z.log2_spec (size - 1) ltac:(lia)) as Hl.
      assert (Z.log2 (size - 1) < ngx_pagesize_shift g - 1) by (apply Z.log2_lt_pow2; lia).
      replace (min_shift g + i) with (Z.succ (Z.log2 (size - 1))) by lia.
      rewrite Z.pow_succ_r in * by apply Z.log2_nonneg.
      replace (Z.succ (Z.log2 (size - 1)) - 1) with (Z.log2 (size - 1)) by lia. lia.
  - intros Hmax. unfold i, slru_index_for_size, NGX_WASM_SLRU_NQUEUES.
    rewrite (proj2 (Z.ltb_lt _ _)) by done. lia.
Qed.

Example slru_index_of_129 :
  let g := {| ngx_pagesize_shift := 12; min_shift := 3 |} in
  geometry_ok g /\ slru_index_for_size g 129 = 5 /\
  0 <= 5 < NGX_WASM_SLRU_NQUEUES g /\ 129 <= 2 ^ (3 + 5) /\ 2 ^ (3 + 5 - 1) < 129.
Proof.
  intros g. assert (Hg : geometry_ok g) by (split; cbn; lia).
  destruct (slru_index_slot g 129 Hg) as (H1 & H2 & _).
  destruct H2 as (_ & H2 & H3); [vm_compute; discriminate|].
  split; [done|]. split; [done|]. split; [exact H1|]. split; [exact H2|]. apply H3. reflexivity.
Defined.

(** ** Lists of queues *)

Lemma concat_filter (P : addr -> Prop) `{forall a, Decision (P a)} (qs : list (list addr)) :
  concat (filter P <$> qs) = filter P (concat qs).
Proof. induction qs as [|q qs IH]; [done|]. cbn. by rewrite IH, filter_app. Qed.

Lemma concat_alter_cons (qs : list (list addr)) i a :
  (i < length qs)%nat -> concat (alter (cons a) i qs) ≡ₚ a :: concat qs.
Proof.
  revert i. induction qs as [|q qs IH]; intros [|i] Hi; cbn in *; try lia; [done|].
  change (q ++ concat (alter (cons a) i qs) ≡ₚ a :: q ++ concat qs).
  rewrite IH by lia. by rewrite Permutation_middle.
Qed.

Lemma elem_of_concat_lookup (qs : list (list addr)) a :
  a ∈ concat qs <-> exists i q, qs !! i = Some q /\ a ∈ q.
Proof.
  rewrite list_elem_of_In, List.in_concat. split.
  - intros (q & Hq & Ha). apply list_elem_of_In, list_elem_of_lookup in Hq as [i Hi].
    exists i, q. by rewrite list_elem_of_In.
  - intros (i & q & Hi & Ha). exists q.
    rewrite <- !list_elem_of_In. split; [by eapply list_elem_of_lookup_2 | done].
Qed.

Section Facts.
Context {P : Type} `{Slab P} `{Rbtree}.
Context {SL : SlabLaws P} {RL : RbtreeLaws _}.
Variable ngx_crc32_long : bytes -> Z.
Variable eviction : ngx_wa_shm_eviction_e.
Variable geometry : slab_geometry.
Hypothesis Hgeo : geometry_ok geometry.

Abbreviation queue_for_node := (queue_for_node eviction geometry).
Abbreviation evicts := (evicts eviction).

Definition nqueues : nat :=
  match eviction with
  | NGX_WA_SHM_EVICTION_LRU => 1
  | NGX_WA_SHM_EVICTION_SLRU => Z.to_nat (NGX_WASM_SLRU_NQUEUES geometry)
  | NGX_WA_SHM_EVICTION_NONE => 0
  end.

Lemma queue_for_node_lt n : evicts = true -> (queue_for_node n < nqueues)%nat.
Proof.
  unfold ShmKv.queue_for_node, nqueues, ShmKv.evicts. destruct eviction; [lia| |done].
  pose proof (slru_index_range geometry (node_size n) Hgeo). lia.
Qed.

(** The tree and the queues link exactly the nodes of [m]. *)
Record links (t : rbtree) (qs : list (list addr)) (m : gmap addr ngx_wa_shm_kv_node_t) : Prop := {
  l_ordered : rb_ordered t;
  l_nodup : NoDup (rb_elements t).*1;
  l_tree a h : (a, h) ∈ rb_elements t <-> exists n, m !! a = Some n /\ n_hash n = h;
  l_inj a b n n' : m !! a = Some n -> m !! b = Some n' -> n_hash n = n_hash n' -> a = b;
  l_hash a n : m !! a = Some n -> n_hash n = ngx_crc32_long (n_key n);
  l_qlen : evicts = true -> length qs = nqueues;
  l_qnodup : evicts = true -> NoDup (concat qs);
  l_qmem a : evicts = true -> a ∈ concat qs <-> is_Some (m !! a);
  l_qidx i q a n : evicts = true ->
    qs !! i = Some q -> a ∈ q -> m !! a = Some n -> queue_for_node n = i;
}.

Lemma links_find t qs m h a :
  links t qs m -> rb_find h t = Some a <-> exists n, m !! a = Some n /\ n_hash n = h.
Proof.
  intros L. rewrite <- (l_tree _ _ _ L). split; [apply rb_find_Some|].
  intros Hin. destruct (rb_find_complete h t a (l_ordered _ _ _ L) Hin) as [b Hb].
  rewrite Hb. f_equal. apply rb_find_Some in Hb.
  apply (l_tree _ _ _ L) in Hb as (n & Hn & E).
  apply (l_tree _ _ _ L) in Hin as (n' & Hn' & E').
  eapply (l_inj _ _ _ L); [done..|congruence].
Qed.

Lemma links_find_None t qs m h :
  links t qs m -> rb_find h t = None -> forall a n, m !! a = Some n -> n_hash n <> h.
Proof.
  intros L Hf a n Hn E. assert (rb_find h t = Some a) by (eapply links_find; eauto). congruence.
Qed.

Lemma queue_remove_spec t qs m a n :
  links t qs m -> m !! a = Some n -> evicts = true ->
  ngx_queue_remove qs a = Ret (filter (fun b => b <> a) <$> qs).
Proof.
  intros L Hn He. unfold ngx_queue_remove.
  rewrite bool_decide_true; [done|]. apply (l_qmem _ _ _ L); eauto.
Qed.

(** Unlinking a node. *)
Lemma links_remove t qs m a n :
  links t qs m -> m !! a = Some n ->
  links (ngx_rbtree_delete t a) (filter (fun b => b <> a) <$> qs) (delete a m).
Proof.
  intros L Hn.
  assert (Hin : (a, n_hash n) ∈ rb_elements t) by (apply (l_tree _ _ _ L); eauto).
  pose proof (rb_delete_elements t a _ (l_nodup _ _ _ L) Hin) as Hp.
  assert (Hnd : NoDup (a :: (rb_elements (ngx_rbtree_delete t a)).*1)).
  { pose proof (l_nodup _ _ _ L) as Hnd. by rewrite Hp in Hnd. }
  apply NoDup_cons in Hnd as [Ha Hnd].
  split.
  - apply rb_delete_ordered, L.
  - done.
  - intros b h. destruct (decide (b = a)) as [->|Hne].
    + rewrite lookup_delete_eq. split; [|naive_solver].
      intros Hb. destruct Ha. apply list_elem_of_fmap. by exists (a, h).
    + rewrite lookup_delete_ne by done. rewrite <- (l_tree _ _ _ L), Hp.
      rewrite elem_of_cons. naive_solver.
  - intros b c n1 n2. rewrite !lookup_delete_Some. intros [_ ?] [_ ?].
    by eapply (l_inj _ _ _ L).
  - intros b n'. rewrite lookup_delete_Some. intros [_ ?]. by eapply (l_hash _ _ _ L).
  - intros He. rewrite length_fmap. by apply (l_qlen _ _ _ L).
  - intros He. rewrite concat_filter. by apply NoDup_filter, (l_qnodup _ _ _ L).
  - intros b He. rewrite concat_filter, list_elem_of_filter, (l_qmem _ _ _ L) by done.
    rewrite lookup_delete_is_Some. naive_solver.
  - intros i q b n' He Hq Hb. rewrite lookup_delete_Some. intros [_ Hn'].
    apply list_lookup_fmap_Some in Hq as (q' & -> & Hq').
    apply list_elem_of_filter in Hb as [_ Hb]. by eapply (l_qidx _ _ _ L).
Qed.

(** Linking a node whose hash is not in the tree. *)
Lemma links_insert t qs m a n :
  links t qs m -> m !! a = None -> n_hash n = ngx_crc32_long (n_key n) ->
  (forall b n', m !! b = Some n' -> n_hash n' <> n_hash n) ->
  links (ngx_rbtree_insert t a (n_hash n) (n_key n))
    (ngx_queue_insert_head qs (queue_for_node n) a) (<[a := n]> m).
Proof.
  intros L Hn Hh Hfresh.
  pose proof (rb_insert_elements t a (n_hash n) (n_key n)) as Hp.
  assert (Hq : evicts = true -> (queue_for_node n < length qs)%nat).
  { intros He. rewrite (l_qlen _ _ _ L) by done. by apply queue_for_node_lt. }
  unfold ngx_queue_insert_head. split.
  - apply rb_insert_ordered, L.
  - rewrite Hp. cbn. constructor; [|apply L].
    intros Hin. apply list_elem_of_fmap in Hin as ([b h] & E & Hin). cbn in E. subst b.
    apply (l_tree _ _ _ L) in Hin as (? & ? & _). congruence.
  - intros b h. rewrite Hp, elem_of_cons, (l_tree _ _ _ L).
    destruct (decide (b = a)) as [->|Hne].
    + rewrite lookup_insert_eq, Hn. naive_solver.
    + rewrite lookup_insert_ne by done. naive_solver.
  - intros b c n1 n2. rewrite !lookup_insert_Some.
    intros [[-> ->]|[Hb Hn1]] [[-> ->]|[Hc Hn2]] E; [done|naive_solver..|].
    by eapply (l_inj _ _ _ L).
  - intros b n'. rewrite lookup_insert_Some. intros [[-> ->]|[_ ?]]; [done|].
    by eapply (l_hash _ _ _ L).
  - intros He. rewrite length_alter. by apply (l_qlen _ _ _ L).
  - intros He. rewrite concat_alter_cons by auto. constructor; [|by apply (l_qnodup _ _ _ L)].
    rewrite (l_qmem _ _ _ L) by done. rewrite Hn. intros [? ?]. done.
  - intros b He. rewrite concat_alter_cons by auto.
    rewrite elem_of_cons, (l_qmem _ _ _ L) by done.
    destruct (decide (b = a)) as [->|Hne].
    + rewrite lookup_insert_eq. naive_solver.
    + rewrite lookup_insert_ne by done. naive_solver.
  - intros i q b n' He Hqi Hb Hn'.
    assert (Hold : b <> a -> m !! b = Some n') by (intros; by rewrite lookup_insert_ne in Hn').
    destruct (decide (queue_for_node n = i)) as [<-|Hi].
    + rewrite list_lookup_alter_eq in Hqi. apply fmap_Some in Hqi as (q' & Hq' & ->).
      destruct (decide (b = a)) as [->|Hne].
      { rewrite lookup_insert_eq in Hn'. by injection Hn' as <-. }
      apply elem_of_cons in Hb as [|Hb]; [done|].
      eapply (l_qidx _ _ _ L); eauto.
    + rewrite list_lookup_alter_ne in Hqi by done.
      destruct (decide (b = a)) as [->|Hne]; [|eapply (l_qidx _ _ _ L); eauto].
      exfalso. assert (Ha : a ∈ concat qs) by (apply elem_of_concat_lookup; eauto).
      rewrite (l_qmem _ _ _ L), Hn in Ha by done. by destruct Ha.
Qed.

(** Moving a node to the head of its queue, after a change that keeps its key. *)
Lemma links_requeue t qs m a n n' :
  links t qs m -> m !! a = Some n -> n_hash n' = n_hash n -> n_key n' = n_key n ->
  links t (ngx_queue_insert_head (filter (fun b => b <> a) <$> qs) (queue_for_node n') a)
    (<[a := n']> m).
Proof.
  intros L Hn Hh Hk. unfold ngx_queue_insert_head.
  assert (Hq : evicts = true ->
    (queue_for_node n' < length (filter (fun b => b <> a) <$> qs))%nat).
  { intros He. rewrite length_fmap, (l_qlen _ _ _ L) by done. by apply queue_for_node_lt. }
  assert (Hget : forall b m', <[a := n']> m !! b = Some m' ->
    exists m0, m !! b = Some m0 /\ n_hash m0 = n_hash m' /\ n_key m0 = n_key m').
  { intros b m'. rewrite lookup_insert_Some. intros [[<- <-]|[_ ?]]; eauto. }
  split.
  - apply L.
  - apply L.
  - intros b h. rewrite (l_tree _ _ _ L). destruct (decide (b = a)) as [->|Hne].
    + rewrite lookup_insert_eq, Hn. naive_solver.
    + by rewrite lookup_insert_ne.
  - intros b c n1 n2 H1 H2 E.
    apply Hget in H1 as (? & ? & ? & _), H2 as (? & ? & ? & _).
    eapply (l_inj _ _ _ L); [done..|congruence].
  - intros b m' H1. apply Hget in H1 as (m0 & H1 & <- & <-). by apply (l_hash _ _ _ L) in H1.
  - intros He. rewrite length_alter, length_fmap. by apply (l_qlen _ _ _ L).
  - intros He. rewrite concat_alter_cons, concat_filter by auto. constructor.
    + rewrite list_elem_of_filter. naive_solver.
    + by apply NoDup_filter, (l_qnodup _ _ _ L).
  - intros b He. rewrite concat_alter_cons, concat_filter by auto.
    rewrite elem_of_cons, list_elem_of_filter, (l_qmem _ _ _ L) by done.
    destruct (decide (b = a)) as [->|Hne].
    + rewrite lookup_insert_eq. naive_solver.
    + rewrite lookup_insert_ne by done. naive_solver.
  - intros i q b m' He Hqi Hb Hm'.
    assert (Hin : forall q', (filter (fun b => b <> a) <$> qs) !! i = Some q' -> b ∈ q' ->
                    b <> a /\ (m !! b = Some m' -> queue_for_node m' = i)).
    { intros q' Hq' Hbq'. apply list_lookup_fmap_Some in Hq' as (q0 & -> & Hq0).
      apply list_elem_of_filter in Hbq' as [Hne Hbq0].
      split; [done|]. intros. eapply (l_qidx _ _ _ L); eauto. }
    destruct (decide (queue_for_node n' = i)) as [<-|Hi].
    + destruct (decide (b = a)) as [->|Hne].
      { rewrite lookup_insert_eq in Hm'. by injection Hm' as <-. }
      rewrite lookup_insert_ne in Hm' by done.
      rewrite list_lookup_alter_eq in Hqi. apply fmap_Some in Hqi as (q' & Hq' & ->).
      apply elem_of_cons in Hb as [|Hb]; [done|]. by apply (Hin q').
    + rewrite list_lookup_alter_ne in Hqi by done.
      destruct (Hin q Hqi Hb) as [Hne Hidx]. rewrite lookup_insert_ne in Hm' by done. auto.
Qed.

Lemma links_irrelevant_queues t qs qs' m : evicts = false -> links t qs m -> links t qs' m.
Proof. intros He []. split; try done; intros; congruence. Qed.

(** Changing the value of a node in place. *)
Lemma links_update t qs m a n n' :
  links t qs m -> m !! a = Some n -> n_hash n' = n_hash n -> n_key n' = n_key n ->
  zlen (n_value n') = zlen (n_value n) -> links t qs (<[a := n']> m).
Proof.
  intros L Hn Hh Hk Hv.
  assert (Hget : forall b m', <[a := n']> m !! b = Some m' ->
    exists m0, m !! b = Some m0 /\ n_hash m0 = n_hash m' /\ n_key m0 = n_key m' /\
               zlen (n_value m0) = zlen (n_value m')).
  { intros b m'. rewrite lookup_insert_Some. intros [[<- <-]|[_ ?]]; eauto 6. }
  split; try apply L.
  - intros b h. rewrite (l_tree _ _ _ L). destruct (decide (b = a)) as [->|Hne].
    + rewrite lookup_insert_eq, Hn. naive_solver.
    + by rewrite lookup_insert_ne.
  - intros b c n1 n2 H1 H2 E.
    apply Hget in H1 as (? & ? & ? & _), H2 as (? & ? & ? & _).
    eapply (l_inj _ _ _ L); [done..|congruence].
  - intros b m' H1. apply Hget in H1 as (m0 & H1 & <- & <- & _). by apply (l_hash _ _ _ L) in H1.
  - intros b He. rewrite (l_qmem _ _ _ L) by done. destruct (decide (b = a)) as [->|Hne].
    + rewrite lookup_insert_eq, Hn. naive_solver.
    + by rewrite lookup_insert_ne.
  - intros i q b m' He Hq Hb Hm'. apply Hget in Hm' as (m0 & Hm0 & _ & Ek & Ev).
    rewrite <- (l_qidx _ _ _ L i q b m0 He Hq Hb Hm0).
    unfold ShmKv.queue_for_node, node_size. by rewrite Ek, Ev.
Qed.

(** ** Well-formed stores *)

Record wf (kv : ngx_wa_shm_kv_t P) : Prop := {
  wf_links : links (tree kv) (queues kv) (nodes kv);
  wf_nelts : nelts kv = Z.of_nat (size (nodes kv));
  wf_small : Z.of_nat (size (nodes kv)) < 2 ^ 64 - 1;
  wf_live a : is_Some (nodes kv !! a) -> a ∈ slab_live (shpool kv);
}.

(** The contents of a store: what a lookup of a hash finds. *)
Definition view (kv : ngx_wa_shm_kv_t P) (h : Z) : option (bytes * Z) :=
  a ← rb_find h (tree kv); n ← nodes kv !! a; Some (n_value n, n_cas n).

Lemma view_Some kv h v c :
  wf kv -> view kv h = Some (v, c) <->
  exists a n, nodes kv !! a = Some n /\ n_hash n = h /\ n_value n = v /\ n_cas n = c.
Proof.
  intros [L _ _ _]. unfold view. split.
  - intros E. apply bind_Some in E as (a & Ha & E). apply bind_Some in E as (n & Hn & [= <- <-]).
    apply (links_find _ _ _ _ _ L) in Ha as (n' & Hn' & <-). exists a, n'. naive_solver.
  - intros (a & n & Hn & Hh & <- & <-).
    assert (rb_find h (tree kv) = Some a) as -> by (eapply links_find; eauto).
    cbn. by rewrite Hn.
Qed.

Lemma view_None kv h :
  wf kv -> (forall a n, nodes kv !! a = Some n -> n_hash n <> h) -> view kv h = None.
Proof.
  intros W Hno. destruct (view kv h) as [[v c]|] eqn:E; [|done].
  apply view_Some in E as (a & n & Hn & Hh & _); [|done]. by destruct (Hno a n).
Qed.

Lemma view_found kv h a n :
  wf kv -> nodes kv !! a = Some n -> n_hash n = h ->
  rb_find h (tree kv) = Some a /\ view kv h = Some (n_value n, n_cas n).
Proof.
  intros W Hn Hh. split; [eapply links_find; [apply W|eauto]|].
  apply view_Some; [done|]. by exists a, n.
Qed.

(** A store whose nodes are some of those of another one. *)
Lemma view_submap kv kv' h :
  wf kv -> wf kv' -> nodes kv' ⊆ nodes kv -> view kv' h = view kv h \/ view kv' h = None.
Proof.
  intros W W' Hsub. destruct (view kv' h) as [[v c]|] eqn:E; [left|by right].
  apply view_Some in E as (a & n & Hn & Hh & <- & <-); [|done].
  symmetry. apply view_Some; [done|]. exists a, n. split; [|done].
  by eapply lookup_weaken.
Qed.

Lemma view_same_nodes kv kv' h :
  wf kv -> wf kv' -> nodes kv' = nodes kv -> view kv' h = view kv h.
Proof.
  intros W W' E. apply option_eq. intros [v c]. rewrite !view_Some by done. by rewrite E.
Qed.

(** *** Initialisation *)

Lemma init_wf pool kv :
  ngx_wa_shm_kv_init eviction geometry pool = (NGX_OK, Some kv) ->
  wf kv /\ (forall h, view kv h = None) /\ nelts kv = 0.
Proof.
  unfold ngx_wa_shm_kv_init. destruct (slab_calloc _ _) as [[a p]|]; [|done].
  intros [= <-]. split; [|done]. split; cbn; [|done|done|intros a' [? ?]; done].
  assert (Hc : concat (match eviction with
     | NGX_WA_SHM_EVICTION_LRU => [[]]
     | NGX_WA_SHM_EVICTION_SLRU => replicate (Z.to_nat (NGX_WASM_SLRU_NQUEUES geometry)) []
     | NGX_WA_SHM_EVICTION_NONE => [] end) = @nil addr).
  { destruct eviction; [done| |done].
    induction (Z.to_nat _) as [|k IH]; [done|]. cbn. apply IH. }
  split.
  - constructor.
  - constructor.
  - intros b h. cbn. split; [set_solver|naive_solver].
  - done.
  - done.
  - intros _. unfold nqueues. destruct eviction; [done| |done]. by rewrite length_replicate.
  - intros _. rewrite Hc. constructor.
  - intros b _. rewrite Hc. split; [set_solver|intros [? ?]; done].
  - done.
Qed.

(** *** Lookups *)

(** A successful lookup makes the node the most recent of its queue and
    changes nothing else. *)
Lemma get_spec kv key key_hash :
  wf kv ->
  let h := default (ngx_crc32_long key) key_hash in
  exists kv',
    ngx_wa_shm_kv_get_locked ngx_crc32_long eviction geometry kv key key_hash =
      Ret (match view kv h with Some _ => NGX_OK | None => NGX_DECLINED end, kv', view kv h) /\
    wf kv' /\ nodes kv' = nodes kv /\
    (evicts = true -> forall a n, nodes kv !! a = Some n -> n_hash n = h ->
       exists q, queues kv' !! queue_for_node n = Some (a :: q)).
Proof.
  intros W h. unfold ngx_wa_shm_kv_get_locked, ngx_wa_shm_rbtree_lookup.
  change (match key_hash with Some h => h | None => ngx_crc32_long key end) with h.
  destruct (rb_find h (tree kv)) as [a|] eqn:Hf.
  - pose proof (proj1 (links_find _ _ _ _ _ (wf_links _ W)) Hf) as (n & Hn & Hh).
    destruct (view_found kv h a n W Hn Hh) as [_ ->].
    rewrite Hn. cbn [deref obind]. destruct evicts eqn:He.
    + rewrite (queue_remove_spec _ _ _ _ _ (wf_links _ W) Hn He). cbn [obind].
      eexists. split; [done|]. split; [|split; [done|]].
      * destruct W as [L Hne Hs Hl]. split; try done. cbn.
        pose proof (links_requeue _ _ _ a n n L Hn eq_refl eq_refl) as L'.
        by rewrite insert_id in L'.
      * intros _ b n' Hn' Hh'. cbn.
        assert (b = a) as -> by (eapply (l_inj _ _ _ (wf_links _ W)); eauto; congruence).
        assert (n' = n) as -> by congruence.
        assert (Hlt : (queue_for_node n < length (filter (fun b => b <> a) <$> queues kv))%nat).
        { rewrite length_fmap, (l_qlen _ _ _ (wf_links _ W)) by done. by apply queue_for_node_lt. }
        apply lookup_lt_is_Some_2 in Hlt as [q Hq]. exists q.
        unfold ngx_queue_insert_head. by rewrite list_lookup_alter_eq, Hq.
    + cbn [obind]. by exists kv.
  - assert (view kv h = None) as -> by (unfold view; by rewrite Hf).
    exists kv. split_and!; [done..|]. intros _ a n Hn Hh.
    by destruct (links_find_None _ _ _ _ (wf_links _ W) Hf a n Hn).
Qed.

(** *** Eviction *)

(** [kv'] is [kv] without the node [a]. *)
Record evicted (kv kv' : ngx_wa_shm_kv_t P) (a : addr) : Prop := {
  ev_wf : wf kv';
  ev_in : is_Some (nodes kv !! a);
  ev_nodes : nodes kv' = delete a (nodes kv);
  ev_queues : queues kv' = filter (fun b => b <> a) <$> queues kv;
}.

Lemma size_delete_some (m : gmap addr ngx_wa_shm_kv_node_t) a n :
  m !! a = Some n -> Z.of_nat (size (delete a m)) = Z.of_nat (size m) - 1.
Proof.
  intros Hn. rewrite map_size_delete, Hn. cbn.
  assert (size m <> 0%nat); [|lia].
  intros E. apply map_size_empty_inv in E. subst. done.
Qed.

Lemma queue_expire_spec kv q :
  wf kv -> evicts = true -> q ∈ concat (queues kv) ->
  exists kv', queue_expire kv q = Ret (NGX_OK, kv') /\ evicted kv kv' q.
Proof.
  intros W He Hq. apply (l_qmem _ _ _ (wf_links _ W)) in Hq as [n Hn]; [|done].
  unfold queue_expire. rewrite Hn. cbn [deref obind].
  rewrite (queue_remove_spec _ _ _ _ _ (wf_links _ W) Hn He). cbn [obind].
  eexists. split; [done|]. destruct W as [L Hne Hs Hl].
  pose proof (size_delete_some _ _ _ Hn) as Hsz.
  split; cbn; [split; cbn|eauto|done|done].
  - by apply links_remove with n.
  - rewrite Hne, Hsz. apply wrap64_id. unfold is_u64. lia.
  - lia.
  - intros b. rewrite lookup_delete_is_Some, slab_free_live. set_solver.
Qed.

Lemma last_in_concat (qs : list (list addr)) i q a :
  qs !! i = Some q -> last q = Some a -> a ∈ concat qs.
Proof.
  intros Hi Hl. apply elem_of_concat_lookup. exists i, q. split; [done|].
  apply last_Some in Hl as [q' ->]. set_solver.
Qed.

(** The scan evicts the last node of the first non-empty queue it meets. *)
Lemma slru_scan_spec kv idxs :
  wf kv -> evicts = true -> (forall i, i ∈ idxs -> (i < nqueues)%nat) ->
  (slru_scan kv idxs = Ret (NGX_ABORT, kv) /\ forall i, i ∈ idxs -> queues kv !! i = Some []) \/
  (exists pre i post q a kv',
     idxs = pre ++ i :: post /\ (forall j, j ∈ pre -> queues kv !! j = Some []) /\
     queues kv !! i = Some q /\ last q = Some a /\
     slru_scan kv idxs = Ret (NGX_OK, kv') /\ evicted kv kv' a).
Proof.
  intros W He. induction idxs as [|i idxs IH]; intros Hb; [left; set_solver|].
  assert (Hi : is_Some (queues kv !! i)).
  { apply lookup_lt_is_Some_2. rewrite (l_qlen _ _ _ (wf_links _ W)) by done.
    apply Hb. by left. }
  destruct Hi as [q Hi]. cbn. rewrite Hi. cbn [deref obind].
  destruct (last q) as [a|] eqn:Hl.
  - right. destruct (queue_expire_spec kv a W He) as (kv' & E & Hev).
    { by eapply last_in_concat. }
    exists [], i, idxs, q, a, kv'. split_and!; try done. set_solver.
  - apply last_None in Hl as ->. destruct IH as [[E Hall]|(pre & j & post & q & a & kv' & -> & Hpre & ?)].
    { intros j Hj. apply Hb. by right. }
    + left. split; [done|]. intros j [->|Hj]%elem_of_cons; auto.
    + right. exists (i :: pre), j, post, q, a, kv'. split; [done|]. split; [|done].
      intros k [->|Hk]%elem_of_cons; auto.
Qed.

(** The queues [slru_expire] visits, in order. *)
Definition slru_order (size : Z) : list nat :=
  let n := Z.to_nat (NGX_WASM_SLRU_NQUEUES geometry) in
  let start := Z.to_nat (slru_index_for_size geometry size) in
  seq start (n - start) ++ reverse (seq 0 start).

Lemma slru_order_elem size i :
  i ∈ slru_order size <-> (i < Z.to_nat (NGX_WASM_SLRU_NQUEUES geometry))%nat.
Proof.
  pose proof (slru_index_range geometry size Hgeo).
  unfold slru_order. rewrite elem_of_app, elem_of_reverse, !elem_of_seq. lia.
Qed.

Lemma empty_queues_nodes kv :
  wf kv -> evicts = true -> (forall i, (i < nqueues)%nat -> queues kv !! i = Some []) ->
  nodes kv = ∅.
Proof.
  intros W He Hq. apply map_empty. intros a.
  destruct (nodes kv !! a) as [n|] eqn:Hn; [|done]. exfalso.
  assert (Ha : a ∈ concat (queues kv)) by (apply (l_qmem _ _ _ (wf_links _ W)); eauto).
  apply elem_of_concat_lookup in Ha as (i & q & Hi & Ha).
  rewrite Hq in Hi; [injection Hi as <-; set_solver|].
  apply lookup_lt_Some in Hi. by rewrite (l_qlen _ _ _ (wf_links _ W)) in Hi.
Qed.

(** The victim is the least recently used node of the first non-empty queue in
    the order of the policy. *)
Definition victim_order (size : Z) : list nat :=
  match eviction with
  | NGX_WA_SHM_EVICTION_SLRU => slru_order size
  | _ => [0%nat]
  end.

Definition is_victim (kv : ngx_wa_shm_kv_t P) (size : Z) (a : addr) : Prop :=
  exists pre i post q, victim_order size = pre ++ i :: post /\
    (forall j, j ∈ pre -> queues kv !! j = Some []) /\
    queues kv !! i = Some q /\ last q = Some a.

Lemma expire_spec kv size :
  wf kv ->
  (expire eviction geometry kv size = Ret (NGX_ABORT, kv) /\
   (evicts = true -> nodes kv = ∅)) \/
  (evicts = true /\ exists a kv', is_victim kv size a /\
     expire eviction geometry kv size = Ret (NGX_OK, kv') /\ evicted kv kv' a).
Proof.
  intros W. unfold is_victim.
  assert (Hcase : eviction = NGX_WA_SHM_EVICTION_LRU \/
    eviction = NGX_WA_SHM_EVICTION_SLRU \/ eviction = NGX_WA_SHM_EVICTION_NONE)
    by (destruct eviction; auto).
  destruct Hcase as [Ev|[Ev|Ev]].
  - assert (He : evicts = true) by (by rewrite Ev).
    assert (Hn : nqueues = 1%nat) by (unfold nqueues; by rewrite Ev).
    assert (expire eviction geometry kv size = lru_expire kv) as -> by (by rewrite Ev).
    assert (victim_order size = [0%nat]) as -> by (unfold victim_order; by rewrite Ev).
    assert (Hq : is_Some (queues kv !! 0%nat)).
    { apply lookup_lt_is_Some_2. rewrite (l_qlen _ _ _ (wf_links _ W)) by done. lia. }
    destruct Hq as [q Hq]. unfold lru_expire. rewrite Hq. cbn [deref obind].
    destruct (last q) as [a|] eqn:Hl.
    + right. split; [done|].
      destruct (queue_expire_spec kv a W He) as (kv' & E & Hev); [by eapply last_in_concat|].
      exists a, kv'. split; [|done].
      exists [], 0%nat, [], q. split_and!; try done. set_solver.
    + left. apply last_None in Hl as ->. split; [done|]. intros _.
      apply empty_queues_nodes; [done|done|]. intros i Hi. by assert (i = 0%nat) as -> by lia.
  - assert (He : evicts = true) by (by rewrite Ev).
    assert (Hn : nqueues = Z.to_nat (NGX_WASM_SLRU_NQUEUES geometry))
      by (unfold nqueues; by rewrite Ev).
    assert (expire eviction geometry kv size = slru_expire geometry kv size) as ->
      by (by rewrite Ev).
    assert (victim_order size = slru_order size) as -> by (unfold victim_order; by rewrite Ev).
    destruct (slru_scan_spec kv (slru_order size) W He) as
      [[E Hall]|(pre & i & post & q & a & kv' & E & Hpre & Hi & Hl & Es & Hev)].
    + intros i Hi. apply slru_order_elem in Hi. lia.
    + left. split; [exact E|]. intros _. apply empty_queues_nodes; [done..|].
      intros i Hi. apply Hall, slru_order_elem. lia.
    + right. split; [done|]. exists a, kv'. split; [|done].
      by exists pre, i, post, q.
  - left. rewrite Ev at 1. split; [done|]. intros He. unfold ShmKv.evicts in He.
    by rewrite Ev in He.
Qed.

(** [kv'] is obtained from [kv] by evicting victims one after the other, each
    because the allocator had no chunk of the size. *)
Inductive evictions (size : Z) : ngx_wa_shm_kv_t P -> ngx_wa_shm_kv_t P -> Prop :=
| evictions_nil kv : evictions size kv kv
| evictions_step kv a kv' kv'' :
    evicts = true -> slab_calloc (shpool kv) size = None ->
    is_victim kv size a -> evicted kv kv' a -> evictions size kv' kv'' ->
    evictions size kv kv''.

Lemma evictions_sub size kv kv' : evictions size kv kv' -> nodes kv' ⊆ nodes kv.
Proof.
  induction 1 as [|kv a kv' kv'' _ _ _ [] _ IH]; [done|].
  etransitivity; [exact IH|]. rewrite ev_nodes0. apply delete_subseteq.
Qed.

Lemma evictions_wf size kv kv' : wf kv -> evictions size kv kv' -> wf kv'.
Proof. intros W. induction 1 as [|kv a kv' kv'' _ _ _ [] _ IH]; auto. Qed.

(** The loop terminates, with a fresh chunk or with nothing left to evict. *)
Lemma alloc_loop_spec size : forall fuel kv,
  wf kv -> (S (base.size (nodes kv)) < fuel)%nat ->
  exists r kv1, evictions size kv kv1 /\
    match r with
    | Some a => exists p, slab_calloc (shpool kv1) size = Some (a, p) /\
        alloc_loop eviction geometry fuel kv size = Ret (Some a, set_heap kv1 (nodes kv1) p)
    | None => alloc_loop eviction geometry fuel kv size = Ret (None, kv1) /\
        slab_calloc (shpool kv1) size = None /\ (evicts = true -> nodes kv1 = ∅)
    end.
Proof.
  induction fuel as [|fuel IH]; intros kv W Hf; [lia|]. cbn [alloc_loop].
  destruct (slab_calloc (shpool kv) size) as [[a p]|] eqn:Ea.
  { exists (Some a), kv. split; [constructor|]. by exists p. }
  destruct (expire_spec kv size W) as [[-> Hemp]|(He & a & kv' & Hv & -> & Hev)]; cbn.
  - exists None, kv. split; [constructor|]. done.
  - destruct (ev_in _ _ _ Hev) as [n Hn].
    pose proof (size_delete_some _ _ _ Hn) as Hsz.
    destruct (IH kv') as (r & kv1 & H1 & H2); [apply Hev|rewrite (ev_nodes _ _ _ Hev); lia|].
    exists r, kv1. split; [by econstructor|]. done.
Qed.

(** *** Writes *)

Definition current_cas (kv : ngx_wa_shm_kv_t P) (h : Z) : Z :=
  match view kv h with Some (_, c) => c | None => 0 end.

Abbreviation set_locked := (ngx_wa_shm_kv_set_locked ngx_crc32_long eviction geometry).
Abbreviation crc := ngx_crc32_long.

(** The node a write finds, and its cas. *)
Lemma found_spec kv h :
  wf kv ->
  (exists a n, rb_find h (tree kv) = Some a /\ nodes kv !! a = Some n /\ n_hash n = h /\
     current_cas kv h = n_cas n /\ view kv h = Some (n_value n, n_cas n)) \/
  (rb_find h (tree kv) = None /\ view kv h = None /\ current_cas kv h = 0 /\
     forall a n, nodes kv !! a = Some n -> n_hash n <> h).
Proof.
  intros W. destruct (rb_find h (tree kv)) as [a|] eqn:Hf.
  - left. pose proof (proj1 (links_find _ _ _ _ _ (wf_links _ W)) Hf) as (n & Hn & Hh).
    destruct (view_found kv h a n W Hn Hh) as [_ Hv].
    exists a, n. unfold current_cas. by rewrite Hv.
  - right. assert (Hv : view kv h = None) by (unfold view; by rewrite Hf).
    unfold current_cas. rewrite Hv. split_and!; [done..|].
    by eapply links_find_None; [apply W|].
Qed.

Lemma set_mismatch_spec kv key value cas :
  wf kv -> cas <> current_cas kv (crc key) ->
  set_locked kv key value cas = Ret (NGX_OK, kv, Some false).
Proof.
  intros W Hne. unfold ngx_wa_shm_kv_set_locked, ngx_wa_shm_rbtree_lookup.
  destruct (found_spec kv (crc key) W) as [(a & n & -> & Hn & _ & Hc & _)|(-> & _ & Hc & _)];
    rewrite Hc in Hne; cbn [obind]; [rewrite Hn; cbn [obind deref]|];
    by rewrite (proj2 (Z.eqb_neq _ _)).
Qed.

Lemma delete_spec kv key cas :
  wf kv -> cas = current_cas kv (crc key) ->
  exists kv', set_locked kv key None cas =
      Ret (NGX_OK, kv', Some (bool_decide (is_Some (view kv (crc key))))) /\
    wf kv' /\ view kv' (crc key) = None /\
    forall h, h <> crc key -> view kv' h = view kv h.
Proof.
  intros W ->. unfold ngx_wa_shm_kv_set_locked, ngx_wa_shm_rbtree_lookup.
  destruct (found_spec kv (crc key) W)
    as [(a & n & -> & Hn & Hh & -> & Hv)|(-> & Hv & -> & _)]; rewrite Hv; cbn [obind].
  2:{ exists kv. rewrite bool_decide_false; [done|]. intros [? ?]. done. }
  rewrite Hn. cbn [obind deref]. rewrite Z.eqb_refl. cbn [negb].
  rewrite bool_decide_true by eauto.
  pose proof (links_remove _ _ _ a n (wf_links _ W) Hn) as L'.
  pose proof (size_delete_some _ _ _ Hn) as Hsz.
  assert (exists qs, node_queue_remove eviction kv a = Ret (set_queues kv qs) /\
            links (ngx_rbtree_delete (tree kv) a) qs (delete a (nodes kv)))
    as (qs & -> & Lq).
  { unfold node_queue_remove. destruct evicts eqn:He.
    - rewrite (queue_remove_spec _ _ _ _ _ (wf_links _ W) Hn He). cbn. eauto.
    - exists (queues kv). split; [by destruct kv|]. by eapply links_irrelevant_queues. }
  cbn [obind]. eexists. split; [done|].
  assert (W' : wf (set_nelts (free_node (set_tree (set_queues kv qs)
    (ngx_rbtree_delete (tree kv) a)) a) (wrap64 (nelts kv - 1)))).
  { destruct W as [L Hne Hs Hl]. split; cbn; [done| |lia|].
    - rewrite Hne, Hsz. apply wrap64_id. unfold is_u64. lia.
    - intros b. rewrite lookup_delete_is_Some, slab_free_live. set_solver. }
  split; [exact W'|]. split.
  - apply view_None; [done|]. cbn. intros b n' [Hba Hn']%lookup_delete_Some Hh'.
    apply Hba. eapply (l_inj _ _ _ (wf_links _ W)); eauto. congruence.
  - intros h Hne. apply option_eq. intros [v c]. rewrite !view_Some by done. cbn.
    split; intros (b & n' & Hn' & Hh' & ?).
    + apply lookup_delete_Some in Hn' as [_ Hn']. by exists b, n'.
    + exists b, n'. split; [|done]. rewrite lookup_delete_ne; [done|]. intros ->. congruence.
Qed.

(** The last two steps common to all writes. *)
Lemma store_value_spec kv a n value :
  wf kv -> nodes kv !! a = Some n -> zlen (n_value n) = zlen value ->
  exists kv', store_value kv a value = Ret (NGX_OK, kv', Some true) /\ wf kv' /\
    view kv' (n_hash n) = Some (value, wrap32 (n_cas n + 1)) /\
    queues kv' = queues kv /\
    forall h, h <> n_hash n -> view kv' h = view kv h.
Proof.
  intros W Hn Hlen. unfold store_value. rewrite Hn. cbn [deref obind].
  pose proof (zlen_nonneg value).
  rewrite mem_write_in by lia. cbn [obind]. rewrite Z2Nat.inj_0, take_0. cbn [app].
  rewrite drop_ge, app_nil_r by zlia.
  set (n' := {| n_hash := n_hash n |}).
  assert (W' : wf (set_node kv a n')).
  { destruct W as [L Hne Hs Hl]. split; cbn.
    - by apply links_update with n.
    - by rewrite map_size_insert, Hn.
    - by rewrite map_size_insert, Hn.
    - intros b. rewrite lookup_insert_is_Some. intros [->|[_ ?]]; eauto. }
  eexists. split; [done|]. split; [exact W'|]. split; [|split; [done|]].
  - apply view_Some; [done|]. exists a, n'. cbn. by rewrite lookup_insert_eq.
  - intros h Hne. apply option_eq. intros [v c]. rewrite !view_Some by done. cbn.
    split; intros (b & m & Hm & Hh' & ?); exists b, m.
    + rewrite lookup_insert_Some in Hm. destruct Hm as [[<- <-]|[_ Hm]]; done.
    + rewrite lookup_insert_ne; [done|]. intros <-. congruence.
Qed.

(** Linking the new node [nd] at [a] into a store whose other nodes are [m]. *)
Lemma link_and_store kv m a nd value :
  links (tree kv) (queues kv) m -> nodes kv = <[a := nd]> m -> m !! a = None ->
  n_hash nd = crc (n_key nd) -> (forall b n, m !! b = Some n -> n_hash n <> n_hash nd) ->
  nelts kv = Z.of_nat (size m) + 1 -> Z.of_nat (size m) + 1 < 2 ^ 64 - 1 ->
  (forall b, is_Some (nodes kv !! b) -> b ∈ slab_live (shpool kv)) ->
  zlen (n_value nd) = zlen value ->
  let kv2 := set_tree kv (ngx_rbtree_insert (tree kv) a (n_hash nd) (n_key nd)) in
  let kv3 := if evicts
             then set_queues kv2 (ngx_queue_insert_head (queues kv2) (queue_for_node nd) a)
             else kv2 in
  exists kv', store_value kv3 a value = Ret (NGX_OK, kv', Some true) /\ wf kv' /\
    view kv' (n_hash nd) = Some (value, wrap32 (n_cas nd + 1)) /\
    forall h v c, h <> n_hash nd -> view kv' h = Some (v, c) <->
      exists b n, m !! b = Some n /\ n_hash n = h /\ n_value n = v /\ n_cas n = c.
Proof.
  intros L En Ha Hh Hfresh Hne Hs Hl Hv kv2 kv3.
  pose proof (links_insert _ _ _ a nd L Ha Hh Hfresh) as L3.
  assert (Hn3 : nodes kv3 = <[a := nd]> m) by (unfold kv3; by destruct evicts).
  assert (W3 : wf kv3).
  { split.
    - rewrite Hn3. unfold kv3. destruct evicts eqn:He; [exact L3|].
      eapply links_irrelevant_queues; [done|exact L3].
    - rewrite Hn3, map_size_insert_None by done. unfold kv3. destruct evicts; cbn; lia.
    - rewrite Hn3, map_size_insert_None by done. lia.
    - rewrite Hn3, <- En. intros b Hb. apply Hl in Hb. unfold kv3. by destruct evicts. }
  destruct (store_value_spec kv3 a nd value W3) as (kv' & E & W' & Hview & _ & Ho);
    [by rewrite Hn3, lookup_insert_eq|done|].
  exists kv'. split_and!; [done..|]. intros h v c Hne'. rewrite Ho by done.
  rewrite view_Some, Hn3 by done.
  split; intros (b & n & Hb & Hnh & ?); exists b, n.
  - rewrite lookup_insert_Some in Hb. destruct Hb as [[<- <-]|[_ Hb]]; [congruence|done].
  - rewrite lookup_insert_ne; [done|]. intros <-. congruence.
Qed.

Lemma set_in_place_spec kv key a n value :
  wf kv -> nodes kv !! a = Some n -> n_hash n = crc key ->
  zlen value <= zlen (n_value n) ->
  exists kv', set_locked kv key (Some value) (n_cas n) = Ret (NGX_OK, kv', Some true) /\
    wf kv' /\ view kv' (crc key) = Some (value, wrap32 (n_cas n + 1)) /\
    forall h, h <> crc key -> view kv' h = view kv h.
Proof.
  intros W Hn Hh Hlen. destruct (view_found kv _ a n W Hn Hh) as [Hf Hv].
  unfold ngx_wa_shm_kv_set_locked, ngx_wa_shm_rbtree_lookup. rewrite Hf, Hn.
  cbn [obind deref]. rewrite Z.eqb_refl. cbn [negb].
  rewrite (proj2 (Z.ltb_ge _ _)) by done.
  set (nd := {| n_hash := n_hash n; n_key := n_key n; n_value := take (length value) (n_value n);
                n_cas := n_cas n |}).
  pose proof (links_requeue _ _ _ a n nd (wf_links _ W) Hn eq_refl eq_refl) as L'.
  set (qs' := ngx_queue_insert_head _ _ _) in L'.
  set (kv1 := if evicts then set_queues (set_node kv a nd) qs' else set_node kv a nd).
  assert (Hn1 : nodes kv1 = <[a := nd]> (nodes kv)) by (unfold kv1; by destruct evicts).
  assert (W1 : wf kv1).
  { split.
    - rewrite Hn1. unfold kv1. destruct evicts eqn:He; [exact L'|].
      by eapply links_irrelevant_queues.
    - rewrite Hn1, map_size_insert, Hn. cbn. unfold kv1. destruct evicts; apply W.
    - rewrite Hn1, map_size_insert, Hn. apply W.
    - rewrite Hn1. intros b Hb. assert (b ∈ slab_live (shpool kv)); [|by unfold kv1; destruct evicts].
      apply (wf_live _ W). apply lookup_insert_is_Some in Hb as [->|[_ Hb]]; eauto. }
  assert (zlen (n_value nd) = zlen value).
  { unfold zlen in *. cbn. rewrite length_take. lia. }
  destruct (store_value_spec kv1 a nd value W1) as (kv' & E & W' & Hview & _ & Ho);
    [by rewrite Hn1, lookup_insert_eq|done|].
  exists kv'. cbn in Hview. rewrite Hh in *. split; [|split; [done|split; [done|]]].
  - rewrite <- E. unfold kv1. destruct evicts eqn:He; [|done].
    cbn [queues set_node]. by rewrite (queue_remove_spec _ _ _ _ _ (wf_links _ W) Hn He).
  - intros h Hne. rewrite Ho by (cbn; congruence). apply option_eq. intros [v c].
    rewrite !view_Some, Hn1 by done.
    split; intros (b & n' & Hb & Hnh & ?); exists b, n'.
    + rewrite lookup_insert_Some in Hb. destruct Hb as [[<- <-]|[_ Hb]]; [|done].
      cbn in Hnh. congruence.
    + rewrite lookup_insert_ne; [done|]. intros <-. congruence.
Qed.

(** What a write that needs a new node does, given how the allocation loop ends. *)
Lemma set_alloc_eq kv key value old :
  wf kv ->
  match old with
  | Some (o, n) => nodes kv !! o = Some n /\ n_hash n = crc key /\ zlen (n_value n) < zlen value
  | None => view kv (crc key) = None
  end ->
  set_locked kv key (Some value) (current_cas kv (crc key)) =
  let size := sizeof_ngx_wa_shm_kv_node_t + zlen key + zlen value in
  let? (allocated, kv) := alloc_loop eviction geometry (alloc_fuel kv) kv size in
  match allocated with
  | None => Ret (NGX_ERROR, kv, None)
  | Some a =>
      let kv := set_node kv a (new_node ngx_crc32_long key value 0) in
      let? kv :=
        match fst <$> old with
        | Some o =>
            let? on := deref (nodes kv !! o) in
            let? kv := node_queue_remove eviction kv o in
            let kv := set_node kv a (new_node ngx_crc32_long key value (n_cas on)) in
            let kv := set_tree kv (ngx_rbtree_delete (tree kv) o) in
            Ret (free_node kv o)
        | None => Ret (set_nelts kv (wrap64 (nelts kv + 1)))
        end in
      let? nd := deref (nodes kv !! a) in
      let kv := set_tree kv (ngx_rbtree_insert (tree kv) a (n_hash nd) (n_key nd)) in
      let kv :=
        if evicts
        then set_queues kv (ngx_queue_insert_head (queues kv) (queue_for_node nd) a)
        else kv in
      store_value kv a value
  end.
Proof.
  intros W Hold. unfold ngx_wa_shm_kv_set_locked, ngx_wa_shm_rbtree_lookup.
  destruct old as [[o n]|].
  - destruct Hold as (Hn & Hh & Hlen). destruct (view_found kv _ o n W Hn Hh) as [-> Hv].
    unfold current_cas. rewrite Hv, Hn. cbn [obind deref]. rewrite Z.eqb_refl. cbn [negb].
    by rewrite (proj2 (Z.ltb_lt _ _)).
  - destruct (found_spec kv (crc key) W) as [(a & n & _ & _ & _ & _ & Hv)|(-> & _ & -> & _)];
      [congruence|]. done.
Qed.

(** The state in which the new node is linked, when nothing is replaced. *)
Lemma set_new_spec kv kv1 key value a p :
  wf kv1 ->
  (forall b n, nodes kv1 !! b = Some n -> n_hash n <> crc key) ->
  slab_calloc (shpool kv1) (sizeof_ngx_wa_shm_kv_node_t + zlen key + zlen value) = Some (a, p) ->
  alloc_loop eviction geometry (alloc_fuel kv) kv (sizeof_ngx_wa_shm_kv_node_t + zlen key + zlen value)
    = Ret (Some a, set_heap kv1 (nodes kv1) p) ->
  wf kv -> view kv (crc key) = None ->
  exists kv', set_locked kv key (Some value) (current_cas kv (crc key)) = Ret (NGX_OK, kv', Some true) /\
    wf kv' /\ view kv' (crc key) = Some (value, wrap32 (0 + 1)) /\
    forall h, h <> crc key -> view kv' h = view kv1 h.
Proof.
  intros W1 Hfresh Ea El W Hv. pose proof (slab_calloc_room _ _ _ _ _ (wf_live _ W1) Ea) as Hs.
  rewrite (set_alloc_eq kv key value None W Hv). cbn zeta. rewrite El. cbn [obind fst fmap option_fmap option_map].
  destruct (slab_calloc_fresh _ _ _ _ Ea) as [Hna Hlive].
  assert (Ha : nodes kv1 !! a = None).
  { apply eq_None_not_Some. intros Hb. apply (wf_live _ W1) in Hb. done. }
  set (nd := new_node ngx_crc32_long key value 0).
  cbn [set_nelts set_node set_heap nodes]. rewrite lookup_insert_eq. cbn [deref obind].
  destruct (link_and_store
    (set_nelts (set_node (set_heap kv1 (nodes kv1) p) a nd) (wrap64 (nelts kv1 + 1)))
    (nodes kv1) a nd value) as (kv' & E & W' & Hview & Ho);
    [apply W1|done|done|done|exact Hfresh| |lia| | |].
  - cbn. rewrite (wf_nelts _ W1), wrap64_id; [done|]. unfold is_u64. lia.
  - cbn. intros b. rewrite lookup_insert_is_Some, Hlive. pose proof (wf_live _ W1 b). set_solver.
  - cbn. unfold zlen. by rewrite length_replicate.
  - exists kv'. split; [|split; [done|split; [exact Hview|]]].
    + etransitivity; [|exact E]. by destruct evicts.
    + intros h Hne. apply option_eq. intros [v c]. rewrite Ho, view_Some by done. done.
Qed.

(** The same when it replaces a shorter node that survived the evictions. *)
Lemma set_grow_spec kv kv1 key value a p o n :
  wf kv1 -> nodes kv1 !! o = Some n ->
  slab_calloc (shpool kv1) (sizeof_ngx_wa_shm_kv_node_t + zlen key + zlen value) = Some (a, p) ->
  alloc_loop eviction geometry (alloc_fuel kv) kv (sizeof_ngx_wa_shm_kv_node_t + zlen key + zlen value)
    = Ret (Some a, set_heap kv1 (nodes kv1) p) ->
  wf kv -> nodes kv !! o = Some n -> n_hash n = crc key -> zlen (n_value n) < zlen value ->
  exists kv', set_locked kv key (Some value) (n_cas n) = Ret (NGX_OK, kv', Some true) /\
    wf kv' /\ view kv' (crc key) = Some (value, wrap32 (n_cas n + 1)) /\
    forall h, h <> crc key -> view kv' h = view kv1 h.
Proof.
  intros W1 Hn1 Ea El W Hn Hh Hlen.
  destruct (view_found kv _ o n W Hn Hh) as [_ Hv].
  pose proof (set_alloc_eq kv key value (Some (o, n)) W (conj Hn (conj Hh Hlen))) as Eq.
  unfold current_cas in Eq. rewrite Hv in Eq. rewrite Eq. clear Eq. cbn zeta. rewrite El.
  cbn [obind fst fmap option_fmap option_map].
  destruct (slab_calloc_fresh _ _ _ _ Ea) as [Hna Hlive].
  assert (Ha : nodes kv1 !! a = None).
  { apply eq_None_not_Some. intros Hb. apply (wf_live _ W1) in Hb. done. }
  assert (Hao : a <> o) by congruence.
  cbn [set_node set_heap nodes]. rewrite lookup_insert_ne, Hn1 by done. cbn [deref obind].
  set (nd := new_node ngx_crc32_long key value (n_cas n)).
  pose proof (links_remove _ _ _ o n (wf_links _ W1) Hn1) as Lr.
  assert (exists qs, node_queue_remove eviction (set_node (set_heap kv1 (nodes kv1) p) a
              (new_node ngx_crc32_long key value 0)) o =
            Ret (set_queues (set_node (set_heap kv1 (nodes kv1) p) a
              (new_node ngx_crc32_long key value 0)) qs) /\
            links (ngx_rbtree_delete (tree kv1) o) qs (delete o (nodes kv1)))
    as (qs & -> & Lq).
  { unfold node_queue_remove. cbn [queues set_node set_heap]. destruct evicts eqn:He.
    - rewrite (queue_remove_spec _ _ _ _ _ (wf_links _ W1) Hn1 He). cbn. eauto.
    - exists (queues kv1). split; [done|]. by eapply links_irrelevant_queues. }
  cbn [obind].
  set (kv2 := free_node _ o).
  assert (Hn2 : nodes kv2 = <[a := nd]> (delete o (nodes kv1))).
  { unfold kv2. cbn. rewrite insert_insert_eq. by rewrite delete_insert_ne by done. }
  pose proof (size_delete_some _ _ _ Hn1) as Hsz.
  rewrite Hn2, lookup_insert_eq. cbn [deref obind].
  destruct (link_and_store kv2 (delete o (nodes kv1)) a nd value)
    as (kv' & E & W' & Hview & Ho);
    [exact Lq|exact Hn2|by rewrite lookup_delete_ne|done| | | | | |].
  - intros b m [Hbo Hm]%lookup_delete_Some Hbh. apply Hbo.
    eapply (l_inj _ _ _ (wf_links _ W1)); [done..|]. cbn in Hbh. congruence.
  - change (nelts kv2) with (nelts kv1). rewrite (wf_nelts _ W1), Hsz. lia.
  - pose proof (wf_small _ W1). lia.
  - rewrite Hn2. intros b. rewrite lookup_insert_is_Some, lookup_delete_is_Some.
    change (shpool kv2) with (slab_free p o). rewrite slab_free_live, Hlive.
    pose proof (wf_live _ W1 b). set_solver.
  - cbn. unfold zlen. by rewrite length_replicate.
  - exists kv'. split; [|split; [done|split; [exact Hview|]]].
    + etransitivity; [|exact E]. by destruct evicts.
    + intros h Hne. apply option_eq. intros [v c]. rewrite Ho, view_Some by done.
      split; intros (b & m & Hm & Hmh & ?); exists b, m.
      * by apply lookup_delete_Some in Hm as [_ Hm].
      * rewrite lookup_delete_ne; [done|]. intros <-. congruence.
Qed.

(** When the evictions removed the node being replaced, it is used after free. *)
Lemma set_replaced_evicted kv kv1 key value a p o n :
  wf kv1 -> evicts = true -> nodes kv1 !! o = None ->
  slab_calloc (shpool kv1) (sizeof_ngx_wa_shm_kv_node_t + zlen key + zlen value) = Some (a, p) ->
  alloc_loop eviction geometry (alloc_fuel kv) kv (sizeof_ngx_wa_shm_kv_node_t + zlen key + zlen value)
    = Ret (Some a, set_heap kv1 (nodes kv1) p) ->
  wf kv -> nodes kv !! o = Some n -> n_hash n = crc key -> zlen (n_value n) < zlen value ->
  set_locked kv key (Some value) (n_cas n) = Fault F_memory.
Proof.
  intros W1 He Ho Ea El W Hn Hh Hlen.
  pose proof (set_alloc_eq kv key value (Some (o, n)) W (conj Hn (conj Hh Hlen))) as Eq.
  destruct (view_found kv _ o n W Hn Hh) as [_ Hv].
  unfold current_cas in Eq. rewrite Hv in Eq. rewrite Eq. clear Eq. cbn zeta. rewrite El.
  cbn [obind fst fmap option_fmap option_map].
  destruct (slab_calloc_fresh _ _ _ _ Ea) as [Hna _].
  assert (Ha : nodes kv1 !! a = None).
  { apply eq_None_not_Some. intros Hb. apply (wf_live _ W1) in Hb. done. }
  cbn [set_node set_heap nodes]. destruct (decide (a = o)) as [->|Hne].
  - rewrite lookup_insert_eq. cbn [deref obind]. unfold node_queue_remove. rewrite He.
    cbn [queues set_node set_heap]. unfold ngx_queue_remove. rewrite bool_decide_false; [done|].
    rewrite (l_qmem _ _ _ (wf_links _ W1)) by done. rewrite Ho. by intros [? ?].
  - by rewrite lookup_insert_ne, Ho.
Qed.

Lemma no_evictions size kv kv1 : evicts = false -> evictions size kv kv1 -> kv1 = kv.
Proof. intros He. destruct 1; congruence. Qed.

(** The three ways a write of a value can end. *)
Inductive set_outcome (kv kv1 : ngx_wa_shm_kv_t P) (key value : bytes)
  : outcome (ngx_rc * ngx_wa_shm_kv_t P * option bool) -> Prop :=
| set_written kv' :
    wf kv' ->
    view kv' (crc key) = Some (value, wrap32 (current_cas kv (crc key) + 1)) ->
    (forall h, h <> crc key -> view kv' h = view kv1 h) ->
    set_outcome kv kv1 key value (Ret (NGX_OK, kv', Some true))
| set_no_memory :
    slab_calloc (shpool kv1) (sizeof_ngx_wa_shm_kv_node_t + zlen key + zlen value) = None ->
    (evicts = true -> nodes kv1 = ∅) ->
    set_outcome kv kv1 key value (Ret (NGX_ERROR, kv1, None))
| set_use_after_free :
    is_Some (view kv (crc key)) -> view kv1 (crc key) = None ->
    set_outcome kv kv1 key value (Fault F_memory).

Lemma set_alloc_outcome kv key value :
  wf kv ->
  (forall v c, view kv (crc key) = Some (v, c) -> zlen v < zlen value) ->
  exists kv1,
    evictions (sizeof_ngx_wa_shm_kv_node_t + zlen key + zlen value) kv kv1 /\
    set_outcome kv kv1 key value
      (set_locked kv key (Some value) (current_cas kv (crc key))).
Proof.
  intros W Hlen. set (sz := sizeof_ngx_wa_shm_kv_node_t + zlen key + zlen value).
  destruct (alloc_loop_spec sz (alloc_fuel kv) kv W) as (r & kv1 & Hev & Hr);
    [unfold alloc_fuel; lia|].
  exists kv1. split; [done|].
  pose proof (evictions_wf _ _ _ W Hev) as W1. pose proof (evictions_sub _ _ _ Hev) as Hsub.
  assert (Hsz : (base.size (nodes kv1) <= base.size (nodes kv))%nat) by by apply map_subseteq_size.
  destruct (found_spec kv (crc key) W) as [(o & n & _ & Hn & Hh & Hc & Hv)|(_ & Hv & Hc & Hno)].
  - specialize (Hlen _ _ Hv). destruct r as [a|].
    + destruct Hr as (p & Ea & El). rewrite Hc.
      assert (Hcase : nodes kv1 !! o = Some n \/ nodes kv1 !! o = None).
      { destruct (nodes kv1 !! o) as [n'|] eqn:E; [left|by right].
        assert (nodes kv !! o = Some n') by (by eapply lookup_weaken). congruence. }
      destruct Hcase as [Hn1|Hn1].
      * destruct (set_grow_spec kv kv1 key value a p o n) as (kv' & -> & W' & Hv' & Ho); try done.
        apply set_written; [done| |done]. by rewrite Hv', Hc.
      * rewrite (set_replaced_evicted kv kv1 key value a p o n); try done.
        -- apply set_use_after_free; [by rewrite Hv|].
           apply view_None; [done|]. intros b m Hm Hmh.
           assert (b = o); [|congruence].
           eapply (l_inj _ _ _ (wf_links _ W)); [by eapply lookup_weaken|done|congruence].
        -- apply not_false_iff_true. intros He. rewrite (no_evictions _ _ _ He Hev) in Hn1. congruence.
    + destruct Hr as (El & Ea & Hemp).
      pose proof (set_alloc_eq kv key value (Some (o, n)) W (conj Hn (conj Hh Hlen))) as ->.
      cbn zeta. fold sz. rewrite El. cbn [obind]. by apply set_no_memory.
  - destruct r as [a|].
    + destruct Hr as (p & Ea & El).
      destruct (set_new_spec kv kv1 key value a p) as (kv' & -> & W' & Hv' & Ho); try done; [|].
      * intros b n Hn. eapply Hno. by eapply lookup_weaken.
      * apply set_written; [done| |done]. by rewrite Hv', Hc.
    + destruct Hr as (El & Ea & Hemp).
      pose proof (set_alloc_eq kv key value None W Hv) as ->.
      cbn zeta. fold sz. rewrite El. cbn [obind]. by apply set_no_memory.
Qed.

Lemma set_value_outcome kv key value :
  wf kv ->
  exists kv1,
    evictions (sizeof_ngx_wa_shm_kv_node_t + zlen key + zlen value) kv kv1 /\
    (forall v c, view kv (crc key) = Some (v, c) -> zlen value <= zlen v -> kv1 = kv) /\
    set_outcome kv kv1 key value
      (set_locked kv key (Some value) (current_cas kv (crc key))).
Proof.
  intros W.
  destruct (found_spec kv (crc key) W) as [(o & n & _ & Hn & Hh & Hc & Hv)|(_ & Hv & Hc & Hno)].
  - destruct (Z.le_gt_cases (zlen value) (zlen (n_value n))) as [Hle|Hgt].
    + exists kv. split; [constructor|]. split; [done|]. rewrite Hc.
      destruct (set_in_place_spec kv key o n value) as (kv' & -> & W' & Hv' & Ho); try done.
      apply set_written; [done| |done]. by rewrite Hv', Hc.
    + destruct (set_alloc_outcome kv key value W) as (kv1 & Hev & Ho).
      { intros v c. rewrite Hv. by intros [= <- <-]. }
      exists kv1. split; [done|]. split; [|done]. intros v c. rewrite Hv.
      intros [= <- <-]. lia.
  - destruct (set_alloc_outcome kv key value W) as (kv1 & Hev & Ho).
    { intros v c. by rewrite Hv. }
    exists kv1. split; [done|]. split; [|done]. intros v c. by rewrite Hv.
Qed.

(** Every state reached from a fresh store by calls that return. *)
Inductive reachable : ngx_wa_shm_kv_t P -> Prop :=
| reach_init pool kv :
    ngx_wa_shm_kv_init eviction geometry pool = (NGX_OK, Some kv) -> reachable kv
| reach_get kv key key_hash rc kv' out :
    reachable kv ->
    ngx_wa_shm_kv_get_locked crc eviction geometry kv key key_hash = Ret (rc, kv', out) ->
    reachable kv'
| reach_set kv key value cas rc kv' written :
    reachable kv ->
    set_locked kv key value cas = Ret (rc, kv', written) -> reachable kv'.

Lemma reachable_wf kv : reachable kv -> wf kv.
Proof.
  induction 1 as [pool kv Hi|kv key h rc kv' out _ W Hg|kv key value cas rc kv' w _ W Hset].
  - by apply init_wf in Hi as [? _].
  - destruct (get_spec kv key h W) as (kv1 & E & W' & _). congruence.
  - destruct (decide (cas = current_cas kv (crc key))) as [->|Hne].
    2:{ rewrite set_mismatch_spec in Hset by done. congruence. }
    destruct value as [value|].
    + destruct (set_value_outcome kv key value W) as (kv1 & Hev & _ & Ho).
      rewrite Hset in Ho. inversion Ho; subst; [done|]. by eapply evictions_wf.
    + destruct (delete_spec kv key _ W eq_refl) as (kv1 & E & W' & _). congruence.
Qed.

(** ** Properties *)

(** C24. A write whose compare-and-swap counter matches ends in one of three ways
    after evicting some victims (none when the value fits in the node found, each
    one only when the allocator is out of memory, in the order of the policy): the
    value is stored under the key's hash with the counter incremented modulo
    2^32, the entries not evicted keep their values and counters and the store
    stays well formed; or it returns [NGX_ERROR] with the allocator still out of
    memory, an evicting store having lost all its entries; or the evictions have
    freed the very node being replaced, which is then used.  The allocation loop
    always terminates. *)
Theorem kv_set_value_outcome (kv : ngx_wa_shm_kv_t P) (key value : bytes) :
  wf kv ->
  exists kv1,
    evictions (sizeof_ngx_wa_shm_kv_node_t + zlen key + zlen value) kv kv1 /\
    (forall v c, view kv (crc key) = Some (v, c) -> zlen value <= zlen v -> kv1 = kv) /\
    set_outcome kv kv1 key value
      (set_locked kv key (Some value) (current_cas kv (crc key))).
Proof. apply set_value_outcome. Qed.

(** C25. Optimistic concurrency: a write with a counter other than the current one
    (0 for an absent key) reports "not written" and leaves the store untouched; a
    delete with the current one removes the entry, and only it. *)
Theorem kv_cas_guard (kv : ngx_wa_shm_kv_t P) (key : bytes) (cas : Z) :
  wf kv ->
  (cas <> current_cas kv (crc key) -> forall value,
     set_locked kv key value cas = Ret (NGX_OK, kv, Some false)) /\
  (cas = current_cas kv (crc key) ->
     exists kv', set_locked kv key None cas =
         Ret (NGX_OK, kv', Some (bool_decide (is_Some (view kv (crc key))))) /\
       wf kv' /\ view kv' (crc key) = None /\
       forall h, h <> crc key -> view kv' h = view kv h).
Proof.
  intros W. split; intros Hc; [intros value; by apply set_mismatch_spec | by apply delete_spec].
Qed.

(** A lookup returns what was last stored under the hash, value and counter,
    or [NGX_DECLINED]; the contents do not change, and in an evicting store the
    entry found becomes the most recently used one of its queue. *)
Lemma kv_get_outcome (kv : ngx_wa_shm_kv_t P) (key : bytes) (key_hash : option Z) :
  wf kv ->
  let h := default (crc key) key_hash in
  exists kv',
    ngx_wa_shm_kv_get_locked crc eviction geometry kv key key_hash =
      Ret (match view kv h with Some _ => NGX_OK | None => NGX_DECLINED end, kv', view kv h) /\
    wf kv' /\ (forall h', view kv' h' = view kv h') /\
    (evicts = true -> forall a n, nodes kv !! a = Some n -> n_hash n = h ->
       exists q, queues kv' !! queue_for_node n = Some (a :: q)).
Proof.
  intros W h. destruct (get_spec kv key key_hash W) as (kv' & E & W' & Hn & Hq).
  exists kv'. split_and!; try done. intros h'. by apply view_same_nodes.
Qed.

(** The victim of an eviction is the least recently used entry: the last of
    the one queue under LRU; under SLRU the last of the first non-empty queue,
    searched from the slot of the requested size upwards, then downwards.  Only
    that entry disappears.  [NGX_ABORT] is returned only by an empty store or when
    the zone does not evict. *)
Lemma kv_expire_victim (kv : ngx_wa_shm_kv_t P) (size : Z) :
  wf kv ->
  (expire eviction geometry kv size = Ret (NGX_ABORT, kv) /\
   (evicts = true -> nodes kv = ∅)) \/
  (exists a kv', is_victim kv size a /\
     expire eviction geometry kv size = Ret (NGX_OK, kv') /\
     wf kv' /\ nodes kv' = delete a (nodes kv) /\ nelts kv' = nelts kv - 1).
Proof.
  intros W. destruct (expire_spec kv size W) as [?|(_ & a & kv' & Hv & E & Hev)]; [by left|right].
  exists a, kv'. pose proof (ev_wf _ _ _ Hev) as W'. pose proof (ev_nodes _ _ _ Hev) as En.
  split_and!; try done. rewrite (wf_nelts _ W'), (wf_nelts _ W), En.
  destruct (ev_in _ _ _ Hev) as [n Hn]. by rewrite (size_delete_some _ _ _ Hn).
Qed.

(** C18. Invariant: in every state reached from a fresh store, the tree is a search
    tree that links every entry once under the hash of its key, the queues hold
    every entry once in the queue its size selects, the count is exact and every
    entry is a live chunk of the slab. *)
Theorem kv_reachable_wf (kv : ngx_wa_shm_kv_t P) : reachable kv -> wf kv.
Proof. apply reachable_wf. Qed.

(** Keys are compared by their 32-bit hash only: after a successful write
    under one key, a read of any other key with the same hash returns the value
    of the first. *)
Lemma kv_hash_collision (kv kv' : ngx_wa_shm_kv_t P) (key key' value : bytes) (w : option bool) :
  wf kv ->
  crc key' = crc key ->
  set_locked kv key (Some value) (current_cas kv (crc key)) = Ret (NGX_OK, kv', w) ->
  exists kv'', ngx_wa_shm_kv_get_locked crc eviction geometry kv' key' None =
    Ret (NGX_OK, kv'', Some (value, wrap32 (current_cas kv (crc key) + 1))).
Proof.
  intros W Hc Hset. destruct (set_value_outcome kv key value W) as (kv1 & _ & _ & Ho).
  rewrite Hset in Ho. inversion Ho as [? W' Hv _ E| |]; subst.
  destruct (get_spec kv' key' None W') as (kv'' & Eg & _). cbn [default] in Eg.
  rewrite Hc, Hv in Eg. by exists kv''.
Qed.

End Facts.

(** ** Concrete stores *)

Import Reference.

(** Stands for [ngx_crc32_long]: the sum of the bytes. *)
Definition sum_hash (key : bytes) : Z := wrap32 (foldr (fun b acc => b2z b + acc) 0 key).

Definition geometry_4k : slab_geometry := {| ngx_pagesize_shift := 12; min_shift := 3 |}.

Lemma geometry_4k_ok : geometry_ok geometry_4k.
Proof. split; cbn; lia. Qed.

Definition quota_pool (n : Z) : quota := {| q_left := n; q_live := ∅ |}.

(** A store in a zone of [n] bytes after some writes, if they all return. *)
Fixpoint writes (eviction : ngx_wa_shm_eviction_e) (kv : ngx_wa_shm_kv_t quota)
    (l : list (bytes * option bytes * Z)) : outcome (ngx_wa_shm_kv_t quota) :=
  match l with
  | [] => Ret kv
  | (key, value, cas) :: l =>
      let? (_, kv, _) := ngx_wa_shm_kv_set_locked sum_hash eviction geometry_4k kv key value cas in
      writes eviction kv l
  end.

Definition store_of (eviction : ngx_wa_shm_eviction_e) (n : Z)
    (l : list (bytes * option bytes * Z)) : ngx_wa_shm_kv_t quota :=
  match ngx_wa_shm_kv_init eviction geometry_4k (quota_pool n) with
  | (_, Some kv) => match writes eviction kv l with Ret kv => kv | Fault _ => kv end
  | (_, None) => {| tree := Sentinel; nelts := 0; queues := []; nodes := ∅; shpool := quota_pool n |}
  end.

Lemma writes_reachable eviction l : forall kv kv',
  reachable sum_hash eviction geometry_4k kv -> writes eviction kv l = Ret kv' ->
  reachable sum_hash eviction geometry_4k kv'.
Proof.
  induction l as [|[[key value] cas] l IH]; cbn; intros kv kv' Hr E.
  - by injection E as <-.
  - destruct (ngx_wa_shm_kv_set_locked _ _ _ _ _ _ _) as [[[rc kv1] w]|] eqn:Es; [|done].
    eapply IH; [|exact E]. by eapply reach_set.
Qed.

Lemma store_of_reachable eviction n l :
  (ngx_wa_shm_kv_init eviction geometry_4k (quota_pool n)).1 = NGX_OK ->
  reachable sum_hash eviction geometry_4k (store_of eviction n l).
Proof.
  unfold store_of.
  destruct (ngx_wa_shm_kv_init _ _ _) as [rc [kv|]] eqn:Ei; cbn; intros ->.
  - pose proof (reach_init sum_hash eviction geometry_4k (quota_pool n) kv Ei) as Hr.
    destruct (writes eviction kv l) as [kv'|] eqn:Ew; [|done]. by eapply writes_reachable.
  - unfold ngx_wa_shm_kv_init in Ei. destruct (slab_calloc _ _) as [[? ?]|]; done.
Qed.

(** Two entries in a zone with room for little more. *)
Definition two_entries (eviction : ngx_wa_shm_eviction_e) : ngx_wa_shm_kv_t quota :=
  store_of eviction 600 [ (ngx_string "ab", Some (ngx_string "one"), 0);
                          (ngx_string "cd", Some (ngx_string "two"), 0) ].

Lemma two_entries_reachable eviction : reachable sum_hash eviction geometry_4k (two_entries eviction).
Proof. apply store_of_reachable. by destruct eviction. Qed.

Lemma two_entries_wf eviction : wf sum_hash eviction geometry_4k (two_entries eviction).
Proof. apply reachable_wf; [exact geometry_4k_ok|apply two_entries_reachable]. Qed.

Abbreviation set_sum := (ngx_wa_shm_kv_set_locked sum_hash).
Abbreviation get_sum := (ngx_wa_shm_kv_get_locked sum_hash).

(** Writing a value that needs the room of both entries. *)
Lemma kv_set_value_outcome_witness :
  let ev := NGX_WA_SHM_EVICTION_LRU in
  let kv := two_entries ev in
  let key := ngx_string "ef" in
  let value := replicate 300 x00 in
  wf sum_hash ev geometry_4k kv /\ q_left (shpool kv) < 96 + zlen key + zlen value /\
  exists kv1,
    evictions sum_hash ev geometry_4k (sizeof_ngx_wa_shm_kv_node_t + zlen key + zlen value) kv kv1 /\
    set_outcome sum_hash ev geometry_4k kv kv1 key value
      (set_sum ev geometry_4k kv key (Some value) 0).
Proof.
  intros ev kv key value. pose proof (two_entries_wf ev) as W.
  split; [exact W|]. split; [vm_compute; reflexivity|].
  destruct (kv_set_value_outcome sum_hash ev geometry_4k geometry_4k_ok kv key value W)
    as (kv1 & H1 & _ & H2).
  exists kv1. split; [exact H1|]. exact H2.
Defined.

Lemma kv_cas_guard_witness :
  let ev := NGX_WA_SHM_EVICTION_SLRU in
  let kv := two_entries ev in
  wf sum_hash ev geometry_4k kv /\
  set_sum ev geometry_4k kv (ngx_string "ab") None 7 = Ret (NGX_OK, kv, Some false) /\
  exists kv', set_sum ev geometry_4k kv (ngx_string "ab") None 1 = Ret (NGX_OK, kv', Some true) /\
    view kv' (sum_hash (ngx_string "ab")) = None.
Proof.
  intros ev kv. pose proof (two_entries_wf ev) as W. split; [exact W|].
  destruct (kv_cas_guard sum_hash ev geometry_4k geometry_4k_ok kv (ngx_string "ab") 7 W) as [H7 _].
  destruct (kv_cas_guard sum_hash ev geometry_4k geometry_4k_ok kv (ngx_string "ab") 1 W) as [_ H1].
  split; [apply H7; vm_compute; discriminate|].
  destruct H1 as (kv' & E & _ & Hv & _); [vm_compute; reflexivity|].
  exists kv'. split; [exact E|exact Hv].
Defined.

Lemma kv_get_outcome_example :
  let ev := NGX_WA_SHM_EVICTION_LRU in
  let kv := two_entries ev in
  wf sum_hash ev geometry_4k kv /\
  exists kv', get_sum ev geometry_4k kv (ngx_string "ab") None =
    Ret (NGX_OK, kv', Some (ngx_string "one", 1)).
Proof.
  intros ev kv. pose proof (two_entries_wf ev) as W. split; [exact W|].
  destruct (kv_get_outcome sum_hash ev geometry_4k geometry_4k_ok kv (ngx_string "ab") None W)
    as (kv' & E & _).
  exists kv'. exact E.
Defined.

Lemma kv_expire_victim_example :
  let ev := NGX_WA_SHM_EVICTION_SLRU in
  let kv := two_entries ev in
  wf sum_hash ev geometry_4k kv /\ nelts kv = 2 /\
  ((expire ev geometry_4k kv 300 = Ret (NGX_ABORT, kv) /\ (evicts ev = true -> nodes kv = ∅)) \/
   (exists a kv', is_victim ev geometry_4k kv 300 a /\
     expire ev geometry_4k kv 300 = Ret (NGX_OK, kv') /\
     wf sum_hash ev geometry_4k kv' /\ nodes kv' = delete a (nodes kv) /\
     nelts kv' = nelts kv - 1)).
Proof.
  intros ev kv. pose proof (two_entries_wf ev) as W. split; [exact W|]. split; [reflexivity|].
  exact (kv_expire_victim sum_hash ev geometry_4k geometry_4k_ok kv 300 W).
Defined.

Lemma kv_reachable_wf_witness :
  let ev := NGX_WA_SHM_EVICTION_NONE in
  reachable sum_hash ev geometry_4k (two_entries ev) /\
  wf sum_hash ev geometry_4k (two_entries ev).
Proof.
  intros ev. split; [exact (two_entries_reachable ev)|].
  exact (kv_reachable_wf sum_hash ev geometry_4k geometry_4k_ok _ (two_entries_reachable ev)).
Defined.

Lemma kv_hash_collision_example :
  let ev := NGX_WA_SHM_EVICTION_NONE in
  let kv := two_entries ev in
  ngx_string "fe" <> ngx_string "ef" /\
  exists kv' kv'',
    set_sum ev geometry_4k kv (ngx_string "ef") (Some (ngx_string "x")) 0
      = Ret (NGX_OK, kv', Some true) /\
    get_sum ev geometry_4k kv' (ngx_string "fe") None
      = Ret (NGX_OK, kv'', Some (ngx_string "x", 1)).
Proof.
  intros ev kv. split; [vm_compute; discriminate|].
  pose (kv' := store_of ev 600 [ (ngx_string "ab", Some (ngx_string "one"), 0);
                                 (ngx_string "cd", Some (ngx_string "two"), 0);
                                 (ngx_string "ef", Some (ngx_string "x"), 0) ]).
  assert (E0 : set_sum ev geometry_4k kv (ngx_string "ef") (Some (ngx_string "x"))
      (current_cas kv (sum_hash (ngx_string "ef"))) = Ret (NGX_OK, kv', Some true))
    by (vm_compute; reflexivity).
  exists kv'. destruct (kv_hash_collision sum_hash ev geometry_4k geometry_4k_ok kv kv'
    (ngx_string "ef") (ngx_string "fe") (ngx_string "x") (Some true)
    (two_entries_wf ev) ltac:(vm_compute; reflexivity) E0) as (kv'' & Eg).
  exists kv''. split; [exact E0|]. etransitivity; [exact Eg|]. vm_compute. reflexivity.
Defined.

(** Growing the only entry of a full LRU store: the entry is evicted to make room
    for its own replacement and then read. *)
Example kv_set_use_after_free :
  let kv := store_of NGX_WA_SHM_EVICTION_LRU (88 + 110)
              [ (ngx_string "k", Some (ngx_string "0123456789"), 0) ] in
  nelts kv = 1 /\
  set_sum NGX_WA_SHM_EVICTION_LRU geometry_4k kv (ngx_string "k")
    (Some (ngx_string "0123456789a")) 1 = Fault F_memory.
Proof. split; vm_compute; reflexivity. Qed.

End ShmKv.
