(* ===== verification/ShmZones.v ===== *)
(** * Zones of shared memory

    A configuration declares zones by name (src/src/wasm/ngx_wasm_directives.c); each holds
    a key/value store, a queue or the metrics (src/src/common/shm/ngx_wa_shm.c, ngx_wa_shm.h).
    A key names its zone with a prefix (src/src/common/shm/ngx_wa_shm_kv.c), a queue is known
    by the index of its zone (src/src/common/shm/ngx_wa_shm_queue.c). *)
From S2P Require Import Prelude NginxCore ShmQueue ShmKv.
From stdpp Require Export list gmap.
#[global] Open Scope Z_scope.

Module ShmZones.
Import ShmKv.

(** ** Data *)

Inductive ngx_wa_shm_type_e :=
| NGX_WA_SHM_TYPE_KV
| NGX_WA_SHM_TYPE_QUEUE
| NGX_WA_SHM_TYPE_METRICS.

#[export] Instance shm_type_eq_dec : EqDecision ngx_wa_shm_type_e.
Proof. solve_decision. Defined.

Section zones.
Context {P : Type} `{Slab P} `{Rbtree}.

(** [shm->data]: [DATA_NULL] before the zone is initialised. *)
Inductive shm_data :=
| DATA_NULL
| DATA_KV (kv : ngx_wa_shm_kv_t P)
| DATA_QUEUE (q : ShmQueue.ngx_wa_shm_queue_t).

(** [shm_pool] is the slab in the memory of the zone, [shm_size] the bytes it manages. *)
Record ngx_wa_shm_t := {
  shm_type : ngx_wa_shm_type_e;
  shm_eviction : ngx_wa_shm_eviction_e;
  shm_name : bytes;
  shm_pool : P;
  shm_size : Z;
  shm_data_ : shm_data;
}.

Record ngx_wa_shm_mapping_t := { map_name : bytes; map_zone : ngx_wa_shm_t }.

Definition set_shm_data (d : shm_data) (shm : ngx_wa_shm_t) : ngx_wa_shm_t :=
  {| shm_type := shm_type shm; shm_eviction := shm_eviction shm; shm_name := shm_name shm;
     shm_pool := shm_pool shm; shm_size := shm_size shm; shm_data_ := d |}.
Definition with_data (d : shm_data) (m : ngx_wa_shm_mapping_t) : ngx_wa_shm_mapping_t :=
  {| map_name := map_name m; map_zone := set_shm_data d (map_zone m) |}.

(** The array [ngx_wasmx_shms(cycle)]. *)
Abbreviation shms := (list ngx_wa_shm_mapping_t).

(** ** Declaring a zone *)

Context (geometry : slab_geometry).

Definition NGX_WA_SHM_MIN_SIZE : Z := 3 * ngx_pagesize geometry.

(** The size [ngx_parse_size] returned: [None] is [NGX_ERROR]. *)
Definition validate_shm_size (size : option Z) : ngx_rc :=
  match size with
  | None => NGX_ERROR
  | Some size =>
      if size <? NGX_WA_SHM_MIN_SIZE then NGX_ERROR
      else if negb (Z.land size (ngx_pagesize geometry - 1) =? 0) then NGX_ERROR
      else NGX_OK
  end.

(** The policy an option of the directive names: [None] is an invalid option. *)
Definition eviction_of (arg3 : option bytes) : option ngx_wa_shm_eviction_e :=
  match arg3 with
  | None => Some NGX_WA_SHM_EVICTION_SLRU
  | Some a =>
      if bool_decide (a = ngx_string "eviction=lru") then Some NGX_WA_SHM_EVICTION_LRU
      else if bool_decide (a = ngx_string "eviction=slru") then Some NGX_WA_SHM_EVICTION_SLRU
      else if bool_decide (a = ngx_string "eviction=none") then Some NGX_WA_SHM_EVICTION_NONE
      else None
  end.

(** [None] is [NGX_CONF_ERROR]; the parameters tell what the zone's memory will be and whether
    there is memory for the descriptor, the array and the zone. *)
Definition ngx_wasm_core_shm_generic_directive (pool_of : Z -> P) (alloc_ok push_ok add_ok : bool)
    (type : ngx_wa_shm_type_e) (name : bytes) (size : option Z) (arg3 : option bytes) (s : shms)
    : option shms :=
  if zlen name =? 0 then None
  else if negb (is_ok (validate_shm_size size)) then None
  else
    match eviction_of arg3 with
    | None => None
    | Some eviction =>
        if negb alloc_ok then None
        else if existsb (fun m => bool_decide (map_name m = name)) s then None
        else if negb push_ok || negb add_ok then None
        else
          let size := default 0 size in
          Some (s ++ [{| map_name := name;
                         map_zone := {| shm_type := type; shm_eviction := eviction; shm_name := name;
                                        shm_pool := pool_of size; shm_size := size;
                                        shm_data_ := DATA_NULL |} |}])
    end.

(** ** Initialising the zones *)

Context (debug : bool).

(** What the allocator of a zone answers to the two allocations of a queue. *)
Definition queue_calloc (p : P) (first n : Z) : bool :=
  match slab_calloc p first with
  | None => false
  | Some (_, p) => if n =? first then true else bool_decide (is_Some (slab_calloc p n))
  end.

(** The initialisation of the zone of the metrics: [Metrics]. *)
Context (ngx_wa_metrics_shm_init : ngx_wa_shm_t -> outcome (ngx_rc * ngx_wa_shm_t)).

Definition init_zone (shm : ngx_wa_shm_t) : outcome (ngx_rc * ngx_wa_shm_t) :=
  match shm_type shm with
  | NGX_WA_SHM_TYPE_KV =>
      let '(rc, kv) := ngx_wa_shm_kv_init (shm_eviction shm) geometry (shm_pool shm) in
      Ret (rc, match kv with Some kv => set_shm_data (DATA_KV kv) shm | None => shm end)
  | NGX_WA_SHM_TYPE_QUEUE =>
      let? (rc, q) := ShmQueue.ngx_wa_shm_queue_init debug (queue_calloc (shm_pool shm) 40) (shm_size shm)
                        (ngx_pagesize geometry) in
      Ret (rc, match q with Some q => set_shm_data (DATA_QUEUE q) shm | None => shm end)
  | NGX_WA_SHM_TYPE_METRICS => ngx_wa_metrics_shm_init shm
  end.

Fixpoint ngx_wa_shm_init (s : shms) : outcome (ngx_rc * shms) :=
  match s with
  | [] => Ret (NGX_OK, [])
  | m :: s =>
      let? (rc, shm) := init_zone (map_zone m) in
      let m := {| map_name := map_name m; map_zone := shm |} in
      if negb (is_ok rc) then Ret (rc, m :: s)
      else let? (rc, s) := ngx_wa_shm_init s in Ret (rc, m :: s)
  end.

(** ** Finding a zone *)

(** [None] is [NGX_WA_SHM_INDEX_NOTFOUND]. *)
Fixpoint ngx_wa_shm_lookup_index (s : shms) (name : bytes) : option nat :=
  match s with
  | [] => None
  | m :: s => if bool_decide (map_name m = name) then Some O else S <$> ngx_wa_shm_lookup_index s name
  end.

(** The position of the first "/". *)
Definition slash (key : bytes) : option nat := fst <$> list_find (fun c => c = "/"%byte) key.

Definition default_namespace : bytes := ngx_string "*".

(** [out->zone], [out->namespace] and [out->key]; [None] in place of the array is [NULL]. *)
Definition ngx_wa_shm_kv_resolve_key (s : option shms) (key : bytes)
    : outcome (ngx_rc * option (nat * bytes * bytes)) :=
  match s with
  | None => Ret (NGX_DECLINED, None)
  | Some s =>
      let '(namespace, rest) :=
        match slash key with Some i => (take i key, drop (i + 1) key) | None => ([], []) end in
      let found := if zlen namespace =? 0 then None else ngx_wa_shm_lookup_index s namespace in
      let resolved :=
        match found with
        | Some i => Some (i, namespace, rest)
        | None => i ← ngx_wa_shm_lookup_index s default_namespace; Some (i, default_namespace, key)
        end in
      match resolved with
      | None => Ret (NGX_DECLINED, None)
      | Some (i, ns, k) =>
          let? m := deref (s !! i) in
          if bool_decide (shm_type (map_zone m) = NGX_WA_SHM_TYPE_KV) then Ret (NGX_OK, Some (i, ns, k))
          else Ret (NGX_ABORT, Some (i, ns, k))
      end
  end.

(** [token] is the index of the zone. *)
Definition ngx_wa_shm_queue_resolve (s : option shms) (token : Z) : outcome (ngx_rc * option nat) :=
  match s with
  | None => Ret (NGX_DECLINED, None)
  | Some s =>
      if zlen s <=? token then Ret (NGX_DECLINED, None)
      else
        let? m := deref (s !! Z.to_nat token) in
        if bool_decide (shm_type (map_zone m) = NGX_WA_SHM_TYPE_QUEUE) then Ret (NGX_OK, Some (Z.to_nat token))
        else Ret (NGX_ABORT, None)
  end.

(** ** What a zone holds *)

Lemma lookup_index_Some s name i :
  ngx_wa_shm_lookup_index s name = Some i <->
  (exists m, s !! i = Some m /\ map_name m = name) /\
  (forall j m, (j < i)%nat -> s !! j = Some m -> map_name m <> name).
Proof.
  revert i. induction s as [|m s IH]; intros i; cbn.
  - split; [done|]. by intros [(? & ? & _) _].
  - case_bool_decide as Hm.
    + split.
      * intros [= <-]. split; [by exists m|lia].
      * intros [(m' & Hm' & Hn) Hfirst]. destruct i as [|i]; [done|].
        by destruct (Hfirst 0%nat m ltac:(lia) eq_refl).
    + rewrite fmap_Some. split.
      * intros (j & Hj & ->). apply IH in Hj as [(m' & Hm' & Hn) Hfirst]. split; [by exists m'|].
        intros [|k] m2 Hk Hk2; [naive_solver|]. apply (Hfirst k); [lia|done].
      * intros [(m' & Hm' & Hn) Hfirst]. destruct i as [|i]; [naive_solver|].
        exists i. split; [|done]. apply IH. split; [by exists m'|].
        intros j m2 Hj Hm2. by apply (Hfirst (S j) m2 ltac:(lia)).
Qed.

Lemma lookup_index_None s name :
  ngx_wa_shm_lookup_index s name = None <-> (forall m, m ∈ s -> map_name m <> name).
Proof.
  induction s as [|m s IH]; cbn; [set_solver|]. case_bool_decide.
  - split; [done|]. intros Hn. by destruct (Hn m ltac:(set_solver)).
  - rewrite fmap_None, IH. set_solver.
Qed.

End zones.

Arguments shm_data P : clear implicits.
Arguments ngx_wa_shm_t P : clear implicits.
Arguments ngx_wa_shm_mapping_t P : clear implicits.

End ShmZones.
