(* ===== verification/Histogram.v ===== *)
(** * Histograms of metrics (src/src/common/metrics/ngx_wa_histogram.c)

    A histogram is a chunk of shared memory: an array of bins, each an upper
    bound and a count, of which those up to the bin of bound 2^32-1 are in use.
    Logarithmic histograms create bins on demand and grow; custom ones have the
    bins of their definition.  A metric has one histogram per worker, found
    through the pointers of its slots. *)
From S2P Require Import Prelude NginxCore ShmKv.

Inductive ngx_wa_histogram_type_e :=
| NGX_WA_HISTOGRAM_LOG2
| NGX_WA_HISTOGRAM_CUSTOM.

Module Histogram.

Definition NGX_WA_METRICS_HISTOGRAM_BINS_INIT : Z := 5.
Definition NGX_WA_METRICS_HISTOGRAM_BINS_MAX : Z := 18.
Definition NGX_WA_METRICS_HISTOGRAM_BINS_INCREMENT : Z := 4.

Record ngx_wa_metrics_bin_t := { upper_bound : Z; count : Z }.

Record ngx_wa_metrics_histogram_t := {
  h_type : ngx_wa_histogram_type_e;
  n_bins : Z;
  sum : Z;
  bins : list ngx_wa_metrics_bin_t;
}.

Definition sizeof_ngx_wa_metrics_bin_t : Z := 8.
Definition sizeof_ngx_wa_metrics_histogram_t : Z := 16.

Definition set_bins (h : ngx_wa_metrics_histogram_t) bs :=
  {| h_type := h_type h; n_bins := n_bins h; sum := sum h; bins := bs |}.
Definition add_sum (h : ngx_wa_metrics_histogram_t) n :=
  {| h_type := h_type h; n_bins := n_bins h; sum := wrap64 (sum h + n); bins := bins h |}.

(** Zeroed memory. *)
Definition zero_bin : ngx_wa_metrics_bin_t := {| upper_bound := 0; count := 0 |}.

(** [for (n = n - 1; n >>= 1; upper_bound <<= 1)]: at most 64 turns. *)
Fixpoint double_bound (fuel : nat) (n upper_bound : Z) : Z :=
  match fuel with
  | O => upper_bound
  | S fuel =>
      let n := Z.shiftr n 1 in
      if n =? 0 then upper_bound else double_bound fuel n (wrap32 (Z.shiftl upper_bound 1))
  end.

Definition bin_log2_upper_bound (n : Z) : Z :=
  if n <=? 1 then 1
  else if NGX_MAX_UINT32_VALUE / 2 <? n then NGX_MAX_UINT32_VALUE
  else double_bound 64 (n - 1) 2.

(** The end of the first loop of [histogram_log2_bin]: the bin of the bound, or
    the number of bins in use and the position [j] noted on the way. *)
Inductive scan := ScanFound (i : nat) | ScanStop (i j : nat).

Fixpoint log2_scan (fuel : nat) (bs : list ngx_wa_metrics_bin_t) (ub : Z) (i j : nat)
  : outcome scan :=
  match fuel with
  | O => Ret (ScanStop i j)          (* i == n_bins *)
  | S fuel =>
      let? b := deref (bs !! i) in
      let j := if bool_decide (j = 0%nat) && (ub <? upper_bound b) then i else j in
      if upper_bound b =? ub then Ret (ScanFound i)
      else if upper_bound b =? NGX_MAX_UINT32_VALUE then Ret (ScanStop (S i) j)
      else log2_scan fuel bs ub (S i) j
  end.

(** The copy of the bins [j..i-1] one position further and the new bin at [j].
    The source calls [ngx_memcpy], whose behaviour is undefined when the regions overlap: as
    soon as two bins are shifted. *)
Definition shift_bins (bs : list ngx_wa_metrics_bin_t) (i j : nat) (ub : Z)
  : outcome (list ngx_wa_metrics_bin_t) :=
  if bool_decide (i < length bs)%nat && bool_decide (i <= S j)%nat
  then Ret (take j bs ++ {| upper_bound := ub; count := 0 |} ::
            take (i - j) (drop j bs) ++ drop (S i) bs)
  else Fault F_memory.

(** The first bin that can hold [n], or the last one. *)
Fixpoint custom_scan (fuel : nat) (bs : list ngx_wa_metrics_bin_t) (n : Z) (i : nat)
    (b : option nat) : outcome (option nat) :=
  match fuel with
  | O => Ret b
  | S fuel =>
      let? bin := deref (bs !! i) in
      if n <=? upper_bound bin then Ret (Some i) else custom_scan fuel bs n (S i) (Some i)
  end.

(** The null pointer returned for a histogram of no bin is dereferenced by the
    caller. *)
Definition histogram_custom_bin (h : ngx_wa_metrics_histogram_t) (n : Z) : outcome nat :=
  let? b := custom_scan (Z.to_nat (n_bins h)) (bins h) n 0 None in deref b.

Definition bump (k : Z) (b : ngx_wa_metrics_bin_t) : ngx_wa_metrics_bin_t :=
  {| upper_bound := upper_bound b; count := wrap32 (count b + k) |}.

(** [b->count += k] for the bin at index [i]. *)
Definition bin_add (h : ngx_wa_metrics_histogram_t) (i : nat) (k : Z)
  : outcome ngx_wa_metrics_histogram_t :=
  let? _ := deref (bins h !! i) in
  Ret (set_bins h (alter (bump k) i (bins h))).

Section Memory.
Context {P : Type} `{Slab P}.

(** The histograms of the shared zone (and the caller's buffers), with the slab. *)
Record mem := { hists : gmap addr ngx_wa_metrics_histogram_t; pool : P }.

Definition set_hist (m : mem) (a : addr) (h : ngx_wa_metrics_histogram_t) : mem :=
  {| hists := <[a := h]> (hists m); pool := pool m |}.

Definition histogram_size (n : Z) : Z :=
  sizeof_ngx_wa_metrics_histogram_t + sizeof_ngx_wa_metrics_bin_t * n.

(** The new address replaces [*out]. *)
Definition histogram_grow (m : mem) (a : addr) : outcome (ngx_rc * mem * addr) :=
  let? h := deref (hists m !! a) in
  if n_bins h =? NGX_WA_METRICS_HISTOGRAM_BINS_MAX then Ret (NGX_ERROR, m, a)
  else
    let n := Z.min NGX_WA_METRICS_HISTOGRAM_BINS_INCREMENT
                   (NGX_WA_METRICS_HISTOGRAM_BINS_MAX - n_bins h) in
    match slab_calloc (pool m) (histogram_size (n_bins h) + sizeof_ngx_wa_metrics_bin_t * n) with
    | None => Ret (NGX_ERROR, m, a)
    | Some (new_h, p) =>
        if zlen (bins h) <? n_bins h then Fault F_memory
        else
          let h' := {| h_type := h_type h; n_bins := (n_bins h + n) mod 256; sum := sum h;
                       bins := take (Z.to_nat (n_bins h)) (bins h)
                               ++ replicate (Z.to_nat n) zero_bin |} in
          Ret (NGX_OK, {| hists := <[new_h := h']> (delete a (hists m)); pool := slab_free p a |},
               new_h)
    end.

Definition insert_bin (m : mem) (a : addr) (i j : nat) (ub : Z) : outcome (mem * addr * nat) :=
  let? h := deref (hists m !! a) in
  let? bs := shift_bins (bins h) i j ub in
  Ret (set_hist m a (set_bins h bs), a, j).

(** [out] tells whether the pointer to update is given; the result is the
    histogram (moved when it grew) and the index of the bin. *)
Definition histogram_log2_bin (m : mem) (a : addr) (n : Z) (out : bool)
  : outcome (mem * addr * nat) :=
  let ub := bin_log2_upper_bound n in
  let? h := deref (hists m !! a) in
  let? r := log2_scan (Z.to_nat (n_bins h)) (bins h) ub 0 0 in
  match r with
  | ScanFound i => Ret (m, a, i)
  | ScanStop i j =>
      if Z.of_nat i =? n_bins h then
        if out then
          let? (rc, m, a) := histogram_grow m a in
          if is_ok rc then insert_bin m a i j ub else Ret (m, a, j)
        else Ret (m, a, j)
      else insert_bin m a i j ub
  end.

(** The bins of a new histogram: zeroed memory where the given bounds and the
    last one are written. *)
Definition new_bins (n : Z) (user : option (list Z)) : outcome (list ngx_wa_metrics_bin_t) :=
  let zeroed := replicate (Z.to_nat n) zero_bin in
  match user with
  | None => Ret (<[0%nat := {| upper_bound := NGX_MAX_UINT32_VALUE; count := 0 |}]> zeroed)
  | Some bounds =>
      if zlen bounds <? n - 1 then Fault F_memory
      else Ret (((fun ub => {| upper_bound := ub; count := 0 |}) <$> take (Z.to_nat (n - 1)) bounds)
                ++ [{| upper_bound := NGX_MAX_UINT32_VALUE; count := 0 |}])
  end.

(** One turn per worker; the result holds the slots already filled. *)
Fixpoint alloc_slots (workers : nat) (m : mem) (t : ngx_wa_histogram_type_e) (n : Z)
    (user : option (list Z)) (slots : list addr) : outcome (ngx_rc * mem * list addr) :=
  match workers with
  | O => Ret (NGX_OK, m, slots)
  | S workers =>
      match slab_calloc (pool m) (histogram_size n) with
      | None => Ret (NGX_ERROR, m, slots)
      | Some (a, p) =>
          let? bs := new_bins n user in
          let h := {| h_type := t; n_bins := n; sum := 0; bins := bs |} in
          alloc_slots workers {| hists := <[a := h]> (hists m); pool := p |} t n user (slots ++ [a])
      end
  end.

(** [for (; i > 0; i--)]: frees the slots filled, last first. *)
Definition free_slots (m : mem) (slots : list addr) : mem :=
  foldl (fun m a => {| hists := delete a (hists m); pool := slab_free (pool m) a |})
    m (reverse slots).

Definition ngx_wa_metrics_histogram_add_locked (m : mem) (workers : nat)
    (user : option (list Z)) (cn_bins : Z) : outcome (ngx_rc * mem * list addr) :=
  match user with
  | Some _ =>
      if NGX_WA_METRICS_HISTOGRAM_BINS_MAX <=? cn_bins then Ret (NGX_ABORT, m, [])
      else
        let? (rc, m, slots) :=
          alloc_slots workers m NGX_WA_HISTOGRAM_CUSTOM (cn_bins + 1) user [] in
        if is_ok rc then Ret (NGX_OK, m, slots) else Ret (NGX_ERROR, free_slots m slots, slots)
  | None =>
      let? (rc, m, slots) :=
        alloc_slots workers m NGX_WA_HISTOGRAM_LOG2 NGX_WA_METRICS_HISTOGRAM_BINS_INIT None [] in
      if is_ok rc then Ret (NGX_OK, m, slots) else Ret (NGX_ERROR, free_slots m slots, slots)
  end.

(** The third component is the address the slot points to afterwards. *)
Definition ngx_wa_metrics_histogram_record (m : mem) (a : addr) (n : Z)
  : outcome (ngx_rc * mem * addr) :=
  let? h := deref (hists m !! a) in
  let m := set_hist m a (add_sum h n) in
  let? (m, a, i) :=
    match h_type h with
    | NGX_WA_HISTOGRAM_LOG2 => histogram_log2_bin m a n true
    | NGX_WA_HISTOGRAM_CUSTOM =>
        let? i := histogram_custom_bin (add_sum h n) n in Ret (m, a, i)
    end in
  let? h := deref (hists m !! a) in
  let? h := bin_add h i 1 in
  Ret (NGX_OK, set_hist m a h, a).

(** [out->bins[j].upper_bound = ub]. *)
Definition set_bound (h : ngx_wa_metrics_histogram_t) (j : nat) (ub : Z)
  : outcome ngx_wa_metrics_histogram_t :=
  let? b := deref (bins h !! j) in
  Ret (set_bins h (<[j := {| upper_bound := ub; count := count b |}]> (bins h))).

(** The loop over the bins of one slot. *)
Fixpoint merge_bins (fuel : nat) (m : mem) (t : ngx_wa_histogram_type_e)
    (bs : list ngx_wa_metrics_bin_t) (j : nat) (out : addr) : outcome mem :=
  match fuel with
  | O => Ret m
  | S fuel =>
      let? b := deref (bs !! j) in
      let? (m, i) :=
        match t with
        | NGX_WA_HISTOGRAM_LOG2 =>
            let? (m, _, i) := histogram_log2_bin m out (upper_bound b) false in Ret (m, i)
        | NGX_WA_HISTOGRAM_CUSTOM =>
            let? o := deref (hists m !! out) in
            let? o := set_bound o j (upper_bound b) in
            Ret (set_hist m out o, j)
        end in
      let? o := deref (hists m !! out) in
      let? o := bin_add o i (count b) in
      let m := set_hist m out o in
      if upper_bound b =? NGX_MAX_UINT32_VALUE then Ret m
      else merge_bins fuel m t bs (S j) out
  end.

Fixpoint ngx_wa_metrics_histogram_get (m : mem) (slots : list addr) (out : addr) : outcome mem :=
  match slots with
  | [] => Ret m
  | a :: slots =>
      let? h := deref (hists m !! a) in
      let? m := merge_bins (Z.to_nat (n_bins h)) m (h_type h) (bins h) 0 out in
      let? o := deref (hists m !! out) in
      ngx_wa_metrics_histogram_get (set_hist m out (add_sum o (sum h))) slots out
  end.

End Memory.
Arguments mem P : clear implicits.

(** [ngx_wa_metrics_histogram_set_buffer] on a zeroed buffer of [s] bytes. *)
Definition ngx_wa_metrics_histogram_set_buffer (s : Z) : outcome ngx_wa_metrics_histogram_t :=
  let n := (s - sizeof_ngx_wa_metrics_histogram_t) / sizeof_ngx_wa_metrics_bin_t in
  let zeroed := replicate (Z.to_nat n) zero_bin in
  let? b := deref (zeroed !! 0%nat) in
  Ret {| h_type := NGX_WA_HISTOGRAM_LOG2; n_bins := n mod 256; sum := 0;
         bins := <[0%nat := {| upper_bound := NGX_MAX_UINT32_VALUE; count := count b |}]> zeroed |}.

(** ** The bound of a value *)

Lemma double_bound_log2 fuel : forall n k,
  0 <= n < 2 ^ Z.of_nat fuel -> 0 <= k -> k + Z.log2 n < 32 ->
  double_bound fuel n (2 ^ k) = 2 ^ (k + Z.log2 n).
Proof.
  induction fuel as [|fuel IH]; intros n k Hn Hk Hlt.
  - assert (n = 0) as -> by (change (2 ^ Z.of_nat 0) with 1 in Hn; lia). cbn [double_bound].
    by rewrite Z.add_0_r.
  - rewrite Nat2Z.inj_succ, Z.pow_succ_r in Hn by lia. cbn [double_bound].
    rewrite Z.shiftr_div_pow2, Z.pow_1_r by lia.
    destruct (Z.eqb_spec (n / 2) 0) as [E|E].
    + assert (n = 0 \/ n = 1) as [-> | ->]
        by (Z.to_euclidean_division_equations; lia); cbn [Z.log2]; by rewrite Z.add_0_r.
    + assert (Hn2 : 0 < n / 2) by (Z.to_euclidean_division_equations; lia).
      assert (El : Z.log2 n = Z.succ (Z.log2 (n / 2))).
      { destruct (Z.eq_dec (n mod 2) 0).
        - rewrite <- Z.log2_double by done. f_equal. Z.to_euclidean_division_equations; lia.
        - rewrite <- Z.log2_succ_double by done. f_equal.
          Z.to_euclidean_division_equations; lia. }
      pose proof (Z.log2_nonneg (n / 2)).
      rewrite Z.shiftl_mul_pow2, Z.pow_1_r by lia.
      assert (E2 : 2 ^ k * 2 = 2 ^ (k + 1)) by (rewrite Z.pow_add_r; lia).
      rewrite E2, wrap32_id.
      * rewrite IH; [f_equal; lia| |lia|lia]. Z.to_euclidean_division_equations; lia.
      * split; [apply Z.pow_nonneg; lia|]. apply Z.pow_lt_mono_r; lia.
Qed.

Lemma bin_log2_upper_bound_pow n :
  1 < n <= NGX_MAX_UINT32_VALUE / 2 ->
  bin_log2_upper_bound n = 2 ^ (1 + Z.log2 (n - 1)) /\ 0 <= Z.log2 (n - 1) <= 30.
Proof.
  intros Hn. change (NGX_MAX_UINT32_VALUE / 2) with (2 ^ 31 - 1) in Hn.
  assert (Hlog : 0 <= Z.log2 (n - 1) <= 30).
  { split; [apply Z.log2_nonneg|]. assert (Z.log2 (n - 1) < 31); [|lia].
    apply Z.log2_lt_pow2; lia. }
  split; [|done]. unfold bin_log2_upper_bound.
  rewrite (proj2 (Z.leb_gt _ _)), (proj2 (Z.ltb_ge _ _)) by
    (change (NGX_MAX_UINT32_VALUE / 2) with (2 ^ 31 - 1); lia).
  apply (double_bound_log2 64 (n - 1) 1); [|lia|lia].
  change (2 ^ Z.of_nat 64) with (2 ^ 64). lia.
Qed.

(** The bounds a logarithmic histogram has besides the last one. *)
Definition log2_bound (ub : Z) : Prop := exists k, 0 <= k <= 31 /\ ub = 2 ^ k.

Lemma log2_bound_range ub : log2_bound ub -> 1 <= ub <= 2 ^ 31.
Proof.
  intros (k & Hk & ->). split.
  - change 1 with (2 ^ 0). apply Z.pow_le_mono_r; lia.
  - apply Z.pow_le_mono_r; lia.
Qed.

Lemma bin_log2_upper_bound_cases n :
  log2_bound (bin_log2_upper_bound n) /\ n <= bin_log2_upper_bound n \/
  bin_log2_upper_bound n = NGX_MAX_UINT32_VALUE.
Proof.
  destruct (Z.le_gt_cases n 1) as [H1|H1].
  { left. assert (bin_log2_upper_bound n = 1) as ->.
    { unfold bin_log2_upper_bound. by rewrite (proj2 (Z.leb_le _ _)). }
    split; [|done]. by exists 0. }
  destruct (Z.le_gt_cases n (NGX_MAX_UINT32_VALUE / 2)) as [H2|H2].
  - left. destruct (bin_log2_upper_bound_pow n) as [-> Hl]; [done|]. split.
    + exists (1 + Z.log2 (n - 1)). split; [lia|done].
    + pose proof (Z.log2_spec (n - 1) ltac:(lia)). rewrite Z.add_comm. lia.
  - right. unfold bin_log2_upper_bound.
    rewrite (proj2 (Z.leb_gt _ _)), (proj2 (Z.ltb_lt _ _)) by done. done.
Qed.

(** The bound computed for a value is the smallest power of two that holds
    it up to 2^31-1, and 2^32-1 for any larger value. *)
Lemma bin_log2_upper_bound_least (n : Z) :
  (1 <= n < 2 ^ 31 ->
     n <= bin_log2_upper_bound n /\
     exists k, 0 <= k <= 31 /\ bin_log2_upper_bound n = 2 ^ k /\
       forall i, 0 <= i -> n <= 2 ^ i -> k <= i) /\
  (2 ^ 31 <= n -> bin_log2_upper_bound n = 2 ^ 32 - 1).
Proof.
  split; intros Hn.
  - destruct (Z.eq_dec n 1) as [->|Hne].
    { split; [done|]. exists 0. split_and!; by try done. }
    destruct (bin_log2_upper_bound_pow n) as [-> Hl].
    { change (NGX_MAX_UINT32_VALUE / 2) with (2 ^ 31 - 1). lia. }
    pose proof (Z.log2_spec (n - 1) ltac:(lia)) as Hs. rewrite <- Z.add_1_l in Hs.
    split; [lia|]. exists (1 + Z.log2 (n - 1)). split_and!; [lia..|done|].
    intros i Hi Hni. assert (Z.log2 (n - 1) < i); [|lia]. apply Z.log2_lt_pow2; lia.
  - unfold bin_log2_upper_bound. rewrite (proj2 (Z.leb_gt _ _)) by lia.
    rewrite (proj2 (Z.ltb_lt _ _)); [done|].
    change (NGX_MAX_UINT32_VALUE / 2) with (2 ^ 31 - 1). lia.
Qed.

Lemma bin_log2_upper_bound_least_example :
  5 <= bin_log2_upper_bound 5 /\ bin_log2_upper_bound (2 ^ 31) = 2 ^ 32 - 1.
Proof.
  split.
  - apply (proj1 (bin_log2_upper_bound_least 5)). lia.
  - apply (proj2 (bin_log2_upper_bound_least (2 ^ 31))). lia.
Defined.

(** ** Counts *)

(** The bins in use: up to the one of the last bound. *)
Fixpoint active (bs : list ngx_wa_metrics_bin_t) : list ngx_wa_metrics_bin_t :=
  match bs with
  | [] => []
  | b :: bs => if upper_bound b =? NGX_MAX_UINT32_VALUE then [b] else b :: active bs
  end.

(** The count of the bins in use whose bound satisfies [p]. *)
Definition weight (p : Z -> bool) (bs : list ngx_wa_metrics_bin_t) : Z :=
  foldr (fun b acc => (if p (upper_bound b) then count b else 0) + acc) 0 bs.

(** The count a histogram shows for the bounds that satisfy [p], a [uint32_t]. *)
Definition observed (p : Z -> bool) (h : ngx_wa_metrics_histogram_t) : Z :=
  wrap32 (weight p (active (bins h))).

Lemma weight_app p l1 l2 : weight p (l1 ++ l2) = weight p l1 + weight p l2.
Proof. unfold weight. induction l1 as [|b l1 IH]; cbn; lia. Qed.

Lemma weight_perm p l l' : l ≡ₚ l' -> weight p l = weight p l'.
Proof.
  unfold weight. induction 1 as [|x l l' _ IH|x y l|l1 l2 l3 _ IH1 _ IH2]; cbn;
    [done|by rewrite IH|lia|congruence].
Qed.

Lemma weight_bump p l i b k :
  l !! i = Some b ->
  wrap32 (weight p (alter (bump k) i l)) =
    wrap32 (weight p l + if p (upper_bound b) then k else 0).
Proof.
  intros Hi. apply list_elem_of_split_length in Hi as (l1 & l2 & -> & ->).
  rewrite <- (Nat.add_0_r (length l1)), alter_app_r. cbn [alter list_alter].
  rewrite !weight_app. cbn. unfold wrap32. case_match; [|f_equal; lia].
  Z.to_euclidean_division_equations. lia.
Qed.

Record shape (bs act : list ngx_wa_metrics_bin_t) (mx : ngx_wa_metrics_bin_t)
    (rest : list ngx_wa_metrics_bin_t) : Prop := {
  sh_bins : bs = act ++ mx :: rest;
  sh_max : upper_bound mx = NGX_MAX_UINT32_VALUE;
  sh_nodup : NoDup (upper_bound <$> act);
  sh_bounds : Forall log2_bound (upper_bound <$> act);
}.

Lemma bound_not_max b : log2_bound (upper_bound b) -> upper_bound b < NGX_MAX_UINT32_VALUE.
Proof. intros H%log2_bound_range. unfold NGX_MAX_UINT32_VALUE. lia. Qed.

Lemma shape_active bs act mx rest : shape bs act mx rest -> active bs = act ++ [mx].
Proof.
  intros [-> Hm _ Hb]. induction act as [|b act IH]; cbn.
  - by rewrite Hm, Z.eqb_refl.
  - apply Forall_cons_1 in Hb as [Hb Hbs]. apply bound_not_max in Hb.
    rewrite (proj2 (Z.eqb_neq _ _)) by lia. by rewrite IH.
Qed.

(** Histograms of the logarithmic kind, whatever their [h_type]: the buffers of
    the readers are such histograms too. *)
Record wf (h : ngx_wa_metrics_histogram_t) : Prop := {
  wf_n_bins : n_bins h = zlen (bins h);
  wf_max : n_bins h <= NGX_WA_METRICS_HISTOGRAM_BINS_MAX;
  wf_shape : exists act mx rest, shape (bins h) act mx rest;
}.

(** The scan stops at the bin of the bound, or knows a bin of a larger one. *)
Lemma log2_scan_spec fuel ub mx rest act : forall bs i j,
  drop i bs = act ++ mx :: rest -> (length act < fuel)%nat ->
  upper_bound mx = NGX_MAX_UINT32_VALUE -> Forall log2_bound (upper_bound <$> act) ->
  ub <= NGX_MAX_UINT32_VALUE ->
  (j = 0%nat \/ exists b, (j < i)%nat /\ bs !! j = Some b /\ ub < upper_bound b) ->
  (exists k b, log2_scan fuel bs ub i j = Ret (ScanFound (i + k)) /\
     (k <= length act)%nat /\ bs !! (i + k)%nat = Some b /\ upper_bound b = ub) \/
  (exists j' b, log2_scan fuel bs ub i j = Ret (ScanStop (S (i + length act)) j') /\
     (ub ∉ (upper_bound <$> act)) /\ ub < NGX_MAX_UINT32_VALUE /\
     (j' <= i + length act)%nat /\ bs !! j' = Some b /\ ub < upper_bound b).
Proof.
  revert fuel. induction act as [|b act IH]; intros fuel bs i j Hd Hf Hm Hb Hub Hj;
    (destruct fuel as [|fuel]; [cbn in Hf; lia|]);
    (assert (Hi : bs !! i = head (drop i bs)) by (by rewrite head_lookup, lookup_drop, Nat.add_0_r));
    rewrite Hd in Hi; cbn in Hi; cbn [log2_scan]; rewrite Hi; cbn [deref obind].
  - destruct (Z.eqb_spec (upper_bound mx) ub) as [E|E].
    + left. exists 0%nat, mx. rewrite Nat.add_0_r. done.
    + right. rewrite Hm, Z.eqb_refl. rewrite Hm in E.
      assert (Hlt : (ub <? NGX_MAX_UINT32_VALUE) = true) by (apply Z.ltb_lt; lia).
      rewrite Hlt. cbn [length]. rewrite Nat.add_0_r. case_bool_decide as Hj0.
      * exists i, mx. split; [done|]. split; [set_solver|]. split_and!; [lia|lia|done|lia].
      * destruct Hj as [|(b & Hji & Hbj & Hlt')]; [done|].
        exists j, b. split; [done|]. split; [set_solver|]. split_and!; [lia|lia|done|lia].
  - rewrite fmap_cons in Hb. apply Forall_cons_1 in Hb as [Hb Hbs]. apply bound_not_max in Hb.
    destruct (Z.eqb_spec (upper_bound b) ub) as [E|E].
    { left. exists 0%nat, b. rewrite Nat.add_0_r. split_and!; [done|lia|done|done]. }
    rewrite (proj2 (Z.eqb_neq (upper_bound b) _)) by lia.
    assert (Hd' : drop (S i) bs = act ++ mx :: rest).
    { replace (S i) with (i + 1)%nat by lia. by rewrite <- drop_drop, Hd. }
    set (j1 := if bool_decide (j = 0%nat) && (ub <? upper_bound b) then i else j).
    destruct (IH fuel bs (S i) j1 Hd' ltac:(cbn in Hf; lia) Hm Hbs Hub)
      as [(k & b' & E' & Hk & Hb' & Eb)|(j' & b' & E' & Hni & Hlt & Hj' & Hb' & Hub')].
    + unfold j1. case_bool_decide as Hj0; cbn.
      * destruct (Z.ltb_spec ub (upper_bound b)); [|by left].
        right. exists b. split_and!; [lia|done|done].
      * right. destruct Hj as [|(b' & ? & ? & ?)]; [done|]. exists b'. split_and!; [lia|done|done].
    + left. exists (S k), b'. cbn [length]. rewrite E'.
      replace (i + S k)%nat with (S i + k)%nat by lia. split_and!; [done|lia|done|done].
    + right. exists j', b'. cbn [length]. rewrite E'.
      replace (i + S (length act))%nat with (S i + length act)%nat by lia.
      split; [done|]. split; [|split_and!; [done|lia|done|done]].
      rewrite fmap_cons, elem_of_cons. intros [->|?]; done.
Qed.

(** The new bin is in use, between bins of the same counts. *)
Lemma shift_bins_spec bs act mx rest j ub :
  shape bs act mx rest -> rest <> [] -> (j <= length act)%nat ->
  log2_bound ub -> (ub ∉ (upper_bound <$> act)) ->
  (shift_bins bs (S (length act)) j ub = Fault F_memory /\ (j < length act)%nat) \/
  exists act' rest',
    shift_bins bs (S (length act)) j ub =
      Ret (act' ++ mx :: rest') /\
    shape (act' ++ mx :: rest') act' mx rest' /\
    length (act' ++ mx :: rest') = length bs /\
    (act' ++ mx :: rest') !! j = Some {| upper_bound := ub; count := 0 |} /\
    (j <= length act)%nat /\ act' ≡ₚ {| upper_bound := ub; count := 0 |} :: act.
Proof.
  intros [-> Hm Hnd Hb] Hr Hj Hub Hni. destruct rest as [|r rest]; [done|].
  unfold shift_bins. rewrite (bool_decide_true (_ < _)%nat) by (rewrite length_app; cbn; lia).
  case_bool_decide as Hov; [right|left; split; [done|lia]]. cbn [andb].
  set (nb := {| upper_bound := ub; count := 0 |}).
  exists (take j act ++ nb :: drop j act), rest.
  assert (Hp : take j act ++ nb :: drop j act ≡ₚ nb :: act).
  { rewrite <- Permutation_middle. by rewrite take_drop. }
  assert (Elist : take j (act ++ mx :: r :: rest) ++ nb ::
      take (S (length act) - j) (drop j (act ++ mx :: r :: rest)) ++
      drop (S (S (length act))) (act ++ mx :: r :: rest) =
      (take j act ++ nb :: drop j act) ++ mx :: rest).
  { rewrite take_app_le, drop_app_le by lia.
    rewrite (take_app_ge _ _ (S (length act) - j)) by (rewrite length_drop; lia).
    rewrite length_drop.
    replace (S (length act) - j - (length act - j))%nat with 1%nat by lia.
    rewrite drop_app_ge by lia. replace (S (S (length act)) - length act)%nat with 2%nat by lia.
    cbn. by rewrite <- !app_assoc. }
  rewrite Elist. split; [done|]. split; [|split; [|split; [|done]]].
  - split; [done|done| |]; rewrite Hp, fmap_cons; by constructor.
  - rewrite !length_app. cbn. rewrite length_drop, length_take. lia.
  - rewrite <- app_assoc. rewrite lookup_app_r by (rewrite length_take; lia).
    rewrite length_take, Nat.min_l, Nat.sub_diag by lia. done.
Qed.

(** The bounds in use. *)
Definition bounds (h : ngx_wa_metrics_histogram_t) : list Z := upper_bound <$> active (bins h).

(** [h'] has the bin [b] at [i] for the bound [ub], and the counts of [h]. *)
Record bin_chosen (h h' : ngx_wa_metrics_histogram_t) (ub : Z) (i : nat)
    (b : ngx_wa_metrics_bin_t) : Prop := {
  bc_wf : wf h';
  bc_type : h_type h' = h_type h;
  bc_sum : sum h' = sum h;
  bc_in : bins h' !! i = Some b;
  bc_active : (i < length (active (bins h')))%nat;
  bc_bound : ub <= upper_bound b;
  bc_weight p : weight p (active (bins h')) = weight p (active (bins h));
  bc_bounds u : u ∈ bounds h' -> u = ub \/ u ∈ bounds h;
}.

Lemma wf_active_length h act mx rest :
  wf h -> shape (bins h) act mx rest ->
  length (active (bins h)) = S (length act) /\ (S (length act) <= length (bins h))%nat.
Proof.
  intros W S. rewrite (shape_active _ _ _ _ S), (sh_bins _ _ _ _ S), !length_app. cbn. lia.
Qed.

(** A bin already there is chosen. *)
Lemma chosen_same h act mx rest ub i b :
  wf h -> shape (bins h) act mx rest -> bins h !! i = Some b -> (i <= length act)%nat ->
  ub <= upper_bound b -> bin_chosen h h ub i b.
Proof.
  intros W S Hi Hle Hub. destruct (wf_active_length _ _ _ _ W S) as [Hl _].
  split; try done; [lia|]. by right.
Qed.

(** A bin inserted in a histogram [h1] that has the bins of [h] in use. *)
Lemma chosen_insert h h1 act mx rest rest1 ub j :
  shape (bins h) act mx rest -> shape (bins h1) act mx rest1 -> rest1 <> [] ->
  n_bins h1 = zlen (bins h1) -> n_bins h1 <= NGX_WA_METRICS_HISTOGRAM_BINS_MAX ->
  h_type h1 = h_type h -> sum h1 = sum h ->
  (j <= length act)%nat -> log2_bound ub -> (ub ∉ (upper_bound <$> act)) ->
  (shift_bins (bins h1) (S (length act)) j ub = Fault F_memory /\ (j < length act)%nat) \/
  exists bs, shift_bins (bins h1) (S (length act)) j ub = Ret bs /\
    bin_chosen h (set_bins h1 bs) ub j {| upper_bound := ub; count := 0 |}.
Proof.
  intros Sh Sh1 Hr Hn Hmax Ht Hsum Hj Hub Hni.
  destruct (shift_bins_spec _ _ _ _ j ub Sh1 Hr Hj Hub Hni)
    as [?|(act' & rest' & E & Sh' & Hlen & Hat & _ & Hp)]; [by left|right].
  exists (act' ++ mx :: rest'). split; [done|].
  assert (Hpa : active (act' ++ mx :: rest') ≡ₚ {| upper_bound := ub; count := 0 |} :: active (bins h)).
  { rewrite (shape_active _ _ _ _ Sh'), (shape_active _ _ _ _ Sh), Hp. done. }
  split; cbn; [|done|done|done| |lia| |].
  - split; cbn; [rewrite Hn; unfold zlen; by rewrite Hlen|done|eauto].
  - rewrite (shape_active _ _ _ _ Sh'), length_app, Hp. cbn. lia.
  - intros p. etransitivity; [apply (weight_perm p _ _ Hpa)|]. unfold weight. cbn. by case_match.
  - intros u. unfold bounds. cbn. rewrite Hpa. cbn. by rewrite elem_of_cons.
Qed.

(** What happens to the last bound when a value's is the same. *)
Lemma scan_bound_cases h n act mx rest :
  shape (bins h) act mx rest ->
  bin_log2_upper_bound n ∉ (upper_bound <$> act) ->
  bin_log2_upper_bound n < NGX_MAX_UINT32_VALUE -> log2_bound (bin_log2_upper_bound n).
Proof.
  intros _ _ Hlt. destruct (bin_log2_upper_bound_cases n) as [[H _]|H]; [done|lia].
Qed.

Lemma bin_log2_upper_bound_max n : bin_log2_upper_bound n <= NGX_MAX_UINT32_VALUE.
Proof.
  destruct (bin_log2_upper_bound_cases n) as [[H%log2_bound_range _]|H];
    unfold NGX_MAX_UINT32_VALUE in *; lia.
Qed.

Section Facts.
Context {P : Type} `{Slab P} {SL : SlabLaws P}.

(** The number of bins a histogram can have next. *)
Definition grown_size (h : ngx_wa_metrics_histogram_t) : Z :=
  histogram_size (n_bins h) + sizeof_ngx_wa_metrics_bin_t *
    Z.min NGX_WA_METRICS_HISTOGRAM_BINS_INCREMENT (NGX_WA_METRICS_HISTOGRAM_BINS_MAX - n_bins h).

Definition cannot_grow (m : mem P) (h : ngx_wa_metrics_histogram_t) : Prop :=
  n_bins h = NGX_WA_METRICS_HISTOGRAM_BINS_MAX \/ slab_calloc (pool m) (grown_size h) = None.

Lemma histogram_grow_spec (m : mem P) a h act mx rest :
  hists m !! a = Some h -> wf h -> shape (bins h) act mx rest ->
  (histogram_grow m a = Ret (NGX_ERROR, m, a) /\ cannot_grow m h) \/
  (exists a' p h' rest', slab_calloc (pool m) (grown_size h) = Some (a', p) /\
     histogram_grow m a =
       Ret (NGX_OK, {| hists := <[a' := h']> (delete a (hists m)); pool := slab_free p a |}, a') /\
     shape (bins h') act mx rest' /\ n_bins h < n_bins h' /\
     n_bins h' = zlen (bins h') /\ n_bins h' <= NGX_WA_METRICS_HISTOGRAM_BINS_MAX /\
     h_type h' = h_type h /\ sum h' = sum h).
Proof.
  intros Ha W Sh. unfold histogram_grow, cannot_grow, grown_size. rewrite Ha. cbn [deref obind].
  destruct (Z.eqb_spec (n_bins h) NGX_WA_METRICS_HISTOGRAM_BINS_MAX) as [E|E]; [left; auto|].
  destruct (slab_calloc _ _) as [[a' p]|] eqn:Ec; [|left; auto]. right.
  destruct W as [Hn Hmax _]. rewrite (proj2 (Z.ltb_ge _ _)) by lia.
  set (k := Z.min _ _). assert (Hk : 0 < k /\ n_bins h + k <= NGX_WA_METRICS_HISTOGRAM_BINS_MAX).
  { unfold k, NGX_WA_METRICS_HISTOGRAM_BINS_INCREMENT, NGX_WA_METRICS_HISTOGRAM_BINS_MAX in *. lia. }
  pose proof (zlen_nonneg (bins h)).
  assert (Ht : take (Z.to_nat (n_bins h)) (bins h) = bins h).
  { apply take_ge. rewrite Hn. unfold zlen. lia. }
  assert (Hmod : (n_bins h + k) mod 256 = n_bins h + k).
  { apply Z.mod_small. unfold NGX_WA_METRICS_HISTOGRAM_BINS_MAX in *. lia. }
  exists a', p. eexists _, (rest ++ replicate (Z.to_nat k) zero_bin).
  split; [done|]. split; [done|]. cbn. rewrite Ht, Hmod.
  split_and!; [|lia| |lia|done|done].
  - destruct Sh as [-> ? ? ?]. split; try done. by rewrite <- app_assoc.
  - rewrite Hn. unfold zlen. rewrite length_app, length_replicate. lia.
Qed.

(** A new bin that is not next to the last one is shifted in by an overlapping copy. *)
Definition overlaps (h : ngx_wa_metrics_histogram_t) (ub : Z) : Prop :=
  ub ∉ bounds h /\ 1 < zlen (bounds h).

Lemma histogram_log2_bin_spec (m : mem P) a h n out :
  hists m !! a = Some h -> wf h ->
  (out = true -> forall c, is_Some (hists m !! c) -> c ∈ slab_live (pool m)) ->
  (histogram_log2_bin m a n out = Fault F_memory /\ overlaps h (bin_log2_upper_bound n)) \/
  exists m' a' i h' b,
    histogram_log2_bin m a n out = Ret (m', a', i) /\
    hists m' !! a' = Some h' /\ bin_chosen h h' (bin_log2_upper_bound n) i b /\
    (upper_bound b = bin_log2_upper_bound n \/
       (bin_log2_upper_bound n ∉ bounds h) /\ zlen (bounds h) = n_bins h /\
       (out = true -> cannot_grow m h)) /\
    (if out then
       (forall c, c <> a -> hists m !! c <> None -> c <> a' /\ hists m' !! c = hists m !! c) /\
       (forall c, is_Some (hists m' !! c) -> c ∈ slab_live (pool m'))
     else a' = a /\ n_bins h' = n_bins h /\ m' = set_hist m a h').
Proof.
  intros Ha W Hlive. destruct (wf_shape _ W) as (act & mx & rest & Sh).
  destruct (wf_active_length _ _ _ _ W Sh) as [Hact Hle].
  set (ub := bin_log2_upper_bound n). unfold histogram_log2_bin. fold ub. rewrite Ha. cbn [deref obind].
  pose proof (wf_n_bins _ W) as Hn.
  assert (Hsame : set_hist m a h = m).
  { destruct m. unfold set_hist. cbn in *. by rewrite insert_id. }
  destruct (log2_scan_spec (Z.to_nat (n_bins h)) ub mx rest act (bins h) 0 0)
    as [(k & b & -> & Hk & Hb & Eb)|(j & b & -> & Hni & Hlt & Hj & Hb & Hub)].
  { by rewrite drop_0, (sh_bins _ _ _ _ Sh) at 1. }
  { rewrite Hn. unfold zlen. lia. }
  { apply Sh. } { apply Sh. } { apply bin_log2_upper_bound_max. } { by left. }
  - cbn [obind]. right. exists m, a, (0 + k)%nat, h, b. split; [done|]. split; [done|].
    split; [by eapply chosen_same; [..|lia]|]. split; [by left|].
    destruct out; [by split; auto|]. by rewrite Hsame.
  - cbn [obind]. change (0 + length act)%nat with (length act) in *.
    assert (Hno : ub ∉ bounds h).
    { unfold bounds. rewrite (shape_active _ _ _ _ Sh), fmap_app, elem_of_app.
      intros [?|Hin]; [done|]. cbn in Hin. rewrite (sh_max _ _ _ _ Sh) in Hin. set_solver by lia. }
    assert (Hfull : zlen (bounds h) = Z.of_nat (S (length act))).
    { unfold bounds, zlen. by rewrite length_fmap, Hact. }
    assert (Hlog : log2_bound ub) by by eapply scan_bound_cases.
    destruct (Z.eqb_spec (Z.of_nat (S (length act))) (n_bins h)) as [E|E].
    + destruct out; cbn.
      * destruct (histogram_grow_spec m a h act mx rest Ha W Sh)
          as [[-> Hc]|(a' & p & h1 & rest' & Ec & -> & Sh1 & Hgt & Hn1 & Hm1 & Ht1 & Hs1)]; cbn.
        -- right. exists m, a, j, h, b. split; [done|]. split; [done|].
           split; [eapply chosen_same; eauto; lia|]. split; [right; split_and!; [done|lia|done]|].
           by split; auto.
        -- destruct (chosen_insert h h1 act mx rest rest' ub j) as [[Es Hj2]|(bs & Es & Hch)]; try done.
           { intros ->. assert (length (bins h1) = S (length act)); [|unfold zlen in *; lia].
             rewrite (sh_bins _ _ _ _ Sh1), length_app. cbn. lia. }
           { left. unfold insert_bin. cbn. rewrite lookup_insert_eq. cbn. rewrite Es. split; [done|]. split; [done|lia]. }
           right. unfold insert_bin. cbn. rewrite lookup_insert_eq. cbn. rewrite Es. cbn.
           eexists _, a', j, (set_bins h1 bs), _. split; [done|]. cbn.
           rewrite lookup_insert_eq. split; [done|]. split; [exact Hch|]. split; [by left|].
           destruct (slab_calloc_fresh _ _ _ _ Ec) as [Hfr Hl].
           split.
           ++ intros c Hc Hs. assert (c <> a').
              { intros ->. apply Hfr, Hlive; [done|]. by apply not_eq_None_Some. }
              split; [done|]. by rewrite !lookup_insert_ne, lookup_delete_ne by done.
           ++ intros c. rewrite slab_free_live, Hl.
              rewrite !lookup_insert_is_Some, lookup_delete_is_Some.
              assert (a <> a'). { intros ->. apply Hfr, Hlive; [done|]. by rewrite Ha. }
              intros [->|[_ [->|[_ [? Hs%Hlive]]]]]; set_solver.
      * right. exists m, a, j, h, b. split; [done|]. split; [done|].
        split; [eapply chosen_same; eauto; lia|]. split; [right; split_and!; [done|lia|done]|].
        by rewrite Hsame.
    + destruct (chosen_insert h h act mx rest rest ub j) as [[Es Hj2]|(bs & Es & Hch)]; try done; try apply W.
      { intros ->. rewrite (sh_bins _ _ _ _ Sh) in Hn. unfold zlen in Hn.
        rewrite length_app in Hn. cbn in Hn. lia. }
      { left. unfold insert_bin. rewrite Ha. cbn. rewrite Es. split; [done|]. split; [done|lia]. }
      right. unfold insert_bin. rewrite Ha. cbn. rewrite Es. cbn.
      eexists _, a, j, (set_bins h bs), _. split; [done|]. cbn. rewrite lookup_insert_eq.
      split; [done|]. split; [exact Hch|]. split; [by left|]. destruct out.
      * split; [intros; by rewrite lookup_insert_ne|]. cbn.
        intros c. rewrite lookup_insert_is_Some. intros [<-|[_ ?]]; [|auto].
        apply Hlive; [done|]. by rewrite Ha.
      * done.
Qed.

(** *** Adding to a bin *)

Lemma active_alter k bs i :
  active (alter (bump k) i bs) =
    if bool_decide (i < length (active bs))%nat then alter (bump k) i (active bs) else active bs.
Proof.
  revert i. induction bs as [|b bs IH]; intros [|i]; cbn; try done.
  - by case_match.
  - destruct (_ =? _) eqn:E; cbn.
    + by rewrite bool_decide_false by lia.
    + change (list_alter (bump k) i bs) with (alter (bump k) i bs). rewrite IH.
      case_bool_decide; [by rewrite bool_decide_true by lia | by rewrite bool_decide_false by lia].
Qed.

Lemma fmap_bound_alter k (l : list ngx_wa_metrics_bin_t) (i : nat) : upper_bound <$> alter (bump k) i l = upper_bound <$> l.
Proof. revert i. induction l as [|b l IH]; intros [|i]; cbn; f_equal. apply IH. Qed.

Lemma bin_add_spec h i b k :
  wf h -> bins h !! i = Some b -> (i < length (active (bins h)))%nat ->
  exists h', bin_add h i k = Ret h' /\ wf h' /\ bounds h' = bounds h /\
    n_bins h' = n_bins h /\ h_type h' = h_type h /\ sum h' = sum h /\
    forall p, observed p h' = wrap32 (weight p (active (bins h)) + if p (upper_bound b) then k else 0).
Proof.
  intros W Hi Hlt. unfold bin_add. rewrite Hi. cbn [deref obind].
  eexists. split; [done|]. destruct W as [Hn Hmax (act & mx & rest & Sh)].
  assert (Hact : active (alter (bump k) i (bins h)) = alter (bump k) i (active (bins h))).
  { rewrite active_alter. by rewrite bool_decide_true. }
  assert (Hla : active (bins h) !! i = Some b).
  { rewrite (shape_active _ _ _ _ Sh) in *. rewrite length_app in Hlt. cbn in Hlt.
    rewrite (sh_bins _ _ _ _ Sh) in Hi.
    destruct (decide (i < length act)%nat).
    - rewrite lookup_app_l in * by done. done.
    - rewrite lookup_app_r in * by lia. replace (i - length act)%nat with 0%nat in * by lia. done. }
  split; [|split; [|split_and!; try done]].
  - split; cbn; [unfold zlen; by rewrite length_alter|done|].
    destruct Sh as [E Hm Hnd Hb].
    destruct (decide (i < length act)%nat) as [Hia|Hia].
    + exists (alter (bump k) i act), mx, rest.
      split; rewrite ?fmap_bound_alter; try done. by rewrite E, alter_app_l.
    + exists act, (bump k mx), rest. split; try done.
      rewrite (shape_active _ _ _ _ (Build_shape _ _ _ _ E Hm Hnd Hb)), length_app in Hlt.
      cbn in Hlt. rewrite E.
      replace i with (length act + 0)%nat by lia. by rewrite alter_app_r.
  - unfold bounds. cbn. rewrite Hact. apply fmap_bound_alter.
  - intros p. unfold observed. cbn. rewrite Hact. by apply weight_bump.
Qed.

Lemma wrap32_add_l a b : wrap32 (wrap32 a + b) = wrap32 (a + b).
Proof. unfold wrap32. apply Zplus_mod_idemp_l. Qed.

(** *** Recording *)

(** Recording a value in a logarithmic histogram adds it to the sum and adds
    one to the count of exactly one bin, whose bound is not smaller than the value's
    logarithmic bound; it is the bin of that very bound, created when needed, unless the
    histogram is full and cannot grow.  The histogram stays well formed and no
    other histogram changes.  The behaviour is undefined when a new bin is not next to the last
    one. *)
Lemma histogram_record_log2 (m : mem P) (a : addr) (h : ngx_wa_metrics_histogram_t) (n : Z) :
  hists m !! a = Some h -> wf h -> h_type h = NGX_WA_HISTOGRAM_LOG2 ->
  (forall c, is_Some (hists m !! c) -> c ∈ slab_live (pool m)) ->
  (ngx_wa_metrics_histogram_record m a n = Fault F_memory /\ overlaps h (bin_log2_upper_bound n)) \/
  exists m' a' h' v,
    ngx_wa_metrics_histogram_record m a n = Ret (NGX_OK, m', a') /\
    hists m' !! a' = Some h' /\ wf h' /\ h_type h' = NGX_WA_HISTOGRAM_LOG2 /\
    sum h' = wrap64 (sum h + n) /\
    v ∈ bounds h' /\ bin_log2_upper_bound n <= v /\
    (v = bin_log2_upper_bound n \/
       (bin_log2_upper_bound n ∉ bounds h) /\ zlen (bounds h) = n_bins h /\ cannot_grow m h) /\
    (forall p, observed p h' = wrap32 (observed p h + if p v then 1 else 0)) /\
    (forall c, c <> a -> hists m !! c <> None -> hists m' !! c = hists m !! c) /\
    (forall c, is_Some (hists m' !! c) -> c ∈ slab_live (pool m')).
Proof.
  intros Ha W Ht Hlive. unfold ngx_wa_metrics_histogram_record. rewrite Ha. cbn [deref obind].
  rewrite Ht. set (m0 := set_hist m a (add_sum h n)). set (h0 := add_sum h n).
  destruct (histogram_log2_bin_spec m0 a h0 n true) as
    [[-> ?]|(m' & a' & i & h' & b & -> & Ha' & Hch & Hex & Hfr & Hl')].
  { unfold m0. cbn. by rewrite lookup_insert_eq. }
  { destruct W. split; done. }
  { intros _ c. unfold m0. cbn. rewrite lookup_insert_is_Some.
    intros [<-|[_ ?]]; apply Hlive; [by rewrite Ha|done]. }
  { by left. }
  right. cbn [obind]. rewrite Ha'. cbn [deref obind].
  destruct (bin_add_spec h' i b 1) as (h2 & -> & W2 & Hb2 & _ & Ht2 & Hs2 & Ho2); try apply Hch.
  cbn [obind]. exists (set_hist m' a' h2), a', h2, (upper_bound b).
  split; [done|]. cbn. rewrite lookup_insert_eq. split; [done|]. split; [done|].
  split; [by rewrite Ht2, (bc_type _ _ _ _ _ Hch)|].
  split; [by rewrite Hs2, (bc_sum _ _ _ _ _ Hch)|].
  split; [|split; [apply Hch|split; [|split; [|split]]]].
  - rewrite Hb2. destruct (wf_shape _ (bc_wf _ _ _ _ _ Hch)) as (act & mx & rest & Sh).
    pose proof (bc_active _ _ _ _ _ Hch) as Hlt. pose proof (bc_in _ _ _ _ _ Hch) as Hi.
    unfold bounds. apply list_elem_of_fmap. exists b. split; [done|].
    rewrite (shape_active _ _ _ _ Sh) in *. rewrite (sh_bins _ _ _ _ Sh) in Hi.
    rewrite length_app in Hlt. cbn in Hlt.
    replace (act ++ mx :: rest) with ((act ++ [mx]) ++ rest) in Hi by by rewrite <- app_assoc.
    rewrite lookup_app_l in Hi by (rewrite length_app; cbn; lia).
    by eapply list_elem_of_lookup_2.
  - destruct Hex as [Hex|(? & ? & Hg)]; [by left|right]. split_and!; try done. by apply Hg.
  - intros p. rewrite Ho2, (bc_weight _ _ _ _ _ Hch). unfold observed.
    by rewrite wrap32_add_l.
  - intros c Hc Hs. destruct (Hfr c Hc) as [Hne Hc']; unfold m0; cbn in *;
      rewrite ?lookup_insert_ne in * by done; done.
  - intros c. rewrite lookup_insert_is_Some. intros [<-|[_ ?]]; apply Hl'; [by rewrite Ha'|done].
Qed.

(** *** Custom bins *)

Lemma custom_scan_spec n post b fuel : forall pre bs i o,
  drop i bs = pre ++ b :: post -> (length pre < fuel)%nat ->
  (post = [] -> fuel = S (length pre)) ->
  Forall (fun c => upper_bound c < n) pre -> (n <= upper_bound b \/ post = []) ->
  custom_scan fuel bs n i o = Ret (Some (i + length pre)%nat).
Proof.
  induction fuel as [|fuel IH]; intros pre bs i o Hd Hf Hlast Hpre Hb; [lia|].
  assert (Hi : bs !! i = head (pre ++ b :: post))
    by (by rewrite <- Hd, head_lookup, lookup_drop, Nat.add_0_r).
  destruct pre as [|c pre]; cbn in Hi; cbn [custom_scan]; rewrite Hi; cbn [deref obind length].
  - rewrite Nat.add_0_r. destruct (Z.leb_spec n (upper_bound b)) as [|Hlt]; [done|].
    destruct Hb as [| ->]; [lia|]. specialize (Hlast eq_refl). cbn in Hlast.
    assert (fuel = 0%nat) as -> by lia. done.
  - apply Forall_cons_1 in Hpre as [Hc Hpre]. rewrite (proj2 (Z.leb_gt _ _)) by done.
    rewrite (IH pre); [f_equal; f_equal; lia| |cbn in Hf; lia| |done|done].
    + replace (S i) with (i + 1)%nat by lia. by rewrite <- drop_drop, Hd.
    + intros Hp. specialize (Hlast Hp). cbn in Hlast. lia.
Qed.

(** Recording a value in a histogram of custom bins adds it to the sum and adds
    one to the first bin whose bound is not smaller, or to the last bin when there
    is none; bounds and other counts are unchanged and nothing is allocated. *)
Lemma histogram_record_custom (m : mem P) (a : addr) (h : ngx_wa_metrics_histogram_t) (n : Z)
    (pre post : list ngx_wa_metrics_bin_t) (b : ngx_wa_metrics_bin_t) :
  hists m !! a = Some h -> h_type h = NGX_WA_HISTOGRAM_CUSTOM ->
  n_bins h = zlen (bins h) -> bins h = pre ++ b :: post ->
  Forall (fun c => upper_bound c < n) pre -> (n <= upper_bound b \/ post = []) ->
  ngx_wa_metrics_histogram_record m a n =
    Ret (NGX_OK,
         set_hist m a {| h_type := NGX_WA_HISTOGRAM_CUSTOM; n_bins := n_bins h;
                         sum := wrap64 (sum h + n);
                         bins := pre ++ {| upper_bound := upper_bound b;
                                           count := wrap32 (count b + 1) |} :: post |}, a).
Proof.
  intros Ha Ht Hn Hb Hpre Hcase. unfold ngx_wa_metrics_histogram_record.
  rewrite Ha. cbn [deref obind]. rewrite Ht. unfold histogram_custom_bin. cbn [n_bins bins add_sum].
  assert (Hlen : Z.to_nat (n_bins h) = (length pre + S (length post))%nat).
  { rewrite Hn, Hb. unfold zlen. rewrite length_app. cbn. lia. }
  rewrite (custom_scan_spec n post b _ pre); [|by rewrite drop_0|lia| |done|done].
  2:{ intros ->. cbn in Hlen. lia. }
  cbn [obind deref set_hist hists]. rewrite lookup_insert_eq. cbn [deref obind].
  unfold bin_add. cbn [bins add_sum].
  assert (Hi : bins h !! (0 + length pre)%nat = Some b).
  { rewrite Hb, lookup_app_r by lia. by rewrite Nat.add_0_l, Nat.sub_diag. }
  rewrite Hi. cbn [deref obind]. unfold set_hist. cbn [hists pool].
  rewrite insert_insert_eq. unfold set_bins. cbn [h_type n_bins sum bins add_sum]. rewrite Ht, Hb.
  do 4 f_equal. f_equal.
  replace (0 + length pre)%nat with (length pre + 0)%nat by lia. by rewrite alter_app_r.
Qed.

(** *** Reading *)

(** The count of the bins whose reported bound satisfies [p]: a reader looks a
    bound up by its own logarithmic bound. *)
Definition weight_via (p : Z -> bool) (bs : list ngx_wa_metrics_bin_t) : Z :=
  weight (fun ub => p (bin_log2_upper_bound ub)) bs.

Lemma bin_log2_upper_bound_idem ub :
  log2_bound ub -> ub <> 2 ^ 31 -> bin_log2_upper_bound ub = ub.
Proof.
  intros (k & Hk & ->) Hne. destruct (Z.eq_dec k 0) as [->|Hk0]; [done|].
  assert (Hk31 : k <= 30).
  { destruct (Z.eq_dec k 31) as [->|]; [done|lia]. }
  assert (Hle : 2 ^ k <= 2 ^ 30) by (apply Z.pow_le_mono_r; lia).
  assert (Hge : 2 ^ 1 <= 2 ^ k) by (apply Z.pow_le_mono_r; lia).
  destruct (bin_log2_upper_bound_pow (2 ^ k)) as [-> _].
  { change (NGX_MAX_UINT32_VALUE / 2) with (2 ^ 31 - 1). lia. }
  f_equal. assert (Z.log2 (2 ^ k - 1) = k - 1); [|lia].
  rewrite Z.sub_1_r. apply Z.log2_pred_pow2. lia.
Qed.

Lemma bounds_nodup h : wf h -> NoDup (bounds h).
Proof.
  intros W. destruct (wf_shape _ W) as (act & mx & rest & Sh). unfold bounds.
  rewrite (shape_active _ _ _ _ Sh), fmap_app. apply NoDup_app. split; [apply Sh|]. split.
  - intros u Hu Hm. cbn in Hm. rewrite (sh_max _ _ _ _ Sh) in Hm.
    apply list_elem_of_singleton in Hm as ->.
    apply (proj1 (Forall_elem _ _) (sh_bounds _ _ _ _ Sh)) in Hu.
    apply log2_bound_range in Hu. unfold NGX_MAX_UINT32_VALUE in Hu. lia.
  - cbn. apply NoDup_singleton.
Qed.

(** A full histogram has every bound of a set that it exhausts. *)
Lemma full_covers h U ub :
  wf h -> zlen (bounds h) = n_bins h -> (forall u, u ∈ bounds h -> u ∈ U) ->
  zlen U <= n_bins h -> ub ∈ U -> ub ∈ bounds h.
Proof.
  intros W Hf Hsub Hlen Hub. pose proof (bounds_nodup h W) as Hnd.
  assert (Hs : bounds h ⊆+ U) by by apply NoDup_submseteq.
  apply submseteq_length_Permutation in Hs as ->; [done|]. unfold zlen in *. lia.
Qed.

(** The state of a reader's buffer [o] after the bins [bs] were added to [o0]. *)
Record merged (o0 o : ngx_wa_metrics_histogram_t) (bs : list ngx_wa_metrics_bin_t)
    (U : list Z) : Prop := {
  mg_wf : wf o;
  mg_n_bins : n_bins o = n_bins o0;
  mg_total : observed (fun _ => true) o =
    wrap32 (observed (fun _ => true) o0 + weight (fun _ => true) bs);
  mg_exact :
    (forall u, u ∈ bounds o0 -> u ∈ U) ->
    (forall b, b ∈ bs -> bin_log2_upper_bound (upper_bound b) ∈ U) -> zlen U <= n_bins o0 ->
    (forall u, u ∈ bounds o -> u ∈ U) /\
    forall p, observed p o = wrap32 (observed p o0 + weight_via p bs);
}.

Lemma merged_refl o U : wf o -> merged o o [] U.
Proof.
  intros W. split; try done.
  - cbn. rewrite Z.add_0_r. symmetry. apply wrap32_id, wrap32_range.
  - intros HU _ _. split; [done|]. intros p. cbn. rewrite Z.add_0_r. symmetry. apply wrap32_id, wrap32_range.
Qed.

Lemma merged_step o0 o1 o2 b bs U : merged o0 o1 [b] U -> merged o1 o2 bs U -> merged o0 o2 (b :: bs) U.
Proof.
  intros M1 M2. destruct M2 as [W2 Hn2 Ht2 He2], M1 as [W1 Hn1 Ht1 He1].
  split; [done|congruence| |].
  - rewrite Ht2, Ht1, wrap32_add_l. f_equal. unfold weight. cbn. lia.
  - intros HU Hb Hlen. destruct He1 as [Hsub1 He1]; [done|set_solver|done|].
    destruct He2 as [Hsub2 He2]; [done|set_solver|lia|]. split; [done|].
    intros p. rewrite He2, He1, wrap32_add_l. f_equal. unfold weight_via, weight. cbn. lia.
Qed.

Lemma lookup_set_hist (m : mem P) a h : hists (set_hist m a h) !! a = Some h.
Proof. apply lookup_insert_eq. Qed.

Lemma lookup_set_hist_ne (m : mem P) a b h : a <> b -> hists (set_hist m a h) !! b = hists m !! b.
Proof. apply lookup_insert_ne. Qed.

Lemma set_hist_twice (m : mem P) a h h' : set_hist (set_hist m a h) a h' = set_hist m a h'.
Proof. unfold set_hist. cbn. by rewrite insert_insert_eq. Qed.

Lemma merge_bin_spec (m : mem P) out o b U :
  hists m !! out = Some o -> wf o ->
  histogram_log2_bin m out (upper_bound b) false = Fault F_memory \/
  exists o' i, histogram_log2_bin m out (upper_bound b) false = Ret (set_hist m out o', out, i) /\
    exists o'', bin_add o' i (count b) = Ret o'' /\ merged o o'' [b] U /\ sum o'' = sum o.
Proof.
  intros Ho W.
  destruct (histogram_log2_bin_spec m out o (upper_bound b) false Ho W ltac:(done))
    as [[? _]|(m' & a' & i & o' & c & E & Ho' & Hch & Hex & -> & Hn' & ->)]; [by left|right].
  exists o', i. split; [done|].
  destruct (bin_add_spec o' i c (count b)) as (o'' & E2 & W2 & Hb2 & Hn2 & Ht2 & Hs2 & Ho2);
    try apply Hch.
  exists o''. split; [done|]. split; [|by rewrite Hs2, (bc_sum _ _ _ _ _ Hch)].
  split; [done|congruence| |].
  - rewrite Ho2, (bc_weight _ _ _ _ _ Hch). unfold observed. rewrite wrap32_add_l.
    f_equal. unfold weight. cbn. lia.
  - intros HU Hb Hlen. specialize (Hb b ltac:(set_solver)).
    assert (Hc : upper_bound c = bin_log2_upper_bound (upper_bound b)).
    { destruct Hex as [|(Hno & Hfull & _)]; [done|].
      destruct Hno. by eapply full_covers. }
    split.
    + intros u. rewrite Hb2. intros [->|Hu]%(bc_bounds _ _ _ _ _ Hch); auto.
    + intros p. rewrite Ho2, (bc_weight _ _ _ _ _ Hch), Hc. unfold observed.
      rewrite wrap32_add_l. f_equal. unfold weight_via, weight. cbn. lia.
Qed.

Lemma merge_bins_spec t mx rest U out act : forall fuel m o bs j,
  t = NGX_WA_HISTOGRAM_LOG2 -> drop j bs = act ++ mx :: rest -> (length act < fuel)%nat ->
  upper_bound mx = NGX_MAX_UINT32_VALUE -> Forall log2_bound (upper_bound <$> act) ->
  hists m !! out = Some o -> wf o ->
  merge_bins fuel m t bs j out = Fault F_memory \/
  exists o', merge_bins fuel m t bs j out = Ret (set_hist m out o') /\
    merged o o' (act ++ [mx]) U /\ sum o' = sum o.
Proof.
  induction act as [|b act IH]; intros fuel m o bs j -> Hd Hf Hm Hb Ho W; (destruct fuel as [|fuel]); cbn in Hf; try lia;
    (assert (Hj : bs !! j = head (drop j bs)) by (by rewrite head_lookup, lookup_drop, Nat.add_0_r));
    rewrite Hd in Hj; cbn in Hj; cbn [merge_bins]; rewrite Hj; cbn [deref obind].
  - destruct (merge_bin_spec m out o mx U Ho W) as [->|(o' & i & -> & o'' & Ea & Hmg & Hs)]; [by left|].
    cbn [obind]. rewrite lookup_set_hist. cbn [deref obind]. rewrite Ea. cbn [obind].
    rewrite Hm, Z.eqb_refl. right. exists o''. by rewrite set_hist_twice.
  - destruct (merge_bin_spec m out o b U Ho W) as [->|(o' & i & -> & o'' & Ea & Hmg & Hs)]; [by left|].
    cbn [obind]. rewrite lookup_set_hist. cbn [deref obind]. rewrite Ea. cbn [obind].
    rewrite set_hist_twice. rewrite fmap_cons in Hb. apply Forall_cons_1 in Hb as [Hb Hbs].
    apply bound_not_max in Hb. rewrite (proj2 (Z.eqb_neq _ _)) by lia.
    destruct (IH fuel (set_hist m out o'') o'' bs (S j))
      as [->|(o3 & E & Hmg' & Hs')]; try done; [|lia|by rewrite lookup_set_hist|apply Hmg|by left|].
    + replace (S j) with (j + 1)%nat by lia. by rewrite <- drop_drop, Hd.
    + right. exists o3. rewrite set_hist_twice in E. split; [exact E|]. split; [by eapply merged_step|congruence].
Qed.

(** The bins and sums of a list of slots. *)
Definition slots_bins (m : mem P) (slots : list addr) : list ngx_wa_metrics_bin_t :=
  a ← slots; match hists m !! a with Some h => active (bins h) | None => [] end.
Definition slots_sum (m : mem P) (slots : list addr) : Z :=
  foldr (fun a acc => match hists m !! a with Some h => sum h | None => 0 end + acc) 0 slots.

Lemma merged_app o0 o1 o2 bs1 bs2 U :
  merged o0 o1 bs1 U -> merged o1 o2 bs2 U -> merged o0 o2 (bs1 ++ bs2) U.
Proof.
  intros M1 M2. destruct M2 as [W2 Hn2 Ht2 He2], M1 as [W1 Hn1 Ht1 He1].
  split; [done|congruence| |].
  - by rewrite Ht2, Ht1, wrap32_add_l, weight_app, Z.add_assoc.
  - intros HU Hb Hlen. destruct He1 as [Hsub1 He1]; [done|set_solver|done|].
    destruct He2 as [Hsub2 He2]; [done|set_solver|lia|]. split; [done|].
    intros p. unfold weight_via. by rewrite He2, He1, wrap32_add_l, weight_app, Z.add_assoc.
Qed.

Lemma merged_add_sum o0 o bs U n : merged o0 o bs U -> merged o0 (add_sum o n) bs U.
Proof. intros [[? ? ?] ? ? ?]. by split. Qed.

Lemma slots_bins_cons (m : mem P) a slots :
  slots_bins m (a :: slots) =
    match hists m !! a with Some h => active (bins h) | None => [] end ++ slots_bins m slots.
Proof. done. Qed.

Lemma slots_sum_cons (m : mem P) a slots :
  slots_sum m (a :: slots) =
    match hists m !! a with Some h => sum h | None => 0 end + slots_sum m slots.
Proof. done. Qed.

Lemma slots_bins_set (m : mem P) out o slots : out ∉ slots ->
  slots_bins (set_hist m out o) slots = slots_bins m slots /\
  slots_sum (set_hist m out o) slots = slots_sum m slots.
Proof.
  induction slots as [|a slots IH]; [done|].
  intros [Hne Hni]%not_elem_of_cons. destruct (IH Hni) as [IH1 IH2].
  by rewrite !slots_bins_cons, !slots_sum_cons, IH1, IH2, lookup_set_hist_ne.
Qed.

Lemma histogram_get_spec U out slots : forall (m : mem P) o,
  hists m !! out = Some o -> wf o -> is_u64 (sum o) -> out ∉ slots ->
  (forall a, a ∈ slots -> exists h, hists m !! a = Some h /\ wf h /\ h_type h = NGX_WA_HISTOGRAM_LOG2) ->
  ngx_wa_metrics_histogram_get m slots out = Fault F_memory \/
  exists o', ngx_wa_metrics_histogram_get m slots out = Ret (set_hist m out o') /\
    merged o o' (slots_bins m slots) U /\ sum o' = wrap64 (sum o + slots_sum m slots).
Proof.
  induction slots as [|a slots IH]; intros m o Ho W Hu Hni Hall.
  - right. exists o. cbn. unfold set_hist. rewrite insert_id by done.
    rewrite Z.add_0_r, wrap64_id by done.
    split; [by destruct m|]. split; [by apply merged_refl|done].
  - apply not_elem_of_cons in Hni as [Hne Hni].
    destruct (Hall a) as (h & Ha & Wh & Ht); [by left|].
    destruct (wf_shape _ Wh) as (act & mx & rest & Sh).
    destruct (wf_active_length _ _ _ _ Wh Sh) as [Hact Hle].
    cbn [ngx_wa_metrics_histogram_get]. rewrite Ha. cbn [deref obind]. rewrite Ht.
    destruct (merge_bins_spec NGX_WA_HISTOGRAM_LOG2 mx rest U out act (Z.to_nat (n_bins h)) m o (bins h) 0)
      as [->|(o1 & -> & Hmg & Hs1)]; try done; try apply Sh.
    { rewrite (wf_n_bins _ Wh). unfold zlen. lia. }
    { by left. }
    cbn [obind]. rewrite lookup_set_hist. cbn [deref obind]. rewrite set_hist_twice.
    apply (merged_add_sum _ _ _ _ (sum h)) in Hmg.
    destruct (IH (set_hist m out (add_sum o1 (sum h))) (add_sum o1 (sum h)))
      as [->|(o' & -> & Hmg' & Hs')]; [by rewrite lookup_set_hist|apply Hmg|apply wrap64_range|done| |by left|].
    { intros b Hb. rewrite lookup_set_hist_ne by (by intros ->). apply Hall. by right. }
    right. rewrite set_hist_twice. exists o'. split; [done|].
    destruct (slots_bins_set m out (add_sum o1 (sum h)) slots Hni) as [Eb Es].
    rewrite Eb in Hmg'. rewrite Es in Hs'. split.
    + replace (slots_bins m (a :: slots)) with ((act ++ [mx]) ++ slots_bins m slots).
      { by eapply merged_app. }
      rewrite slots_bins_cons. by rewrite Ha, (shape_active _ _ _ _ Sh).
    + rewrite Hs', slots_sum_cons, Ha. cbn [sum add_sum]. rewrite Hs1. unfold wrap64. rewrite Zplus_mod_idemp_l. f_equal. lia.
Qed.

(** Reading a metric merges the logarithmic histograms of its workers into the
    caller's buffer: the total count and the sum are the totals of the workers,
    and if the buffer has room for the bounds reported, the count of every bound
    is the total over the workers of the bins reported under it.  A bin is reported
    under its own bound, except the one of bound 2^31, which is counted with the
    values above.  The behaviour is undefined when a new bin is not next to the last one. *)
Lemma histogram_get_log2 (m : mem P) (slots : list addr) (out : addr)
    (o : ngx_wa_metrics_histogram_t) :
  hists m !! out = Some o -> wf o -> is_u64 (sum o) -> out ∉ slots ->
  (forall a, a ∈ slots -> exists h, hists m !! a = Some h /\ wf h /\ h_type h = NGX_WA_HISTOGRAM_LOG2) ->
  ngx_wa_metrics_histogram_get m slots out = Fault F_memory \/
  exists o', ngx_wa_metrics_histogram_get m slots out = Ret (set_hist m out o') /\ wf o' /\
    sum o' = wrap64 (sum o + slots_sum m slots) /\
    observed (fun _ => true) o' =
      wrap32 (observed (fun _ => true) o + weight (fun _ => true) (slots_bins m slots)) /\
    (forall U, zlen U <= n_bins o -> (forall u, u ∈ bounds o -> u ∈ U) ->
       (forall b, b ∈ slots_bins m slots -> bin_log2_upper_bound (upper_bound b) ∈ U) ->
       forall p, observed p o' = wrap32 (observed p o +
         weight (fun ub => p (if ub =? 2 ^ 31 then NGX_MAX_UINT32_VALUE else ub)) (slots_bins m slots))).
Proof.
  intros Ho W Hu Hni Hall.
  destruct (histogram_get_spec [] out slots m o Ho W Hu Hni Hall) as [?|(o' & E & Hmg & Hs)]; [by left|right].
  exists o'. split; [done|]. split; [apply Hmg|]. split; [done|]. split; [apply Hmg|].
  intros U Hlen HU Hb p.
  destruct (histogram_get_spec U out slots m o Ho W Hu Hni Hall) as [E2|(o2 & E2 & Hmg2 & _)];
    [by rewrite E in E2|].
  assert (o2 = o') as ->.
  { rewrite E in E2. injection E2 as E2. apply (f_equal (lookup out)) in E2.
    rewrite !lookup_insert_eq in E2. by injection E2. }
  destruct (mg_exact _ _ _ _ Hmg2 HU Hb Hlen) as [_ ->]. do 2 f_equal. unfold weight_via.
  assert (Hbs : forall b, b ∈ slots_bins m slots ->
            log2_bound (upper_bound b) \/ upper_bound b = NGX_MAX_UINT32_VALUE).
  { intros b Hin. unfold slots_bins in Hin. apply list_elem_of_bind in Hin as (a & Hin & Ha).
    destruct (Hall a Ha) as (h & Eh & Wh & _). rewrite Eh in Hin.
    destruct (wf_shape _ Wh) as (act & mx & rest & Sh). rewrite (shape_active _ _ _ _ Sh) in Hin.
    apply elem_of_app in Hin as [Hin| ->%list_elem_of_singleton]; [left|right; apply Sh].
    apply (proj1 (Forall_elem _ _) (sh_bounds _ _ _ _ Sh)). by apply list_elem_of_fmap_2. }
  clear -Hbs. induction (slots_bins m slots) as [|b l IH]; [done|]. unfold weight in *. cbn.
  rewrite IH by set_solver. f_equal.
  assert (bin_log2_upper_bound (upper_bound b) =
    if upper_bound b =? 2 ^ 31 then NGX_MAX_UINT32_VALUE else upper_bound b) as ->; [|done].
  destruct (Z.eqb_spec (upper_bound b) (2 ^ 31)) as [->|Hne]; [done|].
  destruct (Hbs b) as [Hl| ->]; [by left|by apply bin_log2_upper_bound_idem|done].
Qed.

(** *** Creation *)

(** A new histogram of the kind. *)
Definition new_histogram (t : ngx_wa_histogram_type_e) (n : Z) bs : ngx_wa_metrics_histogram_t :=
  {| h_type := t; n_bins := n; sum := 0; bins := bs |}.

Lemma alloc_slots_spec t n user bs (Hbs : new_bins n user = Ret bs) workers :
  forall (m : mem P) acc, exists rc m' new,
    alloc_slots workers m t n user acc = Ret (rc, m', acc ++ new) /\
    (rc = NGX_OK /\ length new = workers \/ rc = NGX_ERROR) /\
    NoDup new /\ (forall a, a ∈ new -> a ∉ slab_live (pool m)) /\
    (forall a, a ∈ new -> hists m' !! a = Some (new_histogram t n bs)) /\
    (forall a, a ∉ new -> hists m' !! a = hists m !! a) /\
    slab_live (pool m') = list_to_set new ∪ slab_live (pool m).
Proof.
  induction workers as [|workers IH]; intros m acc; cbn [alloc_slots].
  { exists NGX_OK, m, []. rewrite app_nil_r. split_and!; try done; [by left|constructor|set_solver..]. }
  destruct (slab_calloc (pool m) (histogram_size n)) as [[a p]|] eqn:Ec.
  2:{ exists NGX_ERROR, m, []. rewrite app_nil_r. split_and!; try done; [by right|constructor|set_solver..]. }
  destruct (slab_calloc_fresh _ _ _ _ Ec) as [Hfr Hl]. rewrite Hbs. cbn [obind].
  destruct (IH {| hists := <[a := new_histogram t n bs]> (hists m); pool := p |} (acc ++ [a]))
    as (rc & m' & new & E & Hrc & Hnd & Hnew & Hin & Hout & Hlive). cbn in *.
  exists rc, m', (a :: new). change (acc ++ a :: new) with (acc ++ ([a] ++ new)).
  rewrite app_assoc. split; [exact E|].
  assert (Ha : a ∉ new) by (intros Hx; apply (Hnew a Hx); rewrite Hl; set_solver).
  split; [|split; [|split; [|split; [|split]]]].
  - destruct Hrc as [[-> <-]|Hrc]; [left|right]; done.
  - by constructor.
  - intros b [->|Hb]%elem_of_cons; [done|]. specialize (Hnew b Hb). set_solver.
  - intros b [->|Hb]%elem_of_cons; [|by apply Hin]. rewrite Hout by done. apply lookup_insert_eq.
  - intros b [Hba Hb]%not_elem_of_cons. rewrite Hout by done. by rewrite lookup_insert_ne.
  - rewrite Hlive, Hl. set_solver.
Qed.

Lemma free_slots_spec slots : forall m : mem P,
  (forall a, hists (free_slots m slots) !! a = if bool_decide (a ∈ slots) then None else hists m !! a) /\
  slab_live (pool (free_slots m slots)) = slab_live (pool m) ∖ list_to_set slots.
Proof.
  induction slots as [|b slots IH] using rev_ind; intros m; unfold free_slots; cbn; [set_solver|].
  rewrite reverse_app. cbn.
  destruct (IH {| hists := delete b (hists m); pool := slab_free (pool m) b |}) as [IH1 IH2].
  unfold free_slots in IH1, IH2. cbn in IH1, IH2. split.
  - intros a. rewrite IH1. destruct (decide (a = b)) as [->|Hne].
    + rewrite lookup_delete_eq. rewrite (bool_decide_true (b ∈ slots ++ [b])) by set_solver. by case_match.
    + rewrite lookup_delete_ne by done.
      destruct (decide (a ∈ slots)); [rewrite !bool_decide_true by set_solver; done|].
      rewrite !bool_decide_false by set_solver. done.
  - rewrite IH2, slab_free_live, list_to_set_app_L. set_solver.
Qed.

(** The bounds of a new histogram: those given, then 2^32-1 and unused bins. *)
Definition initial_bins (user : option (list Z)) : list ngx_wa_metrics_bin_t :=
  (fun ub => {| upper_bound := ub; count := 0 |}) <$>
    match user with
    | Some bounds => bounds ++ [NGX_MAX_UINT32_VALUE]
    | None => NGX_MAX_UINT32_VALUE :: replicate 4 0
    end.

Lemma new_bins_initial user :
  let n := match user with Some bounds => zlen bounds + 1 | None => NGX_WA_METRICS_HISTOGRAM_BINS_INIT end in
  new_bins n user = Ret (initial_bins user).
Proof.
  destruct user as [bs|]; [|done]. intros n. unfold new_bins, n. rewrite (proj2 (Z.ltb_ge _ _)) by lia.
  unfold initial_bins. rewrite fmap_app, take_ge by (unfold zlen; lia). done.
Qed.

Lemma histogram_add_spec (m : mem P) workers user :
  (forall c, is_Some (hists m !! c) -> c ∈ slab_live (pool m)) ->
  let cn := match user with Some bounds => zlen bounds | None => 0 end in
  (is_Some user /\ NGX_WA_METRICS_HISTOGRAM_BINS_MAX <= cn /\
     ngx_wa_metrics_histogram_add_locked m workers user cn = Ret (NGX_ABORT, m, [])) \/
  ((user <> None -> cn < NGX_WA_METRICS_HISTOGRAM_BINS_MAX) /\ exists m' slots,
     (ngx_wa_metrics_histogram_add_locked m workers user cn = Ret (NGX_OK, m', slots) /\
      length slots = workers /\ NoDup slots /\
      (forall a, a ∈ slots -> (a ∉ slab_live (pool m)) /\
         hists m' !! a = Some (new_histogram
           (match user with Some _ => NGX_WA_HISTOGRAM_CUSTOM | None => NGX_WA_HISTOGRAM_LOG2 end)
           (zlen (initial_bins user)) (initial_bins user))) /\
      (forall a, a ∉ slots -> hists m' !! a = hists m !! a) /\
      slab_live (pool m') = list_to_set slots ∪ slab_live (pool m)) \/
     (ngx_wa_metrics_histogram_add_locked m workers user cn = Ret (NGX_ERROR, m', slots) /\
      hists m' = hists m /\ slab_live (pool m') = slab_live (pool m))).
Proof.
  intros Hlive cn. pose proof (new_bins_initial user) as Hb. cbn zeta in Hb.
  set (t := match user with Some _ => NGX_WA_HISTOGRAM_CUSTOM | None => NGX_WA_HISTOGRAM_LOG2 end).
  set (n := match user with Some bounds => zlen bounds + 1 | None => NGX_WA_METRICS_HISTOGRAM_BINS_INIT end) in Hb.
  assert (Hn : zlen (initial_bins user) = n).
  { unfold initial_bins, n, zlen. rewrite length_fmap. destruct user; [|done].
    rewrite length_app. cbn. lia. }
  destruct (alloc_slots_spec t n user _ Hb workers m [])
    as (rc & m' & new & E & Hrc & Hnd & Hnew & Hin & Hout & Hl). cbn [app] in E.
  assert (Heq : (user <> None -> cn < NGX_WA_METRICS_HISTOGRAM_BINS_MAX) ->
    ngx_wa_metrics_histogram_add_locked m workers user cn =
      if is_ok rc then Ret (NGX_OK, m', new) else Ret (NGX_ERROR, free_slots m' new, new)).
  { intros Hlt. unfold ngx_wa_metrics_histogram_add_locked. destruct user as [bs|]; cbn in *.
    - rewrite (proj2 (Z.leb_gt _ _)) by by apply Hlt. unfold t, n in E. unfold cn. by rewrite E.
    - unfold t, n in E. by rewrite E. }
  destruct (decide (user <> None /\ NGX_WA_METRICS_HISTOGRAM_BINS_MAX <= cn)) as [[Hu Hge]|Hlt].
  - left. split; [by apply not_eq_None_Some|]. split; [done|].
    destruct user as [bs|]; [|done]. cbn. by rewrite (proj2 (Z.leb_le _ _)).
  - right. assert (Hlt' : user <> None -> cn < NGX_WA_METRICS_HISTOGRAM_BINS_MAX)
      by (intros; destruct (Z.lt_ge_cases cn NGX_WA_METRICS_HISTOGRAM_BINS_MAX); [done|tauto]).
    split; [done|]. rewrite (Heq Hlt'). destruct Hrc as [[-> Hlen]| ->].
    + exists m', new. left. rewrite Hn. split_and!; try done. intros a Ha. split; auto.
    + exists (free_slots m' new), new. right. split; [done|].
      destruct (free_slots_spec new m') as [Hf1 Hf2]. split.
      * apply map_eq. intros a. rewrite Hf1. case_bool_decide as Ha; [|by apply Hout].
        symmetry. apply eq_None_not_Some. intros Hs. by apply (Hnew a Ha), Hlive.
      * rewrite Hf2, Hl. apply leibniz_equiv. intros a. specialize (Hnew a).
        rewrite elem_of_difference, elem_of_union, elem_of_list_to_set. split; [tauto|].
        intros Ha. split; [by right|]. intros Hx. by apply Hnew in Hx.
Qed.

(** The histograms of a metric, one per worker, are created all or none:
    [NGX_ABORT] when more than 17 bounds are given, [NGX_ERROR] with the memory
    unchanged when one allocation fails, else distinct fresh histograms of the
    bounds given, all counts zero. *)
Lemma histogram_add_all_or_none (m : mem P) (workers : nat) (user : option (list Z)) :
  (forall c, is_Some (hists m !! c) -> c ∈ slab_live (pool m)) ->
  let cn := match user with Some bounds => zlen bounds | None => 0 end in
  (is_Some user /\ NGX_WA_METRICS_HISTOGRAM_BINS_MAX <= cn /\
     ngx_wa_metrics_histogram_add_locked m workers user cn = Ret (NGX_ABORT, m, [])) \/
  ((user <> None -> cn < NGX_WA_METRICS_HISTOGRAM_BINS_MAX) /\ exists m' slots,
     (ngx_wa_metrics_histogram_add_locked m workers user cn = Ret (NGX_OK, m', slots) /\
      length slots = workers /\ NoDup slots /\
      (forall a, a ∈ slots -> (a ∉ slab_live (pool m)) /\
         hists m' !! a = Some (new_histogram
           (match user with Some _ => NGX_WA_HISTOGRAM_CUSTOM | None => NGX_WA_HISTOGRAM_LOG2 end)
           (zlen (initial_bins user)) (initial_bins user))) /\
      (forall a, a ∉ slots -> hists m' !! a = hists m !! a) /\
      slab_live (pool m') = list_to_set slots ∪ slab_live (pool m)) \/
     (ngx_wa_metrics_histogram_add_locked m workers user cn = Ret (NGX_ERROR, m', slots) /\
      hists m' = hists m /\ slab_live (pool m') = slab_live (pool m))).
Proof. apply histogram_add_spec. Qed.

End Facts.

(** ** Concrete histograms *)

Import Reference.

Definition quota_mem (n : Z) : mem quota :=
  {| hists := ∅; pool := {| q_left := n; q_live := ∅ |} |}.

(** A histogram at address 1, alone in a zone of [left] more bytes. *)
Definition one_histogram (left : Z) (h : ngx_wa_metrics_histogram_t) : mem quota :=
  {| hists := {[ 1%positive := h ]};
     pool := {| q_left := left; q_live := {[ 1%positive := 56 ]} |} |}.

Lemma one_histogram_live left h c :
  is_Some (hists (one_histogram left h) !! c) -> c ∈ slab_live (pool (one_histogram left h)).
Proof.
  cbn. rewrite lookup_singleton_is_Some. intros <-. set_solver.
Qed.

Definition log2_of (bs : list (Z * Z)) (n : Z) : ngx_wa_metrics_histogram_t :=
  {| h_type := NGX_WA_HISTOGRAM_LOG2; n_bins := n; sum := 0;
     bins := ((fun b => {| upper_bound := b.1; count := b.2 |}) <$> bs)
             ++ replicate (Z.to_nat n - length bs) zero_bin |}.

(** A histogram of the bins 8, 4 and the last one, in this order. *)
Definition three_bins : ngx_wa_metrics_histogram_t :=
  log2_of [(8, 1); (4, 2); (NGX_MAX_UINT32_VALUE, 0)] 5.

Lemma three_bins_wf : wf three_bins.
Proof.
  split; [reflexivity|done|].
  exists [ {| upper_bound := 8; count := 1 |}; {| upper_bound := 4; count := 2 |} ],
    {| upper_bound := NGX_MAX_UINT32_VALUE; count := 0 |}, [zero_bin; zero_bin].
  split; [reflexivity|reflexivity| |].
  - apply (bool_decide_unpack _). vm_compute. exact I.
  - repeat constructor; [by exists 3|by exists 2].
Qed.

Lemma histogram_record_log2_example :
  exists m' a' h',
    ngx_wa_metrics_histogram_record (one_histogram 0 three_bins) 1%positive 6 = Ret (NGX_OK, m', a') /\
    hists m' !! a' = Some h' /\ observed (fun ub => ub =? 8) h' = 2 /\ sum h' = 6.
Proof.
  destruct (histogram_record_log2 (one_histogram 0 three_bins) 1%positive three_bins 6
    ltac:(reflexivity) three_bins_wf eq_refl (one_histogram_live _ _))
    as [[E _]|(m' & a' & h' & v & E & Hh & _ & _ & Hs & _ & _ & Hv & Ho & _)];
    [vm_compute in E; discriminate E|].
  exists m', a', h'. split; [exact E|]. split; [exact Hh|]. split; [|exact Hs].
  rewrite Ho. destruct Hv as [->|(_ & Hf & _)]; [reflexivity|].
  vm_compute in Hf. discriminate Hf.
Defined.

Lemma histogram_record_custom_example :
  let h := {| h_type := NGX_WA_HISTOGRAM_CUSTOM; n_bins := 2; sum := 4;
              bins := [ {| upper_bound := 3; count := 1 |};
                        {| upper_bound := NGX_MAX_UINT32_VALUE; count := 0 |} ] |} in
  ngx_wa_metrics_histogram_record (one_histogram 0 h) 1%positive 5 =
    Ret (NGX_OK, set_hist (one_histogram 0 h) 1%positive
           {| h_type := NGX_WA_HISTOGRAM_CUSTOM; n_bins := 2; sum := 9;
              bins := [ {| upper_bound := 3; count := 1 |};
                        {| upper_bound := NGX_MAX_UINT32_VALUE; count := 1 |} ] |}, 1%positive).
Proof.
  intros h. apply (histogram_record_custom (one_histogram 0 h) 1%positive h 5
    [ {| upper_bound := 3; count := 1 |} ] [] {| upper_bound := NGX_MAX_UINT32_VALUE; count := 0 |});
    [reflexivity|reflexivity|reflexivity|reflexivity| |by right].
  repeat constructor.
Defined.

(** Two workers' histograms, read into the buffer at address 3. *)
Definition two_workers : mem quota :=
  {| hists := {[ 1%positive := three_bins;
                 2%positive := log2_of [(2 ^ 31, 7); (NGX_MAX_UINT32_VALUE, 1)] 5;
                 3%positive := log2_of [(NGX_MAX_UINT32_VALUE, 0)] 18 ]};
     pool := {| q_left := 0; q_live := ∅ |} |}.

Lemma log2_31_wf : wf (log2_of [(2 ^ 31, 7); (NGX_MAX_UINT32_VALUE, 1)] 5).
Proof.
  split; [reflexivity|done|].
  exists [ {| upper_bound := 2 ^ 31; count := 7 |} ],
    {| upper_bound := NGX_MAX_UINT32_VALUE; count := 1 |}, (replicate 3 zero_bin).
  split; [reflexivity|reflexivity|apply NoDup_singleton|repeat constructor; by exists 31].
Qed.

Lemma empty_buffer_wf : wf (log2_of [(NGX_MAX_UINT32_VALUE, 0)] 18).
Proof.
  split; [reflexivity|done|].
  exists [], {| upper_bound := NGX_MAX_UINT32_VALUE; count := 0 |}, (replicate 17 zero_bin).
  split; [reflexivity|reflexivity|constructor|constructor].
Qed.

Lemma histogram_get_log2_example :
  exists o', ngx_wa_metrics_histogram_get two_workers [1%positive; 2%positive] 3%positive =
      Ret (set_hist two_workers 3%positive o') /\
    observed (fun ub => ub =? 4) o' = 2 /\
    observed (fun ub => ub =? 2 ^ 31) o' = 0 /\
    observed (fun ub => ub =? NGX_MAX_UINT32_VALUE) o' = 8.
Proof.
  destruct (histogram_get_log2 two_workers [1%positive; 2%positive] 3%positive
    (log2_of [(NGX_MAX_UINT32_VALUE, 0)] 18)) as [E|(o' & E & _ & _ & _ & Hex)].
  { reflexivity. } { exact empty_buffer_wf. }
  { vm_compute. by split. } { by apply (bool_decide_unpack _). }
  { intros a [->|[->|[]%elem_of_nil]%elem_of_cons]%elem_of_cons.
    - exists three_bins. split; [reflexivity|]. split; [exact three_bins_wf|reflexivity].
    - eexists. split; [reflexivity|]. split; [exact log2_31_wf|reflexivity]. }
  { vm_compute in E. discriminate E. }
  assert (HU : forall u, u ∈ bounds (log2_of [(NGX_MAX_UINT32_VALUE, 0)] 18) ->
                 u ∈ [8; 4; NGX_MAX_UINT32_VALUE]).
  { apply Forall_elem. by apply (bool_decide_unpack _). }
  assert (Hb : forall b, b ∈ slots_bins two_workers [1%positive; 2%positive] ->
                 bin_log2_upper_bound (upper_bound b) ∈ [8; 4; NGX_MAX_UINT32_VALUE]).
  { apply Forall_elem. by apply (bool_decide_unpack _). }
  specialize (Hex [8; 4; NGX_MAX_UINT32_VALUE] ltac:(vm_compute; discriminate) HU Hb).
  exists o'. split; [exact E|].
  split; [rewrite Hex; reflexivity|]. split; rewrite Hex; reflexivity.
Defined.

Lemma histogram_add_all_or_none_example :
  exists m' slots,
    ngx_wa_metrics_histogram_add_locked (quota_mem 200) 2 (Some [5; 10]) 2 = Ret (NGX_OK, m', slots) /\
    length slots = 2%nat.
Proof.
  destruct (histogram_add_all_or_none (quota_mem 200) 2 (Some [5; 10]))
    as [(_ & Hge & _)|(_ & m' & slots & [(E & Hlen & _)|(E & _)])].
  - intros c. cbn. rewrite lookup_empty. intros [? ?]. discriminate.
  - vm_compute in Hge. destruct (Hge eq_refl).
  - exists m', slots. split; [exact E|exact Hlen].
  - vm_compute in E. discriminate E.
Defined.

(** A value below every bound of a histogram that is full is not counted in the
    closest bin: with room for no more, 1 is counted under 32 and not under 8.
    With room, its new bin is the second one, after the bin 8. *)
Example log2_bin_not_closest :
  let h := log2_of [(8, 0); (32, 0); (64, 0); (128, 0); (NGX_MAX_UINT32_VALUE, 0)] 5 in
  let h7 := log2_of [(8, 0); (NGX_MAX_UINT32_VALUE, 0)] 5 in
  (exists m', ngx_wa_metrics_histogram_record (one_histogram 0 h) 1%positive 1 = Ret (NGX_OK, m', 1%positive) /\
     (fun h => (fun b => (upper_bound b, count b)) <$> active (bins h)) <$> hists m' !! 1%positive =
       Some [(8, 0); (32, 1); (64, 0); (128, 0); (NGX_MAX_UINT32_VALUE, 0)]) /\
  (exists m', ngx_wa_metrics_histogram_record (one_histogram 0 h7) 1%positive 1 = Ret (NGX_OK, m', 1%positive) /\
     (fun h => (fun b => (upper_bound b, count b)) <$> active (bins h)) <$> hists m' !! 1%positive =
       Some [(8, 0); (1, 1); (NGX_MAX_UINT32_VALUE, 0)]).
Proof. split; eexists; (split; [vm_compute; reflexivity|]); vm_compute; reflexivity. Qed.

(** Three values are enough to copy overlapping bins: 4, 16, and 8 between them. *)
Example overlapping_copy :
  ngx_wa_metrics_histogram_record
    (one_histogram 0 (log2_of [(4, 1); (16, 1); (NGX_MAX_UINT32_VALUE, 0)] 5)) 1%positive 8 = Fault F_memory.
Proof. vm_compute. reflexivity. Qed.

End Histogram.
