(* ===== verification/Metrics.v ===== *)
(** * Metrics (src/src/common/metrics/ngx_wa_metrics.c)

    A metric is a value of a shared key/value store: its type and one 16-byte slot
    per worker, written in place through the pointer a lookup returns.  The
    operations are defined over the interface [MetricStore], which the key/value
    store without eviction implements ([kv_metric_store], [kv_metric_store_laws]). *)
From S2P Require Import Prelude NginxCore ShmKv Histogram.

(** What metrics need of a store: a lookup, writes through the pointer that it
    returned, insertion of an absent key, and the slab that they share. *)
Class MetricStore (S P : Type) := {
  st_get : S -> Z -> outcome (ngx_rc * S * option bytes);
  st_poke : S -> Z -> bytes -> outcome S;
  st_insert : S -> bytes -> bytes -> outcome (ngx_rc * S);
  st_pool : S -> P;
  st_with_pool : S -> P -> S;
}.

(** The behaviour metrics rely on.  [st_view] is what a lookup of a hash finds,
    [crc] the hash of the keys. *)
Class MetricStoreLaws (S P : Type) `{MetricStore S P} `{Slab P} (crc : bytes -> Z) := {
  st_ok : S -> Prop;
  st_view : S -> Z -> option bytes;
  st_get_law s h : st_ok s ->
    st_get s h = Ret (match st_view s h with Some _ => NGX_OK | None => NGX_DECLINED end,
                      s, st_view s h);
  st_poke_law s h v v' : st_ok s -> st_view s h = Some v -> zlen v' = zlen v ->
    exists s', st_poke s h v' = Ret s' /\ st_ok s' /\ st_view s' h = Some v' /\
      (forall h', h' <> h -> st_view s' h' = st_view s h');
  st_insert_law s k v : st_ok s -> st_view s (crc k) = None ->
    exists rc s', st_insert s k v = Ret (rc, s') /\ st_ok s' /\
      (forall h, h <> crc k -> st_view s' h = st_view s h) /\
      (rc = NGX_OK /\ st_view s' (crc k) = Some v \/
       rc = NGX_ERROR /\ st_view s' (crc k) = None);
}.

Module Metrics.
Import Histogram.

Definition NGX_WA_METRIC_COUNTER : Z := 0.
Definition NGX_WA_METRIC_GAUGE : Z := 1.
Definition NGX_WA_METRIC_HISTOGRAM : Z := 2.

Definition ngx_wa_metric_type_name (type : Z) : bytes :=
  if type =? NGX_WA_METRIC_COUNTER then ngx_string "counter"
  else if type =? NGX_WA_METRIC_GAUGE then ngx_string "gauge"
  else if type =? NGX_WA_METRIC_HISTOGRAM then ngx_string "histogram"
  else ngx_string "unknown".

(** ** The layout of [ngx_wa_metric_t]

    The type, padded to 8 bytes, then the slots: a union of a counter, a gauge
    (value and time of the last update) and a pointer to a histogram. *)

Definition sizeof_ngx_wa_metric_t : Z := 8.
Definition sizeof_ngx_wa_metric_val_t : Z := 16.

Definition metric_size (workers : nat) : Z :=
  sizeof_ngx_wa_metric_t + sizeof_ngx_wa_metric_val_t * Z.of_nat workers.

Definition word_offset (slot : nat) (k : Z) : Z :=
  sizeof_ngx_wa_metric_t + sizeof_ngx_wa_metric_val_t * Z.of_nat slot + 8 * k.

Definition metric_type (m : bytes) : outcome Z :=
  let? b := mem_read m 0 4 in deref (dec32 b).

Definition slot_word (m : bytes) (slot : nat) (k : Z) : outcome Z :=
  let? b := mem_read m (word_offset slot k) 8 in deref (dec64 b).

Definition set_slot_word (m : bytes) (slot : nat) (k : Z) (v : Z) : outcome bytes :=
  mem_write m (word_offset slot k) (enc64 v).

(** The members of the union: [slots[i].counter], [slots[i].gauge.value],
    [slots[i].gauge.last_update], [slots[i].histogram]. *)
Definition slot_counter m slot := slot_word m slot 0.
Definition slot_gauge_value m slot := slot_word m slot 0.
Definition slot_gauge_last_update m slot := slot_word m slot 1.

(** A null pointer is not an address. *)
Definition slot_histogram (m : bytes) (slot : nat) : outcome addr :=
  let? w := slot_word m slot 0 in
  match w with Zpos a => Ret a | _ => Fault F_memory end.

(** ** Values over the workers *)

Fixpoint counter_loop (m : bytes) (fuel i : nat) (val : Z) : outcome Z :=
  match fuel with
  | O => Ret val
  | S fuel => let? c := slot_counter m i in counter_loop m fuel (S i) (wrap64 (val + c))
  end.

Definition get_counter (m : bytes) (slots : nat) : outcome Z := counter_loop m slots 0 0.

Fixpoint gauge_loop (m : bytes) (fuel i : nat) (val l : Z) : outcome Z :=
  match fuel with
  | O => Ret val
  | S fuel =>
      let? u := slot_gauge_last_update m i in
      if l <? u
      then let? v := slot_gauge_value m i in gauge_loop m fuel (S i) v u
      else gauge_loop m fuel (S i) val l
  end.

Definition get_gauge (m : bytes) (slots : nat) : outcome Z :=
  let? val := slot_gauge_value m 0 in
  let? l := slot_gauge_last_update m 0 in
  gauge_loop m (slots - 1) 1 val l.

Fixpoint slot_histograms (m : bytes) (fuel i : nat) : outcome (list addr) :=
  match fuel with
  | O => Ret []
  | S fuel =>
      let? a := slot_histogram m i in
      let? l := slot_histograms m fuel (S i) in
      Ret (a :: l)
  end.

(** Writing the pointers of new histograms in the slots. *)
Fixpoint set_histograms (m : bytes) (slots : list addr) (i : nat) : outcome bytes :=
  match slots with
  | [] => Ret m
  | a :: slots => let? m := set_slot_word m i 0 (Zpos a) in set_histograms m slots (S i)
  end.

Section Operations.
Context {S P : Type} `{MetricStore S P} `{Slab P}.
(** [ngx_crc32_long] *)
Variable ngx_crc32_long : bytes -> Z.

Record ngx_wa_metrics_t := {
  workers : nat;
  max_metric_name_length : Z;
  store : S;
  heap : gmap addr ngx_wa_metrics_histogram_t;   (* the histograms *)
}.

Definition set_store (ms : ngx_wa_metrics_t) (s : S) : ngx_wa_metrics_t :=
  {| workers := workers ms; max_metric_name_length := max_metric_name_length ms;
     store := s; heap := heap ms |}.

(** The memory histograms are allocated in is the slab of the store. *)
Definition metrics_mem (ms : ngx_wa_metrics_t) : mem P :=
  {| hists := heap ms; pool := st_pool (store ms) |}.
Definition set_mem (ms : ngx_wa_metrics_t) (m : mem P) : ngx_wa_metrics_t :=
  {| workers := workers ms; max_metric_name_length := max_metric_name_length ms;
     store := st_with_pool (store ms) (pool m); heap := hists m |}.

(** The slot of the calling process: [None] is a process that is not a worker. *)
Definition process_slot (ngx_worker : option nat) : nat := default 0%nat ngx_worker.

(** The third component is [*out], set on [NGX_OK]. *)
Definition ngx_wa_metrics_define (ms : ngx_wa_metrics_t) (name : bytes) (type : Z)
    (bins : option (list Z)) (n_bins : Z)
  : outcome (ngx_rc * ngx_wa_metrics_t * option Z) :=
  if negb (type =? NGX_WA_METRIC_COUNTER) && negb (type =? NGX_WA_METRIC_GAUGE)
     && negb (type =? NGX_WA_METRIC_HISTOGRAM)
  then Ret (NGX_ABORT, ms, None)
  else if max_metric_name_length ms <? zlen name then Ret (NGX_BUSY, ms, None)
  else
    let mid := ngx_crc32_long name in
    let? (rc, s, _) := st_get (store ms) mid in
    let ms := set_store ms s in
    if is_ok rc then Ret (NGX_OK, ms, Some mid)
    else
      let m := enc32 type ++ replicate (Z.to_nat (metric_size (workers ms) - 4)) x00 in
      let? (rc, ms, m) :=
        (if type =? NGX_WA_METRIC_HISTOGRAM then
           let? (rc, mm, slots) :=
             ngx_wa_metrics_histogram_add_locked (metrics_mem ms) (workers ms) bins n_bins in
           if is_ok rc
           then let? m := set_histograms m slots 0 in Ret (NGX_OK, set_mem ms mm, m)
           else Ret (rc, set_mem ms mm, m)
         else Ret (NGX_OK, ms, m)) in
      if is_ok rc then
        let? (rc, s) := st_insert (store ms) name m in
        if is_ok rc then Ret (NGX_OK, set_store ms s, Some mid)
        else Ret (rc, set_store ms s, None)
      else Ret (rc, ms, None).

Definition ngx_wa_metrics_increment (ms : ngx_wa_metrics_t) (ngx_worker : option nat)
    (mid n : Z) : outcome (ngx_rc * ngx_wa_metrics_t) :=
  let slot := process_slot ngx_worker in
  let? (rc, s, val) := st_get (store ms) mid in
  let ms := set_store ms s in
  if negb (is_ok rc) then Ret (rc, ms)
  else
    let? m := deref val in
    let? t := metric_type m in
    if t =? NGX_WA_METRIC_COUNTER then
      let? c := slot_counter m slot in
      let? m := set_slot_word m slot 0 (wrap64 (c + n)) in
      let? s := st_poke (store ms) mid m in
      Ret (NGX_OK, set_store ms s)
    else Ret (NGX_ABORT, ms).

(** [now] is [ngx_current_msec]. *)
Definition ngx_wa_metrics_record (ms : ngx_wa_metrics_t) (ngx_worker : option nat)
    (now mid n : Z) : outcome (ngx_rc * ngx_wa_metrics_t) :=
  let slot := process_slot ngx_worker in
  let? (rc, s, val) := st_get (store ms) mid in
  let ms := set_store ms s in
  if negb (is_ok rc) then Ret (rc, ms)
  else
    let? m := deref val in
    let? t := metric_type m in
    if t =? NGX_WA_METRIC_GAUGE then
      let? m := set_slot_word m slot 0 (wrap64 n) in
      let? m := set_slot_word m slot 1 now in
      let? s := st_poke (store ms) mid m in
      Ret (NGX_OK, set_store ms s)
    else if t =? NGX_WA_METRIC_HISTOGRAM then
      let? a := slot_histogram m slot in
      let? (_, mm, a) := ngx_wa_metrics_histogram_record (metrics_mem ms) a (wrap64 n) in
      let ms := set_mem ms mm in
      let? m := set_slot_word m slot 0 (Zpos a) in
      let? s := st_poke (store ms) mid m in
      Ret (NGX_OK, set_store ms s)
    else Ret (NGX_ABORT, ms).

(** [out->type], and [out->slots[0]] for a counter or a gauge; a histogram is
    merged into the caller's buffer at [out]. *)
Definition ngx_wa_metrics_get (debug : bool) (ms : ngx_wa_metrics_t) (mid : Z) (out : addr)
  : outcome (ngx_rc * ngx_wa_metrics_t * option (Z * Z)) :=
  let? (rc, s, val) := st_get (store ms) mid in
  let ms := set_store ms s in
  if negb (is_ok rc) then Ret (rc, ms, None)
  else
    let? m := deref val in
    let? t := metric_type m in
    if t =? NGX_WA_METRIC_COUNTER then
      let? v := get_counter m (workers ms) in Ret (NGX_OK, ms, Some (t, v))
    else if t =? NGX_WA_METRIC_GAUGE then
      let? v := get_gauge m (workers ms) in Ret (NGX_OK, ms, Some (t, v))
    else if t =? NGX_WA_METRIC_HISTOGRAM then
      let? slots := slot_histograms m (workers ms) 0 in
      let? mm := ngx_wa_metrics_histogram_get (metrics_mem ms) slots out in
      Ret (NGX_OK, set_mem ms mm, Some (t, 0))
    else
      let? _ := ngx_wa_assert debug false in
      Ret (NGX_ERROR, ms, Some (t, 0)).

(** ** Moving the metrics of the previous cycle to a new zone *)

Definition realloc_histogram (ms : ngx_wa_metrics_t) (old_m : bytes) (old_workers : nat) (mid : Z)
  : outcome (ngx_rc * ngx_wa_metrics_t) :=
  let? (rc, s, val) := st_get (store ms) mid in
  let ms := set_store ms s in
  if negb (is_ok rc) then Ret (rc, ms)
  else
    let? m := deref val in
    let? out := slot_histogram m 0 in
    let? slots := slot_histograms old_m old_workers 0 in
    let? mm := ngx_wa_metrics_histogram_get (metrics_mem ms) slots out in
    Ret (NGX_OK, set_mem ms mm).

(** One node: defined again under its name, without its custom bins, and given
    the value of the old workers. *)
Definition realloc_metric (debug : bool) (now : Z) (ms : ngx_wa_metrics_t)
    (name m : bytes) (old_workers : nat) : outcome (ngx_rc * ngx_wa_metrics_t) :=
  let? t := metric_type m in
  let? (rc, ms, mid) := ngx_wa_metrics_define ms name t None 0 in
  if negb (is_ok rc) then Ret (NGX_ERROR, ms)
  else
    let? mid := deref mid in
    let? (rc, ms) :=
      (if t =? NGX_WA_METRIC_COUNTER then
         let? val := get_counter m old_workers in ngx_wa_metrics_increment ms None mid val
       else if t =? NGX_WA_METRIC_GAUGE then
         let? val := get_gauge m old_workers in ngx_wa_metrics_record ms None now mid val
       else if t =? NGX_WA_METRIC_HISTOGRAM then realloc_histogram ms m old_workers mid
       else let? _ := ngx_wa_assert debug false in Ret (NGX_ERROR, ms)) in
    if is_ok rc then Ret (NGX_OK, ms) else Ret (NGX_ERROR, ms).

(** Pre-order over the tree of the old store; [old_nodes] are its nodes. *)
Fixpoint realloc_metrics (debug : bool) (now : Z) (ms : ngx_wa_metrics_t) (node : rbtree)
    (old_nodes : gmap addr ShmKv.ngx_wa_shm_kv_node_t) (old_workers : nat)
  : outcome (ngx_rc * ngx_wa_metrics_t) :=
  match node with
  | Sentinel => Ret (NGX_OK, ms)
  | RbNode l a _ r =>
      let? n := deref (old_nodes !! a) in
      let? (rc, ms) :=
        realloc_metric debug now ms (ShmKv.n_key n) (ShmKv.n_value n) old_workers in
      if negb (is_ok rc) then Ret (NGX_ERROR, ms)
      else
        let? (rc, ms) := realloc_metrics debug now ms l old_nodes old_workers in
        if negb (is_ok rc) then Ret (NGX_ERROR, ms)
        else
          let? (rc, ms) := realloc_metrics debug now ms r old_nodes old_workers in
          if negb (is_ok rc) then Ret (NGX_ERROR, ms) else Ret (NGX_OK, ms)
  end.

End Operations.
Arguments ngx_wa_metrics_t S : clear implicits.

(** ** Slots *)

Definition metric_ok (w : nat) (m : bytes) : Prop := zlen m = metric_size w.

Definition word (m : bytes) (slot : nat) (k : Z) : Z :=
  match slot_word m slot k with Ret v => v | Fault _ => 0 end.

Lemma dec32_Some b : zlen b = 4 -> exists v, dec32 b = Some v /\ is_u32 v.
Proof.
  intros Hl. destruct b as [|b0 [|b1 [|b2 [|b3 [|]]]]]; try (unfold zlen in Hl; cbn in Hl; lia).
  eexists. split; [reflexivity|].
  pose proof (b2z_range b0). pose proof (b2z_range b1). pose proof (b2z_range b2).
  pose proof (b2z_range b3). unfold is_u32. lia.
Qed.

Lemma dec64_Some b : zlen b = 8 -> exists v, dec64 b = Some v /\ is_u64 v.
Proof.
  intros Hl. unfold dec64.
  destruct (dec32_Some (take 4 b)) as (lo & -> & Hlo); [unfold zlen in *; rewrite length_take; lia|].
  destruct (dec32_Some (drop 4 b)) as (hi & -> & Hhi); [unfold zlen in *; rewrite length_drop; lia|].
  eexists. split; [reflexivity|]. unfold is_u64, is_u32 in *. lia.
Qed.

Lemma word_offset_bounds w slot k :
  (slot < w)%nat -> 0 <= k <= 1 -> 8 <= word_offset slot k /\ word_offset slot k + 8 <= metric_size w.
Proof. unfold word_offset, metric_size, sizeof_ngx_wa_metric_t, sizeof_ngx_wa_metric_val_t. lia. Qed.

Lemma mem_read_zlen (m : bytes) off n : 0 <= n -> 0 <= off -> off + n <= zlen m ->
  zlen (take (Z.to_nat n) (drop (Z.to_nat off) m)) = n.
Proof. intros. unfold zlen in *. rewrite length_take, length_drop. lia. Qed.

Lemma slot_word_ok w m slot k :
  metric_ok w m -> (slot < w)%nat -> 0 <= k <= 1 ->
  slot_word m slot k = Ret (word m slot k) /\ is_u64 (word m slot k).
Proof.
  intros Hm Hs Hk. destruct (word_offset_bounds w slot k Hs Hk). unfold metric_ok in Hm.
  unfold word, slot_word. rewrite mem_read_in by lia. cbn [obind].
  destruct (dec64_Some (take (Z.to_nat 8) (drop (Z.to_nat (word_offset slot k)) m))) as (v & -> & Hv);
    [apply mem_read_zlen; lia|done].
Qed.

Lemma metric_type_ok w m : metric_ok w m -> exists t, metric_type m = Ret t.
Proof.
  intros Hm. unfold metric_type. unfold metric_ok, metric_size, sizeof_ngx_wa_metric_t, sizeof_ngx_wa_metric_val_t in Hm.
  rewrite mem_read_in by lia. cbn [obind].
  destruct (dec32_Some (take (Z.to_nat 4) (drop (Z.to_nat 0) m))) as (v & -> & Hv);
    [apply mem_read_zlen; lia|]. by exists v.
Qed.

Lemma set_slot_word_ok w m slot k v :
  metric_ok w m -> (slot < w)%nat -> 0 <= k <= 1 ->
  exists m', set_slot_word m slot k v = Ret m' /\ metric_ok w m' /\
    metric_type m' = metric_type m /\ word m' slot k = wrap64 v /\
    (forall i l, 0 <= l <= 1 -> (i <> slot \/ l <> k) -> word m' i l = word m i l).
Proof.
  intros Hm Hs Hk. destruct (word_offset_bounds w slot k Hs Hk) as [Hlo Hhi]. unfold metric_ok in Hm.
  destruct (set_slot_word m slot k v) as [m'|f] eqn:E.
  2:{ unfold set_slot_word in E. rewrite mem_write_in in E by (autorewrite with wx; lia). done. }
  exists m'. split; [done|]. unfold set_slot_word in E.
  pose proof (mem_write_length _ _ _ _ E) as Hlen.
  split; [unfold metric_ok; rewrite <- Hm; unfold zlen; by rewrite Hlen|]. split; [|split].
  - unfold metric_type. by rewrite (mem_read_write_other _ _ _ _ 0 4 E) by lia.
  - unfold word, slot_word. pose proof (mem_read_write_same _ _ _ _ E) as Er.
    rewrite zlen_enc64 in Er. rewrite Er. cbn [obind]. by rewrite dec64_enc64.
  - intros i l Hl Hne. unfold word, slot_word.
    rewrite (mem_read_write_other _ _ _ _ (word_offset i l) 8 E); [done|].
    rewrite zlen_enc64. unfold word_offset, sizeof_ngx_wa_metric_t, sizeof_ngx_wa_metric_val_t. lia.
Qed.

(** *** Counters *)

(** The sum of the counters of [fuel] slots from slot [i] on. *)
Fixpoint sum_words (m : bytes) (i fuel : nat) : Z :=
  match fuel with O => 0 | S fuel => word m i 0 + sum_words m (S i) fuel end.

Lemma counter_loop_spec w m fuel : forall i val,
  metric_ok w m -> (i + fuel <= w)%nat -> is_u64 val ->
  counter_loop m fuel i val = Ret (wrap64 (val + sum_words m i fuel)).
Proof.
  induction fuel as [|fuel IH]; intros i val Hm Hi Hv; cbn [counter_loop sum_words].
  - by rewrite Z.add_0_r, wrap64_id.
  - unfold slot_counter. destruct (slot_word_ok w m i 0 Hm) as [-> Hw]; [lia|lia|]. cbn [obind].
    rewrite IH by (done || lia || apply wrap64_range). f_equal. unfold wrap64.
    rewrite Zplus_mod_idemp_l. f_equal. lia.
Qed.

Lemma get_counter_spec w m : metric_ok w m -> get_counter m w = Ret (wrap64 (sum_words m 0 w)).
Proof. intros Hm. unfold get_counter. by rewrite (counter_loop_spec w) by (done || lia). Qed.

Lemma sum_words_update m m' slot d : forall fuel i,
  (forall j, j <> slot -> word m' j 0 = word m j 0) -> word m' slot 0 = word m slot 0 + d ->
  sum_words m' i fuel = sum_words m i fuel +
    if bool_decide (i <= slot < i + fuel)%nat then d else 0.
Proof.
  intros fuel i Ho Hd. revert i. induction fuel as [|fuel IH]; intros i; cbn [sum_words].
  - by rewrite bool_decide_false by lia.
  - rewrite IH. destruct (decide (i = slot)) as [->|Hne].
    + rewrite Hd, (bool_decide_true (slot <= slot < _)%nat), bool_decide_false by lia. lia.
    + rewrite Ho by done. destruct (decide (S i <= slot < S i + fuel)%nat).
      * rewrite !bool_decide_true by lia. lia.
      * rewrite !bool_decide_false by lia. lia.
Qed.

Lemma sum_words_zero m : (forall i, word m i 0 = 0) -> forall fuel i, sum_words m i fuel = 0.
Proof. intros Hz fuel. induction fuel as [|fuel IH]; intros i; cbn; [done|]. by rewrite Hz, IH. Qed.

(** *** Gauges *)

Lemma gauge_loop_keep w m fuel : forall i val l,
  metric_ok w m -> (i + fuel <= w)%nat ->
  (forall j, (i <= j < i + fuel)%nat -> word m j 1 <= l) ->
  gauge_loop m fuel i val l = Ret val.
Proof.
  induction fuel as [|fuel IH]; intros i val l Hm Hi Hl; cbn [gauge_loop]; [done|].
  unfold slot_gauge_last_update. destruct (slot_word_ok w m i 1 Hm) as [-> _]; [lia|lia|].
  cbn [obind]. rewrite (proj2 (Z.ltb_ge _ _)) by (apply Hl; lia).
  apply IH; [done|lia|]. intros j Hj. apply Hl. lia.
Qed.

(** The latest update wins; among equal ones, that of the first slot. *)
Lemma gauge_loop_latest w m slot fuel : forall i val l,
  metric_ok w m -> (i + fuel <= w)%nat -> (i <= slot < i + fuel)%nat -> l < word m slot 1 ->
  (forall j, (i <= j < slot)%nat -> word m j 1 < word m slot 1) ->
  (forall j, (slot < j < i + fuel)%nat -> word m j 1 <= word m slot 1) ->
  gauge_loop m fuel i val l = Ret (word m slot 0).
Proof.
  induction fuel as [|fuel IH]; intros i val l Hm Hi Hs Hl Hlt Hle; [lia|]. cbn [gauge_loop].
  unfold slot_gauge_last_update, slot_gauge_value.
  destruct (slot_word_ok w m i 1 Hm) as [-> _]; [lia|lia|]. cbn [obind].
  destruct (decide (i = slot)) as [->|Hne].
  - rewrite (proj2 (Z.ltb_lt _ _)) by done.
    destruct (slot_word_ok w m slot 0 Hm) as [-> _]; [lia|lia|]. cbn [obind].
    apply (gauge_loop_keep w); [done|lia|]. intros j Hj. apply Hle. lia.
  - case_test.
    + destruct (slot_word_ok w m i 0 Hm) as [-> _]; [lia|lia|]. cbn [obind].
      apply IH; try done; [lia|lia| | |]; intros; [apply Hlt|apply Hlt|apply Hle]; lia.
    + apply IH; try done; [lia|lia| |]; intros; [apply Hlt|apply Hle]; lia.
Qed.

Lemma get_gauge_spec w m slot :
  metric_ok w m -> (slot < w)%nat ->
  (forall j, (j < slot)%nat -> word m j 1 < word m slot 1) ->
  (forall j, (slot < j < w)%nat -> word m j 1 <= word m slot 1) ->
  get_gauge m w = Ret (word m slot 0).
Proof.
  intros Hm Hs Hlt Hle. unfold get_gauge, slot_gauge_value, slot_gauge_last_update.
  destruct (slot_word_ok w m 0 0 Hm) as [-> _]; [lia|lia|].
  destruct (slot_word_ok w m 0 1 Hm) as [-> _]; [lia|lia|]. cbn [obind].
  destruct slot as [|slot].
  - apply (gauge_loop_keep w); [done|lia|]. intros j Hj. apply Hle. lia.
  - apply (gauge_loop_latest w); try done; [lia|lia|apply Hlt; lia| |];
      intros j Hj; [apply Hlt|apply Hle]; lia.
Qed.

(** ** Operations over any store with the laws *)

Section Laws.
Context {S P : Type} `{MS : MetricStore S P} `{SP : Slab P} {crc : bytes -> Z}.
Context {ML : MetricStoreLaws S P crc}.

Abbreviation define := (ngx_wa_metrics_define crc).
Abbreviation increment := (ngx_wa_metrics_increment (S := S) (P := P)).
Abbreviation record := (ngx_wa_metrics_record (S := S) (P := P)).

Definition metric_view (ms : ngx_wa_metrics_t S) (mid : Z) : option bytes := st_view (store ms) mid.

Record ms_ok (ms : ngx_wa_metrics_t S) : Prop := {
  ok_store : st_ok (store ms);
  ok_metrics mid m : metric_view ms mid = Some m -> metric_ok (workers ms) m;
}.

(** [ms'] is [ms] but for the metric [mid]. *)
Record only (ms ms' : ngx_wa_metrics_t S) (mid : Z) : Prop := {
  only_ok : ms_ok ms';
  only_workers : workers ms' = workers ms;
  only_max : max_metric_name_length ms' = max_metric_name_length ms;
  only_other h : h <> mid -> metric_view ms' h = metric_view ms h;
}.

Lemma only_refl ms mid : ms_ok ms -> only ms ms mid.
Proof. by split. Qed.

Lemma only_trans ms1 ms2 ms3 mid : only ms1 ms2 mid -> only ms2 ms3 mid -> only ms1 ms3 mid.
Proof.
  intros [_ Hw1 Hm1 Ho1] [Hok Hw2 Hm2 Ho2]. split; [done|congruence..|].
  intros h Hh. rewrite Ho2 by done. auto.
Qed.

Lemma set_store_id (ms : ngx_wa_metrics_t S) : set_store ms (store ms) = ms.
Proof. by destruct ms. Qed.

(** Overwriting a metric in place. *)
Lemma poke_spec ms mid m m' :
  ms_ok ms -> metric_view ms mid = Some m -> metric_ok (workers ms) m' ->
  exists s', st_poke (store ms) mid m' = Ret s' /\ only ms (set_store ms s') mid /\
    metric_view (set_store ms s') mid = Some m'.
Proof.
  intros [Hs Hm] Hv Hm'. pose proof (Hm _ _ Hv) as Hold. unfold metric_ok in *.
  destruct (st_poke_law (store ms) mid m m' Hs Hv) as (s' & E & Hs' & Hv' & Ho); [congruence|].
  exists s'. split; [done|]. split; [|done]. split; [|done|done|done].
  split; [done|]. cbn. intros h v Hh. destruct (decide (h = mid)) as [->|Hne].
  - unfold metric_view in Hh. cbn in Hh. by replace v with m' by congruence.
  - unfold metric_view in Hh. cbn in Hh. rewrite Ho in Hh by done. by eapply Hm.
Qed.

Lemma increment_spec ms w mid m n :
  ms_ok ms -> metric_view ms mid = Some m -> metric_type m = Ret NGX_WA_METRIC_COUNTER ->
  (process_slot w < workers ms)%nat ->
  exists ms' m', increment ms w mid n = Ret (NGX_OK, ms') /\ only ms ms' mid /\
    metric_view ms' mid = Some m' /\ metric_type m' = Ret NGX_WA_METRIC_COUNTER /\
    wrap64 (sum_words m' 0 (workers ms)) = wrap64 (sum_words m 0 (workers ms) + n).
Proof.
  intros Hok Hv Ht Hw. pose proof (ok_metrics _ Hok _ _ Hv) as Hm.
  unfold ngx_wa_metrics_increment. rewrite st_get_law by apply Hok.
  change (st_view (store ms) mid) with (metric_view ms mid). rewrite Hv. cbn [obind].
  rewrite set_store_id. change (is_ok NGX_OK) with true. cbn [negb deref obind].
  rewrite Ht. cbn [obind]. rewrite Z.eqb_refl. unfold slot_counter.
  destruct (slot_word_ok _ m (process_slot w) 0 Hm Hw) as [-> Hu]; [lia|]. cbn [obind].
  destruct (set_slot_word_ok _ m (process_slot w) 0 (wrap64 (word m (process_slot w) 0 + n)) Hm Hw)
    as (m' & -> & Hm' & Ht' & Hw' & Ho'); [lia|]. cbn [obind].
  destruct (poke_spec ms mid m m' Hok Hv Hm') as (s' & -> & Honly & Hv'). cbn [obind].
  exists (set_store ms s'), m'. split; [done|]. split; [done|]. split; [done|].
  split; [congruence|].
  rewrite (sum_words_update m m' (process_slot w)
    (wrap64 (word m (process_slot w) 0 + n) - word m (process_slot w) 0)).
  - rewrite bool_decide_true by lia. unfold wrap64. Z.to_euclidean_division_equations. lia.
  - intros i Hi. apply Ho'; [lia|by left].
  - rewrite Hw'. unfold wrap64. Z.to_euclidean_division_equations. lia.
Qed.

Lemma record_gauge_spec ms w now mid m n :
  ms_ok ms -> metric_view ms mid = Some m -> metric_type m = Ret NGX_WA_METRIC_GAUGE ->
  (process_slot w < workers ms)%nat ->
  exists ms' m', record ms w now mid n = Ret (NGX_OK, ms') /\ only ms ms' mid /\
    metric_view ms' mid = Some m' /\ metric_type m' = Ret NGX_WA_METRIC_GAUGE /\
    word m' (process_slot w) 0 = wrap64 n /\ word m' (process_slot w) 1 = wrap64 now /\
    (forall j, j <> process_slot w -> word m' j 1 = word m j 1).
Proof.
  intros Hok Hv Ht Hw. pose proof (ok_metrics _ Hok _ _ Hv) as Hm.
  unfold ngx_wa_metrics_record. rewrite st_get_law by apply Hok.
  change (st_view (store ms) mid) with (metric_view ms mid). rewrite Hv. cbn [obind].
  rewrite set_store_id. change (is_ok NGX_OK) with true. cbn [negb deref obind].
  rewrite Ht. cbn [obind]. rewrite Z.eqb_refl.
  destruct (set_slot_word_ok _ m (process_slot w) 0 (wrap64 n) Hm Hw)
    as (m1 & -> & Hm1 & Ht1 & Hw1 & Ho1); [lia|]. cbn [obind].
  destruct (set_slot_word_ok _ m1 (process_slot w) 1 now Hm1 Hw)
    as (m2 & -> & Hm2 & Ht2 & Hw2 & Ho2); [lia|]. cbn [obind].
  destruct (poke_spec ms mid m m2 Hok Hv Hm2) as (s' & -> & Honly & Hv'). cbn [obind].
  exists (set_store ms s'), m2. split; [done|]. split; [done|]. split; [done|].
  split; [congruence|]. split; [|split; [done|]].
  - rewrite Ho2 by lia. rewrite Hw1. apply wrap64_id, wrap64_range.
  - intros j Hj. rewrite Ho2, Ho1 by lia. done.
Qed.

(** What a reader gets of a counter or a gauge. *)
Lemma metrics_get_spec debug ms mid m out t v :
  ms_ok ms -> metric_view ms mid = Some m -> metric_type m = Ret t ->
  (t = NGX_WA_METRIC_COUNTER /\ get_counter m (workers ms) = Ret v \/
   t = NGX_WA_METRIC_GAUGE /\ get_gauge m (workers ms) = Ret v) ->
  ngx_wa_metrics_get (P := P) debug ms mid out = Ret (NGX_OK, ms, Some (t, v)).
Proof.
  intros Hok Hv Ht Hc. unfold ngx_wa_metrics_get. rewrite st_get_law by apply Hok.
  change (st_view (store ms) mid) with (metric_view ms mid). rewrite Hv. cbn [obind].
  rewrite set_store_id. change (is_ok NGX_OK) with true. cbn [negb deref obind].
  rewrite Ht. cbn [obind]. destruct Hc as [[-> Hc]|[-> Hc]]; cbn; by rewrite Hc.
Qed.

(** *** Definition *)

(** A metric of the type as it is stored first. *)
Definition zero_metric (workers : nat) (type : Z) : bytes :=
  enc32 type ++ replicate (Z.to_nat (metric_size workers - 4)) x00.

Lemma zero_metric_ok w t : metric_ok w (zero_metric w t).
Proof.
  unfold metric_ok, zero_metric, metric_size, sizeof_ngx_wa_metric_t, sizeof_ngx_wa_metric_val_t.
  rewrite zlen_app, zlen_enc32. unfold zlen. rewrite length_replicate. lia.
Qed.

Lemma zero_metric_type w t : is_u32 t -> metric_type (zero_metric w t) = Ret t.
Proof.
  intros Ht. unfold metric_type. pose proof (zero_metric_ok w t) as Hm.
  unfold metric_ok, metric_size, sizeof_ngx_wa_metric_t, sizeof_ngx_wa_metric_val_t in Hm.
  rewrite mem_read_in by lia. cbn [obind]. unfold zero_metric. change (Z.to_nat 0) with 0%nat. rewrite drop_0.
  rewrite take_app_length' by done. rewrite dec32_enc32. cbn. by rewrite wrap32_id.
Qed.

Lemma zero_metric_word w t i k : 0 <= k <= 1 -> (i < w)%nat -> word (zero_metric w t) i k = 0.
Proof.
  intros Hk Hi. pose proof (zero_metric_ok w t) as Hm. destruct (word_offset_bounds w i k Hi Hk).
  unfold word, slot_word. unfold metric_ok in Hm. rewrite mem_read_in by lia. cbn [obind].
  assert (take (Z.to_nat 8) (drop (Z.to_nat (word_offset i k)) (zero_metric w t)) = replicate 8 x00) as ->.
  { unfold zero_metric. rewrite drop_app_ge by (cbn; lia). rewrite drop_replicate, take_replicate.
    f_equal. rewrite length_enc32. lia. }
  done.
Qed.

Lemma sum_zero_metric w t fuel : forall i, (i + fuel <= w)%nat -> sum_words (zero_metric w t) i fuel = 0.
Proof.
  induction fuel as [|fuel IH]; intros i Hi; cbn [sum_words]; [done|].
  rewrite zero_metric_word, IH by lia. done.
Qed.

(** Defining a counter or a gauge. *)
Lemma define_spec ms name t bins n_bins :
  ms_ok ms -> zlen name <= max_metric_name_length ms ->
  (t = NGX_WA_METRIC_COUNTER \/ t = NGX_WA_METRIC_GAUGE) ->
  match metric_view ms (crc name) with
  | Some _ => define ms name t bins n_bins = Ret (NGX_OK, ms, Some (crc name))
  | None => exists ms', only ms ms' (crc name) /\
      (define ms name t bins n_bins = Ret (NGX_OK, ms', Some (crc name)) /\
         metric_view ms' (crc name) = Some (zero_metric (workers ms) t) \/
       define ms name t bins n_bins = Ret (NGX_ERROR, ms', None) /\
         metric_view ms' (crc name) = None)
  end.
Proof.
  intros Hok Hlen Ht. unfold ngx_wa_metrics_define.
  assert (Htype : negb (t =? NGX_WA_METRIC_COUNTER) && negb (t =? NGX_WA_METRIC_GAUGE)
    && negb (t =? NGX_WA_METRIC_HISTOGRAM) = false) by by destruct Ht as [-> | ->].
  rewrite Htype, (proj2 (Z.ltb_ge _ _)) by done.
  rewrite st_get_law by apply Hok. change (st_view (store ms) (crc name)) with (metric_view ms (crc name)).
  destruct (metric_view ms (crc name)) as [m|] eqn:Hv; cbn [obind]; rewrite set_store_id.
  { done. }
  assert (Hh : t =? NGX_WA_METRIC_HISTOGRAM = false) by by destruct Ht as [-> | ->].
  rewrite Hh. change (is_ok NGX_DECLINED) with false. cbn [obind].
  change (is_ok NGX_OK) with true. cbn match.
  destruct (st_insert_law (store ms) name (zero_metric (workers ms) t)) as (rc & s' & E & Hs' & Ho & Hrc);
    [apply Hok|done|].
  unfold zero_metric in E. rewrite E. cbn [obind]. exists (set_store ms s').
  assert (Hms' : ms_ok (set_store ms s')).
  { split; [done|]. cbn. intros h v Hh'. unfold metric_view in Hh'. cbn in Hh'.
    destruct (decide (h = crc name)) as [->|Hne].
    - destruct Hrc as [[_ Hv']|[_ Hv']]; rewrite Hv' in Hh'; [|done].
      injection Hh' as <-. apply zero_metric_ok.
    - rewrite Ho in Hh' by done. by eapply (ok_metrics _ Hok). }
  split; [split; [done..|intros h Hne; by apply Ho]|].
  destruct Hrc as [[-> Hv']|[-> Hv']]; [left|right]; done.
Qed.

(** *** Sequences of increments *)

(** Increments by the given workers, until one fails. *)
Fixpoint increments (ms : ngx_wa_metrics_t S) (mid : Z) (l : list (option nat * Z))
  : outcome (ngx_rc * ngx_wa_metrics_t S) :=
  match l with
  | [] => Ret (NGX_OK, ms)
  | (w, n) :: l =>
      let? (rc, ms) := increment ms w mid n in
      if is_ok rc then increments ms mid l else Ret (rc, ms)
  end.

Definition total (l : list (option nat * Z)) : Z := foldr (fun e acc => e.2 + acc) 0 l.

Lemma increments_spec mid l : forall ms m,
  ms_ok ms -> metric_view ms mid = Some m -> metric_type m = Ret NGX_WA_METRIC_COUNTER ->
  Forall (fun e => (process_slot e.1 < workers ms)%nat) l ->
  exists ms' m', increments ms mid l = Ret (NGX_OK, ms') /\ only ms ms' mid /\
    metric_view ms' mid = Some m' /\ metric_type m' = Ret NGX_WA_METRIC_COUNTER /\
    wrap64 (sum_words m' 0 (workers ms)) = wrap64 (sum_words m 0 (workers ms) + total l).
Proof.
  induction l as [|[w n] l IH]; intros ms m Hok Hv Ht Hl.
  - exists ms, m. split_and!; try done. cbn. by rewrite Z.add_0_r.
  - apply Forall_cons_1 in Hl as [Hw Hl].
    destruct (increment_spec ms w mid m n Hok Hv Ht Hw) as (ms1 & m1 & E & H1 & Hv1 & Ht1 & Hs1).
    cbn [increments]. rewrite E. cbn [obind]. change (is_ok NGX_OK) with true. cbn match.
    destruct (IH ms1 m1) as (ms2 & m2 & E2 & H2 & Hv2 & Ht2 & Hs2); try done; [apply H1| |].
    { by rewrite (only_workers _ _ _ H1). }
    rewrite (only_workers _ _ _ H1) in Hs2.
    exists ms2, m2. split; [done|]. split; [by eapply only_trans|]. split; [done|]. split; [done|].
    rewrite Hs2. cbn. unfold wrap64 in *. rewrite Z.add_assoc, Zplus_mod, Hs1, <- Zplus_mod. done.
Qed.

(** Whatever workers increment a counter, and in whatever order, a read returns
    the initial value plus the sum of the increments modulo 2^64; no other metric
    changes. *)
Lemma counter_counts_all (debug : bool) (ms : ngx_wa_metrics_t S) (mid : Z) (m : bytes) (v : Z)
    (l : list (option nat * Z)) (out : addr) :
  ms_ok ms -> metric_view ms mid = Some m ->
  ngx_wa_metrics_get (P := P) debug ms mid out = Ret (NGX_OK, ms, Some (NGX_WA_METRIC_COUNTER, v)) ->
  Forall (fun e => (process_slot e.1 < workers ms)%nat) l ->
  exists ms', increments ms mid l = Ret (NGX_OK, ms') /\ only ms ms' mid /\
    ngx_wa_metrics_get (P := P) debug ms' mid out =
      Ret (NGX_OK, ms', Some (NGX_WA_METRIC_COUNTER, wrap64 (v + total l))).
Proof.
  intros Hok Hv Hg Hl. pose proof (ok_metrics _ Hok _ _ Hv) as Hm.
  destruct (metric_type_ok _ _ Hm) as [t Ht].
  assert (Hcases : t = NGX_WA_METRIC_COUNTER /\ v = wrap64 (sum_words m 0 (workers ms))).
  { unfold ngx_wa_metrics_get in Hg. rewrite st_get_law in Hg by apply Hok.
    change (st_view (store ms) mid) with (metric_view ms mid) in Hg. rewrite Hv in Hg.
    cbn [obind] in Hg. change (is_ok NGX_OK) with true in Hg. cbn [negb deref obind] in Hg.
    rewrite Ht in Hg. cbn [obind] in Hg.
    destruct (t =? NGX_WA_METRIC_COUNTER) eqn:Et.
    - rewrite get_counter_spec in Hg by done. cbn in Hg. apply Z.eqb_eq in Et. split; [done|]. congruence.
    - exfalso. destruct (t =? NGX_WA_METRIC_GAUGE); [|destruct (t =? NGX_WA_METRIC_HISTOGRAM)];
        outcome_inv; try (destruct debug; cbn in *); simplify_eq; done. }
  destruct Hcases as [-> ->].
  destruct (increments_spec mid l ms m Hok Hv Ht Hl) as (ms' & m' & E & Ho & Hv' & Ht' & Hs).
  exists ms'. split; [done|]. split; [done|]. apply (metrics_get_spec _ _ _ m'); [apply Ho|done|done|left].
  split; [done|]. rewrite (only_workers _ _ _ Ho), get_counter_spec, Hs.
  - unfold wrap64. by rewrite Zplus_mod_idemp_l.
  - unfold metric_ok. rewrite <- (only_workers _ _ _ Ho).
    by apply (ok_metrics _ (only_ok _ _ _ Ho) mid).
Qed.

(** After a worker records a gauge, a read returns the value recorded if no
    worker of a larger slot has a later update and none of a smaller slot one as
    late: at the same millisecond the smallest slot wins. *)
Lemma gauge_last_update_wins (debug : bool) (ms : ngx_wa_metrics_t S) (w : option nat)
    (now mid n : Z) (m : bytes) (out : addr) :
  ms_ok ms -> metric_view ms mid = Some m -> metric_type m = Ret NGX_WA_METRIC_GAUGE ->
  (process_slot w < workers ms)%nat -> is_u64 now ->
  (forall j, (j < process_slot w)%nat -> word m j 1 < now) ->
  (forall j, (process_slot w < j < workers ms)%nat -> word m j 1 <= now) ->
  exists ms', record ms w now mid n = Ret (NGX_OK, ms') /\ only ms ms' mid /\
    ngx_wa_metrics_get (P := P) debug ms' mid out =
      Ret (NGX_OK, ms', Some (NGX_WA_METRIC_GAUGE, wrap64 n)).
Proof.
  intros Hok Hv Ht Hw Hnow Hlt Hle.
  destruct (record_gauge_spec ms w now mid m n Hok Hv Ht Hw)
    as (ms' & m' & E & Ho & Hv' & Ht' & Hn & Hu & Hother).
  exists ms'. split; [done|]. split; [done|]. apply (metrics_get_spec _ _ _ m'); [apply Ho|done|done|right].
  split; [done|]. rewrite wrap64_id in Hu by done. rewrite <- Hn.
  assert (Hm' : metric_ok (workers ms) m').
  { rewrite <- (only_workers _ _ _ Ho). by apply (ok_metrics _ (only_ok _ _ _ Ho) mid). }
  rewrite (only_workers _ _ _ Ho). apply get_gauge_spec; [done|done| |].
  - intros j Hj. rewrite Hother, Hu by lia. auto.
  - intros j Hj. rewrite Hother, Hu by lia. auto.
Qed.

(** Defining a counter or a gauge under a name not too long stores a metric
    that reads 0, or fails leaving no metric, or returns the metric of the same
    identifier when there is one, whatever its type.  Other metrics keep their
    values.  A name too long is [NGX_BUSY], an unknown type [NGX_ABORT]. *)
Lemma define_metric (debug : bool) (ms : ngx_wa_metrics_t S) (name : bytes) (t : Z)
    (bins : option (list Z)) (n_bins : Z) (out : addr) :
  ms_ok ms -> (0 < workers ms)%nat ->
  (NGX_WA_METRIC_HISTOGRAM < t -> define ms name t bins n_bins = Ret (NGX_ABORT, ms, None)) /\
  (0 <= t <= NGX_WA_METRIC_HISTOGRAM -> max_metric_name_length ms < zlen name ->
     define ms name t bins n_bins = Ret (NGX_BUSY, ms, None)) /\
  (0 <= t < NGX_WA_METRIC_HISTOGRAM -> zlen name <= max_metric_name_length ms ->
     match metric_view ms (crc name) with
     | Some _ => define ms name t bins n_bins = Ret (NGX_OK, ms, Some (crc name))
     | None => exists ms', only ms ms' (crc name) /\
         (define ms name t bins n_bins = Ret (NGX_OK, ms', Some (crc name)) /\
            ngx_wa_metrics_get (P := P) debug ms' (crc name) out = Ret (NGX_OK, ms', Some (t, 0)) \/
          define ms name t bins n_bins = Ret (NGX_ERROR, ms', None) /\
            metric_view ms' (crc name) = None)
     end).
Proof.
  intros Hok Hpos. unfold NGX_WA_METRIC_HISTOGRAM.
  split; [|split].
  - intros Hgt. unfold ngx_wa_metrics_define, NGX_WA_METRIC_COUNTER, NGX_WA_METRIC_GAUGE, NGX_WA_METRIC_HISTOGRAM.
    by rewrite !(proj2 (Z.eqb_neq t _)) by lia.
  - intros Hty Hlen. unfold ngx_wa_metrics_define.
    assert (negb (t =? NGX_WA_METRIC_COUNTER) && negb (t =? NGX_WA_METRIC_GAUGE)
      && negb (t =? NGX_WA_METRIC_HISTOGRAM) = false) as ->.
    { by assert (t = 0 \/ t = 1 \/ t = 2) as [->|[-> | ->]] by lia. }
    by rewrite (proj2 (Z.ltb_lt _ _)).
  - intros Hty Hlen. assert (Ht : t = NGX_WA_METRIC_COUNTER \/ t = NGX_WA_METRIC_GAUGE)
      by (unfold NGX_WA_METRIC_COUNTER, NGX_WA_METRIC_GAUGE; lia).
    pose proof (define_spec ms name t bins n_bins Hok Hlen Ht) as Hd.
    destruct (metric_view ms (crc name)); [done|]. destruct Hd as (ms' & Ho & [[E Hv]|?]); [|eauto].
    exists ms'. split; [done|left]. split; [done|].
    eapply metrics_get_spec; [apply Ho|done|apply zero_metric_type; unfold is_u32; lia|].
    rewrite (only_workers _ _ _ Ho). destruct Ht as [-> | ->]; [left|right]; (split; [done|]).
    + rewrite get_counter_spec by apply zero_metric_ok. by rewrite sum_zero_metric.
    + rewrite (get_gauge_spec _ _ 0) by (try apply zero_metric_ok; try lia;
        intros j Hj; rewrite !zero_metric_word by lia; lia).
      by rewrite zero_metric_word by lia.
Qed.

(** The operations on an absent metric return [NGX_DECLINED] and those on a
    metric of another type [NGX_ABORT]; both leave everything unchanged. *)
Lemma metric_misuse (debug : bool) (ms : ngx_wa_metrics_t S) (w : option nat)
    (now mid n : Z) (out : addr) :
  ms_ok ms ->
  match metric_view ms mid with
  | None =>
      increment ms w mid n = Ret (NGX_DECLINED, ms) /\
      record ms w now mid n = Ret (NGX_DECLINED, ms) /\
      ngx_wa_metrics_get (P := P) debug ms mid out = Ret (NGX_DECLINED, ms, None)
  | Some m => exists t, metric_type m = Ret t /\
      (t <> NGX_WA_METRIC_COUNTER -> increment ms w mid n = Ret (NGX_ABORT, ms)) /\
      (t = NGX_WA_METRIC_COUNTER -> record ms w now mid n = Ret (NGX_ABORT, ms))
  end.
Proof.
  intros Hok. unfold ngx_wa_metrics_increment, ngx_wa_metrics_record, ngx_wa_metrics_get.
  rewrite !st_get_law by apply Hok.
  change (st_view (store ms) mid) with (metric_view ms mid).
  destruct (metric_view ms mid) as [m|] eqn:Hv; cbn [obind]; rewrite set_store_id; [|done].
  destruct (metric_type_ok _ _ (ok_metrics _ Hok _ _ Hv)) as [t Ht]. exists t. split; [done|].
  change (is_ok NGX_OK) with true. cbn [negb deref obind]. rewrite Ht. cbn [obind]. split.
  - intros Hne. by rewrite (proj2 (Z.eqb_neq _ _)).
  - by intros ->.
Qed.

(** *** Moving metrics to a new zone *)

Lemma gauge_loop_total w m fuel : forall i val l,
  metric_ok w m -> (i + fuel <= w)%nat -> is_u64 val ->
  exists v, gauge_loop m fuel i val l = Ret v /\ is_u64 v.
Proof.
  induction fuel as [|fuel IH]; intros i val l Hm Hi Hv; cbn [gauge_loop]; [by exists val|].
  unfold slot_gauge_last_update, slot_gauge_value.
  destruct (slot_word_ok w m i 1 Hm) as [-> _]; [lia|lia|].
  destruct (slot_word_ok w m i 0 Hm) as [-> Hu]; [lia|lia|]. cbn [obind].
  case_match; apply IH; done || lia.
Qed.

(** The value of a counter or a gauge over the workers. *)
Definition metric_value (t : Z) (m : bytes) (w : nat) : outcome Z :=
  if t =? NGX_WA_METRIC_COUNTER then get_counter m w else get_gauge m w.

Lemma metric_value_total t w m :
  metric_ok w m -> (0 < w)%nat -> exists v, metric_value t m w = Ret v /\ is_u64 v.
Proof.
  intros Hm Hw. unfold metric_value. case_match.
  - rewrite get_counter_spec by done. eexists. split; [done|]. apply wrap64_range.
  - unfold get_gauge, slot_gauge_value, slot_gauge_last_update.
    destruct (slot_word_ok w m 0 0 Hm) as [-> Hu]; [lia|lia|].
    destruct (slot_word_ok w m 0 1 Hm) as [-> _]; [lia|lia|]. cbn [obind].
    apply (gauge_loop_total w); [done|lia|done].
Qed.

(** The metric [mid] of [ms'] has the type and the value of the old metric [m]. *)
Definition moved (old_workers : nat) (m : bytes) (ms' : ngx_wa_metrics_t S) (mid : Z) : Prop :=
  exists t m', metric_type m = Ret t /\ metric_view ms' mid = Some m' /\ metric_type m' = Ret t /\
    metric_value t m' (workers ms') = metric_value t m old_workers.

(** What is moved: a counter or a gauge. *)
Record movable (old_workers : nat) (ms : ngx_wa_metrics_t S) (name m : bytes) : Prop := {
  mv_len : zlen name <= max_metric_name_length ms;
  mv_ok : metric_ok old_workers m;
  mv_type : metric_type m = Ret NGX_WA_METRIC_COUNTER \/ metric_type m = Ret NGX_WA_METRIC_GAUGE;
}.

Lemma realloc_metric_spec debug now ms name m ow :
  ms_ok ms -> (0 < workers ms)%nat -> (0 < ow)%nat -> is_u64 now ->
  metric_view ms (crc name) = None -> movable ow ms name m ->
  exists rc ms', realloc_metric crc debug now ms name m ow = Ret (rc, ms') /\
    only ms ms' (crc name) /\
    (rc = NGX_ERROR \/ rc = NGX_OK /\ moved ow m ms' (crc name)).
Proof.
  intros Hok Hw How Hnow Hv [Hlen Hm Hty].
  assert (exists t, metric_type m = Ret t /\ (t = NGX_WA_METRIC_COUNTER \/ t = NGX_WA_METRIC_GAUGE))
    as (t & Ht & Hc) by (destruct Hty; eauto).
  unfold realloc_metric. rewrite Ht. cbn [obind].
  pose proof (define_spec ms name t None 0 Hok Hlen Hc) as Hd. rewrite Hv in Hd.
  destruct Hd as (ms1 & Ho1 & [[-> Hv1]|[-> Hv1]]); cbn [obind].
  2:{ exists NGX_ERROR, ms1. split; [done|]. split; [done|by left]. }
  change (is_ok NGX_OK) with true. cbn [negb deref obind].
  assert (Hz : metric_ok (workers ms) (zero_metric (workers ms) t)) by apply zero_metric_ok.
  assert (Hzt : metric_type (zero_metric (workers ms) t) = Ret t).
  { apply zero_metric_type. by destruct Hc as [-> | ->]. }
  assert (Hw1 : (process_slot None < workers ms1)%nat) by (by rewrite (only_workers _ _ _ Ho1)).
  destruct (metric_value_total t ow m Hm How) as (v & Hval & Hv64).
  destruct Hc as [-> | ->]; cbn match; cbn [obind].
  - unfold metric_value in Hval. cbn match in Hval. change (NGX_WA_METRIC_COUNTER =? NGX_WA_METRIC_COUNTER) with true in *.
    cbn match in *. rewrite Hval. cbn [obind].
    destruct (increment_spec ms1 None (crc name) _ v (only_ok _ _ _ Ho1) Hv1 Hzt Hw1)
      as (ms2 & m2 & -> & Ho2 & Hv2 & Ht2 & Hs2). cbn [obind]. change (is_ok NGX_OK) with true.
    exists NGX_OK, ms2. split; [done|]. split; [by eapply only_trans|right]. split; [done|].
    exists NGX_WA_METRIC_COUNTER, m2. split; [done|]. split; [done|]. split; [done|].
    unfold metric_value. change (NGX_WA_METRIC_COUNTER =? NGX_WA_METRIC_COUNTER) with true. cbn match.
    rewrite Hval, get_counter_spec.
    + f_equal. rewrite (only_workers _ _ _ Ho2), Hs2, (only_workers _ _ _ Ho1).
      rewrite sum_zero_metric by done. by apply wrap64_id.
    + by apply (ok_metrics _ (only_ok _ _ _ Ho2) (crc name)).
  - change (NGX_WA_METRIC_GAUGE =? NGX_WA_METRIC_COUNTER) with false. 
    change (NGX_WA_METRIC_GAUGE =? NGX_WA_METRIC_GAUGE) with true. cbn match.
    unfold metric_value in Hval. change (NGX_WA_METRIC_GAUGE =? NGX_WA_METRIC_COUNTER) with false in Hval.
    cbn match in Hval. rewrite Hval. cbn [obind].
    destruct (record_gauge_spec ms1 None now (crc name) _ v (only_ok _ _ _ Ho1) Hv1 Hzt Hw1)
      as (ms2 & m2 & -> & Ho2 & Hv2 & Ht2 & Hn2 & Hu2 & Hoth). cbn [obind]. change (is_ok NGX_OK) with true.
    exists NGX_OK, ms2. split; [done|]. split; [by eapply only_trans|right]. split; [done|].
    exists NGX_WA_METRIC_GAUGE, m2. split; [done|]. split; [done|]. split; [done|].
    unfold metric_value. change (NGX_WA_METRIC_GAUGE =? NGX_WA_METRIC_COUNTER) with false. cbn match.
    rewrite Hval. rewrite (get_gauge_spec _ _ 0).
    + cbn [process_slot default] in Hn2. by rewrite Hn2, wrap64_id.
    + by apply (ok_metrics _ (only_ok _ _ _ Ho2) (crc name)).
    + by rewrite (only_workers _ _ _ Ho2).
    + lia.
    + intros j Hj. rewrite (only_workers _ _ _ Ho2), (only_workers _ _ _ Ho1) in Hj.
      cbn [process_slot default] in Hoth, Hu2. rewrite Hoth, Hu2 by lia.
      rewrite zero_metric_word by lia. rewrite wrap64_id by done. apply Hnow.
Qed.

(** The old nodes below a node of the tree, each under its hash. *)
Definition movable_nodes (ow : nat) (ms : ngx_wa_metrics_t S) (node : rbtree)
    (old : gmap addr ShmKv.ngx_wa_shm_kv_node_t) : Prop :=
  forall a h, (a, h) ∈ rb_elements node -> exists n, old !! a = Some n /\
    crc (ShmKv.n_key n) = h /\ movable ow ms (ShmKv.n_key n) (ShmKv.n_value n).

Definition all_moved (ow : nat) (ms' : ngx_wa_metrics_t S) (node : rbtree)
    (old : gmap addr ShmKv.ngx_wa_shm_kv_node_t) : Prop :=
  forall a h n, (a, h) ∈ rb_elements node -> old !! a = Some n -> moved ow (ShmKv.n_value n) ms' h.

(** [ms'] is [ms] but for the metrics of a tree. *)
Record only_keys (ms ms' : ngx_wa_metrics_t S) (ks : list Z) : Prop := {
  ok_ok : ms_ok ms';
  ok_workers : workers ms' = workers ms;
  ok_max : max_metric_name_length ms' = max_metric_name_length ms;
  ok_other h : h ∉ ks -> metric_view ms' h = metric_view ms h;
}.

Lemma only_keys_one ms ms' mid ks : only ms ms' mid -> mid ∈ ks -> only_keys ms ms' ks.
Proof.
  intros [? ? ? Ho] Hin. split; try done. intros h Hh. apply Ho. by intros ->.
Qed.

Lemma only_keys_sub ms ms' ks ks' : only_keys ms ms' ks -> ks ⊆ ks' -> only_keys ms ms' ks'.
Proof. intros [? ? ? Ho] Hs. split; try done. intros h Hh. apply Ho. set_solver. Qed.

Lemma only_keys_trans ms1 ms2 ms3 ks :
  only_keys ms1 ms2 ks -> only_keys ms2 ms3 ks -> only_keys ms1 ms3 ks.
Proof.
  intros [_ Hw1 Hm1 Ho1] [Hok Hw2 Hm2 Ho2]. split; [done|congruence..|].
  intros h Hh. by rewrite Ho2, Ho1.
Qed.

Lemma movable_nodes_keys ow ms ms' node node' old ks :
  only_keys ms ms' ks -> (forall x, x ∈ rb_elements node' -> x ∈ rb_elements node) ->
  movable_nodes ow ms node old -> movable_nodes ow ms' node' old.
Proof.
  intros Ho Hsub Hm a h Hin. destruct (Hm a h (Hsub _ Hin)) as (n & Hn & Hc & [Hl Hk Ht]).
  exists n. split; [done|]. split; [done|]. split; [|done|done]. by rewrite (ok_max _ _ _ Ho).
Qed.

Lemma moved_keep ow m ms ms' ks h :
  only_keys ms ms' ks -> h ∉ ks -> moved ow m ms h -> moved ow m ms' h.
Proof.
  intros Ho Hh (t & m' & ? & ? & ? & ?). exists t, m'.
  by rewrite (ok_other _ _ _ Ho), (ok_workers _ _ _ Ho).
Qed.

Lemma realloc_metrics_spec debug now ow old node : forall ms,
  ms_ok ms -> (0 < workers ms)%nat -> (0 < ow)%nat -> is_u64 now ->
  NoDup (rb_keys node) -> movable_nodes ow ms node old ->
  (forall h, h ∈ rb_keys node -> metric_view ms h = None) ->
  exists rc ms', realloc_metrics crc debug now ms node old ow = Ret (rc, ms') /\
    only_keys ms ms' (rb_keys node) /\ (rc = NGX_ERROR \/ rc = NGX_OK /\ all_moved ow ms' node old).
Proof.
  induction node as [|l IHl a k r IHr]; intros ms Hok Hw How Hnow Hnd Hmov Hfresh.
  { exists NGX_OK, ms. split; [done|]. split; [by split|right]. split; [done|].
    intros a h n Hin. by apply elem_of_nil in Hin. }
  cbn [realloc_metrics]. rewrite rb_keys_node in Hnd, Hfresh |- *.
  set (ks := rb_keys l ++ k :: rb_keys r) in *.
  destruct (Hmov a k) as (n & Hn & Hc & Hmv); [cbn; set_solver|]. rewrite Hn. cbn [deref obind].
  apply NoDup_app in Hnd as (Hndl & Hlr & Hndr). apply NoDup_cons in Hndr as [Hkr Hndr].
  assert (Hkl : k ∉ rb_keys l) by (intros Hx; apply (Hlr k Hx); by left).
  destruct (realloc_metric_spec debug now ms (ShmKv.n_key n) (ShmKv.n_value n) ow Hok Hw How Hnow)
    as (rc & ms1 & -> & Ho1 & Hrc1); [rewrite Hc; apply Hfresh; set_solver|done|].
  rewrite Hc in *. apply (only_keys_one _ _ _ [k]) in Ho1; [|by left]. cbn [obind].
  assert (Hk1 : only_keys ms ms1 ks) by (eapply only_keys_sub; [done|set_solver]).
  destruct Hrc1 as [->|[-> Hm1]]; [exists NGX_ERROR, ms1; by auto|].
  change (is_ok NGX_OK) with true. cbn match. cbn [negb].
  destruct (IHl ms1) as (rc & ms2 & -> & Ho2 & Hrc2); try done;
    [apply Hk1|by rewrite (ok_workers _ _ _ Hk1)| | |].
  { eapply movable_nodes_keys; [exact Hk1| |exact Hmov]. cbn. set_solver. }
  { intros h Hh. rewrite (ok_other _ _ _ Ho1) by set_solver. apply Hfresh. set_solver. }
  assert (Hk2 : only_keys ms ms2 ks)
    by (eapply only_keys_trans; [done|]; eapply only_keys_sub; [done|set_solver]).
  cbn [obind]. destruct Hrc2 as [->|[-> Hm2]]; [exists NGX_ERROR, ms2; by auto|].
  change (is_ok NGX_OK) with true. cbn match. cbn [negb].
  destruct (IHr ms2) as (rc & ms3 & -> & Ho3 & Hrc3); try done;
    [apply Hk2|by rewrite (ok_workers _ _ _ Hk2)| | |].
  { eapply movable_nodes_keys; [exact Hk2| |exact Hmov]. cbn. set_solver. }
  { intros h Hh. rewrite (ok_other _ _ _ Ho2) by (intros Hx; apply (Hlr h Hx); by right).
    rewrite (ok_other _ _ _ Ho1) by set_solver. apply Hfresh. set_solver. }
  assert (Hk3 : only_keys ms ms3 ks)
    by (eapply only_keys_trans; [done|]; eapply only_keys_sub; [done|set_solver]).
  cbn [obind]. destruct Hrc3 as [->|[-> Hm3]]; [exists NGX_ERROR, ms3; by auto|].
  exists NGX_OK, ms3. split; [done|]. split; [done|right]. split; [done|].
  intros b h n' Hin Hn'. cbn in Hin. apply elem_of_app in Hin as [Hin|Hin].
  - assert (Hhl : h ∈ rb_keys l) by (apply list_elem_of_fmap; by exists (b, h)).
    eapply moved_keep; [exact Ho3|intros Hx; apply (Hlr h Hhl); by right|by eapply Hm2].
  - apply elem_of_cons in Hin as [[= -> ->]|Hin]; [|by eapply Hm3].
    assert (n' = n) as -> by congruence. 
    eapply moved_keep; [exact Ho3|done|]. by eapply moved_keep; [exact Ho2|..].
Qed.

(** When the number of workers changes, moving the counters and gauges of the
    previous zone to the new one either fails or gives every one of them the value it
    had over the old workers, under the same identifier; metrics of the new zone
    under other identifiers are unchanged. *)
Lemma realloc_preserves_values (debug : bool) (now : Z) (ow : nat)
    (old : gmap addr ShmKv.ngx_wa_shm_kv_node_t) (node : rbtree) (ms : ngx_wa_metrics_t S) :
  ms_ok ms -> (0 < workers ms)%nat -> (0 < ow)%nat -> is_u64 now ->
  NoDup (rb_keys node) -> movable_nodes ow ms node old ->
  (forall h, h ∈ rb_keys node -> metric_view ms h = None) ->
  exists rc ms', realloc_metrics crc debug now ms node old ow = Ret (rc, ms') /\
    (forall h, h ∉ rb_keys node -> metric_view ms' h = metric_view ms h) /\
    (rc = NGX_ERROR \/ rc = NGX_OK /\ all_moved ow ms' node old).
Proof.
  intros Hok Hw How Hnow Hnd Hmov Hfresh.
  destruct (realloc_metrics_spec debug now ow old node ms) as (rc & ms' & E & Ho & Hrc); try done.
  exists rc, ms'. split; [done|]. split; [apply Ho|done].
Qed.

End Laws.

(** ** The key/value store as a store of metrics *)

Section KvStore.
Context {P : Type} `{SlabLaws P} `{R : Rbtree} {RL : RbtreeLaws R}.
Variable crc : bytes -> Z.
Variable geometry : ShmKv.slab_geometry.
Hypothesis Hgeo : ShmKv.geometry_ok geometry.
Let kv := ShmKv.ngx_wa_shm_kv_t P.

(** Writing through the [ngx_str_t] of the node that a lookup returned. *)
Definition kv_poke (s : kv) (h : Z) (v : bytes) : outcome kv :=
  let? a := deref (ShmKv.ngx_wa_shm_rbtree_lookup s h) in
  let? n := deref (ShmKv.nodes s !! a) in
  Ret (ShmKv.set_node s a {| ShmKv.n_hash := ShmKv.n_hash n; ShmKv.n_key := ShmKv.n_key n;
                             ShmKv.n_value := v; ShmKv.n_cas := ShmKv.n_cas n |}).

#[export] Instance kv_metric_store : MetricStore kv P := {
  st_get s h :=
    let? (rc, s, out) :=
      ShmKv.ngx_wa_shm_kv_get_locked crc NGX_WA_SHM_EVICTION_NONE geometry s [] (Some h) in
    Ret (rc, s, fst <$> out);
  st_poke := kv_poke;
  st_insert s k v :=
    let? (rc, s, _) :=
      ShmKv.ngx_wa_shm_kv_set_locked crc NGX_WA_SHM_EVICTION_NONE geometry s k (Some v) 0 in
    Ret (rc, s);
  st_pool := ShmKv.shpool;
  st_with_pool s p := ShmKv.set_heap s (ShmKv.nodes s) p;
}.

Lemma kv_poke_law (s : kv) h v v' :
  ShmKv.wf crc NGX_WA_SHM_EVICTION_NONE geometry s ->
  fst <$> ShmKv.view s h = Some v -> zlen v' = zlen v ->
  exists s', kv_poke s h v' = Ret s' /\
    ShmKv.wf crc NGX_WA_SHM_EVICTION_NONE geometry s' /\
    fst <$> ShmKv.view s' h = Some v' /\
    forall h', h' <> h -> fst <$> ShmKv.view s' h' = fst <$> ShmKv.view s h'.
Proof.
  intros W Hv Hlen. apply fmap_Some in Hv as ([v0 c] & Hv & ->). cbn in Hlen.
  destruct (ShmKv.found_spec crc NGX_WA_SHM_EVICTION_NONE geometry s h W)
    as [(a & n & Hf & Hn & Hh & _ & Hview)|(_ & Hview & _)]; [|congruence].
  rewrite Hview in Hv. injection Hv as <- <-.
  unfold kv_poke, ShmKv.ngx_wa_shm_rbtree_lookup. rewrite Hf. cbn [deref obind]. rewrite Hn.
  cbn [deref obind]. eexists. split; [done|].
  set (n' := {| ShmKv.n_hash := ShmKv.n_hash n |}).
  assert (W' : ShmKv.wf crc NGX_WA_SHM_EVICTION_NONE geometry (ShmKv.set_node s a n')).
  { destruct W as [L Hne Hs Hl]. split; cbn.
    - by apply ShmKv.links_update with n.
    - by rewrite map_size_insert, Hn.
    - by rewrite map_size_insert, Hn.
    - intros b. rewrite lookup_insert_is_Some. intros [->|[_ ?]]; eauto. }
  split; [done|]. split.
  - assert (ShmKv.view (ShmKv.set_node s a n') h = Some (v', ShmKv.n_cas n)) as ->; [|done].
    eapply ShmKv.view_Some; [done|]. exists a, n'. cbn. by rewrite lookup_insert_eq.
  - intros h' Hne. f_equal. apply option_eq. intros [v2 c2].
    rewrite !(ShmKv.view_Some crc NGX_WA_SHM_EVICTION_NONE geometry) by done. cbn.
    split; intros (b & m & Hm & Hmh & ?); exists b, m.
    + rewrite lookup_insert_Some in Hm. destruct Hm as [[<- <-]|[_ Hm]]; [cbn in *; congruence|done].
    + rewrite lookup_insert_ne; [done|]. intros <-. congruence.
Qed.

Lemma kv_insert_law (s : kv) k v :
  ShmKv.wf crc NGX_WA_SHM_EVICTION_NONE geometry s -> fst <$> ShmKv.view s (crc k) = None ->
  exists rc s', st_insert s k v = Ret (rc, s') /\
    ShmKv.wf crc NGX_WA_SHM_EVICTION_NONE geometry s' /\
    (forall h, h <> crc k -> fst <$> ShmKv.view s' h = fst <$> ShmKv.view s h) /\
    (rc = NGX_OK /\ fst <$> ShmKv.view s' (crc k) = Some v \/
     rc = NGX_ERROR /\ fst <$> ShmKv.view s' (crc k) = None).
Proof.
  intros W Hv. apply fmap_None in Hv.
  destruct (ShmKv.set_value_outcome crc NGX_WA_SHM_EVICTION_NONE geometry Hgeo s k v W)
    as (kv1 & Hev & _ & Ho).
  assert (kv1 = s) as -> by (eapply ShmKv.no_evictions; [|exact Hev]; done).
  assert (Hc : ShmKv.current_cas s (crc k) = 0) by (unfold ShmKv.current_cas; by rewrite Hv).
  rewrite Hc in Ho. unfold st_insert, kv_metric_store.
  inversion Ho as [kv' W' Hv' Hoth E|? ? E|Hs _ E]; cbn [obind].
  - exists NGX_OK, kv'. split; [done|]. split; [done|]. split; [|left; by rewrite Hv'].
    intros h Hh. by rewrite Hoth.
  - exists NGX_ERROR, s. split; [done|]. split; [done|]. split; [done|right; by rewrite Hv].
  - rewrite Hv in Hs. by destruct Hs.
Qed.

Lemma kv_get_law (s : kv) h :
  ShmKv.wf crc NGX_WA_SHM_EVICTION_NONE geometry s ->
  let v := fst <$> ShmKv.view s h in
  st_get s h = Ret (match v with Some _ => NGX_OK | None => NGX_DECLINED end, s, v).
Proof.
  intros W v. unfold v, st_get, kv_metric_store, ShmKv.ngx_wa_shm_kv_get_locked.
  destruct (ShmKv.found_spec crc NGX_WA_SHM_EVICTION_NONE geometry s h W)
    as [(a & n & Hf & Hn & _ & _ & ->)|(Hf & -> & _)];
    unfold ShmKv.ngx_wa_shm_rbtree_lookup; rewrite Hf; [|done].
  by rewrite Hn.
Qed.

#[export] Instance kv_metric_store_laws : MetricStoreLaws kv P crc := {
  st_ok := ShmKv.wf crc NGX_WA_SHM_EVICTION_NONE geometry;
  st_view s h := fst <$> ShmKv.view s h;
  st_get_law := kv_get_law;
  st_poke_law := kv_poke_law;
  st_insert_law := kv_insert_law;
}.

End KvStore.

(** ** Concrete metrics *)

Import NginxCore.Reference.
Import ShmKv.

#[local] Instance sum_store : MetricStore (ngx_wa_shm_kv_t quota) quota :=
  kv_metric_store sum_hash geometry_4k.
#[local] Instance sum_store_laws : MetricStoreLaws (ngx_wa_shm_kv_t quota) quota sum_hash :=
  kv_metric_store_laws sum_hash geometry_4k geometry_4k_ok.

Lemma kv_ms_ok (ms : ngx_wa_metrics_t (ngx_wa_shm_kv_t quota)) :
  ShmKv.wf sum_hash NGX_WA_SHM_EVICTION_NONE geometry_4k (store ms) ->
  map_Forall (fun _ n => zlen (n_value n) = metric_size (workers ms)) (nodes (store ms)) ->
  ms_ok ms.
Proof.
  intros W Hall. split; [exact W|]. intros mid m Hv. unfold metric_view in Hv. cbn in Hv.
  apply fmap_Some in Hv as ([v c] & Hv & ->).
  apply (view_Some sum_hash NGX_WA_SHM_EVICTION_NONE geometry_4k) in Hv as (a & n & Hn & _ & <- & _);
    [|done]. exact (Hall a n Hn).
Qed.

(** A counter and a gauge over [w] workers. *)
Definition example_metrics (w : nat) : ngx_wa_metrics_t (ngx_wa_shm_kv_t quota) :=
  {| workers := w; max_metric_name_length := 10;
     store := store_of NGX_WA_SHM_EVICTION_NONE 2000
       [ (ngx_string "c", Some (zero_metric w NGX_WA_METRIC_COUNTER), 0);
         (ngx_string "g", Some (zero_metric w NGX_WA_METRIC_GAUGE), 0) ];
     heap := ∅ |}.

Lemma example_metrics_ok w : w ∈ [1%nat; 2%nat] -> ms_ok (example_metrics w).
Proof.
  intros Hw. apply kv_ms_ok.
  - apply ShmKv.reachable_wf; [exact geometry_4k_ok|]. by apply store_of_reachable.
  - repeat (apply elem_of_cons in Hw as [->|Hw]); [| |by apply elem_of_nil in Hw];
      by apply (bool_decide_unpack _).
Qed.

Lemma counter_counts_all_example :
  let ms := example_metrics 2 in
  let l := [ (Some 0%nat, 5); (Some 1%nat, 2 ^ 64 - 2); (None, 1) ] in
  exists ms', increments ms (sum_hash (ngx_string "c")) l = Ret (NGX_OK, ms') /\
    ngx_wa_metrics_get (P := quota) true ms' (sum_hash (ngx_string "c")) 1%positive =
      Ret (NGX_OK, ms', Some (NGX_WA_METRIC_COUNTER, 4)).
Proof.
  intros ms l.
  destruct (counter_counts_all (P := quota) (crc := sum_hash) true ms (sum_hash (ngx_string "c"))
    (zero_metric 2 NGX_WA_METRIC_COUNTER) 0 l 1%positive) as (ms' & E & _ & Eg).
  - apply example_metrics_ok. by right; left.
  - vm_compute. reflexivity.
  - vm_compute. reflexivity.
  - repeat constructor.
  - exists ms'. split; [exact E|]. etransitivity; [exact Eg|]. vm_compute. reflexivity.
Defined.

Lemma gauge_last_update_wins_example :
  let ms := example_metrics 2 in
  exists ms', ngx_wa_metrics_record (P := quota) ms (Some 1%nat) 100 (sum_hash (ngx_string "g")) 42
      = Ret (NGX_OK, ms') /\
    ngx_wa_metrics_get (P := quota) true ms' (sum_hash (ngx_string "g")) 1%positive =
      Ret (NGX_OK, ms', Some (NGX_WA_METRIC_GAUGE, 42)).
Proof.
  intros ms.
  destruct (gauge_last_update_wins (P := quota) (crc := sum_hash) true ms (Some 1%nat) 100
    (sum_hash (ngx_string "g")) 42 (zero_metric 2 NGX_WA_METRIC_GAUGE) 1%positive)
    as (ms' & E & _ & Eg).
  - apply example_metrics_ok. by right; left.
  - vm_compute. reflexivity.
  - vm_compute. reflexivity.
  - cbn. lia.
  - unfold is_u64. lia.
  - intros j Hj. cbn in Hj. assert (j = 0%nat) as -> by lia. vm_compute. reflexivity.
  - intros j Hj. cbn in Hj. lia.
  - exists ms'. split; [exact E|exact Eg].
Defined.

Lemma define_metric_example :
  let ms := example_metrics 2 in
  ngx_wa_metrics_define sum_hash ms (ngx_string "c") NGX_WA_METRIC_GAUGE None 0 =
    Ret (NGX_OK, ms, Some 99) /\
  ngx_wa_metrics_define sum_hash ms (ngx_string "a long name") NGX_WA_METRIC_GAUGE None 0 =
    Ret (NGX_BUSY, ms, None).
Proof.
  intros ms. assert (Hok : ms_ok ms) by (apply example_metrics_ok; by right; left).
  destruct (define_metric (P := quota) (crc := sum_hash) true ms (ngx_string "c")
    NGX_WA_METRIC_GAUGE None 0 1%positive Hok) as (_ & _ & H1); [cbn; lia|].
  destruct (define_metric (P := quota) (crc := sum_hash) true ms (ngx_string "a long name")
    NGX_WA_METRIC_GAUGE None 0 1%positive Hok) as (_ & H2 & _); [cbn; lia|].
  split.
  - specialize (H1 ltac:(vm_compute; by split) ltac:(vm_compute; discriminate)).
    assert (Hv : is_Some (metric_view ms (sum_hash (ngx_string "c")))) by (vm_compute; eauto).
    destruct (metric_view ms (sum_hash (ngx_string "c"))); [exact H1|by destruct Hv].
  - apply H2; vm_compute; [by split|reflexivity].
Defined.

Lemma metric_misuse_example :
  let ms := example_metrics 2 in
  ngx_wa_metrics_increment (P := quota) ms None 5 1 = Ret (NGX_DECLINED, ms) /\
  ngx_wa_metrics_increment (P := quota) ms None (sum_hash (ngx_string "g")) 1 = Ret (NGX_ABORT, ms).
Proof.
  intros ms. assert (Hok : ms_ok ms) by (apply example_metrics_ok; by right; left).
  pose proof (metric_misuse (P := quota) (crc := sum_hash) true ms None 0 5 1 1%positive Hok) as H5.
  pose proof (metric_misuse (P := quota) (crc := sum_hash) true ms None 0
    (sum_hash (ngx_string "g")) 1 1%positive Hok) as Hg.
  split.
  - assert (Hv : metric_view ms 5 = None) by (vm_compute; reflexivity). rewrite Hv in H5. apply H5.
  - assert (Hv : metric_view ms (sum_hash (ngx_string "g")) = Some (zero_metric 2 NGX_WA_METRIC_GAUGE))
      by (vm_compute; reflexivity).
    rewrite Hv in Hg. destruct Hg as (t & Ht & Hg & _). apply Hg.
    vm_compute in Ht. injection Ht as <-. discriminate.
Defined.

(** One worker's metrics moved to a zone for two workers. *)
Lemma realloc_preserves_values_example :
  let old := store (example_metrics 1) in
  let ms := {| workers := 2; max_metric_name_length := 10;
               store := store_of NGX_WA_SHM_EVICTION_NONE 2000 []; heap := ∅ |} in
  exists ms', realloc_metrics (P := quota) sum_hash true 7 ms (tree old) (nodes old) 1 = Ret (NGX_OK, ms') /\
    all_moved 1 ms' (tree old) (nodes old).
Proof.
  intros old ms.
  destruct (realloc_preserves_values (P := quota) (crc := sum_hash) true 7 1 (nodes old) (tree old) ms)
    as (rc & ms' & E & _ & Hrc).
  - apply kv_ms_ok; [|by apply (bool_decide_unpack _)].
    apply ShmKv.reachable_wf; [exact geometry_4k_ok|]. by apply store_of_reachable.
  - cbn. lia.
  - lia.
  - unfold is_u64. lia.
  - by apply (bool_decide_unpack _).
  - intros a h Hin. vm_compute in Hin.
    repeat (apply elem_of_cons in Hin as [[= -> ->]|Hin]; [|]); [| |by apply elem_of_nil in Hin];
      (eexists; split; [vm_compute; reflexivity|]; split; [vm_compute; reflexivity|];
       split; [vm_compute; discriminate|reflexivity|vm_compute; auto]).
  - intros h _. apply fmap_None. reflexivity.
  - exists ms'. destruct Hrc as [->|[-> Hm]]; [|split; [exact E|exact Hm]].
    exfalso. vm_compute in E. discriminate E.
Defined.

(** A zone of one worker with one histogram of six custom bounds, at address 102. *)
Definition custom_histogram_node : ngx_wa_shm_kv_node_t :=
  {| n_hash := 104; n_key := ngx_string "h"; n_cas := 1;
     n_value := enc32 NGX_WA_METRIC_HISTOGRAM ++ replicate 4 x00 ++ enc64 102 ++ replicate 8 x00 |}.

(** Moving it to the zone of two workers: the new histogram has five logarithmic
    bins and the sixth bound is written past its end. *)
Example realloc_custom_histogram_overflow :
  realloc_metrics (P := quota) sum_hash true 7
    {| workers := 2; max_metric_name_length := 10;
       store := store_of NGX_WA_SHM_EVICTION_NONE 2000 [];
       heap := {[ 102%positive := new_histogram NGX_WA_HISTOGRAM_CUSTOM 7
                                    (initial_bins (Some [1; 2; 3; 4; 5; 6])) ]} |}
    (RbNode Sentinel 1%positive 104 Sentinel) {[ 1%positive := custom_histogram_node ]} 1
  = Fault F_memory.
Proof. vm_compute. reflexivity. Qed.

End Metrics.
