(* ===== verification/Escape.v ===== *)
(** * Percent-encoding (src/src/http/ngx_http_wasm_escape.c)

    [ngx_http_wasm_escape] counts the bytes to escape, or writes the escaped
    string to a buffer; [ngx_http_copy_escaped] (ngx_http_wasm_util.c) sizes the
    buffer with the count.  Headers set by filters are escaped by it. *)
From S2P Require Import Prelude.

Inductive ngx_http_wasm_escape_kind :=
| NGX_HTTP_WASM_ESCAPE_URI
| NGX_HTTP_WASM_ESCAPE_URI_COMPONENT
| NGX_HTTP_WASM_ESCAPE_ARGS
| NGX_HTTP_WASM_ESCAPE_HEADER_NAME
| NGX_HTTP_WASM_ESCAPE_HEADER_VALUE.

Module Escape.

Definition uri : list Z :=
  [0xffffffff; 0x80000029; 0x00000000; 0x80000000;
   0xffffffff; 0xffffffff; 0xffffffff; 0xffffffff].
Definition uri_component : list Z :=
  [0xffffffff; 0xfc00987d; 0x78000001; 0xb8000001;
   0xffffffff; 0xffffffff; 0xffffffff; 0xffffffff].
Definition args : list Z :=
  [0xffffffff; 0x80000829; 0x00000000; 0x80000000;
   0xffffffff; 0xffffffff; 0xffffffff; 0xffffffff].
Definition header_name : list Z :=
  [0xffffffff; 0xfc009305; 0x38000001; 0xa8000000;
   0xffffffff; 0xffffffff; 0xffffffff; 0xffffffff].
Definition header_value : list Z :=
  [0xfffffdff; 0x00000000; 0x00000000; 0x80000000;
   0x00000000; 0x00000000; 0x00000000; 0x00000000].

Definition map (kind : ngx_http_wasm_escape_kind) : list Z :=
  match kind with
  | NGX_HTTP_WASM_ESCAPE_URI => uri
  | NGX_HTTP_WASM_ESCAPE_URI_COMPONENT => uri_component
  | NGX_HTTP_WASM_ESCAPE_ARGS => args
  | NGX_HTTP_WASM_ESCAPE_HEADER_NAME => header_name
  | NGX_HTTP_WASM_ESCAPE_HEADER_VALUE => header_value
  end.

(** [escape[c >> 5] & (1 << (c & 0x1f))] is not zero. *)
Definition escaped (kind : ngx_http_wasm_escape_kind) (c : byte) : bool :=
  negb (Z.land (nth (Z.to_nat (Z.shiftr (b2z c) 5)) (map kind) 0)
               (Z.shiftl 1 (Z.land (b2z c) 0x1f)) =? 0).

Definition hex : bytes := ngx_string "0123456789ABCDEF".
Definition hex_digit (d : Z) : byte := nth (Z.to_nat d) hex x00.

(** The pass with [dst == NULL]. *)
Fixpoint escape_count (kind : ngx_http_wasm_escape_kind) (src : bytes) (n : Z) : Z :=
  match src with
  | [] => n
  | c :: src => escape_count kind src (if escaped kind c then n + 1 else n)
  end.

(** The pass that writes to [dst] from the position [pos]. *)
Fixpoint escape_write (kind : ngx_http_wasm_escape_kind) (dst : bytes) (pos : Z) (src : bytes)
  : outcome bytes :=
  match src with
  | [] => Ret dst
  | c :: src =>
      if escaped kind c then
        let? dst := mem_write dst pos ["%"%byte] in
        let? dst := mem_write dst (pos + 1) [hex_digit (Z.shiftr (b2z c) 4)] in
        let? dst := mem_write dst (pos + 2) [hex_digit (Z.land (b2z c) 0xf)] in
        escape_write kind dst (pos + 3) src
      else
        let? dst := mem_write dst pos [c] in
        escape_write kind dst (pos + 1) src
  end.

(** The result and the contents of [dst]. *)
Definition ngx_http_wasm_escape (dst : option bytes) (src : bytes)
    (kind : ngx_http_wasm_escape_kind) : outcome (Z * option bytes) :=
  match dst with
  | None => Ret (escape_count kind src 0, None)
  | Some dst => let? dst := escape_write kind dst 0 src in Ret (0, Some dst)
  end.

(** [ngx_pnalloc size] tells whether the pool has the memory, [fresh size] what it
    holds; the result is the data and the length of the string, [None] for
    [NULL].  A string without a byte to escape keeps its data. *)
Definition ngx_http_copy_escaped (ngx_pnalloc : Z -> bool) (fresh : Z -> bytes) (dst : bytes)
    (kind : ngx_http_wasm_escape_kind) : outcome (option (bytes * Z)) :=
  let len := zlen dst in
  let? (escape, _) := ngx_http_wasm_escape None dst kind in
  if 0 <? escape then
    let len' := len + 2 * escape in
    if ngx_pnalloc (len' + 1) then
      let? (_, data) := ngx_http_wasm_escape (Some (fresh (len' + 1))) dst kind in
      let? data := deref data in
      let? data := mem_write data len' [x00] in
      Ret (Some (data, len'))
    else Ret None
  else Ret (Some (dst, len)).

(** ** What the passes compute *)

Definition encode (kind : ngx_http_wasm_escape_kind) (c : byte) : bytes :=
  if escaped kind c
  then ["%"%byte; hex_digit (Z.shiftr (b2z c) 4); hex_digit (Z.land (b2z c) 0xf)]
  else [c].

Definition escape_string (kind : ngx_http_wasm_escape_kind) (src : bytes) : bytes :=
  src ≫= encode kind.

Lemma escape_count_spec kind src : forall n,
  n + zlen (escape_string kind src) = zlen src + n + 2 * (escape_count kind src 0) /\
  escape_count kind src n = n + escape_count kind src 0 /\ 0 <= escape_count kind src 0.
Proof.
  induction src as [|c src IH]; intros n; cbn [escape_count]; [cbn; zlia|].
  change (escape_string kind (c :: src)) with (encode kind c ++ escape_string kind src).
  rewrite zlen_app, zlen_cons. unfold encode.
  destruct (escaped kind c); zlen_simpl.
  - destruct (IH (n + 1)) as (_ & E1 & _), (IH (0 + 1)) as (_ & E2 & _), (IH 0) as (E3 & _ & ?). lia.
  - destruct (IH n) as (_ & E1 & _), (IH 0) as (E3 & _ & ?). lia.
Qed.

Lemma mem_write_at pre data tl :
  mem_write (pre ++ tl) (zlen pre) data =
    if zlen data <=? zlen tl then Ret (pre ++ data ++ drop (length data) tl) else Fault F_memory.
Proof.
  unfold mem_write. pose proof (zlen_nonneg pre). rewrite (proj2 (Z.leb_le 0 _)) by done. cbn [andb].
  rewrite zlen_app. destruct (Z.leb_spec (zlen pre + zlen data) (zlen pre + zlen tl)),
    (Z.leb_spec (zlen data) (zlen tl)); try lia; [|done].
  f_equal. unfold zlen. rewrite Nat2Z.id, take_app_length. do 2 f_equal.
  replace (Z.to_nat (Z.of_nat (length pre) + Z.of_nat (length data))) with (length pre + length data)%nat by lia.
  by rewrite drop_app_add'.
Qed.

Lemma mem_write_byte pre t tl c :
  mem_write (pre ++ t :: tl) (zlen pre) [c] = Ret ((pre ++ [c]) ++ tl).
Proof.
  rewrite mem_write_at, (proj2 (Z.leb_le _ _)) by (zlen_simpl; pose proof (zlen_nonneg tl); lia).
  by rewrite <- app_assoc.
Qed.

Lemma zlen_snoc (pre : bytes) c k : zlen pre + (1 + k) = zlen (pre ++ [c]) + k.
Proof. zlen_simpl. lia. Qed.

(** Writing stays inside a buffer as long as the escaped string. *)
Lemma escape_write_spec kind src : forall pre tl,
  zlen (escape_string kind src) <= zlen tl ->
  escape_write kind (pre ++ tl) (zlen pre) src =
    Ret (pre ++ escape_string kind src ++ drop (length (escape_string kind src)) tl).
Proof.
  induction src as [|c src IH]; intros pre tl Hlen; cbn [escape_write]; [by rewrite drop_0|].
  change (escape_string kind (c :: src)) with (encode kind c ++ escape_string kind src) in *.
  rewrite zlen_app in Hlen. pose proof (zlen_nonneg (escape_string kind src)) as Hpos.
  unfold encode in *. destruct (escaped kind c) eqn:E.
  - destruct tl as [|t1 [|t2 [|t3 tl]]]; zlen_simpl; try lia.
    rewrite mem_write_byte. cbn [obind].
    change 1 with (1 + 0) at 1. rewrite (zlen_snoc pre "%"%byte), Z.add_0_r, mem_write_byte. cbn [obind].
    change 2 with (1 + (1 + 0)). rewrite (zlen_snoc pre "%"%byte).
    rewrite (zlen_snoc _ (hex_digit (Z.shiftr (b2z c) 4))), Z.add_0_r, mem_write_byte. cbn [obind].
    change 3 with (1 + (1 + (1 + 0))). rewrite (zlen_snoc pre "%"%byte).
    rewrite (zlen_snoc _ (hex_digit (Z.shiftr (b2z c) 4))).
    rewrite (zlen_snoc _ (hex_digit (Z.land (b2z c) 15))), Z.add_0_r.
    rewrite IH by lia. by rewrite <- !app_assoc.
  - destruct tl as [|t tl]; zlen_simpl; [lia|]. rewrite mem_write_byte. cbn [obind].
    change 1 with (1 + 0) at 1. rewrite (zlen_snoc pre c), Z.add_0_r.
    rewrite IH by lia. by rewrite <- !app_assoc.
Qed.

Lemma escape_string_id kind src : escape_count kind src 0 = 0 -> escape_string kind src = src.
Proof.
  induction src as [|c src IH]; [done|]. cbn [escape_count]. intros Hc.
  change (escape_string kind (c :: src)) with (encode kind c ++ escape_string kind src).
  unfold encode. destruct (escaped kind c) eqn:E.
  - destruct (escape_count_spec kind src (0 + 1)) as (_ & Hn & ?). lia.
  - by rewrite IH.
Qed.

(** What a copy is, behind the theorem below and the headers set by filters. *)
Lemma copy_escaped_eq (ngx_pnalloc : Z -> bool) (fresh : Z -> bytes) (src : bytes)
    (kind : ngx_http_wasm_escape_kind) :
  (forall n, 0 <= n -> zlen (fresh n) = n) ->
  let e := escape_string kind src in
  ngx_http_copy_escaped ngx_pnalloc fresh src kind =
    Ret (if bool_decide (e = src) then Some (src, zlen src)
         else if ngx_pnalloc (zlen e + 1) then Some (e ++ [x00], zlen e) else None).
Proof.
  intros Hfresh e. unfold ngx_http_copy_escaped. cbn [ngx_http_wasm_escape obind].
  destruct (escape_count_spec kind src 0) as (Hlen & _ & Hpos). fold e in Hlen.
  destruct (Z.ltb_spec 0 (escape_count kind src 0)) as [Hlt|Hge].
  - rewrite bool_decide_false by (intros E; rewrite E in Hlen; lia).
    replace (zlen src + 2 * escape_count kind src 0) with (zlen e) by lia.
    destruct (ngx_pnalloc (zlen e + 1)); [|done].
    assert (Hf : zlen (fresh (zlen e + 1)) = zlen e + 1) by (apply Hfresh; pose proof (zlen_nonneg e); lia).
    pose proof (escape_write_spec kind src [] (fresh (zlen e + 1))) as Hw.
    cbn [app] in Hw. rewrite zlen_nil in Hw. cbn [ngx_http_wasm_escape]. rewrite Hw by (fold e; lia).
    cbn [obind deref]. fold e. rewrite mem_write_at.
    assert (Hd : zlen (drop (length e) (fresh (zlen e + 1))) = 1) by (unfold zlen in *; rewrite length_drop; lia).
    rewrite Hd. cbn [zlen length]. cbn [Z.leb Z.compare]. cbn. do 3 f_equal.
    destruct (drop (length e) _) as [|t [|]]; unfold zlen in Hd; cbn in Hd; try lia. done.
  - rewrite bool_decide_true by (apply escape_string_id; lia). done.
Qed.

(** C32. Escaping copies exactly: the buffer sized by the counting pass is filled by
    the writing pass without going past it, whatever the string and the kind, and
    holds the escaped string followed by a null byte; without memory the result
    is [NULL]. *)
Theorem copy_escaped_exact (ngx_pnalloc : Z -> bool) (fresh : Z -> bytes) (src : bytes)
    (kind : ngx_http_wasm_escape_kind) :
  (forall n, 0 <= n -> zlen (fresh n) = n) ->
  let e := escape_string kind src in
  ngx_http_copy_escaped ngx_pnalloc fresh src kind =
    Ret (if bool_decide (e = src) then Some (src, zlen src)
         else if ngx_pnalloc (zlen e + 1) then Some (e ++ [x00], zlen e) else None).
Proof. apply copy_escaped_eq. Qed.

Lemma copy_escaped_exact_witness :
  ngx_http_copy_escaped (fun _ => true) (fun n => replicate (Z.to_nat n) x00)
    (ngx_string "a b%") NGX_HTTP_WASM_ESCAPE_URI = Ret (Some (ngx_string "a%20b%25" ++ [x00], 8)).
Proof.
  etransitivity;
    [apply (copy_escaped_exact (fun _ => true) (fun n => replicate (Z.to_nat n) x00)
       (ngx_string "a b%") NGX_HTTP_WASM_ESCAPE_URI)|].
  - intros n Hn. unfold zlen. rewrite length_replicate. lia.
  - vm_compute. reflexivity.
Defined.

(** ** What escaped strings are made of *)

(** Checks a property of all bytes. *)
Definition all_bytes : list byte := z2b <$> (Z.of_nat <$> seq 0 256).

Lemma all_bytes_elem c : c ∈ all_bytes.
Proof.
  unfold all_bytes. apply list_elem_of_fmap. exists (b2z c). split; [by rewrite z2b_b2z|].
  apply list_elem_of_fmap. pose proof (b2z_range c). exists (Z.to_nat (b2z c)).
  split; [lia|]. apply elem_of_seq. lia.
Qed.

Lemma byte_forall (p : byte -> bool) : forallb p all_bytes = true -> forall c, p c = true.
Proof.
  intros Hall c. rewrite List.forallb_forall in Hall. apply Hall.
  apply list_elem_of_In, all_bytes_elem.
Qed.

Lemma elem_of_escape_string kind src c :
  c ∈ escape_string kind src -> exists d, d ∈ src /\ c ∈ encode kind d.
Proof. intros Hc. apply list_elem_of_bind in Hc as (d & ? & ?). eauto. Qed.

(** The characters of a token (RFC 9110, section 5.6.2). *)
Definition is_tchar (c : byte) : bool :=
  let z := b2z c in
  (0x30 <=? z) && (z <=? 0x39) || (0x41 <=? z) && (z <=? 0x5a) || (0x61 <=? z) && (z <=? 0x7a)
  || bool_decide (c ∈ ngx_string "!#$%&'*+-.^_`|~").

(** Control characters, the horizontal tab excepted. *)
Definition is_ctl (c : byte) : bool :=
  let z := b2z c in (z <? 0x20) && negb (z =? 0x09) || (z =? 0x7f).

(** C34. Header injection: an escaped header name is made of token characters and an
    escaped header value holds no control character but tabs, so neither holds a
    line break or a null byte; strings of such characters are left unchanged. *)
Theorem escaped_headers_are_safe (src : bytes) :
  (forall c, c ∈ escape_string NGX_HTTP_WASM_ESCAPE_HEADER_NAME src -> is_tchar c = true) /\
  (forall c, c ∈ escape_string NGX_HTTP_WASM_ESCAPE_HEADER_VALUE src -> is_ctl c = false) /\
  (Forall (fun c => is_tchar c = true) src -> escape_string NGX_HTTP_WASM_ESCAPE_HEADER_NAME src = src) /\
  (Forall (fun c => is_ctl c = false) src -> escape_string NGX_HTTP_WASM_ESCAPE_HEADER_VALUE src = src).
Proof.
  set (N := NGX_HTTP_WASM_ESCAPE_HEADER_NAME). set (V := NGX_HTTP_WASM_ESCAPE_HEADER_VALUE).
  assert (HN : forall d, forallb is_tchar (encode N d) &&
                (negb (is_tchar d) || bool_decide (encode N d = [d])) = true)
    by (apply byte_forall; vm_compute; reflexivity).
  assert (HV : forall d, forallb (fun c => negb (is_ctl c)) (encode V d) &&
                (is_ctl d || bool_decide (encode V d = [d])) = true)
    by (apply byte_forall; vm_compute; reflexivity).
  split; [|split; [|split]].
  - intros c (d & _ & Hc)%elem_of_escape_string. specialize (HN d).
    apply andb_true_iff in HN as [HN _]. rewrite List.forallb_forall in HN.
    apply HN. by apply list_elem_of_In.
  - intros c (d & _ & Hc)%elem_of_escape_string. specialize (HV d).
    apply andb_true_iff in HV as [HV _]. rewrite List.forallb_forall in HV.
    apply negb_true_iff, HV. by apply list_elem_of_In.
  - induction 1 as [|d src Hd _ IH]; [done|].
    change (encode N d ++ escape_string N src = d :: src). rewrite IH. specialize (HN d).
    rewrite Hd in HN. apply andb_true_iff in HN as [_ HN]. apply bool_decide_eq_true in HN. by rewrite HN.
  - induction 1 as [|d src Hd _ IH]; [done|].
    change (encode V d ++ escape_string V src = d :: src). rewrite IH. specialize (HV d).
    rewrite Hd in HV. apply andb_true_iff in HV as [_ HV]. apply bool_decide_eq_true in HV. by rewrite HV.
Qed.

Lemma escaped_headers_are_safe_witness :
  escape_string NGX_HTTP_WASM_ESCAPE_HEADER_VALUE (ngx_string "no-store, max-age=0") =
    ngx_string "no-store, max-age=0".
Proof.
  apply (proj2 (proj2 (proj2 (escaped_headers_are_safe (ngx_string "no-store, max-age=0"))))).
  repeat constructor.
Defined.

(** *** Decoding *)

Definition hex_value (c : byte) : option Z :=
  let z := b2z c in
  if (0x30 <=? z) && (z <=? 0x39) then Some (z - 0x30)
  else if (0x41 <=? z) && (z <=? 0x46) then Some (z - 0x41 + 10)
  else if (0x61 <=? z) && (z <=? 0x66) then Some (z - 0x61 + 10)
  else None.

(** The reference decoder: [%XX] is a byte, any other character itself. *)
Fixpoint decode (src : bytes) : option bytes :=
  match src with
  | "%"%byte :: rest =>
      match rest with
      | h :: l :: src =>
          h ← hex_value h; l ← hex_value l; d ← decode src; Some (z2b (16 * h + l) :: d)
      | _ => None
      end
  | c :: src => d ← decode src; Some (c :: d)
  | [] => Some []
  end.

Definition reversible (kind : ngx_http_wasm_escape_kind) : Prop :=
  kind = NGX_HTTP_WASM_ESCAPE_URI \/ kind = NGX_HTTP_WASM_ESCAPE_URI_COMPONENT \/
  kind = NGX_HTTP_WASM_ESCAPE_ARGS.

Lemma decode_encode kind c src :
  reversible kind -> decode (encode kind c ++ src) = d ← decode src; Some (c :: d).
Proof.
  intros Hk. unfold encode. destruct (escaped kind c) eqn:E.
  - cbn [app decode].
    assert (Hx : bool_decide (hex_value (hex_digit (Z.shiftr (b2z c) 4)) = Some (Z.shiftr (b2z c) 4)) &&
      bool_decide (hex_value (hex_digit (Z.land (b2z c) 15)) = Some (Z.land (b2z c) 15)) &&
      bool_decide (z2b (16 * Z.shiftr (b2z c) 4 + Z.land (b2z c) 15) = c) = true).
    { revert c E. intros c _. revert c.
      apply (byte_forall (fun c => bool_decide (hex_value (hex_digit (Z.shiftr (b2z c) 4)) = Some (Z.shiftr (b2z c) 4)) &&
        bool_decide (hex_value (hex_digit (Z.land (b2z c) 15)) = Some (Z.land (b2z c) 15)) &&
        bool_decide (z2b (16 * Z.shiftr (b2z c) 4 + Z.land (b2z c) 15) = c))).
      vm_compute. reflexivity. }
    apply andb_true_iff in Hx as [Hx H3]. apply andb_true_iff in Hx as [H1 H2].
    apply bool_decide_eq_true in H1, H2, H3. rewrite H1, H2. cbn. by rewrite H3.
  - assert (c <> "%"%byte) as Hc.
    { intros ->. destruct Hk as [->|[-> | ->]]; discriminate E. }
    cbn [app]. destruct c; try done.
Qed.

(** Round trip: for the kinds that escape the percent sign, decoding an
    escaped string gives the string back. *)
Lemma decode_escape (kind : ngx_http_wasm_escape_kind) (src : bytes) :
  reversible kind -> decode (escape_string kind src) = Some src.
Proof.
  intros Hk. induction src as [|c src IH]; [done|].
  change (decode (encode kind c ++ escape_string kind src) = Some (c :: src)).
  by rewrite decode_encode, IH.
Qed.

Lemma decode_escape_example :
  decode (escape_string NGX_HTTP_WASM_ESCAPE_ARGS (ngx_string "q=100% +1?")) = Some (ngx_string "q=100% +1?").
Proof. apply decode_escape. right. right. reflexivity. Defined.

End Escape.
