(* ===== verification/Pairs.v ===== *)
(** * Serialized maps (src/src/common/proxy_wasm/ngx_proxy_wasm_util.c)

    Headers cross the boundary of the Wasm module as a serialized map: the count,
    the lengths of keys and values, then keys and values, each followed by a null
    byte.  [ngx_proxy_wasm_marshal] sizes a buffer, has the module allocate it in
    its memory and fills it; [ngx_proxy_wasm_pairs_unmarshal] reads one back.

    A [ngx_list_t] is the list of its elements: nginx never leaves a part after
    the first one empty, so the loops over parts visit them in order.  [ngx_array_t]
    and [ngx_pnalloc] are nginx's. *)
From S2P Require Import Prelude Host.

Module Pairs.

Definition NGX_PROXY_WASM_PTR_SIZE : Z := 4.

(** [ngx_table_elt_t]: an element removed from the list has a null hash. *)
Record ngx_table_elt_t := { hash : Z; key : bytes; value : bytes }.

Fixpoint pairs_count_loop (l : list ngx_table_elt_t) (c : Z) : Z :=
  match l with
  | [] => c
  | e :: l => if hash e =? 0 then pairs_count_loop l c else pairs_count_loop l (c + 1)
  end.

Definition ngx_proxy_wasm_pairs_count (l : list ngx_table_elt_t) : Z := pairs_count_loop l 0.

Definition elt_size (e : ngx_table_elt_t) : Z :=
  NGX_PROXY_WASM_PTR_SIZE * 2 + (zlen (key e) + 1) + (zlen (value e) + 1).

(** The loop over the list: [(size, n)] when it ends. *)
Fixpoint size_list_loop (l : list ngx_table_elt_t) (max n size : Z) : Z * Z :=
  match l with
  | [] => (size, n)
  | e :: l =>
      if hash e =? 0 then size_list_loop l max n size
      else
        let size := size + elt_size e in
        let n := n + 1 in
        if negb (max =? 0) && (max <=? n) then (size, n) else size_list_loop l max n size
  end.

(** The loop over the extras tests [n] before it counts the element. *)
Fixpoint size_extras_loop (l : list ngx_table_elt_t) (max n size : Z) : Z :=
  match l with
  | [] => size
  | e :: l =>
      let size := size + elt_size e in
      if negb (max =? 0) && (max <=? n) then size else size_extras_loop l max (n + 1) size
  end.

Definition ngx_proxy_wasm_pairs_size (l : list ngx_table_elt_t)
    (extras : option (list ngx_table_elt_t)) (max : Z) : Z :=
  let '(size, n) := size_list_loop l max 0 NGX_PROXY_WASM_PTR_SIZE in
  match extras with
  | Some ex => size_extras_loop ex max n size
  | None => size
  end.

(** A buffer and the position of the next write. *)
Definition cursor : Type := bytes * Z.

Definition put (c : cursor) (data : bytes) : outcome cursor :=
  let '(buf, pos) := c in
  let? buf := mem_write buf pos data in Ret (buf, pos + zlen data).

(** A [uint32_t] store through [buf], which then moves by [NGX_PROXY_WASM_PTR_SIZE]. *)
Definition put_u32 (c : cursor) (v : Z) : outcome cursor := put c (enc32 v).

Definition put_lengths (c : cursor) (e : ngx_table_elt_t) : outcome cursor :=
  let? c := put_u32 c (zlen (key e)) in put_u32 c (zlen (value e)).

Definition put_strings (c : cursor) (e : ngx_table_elt_t) : outcome cursor :=
  let? c := put c (key e) in
  let? c := put c [x00] in
  let? c := put c (value e) in
  put c [x00].

(** [for (i = 0; i < extras->nelts && n < count; i++, n++)]. *)
Fixpoint extras_loop (put_elt : cursor -> ngx_table_elt_t -> outcome cursor)
    (l : list ngx_table_elt_t) (count n : Z) (c : cursor) : outcome (cursor * Z) :=
  match l with
  | [] => Ret (c, n)
  | e :: l =>
      if n <? count
      then let? c := put_elt c e in extras_loop put_elt l count (n + 1) c
      else Ret (c, n)
  end.

(** [for (i = 0; n < count; i++)] over the list. *)
Fixpoint list_loop (put_elt : cursor -> ngx_table_elt_t -> outcome cursor)
    (l : list ngx_table_elt_t) (count n : Z) (c : cursor) : outcome (cursor * Z) :=
  if n <? count then
    match l with
    | [] => Ret (c, n)
    | e :: l =>
        if hash e =? 0 then list_loop put_elt l count n c
        else let? c := put_elt c e in list_loop put_elt l count (n + 1) c
    end
  else Ret (c, n).

(** One pass over the extras, then the list. *)
Definition marshal_pass (put_elt : cursor -> ngx_table_elt_t -> outcome cursor)
    (debug : bool) (l : list ngx_table_elt_t) (extras : option (list ngx_table_elt_t))
    (count : Z) (c : cursor) : outcome cursor :=
  let? (c, n) := extras_loop put_elt (default [] extras) count 0 c in
  let? (c, n) := list_loop put_elt l count n c in
  let? _ := ngx_wa_assert debug (n =? count) in
  Ret c.

(** The buffer and the value left in [*truncated], if any. *)
Definition ngx_proxy_wasm_pairs_marshal (debug : bool) (l : list ngx_table_elt_t)
    (extras : option (list ngx_table_elt_t)) (buf : bytes) (max : Z)
  : outcome (bytes * option Z) :=
  let count := wrap32 (ngx_proxy_wasm_pairs_count l) in
  let count := match extras with Some ex => wrap32 (count + zlen ex) | None => count end in
  let '(count, truncated) :=
    if negb (max =? 0) && (max <? count) then (wrap32 max, Some (wrap32 max)) else (count, None) in
  let? c := put_u32 (buf, 0) count in
  let? c := marshal_pass put_lengths debug l extras count c in
  let? c := marshal_pass put_strings debug l extras count c in
  Ret (c.1, truncated).

(** *** Reading *)

Definition get_u32 (buf : bytes) (pos : Z) : outcome (Z * Z) :=
  let? b := mem_read buf pos 4 in
  let? v := deref (dec32 b) in
  Ret (v, pos + NGX_PROXY_WASM_PTR_SIZE).

(** The lengths of the pairs, in [key.len] and [value.len]. *)
Fixpoint read_lengths (buf : bytes) (count : nat) (pos : Z) : outcome (list (Z * Z) * Z) :=
  match count with
  | O => Ret ([], pos)
  | S count =>
      let? (k, pos) := get_u32 buf pos in
      let? (v, pos) := get_u32 buf pos in
      let? (l, pos) := read_lengths buf count pos in
      Ret ((k, v) :: l, pos)
  end.

(** A copy of [len] bytes and their null byte, [None] without memory. *)
Definition read_string (ngx_pnalloc : Z -> bool) (buf : bytes) (len pos : Z)
  : outcome (option bytes * Z) :=
  if ngx_pnalloc (len + 1) then
    let? b := mem_read buf pos (len + 1) in
    Ret (Some (take (Z.to_nat len) b), pos + (len + 1))
  else Ret (None, pos).

(** [None] is the [failed] label. *)
Fixpoint read_strings (ngx_pnalloc : Z -> bool) (buf : bytes) (lens : list (Z * Z)) (pos : Z)
  : outcome (option (list ngx_table_elt_t)) :=
  match lens with
  | [] => Ret (Some [])
  | (klen, vlen) :: lens =>
      let? (k, pos) := read_string ngx_pnalloc buf klen pos in
      match k with
      | None => Ret None
      | Some k =>
          let? (v, pos) := read_string ngx_pnalloc buf vlen pos in
          match v with
          | None => Ret None
          | Some v =>
              let? l := read_strings ngx_pnalloc buf lens pos in
              Ret ((fun l => {| hash := 0; key := k; value := v |} :: l) <$> l)
          end
      end
  end.

(** [array_ok count] tells whether [ngx_array_init] has the memory. *)
Definition ngx_proxy_wasm_pairs_unmarshal (array_ok ngx_pnalloc : Z -> bool) (map : bytes)
  : outcome (ngx_rc * list ngx_table_elt_t) :=
  let? (count, pos) := (if zlen map =? 0 then Ret (0, 0) else get_u32 map 0) in
  if array_ok count then
    let? (lens, pos) := read_lengths map (Z.to_nat count) pos in
    let? r := read_strings ngx_pnalloc map lens pos in
    match r with
    | Some l => Ret (NGX_OK, l)
    | None => Ret (NGX_ERROR, [])
    end
  else Ret (NGX_ERROR, []).

(** *** Into the memory of the module *)

(** What [ngx_proxy_wasm_marshal] leaves to its caller: 0 is returned; a buffer was filled,
    with the results [*out], [*out_size], [*truncated]; or the pointer of the buffer was
    refused: [NGX_WAVM_HOST_LIFT_SLICE] traps the instance and returns
    [NGX_WAVM_BAD_USAGE] from a function whose result tells that all went well, without
    having set [*out]. *)
Inductive marshal_result :=
| marshal_failed
| marshalled (out out_size : Z) (truncated : option Z)
| marshal_bad_slice.

(** [ngx_proxy_wasm_alloc] calls the module: the pointer it returns and the linear
    memory afterwards. *)
Definition ngx_proxy_wasm_marshal (debug : bool) (ngx_proxy_wasm_alloc : bytes -> Z -> Z * bytes)
    (max_pairs : Z) (memory : bytes) (l : list ngx_table_elt_t)
    (shims : option (list ngx_table_elt_t)) : outcome (marshal_result * bytes) :=
  let size := ngx_proxy_wasm_pairs_size l shims max_pairs in
  let '(p, memory) := ngx_proxy_wasm_alloc memory size in
  if p =? 0 then Ret (marshal_failed, memory)
  else if zlen memory <? p + size then Ret (marshal_failed, memory)
  else
    let m := {| Host.mem_base := 0; Host.mem_data := memory |} in
    let '(ptr, ok) := Host.ngx_wavm_memory_lift m p (wrap32 size) 1 in
    if negb ok then Ret (marshal_bad_slice, memory)
    else
      let? slice := Host.load m ptr size in
      let? (slice, truncated) := ngx_proxy_wasm_pairs_marshal debug l shims slice max_pairs in
      let? m := Host.store_at m ptr slice in
      Ret (marshalled p (wrap32 size) truncated, Host.mem_data m).

(** ** The format *)

(** The elements to send: those not removed. *)
Definition live (l : list ngx_table_elt_t) : list ngx_table_elt_t := filter (fun e => hash e <> 0) l.

Definition lengths (e : ngx_table_elt_t) : bytes := enc32 (zlen (key e)) ++ enc32 (zlen (value e)).
Definition strings (e : ngx_table_elt_t) : bytes := key e ++ [x00] ++ value e ++ [x00].

(** The serialized map of a list of pairs. *)
Definition serialize (l : list ngx_table_elt_t) : bytes :=
  enc32 (zlen l) ++ (l ≫= lengths) ++ (l ≫= strings).

Definition total_size (l : list ngx_table_elt_t) : Z := foldr (fun e acc => elt_size e + acc) 0 l.

Lemma zlen_elt e : zlen (lengths e) + zlen (strings e) = elt_size e.
Proof.
  unfold elt_size, lengths, strings. rewrite !zlen_app, !zlen_enc32.
  change NGX_PROXY_WASM_PTR_SIZE with 4. change (zlen [x00]) with 1. lia.
Qed.

Lemma serialize_size l : zlen (serialize l) = NGX_PROXY_WASM_PTR_SIZE + total_size l.
Proof.
  unfold serialize. rewrite !zlen_app, zlen_enc32. change NGX_PROXY_WASM_PTR_SIZE with 4.
  assert (zlen (l ≫= lengths) + zlen (l ≫= strings) = total_size l); [|lia].
  induction l as [|e l IH]; [done|]. rewrite !bind_cons, !zlen_app.
  change (total_size (e :: l)) with (elt_size e + total_size l).
  pose proof (zlen_elt e). lia.
Qed.

Lemma total_size_cons e l : total_size (e :: l) = elt_size e + total_size l.
Proof. done. Qed.

Lemma total_size_app l1 l2 : total_size (l1 ++ l2) = total_size l1 + total_size l2.
Proof. induction l1 as [|e l1 IH]; [done|]. cbn [app]. rewrite !total_size_cons. lia. Qed.

Lemma elt_size_pos e : 10 <= elt_size e.
Proof.
  unfold elt_size, NGX_PROXY_WASM_PTR_SIZE.
  pose proof (zlen_nonneg (key e)). pose proof (zlen_nonneg (value e)). lia.
Qed.

Lemma total_size_nonneg l : 0 <= total_size l.
Proof. induction l as [|e l IH]; [done|]. rewrite total_size_cons. pose proof (elt_size_pos e). lia. Qed.

Lemma zlen_pairs l : zlen (l ≫= lengths) + zlen (l ≫= strings) = total_size l.
Proof.
  induction l as [|e l IH]; [done|]. rewrite !bind_cons, !zlen_app, total_size_cons.
  pose proof (zlen_elt e). lia.
Qed.

Lemma total_size_take k l : total_size (take k l) <= total_size l.
Proof.
  rewrite <- (take_drop k l) at 2. rewrite total_size_app. pose proof (total_size_nonneg (drop k l)). lia.
Qed.

Lemma zlen_take {A} (l : list A) k : 0 <= k -> zlen (take (Z.to_nat k) l) = Z.min k (zlen l).
Proof. intros. unfold zlen. rewrite length_take. lia. Qed.

(** ** Sizes *)

Lemma live_cons e l : live (e :: l) = if hash e =? 0 then live l else e :: live l.
Proof.
  unfold live. rewrite filter_cons. destruct (Z.eqb_spec (hash e) 0); case_decide; done.
Qed.

Lemma pairs_count_spec l : forall c, pairs_count_loop l c = c + zlen (live l).
Proof.
  induction l as [|e l IH]; intros c; cbn [pairs_count_loop]; [by rewrite Z.add_0_r|].
  rewrite live_cons. case_match; rewrite IH; zlen_simpl; lia.
Qed.

Lemma size_list_loop_all l max : forall n size,
  max = 0 \/ n + zlen (live l) <= max ->
  size_list_loop l max n size = (size + total_size (live l), n + zlen (live l)).
Proof.
  induction l as [|e l IH]; intros n size Hm; cbn [size_list_loop].
  - change (live []) with (@nil ngx_table_elt_t). rewrite (zlen_nil (A:=ngx_table_elt_t)). cbn. f_equal; lia.
  - rewrite live_cons in *. destruct (hash e =? 0); [by apply IH|].
    rewrite total_size_cons, zlen_cons in *. pose proof (zlen_nonneg (live l)).
    destruct (negb (max =? 0) && (max <=? n + 1)) eqn:E.
    + apply andb_true_iff in E as [E1 E2]. apply negb_true_iff, Z.eqb_neq in E1. apply Z.leb_le in E2.
      assert (Hz : zlen (live l) = 0) by lia.
      assert (live l = []) as -> by (by apply nil_length_inv; unfold zlen in Hz; lia).
      cbn. f_equal; lia.
    + rewrite IH by lia. f_equal; lia.
Qed.

Lemma size_extras_loop_all l max : forall n size,
  max = 0 \/ n + zlen l <= max -> size_extras_loop l max n size = size + total_size l.
Proof.
  induction l as [|e l IH]; intros n size Hm; cbn [size_extras_loop]; [cbn; lia|].
  rewrite zlen_cons in Hm. rewrite total_size_cons. pose proof (zlen_nonneg l).
  destruct (negb (max =? 0) && (max <=? n)) eqn:E.
  - apply andb_true_iff in E as [E1 E2]. apply negb_true_iff, Z.eqb_neq in E1. apply Z.leb_le in E2. lia.
  - rewrite IH by lia. lia.
Qed.

(** The size of a map that is not truncated. *)
Lemma pairs_size_all l extras max :
  max = 0 \/ zlen (live l) + zlen (default [] extras) <= max ->
  ngx_proxy_wasm_pairs_size l extras max =
    NGX_PROXY_WASM_PTR_SIZE + total_size (default [] extras ++ live l).
Proof.
  intros Hm. unfold ngx_proxy_wasm_pairs_size. pose proof (zlen_nonneg (default [] extras)).
  rewrite size_list_loop_all by lia. rewrite total_size_app. destruct extras as [ex|].
  - change (default [] (Some ex)) with ex in *. rewrite size_extras_loop_all by lia. lia.
  - change (total_size (default [] None)) with 0. lia.
Qed.

Lemma size_list_loop_truncated l max : forall n size,
  0 <= n < max -> max < n + zlen (live l) ->
  size_list_loop l max n size =
    (size + total_size (take (Z.to_nat (max - n)) (live l)), max).
Proof.
  induction l as [|e l IH]; intros n size Hn Hm; cbn [size_list_loop].
  { change (live []) with (@nil ngx_table_elt_t) in Hm. rewrite zlen_nil in Hm. lia. }
  rewrite live_cons in *. destruct (hash e =? 0); [by apply IH|].
  rewrite zlen_cons in Hm.
  replace (Z.to_nat (max - n)) with (S (Z.to_nat (max - (n + 1)))) by lia. cbn [take].
  rewrite total_size_cons. rewrite (proj2 (Z.eqb_neq max 0)) by lia. cbn [negb andb].
  destruct (Z.leb_spec max (n + 1)).
  - replace (Z.to_nat (max - (n + 1))) with 0%nat by lia. rewrite take_0. change (total_size []) with 0. f_equal; lia.
  - rewrite IH by lia. f_equal; lia.
Qed.

(** The size of a list truncated to [max] pairs, without extras. *)
Lemma pairs_size_truncated l max :
  0 < max < zlen (live l) ->
  ngx_proxy_wasm_pairs_size l None max =
    NGX_PROXY_WASM_PTR_SIZE + total_size (take (Z.to_nat max) (live l)).
Proof.
  intros Hm. unfold ngx_proxy_wasm_pairs_size. rewrite size_list_loop_truncated by lia.
  by rewrite Z.sub_0_r.
Qed.

(** ** Writing *)

(** The cursor after [pre], with [tl] ahead. *)
Definition cur (pre tl : bytes) : cursor := (pre ++ tl, zlen pre).

Lemma put_spec pre tl data :
  zlen data <= zlen tl ->
  put (cur pre tl) data = Ret (cur (pre ++ data) (drop (length data) tl)).
Proof.
  intros Hl. unfold put, cur. pose proof (zlen_nonneg pre).
  rewrite mem_write_in by (zlen_simpl; lia). cbn [obind]. f_equal. f_equal; [|by rewrite zlen_app].
  unfold zlen. rewrite Nat2Z.id, take_app_length, <- app_assoc. do 2 f_equal.
  replace (Z.to_nat (Z.of_nat (length pre) + Z.of_nat (length data))) with (length pre + length data)%nat by lia.
  by rewrite drop_app_add'.
Qed.

Definition puts (put_elt : cursor -> ngx_table_elt_t -> outcome cursor)
    (f : ngx_table_elt_t -> bytes) : Prop :=
  forall pre tl e, zlen (f e) <= zlen tl ->
    put_elt (cur pre tl) e = Ret (cur (pre ++ f e) (drop (length (f e)) tl)).

Lemma zlen_drop (data tl : bytes) : zlen (drop (length data) tl) = Z.max 0 (zlen tl - zlen data).
Proof. unfold zlen. rewrite length_drop. lia. Qed.

Lemma put_lengths_puts : puts put_lengths lengths.
Proof.
  intros pre tl e Hl. unfold lengths in *. rewrite zlen_app, !zlen_enc32 in Hl.
  unfold put_lengths, put_u32. rewrite put_spec by (rewrite zlen_enc32; lia). cbn [obind].
  rewrite put_spec by (rewrite zlen_drop, !zlen_enc32; lia).
  by rewrite drop_drop, <- app_assoc, length_app.
Qed.

Lemma put_strings_puts : puts put_strings strings.
Proof.
  intros pre tl e Hl. unfold strings in *. rewrite !zlen_app in Hl. change (zlen [x00]) with 1 in Hl.
  pose proof (zlen_nonneg (key e)). pose proof (zlen_nonneg (value e)).
  assert (H1 : zlen [x00] = 1) by done.
  unfold put_strings. rewrite put_spec by lia. cbn [obind].
  rewrite put_spec by (rewrite zlen_drop; lia). cbn [obind].
  rewrite put_spec by (rewrite !zlen_drop; lia). cbn [obind].
  rewrite put_spec by (rewrite !zlen_drop; lia).
  rewrite !drop_drop, <- !app_assoc. do 3 f_equal. rewrite !length_app. lia.
Qed.

(** How many elements a loop takes. *)
Definition taken (l : list ngx_table_elt_t) (count n : Z) : list ngx_table_elt_t :=
  take (Z.to_nat (count - n)) l.

Lemma taken_cons e l count n :
  taken (e :: l) count n = if n <? count then e :: taken l count (n + 1) else [].
Proof.
  unfold taken. destruct (Z.ltb_spec n count).
  - by replace (Z.to_nat (count - n)) with (S (Z.to_nat (count - (n + 1)))) by lia.
  - by replace (Z.to_nat (count - n)) with 0%nat by lia.
Qed.

Lemma extras_loop_spec put_elt f l count (Hp : puts put_elt f) : forall n pre tl,
  zlen (taken l count n ≫= f) <= zlen tl ->
  extras_loop put_elt l count n (cur pre tl) =
    Ret (cur (pre ++ (taken l count n ≫= f)) (drop (length (taken l count n ≫= f)) tl),
         n + zlen (taken l count n)).
Proof.
  induction l as [|e l IH]; intros n pre tl Hl; cbn [extras_loop].
  - unfold taken. rewrite take_nil. cbn. by rewrite app_nil_r, drop_0, Z.add_0_r.
  - rewrite taken_cons in *. destruct (n <? count).
    + rewrite bind_cons, zlen_app in Hl. pose proof (zlen_nonneg (taken l count (n + 1) ≫= f)).
      rewrite Hp by lia. cbn [obind]. rewrite IH by (rewrite zlen_drop; lia).
      rewrite bind_cons, drop_drop, length_app, <- app_assoc, zlen_cons. do 2 f_equal. lia.
    + cbn. by rewrite app_nil_r, drop_0, Z.add_0_r.
Qed.

Lemma list_loop_spec put_elt f l count (Hp : puts put_elt f) : forall n pre tl,
  zlen (taken (live l) count n ≫= f) <= zlen tl ->
  list_loop put_elt l count n (cur pre tl) =
    Ret (cur (pre ++ (taken (live l) count n ≫= f)) (drop (length (taken (live l) count n ≫= f)) tl),
         n + zlen (taken (live l) count n)).
Proof.
  assert (Hstop : forall k n, count <= n -> taken k count n = []).
  { intros k n Hn. unfold taken. by replace (Z.to_nat (count - n)) with 0%nat by lia. }
  induction l as [|e l IH]; intros n pre tl Hl; cbn [list_loop];
    destruct (Z.ltb_spec n count) as [Hn|Hn];
    try (rewrite Hstop by done; cbn; by rewrite app_nil_r, drop_0, Z.add_0_r).
  - change (live []) with (@nil ngx_table_elt_t). unfold taken. rewrite take_nil. cbn. by rewrite app_nil_r, drop_0, Z.add_0_r.
  - rewrite live_cons in *. destruct (hash e =? 0); [by apply IH|].
    rewrite taken_cons, (proj2 (Z.ltb_lt _ _)) in * by done.
    rewrite bind_cons, zlen_app in Hl. pose proof (zlen_nonneg (taken (live l) count (n + 1) ≫= f)).
    rewrite Hp by lia. cbn [obind]. rewrite IH by (rewrite zlen_drop; lia).
    rewrite bind_cons, drop_drop, length_app, <- app_assoc, zlen_cons. do 2 f_equal. lia.
Qed.

(** The pairs sent: the extras first. *)
Definition selected (l : list ngx_table_elt_t) (extras : option (list ngx_table_elt_t)) (count : Z)
  : list ngx_table_elt_t := take (Z.to_nat count) (default [] extras ++ live l).

Lemma marshal_pass_spec put_elt f debug l extras count pre tl :
  puts put_elt f -> 0 <= count <= zlen (default [] extras) + zlen (live l) ->
  zlen (selected l extras count ≫= f) <= zlen tl ->
  marshal_pass put_elt debug l extras count (cur pre tl) =
    Ret (cur (pre ++ (selected l extras count ≫= f)) (drop (length (selected l extras count ≫= f)) tl)).
Proof.
  intros Hp Hc. set (ex := default [] extras) in *.
  assert (Esel : selected l extras count = taken ex count 0 ++ taken (live l) count (zlen (taken ex count 0))).
  { unfold selected, taken. fold ex. rewrite Z.sub_0_r, take_app. f_equal. f_equal.
    rewrite zlen_take by lia. unfold zlen. lia. }
  rewrite Esel, bind_app, zlen_app. intros Hl.
  pose proof (zlen_nonneg (taken (live l) count (zlen (taken ex count 0)) ≫= f)).
  unfold marshal_pass. fold ex. rewrite (extras_loop_spec _ f) by (done || lia). cbn [obind].
  rewrite Z.add_0_l. rewrite (list_loop_spec _ f); [|done|rewrite zlen_drop; lia]. cbn [obind].
  assert (Hn : zlen (taken ex count 0) + zlen (taken (live l) count (zlen (taken ex count 0))) = count).
  { unfold taken. rewrite Z.sub_0_r, !zlen_take; rewrite ?zlen_take; pose proof (zlen_nonneg (live l));
      pose proof (zlen_nonneg ex); lia. }
  rewrite Hn, Z.eqb_refl, ngx_wa_assert_true. cbn [obind].
  by rewrite drop_drop, length_app, <- app_assoc.
Qed.

Lemma pairs_marshal_spec debug l extras buf max :
  let all := default [] extras ++ live l in
  let trunc := negb (max =? 0) && (max <? zlen all) in
  let count := if trunc then max else zlen all in
  0 <= max -> zlen all < 2 ^ 32 ->
  NGX_PROXY_WASM_PTR_SIZE + total_size (take (Z.to_nat count) all) <= zlen buf ->
  ngx_proxy_wasm_pairs_marshal debug l extras buf max =
    Ret (serialize (take (Z.to_nat count) all)
           ++ drop (length (serialize (take (Z.to_nat count) all))) buf,
         if trunc then Some max else None).
Proof.
  intros all trunc count Hmax Hlen Hbuf. unfold ngx_proxy_wasm_pairs_marshal.
  assert (Hlive : zlen all = zlen (default [] extras) + zlen (live l)) by apply zlen_app.
  pose proof (zlen_nonneg (live l)). pose proof (zlen_nonneg (default [] extras)).
  unfold ngx_proxy_wasm_pairs_count. rewrite pairs_count_spec, Z.add_0_l, wrap32_id by (unfold is_u32; lia).
  assert (Hcount : match extras with Some ex => wrap32 (zlen (live l) + zlen ex) | None => zlen (live l) end = zlen all).
  { destruct extras as [ex|]; cbn in *; [rewrite wrap32_id by (unfold is_u32; lia)|]; lia. }
  rewrite Hcount. fold trunc.
  assert (Hc : (if trunc then (wrap32 max, Some (wrap32 max)) else (zlen all, None)) =
               (count, if trunc then Some max else None)).
  { unfold count. destruct trunc eqn:E; [|done]. apply andb_true_iff in E as [_ E]. apply Z.ltb_lt in E.
    rewrite wrap32_id by (unfold is_u32; lia). done. }
  rewrite Hc. clear Hc Hcount.
  assert (Hcr : 0 <= count <= zlen all).
  { unfold count. destruct trunc eqn:E; [|lia]. apply andb_true_iff in E as [_ E]. apply Z.ltb_lt in E. lia. }
  set (sel := take (Z.to_nat count) all) in *.
  assert (Hsel : selected l extras count = sel) by done.
  assert (Hzsel : zlen sel = count) by (unfold sel; rewrite zlen_take by lia; lia).
  pose proof (zlen_pairs sel) as Hps. change NGX_PROXY_WASM_PTR_SIZE with 4 in Hbuf.
  pose proof (zlen_nonneg (sel ≫= lengths)). pose proof (zlen_nonneg (sel ≫= strings)).
  change (buf, 0) with (cur [] buf). unfold put_u32.
  rewrite put_spec by (rewrite zlen_enc32; lia). cbn [obind].
  rewrite (marshal_pass_spec _ lengths); [|apply put_lengths_puts|lia|].
  2:{ rewrite Hsel, zlen_drop, zlen_enc32. lia. }
  cbn [obind]. rewrite Hsel.
  rewrite (marshal_pass_spec _ strings); [|apply put_strings_puts|lia|].
  2:{ rewrite Hsel, !zlen_drop, zlen_enc32. lia. }
  cbn [obind]. rewrite Hsel. unfold cur. cbn [fst app].
  unfold serialize. rewrite Hzsel, !drop_drop, <- !app_assoc. do 6 f_equal.
  rewrite !length_app. lia.
Qed.

(** ** Reading *)

Lemma mem_read_at (pre data tl : bytes) :
  mem_read (pre ++ data ++ tl) (zlen pre) (zlen data) = Ret data.
Proof.
  pose proof (zlen_nonneg pre). pose proof (zlen_nonneg data). pose proof (zlen_nonneg tl).
  rewrite mem_read_in by (zlen_simpl; lia). f_equal. unfold zlen.
  by rewrite !Nat2Z.id, drop_app_length, take_app_length.
Qed.

(** The lengths fit in the 32-bit fields. *)
Definition elt_ok (e : ngx_table_elt_t) : Prop := is_u32 (zlen (key e)) /\ is_u32 (zlen (value e)).

Lemma get_u32_spec pre v tl :
  is_u32 v -> get_u32 (pre ++ enc32 v ++ tl) (zlen pre) = Ret (v, zlen (pre ++ enc32 v)).
Proof.
  intros Hv. unfold get_u32. pose proof (mem_read_at pre (enc32 v) tl) as Hr. rewrite zlen_enc32 in Hr.
  rewrite Hr. cbn [obind]. rewrite dec32_enc32. cbn [deref obind].
  rewrite wrap32_id by done. by rewrite zlen_app, zlen_enc32.
Qed.

Lemma read_lengths_spec l : forall pre tl,
  Forall elt_ok l ->
  read_lengths (pre ++ (l ≫= lengths) ++ tl) (length l) (zlen pre) =
    Ret ((fun e => (zlen (key e), zlen (value e))) <$> l, zlen (pre ++ (l ≫= lengths))).
Proof.
  induction l as [|e l IH]; intros pre tl Hok; cbn [read_lengths length].
  - cbn. by rewrite app_nil_r.
  - apply Forall_cons_1 in Hok as [[Hk Hv] Hok]. rewrite bind_cons.
    set (k := enc32 (zlen (key e))). set (v := enc32 (zlen (value e))).
    set (R := (l ≫= lengths) ++ tl).
    assert (Ee : lengths e = k ++ v) by done.
    assert (E1 : pre ++ (lengths e ++ (l ≫= lengths)) ++ tl = pre ++ k ++ v ++ R)
      by (rewrite Ee; unfold R; by rewrite <- !app_assoc).
    assert (E2 : pre ++ k ++ v ++ R = (pre ++ k) ++ v ++ R) by by rewrite <- app_assoc.
    assert (E3 : (pre ++ k) ++ v ++ R = (pre ++ lengths e) ++ R)
      by (rewrite Ee; by rewrite <- !app_assoc).
    assert (E4 : (pre ++ k) ++ v = pre ++ lengths e) by (rewrite Ee; by rewrite <- app_assoc).
    pose proof (get_u32_spec pre (zlen (key e)) (v ++ R) Hk) as G1. fold k in G1.
    pose proof (get_u32_spec (pre ++ k) (zlen (value e)) R Hv) as G2. fold v in G2.
    rewrite E1, G1. cbn [obind]. rewrite E2, G2. cbn [obind].
    rewrite E3, E4. unfold R. rewrite IH by done. cbn [obind]. by rewrite <- app_assoc.
Qed.

Lemma read_string_spec ok pre data c tl :
  ok (zlen data + 1) = true ->
  read_string ok (pre ++ data ++ c :: tl) (zlen data) (zlen pre) =
    Ret (Some data, zlen (pre ++ data ++ [c])).
Proof.
  intros Hok. unfold read_string. rewrite Hok.
  pose proof (mem_read_at pre (data ++ [c]) tl) as Hr. rewrite <- app_assoc in Hr. cbn [app] in Hr.
  rewrite zlen_app in Hr. change (zlen [c]) with 1 in Hr. rewrite Hr. cbn [obind].
  f_equal. f_equal; [|by rewrite !zlen_app].
  f_equal. unfold zlen. by rewrite Nat2Z.id, take_app_length.
Qed.

(** The pair as it is read back. *)
Definition unmarshalled (e : ngx_table_elt_t) : ngx_table_elt_t :=
  {| hash := 0; key := key e; value := value e |}.

Lemma read_strings_spec ok l : (forall n, ok n = true) -> forall pre tl,
  read_strings ok (pre ++ (l ≫= strings) ++ tl)
    ((fun e => (zlen (key e), zlen (value e))) <$> l) (zlen pre) = Ret (Some (unmarshalled <$> l)).
Proof.
  intros Hok. induction l as [|e l IH]; intros pre tl; [done|].
  rewrite !fmap_cons, bind_cons. cbn [read_strings].
  set (R := (l ≫= strings) ++ tl).
  set (B := pre ++ (strings e ++ (l ≫= strings)) ++ tl).
  assert (E1 : B = pre ++ key e ++ x00 :: (value e ++ x00 :: R))
    by (unfold B, R, strings at 1; by rewrite <- !app_assoc).
  assert (E2 : B = (pre ++ key e ++ [x00]) ++ value e ++ x00 :: R)
    by (rewrite E1; by rewrite <- !app_assoc).
  assert (E3 : B = (((pre ++ key e ++ [x00]) ++ value e ++ [x00]) ++ (l ≫= strings) ++ tl))
    by (rewrite E1; unfold R; by rewrite <- !app_assoc).
  rewrite E1 at 1. rewrite (read_string_spec ok pre) by apply Hok. cbn [obind].
  rewrite E2 at 1. rewrite (read_string_spec ok (pre ++ key e ++ [x00])) by apply Hok. cbn [obind].
  rewrite E3, IH. done.
Qed.

Lemma unmarshal_spec array_ok ok l tl :
  array_ok (zlen l) = true -> (forall n, ok n = true) -> is_u32 (zlen l) -> Forall elt_ok l ->
  ngx_proxy_wasm_pairs_unmarshal array_ok ok (serialize l ++ tl) = Ret (NGX_OK, unmarshalled <$> l).
Proof.
  intros Ha Hok Hl Helt. unfold ngx_proxy_wasm_pairs_unmarshal.
  assert (Hz : zlen (serialize l ++ tl) =? 0 = false).
  { apply Z.eqb_neq. rewrite zlen_app, serialize_size. pose proof (total_size_nonneg l).
    pose proof (zlen_nonneg tl). unfold NGX_PROXY_WASM_PTR_SIZE. lia. }
  rewrite Hz. unfold serialize. rewrite <- !app_assoc.
  pose proof (get_u32_spec [] (zlen l) ((l ≫= lengths) ++ (l ≫= strings) ++ tl) Hl) as Hg.
  cbn [app] in Hg. rewrite zlen_nil in Hg. rewrite Hg. cbn [obind]. rewrite Ha.
  assert (Hn : Z.to_nat (zlen l) = length l) by (unfold zlen; lia). rewrite Hn.
  rewrite read_lengths_spec by done. cbn [obind].
  rewrite app_assoc, read_strings_spec by done. done.
Qed.

(** ** Properties *)

(** The size computed for a map is the size written, unless it is truncated and
    has extras: the buffer is filled to its last byte with the serialized map of
    the extras and the pairs not removed, or of the first pairs when there are more
    than the maximum, which is then reported. *)
Lemma pairs_marshal_exact (debug : bool) (l : list ngx_table_elt_t)
    (extras : option (list ngx_table_elt_t)) (buf : bytes) (max : Z) :
  let all := default [] extras ++ live l in
  let trunc := negb (max =? 0) && (max <? zlen all) in
  0 <= max -> zlen all < 2 ^ 32 -> (trunc = true -> extras = None) ->
  zlen buf = ngx_proxy_wasm_pairs_size l extras max ->
  ngx_proxy_wasm_pairs_marshal debug l extras buf max =
    Ret (serialize (if trunc then take (Z.to_nat max) all else all),
         if trunc then Some max else None).
Proof.
  intros all trunc Hmax Hlen Hex Hbuf.
  pose proof (pairs_marshal_spec debug l extras buf max) as Hm. cbn zeta in Hm.
  fold all in Hm. fold trunc in Hm. destruct trunc eqn:E.
  - pose proof E as E'. apply andb_true_iff in E' as [E1 E2].
    apply negb_true_iff, Z.eqb_neq in E1. apply Z.ltb_lt in E2.
    assert (extras = None) as -> by by apply Hex. change all with (live l) in *.
    rewrite pairs_size_truncated in Hbuf by lia. rewrite Hm by lia.
    rewrite drop_ge, app_nil_r; [done|]. pose proof (serialize_size (take (Z.to_nat max) (live l))). zlia.
  - assert (Hall : take (Z.to_nat (zlen all)) all = all) by (apply take_ge; unfold zlen; lia).
    rewrite Hall in Hm. rewrite pairs_size_all in Hbuf.
    + fold all in Hbuf. rewrite Hm by lia. rewrite drop_ge, app_nil_r; [done|].
      pose proof (serialize_size all). zlia.
    + unfold trunc, all in E. rewrite zlen_app in E. apply andb_false_iff in E as [E|E].
      * apply negb_false_iff, Z.eqb_eq in E. by left.
      * apply Z.ltb_ge in E. right. lia.
Qed.

Definition host_elt : ngx_table_elt_t :=
  {| hash := 1; key := ngx_string "Host"; value := ngx_string "a" |}.
Definition path_elt : ngx_table_elt_t :=
  {| hash := 1; key := ngx_string ":path"; value := ngx_string "/" |}.
Definition removed_elt : ngx_table_elt_t :=
  {| hash := 0; key := ngx_string "Via"; value := ngx_string "x" |}.

Lemma pairs_marshal_exact_example :
  ngx_proxy_wasm_pairs_marshal true [removed_elt; host_elt] (Some [path_elt]) (replicate 35 x00) 0 =
    Ret (serialize [path_elt; host_elt], None).
Proof.
  apply (pairs_marshal_exact true [removed_elt; host_elt] (Some [path_elt]) (replicate 35 x00) 0);
    [lia|reflexivity|discriminate|reflexivity].
Defined.

(** A buffer inside of the memory is refused when it ends at 4 GiB. *)
Lemma marshal_lift memory p size :
  is_u32 p -> is_u32 size -> p <> 0 -> p + size <= zlen memory ->
  Host.ngx_wavm_memory_lift {| Host.mem_base := 0; Host.mem_data := memory |} p size 1 =
    if 2 ^ 32 <=? p + size then (None, false)
    else (Some {| Host.g_base := 0; Host.g_off := p |}, true).
Proof.
  unfold is_u32, Host.ngx_wavm_memory_lift, Host.ngx_wavm_memory_data_size. intros Hp Hs H0 Hm.
  rewrite (proj2 (Z.eqb_neq _ _)) by done. cbn [Host.mem_data Host.mem_base].
  destruct (Z.leb_spec (2 ^ 32) (p + size)) as [H|H].
  - assert (Hw : wrap32 (p + size) = p + size - 2 ^ 32); [|rewrite Hw, (proj2 (Z.ltb_lt _ _)) by lia; done].
    unfold wrap32. symmetry. apply (Z.mod_unique _ _ 1); lia.
  - rewrite wrap32_id by (unfold is_u32; lia). by rewrite !(proj2 (Z.ltb_ge _ _)) by lia.
Qed.

(** C38. Round trip through the module's memory, for a map that is not truncated (no maximum,
    or no more pairs than it) and whose counts and lengths are 32-bit: when the module
    allocates the buffer inside of its memory, the map is written there, the rest of the
    memory is unchanged, and reading the map back gives the extras and the pairs not removed,
    in order.  Without a buffer, or with one out of the memory, nothing is written and the
    failure is told; a buffer that reaches the end of 4 GiB of memory is refused, nothing is
    written either, and the instance traps. *)
Theorem marshal_roundtrip (debug : bool) (alloc : bytes -> Z -> Z * bytes) (max : Z) (memory : bytes)
    (l : list ngx_table_elt_t) (shims : option (list ngx_table_elt_t)) (p : Z) (memory' : bytes) :
  let all := default [] shims ++ live l in
  let size := NGX_PROXY_WASM_PTR_SIZE + total_size all in
  alloc memory size = (p, memory') -> is_u32 p ->
  0 <= max -> max = 0 \/ zlen all <= max -> size < 2 ^ 32 -> zlen all < 2 ^ 32 -> Forall elt_ok all ->
  if (p =? 0) || (zlen memory' <? p + size)
  then ngx_proxy_wasm_marshal debug alloc max memory l shims = Ret (marshal_failed, memory')
  else if 2 ^ 32 <=? p + size
  then ngx_proxy_wasm_marshal debug alloc max memory l shims = Ret (marshal_bad_slice, memory')
  else exists memory2,
    ngx_proxy_wasm_marshal debug alloc max memory l shims = Ret (marshalled p size None, memory2) /\
    length memory2 = length memory' /\
    (forall off n, off + n <= p \/ p + size <= off -> mem_read memory2 off n = mem_read memory' off n) /\
    exists map, mem_read memory2 p size = Ret map /\
      ngx_proxy_wasm_pairs_unmarshal (fun _ => true) (fun _ => true) map = Ret (NGX_OK, unmarshalled <$> all).
Proof.
  intros all size Ha Hp Hmax Hm Hsize Hlen Helt.
  assert (Hsz : ngx_proxy_wasm_pairs_size l shims max = size).
  { unfold size, all. apply pairs_size_all. unfold all in Hm. rewrite zlen_app in Hm. lia. }
  unfold ngx_proxy_wasm_marshal. rewrite Hsz, Ha.
  destruct (Z.eqb_spec p 0) as [->|Hp0]; [done|]. cbn [orb]. destruct (Z.ltb_spec (zlen memory') (p + size)) as [Hlt|Hge]; [done|].
  pose proof (serialize_size all) as Hss. fold size in Hss.
  assert (Hpos : 0 <= size) by (rewrite <- Hss; apply zlen_nonneg).
  rewrite (wrap32_id size) by (unfold is_u32; lia).
  rewrite marshal_lift by (unfold is_u32 in *; lia). destruct (Z.leb_spec (2 ^ 32) (p + size)) as [Hend|Hend]; [done|].
  cbn [negb]. rewrite Host.load_in by (cbn; unfold is_u32 in Hp; lia). cbn [obind Host.mem_data].
  set (slice := take (Z.to_nat size) (drop (Z.to_nat p) memory')).
  assert (Hslice : zlen slice = size).
  { unfold is_u32 in Hp; unfold slice, zlen in *. rewrite length_take, length_drop. lia. }
  pose proof (pairs_marshal_spec debug l shims slice max) as Hspec. cbn zeta in Hspec. fold all in Hspec.
  assert (Htr : negb (max =? 0) && (max <? zlen all) = false).
  { destruct Hm as [->|Hm]; [done|]. rewrite (proj2 (Z.ltb_ge _ _)) by done. apply andb_false_r. }
  rewrite Htr in Hspec. assert (Hall : take (Z.to_nat (zlen all)) all = all) by (apply take_ge; unfold zlen; lia).
  rewrite Hall in Hspec. rewrite Hspec by (fold size; unfold is_u32 in *; lia). cbn [obind].
  rewrite drop_ge, app_nil_r by zlia.
  cbn [Host.store_at Host.g_base Host.g_off Host.mem_base Host.mem_data]. rewrite Z.eqb_refl.
  destruct (mem_write memory' p (serialize all)) as [memory2|f] eqn:Ew.
  2:{ rewrite mem_write_in in Ew by (unfold is_u32 in Hp; lia). done. }
  cbn [obind]. exists memory2. split; [done|].
  split; [by eapply mem_write_length|]. split.
  - intros off n Ho. eapply mem_read_write_other; [done|]. lia.
  - exists (serialize all). split; [rewrite <- Hss; by eapply mem_read_write_same|].
    pose proof (unmarshal_spec (fun _ => true) (fun _ => true) all []) as Hu. rewrite app_nil_r in Hu.
    apply Hu; try done. split; [apply zlen_nonneg|done].
Qed.

Lemma marshal_roundtrip_witness :
  exists memory2,
    ngx_proxy_wasm_marshal true (fun m _ => (8, m)) 100 (replicate 64 x00) [removed_elt; host_elt]
      (Some [path_elt]) = Ret (marshalled 8 35 None, memory2) /\
    exists map, mem_read memory2 8 35 = Ret map /\
      ngx_proxy_wasm_pairs_unmarshal (fun _ => true) (fun _ => true) map =
        Ret (NGX_OK, unmarshalled <$> [path_elt; host_elt]).
Proof.
  destruct (marshal_roundtrip true (fun m _ => (8, m)) 100 (replicate 64 x00) [removed_elt; host_elt]
    (Some [path_elt]) 8 (replicate 64 x00) ltac:(reflexivity) ltac:(split; lia) ltac:(lia)
    ltac:(right; vm_compute; discriminate) ltac:(reflexivity) ltac:(reflexivity))
    as (memory2 & E & _ & _ & Hmap).
  - repeat constructor; vm_compute; discriminate.
  - exists memory2. split; [exact E|exact Hmap].
Defined.

(** With two extras and more pairs than the maximum, the size leaves one extra
    out while both are written: the buffer overflows. *)
Example marshal_truncated_overflow :
  let long := {| hash := 1; key := ngx_string ":authority"; value := ngx_string "example.org" |} in
  let l := [host_elt; host_elt] in
  let extras := Some [path_elt; long] in
  let size := ngx_proxy_wasm_pairs_size l extras 2 in
  ngx_proxy_wasm_pairs_marshal true l extras (replicate (Z.to_nat size) x00) 2 = Fault F_memory.
Proof. vm_compute. reflexivity. Qed.

(** A map given by the module is read past its end. *)
Example unmarshal_unchecked :
  ngx_proxy_wasm_pairs_unmarshal (fun _ => true) (fun _ => true) (enc32 1) = Fault F_memory.
Proof. reflexivity. Qed.

End Pairs.
