(* ===== verification/ProxyWasm.v ===== *)
(** * Proxy-Wasm: data and state

    The types of src/src/common/proxy_wasm/ngx_proxy_wasm.h and the state its
    functions share: execution contexts, stream contexts, instances and stores
    refer to each other by pointers, so they live in a heap of typed objects and
    every function is a computation in a monad over that heap.  The calls into
    WebAssembly ([ngx_wrt.call] and what a guest's host calls write) are the
    operations of class [Wavm]. *)
From S2P Require Import Prelude NginxCore.
From stdpp Require Export list.
#[global] Open Scope Z_scope.

Module ProxyWasm.

(** ** Enumerations *)

(** [STEP_UNSET] is the 0 of a context that ran no step. *)
Inductive ngx_proxy_wasm_step_e :=
| STEP_UNSET
| STEP_REQ_HEADERS
| STEP_REQ_BODY
| STEP_REQ_TRAILERS
| STEP_RESP_HEADERS
| STEP_RESP_BODY
| STEP_RESP_TRAILERS
| STEP_LOG
| STEP_DONE
| STEP_TICK
| STEP_DISPATCH_RESPONSE
| STEP_FOREIGN_CALLBACK
| STEP_UPSTREAM_SELECT
| STEP_NEXT_UPSTREAM
| STEP_UPSTREAM_INFO.

#[export] Instance step_eq_dec : EqDecision ngx_proxy_wasm_step_e.
Proof. solve_decision. Defined.

(** The value of the constant. *)
Definition step_index (s : ngx_proxy_wasm_step_e) : Z :=
  match s with
  | STEP_UNSET => 0
  | STEP_REQ_HEADERS => 1
  | STEP_REQ_BODY => 2
  | STEP_REQ_TRAILERS => 3
  | STEP_RESP_HEADERS => 4
  | STEP_RESP_BODY => 5
  | STEP_RESP_TRAILERS => 6
  | STEP_LOG => 7
  | STEP_DONE => 8
  | STEP_TICK => 9
  | STEP_DISPATCH_RESPONSE => 10
  | STEP_FOREIGN_CALLBACK => 11
  | STEP_UPSTREAM_SELECT => 12
  | STEP_NEXT_UPSTREAM => 13
  | STEP_UPSTREAM_INFO => 14
  end.

(** Actions are returned by guests as any [i32]. *)
Definition ACTION_CONTINUE : Z := 0.
Definition ACTION_PAUSE : Z := 1.
Definition ACTION_END_STREAM : Z := 2.
Definition ACTION_DONE : Z := 3.
Definition ACTION_WAIT : Z := 4.
Definition ACTION_WAIT_FULL : Z := 5.
Definition ACTION_CLOSE : Z := 6.

Inductive ngx_proxy_wasm_err_e :=
| ERR_NONE
| ERR_UNKNOWN_ABI
| ERR_BAD_ABI
| ERR_BAD_HOST_INTERFACE
| ERR_BAD_MODULE_INTERFACE
| ERR_START_FAILED
| ERR_VM_START_FAILED
| ERR_CONFIGURE_FAILED
| ERR_INSTANCE_TRAPPED
| ERR_RETURN_ACTION
| ERR_UNKNOWN.

#[export] Instance err_eq_dec : EqDecision ngx_proxy_wasm_err_e.
Proof. solve_decision. Defined.

(** [if (ecode)] *)
Definition is_err (e : ngx_proxy_wasm_err_e) : bool := negb (bool_decide (e = ERR_NONE)).

Inductive ngx_proxy_wasm_abi_version_e :=
| ABI_0_1_0
| ABI_0_2_0
| ABI_0_2_1
| ABI_VNEXT
| ABI_UNKNOWN.

#[export] Instance abi_eq_dec : EqDecision ngx_proxy_wasm_abi_version_e.
Proof. solve_decision. Defined.

Definition abi_index (v : ngx_proxy_wasm_abi_version_e) : Z :=
  match v with
  | ABI_0_1_0 => 0
  | ABI_0_2_0 => 1
  | ABI_0_2_1 => 2
  | ABI_VNEXT => 3
  | ABI_UNKNOWN => 4
  end.

Inductive ngx_proxy_wasm_isolation_mode_e :=
| ISOLATION_UNSET
| ISOLATION_NONE
| ISOLATION_STREAM
| ISOLATION_FILTER.

#[export] Instance isolation_eq_dec : EqDecision ngx_proxy_wasm_isolation_mode_e.
Proof. solve_decision. Defined.

(** [phase->index] *)
Inductive ngx_phase :=
| NGX_HTTP_REWRITE_PHASE
| NGX_HTTP_ACCESS_PHASE
| NGX_HTTP_CONTENT_PHASE
| NGX_HTTP_LOG_PHASE
| NGX_HTTP_WASM_HEADER_FILTER_PHASE
| NGX_HTTP_WASM_BODY_FILTER_PHASE
| NGX_HTTP_WASM_TRAILER_FILTER_PHASE
| NGX_WASM_DONE_PHASE
| NGX_WASM_BACKGROUND_PHASE
| PHASE_OTHER (index : Z).

#[export] Instance phase_eq_dec : EqDecision ngx_phase.
Proof. solve_decision. Defined.

(** The function pointers of a filter. *)
Inductive wasm_func :=
| proxy_on_memory_allocate
| proxy_on_context_create
| proxy_on_context_finalize
| proxy_on_done
| proxy_on_log
| proxy_on_vm_start
| proxy_on_plugin_start
| proxy_on_new_connection
| proxy_on_downstream_data
| proxy_on_upstream_data
| proxy_on_downstream_close
| proxy_on_upstream_close
| proxy_on_http_request_headers
| proxy_on_http_request_body
| proxy_on_http_request_trailers
| proxy_on_http_request_metadata
| proxy_on_http_response_headers
| proxy_on_http_response_body
| proxy_on_http_response_trailers
| proxy_on_http_response_metadata
| proxy_on_http_upstream_select
| proxy_on_http_next_upstream
| proxy_on_http_upstream_info
| proxy_on_queue_ready
| proxy_create_timer
| proxy_delete_timer
| proxy_on_timer_ready
| proxy_on_http_call_response
| proxy_on_grpc_call_response_header_metadata
| proxy_on_grpc_call_response_message
| proxy_on_grpc_call_response_trailer_metadata
| proxy_on_grpc_call_close
| proxy_on_custom_callback.

#[export] Instance wasm_func_eq_dec : EqDecision wasm_func.
Proof. solve_decision. Defined.

(** ** Objects *)

Definition NGX_PROXY_WASM_ROOT_CTX_ID : Z := 0.

(** [pe_log]: [pwexec->log] was allocated.  [pe_node_key] is [node.key], 0 when
    the node is in no tree. *)
Record ngx_proxy_wasm_exec_t := {
  pe_root_id : Z;
  pe_id : Z;
  pe_index : Z;
  pe_tick_period : Z;
  pe_node_key : Z;
  pe_ecode : ngx_proxy_wasm_err_e;
  pe_log : bool;
  pe_parent : option addr;
  pe_filter : addr;
  pe_ictx : option addr;
  pe_store : option addr;
  pe_started : bool;
  pe_in_tick : bool;
  pe_ecode_logged : bool;
}.

(** [pw_pwexecs] are the addresses of the elements of the array; [pw_store] is
    the embedded store, [None] until it is initialised. *)
Record ngx_proxy_wasm_ctx_t := {
  pw_nfilters : nat;
  pw_pwexecs : list addr;
  pw_isolation : ngx_proxy_wasm_isolation_mode_e;
  pw_store : option addr;
  pw_rexec : option addr;
  pw_phase : option ngx_phase;
  pw_action : Z;
  pw_step : ngx_proxy_wasm_step_e;
  pw_last_completed_step : ngx_proxy_wasm_step_e;
  pw_exec_index : nat;
  pw_init : bool;
  pw_ready : bool;
}.

(** [is_trapped] is [instance->trapped] of the VM instance. *)
Record ngx_proxy_wasm_instance_t := {
  is_tree_ctxs : rbtree;
  is_root_ctxs : rbtree;
  is_module : Z;
  is_store : addr;
  is_trapped : bool;
  is_pwexec : option addr;
}.

Record ngx_proxy_wasm_store_t := {
  st_busy : list addr;
  st_free : list addr;
  st_sweep : list addr;
}.

(** [f_funcs] are the assignments made to the function pointers, latest first. *)
Record ngx_proxy_wasm_filter_t := {
  f_id : Z;
  f_module : Z;
  f_module_config_len : Z;
  f_config_len : Z;
  f_acl_ctx : bool;
  f_store : addr;
  f_ecode : ngx_proxy_wasm_err_e;
  f_abi_version : ngx_proxy_wasm_abi_version_e;
  f_funcs : list (wasm_func * option bytes);
  f_loaded : bool;
  f_started : bool;
}.

(** A function pointer of a zeroed filter is [NULL]. *)
Definition funcref (f : ngx_proxy_wasm_filter_t) (fn : wasm_func) : option bytes :=
  match list_find (fun e => e.1 = fn) (f_funcs f) with
  | Some (_, (_, r)) => r
  | None => None
  end.

(** Zeroed objects. *)
Definition zero_exec (filter : addr) : ngx_proxy_wasm_exec_t :=
  {| pe_root_id := 0; pe_id := 0; pe_index := 0; pe_tick_period := 0; pe_node_key := 0;
     pe_ecode := ERR_NONE; pe_log := false; pe_parent := None; pe_filter := filter;
     pe_ictx := None; pe_store := None; pe_started := false; pe_in_tick := false;
     pe_ecode_logged := false |}.

Definition zero_ctx : ngx_proxy_wasm_ctx_t :=
  {| pw_nfilters := 0; pw_pwexecs := []; pw_isolation := ISOLATION_UNSET; pw_store := None;
     pw_rexec := None; pw_phase := None; pw_action := ACTION_CONTINUE; pw_step := STEP_UNSET;
     pw_last_completed_step := STEP_UNSET; pw_exec_index := 0; pw_init := false;
     pw_ready := false |}.

(** [ngx_proxy_wasm_store_init] *)
Definition ngx_proxy_wasm_store_init : ngx_proxy_wasm_store_t :=
  {| st_busy := []; st_free := []; st_sweep := [] |}.

(** ** Assignments to fields *)

Definition set_exec_tick_period (v : Z) (e : ngx_proxy_wasm_exec_t) :=
  {| pe_root_id := pe_root_id e; pe_id := pe_id e; pe_index := pe_index e;
     pe_tick_period := v; pe_node_key := pe_node_key e; pe_ecode := pe_ecode e;
     pe_log := pe_log e; pe_parent := pe_parent e; pe_filter := pe_filter e;
     pe_ictx := pe_ictx e; pe_store := pe_store e; pe_started := pe_started e;
     pe_in_tick := pe_in_tick e; pe_ecode_logged := pe_ecode_logged e |}.

Definition set_exec_node_key (v : Z) (e : ngx_proxy_wasm_exec_t) :=
  {| pe_root_id := pe_root_id e; pe_id := pe_id e; pe_index := pe_index e;
     pe_tick_period := pe_tick_period e; pe_node_key := v; pe_ecode := pe_ecode e;
     pe_log := pe_log e; pe_parent := pe_parent e; pe_filter := pe_filter e;
     pe_ictx := pe_ictx e; pe_store := pe_store e; pe_started := pe_started e;
     pe_in_tick := pe_in_tick e; pe_ecode_logged := pe_ecode_logged e |}.

Definition set_exec_ecode (v : ngx_proxy_wasm_err_e) (e : ngx_proxy_wasm_exec_t) :=
  {| pe_root_id := pe_root_id e; pe_id := pe_id e; pe_index := pe_index e;
     pe_tick_period := pe_tick_period e; pe_node_key := pe_node_key e; pe_ecode := v;
     pe_log := pe_log e; pe_parent := pe_parent e; pe_filter := pe_filter e;
     pe_ictx := pe_ictx e; pe_store := pe_store e; pe_started := pe_started e;
     pe_in_tick := pe_in_tick e; pe_ecode_logged := pe_ecode_logged e |}.

Definition set_exec_ictx (v : option addr) (e : ngx_proxy_wasm_exec_t) :=
  {| pe_root_id := pe_root_id e; pe_id := pe_id e; pe_index := pe_index e;
     pe_tick_period := pe_tick_period e; pe_node_key := pe_node_key e;
     pe_ecode := pe_ecode e; pe_log := pe_log e; pe_parent := pe_parent e;
     pe_filter := pe_filter e; pe_ictx := v; pe_store := pe_store e;
     pe_started := pe_started e; pe_in_tick := pe_in_tick e;
     pe_ecode_logged := pe_ecode_logged e |}.

Definition set_exec_started (v : bool) (e : ngx_proxy_wasm_exec_t) :=
  {| pe_root_id := pe_root_id e; pe_id := pe_id e; pe_index := pe_index e;
     pe_tick_period := pe_tick_period e; pe_node_key := pe_node_key e;
     pe_ecode := pe_ecode e; pe_log := pe_log e; pe_parent := pe_parent e;
     pe_filter := pe_filter e; pe_ictx := pe_ictx e; pe_store := pe_store e;
     pe_started := v; pe_in_tick := pe_in_tick e; pe_ecode_logged := pe_ecode_logged e |}.

Definition set_exec_log (v : bool) (e : ngx_proxy_wasm_exec_t) :=
  {| pe_root_id := pe_root_id e; pe_id := pe_id e; pe_index := pe_index e;
     pe_tick_period := pe_tick_period e; pe_node_key := pe_node_key e;
     pe_ecode := pe_ecode e; pe_log := v; pe_parent := pe_parent e;
     pe_filter := pe_filter e; pe_ictx := pe_ictx e; pe_store := pe_store e;
     pe_started := pe_started e; pe_in_tick := pe_in_tick e;
     pe_ecode_logged := pe_ecode_logged e |}.

Definition set_exec_store (v : option addr) (e : ngx_proxy_wasm_exec_t) :=
  {| pe_root_id := pe_root_id e; pe_id := pe_id e; pe_index := pe_index e;
     pe_tick_period := pe_tick_period e; pe_node_key := pe_node_key e;
     pe_ecode := pe_ecode e; pe_log := pe_log e; pe_parent := pe_parent e;
     pe_filter := pe_filter e; pe_ictx := pe_ictx e; pe_store := v;
     pe_started := pe_started e; pe_in_tick := pe_in_tick e;
     pe_ecode_logged := pe_ecode_logged e |}.

Definition set_exec_parent (v : option addr) (e : ngx_proxy_wasm_exec_t) :=
  {| pe_root_id := pe_root_id e; pe_id := pe_id e; pe_index := pe_index e;
     pe_tick_period := pe_tick_period e; pe_node_key := pe_node_key e;
     pe_ecode := pe_ecode e; pe_log := pe_log e; pe_parent := v;
     pe_filter := pe_filter e; pe_ictx := pe_ictx e; pe_store := pe_store e;
     pe_started := pe_started e; pe_in_tick := pe_in_tick e;
     pe_ecode_logged := pe_ecode_logged e |}.

Definition set_exec_in_tick (v : bool) (e : ngx_proxy_wasm_exec_t) :=
  {| pe_root_id := pe_root_id e; pe_id := pe_id e; pe_index := pe_index e;
     pe_tick_period := pe_tick_period e; pe_node_key := pe_node_key e;
     pe_ecode := pe_ecode e; pe_log := pe_log e; pe_parent := pe_parent e;
     pe_filter := pe_filter e; pe_ictx := pe_ictx e; pe_store := pe_store e;
     pe_started := pe_started e; pe_in_tick := v; pe_ecode_logged := pe_ecode_logged e |}.

Definition set_exec_ecode_logged (v : bool) (e : ngx_proxy_wasm_exec_t) :=
  {| pe_root_id := pe_root_id e; pe_id := pe_id e; pe_index := pe_index e;
     pe_tick_period := pe_tick_period e; pe_node_key := pe_node_key e;
     pe_ecode := pe_ecode e; pe_log := pe_log e; pe_parent := pe_parent e;
     pe_filter := pe_filter e; pe_ictx := pe_ictx e; pe_store := pe_store e;
     pe_started := pe_started e; pe_in_tick := pe_in_tick e; pe_ecode_logged := v |}.

(** The part of a stream context that the execution of a chain changes. *)
Record control := {
  c_phase : option ngx_phase;
  c_action : Z;
  c_step : ngx_proxy_wasm_step_e;
  c_last_completed_step : ngx_proxy_wasm_step_e;
  c_exec_index : nat;
}.

Definition ctx_control (c : ngx_proxy_wasm_ctx_t) : control :=
  {| c_phase := pw_phase c; c_action := pw_action c; c_step := pw_step c;
     c_last_completed_step := pw_last_completed_step c; c_exec_index := pw_exec_index c |}.

Definition set_ctx_control (v : control) (c : ngx_proxy_wasm_ctx_t) :=
  {| pw_nfilters := pw_nfilters c; pw_pwexecs := pw_pwexecs c;
     pw_isolation := pw_isolation c; pw_store := pw_store c; pw_rexec := pw_rexec c;
     pw_phase := c_phase v; pw_action := c_action v; pw_step := c_step v;
     pw_last_completed_step := c_last_completed_step v; pw_exec_index := c_exec_index v;
     pw_init := pw_init c; pw_ready := pw_ready c |}.

Definition set_ctx_phase (v : option ngx_phase) (c : ngx_proxy_wasm_ctx_t) :=
  set_ctx_control {| c_phase := v; c_action := pw_action c; c_step := pw_step c;
    c_last_completed_step := pw_last_completed_step c; c_exec_index := pw_exec_index c |} c.

Definition set_ctx_action (v : Z) (c : ngx_proxy_wasm_ctx_t) :=
  set_ctx_control {| c_phase := pw_phase c; c_action := v; c_step := pw_step c;
    c_last_completed_step := pw_last_completed_step c; c_exec_index := pw_exec_index c |} c.

Definition set_ctx_step (v : ngx_proxy_wasm_step_e) (c : ngx_proxy_wasm_ctx_t) :=
  set_ctx_control {| c_phase := pw_phase c; c_action := pw_action c; c_step := v;
    c_last_completed_step := pw_last_completed_step c; c_exec_index := pw_exec_index c |} c.

Definition set_ctx_last_completed_step (v : ngx_proxy_wasm_step_e)
    (c : ngx_proxy_wasm_ctx_t) :=
  set_ctx_control {| c_phase := pw_phase c; c_action := pw_action c; c_step := pw_step c;
    c_last_completed_step := v; c_exec_index := pw_exec_index c |} c.

Definition set_ctx_exec_index (v : nat) (c : ngx_proxy_wasm_ctx_t) :=
  set_ctx_control {| c_phase := pw_phase c; c_action := pw_action c; c_step := pw_step c;
    c_last_completed_step := pw_last_completed_step c; c_exec_index := v |} c.

Definition set_ctx_rexec (v : option addr) (c : ngx_proxy_wasm_ctx_t) :=
  {| pw_nfilters := pw_nfilters c; pw_pwexecs := pw_pwexecs c;
     pw_isolation := pw_isolation c; pw_store := pw_store c; pw_rexec := v;
     pw_phase := pw_phase c; pw_action := pw_action c; pw_step := pw_step c;
     pw_last_completed_step := pw_last_completed_step c; pw_exec_index := pw_exec_index c;
     pw_init := pw_init c; pw_ready := pw_ready c |}.

Definition set_ctx_pwexecs (v : list addr) (c : ngx_proxy_wasm_ctx_t) :=
  {| pw_nfilters := pw_nfilters c; pw_pwexecs := v;
     pw_isolation := pw_isolation c; pw_store := pw_store c; pw_rexec := pw_rexec c;
     pw_phase := pw_phase c; pw_action := pw_action c; pw_step := pw_step c;
     pw_last_completed_step := pw_last_completed_step c; pw_exec_index := pw_exec_index c;
     pw_init := pw_init c; pw_ready := pw_ready c |}.

Definition set_ctx_store (v : option addr) (c : ngx_proxy_wasm_ctx_t) :=
  {| pw_nfilters := pw_nfilters c; pw_pwexecs := pw_pwexecs c;
     pw_isolation := pw_isolation c; pw_store := v; pw_rexec := pw_rexec c;
     pw_phase := pw_phase c; pw_action := pw_action c; pw_step := pw_step c;
     pw_last_completed_step := pw_last_completed_step c; pw_exec_index := pw_exec_index c;
     pw_init := pw_init c; pw_ready := pw_ready c |}.

Definition set_ctx_init (v : bool) (c : ngx_proxy_wasm_ctx_t) :=
  {| pw_nfilters := pw_nfilters c; pw_pwexecs := pw_pwexecs c;
     pw_isolation := pw_isolation c; pw_store := pw_store c; pw_rexec := pw_rexec c;
     pw_phase := pw_phase c; pw_action := pw_action c; pw_step := pw_step c;
     pw_last_completed_step := pw_last_completed_step c; pw_exec_index := pw_exec_index c;
     pw_init := v; pw_ready := pw_ready c |}.

Definition set_ctx_ready (v : bool) (c : ngx_proxy_wasm_ctx_t) :=
  {| pw_nfilters := pw_nfilters c; pw_pwexecs := pw_pwexecs c;
     pw_isolation := pw_isolation c; pw_store := pw_store c; pw_rexec := pw_rexec c;
     pw_phase := pw_phase c; pw_action := pw_action c; pw_step := pw_step c;
     pw_last_completed_step := pw_last_completed_step c; pw_exec_index := pw_exec_index c;
     pw_init := pw_init c; pw_ready := v |}.

Definition set_ctx_chain (nfilters : nat) (pwexecs : list addr)
    (isolation : ngx_proxy_wasm_isolation_mode_e) (c : ngx_proxy_wasm_ctx_t) :=
  {| pw_nfilters := nfilters; pw_pwexecs := pwexecs;
     pw_isolation := isolation; pw_store := pw_store c; pw_rexec := pw_rexec c;
     pw_phase := pw_phase c; pw_action := pw_action c; pw_step := pw_step c;
     pw_last_completed_step := pw_last_completed_step c; pw_exec_index := pw_exec_index c;
     pw_init := pw_init c; pw_ready := pw_ready c |}.

Definition set_instance_trapped (v : bool) (i : ngx_proxy_wasm_instance_t) :=
  {| is_tree_ctxs := is_tree_ctxs i; is_root_ctxs := is_root_ctxs i;
     is_module := is_module i; is_store := is_store i; is_trapped := v;
     is_pwexec := is_pwexec i |}.

Definition set_instance_pwexec (v : option addr) (i : ngx_proxy_wasm_instance_t) :=
  {| is_tree_ctxs := is_tree_ctxs i; is_root_ctxs := is_root_ctxs i;
     is_module := is_module i; is_store := is_store i; is_trapped := is_trapped i;
     is_pwexec := v |}.

Definition set_instance_trees (tree root : rbtree) (i : ngx_proxy_wasm_instance_t) :=
  {| is_tree_ctxs := tree; is_root_ctxs := root;
     is_module := is_module i; is_store := is_store i; is_trapped := is_trapped i;
     is_pwexec := is_pwexec i |}.

Definition set_filter_ecode (v : ngx_proxy_wasm_err_e) (f : ngx_proxy_wasm_filter_t) :=
  {| f_id := f_id f; f_module := f_module f; f_module_config_len := f_module_config_len f;
     f_config_len := f_config_len f; f_acl_ctx := f_acl_ctx f; f_store := f_store f;
     f_ecode := v; f_abi_version := f_abi_version f; f_funcs := f_funcs f;
     f_loaded := f_loaded f; f_started := f_started f |}.

Definition set_filter_started (v : bool) (f : ngx_proxy_wasm_filter_t) :=
  {| f_id := f_id f; f_module := f_module f; f_module_config_len := f_module_config_len f;
     f_config_len := f_config_len f; f_acl_ctx := f_acl_ctx f; f_store := f_store f;
     f_ecode := f_ecode f; f_abi_version := f_abi_version f; f_funcs := f_funcs f;
     f_loaded := f_loaded f; f_started := v |}.

Definition set_filter_abi (v : ngx_proxy_wasm_abi_version_e) (f : ngx_proxy_wasm_filter_t) :=
  {| f_id := f_id f; f_module := f_module f; f_module_config_len := f_module_config_len f;
     f_config_len := f_config_len f; f_acl_ctx := f_acl_ctx f; f_store := f_store f;
     f_ecode := f_ecode f; f_abi_version := v; f_funcs := f_funcs f;
     f_loaded := f_loaded f; f_started := f_started f |}.

Definition set_filter_func (fn : wasm_func) (r : option bytes) (f : ngx_proxy_wasm_filter_t) :=
  {| f_id := f_id f; f_module := f_module f; f_module_config_len := f_module_config_len f;
     f_config_len := f_config_len f; f_acl_ctx := f_acl_ctx f; f_store := f_store f;
     f_ecode := f_ecode f; f_abi_version := f_abi_version f; f_funcs := (fn, r) :: f_funcs f;
     f_loaded := f_loaded f; f_started := f_started f |}.

Definition set_filter_id (v : Z) (f : ngx_proxy_wasm_filter_t) :=
  {| f_id := v; f_module := f_module f; f_module_config_len := f_module_config_len f;
     f_config_len := f_config_len f; f_acl_ctx := f_acl_ctx f; f_store := f_store f;
     f_ecode := f_ecode f; f_abi_version := f_abi_version f; f_funcs := f_funcs f;
     f_loaded := f_loaded f; f_started := f_started f |}.

Definition set_filter_loaded (v : bool) (f : ngx_proxy_wasm_filter_t) :=
  {| f_id := f_id f; f_module := f_module f; f_module_config_len := f_module_config_len f;
     f_config_len := f_config_len f; f_acl_ctx := f_acl_ctx f; f_store := f_store f;
     f_ecode := f_ecode f; f_abi_version := f_abi_version f; f_funcs := f_funcs f;
     f_loaded := v; f_started := f_started f |}.

(** ** WebAssembly

    What the functions of this component call: the runtime behind [ngx_wrt.call]
    with the guest and the host functions it calls, the creation and destruction
    of VM instances, and the allocators.  [G] is everything these calls keep
    (guest memories, requests, sockets, pools).  A guest reaches the state of the
    chain through the host calls of its instance: they may set the next action of
    the stream context ([cr_action]) and the tick period of a root context
    ([cr_tick]). *)
Record call_result (G : Type) := {
  cr_guest : G;
  cr_rc : ngx_rc;
  cr_ret : Z;
  cr_action : Z;
  cr_tick : option Z;
}.
Arguments cr_guest {G} c.
Arguments cr_rc {G} c.
Arguments cr_ret {G} c.
Arguments cr_action {G} c.
Arguments cr_tick {G} c.

Class Wavm (G : Type) := {
  (** [ngx_wrt.call(instance, name, args)] with the current action. *)
  wrt_call : G -> addr -> bytes -> list Z -> Z -> call_result G;
  (** [ngx_wavm_instance_create(module)] for the given instance context. *)
  ngx_wavm_instance_create : G -> Z -> addr -> bool * G;
  ngx_wavm_instance_destroy : G -> addr -> G;
  (** Whether an allocation succeeds. *)
  ngx_palloc : G -> bool * G;
  (** Whether [ngx_wasm_acl_init] succeeds. *)
  wasm_acl_init : G -> bool * G;
}.

Class WavmLaws (G : Type) `{Wavm G} : Prop := {
  (** The codes a runtime returns (asserted in ngx_wavm_instance_call_func_va). *)
  wrt_call_rc g i n args a :
    let rc := cr_rc (wrt_call g i n args a) in rc = NGX_OK \/ rc = NGX_ERROR \/ rc = NGX_ABORT;
}.

(** ** The heap and computations over it *)

Record heap (G : Type) := {
  h_execs : gmap addr ngx_proxy_wasm_exec_t;
  h_ctxs : gmap addr ngx_proxy_wasm_ctx_t;
  h_insts : gmap addr ngx_proxy_wasm_instance_t;
  h_stores : gmap addr ngx_proxy_wasm_store_t;
  h_filters : gmap addr ngx_proxy_wasm_filter_t;
  h_guest : G;
}.
Arguments h_execs {G} h.
Arguments h_ctxs {G} h.
Arguments h_insts {G} h.
Arguments h_stores {G} h.
Arguments h_filters {G} h.
Arguments h_guest {G} h.

Section heap_updates.
Context {G : Type}.
Implicit Types h : heap G.

Definition with_execs m h : heap G :=
  {| h_execs := m; h_ctxs := h_ctxs h; h_insts := h_insts h; h_stores := h_stores h;
     h_filters := h_filters h; h_guest := h_guest h |}.
Definition with_ctxs m h : heap G :=
  {| h_execs := h_execs h; h_ctxs := m; h_insts := h_insts h; h_stores := h_stores h;
     h_filters := h_filters h; h_guest := h_guest h |}.
Definition with_insts m h : heap G :=
  {| h_execs := h_execs h; h_ctxs := h_ctxs h; h_insts := m; h_stores := h_stores h;
     h_filters := h_filters h; h_guest := h_guest h |}.
Definition with_stores m h : heap G :=
  {| h_execs := h_execs h; h_ctxs := h_ctxs h; h_insts := h_insts h; h_stores := m;
     h_filters := h_filters h; h_guest := h_guest h |}.
Definition with_filters m h : heap G :=
  {| h_execs := h_execs h; h_ctxs := h_ctxs h; h_insts := h_insts h;
     h_stores := h_stores h; h_filters := m; h_guest := h_guest h |}.
Definition with_guest g h : heap G :=
  {| h_execs := h_execs h; h_ctxs := h_ctxs h; h_insts := h_insts h;
     h_stores := h_stores h; h_filters := h_filters h; h_guest := g |}.

End heap_updates.

(** A computation over the heap: a value and the next heap, or a fault. *)
Definition M (G A : Type) : Type := heap G -> outcome (A * heap G).

#[export] Instance M_ret G : MRet (M G) := fun A a h => Ret (a, h).
#[export] Instance M_bind G : MBind (M G) := fun A B k m h =>
  match m h with
  | Ret (a, h') => k a h'
  | Fault f => Fault f
  end.

Section operations.
Context {G : Type}.

Definition lift {A} (o : outcome A) : M G A := fun h => let? a := o in Ret (a, h).
Definition assert (debug b : bool) : M G unit := lift (ngx_wa_assert debug b).

Definition read {A} (proj : heap G -> gmap addr A) (a : addr) : M G A := fun h =>
  match proj h !! a with
  | Some v => Ret (v, h)
  | None => Fault F_memory
  end.

Definition write {A} (proj : heap G -> gmap addr A)
    (put : gmap addr A -> heap G -> heap G) (a : addr) (f : A -> A) : M G unit := fun h =>
  match proj h !! a with
  | Some v => Ret (tt, put (<[a := f v]> (proj h)) h)
  | None => Fault F_memory
  end.

Definition read_exec := read (@h_execs G).
Definition read_ctx := read (@h_ctxs G).
Definition read_inst := read (@h_insts G).
Definition read_store := read (@h_stores G).
Definition read_filter := read (@h_filters G).
Definition write_exec := write h_execs (@with_execs G).
Definition write_ctx := write h_ctxs (@with_ctxs G).
Definition write_inst := write h_insts (@with_insts G).
Definition write_store := write h_stores (@with_stores G).
Definition write_filter := write h_filters (@with_filters G).

(** A new object at an address not in use. *)
Definition new {A} (proj : heap G -> gmap addr A)
    (put : gmap addr A -> heap G -> heap G) (v : A) : M G addr := fun h =>
  let a := fresh (dom (proj h) : gset addr) in
  Ret (a, put (<[a := v]> (proj h)) h).

Definition new_exec := new h_execs (@with_execs G).
Definition new_ctx := new h_ctxs (@with_ctxs G).
Definition new_inst := new h_insts (@with_insts G).
Definition new_store := new h_stores (@with_stores G).

Definition modify (f : heap G -> heap G) : M G unit := fun h => Ret (tt, f h).

(** The end of the life of an object. *)
Definition free_exec (a : addr) : M G unit :=
  modify (fun h => with_execs (delete a (h_execs h)) h).
Definition free_ctx (a : addr) : M G unit :=
  modify (fun h => with_ctxs (delete a (h_ctxs h)) h).
Definition free_inst (a : addr) : M G unit :=
  modify (fun h => with_insts (delete a (h_insts h)) h).

(** A pointer that must not be [NULL]. *)
Definition non_null (p : option addr) : M G addr := lift (deref p).

End operations.

(** The state [G] of the environment. *)
Definition guest {G A} (f : G -> A * G) : M G A := fun h =>
  let '(a, g) := f (h_guest h) in Ret (a, with_guest g h).

(** ** Calling a function of an instance *)

Section calls.
Context {G : Type} `{Wavm G} (debug : bool).

(** What the host calls of a guest write, to the context it runs for. *)
Definition host_writes (pwexec : option addr) (r : call_result G) : M G unit :=
  match pwexec with
  | Some e =>
      ex ← read_exec e;
      match cr_tick r with
      | Some t => write_exec e (set_exec_tick_period t)
      | None => mret tt
      end;;
      match pe_parent ex with
      | Some p => write_ctx p (set_ctx_action (cr_action r))
      | None => mret tt
      end
  | None => mret tt
  end.

(** The action a host call finds. *)
Definition current_action (pwexec : option addr) : M G Z :=
  match pwexec with
  | Some e =>
      ex ← read_exec e;
      match pe_parent ex with
      | Some p => c ← read_ctx p; mret (pw_action c)
      | None => mret ACTION_CONTINUE
      end
  | None => mret ACTION_CONTINUE
  end.

(** [ngx_wavm_func_call]: a trapped instance is not entered again. *)
Definition ngx_wavm_func_call (ictx : addr) (name : bytes) (args : list Z)
    : M G (ngx_rc * Z) :=
  i ← read_inst ictx;
  if is_trapped i then mret (NGX_ABORT, 0)
  else
    a ← current_action (is_pwexec i);
    r ← guest (fun g => let r := wrt_call g ictx name args a in (r, cr_guest r));
    host_writes (is_pwexec i) r;;
    (if bool_decide (cr_rc r = NGX_ABORT)
     then write_inst ictx (set_instance_trapped true) else mret tt);;
    mret (cr_rc r, cr_ret r).

(** [ngx_wavm_instance_call_funcref]: [rc] and the [i32] result. *)
Definition ngx_wavm_instance_call_funcref (ictx : addr) (f : ngx_proxy_wasm_filter_t)
    (fn : wasm_func) (args : list Z) : M G (ngx_rc * Z) :=
  name ← lift (deref (funcref f fn));
  i ← read_inst ictx;
  assert debug (f_module f =? is_module i);;
  '(rc, v) ← ngx_wavm_func_call ictx name args;
  assert debug (bool_decide (rc ∈ [NGX_OK; NGX_ERROR; NGX_ABORT]));;
  mret (rc, v).

(** [ngx_proxy_wasm_ctx_set_next_action]: the name of the action is looked up
    for the log. *)
Definition ngx_proxy_wasm_ctx_set_next_action (pwctx : addr) (action : Z) : M G unit :=
  assert debug ((ACTION_CONTINUE <=? action) && (action <=? ACTION_CLOSE));;
  write_ctx pwctx (set_ctx_action action).

(** [ngx_proxy_wasm_ctx_reset_chain] *)
Definition ngx_proxy_wasm_ctx_reset_chain (pwctx : addr) : M G unit :=
  write_ctx pwctx (set_ctx_exec_index 0).

(** [ngx_proxy_wasm_pwexec2instance] is [pwexec->ictx->instance]. *)
Definition ngx_proxy_wasm_pwexec2instance (pwexec : addr) : M G addr :=
  e ← read_exec pwexec;
  ictx ← non_null (pe_ictx e);
  read_inst ictx;;
  mret ictx.

End calls.

End ProxyWasm.
