(* ===== verification/Abi.v ===== *)
(** * Proxy-Wasm: loading a filter

    [get_filter_id], [ngx_proxy_wasm_load], [get_abi_version] and
    [ngx_proxy_wasm_filter_init_abi] of src/src/common/proxy_wasm/ngx_proxy_wasm.c:
    which version of the interface a module implements, and which of its exports
    each callback of a filter is. *)
From S2P Require Import Prelude NginxCore ProxyWasm.
From stdpp Require Export list.
#[global] Open Scope Z_scope.

Module Abi.
Import ProxyWasm.

(** The exports of a module in order; [m_funcs] are the names in its
    [funcs_tree], those of functions. *)
Record ngx_wavm_module_t := {
  m_name : bytes;
  m_loaded : bool;
  m_exports : list bytes;
  m_funcs : list bytes;
}.

(** [ngx_wavm_module_func_lookup]: the reference is known by its name. *)
Definition ngx_wavm_module_func_lookup (m : ngx_wavm_module_t) (name : bytes) : option bytes :=
  if negb (m_loaded m) then None
  else if bool_decide (name ∈ m_funcs m) then Some name else None.

Section abi.
(** [NGX_DEBUG]: debug builds recognise the next version, to reject it. *)
Context (debug : bool).

Definition export_version (exportname : bytes) : option ngx_proxy_wasm_abi_version_e :=
  if bool_decide (exportname = ngx_string "proxy_abi_version_0_2_1") then Some ABI_0_2_1
  else if bool_decide (exportname = ngx_string "proxy_abi_version_0_2_0") then Some ABI_0_2_0
  else if bool_decide (exportname = ngx_string "proxy_abi_version_0_1_0") then Some ABI_0_1_0
  else if debug && bool_decide (exportname = ngx_string "proxy_abi_version_vnext")
       then Some ABI_VNEXT
  else None.

Fixpoint get_abi_version (exports : list bytes) : ngx_proxy_wasm_abi_version_e :=
  match exports with
  | [] => ABI_UNKNOWN
  | exportname :: exports =>
      match export_version exportname with
      | Some v => v
      | None => get_abi_version exports
      end
  end.

(** Assigning a callback the export of that name. *)
Definition assign (m : ngx_wavm_module_t) (fn : wasm_func) (name : bytes)
    (f : ngx_proxy_wasm_filter_t) : ngx_proxy_wasm_filter_t :=
  set_filter_func fn (ngx_wavm_module_func_lookup m name) f.

Definition assign_all (m : ngx_wavm_module_t) (l : list (wasm_func * bytes))
    (f : ngx_proxy_wasm_filter_t) : ngx_proxy_wasm_filter_t :=
  foldl (fun f e => assign m e.1 e.2 f) f l.

(** [abi_version < NGX_PROXY_WASM_VNEXT] *)
Definition before_vnext (f : ngx_proxy_wasm_filter_t) : bool :=
  abi_index (f_abi_version f) <? abi_index ABI_VNEXT.

Definition assign_before_vnext (m : ngx_wavm_module_t) (l : list (wasm_func * bytes))
    (f : ngx_proxy_wasm_filter_t) : ngx_proxy_wasm_filter_t :=
  if before_vnext f then assign_all m l f else f.

Definition init_malloc (m : ngx_wavm_module_t) (f : ngx_proxy_wasm_filter_t)
    : ngx_proxy_wasm_filter_t :=
  let f := assign m proxy_on_memory_allocate (ngx_string "malloc") f in
  match funcref f proxy_on_memory_allocate with
  | None => assign m proxy_on_memory_allocate (ngx_string "proxy_on_memory_allocate") f
  | Some _ => f
  end.

Definition init_context (m : ngx_wavm_module_t) (f : ngx_proxy_wasm_filter_t) :=
  let f := assign_all m
    [(proxy_on_context_create, ngx_string "proxy_on_context_create");
     (proxy_on_context_finalize, ngx_string "proxy_on_context_finalize")] f in
  assign_before_vnext m
    [(proxy_on_done, ngx_string "proxy_on_done");
     (proxy_on_log, ngx_string "proxy_on_log");
     (proxy_on_context_finalize, ngx_string "proxy_on_delete")] f.

Definition init_configuration (m : ngx_wavm_module_t) (f : ngx_proxy_wasm_filter_t) :=
  let f := assign_all m
    [(proxy_on_vm_start, ngx_string "proxy_on_vm_start");
     (proxy_on_plugin_start, ngx_string "proxy_on_plugin_start")] f in
  assign_before_vnext m [(proxy_on_plugin_start, ngx_string "proxy_on_configure")] f.

Definition init_stream (m : ngx_wavm_module_t) (f : ngx_proxy_wasm_filter_t) :=
  let f := assign_all m
    [(proxy_on_new_connection, ngx_string "proxy_on_new_connection");
     (proxy_on_downstream_data, ngx_string "proxy_on_downstream_data");
     (proxy_on_upstream_data, ngx_string "proxy_on_upstream_data");
     (proxy_on_downstream_close, ngx_string "proxy_on_downstream_close");
     (proxy_on_upstream_close, ngx_string "proxy_on_upstream_close")] f in
  assign_before_vnext m
    [(proxy_on_downstream_close, ngx_string "proxy_on_downstream_connection_close");
     (proxy_on_upstream_close, ngx_string "proxy_on_upstream_connection_close")] f.

Definition init_http (m : ngx_wavm_module_t) (f : ngx_proxy_wasm_filter_t) :=
  let f := assign_all m
    [(proxy_on_http_request_headers, ngx_string "proxy_on_http_request_headers");
     (proxy_on_http_request_body, ngx_string "proxy_on_http_request_body");
     (proxy_on_http_request_trailers, ngx_string "proxy_on_http_request_trailers");
     (proxy_on_http_request_metadata, ngx_string "proxy_on_http_request_metadata");
     (proxy_on_http_response_headers, ngx_string "proxy_on_http_response_headers");
     (proxy_on_http_response_body, ngx_string "proxy_on_http_response_body");
     (proxy_on_http_response_trailers, ngx_string "proxy_on_http_response_trailers");
     (proxy_on_http_response_metadata, ngx_string "proxy_on_http_response_metadata");
     (proxy_on_http_upstream_select, ngx_string "proxy_on_http_upstream_select");
     (proxy_on_http_next_upstream, ngx_string "proxy_on_http_next_upstream");
     (proxy_on_http_upstream_info, ngx_string "proxy_on_http_upstream_info")] f in
  assign_before_vnext m
    [(proxy_on_http_request_headers, ngx_string "proxy_on_request_headers");
     (proxy_on_http_request_body, ngx_string "proxy_on_request_body");
     (proxy_on_http_request_trailers, ngx_string "proxy_on_request_trailers");
     (proxy_on_http_request_metadata, ngx_string "proxy_on_request_metadata");
     (proxy_on_http_response_headers, ngx_string "proxy_on_response_headers");
     (proxy_on_http_response_body, ngx_string "proxy_on_response_body");
     (proxy_on_http_response_trailers, ngx_string "proxy_on_response_trailers");
     (proxy_on_http_response_metadata, ngx_string "proxy_on_response_metadata");
     (proxy_on_http_upstream_select, ngx_string "proxy_on_upstream_select");
     (proxy_on_http_next_upstream, ngx_string "proxy_on_next_upstream");
     (proxy_on_http_upstream_info, ngx_string "proxy_on_upstream_info")] f.

(** Shared queues, timers, callouts and custom extensions. *)
Definition init_callouts (m : ngx_wavm_module_t) (f : ngx_proxy_wasm_filter_t) :=
  let f := assign_all m
    [(proxy_on_queue_ready, ngx_string "proxy_on_queue_ready");
     (proxy_create_timer, ngx_string "proxy_create_timer");
     (proxy_delete_timer, ngx_string "proxy_delete_timer");
     (proxy_on_timer_ready, ngx_string "proxy_on_timer_ready")] f in
  let f := assign_before_vnext m [(proxy_on_timer_ready, ngx_string "proxy_on_tick")] f in
  let f := assign_all m
    [(proxy_on_http_call_response, ngx_string "proxy_on_http_call_response");
     (proxy_on_grpc_call_response_header_metadata,
      ngx_string "proxy_on_grpc_call_response_header_metadata");
     (proxy_on_grpc_call_response_message, ngx_string "proxy_on_grpc_call_response_message");
     (proxy_on_grpc_call_response_trailer_metadata,
      ngx_string "proxy_on_grpc_call_response_trailer_metadata");
     (proxy_on_grpc_call_close, ngx_string "proxy_on_grpc_call_close");
     (proxy_on_custom_callback, ngx_string "proxy_on_custom_callback")] f in
  assign_before_vnext m [(proxy_on_custom_callback, ngx_string "proxy_on_foreign_function")] f.

Definition init_callbacks (m : ngx_wavm_module_t) (f : ngx_proxy_wasm_filter_t) :=
  let f := init_context m f in
  let f := init_configuration m f in
  let f := init_stream m f in
  let f := init_http m f in
  init_callouts m f.

(** The callback is [NULL]. *)
Definition null_func (f : ngx_proxy_wasm_filter_t) (fn : wasm_func) : bool :=
  bool_decide (funcref f fn = None).

Definition ngx_proxy_wasm_filter_init_abi (m : ngx_wavm_module_t)
    (f : ngx_proxy_wasm_filter_t) : ngx_rc * ngx_proxy_wasm_filter_t :=
  let f := set_filter_abi (get_abi_version (m_exports m)) f in
  let f := match f_abi_version f with
           | ABI_0_1_0 | ABI_0_2_0 | ABI_0_2_1 => f
           | ABI_UNKNOWN => set_filter_ecode ERR_UNKNOWN_ABI f
           | _ => set_filter_ecode ERR_BAD_ABI f
           end in
  if is_err (f_ecode f) then (NGX_ERROR, f)
  else
    let f := init_malloc m f in
    if null_func f proxy_on_memory_allocate
    then (NGX_ERROR, set_filter_ecode ERR_BAD_MODULE_INTERFACE f)
    else
      let f := init_callbacks m f in
      if null_func f proxy_on_context_create || null_func f proxy_on_vm_start
         || null_func f proxy_on_plugin_start
      then (NGX_ERROR, set_filter_ecode ERR_BAD_MODULE_INTERFACE f)
      else (NGX_OK, f).

(** ** Identifying and loading a filter *)

(** [ngx_crc32_*] over the pieces, and [ngx_sprintf] of the data with "%ld". *)
Context (crc32 : bytes -> Z) (sprintf_ld : Z -> bytes).

Definition get_filter_id (name config : bytes) (data : Z) : Z :=
  crc32 (name ++ config ++ sprintf_ld data).

(** [m] is [filter->module], the tree is [pwroot->tree]. *)
Definition ngx_proxy_wasm_load `{Rbtree} (tree : rbtree) (filter : addr)
    (m : option ngx_wavm_module_t) (config : bytes) (data : Z) (f : ngx_proxy_wasm_filter_t)
    : ngx_rc * rbtree * ngx_proxy_wasm_filter_t :=
  if f_loaded f then (NGX_OK, tree, f)
  else match m with
       | None => (NGX_ERROR, tree, set_filter_ecode ERR_BAD_HOST_INTERFACE f)
       | Some m =>
           let id := get_filter_id (m_name m) config data in
           let f := set_filter_id id f in
           let tree := ngx_rbtree_insert tree filter id [] in
           match ngx_proxy_wasm_filter_init_abi m f with
           | (NGX_OK, f) => (NGX_OK, tree, set_filter_loaded true f)
           | (_, f) => (NGX_ERROR, tree, f)
           end
       end.

(** [ngx_proxy_wasm_lookup_filter] *)
Definition ngx_proxy_wasm_lookup_filter (tree : rbtree) (id : Z) : option addr :=
  rb_find id tree.

(** ** What a loaded filter calls *)

(** The exports a callback of the interfaces 0.1.0 to 0.2.1 can be, first choice
    first. *)
Definition sdk_names (fn : wasm_func) : list bytes :=
  match fn with
  | proxy_on_memory_allocate => [ngx_string "malloc"; ngx_string "proxy_on_memory_allocate"]
  | proxy_on_context_create => [ngx_string "proxy_on_context_create"]
  | proxy_on_context_finalize => [ngx_string "proxy_on_delete"]
  | proxy_on_done => [ngx_string "proxy_on_done"]
  | proxy_on_log => [ngx_string "proxy_on_log"]
  | proxy_on_vm_start => [ngx_string "proxy_on_vm_start"]
  | proxy_on_plugin_start => [ngx_string "proxy_on_configure"]
  | proxy_on_new_connection => [ngx_string "proxy_on_new_connection"]
  | proxy_on_downstream_data => [ngx_string "proxy_on_downstream_data"]
  | proxy_on_upstream_data => [ngx_string "proxy_on_upstream_data"]
  | proxy_on_downstream_close => [ngx_string "proxy_on_downstream_connection_close"]
  | proxy_on_upstream_close => [ngx_string "proxy_on_upstream_connection_close"]
  | proxy_on_http_request_headers => [ngx_string "proxy_on_request_headers"]
  | proxy_on_http_request_body => [ngx_string "proxy_on_request_body"]
  | proxy_on_http_request_trailers => [ngx_string "proxy_on_request_trailers"]
  | proxy_on_http_request_metadata => [ngx_string "proxy_on_request_metadata"]
  | proxy_on_http_response_headers => [ngx_string "proxy_on_response_headers"]
  | proxy_on_http_response_body => [ngx_string "proxy_on_response_body"]
  | proxy_on_http_response_trailers => [ngx_string "proxy_on_response_trailers"]
  | proxy_on_http_response_metadata => [ngx_string "proxy_on_response_metadata"]
  | proxy_on_http_upstream_select => [ngx_string "proxy_on_upstream_select"]
  | proxy_on_http_next_upstream => [ngx_string "proxy_on_next_upstream"]
  | proxy_on_http_upstream_info => [ngx_string "proxy_on_upstream_info"]
  | proxy_on_queue_ready => [ngx_string "proxy_on_queue_ready"]
  | proxy_create_timer => [ngx_string "proxy_create_timer"]
  | proxy_delete_timer => [ngx_string "proxy_delete_timer"]
  | proxy_on_timer_ready => [ngx_string "proxy_on_tick"]
  | proxy_on_http_call_response => [ngx_string "proxy_on_http_call_response"]
  | proxy_on_grpc_call_response_header_metadata =>
      [ngx_string "proxy_on_grpc_call_response_header_metadata"]
  | proxy_on_grpc_call_response_message => [ngx_string "proxy_on_grpc_call_response_message"]
  | proxy_on_grpc_call_response_trailer_metadata =>
      [ngx_string "proxy_on_grpc_call_response_trailer_metadata"]
  | proxy_on_grpc_call_close => [ngx_string "proxy_on_grpc_call_close"]
  | proxy_on_custom_callback => [ngx_string "proxy_on_foreign_function"]
  end.

Definition resolve (m : ngx_wavm_module_t) (fn : wasm_func) : option bytes :=
  head (omap (ngx_wavm_module_func_lookup m) (sdk_names fn)).

(** The callbacks without which a filter is refused. *)
Definition mandatory : list wasm_func :=
  [proxy_on_memory_allocate; proxy_on_context_create; proxy_on_vm_start; proxy_on_plugin_start].

Definition supported (v : ngx_proxy_wasm_abi_version_e) : bool :=
  bool_decide (v = ABI_0_1_0 \/ v = ABI_0_2_0 \/ v = ABI_0_2_1).

(** The code of a refusal. *)
Definition init_abi_ecode (m : ngx_wavm_module_t) : ngx_proxy_wasm_err_e :=
  let v := get_abi_version (m_exports m) in
  if bool_decide (v = ABI_UNKNOWN) then ERR_UNKNOWN_ABI
  else if negb (supported v) then ERR_BAD_ABI
  else if bool_decide (Forall (fun fn => resolve m fn <> None) mandatory) then ERR_NONE
  else ERR_BAD_MODULE_INTERFACE.

(** All assignments of a module that implements a supported version. *)
Definition init_all (m : ngx_wavm_module_t) (f : ngx_proxy_wasm_filter_t) :=
  init_callbacks m (init_malloc m f).

Lemma funcref_set fn fn' r f :
  funcref (set_filter_func fn r f) fn' = if decide (fn = fn') then r else funcref f fn'.
Proof.
  unfold funcref. simpl. destruct (decide (fn = fn')); [done|].
  by destruct (list_find _ (f_funcs f)) as [[? [??]]|].
Qed.

Lemma init_malloc_func m f :
  funcref (init_malloc m f) proxy_on_memory_allocate = resolve m proxy_on_memory_allocate.
Proof.
  unfold init_malloc, assign, resolve. simpl. rewrite !funcref_set. simpl.
  destruct (ngx_wavm_module_func_lookup m (ngx_string "malloc")); [by rewrite funcref_set|].
  rewrite !funcref_set. simpl. by destruct (ngx_wavm_module_func_lookup m _).
Qed.

Lemma init_malloc_other m f :
  f_abi_version (init_malloc m f) = f_abi_version f /\
  f_ecode (init_malloc m f) = f_ecode f.
Proof. unfold init_malloc. by case_match. Qed.

Lemma assign_all_app m l k f : assign_all m (l ++ k) f = assign_all m k (assign_all m l f).
Proof. apply foldl_app. Qed.

Lemma assign_all_version m l f : f_abi_version (assign_all m l f) = f_abi_version f.
Proof. revert f. induction l as [|e l IH]; intros f; [done|]. simpl. by rewrite IH. Qed.

Lemma assign_all_ecode m l f : f_ecode (assign_all m l f) = f_ecode f.
Proof. revert f. induction l as [|e l IH]; intros f; [done|]. simpl. by rewrite IH. Qed.

(** The last assignment of a callback is the one that counts. *)
Fixpoint last_assigned (fn : wasm_func) (l : list (wasm_func * bytes)) : option bytes :=
  match l with
  | [] => None
  | (fn', name) :: l =>
      match last_assigned fn l with
      | Some n => Some n
      | None => if decide (fn' = fn) then Some name else None
      end
  end.

Lemma assign_all_func m l f fn :
  funcref (assign_all m l f) fn =
    match last_assigned fn l with
    | Some name => ngx_wavm_module_func_lookup m name
    | None => funcref f fn
    end.
Proof.
  revert f. induction l as [|[fn' name] l IH]; intros f; [done|]. simpl. rewrite IH.
  destruct (last_assigned fn l); [done|]. unfold assign. rewrite funcref_set. by case_decide.
Qed.

Lemma assign_before_vnext_true m l f :
  before_vnext f = true -> assign_before_vnext m l f = assign_all m l f.
Proof. unfold assign_before_vnext. by intros ->. Qed.

Lemma before_vnext_assign m l f : before_vnext (assign_all m l f) = before_vnext f.
Proof. unfold before_vnext. by rewrite assign_all_version. Qed.

Lemma before_vnext_assign_before m l f :
  before_vnext (assign_before_vnext m l f) = before_vnext f.
Proof.
  unfold assign_before_vnext. destruct (before_vnext f) eqn:E; [|done].
  by rewrite before_vnext_assign.
Qed.

(** Below the next version, all stages together are one list of assignments. *)
Lemma init_stages m f :
  before_vnext f = true ->
  exists l,
    init_callbacks m f = assign_all m l f /\
    forall fn, last_assigned fn l =
      if decide (fn = proxy_on_memory_allocate) then None else head (sdk_names fn).
Proof.
  intros Hv. unfold init_callbacks, init_callouts, init_http, init_stream,
    init_configuration, init_context.
  cbv zeta. rewrite !assign_before_vnext_true
    by (repeat (rewrite before_vnext_assign || rewrite before_vnext_assign_before); done).
  rewrite <- !assign_all_app. eexists. split; [reflexivity|].
  intros fn. by destruct fn.
Qed.

#[local] Opaque init_callbacks init_malloc.

Lemma init_all_func m f fn :
  before_vnext f = true -> funcref (init_all m f) fn = resolve m fn.
Proof.
  intros Hv.
  assert (Hv1 : before_vnext (init_malloc m f) = true)
    by (unfold before_vnext; by rewrite (proj1 (init_malloc_other m f))).
  unfold init_all. destruct (init_stages m _ Hv1) as (l & -> & Hl).
  rewrite assign_all_func, Hl. case_decide as Hne; [subst fn; apply init_malloc_func|].
  unfold resolve. destruct fn; simpl; try done; by destruct (ngx_wavm_module_func_lookup m _).
Qed.

Lemma init_all_ecode m f :
  before_vnext f = true -> f_ecode (init_all m f) = f_ecode f.
Proof.
  intros Hv.
  assert (Hv1 : before_vnext (init_malloc m f) = true)
    by (unfold before_vnext; by rewrite (proj1 (init_malloc_other m f))).
  unfold init_all. destruct (init_stages m _ Hv1) as (l & -> & _).
  rewrite assign_all_ecode. apply init_malloc_other.
Qed.

Lemma supported_before_vnext v f :
  supported v = true -> before_vnext (set_filter_abi v f) = true.
Proof. by destruct v. Qed.

Lemma null_func_resolve m f fn :
  before_vnext f = true ->
  null_func (init_all m f) fn = bool_decide (resolve m fn = None).
Proof. intros Hv. unfold null_func. by rewrite init_all_func. Qed.

Lemma Forall_cons_dec {A} (P : A -> Prop) `{forall x, Decision (P x)} x l :
  bool_decide (Forall P (x :: l)) = bool_decide (P x) && bool_decide (Forall P l).
Proof. rewrite <- bool_decide_and. apply bool_decide_ext, Forall_cons. Qed.

(** Reading the interface of a module of a supported version. *)
Lemma init_abi_supported m f :
  supported (get_abi_version (m_exports m)) = true -> f_ecode f = ERR_NONE ->
  let f0 := set_filter_abi (get_abi_version (m_exports m)) f in
  ngx_proxy_wasm_filter_init_abi m f =
    if bool_decide (resolve m proxy_on_memory_allocate = None)
    then (NGX_ERROR, set_filter_ecode ERR_BAD_MODULE_INTERFACE (init_malloc m f0))
    else if bool_decide (Forall (fun fn => resolve m fn <> None) mandatory)
    then (NGX_OK, init_all m f0)
    else (NGX_ERROR, set_filter_ecode ERR_BAD_MODULE_INTERFACE (init_all m f0)).
Proof.
  intros Hs He f0. pose proof (supported_before_vnext _ f Hs) as Hv. fold f0 in Hv.
  unfold ngx_proxy_wasm_filter_init_abi. cbv zeta. fold f0.
  replace (match f_abi_version f0 with _ => _ end) with f0
    by (unfold f0 in *; simpl; by destruct (get_abi_version (m_exports m))).
  replace (is_err (f_ecode f0)) with false by (unfold f0; simpl; by rewrite He).
  cbn match. fold (init_all m f0).
  assert (Hn : null_func (init_malloc m f0) proxy_on_memory_allocate =
               bool_decide (resolve m proxy_on_memory_allocate = None))
    by (unfold null_func; by rewrite init_malloc_func).
  rewrite Hn, !null_func_resolve by exact Hv.
  unfold mandatory. rewrite !Forall_cons_dec.
  generalize (resolve m proxy_on_memory_allocate), (resolve m proxy_on_context_create),
    (resolve m proxy_on_vm_start), (resolve m proxy_on_plugin_start).
  generalize (init_all m f0), (init_malloc m f0). intros g1 g2 [?|] [?|] [?|] [?|]; reflexivity.
Qed.

Lemma init_abi_unsupported m f :
  supported (get_abi_version (m_exports m)) = false -> f_ecode f = ERR_NONE ->
  ngx_proxy_wasm_filter_init_abi m f =
    (NGX_ERROR, set_filter_ecode (init_abi_ecode m)
                  (set_filter_abi (get_abi_version (m_exports m)) f)) /\
  init_abi_ecode m <> ERR_NONE.
Proof.
  unfold ngx_proxy_wasm_filter_init_abi, init_abi_ecode.
  generalize (get_abi_version (m_exports m)). intros v Hs He.
  destruct v; try discriminate Hs; split; try reflexivity; discriminate.
Qed.

Lemma init_all_version m f :
  before_vnext f = true -> f_abi_version (init_all m f) = f_abi_version f.
Proof.
  intros Hv. destruct (init_malloc_other m f) as [Hm _].
  assert (Hv1 : before_vnext (init_malloc m f) = true) by (unfold before_vnext; by rewrite Hm).
  unfold init_all. destruct (init_stages m _ Hv1) as (l & -> & _).
  by rewrite assign_all_version.
Qed.

Lemma init_abi_ecode_supported m :
  supported (get_abi_version (m_exports m)) = true ->
  init_abi_ecode m =
    if bool_decide (Forall (fun fn => resolve m fn <> None) mandatory) then ERR_NONE
    else ERR_BAD_MODULE_INTERFACE.
Proof.
  unfold init_abi_ecode. generalize (get_abi_version (m_exports m)).
  intros v Hs. rewrite Hs. by destruct v.
Qed.

Lemma mandatory_malloc m :
  resolve m proxy_on_memory_allocate = None ->
  ~ Forall (fun fn => resolve m fn <> None) mandatory.
Proof.
  unfold mandatory. intros Hm HF. apply Forall_cons in HF as [HF _]. exact (HF Hm).
Qed.

Lemma set_filter_ecode_version e f : f_abi_version (set_filter_ecode e f) = f_abi_version f.
Proof. reflexivity. Qed.

(** The outcome for a supported version, with the record left symbolic. *)
Lemma init_abi_result m f :
  f_ecode f = ERR_NONE ->
  exists f', ngx_proxy_wasm_filter_init_abi m f =
      (if bool_decide (init_abi_ecode m = ERR_NONE) then NGX_OK else NGX_ERROR, f') /\
    f_ecode f' = init_abi_ecode m /\
    f_abi_version f' = get_abi_version (m_exports m) /\
    (init_abi_ecode m = ERR_NONE -> f' = init_all m (set_filter_abi (get_abi_version (m_exports m)) f)
       /\ supported (get_abi_version (m_exports m)) = true).
Proof.
  intros He. destruct (supported (get_abi_version (m_exports m))) eqn:Hs.
  - pose proof (supported_before_vnext _ f Hs) as Hv.
    pose proof (init_all_ecode m _ Hv) as Hec. pose proof (init_all_version m _ Hv) as Hav.
    destruct (init_malloc_other m (set_filter_abi (get_abi_version (m_exports m)) f)) as [Hmv _].
    rewrite init_abi_supported, init_abi_ecode_supported by done. case_bool_decide as Hm.
    + rewrite (bool_decide_false _ (mandatory_malloc m Hm)).
      eexists. split; [reflexivity|]. split_and!; [reflexivity| |discriminate].
      rewrite set_filter_ecode_version, Hmv. reflexivity.
    + case_bool_decide; (eexists; split; [reflexivity|]).
      * split_and!; [exact (eq_trans Hec He)|exact Hav|intros _; split; reflexivity].
      * split_and!; [reflexivity| |discriminate].
        rewrite set_filter_ecode_version, Hav. reflexivity.
  - destruct (init_abi_unsupported m f Hs He) as [-> Hne].
    eexists. rewrite bool_decide_false by done. split; [reflexivity|].
    split_and!; [reflexivity|reflexivity|intros H; destruct (Hne H)].
Qed.

(** C40. Reading the interface of a module: a filter is accepted exactly when its
    module implements a version from 0.1.0 to 0.2.1 and exports an allocator and
    the three functions that start a context; every callback is then the export
    of its documented name, or [NULL] when there is none.  A refusal leaves the
    code of its reason in the filter. *)
Theorem init_abi_resolves m f :
  f_ecode f = ERR_NONE ->
  let '(rc, f') := ngx_proxy_wasm_filter_init_abi m f in
  f_ecode f' = init_abi_ecode m /\
  f_abi_version f' = get_abi_version (m_exports m) /\
  (rc = NGX_OK <-> init_abi_ecode m = ERR_NONE) /\
  (rc = NGX_OK -> forall fn, funcref f' fn = resolve m fn) /\
  (rc <> NGX_OK -> rc = NGX_ERROR).
Proof.
  intros He. destruct (init_abi_result m f He) as (f' & -> & Hec & Hav & Hok).
  case_bool_decide as Hd; (split; [exact Hec|]; split; [exact Hav|]; split).
  - by split.
  - split; [|congruence]. intros _ fn. destruct (Hok Hd) as [-> Hs].
    apply init_all_func, supported_before_vnext, Hs.
  - split; [discriminate|congruence].
  - split; [discriminate|reflexivity].
Qed.

End abi.

(** A module that exports what its author tested: nothing for the log phase. *)
Definition small_module : ngx_wavm_module_t :=
  {| m_name := ngx_string "small"; m_loaded := true;
     m_exports := [ngx_string "memory"; ngx_string "proxy_abi_version_0_2_1"];
     m_funcs := [ngx_string "proxy_on_vm_start"; ngx_string "proxy_on_configure";
                 ngx_string "proxy_on_context_create"; ngx_string "malloc"] |}.

Definition new_filter (store : addr) (module : Z) : ngx_proxy_wasm_filter_t :=
  {| f_id := 0; f_module := module; f_module_config_len := 0; f_config_len := 0;
     f_acl_ctx := false; f_store := store; f_ecode := ERR_NONE; f_abi_version := ABI_0_1_0;
     f_funcs := []; f_loaded := false; f_started := false |}.

Lemma init_abi_resolves_witness :
  f_ecode (ngx_proxy_wasm_filter_init_abi false small_module (new_filter 1%positive 1)).2
  = init_abi_ecode false small_module.
Proof.
  pose proof (init_abi_resolves false small_module (new_filter 1%positive 1) eq_refl) as H.
  revert H. generalize (ngx_proxy_wasm_filter_init_abi false small_module
    (new_filter 1%positive 1)). intros [rc f'] H. exact (proj1 H).
Defined.

(** The module is accepted although the functions called for every request are
    missing. *)
Example small_module_accepted :
  let '(rc, f) := ngx_proxy_wasm_filter_init_abi false small_module (new_filter 1%positive 1) in
  rc = NGX_OK /\ funcref f proxy_on_http_request_headers = None /\
  funcref f proxy_on_log = None.
Proof. by vm_compute. Qed.

End Abi.
