(* ===== verification/Instances.v ===== *)
(** * Proxy-Wasm: instances, stores and contexts

    The life of instances in src/src/common/proxy_wasm/ngx_proxy_wasm.c: looking
    for a usable one, invalidating a trapped one, sweeping and destroying, and
    the creation and destruction of root and filter contexts on them.  The
    functions are computations over the heap of [ProxyWasm]. *)
From S2P Require Import Prelude NginxCore ProxyWasm Abi.
From stdpp Require Export list.
#[global] Open Scope Z_scope.

Module Instances.
Import ProxyWasm.

(** ** Queues of instances

    [ngx_queue_t] is an intrusive list: [None] is the sentinel, whose next
    element is the head. *)

Definition ngx_queue_next (l : list addr) (q : option addr) : option addr :=
  match q with
  | None => head l
  | Some a =>
      match list_find (fun b => b = a) l with
      | Some (i, _) => l !! S i
      | None => None
      end
  end.

(** [ngx_queue_remove]: a queue does not know its list, the element leaves the
    one it is in. *)
Definition queue_remove (a : addr) (st : ngx_proxy_wasm_store_t) : ngx_proxy_wasm_store_t :=
  {| st_busy := filter (fun b => b <> a) (st_busy st);
     st_free := filter (fun b => b <> a) (st_free st);
     st_sweep := filter (fun b => b <> a) (st_sweep st) |}.

Definition insert_busy (a : addr) (st : ngx_proxy_wasm_store_t) : ngx_proxy_wasm_store_t :=
  {| st_busy := st_busy st ++ [a]; st_free := st_free st; st_sweep := st_sweep st |}.
Definition insert_free (a : addr) (st : ngx_proxy_wasm_store_t) : ngx_proxy_wasm_store_t :=
  {| st_busy := st_busy st; st_free := st_free st ++ [a]; st_sweep := st_sweep st |}.
Definition insert_sweep (a : addr) (st : ngx_proxy_wasm_store_t) : ngx_proxy_wasm_store_t :=
  {| st_busy := st_busy st; st_free := st_free st; st_sweep := st_sweep st ++ [a] |}.

(** [ngx_rbtree_min] *)
Definition ngx_rbtree_min (t : rbtree) : option addr := (head (rb_elements t)) ≫= fun e => Some e.1.

(** [goto error]: the code and the value of the local [pwexec] at that point. *)
Abbreviation goto_error := (ngx_proxy_wasm_err_e * option addr)%type.

Section instances.
Context {G : Type} `{Wavm G} `{Rbtree} (debug : bool).
Implicit Types h : heap G.

(** ** Destroying *)

(** [destroy_pwexec].  [ngx_pfree] gives back large chunks only, so the store of
    the context stays in its pool. *)
Definition destroy_pwexec (pwexec : addr) : M G unit :=
  e ← read_exec pwexec;
  assert debug (negb (pe_root_id e =? NGX_PROXY_WASM_ROOT_CTX_ID));;
  write_exec pwexec (fun e => set_exec_log false (set_exec_started false (set_exec_ictx None e)));;
  match pe_parent e with
  | Some p =>
      c ← read_ctx p;
      if bool_decide (pw_isolation c = ISOLATION_FILTER) && bool_decide (pe_store e <> None)
      then write_exec pwexec (set_exec_store None)
      else mret tt
  | None => mret tt
  end.

(** [ngx_rbtree_delete] clears the key of the node. *)
Definition unlink_root (ictx e : addr) : M G unit :=
  write_inst ictx (fun i =>
    set_instance_trees (is_tree_ctxs i) (ngx_rbtree_delete (is_root_ctxs i) e) i);;
  write_exec e (set_exec_node_key 0).

Definition unlink_tree (ictx e : addr) : M G unit :=
  write_inst ictx (fun i =>
    set_instance_trees (ngx_rbtree_delete (is_tree_ctxs i) e) (is_root_ctxs i) i);;
  write_exec e (set_exec_node_key 0).

(** The two loops over the contexts of an instance, until each tree is empty. *)
Fixpoint detach_root_ctxs (fuel : nat) (ictx : addr) : M G unit :=
  i ← read_inst ictx;
  match ngx_rbtree_min (is_root_ctxs i) with
  | None => mret tt
  | Some e =>
      match fuel with
      | O => lift (Fault F_fuel)
      | S fuel =>
          write_exec e (set_exec_ictx None);;
          unlink_root ictx e;;
          detach_root_ctxs fuel ictx
      end
  end.

Fixpoint destroy_tree_ctxs (fuel : nat) (ictx : addr) : M G unit :=
  i ← read_inst ictx;
  match ngx_rbtree_min (is_tree_ctxs i) with
  | None => mret tt
  | Some e =>
      match fuel with
      | O => lift (Fault F_fuel)
      | S fuel =>
          unlink_tree ictx e;;
          destroy_pwexec e;;
          destroy_tree_ctxs fuel ictx
      end
  end.

Definition detach_all (ictx : addr) : M G unit :=
  i ← read_inst ictx;
  detach_root_ctxs (length (rb_elements (is_root_ctxs i))) ictx;;
  destroy_tree_ctxs (length (rb_elements (is_tree_ctxs i))) ictx.

Definition ngx_proxy_wasm_instance_invalidate (ictx : addr) : M G unit :=
  detach_all ictx;;
  i ← read_inst ictx;
  write_store (is_store i) (fun st => insert_sweep ictx (queue_remove ictx st)).

(** The instance context dies with its VM instance. *)
Definition ngx_proxy_wasm_instance_destroy (ictx : addr) : M G unit :=
  detach_all ictx;;
  guest (fun g => (tt, ngx_wavm_instance_destroy g ictx));;
  free_inst ictx.

Fixpoint sweep_loop (fuel : nat) (store : addr) : M G unit :=
  st ← read_store store;
  match head (st_sweep st) with
  | None => mret tt
  | Some ictx =>
      match fuel with
      | O => lift (Fault F_fuel)
      | S fuel =>
          write_store store (queue_remove ictx);;
          ngx_proxy_wasm_instance_destroy ictx;;
          sweep_loop fuel store
      end
  end.

Definition ngx_proxy_wasm_store_sweep (store : addr) : M G unit :=
  st ← read_store store;
  sweep_loop (length (st_sweep st)) store.

(** The loops of [ngx_proxy_wasm_store_destroy] that move the heads of a queue. *)
Fixpoint move_loop (fuel : nat) (q : ngx_proxy_wasm_store_t -> list addr)
    (put : addr -> ngx_proxy_wasm_store_t -> ngx_proxy_wasm_store_t) (store : addr) : M G unit :=
  st ← read_store store;
  match head (q st) with
  | None => mret tt
  | Some ictx =>
      match fuel with
      | O => lift (Fault F_fuel)
      | S fuel =>
          write_store store (fun st => put ictx (queue_remove ictx st));;
          move_loop fuel q put store
      end
  end.

Definition ngx_proxy_wasm_store_destroy (store : addr) : M G unit :=
  st ← read_store store;
  move_loop (length (st_busy st)) st_busy insert_free store;;
  st ← read_store store;
  move_loop (length (st_free st)) st_free insert_sweep store;;
  ngx_proxy_wasm_store_sweep store.

(** ** Finding or creating an instance *)

(** The walk over the busy instances, from position [q].  After a trapped one,
    [q] is moved to its successor and then by the loop once more. *)
Fixpoint find_busy (fuel : nat) (store : addr) (module : Z) (q : option addr)
    : M G (option addr) :=
  match q with
  | None => mret None
  | Some ictx =>
      match fuel with
      | O => lift (Fault F_fuel)
      | S fuel =>
          i ← read_inst ictx;
          st ← read_store store;
          if is_trapped i then
            (let q := ngx_queue_next (st_busy st) (Some ictx) in
             ngx_proxy_wasm_instance_invalidate ictx;;
             st ← read_store store;
             find_busy fuel store module (ngx_queue_next (st_busy st) q))
          else if is_module i =? module then mret (Some ictx)
          else find_busy fuel store module (ngx_queue_next (st_busy st) (Some ictx))
      end
  end.

(** Every trapped instance leaves the queue, and the walk can start over once for
    each. *)
Definition find_fuel (st : ngx_proxy_wasm_store_t) : nat :=
  S (length (st_busy st)) * S (length (st_busy st)).

Definition new_instance (f : ngx_proxy_wasm_filter_t) (store : addr) : M G (option addr) :=
  ok ← guest ngx_palloc;
  if negb ok then mret None
  else
    ictx ← new_inst {| is_tree_ctxs := Sentinel; is_root_ctxs := Sentinel;
                       is_module := f_module f; is_store := store; is_trapped := false;
                       is_pwexec := None |};
    ok ← guest (fun g => ngx_wavm_instance_create g (f_module f) ictx);
    if negb ok then free_inst ictx;; mret None
    else
      write_store store (insert_busy ictx);;
      mret (Some ictx).

Definition get_instance (f : ngx_proxy_wasm_filter_t) (store : addr) : M G (option addr) :=
  st ← read_store store;
  r ← find_busy (find_fuel st) store (f_module f) (ngx_queue_next (st_busy st) None);
  match r with
  | Some ictx => mret (Some ictx)
  | None => new_instance f store
  end.

(** ** Creating contexts *)

(** [ngx_proxy_wasm_instance_update] *)
Definition ngx_proxy_wasm_instance_update (ictx pwexec : addr) : M G unit :=
  write_inst ictx (set_instance_pwexec (Some pwexec)).

Definition ngx_proxy_wasm_lookup_root_ctx (ictx : addr) (id : Z) : M G (option addr) :=
  i ← read_inst ictx; mret (rb_find id (is_root_ctxs i)).

Definition ngx_proxy_wasm_lookup_ctx (ictx : addr) (id : Z) : M G (option addr) :=
  i ← read_inst ictx; mret (rb_find id (is_tree_ctxs i)).

Definition ebind {A B} (m : M G (A + goto_error)) (k : A -> M G (B + goto_error)) : M G (B + goto_error) :=
  r ← m;
  match r with
  | inl a => k a
  | inr e => mret (inr e)
  end.

Definition fail {A} (ecode : ngx_proxy_wasm_err_e) (pwexec : option addr) : M G (A + goto_error) :=
  mret (inr (ecode, pwexec)).

(** [if (p == NULL) goto error] after an allocation. *)
Definition alloc_or (ecode : ngx_proxy_wasm_err_e) (pwexec : option addr) : M G (unit + goto_error) :=
  ok ← guest ngx_palloc;
  if negb ok then fail ecode pwexec else mret (inl tt).

(** [in && in->root_id == NGX_PROXY_WASM_ROOT_CTX_ID] *)
Definition is_root_in (i : option addr) : M G bool :=
  match i with
  | Some e => ex ← read_exec e; mret (pe_root_id ex =? NGX_PROXY_WASM_ROOT_CTX_ID)
  | None => mret false
  end.

(** The store of the context; a store of its own is allocated for
    [ISOLATION_FILTER]. *)
Definition context_store (f : ngx_proxy_wasm_filter_t) (pwctx : option addr) (id : Z)
    (in_ : option addr) : M G (addr + goto_error) :=
  root ← is_root_in in_;
  if (id =? NGX_PROXY_WASM_ROOT_CTX_ID) || root then
    ngx_proxy_wasm_store_sweep (f_store f);;
    mret (inl (f_store f))
  else
    pwctx ← non_null pwctx;
    c ← read_ctx pwctx;
    match pw_isolation c with
    | ISOLATION_NONE => mret (inl (f_store f))
    | ISOLATION_STREAM => store ← non_null (pw_store c); mret (inl store)
    | ISOLATION_FILTER =>
        ebind (alloc_or ERR_UNKNOWN None) (fun _ =>
          st ← new_store ngx_proxy_wasm_store_init;
          mret (inl st))
    | ISOLATION_UNSET => fail ERR_UNKNOWN None
    end.

(** The instance of [in] when it can still be used. *)
Definition usable_ictx (in_ : option addr) : M G (option addr) :=
  match in_ with
  | None => mret None
  | Some e =>
      ex ← read_exec e;
      match pe_ictx ex with
      | None => mret None
      | Some ictx =>
          i ← read_inst ictx;
          mret (if is_trapped i then None else Some ictx)
      end
  end.

Definition context_instance (f : ngx_proxy_wasm_filter_t) (store : addr) (in_ : option addr)
    : M G (addr + goto_error) :=
  u ← usable_ictx in_;
  match u with
  | Some ictx => mret (inl ictx)
  | None =>
      r ← get_instance f store;
      match r with
      | Some ictx => mret (inl ictx)
      | None => fail ERR_UNKNOWN None
      end
  end.

(** A new root context: [rexec], its access lists, log and stream context. *)
Definition new_root_context (filter : addr) (f : ngx_proxy_wasm_filter_t) (ictx : addr)
    : M G (addr + goto_error) :=
  ebind (alloc_or ERR_START_FAILED None) (fun _ =>
  rexec ← new_exec
    {| pe_root_id := NGX_PROXY_WASM_ROOT_CTX_ID; pe_id := f_id f; pe_index := 0;
       pe_tick_period := 0; pe_node_key := 0; pe_ecode := ERR_NONE; pe_log := false;
       pe_parent := None; pe_filter := filter; pe_ictx := Some ictx; pe_store := None;
       pe_started := false; pe_in_tick := false; pe_ecode_logged := false |};
  ebind (if f_acl_ctx f then
           ebind (alloc_or ERR_START_FAILED None) (fun _ =>
             ok ← guest wasm_acl_init;
             if negb ok then fail ERR_START_FAILED None else mret (inl tt))
         else mret (inl tt)) (fun _ =>
  ebind (alloc_or ERR_START_FAILED None) (fun _ =>
  write_exec rexec (set_exec_log true);;
  ebind (alloc_or ERR_START_FAILED None) (fun _ =>
  parent ← new_ctx (set_ctx_chain 0 [] ISOLATION_STREAM zero_ctx);
  write_exec rexec (set_exec_parent (Some parent));;
  mret (inl rexec))))).

(** The root context of the filter on this instance. *)
Definition root_context (filter : addr) (f : ngx_proxy_wasm_filter_t) (ictx : addr)
    (in_ : option addr) : M G (addr + goto_error) :=
  r ← ngx_proxy_wasm_lookup_root_ctx ictx (f_id f);
  match r with
  | Some rexec => mret (inl rexec)
  | None =>
      root ← is_root_in in_;
      match in_, root with
      | Some e, true =>
          ex ← read_exec e;
          (if bool_decide (pe_ictx ex <> Some ictx) then
             write_exec e (fun e =>
               set_exec_tick_period 0 (set_exec_started false (set_exec_ictx (Some ictx) e)))
           else mret tt);;
          mret (inl e)
      | _, _ => new_root_context filter f ictx
      end
  end.

(** [rc != NGX_OK || !rets->data[0].of.i32] *)
Definition call_failed (r : ngx_rc * Z) : bool := negb (is_ok r.1) || (r.2 =? 0).

Definition start_root_context (f : ngx_proxy_wasm_filter_t) (ictx rexec : addr) (id : Z)
    : M G (unit + goto_error) :=
  ex ← read_exec rexec;
  if pe_started ex then mret (inl tt)
  else
    ngx_proxy_wasm_instance_update ictx rexec;;
    r ← ngx_wavm_instance_call_funcref debug ictx f proxy_on_context_create
          [pe_id ex; pe_root_id ex];
    if negb (is_ok r.1) then fail ERR_START_FAILED None
    else ebind
      (if id =? NGX_PROXY_WASM_ROOT_CTX_ID then
         r ← ngx_wavm_instance_call_funcref debug ictx f proxy_on_vm_start
               [pe_id ex; f_module_config_len f];
         if call_failed r then fail ERR_VM_START_FAILED None else mret (inl tt)
       else mret (inl tt)) (fun _ =>
    r ← ngx_wavm_instance_call_funcref debug ictx f proxy_on_plugin_start
          [pe_id ex; f_config_len f];
    if call_failed r then fail ERR_CONFIGURE_FAILED None
    else
      write_exec rexec (set_exec_node_key (pe_id ex));;
      write_inst ictx (fun i =>
        set_instance_trees (is_tree_ctxs i)
          (ngx_rbtree_insert (is_root_ctxs i) rexec (pe_id ex) []) i);;
      write_exec rexec (set_exec_started true);;
      mret (inl tt)).

(** The execution context of the filter for this stream, with its log. *)
Definition stream_context (filter : addr) (f : ngx_proxy_wasm_filter_t) (pwctx : option addr)
    (ictx : addr) (id : Z) (in_ : option addr) : M G (addr + goto_error) :=
  p ← ngx_proxy_wasm_lookup_ctx ictx id;
  match p with
  | Some pwexec =>
      ex ← read_exec pwexec;
      assert debug (pe_id ex =? id);;
      mret (inl pwexec)
  | None =>
      pwctx ← non_null pwctx;
      ebind
        match in_ with
        | None =>
            ebind (alloc_or ERR_START_FAILED None) (fun _ =>
              i ← read_inst ictx;
              c ← read_ctx pwctx;
              pwexec ← new_exec
                {| pe_root_id := f_id f; pe_id := id; pe_index := zlen (pw_pwexecs c);
                   pe_tick_period := 0; pe_node_key := 0; pe_ecode := ERR_NONE;
                   pe_log := false; pe_parent := Some pwctx; pe_filter := filter;
                   pe_ictx := Some ictx; pe_store := Some (is_store i); pe_started := false;
                   pe_in_tick := false; pe_ecode_logged := false |};
              write_ctx pwctx (fun c => set_ctx_pwexecs (pw_pwexecs c ++ [pwexec]) c);;
              mret (inl pwexec))
        | Some e =>
            ex ← read_exec e;
            (if bool_decide (pe_ictx ex <> Some ictx) then
               write_exec e (fun e => set_exec_started false (set_exec_ictx (Some ictx) e))
             else mret tt);;
            mret (inl e)
        end (fun pwexec =>
      ex ← read_exec pwexec;
      if negb (pe_log ex) then
        ebind (alloc_or ERR_START_FAILED (Some pwexec)) (fun _ =>
          write_exec pwexec (set_exec_log true);;
          mret (inl pwexec))
      else mret (inl pwexec))
  end.

Definition start_stream_context (f : ngx_proxy_wasm_filter_t) (ictx pwexec : addr) (id : Z)
    : M G (unit + goto_error) :=
  ex ← read_exec pwexec;
  if pe_started ex then mret (inl tt)
  else
    ngx_proxy_wasm_instance_update ictx pwexec;;
    r ← ngx_wavm_instance_call_funcref debug ictx f proxy_on_context_create [id; f_id f];
    if negb (is_ok r.1) then fail ERR_START_FAILED (Some pwexec)
    else
      write_exec pwexec (set_exec_node_key (pe_id ex));;
      write_inst ictx (fun i =>
        set_instance_trees (ngx_rbtree_insert (is_tree_ctxs i) pwexec (pe_id ex) [])
          (is_root_ctxs i) i);;
      write_exec pwexec (set_exec_started true);;
      mret (inl tt).

Definition create_context_body (filter : addr) (f : ngx_proxy_wasm_filter_t)
    (pwctx : option addr) (id : Z) (in_ : option addr) : M G (addr + goto_error) :=
  ebind (context_store f pwctx id in_) (fun store =>
  ebind (context_instance f store in_) (fun ictx =>
  ebind (root_context filter f ictx in_) (fun rexec =>
  ebind (start_root_context f ictx rexec id) (fun _ =>
  root ← is_root_in in_;
  if negb (id =? 0) && negb root then
    ebind (stream_context filter f pwctx ictx id in_) (fun pwexec =>
    ebind (start_stream_context f ictx pwexec id) (fun _ =>
    mret (inl pwexec)))
  else mret (inl rexec))))).

(** [ngx_proxy_wasm_create_context]: the code and, on success, [*out]. *)
Definition ngx_proxy_wasm_create_context (filter : addr) (pwctx : option addr) (id : Z)
    (in_ : option addr) : M G (ngx_proxy_wasm_err_e * option addr) :=
  f ← read_filter filter;
  r ← create_context_body filter f pwctx id in_;
  match r with
  | inl out => mret (ERR_NONE, Some out)
  | inr (ecode, Some pwexec) =>
      write_exec pwexec (set_exec_ecode ecode);;
      mret (ecode, None)
  | inr (ecode, None) =>
      write_filter filter (set_filter_ecode ecode);;
      mret (ecode, None)
  end.

(** [ngx_proxy_wasm_filter_start] *)
Definition ngx_proxy_wasm_filter_start (filter : addr) : M G ngx_rc :=
  f ← read_filter filter;
  assert debug (f_loaded f);;
  if is_err (f_ecode f) then mret NGX_ERROR
  else if f_started f then mret NGX_OK
  else
    '(ecode, _) ← ngx_proxy_wasm_create_context filter None 0 None;
    if is_err ecode then mret NGX_ERROR
    else
      write_filter filter (set_filter_started true);;
      mret NGX_OK.

(** [ngx_proxy_wasm_start]: the filters in the order of their identifiers. *)
Fixpoint ngx_proxy_wasm_start (filters : list addr) : M G ngx_rc :=
  match filters with
  | [] => mret NGX_OK
  | filter :: filters =>
      rc ← ngx_proxy_wasm_filter_start filter;
      if negb (is_ok rc) then mret NGX_ERROR else ngx_proxy_wasm_start filters
  end.

(** ** Stream contexts *)

(** The loop of [ngx_proxy_wasm_ctx] over the filters of a chain; [last] is the
    local [pwexec], [id] the static [next_id]. *)
Fixpoint init_chain (tree : rbtree) (pwctx : addr) (filter_ids : list Z) (last : option addr)
    (id : Z) : M G (bool * Z) :=
  match filter_ids with
  | [] => mret (true, id)
  | fid :: filter_ids =>
      match Abi.ngx_proxy_wasm_lookup_filter tree fid with
      | None => assert debug false;; mret (false, id)
      | Some filter =>
          '(_, out) ← ngx_proxy_wasm_create_context filter (Some pwctx) (id + 1) None;
          let pwexec := match out with Some e => Some e | None => last end in
          match pwexec with
          | None => mret (false, id + 1)
          | Some _ => init_chain tree pwctx filter_ids pwexec (id + 1)
          end
      end
  end.

(** [ngx_proxy_wasm_ctx] on the context [subsys->get_context] returned; [tree] is
    [pwroot->tree].  [None] is [NULL]. *)
Definition ngx_proxy_wasm_ctx (tree : rbtree) (pwctx : addr) (filter_ids : option (list Z))
    (isolation : ngx_proxy_wasm_isolation_mode_e) (next_id : Z) : M G (option addr * Z) :=
  c ← read_ctx pwctx;
  (if negb (pw_init c) then
     (if bool_decide (isolation = ISOLATION_STREAM)
      then (st ← new_store ngx_proxy_wasm_store_init;
            write_ctx pwctx (set_ctx_store (Some st))) else mret tt);;
     write_ctx pwctx (set_ctx_init true)
   else mret tt);;
  match filter_ids with
  | Some ids =>
      if negb (pw_ready c) then
        write_ctx pwctx (fun c =>
          set_ctx_chain (length ids) [] isolation c);;
        '(ok, id) ← init_chain tree pwctx ids None next_id;
        if negb ok then mret (None, id)
        else
          write_ctx pwctx (set_ctx_ready true);;
          mret (Some pwctx, id)
      else mret (Some pwctx, next_id)
  | None => mret (Some pwctx, next_id)
  end.

(** One iteration of [ngx_proxy_wasm_ctx_destroy]. *)
Definition ctx_destroy_exec (isolation : ngx_proxy_wasm_isolation_mode_e) (pwexec : addr)
    : M G unit :=
  e ← read_exec pwexec;
  assert debug (negb (pe_root_id e =? NGX_PROXY_WASM_ROOT_CTX_ID));;
  match pe_ictx e with
  | Some ictx =>
      (if negb (pe_node_key e =? 0) then unlink_tree ictx pwexec else mret tt);;
      match isolation with
      | ISOLATION_NONE =>
          i ← read_inst ictx;
          ngx_proxy_wasm_store_sweep (is_store i)
      | ISOLATION_FILTER =>
          store ← non_null (pe_store e);
          ngx_proxy_wasm_store_destroy store
      | _ => mret tt
      end
  | None => mret tt
  end;;
  destroy_pwexec pwexec.

Fixpoint ctx_destroy_loop (isolation : ngx_proxy_wasm_isolation_mode_e) (execs : list addr)
    : M G unit :=
  match execs with
  | [] => mret tt
  | e :: execs =>
      ctx_destroy_exec isolation e;;
      ctx_destroy_loop isolation execs
  end.

(** The execution contexts die with their array, the stream context with its
    pool. *)
Fixpoint free_execs (execs : list addr) : M G unit :=
  match execs with
  | [] => mret tt
  | e :: execs => free_exec e;; free_execs execs
  end.

Definition ngx_proxy_wasm_ctx_destroy (pwctx : addr) : M G unit :=
  c ← read_ctx pwctx;
  (if pw_ready c && bool_decide (pw_isolation c = ISOLATION_STREAM)
   then (store ← non_null (pw_store c); ngx_proxy_wasm_store_destroy store) else mret tt);;
  ctx_destroy_loop (pw_isolation c) (pw_pwexecs c);;
  free_execs (pw_pwexecs c);;
  free_ctx pwctx.

End instances.
End Instances.
