(* ===== verification/Frame.v ===== *)
(** * Proxy-Wasm: what the operations leave alone

    A small program logic for computations over the heap: [keeps R m] says that
    every terminating run of [m] relates its heaps by [R].  The relation [frame]
    is kept by everything that runs while a chain is resumed: the guests and the
    management of instances change neither the position of a chain nor the
    identity of its contexts. *)
From S2P Require Import Prelude NginxCore ProxyWasm Abi Instances.
From stdpp Require Export list.
#[global] Open Scope Z_scope.

Module Frame.
Import ProxyWasm Instances.

(** ** Computations that returned *)

Lemma bind_Ret_inv {G A B} (m : M G A) (k : A -> M G B) h b h' :
  (m ≫= k) h = Ret (b, h') -> exists a h1, m h = Ret (a, h1) /\ k a h1 = Ret (b, h').
Proof. unfold mbind, M_bind. destruct (m h) as [[a h1]|]; [eauto|discriminate]. Qed.

Lemma bind_Ret {G A B} (m : M G A) (k : A -> M G B) h a h1 :
  m h = Ret (a, h1) -> (m ≫= k) h = k a h1.
Proof. unfold mbind, M_bind. by intros ->. Qed.

Lemma read_exec_Ret {G} (h : heap G) a e :
  h_execs h !! a = Some e -> read_exec a h = Ret (e, h).
Proof. unfold read_exec, read. by intros ->. Qed.
Lemma read_ctx_Ret {G} (h : heap G) a c :
  h_ctxs h !! a = Some c -> read_ctx a h = Ret (c, h).
Proof. unfold read_ctx, read. by intros ->. Qed.
Lemma read_inst_Ret {G} (h : heap G) a i :
  h_insts h !! a = Some i -> read_inst a h = Ret (i, h).
Proof. unfold read_inst, read. by intros ->. Qed.
Lemma read_store_Ret {G} (h : heap G) a s :
  h_stores h !! a = Some s -> read_store a h = Ret (s, h).
Proof. unfold read_store, read. by intros ->. Qed.
Lemma read_filter_Ret {G} (h : heap G) a f :
  h_filters h !! a = Some f -> read_filter a h = Ret (f, h).
Proof. unfold read_filter, read. by intros ->. Qed.
Lemma write_exec_Ret {G} (h : heap G) a e f :
  h_execs h !! a = Some e ->
  write_exec a f h = Ret (tt, with_execs (<[a := f e]> (h_execs h)) h).
Proof. unfold write_exec, write. by intros ->. Qed.
Lemma write_ctx_Ret {G} (h : heap G) a c f :
  h_ctxs h !! a = Some c ->
  write_ctx a f h = Ret (tt, with_ctxs (<[a := f c]> (h_ctxs h)) h).
Proof. unfold write_ctx, write. by intros ->. Qed.
Lemma write_inst_Ret {G} (h : heap G) a i f :
  h_insts h !! a = Some i ->
  write_inst a f h = Ret (tt, with_insts (<[a := f i]> (h_insts h)) h).
Proof. unfold write_inst, write. by intros ->. Qed.
Lemma write_store_Ret {G} (h : heap G) a s f :
  h_stores h !! a = Some s ->
  write_store a f h = Ret (tt, with_stores (<[a := f s]> (h_stores h)) h).
Proof. unfold write_store, write. by intros ->. Qed.
Lemma assert_Ret {G} debug b (h : heap G) : b = true -> assert debug b h = Ret (tt, h).
Proof. intros ->. unfold assert, lift. by rewrite ngx_wa_assert_true. Qed.
Lemma lift_Ret {G A} (h : heap G) (a : A) : lift (Ret a) h = Ret (a, h).
Proof. done. Qed.
Lemma mret_Ret {G A} (h : heap G) (a : A) : (mret a : M G A) h = Ret (a, h).
Proof. done. Qed.

Lemma read_inv {G A} (proj : heap G -> gmap addr A) a h v h' :
  read proj a h = Ret (v, h') -> proj h !! a = Some v /\ h' = h.
Proof. unfold read. case_match; [|done]. by intros [= <- <-]. Qed.
Lemma read_exec_inv {G} a (h : heap G) v h' :
  read_exec a h = Ret (v, h') -> h_execs h !! a = Some v /\ h' = h.
Proof. apply read_inv. Qed.
Lemma read_ctx_inv {G} a (h : heap G) v h' :
  read_ctx a h = Ret (v, h') -> h_ctxs h !! a = Some v /\ h' = h.
Proof. apply read_inv. Qed.
Lemma read_inst_inv {G} a (h : heap G) v h' :
  read_inst a h = Ret (v, h') -> h_insts h !! a = Some v /\ h' = h.
Proof. apply read_inv. Qed.
Lemma read_store_inv {G} a (h : heap G) v h' :
  read_store a h = Ret (v, h') -> h_stores h !! a = Some v /\ h' = h.
Proof. apply read_inv. Qed.
Lemma read_filter_inv {G} a (h : heap G) v h' :
  read_filter a h = Ret (v, h') -> h_filters h !! a = Some v /\ h' = h.
Proof. apply read_inv. Qed.
Lemma lift_inv {G A} (o : outcome A) (h : heap G) a h' :
  lift o h = Ret (a, h') -> o = Ret a /\ h' = h.
Proof. unfold lift. destruct o; simpl; [|done]. by intros [= <- <-]. Qed.
Lemma assert_inv {G} debug b (h : heap G) u h' : assert debug b h = Ret (u, h') -> h' = h.
Proof. intros E. by apply lift_inv in E as [_ ->]. Qed.
Lemma non_null_inv {G} p (h : heap G) a h' :
  non_null p h = Ret (a, h') -> p = Some a /\ h' = h.
Proof. intros E. apply lift_inv in E as [E ->]. by apply deref_Ret_inv in E. Qed.
Lemma write_ctx_inv {G} a f (h : heap G) u h' :
  write_ctx a f h = Ret (u, h') ->
  exists c, h_ctxs h !! a = Some c /\ h' = with_ctxs (<[a := f c]> (h_ctxs h)) h.
Proof. unfold write_ctx, write. case_match; [|done]. intros [= _ <-]. eauto. Qed.

(** Opens the binds of a computation [E] that returned, as far as its first
    actions only read. *)
Ltac minv E :=
  let E1 := fresh "E1" in
  apply bind_Ret_inv in E as (? & ? & E1 & E);
  first
    [ apply read_exec_inv in E1 as [E1 ->]
    | apply read_ctx_inv in E1 as [E1 ->]
    | apply read_inst_inv in E1 as [E1 ->]
    | apply read_store_inv in E1 as [E1 ->]
    | apply read_filter_inv in E1 as [E1 ->]
    | apply assert_inv in E1 as ->
    | apply non_null_inv in E1 as [E1 ->]
    | apply lift_inv in E1 as [E1 ->] ].

(** One step of a computation whose first action is known to return. *)
Ltac mstep E := rewrite (bind_Ret _ _ _ _ _ E); cbv beta.

(** ** Computations that keep a relation *)

Section keeps.
Context {G : Type} (R : relation (heap G)).

Definition keeps {A} (m : M G A) : Prop :=
  forall h a h', m h = Ret (a, h') -> R h h'.

Context `{!PreOrder R}.

Lemma keeps_ret {A} (a : A) : keeps (mret a).
Proof. intros h b h' [= _ <-]. reflexivity. Qed.

Lemma keeps_bind {A B} (m : M G A) (k : A -> M G B) :
  keeps m -> (forall a, keeps (k a)) -> keeps (m ≫= k).
Proof.
  intros Hm Hk h b h' E. apply bind_Ret_inv in E as (a & h1 & E1 & E2).
  transitivity h1; [by eapply Hm | by eapply Hk].
Qed.

Lemma keeps_lift {A} (o : outcome A) : keeps (lift o).
Proof. intros h a h'. unfold lift. destruct o; simpl; [|done]. intros [= _ <-]. reflexivity. Qed.

Lemma keeps_assert debug b : keeps (assert debug b).
Proof. apply keeps_lift. Qed.

Lemma keeps_non_null p : keeps (non_null p).
Proof. apply keeps_lift. Qed.

Lemma keeps_read {A} (proj : heap G -> gmap addr A) a : keeps (read proj a).
Proof. intros h v h'. unfold read. case_match; [|done]. intros [= _ <-]. reflexivity. Qed.

Lemma keeps_read_exec a : keeps (read_exec a).
Proof. apply keeps_read. Qed.
Lemma keeps_read_ctx a : keeps (read_ctx a).
Proof. apply keeps_read. Qed.
Lemma keeps_read_inst a : keeps (read_inst a).
Proof. apply keeps_read. Qed.
Lemma keeps_read_store a : keeps (read_store a).
Proof. apply keeps_read. Qed.
Lemma keeps_read_filter a : keeps (read_filter a).
Proof. apply keeps_read. Qed.

End keeps.

Create HintDb keeps.
#[export] Hint Resolve keeps_ret keeps_lift keeps_assert keeps_non_null keeps_read_exec
  keeps_read_ctx keeps_read_inst keeps_read_store keeps_read_filter : keeps.

(** Opens a computation at its binds and tests. *)
Ltac keeps_tac :=
  repeat first
    [ progress intros
    | solve [eauto with keeps]
    | apply keeps_bind
    | match goal with |- keeps _ (match ?x with _ => _ end) => destruct x end ].

(** ** The frame *)

Definition exec_same (e e' : ngx_proxy_wasm_exec_t) : Prop :=
  pe_root_id e' = pe_root_id e /\ pe_id e' = pe_id e /\ pe_index e' = pe_index e /\
  pe_filter e' = pe_filter e /\ pe_ecode_logged e' = pe_ecode_logged e /\
  (pe_parent e' = pe_parent e \/ pe_parent e = None).

Definition ctx_same (c c' : ngx_proxy_wasm_ctx_t) : Prop :=
  pw_nfilters c' = pw_nfilters c /\ pw_pwexecs c' = pw_pwexecs c /\
  pw_isolation c' = pw_isolation c /\ pw_store c' = pw_store c /\
  pw_phase c' = pw_phase c /\ pw_step c' = pw_step c /\
  pw_last_completed_step c' = pw_last_completed_step c /\
  pw_exec_index c' = pw_exec_index c /\ pw_ready c' = pw_ready c.

#[export] Instance exec_same_preorder : PreOrder exec_same.
Proof.
  split; [intros e; unfold exec_same; tauto|].
  intros e1 e2 e3 (?&?&?&?&?&[?|?]) (?&?&?&?&?&[?|?]); unfold exec_same;
    split_and!; try congruence; (left; congruence) || (right; congruence).
Qed.

#[export] Instance ctx_same_preorder : PreOrder ctx_same.
Proof.
  split; [intros c; unfold ctx_same; tauto|].
  intros c1 c2 c3 (?&?&?&?&?&?&?&?&?) (?&?&?&?&?&?&?&?&?); unfold ctx_same;
    split_and!; congruence.
Qed.

(** Only the contexts of [X] get another error code. *)
Record frame {G} (X : addr -> Prop) (h h' : heap G) : Prop := {
  fr_exec a e : h_execs h !! a = Some e ->
    exists e', h_execs h' !! a = Some e' /\ exec_same e e' /\
      (X a \/ pe_ecode e' = pe_ecode e);
  fr_ctx p c : h_ctxs h !! p = Some c ->
    exists c', h_ctxs h' !! p = Some c' /\ ctx_same c c';
}.

#[export] Instance frame_preorder {G} X : PreOrder (@frame G X).
Proof.
  split.
  - intros h. split; intros a v Hv; exists v; split_and!; auto; reflexivity.
  - intros h1 h2 h3 [He1 Hc1] [He2 Hc2]. split.
    + intros a e (e2 & H2 & Hs2 & Hx2)%He1. destruct (He2 _ _ H2) as (e3 & H3 & Hs3 & Hx3).
      exists e3. split_and!; [done|by transitivity e2|].
      destruct Hx2, Hx3; auto. right. congruence.
    + intros p c (c2 & H2 & Hs2)%Hc1. destruct (Hc2 _ _ H2) as (c3 & H3 & Hs3).
      exists c3. split; [done|by transitivity c2].
Qed.

Section frame.
Context {G : Type} `{Wavm G} `{Rbtree} (debug : bool) (X : addr -> Prop).

Abbreviation keeps_frame := (keeps (@frame G X)).

Lemma keeps_write_exec a f :
  (forall e, exec_same e (f e) /\ (X a \/ pe_ecode (f e) = pe_ecode e)) ->
  keeps_frame (write_exec a f).
Proof.
  intros Hf h v h'. unfold write_exec, write. case_match eqn:E; [|done]. intros [= _ <-].
  split; simpl; [|intros p c Hc; exists c; split; [done|reflexivity]].
  intros b e He. destruct (decide (a = b)) as [<-|Hne].
  - rewrite lookup_insert_eq. eexists. split; [done|].
    rewrite He in E. injection E as <-. apply Hf.
  - rewrite lookup_insert_ne by done. exists e. split_and!; [done|reflexivity|auto].
Qed.

Lemma keeps_write_ctx p f :
  (forall c, ctx_same c (f c)) -> keeps_frame (write_ctx p f).
Proof.
  intros Hf h v h'. unfold write_ctx, write. case_match eqn:E; [|done]. intros [= _ <-].
  split; simpl; [intros a e He; exists e; split_and!; [done|reflexivity|auto]|].
  intros b c Hc. destruct (decide (p = b)) as [<-|Hne].
  - rewrite lookup_insert_eq. eexists. split; [done|]. rewrite Hc in E. by injection E as <-.
  - rewrite lookup_insert_ne by done. exists c. split; [done|reflexivity].
Qed.

(** The other parts of the heap are outside of the frame. *)
Lemma frame_same_maps (h h' : heap G) :
  h_execs h' = h_execs h -> h_ctxs h' = h_ctxs h -> frame X h h'.
Proof.
  intros He Hc. split; rewrite ?He, ?Hc; intros a v Hv; exists v; split_and!; auto; reflexivity.
Qed.

Lemma keeps_write_inst a f : keeps_frame (write_inst a f).
Proof.
  intros h v h'. unfold write_inst, write. case_match; [|done]. intros [= _ <-].
  by apply frame_same_maps.
Qed.
Lemma keeps_write_store a f : keeps_frame (write_store a f).
Proof.
  intros h v h'. unfold write_store, write. case_match; [|done]. intros [= _ <-].
  by apply frame_same_maps.
Qed.
Lemma keeps_write_filter a f : keeps_frame (write_filter a f).
Proof.
  intros h v h'. unfold write_filter, write. case_match; [|done]. intros [= _ <-].
  by apply frame_same_maps.
Qed.
Lemma keeps_new_inst v : keeps_frame (new_inst v).
Proof. intros h a h' [= _ <-]. by apply frame_same_maps. Qed.
Lemma keeps_new_store v : keeps_frame (new_store v).
Proof. intros h a h' [= _ <-]. by apply frame_same_maps. Qed.
Lemma keeps_free_inst a : keeps_frame (free_inst a).
Proof. intros h v h' [= _ <-]. by apply frame_same_maps. Qed.
Lemma keeps_guest {A} (f : G -> A * G) : keeps_frame (guest f).
Proof.
  intros h a h'. unfold guest. destruct (f (h_guest h)). intros [= _ <-].
  by apply frame_same_maps.
Qed.

Lemma fresh_lookup {A} (m : gmap addr A) a v :
  m !! a = Some v -> fresh (dom m : gset addr) <> a.
Proof. intros Hv <-. apply (is_fresh (dom m : gset addr)), elem_of_dom. by exists v. Qed.

Lemma keeps_new_exec v : keeps_frame (new_exec v).
Proof.
  intros h a h' [= _ <-]. split; simpl.
  - intros b e He. rewrite lookup_insert_ne by (by eapply fresh_lookup).
    exists e. split_and!; [done|reflexivity|auto].
  - intros p c Hc. exists c. split; [done|reflexivity].
Qed.

Lemma keeps_new_ctx v : keeps_frame (new_ctx v).
Proof.
  intros h a h' [= _ <-]. split; simpl.
  - intros b e He. exists e. split_and!; [done|reflexivity|auto].
  - intros p c Hc. rewrite lookup_insert_ne by (by eapply fresh_lookup).
    exists c. split; [done|reflexivity].
Qed.

End frame.

#[export] Hint Resolve frame_preorder : keeps.
#[export] Hint Resolve keeps_write_inst keeps_write_store keeps_write_filter keeps_new_inst
  keeps_new_store keeps_free_inst keeps_guest keeps_new_exec keeps_new_ctx : keeps.
(** Assignments to fields outside of the frame. *)
#[export] Hint Extern 3 (keeps _ (write_exec _ _)) =>
  apply keeps_write_exec; intros; split; [unfold exec_same; simpl; tauto|auto] : keeps.
#[export] Hint Extern 3 (keeps _ (write_ctx _ _)) =>
  apply keeps_write_ctx; intros; unfold ctx_same; simpl; tauto : keeps.

(** ** What a call into a guest may write

    The host functions reach the tick period of a context and the next action of
    a stream; a trap marks the instance. *)
Record guest_frame {G} (h h' : heap G) : Prop := {
  gf_exec a e : h_execs h !! a = Some e ->
    exists t, h_execs h' !! a = Some (set_exec_tick_period t e);
  gf_ctx p c : h_ctxs h !! p = Some c ->
    exists v, h_ctxs h' !! p = Some (set_ctx_action v c);
  gf_inst i v : h_insts h !! i = Some v ->
    exists t, h_insts h' !! i = Some (set_instance_trapped t v) /\
      (is_trapped v = true -> t = true);
  gf_stores : h_stores h' = h_stores h;
  gf_filters : h_filters h' = h_filters h;
}.

#[export] Instance guest_frame_preorder {G} : PreOrder (@guest_frame G).
Proof.
  split.
  - intros h. split; try done.
    + intros a e He. exists (pe_tick_period e). rewrite He. by destruct e.
    + intros p c Hc. exists (pw_action c). rewrite Hc. by destruct c.
    + intros i v Hv. exists (is_trapped v). rewrite Hv. by destruct v.
  - intros h1 h2 h3 [He1 Hc1 Hi1 Hs1 Hf1] [He2 Hc2 Hi2 Hs2 Hf2]. split; [| | |congruence..].
    + intros a e (t & Ht)%He1. destruct (He2 _ _ Ht) as [t' ->]. by exists t'.
    + intros p c (t & Ht)%Hc1. destruct (Hc2 _ _ Ht) as [t' ->]. by exists t'.
    + intros i v (t & Ht & Hm)%Hi1. destruct (Hi2 _ _ Ht) as (t' & -> & Hm').
      exists t'. split; [done|]. auto.
Qed.

Lemma guest_frame_frame {G} X (h h' : heap G) : guest_frame h h' -> frame X h h'.
Proof.
  intros [He Hc _ _ _]. split.
  - intros a e (t & Ht)%He. eexists. split; [exact Ht|]. unfold exec_same. simpl. tauto.
  - intros p c (v & Hv)%Hc. eexists. split; [exact Hv|]. unfold ctx_same. simpl. tauto.
Qed.

Lemma keeps_weaken {G A} (R S : relation (heap G)) (m : M G A) :
  (forall h h', R h h' -> S h h') -> keeps R m -> keeps S m.
Proof. intros HRS Hm h a h' E. by eapply HRS, Hm. Qed.

(** The reference from a context to its instance stays valid. *)
Definition linked {G} (pwexec ictx : addr) (h : heap G) : Prop :=
  (exists e, h_execs h !! pwexec = Some e /\ pe_ictx e = Some ictx) /\ is_Some (h_insts h !! ictx).

Definition keeps_link {G} (pwexec ictx : addr) (h h' : heap G) : Prop :=
  linked pwexec ictx h -> linked pwexec ictx h'.

#[export] Instance keeps_link_preorder {G} e i : PreOrder (@keeps_link G e i).
Proof. unfold keeps_link. split; [by intros h Hl|]. intros h1 h2 h3 H1 H2 H. auto. Qed.

Lemma guest_frame_link {G} pwexec ictx (h h' : heap G) :
  guest_frame h h' -> keeps_link pwexec ictx h h'.
Proof.
  intros [He _ Hi _ _] [(e & H1 & H2) [v H3]]. split.
  - destruct (He _ _ H1) as [t Ht]. eexists. split; [exact Ht|done].
  - destruct (Hi _ _ H3) as (t & Ht & _). by eexists.
Qed.

Section calls.
Context {G : Type} `{Wavm G} (debug : bool).

Lemma gf_refl (h : heap G) : guest_frame h h.
Proof. reflexivity. Qed.

(** An unchanged part of the heap. *)
Ltac gf_same h := first
  [ exact (gf_exec _ _ (gf_refl h)) | exact (gf_ctx _ _ (gf_refl h))
  | exact (gf_inst _ _ (gf_refl h)) ].

Lemma keeps_guest_tick a t : keeps (@guest_frame G) (write_exec a (set_exec_tick_period t)).
Proof.
  intros h u h' E. unfold write_exec, write in E. case_match eqn:Ea; [|done].
  injection E as _ <-. split; simpl; try done.
  - intros b e He. destruct (decide (a = b)) as [<-|Hne].
    + rewrite lookup_insert_eq. rewrite He in Ea. injection Ea as <-. by eexists.
    + rewrite lookup_insert_ne by done. exists (pe_tick_period e). rewrite He. by destruct e.
  - gf_same h.
  - gf_same h.
Qed.

Lemma keeps_guest_action a v : keeps (@guest_frame G) (write_ctx a (set_ctx_action v)).
Proof.
  intros h u h' E. unfold write_ctx, write in E. case_match eqn:Ea; [|done].
  injection E as _ <-. split; simpl; try done.
  - gf_same h.
  - intros b c Hc. destruct (decide (a = b)) as [<-|Hne].
    + rewrite lookup_insert_eq. rewrite Hc in Ea. injection Ea as <-. by eexists.
    + rewrite lookup_insert_ne by done. exists (pw_action c). rewrite Hc. by destruct c.
  - gf_same h.
Qed.

Lemma keeps_guest_trap a : keeps (@guest_frame G) (write_inst a (set_instance_trapped true)).
Proof.
  intros h u h' E. unfold write_inst, write in E. case_match eqn:Ea; [|done].
  injection E as _ <-. split; simpl; try done.
  - gf_same h.
  - gf_same h.
  - intros b i Hi. destruct (decide (a = b)) as [<-|Hne].
    + rewrite lookup_insert_eq. rewrite Hi in Ea. injection Ea as <-. by eexists.
    + rewrite lookup_insert_ne by done. exists (is_trapped i). rewrite Hi. by destruct i.
Qed.

Lemma keeps_guest_guest {A} (f : G -> A * G) : keeps (@guest_frame G) (guest f).
Proof.
  intros h a h' E. unfold guest in E. destruct (f (h_guest h)). injection E as _ <-.
  split; simpl; try done; gf_same h.
Qed.

Hint Resolve guest_frame_preorder keeps_guest_tick keeps_guest_action keeps_guest_trap
  keeps_guest_guest : keeps.

Lemma keeps_guest_call_func i n args : keeps guest_frame (ngx_wavm_func_call i n args).
Proof. unfold ngx_wavm_func_call, current_action, host_writes. keeps_tac. Qed.

Hint Resolve keeps_guest_call_func : keeps.

Lemma keeps_guest_call i f fn args :
  keeps guest_frame (ngx_wavm_instance_call_funcref debug i f fn args).
Proof. unfold ngx_wavm_instance_call_funcref. keeps_tac. Qed.

Lemma keeps_guest_pwexec2instance e :
  keeps (@guest_frame G) (ngx_proxy_wasm_pwexec2instance e).
Proof. unfold ngx_proxy_wasm_pwexec2instance. keeps_tac. Qed.

End calls.

#[export] Hint Resolve guest_frame_preorder keeps_guest_guest keeps_guest_call
  keeps_guest_pwexec2instance : keeps.

Section links.
Context {G : Type} `{Wavm G} `{Rbtree} (debug : bool) (pwexec ictx : addr).

Abbreviation keeps_l := (keeps (@keeps_link G pwexec ictx)).

Lemma keeps_link_write_exec a f :
  (forall e, pe_ictx (f e) = pe_ictx e) -> keeps_l (write_exec a f).
Proof.
  intros Hf h u h' E [(e & H1 & H2) H3]. unfold write_exec, write in E.
  case_match eqn:Ea; [|done]. injection E as _ <-. split; [|exact H3]. simpl.
  destruct (decide (a = pwexec)) as [->|Hne].
  - rewrite lookup_insert_eq. eexists. split; [done|]. rewrite Hf. congruence.
  - rewrite lookup_insert_ne by done. eauto.
Qed.

Lemma keeps_link_write_inst a f : keeps_l (write_inst a f).
Proof.
  intros h u h' E [H1 H3]. unfold write_inst, write in E.
  case_match eqn:Ea; [|done]. injection E as _ <-. split; [exact H1|]. simpl.
  apply lookup_insert_is_Some'. by right.
Qed.

Lemma keeps_link_write_ctx a f : keeps_l (write_ctx a f).
Proof.
  intros h u h' E Hl. unfold write_ctx, write in E.
  case_match; [|done]. by injection E as _ <-.
Qed.

Lemma keeps_link_guest {A} (f : G -> A * G) : keeps_l (guest f).
Proof.
  intros h u h' E Hl. unfold guest in E. destruct (f (h_guest h)). by injection E as _ <-.
Qed.

Lemma keeps_link_call i f fn args :
  keeps_l (ngx_wavm_instance_call_funcref debug i f fn args).
Proof. eapply keeps_weaken; [apply guest_frame_link|apply keeps_guest_call]. Qed.

End links.

#[export] Hint Resolve keeps_link_preorder keeps_link_write_inst keeps_link_write_ctx
  keeps_link_guest keeps_link_call : keeps.
#[export] Hint Extern 3 (keeps (keeps_link _ _) (write_exec _ _)) =>
  apply keeps_link_write_exec; done : keeps.

(** ** The operations of the component *)

Section operations.
Context {G : Type} `{Wavm G} `{Rbtree} (debug : bool) (X : addr -> Prop).

Abbreviation keeps_frame := (keeps (@frame G X)).

Lemma keeps_current_action o : keeps_frame (current_action o).
Proof. unfold current_action. keeps_tac. Qed.

Lemma keeps_host_writes o r : keeps_frame (host_writes o r).
Proof. unfold host_writes. keeps_tac. Qed.

Hint Resolve keeps_current_action keeps_host_writes : keeps.

Lemma keeps_call_func i n args : keeps_frame (ngx_wavm_func_call i n args).
Proof. unfold ngx_wavm_func_call. keeps_tac. Qed.

Hint Resolve keeps_call_func : keeps.

Lemma keeps_call_funcref i f fn args :
  keeps_frame (ngx_wavm_instance_call_funcref debug i f fn args).
Proof. unfold ngx_wavm_instance_call_funcref. keeps_tac. Qed.

Lemma keeps_set_next_action p a : keeps_frame (ngx_proxy_wasm_ctx_set_next_action debug p a).
Proof. unfold ngx_proxy_wasm_ctx_set_next_action. keeps_tac. Qed.

Lemma keeps_unlink_root i e : keeps_frame (unlink_root i e).
Proof. unfold unlink_root. keeps_tac. Qed.

Lemma keeps_unlink_tree i e : keeps_frame (unlink_tree i e).
Proof. unfold unlink_tree. keeps_tac. Qed.

Lemma keeps_destroy_pwexec e : keeps_frame (destroy_pwexec debug e).
Proof. unfold destroy_pwexec. keeps_tac. Qed.

Hint Resolve keeps_call_funcref keeps_unlink_root keeps_unlink_tree keeps_destroy_pwexec : keeps.

Lemma keeps_detach_root n i : keeps_frame (detach_root_ctxs n i).
Proof. induction n; simpl; keeps_tac. Qed.

Lemma keeps_destroy_tree n i : keeps_frame (destroy_tree_ctxs debug n i).
Proof. induction n; simpl; keeps_tac. Qed.

Hint Resolve keeps_detach_root keeps_destroy_tree : keeps.

Lemma keeps_invalidate i : keeps_frame (ngx_proxy_wasm_instance_invalidate debug i).
Proof. unfold ngx_proxy_wasm_instance_invalidate, detach_all. keeps_tac. Qed.

Lemma keeps_instance_destroy i : keeps_frame (ngx_proxy_wasm_instance_destroy debug i).
Proof. unfold ngx_proxy_wasm_instance_destroy, detach_all. keeps_tac. Qed.

Hint Resolve keeps_invalidate keeps_instance_destroy : keeps.

Lemma keeps_sweep_loop n s : keeps_frame (sweep_loop debug n s).
Proof. induction n; simpl; keeps_tac. Qed.

Hint Resolve keeps_sweep_loop : keeps.

Lemma keeps_sweep s : keeps_frame (ngx_proxy_wasm_store_sweep debug s).
Proof. unfold ngx_proxy_wasm_store_sweep. keeps_tac. Qed.

Lemma keeps_find_busy n s m q : keeps_frame (find_busy debug n s m q).
Proof. revert q. induction n; intros [?|]; simpl; keeps_tac. Qed.

Hint Resolve keeps_sweep keeps_find_busy : keeps.

Lemma keeps_get_instance f s : keeps_frame (get_instance debug f s).
Proof. unfold get_instance, new_instance. keeps_tac. Qed.

Lemma keeps_update i e : keeps_frame (ngx_proxy_wasm_instance_update i e).
Proof. apply keeps_write_inst. Qed.

Hint Resolve keeps_get_instance keeps_update : keeps.

Lemma keeps_ebind {A B} (m : M G (A + goto_error)) (k : A -> M G (B + goto_error)) :
  keeps_frame m -> (forall a, keeps_frame (k a)) -> keeps_frame (ebind m k).
Proof. intros Hm Hk. unfold ebind. apply keeps_bind; [apply frame_preorder|done|]. intros [?|?]; keeps_tac. Qed.

Lemma keeps_fail {A} c e : keeps_frame (@fail G A c e).
Proof. unfold fail. keeps_tac. Qed.

Lemma keeps_alloc_or c e : keeps_frame (alloc_or c e).
Proof. unfold alloc_or. keeps_tac; apply keeps_fail. Qed.

Lemma keeps_is_root_in i : keeps_frame (is_root_in i).
Proof. unfold is_root_in. keeps_tac. Qed.

Lemma keeps_usable i : keeps_frame (usable_ictx i).
Proof. unfold usable_ictx. keeps_tac. Qed.

Hint Resolve keeps_fail keeps_alloc_or keeps_is_root_in keeps_usable : keeps.

Ltac ekeeps_tac := repeat first [progress keeps_tac | apply keeps_ebind].

Lemma keeps_context_store f p id i : keeps_frame (context_store debug f p id i).
Proof. unfold context_store. ekeeps_tac. Qed.

Lemma keeps_context_instance f s i : keeps_frame (context_instance debug f s i).
Proof. unfold context_instance. ekeeps_tac. Qed.

Hint Resolve keeps_context_store keeps_context_instance : keeps.

Lemma keeps_move_loop n q put s : keeps_frame (move_loop n q put s).
Proof. induction n; simpl; keeps_tac. Qed.

Hint Resolve keeps_move_loop : keeps.

Lemma keeps_store_destroy s : keeps_frame (ngx_proxy_wasm_store_destroy debug s).
Proof. unfold ngx_proxy_wasm_store_destroy. keeps_tac. Qed.

Hint Resolve keeps_store_destroy : keeps.

Lemma keeps_ctx_destroy_exec isolation e : keeps_frame (ctx_destroy_exec debug isolation e).
Proof. unfold ctx_destroy_exec. keeps_tac. Qed.

Hint Resolve keeps_ctx_destroy_exec : keeps.

Lemma keeps_ctx_destroy_loop isolation es :
  keeps_frame (ctx_destroy_loop debug isolation es).
Proof. induction es; simpl; keeps_tac. Qed.

Lemma keeps_lookup_root i id : keeps_frame (ngx_proxy_wasm_lookup_root_ctx i id).
Proof. unfold ngx_proxy_wasm_lookup_root_ctx. keeps_tac. Qed.

Lemma keeps_lookup_ctx i id : keeps_frame (ngx_proxy_wasm_lookup_ctx i id).
Proof. unfold ngx_proxy_wasm_lookup_ctx. keeps_tac. Qed.

Hint Resolve keeps_lookup_root keeps_lookup_ctx : keeps.

Lemma keeps_start_root f i e id : keeps_frame (start_root_context debug f i e id).
Proof. unfold start_root_context. ekeeps_tac. Qed.

Lemma keeps_start_stream f i e id : keeps_frame (start_stream_context debug f i e id).
Proof. unfold start_stream_context. ekeeps_tac. Qed.

Lemma keeps_stream_context filter f p i id e :
  keeps_frame (stream_context debug filter f p i id (Some e)).
Proof. unfold stream_context. ekeeps_tac. Qed.

End operations.

(** ** Stream contexts only

    What the creation of a context keeps: it writes new execution contexts, and
    those it restarts. *)
Definition ctx_frame {G} (h h' : heap G) : Prop :=
  forall p c, h_ctxs h !! p = Some c -> exists c', h_ctxs h' !! p = Some c' /\ ctx_same c c'.

#[export] Instance ctx_frame_preorder {G} : PreOrder (@ctx_frame G).
Proof.
  split.
  - intros h p c Hc. exists c. split; [done|reflexivity].
  - intros h1 h2 h3 H1 H2 p c (c2 & Hc2 & Hs2)%H1. destruct (H2 _ _ Hc2) as (c3 & Hc3 & Hs3).
    exists c3. split; [done|by transitivity c2].
Qed.

Section create.
Context {G : Type} `{Wavm G} `{Rbtree} (debug : bool).

Abbreviation keeps_ctx := (keeps (@ctx_frame G)).

Lemma keeps_ctx_of_frame {A} (m : M G A) : keeps (frame (fun _ => True)) m -> keeps_ctx m.
Proof. intros Hm. eapply keeps_weaken; [|exact Hm]. by intros h h' []. Qed.

Lemma keeps_ctx_write_exec a f : keeps_ctx (write_exec a f).
Proof.
  intros h u h' E. unfold write_exec, write in E. case_match; [|done]. injection E as _ <-.
  intros p c Hc. exists c. split; [done|reflexivity].
Qed.

Hint Resolve ctx_frame_preorder keeps_ctx_write_exec : keeps.
Hint Resolve keeps_ctx_of_frame keeps_fail keeps_alloc_or keeps_is_root_in keeps_context_store
  keeps_context_instance keeps_lookup_root keeps_start_root keeps_start_stream
  keeps_stream_context : keeps.

Lemma keeps_ctx_ebind {A B} (m : M G (A + goto_error)) (k : A -> M G (B + goto_error)) :
  keeps_ctx m -> (forall a, keeps_ctx (k a)) -> keeps_ctx (ebind m k).
Proof.
  intros Hm Hk. unfold ebind. apply keeps_bind; [apply ctx_frame_preorder|done|].
  intros [?|?]; keeps_tac.
Qed.

Lemma keeps_ctx_create filter p id e :
  keeps_ctx (ngx_proxy_wasm_create_context debug filter p id (Some e)).
Proof.
  unfold ngx_proxy_wasm_create_context, create_context_body, root_context, new_root_context.
  repeat first [progress keeps_tac | apply keeps_ctx_ebind].
Qed.

End create.

End Frame.
