(* ===== verification/Stores.v ===== *)
(** * Proxy-Wasm: the stores of instances

    What the functions of [Instances] guarantee: looking for an instance ends with
    one that can be entered, and destroying a store leaves neither its instances nor
    a reference to them. *)
From S2P Require Import Prelude NginxCore ProxyWasm Abi Instances Frame.
From stdpp Require Export list.
#[global] Open Scope Z_scope.

Module Stores.
Import ProxyWasm Instances Frame.

Section stores.
Context {G : Type} `{Wavm G} `{!Rbtree} `{!RbtreeLaws _} (debug : bool).
Implicit Types h : heap G.

(** ** Well-formed stores *)

(** The addresses of the contexts of a tree. *)
Definition members (t : rbtree) : list addr := (rb_elements t).*1.

(** A context of a tree of filter contexts can be destroyed. *)
Definition stream_exec_ok (h : heap G) (a : addr) : Prop :=
  exists e, h_execs h !! a = Some e /\ pe_root_id e <> NGX_PROXY_WASM_ROOT_CTX_ID /\
    (forall p, pe_parent e = Some p -> is_Some (h_ctxs h !! p)).

Definition root_exec_ok (h : heap G) (a : addr) : Prop := is_Some (h_execs h !! a).

Record inst_ok (h : heap G) (store i : addr) (v : ngx_proxy_wasm_instance_t) : Prop := {
  io_inst : h_insts h !! i = Some v;
  io_store : is_store v = store;
  io_root : NoDup (members (is_root_ctxs v)) /\ Forall (root_exec_ok h) (members (is_root_ctxs v));
  io_tree : NoDup (members (is_tree_ctxs v)) /\ Forall (stream_exec_ok h) (members (is_tree_ctxs v));
}.

Definition queues (st : ngx_proxy_wasm_store_t) : list addr :=
  st_busy st ++ st_free st ++ st_sweep st.

Record store_ok (h : heap G) (store : addr) (st : ngx_proxy_wasm_store_t) : Prop := {
  so_store : h_stores h !! store = Some st;
  so_nodup : NoDup (queues st);
  so_insts : Forall (fun i => exists v, inst_ok h store i v) (queues st);
}.

(** ** Detaching the contexts of an instance *)

(** The contexts of [L] lost their instance; no other one changed. *)
Definition detached (L : list addr) (h h' : heap G) : Prop :=
  forall a e, h_execs h !! a = Some e ->
    exists e', h_execs h' !! a = Some e' /\ exec_same e e' /\ pe_ecode e' = pe_ecode e /\
      pe_parent e' = pe_parent e /\
      (if decide (a ∈ L) then pe_ictx e' = None else e' = e).

Lemma detached_nil h : detached [] h h.
Proof.
  intros a e He. exists e. by split_and!.
Qed.

Lemma detached_cons L K h1 h2 h3 :
  detached L h1 h2 -> detached K h2 h3 -> detached (L ++ K) h1 h3.
Proof.
  intros D1 D2 a e He. destruct (D1 _ _ He) as (e2 & He2 & S1 & C1 & P1 & L1).
  destruct (D2 _ _ He2) as (e3 & He3 & S2 & C2 & P2 & L2).
  exists e3. split_and!; [done|by transitivity e2|congruence|congruence|].
  destruct (decide (a ∈ K)) as [HK|HK].
  - rewrite decide_True by set_solver. exact L2.
  - subst e3. destruct (decide (a ∈ L)) as [HL|HL].
    + rewrite decide_True by set_solver. exact L1.
    + rewrite decide_False by set_solver. exact L1.
Qed.

Lemma detached_stream_ok L h h' a :
  detached L h h' -> h_ctxs h' = h_ctxs h -> stream_exec_ok h a -> stream_exec_ok h' a.
Proof.
  intros D Hc (e & He & Hr & Hp). destruct (D _ _ He) as (e' & He' & S & _ & P & _).
  exists e'. split_and!; [done| |].
  - destruct S as (-> & _). done.
  - intros p. rewrite P, Hc. apply Hp.
Qed.

Lemma detached_root_ok L h h' a : detached L h h' -> root_exec_ok h a -> root_exec_ok h' a.
Proof. intros D [e He]. destruct (D _ _ He) as (e' & He' & _). by exists e'. Qed.

Lemma members_delete t a :
  NoDup (members t) -> a ∈ members t -> members t ≡ₚ a :: members (ngx_rbtree_delete t a).
Proof.
  intros Hnd Ha. apply list_elem_of_fmap in Ha as ([a' k] & -> & Hin).
  unfold members. rewrite (rb_delete_elements t a' k Hnd Hin) at 1. done.
Qed.

Lemma rbtree_min_None t : ngx_rbtree_min t = None -> members t = [].
Proof. unfold ngx_rbtree_min, members. by destruct (rb_elements t) as [|[??]?]. Qed.

Lemma rbtree_min_Some t a : ngx_rbtree_min t = Some a -> a ∈ members t.
Proof.
  unfold ngx_rbtree_min, members. destruct (rb_elements t) as [|[b k] es]; [done|].
  simpl. intros [= ->]. by left.
Qed.

(** Everything but the execution contexts and one instance. *)
Record same_but (i : addr) (h h' : heap G) : Prop := {
  sb_ctxs : h_ctxs h' = h_ctxs h;
  sb_stores : h_stores h' = h_stores h;
  sb_filters : h_filters h' = h_filters h;
  sb_guest : h_guest h' = h_guest h;
  sb_insts j : j <> i -> h_insts h' !! j = h_insts h !! j;
}.

#[local] Instance same_but_preorder i : PreOrder (same_but i).
Proof.
  split; [by intros h; split|].
  intros h1 h2 h3 [C1 S1 F1 G1 I1] [C2 S2 F2 G2 I2]. split; try congruence.
  intros j Hj. rewrite I2, I1; done.
Qed.

(** One iteration of the first loop. *)
Lemma detach_root_one h i v a e :
  h_insts h !! i = Some v -> h_execs h !! a = Some e ->
  exists h', (write_exec a (set_exec_ictx None);; unlink_root i a) h = Ret (tt, h') /\
    h_insts h' !! i = Some (set_instance_trees (is_tree_ctxs v)
      (ngx_rbtree_delete (is_root_ctxs v) a) v) /\ same_but i h h' /\ detached [a] h h'.
Proof.
  intros Hv He. eexists. split.
  { mstep (write_exec_Ret _ _ _ (set_exec_ictx None) He). unfold unlink_root.
    mstep (write_inst_Ret (with_execs (<[a := set_exec_ictx None e]> (h_execs h)) h) i v
      (fun i => set_instance_trees (is_tree_ctxs i) (ngx_rbtree_delete (is_root_ctxs i) a) i) Hv).
    apply write_exec_Ret. simpl. apply lookup_insert_eq. }
  simpl. split; [apply lookup_insert_eq|]. split.
  - split; simpl; try done. intros j Hj. by rewrite lookup_insert_ne.
  - intros b eb Hb. simpl. destruct (decide (b = a)) as [->|Hne].
    + rewrite lookup_insert_eq. rewrite He in Hb. injection Hb as <-. eexists. split; [done|].
      rewrite decide_True by set_solver. unfold exec_same. simpl. tauto.
    + rewrite !lookup_insert_ne by done. exists eb. rewrite decide_False by set_solver.
      split_and!; done.
Qed.

Lemma detach_root_loop n h i v :
  h_insts h !! i = Some v -> NoDup (members (is_root_ctxs v)) ->
  Forall (root_exec_ok h) (members (is_root_ctxs v)) ->
  length (members (is_root_ctxs v)) = n ->
  exists h' v', detach_root_ctxs n i h = Ret (tt, h') /\ h_insts h' !! i = Some v' /\
    members (is_root_ctxs v') = [] /\ is_tree_ctxs v' = is_tree_ctxs v /\
    is_store v' = is_store v /\ is_trapped v' = is_trapped v /\ is_module v' = is_module v /\
    same_but i h h' /\ detached (members (is_root_ctxs v)) h h'.
Proof.
  revert h v. induction n as [|n IH]; intros h v Hv Hnd Hok Hlen; simpl.
  - destruct (members (is_root_ctxs v)) as [|? ?] eqn:Hm; [|done].
    exists h, v. mstep (read_inst_Ret _ _ _ Hv).
    assert (Hmin : ngx_rbtree_min (is_root_ctxs v) = None).
    { unfold ngx_rbtree_min, members in *. by destruct (rb_elements (is_root_ctxs v)). }
    rewrite Hmin. split_and!; try done. apply detached_nil.
  - mstep (read_inst_Ret _ _ _ Hv). destruct (ngx_rbtree_min (is_root_ctxs v)) as [a|] eqn:Hmin.
    2:{ apply rbtree_min_None in Hmin. by rewrite Hmin in Hlen. }
    apply rbtree_min_Some in Hmin. pose proof (members_delete _ _ Hnd Hmin) as Hperm.
    rewrite Forall_elem in Hok. destruct (Hok a Hmin) as [e He].
    destruct (detach_root_one h i v a e Hv He) as (h1 & E1 & Hv1 & S1 & D1).
    set (v1 := set_instance_trees (is_tree_ctxs v) (ngx_rbtree_delete (is_root_ctxs v) a) v) in *.
    destruct (IH h1 v1 Hv1) as (h2 & v2 & E2 & Hv2 & Hm2 & Ht2 & Hs2 & Htr2 & Hmd2 & S2 & D2).
    + rewrite Hperm in Hnd. by apply NoDup_cons in Hnd as [_ Hnd].
    + apply Forall_elem. intros b Hb. eapply detached_root_ok; [exact D1|].
      apply Hok. rewrite Hperm. by right.
    + apply Permutation_length in Hperm. simpl in Hperm. unfold v1. simpl. lia.
    + exists h2, v2. split_and!; try done.
      * apply bind_Ret_inv in E1 as (u & hm & Ea & Eb). destruct u.
        mstep Ea. mstep Eb. exact E2.
      * by transitivity h1.
      * intros b eb Hb. destruct (detached_cons _ _ _ _ _ D1 D2 b eb Hb) as (e' & He' & R).
        exists e'. split; [done|]. destruct R as (R1 & R2 & R3 & R4). split_and!; try done.
        destruct (decide (b ∈ members (is_root_ctxs v))) as [Hin|Hin].
        -- rewrite decide_True in R4; [done|]. rewrite Hperm in Hin. set_solver.
        -- rewrite decide_False in R4; [done|]. rewrite Hperm in Hin. set_solver.
Qed.

(** The effect of a detachment does not depend on the order of the contexts. *)
Lemma detached_perm L K h h' : L ≡ₚ K -> detached L h h' -> detached K h h'.
Proof.
  intros Hp D a e He. destruct (D a e He) as (e' & He' & R1 & R2 & R3 & R4).
  exists e'. split_and!; try done.
  destruct (decide (a ∈ K)) as [Hin|Hin]; rewrite <- Hp in Hin.
  - by rewrite decide_True in R4.
  - by rewrite decide_False in R4.
Qed.

(** Writing one context in place, as the functions here do. *)
Lemma detached_write h a e e' :
  h_execs h !! a = Some e -> exec_same e e' -> pe_ecode e' = pe_ecode e ->
  pe_parent e' = pe_parent e -> pe_ictx e' = None ->
  detached [a] h (with_execs (<[a := e']> (h_execs h)) h).
Proof.
  intros He Hs Hc Hp Hi b eb Hb. simpl. destruct (decide (b = a)) as [->|Hne].
  - rewrite lookup_insert_eq. rewrite He in Hb. injection Hb as <-. exists e'.
    rewrite decide_True by set_solver. done.
  - rewrite lookup_insert_ne by done. exists eb. rewrite decide_False by set_solver.
    by split_and!.
Qed.

Lemma same_but_execs i h m : same_but i h (with_execs m h).
Proof. by split. Qed.

Lemma destroy_pwexec_Ret i h a e :
  h_execs h !! a = Some e -> pe_root_id e <> NGX_PROXY_WASM_ROOT_CTX_ID ->
  (forall p, pe_parent e = Some p -> is_Some (h_ctxs h !! p)) ->
  exists h', destroy_pwexec debug a h = Ret (tt, h') /\ h_insts h' = h_insts h /\
    same_but i h h' /\ detached [a] h h'.
Proof.
  intros He Hr Hp. unfold destroy_pwexec. mstep (read_exec_Ret _ _ _ He).
  assert (Hb : negb (pe_root_id e =? NGX_PROXY_WASM_ROOT_CTX_ID) = true)
    by (apply negb_true_iff, Z.eqb_neq; done).
  mstep (assert_Ret debug _ h Hb).
  set (e1 := set_exec_log false (set_exec_started false (set_exec_ictx None e))).
  set (h1 := with_execs (<[a := e1]> (h_execs h)) h).
  assert (E1 : write_exec a (fun e => set_exec_log false (set_exec_started false (set_exec_ictx None e))) h
    = Ret (tt, h1)) by (by apply (write_exec_Ret h a e)).
  assert (Hsame : exec_same e e1) by (unfold exec_same; simpl; tauto).
  assert (D1 : detached [a] h h1) by (by apply detached_write with (e := e)).
  mstep E1. destruct (pe_parent e) as [p|] eqn:Hpar.
  2:{ exists h1. split_and!; [done|done|by split|done]. }
  destruct (Hp p eq_refl) as [c Hc]. mstep (read_ctx_Ret h1 p c Hc). case_match.
  2:{ exists h1. split_and!; [done|done|by split|done]. }
  set (h2 := with_execs (<[a := set_exec_store None e1]> (h_execs h1)) h1).
  assert (E2 : write_exec a (set_exec_store None) h1 = Ret (tt, h2))
    by (apply write_exec_Ret; apply lookup_insert_eq).
  exists h2. split_and!; [exact E2|done|by split|].
  assert (Hh2 : h2 = with_execs (<[a := set_exec_store None e1]> (h_execs h)) h).
  { unfold h2, h1, with_execs. simpl. by rewrite insert_insert_eq. }
  rewrite Hh2. apply detached_write with (e := e); try done.
Qed.

Lemma destroy_tree_one h i v a :
  h_insts h !! i = Some v -> stream_exec_ok h a ->
  exists h', (unlink_tree i a;; destroy_pwexec debug a) h = Ret (tt, h') /\
    h_insts h' !! i = Some (set_instance_trees (ngx_rbtree_delete (is_tree_ctxs v) a)
      (is_root_ctxs v) v) /\ same_but i h h' /\ detached [a] h h'.
Proof.
  intros Hv (e & He & Hr & Hp).
  set (v1 := set_instance_trees (ngx_rbtree_delete (is_tree_ctxs v) a) (is_root_ctxs v) v).
  set (h1 := with_insts (<[i := v1]> (h_insts h)) h).
  set (h2 := with_execs (<[a := set_exec_node_key 0 e]> (h_execs h1)) h1).
  assert (E1 : unlink_tree i a h = Ret (tt, h2)).
  { unfold unlink_tree. mstep (write_inst_Ret h i v (fun i => set_instance_trees
      (ngx_rbtree_delete (is_tree_ctxs i) a) (is_root_ctxs i) i) Hv).
    fold v1 h1. by apply write_exec_Ret. }
  destruct (destroy_pwexec_Ret i h2 a (set_exec_node_key 0 e)) as (h3 & E3 & I3 & S3 & D3);
    [apply lookup_insert_eq|done|done|].
  exists h3. split; [by mstep E1|]. split_and!.
  - rewrite I3. apply lookup_insert_eq.
  - transitivity h2; [|exact S3]. split; try reflexivity. intros j Hj. simpl.
    by rewrite lookup_insert_ne.
  - intros b eb Hb. destruct (decide (b = a)) as [->|Hne].
    + rewrite He in Hb. injection Hb as <-.
      destruct (D3 a (set_exec_node_key 0 e)) as (e' & He' & R1 & R2 & R3 & R4);
        [apply lookup_insert_eq|]. exists e'.
      split_and!; [exact He'|exact R1|exact R2|exact R3|]. revert R4. by rewrite !decide_True by set_solver.
    + apply D3. simpl. by rewrite lookup_insert_ne.
Qed.

Lemma destroy_tree_loop n h i v :
  h_insts h !! i = Some v -> NoDup (members (is_tree_ctxs v)) ->
  Forall (stream_exec_ok h) (members (is_tree_ctxs v)) ->
  length (members (is_tree_ctxs v)) = n ->
  exists h' v', destroy_tree_ctxs debug n i h = Ret (tt, h') /\ h_insts h' !! i = Some v' /\
    members (is_tree_ctxs v') = [] /\ is_root_ctxs v' = is_root_ctxs v /\
    is_store v' = is_store v /\ is_trapped v' = is_trapped v /\ is_module v' = is_module v /\
    same_but i h h' /\ detached (members (is_tree_ctxs v)) h h'.
Proof.
  revert h v. induction n as [|n IH]; intros h v Hv Hnd Hok Hlen; simpl.
  - destruct (members (is_tree_ctxs v)) as [|? ?] eqn:Hm; [|done].
    exists h, v. mstep (read_inst_Ret _ _ _ Hv).
    assert (Hmin : ngx_rbtree_min (is_tree_ctxs v) = None).
    { unfold ngx_rbtree_min, members in *. by destruct (rb_elements (is_tree_ctxs v)). }
    rewrite Hmin. split_and!; try done. apply detached_nil.
  - mstep (read_inst_Ret _ _ _ Hv). destruct (ngx_rbtree_min (is_tree_ctxs v)) as [a|] eqn:Hmin.
    2:{ apply rbtree_min_None in Hmin. by rewrite Hmin in Hlen. }
    apply rbtree_min_Some in Hmin. pose proof (members_delete _ _ Hnd Hmin) as Hperm.
    rewrite Forall_elem in Hok.
    destruct (destroy_tree_one h i v a Hv (Hok a Hmin)) as (h1 & E1 & Hv1 & S1 & D1).
    set (v1 := set_instance_trees (ngx_rbtree_delete (is_tree_ctxs v) a) (is_root_ctxs v) v) in *.
    destruct (IH h1 v1 Hv1) as (h2 & v2 & E2 & Hv2 & Hm2 & Ht2 & Hs2 & Htr2 & Hmd2 & S2 & D2).
    + rewrite Hperm in Hnd. by apply NoDup_cons in Hnd as [_ Hnd].
    + apply Forall_elem. intros b Hb. eapply detached_stream_ok; [exact D1|apply S1|].
      apply Hok. rewrite Hperm. by right.
    + apply Permutation_length in Hperm. simpl in Hperm. unfold v1. simpl. lia.
    + exists h2, v2. split_and!; try done.
      * apply bind_Ret_inv in E1 as (u & hm & Ea & Eb). destruct u.
        mstep Ea. mstep Eb. exact E2.
      * by transitivity h1.
      * eapply detached_perm; [symmetry; exact Hperm|]. exact (detached_cons _ _ _ _ _ D1 D2).
Qed.

(** Both loops: the instance has no context any more. *)
Lemma detach_all_Ret h store i v :
  inst_ok h store i v ->
  exists h' v', detach_all debug i h = Ret (tt, h') /\ h_insts h' !! i = Some v' /\
    members (is_tree_ctxs v') = [] /\ members (is_root_ctxs v') = [] /\
    is_store v' = store /\ is_trapped v' = is_trapped v /\ is_module v' = is_module v /\
    same_but i h h' /\ detached (members (is_root_ctxs v) ++ members (is_tree_ctxs v)) h h'.
Proof.
  intros [Hv Hs [Hnr Hr] [Hnt Ht]]. unfold detach_all. mstep (read_inst_Ret _ _ _ Hv).
  destruct (detach_root_loop (length (rb_elements (is_root_ctxs v))) h i v Hv Hnr Hr)
    as (h1 & v1 & E1 & Hv1 & M1 & T1 & S1 & Tr1 & Md1 & B1 & D1).
  { unfold members. by rewrite length_fmap. }
  mstep E1.
  destruct (destroy_tree_loop (length (rb_elements (is_tree_ctxs v))) h1 i v1 Hv1)
    as (h2 & v2 & E2 & Hv2 & M2 & T2 & S2 & Tr2 & Md2 & B2 & D2).
  { by rewrite T1. }
  { rewrite T1. eapply Forall_weaken; [exact Ht|]. intros a.
    eapply detached_stream_ok; [exact D1|apply B1]. }
  { rewrite T1. unfold members. by rewrite length_fmap. }
  exists h2, v2. split_and!; try congruence; [by transitivity h1|].
  rewrite T1 in D2. exact (detached_cons _ _ _ _ _ D1 D2).
Qed.

(** ** Queues *)

Lemma filter_notin (a : addr) (l : list addr) : (a ∉ l) -> filter (fun b => b <> a) l = l.
Proof.
  induction l as [|b l IH]; [done|]. intros Hn. rewrite filter_cons, decide_True by set_solver.
  f_equal. set_solver.
Qed.

Lemma filter_head (a : addr) (l : list addr) :
  (a ∉ l) -> filter (fun b => b <> a) (a :: l) = l.
Proof. intros Hn. rewrite filter_cons, decide_False by naive_solver. by apply filter_notin. Qed.

Lemma filter_perm (a : addr) (l : list addr) :
  NoDup l -> a ∈ l -> l ≡ₚ a :: filter (fun b => b <> a) l.
Proof.
  induction l as [|b l IH]; [set_solver|]. intros Hnd Ha. apply NoDup_cons in Hnd as [Hb Hnd].
  destruct (decide (a = b)) as [->|Hne].
  - by rewrite filter_head.
  - rewrite filter_cons, decide_True by done.
    rewrite (IH Hnd ltac:(set_solver)) at 1. apply Permutation_swap.
Qed.

Lemma queues_remove i st :
  NoDup (queues st) -> i ∈ queues st -> queues st ≡ₚ i :: queues (queue_remove i st).
Proof.
  intros Hnd Hi. unfold queues, queue_remove. simpl. rewrite <- !filter_app.
  by apply filter_perm.
Qed.

Lemma queues_sweep i st :
  NoDup (queues st) -> i ∈ queues st -> queues (insert_sweep i (queue_remove i st)) ≡ₚ queues st.
Proof.
  intros Hnd Hi. rewrite (queues_remove i st Hnd Hi). unfold queues. simpl.
  rewrite !app_assoc, <- Permutation_cons_append. done.
Qed.

(** ** Invalidating and destroying *)

Lemma inst_ok_detached L h h' store j v :
  inst_ok h store j v -> detached L h h' -> h_ctxs h' = h_ctxs h ->
  h_insts h' !! j = h_insts h !! j -> inst_ok h' store j v.
Proof.
  intros [Hv Hs [Hnr Hr] [Hnt Ht]] D Hc Hj. split; [congruence|done| |].
  - split; [done|]. eapply Forall_weaken; [exact Hr|]. intros a. by apply detached_root_ok with L.
  - split; [done|]. eapply Forall_weaken; [exact Ht|]. intros a. by apply detached_stream_ok with L.
Qed.

(** The contexts of an instance. *)
Definition ctxs_of (h : heap G) (i : addr) : list addr :=
  match h_insts h !! i with
  | Some v => members (is_root_ctxs v) ++ members (is_tree_ctxs v)
  | None => []
  end.

Lemma invalidate_Ret h store st i v :
  store_ok h store st -> i ∈ queues st -> inst_ok h store i v ->
  exists h' v', ngx_proxy_wasm_instance_invalidate debug i h = Ret (tt, h') /\
    store_ok h' store (insert_sweep i (queue_remove i st)) /\
    h_insts h' !! i = Some v' /\ is_trapped v' = is_trapped v /\ is_module v' = is_module v /\
    (forall j, j <> i -> h_insts h' !! j = h_insts h !! j) /\ h_filters h' = h_filters h /\
    h_guest h' = h_guest h.
Proof.
  intros [Hst Hnd Hok] Hi Hv.
  destruct (detach_all_Ret h store i v Hv)
    as (h1 & v1 & E & Hv1 & Mt & Mr & Hs & Htr & Hmd & [C S F Gu I] & D).
  set (st1 := insert_sweep i (queue_remove i st)).
  exists (with_stores (<[store := st1]> (h_stores h1)) h1), v1.
  split. { unfold ngx_proxy_wasm_instance_invalidate. mstep E. mstep (read_inst_Ret _ _ _ Hv1).
    rewrite Hs. apply (write_store_Ret h1 store st). by rewrite S. }
  split_and!; try done. split.
  - apply lookup_insert_eq.
  - unfold st1. by rewrite queues_sweep.
  - unfold st1. rewrite queues_sweep by done.
    rewrite Forall_elem in Hok |- *. intros j Hj. destruct (decide (j = i)) as [->|Hne].
    + exists v1. split; [done|done| |]; [rewrite Mr|rewrite Mt]; split; constructor.
    + destruct (Hok j Hj) as [w Hw]. exists w.
      eapply (inst_ok_detached _ h); [exact Hw|exact D|exact C|by apply I].
Qed.

Lemma destroy_Ret h store i v :
  inst_ok h store i v ->
  exists h', ngx_proxy_wasm_instance_destroy debug i h = Ret (tt, h') /\
    h_insts h' !! i = None /\ (forall j, j <> i -> h_insts h' !! j = h_insts h !! j) /\
    h_stores h' = h_stores h /\ h_ctxs h' = h_ctxs h /\ detached (ctxs_of h i) h h'.
Proof.
  intros Hv. destruct (detach_all_Ret h store i v Hv)
    as (h1 & v1 & E & Hv1 & _ & _ & _ & _ & _ & [C S F Gu I] & D).
  eexists. split.
  { unfold ngx_proxy_wasm_instance_destroy. mstep E. done. }
  simpl. split_and!; [apply lookup_delete_eq| |done|done|].
  - intros j Hj. rewrite lookup_delete_ne by done. by apply I.
  - unfold ctxs_of. rewrite (io_inst _ _ _ _ Hv). exact D.
Qed.

(** Instances [gone] were destroyed, with their contexts detached. *)
Record destroyed (gone : list addr) (h h' : heap G) : Prop := {
  ds_insts j : h_insts h' !! j = if decide (j ∈ gone) then None else h_insts h !! j;
  ds_execs : detached (gone ≫= ctxs_of h) h h';
  ds_ctxs : h_ctxs h' = h_ctxs h;
}.

Lemma sweep_loop_Ret n h store st :
  store_ok h store st -> length (st_sweep st) = n ->
  exists h', sweep_loop debug n store h = Ret (tt, h') /\ destroyed (st_sweep st) h h' /\
    h_stores h' = <[store := {| st_busy := st_busy st; st_free := st_free st; st_sweep := [] |}]>
      (h_stores h).
Proof.
  revert h st. induction n as [|n IH]; intros h st Hso Hlen; simpl.
  - pose proof (so_store _ _ _ Hso) as Hst. mstep (read_store_Ret _ _ _ Hst).
    destruct (st_sweep st) as [|] eqn:Hsw; [|done]. exists h. split; [done|]. split.
    + split; [done|apply detached_nil|done].
    + symmetry. apply insert_id. rewrite Hst. destruct st. simpl in *. by subst.
  - pose proof Hso as [Hst Hnd Hok]. mstep (read_store_Ret _ _ _ Hst).
    destruct (st_sweep st) as [|i sw] eqn:Hsw; [done|]. change (head (i :: sw)) with (Some i).
    cbn match.
    assert (Hi : i ∈ queues st) by (unfold queues; rewrite Hsw; set_solver).
    set (st1 := queue_remove i st).
    set (h1 := with_stores (<[store := st1]> (h_stores h)) h).
    mstep (write_store_Ret h store st (queue_remove i) Hst). fold st1 h1.
    pose proof Hok as Hok'. rewrite Forall_elem in Hok'. destruct (Hok' i Hi) as [v Hv].
    destruct (destroy_Ret h1 store i v) as (h2 & E2 & I2 & J2 & S2 & C2 & D2).
    { by destruct Hv as [? ? [? ?] [? ?]]; split. }
    mstep E2. pose proof (queues_remove i st Hnd Hi) as Hperm.
    assert (Hfilt : forall l, (i ∉ l) -> filter (fun b => b <> i) l = l) by apply filter_notin.
    pose proof Hnd as Hnd'. unfold queues in Hnd'. rewrite Hsw in Hnd'.
    assert (Hb : (i ∉ st_busy st) /\ (i ∉ st_free st) /\ (i ∉ sw)).
    { rewrite !NoDup_app in Hnd'. destruct Hnd' as (_ & Hx & _ & Hy & Hz).
      apply NoDup_cons in Hz as [Hz _]. split_and!; [|set_solver|done].
      intros Hin. specialize (Hx i Hin). set_solver. }
    destruct Hb as (Hb & Hf & Hs).
    assert (Hst1 : st1 = {| st_busy := st_busy st; st_free := st_free st; st_sweep := sw |}).
    { unfold st1, queue_remove. by rewrite Hsw, filter_head, !filter_notin. }
    destruct (IH h2 st1) as (h3 & E3 & [I3 D3 C3] & S3).
    + split.
      * rewrite S2. apply lookup_insert_eq.
      * rewrite Hperm in Hnd. by apply NoDup_cons in Hnd as [_ Hnd].
      * apply Forall_elem. intros j Hj. destruct (Hok' j) as [w Hw]; [rewrite Hperm; by right|].
        exists w. eapply (inst_ok_detached _ h1); [|exact D2|exact C2|].
        -- by destruct Hw as [? ? [? ?] [? ?]]; split.
        -- apply J2. intros ->. rewrite Hperm in Hnd. apply NoDup_cons in Hnd as [Hx _]. done.
    + rewrite Hst1. simpl in *. lia.
    + exists h3. split; [exact E3|]. rewrite Hst1 in I3, D3, S3. simpl in I3, D3, S3. split.
      * split.
        -- intros j. rewrite I3. destruct (decide (j = i)) as [->|Hne].
           ++ rewrite (decide_False (P := i ∈ sw)) by done. rewrite decide_True by set_solver. done.
           ++ rewrite (J2 j Hne). repeat case_decide; set_solver.
        -- simpl. replace (sw ≫= ctxs_of h2) with (sw ≫= ctxs_of h) in D3.
           ++ exact (detached_cons _ _ h1 h2 h3 D2 D3).
           ++ apply Forall_bind_ext, Forall_elem. intros j Hj. unfold ctxs_of. rewrite J2; [done|].
              intros ->. done.
        -- rewrite C3, C2. done.
      * rewrite S3, S2. simpl. by rewrite insert_insert_eq.
Qed.

Lemma inst_ok_stores h m store j v : inst_ok h store j v -> inst_ok (with_stores m h) store j v.
Proof. by intros [? ? [? ?] [? ?]]; split. Qed.

(** Removing the head of a queue. *)
Lemma queue_remove_busy a l st :
  NoDup (queues st) -> st_busy st = a :: l ->
  queue_remove a st = {| st_busy := l; st_free := st_free st; st_sweep := st_sweep st |}.
Proof.
  unfold queues. intros Hnd E. rewrite E in Hnd. simpl in Hnd.
  apply NoDup_cons in Hnd as [Ha _]. unfold queue_remove.
  by rewrite E, filter_head, !filter_notin by set_solver.
Qed.

Lemma queue_remove_free a l st :
  NoDup (queues st) -> st_free st = a :: l ->
  queue_remove a st = {| st_busy := st_busy st; st_free := l; st_sweep := st_sweep st |}.
Proof.
  unfold queues. intros Hnd E. rewrite E in Hnd. rewrite Permutation_app_comm in Hnd.
  simpl in Hnd. apply NoDup_cons in Hnd as [Ha _]. unfold queue_remove.
  by rewrite E, filter_head, !filter_notin by set_solver.
Qed.

Lemma move_busy_Ret n h store st :
  h_stores h !! store = Some st -> NoDup (queues st) -> length (st_busy st) = n ->
  move_loop n st_busy insert_free store h = Ret (tt, with_stores (<[store :=
    {| st_busy := []; st_free := st_free st ++ st_busy st; st_sweep := st_sweep st |}]>
    (h_stores h)) h).
Proof.
  revert h st. induction n as [|n IH]; intros h st Hst Hnd Hlen; simpl;
    mstep (read_store_Ret _ _ _ Hst); destruct (st_busy st) as [|a l] eqn:E; try done.
  - cbn match. rewrite app_nil_r. rewrite insert_id; [by destruct h|].
    rewrite Hst. f_equal. destruct st. simpl in *. by subst.
  - change (head (a :: l)) with (Some a). cbn match.
    mstep (write_store_Ret h store st (fun st => insert_free a (queue_remove a st)) Hst).
    rewrite (queue_remove_busy a l) by done. unfold insert_free. simpl.
    set (st1 := {| st_busy := l; st_free := st_free st ++ [a]; st_sweep := st_sweep st |}).
    rewrite (IH _ st1); simpl.
    + unfold with_stores. simpl. rewrite insert_insert_eq, <- app_assoc. done.
    + apply lookup_insert_eq.
    + unfold queues in *. simpl. rewrite E in Hnd. revert Hnd. apply NoDup_Permutation_proper.
      simpl. rewrite <- !app_assoc. simpl.
      rewrite (Permutation_middle l), (Permutation_middle (st_free st)). done.
    + simpl in Hlen. lia.
Qed.

Lemma move_free_Ret n h store st :
  h_stores h !! store = Some st -> NoDup (queues st) -> length (st_free st) = n ->
  move_loop n st_free insert_sweep store h = Ret (tt, with_stores (<[store :=
    {| st_busy := st_busy st; st_free := []; st_sweep := st_sweep st ++ st_free st |}]>
    (h_stores h)) h).
Proof.
  revert h st. induction n as [|n IH]; intros h st Hst Hnd Hlen; simpl;
    mstep (read_store_Ret _ _ _ Hst); destruct (st_free st) as [|a l] eqn:E; try done.
  - cbn match. rewrite app_nil_r. rewrite insert_id; [by destruct h|].
    rewrite Hst. f_equal. destruct st. simpl in *. by subst.
  - change (head (a :: l)) with (Some a). cbn match.
    mstep (write_store_Ret h store st (fun st => insert_sweep a (queue_remove a st)) Hst).
    rewrite (queue_remove_free a l) by done. unfold insert_sweep. simpl.
    set (st1 := {| st_busy := st_busy st; st_free := l; st_sweep := st_sweep st ++ [a] |}).
    rewrite (IH _ st1); simpl.
    + unfold with_stores. simpl. rewrite insert_insert_eq, <- app_assoc. done.
    + apply lookup_insert_eq.
    + unfold queues in *. simpl. rewrite E in Hnd. revert Hnd. apply NoDup_Permutation_proper.
      simpl. rewrite (app_assoc l), <- Permutation_cons_append. done.
    + simpl in Hlen. lia.
Qed.

(** C15. Destroying a store ends, and leaves the store empty: every instance it held is
    gone, every context linked to one of them lost its reference to it, and no other
    context or instance changed. *)
Theorem store_destroy_complete h store st :
  store_ok h store st ->
  exists h', ngx_proxy_wasm_store_destroy debug store h = Ret (tt, h') /\
    h_stores h' !! store = Some ngx_proxy_wasm_store_init /\
    (forall i, h_insts h' !! i = if decide (i ∈ queues st) then None else h_insts h !! i) /\
    (forall a e, h_execs h !! a = Some e ->
       exists e', h_execs h' !! a = Some e' /\ pe_ecode e' = pe_ecode e /\
         if decide (a ∈ (queues st ≫= ctxs_of h)) then pe_ictx e' = None
         else e' = e).
Proof.
  intros [Hst Hnd Hok]. unfold ngx_proxy_wasm_store_destroy. mstep (read_store_Ret _ _ _ Hst).
  mstep (move_busy_Ret (length (st_busy st)) h store st Hst Hnd eq_refl).
  set (st1 := {| st_busy := []; st_free := st_free st ++ st_busy st; st_sweep := st_sweep st |}).
  set (h1 := with_stores (<[store := st1]> (h_stores h)) h).
  assert (Hst1 : h_stores h1 !! store = Some st1) by apply lookup_insert_eq.
  assert (Hp1 : queues st1 ≡ₚ queues st).
  { unfold st1, queues. simpl. rewrite <- app_assoc, (app_assoc (st_free st)).
    rewrite (Permutation_app_comm (st_free st)), <- app_assoc. done. }
  assert (Hnd1 : NoDup (queues st1)) by (by rewrite Hp1).
  mstep (read_store_Ret _ _ _ Hst1).
  mstep (move_free_Ret (length (st_free st1)) h1 store st1 Hst1 Hnd1 eq_refl).
  set (st2 := {| st_busy := st_busy st1; st_free := []; st_sweep := st_sweep st1 ++ st_free st1 |}).
  set (h2 := with_stores (<[store := st2]> (h_stores h1)) h1).
  assert (Hst2 : h_stores h2 !! store = Some st2) by apply lookup_insert_eq.
  assert (Hp2 : st_sweep st2 ≡ₚ queues st).
  { rewrite <- Hp1. unfold st2, st1, queues. simpl. apply Permutation_app_comm. }
  assert (Hq2 : queues st2 = st_sweep st2) by done.
  unfold ngx_proxy_wasm_store_sweep. mstep (read_store_Ret _ _ _ Hst2).
  destruct (sweep_loop_Ret (length (st_sweep st2)) h2 store st2) as (h3 & E3 & [I3 D3 _] & S3).
  { split; [done|by rewrite Hq2, Hp2|]. rewrite Hq2, Hp2.
    eapply Forall_weaken; [exact Hok|]. intros i [v Hv]. exists v.
    by repeat apply inst_ok_stores. }
  { done. }
  exists h3. split; [exact E3|]. split_and!.
  - rewrite S3. apply lookup_insert_eq.
  - intros i. rewrite I3. repeat case_decide; try done; by rewrite Hp2 in *.
  - intros a e He. destruct (D3 a e He) as (e' & He' & _ & Hc & _ & Hif).
    exists e'. split; [done|]. split; [done|].
    assert (Hin : a ∈ (st_sweep st2 ≫= ctxs_of h2) <-> a ∈ (queues st ≫= ctxs_of h))
      by (rewrite !list_elem_of_bind; setoid_rewrite Hp2; done).
    destruct (decide (a ∈ (queues st ≫= ctxs_of h))) as [Hd|Hd].
    + by rewrite decide_True in Hif by by apply Hin.
    + by rewrite decide_False in Hif by (intros Hx; by apply Hd, Hin).
Qed.

(** ** Looking for an instance *)

Definition trapped_in (h : heap G) (i : addr) : bool :=
  match h_insts h !! i with Some v => is_trapped v | None => false end.

Definition ntrapped (h : heap G) (l : list addr) : nat := length (filter (trapped_in h) l).

Lemma queue_next_lookup l k a :
  NoDup l -> l !! k = Some a -> ngx_queue_next l (Some a) = l !! S k.
Proof.
  intros Hnd Hk. unfold ngx_queue_next.
  destruct (list_find (fun b => b = a) l) as [[j b]|] eqn:E.
  - apply list_find_Some in E as (Hj & -> & _). by rewrite (NoDup_lookup _ _ _ _ Hnd Hj Hk).
  - apply list_find_None in E. rewrite Forall_elem in E. destruct (E a); [|done].
    by eapply list_elem_of_lookup_2.
Qed.

(** The position after a position that may have left the queue. *)
Lemma queue_next_pos (l : list addr) q :
  NoDup l -> (forall a, q = Some a -> a ∈ l) -> exists k, ngx_queue_next l q = l !! k.
Proof.
  intros Hnd Hq. destruct q as [a|].
  - destruct (proj1 (list_elem_of_lookup _ _) (Hq a eq_refl)) as [k Hk].
    exists (S k). by apply queue_next_lookup.
  - exists 0%nat. by destruct l.
Qed.

Lemma ntrapped_ext h h' l :
  (forall j, j ∈ l -> h_insts h' !! j = h_insts h !! j) -> ntrapped h' l = ntrapped h l.
Proof.
  intros Hj. unfold ntrapped. induction l as [|a l IH]; [done|].
  assert (Ha : trapped_in h' a = trapped_in h a)
    by (unfold trapped_in; rewrite Hj; [done|by left]).
  assert (Hl : length (filter (trapped_in h') l) = length (filter (trapped_in h) l))
    by (apply IH; intros j Hjl; apply Hj; by right).
  rewrite !filter_cons. destruct (trapped_in h a) eqn:E.
  - rewrite !decide_True by (rewrite ?Ha, ?E; done). simpl. by rewrite Hl.
  - rewrite !decide_False by (rewrite ?Ha, ?E; simpl; tauto). done.
Qed.

Lemma ntrapped_remove h h' l a :
  NoDup l -> a ∈ l -> trapped_in h a = true ->
  (forall j, j <> a -> h_insts h' !! j = h_insts h !! j) ->
  ntrapped h l = S (ntrapped h' (filter (fun b => b <> a) l)).
Proof.
  intros Hnd Ha Ht Hj. rewrite (ntrapped_ext h h').
  - unfold ntrapped. rewrite (filter_perm a l Hnd Ha) at 1.
    rewrite filter_cons, decide_True by (by rewrite Ht). done.
  - intros j [Hne _]%list_elem_of_filter. by apply Hj.
Qed.

(** What the walk leaves behind: only trapped instances left the queue, for the one
    of those to destroy. *)
Record walked (h h' : heap G) (store : addr) (st st' : ngx_proxy_wasm_store_t) : Prop := {
  wk_ok : store_ok h' store st';
  wk_busy i : i ∈ st_busy st' -> i ∈ st_busy st /\ h_insts h' !! i = h_insts h !! i;
  wk_gone i : i ∈ st_busy st -> (i ∉ st_busy st') -> trapped_in h i = true /\ i ∈ st_sweep st';
  wk_keep i : i ∈ st_sweep st -> i ∈ st_sweep st';
  wk_sweep i : i ∈ st_sweep st' -> i ∈ st_sweep st \/ trapped_in h i = true;
}.

Lemma walked_refl h store st : store_ok h store st -> walked h h store st st.
Proof. intros Hso. split; [done|by intros|by intros|done|by left]. Qed.

Lemma store_ok_busy h store st i :
  store_ok h store st -> i ∈ st_busy st -> exists v, inst_ok h store i v.
Proof.
  intros [_ _ Hok] Hi. rewrite Forall_elem in Hok. apply Hok. unfold queues. set_solver.
Qed.

#[local] Arguments ngx_queue_next : simpl never.

Lemma find_busy_Ret fuel n h store m st k :
  store_ok h store st -> (length (st_busy st) <= n)%nat ->
  (ntrapped h (st_busy st) * S n + (length (st_busy st) - k) <= fuel)%nat ->
  exists r h' st', find_busy debug fuel store m (st_busy st !! k) h = Ret (r, h') /\
    walked h h' store st st' /\
    (forall i, r = Some i -> i ∈ st_busy st' /\ exists v, h_insts h' !! i = Some v /\
       is_trapped v = false /\ is_module v = m).
Proof.
  revert h st k. induction fuel as [|fuel IH]; intros h st k Hso Hn Hfuel;
    destruct (st_busy st !! k) as [i|] eqn:Hk; simpl.
  2,4: exists None, h, st; split_and!; [done|by apply walked_refl|done].
  { apply lookup_lt_Some in Hk. lia. }
  pose proof (lookup_lt_Some _ _ _ Hk) as Hlt.
  assert (Hib : i ∈ st_busy st) by (by eapply list_elem_of_lookup_2).
  pose proof Hso as [Hst Hnd Hok]. destruct (store_ok_busy _ _ _ _ Hso Hib) as [v Hv].
  assert (Hndb : NoDup (st_busy st)) by (unfold queues in Hnd; by apply NoDup_app in Hnd as [? _]).
  pose proof (io_inst _ _ _ _ Hv) as Hvi.
  mstep (read_inst_Ret _ _ _ Hvi). mstep (read_store_Ret _ _ _ Hst).
  destruct (is_trapped v) eqn:Htr.
  - rewrite (queue_next_lookup _ _ _ Hndb Hk).
    destruct (invalidate_Ret h store st i v Hso ltac:(unfold queues; set_solver) Hv)
      as (h1 & v1 & E1 & Hso1 & Hv1 & Tr1 & _ & I1 & _ & _).
    set (st1 := insert_sweep i (queue_remove i st)) in *.
    mstep E1. mstep (read_store_Ret _ _ _ (so_store _ _ _ Hso1)).
    assert (Hb1 : st_busy st1 = filter (fun b => b <> i) (st_busy st)) by done.
    assert (Htri : trapped_in h i = true) by (unfold trapped_in; by rewrite Hvi).
    pose proof (ntrapped_remove h h1 _ i Hndb Hib Htri I1) as Hnt. rewrite <- Hb1 in Hnt.
    pose proof (filter_perm i _ Hndb Hib) as Hperm. rewrite <- Hb1 in Hperm.
    assert (Hlen : length (st_busy st) = S (length (st_busy st1)))
      by exact (Permutation_length Hperm).
    destruct (queue_next_pos (st_busy st1) (st_busy st !! S k)) as [k1 Hk1].
    + rewrite Hb1. by apply NoDup_filter.
    + intros b Hb. rewrite Hb1. apply list_elem_of_filter. split.
      * intros ->. pose proof (NoDup_lookup _ _ _ _ Hndb Hk Hb). lia.
      * by eapply list_elem_of_lookup_2.
    + rewrite Hk1. destruct (IH h1 st1 k1 Hso1) as (r & h2 & st2 & E2 & W & Hr); [lia| |].
      { rewrite Hnt in Hfuel. nia. }
      exists r, h2, st2. split; [exact E2|]. split; [|exact Hr].
      destruct W as [Wok Wb Wg Wk Ws].
      assert (Hi1 : i ∈ st_sweep st1) by (unfold st1; simpl; set_solver).
      split; [done| | | |].
      * intros j Hj. destruct (Wb j Hj) as [Hj1 Hij]. rewrite Hb1 in Hj1.
        apply list_elem_of_filter in Hj1 as [Hne Hj1]. split; [done|]. by rewrite Hij, I1.
      * intros j Hj Hnj. destruct (decide (j = i)) as [->|Hne].
        -- split; [done|]. by apply Wk.
        -- destruct (Wg j) as [T S]; [rewrite Hb1; apply list_elem_of_filter; done|done|].
           split; [|done]. unfold trapped_in in *. by rewrite <- (I1 j Hne).
      * intros j Hj. apply Wk. unfold st1. simpl. apply elem_of_app. left.
        apply list_elem_of_filter. split; [|done]. intros ->. unfold queues in Hnd.
        apply NoDup_app in Hnd as (_ & Hx & _). apply (Hx i Hib). set_solver.
      * intros j Hj. destruct (Ws j Hj) as [Hj1|Hj1].
        -- unfold st1, insert_sweep, queue_remove in Hj1. simpl in Hj1.
           apply elem_of_app in Hj1 as [Hj1|Hj1].
           ++ left. by apply list_elem_of_filter in Hj1 as [_ ?].
           ++ right. apply list_elem_of_singleton in Hj1 as ->. done.
        -- right. destruct (decide (j = i)) as [->|Hne]; [done|].
           unfold trapped_in in *. by rewrite <- (I1 j Hne).
  - destruct (Z.eqb_spec (is_module v) m) as [Hm|Hm].
    + exists (Some i), h, st. split; [done|]. split; [by apply walked_refl|].
      intros j [= <-]. split; [done|]. by exists v.
    + rewrite (queue_next_lookup _ _ _ Hndb Hk). apply IH; [done|done|lia].
Qed.

(** An instance in a heap that differs elsewhere. *)
Lemma inst_ok_other h h' store j v :
  h_execs h' = h_execs h -> h_ctxs h' = h_ctxs h -> h_insts h' !! j = h_insts h !! j ->
  inst_ok h store j v -> inst_ok h' store j v.
Proof.
  intros He Hc Hj Hv. apply (inst_ok_detached [] h); try done.
  intros a e Ha. exists e. rewrite He. by split_and!.
Qed.

Lemma store_ok_insert h h' store st i :
  store_ok h store st -> (i ∉ queues st) -> (exists v, inst_ok h' store i v) ->
  h_stores h' !! store = Some (insert_busy i st) ->
  (forall j v, j ∈ queues st -> inst_ok h store j v -> inst_ok h' store j v) ->
  store_ok h' store (insert_busy i st).
Proof.
  intros [Hst Hnd Hok] Hi Hv Hst' Hj.
  assert (Hp : queues (insert_busy i st) ≡ₚ i :: queues st).
  { unfold queues. simpl. rewrite <- app_assoc. simpl. by rewrite <- Permutation_middle. }
  split; [done| |].
  - rewrite Hp. by constructor.
  - rewrite Hp. constructor; [done|]. rewrite Forall_elem in Hok |- *.
    intros j Hin. destruct (Hok j Hin) as [v Hjv]. exists v. by apply Hj.
Qed.

Lemma new_instance_Ret f h store st :
  store_ok h store st ->
  exists r h', new_instance f store h = Ret (r, h') /\
    match r with
    | Some i => store_ok h' store (insert_busy i st) /\ exists v, h_insts h' !! i = Some v /\
        is_trapped v = false /\ is_module v = f_module f /\ ctxs_of h' i = []
    | None => store_ok h' store st /\ exists g, (ngx_palloc g).1 = false \/
        exists i, (ngx_wavm_instance_create g (f_module f) i).1 = false
    end.
Proof.
  intros Hso. pose proof (so_store _ _ _ Hso) as Hst. unfold new_instance.
  destruct (ngx_palloc (h_guest h)) as [ok g1] eqn:Ep.
  assert (E1 : guest ngx_palloc h = Ret (ok, with_guest g1 h))
    by (unfold guest; by rewrite Ep).
  mstep E1. destruct ok; cbn [negb]; cbn match.
  2:{ exists None, (with_guest g1 h). split; [done|]. split.
      - destruct Hso as [? ? Ho]; split; try done. eapply Forall_weaken; [exact Ho|].
        intros j [w Hw]. exists w. by apply inst_ok_other with h.
      - exists (h_guest h). left. by rewrite Ep. }
  set (i := fresh (dom (h_insts h) : gset addr)).
  assert (Hfresh : h_insts h !! i = None).
  { apply not_elem_of_dom. apply (is_fresh (dom (h_insts h) : gset addr)). }
  set (v := {| is_tree_ctxs := Sentinel; is_root_ctxs := Sentinel; is_module := f_module f;
               is_store := store; is_trapped := false; is_pwexec := None |}).
  set (h2 := with_insts (<[i := v]> (h_insts h)) (with_guest g1 h)).
  assert (E2 : new_inst v (with_guest g1 h) = Ret (i, h2)) by done.
  mstep E2. destruct (ngx_wavm_instance_create g1 (f_module f) i) as [ok g3] eqn:Ec.
  assert (E3 : guest (fun g => ngx_wavm_instance_create g (f_module f) i) h2
    = Ret (ok, with_guest g3 h2)) by (unfold guest; simpl; by rewrite Ec).
  mstep E3.
  assert (Hni : i ∉ queues st).
  { intros Hi. destruct Hso as [_ _ Ho]. rewrite Forall_elem in Ho.
    destruct (Ho i Hi) as [w [Hw _ _ _]]. congruence. }
  destruct ok; cbn [negb]; cbn match.
  - assert (Hst3 : h_stores (with_guest g3 h2) !! store = Some st) by done.
    mstep (write_store_Ret _ _ _ (insert_busy i) Hst3).
    eexists (Some i), _. split; [done|]. split.
    + apply store_ok_insert with h; try done.
      * exists v. split; [apply lookup_insert_eq|done| |]; split; constructor.
      * apply lookup_insert_eq.
      * intros j w Hj Hw. apply inst_ok_other with h; try done. simpl.
        apply lookup_insert_ne. intros <-. done.
    + exists v. unfold ctxs_of. simpl. rewrite lookup_insert_eq. done.
  - eexists None, _. split; [done|]. split.
    + destruct Hso as [? ? Ho]. split; try done. rewrite Forall_elem in Ho |- *.
      intros j Hj. destruct (Ho j Hj) as [w Hw]. exists w. apply inst_ok_other with h; try done.
      simpl. rewrite lookup_delete_ne, lookup_insert_ne; [done|by intros <-..].
    + exists g1. right. exists i. by rewrite Ec.
Qed.

(** C13. Looking for an instance in a well-formed store always ends, with an instance
    of the filter's module that has not trapped and is in use in the store; it fails
    only when an allocation or the creation of an instance does.  On the way, only
    trapped instances leave the queue, and all that leave wait to be destroyed. *)
Theorem get_instance_usable f h store st :
  store_ok h store st ->
  exists r h' st' h1 st1, get_instance debug f store h = Ret (r, h') /\
    walked h h1 store st st1 /\ store_ok h' store st' /\
    match r with
    | Some i => i ∈ st_busy st' /\ exists v, h_insts h' !! i = Some v /\
        is_trapped v = false /\ is_module v = f_module f
    | None => exists g, (ngx_palloc g).1 = false \/
        exists i, (ngx_wavm_instance_create g (f_module f) i).1 = false
    end.
Proof.
  intros Hso. unfold get_instance. mstep (read_store_Ret _ _ _ (so_store _ _ _ Hso)).
  assert (Hhead : ngx_queue_next (st_busy st) None = st_busy st !! 0%nat)
    by (by destruct (st_busy st)).
  destruct (find_busy_Ret (find_fuel st) (length (st_busy st)) h store (f_module f) st 0 Hso)
    as (r & h1 & st1 & E1 & W & Hr); [lia| |].
  { unfold find_fuel, ntrapped.
    pose proof (length_filter (trapped_in h) (st_busy st)). nia. }
  rewrite Hhead. mstep E1. destruct r as [i|].
  - exists (Some i), h1, st1, h1, st1. destruct (Hr i eq_refl) as [Hi Hv].
    split_and!; [done|done|apply W|done|done].
  - destruct (new_instance_Ret f h1 store st1 (wk_ok _ _ _ _ _ W)) as ([i|] & h2 & E2 & Hn).
    + exists (Some i), h2, (insert_busy i st1), h1, st1. destruct Hn as [Hok (v & ? & ? & ? & _)].
      split_and!; try done; [|by exists v]. simpl. set_solver.
    + exists None, h2, st1, h1, st1. destruct Hn as [Hok Hg]. by split_and!.
Qed.

End stores.
End Stores.

(** ** Concrete stores

    An environment that allows a number of instances and answers every call with
    1. *)
Module Budget.
Import ProxyWasm Instances Stores.
#[export] Existing Instance NginxCore.Reference.spine_rbtree.
#[export] Existing Instance NginxCore.Reference.spine_laws.

#[export] Instance budget_wavm : Wavm nat := {
  wrt_call n _ _ _ a :=
    {| cr_guest := n; cr_rc := NGX_OK; cr_ret := 1; cr_action := a; cr_tick := None |};
  ngx_wavm_instance_create n _ _ := match n with O => (false, O) | S n => (true, n) end;
  ngx_wavm_instance_destroy n _ := n;
  ngx_palloc n := (true, n);
  wasm_acl_init n := (true, n);
}.

Definition callbacks : list (wasm_func * option bytes) :=
  [(proxy_on_context_create, Some (ngx_string "proxy_on_context_create"));
   (proxy_on_vm_start, Some (ngx_string "proxy_on_vm_start"));
   (proxy_on_plugin_start, Some (ngx_string "proxy_on_configure"))].

Definition filter_of (id module : Z) : ngx_proxy_wasm_filter_t :=
  {| f_id := id; f_module := module; f_module_config_len := 0; f_config_len := 0;
     f_acl_ctx := false; f_store := 1%positive; f_ecode := ERR_NONE; f_abi_version := ABI_0_2_1;
     f_funcs := callbacks; f_loaded := true; f_started := true |}.

Definition inst_of (trapped : bool) : ngx_proxy_wasm_instance_t :=
  {| is_tree_ctxs := Sentinel; is_root_ctxs := Sentinel; is_module := 1;
     is_store := 1%positive; is_trapped := trapped; is_pwexec := None |}.

Definition store2 : ngx_proxy_wasm_store_t :=
  {| st_busy := [1; 2]%positive; st_free := []; st_sweep := [] |}.

(** Two instances of a module in use, the first of them trapped. *)
Definition heap2 : heap nat :=
  {| h_execs := ∅; h_ctxs := ∅;
     h_insts := <[1%positive := inst_of true]> {[2%positive := inst_of false]};
     h_stores := {[1%positive := store2]}; h_filters := {[1%positive := filter_of 7 1]};
     h_guest := 5%nat |}.

Lemma heap2_ok : store_ok heap2 1%positive store2.
Proof.
  split; [done|by apply (bool_decide_unpack _)|]. unfold queues. simpl.
  repeat constructor; [exists (inst_of true)|exists (inst_of false)];
    (split; [done|done|split; constructor|split; constructor]).
Defined.

Lemma get_instance_usable_witness :
  exists r h' st', get_instance false (filter_of 7 1) 1%positive heap2 = Ret (r, h') /\
    store_ok h' 1%positive st'.
Proof.
  destruct (get_instance_usable false (filter_of 7 1) heap2 1%positive store2 heap2_ok)
    as (r & h' & st' & h1 & st1 & E & _ & Hok & _).
  exists r, h', st'. by split.
Defined.

Lemma store_destroy_complete_witness :
  exists h', ngx_proxy_wasm_store_destroy false 1%positive heap2 = Ret (tt, h') /\
    h_insts h' !! 2%positive = None.
Proof.
  destruct (store_destroy_complete false heap2 1%positive store2 heap2_ok)
    as (h' & E & _ & Hi & _).
  exists h'. split; [exact E|]. exact (Hi 2%positive).
Defined.

(** The instance after a trapped one is skipped: a third one is created although the
    second could be used. *)
Example get_instance_skips_usable :
  exists h', get_instance false (filter_of 7 1) 1%positive heap2 = Ret (Some 3%positive, h') /\
    h_insts h' !! 2%positive = Some (inst_of false).
Proof. eexists. split; vm_compute; reflexivity. Qed.

(** Two filters, of which the second gets no instance: the stream context is ready
    with fewer execution contexts than filters. *)
Definition heap3 : heap nat :=
  {| h_execs := ∅; h_ctxs := {[1%positive := zero_ctx]}; h_insts := ∅;
     h_stores := {[1%positive := ngx_proxy_wasm_store_init]};
     h_filters := <[1%positive := filter_of 7 1]> {[2%positive := filter_of 8 2]};
     h_guest := 1%nat |}.

Definition tree3 : rbtree := RbNode Sentinel 1%positive 7 (RbNode Sentinel 2%positive 8 Sentinel).

Example short_chain_is_ready :
  match ngx_proxy_wasm_ctx false tree3 1%positive (Some [7; 8]) ISOLATION_NONE 0 heap3 with
  | Ret ((r, _), h) =>
      r = Some 1%positive /\
      (c ← h_ctxs h !! 1%positive; Some (pw_ready c, pw_nfilters c, length (pw_pwexecs c)))
        = Some (true, 2%nat, 1%nat)
  | Fault _ => False
  end.
Proof. vm_compute. done. Qed.

(** A context that could not be started keeps a reference to its instance without
    being linked to it: when the instance is swept, the reference dangles. *)
Example unlinked_reference_dangles :
  let e := {| pe_root_id := 7; pe_id := 3; pe_index := 0; pe_tick_period := 0; pe_node_key := 0;
              pe_ecode := ERR_START_FAILED; pe_log := true; pe_parent := Some 1%positive;
              pe_filter := 1%positive; pe_ictx := Some 1%positive; pe_store := Some 1%positive;
              pe_started := false; pe_in_tick := false; pe_ecode_logged := false |} in
  let c := set_ctx_pwexecs [1%positive] (set_ctx_chain 1 [] ISOLATION_NONE zero_ctx) in
  let h := with_ctxs {[1%positive := c]} (with_execs {[1%positive := e]} heap2) in
  (get_instance false (filter_of 7 1) 1%positive;;
   ngx_proxy_wasm_store_sweep false 1%positive;;
   ngx_proxy_wasm_ctx_destroy false 1%positive) h = Fault F_memory.
Proof. vm_compute. done. Qed.

End Budget.
