(* ===== verification/FilterChain.v ===== *)
(** * Proxy-Wasm: running a chain of filters

    [ngx_proxy_wasm_resume], [ngx_proxy_wasm_run_step], [action2rc] and the
    callbacks [on_log], [on_done] and [on_tick] of
    src/src/common/proxy_wasm/ngx_proxy_wasm.c: how the filters of a stream are
    run in order, paused, resumed, stopped by an error and finalized.  The
    callbacks of a subsystem are the operations of class [Subsystem]. *)
From S2P Require Import Prelude NginxCore ProxyWasm Abi Instances Frame.
From stdpp Require Export list.
#[global] Open Scope Z_scope.

Module FilterChain.
Import ProxyWasm Instances Frame.

(** [ngx_proxy_wasm_subsystem_t]: [resume] calls a guest for a step, given the
    action found, and yields its code and the action it returned; [resp_buffering]
    is the assignment to the request made when a response body is to be buffered. *)
Class Subsystem (G : Type) := {
  sub_resume : addr -> ngx_proxy_wasm_step_e -> Z -> M G (ngx_rc * Z);
  sub_ecode : ngx_proxy_wasm_err_e -> ngx_rc;
  resp_buffering : G -> G;
}.

Section chain.
Context {G : Type} `{Wavm G} `{Rbtree} `{Subsystem G} (debug : bool).
(** [NGX_WASM_RESPONSE_TRAILERS] *)
Context (response_trailers : bool).
Implicit Types h : heap G.

(** [rc == NGX_ERROR || rc >= NGX_HTTP_SPECIAL_RESPONSE] *)
Definition error_rc (rc : ngx_rc) : bool :=
  match rc with
  | NGX_ERROR => true
  | NGX_STATUS code => 300 <=? code
  | _ => false
  end.

(** The label [error] of [action2rc]. *)
Definition action_error (pwexec : addr) (rc : ngx_rc) : M G ngx_rc :=
  assert debug (error_rc rc);;
  e ← read_exec pwexec;
  (if bool_decide (rc = NGX_ERROR) && negb (is_err (pe_ecode e))
   then write_exec pwexec (set_exec_ecode ERR_UNKNOWN) else mret tt);;
  mret rc.

(** The phases a chain can be suspended in. *)
Definition action_pause (pwctx pwexec : addr) (c : ngx_proxy_wasm_ctx_t) : M G ngx_rc :=
  phase ← lift (deref (pw_phase c));
  match phase with
  | NGX_HTTP_WASM_HEADER_FILTER_PHASE =>
      ngx_proxy_wasm_pwexec2instance pwexec;;
      mret NGX_AGAIN
  | NGX_HTTP_WASM_BODY_FILTER_PHASE =>
      ngx_proxy_wasm_pwexec2instance pwexec;;
      guest (fun g => (tt, resp_buffering g));;
      mret NGX_AGAIN
  | NGX_HTTP_REWRITE_PHASE | NGX_HTTP_ACCESS_PHASE | NGX_HTTP_CONTENT_PHASE
  | NGX_WASM_BACKGROUND_PHASE => mret NGX_AGAIN
  | _ =>
      e ← lift (deref (pw_pwexecs c !! pw_exec_index c));
      write_exec e (set_exec_ecode ERR_RETURN_ACTION);;
      action_error e NGX_ERROR
  end.

Definition action2rc (pwctx pwexec : addr) : M G ngx_rc :=
  e ← read_exec pwexec;
  c ← read_ctx pwctx;
  assert debug (negb (pe_root_id e =? NGX_PROXY_WASM_ROOT_CTX_ID));;
  if is_err (pe_ecode e) then
    (if negb (pe_ecode_logged e) && negb (bool_decide (pw_step c = STEP_DONE))
     then write_exec pwexec (set_exec_ecode_logged true) else mret tt);;
    action_error pwexec (sub_ecode (pe_ecode e))
  else if bool_decide (pw_step c = STEP_DONE) then mret NGX_OK
  else if pw_action c =? ACTION_DONE then
    ngx_proxy_wasm_ctx_set_next_action debug pwctx ACTION_CONTINUE;;
    mret NGX_DONE
  else if pw_action c =? ACTION_CONTINUE then mret NGX_OK
  else if pw_action c =? ACTION_PAUSE then action_pause pwctx pwexec c
  else action_error pwexec NGX_ERROR.

(** ** Callbacks *)

Definition ngx_proxy_wasm_on_log (pwexec : addr) : M G unit :=
  e ← read_exec pwexec;
  f ← read_filter (pe_filter e);
  ictx ← ngx_proxy_wasm_pwexec2instance pwexec;
  (if abi_index (f_abi_version f) <? abi_index ABI_VNEXT then
     ngx_wavm_instance_call_funcref debug ictx f proxy_on_done [pe_id e];; mret tt
   else mret tt);;
  ngx_wavm_instance_call_funcref debug ictx f proxy_on_log [pe_id e];;
  mret tt.

Definition ngx_proxy_wasm_on_done (pwexec : addr) : M G unit :=
  e ← read_exec pwexec;
  f ← read_filter (pe_filter e);
  ictx ← ngx_proxy_wasm_pwexec2instance pwexec;
  ngx_wavm_instance_call_funcref debug ictx f proxy_on_context_finalize [pe_id e];;
  e ← read_exec pwexec;
  if negb (pe_node_key e =? 0) then
    ictx ← non_null (pe_ictx e);
    unlink_tree ictx pwexec
  else mret tt.

Definition ngx_proxy_wasm_on_tick (pwexec : addr) : M G ngx_rc :=
  e ← read_exec pwexec;
  f ← read_filter (pe_filter e);
  assert debug (pe_root_id e =? NGX_PROXY_WASM_ROOT_CTX_ID);;
  ictx ← ngx_proxy_wasm_pwexec2instance pwexec;
  '(rc, _) ← ngx_wavm_instance_call_funcref debug ictx f proxy_on_timer_ready [pe_id e];
  mret rc.

(** ** One step of one filter *)

(** [pwexec->ictx == NULL || pwexec->ictx->instance->trapped] *)
Definition no_instance (pwexec : addr) : M G bool :=
  e ← read_exec pwexec;
  match pe_ictx e with
  | None => mret true
  | Some ictx => i ← read_inst ictx; mret (is_trapped i)
  end.

(** The dispatch of [ngx_proxy_wasm_run_step] on the step: the code, and the
    action when the callback returned one. *)
Definition call_step (pwctx pwexec : addr) (step : ngx_proxy_wasm_step_e) (action : Z)
    : M G (ngx_rc * Z) :=
  match step with
  | STEP_REQ_HEADERS | STEP_REQ_BODY | STEP_RESP_HEADERS | STEP_RESP_BODY
  | STEP_DISPATCH_RESPONSE | STEP_FOREIGN_CALLBACK | STEP_UPSTREAM_SELECT
  | STEP_NEXT_UPSTREAM | STEP_UPSTREAM_INFO => sub_resume pwexec step action
  | STEP_RESP_TRAILERS =>
      if response_trailers then sub_resume pwexec step action else mret (NGX_ERROR, action)
  | STEP_LOG => ngx_proxy_wasm_on_log pwexec;; mret (NGX_OK, action)
  | STEP_DONE => ngx_proxy_wasm_on_done pwexec;; mret (NGX_OK, action)
  | STEP_TICK =>
      e ← read_exec pwexec;
      assert debug (pe_root_id e =? NGX_PROXY_WASM_ROOT_CTX_ID);;
      write_ctx pwctx (set_ctx_rexec (Some pwexec));;
      write_exec pwexec (set_exec_in_tick true);;
      rc ← ngx_proxy_wasm_on_tick pwexec;
      write_exec pwexec (set_exec_in_tick false);;
      write_ctx pwctx (set_ctx_rexec None);;
      mret (rc, action)
  | STEP_REQ_TRAILERS | STEP_UNSET => mret (NGX_ERROR, action)
  end.

(** The code a step leaves in the context. *)
Definition step_ecode (rc : ngx_rc) (ecode : ngx_proxy_wasm_err_e) : ngx_proxy_wasm_err_e :=
  match rc with
  | NGX_OK => ERR_NONE
  | NGX_ABORT => ERR_INSTANCE_TRAPPED
  | NGX_ERROR => ERR_UNKNOWN
  | _ => ecode
  end.

(** After the callback: an action set by a host call overrides the one returned
    when it is [ACTION_DONE]. *)
Definition finish_step (pwctx pwexec : addr) (old_action : Z) (rc : ngx_rc) (action : Z)
    : M G ngx_proxy_wasm_err_e :=
  c ← read_ctx pwctx;
  if negb (pw_action c =? action) && (pw_action c =? ACTION_DONE) then
    assert debug (negb (pw_action c =? old_action));;
    e ← read_exec pwexec;
    mret (pe_ecode e)
  else
    (if negb (pw_action c =? action)
     then ngx_proxy_wasm_ctx_set_next_action debug pwctx action else mret tt);;
    assert debug (bool_decide (rc ∈ [NGX_OK; NGX_ABORT; NGX_ERROR]));;
    write_exec pwexec (fun e => set_exec_ecode (step_ecode rc (pe_ecode e)) e);;
    e ← read_exec pwexec;
    mret (pe_ecode e).

Definition run_on_instance (pwctx pwexec : addr) (filter : addr) (old_action : Z)
    (step : ngx_proxy_wasm_step_e) : M G ngx_proxy_wasm_err_e :=
  e ← read_exec pwexec;
  ictx ← non_null (pe_ictx e);
  i ← read_inst ictx;
  f ← read_filter filter;
  assert debug (negb (is_trapped i));;
  assert debug (is_module i =? f_module f);;
  write_ctx pwctx (set_ctx_step step);;
  ngx_proxy_wasm_instance_update ictx pwexec;;
  '(rc, action) ← call_step pwctx pwexec step old_action;
  finish_step pwctx pwexec old_action rc action.

Definition ngx_proxy_wasm_run_step (pwexec : addr) (step : ngx_proxy_wasm_step_e)
    : M G ngx_proxy_wasm_err_e :=
  e ← read_exec pwexec;
  pwctx ← non_null (pe_parent e);
  c ← read_ctx pwctx;
  assert debug (bool_decide (pw_phase c <> None));;
  none ← no_instance pwexec;
  '(ecode, out) ←
    (if (none : bool)
     then ngx_proxy_wasm_create_context debug (pe_filter e) (Some pwctx) (pe_id e) (Some pwexec)
     else mret (ERR_NONE, Some pwexec));
  if is_err ecode then mret ecode
  else
    pwexec ← non_null out;
    run_on_instance pwctx pwexec (pe_filter e) (pw_action c) step.

(** ** Resuming the chain *)

(** [pwctx->exec_index++], unless the same filter is to be entered again. *)
Definition advance (step : ngx_proxy_wasm_step_e) (c : ngx_proxy_wasm_ctx_t)
    : ngx_proxy_wasm_ctx_t :=
  if (pw_action c =? ACTION_CONTINUE) || (pw_action c =? ACTION_DONE)
     || ((pw_action c =? ACTION_PAUSE) && negb (bool_decide (step = STEP_RESP_BODY)))
  then set_ctx_exec_index (S (pw_exec_index c)) c else c.

(** The end of an iteration: the step is complete after the last filter. *)
Definition complete_step (c : ngx_proxy_wasm_ctx_t) : ngx_proxy_wasm_ctx_t :=
  if (pw_nfilters c <=? pw_exec_index c)%nat
  then set_ctx_exec_index 0 (set_ctx_last_completed_step (pw_step c) c) else c.

(** The loop, with [n] filters left from index [i]. *)
Fixpoint resume_loop (n : nat) (pwctx : addr) (step : ngx_proxy_wasm_step_e) (i : nat)
    (rc : ngx_rc) : M G ngx_rc :=
  match n with
  | O => mret rc
  | S n =>
      c ← read_ctx pwctx;
      pwexec ← lift (deref (pw_pwexecs c !! i));
      e ← read_exec pwexec;
      assert debug (negb (pe_root_id e =? NGX_PROXY_WASM_ROOT_CTX_ID));;
      rc ← action2rc pwctx pwexec;
      if negb (is_ok rc) then mret rc
      else
        skip ← (if bool_decide (step = STEP_DONE) then no_instance pwexec else mret false);
        if (skip : bool) then mret NGX_OK
        else
          ecode ← ngx_proxy_wasm_run_step pwexec step;
          write_exec pwexec (set_exec_ecode ecode);;
          if is_err ecode then mret (sub_ecode ecode)
          else
            write_ctx pwctx (advance step);;
            rc ← action2rc pwctx pwexec;
            if bool_decide (rc = NGX_OK) || bool_decide (rc = NGX_AGAIN) then
              c ← read_ctx pwctx;
              assert debug (pw_exec_index c <=? pw_nfilters c)%nat;;
              write_ctx pwctx complete_step;;
              resume_loop n pwctx step (S i) rc
            else mret rc
  end.

(** Whether the step is entered at all. *)
Definition step_due (step : ngx_proxy_wasm_step_e) (c : ngx_proxy_wasm_ctx_t) : bool :=
  match step with
  | STEP_TICK | STEP_DONE | STEP_RESP_BODY | STEP_DISPATCH_RESPONSE | STEP_UPSTREAM_SELECT
  | STEP_NEXT_UPSTREAM | STEP_UPSTREAM_INFO | STEP_RESP_HEADERS => true
  | _ => negb (step_index step <=? step_index (pw_last_completed_step c))
  end.

Definition resets_chain (step : ngx_proxy_wasm_step_e) (c : ngx_proxy_wasm_ctx_t) : bool :=
  bool_decide (step = STEP_RESP_HEADERS) &&
  (step_index (pw_last_completed_step c) <? step_index STEP_RESP_HEADERS).

(** Up to the loop: the step is set, and the chain reset for the first response
    phase. *)
Definition resume_enter (pwctx : addr) (step : ngx_proxy_wasm_step_e) : M G unit :=
  write_ctx pwctx (set_ctx_step step);;
  c ← read_ctx pwctx;
  if resets_chain step c then ngx_proxy_wasm_ctx_reset_chain pwctx else mret tt.

Definition ngx_proxy_wasm_resume (pwctx : addr) (step : ngx_proxy_wasm_step_e) : M G ngx_rc :=
  resume_enter pwctx step;;
  c ← read_ctx pwctx;
  rc ← (if step_due step c then
          assert debug (Nat.eqb (length (pw_pwexecs c)) (pw_nfilters c));;
          resume_loop (pw_nfilters c - pw_exec_index c) pwctx step (pw_exec_index c) NGX_OK
        else mret NGX_OK);
  (if bool_decide (step = STEP_DONE) then ngx_proxy_wasm_ctx_destroy debug pwctx else mret tt);;
  mret rc.

(** ** What a step leaves alone *)

(** What the callbacks of a subsystem promise: guests reach the control of a
    stream through its next action only, and a code of an error is an error. *)
Class SubsystemLaws : Prop := {
  sub_resume_frame pwexec step action :
    keeps guest_frame (sub_resume pwexec step action);
  sub_ecode_error e : error_rc (sub_ecode e) = true;
}.

Context `{SubsystemLaws}.

Lemma keeps_sub_resume X pwexec step action :
  keeps (frame X) (sub_resume pwexec step action).
Proof. eapply keeps_weaken; [apply guest_frame_frame|apply sub_resume_frame]. Qed.

Hint Resolve keeps_sub_resume keeps_call_funcref keeps_unlink_tree keeps_set_next_action
  keeps_update : keeps.

Lemma keeps_pwexec2instance (X : addr -> Prop) pwexec :
  keeps (@frame G X) (ngx_proxy_wasm_pwexec2instance pwexec).
Proof. unfold ngx_proxy_wasm_pwexec2instance. keeps_tac. Qed.

Hint Resolve keeps_pwexec2instance : keeps.

Lemma keeps_call_step X pwctx pwexec step action :
  keeps (frame X) (call_step pwctx pwexec step action).
Proof.
  unfold call_step, ngx_proxy_wasm_on_log, ngx_proxy_wasm_on_done, ngx_proxy_wasm_on_tick.
  keeps_tac.
Qed.

Lemma keeps_run_tail pwctx pwexec ictx old step :
  keeps (frame (eq pwexec))
    (ngx_proxy_wasm_instance_update ictx pwexec;;
     '(rc, action) ← call_step pwctx pwexec step old;
     finish_step pwctx pwexec old rc action).
Proof.
  apply keeps_bind; [apply frame_preorder|apply keeps_update|]. intros _.
  apply keeps_bind; [apply frame_preorder|apply keeps_call_step|]. intros [rc action].
  unfold finish_step. keeps_tac.
Qed.

(** The context keeps its instance. *)
Lemma run_on_instance_link pwctx pwexec filter old step ictx :
  keeps (keeps_link pwexec ictx) (run_on_instance pwctx pwexec filter old step).
Proof.
  assert (Hs : forall a, keeps (keeps_link pwexec ictx) (sub_resume pwexec step a)).
  { intros a. eapply keeps_weaken; [apply guest_frame_link|apply sub_resume_frame]. }
  unfold run_on_instance, finish_step, call_step, ngx_proxy_wasm_on_log,
    ngx_proxy_wasm_on_done, ngx_proxy_wasm_on_tick, ngx_proxy_wasm_instance_update,
    ngx_proxy_wasm_ctx_set_next_action, unlink_tree, ngx_proxy_wasm_pwexec2instance.
  keeps_tac.
Qed.

(** Running a step changes the code of its own context only. *)
Lemma run_on_instance_frame pwctx pwexec filter old step h c ecode h' :
  h_ctxs h !! pwctx = Some c -> pw_step c = step ->
  run_on_instance pwctx pwexec filter old step h = Ret (ecode, h') ->
  frame (eq pwexec) h h'.
Proof.
  intros Hc Hs E. unfold run_on_instance in E. do 6 minv E.
  apply bind_Ret_inv in E as (? & h1 & Ew & E).
  apply write_ctx_inv in Ew as (c' & Hc' & ->).
  rewrite Hc in Hc'. injection Hc' as <-.
  transitivity (with_ctxs (<[pwctx := set_ctx_step step c]> (h_ctxs h)) h).
  - split; simpl; [intros a e He; exists e; split_and!; [done|reflexivity|auto]|].
    intros p c' Hp. destruct (decide (p = pwctx)) as [->|Hne].
    + rewrite lookup_insert_eq. eexists. split; [done|]. rewrite Hc in Hp. injection Hp as <-.
      unfold ctx_same. simpl. subst step. tauto.
    + rewrite lookup_insert_ne by done. exists c'. split; [done|reflexivity].
  - revert E. apply keeps_run_tail.
Qed.

(** ** One filter at a time *)

(** The chain is at filter [i] in step [step]. *)
Record ready (pwctx : addr) (step : ngx_proxy_wasm_step_e) (i : nat) (h : heap G)
    (c : ngx_proxy_wasm_ctx_t) : Prop := {
  rd_ctx : h_ctxs h !! pwctx = Some c;
  rd_step : pw_step c = step;
  rd_index : pw_exec_index c = i;
  rd_len : length (pw_pwexecs c) = pw_nfilters c;
  rd_nodup : NoDup (pw_pwexecs c);
  rd_phase : is_Some (pw_phase c);
  rd_execs : Forall (fun a => exists e, h_execs h !! a = Some e /\
    pe_root_id e <> NGX_PROXY_WASM_ROOT_CTX_ID /\ pe_parent e = Some pwctx) (pw_pwexecs c);
}.

(** It is the turn of [pwexec]: nothing is pending or failed, its instance can be
    entered. *)
Record turn (pwctx : addr) (step : ngx_proxy_wasm_step_e) (i : nat) (h : heap G)
    (c : ngx_proxy_wasm_ctx_t) (pwexec : addr) (e : ngx_proxy_wasm_exec_t) : Prop := {
  tn_ready : ready pwctx step i h c;
  tn_pwexec : pw_pwexecs c !! i = Some pwexec;
  tn_exec : h_execs h !! pwexec = Some e;
  tn_ecode : pe_ecode e = ERR_NONE;
  tn_action : pw_action c = ACTION_CONTINUE;
  tn_instance : exists ictx v, pe_ictx e = Some ictx /\ h_insts h !! ictx = Some v /\
    is_trapped v = false;
}.

Lemma turn_lt pwctx step i h c pwexec e :
  turn pwctx step i h c pwexec e -> (i < pw_nfilters c)%nat.
Proof.
  intros T. destruct T as [[_ _ _ Hl _ _ _] Hp _ _ _ _]. rewrite <- Hl.
  by eapply lookup_lt_Some.
Qed.

Lemma turn_root pwctx step i h c pwexec e :
  turn pwctx step i h c pwexec e ->
  (pe_root_id e =? NGX_PROXY_WASM_ROOT_CTX_ID) = false /\ pe_parent e = Some pwctx.
Proof.
  intros [[_ _ _ _ _ _ Hex] Hp He _ _ _]. rewrite Forall_elem in Hex.
  destruct (Hex pwexec) as (e' & He' & Hr & Hpar); [by eapply list_elem_of_lookup_2|].
  rewrite He in He'. injection He' as <-. split; [by apply Z.eqb_neq|done].
Qed.

(** The code of a context lets the chain through. *)
Lemma action2rc_continue pwctx pwexec h c e :
  h_ctxs h !! pwctx = Some c -> h_execs h !! pwexec = Some e ->
  (pe_root_id e =? NGX_PROXY_WASM_ROOT_CTX_ID) = false ->
  pe_ecode e = ERR_NONE -> pw_action c = ACTION_CONTINUE ->
  action2rc pwctx pwexec h = Ret (NGX_OK, h).
Proof.
  intros Hc He Hr Hec Ha. unfold action2rc.
  mstep (read_exec_Ret _ _ _ He). mstep (read_ctx_Ret _ _ _ Hc).
  rewrite Hr. mstep (assert_Ret debug true h eq_refl). rewrite Hec. cbn [is_err].
  unfold is_err. rewrite bool_decide_true by done. cbn [negb]. cbn match.
  case_bool_decide; [done|]. rewrite Ha. done.
Qed.

Lemma turn_no_instance pwctx step i h c pwexec e :
  turn pwctx step i h c pwexec e -> no_instance pwexec h = Ret (false, h).
Proof.
  intros [_ _ He _ _ (ictx & v & Hi & Hv & Ht)]. unfold no_instance.
  mstep (read_exec_Ret _ _ _ He). rewrite Hi. mstep (read_inst_Ret _ _ _ Hv). by rewrite Ht.
Qed.

(** A step on a usable instance is the call on that instance. *)
Lemma run_step_usable pwctx step i h c pwexec e :
  turn pwctx step i h c pwexec e ->
  ngx_proxy_wasm_run_step pwexec step h
  = run_on_instance pwctx pwexec (pe_filter e) ACTION_CONTINUE step h.
Proof.
  intros T. pose proof (turn_root _ _ _ _ _ _ _ T) as [_ Hp].
  pose proof (turn_no_instance _ _ _ _ _ _ _ T) as Hn.
  destruct T as [[Hc _ _ _ _ [ph Hph] _] _ He _ Ha _]. unfold ngx_proxy_wasm_run_step.
  mstep (read_exec_Ret _ _ _ He). rewrite Hp. mstep (lift_Ret h pwctx).
  mstep (read_ctx_Ret _ _ _ Hc).
  rewrite Hph, Ha. mstep (assert_Ret debug true h eq_refl). mstep Hn.
  unfold mbind at 1, M_bind at 1. simpl. done.
Qed.

(** What the loop records about a filter that ran. *)
Definition settle (pwctx pwexec : addr) (step : ngx_proxy_wasm_step_e)
    (ecode : ngx_proxy_wasm_err_e) : M G unit :=
  write_exec pwexec (set_exec_ecode ecode);;
  write_ctx pwctx (advance step).

(** Filter [i] ran the step and returned with the next action [action]: the heaps
    before, after the run, and after the run was recorded, with the objects there. *)
Record ran (pwctx : addr) (step : ngx_proxy_wasm_step_e) (i : nat) (action : Z) (h h2 : heap G)
    (pwexec : addr) (c2 : ngx_proxy_wasm_ctx_t) (e2 : ngx_proxy_wasm_exec_t) : Prop := {
  rn_turn : exists c e, turn pwctx step i h c pwexec e;
  rn_run : exists h1, ngx_proxy_wasm_run_step pwexec step h = Ret (ERR_NONE, h1) /\
    settle pwctx pwexec step ERR_NONE h1 = Ret (tt, h2);
  rn_ctx : h_ctxs h2 !! pwctx = Some c2;
  rn_exec : h_execs h2 !! pwexec = Some e2;
  rn_action : pw_action c2 = action;
}.

Lemma settle_inv pwctx pwexec step ecode h1 h2 c1 :
  h_ctxs h1 !! pwctx = Some c1 ->
  settle pwctx pwexec step ecode h1 = Ret (tt, h2) ->
  exists e1, h_execs h1 !! pwexec = Some e1 /\
    h_execs h2 = <[pwexec := set_exec_ecode ecode e1]> (h_execs h1) /\
    h_ctxs h2 = <[pwctx := advance step c1]> (h_ctxs h1) /\ h_insts h2 = h_insts h1 /\
    h_guest h2 = h_guest h1.
Proof.
  intros Hc E. unfold settle in E. apply bind_Ret_inv in E as (u & h' & E1 & E2).
  unfold write_exec, write in E1. case_match eqn:He; [|done]. injection E1 as _ <-.
  unfold write_ctx, write in E2. simpl in E2. rewrite Hc in E2. injection E2 as <-.
  simpl. eauto 10.
Qed.

Lemma advance_same step c :
  pw_nfilters (advance step c) = pw_nfilters c /\ pw_pwexecs (advance step c) = pw_pwexecs c /\
  pw_phase (advance step c) = pw_phase c /\ pw_step (advance step c) = pw_step c /\
  pw_last_completed_step (advance step c) = pw_last_completed_step c /\
  pw_action (advance step c) = pw_action c.
Proof. unfold advance. by case_match. Qed.

(** The state after filter [i] ran. *)
Lemma ran_state pwctx step i action h h2 pwexec c2 e2 c e :
  turn pwctx step i h c pwexec e -> ran pwctx step i action h h2 pwexec c2 e2 ->
  exists c1, ctx_same c c1 /\ c2 = advance step c1 /\ pw_action c1 = action /\
    pe_ecode e2 = ERR_NONE /\ (pe_root_id e2 =? NGX_PROXY_WASM_ROOT_CTX_ID) = false.
Proof.
  intros T [_ (h1 & Hrun & Hset) Hc2 He2 Ha].
  rewrite (run_step_usable _ _ _ _ _ _ _ T) in Hrun.
  pose proof (turn_root _ _ _ _ _ _ _ T) as [Hr _].
  destruct T as [[Hc Hs _ _ _ _ _] _ He _ _ _].
  pose proof (run_on_instance_frame _ _ _ _ _ _ _ _ _ Hc Hs Hrun) as [Fe Fc].
  destruct (Fc _ _ Hc) as (c1 & Hc1 & Hsame).
  destruct (settle_inv _ _ _ _ _ _ _ Hc1 Hset) as (e1 & He1 & Hexec & Hctx & _ & _).
  destruct (Fe _ _ He) as (e1' & He1' & (Hroot & _) & _).
  rewrite He1 in He1'. injection He1' as <-.
  rewrite Hctx, lookup_insert_eq in Hc2. injection Hc2 as <-.
  rewrite Hexec, lookup_insert_eq in He2. injection He2 as <-.
  exists c1. split_and!; [done|done| |done|].
  - by destruct (advance_same step c1) as (_ & _ & _ & _ & _ & <-).
  - simpl. by rewrite Hroot.
Qed.

(** The body of the loop for the filter whose turn it is. *)
Lemma loop_body n pwctx step i rc h h2 action pwexec c2 e2 :
  ran pwctx step i action h h2 pwexec c2 e2 ->
  resume_loop (S n) pwctx step i rc h =
    (rc ← action2rc pwctx pwexec;
     if bool_decide (rc = NGX_OK) || bool_decide (rc = NGX_AGAIN) then
       c ← read_ctx pwctx;
       assert debug (pw_exec_index c <=? pw_nfilters c)%nat;;
       write_ctx pwctx complete_step;;
       resume_loop n pwctx step (S i) rc
     else mret rc) h2.
Proof.
  intros [(c & e & T) (h1 & Hrun & Hset) _ _ _]. simpl resume_loop.
  pose proof (turn_root _ _ _ _ _ _ _ T) as [Hr _].
  pose proof (turn_no_instance _ _ _ _ _ _ _ T) as Hn.
  destruct T as [[Hc _ _ _ _ _ _] Hp He Hec Ha _].
  mstep (read_ctx_Ret _ _ _ Hc). rewrite Hp. mstep (lift_Ret h pwexec).
  mstep (read_exec_Ret _ _ _ He). rewrite Hr. mstep (assert_Ret debug true h eq_refl).
  mstep (action2rc_continue pwctx pwexec h c e Hc He Hr Hec Ha). cbn [negb is_ok].
  change (is_ok NGX_OK) with true. cbn [negb]. cbn match.
  assert (Hskip : (if bool_decide (step = STEP_DONE) then no_instance pwexec else mret false) h
                  = Ret (false, h)) by (by case_bool_decide).
  mstep Hskip. cbn match. mstep Hrun.
  unfold settle in Hset. apply bind_Ret_inv in Hset as (u & h' & Hw & Hset). destruct u.
  mstep Hw. unfold is_err at 1. rewrite (bool_decide_true (ERR_NONE = ERR_NONE)) by done.
  cbn [negb]. cbn match. mstep Hset. done.
Qed.

(** Filter [i] ran the step and lets the next one run. *)
Definition continues (pwctx : addr) (step : ngx_proxy_wasm_step_e) (i : nat) (h h' : heap G)
    : Prop :=
  exists h2 pwexec c2 e2,
    ran pwctx step i ACTION_CONTINUE h h2 pwexec c2 e2 /\
    write_ctx pwctx complete_step h2 = Ret (tt, h').

(** Filters [i], ..., [j - 1] ran in that order, each on the heap the one before
    left, and let the next one run. *)
Inductive pass (pwctx : addr) (step : ngx_proxy_wasm_step_e) : nat -> heap G -> nat -> heap G -> Prop :=
| pass_here i h : pass pwctx step i h i h
| pass_filter i h h1 j h' :
    continues pwctx step i h h1 -> pass pwctx step (S i) h1 j h' -> pass pwctx step i h j h'.

Lemma loop_continue n pwctx step i rc h h' :
  continues pwctx step i h h' ->
  resume_loop (S n) pwctx step i rc h = resume_loop n pwctx step (S i) NGX_OK h'.
Proof.
  intros (h2 & pwexec & c2 & e2 & R & Hw). rewrite (loop_body _ _ _ _ _ _ _ _ _ _ _ R).
  destruct (rn_turn _ _ _ _ _ _ _ _ _ R) as (c & e & T).
  destruct (ran_state _ _ _ _ _ _ _ _ _ _ _ T R) as (c1 & Hsame & -> & Ha1 & Hec & Hr).
  pose proof (turn_lt _ _ _ _ _ _ _ T) as Hlt.
  destruct T as [[Hc Hs Hi _ _ _ _] _ _ _ _ _]. destruct R as [_ _ Hc2 He2 Ha2].
  mstep (action2rc_continue pwctx pwexec h2 _ e2 Hc2 He2 Hr Hec Ha2).
  change (bool_decide (NGX_OK = NGX_OK) || bool_decide (NGX_OK = NGX_AGAIN)) with true.
  cbn match.
  mstep (read_ctx_Ret _ _ _ Hc2).
  assert (Hle : (pw_exec_index (advance step c1) <=? pw_nfilters (advance step c1))%nat = true).
  { destruct Hsame as (Hn & _ & _ & _ & _ & _ & _ & Hidx & _). apply Nat.leb_le.
    unfold advance. case_match; simpl; lia. }
  rewrite Hle. mstep (assert_Ret debug true h2 eq_refl). mstep Hw. done.
Qed.

Lemma pass_le pwctx step i h j h' : pass pwctx step i h j h' -> (i <= j)%nat.
Proof. induction 1; lia. Qed.

Lemma pass_here_inv pwctx step i h h' : pass pwctx step i h i h' -> h' = h.
Proof.
  intros P. inversion P as [|? ? h1 ? ? _ P']; subst; [done|].
  apply pass_le in P'. lia.
Qed.

Lemma loop_pass n pwctx step i h j h' rc :
  pass pwctx step i h j h' ->
  exists rc', (i = j -> rc' = rc) /\ ((i < j)%nat -> rc' = NGX_OK) /\
    resume_loop (n + (j - i)) pwctx step i rc h = resume_loop n pwctx step j rc' h'.
Proof.
  intros P. revert rc. induction P as [i h|i h h1 j h' Hc P IH]; intros rc.
  - exists rc. split_and!; [done|lia|]. by rewrite Nat.sub_diag, Nat.add_0_r.
  - pose proof (pass_le _ _ _ _ _ _ P) as Hle. destruct (IH NGX_OK) as (rc' & Heq & Hlt & IH').
    exists NGX_OK. split_and!; [lia|done|].
    replace (n + (j - i))%nat with (S (n + (j - S i)))%nat by lia.
    rewrite (loop_continue _ _ _ _ _ _ _ Hc), IH'. f_equal.
    destruct (decide (S i = j)); [by apply Heq|apply Hlt; lia].
Qed.

(** The control of the stream once filter [i] let the chain through. *)
Lemma continues_state pwctx step i h h' c :
  continues pwctx step i h h' -> h_ctxs h !! pwctx = Some c ->
  exists c', h_ctxs h' !! pwctx = Some c' /\ pw_action c' = ACTION_CONTINUE /\
    pw_nfilters c' = pw_nfilters c /\ pw_pwexecs c' = pw_pwexecs c /\ pw_step c' = step /\
    pw_phase c' = pw_phase c /\
    (if (S i =? pw_nfilters c)%nat
     then pw_exec_index c' = 0%nat /\ pw_last_completed_step c' = step
     else pw_exec_index c' = S i /\ pw_last_completed_step c' = pw_last_completed_step c).
Proof.
  intros (h2 & pwexec & c2 & e2 & R & Hw) Hc0.
  destruct (rn_turn _ _ _ _ _ _ _ _ _ R) as (c' & e & T).
  destruct (ran_state _ _ _ _ _ _ _ _ _ _ _ T R) as (c1 & Hsame & -> & Ha1 & _ & _).
  pose proof (turn_lt _ _ _ _ _ _ _ T) as Hlt.
  destruct T as [[Hc Hs Hi _ _ _ _] _ _ _ _ _]. rewrite Hc0 in Hc. injection Hc as <-.
  destruct R as [_ _ Hc2 _ _]. rewrite (write_ctx_Ret _ _ _ _ Hc2) in Hw. injection Hw as <-.
  destruct (Nat.eqb_spec (S i) (pw_nfilters c)) as [E|E];
  simpl; rewrite lookup_insert_eq; (eexists; split; [done|]);
  destruct Hsame as (Hn & Hp & _ & _ & Hph & Hst & Hl & Hx & _);
  unfold complete_step, advance; rewrite Ha1; simpl orb; cbn match; simpl;
  rewrite Hx, Hi, Hn.
  - rewrite (proj2 (Nat.leb_le _ _)) by lia. simpl. split_and!; congruence.
  - rewrite (proj2 (Nat.leb_gt _ _)) by lia. simpl. split_and!; congruence.
Qed.

Lemma pass_nfilters pwctx step i h j h' c :
  pass pwctx step i h j h' -> h_ctxs h !! pwctx = Some c ->
  exists c', h_ctxs h' !! pwctx = Some c' /\ pw_nfilters c' = pw_nfilters c.
Proof.
  intros P. revert c. induction P as [i h|i h h1 j h' Hcont P IH]; intros c Hc; [eauto|].
  destruct (continues_state _ _ _ _ _ _ Hcont Hc) as (c1 & Hc1 & _ & Hn & _).
  destruct (IH c1 Hc1) as (c2 & Hc2 & Hn2). exists c2. split; [done|congruence].
Qed.

Lemma pass_state pwctx step i h j h' c :
  pass pwctx step i h j h' -> h_ctxs h !! pwctx = Some c -> (j <= pw_nfilters c)%nat ->
  exists c', h_ctxs h' !! pwctx = Some c' /\ pw_nfilters c' = pw_nfilters c /\
    pw_pwexecs c' = pw_pwexecs c /\ pw_phase c' = pw_phase c /\
    ((i < j)%nat -> pw_action c' = ACTION_CONTINUE /\ pw_step c' = step) /\
    ((i < j)%nat -> j = pw_nfilters c ->
     pw_exec_index c' = 0%nat /\ pw_last_completed_step c' = step) /\
    ((i < j)%nat -> (j < pw_nfilters c)%nat ->
     pw_exec_index c' = j /\ pw_last_completed_step c' = pw_last_completed_step c).
Proof.
  intros P. revert c. induction P as [i h|i h h1 j h' Hcont P IH]; intros c Hc Hj.
  { exists c. split_and!; [done..|lia|lia|lia]. }
  pose proof (pass_le _ _ _ _ _ _ P) as Hle.
  destruct (continues_state _ _ _ _ _ _ Hcont Hc)
    as (c1 & Hc1 & Ha & Hn & Hp & Hs & Hph & Hidx).
  destruct (IH c1 Hc1) as (c2 & Hc2 & Hn2 & Hp2 & Hph2 & Ha2 & Hend & Hmid); [lia|].
  exists c2. split; [done|]. split_and!; [congruence..| | |].
  - intros _. destruct (decide (S i < j)%nat); [by apply Ha2|].
    assert (j = S i) as -> by lia. apply pass_here_inv in P as ->.
    rewrite Hc1 in Hc2. injection Hc2 as <-. done.
  - intros _ Hjn. destruct (decide (S i < j)%nat); [apply Hend; lia|].
    assert (j = S i) as -> by lia. apply pass_here_inv in P as ->.
    rewrite Hc1 in Hc2. injection Hc2 as <-. by rewrite Hjn, Nat.eqb_refl in Hidx.
  - intros _ Hjn. rewrite (proj2 (Nat.eqb_neq _ _)) in Hidx by lia.
    destruct Hidx as [Hi1 Hl1]. destruct (decide (S i < j)%nat).
    + rewrite <- Hl1. apply Hmid; lia.
    + assert (j = S i) as -> by lia. apply pass_here_inv in P as ->.
      rewrite Hc1 in Hc2. by injection Hc2 as <-.
Qed.

(** ** Pausing *)

(** The phases a chain may be suspended in. *)
Definition pausable (ph : ngx_phase) : bool :=
  match ph with
  | NGX_HTTP_WASM_HEADER_FILTER_PHASE | NGX_HTTP_WASM_BODY_FILTER_PHASE
  | NGX_HTTP_REWRITE_PHASE | NGX_HTTP_ACCESS_PHASE | NGX_HTTP_CONTENT_PHASE
  | NGX_WASM_BACKGROUND_PHASE => true
  | _ => false
  end.

(** A context that did not fail and has an instance. *)
Definition at_rest (pwexec : addr) (h : heap G) : Prop :=
  exists e ictx, h_execs h !! pwexec = Some e /\ pe_ecode e = ERR_NONE /\
    (pe_root_id e =? NGX_PROXY_WASM_ROOT_CTX_ID) = false /\ pe_ictx e = Some ictx /\
    is_Some (h_insts h !! ictx).

Lemma action2rc_pause pwctx pwexec h c ph :
  h_ctxs h !! pwctx = Some c -> pw_action c = ACTION_PAUSE -> pw_phase c = Some ph ->
  pausable ph = true -> pw_step c <> STEP_DONE -> at_rest pwexec h ->
  exists g, action2rc pwctx pwexec h = Ret (NGX_AGAIN, with_guest g h).
Proof.
  intros Hc Ha Hph Hp Hs (e & ictx & He & Hec & Hr & Hi & [v Hv]).
  assert (Hinst : ngx_proxy_wasm_pwexec2instance pwexec h = Ret (ictx, h)).
  { unfold ngx_proxy_wasm_pwexec2instance. mstep (read_exec_Ret _ _ _ He). rewrite Hi.
    mstep (lift_Ret h ictx). by mstep (read_inst_Ret _ _ _ Hv). }
  assert (Hid : h = with_guest (h_guest h) h) by (by destruct h).
  unfold action2rc.
  mstep (read_exec_Ret _ _ _ He). mstep (read_ctx_Ret _ _ _ Hc).
  rewrite Hr. mstep (assert_Ret debug true h eq_refl).
  unfold is_err. rewrite bool_decide_true by done. cbn [negb]. cbn match.
  rewrite bool_decide_false by done. rewrite Ha.
  change (ACTION_PAUSE =? ACTION_DONE) with false. change (ACTION_PAUSE =? ACTION_CONTINUE) with false.
  rewrite Z.eqb_refl. unfold action_pause. rewrite Hph. mstep (lift_Ret h ph).
  destruct ph; try discriminate Hp.
  1-3,6: exists (h_guest h); rewrite <- Hid; done.
  - exists (h_guest h). rewrite <- Hid. by mstep Hinst.
  - exists (resp_buffering (h_guest h)). by mstep Hinst.
Qed.

(** Filter [j] ran the step and pauses the chain. *)
Definition pauses (pwctx : addr) (step : ngx_proxy_wasm_step_e) (j : nat) (h h' : heap G) : Prop :=
  exists h2 pwexec c2 e2,
    ran pwctx step j ACTION_PAUSE h h2 pwexec c2 e2 /\
    write_ctx pwctx complete_step h2 = Ret (tt, h').

(** Its context after the run. *)
Lemma ran_at_rest pwctx step i action h h2 pwexec c2 e2 :
  ran pwctx step i action h h2 pwexec c2 e2 -> at_rest pwexec h2.
Proof.
  intros R. destruct (rn_turn _ _ _ _ _ _ _ _ _ R) as (c & e & T).
  destruct (ran_state _ _ _ _ _ _ _ _ _ _ _ T R) as (c1 & _ & _ & _ & Hec & Hr).
  destruct R as [_ (h1 & Hrun & Hset) _ He2 _].
  rewrite (run_step_usable _ _ _ _ _ _ _ T) in Hrun.
  destruct T as [[Hc Hs _ _ _ _ _] _ He _ _ (ictx & v & Hi & Hv & _)].
  pose proof (run_on_instance_link pwctx pwexec _ _ _ ictx _ _ _ Hrun) as Hl.
  destruct Hl as [(e1 & He1 & Hi1) Hv1]; [split; [eauto|by exists v]|].
  pose proof (run_on_instance_frame _ _ _ _ _ _ _ _ _ Hc Hs Hrun) as [_ Fc].
  destruct (Fc _ _ Hc) as (c1' & Hc1 & _).
  destruct (settle_inv _ _ _ _ _ _ _ Hc1 Hset) as (e1' & He1' & Hexec & _ & Hinst & _).
  rewrite He1 in He1'. injection He1' as <-.
  exists e2, ictx. split_and!; [done..| |by rewrite Hinst].
  rewrite Hexec, lookup_insert_eq in He2. by injection He2 as <-.
Qed.

Lemma pauses_state pwctx step j h h' c :
  pauses pwctx step j h h' -> h_ctxs h !! pwctx = Some c ->
  exists c', h_ctxs h' !! pwctx = Some c' /\ pw_action c' = ACTION_PAUSE /\
    pw_nfilters c' = pw_nfilters c /\ pw_pwexecs c' = pw_pwexecs c /\ pw_step c' = step /\
    pw_phase c' = pw_phase c /\ (j < pw_nfilters c)%nat /\
    (if bool_decide (step = STEP_RESP_BODY)
     then pw_exec_index c' = j /\ pw_last_completed_step c' = pw_last_completed_step c
     else if (S j =? pw_nfilters c)%nat
     then pw_exec_index c' = 0%nat /\ pw_last_completed_step c' = step
     else pw_exec_index c' = S j /\ pw_last_completed_step c' = pw_last_completed_step c).
Proof.
  intros (h2 & pwexec & c2 & e2 & R & Hw) Hc0.
  destruct (rn_turn _ _ _ _ _ _ _ _ _ R) as (c' & e & T).
  destruct (ran_state _ _ _ _ _ _ _ _ _ _ _ T R) as (c1 & Hsame & -> & Ha1 & _ & _).
  pose proof (turn_lt _ _ _ _ _ _ _ T) as Hlt.
  destruct T as [[Hc Hs Hi _ _ _ _] _ _ _ _ _]. rewrite Hc0 in Hc. injection Hc as <-.
  destruct R as [_ _ Hc2 _ _]. rewrite (write_ctx_Ret _ _ _ _ Hc2) in Hw. injection Hw as <-.
  destruct Hsame as (Hn & Hp & _ & _ & Hph & Hst & Hl & Hx & _).
  destruct (Nat.eqb_spec (S j) (pw_nfilters c)) as [E|E]; simpl; rewrite lookup_insert_eq;
    (eexists; split; [done|]); unfold complete_step, advance; rewrite Ha1;
    case_bool_decide as Hb; simpl; rewrite Hx, Hi, Hn;
    first [rewrite (proj2 (Nat.leb_gt _ _)) by lia | rewrite (proj2 (Nat.leb_le _ _)) by lia];
    simpl; split_and!; congruence || lia.
Qed.

Lemma with_guest_write_ctx pwctx f (h h' : heap G) g :
  write_ctx pwctx f h = Ret (tt, h') -> write_ctx pwctx f (with_guest g h) = Ret (tt, with_guest g h').
Proof.
  unfold write_ctx, write. simpl. case_match; [|done]. by intros [= <-].
Qed.

Lemma at_rest_guest pwexec h g : at_rest pwexec h -> at_rest pwexec (with_guest g h).
Proof. done. Qed.

(** The loop stops after the filter that pauses; the next one is only looked at. *)
Lemma loop_pause n pwctx step j rc h h' c' ph :
  pauses pwctx step j h h' -> h_ctxs h' !! pwctx = Some c' ->
  n = (pw_nfilters c' - j)%nat -> length (pw_pwexecs c') = pw_nfilters c' ->
  pw_phase c' = Some ph -> pausable ph = true -> step <> STEP_DONE ->
  (forall next, pw_pwexecs c' !! S j = Some next -> at_rest next h') ->
  exists g, resume_loop n pwctx step j rc h = Ret (NGX_AGAIN, with_guest g h').
Proof.
  intros P Hc' Hn Hlen Hph Hpa Hd Hnext. pose proof P as (h2 & pwexec & c2 & e2 & R & Hw).
  destruct (rn_turn _ _ _ _ _ _ _ _ _ R) as (c & e & T).
  pose proof (tn_ready _ _ _ _ _ _ _ T) as [Hc0 _ Hidx _ _ _ _].
  destruct (pauses_state _ _ _ _ _ _ P Hc0)
    as (c'' & Hc'' & Ha' & Hn' & _ & Hs' & Hph' & Hlt & _).
  rewrite Hc' in Hc''. injection Hc'' as <-.
  assert (exists m, n = S m) as [m Hm] by (exists (pw_nfilters c' - S j)%nat; lia).
  rewrite Hm, (loop_body _ _ _ _ _ _ _ _ _ _ _ R).
  pose proof R as [_ _ Hc2 _ Ha2].
  destruct (ran_state _ _ _ _ _ _ _ _ _ _ _ T R) as (c1 & Hsame & E2 & Ha1 & _ & _).
  destruct (advance_same step c1) as (An & _ & Aph & As & _ & _). rewrite <- E2 in An, Aph, As.
  pose proof Hsame as (Sn & _ & _ & _ & Sph & Ss & _ & Sx & _).
  pose proof (rd_step _ _ _ _ _ (tn_ready _ _ _ _ _ _ _ T)) as Hs0.
  destruct (action2rc_pause pwctx pwexec h2 c2 ph Hc2 Ha2) as [g Hg];
    [congruence|done|congruence|by eapply ran_at_rest|].
  mstep Hg.
  change (bool_decide (NGX_AGAIN = NGX_OK) || bool_decide (NGX_AGAIN = NGX_AGAIN)) with true.
  cbn match. mstep (read_ctx_Ret (with_guest g h2) pwctx c2 Hc2).
  assert (Hle : (pw_exec_index c2 <=? pw_nfilters c2)%nat = true).
  { apply Nat.leb_le. rewrite E2. unfold advance. case_match; simpl; lia. }
  rewrite Hle. mstep (assert_Ret debug true (with_guest g h2) eq_refl).
  mstep (with_guest_write_ctx _ _ _ _ g Hw).
  destruct m as [|m]; [exists g; done|].
  destruct (lookup_lt_is_Some_2 (pw_pwexecs c') (S j)) as [next Hnx]; [lia|].
  destruct (Hnext next Hnx) as (en & ictx & Hen & Henc & Henr & Hrest).
  destruct (action2rc_pause pwctx next (with_guest g h') c' ph Hc' Ha' Hph Hpa) as [g' Hg'];
    [congruence|exists en, ictx; done|].
  exists g'. simpl resume_loop. mstep (read_ctx_Ret (with_guest g h') pwctx c' Hc').
  rewrite Hnx. mstep (lift_Ret (with_guest g h') next).
  mstep (read_exec_Ret (with_guest g h') next en Hen). rewrite Henr.
  mstep (assert_Ret debug true (with_guest g h') eq_refl). mstep Hg'. done.
Qed.

(** ** Resuming *)

Lemma resume_enter_Ret pwctx step h h0 c0 :
  resume_enter pwctx step h = Ret (tt, h0) -> h_ctxs h0 !! pwctx = Some c0 ->
  step_due step c0 = true -> step <> STEP_DONE -> length (pw_pwexecs c0) = pw_nfilters c0 ->
  ngx_proxy_wasm_resume pwctx step h =
    resume_loop (pw_nfilters c0 - pw_exec_index c0) pwctx step (pw_exec_index c0) NGX_OK h0.
Proof.
  intros He Hc Hdue Hd Hlen. unfold ngx_proxy_wasm_resume. mstep He.
  mstep (read_ctx_Ret _ _ _ Hc). rewrite Hdue.
  unfold mbind, M_bind. rewrite Hlen, Nat.eqb_refl. rewrite (assert_Ret debug true h0 eq_refl).
  destruct (resume_loop _ _ _ _ _ _) as [[rc h']|]; [|done].
  by rewrite bool_decide_false by done.
Qed.

(** Where a resumed chain is: its control at entry and the filters run so far. *)
Record resumed (pwctx : addr) (step : ngx_proxy_wasm_step_e) (h h0 : heap G)
    (c0 : ngx_proxy_wasm_ctx_t) (j : nat) (h1 : heap G) : Prop := {
  rs_enter : resume_enter pwctx step h = Ret (tt, h0);
  rs_ctx : h_ctxs h0 !! pwctx = Some c0;
  rs_due : step_due step c0 = true;
  rs_step : step <> STEP_DONE;
  rs_len : length (pw_pwexecs c0) = pw_nfilters c0;
  rs_pass : pass pwctx step (pw_exec_index c0) h0 j h1;
}.

Lemma resumed_loop pwctx step h h0 c0 j h1 :
  resumed pwctx step h h0 c0 j h1 -> (j <= pw_nfilters c0)%nat ->
  exists rc, ((pw_exec_index c0 < j)%nat -> rc = NGX_OK) /\
    ngx_proxy_wasm_resume pwctx step h = resume_loop (pw_nfilters c0 - j) pwctx step j rc h1.
Proof.
  intros [He Hc Hdue Hd Hlen Hp] Hj. rewrite (resume_enter_Ret _ _ _ _ _ He Hc Hdue Hd Hlen).
  destruct (loop_pass (pw_nfilters c0 - j) _ _ _ _ _ _ NGX_OK Hp) as (rc & _ & Hlt & HL).
  pose proof (pass_le _ _ _ _ _ _ Hp).
  replace (pw_nfilters c0 - pw_exec_index c0)%nat
    with (pw_nfilters c0 - j + (j - pw_exec_index c0))%nat by lia. eauto.
Qed.

(** C1. A step whose filters all let it continue runs each of them exactly once, in
    order, from the filter the chain is at to the last one; the step is then
    recorded as completed and the chain is back at its first filter. *)
Theorem resume_runs_all pwctx step h h0 c0 h' :
  resumed pwctx step h h0 c0 (pw_nfilters c0) h' ->
  (pw_exec_index c0 < pw_nfilters c0)%nat ->
  ngx_proxy_wasm_resume pwctx step h = Ret (NGX_OK, h') /\
  exists c', h_ctxs h' !! pwctx = Some c' /\ pw_action c' = ACTION_CONTINUE /\
    pw_exec_index c' = 0%nat /\ pw_last_completed_step c' = step.
Proof.
  intros R Hk. destruct (resumed_loop _ _ _ _ _ _ _ R) as (rc & Hrc & ->); [lia|].
  rewrite Nat.sub_diag, (Hrc Hk). split; [done|].
  destruct (pass_state _ _ _ _ _ _ _ (rs_pass _ _ _ _ _ _ _ R) (rs_ctx _ _ _ _ _ _ _ R))
    as (c' & Hc' & _ & _ & _ & Ha & Hend & _); [done|].
  exists c'. destruct (Ha Hk), (Hend Hk eq_refl). done.
Qed.

(** C2. A filter that pauses the chain in a phase that can be suspended ends the run
    with [NGX_AGAIN]: the filters before it ran, those after it did not, and the
    chain is left at the next filter (or the step completed, if there is none); for
    a response body it is left at the same filter, which is entered again. *)
Theorem resume_pauses pwctx step h h0 c0 j h1 h' c' ph :
  resumed pwctx step h h0 c0 j h1 ->
  pauses pwctx step j h1 h' -> h_ctxs h' !! pwctx = Some c' ->
  pw_phase c' = Some ph -> pausable ph = true ->
  (forall next, pw_pwexecs c' !! S j = Some next -> at_rest next h') ->
  (exists g, ngx_proxy_wasm_resume pwctx step h = Ret (NGX_AGAIN, with_guest g h')) /\
  pw_action c' = ACTION_PAUSE /\
  (if bool_decide (step = STEP_RESP_BODY) then pw_exec_index c' = j
   else if (S j =? pw_nfilters c')%nat
   then pw_exec_index c' = 0%nat /\ pw_last_completed_step c' = step
   else pw_exec_index c' = S j).
Proof.
  intros R P Hc' Hph Hpa Hnext. pose proof (rs_pass _ _ _ _ _ _ _ R) as Hpass.
  assert (Hj : exists c1, h_ctxs h1 !! pwctx = Some c1 /\ (j < pw_nfilters c1)%nat /\
            length (pw_pwexecs c1) = pw_nfilters c1).
  { destruct P as (h2 & pwexec & c2 & e2 & Rn & _).
    destruct (rn_turn _ _ _ _ _ _ _ _ _ Rn) as (c & e & T).
    exists c. split; [apply (tn_ready _ _ _ _ _ _ _ T)|].
    split; [by eapply turn_lt|apply (tn_ready _ _ _ _ _ _ _ T)]. }
  destruct Hj as (c1 & Hc1 & Hlt & Hlen1).
  destruct (pauses_state _ _ _ _ _ _ P Hc1) as (c'' & Hc'' & Ha & Hn & Hp & _ & _ & _ & Hend).
  rewrite Hc' in Hc''. injection Hc'' as <-.
  assert (Hn0 : pw_nfilters c0 = pw_nfilters c1).
  { destruct (pass_nfilters _ _ _ _ _ _ _ Hpass (rs_ctx _ _ _ _ _ _ _ R)) as (c1' & E & <-).
    rewrite Hc1 in E. by injection E as <-. }
  destruct (resumed_loop _ _ _ _ _ _ _ R) as (rc & _ & ->); [lia|].
  split; [|split; [done|]].
  - eapply loop_pause; try done; [lia|congruence|by apply R].
  - rewrite Hn. repeat case_match; tauto.
Qed.

(** ** Errors *)

(** Filter [j] failed the step. *)
Record fails (pwctx : addr) (step : ngx_proxy_wasm_step_e) (j : nat)
    (ecode : ngx_proxy_wasm_err_e) (h h' : heap G) : Prop := {
  fl_turn : exists c pwexec e h1, turn pwctx step j h c pwexec e /\
    ngx_proxy_wasm_run_step pwexec step h = Ret (ecode, h1) /\
    write_exec pwexec (set_exec_ecode ecode) h1 = Ret (tt, h');
  fl_ecode : ecode <> ERR_NONE;
}.

(** The chain is at a filter that failed. *)
Definition broken (pwctx : addr) (ecode : ngx_proxy_wasm_err_e) (h : heap G) : Prop :=
  exists c pwexec e, h_ctxs h !! pwctx = Some c /\ length (pw_pwexecs c) = pw_nfilters c /\
    pw_pwexecs c !! pw_exec_index c = Some pwexec /\ h_execs h !! pwexec = Some e /\
    (pe_root_id e =? NGX_PROXY_WASM_ROOT_CTX_ID) = false /\ pe_ecode e = ecode.

Lemma loop_fail n pwctx step j rc ecode h h' c :
  fails pwctx step j ecode h h' -> h_ctxs h !! pwctx = Some c -> n = (pw_nfilters c - j)%nat ->
  resume_loop n pwctx step j rc h = Ret (sub_ecode ecode, h') /\ broken pwctx ecode h'.
Proof.
  intros [(c' & pwexec & e & h1 & T & Hrun & Hw) Hne] Hc0 Hn.
  pose proof (turn_root _ _ _ _ _ _ _ T) as [Hr _].
  pose proof (turn_no_instance _ _ _ _ _ _ _ T) as Hni.
  pose proof (turn_lt _ _ _ _ _ _ _ T) as Hlt. pose proof Hrun as Hrun'.
  rewrite (run_step_usable _ _ _ _ _ _ _ T) in Hrun'.
  destruct T as [[Hc Hs Hidx Hlen _ _ _] Hp He Hec Ha _].
  rewrite Hc0 in Hc. injection Hc as <-.
  assert (exists m, n = S m) as [m ->] by (exists (pw_nfilters c - S j)%nat; lia).
  split.
  - simpl resume_loop.
    mstep (read_ctx_Ret _ _ _ Hc0). rewrite Hp. mstep (lift_Ret h pwexec).
    mstep (read_exec_Ret _ _ _ He). rewrite Hr. mstep (assert_Ret debug true h eq_refl).
    mstep (action2rc_continue pwctx pwexec h c e Hc0 He Hr Hec Ha).
    change (is_ok NGX_OK) with true. cbn [negb]. cbn match.
    assert (Hskip : (if bool_decide (step = STEP_DONE) then no_instance pwexec else mret false) h
                    = Ret (false, h)) by (by case_bool_decide).
    mstep Hskip. cbn match. mstep Hrun. mstep Hw.
    unfold is_err. by rewrite bool_decide_false by done.
  - pose proof (run_on_instance_frame _ _ _ _ _ _ _ _ _ Hc0 Hs Hrun') as [Fe Fc].
    destruct (Fc _ _ Hc0) as (c1 & Hc1 & (Sn & Sp & _ & _ & _ & _ & _ & Sx & _)).
    destruct (Fe _ _ He) as (e1 & He1 & (Hroot & _) & _).
    rewrite (write_exec_Ret _ _ _ _ He1) in Hw. injection Hw as <-.
    exists c1, pwexec, (set_exec_ecode ecode e1). simpl. rewrite lookup_insert_eq.
    split_and!; [done|congruence|congruence|done|by rewrite Hroot|done].
Qed.

Lemma error_rc_not_ok rc : error_rc rc = true -> is_ok rc = false.
Proof. by destruct rc. Qed.

(** A context that failed answers with the code of its error. *)
Lemma action2rc_failed pwctx pwexec h c e :
  h_ctxs h !! pwctx = Some c -> h_execs h !! pwexec = Some e ->
  (pe_root_id e =? NGX_PROXY_WASM_ROOT_CTX_ID) = false -> pe_ecode e <> ERR_NONE ->
  exists h', action2rc pwctx pwexec h = Ret (sub_ecode (pe_ecode e), h') /\
    h_guest h' = h_guest h /\ h_insts h' = h_insts h /\ h_ctxs h' = h_ctxs h.
Proof.
  intros Hc He Hr Hne. unfold action2rc.
  mstep (read_exec_Ret _ _ _ He). mstep (read_ctx_Ret _ _ _ Hc).
  rewrite Hr. mstep (assert_Ret debug true h eq_refl).
  unfold is_err at 1. rewrite bool_decide_false by done. cbn [negb]. cbn match.
  unfold action_error.
  assert (Hlast : forall h1 e1, h_execs h1 !! pwexec = Some e1 -> pe_ecode e1 = pe_ecode e ->
    (assert debug (error_rc (sub_ecode (pe_ecode e)));;
     e0 ← read_exec pwexec;
     (if bool_decide (sub_ecode (pe_ecode e) = NGX_ERROR) && negb (is_err (pe_ecode e0))
      then write_exec pwexec (set_exec_ecode ERR_UNKNOWN) else mret tt);;
     mret (sub_ecode (pe_ecode e))) h1 = Ret (sub_ecode (pe_ecode e), h1)).
  { intros h1 e1 He1 Hec1. mstep (assert_Ret debug _ h1 (sub_ecode_error (pe_ecode e))).
    mstep (read_exec_Ret _ _ _ He1).
    replace (negb (is_err (pe_ecode e1))) with false
      by (unfold is_err; rewrite bool_decide_false by congruence; done).
    by rewrite andb_false_r. }
  case_match.
  - mstep (write_exec_Ret _ _ _ (set_exec_ecode_logged true) He).
    erewrite Hlast; [eexists; split; [done|]|simpl; apply lookup_insert_eq|done].
    done.
  - mstep (mret_Ret h tt). erewrite Hlast; [by eexists|done|done].
Qed.

(** C3. A filter that fails a step ends the run with the error code of the subsystem: the filters
    before it ran, those after it did not. From then on the chain is broken: resuming it for a
    further step that is due, does not restart the response (as the first [STEP_RESP_HEADERS] of a
    response does) and is not [STEP_DONE] answers with the same code, runs no guest and leaves the
    instances as they are. *)
Theorem resume_fails pwctx step h h0 c0 j h1 ecode h' :
  resumed pwctx step h h0 c0 j h1 -> (j < pw_nfilters c0)%nat ->
  fails pwctx step j ecode h1 h' ->
  ngx_proxy_wasm_resume pwctx step h = Ret (sub_ecode ecode, h') /\
  forall step' c', h_ctxs h' !! pwctx = Some c' -> step_due step' c' = true ->
    resets_chain step' c' = false -> step' <> STEP_DONE ->
    exists h'', ngx_proxy_wasm_resume pwctx step' h' = Ret (sub_ecode ecode, h'') /\
      h_guest h'' = h_guest h' /\ h_insts h'' = h_insts h'.
Proof.
  intros R Hj F.
  destruct (pass_nfilters _ _ _ _ _ _ _ (rs_pass _ _ _ _ _ _ _ R) (rs_ctx _ _ _ _ _ _ _ R))
    as (c1 & Hc1 & Hn1).
  destruct (loop_fail (pw_nfilters c0 - j) _ _ _ (NGX_OK) _ _ _ _ F Hc1) as [_ Hb]; [by rewrite Hn1|].
  split.
  - destruct (resumed_loop _ _ _ _ _ _ _ R) as (rc & _ & ->); [lia|].
    eapply loop_fail; [done|done|by rewrite Hn1].
  - intros step' c' Hc' Hdue Hreset Hd.
    destruct Hb as (c & pwexec & e & Hc & Hlen & Hp & He & Hr & Hec).
    rewrite Hc' in Hc. injection Hc as <-.
    set (c2 := set_ctx_step step' c').
    set (h2 := with_ctxs (<[pwctx := c2]> (h_ctxs h')) h').
    assert (Hc2 : h_ctxs h2 !! pwctx = Some c2) by apply lookup_insert_eq.
    assert (Hent : resume_enter pwctx step' h' = Ret (tt, h2)).
    { unfold resume_enter. mstep (write_ctx_Ret _ _ _ (set_ctx_step step') Hc').
      fold c2 h2. mstep (read_ctx_Ret _ _ _ Hc2).
      change (resets_chain step' c2) with (resets_chain step' c'). by rewrite Hreset. }
    rewrite (resume_enter_Ret _ _ _ _ _ Hent Hc2 Hdue Hd Hlen).
    assert (Hlt : (pw_exec_index c' < pw_nfilters c')%nat)
      by (rewrite <- Hlen; by eapply lookup_lt_Some).
    destruct (action2rc_failed pwctx pwexec h2 c2 e Hc2 He Hr) as (h3 & Hact & Hg & Hi & _);
      [rewrite Hec; apply F|].
    exists h3. split; [|done]. subst c2. simpl pw_nfilters. simpl pw_exec_index.
    replace (pw_nfilters c' - pw_exec_index c')%nat
      with (S (pw_nfilters c' - S (pw_exec_index c'))) by lia.
    simpl resume_loop. mstep (read_ctx_Ret _ _ _ Hc2). simpl pw_pwexecs. rewrite Hp.
    mstep (lift_Ret h2 pwexec). mstep (read_exec_Ret h2 pwexec e He). rewrite Hr.
    mstep (assert_Ret debug true h2 eq_refl). mstep Hact.
    rewrite Hec. rewrite error_rc_not_ok by apply sub_ecode_error. done.
Qed.

(** A step that the chain already completed (or an earlier one) is not run
    again: nothing but the current step changes. *)
Lemma resume_completed pwctx step h c :
  h_ctxs h !! pwctx = Some c -> step <> STEP_DONE -> step_due step c = false ->
  ngx_proxy_wasm_resume pwctx step h =
    Ret (NGX_OK, with_ctxs (<[pwctx := set_ctx_step step c]> (h_ctxs h)) h).
Proof.
  intros Hc Hd Hdue. unfold ngx_proxy_wasm_resume, resume_enter.
  set (h1 := with_ctxs (<[pwctx := set_ctx_step step c]> (h_ctxs h)) h).
  assert (Hc1 : h_ctxs h1 !! pwctx = Some (set_ctx_step step c)) by apply lookup_insert_eq.
  assert (Hent : (write_ctx pwctx (set_ctx_step step);;
    c ← read_ctx pwctx;
    if resets_chain step c then ngx_proxy_wasm_ctx_reset_chain pwctx else mret tt) h = Ret (tt, h1)).
  { mstep (write_ctx_Ret _ _ _ (set_ctx_step step) Hc). fold h1.
    mstep (read_ctx_Ret _ _ _ Hc1). by destruct step. }
  mstep Hent. mstep (read_ctx_Ret _ _ _ Hc1).
  change (step_due step (set_ctx_step step c)) with (step_due step c). rewrite Hdue.
  mstep (mret_Ret h1 NGX_OK). rewrite bool_decide_false by done. done.
Qed.

(** ** A local response *)

(** C4. A filter that produces a response of its own (the action [DONE]) ends the run
    with [NGX_DONE]: the filters before it ran, those after it did not, the step is
    not recorded as completed, and the next action is [CONTINUE] again. *)
Theorem resume_local_response pwctx step h h0 c0 j h1 h2 pwexec c2 e2 :
  resumed pwctx step h h0 c0 j h1 -> (j < pw_nfilters c0)%nat ->
  ran pwctx step j ACTION_DONE h1 h2 pwexec c2 e2 ->
  pw_exec_index c2 = S j /\
  ngx_proxy_wasm_resume pwctx step h =
    Ret (NGX_DONE, with_ctxs (<[pwctx := set_ctx_action ACTION_CONTINUE c2]> (h_ctxs h2)) h2) /\
  (forall c1, h_ctxs h1 !! pwctx = Some c1 ->
     pw_last_completed_step c2 = pw_last_completed_step c1).
Proof.
  intros R Hj Rn. destruct (rn_turn _ _ _ _ _ _ _ _ _ Rn) as (c & e & T).
  destruct (ran_state _ _ _ _ _ _ _ _ _ _ _ T Rn) as (c1 & Hsame & E2 & Ha1 & Hec & Hr).
  destruct Hsame as (Sn & Sp & _ & _ & _ & Ss & Sl & Sx & _).
  pose proof (tn_ready _ _ _ _ _ _ _ T) as [Hc Hs Hx _ _ _ _].
  split; [|split].
  - rewrite E2. unfold advance. rewrite Ha1. simpl. congruence.
  - destruct (resumed_loop _ _ _ _ _ _ _ R) as (rc & _ & ->); [lia|].
    replace (pw_nfilters c0 - j)%nat with (S (pw_nfilters c0 - S j)) by lia.
    rewrite (loop_body _ _ _ _ _ _ _ _ _ _ _ Rn). destruct Rn as [_ _ Hc2 He2 Ha2].
    assert (Hact : action2rc pwctx pwexec h2 = Ret (NGX_DONE,
      with_ctxs (<[pwctx := set_ctx_action ACTION_CONTINUE c2]> (h_ctxs h2)) h2)).
    { unfold action2rc. mstep (read_exec_Ret _ _ _ He2). mstep (read_ctx_Ret _ _ _ Hc2).
      rewrite Hr. mstep (assert_Ret debug true h2 eq_refl).
      unfold is_err. rewrite bool_decide_true by done. cbn [negb]. cbn match.
      rewrite bool_decide_false.
      2:{ rewrite E2. destruct (advance_same step c1) as (_ & _ & _ & -> & _ & _).
          rewrite Ss, Hs. apply R. }
      rewrite Ha2, Z.eqb_refl. unfold ngx_proxy_wasm_ctx_set_next_action.
      assert (Hset : (assert debug ((ACTION_CONTINUE <=? ACTION_CONTINUE)
          && (ACTION_CONTINUE <=? ACTION_CLOSE));;
        write_ctx pwctx (set_ctx_action ACTION_CONTINUE)) h2 =
        Ret (tt, with_ctxs (<[pwctx := set_ctx_action ACTION_CONTINUE c2]> (h_ctxs h2)) h2)).
      { mstep (assert_Ret debug ((ACTION_CONTINUE <=? ACTION_CONTINUE)
          && (ACTION_CONTINUE <=? ACTION_CLOSE)) h2 eq_refl). by apply write_ctx_Ret. }
      mstep Hset. done. }
    mstep Hact. done.
  - intros c1' Hc1'. rewrite Hc in Hc1'. injection Hc1' as <-. rewrite E2.
    destruct (advance_same step c1) as (_ & _ & _ & _ & -> & _). done.
Qed.

(** ** Finalizing *)

(** The chain of the context stays the same. *)
Definition chain_frame (h h' : heap G) : Prop :=
  forall p c, h_ctxs h !! p = Some c ->
    exists c', h_ctxs h' !! p = Some c' /\ pw_pwexecs c' = pw_pwexecs c.

#[local] Instance chain_frame_preorder : PreOrder chain_frame.
Proof.
  split; [intros h p c Hc; by exists c|].
  intros h1 h2 h3 K1 K2 p c (c2 & Hc2 & Hs2)%K1. destruct (K2 _ _ Hc2) as (c3 & Hc3 & Hs3).
  exists c3. split; [done|congruence].
Qed.

Lemma keeps_chain_of_ctx {A} (m : M G A) : keeps ctx_frame m -> keeps chain_frame m.
Proof.
  intros Hm. eapply keeps_weaken; [|exact Hm]. intros h h' F p c Hc.
  destruct (F _ _ Hc) as (c' & Hc' & Hs). exists c'. split; [done|apply Hs].
Qed.

Lemma keeps_chain_of_frame {A} (m : M G A) :
  keeps (frame (fun _ => True)) m -> keeps chain_frame m.
Proof. intros Hm. by apply keeps_chain_of_ctx, keeps_ctx_of_frame. Qed.

Lemma keeps_chain_write_exec a f : keeps chain_frame (write_exec a f).
Proof. apply keeps_chain_of_ctx, keeps_ctx_write_exec. Qed.

Lemma keeps_chain_write_ctx a f :
  (forall c, pw_pwexecs (f c) = pw_pwexecs c) -> keeps chain_frame (write_ctx a f).
Proof.
  intros Hf h u h' E. unfold write_ctx, write in E. case_match eqn:Ea; [|done].
  injection E as _ <-. intros p c Hc. simpl. destruct (decide (a = p)) as [<-|Hne].
  - rewrite lookup_insert_eq. eexists. split; [done|]. rewrite Hf. congruence.
  - rewrite lookup_insert_ne by done. by exists c.
Qed.

Lemma keeps_chain_create filter p id e :
  keeps chain_frame (ngx_proxy_wasm_create_context debug filter p id (Some e)).
Proof. apply keeps_chain_of_ctx, keeps_ctx_create. Qed.

Lemma keeps_chain_call_step pwctx pwexec step action :
  keeps chain_frame (call_step pwctx pwexec step action).
Proof. apply keeps_chain_of_frame, keeps_call_step. Qed.

Hint Resolve chain_frame_preorder keeps_chain_write_exec keeps_chain_create
  keeps_chain_call_step : keeps.
Hint Extern 3 (keeps chain_frame (write_ctx _ _)) => apply keeps_chain_write_ctx; intros;
  first [done | unfold advance, complete_step; by repeat case_match] : keeps.
Hint Extern 3 (keeps chain_frame (write_inst _ _)) =>
  apply keeps_chain_of_frame, keeps_write_inst : keeps.
Hint Extern 3 (keeps chain_frame (guest _)) =>
  apply keeps_chain_of_frame, keeps_guest : keeps.

Lemma keeps_chain_run_step pwexec step : keeps chain_frame (ngx_proxy_wasm_run_step pwexec step).
Proof.
  unfold ngx_proxy_wasm_run_step, run_on_instance, no_instance, finish_step,
    ngx_proxy_wasm_instance_update, ngx_proxy_wasm_ctx_set_next_action.
  keeps_tac.
Qed.

Lemma keeps_chain_action2rc pwctx pwexec : keeps chain_frame (action2rc pwctx pwexec).
Proof.
  unfold action2rc, action_error, action_pause, ngx_proxy_wasm_pwexec2instance,
    ngx_proxy_wasm_ctx_set_next_action, action_error.
  keeps_tac.
Qed.

Hint Resolve keeps_chain_run_step keeps_chain_action2rc : keeps.

Lemma keeps_chain_loop n pwctx step i rc : keeps chain_frame (resume_loop n pwctx step i rc).
Proof. revert i rc. induction n; intros i rc; simpl; unfold no_instance; keeps_tac. Qed.

Hint Resolve keeps_chain_loop : keeps.

Lemma free_execs_Ret es (h : heap G) :
  exists h', free_execs es h = Ret (tt, h') /\ h_ctxs h' = h_ctxs h /\
    forall a, h_execs h' !! a = if decide (a ∈ es) then None else h_execs h !! a.
Proof.
  revert h. induction es as [|e es IH]; intros h.
  - exists h. split_and!; [done|done|]. intros a. by rewrite decide_False by set_solver.
  - destruct (IH (with_execs (delete e (h_execs h)) h)) as (h' & E & Hc & Hl).
    exists h'. split_and!; [exact E|exact Hc|]. intros a. rewrite Hl. simpl.
    destruct (decide (a = e)) as [->|Hne].
    + rewrite (decide_True (P := e ∈ e :: es)) by set_solver.
      case_decide; [done|apply lookup_delete_eq].
    + rewrite lookup_delete_ne by done. repeat case_decide; set_solver.
Qed.

Lemma free_execs_inv es (h : heap G) h' :
  free_execs es h = Ret (tt, h') -> forall a, a ∈ es -> h_execs h' !! a = None.
Proof.
  intros E a Ha. destruct (free_execs_Ret es h) as (h'' & E' & _ & Hl).
  rewrite E in E'. injection E' as <-. rewrite Hl. by rewrite decide_True.
Qed.

(** C9. The step [DONE] is the end of a stream, whatever happens in its chain: when
    it is over, neither the stream context nor any of its execution contexts is
    left. *)
Theorem resume_done_destroys pwctx h c rc h' :
  h_ctxs h !! pwctx = Some c ->
  ngx_proxy_wasm_resume pwctx STEP_DONE h = Ret (rc, h') ->
  h_ctxs h' !! pwctx = None /\ forall a, a ∈ pw_pwexecs c -> h_execs h' !! a = None.
Proof.
  intros Hc E. unfold ngx_proxy_wasm_resume, resume_enter in E.
  apply bind_Ret_inv in E as (u & h1 & E1 & E). apply bind_Ret_inv in E as (c1 & h2 & E2 & E).
  apply bind_Ret_inv in E as (rc1 & h3 & E3 & E). apply bind_Ret_inv in E as (u2 & h4 & E4 & E).
  injection E as -> ->. change (bool_decide (STEP_DONE = STEP_DONE)) with true in E4.
  assert (F : chain_frame h h3).
  { transitivity h1; [|transitivity h2].
    - revert E1. unfold ngx_proxy_wasm_ctx_reset_chain.
      match goal with |- ?m h = _ -> _ => assert (K : keeps chain_frame m) by keeps_tac end.
      apply K.
    - by apply (keeps_read_ctx chain_frame) in E2.
    - revert E3.
      match goal with |- ?m h2 = _ -> _ => assert (K : keeps chain_frame m) by keeps_tac end.
      apply K. }
  destruct (F _ _ Hc) as (c3 & Hc3 & Hp3).
  unfold ngx_proxy_wasm_ctx_destroy in E4. minv E4. rewrite Hc3 in E0. injection E0 as <-.
  apply bind_Ret_inv in E4 as (u4 & h5 & E5 & E4).
  apply bind_Ret_inv in E4 as (u5 & h6 & E6 & E4).
  apply bind_Ret_inv in E4 as ([] & h7 & E7 & E4). injection E4 as _ <-. simpl.
  split; [apply lookup_delete_eq|]. intros a Ha.
  eapply free_execs_inv; [exact E7|]. by rewrite Hp3.
Qed.

End chain.
End FilterChain.

(** ** Concrete chains

    Guests that follow a script: the context of each identifier returns an action,
    or traps. *)
Module Scripted.
Import ProxyWasm Instances Frame FilterChain.

Record script := { sc_trace : list (Z * bytes); sc_actions : list (Z * Z) }.

Definition TRAP : Z := 100.

Definition scripted_action (s : script) (id : Z) : Z :=
  match list_find (fun e => e.1 = id) (sc_actions s) with
  | Some (_, (_, a)) => a
  | None => ACTION_CONTINUE
  end.

#[export] Instance scripted_wavm : Wavm script := {
  wrt_call s i name args action :=
    let id := default 0 (head args) in
    let a := scripted_action s id in
    {| cr_guest := {| sc_trace := sc_trace s ++ [(id, name)]; sc_actions := sc_actions s |};
       cr_rc := if a =? TRAP then NGX_ABORT else NGX_OK;
       cr_ret := a; cr_action := if a =? ACTION_DONE then a else action; cr_tick := None |};
  ngx_wavm_instance_create s _ _ := (true, s);
  ngx_wavm_instance_destroy s _ := s;
  ngx_palloc s := (true, s);
  wasm_acl_init s := (true, s);
}.

#[export] Instance scripted_laws : WavmLaws script.
Proof. split. intros g i n args a. cbv zeta. simpl. destruct (_ =? TRAP); auto. Qed.

#[export] Instance scripted_subsystem : Subsystem script := {
  sub_resume pwexec step action :=
    (e ← read_exec pwexec;
     f ← read_filter (pe_filter e);
     ictx ← ngx_proxy_wasm_pwexec2instance pwexec;
     '(rc, v) ← ngx_wavm_instance_call_funcref false ictx f proxy_on_http_request_headers [pe_id e];
     mret (rc, if is_ok rc && negb (v =? ACTION_DONE) then v else action));
  sub_ecode _ := NGX_STATUS 500;
  resp_buffering s := s;
}.

#[export] Instance scripted_subsystem_laws : SubsystemLaws.
Proof.
  split; [|done]. intros pwexec step action. unfold sub_resume. simpl. keeps_tac.
Qed.

#[export] Existing Instance NginxCore.Reference.spine_rbtree.

(** Three filters on one instance, and their stream. *)
Definition filter1 : ngx_proxy_wasm_filter_t :=
  {| f_id := 7; f_module := 1; f_module_config_len := 0; f_config_len := 0; f_acl_ctx := false;
     f_store := 1%positive; f_ecode := ERR_NONE; f_abi_version := ABI_0_2_1;
     f_funcs := [(proxy_on_http_request_headers, Some (ngx_string "proxy_on_request_headers"))];
     f_loaded := true; f_started := true |}.

Definition exec1 (id : Z) : ngx_proxy_wasm_exec_t :=
  {| pe_root_id := 7; pe_id := id; pe_index := id - 1; pe_tick_period := 0; pe_node_key := 0;
     pe_ecode := ERR_NONE; pe_log := true; pe_parent := Some 1%positive;
     pe_filter := 1%positive; pe_ictx := Some 1%positive; pe_store := Some 1%positive;
     pe_started := true; pe_in_tick := false; pe_ecode_logged := false |}.

Definition ctx1 (phase : ngx_phase) : ngx_proxy_wasm_ctx_t :=
  {| pw_nfilters := 3; pw_pwexecs := [1; 2; 3]%positive; pw_isolation := ISOLATION_NONE;
     pw_store := None; pw_rexec := None; pw_phase := Some phase; pw_action := ACTION_CONTINUE;
     pw_step := STEP_UNSET; pw_last_completed_step := STEP_UNSET; pw_exec_index := 0;
     pw_init := true; pw_ready := true |}.

Definition inst1 : ngx_proxy_wasm_instance_t :=
  {| is_tree_ctxs := Sentinel; is_root_ctxs := Sentinel; is_module := 1;
     is_store := 1%positive; is_trapped := false; is_pwexec := None |}.

Definition heap1 (phase : ngx_phase) (actions : list (Z * Z)) : heap script :=
  {| h_execs := <[1%positive := exec1 1]> (<[2%positive := exec1 2]> {[3%positive := exec1 3]});
     h_ctxs := {[1%positive := ctx1 phase]};
     h_insts := {[1%positive := inst1]};
     h_stores := {[1%positive := {| st_busy := [1%positive]; st_free := []; st_sweep := [] |}]};
     h_filters := {[1%positive := filter1]};
     h_guest := {| sc_trace := []; sc_actions := actions |} |}.

(** The heap a computation ends in. *)
Definition after {A} (m : M script A) (h : heap script) : heap script :=
  match m h with Ret (_, h') => h' | Fault _ => h end.

Definition trace (h : heap script) : list Z := (sc_trace (h_guest h)).*1.

(** A chain of three in each of its outcomes: which contexts ran. *)
Example chain_all :
  let m := ngx_proxy_wasm_resume false false 1%positive STEP_REQ_HEADERS in
  m (heap1 NGX_HTTP_REWRITE_PHASE []) = Ret (NGX_OK, after m (heap1 NGX_HTTP_REWRITE_PHASE [])) /\
  trace (after m (heap1 NGX_HTTP_REWRITE_PHASE [])) = [1; 2; 3].
Proof. vm_compute. done. Qed.

(** The objects of a heap, and the heaps of the loop. *)
Definition ctx_at (h : heap script) : ngx_proxy_wasm_ctx_t :=
  default zero_ctx (h_ctxs h !! 1%positive).
Definition exec_at (a : addr) (h : heap script) : ngx_proxy_wasm_exec_t :=
  default (zero_exec a) (h_execs h !! a).
Definition ran_heap (a : addr) (step : ngx_proxy_wasm_step_e) (h : heap script) : heap script :=
  after (settle 1%positive a step ERR_NONE) (after (ngx_proxy_wasm_run_step false false a step) h).
Definition next_heap (a : addr) (step : ngx_proxy_wasm_step_e) (h : heap script) : heap script :=
  after (write_ctx 1%positive complete_step) (ran_heap a step h).

Ltac compute_fact := vm_compute; first [reflexivity | discriminate | by eexists].

Ltac solve_turn a h :=
  exists (ctx_at h), (exec_at a h); split;
  [ split;
    [ compute_fact | compute_fact | compute_fact | compute_fact
    | apply (bool_decide_unpack _); vm_compute; done
    | compute_fact
    | vm_compute; repeat (apply Forall_cons; split;
        [eexists; split; [reflexivity | split; [discriminate | reflexivity]]|]); constructor ]
  | compute_fact | compute_fact | compute_fact | compute_fact
  | exists 1%positive, (default inst1 (h_insts h !! 1%positive));
    split; [compute_fact | split; compute_fact] ].

(** Filter [a] runs from heap [h] and leaves the expected action. *)
Ltac solve_ran a step h :=
  split;
  [ solve_turn a h
  | exists (after (ngx_proxy_wasm_run_step false false a step) h); split; compute_fact
  | compute_fact | compute_fact | compute_fact ].

Ltac solve_continues a step h :=
  exists (ran_heap a step h), a, (ctx_at (ran_heap a step h)), (exec_at a (ran_heap a step h));
  split; [solve_ran a step h | compute_fact].

Definition entered (step : ngx_proxy_wasm_step_e) (h : heap script) : heap script :=
  after (resume_enter 1%positive step) h.

Lemma resume_runs_all_witness :
  let h := heap1 NGX_HTTP_REWRITE_PHASE [] in
  exists h', ngx_proxy_wasm_resume false false 1%positive STEP_REQ_HEADERS h = Ret (NGX_OK, h') /\
    trace h' = [1; 2; 3].
Proof.
  intros h. set (h0 := entered STEP_REQ_HEADERS h).
  set (h1 := next_heap 1 STEP_REQ_HEADERS h0). set (h2 := next_heap 2 STEP_REQ_HEADERS h1).
  set (h3 := next_heap 3 STEP_REQ_HEADERS h2).
  exists h3. split; [|vm_compute; reflexivity].
  refine (proj1 (resume_runs_all false false 1%positive STEP_REQ_HEADERS h h0 (ctx_at h0) h3 _ _)).
  - split; [compute_fact|compute_fact|compute_fact|discriminate|compute_fact|].
    refine (pass_filter false false 1%positive STEP_REQ_HEADERS 0 h0 h1 3 h3 _ _); [solve_continues 1%positive STEP_REQ_HEADERS h0|].
    refine (pass_filter false false 1%positive STEP_REQ_HEADERS 1 h1 h2 3 h3 _ _); [solve_continues 2%positive STEP_REQ_HEADERS h1|].
    refine (pass_filter false false 1%positive STEP_REQ_HEADERS 2 h2 h3 3 h3 _ _); [solve_continues 3%positive STEP_REQ_HEADERS h2|].
    apply pass_here.
  - vm_compute. lia.
Defined.

Ltac solve_resumed := split; [compute_fact|compute_fact|compute_fact|discriminate|compute_fact|].

(** The chain of three, up to its second filter. *)
Ltac solve_first h0 h1 :=
  refine (pass_filter false false 1%positive STEP_REQ_HEADERS 0 h0 h1 1 h1 _ _);
  [solve_continues 1%positive STEP_REQ_HEADERS h0 | apply pass_here].

Lemma ctx_at_guest g h : ctx_at (with_guest g h) = ctx_at h.
Proof. done. Qed.

Lemma resume_pauses_witness :
  let h := heap1 NGX_HTTP_REWRITE_PHASE [(2, ACTION_PAUSE)] in
  exists h', ngx_proxy_wasm_resume false false 1%positive STEP_REQ_HEADERS h = Ret (NGX_AGAIN, h') /\
    pw_exec_index (ctx_at h') = 2%nat.
Proof.
  intros h. set (h0 := entered STEP_REQ_HEADERS h).
  set (h1 := next_heap 1 STEP_REQ_HEADERS h0). set (h2 := next_heap 2 STEP_REQ_HEADERS h1).
  destruct (resume_pauses false false 1%positive STEP_REQ_HEADERS h h0 (ctx_at h0) 1 h1 h2
    (ctx_at h2) NGX_HTTP_REWRITE_PHASE) as [[g Hg] _].
  - solve_resumed. solve_first h0 h1.
  - solve_continues 2%positive STEP_REQ_HEADERS h1.
  - compute_fact.
  - compute_fact.
  - compute_fact.
  - intros next. vm_compute. intros [= <-]. eexists _, _. split_and!; try reflexivity. by eexists.
  - exists (with_guest g h2). split; [exact Hg|].
    rewrite ctx_at_guest. compute_fact.
Defined.

Lemma resume_fails_witness :
  let h := heap1 NGX_HTTP_REWRITE_PHASE [(2, TRAP)] in
  exists h', ngx_proxy_wasm_resume false false 1%positive STEP_REQ_HEADERS h
      = Ret (NGX_STATUS 500, h') /\ trace h' = [1; 2] /\
    exists h'', ngx_proxy_wasm_resume false false 1%positive STEP_REQ_BODY h'
      = Ret (NGX_STATUS 500, h'') /\ trace h'' = [1; 2].
Proof.
  intros h. set (h0 := entered STEP_REQ_HEADERS h).
  set (h1 := next_heap 1 STEP_REQ_HEADERS h0).
  set (hr := after (ngx_proxy_wasm_run_step false false 2%positive STEP_REQ_HEADERS) h1).
  set (h2 := after (write_exec 2%positive (set_exec_ecode ERR_INSTANCE_TRAPPED)) hr).
  destruct (resume_fails false false 1%positive STEP_REQ_HEADERS h h0 (ctx_at h0) 1 h1
    ERR_INSTANCE_TRAPPED h2) as [Hr Hs].
  - solve_resumed. solve_first h0 h1.
  - vm_compute. lia.
  - split; [|discriminate]. exists (ctx_at h1), 2%positive, (exec_at 2 h1), hr.
    split; [|split; compute_fact].
    assert (T : exists c e, turn 1%positive STEP_REQ_HEADERS 1 h1 c 2%positive e)
      by solve_turn 2%positive h1.
    destruct T as (c & e & T). pose proof T as [[Hc _ _ _ _ _ _] _ He _ _ _].
    unfold ctx_at, exec_at. rewrite Hc, He. exact T.
  - exists h2. split; [exact Hr|]. split; [vm_compute; reflexivity|].
    destruct (Hs STEP_REQ_BODY (ctx_at h2)) as (h'' & Hb & Hg & _);
      [compute_fact|compute_fact|compute_fact|discriminate|].
    exists h''. split; [exact Hb|]. unfold trace. rewrite Hg. vm_compute. reflexivity.
Defined.

Lemma resume_local_response_witness :
  let h := heap1 NGX_HTTP_REWRITE_PHASE [(2, ACTION_DONE)] in
  exists h', ngx_proxy_wasm_resume false false 1%positive STEP_REQ_HEADERS h = Ret (NGX_DONE, h') /\
    trace h' = [1; 2].
Proof.
  intros h. set (h0 := entered STEP_REQ_HEADERS h).
  set (h1 := next_heap 1 STEP_REQ_HEADERS h0). set (h2 := ran_heap 2 STEP_REQ_HEADERS h1).
  destruct (resume_local_response false false 1%positive STEP_REQ_HEADERS h h0 (ctx_at h0) 1 h1
    h2 2%positive (ctx_at h2) (exec_at 2 h2)) as (_ & Hr & _).
  - solve_resumed. solve_first h0 h1.
  - vm_compute. lia.
  - solve_ran 2%positive STEP_REQ_HEADERS h1.
  - eexists. split; [exact Hr|]. vm_compute. reflexivity.
Defined.

(** After a completed step. *)
Definition completed_heap : heap script :=
  after (ngx_proxy_wasm_resume false false 1%positive STEP_REQ_HEADERS)
    (heap1 NGX_HTTP_REWRITE_PHASE []).

Example completed_not_run_again :
  exists h', ngx_proxy_wasm_resume false false 1%positive STEP_REQ_HEADERS completed_heap
    = Ret (NGX_OK, h').
Proof.
  eexists. apply (resume_completed false false 1%positive STEP_REQ_HEADERS completed_heap
    (ctx_at completed_heap)); [compute_fact|discriminate|compute_fact].
Defined.

(** Filters without functions for the end of a stream; the instance of the first one
    trapped, so its step is skipped. *)
Definition trapped_heap : heap script :=
  after (write_inst 1%positive (set_instance_trapped true)) (heap1 NGX_HTTP_LOG_PHASE []).

Lemma resume_done_destroys_witness :
  exists h', ngx_proxy_wasm_resume false false 1%positive STEP_DONE trapped_heap = Ret (NGX_OK, h') /\
    h_ctxs h' !! 1%positive = None.
Proof.
  set (h' := after (ngx_proxy_wasm_resume false false 1%positive STEP_DONE) trapped_heap).
  assert (E : ngx_proxy_wasm_resume false false 1%positive STEP_DONE trapped_heap = Ret (NGX_OK, h'))
    by (vm_compute; reflexivity).
  exists h'. split; [exact E|].
  exact (proj1 (resume_done_destroys false false 1%positive trapped_heap
    (ctx_at trapped_heap) NGX_OK h' ltac:(compute_fact) E)).
Defined.

(** ** What the chain does not guard against *)

(** A [PAUSE] of the last filter in the trailers phase: the error is written to the
    context at [exec_index], past the end of the array. *)
Example pause_in_trailers_past_the_end :
  ngx_proxy_wasm_resume false true 1%positive STEP_RESP_TRAILERS
    (heap1 NGX_HTTP_WASM_TRAILER_FILTER_PHASE [(3, ACTION_PAUSE)]) = Fault F_memory.
Proof. vm_compute. done. Qed.

(** When another filter pauses there, the one after it gets the error. *)
Example pause_in_trailers_blames_the_next :
  let h := after (ngx_proxy_wasm_resume false true 1%positive STEP_RESP_TRAILERS)
    (heap1 NGX_HTTP_WASM_TRAILER_FILTER_PHASE [(1, ACTION_PAUSE)]) in
  pe_ecode (exec_at 1 h) = ERR_NONE /\ pe_ecode (exec_at 2 h) = ERR_RETURN_ACTION.
Proof. vm_compute. done. Qed.

(** The second filter lost its instance (it trapped in another stream and was
    invalidated); the first one pauses in the header phase. *)
Example pause_before_lost_instance :
  ngx_proxy_wasm_resume false false 1%positive STEP_RESP_HEADERS
    (after (write_exec 2%positive (set_exec_ictx None))
       (heap1 NGX_HTTP_WASM_HEADER_FILTER_PHASE [(1, ACTION_PAUSE)])) = Fault F_memory.
Proof. vm_compute. done. Qed.

(** A debug build asserts the range of an action that comes from the guest. *)
Example unknown_action_asserts :
  ngx_proxy_wasm_resume true false 1%positive STEP_REQ_HEADERS
    (heap1 NGX_HTTP_REWRITE_PHASE [(1, 42)]) = Fault F_assert.
Proof. vm_compute. done. Qed.

End Scripted.
