(* ===== verification/HttpProxyWasm.v ===== *)
(** * Proxy-Wasm over HTTP

    src/src/http/proxy_wasm/ngx_http_proxy_wasm.c: the callbacks through which a chain
    of filters runs for an HTTP request, as an instance of the interface [Subsystem];
    with the shim headers of a response (ngx_http_wasm_headers_shims.c) and the counts
    of headers they give to the guests. *)
From S2P Require Import Prelude NginxCore Acl Chains BodyFilter Bodies.
From S2P Require Import ProxyWasm Abi Instances Frame FilterChain.
From stdpp Require Export list gmap.
#[global] Open Scope Z_scope.

Module HttpProxyWasm.
Import ProxyWasm Instances Frame FilterChain.

(** ** Data *)

(** A header; [te_hash] is 0 in a header that was removed. *)
Record ngx_table_elt_t := { te_hash : Z; te_key : bytes; te_value : bytes }.

(** The parts of an [ngx_list_t]. *)
Definition ngx_list_t : Type := list (list ngx_table_elt_t).

(** [ho_content_length]: the pointer [content_length] is set. *)
Record headers_out_t := {
  ho_status : Z;
  ho_headers : ngx_list_t;
  ho_trailers : ngx_list_t;
  ho_content_type : bytes;
  ho_content_length : bool;
  ho_content_length_n : Z;
}.

(** [ngx_http_wasm_upstream_peer_data_t], as far as the callbacks read it. *)
Record upstream_peer_t := { up_last_status : Z; up_last_peer_state : Z }.

(** [request_body->temp_file->file]: whether the descriptor is valid, the size
    [ngx_fd_info] finds ([None] when it fails) and the size known before. *)
Record temp_file_t := { tf_valid : bool; tf_fd_info : option Z; tf_info_size : Z }.

(** [pwexec->dispatch_call]: its token, and the headers and the length of the body
    when its reader is initialised. *)
Record dispatch_call_t := { dc_id : Z; dc_response : option (ngx_list_t * Z) }.

(** [pwexec->foreign_call]: the code of the function, and [start] and [last] of the
    buffer of [args_out] when it is set. *)
Record foreign_call_t := { fc_fcode : Z; fc_args_out : option (Z * Z) }.

(** The request; [Bodies.request] holds the body and [headers_in.content_length_n]. *)
Record ngx_http_request_t := {
  r_headers_in : ngx_list_t;
  r_headers_out : headers_out_t;
  r_body : Bodies.request;
  r_temp_file : option temp_file_t;
  r_upstream : option upstream_peer_t;
  r_keepalive : bool;
  r_chunked : bool;
  r_gzip_vary : bool;
  r_main : bool;
  (** of the location *)
  r_keepalive_header : Z;
  r_pwm_req_headers_in_access : bool;
}.

Inductive ngx_wasm_state_e :=
| NGX_WASM_STATE_CONTINUE
| NGX_WASM_STATE_ERROR
| NGX_WASM_STATE_YIELD.

#[export] Instance wasm_state_eq_dec : EqDecision ngx_wasm_state_e.
Proof. solve_decision. Defined.

(** The fields of the request context that [BodyFilter.ngx_http_wasm_req_ctx_t] does not
    have: [rc_data] is [rctx->data], [rc_shims] are the elements of [resp_shim_headers]. *)
Record req_ctx_t := {
  rc_data : option addr;
  rc_env_state : ngx_wasm_state_e;
  rc_shims : option (list ngx_table_elt_t);
  rc_reset_resp_shims : bool;
  rc_req_content_length_n : Z;
  rc_resp_content_length_n : Z;
  rc_req_keepalive : bool;
  rc_in_req_body_handler : bool;
  rc_req_body_waited : bool;
  rc_req_body_received : bool;
  rc_resp_content_chosen : bool;
  rc_fake_request : bool;
}.

(** The fields of the stream context only this subsystem uses. *)
Record stream_ext_t := { sx_req_body_len : Z; sx_req_headers_in_access : bool; sx_main : bool }.

(** [rctx->opctx]: the index of [last_phase], and the settings of proxy-wasm;
    [oc_next_id] is the static [next_id] of the execution contexts. *)
Record ngx_wasm_op_ctx_t := {
  oc_last_phase : option Z;
  oc_cur_idx : nat;
  oc_isolation : ngx_proxy_wasm_isolation_mode_e;
  oc_req_headers_in_access : bool;
  oc_next_id : Z;
}.

(** The state of the environment: the request, its contexts, the buffers, the calls
    that are waiting, and the rest [W]. *)
Record http_state (W : Type) := {
  hs_r : ngx_http_request_t;
  hs_rctx : BodyFilter.ngx_http_wasm_req_ctx_t;
  hs_ext : req_ctx_t;
  hs_stream : stream_ext_t;
  hs_ops : ngx_wasm_op_ctx_t;
  hs_bufs : Chains.store;
  hs_dispatch : gmap addr dispatch_call_t;
  hs_foreign : gmap addr foreign_call_t;
  hs_world : W;
}.
Arguments hs_r {W}. Arguments hs_rctx {W}. Arguments hs_ext {W}. Arguments hs_stream {W}.
Arguments hs_ops {W}. Arguments hs_bufs {W}. Arguments hs_dispatch {W}. Arguments hs_foreign {W}.
Arguments hs_world {W}.

(** ** Assignments to fields *)

Definition set_headers_in_content_length_n (n : Z) (r : ngx_http_request_t) :=
  {| r_headers_in := r_headers_in r; r_headers_out := r_headers_out r;
     r_body := {| Bodies.rq_request_body := Bodies.rq_request_body (r_body r);
                  Bodies.rq_content_length_n := n |};
     r_temp_file := r_temp_file r; r_upstream := r_upstream r; r_keepalive := r_keepalive r;
     r_chunked := r_chunked r; r_gzip_vary := r_gzip_vary r; r_main := r_main r;
     r_keepalive_header := r_keepalive_header r;
     r_pwm_req_headers_in_access := r_pwm_req_headers_in_access r |}.

Definition set_data_env (data : option addr) (state : ngx_wasm_state_e) (x : req_ctx_t) :=
  {| rc_data := data; rc_env_state := state; rc_shims := rc_shims x;
     rc_reset_resp_shims := rc_reset_resp_shims x;
     rc_req_content_length_n := rc_req_content_length_n x;
     rc_resp_content_length_n := rc_resp_content_length_n x;
     rc_req_keepalive := rc_req_keepalive x; rc_in_req_body_handler := rc_in_req_body_handler x;
     rc_req_body_waited := rc_req_body_waited x; rc_req_body_received := rc_req_body_received x;
     rc_resp_content_chosen := rc_resp_content_chosen x; rc_fake_request := rc_fake_request x |}.

Definition set_shims (shims : option (list ngx_table_elt_t)) (reset : bool) (x : req_ctx_t) :=
  {| rc_data := rc_data x; rc_env_state := rc_env_state x; rc_shims := shims;
     rc_reset_resp_shims := reset;
     rc_req_content_length_n := rc_req_content_length_n x;
     rc_resp_content_length_n := rc_resp_content_length_n x;
     rc_req_keepalive := rc_req_keepalive x; rc_in_req_body_handler := rc_in_req_body_handler x;
     rc_req_body_waited := rc_req_body_waited x; rc_req_body_received := rc_req_body_received x;
     rc_resp_content_chosen := rc_resp_content_chosen x; rc_fake_request := rc_fake_request x |}.

Definition set_lengths (req resp : Z) (x : req_ctx_t) :=
  {| rc_data := rc_data x; rc_env_state := rc_env_state x; rc_shims := rc_shims x;
     rc_reset_resp_shims := rc_reset_resp_shims x;
     rc_req_content_length_n := req; rc_resp_content_length_n := resp;
     rc_req_keepalive := rc_req_keepalive x; rc_in_req_body_handler := rc_in_req_body_handler x;
     rc_req_body_waited := rc_req_body_waited x; rc_req_body_received := rc_req_body_received x;
     rc_resp_content_chosen := rc_resp_content_chosen x; rc_fake_request := rc_fake_request x |}.

Definition set_req_body_flags (handler waited received : bool) (x : req_ctx_t) :=
  {| rc_data := rc_data x; rc_env_state := rc_env_state x; rc_shims := rc_shims x;
     rc_reset_resp_shims := rc_reset_resp_shims x;
     rc_req_content_length_n := rc_req_content_length_n x;
     rc_resp_content_length_n := rc_resp_content_length_n x;
     rc_req_keepalive := rc_req_keepalive x; rc_in_req_body_handler := handler;
     rc_req_body_waited := waited; rc_req_body_received := received;
     rc_resp_content_chosen := rc_resp_content_chosen x; rc_fake_request := rc_fake_request x |}.

Definition with_r {W} (f : ngx_http_request_t -> ngx_http_request_t) (s : http_state W) :=
  {| hs_r := f (hs_r s); hs_rctx := hs_rctx s; hs_ext := hs_ext s; hs_stream := hs_stream s;
     hs_ops := hs_ops s; hs_bufs := hs_bufs s; hs_dispatch := hs_dispatch s; hs_foreign := hs_foreign s;
     hs_world := hs_world s |}.
Definition with_rctx {W} f (s : http_state W) : http_state W :=
  {| hs_r := hs_r s; hs_rctx := f (hs_rctx s); hs_ext := hs_ext s; hs_stream := hs_stream s;
     hs_ops := hs_ops s; hs_bufs := hs_bufs s; hs_dispatch := hs_dispatch s; hs_foreign := hs_foreign s;
     hs_world := hs_world s |}.
Definition with_ext {W} f (s : http_state W) : http_state W :=
  {| hs_r := hs_r s; hs_rctx := hs_rctx s; hs_ext := f (hs_ext s); hs_stream := hs_stream s;
     hs_ops := hs_ops s; hs_bufs := hs_bufs s; hs_dispatch := hs_dispatch s; hs_foreign := hs_foreign s;
     hs_world := hs_world s |}.
Definition with_stream {W} f (s : http_state W) : http_state W :=
  {| hs_r := hs_r s; hs_rctx := hs_rctx s; hs_ext := hs_ext s; hs_stream := f (hs_stream s);
     hs_ops := hs_ops s; hs_bufs := hs_bufs s; hs_dispatch := hs_dispatch s; hs_foreign := hs_foreign s;
     hs_world := hs_world s |}.
Definition with_ops {W} f (s : http_state W) : http_state W :=
  {| hs_r := hs_r s; hs_rctx := hs_rctx s; hs_ext := hs_ext s; hs_stream := hs_stream s;
     hs_ops := f (hs_ops s); hs_bufs := hs_bufs s; hs_dispatch := hs_dispatch s;
     hs_foreign := hs_foreign s; hs_world := hs_world s |}.
Definition with_bufs {W} (b : Chains.store) (s : http_state W) : http_state W :=
  {| hs_r := hs_r s; hs_rctx := hs_rctx s; hs_ext := hs_ext s; hs_stream := hs_stream s;
     hs_ops := hs_ops s; hs_bufs := b; hs_dispatch := hs_dispatch s; hs_foreign := hs_foreign s;
     hs_world := hs_world s |}.

(** ** Counting headers *)

(** [ngx_wasm_list_nelts]: the elements that were not removed. *)
Definition ngx_wasm_list_nelts (l : ngx_list_t) : nat :=
  sum_list_with (fun part => length (filter (fun e => te_hash e <> 0) part)) l.

Definition ngx_http_wasm_req_headers_count (r : ngx_http_request_t) : Z :=
  Z.of_nat (ngx_wasm_list_nelts (r_headers_in r)).
Definition ngx_http_wasm_resp_headers_count (r : ngx_http_request_t) : Z :=
  Z.of_nat (ngx_wasm_list_nelts (ho_headers (r_headers_out r))).
Definition ngx_http_wasm_resp_trailers_count (r : ngx_http_request_t) : Z :=
  Z.of_nat (ngx_wasm_list_nelts (ho_trailers (r_headers_out r))).

(** The loop over the headers of a dispatch response: the first element of a part
    after the first one is counted without looking at the length of the part. *)
Definition dispatch_n_headers (l : ngx_list_t) : Z :=
  match l with
  | [] => 0
  | p :: parts => Z.of_nat (length p + sum_list_with (fun q => length q `max` 1)%nat parts)
  end.

Section http.
Context {W : Type} `{Wavm (http_state W)} `{Rbtree} (debug : bool).
(** [NGX_WASM_RESPONSE_TRAILERS], [NGX_HTTP_GZIP], and [ngx_sprintf] of "%O" and "%T". *)
Context (response_trailers http_gzip : bool) (sprintf_O sprintf_T : Z -> bytes).
Abbreviation M := (M (http_state W)).

Definition gets {A} (f : http_state W -> A) : M A := guest (fun g => (f g, g)).
Definition puts (f : http_state W -> http_state W) : M unit := guest (fun g => (tt, f g)).

(** ** Shim headers *)

(** A value on the pool of the request: [None] when an allocation fails. *)
Definition new_str (v : bytes) : M (option bytes) :=
  ok ← guest ngx_palloc;
  if (ok : bool) then
    ok ← guest ngx_palloc;
    mret (if (ok : bool) then Some v else None)
  else mret None.

Definition ngx_http_wasm_shim_content_type : M (option bytes) :=
  r ← gets hs_r;
  let v := ho_content_type (r_headers_out r) in
  mret (if (length v =? 0)%nat then None else Some v).

Definition ngx_http_wasm_shim_content_len : M (option bytes) :=
  r ← gets hs_r;
  let out := r_headers_out r in
  if negb (ho_content_length out) && (0 <=? ho_content_length_n out)
  then new_str (sprintf_O (ho_content_length_n out)) else mret None.

Definition ngx_http_wasm_shim_transfer_encoding : M (option bytes) :=
  r ← gets hs_r;
  let out := r_headers_out r in
  mret (if r_chunked r || (negb (ho_content_length out) && (ho_content_length_n out <? 0))
        then Some (ngx_string "chunked") else None).

Definition NGX_HTTP_SWITCHING_PROTOCOLS : Z := 101.

Definition ngx_http_wasm_shim_connection : M (option bytes) :=
  r ← gets hs_r;
  x ← gets hs_ext;
  mret (Some (if ho_status (r_headers_out r) =? NGX_HTTP_SWITCHING_PROTOCOLS
              then ngx_string "upgrade"
              else if rc_req_keepalive x || r_keepalive r then ngx_string "keep-alive"
              else ngx_string "close")).

Definition ngx_http_wasm_shim_keep_alive : M (option bytes) :=
  r ← gets hs_r;
  x ← gets hs_ext;
  if rc_req_keepalive x && negb (r_keepalive_header r =? 0)
  then new_str (ngx_string "timeout=" ++ sprintf_T (r_keepalive_header r)) else mret None.

Definition ngx_http_wasm_shim_vary : M (option bytes) :=
  r ← gets hs_r;
  mret (if http_gzip && r_gzip_vary r then Some (ngx_string "Accept-Encoding") else None).

Definition ngx_http_wasm_shim_headers : list (bytes * M (option bytes)) :=
  [(ngx_string "Content-Type", ngx_http_wasm_shim_content_type);
   (ngx_string "Content-Length", ngx_http_wasm_shim_content_len);
   (ngx_string "Transfer-Encoding", ngx_http_wasm_shim_transfer_encoding);
   (ngx_string "Connection", ngx_http_wasm_shim_connection);
   (ngx_string "Keep-Alive", ngx_http_wasm_shim_keep_alive);
   (ngx_string "Vary", ngx_http_wasm_shim_vary)].

Fixpoint get_shim (shims : list (bytes * M (option bytes))) (key : bytes) : M (option bytes) :=
  match shims with
  | [] => mret None
  | (k, handler) :: shims =>
      if bool_decide (Acl.ngx_strlow k = Acl.ngx_strlow key) then handler
      else get_shim shims key
  end.

Definition ngx_http_wasm_get_shim_header (key : bytes) : M (option bytes) :=
  get_shim ngx_http_wasm_shim_headers key.

(** The loop that fills the array; the answer is whether no allocation failed. *)
Fixpoint build_shims (shims : list (bytes * M (option bytes))) : M bool :=
  match shims with
  | [] => mret true
  | (k, handler) :: shims =>
      v ← handler;
      match v with
      | None => build_shims shims
      | Some v =>
          ok ← guest ngx_palloc;
          if negb ok then mret false
          else
            puts (with_ext (fun x =>
              set_shims (Some (default [] (rc_shims x) ++
                                 [{| te_hash := 0; te_key := k; te_value := v |}]))
                (rc_reset_resp_shims x) x));;
            ok ← guest ngx_palloc;
            if negb ok then mret false else build_shims shims
      end
  end.

Definition ngx_http_wasm_get_shim_headers : M (option (list ngx_table_elt_t)) :=
  x ← gets hs_ext;
  match rc_shims x, rc_reset_resp_shims x with
  | Some shims, false => mret (Some shims)
  | _, _ =>
      ok ← guest ngx_palloc;
      if negb ok then
        puts (with_ext (fun x => set_shims None (rc_reset_resp_shims x) x));;
        mret None
      else
        puts (with_ext (fun x => set_shims (Some []) (rc_reset_resp_shims x) x));;
        ok ← build_shims ngx_http_wasm_shim_headers;
        if negb ok then mret None
        else
          puts (with_ext (fun x => set_shims (rc_shims x) false x));;
          gets (fun s => rc_shims (hs_ext s))
  end.

Definition ngx_http_wasm_count_shim_headers : M Z :=
  shims ← ngx_http_wasm_get_shim_headers;
  mret (match shims with None => 0 | Some shims => Z.of_nat (length shims) end).

(** ** Callbacks *)

(** [if (rc == NGX_ERROR || rc == NGX_ABORT) return rc], else the action is the
    result of the function. *)
Definition returned (action : Z) (r : ngx_rc * Z) : ngx_rc * Z :=
  if bool_decide (r.1 = NGX_ERROR) || bool_decide (r.1 = NGX_ABORT) then (r.1, action) else r.

(** The end of stream flag is passed since 0.2.0. *)
Definition headers_args (f : ngx_proxy_wasm_filter_t) (id n : Z) : list Z :=
  if bool_decide (f_abi_version f = ABI_0_1_0) then [id; n] else [id; n; 0].

Definition ngx_http_proxy_wasm_on_request_headers (pwexec : addr) (out : Z) : M (ngx_rc * Z) :=
  instance ← ngx_proxy_wasm_pwexec2instance pwexec;
  e ← read_exec pwexec;
  filter ← read_filter (pe_filter e);
  r ← gets hs_r;
  puts (with_ext (fun x => set_lengths (Bodies.rq_content_length_n (r_body r))
                             (rc_resp_content_length_n x) x));;
  rc ← ngx_wavm_instance_call_funcref debug instance filter proxy_on_http_request_headers
         (headers_args filter (pe_id e) (ngx_http_wasm_req_headers_count r));
  mret (returned out rc).

Definition ngx_http_proxy_wasm_on_request_body (pwexec : addr) (out : Z) : M (ngx_rc * Z) :=
  instance ← ngx_proxy_wasm_pwexec2instance pwexec;
  e ← read_exec pwexec;
  filter ← read_filter (pe_filter e);
  s ← gets hs_stream;
  rc ← ngx_wavm_instance_call_funcref debug instance filter proxy_on_http_request_body
         [pe_id e; sx_req_body_len s; 1];
  mret (returned out rc).

Definition ngx_http_proxy_wasm_on_response_headers (pwexec : addr) (out : Z) : M (ngx_rc * Z) :=
  instance ← ngx_proxy_wasm_pwexec2instance pwexec;
  puts (with_ext (fun x => set_shims (rc_shims x) true x));;
  r ← gets hs_r;
  shims ← ngx_http_wasm_count_shim_headers;
  let nheaders := ngx_http_wasm_resp_headers_count r + shims in
  puts (with_ext (fun x => set_lengths (rc_req_content_length_n x)
                             (ho_content_length_n (r_headers_out r)) x));;
  e ← read_exec pwexec;
  filter ← read_filter (pe_filter e);
  rc ← ngx_wavm_instance_call_funcref debug instance filter proxy_on_http_response_headers
         (headers_args filter (pe_id e) nheaders);
  mret (returned out rc).

(** With a content length, whether the chunk is the whole body overrides [eof]. *)
Definition content_length_eof (x : req_ctx_t) (c : BodyFilter.ngx_http_wasm_req_ctx_t)
    : BodyFilter.ngx_http_wasm_req_ctx_t :=
  if 0 <? rc_resp_content_length_n x
  then BodyFilter.set_chunk (BodyFilter.rx_resp_chunk c) (BodyFilter.rx_resp_chunk_len c)
         (Z.of_nat (BodyFilter.rx_resp_chunk_len c) =? rc_resp_content_length_n x) c
  else c.

(** Once the body was buffered, [PAUSE] is not an action any more. *)
Definition not_again (x : BodyFilter.ngx_http_wasm_req_ctx_t) (out : Z) : Z :=
  if (out =? ACTION_PAUSE) && bool_decide (BodyFilter.rx_resp_bufs x <> None)
  then ACTION_CONTINUE else out.

Definition ngx_http_proxy_wasm_on_response_body (pwexec : addr) (out : Z) : M (ngx_rc * Z) :=
  instance ← ngx_proxy_wasm_pwexec2instance pwexec;
  x ← gets hs_ext;
  puts (with_rctx (content_length_eof x));;
  c ← gets hs_rctx;
  if negb (BodyFilter.rx_resp_chunk_len c =? 0)%nat || BodyFilter.rx_resp_chunk_eof c then
    e ← read_exec pwexec;
    filter ← read_filter (pe_filter e);
    '(rc, v) ← ngx_wavm_instance_call_funcref debug instance filter proxy_on_http_response_body
                 [pe_id e; Z.of_nat (BodyFilter.rx_resp_chunk_len c);
                  Z.b2z (BodyFilter.rx_resp_chunk_eof c)];
    if bool_decide (rc = NGX_ERROR) || bool_decide (rc = NGX_ABORT) then mret (rc, out)
    else
      c ← gets hs_rctx;
      mret (rc, not_again c v)
  else mret (NGX_OK, out).

Definition ngx_http_proxy_wasm_on_response_trailers (pwexec : addr) (out : Z) : M (ngx_rc * Z) :=
  instance ← ngx_proxy_wasm_pwexec2instance pwexec;
  r ← gets hs_r;
  e ← read_exec pwexec;
  filter ← read_filter (pe_filter e);
  rc ← ngx_wavm_instance_call_funcref debug instance filter proxy_on_http_response_trailers
         (headers_args filter (pe_id e) (ngx_http_wasm_resp_trailers_count r));
  mret (returned out rc).

(** [ngx_wasm_continue(&rctx->env)]; the handler it installs is the connection's. *)
Definition ngx_wasm_continue : M unit :=
  puts (with_ext (fun x => set_data_env (rc_data x) NGX_WASM_STATE_CONTINUE x)).

Definition ngx_http_proxy_wasm_on_dispatch_response (pwexec : addr) : M ngx_rc :=
  e ← read_exec pwexec;
  filter ← read_filter (pe_filter e);
  calls ← gets hs_dispatch;
  call ← lift (deref (calls !! pwexec));
  ngx_wasm_continue;;
  ictx ← non_null (pe_ictx e);
  '(rc, _) ← ngx_wavm_instance_call_funcref debug ictx filter proxy_on_http_call_response
         (match dc_response call with
          | Some (headers, body_len) =>
              [f_id filter; dc_id call; dispatch_n_headers headers; body_len; 0]
          | None => [f_id filter; dc_id call; 0; 0; 0]
          end);
  mret rc.

Definition ngx_http_proxy_wasm_on_foreign_function (pwexec : addr) : M ngx_rc :=
  e ← read_exec pwexec;
  filter ← read_filter (pe_filter e);
  calls ← gets hs_foreign;
  call ← lift (deref (calls !! pwexec));
  ngx_wasm_continue;;
  let args_len := match fc_args_out call with Some (start, last) => last - start | None => 0 end in
  ictx ← non_null (pe_ictx e);
  '(rc, _) ← ngx_wavm_instance_call_funcref debug ictx filter proxy_on_custom_callback
         [pe_id e; fc_fcode call; args_len];
  mret rc.

Definition ngx_http_proxy_wasm_on_upstream_select (pwexec : addr) : M ngx_rc :=
  instance ← ngx_proxy_wasm_pwexec2instance pwexec;
  e ← read_exec pwexec;
  filter ← read_filter (pe_filter e);
  match funcref filter proxy_on_http_upstream_select with
  | None => mret NGX_OK
  | Some _ =>
      '(rc, _) ← ngx_wavm_instance_call_funcref debug instance filter
                   proxy_on_http_upstream_select [pe_id e];
      mret rc
  end.

Definition ngx_http_proxy_wasm_on_next_upstream (pwexec : addr) : M ngx_rc :=
  instance ← ngx_proxy_wasm_pwexec2instance pwexec;
  e ← read_exec pwexec;
  filter ← read_filter (pe_filter e);
  r ← gets hs_r;
  match funcref filter proxy_on_http_next_upstream, r_upstream r with
  | None, _ => mret NGX_OK
  | Some _, None => mret NGX_ERROR
  | Some _, Some up =>
      '(rc, _) ← ngx_wavm_instance_call_funcref debug instance filter
                   proxy_on_http_next_upstream [pe_id e; up_last_status up];
      mret rc
  end.

(** [NGX_PEER_NEXT] and [NGX_PEER_FAILED] of nginx. *)
Definition NGX_PEER_NEXT : Z := 2.
Definition NGX_PEER_FAILED : Z := 4.

Definition last_upstream_state (state : Z) : option Z :=
  if state =? 0 then Some 0
  else if (state =? NGX_PEER_NEXT) || (state =? NGX_PEER_FAILED) then Some 1 else None.

Definition ngx_http_proxy_wasm_on_upstream_info (pwexec : addr) : M ngx_rc :=
  instance ← ngx_proxy_wasm_pwexec2instance pwexec;
  e ← read_exec pwexec;
  filter ← read_filter (pe_filter e);
  r ← gets hs_r;
  match funcref filter proxy_on_http_upstream_info, r_upstream r with
  | None, _ => mret NGX_OK
  | Some _, None => mret NGX_ERROR
  | Some _, Some up =>
      match last_upstream_state (up_last_peer_state up) with
      | None => mret NGX_ERROR
      | Some state =>
          '(rc, _) ← ngx_wavm_instance_call_funcref debug instance filter
                       proxy_on_http_upstream_info [pe_id e; state];
          mret rc
      end
  end.

Definition ngx_http_proxy_wasm_ecode (ecode : ngx_proxy_wasm_err_e) : ngx_rc := NGX_STATUS 500.

(** The callback keeps the action it was given. *)
Definition same_action (out : Z) (m : M ngx_rc) : M (ngx_rc * Z) := rc ← m; mret (rc, out).

Definition ngx_http_proxy_wasm_resume (pwexec : addr) (step : ngx_proxy_wasm_step_e) (out : Z)
    : M (ngx_rc * Z) :=
  r ← match step with
      | STEP_REQ_HEADERS => ngx_http_proxy_wasm_on_request_headers pwexec out
      | STEP_REQ_BODY => ngx_http_proxy_wasm_on_request_body pwexec out
      | STEP_RESP_HEADERS => ngx_http_proxy_wasm_on_response_headers pwexec out
      | STEP_RESP_BODY => ngx_http_proxy_wasm_on_response_body pwexec out
      | STEP_RESP_TRAILERS =>
          if response_trailers then ngx_http_proxy_wasm_on_response_trailers pwexec out
          else mret (NGX_ERROR, out)
      | STEP_DISPATCH_RESPONSE =>
          same_action out (ngx_http_proxy_wasm_on_dispatch_response pwexec)
      | STEP_FOREIGN_CALLBACK =>
          same_action out (ngx_http_proxy_wasm_on_foreign_function pwexec)
      | STEP_UPSTREAM_SELECT =>
          same_action out (ngx_http_proxy_wasm_on_upstream_select pwexec)
      | STEP_NEXT_UPSTREAM => same_action out (ngx_http_proxy_wasm_on_next_upstream pwexec)
      | STEP_UPSTREAM_INFO => same_action out (ngx_http_proxy_wasm_on_upstream_info pwexec)
      | _ => mret (NGX_ERROR, out)
      end;
  assert debug (bool_decide (r.1 ∈ [NGX_OK; NGX_AGAIN; NGX_ABORT; NGX_ERROR]));;
  mret r.

(** The subsystem of the filter chains; buffering is asked for in [rctx]. *)
#[export] Instance ngx_http_proxy_wasm : Subsystem (http_state W) := {
  sub_resume := ngx_http_proxy_wasm_resume;
  sub_ecode := ngx_http_proxy_wasm_ecode;
  resp_buffering := with_rctx (BodyFilter.set_resp_buffering true);
}.

Hint Resolve keeps_guest_guest : keeps.

Lemma keeps_gets {A} (f : http_state W -> A) : keeps guest_frame (gets f).
Proof. apply keeps_guest_guest. Qed.

Lemma keeps_puts f : keeps guest_frame (puts f).
Proof. apply keeps_guest_guest. Qed.

Hint Resolve keeps_gets keeps_puts : keeps.

Lemma keeps_new_str v : keeps guest_frame (new_str v).
Proof. unfold new_str. keeps_tac. Qed.

Hint Resolve keeps_new_str : keeps.

Lemma keeps_build_shims shims :
  Forall (fun s => keeps guest_frame s.2) shims -> keeps guest_frame (build_shims shims).
Proof.
  induction 1 as [|[k m] shims Hm _ IH]; simpl; [keeps_tac|]. simpl in Hm. keeps_tac.
Qed.

Lemma keeps_count_shims : keeps guest_frame ngx_http_wasm_count_shim_headers.
Proof.
  unfold ngx_http_wasm_count_shim_headers, ngx_http_wasm_get_shim_headers.
  assert (keeps guest_frame (build_shims ngx_http_wasm_shim_headers)).
  { apply keeps_build_shims.
    unfold ngx_http_wasm_shim_headers, ngx_http_wasm_shim_content_type,
      ngx_http_wasm_shim_content_len, ngx_http_wasm_shim_transfer_encoding,
      ngx_http_wasm_shim_connection, ngx_http_wasm_shim_keep_alive, ngx_http_wasm_shim_vary.
    repeat (apply Forall_cons; split; [cbn [snd]; keeps_tac|]). by apply Forall_nil. }
  keeps_tac.
Qed.

Hint Resolve keeps_count_shims : keeps.

(** The promises of the interface: the theorems on chains hold of the chains of a
    request. *)
#[export] Instance http_subsystem_laws : SubsystemLaws.
Proof.
  split; [|done]. intros pwexec step action. simpl.
  unfold ngx_http_proxy_wasm_resume, ngx_http_proxy_wasm_on_request_headers,
    ngx_http_proxy_wasm_on_request_body, ngx_http_proxy_wasm_on_response_headers,
    ngx_http_proxy_wasm_on_response_body, ngx_http_proxy_wasm_on_response_trailers,
    ngx_http_proxy_wasm_on_dispatch_response, ngx_http_proxy_wasm_on_foreign_function,
    ngx_http_proxy_wasm_on_upstream_select, ngx_http_proxy_wasm_on_next_upstream,
    ngx_http_proxy_wasm_on_upstream_info, same_action, ngx_wasm_continue.
  keeps_tac.
Qed.

(** ** The stream context of a request *)

(** [ngx_http_proxy_wasm_ctx] with [ngx_proxy_wasm_ctx_alloc]; a fake request also
    registers a cleanup. *)
Definition ngx_http_proxy_wasm_ctx : M (option addr) :=
  x ← gets hs_ext;
  r ← gets hs_r;
  match rc_data x with
  | Some pwctx => mret (Some pwctx)
  | None =>
      ok ← guest ngx_palloc;
      ok' ← (if (ok : bool) then guest ngx_palloc else mret false);
      if negb ok' then mret None
      else
        pwctx ← new_ctx zero_ctx;
        puts (with_stream (fun _ =>
          {| sx_req_body_len := 0; sx_req_headers_in_access := r_pwm_req_headers_in_access r;
             sx_main := r_main r |}));;
        puts (with_ext (fun x => set_data_env (Some pwctx) (rc_env_state x) x));;
        if rc_fake_request x then
          ok ← guest ngx_palloc;
          mret (if (ok : bool) then Some pwctx else None)
        else mret (Some pwctx)
  end.

(** ** The end of the reading of a request body *)

(** What [on_request_body_handler] calls: [ngx_http_wasm_content] and
    [ngx_http_finalize_request]; [rctx] is the result of [ngx_http_wasm_rctx]. *)
Class ContentHandler := {
  ngx_http_wasm_content : M unit;
  ngx_http_finalize_request : ngx_rc -> M unit;
}.

Context `{!ContentHandler}.

(** The length of the body: [None] when the size of its file is not known. *)
Definition received_len (bufs : addr) (file : option temp_file_t) : M (option Z) :=
  match file with
  | Some f =>
      mret (if tf_valid f then tf_fd_info f else Some (tf_info_size f))
  | None =>
      b ← gets hs_bufs;
      '((len, _), b) ← lift (Chains.ngx_wasm_chain_len (Some bufs) None b);
      puts (with_bufs b);;
      mret (Some (Z.of_nat len))
  end.

Definition ngx_http_proxy_wasm_on_request_body_handler (rctx : ngx_rc) : M unit :=
  r ← gets hs_r;
  match Bodies.rq_request_body (r_body r) with
  | Some (Some bufs) =>
      if negb (is_ok rctx) then mret tt
      else
        len ← received_len bufs (r_temp_file r);
        match len with
        | None => mret tt
        | Some len =>
            x ← gets hs_ext;
            (if negb (len =? 0) then
               lift (deref (rc_data x));;
               puts (with_stream (fun s =>
                 {| sx_req_body_len := len;
                    sx_req_headers_in_access := sx_req_headers_in_access s;
                    sx_main := sx_main s |}))
             else mret tt);;
            puts (with_ext (fun x => set_req_body_flags true (rc_req_body_waited x) true x));;
            ngx_http_wasm_content;;
            puts (with_ext (fun x => set_req_body_flags false (rc_req_body_waited x)
                                       (rc_req_body_received x) x));;
            x ← gets hs_ext;
            if rc_req_body_waited x
               && negb (bool_decide (rc_env_state x = NGX_WASM_STATE_YIELD))
            then ngx_http_finalize_request rctx else mret tt
        end
  | _ => mret tt
  end.

End http.
End HttpProxyWasm.
