(* ===== verification/Ops.v ===== *)
(** * Operations of a location

    src/src/wasm/ngx_wasm_ops.c: the plan of a location holds a pipeline of operations
    per phase, calls of module functions ([wasm_call]) and chains of filters
    ([proxy_wasm]); resuming a phase runs its pipeline.  The phases are those of
    src/src/http/ngx_http_wasm_module.c. *)
From S2P Require Import Prelude NginxCore Chains BodyFilter Bodies ProxyWasm.
From S2P Require Import Abi Instances Frame FilterChain HttpProxyWasm.
From stdpp Require Export list gmap.
#[global] Open Scope Z_scope.

Module Ops.
Import ProxyWasm Instances Frame FilterChain HttpProxyWasm.

(** ** Phases *)

(** The values of nginx and of ngx_http_wasm.h. *)
Definition phase_index (p : ngx_phase) : Z :=
  match p with
  | NGX_HTTP_REWRITE_PHASE => 3
  | NGX_HTTP_ACCESS_PHASE => 6
  | NGX_HTTP_CONTENT_PHASE => 9
  | NGX_HTTP_LOG_PHASE => 10
  | NGX_HTTP_WASM_HEADER_FILTER_PHASE => 11
  | NGX_HTTP_WASM_BODY_FILTER_PHASE => 12
  | NGX_HTTP_WASM_TRAILER_FILTER_PHASE => 13
  | NGX_WASM_DONE_PHASE => 15
  | NGX_WASM_BACKGROUND_PHASE => 16
  | PHASE_OTHER i => i
  end.

Definition NGX_HTTP_POST_READ_PHASE := PHASE_OTHER 0.
Definition NGX_HTTP_PREACCESS_PHASE := PHASE_OTHER 5.

(** A phase operations can be attached to when [ph_on] is set. *)
Record ngx_wasm_phase_t := { ph_phase : ngx_phase; ph_real_index : Z; ph_on : Z }.

Definition ph_index (p : ngx_wasm_phase_t) : Z := phase_index (ph_phase p).

Definition attachable (p : ngx_phase) (real_index : Z) : ngx_wasm_phase_t :=
  {| ph_phase := p; ph_real_index := real_index; ph_on := Z.shiftl 1 (phase_index p) |}.

(** [response_trailers] is [NGX_WASM_RESPONSE_TRAILERS]. *)
Definition ngx_http_wasm_phases (response_trailers : bool) : list ngx_wasm_phase_t :=
  [{| ph_phase := NGX_HTTP_POST_READ_PHASE; ph_real_index := 0; ph_on := 0 |};
   attachable NGX_HTTP_REWRITE_PHASE 1; attachable NGX_HTTP_PREACCESS_PHASE 2;
   attachable NGX_HTTP_ACCESS_PHASE 3; attachable NGX_HTTP_CONTENT_PHASE 4;
   attachable NGX_HTTP_WASM_HEADER_FILTER_PHASE 5;
   attachable NGX_HTTP_WASM_BODY_FILTER_PHASE 6]
  ++ (if response_trailers then [attachable NGX_HTTP_WASM_TRAILER_FILTER_PHASE 7] else [])
  ++ [attachable NGX_HTTP_LOG_PHASE 8; attachable NGX_WASM_DONE_PHASE 9;
      attachable NGX_WASM_BACKGROUND_PHASE 10].

(** [ngx_wasm_phase_lookup] *)
Fixpoint ngx_wasm_phase_lookup (phases : list ngx_wasm_phase_t) (idx : Z)
    : option ngx_wasm_phase_t :=
  match phases with
  | [] => None
  | p :: phases => if ph_index p =? idx then Some p else ngx_wasm_phase_lookup phases idx
  end.

(** ** Plans *)

Inductive ngx_wasm_op_code_t := NGX_WASM_OP_CALL | NGX_WASM_OP_PROXY_WASM | OP_UNKNOWN (code : Z).

#[export] Instance op_code_eq_dec : EqDecision ngx_wasm_op_code_t.
Proof. solve_decision. Defined.

Inductive op_handler := H_call | H_proxy_wasm.

(** The union [conf] is split into its fields; [op_handler_f] is the handler, [NULL]
    before the plan is loaded. *)
Record ngx_wasm_op_t := {
  op_on_phases : Z;
  op_code : ngx_wasm_op_code_t;
  op_module : Z;
  op_handler_f : option op_handler;
  op_idx : nat;
  op_func_name : bytes;
  op_funcref : option bytes;
  op_filter : addr;
}.

Definition set_op_handler (handler : op_handler) (idx : nat) (funcref : option bytes)
    (op : ngx_wasm_op_t) : ngx_wasm_op_t :=
  {| op_on_phases := op_on_phases op; op_code := op_code op; op_module := op_module op;
     op_handler_f := Some handler; op_idx := idx; op_func_name := op_func_name op;
     op_funcref := funcref; op_filter := op_filter op |}.

(** The pipelines hold pointers to operations; [pl_tree] is the tree of [pwroot]. *)
Record ngx_wasm_ops_plan_t := {
  pl_ops : gmap addr ngx_wasm_op_t;
  pl_pipelines : gmap Z (list addr);
  pl_filter_ids : list Z;
  pl_tree : rbtree;
  pl_populated : bool;
  pl_loaded : bool;
}.

Definition pipeline (plan : ngx_wasm_ops_plan_t) (idx : Z) : list addr :=
  default [] (pl_pipelines plan !! idx).

Definition push_op (idx : Z) (op : addr) (plan : ngx_wasm_ops_plan_t) : ngx_wasm_ops_plan_t :=
  {| pl_ops := pl_ops plan; pl_pipelines := <[idx := pipeline plan idx ++ [op]]> (pl_pipelines plan);
     pl_filter_ids := pl_filter_ids plan; pl_tree := pl_tree plan; pl_populated := true;
     pl_loaded := pl_loaded plan |}.

Definition set_plan_op (a : addr) (op : ngx_wasm_op_t) (plan : ngx_wasm_ops_plan_t) :=
  {| pl_ops := <[a := op]> (pl_ops plan); pl_pipelines := pl_pipelines plan;
     pl_filter_ids := pl_filter_ids plan; pl_tree := pl_tree plan;
     pl_populated := pl_populated plan; pl_loaded := pl_loaded plan |}.

Definition set_plan_tree (tree : rbtree) (plan : ngx_wasm_ops_plan_t) :=
  {| pl_ops := pl_ops plan; pl_pipelines := pl_pipelines plan;
     pl_filter_ids := pl_filter_ids plan; pl_tree := tree;
     pl_populated := pl_populated plan; pl_loaded := pl_loaded plan |}.

Definition set_plan_loaded (ids : list Z) (loaded : bool) (plan : ngx_wasm_ops_plan_t) :=
  {| pl_ops := pl_ops plan; pl_pipelines := pl_pipelines plan; pl_filter_ids := ids;
     pl_tree := pl_tree plan; pl_populated := pl_populated plan; pl_loaded := loaded |}.

(** What the operations call outside of this file: the modules of the VM and their
    linking, the instances a [wasm_call] runs on, the reading of a request body, and
    the identity of a filter. *)
Class OpsEnv (W : Type) := {
  vm_module : Z -> Abi.ngx_wavm_module_t;
  ngx_wavm_module_link : Z -> M (http_state W) ngx_rc;
  op_instance_create : Z -> M (http_state W) (option addr);
  op_instance_call : addr -> bytes -> M (http_state W) ngx_rc;
  op_instance_destroy : addr -> M (http_state W) unit;
  ngx_http_wasm_read_client_request_body : M (http_state W) ngx_rc;
  filter_config : addr -> bytes;
  filter_data : addr -> Z;
}.

Section ops.
Context {W : Type} `{Wavm (http_state W)} `{Rbtree} `{!OpsEnv W} (debug : bool).
(** [NGX_WASM_RESPONSE_TRAILERS], [NGX_HTTP_GZIP], [ngx_sprintf] of "%O" and "%T". *)
Context (response_trailers http_gzip : bool) (sprintf_O sprintf_T : Z -> bytes).
Abbreviation M := (M (http_state W)).

#[local] Instance ops_subsystem : Subsystem (http_state W) :=
  ngx_http_proxy_wasm debug response_trailers http_gzip sprintf_O sprintf_T.

(** The phases an operation is on, in the order of the table. *)
Fixpoint add_to_phases (phases : list ngx_wasm_phase_t) (a : addr) (op : ngx_wasm_op_t)
    (plan : ngx_wasm_ops_plan_t) : M (ngx_rc * ngx_wasm_ops_plan_t) :=
  match phases with
  | [] => mret (NGX_OK, plan)
  | p :: phases =>
      if negb (Z.land (op_on_phases op) (ph_on p) =? 0) then
        ok ← guest ngx_palloc;
        if negb ok then mret (NGX_ERROR, plan)
        else add_to_phases phases a op (push_op (ph_index p) a plan)
      else add_to_phases phases a op plan
  end.

Fixpoint ngx_wasm_ops_plan_add (ops_list : list addr) (plan : ngx_wasm_ops_plan_t)
    : M (ngx_rc * ngx_wasm_ops_plan_t) :=
  match ops_list with
  | [] => mret (NGX_OK, plan)
  | a :: ops_list =>
      op ← lift (deref (pl_ops plan !! a));
      '(rc, plan) ← add_to_phases (ngx_http_wasm_phases response_trailers) a op plan;
      if is_ok rc then ngx_wasm_ops_plan_add ops_list plan else mret (rc, plan)
  end.

(** ** Loading *)

Section loading.
(** [ngx_sprintf] of "%ld", and [ngx_crc32_*]. *)
Context (sprintf_ld : Z -> bytes) (crc32 : bytes -> Z).

(** One operation, at position [j] of its pipeline. *)
Definition load_op (a : addr) (j : nat) (plan : ngx_wasm_ops_plan_t)
    : M (ngx_rc * ngx_wasm_ops_plan_t) :=
  op ← lift (deref (pl_ops plan !! a));
  rc ← ngx_wavm_module_link (op_module op);
  if negb (is_ok rc) then mret (NGX_ERROR, plan)
  else
    match op_code op with
    | NGX_WASM_OP_PROXY_WASM =>
        f ← read_filter (op_filter op);
        let '(rc, tree, f') :=
          Abi.ngx_proxy_wasm_load debug crc32 sprintf_ld (pl_tree plan) (op_filter op)
            (Some (vm_module (f_module f))) (filter_config (op_filter op))
            (filter_data (op_filter op)) f in
        write_filter (op_filter op) (fun _ => f');;
        let plan := set_plan_tree tree
          (set_plan_op a (set_op_handler H_proxy_wasm (op_idx op) (op_funcref op) op) plan) in
        mret (if is_ok rc then NGX_OK else NGX_ERROR, plan)
    | NGX_WASM_OP_CALL =>
        let fref := Abi.ngx_wavm_module_func_lookup (vm_module (op_module op)) (op_func_name op) in
        mret (NGX_OK, set_plan_op a (set_op_handler H_call j fref op) plan)
    | OP_UNKNOWN _ => mret (NGX_ERROR, plan)
    end.

Fixpoint load_pipeline (ops : list addr) (j : nat) (plan : ngx_wasm_ops_plan_t)
    : M (ngx_rc * ngx_wasm_ops_plan_t) :=
  match ops with
  | [] => mret (NGX_OK, plan)
  | a :: ops =>
      '(rc, plan) ← load_op a j plan;
      if is_ok rc then load_pipeline ops (S j) plan else mret (rc, plan)
  end.

(** The pipelines by index, [n] of them from [i]. *)
Fixpoint load_pipelines (n : nat) (i : Z) (plan : ngx_wasm_ops_plan_t)
    : M (ngx_rc * ngx_wasm_ops_plan_t) :=
  match n with
  | O => mret (NGX_OK, plan)
  | S n =>
      '(rc, plan) ← load_pipeline (pipeline plan i) 0 plan;
      if is_ok rc then load_pipelines n (i + 1) plan else mret (rc, plan)
  end.

Fixpoint collect_filter_ids (plan : ngx_wasm_ops_plan_t) (ops : list addr) (ids : list Z)
    : M (ngx_rc * list Z) :=
  match ops with
  | [] => mret (NGX_OK, ids)
  | a :: ops =>
      op ← lift (deref (pl_ops plan !! a));
      if bool_decide (op_code op = NGX_WASM_OP_PROXY_WASM) then
        ok ← guest ngx_palloc;
        if negb ok then mret (NGX_ERROR, ids)
        else
          f ← read_filter (op_filter op);
          collect_filter_ids plan ops (ids ++ [f_id f])
      else collect_filter_ids plan ops ids
  end.

(** [subsystem->nphases] is [NGX_WASM_BACKGROUND_PHASE + 1]. *)
Definition nphases : nat := 17.

Definition ngx_wasm_ops_plan_load (plan : ngx_wasm_ops_plan_t)
    : M (ngx_rc * ngx_wasm_ops_plan_t) :=
  if pl_loaded plan then mret (NGX_OK, plan)
  else
    '(rc, plan) ← load_pipelines nphases 0 plan;
    if negb (is_ok rc) then mret (NGX_ERROR, plan)
    else
      '(rc, ids) ← collect_filter_ids plan
                     (pipeline plan (phase_index NGX_HTTP_REWRITE_PHASE)) [];
      if negb (is_ok rc) then mret (NGX_ERROR, set_plan_loaded ids false plan)
      else mret (NGX_OK, set_plan_loaded ids true plan).

End loading.

(** ** Running an operation *)

Definition set_op_progress (last : option Z) (cur_idx : nat) (o : ngx_wasm_op_ctx_t) :=
  {| oc_last_phase := last; oc_cur_idx := cur_idx; oc_isolation := oc_isolation o;
     oc_req_headers_in_access := oc_req_headers_in_access o; oc_next_id := oc_next_id o |}.

Definition set_next_id (id : Z) (o : ngx_wasm_op_ctx_t) :=
  {| oc_last_phase := oc_last_phase o; oc_cur_idx := oc_cur_idx o;
     oc_isolation := oc_isolation o;
     oc_req_headers_in_access := oc_req_headers_in_access o; oc_next_id := id |}.

Definition ngx_wasm_op_call_handler (op : ngx_wasm_op_t) : M ngx_rc :=
  assert debug (bool_decide (op_code op = NGX_WASM_OP_CALL));;
  match op_funcref op with
  | None => mret NGX_ERROR
  | Some fn =>
      o ← gets hs_ops;
      if (op_idx op <? oc_cur_idx o)%nat then mret NGX_DECLINED
      else
        i ← op_instance_create (op_module op);
        match i with
        | None => mret NGX_ERROR
        | Some i =>
            rc ← op_instance_call i fn;
            op_instance_destroy i;;
            puts (with_ops (fun o => set_op_progress (oc_last_phase o) (S (oc_cur_idx o)) o));;
            if bool_decide (rc = NGX_ERROR) || bool_decide (rc = NGX_ABORT) then mret NGX_ERROR
            else
              assert debug (is_ok rc);;
              x ← gets hs_ext;
              mret (match rc_env_state x with
                    | NGX_WASM_STATE_YIELD => NGX_AGAIN
                    | NGX_WASM_STATE_ERROR => NGX_ERROR
                    | NGX_WASM_STATE_CONTINUE => NGX_DECLINED
                    end)
        end
  end.

(** [ngx_wasm_yield] and [ngx_wasm_error] on [rctx->env]. *)
Definition set_env_state (v : ngx_wasm_state_e) : M unit :=
  puts (with_ext (fun x => set_data_env (rc_data x) v x)).

(** After the body was received: the step on it. *)
Definition content_body_step (pwctx : addr) : M ngx_rc :=
  rc ← ngx_proxy_wasm_resume debug response_trailers pwctx STEP_REQ_BODY;
  match rc with
  | NGX_ERROR => set_env_state NGX_WASM_STATE_ERROR;; mret rc
  | NGX_STATUS code =>
      if code =? 500 then set_env_state NGX_WASM_STATE_ERROR;; mret rc
      else assert debug false;; mret rc
  | NGX_AGAIN => set_env_state NGX_WASM_STATE_YIELD;; mret rc
  | NGX_DONE => mret NGX_OK
  | _ => assert debug (is_ok rc);; mret rc
  end.

Definition content_read_body : M ngx_rc :=
  rc ← ngx_http_wasm_read_client_request_body;
  x ← gets hs_ext;
  match rc with
  | NGX_OK =>
      mret (if bool_decide (rc_env_state x = NGX_WASM_STATE_YIELD) then NGX_AGAIN
            else if bool_decide (rc_env_state x = NGX_WASM_STATE_ERROR) then NGX_STATUS 500
            else if rc_req_body_received x && negb (rc_resp_content_chosen x) then NGX_DONE
            else NGX_OK)
  | NGX_AGAIN =>
      puts (with_ext (fun x => set_req_body_flags (rc_in_req_body_handler x) true
                                 (rc_req_body_received x) x));;
      mret NGX_AGAIN
  | _ => mret rc
  end.

(** [case NGX_HTTP_CONTENT_PHASE] *)
Definition content_phase (pwctx : addr) : M ngx_rc :=
  x ← gets hs_ext;
  (if 0 <? rc_req_content_length_n x
   then puts (with_r (set_headers_in_content_length_n (rc_req_content_length_n x)))
   else mret tt);;
  if negb (rc_req_body_received x) then content_read_body
  else
    s ← gets hs_stream;
    if negb (sx_req_body_len s =? 0) then content_body_step pwctx else mret NGX_OK.

(** The step of the filters for a phase. *)
Definition phase_step (pwctx : addr) (phase : ngx_phase) : M ngx_rc :=
  let resume := ngx_proxy_wasm_resume debug response_trailers pwctx in
  match phase with
  | NGX_HTTP_REWRITE_PHASE =>
      s ← gets hs_stream;
      if sx_req_headers_in_access s then mret NGX_OK else resume STEP_REQ_HEADERS
  | NGX_HTTP_ACCESS_PHASE =>
      s ← gets hs_stream;
      if sx_req_headers_in_access s then resume STEP_REQ_HEADERS else mret NGX_OK
  | NGX_HTTP_CONTENT_PHASE => content_phase pwctx
  | NGX_HTTP_WASM_HEADER_FILTER_PHASE => resume STEP_RESP_HEADERS
  | NGX_HTTP_WASM_BODY_FILTER_PHASE => resume STEP_RESP_BODY
  | NGX_HTTP_WASM_TRAILER_FILTER_PHASE =>
      if response_trailers then resume STEP_RESP_TRAILERS else mret NGX_DECLINED
  | NGX_HTTP_LOG_PHASE => resume STEP_LOG
  | NGX_WASM_DONE_PHASE => resume STEP_DONE
  | _ => mret NGX_DECLINED
  end.

(** The codes asserted at the end of the handler. *)
Definition op_rc_expected (rc : ngx_rc) : bool :=
  match rc with
  | NGX_OK | NGX_ERROR | NGX_AGAIN | NGX_DECLINED | NGX_DONE => true
  | NGX_STATUS code => 300 <=? code
  | _ => false
  end.

(** [loc_isolation] is [loc->isolation]. *)
Definition ngx_wasm_op_proxy_wasm_handler (loc_isolation : ngx_proxy_wasm_isolation_mode_e)
    (plan : ngx_wasm_ops_plan_t) (phase : ngx_phase) (op : ngx_wasm_op_t) : M ngx_rc :=
  assert debug (bool_decide (op_code op = NGX_WASM_OP_PROXY_WASM));;
  o ← gets hs_ops;
  let isolation := if bool_decide (oc_isolation o = ISOLATION_UNSET)
                   then loc_isolation else oc_isolation o in
  pwctx ← ngx_http_proxy_wasm_ctx;
  rc ← match pwctx with
       | None => mret NGX_ERROR
       | Some pwctx =>
           '(pwctx, id) ← ngx_proxy_wasm_ctx debug (pl_tree plan) pwctx
                            (Some (pl_filter_ids plan)) isolation (oc_next_id o);
           puts (with_ops (set_next_id id));;
           match pwctx with
           | None => mret NGX_ERROR
           | Some pwctx =>
               write_ctx pwctx (set_ctx_phase (Some phase));;
               (if oc_req_headers_in_access o
                then puts (with_stream (fun s =>
                  {| sx_req_body_len := sx_req_body_len s; sx_req_headers_in_access := true;
                     sx_main := sx_main s |}))
                else mret tt);;
               phase_step pwctx phase
           end
       end;
  assert debug (op_rc_expected rc);;
  mret rc.

(** ** Resuming a phase *)

(** [rc == NGX_ERROR || rc > NGX_OK] *)
Definition op_failed (rc : ngx_rc) : bool :=
  match rc with NGX_ERROR => true | NGX_STATUS code => 0 <? code | _ => false end.

Definition run_op (loc_isolation : ngx_proxy_wasm_isolation_mode_e) (plan : ngx_wasm_ops_plan_t)
    (phase : ngx_phase) (op : ngx_wasm_op_t) : M ngx_rc :=
  match op_handler_f op with
  | None => lift (Fault F_memory)
  | Some H_call => ngx_wasm_op_call_handler op
  | Some H_proxy_wasm => ngx_wasm_op_proxy_wasm_handler loc_isolation plan phase op
  end.

Fixpoint run_pipeline (loc_isolation : ngx_proxy_wasm_isolation_mode_e)
    (plan : ngx_wasm_ops_plan_t) (phase : ngx_phase) (ops : list addr) (rc : ngx_rc) : M ngx_rc :=
  match ops with
  | [] => mret rc
  | a :: ops =>
      op ← lift (deref (pl_ops plan !! a));
      rc ← run_op loc_isolation plan phase op;
      if op_failed rc then mret rc
      else if bool_decide (rc = NGX_DECLINED) then run_pipeline loc_isolation plan phase ops rc
      else mret rc
  end.

Definition ngx_wasm_ops_resume (loc_isolation : ngx_proxy_wasm_isolation_mode_e)
    (plan : ngx_wasm_ops_plan_t) (phaseidx : Z) : M ngx_rc :=
  match ngx_wasm_phase_lookup (ngx_http_wasm_phases response_trailers) phaseidx with
  | None => mret NGX_DECLINED
  | Some phase =>
      o ← gets hs_ops;
      (match oc_last_phase o with
       | Some last => if negb (last =? ph_index phase)
                      then puts (with_ops (fun o => set_op_progress (oc_last_phase o) 0 o))
                      else mret tt
       | None => mret tt
       end);;
      rc ← run_pipeline loc_isolation plan (ph_phase phase) (pipeline plan (ph_index phase))
             NGX_DECLINED;
      if op_failed rc then mret rc
      else
        assert debug (bool_decide (rc ∈ [NGX_OK; NGX_DECLINED; NGX_AGAIN; NGX_DONE]));;
        puts (with_ops (fun o => set_op_progress (Some (ph_index phase)) (oc_cur_idx o) o));;
        mret rc
  end.

(** ** Calls run once

    [op_trace] are the functions called so far; creating and destroying an instance
    calls none and leaves the progress of the operations. *)
Class OpsLaws := {
  op_trace : W -> list bytes;
  op_create_quiet m h : exists i h', op_instance_create m h = Ret (i, h') /\
    hs_ops (h_guest h') = hs_ops (h_guest h) /\
    op_trace (hs_world (h_guest h')) = op_trace (hs_world (h_guest h));
  op_destroy_quiet i h : exists h', op_instance_destroy i h = Ret (tt, h') /\
    hs_ops (h_guest h') = hs_ops (h_guest h) /\
    op_trace (hs_world (h_guest h')) = op_trace (hs_world (h_guest h));
}.

Context `{!OpsLaws}.

Definition progress (h : heap (http_state W)) : ngx_wasm_op_ctx_t := hs_ops (h_guest h).
Definition called (h : heap (http_state W)) : list bytes := op_trace (hs_world (h_guest h)).

(** A function that returns or traps, and runs no other phase of the request. *)
Definition quiet (fn : bytes) : Prop := forall i h, exists rc h',
  op_instance_call i fn h = Ret (rc, h') /\ (rc = NGX_OK \/ rc = NGX_ERROR \/ rc = NGX_ABORT) /\
  progress h' = progress h /\ called h' = called h ++ [fn].

(** The operations are loaded calls of [names], from position [p] of their pipeline. *)
Fixpoint calls_from (plan : ngx_wasm_ops_plan_t) (p : nat) (ops : list addr)
    (names : list bytes) : Prop :=
  match ops, names with
  | [], [] => True
  | a :: ops, fn :: names =>
      (exists op, pl_ops plan !! a = Some op /\ op_handler_f op = Some H_call /\
        op_code op = NGX_WASM_OP_CALL /\ op_idx op = p /\ op_funcref op = Some fn) /\
      calls_from plan (S p) ops names
  | _, _ => False
  end.

(** How a pipeline of calls can end: all of them run, or stopped by the last one. *)
Definition stops (rc : ngx_rc) (c j n : nat) : Prop :=
  (rc = NGX_DECLINED /\ j = n) \/ (rc = NGX_AGAIN /\ (c < j)%nat) \/ rc = NGX_ERROR.

Lemma gets_Ret {A} (f : http_state W -> A) h : gets f h = Ret (f (h_guest h), h).
Proof. unfold gets, guest. by destruct h. Qed.

Lemma puts_Ret f (h : heap (http_state W)) :
  puts f h = Ret (tt, with_guest (f (h_guest h)) h).
Proof. done. Qed.

(** One call whose turn it is. *)
Lemma call_handler_runs op fn p (h : heap (http_state W)) :
  op_code op = NGX_WASM_OP_CALL -> op_idx op = p -> op_funcref op = Some fn -> quiet fn ->
  oc_cur_idx (progress h) = p ->
  exists rc h' j, ngx_wasm_op_call_handler op h = Ret (rc, h') /\
    (j = p \/ j = S p) /\ progress h' = set_op_progress (oc_last_phase (progress h)) j (progress h) /\
    called h' = called h ++ take (j - p) [fn] /\
    ((rc = NGX_DECLINED /\ j = S p) \/ (rc = NGX_AGAIN /\ j = S p) \/ rc = NGX_ERROR).
Proof.
  intros Hcode Hidx Hf Hq Hc. unfold ngx_wasm_op_call_handler. rewrite Hcode, Hf, Hidx.
  mstep (assert_Ret debug true h eq_refl). mstep (gets_Ret hs_ops h).
  fold (progress h). rewrite Hc, Nat.ltb_irrefl.
  destruct (op_create_quiet (op_module op) h) as (i & h1 & E1 & Ho1 & Ht1). mstep E1.
  destruct i as [i|].
  2: { exists NGX_ERROR, h1, p. rewrite Nat.sub_diag, take_0, app_nil_r.
       split_and!; try done; [by left| |by right; right].
       unfold progress in *. rewrite Ho1, <- Hc. by destruct (hs_ops (h_guest h)). }
  destruct (Hq i h1) as (rc & h2 & E2 & Hrc & Hp2 & Hc2). mstep E2.
  destruct (op_destroy_quiet i h2) as (h3 & E3 & Ho3 & Ht3). mstep E3.
  mstep (puts_Ret (with_ops (fun o => set_op_progress (oc_last_phase o) (S (oc_cur_idx o)) o)) h3).
  set (h4 := with_guest _ h3).
  assert (Hp4 : progress h4 = set_op_progress (oc_last_phase (progress h)) (S p) (progress h)).
  { unfold h4, progress in *. simpl. rewrite Ho3, Hp2, Ho1. by rewrite Hc. }
  assert (Hc4 : called h4 = called h ++ take (S p - p) [fn]).
  { rewrite Nat.sub_succ_l, Nat.sub_diag by done. unfold h4, called in *. simpl.
    by rewrite Ht3, Hc2, Ht1. }
  clearbody h4.
  destruct (bool_decide_reflect (rc = NGX_ERROR)), (bool_decide_reflect (rc = NGX_ABORT));
    cbn [orb]; [exists NGX_ERROR, h4, (S p); split_and!; auto..|].
  assert (rc = NGX_OK) as -> by naive_solver. change (is_ok NGX_OK) with true.
  mstep (assert_Ret debug true h4 eq_refl). mstep (gets_Ret hs_ext h4).
  eexists _, h4, (S p). split_and!; [reflexivity|auto..|]. destruct (rc_env_state _); auto.
Qed.

(** A pipeline of calls from position [p], the next one to run at [c]. *)
Lemma run_calls li plan phase ops names p c rc0 (h : heap (http_state W)) :
  calls_from plan p ops names -> Forall quiet names -> (p <= c <= p + length names)%nat ->
  oc_cur_idx (progress h) = c -> (names = [] -> rc0 = NGX_DECLINED) ->
  exists rc h' j, run_pipeline li plan phase ops rc0 h = Ret (rc, h') /\
    (c <= j <= p + length names)%nat /\
    progress h' = set_op_progress (oc_last_phase (progress h)) j (progress h) /\
    called h' = called h ++ take (j - c) (drop (c - p) names) /\
    stops rc c j (p + length names).
Proof.
  revert names p c rc0 h. induction ops as [|a ops IH]; intros [|fn names] p c rc0 h; try done.
  - intros _ _ Hle Hc Hrc. simpl in Hle. assert (p = c) as -> by lia.
    exists rc0, h, c. simpl. rewrite drop_nil, take_nil, app_nil_r.
    split_and!; [done|lia|lia| |done|left; split; [auto|lia]].
    unfold set_op_progress. rewrite <- Hc. by destruct (progress h).
  - intros [(op & Hop & Hh & Hcode & Hidx & Hf) Hcalls] [Hq Hqs]%Forall_cons Hle Hc _.
    simpl in Hle. simpl run_pipeline. rewrite Hop. mstep (lift_Ret h op).
    unfold run_op. rewrite Hh.
    destruct (decide (c = p)) as [->|Hne].
    + destruct (call_handler_runs op fn p h Hcode Hidx Hf Hq Hc)
        as (rc & h1 & j & E & Hj & Hp1 & Hc1 & Hrc).
      mstep E. rewrite Nat.sub_diag, drop_0.
      destruct Hrc as [[-> ->] | [[-> ->] | ->]]; cbn [op_failed]; cbn match.
      * rewrite bool_decide_eq_true_2 by done.
        destruct (IH names (S p) (S p) NGX_DECLINED h1) as (rc & h' & j & E' & Hj' & Hp' & Hc' & Hst);
          [done..|simpl; lia|by rewrite Hp1|done|].
        exists rc, h', j. split_and!; [exact E'|lia|simpl; lia| | |].
        -- by rewrite Hp', Hp1.
        -- rewrite Hc', Hc1, Nat.sub_diag, drop_0, Nat.sub_succ_l, Nat.sub_diag by done.
           rewrite <- app_assoc. f_equal. simpl.
           destruct (j - p)%nat as [|n] eqn:En; [lia|]. simpl. do 2 f_equal. lia.
        -- destruct Hst as [[-> ->] | [[-> Hl] | ->]]; [left; split; [done|simpl; lia]| |by right; right].
           right; left. split; [done|lia].
      * rewrite bool_decide_eq_false_2 by done. exists NGX_AGAIN, h1, (S p).
        split_and!; [done|lia|simpl; lia|done| |right; left; split; [done|lia]].
        rewrite Hc1, Nat.sub_succ_l, Nat.sub_diag by done. done.
      * exists NGX_ERROR, h1, j. split_and!; [done|lia|simpl; lia|done| |by right; right].
        rewrite Hc1. destruct Hj as [->| ->].
        -- by rewrite Nat.sub_diag.
        -- by rewrite Nat.sub_succ_l, Nat.sub_diag.
    + assert (E : ngx_wasm_op_call_handler op h = Ret (NGX_DECLINED, h)).
      { unfold ngx_wasm_op_call_handler. rewrite Hcode, Hf, Hidx.
        mstep (assert_Ret debug true h eq_refl). mstep (gets_Ret hs_ops h).
        fold (progress h). rewrite Hc.
        destruct (Nat.ltb_spec p c); [done|lia]. }
      mstep E. cbn [op_failed]. cbn match. rewrite bool_decide_eq_true_2 by done.
      destruct (IH names (S p) c NGX_DECLINED h) as (rc & h' & j & E' & Hj' & Hp' & Hc' & Hst);
        [done..|simpl; lia|done|done|].
      exists rc, h', j. split_and!; [exact E'|lia|simpl; lia|done| |].
      * rewrite Hc'. f_equal. f_equal. destruct (c - p)%nat as [|n] eqn:En; [lia|].
        simpl. f_equal. lia.
      * replace (p + length (fn :: names))%nat with (S p + length names)%nat by (simpl; lia). done.
Qed.

(** Where the calls of a phase start: over, when the last phase was another one. *)
Definition start_idx (idx : Z) (o : ngx_wasm_op_ctx_t) : nat :=
  match oc_last_phase o with
  | Some last => if last =? idx then oc_cur_idx o else 0%nat
  | None => oc_cur_idx o
  end.

Definition resumable (plan : ngx_wasm_ops_plan_t) (idx : Z) (names : list bytes) : Prop :=
  is_Some (ngx_wasm_phase_lookup (ngx_http_wasm_phases response_trailers) idx) /\
  calls_from plan 0 (pipeline plan idx) names /\ Forall quiet names.

Lemma phase_lookup_index phases idx ph :
  ngx_wasm_phase_lookup phases idx = Some ph -> ph_index ph = idx.
Proof.
  induction phases as [|p phases IH]; [done|]. simpl.
  destruct (Z.eqb_spec (ph_index p) idx); [by intros [= <-]|done].
Qed.

Lemma resume_reset (o : option Z) idx (h : heap (http_state W)) :
  oc_last_phase (progress h) = o ->
  exists h1,
    (match o with
     | Some last => if negb (last =? idx)
                    then puts (with_ops (fun o => set_op_progress (oc_last_phase o) 0 o))
                    else mret tt
     | None => mret tt
     end) h = Ret (tt, h1) /\
    progress h1 = set_op_progress o (start_idx idx (progress h)) (progress h) /\
    called h1 = called h.
Proof.
  intros Ho. unfold start_idx. rewrite Ho.
  assert (E : set_op_progress o (oc_cur_idx (progress h)) (progress h) = progress h)
    by (rewrite <- Ho; by destruct (progress h)).
  destruct o as [last|]; [destruct (last =? idx); cbn [negb]|]; [by exists h| |by exists h].
  eexists. split_and!; [reflexivity| |reflexivity]. unfold progress in *. simpl. by rewrite <- Ho.
Qed.

(** One resume of a phase runs the calls from its start on, up to one that yields or
    fails, and remembers where it stopped. *)
Lemma resume_segment li plan idx names (h : heap (http_state W)) :
  resumable plan idx names -> (start_idx idx (progress h) <= length names)%nat ->
  let k := start_idx idx (progress h) in
  exists rc h' j, ngx_wasm_ops_resume li plan idx h = Ret (rc, h') /\
    (k <= j <= length names)%nat /\ oc_cur_idx (progress h') = j /\
    called h' = called h ++ take (j - k) (drop k names) /\ stops rc k j (length names) /\
    (rc <> NGX_ERROR -> oc_last_phase (progress h') = Some idx).
Proof.
  intros ([ph Hph] & Hcalls & Hq) Hk k. unfold ngx_wasm_ops_resume. rewrite Hph.
  rewrite (phase_lookup_index _ _ _ Hph). mstep (gets_Ret hs_ops h). fold (progress h).
  destruct (resume_reset (oc_last_phase (progress h)) idx h eq_refl) as (h1 & E1 & Hp1 & Hc1).
  mstep E1.
  destruct (run_calls li plan (ph_phase ph) _ names 0 k NGX_DECLINED h1 Hcalls Hq)
    as (rc & h2 & j & E2 & Hj & Hp2 & Hc2 & Hst); [lia|by rewrite Hp1|done|].
  mstep E2. rewrite Nat.sub_0_r, Hc1 in Hc2. simpl in Hj, Hst.
  destruct (decide (rc = NGX_ERROR)) as [->|Hne]; cbn [op_failed]; cbn match.
  - exists NGX_ERROR, h2, j. split_and!; [done|lia|lia|by rewrite Hp2|done|done|done].
  - assert (op_failed rc = false /\ rc ∈ [NGX_OK; NGX_DECLINED; NGX_AGAIN; NGX_DONE]) as [-> Hin].
    { destruct Hst as [[-> _] | [[-> _] | ->]]; split; try done; set_solver. }
    mstep (assert_Ret debug _ h2 (bool_decide_eq_true_2 _ Hin)).
    mstep (puts_Ret (with_ops (fun o => set_op_progress (Some idx) (oc_cur_idx o) o)) h2).
    eexists rc, _, j. split_and!; [reflexivity|lia|lia| |exact Hc2|done|done].
    unfold progress in *. simpl. by rewrite Hp2.
Qed.

(** A phase is resumed until it does not yield any more; in between, the request waits:
    no operation of it runs. *)
Inductive phase_run (li : ngx_proxy_wasm_isolation_mode_e) (plan : ngx_wasm_ops_plan_t) (idx : Z) :
    heap (http_state W) -> list ngx_rc -> heap (http_state W) -> Prop :=
| run_ends h rc h' :
    ngx_wasm_ops_resume li plan idx h = Ret (rc, h') -> rc <> NGX_AGAIN ->
    phase_run li plan idx h [rc] h'
| run_yields h h1 h2 rcs h' :
    ngx_wasm_ops_resume li plan idx h = Ret (NGX_AGAIN, h1) ->
    progress h2 = progress h1 -> called h2 = called h1 ->
    phase_run li plan idx h2 rcs h' ->
    phase_run li plan idx h (NGX_AGAIN :: rcs) h'.

(** A phase comes to its end: every resume that yields has called one more function. *)
Lemma phase_ends li plan idx names (h : heap (http_state W)) :
  resumable plan idx names -> (start_idx idx (progress h) <= length names)%nat ->
  exists rcs h', phase_run li plan idx h rcs h'.
Proof.
  intros Hr. remember (length names - start_idx idx (progress h))%nat as n eqn:En.
  revert h En. induction (lt_wf n) as [n _ IH]. intros h En Hk.
  destruct (resume_segment li plan idx names h Hr Hk)
    as (rc & h1 & j & E & Hj & Hcur & _ & Hst & Hlast).
  destruct (decide (rc = NGX_AGAIN)) as [->|Hne]; [|exists [rc], h1; by apply run_ends].
  destruct Hst as [[? _] | [[_ Hlt] | ?]]; [done| |done].
  assert (Hs : start_idx idx (progress h1) = j)
    by (unfold start_idx; rewrite Hlast by done; by rewrite Z.eqb_refl).
  destruct (IH (length names - j)%nat ltac:(lia) h1) as (rcs & h' & Hrun); [lia|lia|].
  exists (NGX_AGAIN :: rcs), h'. by eapply run_yields.
Qed.

(** What a run calls, and how it ends. *)
Lemma phase_run_calls li plan idx names (h h' : heap (http_state W)) rcs :
  resumable plan idx names -> (start_idx idx (progress h) <= length names)%nat ->
  phase_run li plan idx h rcs h' ->
  let k := start_idx idx (progress h) in
  exists rc j, last rcs = Some rc /\ (k <= j <= length names)%nat /\
    called h' = called h ++ take (j - k) (drop k names) /\
    (length rcs <= S (j - k))%nat /\
    ((rc = NGX_DECLINED /\ j = length names) \/ rc = NGX_ERROR).
Proof.
  intros Hr Hk Hrun. induction Hrun as [h rc h' E Hne|h h1 h2 rcs h' E Hp Hc Hrun IH]; intros k.
  - destruct (resume_segment li plan idx names h Hr Hk) as (rc' & h1 & j & E' & Hj & _ & Hc & Hst & _).
    rewrite E in E'. injection E' as <- <-. exists rc, j.
    split_and!; [done|fold k in Hj; lia|lia|done|simpl; lia|].
    destruct Hst as [Hst | [[-> _] | ->]]; [by left|done|by right].
  - destruct (resume_segment li plan idx names h Hr Hk)
      as (rc' & h1' & j & E' & Hj & Hcur & Hcl & Hst & Hlast).
    rewrite E in E'. injection E' as <- <-. fold k in Hj, Hcl, Hst.
    destruct Hst as [[? _] | [[_ Hlt] | ?]]; [done| |done].
    assert (Hs : start_idx idx (progress h2) = j).
    { rewrite Hp. unfold start_idx. rewrite Hlast by done. by rewrite Z.eqb_refl. }
    destruct IH as (rc & j' & Hl & Hj' & Hc' & Hlen & Hend); [lia|]. rewrite Hs in Hj', Hc', Hlen.
    exists rc, j'. split_and!; [|lia|lia| |simpl; lia|done].
    + destruct rcs; [done|exact Hl].
    + rewrite Hc', Hc, Hcl, <- app_assoc. f_equal.
      replace (drop j names) with (drop (j - k) (drop k names))
        by (rewrite drop_drop; f_equal; lia).
      rewrite <- (take_drop (j - k) (take (j' - k) (drop k names))), take_take, skipn_firstn_comm.
      f_equal; f_equal; lia.
Qed.

(** C17. The functions a location calls in a phase, when none of them makes the request run another
    phase (they are [quiet]; [call_repeated_after_headers] is one that is not), are called once
    each and in order, however often they make the request yield. The phase comes to its end,
    after at most as many yields as there are functions; then those called are all of them or,
    when it failed, the first ones. *)
Theorem phase_calls_each_once li plan idx names (h : heap (http_state W)) :
  resumable plan idx names -> start_idx idx (progress h) = 0%nat ->
  (exists rcs h', phase_run li plan idx h rcs h') /\
  forall rcs h', phase_run li plan idx h rcs h' ->
    exists rc j, last rcs = Some rc /\ called h' = called h ++ take j names /\
      (length rcs <= S j)%nat /\ (j <= length names)%nat /\
      ((rc = NGX_DECLINED /\ j = length names) \/ rc = NGX_ERROR).
Proof.
  intros Hr Hs. split; [apply (phase_ends _ _ _ names); [done|rewrite Hs; lia]|]. intros rcs h' Hrun.
  destruct (phase_run_calls _ _ _ names _ _ _ Hr ltac:(rewrite Hs; lia) Hrun)
    as (rc & j & Hl & Hj & Hc & Hlen & Hend).
  rewrite Hs, Nat.sub_0_r, drop_0 in *. exists rc, j. split_and!; auto; lia.
Qed.


(** Once the body of a request was read in its content phase, the phase answers that the request
    goes on only when there is a response: what the content passes of [HttpPhases] rely on. *)
Lemma content_read_body_answer (h h' : heap (http_state W)) :
  content_read_body h = Ret (NGX_OK, h') -> rc_req_body_received (hs_ext (h_guest h')) = true ->
  rc_resp_content_chosen (hs_ext (h_guest h')) = true.
Proof.
  unfold content_read_body. intros (rc & h1 & E1 & E2)%bind_Ret_inv Hr.
  revert E2. intros (x & h2 & E2 & E3)%bind_Ret_inv. rewrite gets_Ret in E2. injection E2 as <- <-.
  destruct rc; try (injection E3; done).
  injection E3 as E3 <-. rewrite Hr in E3. repeat case_bool_decide; try done.
  by destruct (rc_resp_content_chosen _).
Qed.

End ops.
End Ops.

(** ** Concrete plans

    Functions that yield, trap or send the headers of the response; the world keeps the
    functions called. *)
Module OpsRuns.
Import ProxyWasm HttpProxyWasm Ops.

#[export] Instance quiet_wavm : Wavm (http_state (list bytes)) := {
  wrt_call s i name args action :=
    {| cr_guest := s; cr_rc := NGX_OK; cr_ret := 0; cr_action := action; cr_tick := None |};
  ngx_wavm_instance_create s _ _ := (true, s);
  ngx_wavm_instance_destroy s _ := s;
  ngx_palloc s := (true, s);
  wasm_acl_init s := (true, s);
}.

#[export] Existing Instance NginxCore.Reference.spine_rbtree.

Definition log_call (fn : bytes) (s : http_state (list bytes)) : http_state (list bytes) :=
  {| hs_r := hs_r s; hs_rctx := hs_rctx s; hs_ext := hs_ext s; hs_stream := hs_stream s;
     hs_ops := hs_ops s; hs_bufs := hs_bufs s; hs_dispatch := hs_dispatch s;
     hs_foreign := hs_foreign s; hs_world := hs_world s ++ [fn] |}.

Definition the_module : Abi.ngx_wavm_module_t :=
  {| Abi.m_name := ngx_string "m"; Abi.m_loaded := true;
     Abi.m_exports := [ngx_string "a"; ngx_string "yield"; ngx_string "trap"; ngx_string "say"];
     Abi.m_funcs := [ngx_string "a"; ngx_string "yield"; ngx_string "trap"; ngx_string "say"] |}.

Definition empty_plan : ngx_wasm_ops_plan_t :=
  {| pl_ops := ∅; pl_pipelines := ∅; pl_filter_ids := []; pl_tree := Sentinel;
     pl_populated := false; pl_loaded := true |}.

(** [inner] is what sending the headers does. *)
Definition env_of (inner : M (http_state (list bytes)) unit) : OpsEnv (list bytes) := {|
  vm_module _ := the_module;
  ngx_wavm_module_link _ := mret NGX_OK;
  op_instance_create _ := mret (Some 1%positive);
  op_instance_call _ fn :=
    (puts (log_call fn);;
     if bool_decide (fn = ngx_string "yield") then
       puts (with_ext (fun x => set_data_env (rc_data x) NGX_WASM_STATE_YIELD x));; mret NGX_OK
     else if bool_decide (fn = ngx_string "trap") then mret NGX_ABORT
     else if bool_decide (fn = ngx_string "say") then inner;; mret NGX_OK
     else mret NGX_OK);
  op_instance_destroy _ := mret tt;
  ngx_http_wasm_read_client_request_body := mret NGX_OK;
  filter_config _ := [];
  filter_data _ := 0;
|}.

(** The header filter runs inside of the call, with no operation of its own. *)
Definition header_filter : M (http_state (list bytes)) unit :=
  @ngx_wasm_ops_resume _ _ _ (env_of (mret tt)) false false false (fun _ => []) (fun _ => [])
    ISOLATION_NONE empty_plan (phase_index NGX_HTTP_WASM_HEADER_FILTER_PHASE);;
  mret tt.

#[export] Instance the_env : OpsEnv (list bytes) := env_of header_filter.

#[export] Instance the_laws : OpsLaws.
Proof.
  refine {| op_trace := fun w => w |}.
  - intros m h. by eexists _, h.
  - intros i h. by exists h.
Defined.

Definition call_op (name : bytes) (on : Z) : ngx_wasm_op_t :=
  {| op_on_phases := on; op_code := NGX_WASM_OP_CALL; op_module := 1; op_handler_f := None;
     op_idx := 0; op_func_name := name; op_funcref := None; op_filter := 1%positive |}.

(** The plan of [wasm_call content m a; wasm_call content m second; wasm_call content m
    yield; wasm_call log m a]. *)
Definition plan_of (second : bytes) : ngx_wasm_ops_plan_t :=
  {| pl_ops := <[1%positive := call_op (ngx_string "a") (Z.shiftl 1 9)]>
       (<[2%positive := call_op second (Z.shiftl 1 9)]>
       (<[3%positive := call_op (ngx_string "yield") (Z.shiftl 1 9)]>
       {[4%positive := call_op (ngx_string "a") (Z.shiftl 1 10)]}));
     pl_pipelines := ∅; pl_filter_ids := []; pl_tree := Sentinel; pl_populated := false;
     pl_loaded := false |}.

Definition no_request : http_state (list bytes) :=
  {| hs_r := {| r_headers_in := []; r_headers_out := {| ho_status := 0; ho_headers := [];
       ho_trailers := []; ho_content_type := []; ho_content_length := false;
       ho_content_length_n := -1 |};
       r_body := {| Bodies.rq_request_body := None; Bodies.rq_content_length_n := -1 |};
       r_temp_file := None; r_upstream := None; r_keepalive := true; r_chunked := false;
       r_gzip_vary := false; r_main := true; r_keepalive_header := 0;
       r_pwm_req_headers_in_access := false |};
     hs_rctx := {| BodyFilter.rx_free_bufs := None; BodyFilter.rx_resp_bufs := None;
       BodyFilter.rx_resp_buf_last := None; BodyFilter.rx_resp_bufs_count := 0;
       BodyFilter.rx_resp_chunk := None; BodyFilter.rx_resp_chunk_len := 0;
       BodyFilter.rx_resp_chunk_eof := false; BodyFilter.rx_resp_buffering := false;
       BodyFilter.rx_resp_chunk_override := false; BodyFilter.rx_entered_header_filter := false;
       BodyFilter.rx_entered_body_filter := false; BodyFilter.rx_buf_tag := 1;
       BodyFilter.rx_data := false; BodyFilter.rx_main := true |};
     hs_ext := {| rc_data := None; rc_env_state := NGX_WASM_STATE_CONTINUE; rc_shims := None;
       rc_reset_resp_shims := false; rc_req_content_length_n := 0;
       rc_resp_content_length_n := 0; rc_req_keepalive := false;
       rc_in_req_body_handler := false; rc_req_body_waited := false;
       rc_req_body_received := false; rc_resp_content_chosen := false;
       rc_fake_request := false |};
     hs_stream := {| sx_req_body_len := 0; sx_req_headers_in_access := false; sx_main := true |};
     hs_ops := {| oc_last_phase := None; oc_cur_idx := 0; oc_isolation := ISOLATION_UNSET;
       oc_req_headers_in_access := false; oc_next_id := 0 |};
     hs_bufs := {| Chains.s_links := ∅; Chains.s_pool := [] |};
     hs_dispatch := ∅; hs_foreign := ∅; hs_world := [] |}.

Definition heap0 : heap (http_state (list bytes)) :=
  {| h_execs := ∅; h_ctxs := ∅; h_insts := ∅; h_stores := ∅; h_filters := ∅;
     h_guest := no_request |}.

Definition value {A} (d : A) (m : M (http_state (list bytes)) A) (h : heap _) : A :=
  match m h with Ret (a, _) => a | Fault _ => d end.
Definition after {A} (m : M (http_state (list bytes)) A) (h : heap _) : heap _ :=
  match m h with Ret (_, h') => h' | Fault _ => h end.

(** The plan as the directives fill it and the worker loads it. *)
Definition loaded (second : bytes) : ngx_wasm_ops_plan_t :=
  let add := ngx_wasm_ops_plan_add false [1; 2; 3; 4]%positive (plan_of second) in
  let plan := (value (NGX_ERROR, plan_of second) add heap0).2 in
  (value (NGX_ERROR, plan) (ngx_wasm_ops_plan_load true (fun _ => []) (fun _ => 0) plan) heap0).2.

Definition resume_content (second : bytes) : M (http_state (list bytes)) ngx_rc :=
  ngx_wasm_ops_resume true false false (fun _ => []) (fun _ => []) ISOLATION_NONE
    (loaded second) (phase_index NGX_HTTP_CONTENT_PHASE).

(** The request goes on after a yield. *)
Definition woken (h : heap (http_state (list bytes))) : heap (http_state (list bytes)) :=
  after (puts (with_ext (fun x => set_data_env (rc_data x) NGX_WASM_STATE_CONTINUE x))) h.

Lemma quiet_ok fn : fn <> ngx_string "say" -> quiet fn.
Proof.
  intros Hfn i h. cbn [op_instance_call the_env env_of]. unfold mbind, M_bind. simpl.
  rewrite (bool_decide_eq_false_2 (fn = ngx_string "say")) by done.
  repeat case_bool_decide; subst; eexists _, _; (split; [reflexivity|]); split_and!; auto.
Qed.

(** [a; yield; yield]: three resumes, three calls. *)
Lemma phase_calls_each_once_witness :
  let names := [ngx_string "a"; ngx_string "yield"; ngx_string "yield"] in
  exists h', phase_run true false false (fun _ => []) (fun _ => []) ISOLATION_NONE
      (loaded (ngx_string "yield")) (phase_index NGX_HTTP_CONTENT_PHASE) heap0
      [NGX_AGAIN; NGX_AGAIN; NGX_DECLINED] h' /\
    hs_world (h_guest h') = names.
Proof.
  intros names. set (m := resume_content (ngx_string "yield")).
  set (h1 := woken (after m heap0)). set (h2 := woken (after m h1)). set (h3 := after m h2).
  assert (Hrun : phase_run true false false (fun _ => []) (fun _ => []) ISOLATION_NONE
      (loaded (ngx_string "yield")) (phase_index NGX_HTTP_CONTENT_PHASE) heap0
      [NGX_AGAIN; NGX_AGAIN; NGX_DECLINED] h3).
  { apply (run_yields _ _ _ _ _ _ _ _ heap0 (after m heap0) h1);
      [vm_compute; reflexivity..|].
    apply (run_yields _ _ _ _ _ _ _ _ h1 (after m h1) h2);
      [vm_compute; reflexivity..|].
    apply run_ends; [vm_compute; reflexivity|done]. }
  exists h3. split; [exact Hrun|].
  assert (Hr : resumable false (loaded (ngx_string "yield"))
    (phase_index NGX_HTTP_CONTENT_PHASE) names).
  { split_and!.
    - by eexists.
    - vm_compute. split_and!; try exact I; eexists; split_and!; reflexivity.
    - repeat (apply Forall_cons; split; [apply quiet_ok; done|]). by apply Forall_nil. }
  destruct (phase_calls_each_once true false false (fun _ => []) (fun _ => []) ISOLATION_NONE
    (loaded (ngx_string "yield")) (phase_index NGX_HTTP_CONTENT_PHASE) names heap0 Hr ltac:(vm_compute; reflexivity))
    as [_ Hall].
  destruct (Hall _ _ Hrun) as (rc & j & Hl & Hc & _ & _ & Hend).
  injection Hl as <-. destruct Hend as [[_ ->]|?]; [exact Hc|done].
Defined.

(** The rewrite phase of the request is over. *)
Definition rewritten : heap (http_state (list bytes)) :=
  after (ngx_wasm_ops_resume true false false (fun _ => []) (fun _ => []) ISOLATION_NONE
    empty_plan (phase_index NGX_HTTP_REWRITE_PHASE)) heap0.

(** [a; say; yield]: sending the headers runs the header filter phase inside of the
    call, which starts the count of calls over; the function that yielded is called
    again. *)
Example call_repeated_after_headers :
  let m := resume_content (ngx_string "say") in
  hs_world (h_guest (after m (woken (after m rewritten))))
  = [ngx_string "a"; ngx_string "say"; ngx_string "yield"; ngx_string "yield"].
Proof. vm_compute. done. Qed.

(** A phase that is entered again with no other phase in between calls nothing: its
    calls all ran. *)
Example calls_not_run_again :
  let m := resume_content (ngx_string "a") in
  let h := after m (woken (after m heap0)) in
  hs_world (h_guest (after m (woken h))) = hs_world (h_guest h).
Proof. vm_compute. done. Qed.

End OpsRuns.
