(* ===== verification/ResponseBuffering.v ===== *)
(** * Response buffering, end to end

    The body filter of [BodyFilter] with the filters of a request run by [Ops],
    [FilterChain] and [HttpProxyWasm]: once a response was buffered, the run of the
    filters on the buffers comes to its end without asking for buffering again. *)
From S2P Require Import Prelude NginxCore Chains BodyFilter Bodies ProxyWasm.
From S2P Require Import Abi Instances Frame FilterChain HttpProxyWasm Ops.
From stdpp Require Export list gmap.
#[global] Open Scope Z_scope.

Module ResponseBuffering.
Import ProxyWasm Instances Frame FilterChain HttpProxyWasm Ops.

Section buffering.
Context {W : Type} `{Wavm (http_state W)} `{!WavmLaws (http_state W)} `{Rbtree} `{!OpsEnv W}.
Context (debug response_trailers http_gzip : bool) (sprintf_O sprintf_T : Z -> bytes).
Abbreviation M := (M (http_state W)).
Implicit Types h : heap (http_state W).

#[local] Instance buffering_subsystem : Subsystem (http_state W) :=
  ngx_http_proxy_wasm debug response_trailers http_gzip sprintf_O sprintf_T.

Abbreviation resp_bufs g := (BodyFilter.rx_resp_bufs (hs_rctx g)).
Abbreviation buffering g := (BodyFilter.rx_resp_buffering (hs_rctx g)).

(** What the host functions leave alone: the buffers of a response are the body
    filter's.  A debug build asserts that an action has a name. *)
Class HostLaws : Prop := {
  call_resp_bufs g i n args a : resp_bufs (cr_guest (wrt_call g i n args a)) = resp_bufs g;
  call_buffering g i n args a : buffering (cr_guest (wrt_call g i n args a)) = buffering g;
  call_action g i n args a : debug = true ->
    (ACTION_CONTINUE <=? cr_ret (wrt_call g i n args a)) &&
    (cr_ret (wrt_call g i n args a) <=? ACTION_CLOSE) = true;
}.

Context `{!HostLaws}.
(** The stream and its contexts, and the buffers of the response. *)
Context (pwctx : addr) (execs : list addr) (bufs : option addr) (asked : bool).

(** ** Chains that can be entered *)

(** A context of the chain; when [ok], it did not fail and its instance did not trap. *)
Definition wired (ok : bool) h (a : addr) : Prop := exists e f i v,
  h_execs h !! a = Some e /\ (pe_root_id e =? NGX_PROXY_WASM_ROOT_CTX_ID) = false /\
  pe_parent e = Some pwctx /\ pe_ictx e = Some i /\ h_insts h !! i = Some v /\
  h_filters h !! pe_filter e = Some f /\ (f_module f =? is_module v) = true /\
  is_Some (funcref f proxy_on_http_response_body) /\
  (ok = true -> pe_ecode e = ERR_NONE /\ is_trapped v = false).

Record chain_state (ok : bool) h (c : ngx_proxy_wasm_ctx_t) : Prop := {
  cs_ctx : h_ctxs h !! pwctx = Some c;
  cs_execs : pw_pwexecs c = execs;
  cs_nfilters : pw_nfilters c = length execs;
  cs_phase : pw_phase c = Some NGX_HTTP_WASM_BODY_FILTER_PHASE;
  cs_bufs : resp_bufs (h_guest h) = bufs;
  cs_buffering : buffering (h_guest h) = asked;
  cs_wired : forall a, a ∈ execs -> wired ok h a;
}.

(** The chain is at the same place. *)
Definition same_place (c c' : ngx_proxy_wasm_ctx_t) : Prop :=
  pw_exec_index c' = pw_exec_index c /\ pw_step c' = pw_step c.

Lemma wired_weaken h a ok : wired true h a -> wired ok h a.
Proof. intros (e & f & i & v & ?&?&?&?&?&?&?&?&?). exists e, f, i, v. split_and!; auto. Qed.

Lemma state_weaken h c ok : chain_state true h c -> chain_state ok h c.
Proof. intros []. split; try done. intros a Ha. apply wired_weaken. auto. Qed.

Lemma state_ctx ok h c c' :
  chain_state ok h c -> pw_pwexecs c' = pw_pwexecs c -> pw_nfilters c' = pw_nfilters c ->
  pw_phase c' = pw_phase c ->
  chain_state ok (with_ctxs (<[pwctx := c']> (h_ctxs h)) h) c'.
Proof.
  intros [Hc He Hn Hp Hb Hf Hw] E1 E2 E3. split; simpl; try congruence; [|exact Hw].
  apply lookup_insert_eq.
Qed.

Lemma state_exec ok ok' h c a e e' :
  chain_state ok h c -> h_execs h !! a = Some e ->
  pe_root_id e' = pe_root_id e -> pe_parent e' = pe_parent e -> pe_ictx e' = pe_ictx e ->
  pe_filter e' = pe_filter e ->
  (ok' = true -> ok = true /\ (pe_ecode e = ERR_NONE -> pe_ecode e' = ERR_NONE)) ->
  chain_state ok' (with_execs (<[a := e']> (h_execs h)) h) c.
Proof.
  intros [Hc He Hn Hp Hb Hf Hw] Ha E1 E2 E3 E4 Hok. split; try done. intros b Hin.
  destruct (Hw b Hin) as (eb & f & i & v & K1 & K2 & K3 & K4 & K5 & K6 & K7 & K8 & K9).
  destruct (decide (a = b)) as [<-|Hne].
  - rewrite Ha in K1. injection K1 as <-. exists e', f, i, v. simpl.
    rewrite lookup_insert_eq, E1, E2, E3, E4. split_and!; try done.
    intros E. destruct (Hok E) as [-> Hec]. destruct K9; auto.
  - exists eb, f, i, v. simpl. rewrite lookup_insert_ne by done. split_and!; try done.
    intros E. apply K9. by apply Hok.
Qed.

Lemma state_inst ok ok' h c i v v' :
  chain_state ok h c -> h_insts h !! i = Some v -> is_module v' = is_module v ->
  (ok' = true -> ok = true /\ is_trapped v' = is_trapped v) ->
  chain_state ok' (with_insts (<[i := v']> (h_insts h)) h) c.
Proof.
  intros [Hc He Hn Hp Hb Hf Hw] Hi E1 Hok. split; try done. intros b Hin.
  destruct (Hw b Hin) as (eb & f & j & vb & K1 & K2 & K3 & K4 & K5 & K6 & K7 & K8 & K9).
  destruct (decide (i = j)) as [<-|Hne].
  - rewrite Hi in K5. injection K5 as <-. exists eb, f, i, v'. simpl.
    rewrite lookup_insert_eq, E1. split_and!; try done.
    intros E. destruct (Hok E) as [-> ->]. auto.
  - exists eb, f, j, vb. simpl. rewrite lookup_insert_ne by done. split_and!; try done.
    intros E. apply K9. by apply Hok.
Qed.

Lemma state_guest ok h c g :
  chain_state ok h c -> resp_bufs g = resp_bufs (h_guest h) -> buffering g = buffering (h_guest h) ->
  chain_state ok (with_guest g h) c.
Proof. intros [] E1 E2. split; simpl; try done; congruence. Qed.

(** ** A call of the callback *)

Lemma guest_Ret {A} (f : http_state W -> A * http_state W) h :
  guest f h = Ret ((f (h_guest h)).1, with_guest (f (h_guest h)).2 h).
Proof. unfold guest. by destruct (f (h_guest h)). Qed.

(** What the host calls of a guest write. *)
Lemma host_writes_state h c a e r :
  chain_state true h c -> h_execs h !! a = Some e -> pe_parent e = Some pwctx ->
  exists h', host_writes (Some a) r h = Ret (tt, h') /\
    chain_state true h' (set_ctx_action (cr_action r) c) /\ h_insts h' = h_insts h.
Proof.
  intros S He Hp. unfold host_writes. mstep (read_exec_Ret _ _ _ He).
  assert (exists h1, (match cr_tick r with
                      | Some t => write_exec a (set_exec_tick_period t)
                      | None => mret tt end) h = Ret (tt, h1) /\ chain_state true h1 c /\
                     h_insts h1 = h_insts h) as (h1 & E1 & S1 & Hi1).
  { destruct (cr_tick r) as [t|]; [|by exists h].
    eexists. split; [apply (write_exec_Ret _ _ _ _ He)|]. split; [|done].
    by eapply state_exec. }
  mstep E1. rewrite Hp. eexists. split; [apply write_ctx_Ret, (cs_ctx _ _ _ S1)|].
  split; [|exact Hi1]. by apply (state_ctx true h1 c).
Qed.

Lemma body_call h c a e f i v args :
  chain_state true h c -> h_execs h !! a = Some e -> pe_parent e = Some pwctx ->
  h_insts h !! i = Some v -> is_pwexec v = Some a -> is_trapped v = false ->
  (f_module f =? is_module v) = true -> is_Some (funcref f proxy_on_http_response_body) ->
  exists rc r h' t,
    ngx_wavm_instance_call_funcref debug i f proxy_on_http_response_body args h
      = Ret ((rc, r), h') /\
    (rc = NGX_OK \/ rc = NGX_ERROR \/ rc = NGX_ABORT) /\
    chain_state (is_ok rc) h' (set_ctx_action t c) /\
    (debug = true -> (ACTION_CONTINUE <=? r) && (r <=? ACTION_CLOSE) = true).
Proof.
  intros S He Hp Hi Hv Ht Hm [name Hname]. unfold ngx_wavm_instance_call_funcref. rewrite Hname.
  mstep (lift_Ret h name). mstep (read_inst_Ret _ _ _ Hi). rewrite Hm.
  mstep (assert_Ret debug true h eq_refl).
  pose proof (wrt_call_rc (h_guest h) i name args (pw_action c)) as Hrc. cbv zeta in Hrc.
  set (r := wrt_call (h_guest h) i name args (pw_action c)) in *.
  assert (E : exists h', ngx_wavm_func_call i name args h = Ret ((cr_rc r, cr_ret r), h') /\
                chain_state (is_ok (cr_rc r)) h' (set_ctx_action (cr_action r) c)).
  { unfold ngx_wavm_func_call. mstep (read_inst_Ret _ _ _ Hi). rewrite Ht, Hv. cbn match.
    assert (Ea : current_action (Some a) h = Ret (pw_action c, h)).
    { unfold current_action. mstep (read_exec_Ret _ _ _ He). rewrite Hp.
      by mstep (read_ctx_Ret _ _ _ (cs_ctx _ _ _ S)). }
    mstep Ea. mstep (guest_Ret (fun g => let r := wrt_call g i name args (pw_action c) in
                                         (r, cr_guest r)) h).
    cbv zeta. cbn [fst snd]. fold r.
    destruct (host_writes_state (with_guest (cr_guest r) h) c a e r) as (h2 & E2 & S2 & Hi2);
      [|exact He|exact Hp|].
    { apply state_guest; [exact S|apply call_resp_bufs|apply call_buffering]. }
    mstep E2. destruct (bool_decide_reflect (cr_rc r = NGX_ABORT)) as [Ear|Har].
    - assert (Hi2' : h_insts h2 !! i = Some v) by (rewrite Hi2; exact Hi).
      mstep (write_inst_Ret _ _ _ (set_instance_trapped true) Hi2').
      eexists. split; [reflexivity|]. rewrite Ear. eapply state_inst; [exact S2|exact Hi2'|done|done].
    - mstep (mret_Ret h2 tt). exists h2. split; [done|].
      destruct (is_ok (cr_rc r)); [done|]. by apply state_weaken. }
  destruct E as (h' & E & S'). mstep E. cbn match.
  assert (Hin : cr_rc r ∈ [NGX_OK; NGX_ERROR; NGX_ABORT])
    by (destruct Hrc as [-> | [-> | ->]]; set_solver).
  mstep (assert_Ret debug _ h' (bool_decide_eq_true_2 _ Hin)).
  exists (cr_rc r), (cr_ret r), h', (cr_action r). split_and!; [done|done|done|].
  apply call_action.
Qed.

(** The callback on the buffers: it is not paused any more. *)
Lemma on_response_body_state h c a e f i v out :
  bufs <> None -> out <> ACTION_PAUSE ->
  (debug = true -> (ACTION_CONTINUE <=? out) && (out <=? ACTION_CLOSE) = true) ->
  chain_state true h c -> h_execs h !! a = Some e -> pe_parent e = Some pwctx ->
  pe_ictx e = Some i -> h_filters h !! pe_filter e = Some f ->
  h_insts h !! i = Some v -> is_pwexec v = Some a -> is_trapped v = false ->
  (f_module f =? is_module v) = true -> is_Some (funcref f proxy_on_http_response_body) ->
  exists rc r h' t,
    ngx_http_proxy_wasm_on_response_body debug a out h = Ret ((rc, r), h') /\
    (rc = NGX_OK \/ rc = NGX_ERROR \/ rc = NGX_ABORT) /\
    chain_state (is_ok rc) h' (set_ctx_action t c) /\ r <> ACTION_PAUSE /\
    (debug = true -> (ACTION_CONTINUE <=? r) && (r <=? ACTION_CLOSE) = true).
Proof.
  intros Hb Hout Hrange S He Hp Hic Hf Hi Hv Ht Hm Hfn.
  unfold ngx_http_proxy_wasm_on_response_body.
  assert (Einst : ngx_proxy_wasm_pwexec2instance a h = Ret (i, h)).
  { unfold ngx_proxy_wasm_pwexec2instance. mstep (read_exec_Ret _ _ _ He). rewrite Hic.
    mstep (lift_Ret h i). by mstep (read_inst_Ret _ _ _ Hi). }
  mstep Einst. mstep (gets_Ret hs_ext h).
  mstep (puts_Ret (with_rctx (content_length_eof (hs_ext (h_guest h)))) h).
  set (h1 := with_guest _ h).
  assert (S1 : chain_state true h1 c).
  { apply state_guest; [exact S|..]; simpl; unfold content_length_eof; by case_match. }
  mstep (gets_Ret hs_rctx h1).
  destruct (_ || _).
  2: { exists NGX_OK, out, h1, (pw_action c). split_and!; auto.
       change (is_ok NGX_OK) with true. by destruct c. }
  assert (He1 : h_execs h1 !! a = Some e) by exact He.
  assert (Hf1 : h_filters h1 !! pe_filter e = Some f) by exact Hf.
  mstep (read_exec_Ret _ _ _ He1). mstep (read_filter_Ret _ _ _ Hf1).
  destruct (body_call h1 c a e f i v
    [pe_id e; Z.of_nat (BodyFilter.rx_resp_chunk_len (hs_rctx (h_guest h1)));
     Z.b2z (BodyFilter.rx_resp_chunk_eof (hs_rctx (h_guest h1)))])
    as (rc & r & h2 & t & E & Hrc & S2 & Hr); try done.
  mstep E. cbn match.
  destruct Hrc as [-> | [-> | ->]].
  - rewrite (bool_decide_eq_false_2 (NGX_OK = NGX_ERROR)), (bool_decide_eq_false_2 (NGX_OK = NGX_ABORT))
      by done. cbn [orb]. cbn match. mstep (gets_Ret hs_rctx h2).
    eexists NGX_OK, _, h2, t. split_and!; [reflexivity|auto|done| |].
    + unfold not_again. rewrite (cs_bufs _ _ _ S2).
      rewrite (bool_decide_eq_true_2 (bufs <> None)) by done.
      destruct (Z.eqb_spec r ACTION_PAUSE); cbn [andb]; [done|done].
    + intros Hd. unfold not_again. by destruct (_ && bool_decide _); [|apply Hr].
  - exists NGX_ERROR, out, h2, t. split_and!; auto.
  - exists NGX_ABORT, out, h2, t. split_and!; auto.
Qed.

(** ** One filter *)

(** After a filter ran: the code of its step, and the next action. *)
Record stepped (ec : ngx_proxy_wasm_err_e) h (c c' : ngx_proxy_wasm_ctx_t) : Prop := {
  sp_state : chain_state false h c';
  sp_place : pw_exec_index c' = pw_exec_index c;
  sp_step : pw_step c' = STEP_RESP_BODY;
  sp_action : pw_action c' <> ACTION_PAUSE;
  sp_ok : ec = ERR_NONE -> pw_action c' = ACTION_DONE \/ chain_state true h c';
}.

Lemma set_next_action_state ok h c t :
  chain_state ok h c ->
  (debug = true -> (ACTION_CONTINUE <=? t) && (t <=? ACTION_CLOSE) = true) ->
  exists h', ngx_proxy_wasm_ctx_set_next_action debug pwctx t h = Ret (tt, h') /\
    chain_state ok h' (set_ctx_action t c) /\ h_guest h' = h_guest h.
Proof.
  intros S Hr. unfold ngx_proxy_wasm_ctx_set_next_action.
  assert (Ea : assert debug ((ACTION_CONTINUE <=? t) && (t <=? ACTION_CLOSE)) h = Ret (tt, h)).
  { destruct debug; [|done]. by rewrite Hr. }
  mstep Ea. eexists. split; [apply write_ctx_Ret, (cs_ctx _ _ _ S)|].
  split; [by apply (state_ctx ok h c)|done].
Qed.

Lemma finish_step_state h c t a rc r :
  chain_state (is_ok rc) h (set_ctx_action t c) -> a ∈ execs ->
  pw_step c = STEP_RESP_BODY -> (rc = NGX_OK \/ rc = NGX_ERROR \/ rc = NGX_ABORT) ->
  r <> ACTION_PAUSE ->
  (debug = true -> (ACTION_CONTINUE <=? r) && (r <=? ACTION_CLOSE) = true) ->
  exists ec h' c', finish_step debug pwctx a ACTION_CONTINUE rc r h = Ret (ec, h') /\
    stepped ec h' c c'.
Proof.
  intros S Ha Hstep Hrc Hr Hrange. unfold finish_step.
  mstep (read_ctx_Ret _ _ _ (cs_ctx _ _ _ S)).
  change (pw_action (set_ctx_action t c)) with t.
  destruct (negb (t =? r) && (t =? ACTION_DONE)) eqn:Et.
  - apply andb_prop in Et as [_ ->%Z.eqb_eq].
    mstep (assert_Ret debug (negb (ACTION_DONE =? ACTION_CONTINUE)) h eq_refl).
    destruct (cs_wired _ _ _ S a Ha) as (e & f & i & v & He & _).
    mstep (read_exec_Ret _ _ _ He). eexists _, h, (set_ctx_action ACTION_DONE c). split; [reflexivity|].
    split; [|done|exact Hstep|discriminate|by left].
    destruct (is_ok rc); [by apply state_weaken|done].
  - assert (exists h1, (if negb (t =? r)
                        then ngx_proxy_wasm_ctx_set_next_action debug pwctx r else mret tt) h
                       = Ret (tt, h1) /\ chain_state (is_ok rc) h1 (set_ctx_action r c))
      as (h1 & E1 & S1).
    { destruct (Z.eqb_spec t r) as [->|Hne]; [by exists h|].
      destruct (set_next_action_state _ _ _ r S Hrange) as (h1 & E1 & S1 & _). by exists h1. }
    mstep E1.
    assert (Hin : rc ∈ [NGX_OK; NGX_ABORT; NGX_ERROR])
      by (destruct Hrc as [-> | [-> | ->]]; set_solver).
    mstep (assert_Ret debug _ h1 (bool_decide_eq_true_2 _ Hin)).
    destruct (cs_wired _ _ _ S1 a Ha) as (e & f & i & v & He & Hw).
    mstep (write_exec_Ret _ _ _ (fun e => set_exec_ecode (step_ecode rc (pe_ecode e)) e) He).
    set (h2 := with_execs _ h1).
    assert (He2 : h_execs h2 !! a = Some (set_exec_ecode (step_ecode rc (pe_ecode e)) e))
      by apply lookup_insert_eq.
    mstep (read_exec_Ret _ _ _ He2).
    assert (S2 : chain_state (is_ok rc) h2 (set_ctx_action r c)).
    { eapply state_exec; [exact S1|exact He|done..|]. intros Hok. split; [done|].
      destruct Hrc as [-> | [-> | ->]]; done. }
    eexists _, h2, (set_ctx_action r c). split; [reflexivity|].
    split; [|done|exact Hstep|exact Hr|].
    + destruct (is_ok rc); [by apply state_weaken|done].
    + intros Hec. right. destruct Hrc as [-> | [-> | ->]]; done.
Qed.

Lemma run_step_state h c a :
  bufs <> None -> chain_state true h c -> a ∈ execs -> pw_action c = ACTION_CONTINUE ->
  exists ec h' c',
    ngx_proxy_wasm_run_step debug response_trailers a STEP_RESP_BODY h = Ret (ec, h') /\
    stepped ec h' c c'.
Proof.
  intros Hb S Ha Hact. unfold ngx_proxy_wasm_run_step.
  destruct (cs_wired _ _ _ S a Ha) as (e & f & i & v & He & _ & Hp & Hi & Hv & Hf & Hm & Hfn & Hok).
  destruct (Hok eq_refl) as [_ Ht].
  mstep (read_exec_Ret _ _ _ He). rewrite Hp. mstep (lift_Ret h pwctx).
  mstep (read_ctx_Ret _ _ _ (cs_ctx _ _ _ S)). rewrite (cs_phase _ _ _ S).
  mstep (assert_Ret debug true h eq_refl).
  assert (En : no_instance a h = Ret (false, h)).
  { unfold no_instance. mstep (read_exec_Ret _ _ _ He). rewrite Hi.
    mstep (read_inst_Ret _ _ _ Hv). by rewrite Ht. }
  mstep En. mstep (mret_Ret h (ERR_NONE, Some a)). change (is_err ERR_NONE) with false. cbn match.
  mstep (lift_Ret h a). rewrite Hact. unfold run_on_instance.
  mstep (read_exec_Ret _ _ _ He). rewrite Hi. mstep (lift_Ret h i).
  mstep (read_inst_Ret _ _ _ Hv). mstep (read_filter_Ret _ _ _ Hf). rewrite Ht.
  mstep (assert_Ret debug true h eq_refl). rewrite Z.eqb_sym, Hm.
  mstep (assert_Ret debug true h eq_refl).
  mstep (write_ctx_Ret _ _ _ (set_ctx_step STEP_RESP_BODY) (cs_ctx _ _ _ S)).
  set (c1 := set_ctx_step STEP_RESP_BODY c). set (h1 := with_ctxs _ h).
  assert (S1 : chain_state true h1 c1) by (by apply (state_ctx true h c)).
  unfold ngx_proxy_wasm_instance_update.
  assert (Hv1 : h_insts h1 !! i = Some v) by exact Hv.
  mstep (write_inst_Ret _ _ _ (set_instance_pwexec (Some a)) Hv1).
  set (v2 := set_instance_pwexec (Some a) v). set (h2 := with_insts _ h1).
  assert (S2 : chain_state true h2 c1) by (by eapply state_inst).
  assert (Hv2 : h_insts h2 !! i = Some v2) by apply lookup_insert_eq.
  destruct (on_response_body_state h2 c1 a e f i v2 ACTION_CONTINUE)
    as (rc & r & h3 & t & E3 & Hrc & S3 & Hr & Hrange); try done.
  assert (E4 : call_step debug response_trailers pwctx a STEP_RESP_BODY ACTION_CONTINUE h2
               = Ret ((rc, r), h3)).
  { unfold call_step. cbn [sub_resume buffering_subsystem ngx_http_proxy_wasm].
    unfold ngx_http_proxy_wasm_resume. mstep E3. cbn [fst].
    assert (Hin : rc ∈ [NGX_OK; NGX_AGAIN; NGX_ABORT; NGX_ERROR])
      by (destruct Hrc as [-> | [-> | ->]]; set_solver).
    by mstep (assert_Ret debug _ h3 (bool_decide_eq_true_2 _ Hin)). }
  mstep E4. cbn match.
  destruct (finish_step_state h3 c1 t a rc r S3 Ha eq_refl Hrc Hr Hrange) as (ec & h4 & c4 & E5 & K).
  exists ec, h4, c4. split; [exact E5|]. destruct K. by split.
Qed.

(** ** The chain *)

(** The codes of a run that is over. *)
Definition run_over (rc : ngx_rc) : Prop :=
  rc = NGX_OK \/ rc = NGX_DONE \/ rc = NGX_ERROR \/ rc = NGX_STATUS 500.

(** The buffers are still there, and nothing was asked for. *)
Definition buffers_kept h : Prop :=
  resp_bufs (h_guest h) = bufs /\ buffering (h_guest h) = asked.

Lemma state_kept ok h c : chain_state ok h c -> buffers_kept h.
Proof. by intros []. Qed.

(** The code of the filter that ran: no pause. *)
Lemma action2rc_over h c a e :
  h_ctxs h !! pwctx = Some c -> h_execs h !! a = Some e -> pe_ecode e = ERR_NONE ->
  (pe_root_id e =? NGX_PROXY_WASM_ROOT_CTX_ID) = false -> pw_step c = STEP_RESP_BODY ->
  pw_action c <> ACTION_PAUSE ->
  exists rc h', action2rc debug pwctx a h = Ret (rc, h') /\ h_guest h' = h_guest h /\
    ((rc = NGX_OK /\ h' = h /\ pw_action c = ACTION_CONTINUE) \/
     ((rc = NGX_DONE \/ rc = NGX_ERROR) /\ pw_action c <> ACTION_CONTINUE)).
Proof.
  intros Hc He Hec Hr Hs Ha. unfold action2rc.
  mstep (read_exec_Ret _ _ _ He). mstep (read_ctx_Ret _ _ _ Hc). rewrite Hr, Hec.
  mstep (assert_Ret debug true h eq_refl). change (is_err ERR_NONE) with false. cbn match.
  rewrite Hs, (bool_decide_eq_false_2 (STEP_RESP_BODY = STEP_DONE)) by done. cbn match.
  destruct (Z.eqb_spec (pw_action c) ACTION_DONE) as [Ed|Hd].
  - assert (Es : exists h', ngx_proxy_wasm_ctx_set_next_action debug pwctx ACTION_CONTINUE h
                            = Ret (tt, h') /\ h_guest h' = h_guest h).
    { unfold ngx_proxy_wasm_ctx_set_next_action.
      mstep (assert_Ret debug _ h (eq_refl : (ACTION_CONTINUE <=? ACTION_CONTINUE) &&
                                             (ACTION_CONTINUE <=? ACTION_CLOSE) = true)).
      eexists. split; [apply (write_ctx_Ret _ _ _ _ Hc)|done]. }
    destruct Es as (h' & Es & Hg). mstep Es. exists NGX_DONE, h'.
    split_and!; [done|exact Hg|right; split; [by left|by rewrite Ed]].
  - destruct (Z.eqb_spec (pw_action c) ACTION_CONTINUE) as [Ec|Hcn].
    { exists NGX_OK, h. split_and!; auto. }
    destruct (Z.eqb_spec (pw_action c) ACTION_PAUSE) as [?|_]; [done|].
    unfold action_error. mstep (assert_Ret debug (error_rc NGX_ERROR) h eq_refl).
    mstep (read_exec_Ret _ _ _ He). rewrite Hec.
    change (bool_decide (NGX_ERROR = NGX_ERROR) && negb (is_err ERR_NONE)) with true. cbn match.
    mstep (write_exec_Ret _ _ _ (set_exec_ecode ERR_UNKNOWN) He).
    eexists NGX_ERROR, _. split_and!; [reflexivity|done|right; auto].
Qed.

Lemma body_loop n i h c :
  bufs <> None -> chain_state true h c -> (i + n = length execs)%nat -> pw_exec_index c = i ->
  pw_action c = ACTION_CONTINUE -> pw_step c = STEP_RESP_BODY ->
  exists rc h',
    resume_loop debug response_trailers n pwctx STEP_RESP_BODY i NGX_OK h = Ret (rc, h') /\
    run_over rc /\ buffers_kept h'.
Proof.
  intros Hb. revert i h c. induction n as [|n IH]; intros i h c St Hn Hi Ha Hs.
  { exists NGX_OK, h. split_and!; [done|by left|by eapply state_kept]. }
  simpl resume_loop. mstep (read_ctx_Ret _ _ _ (cs_ctx _ _ _ St)). rewrite (cs_execs _ _ _ St).
  destruct (lookup_lt_is_Some_2 execs i) as [a Hat]; [lia|].
  pose proof (list_elem_of_lookup_2 _ _ _ Hat) as Hin. rewrite Hat. mstep (lift_Ret h a).
  destruct (cs_wired _ _ _ St a Hin) as (e & f & j & v & He & Hr & Hp & _ & _ & _ & _ & _ & Hok).
  destruct (Hok eq_refl) as [Hec _].
  mstep (read_exec_Ret _ _ _ He). rewrite Hr. mstep (assert_Ret debug true h eq_refl).
  mstep (action2rc_continue debug pwctx a h c e (cs_ctx _ _ _ St) He Hr Hec Ha).
  change (negb (is_ok NGX_OK)) with false. cbn match.
  mstep (mret_Ret h false).
  destruct (run_step_state h c a Hb St Hin Ha) as (ec & h1 & c1 & E1 & K). mstep E1.
  destruct (cs_wired _ _ _ (sp_state _ _ _ _ K) a Hin) as (e1 & f1 & j1 & v1 & He1 & Hr1 & _).
  mstep (write_exec_Ret _ _ _ (set_exec_ecode ec) He1). set (h2 := with_execs _ h1).
  assert (S2 : chain_state false h2 c1) by (eapply state_exec; [apply (sp_state _ _ _ _ K)|done..]).
  destruct (is_err ec) eqn:Eerr.
  { exists (NGX_STATUS 500), h2. split_and!; [done|by right; right; right|by eapply state_kept]. }
  assert (ec = ERR_NONE) as -> by (unfold is_err in Eerr; by case_bool_decide).
  mstep (write_ctx_Ret _ _ _ (advance STEP_RESP_BODY) (cs_ctx _ _ _ S2)). set (h3 := with_ctxs _ h2).
  destruct (advance_same STEP_RESP_BODY c1) as (An & Ae & Ap & As & _ & Aa).
  assert (He3 : h_execs h3 !! a = Some (set_exec_ecode ERR_NONE e1)) by apply lookup_insert_eq.
  assert (Hc3 : h_ctxs h3 !! pwctx = Some (advance STEP_RESP_BODY c1)) by apply lookup_insert_eq.
  assert (Hk3 : buffers_kept h3) by exact (state_kept false h2 c1 S2).
  destruct (action2rc_over h3 _ a _ Hc3 He3) as (rc & h4 & E4 & Hg & Hrc);
    [done|exact Hr1|by rewrite As, (sp_step _ _ _ _ K)|by rewrite Aa; apply (sp_action _ _ _ _ K)|].
  mstep E4. destruct Hrc as [(-> & -> & Hcont) | [Hrc Hcont]]; rewrite Aa in Hcont.
  2: { exists rc, h4. split_and!.
       - destruct Hrc as [-> | ->]; done.
       - destruct Hrc as [-> | ->]; unfold run_over; auto.
       - unfold buffers_kept. by rewrite Hg. }
  change (bool_decide (NGX_OK = NGX_OK) || bool_decide (NGX_OK = NGX_AGAIN)) with true. cbn match.
  mstep (read_ctx_Ret _ _ _ Hc3).
  assert (Hadv : pw_exec_index (advance STEP_RESP_BODY c1) = S i).
  { unfold advance. rewrite Hcont. simpl. by rewrite (sp_place _ _ _ _ K), Hi. }
  assert (Hle : (pw_exec_index (advance STEP_RESP_BODY c1)
                 <=? pw_nfilters (advance STEP_RESP_BODY c1))%nat = true).
  { rewrite Hadv, An, (cs_nfilters _ _ _ S2). apply Nat.leb_le. lia. }
  rewrite Hle. mstep (assert_Ret debug true h3 eq_refl).
  mstep (write_ctx_Ret _ _ _ complete_step Hc3). set (h5 := with_ctxs _ h3).
  destruct (sp_ok _ _ _ _ K eq_refl) as [Hd|S1]; [by rewrite Hcont in Hd|].
  destruct n as [|n].
  { exists NGX_OK, h5. split_and!; [done|by left|exact Hk3]. }
  assert (Hcs : complete_step (advance STEP_RESP_BODY c1) = advance STEP_RESP_BODY c1).
  { unfold complete_step. rewrite Hadv, An, (cs_nfilters _ _ _ S2).
    by rewrite (proj2 (Nat.leb_gt _ _)) by lia. }
  apply (IH (S i) h5 (advance STEP_RESP_BODY c1)); [|lia|done|by rewrite Aa|].
  - unfold h5. rewrite Hcs. apply (state_ctx true h3 (advance STEP_RESP_BODY c1)); [|done..].
    apply (state_ctx true h2 c1); [|done..]. by eapply state_exec.
  - by rewrite As, (sp_step _ _ _ _ K).
Qed.

(** [ngx_proxy_wasm_resume] on the buffers: from the filter the chain stopped at. *)
Lemma body_resume h c :
  bufs <> None -> chain_state true h c -> (pw_exec_index c <= length execs)%nat ->
  pw_action c = ACTION_CONTINUE ->
  exists rc h', ngx_proxy_wasm_resume debug response_trailers pwctx STEP_RESP_BODY h
      = Ret (rc, h') /\ run_over rc /\ buffers_kept h'.
Proof.
  intros Hb S Hi Ha. unfold ngx_proxy_wasm_resume, resume_enter.
  set (c1 := set_ctx_step STEP_RESP_BODY c).
  set (h1 := with_ctxs (<[pwctx := c1]> (h_ctxs h)) h).
  assert (S1 : chain_state true h1 c1) by (by apply (state_ctx true h c)).
  assert (E1 : (write_ctx pwctx (set_ctx_step STEP_RESP_BODY);;
                c ← read_ctx pwctx;
                if resets_chain STEP_RESP_BODY c then ngx_proxy_wasm_ctx_reset_chain pwctx
                else mret tt) h = Ret (tt, h1)).
  { mstep (write_ctx_Ret _ _ _ (set_ctx_step STEP_RESP_BODY) (cs_ctx _ _ _ S)). fold c1. fold h1.
    by mstep (read_ctx_Ret _ _ _ (cs_ctx _ _ _ S1)). }
  mstep E1. mstep (read_ctx_Ret _ _ _ (cs_ctx _ _ _ S1)). cbn [step_due]. cbn match.
  destruct (body_loop (length execs - pw_exec_index c1) (pw_exec_index c1) h1 c1)
    as (rc & h2 & E2 & Hrc & Hk); [done|done|simpl; lia|done|done|done|].
  assert (E3 : (assert debug (Nat.eqb (length (pw_pwexecs c1)) (pw_nfilters c1));;
                resume_loop debug response_trailers (pw_nfilters c1 - pw_exec_index c1) pwctx
                  STEP_RESP_BODY (pw_exec_index c1) NGX_OK) h1 = Ret (rc, h2)).
  { rewrite (cs_execs _ _ _ S1), (cs_nfilters _ _ _ S1), Nat.eqb_refl.
    by mstep (assert_Ret debug true h1 eq_refl). }
  mstep E3. rewrite (bool_decide_eq_false_2 (STEP_RESP_BODY = STEP_DONE)) by done.
  mstep (mret_Ret h2 tt). by exists rc, h2.
Qed.

(** ** The phase *)

Context (li : ngx_proxy_wasm_isolation_mode_e) (plan : ngx_wasm_ops_plan_t).

(** The location runs a chain of filters on response bodies. *)
Definition filters_on_body : Prop := exists a rest op,
  pipeline plan (phase_index NGX_HTTP_WASM_BODY_FILTER_PHASE) = a :: rest /\
  pl_ops plan !! a = Some op /\ op_code op = NGX_WASM_OP_PROXY_WASM /\
  op_handler_f op = Some H_proxy_wasm.

(** The stream of a request whose filters can all be entered. *)
Record usable_chain h : Prop := {
  us_data : rc_data (hs_ext (h_guest h)) = Some pwctx;
  us_ctx : exists c, h_ctxs h !! pwctx = Some c /\ pw_init c = true /\ pw_ready c = true /\
    pw_pwexecs c = execs /\ pw_nfilters c = length execs /\
    (pw_exec_index c <= length execs)%nat;
  us_wired : forall a, a ∈ execs -> wired true h a;
}.

Lemma usable_state h c :
  usable_chain h -> buffers_kept h -> h_ctxs h !! pwctx = Some c ->
  pw_pwexecs c = execs -> pw_nfilters c = length execs ->
  chain_state true (with_ctxs (<[pwctx := set_ctx_phase (Some NGX_HTTP_WASM_BODY_FILTER_PHASE) c]>
    (h_ctxs h)) h) (set_ctx_phase (Some NGX_HTTP_WASM_BODY_FILTER_PHASE) c).
Proof.
  intros [_ _ Hw] [Hb Hf] Hc He Hn. split; try done. apply lookup_insert_eq.
Qed.

Abbreviation body_phase := NGX_HTTP_WASM_BODY_FILTER_PHASE.

Lemma run_over_expected rc : run_over rc ->
  op_rc_expected rc = true /\ rc <> NGX_DECLINED /\
  (op_failed rc = false -> rc ∈ [NGX_OK; NGX_DECLINED; NGX_AGAIN; NGX_DONE]).
Proof. intros [-> | [-> | [-> | ->]]]; split_and!; try done; intros _; set_solver. Qed.

Lemma body_handler h c op :
  bufs <> None -> usable_chain h -> buffers_kept h -> op_code op = NGX_WASM_OP_PROXY_WASM ->
  h_ctxs h !! pwctx = Some c -> pw_action c = ACTION_CONTINUE ->
  exists rc h', ngx_wasm_op_proxy_wasm_handler debug response_trailers http_gzip sprintf_O
      sprintf_T li plan body_phase op h = Ret (rc, h') /\ run_over rc /\ buffers_kept h'.
Proof.
  intros Hb U Hk Hcode Hc Ha. destruct (us_ctx _ U) as (c' & Hc' & Hinit & Hready & He & Hn & Hi).
  rewrite Hc in Hc'. injection Hc' as <-. unfold ngx_wasm_op_proxy_wasm_handler. rewrite Hcode.
  mstep (assert_Ret debug true h eq_refl). mstep (gets_Ret hs_ops h).
  assert (E1 : ngx_http_proxy_wasm_ctx h = Ret (Some pwctx, h)).
  { unfold ngx_http_proxy_wasm_ctx. mstep (gets_Ret hs_ext h). mstep (gets_Ret hs_r h).
    by rewrite (us_data _ U). }
  mstep E1. cbn match.
  assert (E2 : forall iso id, ngx_proxy_wasm_ctx debug (pl_tree plan) pwctx
                 (Some (pl_filter_ids plan)) iso id h = Ret ((Some pwctx, id), h)).
  { intros iso id. unfold ngx_proxy_wasm_ctx. mstep (read_ctx_Ret _ _ _ Hc).
    rewrite Hinit, Hready. by mstep (mret_Ret h tt). }
  set (iso := if bool_decide _ then _ else _).
  assert (E3 : exists rc h',
    ('(pwctx, id) ← ngx_proxy_wasm_ctx debug (pl_tree plan) pwctx (Some (pl_filter_ids plan)) iso
                      (oc_next_id (hs_ops (h_guest h)));
     puts (with_ops (set_next_id id));;
     match pwctx with
     | None => mret NGX_ERROR
     | Some pwctx =>
         write_ctx pwctx (set_ctx_phase (Some body_phase));;
         (if oc_req_headers_in_access (hs_ops (h_guest h))
          then puts (with_stream (fun s =>
            {| sx_req_body_len := sx_req_body_len s; sx_req_headers_in_access := true;
               sx_main := sx_main s |}))
          else mret tt);;
         phase_step debug response_trailers http_gzip sprintf_O sprintf_T pwctx body_phase
     end) h = Ret (rc, h') /\ run_over rc /\ buffers_kept h').
  { mstep (E2 iso (oc_next_id (hs_ops (h_guest h)))). cbn match.
    mstep (puts_Ret (with_ops (set_next_id (oc_next_id (hs_ops (h_guest h))))) h).
    set (h1 := with_guest _ h). assert (Hc1 : h_ctxs h1 !! pwctx = Some c) by exact Hc.
    mstep (write_ctx_Ret _ _ _ (set_ctx_phase (Some body_phase)) Hc1). set (h2 := with_ctxs _ h1).
    set (c2 := set_ctx_phase (Some body_phase) c).
    assert (S2 : chain_state true h2 c2).
    { apply (usable_state h1 c); [|exact Hk|exact Hc1|done|done].
      destruct U as [Ud Uc Uw]. by split. }
    assert (exists h3, (if oc_req_headers_in_access (hs_ops (h_guest h))
          then puts (with_stream (fun s =>
            {| sx_req_body_len := sx_req_body_len s; sx_req_headers_in_access := true;
               sx_main := sx_main s |}))
          else mret tt) h2 = Ret (tt, h3) /\ chain_state true h3 c2) as (h3 & E3 & S3).
    { destruct (oc_req_headers_in_access _); [|by exists h2].
      eexists. split; [apply puts_Ret|]. by apply state_guest. }
    mstep E3. apply (body_resume h3 c2); done. }
  destruct E3 as (rc & h' & E3 & Hrc & Hk'). mstep E3.
  destruct (run_over_expected rc Hrc) as (Hexp & _ & _). rewrite Hexp.
  mstep (assert_Ret debug true h' eq_refl). by exists rc, h'.
Qed.

Lemma body_ops_resume h c :
  bufs <> None -> filters_on_body -> usable_chain h -> buffers_kept h ->
  h_ctxs h !! pwctx = Some c -> pw_action c = ACTION_CONTINUE ->
  exists rc h', ngx_wasm_ops_resume debug response_trailers http_gzip sprintf_O sprintf_T li plan
      (phase_index body_phase) h = Ret (rc, h') /\ run_over rc /\ buffers_kept h'.
Proof.
  intros Hb (a & rest & op & Hpipe & Hop & Hcode & Hh) U Hk Hc Ha. unfold ngx_wasm_ops_resume.
  assert (ngx_wasm_phase_lookup (ngx_http_wasm_phases response_trailers) (phase_index body_phase)
          = Some (attachable body_phase 6)) as -> by (by destruct response_trailers).
  change (ph_index (attachable body_phase 6)) with (phase_index body_phase).
  change (ph_phase (attachable body_phase 6)) with body_phase. mstep (gets_Ret hs_ops h).
  change (hs_ops (h_guest h)) with (progress h).
  assert (exists h1, (match oc_last_phase (progress h) with
     | Some last => if negb (last =? phase_index body_phase)
                    then puts (with_ops (fun o => set_op_progress (oc_last_phase o) 0 o))
                    else mret tt
     | None => mret tt
     end) h = Ret (tt, h1) /\ usable_chain h1 /\ buffers_kept h1 /\ h_ctxs h1 = h_ctxs h)
    as (h1 & E1 & U1 & K1 & Hc1).
  { destruct (oc_last_phase (progress h)) as [last|]; [|by exists h].
    destruct (negb _); [|by exists h]. eexists. split; [apply puts_Ret|].
    destruct U as [Ud Uc Uw].
    split; [split; [exact Ud|exact Uc|exact Uw]|]. split; [exact Hk|done]. }
  mstep E1. rewrite Hpipe. simpl run_pipeline. rewrite Hop. rewrite <- Hc1 in Hc.
  destruct (body_handler h1 c op Hb U1 K1 Hcode Hc Ha) as (rc & h2 & E2 & Hrc & K2).
  destruct (run_over_expected rc Hrc) as (_ & Hdec & Hin).
  assert (E3 : (op ← lift (deref (Some op));
     rc ← run_op debug response_trailers http_gzip sprintf_O sprintf_T li plan body_phase op;
     (if op_failed rc then mret rc
      else if bool_decide (rc = NGX_DECLINED)
           then run_pipeline debug response_trailers http_gzip sprintf_O sprintf_T li plan
                  body_phase rest rc else mret rc)) h1 = Ret (rc, h2)).
  { mstep (lift_Ret h1 op). unfold run_op. rewrite Hh. mstep E2.
    rewrite (bool_decide_eq_false_2 (rc = NGX_DECLINED)) by done. by destruct (op_failed rc). }
  mstep E3. destruct (op_failed rc) eqn:Ef; [by exists rc, h2|].
  mstep (assert_Ret debug _ h2 (bool_decide_eq_true_2 _ (Hin eq_refl))).
  eexists rc, _. split; [reflexivity|]. split; [done|exact K2].
Qed.

End buffering.

Lemma seg_None_det m l1 l2 p :
  Chains.seg m p l1 None -> Chains.seg m p l2 None -> l1 = l2.
Proof.
  revert l2 p. induction l1 as [|a l1 IH]; intros [|b l2] p K1 K2; simpl in *; [done|..].
  - subst p. by destruct K2.
  - subst p. by destruct K1.
  - destruct K1 as (-> & l & Hl & K1), K2 as ([= ->] & l' & Hl' & K2).
    rewrite Hl in Hl'. injection Hl' as <-. f_equal. by eapply IH.
Qed.

(** A chain that ends has no cycle. *)
Lemma seg_None_NoDup m l p : Chains.seg m p l None -> NoDup l.
Proof.
  revert p. induction l as [|a l IH]; intros p K; [constructor|].
  pose proof K as (-> & b & Hb & K'). constructor; [|by eapply IH].
  intros (k & r & ->)%list_elem_of_split.
  pose proof K' as (q & _ & K2)%Chains.chain_seg_app.
  assert (q = Some a) as -> by (by destruct K2).
  pose proof (seg_None_det _ _ _ _ K K2) as E.
  apply (f_equal length) in E. simpl in E. rewrite length_app in E. simpl in E. lia.
Qed.

(** ** The body filter over the chain *)

Section filter.
Context {W : Type} `{Wavm (http_state W)} `{!WavmLaws (http_state W)} `{Rbtree} `{!OpsEnv W}.
Context (debug response_trailers http_gzip : bool) (sprintf_O sprintf_T : Z -> bytes).
Context `{!HostLaws debug}.
Context (li : ngx_proxy_wasm_isolation_mode_e) (plan : ngx_wasm_ops_plan_t).
(** The next body filter of nginx, and [ngx_chain_update_chains]. *)
Context (next_body_filter : option addr -> SM (Chains.store * heap (http_state W)) ngx_rc).
Context (update_chains : BodyFilter.ngx_http_wasm_req_ctx_t ->
  SM (Chains.store * heap (http_state W)) BodyFilter.ngx_http_wasm_req_ctx_t).

(** Resuming a phase of the request with its context and its buffers. *)
Definition ops_resume_with (phase : ngx_phase) (x : BodyFilter.ngx_http_wasm_req_ctx_t)
    : SM (Chains.store * heap (http_state W)) BodyFilter.ngx_http_wasm_req_ctx_t :=
  fun '(s, h) =>
    match ngx_wasm_ops_resume debug response_trailers http_gzip sprintf_O sprintf_T li plan
            (phase_index phase) (with_guest (with_bufs s (with_rctx (fun _ => x) (h_guest h))) h) with
    | Ret (_, h') => Ret (hs_rctx (h_guest h'), (hs_bufs (h_guest h'), h'))
    | Fault f => Fault f
    end.

(** [ngx_proxy_wasm_ctx_set_next_action(rctx->data, CONTINUE)] *)
Definition continue_stream (h : heap (http_state W)) : heap (http_state W) :=
  match rc_data (hs_ext (h_guest h)) with
  | Some pwctx => with_ctxs (alter (set_ctx_action ACTION_CONTINUE) pwctx (h_ctxs h)) h
  | None => h
  end.

#[local] Instance chain_filter_env : BodyFilter.FilterEnv (heap (http_state W)) := {|
  BodyFilter.ops_resume_body := ops_resume_with NGX_HTTP_WASM_BODY_FILTER_PHASE;
  BodyFilter.ops_resume_trailers := ops_resume_with NGX_HTTP_WASM_TRAILER_FILTER_PHASE;
  BodyFilter.set_next_action_continue := continue_stream;
  BodyFilter.ngx_http_next_body_filter := next_body_filter;
  BodyFilter.ngx_chain_update_chains := update_chains;
|}.

(** The run of the filters on the buffers. *)
Lemma buffered_run x s h pwctx execs bs :
  BodyFilter.rx_resp_bufs x <> None -> BodyFilter.rx_data x = true ->
  Chains.seg (Chains.s_links s) (BodyFilter.rx_resp_bufs x) bs None ->
  filters_on_body plan -> usable_chain pwctx execs h ->
  exists x' s' h',
    BodyFilter.ngx_http_wasm_body_filter_resume (BodyFilter.set_resp_buffering false x)
      (BodyFilter.rx_resp_bufs x) (s, h) = Ret (x', (s', h')) /\
    BodyFilter.rx_resp_buffering x' = false /\
    BodyFilter.rx_resp_bufs x' = BodyFilter.rx_resp_bufs x.
Proof.
  intros Hb Hdata Hseg Hplan U.
  destruct (BodyFilter.scan_chunk_ok bs (BodyFilter.rx_main x) (Chains.links_fuel s)
    (BodyFilter.rx_resp_bufs x) 0 (BodyFilter.rx_resp_chunk_eof x) s Hseg) as (len & eof & Escan).
  { pose proof (Chains.seg_fuel _ _ _ _ Hseg (seg_None_NoDup _ _ _ Hseg)).
    unfold Chains.links_fuel. lia. }
  set (x1 := BodyFilter.set_chunk (BodyFilter.rx_resp_bufs x) len eof
               (BodyFilter.set_resp_buffering false x)).
  destruct (us_ctx _ _ _ U) as (c & Hc & Hinit & Hready & He & Hn & Hi).
  set (h0 := continue_stream h).
  set (h1 := with_guest (with_bufs s (with_rctx (fun _ => x1) (h_guest h0))) h0).
  assert (Hg : h_guest h0 = h_guest h).
  { unfold h0, continue_stream. by destruct (rc_data _). }
  assert (Hc1 : h_ctxs h1 !! pwctx = Some (set_ctx_action ACTION_CONTINUE c)).
  { unfold h1, h0, continue_stream. rewrite (us_data _ _ _ U). simpl.
    by rewrite lookup_alter_eq, Hc. }
  assert (U1 : usable_chain pwctx execs h1).
  { split.
    - unfold h1. simpl. rewrite Hg. apply U.
    - eexists. split; [exact Hc1|]. done.
    - intros a Ha. destruct (us_wired _ _ _ U a Ha) as (e & f & i & v & K).
      exists e, f, i, v. unfold h1, h0, continue_stream. by rewrite (us_data _ _ _ U). }
  assert (K1 : buffers_kept (BodyFilter.rx_resp_bufs x) false h1) by done.
  destruct (body_ops_resume debug response_trailers http_gzip sprintf_O sprintf_T pwctx execs
    (BodyFilter.rx_resp_bufs x) false li plan h1 _ Hb Hplan U1 K1 Hc1 eq_refl)
    as (rc & h2 & E2 & _ & Kb & Kf).
  exists (hs_rctx (h_guest h2)), (hs_bufs (h_guest h2)), h2. split_and!; [|exact Kf|exact Kb].
  unfold BodyFilter.ngx_http_wasm_body_filter_resume.
  erewrite SM_bind_Ret.
  2: { unfold BodyFilter.on_store.
       cbn [BodyFilter.set_resp_buffering BodyFilter.set_flags_rx BodyFilter.rx_main
            BodyFilter.rx_resp_chunk_eof]. rewrite Escan. reflexivity. }
  cbn match. fold x1.
  assert (BodyFilter.rx_resp_buffering x1 = false) as -> by done.
  assert (BodyFilter.rx_data x1 = true) as -> by exact Hdata. cbn [negb]. cbn match.
  erewrite SM_bind_Ret by reflexivity.
  cbn [BodyFilter.ops_resume_body chain_filter_env]. unfold ops_resume_with.
  cbn [BodyFilter.set_next_action_continue chain_filter_env]. fold h0. fold h1.
  by rewrite E2.
Qed.

(** A response is buffered once.  When a chunk comes while it is buffered, the chunk
    is kept and the request waits; or it completes the buffers, because the response
    ends or they are full, and then the filters are resumed on the buffers, which hold all
    of it, and the handler goes on to the next filter of nginx, with buffering switched off
    for good: whatever the filters return, also when one of them asks to wait again.  Every
    step of it ends; only a failed allocation makes the filter give up.  (A resumption calls
    the filters again for each part of the buffers that an end flag closes, see
    [end_flag_too_early].) *)
Lemma buffered_response_flows conf x bs ls fs cin s h is_main no_parent main pwctx execs
  (Hnum : (0 < BodyFilter.bf_num conf)%nat) (Hbuf : BodyFilter.rx_resp_buffering x = true)
  (Hhdr : BodyFilter.rx_entered_header_filter x = true)
  (Hovr : BodyFilter.rx_resp_chunk_override x = false)
  (Hdata : BodyFilter.rx_data x = true)
  (Hinv : BodyFilter.binv (Chains.s_links s) x (last bs) bs ls fs)
  (Hin : Chains.seg (Chains.s_links s) cin ls None)
  (Hchunk : BodyFilter.chunk_ok (Chains.s_links s) ls)
  (Hne : Chains.content (Chains.s_links s) bs ++ Chains.content (Chains.s_links s) ls <> [])
  (Hplan : filters_on_body plan) (Hchain : usable_chain pwctx execs h) :
  let run := BodyFilter.ngx_http_wasm_body_filter_handler debug conf response_trailers is_main
               no_parent (NGX_OK, Some x) main cin (s, h) in
  let holds_all x' s' := exists bs',
    Chains.seg (Chains.s_links s') (BodyFilter.rx_resp_bufs x') bs' None /\
    Chains.content (Chains.s_links s') bs'
    = Chains.content (Chains.s_links s) bs ++ Chains.content (Chains.s_links s) ls in
  (exists x' s', run = Ret ((NGX_AGAIN, Some x'), (s', h)) /\ holds_all x' s' /\
     BodyFilter.rx_resp_buffering x' = true /\ BodyFilter.rx_resp_chunk_eof x' = false) \/
  (exists x' s' x2 s2 h2, holds_all x' s' /\
     BodyFilter.ngx_http_wasm_body_filter_resume (BodyFilter.set_resp_buffering false x')
       (BodyFilter.rx_resp_bufs x') (s', h) = Ret (x2, (s2, h2)) /\
     run = BodyFilter.body_filter_next debug response_trailers no_parent x2 (s2, h2) /\
     BodyFilter.rx_resp_buffering x2 = false /\
     BodyFilter.rx_resp_bufs x2 = BodyFilter.rx_resp_bufs x') \/
  (exists x' s', run = Ret ((NGX_ERROR, Some x'), (s', h)) /\
     ~ BodyFilter.pool_ok (Chains.s_pool s)
         (BodyFilter.bf_num conf - BodyFilter.rx_resp_bufs_count x)).
Proof.
  intros run holds_all.
  destruct (BodyFilter.body_filter_accumulates debug conf response_trailers x bs ls fs cin s h
    is_main no_parent main Hnum Hbuf Hhdr Hovr Hinv Hin Hchunk Hne)
    as (len & eof & rc & x' & s' & [Hkept Hpost] & Erun).
  injection Hkept as Hb' Hd'. subst run. rewrite Erun. unfold BodyFilter.after_buffer.
  assert (Hflow : holds_all x' s' -> exists x2 s2 h2,
      BodyFilter.ngx_http_wasm_body_filter_resume (BodyFilter.set_resp_buffering false x')
        (BodyFilter.rx_resp_bufs x') (s', h) = Ret (x2, (s2, h2)) /\
      (x ← BodyFilter.ngx_http_wasm_body_filter_resume (BodyFilter.set_resp_buffering false x')
             (BodyFilter.rx_resp_bufs x');
       BodyFilter.body_filter_next debug response_trailers no_parent x) (s', h)
      = BodyFilter.body_filter_next debug response_trailers no_parent x2 (s2, h2) /\
      BodyFilter.rx_resp_buffering x2 = false /\
      BodyFilter.rx_resp_bufs x2 = BodyFilter.rx_resp_bufs x').
  { intros (bs' & Hseg' & Hc').
    assert (Hbufs : BodyFilter.rx_resp_bufs x' <> None).
    { destruct bs' as [|b bs']; [|by destruct Hseg' as [-> _]].
      unfold Chains.content at 1 in Hc'. simpl in Hc'. congruence. }
    destruct (buffered_run x' s' h pwctx execs bs' Hbufs ltac:(by rewrite Hd') Hseg' Hplan Hchain)
      as (x2 & s2 & h2 & E2 & Hf2 & Hb2).
    exists x2, s2, h2. split; [done|]. split; [by erewrite SM_bind_Ret by exact E2|done]. }
  destruct rc; try done.
  - change (bool_decide (NGX_OK = NGX_ERROR)) with false. change (is_ok NGX_OK) with true.
    destruct Hpost as (bs' & fs' & Hseg' & Hc' & _).
    assert (Hall : holds_all x' s') by (by exists bs').
    destruct (BodyFilter.rx_resp_chunk_eof x') eqn:Eeof; cbn [negb andb]; cbn match.
    + right; left. destruct (Hflow Hall) as (x2 & s2 & h2 & K). by exists x', s', x2, s2, h2.
    + left. exists x', s'. by rewrite Hb'.
  - change (bool_decide (NGX_ERROR = NGX_ERROR)) with true. cbn match.
    right; right. by exists x', s'.
  - change (bool_decide (NGX_DONE = NGX_ERROR)) with false. change (is_ok NGX_DONE) with false.
    cbn [andb]. cbn match. destruct Hpost as (bs' & Hseg' & Hc').
    assert (Hall : holds_all x' s') by (by exists bs').
    right; left. destruct (Hflow Hall) as (x2 & s2 & h2 & K). by exists x', s', x2, s2, h2.
Qed.

End filter.

End ResponseBuffering.

(** ** Concrete responses

    A chain of two filters that always ask to wait; the world keeps the calls. *)
Module BufferingRuns.
Import Chains ChainRuns BodyFilter BodyRuns ProxyWasm HttpProxyWasm Ops ResponseBuffering.

Definition calls : Type := list (list Z).

Definition with_world (w : calls -> calls) (s : http_state calls) : http_state calls :=
  {| hs_r := hs_r s; hs_rctx := hs_rctx s; hs_ext := hs_ext s; hs_stream := hs_stream s;
     hs_ops := hs_ops s; hs_bufs := hs_bufs s; hs_dispatch := hs_dispatch s;
     hs_foreign := hs_foreign s; hs_world := w (hs_world s) |}.

#[export] Instance pausing_wavm : Wavm (http_state calls) := {
  wrt_call s i name args action :=
    {| cr_guest := with_world (fun w => w ++ [args]) s; cr_rc := NGX_OK; cr_ret := ACTION_PAUSE;
       cr_action := action; cr_tick := None |};
  ngx_wavm_instance_create s _ _ := (true, s);
  ngx_wavm_instance_destroy s _ := s;
  ngx_palloc s := (true, s);
  wasm_acl_init s := (true, s);
}.

#[export] Instance pausing_laws : WavmLaws (http_state calls).
Proof. split. by left. Qed.

#[export] Instance pausing_host_laws debug : HostLaws debug.
Proof. by split. Qed.

#[export] Existing Instance NginxCore.Reference.spine_rbtree.

#[export] Instance no_calls : OpsEnv calls := {|
  vm_module _ := OpsRuns.the_module;
  ngx_wavm_module_link _ := mret NGX_OK;
  op_instance_create _ := mret None;
  op_instance_call _ _ := mret NGX_OK;
  op_instance_destroy _ := mret tt;
  ngx_http_wasm_read_client_request_body := mret NGX_OK;
  filter_config _ := [];
  filter_data _ := 0;
|}.

Definition body_op : ngx_wasm_op_t :=
  {| op_on_phases := Z.shiftl 1 12; op_code := NGX_WASM_OP_PROXY_WASM; op_module := 1;
     op_handler_f := Some H_proxy_wasm; op_idx := 0; op_func_name := []; op_funcref := None;
     op_filter := 1%positive |}.

Definition body_plan : ngx_wasm_ops_plan_t :=
  {| pl_ops := {[1%positive := body_op]}; pl_pipelines := {[12 := [1%positive]]};
     pl_filter_ids := [7; 7]; pl_tree := Sentinel; pl_populated := true; pl_loaded := true |}.

Definition body_filter1 : ngx_proxy_wasm_filter_t :=
  {| f_id := 7; f_module := 1; f_module_config_len := 0; f_config_len := 0; f_acl_ctx := false;
     f_store := 1%positive; f_ecode := ERR_NONE; f_abi_version := ABI_0_2_1;
     f_funcs := [(proxy_on_http_response_body, Some (ngx_string "proxy_on_response_body"))];
     f_loaded := true; f_started := true |}.

Definition stream_ctx : ngx_proxy_wasm_ctx_t :=
  {| pw_nfilters := 2; pw_pwexecs := [1; 2]%positive; pw_isolation := ISOLATION_NONE;
     pw_store := None; pw_rexec := None; pw_phase := Some NGX_HTTP_WASM_BODY_FILTER_PHASE;
     pw_action := ACTION_PAUSE; pw_step := STEP_RESP_BODY;
     pw_last_completed_step := STEP_RESP_HEADERS; pw_exec_index := 0; pw_init := true;
     pw_ready := true |}.

(** The state of a request without calls, for stream 1, with a content length. *)
Definition request_state (content_length : Z) : http_state calls :=
  {| hs_r := hs_r OpsRuns.no_request; hs_rctx := buffering_ctx;
     hs_ext := set_lengths 0 content_length
       (set_data_env (Some 1%positive) NGX_WASM_STATE_CONTINUE (hs_ext OpsRuns.no_request));
     hs_stream := hs_stream OpsRuns.no_request; hs_ops := hs_ops OpsRuns.no_request;
     hs_bufs := two_chunk; hs_dispatch := ∅; hs_foreign := ∅; hs_world := [] |}.

Definition stream_heap (content_length : Z) : heap (http_state calls) :=
  {| h_execs := <[1%positive := Scripted.exec1 1]> {[2%positive := Scripted.exec1 2]};
     h_ctxs := {[1%positive := stream_ctx]};
     h_insts := {[1%positive := Scripted.inst1]};
     h_stores := {[1%positive := {| st_busy := [1%positive]; st_free := []; st_sweep := [] |}]};
     h_filters := {[1%positive := body_filter1]};
     h_guest := request_state content_length |}.

(** The last chunk of a response. *)
Definition last_chunk : store := two_links_chunk (ended (data_buf (ngx_string "gh") 3)).

Lemma ended_ok : buf_ok (ended (data_buf (ngx_string "gh") 3)).
Proof. split; [simpl; lia|by left]. Qed.

Lemma stream_usable n : usable_chain 1%positive [1; 2]%positive (stream_heap n).
Proof.
  split; [done|eexists; split_and!; try reflexivity; simpl; lia|].
  intros a [-> | [-> | []%elem_of_nil]%elem_of_cons]%elem_of_cons;
    eexists _, _, _, _; split_and!; try reflexivity; by eexists.
Qed.

Definition next_filter (out : option addr) : SM (store * heap (http_state calls)) ngx_rc :=
  mret NGX_OK.
Definition update (x : ngx_http_wasm_req_ctx_t)
    : SM (store * heap (http_state calls)) ngx_http_wasm_req_ctx_t := mret x.

#[export] Instance the_filter_env : FilterEnv (heap (http_state calls)) :=
  chain_filter_env true false false (fun _ => []) (fun _ => []) ISOLATION_NONE body_plan
    next_filter update.

Definition handle (x : ngx_http_wasm_req_ctx_t) (s : store) (h : heap (http_state calls)) :=
  ngx_http_wasm_body_filter_handler true four_by_four false true true
    (NGX_OK, Some x) (NGX_OK, None) (Some 1%positive) (s, h).

Definition code {A} (r : outcome ((ngx_rc * option ngx_http_wasm_req_ctx_t) * A)) : option ngx_rc :=
  match r with Ret ((rc, _), _) => Some rc | Fault _ => None end.

Definition made {A} (r : outcome (A * (store * heap (http_state calls)))) : calls :=
  match r with Ret (_, (_, h)) => hs_world (h_guest h) | Fault _ => [] end.

(** A buffered response ends with its second link: the filters run on all of it and are
    not waited for. *)
Lemma buffered_response_flows_example :
  exists x' s' h', handle buffering_ctx last_chunk (stream_heap (-1))
      = body_filter_next true false true x' (s', h') /\ rx_resp_buffering x' = false.
Proof.
  destruct (two_links_in (ended (data_buf (ngx_string "gh") 3))) as [Hin Hc].
  assert (Hcode : code (handle buffering_ctx last_chunk (stream_heap (-1))) = Some NGX_OK)
    by (vm_compute; reflexivity).
  destruct (buffered_response_flows true false false (fun _ => []) (fun _ => []) ISOLATION_NONE
    body_plan next_filter update four_by_four buffering_ctx [] [1%positive; 2%positive] []
    (Some 1%positive) last_chunk (stream_heap (-1)) true true (NGX_OK, None) 1%positive
    [1; 2]%positive) as [(x' & s' & E & _)|[(x' & s' & x2 & s2 & h2 & _ & _ & E & Hf & _)|
    (x' & s' & E & _)]].
  - simpl. lia.
  - done.
  - done.
  - done.
  - done.
  - apply two_links_binv, ended_ok.
  - exact Hin.
  - exact Hc.
  - by vm_compute.
  - exists 1%positive, [], body_op. split_and!; reflexivity.
  - apply stream_usable.
  - exfalso. unfold handle, the_filter_env in Hcode. rewrite E in Hcode. discriminate Hcode.
  - exists x2, s2, h2. split; [unfold handle, the_filter_env; exact E|exact Hf].
  - exfalso. unfold handle, the_filter_env in Hcode. rewrite E in Hcode. discriminate Hcode.
Defined.

(** Both filters saw the whole response and its end. *)
Example both_filters_ran :
  made (handle buffering_ctx last_chunk (stream_heap (-1))) = [[1; 8; 1]; [2; 8; 1]].
Proof. by vm_compute. Qed.

(** Before buffering was asked for. *)
Definition passing_ctx : ngx_http_wasm_req_ctx_t := set_resp_buffering false buffering_ctx.

(** With a content length the end of the response is not the end flag but whether the
    chunk is as long as the response: the last chunk of several is not the end, and
    when a filter asks to wait on it, the response is never passed on. *)
Example last_chunk_stalls :
  let r := handle passing_ctx last_chunk (stream_heap 16) in
  code r = Some NGX_AGAIN /\ made r = [[1; 8; 0]].
Proof. by vm_compute. Qed.

(** Without a content length the same filters see the end. *)
Example last_chunk_flows :
  let r := handle passing_ctx last_chunk (stream_heap (-1)) in
  code r = Some NGX_OK /\ made r = [[1; 8; 1]; [1; 8; 1]; [2; 8; 1]].
Proof. by vm_compute. Qed.

End BufferingRuns.
