(* ===== verification/Headers.v ===== *)
(** * Setting request and response headers

    src/src/http/ngx_http_wasm_headers.c with the tables of handlers and the handlers of
    ngx_http_wasm_headers_request.c and ngx_http_wasm_headers_response.c: adding, setting
    and removing a header in the list of a request or response while keeping the fields
    nginx derives from it (builtin pointers, lengths, flags).  The branches of
    [nginx_version >= 1023000] are modelled. *)
From S2P Require Import Prelude Acl Escape ProxyWasm.
From stdpp Require Export list.
#[global] Open Scope Z_scope.

Module Headers.
Import Acl.
#[local] Existing Instance ProxyWasm.step_eq_dec.

(** ** Data *)

Inductive ngx_http_wasm_headers_type_e :=
| NGX_HTTP_WASM_HEADERS_REQUEST
| NGX_HTTP_WASM_HEADERS_RESPONSE.

Inductive ngx_http_wasm_headers_set_mode_e :=
| NGX_HTTP_WASM_HEADERS_SET
| NGX_HTTP_WASM_HEADERS_APPEND
| NGX_HTTP_WASM_HEADERS_REMOVE.

#[export] Instance headers_type_eq_dec : EqDecision ngx_http_wasm_headers_type_e.
Proof. solve_decision. Defined.
#[export] Instance set_mode_eq_dec : EqDecision ngx_http_wasm_headers_set_mode_e.
Proof. solve_decision. Defined.

(** An [ngx_str_t]; [None] is [ngx_null_string], whose [data] is [NULL].  The data of the
    others ends with a null byte, as the strings the filters pass do. *)
Abbreviation ngx_str_t := (option bytes).

Definition str_len (v : ngx_str_t) : Z := zlen (default [] v).

(** An element of an [ngx_list_t] is known by its position: lists only grow at their
    end, and their elements do not move.  [te_lowcase_key] is [None] for [NULL]. *)
Record ngx_table_elt_t := {
  te_hash : Z;
  te_key : bytes;
  te_value : ngx_str_t;
  te_lowcase_key : option bytes;
  te_next : option nat;
}.

(** The parts of an [ngx_list_t]. *)
Definition ngx_list_t : Type := list (list ngx_table_elt_t).

(** The fields of [ngx_http_headers_in_t] and [ngx_http_headers_out_t] the tables give
    the offset of; the offset 0 is the field [headers]. *)
Inductive field :=
| f_headers
| f_host | f_connection | f_if_modified_since | f_if_unmodified_since | f_if_match
| f_if_none_match | f_user_agent | f_referer | f_content_length | f_content_type | f_range
| f_if_range | f_transfer_encoding | f_expect | f_upgrade | f_accept_encoding | f_via
| f_authorization | f_keep_alive | f_x_forwarded_for | f_x_real_ip | f_depth | f_destination
| f_overwrite | f_date | f_cookie
| f_server | f_content_encoding | f_location | f_refresh | f_last_modified | f_content_range
| f_accept_ranges | f_www_authenticate | f_expires | f_etag | f_cache_control | f_link.

#[export] Instance field_eq_dec : EqDecision field.
Proof. solve_decision. Defined.

(** The list of headers, and the elements the fields point to. *)
Record headers_t := { hd_list : ngx_list_t; hd_field : field -> option nat }.

(** The bits set from the user agent. *)
Record user_agent_t := {
  ua_msie : bool; ua_msie6 : bool; ua_opera : bool; ua_gecko : bool;
  ua_chrome : bool; ua_safari : bool; ua_konqueror : bool;
}.

Record headers_in_t := {
  hi_headers : headers_t;
  hi_server : ngx_str_t;
  hi_connection_type : Z;
  hi_keep_alive_n : Z;
  hi_ua : user_agent_t;
  hi_content_length_n : Z;
}.

Record headers_out_t := {
  ho_headers : headers_t;
  ho_status : Z;
  ho_content_length_n : Z;
  ho_content_type : ngx_str_t;
  ho_content_type_len : Z;
  ho_content_type_hash : Z;
  ho_content_type_lowcase : option bytes;
  ho_last_modified_time : Z;
}.

(** [rc_step]: the step of [rctx->data], [None] when that is [NULL]; [rc_upstream_host]:
    the host of [rctx->upstream_peer], [None] when that is [NULL]. *)
Record req_ctx_t := {
  rc_req_keepalive : bool;
  rc_step : option ProxyWasm.ngx_proxy_wasm_step_e;
  rc_upstream_host : option ngx_str_t;
}.

(** [rq_rctx]: the context [ngx_http_wasm_rctx] finds, [None] when it answers anything but
    [NGX_OK]. *)
Record request := {
  rq_in : headers_in_t;
  rq_out : headers_out_t;
  rq_keepalive : bool;
  rq_rctx : option req_ctx_t;
}.

(** [ngx_http_wasm_header_set_pt]: the handlers of both tables. *)
Inductive header_set_pt :=
| set_header_handler
| set_builtin_header_handler
| set_host_header_handler
| set_connection_header_handler_req
| set_ua_header_handler
| set_cl_header_handler
| set_builtin_multi_header_handler_req
| set_location_header_handler
| set_last_modified_header_handler
| set_content_length_header_handler
| set_content_type_header_handler
| set_builtin_multi_header_handler_resp
| set_connection_header_handler_resp.

Record ngx_http_wasm_header_handler_t :=
  { hh_name : bytes; hh_offset : field; hh_handler : header_set_pt }.

(** [hv_value] is a pointer: [None] is [NULL], [Some None] points to [ngx_null_string].
    [hv->list] is the list of [hv_htype]. *)
Record ngx_http_wasm_header_set_ctx_t := {
  hv_handler : ngx_http_wasm_header_handler_t;
  hv_key : bytes;
  hv_value : option ngx_str_t;
  hv_htype : ngx_http_wasm_headers_type_e;
  hv_mode : ngx_http_wasm_headers_set_mode_e;
  hv_hash : Z;
}.

(** ** Tables *)

Definition hdr (name : String.string) (offset : field) (h : header_set_pt) :=
  {| hh_name := ngx_string name; hh_offset := offset; hh_handler := h |}.
Arguments hdr name%_string_scope.

(** The last entry has no name. *)
Definition null_handler : ngx_http_wasm_header_handler_t :=
  {| hh_name := []; hh_offset := f_headers; hh_handler := set_header_handler |}.

(** The headers of modules nginx may be built without. *)
Record build := { b_gzip : bool; b_x_forwarded_for : bool; b_realip : bool; b_dav : bool }.

Definition when (b : bool) {A} (l : list A) : list A := if b then l else [].

Definition ngx_http_wasm_req_headers_handlers (b : build) : list ngx_http_wasm_header_handler_t :=
  [hdr "Host" f_host set_host_header_handler;
   hdr "Connection" f_connection set_connection_header_handler_req;
   hdr "If-Modified-Since" f_if_modified_since set_builtin_header_handler;
   hdr "If-Unmodified-Since" f_if_unmodified_since set_builtin_header_handler;
   hdr "If-Match" f_if_match set_builtin_header_handler;
   hdr "If-None-Match" f_if_none_match set_builtin_header_handler;
   hdr "User-Agent" f_user_agent set_ua_header_handler;
   hdr "Referer" f_referer set_builtin_header_handler;
   hdr "Content-Length" f_content_length set_cl_header_handler;
   hdr "Content-Type" f_content_type set_builtin_header_handler;
   hdr "Range" f_range set_builtin_header_handler;
   hdr "If-Range" f_if_range set_builtin_header_handler;
   hdr "Transfer-Encoding" f_transfer_encoding set_builtin_header_handler;
   hdr "Expect" f_expect set_builtin_header_handler;
   hdr "Upgrade" f_upgrade set_builtin_header_handler]
  ++ when (b_gzip b)
       [hdr "Accept-Encoding" f_accept_encoding set_builtin_header_handler;
        hdr "Via" f_via set_builtin_header_handler]
  ++ [hdr "Authorization" f_authorization set_builtin_header_handler;
      hdr "Keep-Alive" f_keep_alive set_builtin_header_handler]
  ++ when (b_x_forwarded_for b)
       [hdr "X-Forwarded-For" f_x_forwarded_for set_builtin_multi_header_handler_req]
  ++ when (b_realip b) [hdr "X-Real-IP" f_x_real_ip set_builtin_header_handler]
  ++ when (b_dav b)
       [hdr "Depth" f_depth set_builtin_header_handler;
        hdr "Destination" f_destination set_builtin_header_handler;
        hdr "Overwrite" f_overwrite set_builtin_header_handler;
        hdr "Date" f_date set_builtin_header_handler]
  ++ [hdr "Cookie" f_cookie set_builtin_multi_header_handler_req; null_handler].

Definition ngx_http_wasm_resp_headers_handlers : list ngx_http_wasm_header_handler_t :=
  [hdr "Server" f_server set_builtin_header_handler;
   hdr "Date" f_date set_builtin_header_handler;
   hdr "Content-Length" f_content_length set_content_length_header_handler;
   hdr "Content-Encoding" f_content_encoding set_builtin_header_handler;
   hdr "Location" f_location set_location_header_handler;
   hdr "Refresh" f_refresh set_builtin_header_handler;
   hdr "Last-Modified" f_last_modified set_last_modified_header_handler;
   hdr "Content-Range" f_content_range set_builtin_header_handler;
   hdr "Accept-Ranges" f_accept_ranges set_builtin_header_handler;
   hdr "WWW-Authenticate" f_www_authenticate set_builtin_header_handler;
   hdr "Expires" f_expires set_builtin_header_handler;
   hdr "E-Tag" f_etag set_builtin_header_handler;
   hdr "ETag" f_etag set_builtin_header_handler;
   hdr "Content-Type" f_content_type set_content_type_header_handler;
   hdr "Cache-Control" f_cache_control set_builtin_multi_header_handler_resp;
   hdr "Link" f_link set_builtin_multi_header_handler_resp;
   hdr "Connection" f_headers set_connection_header_handler_resp;
   null_handler].

(** ** What the component calls

    The pool [P] of a request, and string functions of nginx.  [ngx_list_push] is given
    what the code then writes into the element it returns. *)
Class NgxPool (P : Type) := {
  ngx_pnalloc : P -> bool * P;
  ngx_list_push : ngx_list_t -> ngx_table_elt_t -> P -> option ngx_list_t * P;
}.

(** Lists have no empty part after the first one. *)
Definition list_ok (l : ngx_list_t) : Prop :=
  match l with [] => False | _ :: ps => Forall (fun p => p <> []) ps end.

Class NgxPoolLaws (P : Type) `{NgxPool P} : Prop := {
  list_push_elts l e p l' p' :
    ngx_list_push l e p = (Some l', p') -> concat l' = concat l ++ [e];
  list_push_ok l e p l' p' :
    list_ok l -> ngx_list_push l e p = (Some l', p') -> list_ok l';
}.

(** [ngx_strstrn s1 s2 n] finds the first [n + 1] bytes of [s2] in [s1]; [ngx_atoof] is
    [None] for [NGX_ERROR]. *)
Class NgxStrings := {
  ngx_hash_key_lc : bytes -> Z;
  ngx_strstrn : bytes -> bytes -> Z -> option Z;
  ngx_strcasestrn : bytes -> bytes -> Z -> option Z;
  ngx_atoof : bytes -> option Z;
  ngx_http_parse_time : bytes -> Z;
  ngx_sprintf_O : Z -> bytes;
}.

(** ** Assignments *)

Definition at_field (f : field) (p : option nat) (m : field -> option nat) : field -> option nat :=
  fun g => if decide (g = f) then p else m g.

Fixpoint alter_elt (f : ngx_table_elt_t -> ngx_table_elt_t) (i : nat) (l : ngx_list_t) : ngx_list_t :=
  match l with
  | [] => []
  | p :: ps => if (i <? length p)%nat then alter f i p :: ps else p :: alter_elt f (i - length p) ps
  end.

Definition headers_of (htype : ngx_http_wasm_headers_type_e) (r : request) : headers_t :=
  match htype with
  | NGX_HTTP_WASM_HEADERS_REQUEST => hi_headers (rq_in r)
  | NGX_HTTP_WASM_HEADERS_RESPONSE => ho_headers (rq_out r)
  end.

(** [ngx_http_wasm_htype_list] *)
Definition ngx_http_wasm_htype_list (htype : ngx_http_wasm_headers_type_e) (r : request) : ngx_list_t :=
  hd_list (headers_of htype r).

Definition with_in (f : headers_in_t -> headers_in_t) (r : request) : request :=
  {| rq_in := f (rq_in r); rq_out := rq_out r; rq_keepalive := rq_keepalive r; rq_rctx := rq_rctx r |}.
Definition with_out (f : headers_out_t -> headers_out_t) (r : request) : request :=
  {| rq_in := rq_in r; rq_out := f (rq_out r); rq_keepalive := rq_keepalive r; rq_rctx := rq_rctx r |}.

Definition in_headers (h : headers_t) (x : headers_in_t) : headers_in_t :=
  {| hi_headers := h; hi_server := hi_server x; hi_connection_type := hi_connection_type x;
     hi_keep_alive_n := hi_keep_alive_n x; hi_ua := hi_ua x; hi_content_length_n := hi_content_length_n x |}.
Definition in_server (v : ngx_str_t) (x : headers_in_t) : headers_in_t :=
  {| hi_headers := hi_headers x; hi_server := v; hi_connection_type := hi_connection_type x;
     hi_keep_alive_n := hi_keep_alive_n x; hi_ua := hi_ua x; hi_content_length_n := hi_content_length_n x |}.
Definition in_connection (ty n : Z) (x : headers_in_t) : headers_in_t :=
  {| hi_headers := hi_headers x; hi_server := hi_server x; hi_connection_type := ty;
     hi_keep_alive_n := n; hi_ua := hi_ua x; hi_content_length_n := hi_content_length_n x |}.
Definition in_ua (ua : user_agent_t) (x : headers_in_t) : headers_in_t :=
  {| hi_headers := hi_headers x; hi_server := hi_server x; hi_connection_type := hi_connection_type x;
     hi_keep_alive_n := hi_keep_alive_n x; hi_ua := ua; hi_content_length_n := hi_content_length_n x |}.
Definition in_content_length_n (n : Z) (x : headers_in_t) : headers_in_t :=
  {| hi_headers := hi_headers x; hi_server := hi_server x; hi_connection_type := hi_connection_type x;
     hi_keep_alive_n := hi_keep_alive_n x; hi_ua := hi_ua x; hi_content_length_n := n |}.

Definition out_headers (h : headers_t) (x : headers_out_t) : headers_out_t :=
  {| ho_headers := h; ho_status := ho_status x; ho_content_length_n := ho_content_length_n x;
     ho_content_type := ho_content_type x; ho_content_type_len := ho_content_type_len x;
     ho_content_type_hash := ho_content_type_hash x;
     ho_content_type_lowcase := ho_content_type_lowcase x;
     ho_last_modified_time := ho_last_modified_time x |}.
Definition out_status (n : Z) (x : headers_out_t) : headers_out_t :=
  {| ho_headers := ho_headers x; ho_status := n; ho_content_length_n := ho_content_length_n x;
     ho_content_type := ho_content_type x; ho_content_type_len := ho_content_type_len x;
     ho_content_type_hash := ho_content_type_hash x;
     ho_content_type_lowcase := ho_content_type_lowcase x;
     ho_last_modified_time := ho_last_modified_time x |}.
Definition out_content_length_n (n : Z) (x : headers_out_t) : headers_out_t :=
  {| ho_headers := ho_headers x; ho_status := ho_status x; ho_content_length_n := n;
     ho_content_type := ho_content_type x; ho_content_type_len := ho_content_type_len x;
     ho_content_type_hash := ho_content_type_hash x;
     ho_content_type_lowcase := ho_content_type_lowcase x;
     ho_last_modified_time := ho_last_modified_time x |}.
Definition out_content_type (v : ngx_str_t) (len hash : Z) (x : headers_out_t) : headers_out_t :=
  {| ho_headers := ho_headers x; ho_status := ho_status x;
     ho_content_length_n := ho_content_length_n x; ho_content_type := v;
     ho_content_type_len := len; ho_content_type_hash := hash; ho_content_type_lowcase := None;
     ho_last_modified_time := ho_last_modified_time x |}.
Definition out_last_modified_time (n : Z) (x : headers_out_t) : headers_out_t :=
  {| ho_headers := ho_headers x; ho_status := ho_status x;
     ho_content_length_n := ho_content_length_n x; ho_content_type := ho_content_type x;
     ho_content_type_len := ho_content_type_len x; ho_content_type_hash := ho_content_type_hash x;
     ho_content_type_lowcase := ho_content_type_lowcase x; ho_last_modified_time := n |}.

Definition with_headers (htype : ngx_http_wasm_headers_type_e) (f : headers_t -> headers_t)
    (r : request) : request :=
  match htype with
  | NGX_HTTP_WASM_HEADERS_REQUEST => with_in (in_headers (f (hi_headers (rq_in r)))) r
  | NGX_HTTP_WASM_HEADERS_RESPONSE => with_out (out_headers (f (ho_headers (rq_out r)))) r
  end.

Definition with_list (f : ngx_list_t -> ngx_list_t) (h : headers_t) : headers_t :=
  {| hd_list := f (hd_list h); hd_field := hd_field h |}.
Definition with_field (f : field) (p : option nat) (h : headers_t) : headers_t :=
  {| hd_list := hd_list h; hd_field := at_field f p (hd_field h) |}.

Definition with_keepalive (main ctx : bool) (r : request) : request :=
  {| rq_in := rq_in r; rq_out := rq_out r; rq_keepalive := main;
     rq_rctx := (fun c => {| rc_req_keepalive := ctx; rc_step := rc_step c;
                            rc_upstream_host := rc_upstream_host c |}) <$> rq_rctx r |}.
Definition with_upstream_host (v : ngx_str_t) (r : request) : request :=
  {| rq_in := rq_in r; rq_out := rq_out r; rq_keepalive := rq_keepalive r;
     rq_rctx := (fun c => {| rc_req_keepalive := rc_req_keepalive c; rc_step := rc_step c;
                            rc_upstream_host := Some v |}) <$> rq_rctx r |}.

Definition elt_hash (hash : Z) (e : ngx_table_elt_t) : ngx_table_elt_t :=
  {| te_hash := hash; te_key := te_key e; te_value := te_value e;
     te_lowcase_key := te_lowcase_key e; te_next := te_next e |}.
Definition elt_set (hash : Z) (key : bytes) (value : ngx_str_t) (e : ngx_table_elt_t) : ngx_table_elt_t :=
  {| te_hash := hash; te_key := key; te_value := value;
     te_lowcase_key := te_lowcase_key e; te_next := te_next e |}.
Definition elt_key (key : bytes) (e : ngx_table_elt_t) : ngx_table_elt_t :=
  {| te_hash := te_hash e; te_key := key; te_value := te_value e;
     te_lowcase_key := te_lowcase_key e; te_next := te_next e |}.
Definition elt_lowcase (e : ngx_table_elt_t) : ngx_table_elt_t :=
  {| te_hash := te_hash e; te_key := te_key e; te_value := te_value e;
     te_lowcase_key := Some (ngx_strlow (te_key e)); te_next := te_next e |}.
Definition elt_next (next : option nat) (e : ngx_table_elt_t) : ngx_table_elt_t :=
  {| te_hash := te_hash e; te_key := te_key e; te_value := te_value e;
     te_lowcase_key := te_lowcase_key e; te_next := next |}.

Section headers.
Context {P : Type} `{NgxPool P} `{NgxStrings} (debug : bool) (fresh : Z -> bytes).
Abbreviation M := (SM (request * P)).

Definition rget {A} (f : request -> A) : M A := fun s => Ret (f s.1, s).
Definition rput (f : request -> request) : M unit := fun s => Ret (tt, (f s.1, s.2)).
Definition rassert (b : bool) : M unit := slift (ngx_wa_assert debug b).
Definition pnalloc : M bool := fun s => let '(ok, p) := ngx_pnalloc s.2 in Ret (ok, (s.1, p)).

Definition read_elt (htype : ngx_http_wasm_headers_type_e) (i : nat) : M ngx_table_elt_t :=
  l ← rget (ngx_http_wasm_htype_list htype);
  slift (deref (concat l !! i)).

(** An assignment through the pointer to an element. *)
Definition write_elt (htype : ngx_http_wasm_headers_type_e) (i : nat)
    (f : ngx_table_elt_t -> ngx_table_elt_t) : M unit :=
  read_elt htype i;;
  rput (with_headers htype (with_list (alter_elt f i))).

Definition read_field (htype : ngx_http_wasm_headers_type_e) (f : field) : M (option nat) :=
  rget (fun r => hd_field (headers_of htype r) f).
Definition write_field (htype : ngx_http_wasm_headers_type_e) (f : field) (p : option nat) : M unit :=
  rput (with_headers htype (with_field f p)).

(** ** ngx_http_wasm_set_header_helper *)

(** [ngx_strncasecmp] over strings of the same length. *)
Definition strcaseeq (a b : bytes) : bool := bool_decide (ngx_strlow a = ngx_strlow b).

Definition elt_matches (hv : ngx_http_wasm_header_set_ctx_t) (e : ngx_table_elt_t) : bool :=
  (te_hash e =? hv_hash hv) && (length (te_key e) =? length (hv_key hv))%nat
  && strcaseeq (hv_key hv) (te_key e).

(** The variables [found] and [*out], which is unset at first ([None]). *)
Record search_t := { se_found : bool; se_out : option (option nat) }.

(** The elements of a part, from the position [i]; the last result is whether the search
    starts again. *)
Fixpoint scan_part (hv : ngx_http_wasm_header_set_ctx_t) (i : nat) (h : list ngx_table_elt_t)
    (s : search_t) : outcome (list ngx_table_elt_t * search_t * bool) :=
  match h with
  | [] => Ret ([], s, false)
  | e :: h =>
      if elt_matches hv e then
        if bool_decide (hv_mode hv = NGX_HTTP_WASM_HEADERS_REMOVE) || se_found s then
          Ret (elt_hash 0 e :: h, {| se_found := true; se_out := Some None |}, true)
        else
          let? _ := ngx_wa_assert debug (bool_decide (hv_mode hv = NGX_HTTP_WASM_HEADERS_SET)) in
          let? value := deref (hv_value hv) in
          let? (h, s, again) := scan_part hv (S i) h {| se_found := true; se_out := Some (Some i) |} in
          Ret (elt_set (hv_hash hv) (hv_key hv) value e :: h, s, again)
      else
        let? (h, s, again) := scan_part hv (S i) h s in
        Ret (e :: h, s, again)
  end.

(** The loop over the parts; the first element of a next part is read without looking at
    its length. *)
Fixpoint scan_parts (hv : ngx_http_wasm_header_set_ctx_t) (i : nat) (h : list ngx_table_elt_t)
    (next : ngx_list_t) (s : search_t) : outcome (ngx_list_t * search_t * bool) :=
  let? (h', s, again) := scan_part hv i h s in
  if (again : bool) then Ret (h' :: next, s, true)
  else
    match next with
    | [] => Ret ([h'], s, false)
    | [] :: _ => Fault F_memory
    | part :: next =>
        let? (l, s, again) := scan_parts hv (i + length h) part next s in
        Ret (h' :: l, s, again)
    end.

(** [again:] *)
Fixpoint search (fuel : nat) (hv : ngx_http_wasm_header_set_ctx_t) (l : ngx_list_t) (s : search_t)
    : outcome (ngx_list_t * search_t) :=
  match fuel with
  | O => Fault F_fuel
  | S fuel =>
      match l with
      | [] => Fault F_memory
      | part :: next =>
          let? (l, s, again) := scan_parts hv 0 part next s in
          if (again : bool) then search fuel hv l s else Ret (l, s)
      end
  end.

(** Each search but the last clears an element: one search more than there are
    elements. *)
Definition search_fuel (l : ngx_list_t) : nat := S (length (concat l)).

(** [ngx_list_push], and whether it has the memory. *)
Definition push_elt (htype : ngx_http_wasm_headers_type_e) (e : ngx_table_elt_t) : M bool := fun s =>
  match ngx_list_push (ngx_http_wasm_htype_list htype s.1) e s.2 with
  | (Some l, p) => Ret (true, (with_headers htype (with_list (fun _ => l)) s.1, p))
  | (None, p) => Ret (false, (s.1, p))
  end.

(** [new_header:] for a value to add; the result is the code and [*out]. *)
Definition new_header (hv : ngx_http_wasm_header_set_ctx_t) (out : option (option nat))
    : M (ngx_rc * option (option nat)) :=
  value ← slift (deref (hv_value hv));
  l ← rget (ngx_http_wasm_htype_list (hv_htype hv));
  ok ← push_elt (hv_htype hv)
         {| te_hash := hv_hash hv; te_key := hv_key hv; te_value := value;
            te_lowcase_key := None; te_next := None |};
  if negb ok then mret (NGX_ERROR, out)
  else
    ok ← pnalloc;
    if negb ok then mret (NGX_ERROR, out)
    else
      write_elt (hv_htype hv) (length (concat l)) elt_lowcase;;
      mret (NGX_OK, Some (Some (length (concat l)))).

Definition ngx_http_wasm_set_header_helper (hv : ngx_http_wasm_header_set_ctx_t)
    : M (ngx_rc * option (option nat)) :=
  if bool_decide (hv_mode hv = NGX_HTTP_WASM_HEADERS_APPEND) then new_header hv None
  else
    l ← rget (ngx_http_wasm_htype_list (hv_htype hv));
    '(l', s) ← slift (search (search_fuel l) hv l {| se_found := false; se_out := None |});
    rput (with_headers (hv_htype hv) (with_list (fun _ => l')));;
    if se_found s || bool_decide (hv_mode hv = NGX_HTTP_WASM_HEADERS_REMOVE)
    then mret (NGX_OK, se_out s)
    else new_header hv (se_out s).

(** ** Handlers of both tables *)

Definition ngx_http_wasm_set_header_handler (hv : ngx_http_wasm_header_set_ctx_t) : M ngx_rc :=
  '(rc, _) ← ngx_http_wasm_set_header_helper hv;
  mret rc.

Definition ngx_http_wasm_set_builtin_header_handler (hv : ngx_http_wasm_header_set_ctx_t) : M ngx_rc :=
  let htype := hv_htype hv in
  let offset := hh_offset (hv_handler hv) in
  builtin ← read_field htype offset;
  match builtin with
  | None =>
      if bool_decide (hv_mode hv = NGX_HTTP_WASM_HEADERS_REMOVE) then mret NGX_OK
      else
        '(rc, out) ← ngx_http_wasm_set_header_helper hv;
        match out with
        | None => mret rc
        | Some h => write_field htype offset h;; mret rc
        end
  | Some h =>
      match hv_mode hv with
      | NGX_HTTP_WASM_HEADERS_REMOVE => write_elt htype h (elt_hash 0);; mret NGX_OK
      | NGX_HTTP_WASM_HEADERS_APPEND => mret NGX_DECLINED
      | NGX_HTTP_WASM_HEADERS_SET =>
          value ← slift (deref (hv_value hv));
          write_elt htype h (elt_set (hv_hash hv) (hv_key hv) value);;
          mret NGX_OK
      end
  end.

(** [for (ph = headers; *ph; ph = &( *ph)->next)] from the element [i]: the last element. *)
Fixpoint chain_last (fuel : nat) (elts : list ngx_table_elt_t) (i : nat) : outcome nat :=
  match fuel with
  | O => Fault F_fuel
  | S fuel =>
      let? e := deref (elts !! i) in
      match te_next e with
      | None => Ret i
      | Some j => chain_last fuel elts j
      end
  end.

(** The part both [ngx_http_wasm_set_builtin_multi_header_handler] share: [h] is a local
    variable that [ngx_http_wasm_set_header_helper] may leave unset. *)
Definition multi_header_append (hv : ngx_http_wasm_header_set_ctx_t) : M ngx_rc :=
  let htype := hv_htype hv in
  let offset := hh_offset (hv_handler hv) in
  '(rc, h) ← ngx_http_wasm_set_header_helper hv;
  if bool_decide (rc = NGX_ERROR) then mret NGX_ERROR
  else
    headers ← read_field htype offset;
    h ← slift (deref h);
    match headers with
    | Some first =>
        elts ← rget (fun r => concat (ngx_http_wasm_htype_list htype r));
        last ← slift (chain_last (length elts) elts first);
        write_elt htype last (elt_next h)
    | None => write_field htype offset h
    end;;
    match h with
    | Some h => write_elt htype h (elt_next None)
    | None => mret tt
    end;;
    mret NGX_OK.

(** ** Handlers of the request headers *)

(** A search of nginx answers a pointer, [NULL] when there is none. *)
Definition found (o : option Z) : bool := bool_decide (is_Some o).

(** [*hv->value] and [hv->value->data]. *)
Definition hv_str (hv : ngx_http_wasm_header_set_ctx_t) : M ngx_str_t := slift (deref (hv_value hv)).
Definition str_data (v : ngx_str_t) : M bytes := slift (deref v).

Definition ngx_http_wasm_set_host_header_handler (hv : ngx_http_wasm_header_set_ctx_t) : M ngx_rc :=
  c ← rget rq_rctx;
  if bool_decide ((c ≫= rc_step) = Some ProxyWasm.STEP_UPSTREAM_SELECT) then
    slift (deref (c ≫= rc_upstream_host));;
    value ← hv_str hv;
    rput (with_upstream_host value);;
    mret NGX_OK
  else
    rc ← ngx_http_wasm_set_builtin_header_handler hv;
    if negb (is_ok rc) then mret rc
    else
      value ← hv_str hv;
      rput (with_in (in_server value));;
      mret NGX_OK.

Definition NGX_HTTP_CONNECTION_CLOSE : Z := 1.
Definition NGX_HTTP_CONNECTION_KEEP_ALIVE : Z := 2.

Definition ngx_http_wasm_set_connection_header_handler_req (hv : ngx_http_wasm_header_set_ctx_t)
    : M ngx_rc :=
  rc ← ngx_http_wasm_set_builtin_header_handler hv;
  if negb (is_ok rc) then mret rc
  else
    value ← hv_str hv;
    if str_len value =? 0 then mret NGX_OK
    else
      c ← rget rq_rctx;
      match c with
      | None => mret NGX_ERROR
      | Some _ =>
          data ← str_data value;
          if found (ngx_strcasestrn data (ngx_string "close") (5 - 1)) then
            rput (with_in (in_connection NGX_HTTP_CONNECTION_CLOSE (-1)));;
            rput (with_keepalive false false);;
            mret NGX_OK
          else if found (ngx_strcasestrn data (ngx_string "keep-alive") (10 - 1)) then
            r ← rget rq_in;
            rput (with_in (in_connection NGX_HTTP_CONNECTION_KEEP_ALIVE (hi_keep_alive_n r)));;
            rput (with_keepalive true true);;
            mret NGX_OK
          else mret NGX_OK
      end.

(** A byte of a string; the null byte after it. *)
Definition char_at (s : bytes) (i : Z) : byte := default x00 (s !! Z.to_nat i).

Definition no_user_agent : user_agent_t :=
  {| ua_msie := false; ua_msie6 := false; ua_opera := false; ua_gecko := false;
     ua_chrome := false; ua_safari := false; ua_konqueror := false |}.

(** The bits [msie] and [msie6]. *)
Definition msie_bits (ua : bytes) : bool * bool :=
  match ngx_strstrn ua (ngx_string "MSIE ") (5 - 1) with
  | Some msie =>
      if msie + 7 <? zlen ua then
        (true,
         bool_decide (char_at ua (msie + 6) = "."%byte) &&
         match char_at ua (msie + 5) with
         | "4"%byte | "5"%byte => true
         | "6"%byte =>
             bool_decide (ngx_strstrn (drop (Z.to_nat (msie + 8)) ua) (ngx_string "SV1") (3 - 1) = None)
         | _ => false
         end)
      else (false, false)
  | None => (false, false)
  end.

Definition user_agent_bits (ua : bytes) : user_agent_t :=
  let '(msie, msie6) := msie_bits ua in
  let opera := found (ngx_strstrn ua (ngx_string "Opera") (5 - 1)) in
  let msie := msie && negb opera in
  let msie6 := msie6 && negb opera in
  let gecko := found (ngx_strstrn ua (ngx_string "Gecko/") (6 - 1)) in
  let chrome := found (ngx_strstrn ua (ngx_string "Chrome/") (7 - 1)) in
  let safari := found (ngx_strstrn ua (ngx_string "Safari/") (7 - 1))
                && found (ngx_strstrn ua (ngx_string "Mac OS X") (8 - 1)) in
  let konqueror := found (ngx_strstrn ua (ngx_string "Konqueror") (9 - 1)) in
  let other := negb msie && negb opera in
  {| ua_msie := msie; ua_msie6 := msie6; ua_opera := opera;
     ua_gecko := other && gecko;
     ua_chrome := other && negb gecko && chrome;
     ua_safari := other && negb gecko && negb chrome && safari;
     ua_konqueror := other && negb gecko && negb chrome && negb safari && konqueror |}.

Definition ngx_http_wasm_set_ua_header_handler (hv : ngx_http_wasm_header_set_ctx_t) : M ngx_rc :=
  rc ← ngx_http_wasm_set_builtin_header_handler hv;
  if negb (is_ok rc) then mret rc
  else
    value ← hv_str hv;
    rput (with_in (in_ua no_user_agent));;
    match value with
    | None =>
        rassert (bool_decide (hv_mode hv = NGX_HTTP_WASM_HEADERS_REMOVE));;
        mret NGX_OK
    | Some ua =>
        rput (with_in (in_ua (user_agent_bits ua)));;
        mret NGX_OK
    end.

Definition ngx_http_wasm_set_cl_header_handler (hv : ngx_http_wasm_header_set_ctx_t) : M ngx_rc :=
  value ← hv_str hv;
  len ← (if negb (str_len value =? 0) then
           data ← str_data value;
           mret (ngx_atoof data)
         else if bool_decide (hv_mode hv = NGX_HTTP_WASM_HEADERS_APPEND) then mret None
         else
           rassert (bool_decide (hv_mode hv = NGX_HTTP_WASM_HEADERS_REMOVE));;
           mret (Some (-1)));
  let error rc := rput (with_in (in_content_length_n (-1)));; mret rc in
  match len with
  | None => error NGX_DECLINED
  | Some len =>
      rc ← ngx_http_wasm_set_builtin_header_handler hv;
      if negb (is_ok rc) then error rc
      else
        rput (with_in (in_content_length_n len));;
        mret NGX_OK
  end.

Definition ngx_http_wasm_set_builtin_multi_header_handler_req (hv : ngx_http_wasm_header_set_ctx_t)
    : M ngx_rc :=
  let offset := hh_offset (hv_handler hv) in
  headers ← read_field NGX_HTTP_WASM_HEADERS_REQUEST offset;
  (if bool_decide (is_Some headers)
      && (bool_decide (hv_mode hv = NGX_HTTP_WASM_HEADERS_SET)
          || bool_decide (hv_mode hv = NGX_HTTP_WASM_HEADERS_REMOVE))
   then write_field NGX_HTTP_WASM_HEADERS_REQUEST offset None
   else mret tt);;
  multi_header_append hv.

(** ** Handlers of the response headers *)

Definition ngx_http_set_location_header_handler (hv : ngx_http_wasm_header_set_ctx_t) : M ngx_rc :=
  rc ← ngx_http_wasm_set_builtin_header_handler hv;
  if negb (is_ok rc) then mret rc
  else
    h ← read_field NGX_HTTP_WASM_HEADERS_RESPONSE f_location;
    match h with
    | None => mret NGX_OK
    | Some h =>
        e ← read_elt NGX_HTTP_WASM_HEADERS_RESPONSE h;
        if negb (str_len (te_value e) =? 0) then
          data ← str_data (te_value e);
          if bool_decide (char_at data 0 = "/"%byte) then
            write_field NGX_HTTP_WASM_HEADERS_RESPONSE f_location None;;
            mret NGX_OK
          else mret NGX_OK
        else mret NGX_OK
    end.

(** [h->hash = 0] and [NULL] for a field that is set: the second part of nginx's macros
    [ngx_http_clear_last_modified] and [ngx_http_clear_content_length]. *)
Definition clear_field (f : field) : M unit :=
  h ← read_field NGX_HTTP_WASM_HEADERS_RESPONSE f;
  match h with
  | None => mret tt
  | Some h =>
      write_elt NGX_HTTP_WASM_HEADERS_RESPONSE h (elt_hash 0);;
      write_field NGX_HTTP_WASM_HEADERS_RESPONSE f None
  end.

Definition ngx_http_set_last_modified_header_handler (hv : ngx_http_wasm_header_set_ctx_t) : M ngx_rc :=
  if bool_decide (hv_mode hv = NGX_HTTP_WASM_HEADERS_REMOVE) then
    rput (with_out (out_last_modified_time (-1)));;
    clear_field f_last_modified;;
    mret NGX_OK
  else
    rc ← ngx_http_wasm_set_builtin_header_handler hv;
    if negb (is_ok rc) then mret rc
    else
      value ← hv_str hv;
      data ← str_data value;
      rput (with_out (out_last_modified_time (ngx_http_parse_time data)));;
      mret NGX_OK.

Definition ngx_http_set_content_length_header_handler (hv : ngx_http_wasm_header_set_ctx_t) : M ngx_rc :=
  if bool_decide (hv_mode hv = NGX_HTTP_WASM_HEADERS_REMOVE) then
    rput (with_out (out_content_length_n (-1)));;
    clear_field f_content_length;;
    mret NGX_OK
  else
    value ← hv_str hv;
    data ← str_data value;
    match ngx_atoof data with
    | None => mret NGX_DECLINED
    | Some len =>
        rc ← ngx_http_wasm_set_builtin_header_handler hv;
        if negb (is_ok rc) then mret rc
        else
          rput (with_out (out_content_length_n len));;
          mret NGX_OK
    end.

(** The position of the first semicolon, else the length. *)
Definition type_len (v : bytes) : Z :=
  match ngx_strlchr v ";"%byte with Some i => Z.of_nat i | None => zlen v end.

Definition ngx_http_set_content_type_header_handler (hv : ngx_http_wasm_header_set_ctx_t) : M ngx_rc :=
  value ← hv_str hv;
  rput (with_out (out_content_type value (type_len (default [] value)) (hv_hash hv)));;
  mret NGX_OK.

Definition NGX_HTTP_SWITCHING_PROTOCOLS : Z := 101.

(** [value->len - 1] wraps around for an empty value. *)
Definition ngx_http_wasm_set_connection_header_handler_resp (hv : ngx_http_wasm_header_set_ctx_t)
    : M ngx_rc :=
  c ← rget rq_rctx;
  match c with
  | None => mret NGX_ERROR
  | Some _ =>
      value ← hv_str hv;
      data ← str_data value;
      let n := wrap64 (str_len value - 1) in
      if found (ngx_strcasestrn data (ngx_string "keep-alive") n) then
        rput (with_keepalive true true);;
        mret NGX_OK
      else if found (ngx_strcasestrn data (ngx_string "close") n) then
        rput (with_keepalive false false);;
        mret NGX_OK
      else if found (ngx_strcasestrn data (ngx_string "upgrade") n) then
        rput (with_out (out_status NGX_HTTP_SWITCHING_PROTOCOLS));;
        mret NGX_OK
      else mret NGX_DECLINED
  end.

(** [hv.handler->handler_(&hv)] *)
Definition call_handler (hv : ngx_http_wasm_header_set_ctx_t) : M ngx_rc :=
  match hh_handler (hv_handler hv) with
  | set_header_handler => ngx_http_wasm_set_header_handler hv
  | set_builtin_header_handler => ngx_http_wasm_set_builtin_header_handler hv
  | set_host_header_handler => ngx_http_wasm_set_host_header_handler hv
  | set_connection_header_handler_req => ngx_http_wasm_set_connection_header_handler_req hv
  | set_ua_header_handler => ngx_http_wasm_set_ua_header_handler hv
  | set_cl_header_handler => ngx_http_wasm_set_cl_header_handler hv
  | set_builtin_multi_header_handler_req => ngx_http_wasm_set_builtin_multi_header_handler_req hv
  | set_location_header_handler => ngx_http_set_location_header_handler hv
  | set_last_modified_header_handler => ngx_http_set_last_modified_header_handler hv
  | set_content_length_header_handler => ngx_http_set_content_length_header_handler hv
  | set_content_type_header_handler => ngx_http_set_content_type_header_handler hv
  | set_builtin_multi_header_handler_resp => multi_header_append hv
  | set_connection_header_handler_resp => ngx_http_wasm_set_connection_header_handler_resp hv
  end.

(** ** Setting a header *)

(** [ngx_http_copy_escaped] on the pool of the request. *)
Definition copy_escaped (kind : ngx_http_wasm_escape_kind) (s : bytes) : M (option bytes) :=
  ok ← (if 0 <? Escape.escape_count kind s 0 then pnalloc else mret true);
  r ← slift (Escape.ngx_http_copy_escaped (fun _ => ok) fresh s kind);
  mret ((fun '(data, len) => take (Z.to_nat len) data) <$> r).

(** The header of the table that has the name of [key], else the last one. *)
Fixpoint find_handler (handlers : list ngx_http_wasm_header_handler_t) (key : bytes)
    : option (ngx_http_wasm_header_handler_t * bytes) :=
  match handlers with
  | [] => None
  | h :: handlers =>
      if (length (hh_name h) =? 0)%nat then Some (h, key)
      else if (length key =? length (hh_name h))%nat && strcaseeq key (hh_name h)
      then Some (h, hh_name h)
      else find_handler handlers key
  end.

(** [key_at]: the element [key] is the key of, when it is one; its key is escaped in
    place. *)
Definition ngx_http_wasm_set_header (htype : ngx_http_wasm_headers_type_e)
    (handlers : list ngx_http_wasm_header_handler_t) (key : bytes) (key_at : option nat)
    (value : option ngx_str_t) (mode : ngx_http_wasm_headers_set_mode_e) : M ngx_rc :=
  key ← copy_escaped NGX_HTTP_WASM_ESCAPE_HEADER_NAME key;
  match key with
  | None => mret NGX_ERROR
  | Some key =>
      match key_at with
      | Some i => write_elt htype i (elt_key key)
      | None => mret tt
      end;;
      value ← match value with
              | Some (Some v) =>
                  v ← copy_escaped NGX_HTTP_WASM_ESCAPE_HEADER_VALUE v;
                  mret ((fun v => Some (Some v)) <$> v)
              | _ => mret (Some value)
              end;
      match value with
      | None => mret NGX_ERROR
      | Some value =>
          '(handler, hkey) ← slift (deref (find_handler handlers key));
          let hv_value := match mode with
                          | NGX_HTTP_WASM_HEADERS_APPEND | NGX_HTTP_WASM_HEADERS_SET => value
                          | NGX_HTTP_WASM_HEADERS_REMOVE => Some None
                          end in
          rassert (bool_decide (is_Some hv_value));;
          call_handler {| hv_handler := handler; hv_key := hkey; hv_value := hv_value;
                          hv_htype := htype; hv_mode := mode; hv_hash := ngx_hash_key_lc key |}
      end
  end.

(** How many elements a loop over the parts visits; the first element of a next part is
    read without looking at its length. *)
Definition list_visits (l : ngx_list_t) : outcome nat :=
  match l with
  | [] => Fault F_memory
  | _ :: next =>
      if forallb (fun part => negb (length part =? 0)%nat) next
      then Ret (length (concat l)) else Fault F_memory
  end.

(** The loop over the elements: the list is read again for each of them, since the
    handlers change it; they add none. *)
Fixpoint clear_elts (htype : ngx_http_wasm_headers_type_e)
    (handlers : list ngx_http_wasm_header_handler_t) (n i : nat) : M ngx_rc :=
  match n with
  | O => mret NGX_OK
  | S n =>
      e ← read_elt htype i;
      rc ← (if negb (te_hash e =? 0)
            then ngx_http_wasm_set_header htype handlers (te_key e) (Some i) None
                   NGX_HTTP_WASM_HEADERS_REMOVE
            else mret NGX_OK);
      if negb (is_ok rc) then mret NGX_ERROR else clear_elts htype handlers n (S i)
  end.

Definition ngx_http_wasm_clear_headers_helper (htype : ngx_http_wasm_headers_type_e)
    (handlers : list ngx_http_wasm_header_handler_t) : M ngx_rc :=
  l ← rget (ngx_http_wasm_htype_list htype);
  n ← slift (list_visits l);
  clear_elts htype handlers n 0.

Definition ngx_http_wasm_clear_req_headers (b : build) : M ngx_rc :=
  ngx_http_wasm_clear_headers_helper NGX_HTTP_WASM_HEADERS_REQUEST (ngx_http_wasm_req_headers_handlers b).
Definition ngx_http_wasm_clear_resp_headers : M ngx_rc :=
  ngx_http_wasm_clear_headers_helper NGX_HTTP_WASM_HEADERS_RESPONSE ngx_http_wasm_resp_headers_handlers.

Definition ngx_http_wasm_set_req_header (b : build) (key : bytes) (value : option ngx_str_t)
    (mode : ngx_http_wasm_headers_set_mode_e) : M ngx_rc :=
  ngx_http_wasm_set_header NGX_HTTP_WASM_HEADERS_REQUEST (ngx_http_wasm_req_headers_handlers b)
    key None value mode.
Definition ngx_http_wasm_set_resp_header (key : bytes) (value : option ngx_str_t)
    (mode : ngx_http_wasm_headers_set_mode_e) : M ngx_rc :=
  ngx_http_wasm_set_header NGX_HTTP_WASM_HEADERS_RESPONSE ngx_http_wasm_resp_headers_handlers
    key None value mode.

Definition ngx_http_wasm_set_resp_content_length (cl : Z) : M ngx_rc :=
  out ← rget rq_out;
  if (0 <=? ho_content_length_n out) && (ho_content_length_n out =? cl) then mret NGX_OK
  else
    ok ← pnalloc;
    if negb ok then mret NGX_ERROR
    else
      ngx_http_wasm_set_resp_header (ngx_string "Content-Length") (Some (Some (ngx_sprintf_O cl)))
        NGX_HTTP_WASM_HEADERS_SET.

(** [ngx_wasm_get_list_elem]: the hash of the elements is not looked at. *)
Fixpoint get_list_elem (h : list ngx_table_elt_t) (key : bytes) : option ngx_str_t :=
  match h with
  | [] => None
  | e :: h =>
      if (length key =? length (te_key e))%nat && strcaseeq (te_key e) key
      then Some (te_value e) else get_list_elem h key
  end.

Fixpoint ngx_wasm_get_list_elem (map : ngx_list_t) (key : bytes) : outcome (option ngx_str_t) :=
  match map with
  | [] => Ret None
  | part :: next =>
      match get_list_elem part key with
      | Some v => Ret (Some v)
      | None =>
          match next with
          | [] :: _ => Fault F_memory
          | _ => ngx_wasm_get_list_elem next key
          end
      end
  end.

(** ** The codes of the functions *)

Definition header_rc (rc : ngx_rc) : Prop := rc = NGX_OK \/ rc = NGX_ERROR \/ rc = NGX_DECLINED.

Definition returns {A} (f : A -> ngx_rc) (m : M A) : Prop :=
  forall s a s', m s = Ret (a, s') -> header_rc (f a).

Lemma returns_ret {A} (f : A -> ngx_rc) a : header_rc (f a) -> returns f (mret a).
Proof. intros Hf s a' s' [= <- <-]. done. Qed.

Lemma returns_bind {A B} (f : B -> ngx_rc) (m : M A) (k : A -> M B) :
  (forall a, returns f (k a)) -> returns f (m ≫= k).
Proof. intros Hk s b s' E. apply SM_bind_Ret_inv in E as (a & s1 & _ & E). by eapply Hk. Qed.

Lemma returns_bind_rc {A B} (g : A -> ngx_rc) (f : B -> ngx_rc) (m : M A) (k : A -> M B) :
  returns g m -> (forall a, header_rc (g a) -> returns f (k a)) -> returns f (m ≫= k).
Proof.
  intros Hm Hk s b s' E. apply SM_bind_Ret_inv in E as (a & s1 & Em & E).
  eapply Hk; [|exact E]. by eapply Hm.
Qed.

Lemma rc_ok : header_rc NGX_OK. Proof. by left. Qed.
Lemma rc_error : header_rc NGX_ERROR. Proof. by right; left. Qed.
Lemma rc_declined : header_rc NGX_DECLINED. Proof. by right; right. Qed.

(** Walks through a function of which every code is one of these. *)
#[local] Ltac codes :=
  repeat match goal with
  | |- returns _ (mret _) => apply returns_ret; cbn; (done || apply rc_ok || apply rc_error || apply rc_declined)
  | |- returns _ (if ?t then _ else _) => destruct t
  | |- returns _ (match ?t with _ => _ end) => destruct t
  | |- returns _ (_ ≫= _) => apply returns_bind; intros ?
  end.

Lemma returns_new_header hv out : returns fst (new_header hv out).
Proof. unfold new_header. codes. Qed.

Lemma returns_helper hv : returns fst (ngx_http_wasm_set_header_helper hv).
Proof.
  unfold ngx_http_wasm_set_header_helper. case_match; [apply returns_new_header|].
  apply returns_bind. intros l. apply returns_bind. intros [l' s]. apply returns_bind. intros _.
  case_match; [codes|apply returns_new_header].
Qed.

Lemma returns_builtin hv : returns id (ngx_http_wasm_set_builtin_header_handler hv).
Proof.
  unfold ngx_http_wasm_set_builtin_header_handler. apply returns_bind. intros [h|].
  - codes.
  - case_match; [codes|]. eapply returns_bind_rc; [apply returns_helper|]. intros [rc out] Hrc. codes.
Qed.

(** After [ngx_http_wasm_set_builtin_header_handler], its code or another. *)
Lemma returns_after_builtin hv (k : M ngx_rc) :
  returns id k ->
  returns id (rc ← ngx_http_wasm_set_builtin_header_handler hv; if negb (is_ok rc) then mret rc else k).
Proof.
  intros Hk. eapply returns_bind_rc; [apply returns_builtin|]. intros rc Hrc.
  case_match; [by apply returns_ret|done].
Qed.

Lemma returns_multi hv : returns id (multi_header_append hv).
Proof.
  unfold multi_header_append. eapply returns_bind_rc; [apply returns_helper|]. intros [rc h] Hrc. codes.
Qed.

Lemma returns_call_handler hv : returns id (call_handler hv).
Proof.
  unfold call_handler. destruct (hh_handler (hv_handler hv)).
  - eapply returns_bind_rc; [apply returns_helper|]. intros [rc out] Hrc. codes.
  - apply returns_builtin.
  - unfold ngx_http_wasm_set_host_header_handler. apply returns_bind. intros c. case_match; [codes|].
    apply returns_after_builtin. codes.
  - apply returns_after_builtin. codes.
  - apply returns_after_builtin. codes.
  - unfold ngx_http_wasm_set_cl_header_handler. apply returns_bind. intros v. apply returns_bind.
    intros [len|]; [|codes]. eapply returns_bind_rc; [apply returns_builtin|]. intros rc Hrc. codes.
  - unfold ngx_http_wasm_set_builtin_multi_header_handler_req. apply returns_bind. intros h.
    apply returns_bind. intros _. apply returns_multi.
  - apply returns_after_builtin. codes.
  - unfold ngx_http_set_last_modified_header_handler. case_match; [codes|]. apply returns_after_builtin. codes.
  - unfold ngx_http_set_content_length_header_handler. case_match; [codes|]. apply returns_bind.
    intros v. apply returns_bind. intros d. case_match; [|codes]. apply returns_after_builtin. codes.
  - unfold ngx_http_set_content_type_header_handler. codes.
  - apply returns_multi.
  - unfold ngx_http_wasm_set_connection_header_handler_resp. codes.
Qed.

Lemma returns_set_header htype handlers key key_at value mode :
  returns id (ngx_http_wasm_set_header htype handlers key key_at value mode).
Proof.
  unfold ngx_http_wasm_set_header. apply returns_bind. intros [k|]; [|codes].
  apply returns_bind. intros _. apply returns_bind. intros [v|]; [|codes].
  apply returns_bind. intros [h hk]. apply returns_bind. intros _. apply returns_call_handler.
Qed.

(** ** Searching a list *)

Definition found_at (l : list ngx_table_elt_t) (hv : ngx_http_wasm_header_set_ctx_t) : nat :=
  length (filter (fun e => elt_matches hv e = true) l).

(** Every matching header removed; the first one set, as an update does. *)
Definition clear_all (hv : ngx_http_wasm_header_set_ctx_t) (l : list ngx_table_elt_t) :=
  (fun e => if elt_matches hv e then elt_hash 0 e else e) <$> l.

Fixpoint set_first (hv : ngx_http_wasm_header_set_ctx_t) (v : ngx_str_t) (l : list ngx_table_elt_t) :=
  match l with
  | [] => []
  | e :: l => if elt_matches hv e then elt_set (hv_hash hv) (hv_key hv) v e :: l
              else e :: set_first hv v l
  end.

Fixpoint first_match (hv : ngx_http_wasm_header_set_ctx_t) (l : list ngx_table_elt_t) : nat :=
  match l with
  | [] => O
  | e :: l => if elt_matches hv e then O else S (first_match hv l)
  end.

(** What one pass clears. *)
Fixpoint clear_first (hv : ngx_http_wasm_header_set_ctx_t) (l : list ngx_table_elt_t) :=
  match l with
  | [] => []
  | e :: l => if elt_matches hv e then elt_hash 0 e :: l else e :: clear_first hv l
  end.

Lemma found_at_cons e l hv :
  found_at (e :: l) hv = (if elt_matches hv e then S (found_at l hv) else found_at l hv).
Proof. unfold found_at. rewrite filter_cons. destruct (elt_matches hv e); by simpl. Qed.

Lemma found_at_le l hv : (found_at l hv <= length l)%nat.
Proof. unfold found_at. apply length_filter. Qed.

Lemma set_matches hv v e : elt_matches hv (elt_set (hv_hash hv) (hv_key hv) v e) = true.
Proof.
  unfold elt_matches, strcaseeq. cbn. rewrite Z.eqb_refl, Nat.eqb_refl. by rewrite bool_decide_true.
Qed.

Lemma cleared_no_match hv e : hv_hash hv <> 0 -> elt_matches hv (elt_hash 0 e) = false.
Proof. intros Hh. unfold elt_matches, elt_hash. cbn [te_hash].
  destruct (Z.eqb_spec 0 (hv_hash hv)); [congruence|done]. Qed.

Lemma found_at_set_first hv v l : found_at (set_first hv v l) hv = found_at l hv.
Proof.
  induction l as [|e l IH]; [done|]. cbn [set_first].
  destruct (elt_matches hv e) eqn:E; rewrite !found_at_cons, ?E; [by rewrite set_matches|by rewrite IH].
Qed.

Lemma clear_all_none hv l : found_at l hv = O -> clear_all hv l = l.
Proof.
  induction l as [|e l IH]; [done|]. rewrite found_at_cons. cbn [clear_all set_first].
  unfold clear_all. cbn [fmap list_fmap].
  destruct (elt_matches hv e); [done|]. intros E. f_equal. by apply IH.
Qed.

Lemma clear_all_none_left hv l : hv_hash hv <> 0 -> found_at (clear_all hv l) hv = O.
Proof.
  intros Hh. induction l as [|e l IH]; [done|]. cbn [clear_all fmap list_fmap].
  unfold clear_all in *. cbn [fmap list_fmap]. rewrite found_at_cons.
  destruct (elt_matches hv e) eqn:E; [by rewrite cleared_no_match|by rewrite E].
Qed.

Lemma set_first_none hv v l : found_at l hv = O -> set_first hv v l = l.
Proof.
  induction l as [|e l IH]; [done|]. rewrite found_at_cons. cbn [clear_all set_first].
  unfold clear_all. cbn [fmap list_fmap].
  destruct (elt_matches hv e); [done|]. intros E. f_equal. by apply IH.
Qed.

Lemma clear_first_found hv l :
  hv_hash hv <> 0 -> found_at (clear_first hv l) hv = pred (found_at l hv).
Proof.
  intros Hh. induction l as [|e l IH]; [done|]. cbn [clear_first].
  destruct (elt_matches hv e) eqn:E; rewrite !found_at_cons, ?E; [by rewrite cleared_no_match|done].
Qed.

Lemma clear_all_clear_first hv l :
  hv_hash hv <> 0 -> clear_all hv (clear_first hv l) = clear_all hv l.
Proof.
  intros Hh. induction l as [|e l IH]; [done|]. cbn. destruct (elt_matches hv e) eqn:E; cbn.
  - by rewrite cleared_no_match, ?E.
  - rewrite E. f_equal. apply IH.
Qed.

Lemma length_clear_first hv l : length (clear_first hv l) = length l.
Proof. induction l as [|e l IH]; [done|]. cbn. case_match; cbn; congruence. Qed.
Lemma length_set_first hv v l : length (set_first hv v l) = length l.
Proof. induction l as [|e l IH]; [done|]. cbn. case_match; cbn; congruence. Qed.

(** A pass that clears. *)
Lemma scan_clears hv l : forall i s,
  hv_mode hv = NGX_HTTP_WASM_HEADERS_REMOVE \/ se_found s = true ->
  scan_part hv i l s =
    if (found_at l hv =? 0)%nat then Ret (l, s, false)
    else Ret (clear_first hv l, {| se_found := true; se_out := Some None |}, true).
Proof.
  induction l as [|e l IH]; intros i s Hc; [done|]. cbn [scan_part clear_first]. rewrite found_at_cons.
  destruct (elt_matches hv e) eqn:E.
  - by replace (bool_decide (hv_mode hv = NGX_HTTP_WASM_HEADERS_REMOVE) || se_found s) with true
      by (destruct Hc as [->| ->]; by rewrite ?orb_true_r).
  - rewrite IH by done. by case_match.
Qed.

(** A pass that updates; a second match is cleared. *)
Lemma scan_sets hv v l : forall i,
  hv_mode hv = NGX_HTTP_WASM_HEADERS_SET -> hv_value hv = Some v ->
  scan_part hv i l {| se_found := false; se_out := None |} =
    match found_at l hv with
    | O => Ret (l, {| se_found := false; se_out := None |}, false)
    | 1%nat => Ret (set_first hv v l,
                    {| se_found := true; se_out := Some (Some (i + first_match hv l)%nat) |}, false)
    | _ => Ret (take (S (first_match hv l)) (set_first hv v l)
                  ++ clear_first hv (drop (S (first_match hv l)) l),
                {| se_found := true; se_out := Some None |}, true)
    end.
Proof.
  induction l as [|e l IH]; intros i Hm Hv; [done|].
  cbn [scan_part set_first first_match]. rewrite found_at_cons.
  destruct (elt_matches hv e) eqn:E.
  - rewrite Hm, Hv. cbn [orb se_found deref obind].
    rewrite !bool_decide_false by done. cbn [orb]. rewrite bool_decide_true by done.
    rewrite ngx_wa_assert_true. cbn [obind]. rewrite scan_clears by (right; done).
    rewrite Nat.add_0_r. cbn [drop take].
    destruct (found_at l hv); done.
  - rewrite IH by done. rewrite <- Nat.add_succ_comm.
    destruct (found_at l hv) as [|[|]]; done.
Qed.

(** The parts of a list are what the loops see of it. *)
Definition shape (l : ngx_list_t) : list nat := length <$> l.

Lemma concat_reshape szs (l : list ngx_table_elt_t) :
  sum_list szs = length l -> concat (reshape szs l) = l.
Proof.
  revert l. induction szs as [|n szs IH]; intros l Hl; cbn in *.
  - by destruct l.
  - rewrite IH; [apply take_drop|]. rewrite length_drop. lia.
Qed.

Lemma shape_reshape szs (l : list ngx_table_elt_t) :
  sum_list szs = length l -> shape (reshape szs l) = szs.
Proof.
  revert l. induction szs as [|n szs IH]; intros l Hl; cbn in *; [done|].
  unfold shape in *. rewrite IH by (rewrite length_drop; lia). rewrite length_take. f_equal. lia.
Qed.

Lemma shape_sum l : sum_list (shape l) = length (concat l).
Proof. induction l as [|p l IH]; [done|]. cbn. by rewrite length_app, <- IH. Qed.

Lemma shape_ok l l' : shape l = shape l' -> list_ok l -> list_ok l'.
Proof.
  destruct l as [|p l], l' as [|p' l']; try done. cbn. intros [= _ E].
  revert l' E. induction l as [|q l IH]; intros [|q' l'] E Hl; try done.
  injection E as Eq El. constructor.
  - apply Forall_cons in Hl as [Hq _]. by destruct q, q'.
  - apply Forall_cons in Hl as [_ Hl]. by apply IH.
Qed.

Lemma scan_part_length hv l : forall i s l' s' again,
  scan_part hv i l s = Ret (l', s', again) -> length l' = length l.
Proof.
  induction l as [|e l IH]; intros i s l' s' again E; cbn [scan_part] in E; [by injection E as <- <- <-|].
  destruct (elt_matches hv e); [case_match; [by injection E as <- <- <-|]|]; outcome_inv;
    repeat match goal with x : _ * _ |- _ => destruct x end; cbn in *; outcome_inv;
    repeat match goal with H : Ret _ = Ret _ |- _ => injection H as <- <- <- end;
    cbn; f_equal; eauto.
Qed.

Lemma scan_part_app hv l1 l2 : forall i s,
  scan_part hv i (l1 ++ l2) s =
    let? (l1', s', again) := scan_part hv i l1 s in
    if (again : bool) then Ret (l1' ++ l2, s', true)
    else
      let? (l2', s', again) := scan_part hv (i + length l1) l2 s' in
      Ret (l1' ++ l2', s', again).
Proof.
  induction l1 as [|e l1 IH]; intros i s; cbn [scan_part app].
  - cbn [obind length]. rewrite Nat.add_0_r. by destruct (scan_part hv i l2 s) as [[[? ?] ?]|].
  - cbn [length]. rewrite <- Nat.add_succ_comm. destruct (elt_matches hv e).
    + case_match; [done|]. destruct (ngx_wa_assert _ _); [|done]. cbn [obind].
      destruct (deref (hv_value hv)); [|done]. cbn [obind]. rewrite IH.
      destruct (scan_part hv (S i) l1 _) as [[[? ?] []]|]; cbn [obind]; [done| |done].
      by destruct (scan_part hv _ l2 _) as [[[? ?] ?]|].
    + rewrite IH. destruct (scan_part hv (S i) l1 s) as [[[? ?] []]|]; cbn [obind]; [done| |done].
      by destruct (scan_part hv _ l2 _) as [[[? ?] ?]|].
Qed.

(** The loop over the parts is a loop over the elements. *)
Lemma scan_parts_flat hv next : forall h i s,
  Forall (fun p => p <> []) next ->
  scan_parts hv i h next s =
    let? (l, s', again) := scan_part hv i (h ++ concat next) s in
    Ret (reshape (shape (h :: next)) l, s', again).
Proof.
  induction next as [|q next IH]; intros h i s Hne; cbn [scan_parts concat].
  - rewrite app_nil_r. destruct (scan_part hv i h s) as [[[l' s'] again]|] eqn:E; [|done].
    apply scan_part_length in E. cbn [obind shape fmap list_fmap reshape].
    rewrite take_ge by lia. by destruct again.
  - apply Forall_cons in Hne as [Hq Hne]. rewrite scan_part_app.
    destruct (scan_part hv i h s) as [[[l' s'] again]|] eqn:E; [|done].
    apply scan_part_length in E. cbn [obind shape fmap list_fmap reshape]. destruct again.
    + cbn [obind]. rewrite take_app_length', drop_app_length' by done. do 3 f_equal. f_equal.
      destruct q as [|x q]; [done|]. rewrite take_app_length. f_equal. rewrite drop_app_length.
      clear. induction next as [|r next IH]; [done|]. cbn. rewrite take_app_length. f_equal.
      rewrite drop_app_length. done.
    + destruct q as [|x q]; [done|]. rewrite IH by done.
      destruct (scan_part hv (i + length h) _ s') as [[[l2 s2] again]|] eqn:E2; [|done].
      cbn [obind]. rewrite take_app_length', drop_app_length' by done. done.
Qed.

Lemma search_flat fuel hv l s :
  list_ok l ->
  search (S fuel) hv l s =
    let? (L, s', again) := scan_part hv 0 (concat l) s in
    if (again : bool) then search fuel hv (reshape (shape l) L) s'
    else Ret (reshape (shape l) L, s').
Proof.
  destruct l as [|p l]; [done|]. intros Hok. cbn [search]. rewrite scan_parts_flat by done. cbn [concat].
  by destruct (scan_part hv 0 _ s) as [[[? ?] ?]|].
Qed.

(** The list [L] has the parts of [l] and the elements [es]. *)
Definition reparted (l L : ngx_list_t) (es : list ngx_table_elt_t) : Prop :=
  concat L = es /\ shape L = shape l.

Lemma reparted_reshape l es :
  length es = length (concat l) -> reparted l (reshape (shape l) es) es.
Proof.
  intros E. split; [apply concat_reshape|apply shape_reshape]; rewrite shape_sum; congruence.
Qed.

Lemma search_clears hv : hv_hash hv <> 0 -> forall fuel l s,
  list_ok l -> hv_mode hv = NGX_HTTP_WASM_HEADERS_REMOVE \/ se_found s = true ->
  (found_at (concat l) hv < fuel)%nat ->
  exists L, search fuel hv l s =
      Ret (L, if (found_at (concat l) hv =? 0)%nat then s
              else {| se_found := true; se_out := Some None |}) /\
    reparted l L (clear_all hv (concat l)).
Proof.
  intros Hh. induction fuel as [|fuel IH]; intros l s Hok Hc Hf; [lia|].
  rewrite search_flat, scan_clears by done.
  destruct (Nat.eqb_spec (found_at (concat l) hv) 0) as [E|E]; cbn [obind].
  - eexists. split; [done|]. rewrite clear_all_none by done. by apply reparted_reshape.
  - destruct (reparted_reshape l (clear_first hv (concat l))) as [El Es]; [apply length_clear_first|].
    destruct (IH (reshape (shape l) (clear_first hv (concat l))) {| se_found := true; se_out := Some None |})
      as (L & -> & HL & HS).
    + by eapply shape_ok; [symmetry|].
    + by right.
    + rewrite El, clear_first_found by done. lia.
    + exists L. rewrite El in HL. rewrite clear_all_clear_first in HL by done. split.
      * f_equal. f_equal. by case_match.
      * split; [done|congruence].
Qed.

Lemma first_match_lt hv l : found_at l hv <> O -> (first_match hv l < length l)%nat.
Proof.
  induction l as [|e l IH]; [done|]. rewrite found_at_cons. cbn [first_match length].
  destruct (elt_matches hv e); [lia|]. intros E. specialize (IH E). lia.
Qed.

Lemma found_at_app l1 l2 hv : found_at (l1 ++ l2) hv = (found_at l1 hv + found_at l2 hv)%nat.
Proof. unfold found_at. by rewrite filter_app, length_app. Qed.

Lemma clear_all_app hv l1 l2 : clear_all hv (l1 ++ l2) = clear_all hv l1 ++ clear_all hv l2.
Proof. apply fmap_app. Qed.

Lemma set_first_split hv v l :
  found_at l hv <> O ->
  exists l1 e l2, l = l1 ++ e :: l2 /\ found_at l1 hv = O /\ elt_matches hv e = true /\
    first_match hv l = length l1 /\ set_first hv v l = l1 ++ elt_set (hv_hash hv) (hv_key hv) v e :: l2.
Proof.
  induction l as [|e l IH]; [done|]. rewrite found_at_cons. cbn [first_match set_first].
  destruct (elt_matches hv e) eqn:E.
  - intros _. by exists [], e, l.
  - intros Hf. destruct (IH Hf) as (l1 & e' & l2 & El & H1 & He & Hm & Hs).
    exists (e :: l1), e', l2. rewrite Hs, Hm, El, found_at_cons, E. done.
Qed.

Definition not_found : search_t := {| se_found := false; se_out := None |}.

Lemma search_sets hv v l :
  hv_hash hv <> 0 -> hv_mode hv = NGX_HTTP_WASM_HEADERS_SET -> hv_value hv = Some v -> list_ok l ->
  let es := concat l in
  exists L s', search (search_fuel l) hv l not_found = Ret (L, s') /\
    match found_at es hv with
    | O => s' = not_found /\ reparted l L es
    | 1%nat => s' = {| se_found := true; se_out := Some (Some (first_match hv es)) |} /\
               reparted l L (set_first hv v es)
    | _ => s' = {| se_found := true; se_out := Some None |} /\
           reparted l L (clear_all hv (set_first hv v es))
    end.
Proof.
  intros Hh Hm Hv Hok es. unfold search_fuel. set (fuel := length (concat l)). rewrite search_flat by done.
  unfold not_found. rewrite (scan_sets hv v) by done. fold es.
  destruct (found_at es hv) as [|[|n]] eqn:En; cbn [obind].
  - do 2 eexists. split; [done|]. split; [done|]. by apply reparted_reshape.
  - do 2 eexists. split; [done|]. split; [done|]. apply reparted_reshape, length_set_first.
  - destruct (set_first_split hv v es) as (l1 & e & l2 & El & H1 & He & Hfm & Hset); [lia|].
    rewrite Hfm, Hset, El. set (e' := elt_set (hv_hash hv) (hv_key hv) v e).
    assert (He' : elt_matches hv e' = true) by apply set_matches.
    replace (take (S (length l1)) (l1 ++ e' :: l2)) with (l1 ++ [e']).
    2: { rewrite take_app_ge, Nat.sub_succ_l, Nat.sub_diag by lia. done. }
    replace (drop (S (length l1)) (l1 ++ e :: l2)) with l2.
    2: { rewrite drop_app_ge, Nat.sub_succ_l, Nat.sub_diag by lia. done. }
    set (X := (l1 ++ [e']) ++ clear_first hv l2).
    assert (HX : length X = length (concat l)).
    { change (concat l) with es. unfold X. rewrite El, !length_app, length_clear_first. cbn. lia. }
    destruct (reparted_reshape l X HX) as [EX SX].
    assert (Hn : found_at X hv = S n).
    { unfold X. rewrite !found_at_app, clear_first_found by done.
      rewrite El, found_at_app in En. rewrite H1, !found_at_cons, He, He' in *. cbn in *. lia. }
    destruct (search_clears hv Hh fuel (reshape (shape l) X)
                {| se_found := true; se_out := Some None |}) as (L & -> & HL & HS).
    + by eapply shape_ok; [symmetry|].
    + by right.
    + rewrite EX, Hn. change fuel with (length es). pose proof (found_at_le es hv). lia.
    + exists L. eexists. split; [done|]. rewrite EX in *. split; [by case_match|]. split; [|congruence].
      rewrite HL. unfold X. rewrite !clear_all_app, clear_all_clear_first by done.
      cbn. by rewrite <- app_assoc.
Qed.

(** ** Elements of a list *)

Lemma concat_alter f l : forall i, concat (alter_elt f i l) = alter f i (concat l).
Proof.
  induction l as [|p l IH]; intros i; [done|]. cbn [alter_elt concat].
  destruct (Nat.ltb_spec i (length p)); cbn [concat].
  - by rewrite alter_app_l.
  - rewrite IH. replace i with (length p + (i - length p))%nat at 2 by lia. by rewrite alter_app_r.
Qed.

Lemma shape_alter f l : forall i, shape (alter_elt f i l) = shape l.
Proof.
  induction l as [|p l IH]; intros i; [done|]. unfold shape in *. cbn [alter_elt].
  destruct (i <? length p)%nat; cbn; [by rewrite length_alter|by rewrite IH].
Qed.

Lemma list_of_with_headers htype f r :
  ngx_http_wasm_htype_list htype (with_headers htype f r) = hd_list (f (headers_of htype r)).
Proof. by destruct htype. Qed.

Lemma headers_of_with_headers htype f r :
  headers_of htype (with_headers htype f r) = f (headers_of htype r).
Proof. by destruct htype. Qed.

(** [r] with another list of headers. *)
Definition with_elts (htype : ngx_http_wasm_headers_type_e) (L : ngx_list_t) (r : request) : request :=
  with_headers htype (with_list (fun _ => L)) r.

Lemma with_elts_id htype r : with_elts htype (ngx_http_wasm_htype_list htype r) r = r.
Proof. by destruct htype, r as [[[]] [[]] ?]. Qed.

Lemma with_list_with_elts htype f L r :
  with_headers htype (with_list f) (with_elts htype L r) = with_elts htype (f L) r.
Proof. by destruct htype. Qed.

Lemma list_with_elts htype L r : ngx_http_wasm_htype_list htype (with_elts htype L r) = L.
Proof. by destruct htype. Qed.

Lemma with_elts_twice htype L L' r : with_elts htype L (with_elts htype L' r) = with_elts htype L r.
Proof. by destruct htype. Qed.

(** ** What setting a header in a list does *)

(** The header that is added; without memory for it [lowcase_key] is left [NULL]. *)
Definition new_elt (hv : ngx_http_wasm_header_set_ctx_t) (v : ngx_str_t) (low : bool) : ngx_table_elt_t :=
  {| te_hash := hv_hash hv; te_key := hv_key hv; te_value := v;
     te_lowcase_key := if low then Some (ngx_strlow (hv_key hv)) else None; te_next := None |}.

(** The code, [*out] and the headers after a header was added to [es]: it is there also
    when only the second allocation failed. *)
Definition added hv v (es : list ngx_table_elt_t) (rc : ngx_rc) (out : option (option nat))
    (es' : list ngx_table_elt_t) : Prop :=
  (rc = NGX_OK /\ out = Some (Some (length es)) /\ es' = es ++ [new_elt hv v true]) \/
  (rc = NGX_ERROR /\ out = None /\ (es' = es \/ es' = es ++ [new_elt hv v false])).

(** ... and after a header was set or removed. *)
Definition header_set hv v es rc out es' : Prop :=
  match hv_mode hv with
  | NGX_HTTP_WASM_HEADERS_APPEND => added hv v es rc out es'
  | NGX_HTTP_WASM_HEADERS_REMOVE =>
      rc = NGX_OK /\ es' = clear_all hv es /\
      out = (if (found_at es hv =? 0)%nat then None else Some None)
  | NGX_HTTP_WASM_HEADERS_SET =>
      match found_at es hv with
      | O => added hv v es rc out es'
      | 1%nat => rc = NGX_OK /\ es' = set_first hv v es /\ out = Some (Some (first_match hv es))
      | _ => rc = NGX_OK /\ es' = clear_all hv (set_first hv v es) /\ out = Some None
      end
  end.

Section laws.
Context `{!NgxPoolLaws P}.

Lemma push_elt_spec htype e r p :
  let l := ngx_http_wasm_htype_list htype r in
  list_ok l ->
  exists p', push_elt htype e (r, p) = Ret (false, (r, p')) \/
    exists L, push_elt htype e (r, p) = Ret (true, (with_elts htype L r, p')) /\
      concat L = concat l ++ [e] /\ list_ok L.
Proof.
  intros l Hok. unfold push_elt. cbn [fst snd]. fold l.
  destruct (ngx_list_push l e p) as [[L|] p'] eqn:E; exists p'; [right|by left].
  exists L. split_and!; [done|by eapply list_push_elts|by eapply list_push_ok].
Qed.

Lemma new_header_spec hv v r p :
  let htype := hv_htype hv in
  let l := ngx_http_wasm_htype_list htype r in
  hv_value hv = Some v -> list_ok l ->
  exists rc out L p', new_header hv None (r, p) = Ret ((rc, out), (with_elts htype L r, p')) /\
    list_ok L /\ added hv v (concat l) rc out (concat L).
Proof.
  intros htype l Hv Hok. unfold new_header. rewrite Hv.
  do 2 (erewrite SM_bind_Ret by reflexivity). cbn [fst]. fold htype. fold l.
  change {| te_hash := hv_hash hv; te_key := hv_key hv; te_value := v;
            te_lowcase_key := None; te_next := None |} with (new_elt hv v false).
  destruct (push_elt_spec htype (new_elt hv v false) r p Hok) as (p' & [E|(L & E & HL & Hok')]);
    erewrite SM_bind_Ret by exact E; cbn [negb].
  { exists NGX_ERROR, None, l, p'. unfold l. rewrite with_elts_id. split_and!; [done|done|].
    right. auto. }
  fold l in HL. destruct (ngx_pnalloc p') as [ok p''] eqn:Ep.
  erewrite SM_bind_Ret by (unfold pnalloc; cbn [snd]; rewrite Ep; reflexivity).
  destruct ok; cbn [negb].
  2: { exists NGX_ERROR, None, L, p''. split_and!; [done|done|]. right. auto. }
  exists NGX_OK, (Some (Some (length (concat l)))), (alter_elt elt_lowcase (length (concat l)) L), p''.
  split_and!.
  - erewrite SM_bind_Ret; [reflexivity|]. unfold write_elt, read_elt.
    erewrite SM_bind_Ret; [|erewrite SM_bind_Ret by reflexivity; cbn [fst]; rewrite list_with_elts, HL;
      by rewrite list_lookup_middle].
    unfold rput. cbn [fst snd]. by rewrite with_list_with_elts.
  - eapply shape_ok; [symmetry; apply shape_alter|done].
  - left. split_and!; [done|done|]. rewrite concat_alter, HL.
    replace (length (concat l)) with (length (concat l) + 0)%nat by lia. by rewrite alter_app_r.
Qed.

Lemma helper_spec hv v r p :
  let htype := hv_htype hv in
  let l := ngx_http_wasm_htype_list htype r in
  hv_hash hv <> 0 -> hv_value hv = Some v -> list_ok l ->
  exists rc out L p',
    ngx_http_wasm_set_header_helper hv (r, p) = Ret ((rc, out), (with_elts htype L r, p')) /\
    list_ok L /\ header_set hv v (concat l) rc out (concat L).
Proof.
  intros htype l Hh Hv Hok. unfold ngx_http_wasm_set_header_helper, header_set.
  case_bool_decide as Hm; [rewrite Hm; by apply new_header_spec|].
  erewrite SM_bind_Ret by reflexivity. fold htype. cbn [fst]. fold l. fold not_found.
  destruct (hv_mode hv) eqn:Em; [| done |].
  - destruct (search_sets hv v l Hh Em Hv Hok) as (L & s' & Hs & Hcase).
    rewrite Hs. erewrite SM_bind_Ret by reflexivity. cbn beta iota.
    erewrite SM_bind_Ret by reflexivity. cbn [fst snd].
    fold (with_elts htype L r). rewrite (bool_decide_false (_ = NGX_HTTP_WASM_HEADERS_REMOVE)) by done.
    destruct (found_at (concat l) hv) as [|[|]] eqn:En;
      destruct Hcase as [-> [HL HS]]; cbn [se_found se_out not_found orb].
    + destruct (new_header_spec hv v (with_elts htype L r) p) as (rc & out & L' & p' & E & Hok' & Ha);
        [done|fold htype; rewrite list_with_elts; by eapply shape_ok|].
      fold htype in E, Ha. rewrite list_with_elts in Ha. exists rc, out, L', p'.
      rewrite with_elts_twice in E. rewrite HL in Ha. by split_and!.
    + eexists _, _, L, p. split; [done|]. split; [by eapply shape_ok|]. by rewrite HL.
    + eexists _, _, L, p. split; [done|]. split; [by eapply shape_ok|]. by rewrite HL.
  - destruct (search_clears hv Hh (search_fuel l) l not_found) as (L & Hs & HL & HS);
      [done|by left|unfold search_fuel; pose proof (found_at_le (concat l) hv); lia|].
    rewrite Hs. erewrite SM_bind_Ret by reflexivity. cbn beta iota.
    erewrite SM_bind_Ret by reflexivity. cbn [fst snd]. fold (with_elts htype L r).
    rewrite bool_decide_true, orb_true_r by done. eexists _, _, L, p. split; [done|].
    split; [by eapply shape_ok|]. split_and!; [done|done|]. by case_match.
Qed.

(** Changing a header in a list, whose name has a hash that is not null ([hash_0_loops] is
    the other case), always ends, and its effect on the headers is this.
    Added: the new header is last, also when the lower case copy of its name cannot be
    allocated, which is answered as an error.  Removed: every header of that name and
    hash is.  Set: a single header of that name is updated in place and none is added;
    without one the header is added; but of several none is left, as the search that
    starts again after it removed the second one removes the updated one too.  Nothing
    else of the request changes. *)
Lemma set_header_helper_outcome hv v r p :
  let htype := hv_htype hv in
  let l := ngx_http_wasm_htype_list htype r in
  hv_hash hv <> 0 -> hv_value hv = Some v -> list_ok l ->
  exists rc out L p',
    ngx_http_wasm_set_header_helper hv (r, p) = Ret ((rc, out), (with_elts htype L r, p')) /\
    list_ok L /\ header_set hv v (concat l) rc out (concat L).
Proof. apply helper_spec. Qed.

(** A header whose key has the hash 0 cannot be removed: the search finds it again. *)
Lemma hash_0_loops hv : hv_hash hv = 0 -> hv_mode hv = NGX_HTTP_WASM_HEADERS_REMOVE ->
  forall fuel l s, list_ok l -> found_at (concat l) hv <> O -> search fuel hv l s = Fault F_fuel.
Proof.
  intros Hh Hm. assert (Hkeep : forall es, found_at (clear_first hv es) hv = found_at es hv).
  { induction es as [|e es IH]; [done|]. cbn [clear_first].
    destruct (elt_matches hv e) eqn:E; rewrite !found_at_cons, ?E; [|by rewrite IH].
    replace (elt_matches hv (elt_hash 0 e)) with (elt_matches hv e) by
      (unfold elt_matches in *; rewrite Hh in *; cbn; by destruct (te_hash e =? 0)).
    by rewrite E. }
  induction fuel as [|fuel IH]; intros l s Hok Hf; [done|].
  rewrite search_flat, scan_clears by (done || by left).
  rewrite (proj2 (Nat.eqb_neq _ _)) by done. cbn [obind].
  destruct (reparted_reshape l (clear_first hv (concat l))) as [El Es]; [apply length_clear_first|].
  apply IH; [by eapply shape_ok; [symmetry|]|]. by rewrite El, Hkeep.
Qed.

(** ** Well-formed headers *)

(** What a key names: a field of the structure, or the name itself. *)
Definition name_of (handlers : list ngx_http_wasm_header_handler_t) (key : bytes) : field + bytes :=
  match find_handler handlers key with
  | Some (h, _) => if (length (hh_name h) =? 0)%nat then inr (ngx_strlow key) else inl (hh_offset h)
  | None => inr (ngx_strlow key)
  end.

Definition handlers_of (b : build) (htype : ngx_http_wasm_headers_type_e) :=
  match htype with
  | NGX_HTTP_WASM_HEADERS_REQUEST => ngx_http_wasm_req_headers_handlers b
  | NGX_HTTP_WASM_HEADERS_RESPONSE => ngx_http_wasm_resp_headers_handlers
  end.

Section names.
Context (name : bytes -> field + bytes).

(** The elements [next] leads to from an element; they have its name. *)
Inductive linked (es : list ngx_table_elt_t) : nat -> list nat -> Prop :=
| linked_end i e : es !! i = Some e -> te_next e = None -> linked es i []
| linked_next i e j e' xs : es !! i = Some e -> te_next e = Some j -> es !! j = Some e' ->
    name (te_key e') = name (te_key e) -> linked es j xs -> linked es i (j :: xs).

Definition chain (es : list ngx_table_elt_t) (i : nat) : Prop := exists xs, linked es i xs.

(** Every chain ends, and the fields point to headers of their name. *)
Definition headers_wf (h : headers_t) : Prop :=
  list_ok (hd_list h) /\
  (forall i, (i < length (concat (hd_list h)))%nat -> chain (concat (hd_list h)) i) /\
  (forall f i, hd_field h f = Some i ->
    exists e, concat (hd_list h) !! i = Some e /\ name (te_key e) = inl f).

(** A change that is about the headers named [c]: it keeps the headers well formed, and
    changes no other header. *)
Definition headers_kept (c : field + bytes) (h h' : headers_t) : Prop :=
  headers_wf h ->
  headers_wf h' /\
  (length (concat (hd_list h)) <= length (concat (hd_list h')))%nat /\
  (forall i e, concat (hd_list h) !! i = Some e ->
    exists e', concat (hd_list h') !! i = Some e' /\ name (te_key e') = name (te_key e) /\
      (name (te_key e) <> c -> e' = e)).

#[export] Instance headers_kept_preorder c : PreOrder (headers_kept c).
Proof.
  split.
  - intros h Hwf. split_and!; [done|done|]. eauto.
  - intros h1 h2 h3 H12 H23 Hwf. destruct (H12 Hwf) as (Hwf2 & Hlen & Hk).
    destruct (H23 Hwf2) as (Hwf3 & Hlen' & Hk'). split_and!; [done|lia|].
    intros i e Hi. destruct (Hk i e Hi) as (e2 & H2 & Hn2 & He2).
    destruct (Hk' i e2 H2) as (e3 & H3 & Hn3 & He3). exists e3.
    split_and!; [done|congruence|]. intros Hne. rewrite He3 by congruence. by apply He2.
Qed.

Lemma linked_unique es i xs : linked es i xs -> forall ys, linked es i ys -> xs = ys.
Proof.
  induction 1 as [i e Hi Hn|i e j e' xs Hi Hn Hj Hname _ IH]; intros ys Hy; inversion Hy; simplify_eq; [done|].
  f_equal. by apply IH.
Qed.

Lemma linked_suffix es i xs : linked es i xs -> forall y, y ∈ xs ->
  exists zs, linked es y zs /\ (length zs < length xs)%nat.
Proof.
  induction 1 as [i e Hi Hn|i e j e' xs Hi Hn Hj Hname Hl IH]; intros y Hy; [by apply not_elem_of_nil in Hy|].
  apply elem_of_cons in Hy as [->|Hy]; [exists xs; cbn; split; [done|lia]|].
  destruct (IH y Hy) as (zs & Hz & Hlen). exists zs. cbn. split; [done|lia].
Qed.

Lemma linked_NoDup es i xs : linked es i xs -> NoDup (i :: xs).
Proof.
  induction 1 as [i e Hi Hn|i e j e' xs Hi Hn Hj Hname Hl IH]; [apply NoDup_singleton|].
  apply NoDup_cons. split; [|done]. intros Hin.
  assert (H2 : linked es i (j :: xs)) by (by eapply linked_next).
  destruct (linked_suffix es i (j :: xs) H2 i Hin) as (zs & Hz & Hlen).
  rewrite (linked_unique es i zs Hz _ H2) in Hlen. lia.
Qed.

Lemma linked_range es i xs : linked es i xs -> forall x, x ∈ i :: xs -> (x < length es)%nat.
Proof.
  induction 1 as [i e Hi Hn|i e j e' xs Hi Hn Hj Hname Hl IH]; intros x Hx;
    apply elem_of_cons in Hx as [->|Hx]; eauto using lookup_lt_Some. by apply not_elem_of_nil in Hx.
Qed.

(** A chain is not longer than the list. *)
Lemma linked_length es i xs : linked es i xs -> (length xs < length es)%nat.
Proof.
  intros Hl. assert (Hsub : (i :: xs) ⊆+ seq 0 (length es)).
  { apply NoDup_submseteq; [by eapply linked_NoDup|]. intros x Hx. apply elem_of_seq.
    pose proof (linked_range es i xs Hl x Hx). lia. }
  apply submseteq_length in Hsub. rewrite length_seq in Hsub. cbn in Hsub. lia.
Qed.

Lemma chain_last_linked es i xs : linked es i xs -> forall fuel, (length xs < fuel)%nat ->
  exists k e e', chain_last fuel es i = Ret k /\ es !! i = Some e /\ es !! k = Some e' /\
    name (te_key e') = name (te_key e) /\ te_next e' = None.
Proof.
  induction 1 as [i e Hi Hn|i e j e' xs Hi Hn Hj Hname Hl IH]; intros [|fuel] Hf; cbn in Hf; try lia;
    cbn [chain_last]; rewrite Hi; cbn [deref obind]; rewrite Hn.
  - by exists i, e, e.
  - destruct (IH fuel ltac:(lia)) as (k & e1 & e2 & Hk & H1 & H2 & Hnm & Hnx). simplify_eq.
    exists k, e, e2. split_and!; [done|done|done|congruence|done].
Qed.

(** The walk to the end of a chain ends. *)
Lemma chain_last_found es i : chain es i ->
  exists k e e', chain_last (length es) es i = Ret k /\ es !! i = Some e /\ es !! k = Some e' /\
    name (te_key e') = name (te_key e) /\ te_next e' = None.
Proof. intros [xs Hl]. eapply chain_last_linked; [done|]. by eapply linked_length. Qed.

(** Chains after elements were cut after [h] or linked to [h], and others left. *)
Definition relinked (h : option nat) (es es' : list ngx_table_elt_t) : Prop :=
  forall k e, es !! k = Some e -> exists e', es' !! k = Some e' /\ name (te_key e') = name (te_key e) /\
    (te_next e' = te_next e \/ te_next e' = None \/
     (h <> Some k /\ te_next e' = h /\ forall j, h = Some j -> exists e1, es' !! j = Some e1 /\
        name (te_key e1) = name (te_key e') /\ te_next e1 = None)).

Lemma chain_relinked h es es' i : relinked h es es' -> chain es i -> chain es' i.
Proof.
  intros Hr [xs Hl]. induction Hl as [i e Hi Hn|i e j e' xs Hi Hn Hj Hname Hl IH];
    destruct (Hr i e Hi) as (e2 & Hi2 & Hn2 & Hcase).
  - destruct Hcase as [Hc|[Hc|(Hne & Hc & Hh)]].
    + exists []. eapply linked_end; [done|congruence].
    + exists []. by eapply linked_end.
    + destruct h as [j|]; [|exists []; by eapply linked_end].
      destruct (Hh j eq_refl) as (e1 & Hj & Hnm & Hnx). exists [j].
      eapply linked_next; [done|done|done|done|]. by eapply linked_end.
  - destruct Hcase as [Hc|[Hc|(Hne & Hc & Hh)]].
    + destruct IH as [ys Hy]. destruct (Hr j e' Hj) as (e3 & Hj3 & Hn3 & _). exists (j :: ys).
      eapply linked_next; [done|congruence|done|congruence|done].
    + exists []. by eapply linked_end.
    + destruct h as [k|]; [|exists []; by eapply linked_end].
      destruct (Hh k eq_refl) as (e1 & Hk & Hnm & Hnx). exists [k].
      eapply linked_next; [done|done|done|done|]. by eapply linked_end.
Qed.

Lemma kept_intro c h h' :
  (headers_wf h ->
    list_ok (hd_list h') /\
    (length (concat (hd_list h)) <= length (concat (hd_list h')))%nat /\
    (forall i e, concat (hd_list h) !! i = Some e ->
      exists e', concat (hd_list h') !! i = Some e' /\ name (te_key e') = name (te_key e) /\
        (name (te_key e) <> c -> e' = e)) /\
    (forall i, (i < length (concat (hd_list h')))%nat -> chain (concat (hd_list h')) i) /\
    (forall f i, hd_field h' f = Some i ->
      hd_field h f = Some i \/ exists e, concat (hd_list h') !! i = Some e /\ name (te_key e) = inl f)) ->
  headers_kept c h h'.
Proof.
  intros Hk Hwf. destruct (Hk Hwf) as (Hok & Hlen & Hpt & Hch & Hf). split_and!; [|done|done].
  split_and!; [done|done|]. intros f i Hi. destruct (Hf f i Hi) as [Hold|Hnew]; [|done].
  destruct Hwf as (_ & _ & Hfs). destruct (Hfs f i Hold) as (e & He & Hn).
  destruct (Hpt i e He) as (e' & He' & Hn' & _). exists e'. split; [done|congruence].
Qed.

(** Elements rewritten without their links or names, and elements added at the end. *)
Definition rewritten (c : field + bytes) (es es' : list ngx_table_elt_t) : Prop :=
  (length es <= length es')%nat /\
  (forall i e, es !! i = Some e -> exists e', es' !! i = Some e' /\ te_next e' = te_next e /\
     name (te_key e') = name (te_key e) /\ (name (te_key e) <> c -> e' = e)) /\
  (forall i, (length es <= i < length es')%nat -> exists e', es' !! i = Some e' /\ te_next e' = None).

Lemma kept_rewritten c h h' :
  list_ok (hd_list h') -> rewritten c (concat (hd_list h)) (concat (hd_list h')) ->
  (forall f i, hd_field h' f = Some i ->
     hd_field h f = Some i \/ exists e, concat (hd_list h') !! i = Some e /\ name (te_key e) = inl f) ->
  headers_kept c h h'.
Proof.
  intros Hok (Hlen & Hpt & Hnew) Hf. apply kept_intro. intros (_ & Hch & _). split_and!; [done|done| | |done].
  - intros i e He. destruct (Hpt i e He) as (e' & ? & _ & ? & ?). eauto.
  - intros i Hi. destruct (decide (i < length (concat (hd_list h)))%nat) as [Hlt|Hge].
    + apply (chain_relinked None (concat (hd_list h))); [|by apply Hch].
      intros k e He. destruct (Hpt k e He) as (e' & ? & ? & ? & _). exists e'. auto.
    + destruct (Hnew i ltac:(lia)) as (e' & He' & Hnx). exists []. by eapply linked_end.
Qed.

Lemma rewritten_fmap c g es :
  (forall e, te_next (g e) = te_next e /\ name (te_key (g e)) = name (te_key e) /\
     (name (te_key e) <> c -> g e = e)) ->
  rewritten c es (g <$> es).
Proof.
  intros Hg. split_and!; [by rewrite length_fmap| |].
  - intros i e He. exists (g e). rewrite list_lookup_fmap, He. by split_and!; [|apply Hg..].
  - intros i. rewrite length_fmap. lia.
Qed.

Lemma rewritten_trans c es1 es2 es3 : rewritten c es1 es2 -> rewritten c es2 es3 -> rewritten c es1 es3.
Proof.
  intros (L1 & P1 & N1) (L2 & P2 & N2). split_and!; [lia| |].
  - intros i e He. destruct (P1 i e He) as (e2 & H2 & ? & ? & Hc). destruct (P2 i e2 H2) as (e3 & E3 & ? & ? & Hc').
    exists e3. split_and!; [done|congruence|congruence|]. intros Hne. rewrite Hc' by congruence. auto.
  - intros i Hi. destruct (decide (i < length es2)%nat) as [Hlt|Hge].
    + destruct (N1 i ltac:(lia)) as (e2 & H2 & Hx). destruct (P2 i e2 H2) as (e3 & H3 & Hx' & _).
      exists e3. split; [done|congruence].
    + apply N2. lia.
Qed.

Lemma rewritten_refl c es : rewritten c es es.
Proof. split_and!; [done|eauto|lia]. Qed.

Lemma rewritten_snoc c es e : te_next e = None -> rewritten c es (es ++ [e]).
Proof.
  intros Hn. split_and!; [rewrite length_app; lia| |].
  - intros i e' He. exists e'. rewrite lookup_app_l by (by eapply lookup_lt_Some). auto.
  - intros i. rewrite length_app. cbn. intros Hi. replace i with (length es) by lia.
    exists e. by rewrite list_lookup_middle.
Qed.

Context (name_case : forall a b, ngx_strlow a = ngx_strlow b -> name a = name b).

Lemma match_name hv e : elt_matches hv e = true -> name (te_key e) = name (hv_key hv).
Proof.
  unfold elt_matches, strcaseeq. intros E. apply andb_true_iff in E as [_ E].
  apply bool_decide_eq_true in E. by apply name_case.
Qed.

Lemma rewritten_set_first hv v es : rewritten (name (hv_key hv)) es (set_first hv v es).
Proof.
  split_and!; [by rewrite length_set_first| |rewrite length_set_first; lia].
  induction es as [|x es IH]; [done|]. intros i e Hi. cbn [set_first].
  destruct (elt_matches hv x) eqn:E.
  - destruct i as [|i]; cbn in *; [|eauto]. injection Hi as <-. eexists. split; [done|].
    apply match_name in E. split_and!; [done|done|]. by intros ?.
  - destruct i as [|i]; cbn in *; [injection Hi as <-; eauto|]. by apply IH.
Qed.

Lemma rewritten_clear_all hv es : rewritten (name (hv_key hv)) es (clear_all hv es).
Proof.
  apply rewritten_fmap. intros e. destruct (elt_matches hv e) eqn:E; [|done]. cbn.
  apply match_name in E. split_and!; [done|done|]. by intros ?.
Qed.

Lemma first_match_elt hv v es : found_at es hv <> O ->
  exists e, set_first hv v es !! first_match hv es = Some e /\ te_key e = hv_key hv.
Proof.
  intros Hf. destruct (set_first_split hv v es Hf) as (l1 & e & l2 & _ & _ & _ & -> & ->).
  rewrite list_lookup_middle by done. by eexists.
Qed.

(** Setting a header in the list rewrites the headers of its name, or adds one; what it
    returns is one of them. *)
Lemma header_set_rewritten hv v es rc out es' :
  header_set hv v es rc out es' ->
  rewritten (name (hv_key hv)) es es' /\
  forall i, out = Some (Some i) -> exists e, es' !! i = Some e /\ name (te_key e) = name (hv_key hv).
Proof.
  assert (Hadd : added hv v es rc out es' -> rewritten (name (hv_key hv)) es es' /\
    forall i, out = Some (Some i) -> exists e, es' !! i = Some e /\ name (te_key e) = name (hv_key hv)).
  { intros [(-> & -> & ->)|(-> & -> & Hes)].
    - split; [by apply rewritten_snoc|]. intros i [= <-]. rewrite list_lookup_middle by done. by eexists.
    - split; [|done]. destruct Hes as [->| ->]; [apply rewritten_refl|by apply rewritten_snoc]. }
  unfold header_set. destruct (hv_mode hv); [|done|].
  - destruct (found_at es hv) as [|[|n]] eqn:En; [done| |]; intros (-> & -> & ->).
    + split; [apply rewritten_set_first|]. intros i [= <-].
      destruct (first_match_elt hv v es) as (e & He & Hk); [lia|]. exists e. split; [done|congruence].
    + split; [|done]. eapply rewritten_trans; [apply rewritten_set_first|apply rewritten_clear_all].
  - intros (-> & -> & ->). split; [apply rewritten_clear_all|]. by case_match.
Qed.

End names.

(** ** Weakest preconditions of the handlers *)

Definition wp {A} (m : M A) (s : request * P) (Q : A -> request * P -> Prop) (F : fault -> Prop) : Prop :=
  match m s with
  | Ret (a, s') => Q a s'
  | Fault f => F f
  end.

Lemma wp_bind {A B} (m : M A) (k : A -> M B) s Q F :
  wp m s (fun a s' => wp (k a) s' Q F) F -> wp (m ≫= k) s Q F.
Proof. unfold wp, mbind, SM_bind. by destruct (m s) as [[]|]. Qed.

Lemma wp_mono {A} (m : M A) s (Q Q' : A -> request * P -> Prop) F :
  wp m s Q F -> (forall a s', Q a s' -> Q' a s') -> wp m s Q' F.
Proof. unfold wp. destruct (m s) as [[]|]; auto. Qed.

Lemma wp_weaken {A} (m : M A) s Q (F F' : fault -> Prop) :
  wp m s Q F -> (forall f, F f -> F' f) -> wp m s Q F'.
Proof. unfold wp. destruct (m s) as [[]|]; auto. Qed.

Lemma wp_write_elt htype i g s e Q F :
  concat (ngx_http_wasm_htype_list htype s.1) !! i = Some e ->
  Q tt (with_headers htype (with_list (alter_elt g i)) s.1, s.2) -> wp (write_elt htype i g) s Q F.
Proof.
  intros He Hq. apply wp_bind, wp_bind. unfold wp at 1, rget, slift. cbn [fst].
  unfold wp at 1. by rewrite He.
Qed.

Lemma wp_read_elt htype i s e Q F :
  concat (ngx_http_wasm_htype_list htype s.1) !! i = Some e ->
  Q e s -> wp (read_elt htype i) s Q F.
Proof. intros He Hq. apply wp_bind. unfold wp, rget, slift. cbn [fst]. by rewrite He. Qed.

Lemma wp_ret {A} (a : A) s (Q : A -> request * P -> Prop) F : Q a s -> wp (mret a) s Q F.
Proof. done. Qed.
Lemma wp_rget {A} (f : request -> A) s (Q : A -> request * P -> Prop) F :
  Q (f s.1) s -> wp (rget f) s Q F.
Proof. done. Qed.
Lemma wp_rput f s (Q : unit -> request * P -> Prop) F : Q tt (f s.1, s.2) -> wp (rput f) s Q F.
Proof. done. Qed.
Lemma wp_deref {A} (a : A) s (Q : A -> request * P -> Prop) F :
  Q a s -> wp (slift (deref (Some a))) s Q F.
Proof. done. Qed.
Lemma wp_fault {A} s (Q : A -> request * P -> Prop) F : F F_memory -> wp (slift (deref None)) s Q F.
Proof. done. Qed.
Lemma wp_assert (cond : bool) s (Q : unit -> request * P -> Prop) (F : fault -> Prop) :
  (debug = true -> cond = false -> F F_assert) -> (Q tt s) -> wp (rassert cond) s Q F.
Proof. unfold wp, rassert, slift, ngx_wa_assert. destruct debug, cond; cbn; auto. Qed.

Lemma name_of_case handlers a b : ngx_strlow a = ngx_strlow b -> name_of handlers a = name_of handlers b.
Proof.
  intros E. assert (Hl : length a = length b) by (apply (f_equal length) in E; unfold ngx_strlow in E; by rewrite !length_fmap in E).
  unfold name_of. rewrite <- E.
  assert (Hf : forall hs, (fst <$> find_handler hs a) = (fst <$> find_handler hs b)).
  { induction hs as [|h hs IH]; [done|]. cbn [find_handler]. unfold strcaseeq. rewrite <- E, Hl.
    case_match; [done|]. by case_match. }
  specialize (Hf handlers). destruct (find_handler handlers a) as [[]|], (find_handler handlers b) as [[]|];
    cbn in Hf; by simplify_eq.
Qed.

Definition other (htype : ngx_http_wasm_headers_type_e) : ngx_http_wasm_headers_type_e :=
  match htype with
  | NGX_HTTP_WASM_HEADERS_REQUEST => NGX_HTTP_WASM_HEADERS_RESPONSE
  | NGX_HTTP_WASM_HEADERS_RESPONSE => NGX_HTTP_WASM_HEADERS_REQUEST
  end.

Section keeps.
Context (b : build) (htype : ngx_http_wasm_headers_type_e) (c : field + bytes) (r0 : request).
Abbreviation name := (name_of (handlers_of b htype)).

(** The request after some changes of the headers named [c]. *)
Definition kept (r : request) : Prop :=
  headers_wf name (headers_of htype r) /\
  headers_kept name c (headers_of htype r0) (headers_of htype r) /\
  headers_of (other htype) r = headers_of (other htype) r0.

Lemma kept_step r r' :
  kept r -> headers_kept name c (headers_of htype r) (headers_of htype r') ->
  headers_of (other htype) r' = headers_of (other htype) r -> kept r'.
Proof.
  intros (Hwf & Hk & Ho) Hk' Ho'. split_and!; [by destruct (Hk' Hwf)|by etrans|congruence].
Qed.

(** Fields outside of the tables. *)
Lemma kept_same r r' :
  headers_of htype r' = headers_of htype r -> headers_of (other htype) r' = headers_of (other htype) r ->
  kept r -> kept r'.
Proof. unfold kept. intros -> ->. done. Qed.

Lemma other_with_headers f r : headers_of (other htype) (with_headers htype f r) = headers_of (other htype) r.
Proof. by destruct htype. Qed.

Lemma kept_write r i g e :
  kept r -> concat (ngx_http_wasm_htype_list htype r) !! i = Some e -> name (te_key e) = c ->
  te_next (g e) = te_next e -> name (te_key (g e)) = name (te_key e) ->
  kept (with_headers htype (with_list (alter_elt g i)) r).
Proof.
  intros Hk He Hc Hn Hnm. apply (kept_step r); [done| |apply other_with_headers].
  rewrite headers_of_with_headers. apply kept_rewritten; cbn [hd_list hd_field with_list].
  - destruct Hk as ((Hok & _) & _). eapply shape_ok; [symmetry; apply shape_alter|done].
  - rewrite concat_alter. change (hd_list (headers_of htype r)) with (ngx_http_wasm_htype_list htype r).
    split_and!; [by rewrite length_alter| |rewrite length_alter; lia].
    intros j x Hj. destruct (decide (i = j)) as [->|Hne].
    + rewrite list_lookup_alter_eq, Hj. simplify_eq. exists (g e). by split_and!.
    + rewrite list_lookup_alter_ne by done. eauto.
  - intros f j Hj. by left.
Qed.

Lemma kept_field r f o :
  kept r ->
  (forall i, o = Some i ->
     exists e, concat (ngx_http_wasm_htype_list htype r) !! i = Some e /\ name (te_key e) = inl f) ->
  kept (with_headers htype (with_field f o) r).
Proof.
  intros Hk Ho. apply (kept_step r); [done| |apply other_with_headers].
  rewrite headers_of_with_headers. apply kept_rewritten; cbn [hd_list hd_field with_field].
  - by destruct Hk as ((Hok & _) & _).
  - apply rewritten_refl.
  - intros g i. unfold at_field. case_decide as Eg; [subst g|by left]. intros Ei. right. by apply Ho.
Qed.

Lemma kept_helper hv v r rc out L :
  kept r -> list_ok L -> name (hv_key hv) = c ->
  header_set hv v (concat (ngx_http_wasm_htype_list htype r)) rc out (concat L) ->
  kept (with_elts htype L r) /\
  forall i, out = Some (Some i) ->
    exists e, concat (ngx_http_wasm_htype_list htype (with_elts htype L r)) !! i = Some e /\
      name (te_key e) = c.
Proof.
  intros Hk Hok Hc Hs. apply (header_set_rewritten name) in Hs as [Hrw Hout]; [|apply name_of_case].
  split.
  - apply (kept_step r); [done| |apply other_with_headers]. unfold with_elts.
    rewrite headers_of_with_headers. apply kept_rewritten; cbn [hd_list hd_field with_list];
      [done|by rewrite <- Hc|by left].
  - rewrite list_with_elts. intros i Hi. rewrite <- Hc. by apply Hout.
Qed.

(** [h->next = NULL] *)
Lemma kept_cut r h e :
  kept r -> concat (ngx_http_wasm_htype_list htype r) !! h = Some e -> name (te_key e) = c ->
  kept (with_headers htype (with_list (alter_elt (elt_next None) h)) r).
Proof.
  intros Hk Hh Hc. apply (kept_step r); [done| |apply other_with_headers].
  rewrite headers_of_with_headers. apply kept_intro. intros (Hok & Hch & _).
  cbn [hd_list hd_field with_list]. rewrite !concat_alter, !length_alter.
  change (hd_list (headers_of htype r)) with (ngx_http_wasm_htype_list htype r) in *.
  set (es := concat (ngx_http_wasm_htype_list htype r)) in *.
  assert (Hpt : forall k x, es !! k = Some x -> exists x', alter (elt_next None) h es !! k = Some x' /\
    te_key x' = te_key x /\ (k = h -> te_next x' = None) /\ (k <> h -> x' = x)).
  { intros k x Hx. destruct (decide (k = h)) as [->|Hne].
    - rewrite list_lookup_alter_eq, Hx. cbn. eexists. by split_and!.
    - rewrite list_lookup_alter_ne, Hx by done. eexists. by split_and!. }
  split_and!; [|done| | |by left].
  - apply (shape_ok (ngx_http_wasm_htype_list htype r)); [by rewrite shape_alter|done].
  - intros k x Hx. destruct (Hpt k x Hx) as (x' & Hx' & Hkey & _ & Hsame). exists x'.
    split_and!; [done|congruence|]. intros Hne. apply Hsame. intros ->. congruence.
  - intros i Hi. apply (chain_relinked name None es); [|by apply Hch].
    intros k x Hx. destruct (Hpt k x Hx) as (x' & Hx' & Hkey & Hcut & Hsame). exists x'.
    split_and!; [done|congruence|]. destruct (decide (k = h)); [right; left; auto|].
    left. by rewrite Hsame.
Qed.

(** [*ph = h] and [h->next = NULL]. *)
Lemma kept_link r last h e eh :
  kept r -> c = name (te_key e) ->
  concat (ngx_http_wasm_htype_list htype r) !! last = Some e -> te_next e = None ->
  concat (ngx_http_wasm_htype_list htype r) !! h = Some eh -> name (te_key eh) = c ->
  kept (with_headers htype (with_list (alter_elt (elt_next None) h))
         (with_headers htype (with_list (alter_elt (elt_next (Some h)) last)) r)).
Proof.
  intros Hk Hc Hl Hn Hh Hnh. set (l := ngx_http_wasm_htype_list htype r) in *.
  apply (kept_step r); [done| |by rewrite !other_with_headers]. rewrite !headers_of_with_headers.
  apply kept_intro. intros (Hok & Hch & _). cbn [hd_list hd_field with_list].
  change (hd_list (headers_of htype r)) with l in *. rewrite !concat_alter, !length_alter.
  assert (Hpt : forall k x, concat l !! k = Some x -> exists x',
    alter (elt_next None) h (alter (elt_next (Some h)) last (concat l)) !! k = Some x' /\
    te_key x' = te_key x /\ (k <> h -> k <> last -> x' = x) /\ (k = h -> te_next x' = None) /\
    (k <> h -> k = last -> te_next x' = Some h)).
  { intros k x Hx. destruct (decide (k = h)) as [->|Hkh].
    - rewrite list_lookup_alter_eq. destruct (decide (h = last)) as [->|Hhl].
      + rewrite list_lookup_alter_eq, Hx. cbn. eexists. split_and!; try done.
      + rewrite list_lookup_alter_ne, Hx by done. cbn. eexists. split_and!; try done.
    - rewrite list_lookup_alter_ne by done. destruct (decide (k = last)) as [->|Hkl].
      + rewrite list_lookup_alter_eq, Hx. cbn. eexists. split_and!; try done.
      + rewrite list_lookup_alter_ne, Hx by done. eexists. split_and!; try done. }
  split_and!; [|done| | |by left].
  - apply (shape_ok l); [by rewrite !shape_alter|done].
  - intros i x Hx. destruct (Hpt i x Hx) as (x' & Hx' & Hkey & Hsame & _). exists x'.
    split_and!; [done|congruence|]. intros Hne. apply Hsame; intros ->; congruence.
  - intros i Hi. apply (chain_relinked name (Some h) (concat l)); [|by apply Hch].
    intros k x Hx. destruct (Hpt k x Hx) as (x' & Hx' & Hkey & Hsame & Hh' & Hl'). exists x'.
    split_and!; [done|congruence|]. destruct (decide (k = h)) as [->|Hkh]; [right; left; auto|].
    destruct (decide (k = last)) as [->|Hkl]; [|left; by rewrite Hsame].
    right. right. split_and!; [by intros [= ->]|by apply Hl'|].
    intros j [= <-]. destruct (Hpt h eh Hh) as (y & Hy & Hky & _ & Hny & _). exists y.
    split_and!; [done|congruence|auto].
Qed.

(** What a handler of the table may rely on. *)
Definition handler_fits (h : ngx_http_wasm_header_handler_t) : bool :=
  match hh_handler h with
  | set_location_header_handler =>
      bool_decide (htype = NGX_HTTP_WASM_HEADERS_RESPONSE /\ hh_offset h = f_location)
  | set_last_modified_header_handler =>
      bool_decide (htype = NGX_HTTP_WASM_HEADERS_RESPONSE /\ hh_offset h = f_last_modified)
  | set_content_length_header_handler =>
      bool_decide (htype = NGX_HTTP_WASM_HEADERS_RESPONSE /\ hh_offset h = f_content_length)
  | set_builtin_multi_header_handler_req => bool_decide (htype = NGX_HTTP_WASM_HEADERS_REQUEST)
  | _ => true
  end.

Record hv_ok (hv : ngx_http_wasm_header_set_ctx_t) (v : ngx_str_t) : Prop := {
  ok_htype : hv_htype hv = htype;
  ok_hash : hv_hash hv <> 0;
  ok_value : hv_value hv = Some v;
  ok_name : name (hv_key hv) = c;
  ok_offset : hh_handler (hv_handler hv) <> set_header_handler -> c = inl (hh_offset (hv_handler hv));
  ok_fits : handler_fits (hv_handler hv) = true;
  ok_data : hv_mode hv <> NGX_HTTP_WASM_HEADERS_REMOVE -> is_Some v;
}.

Lemma kept_other_field r f :
  headers_of NGX_HTTP_WASM_HEADERS_REQUEST (f r) = headers_of NGX_HTTP_WASM_HEADERS_REQUEST r ->
  headers_of NGX_HTTP_WASM_HEADERS_RESPONSE (f r) = headers_of NGX_HTTP_WASM_HEADERS_RESPONSE r ->
  kept r -> kept (f r).
Proof. intros E1 E2. apply kept_same; by destruct htype. Qed.

Lemma field_elt r f i : kept r -> hd_field (headers_of htype r) f = Some i ->
  exists e, concat (ngx_http_wasm_htype_list htype r) !! i = Some e /\ name (te_key e) = inl f.
Proof. intros ((_ & _ & Hf) & _). apply Hf. Qed.

Lemma header_set_unset hv v es rc es' :
  header_set hv v es rc None es' ->
  rc = NGX_ERROR \/ (hv_mode hv = NGX_HTTP_WASM_HEADERS_REMOVE /\ found_at es hv = O).
Proof.
  unfold header_set, added. destruct (hv_mode hv).
  - destruct (found_at es hv) as [|[|]]; naive_solver.
  - naive_solver.
  - destruct (Nat.eqb_spec (found_at es hv) 0); naive_solver.
Qed.

Section handlers.
Context (hv : ngx_http_wasm_header_set_ctx_t) (v : ngx_str_t) (Hv : hv_ok hv v).
Abbreviation keeps m := (forall s (F : fault -> Prop), kept s.1 -> wp m s (fun _ s' => kept s'.1) F).

Lemma wp_helper s Q F :
  kept s.1 ->
  (forall rc out L p', let r' := with_elts htype L s.1 in
    header_set hv v (concat (ngx_http_wasm_htype_list htype s.1)) rc out (concat L) -> kept r' ->
    (forall i, out = Some (Some i) ->
       exists e, concat (ngx_http_wasm_htype_list htype r') !! i = Some e /\ name (te_key e) = c) ->
    Q (rc, out) (r', p')) ->
  wp (ngx_http_wasm_set_header_helper hv) s Q F.
Proof.
  destruct s as [r p]. cbn [fst]. intros Hk Hq. destruct Hv as [Ht Hh Hval Hnm _ _ _].
  destruct (helper_spec hv v r p Hh Hval) as (rc & out & L & p' & E & Hok & Hs).
  { rewrite Ht. by destruct Hk as ((Hok & _) & _). }
  rewrite Ht in *. unfold wp. rewrite E.
  destruct (kept_helper hv v r rc out L Hk Hok Hnm Hs) as [Hk' Hout]. by apply Hq.
Qed.

Lemma keeps_set_header : keeps (ngx_http_wasm_set_header_handler hv).
Proof. intros s F Hk. apply wp_bind, wp_helper; [done|]. intros rc out L p' r' _ Hk' _. exact Hk'. Qed.

Lemma keeps_builtin :
  hh_handler (hv_handler hv) <> set_header_handler -> keeps (ngx_http_wasm_set_builtin_header_handler hv).
Proof.
  intros Hn s F Hk. pose proof (ok_offset hv v Hv Hn) as Hc. pose proof (ok_htype hv v Hv) as Ht.
  unfold ngx_http_wasm_set_builtin_header_handler. rewrite Ht. apply wp_bind. unfold wp at 1, read_field, rget.
  destruct (hd_field (headers_of htype s.1) (hh_offset (hv_handler hv))) as [h|] eqn:Ef.
  - destruct (field_elt s.1 _ h Hk Ef) as (e & He & Hne).
    destruct (hv_mode hv) eqn:Em.
    + apply wp_bind. unfold wp at 1, slift. rewrite (ok_value hv v Hv). cbn [deref obind].
      apply wp_bind. eapply wp_write_elt; [done|]. unfold wp. cbn -[with_headers].
      eapply kept_write; [done|done|congruence|done|]. cbn. rewrite (ok_name hv v Hv). congruence.
    + exact Hk.
    + apply wp_bind. eapply wp_write_elt; [done|]. unfold wp. cbn -[with_headers].
      eapply kept_write; [done|done|congruence|done|done].
  - case_bool_decide; [exact Hk|]. apply wp_bind, wp_helper; [done|].
    intros rc out L p' r' _ Hk' Hout. destruct out as [h|]; [|exact Hk'].
    apply wp_bind. unfold wp at 1, write_field, rput. unfold wp. cbn -[with_headers].
    apply kept_field; [done|]. intros i ->. destruct (Hout i eq_refl) as (e & He & Hne).
    exists e. split; [done|congruence].
Qed.

(** The handlers of fields of several headers fault when [h] was left unset. *)
Lemma keeps_multi s (F : fault -> Prop) :
  hh_handler (hv_handler hv) <> set_header_handler ->
  (hv_mode hv = NGX_HTTP_WASM_HEADERS_REMOVE ->
   found_at (concat (ngx_http_wasm_htype_list htype s.1)) hv = O -> F F_memory) ->
  kept s.1 -> wp (multi_header_append hv) s (fun _ s' => kept s'.1) F.
Proof.
  intros Hn HF Hk. pose proof (ok_offset hv v Hv Hn) as Hc. pose proof (ok_htype hv v Hv) as Ht.
  unfold multi_header_append. rewrite Ht. apply wp_bind, wp_helper; [done|].
  intros rc out L p' r' Hset Hk' Hout. case_bool_decide as Hrc; [exact Hk'|].
  apply wp_bind. unfold wp at 1, read_field, rget. cbn [fst]. apply wp_bind.
  destruct out as [h|]; unfold wp at 1, slift; cbn [deref obind].
  2: { apply header_set_unset in Hset as [?|[Hm Hf]]; [done|]. by apply HF. }
  destruct (hd_field (headers_of htype r') (hh_offset (hv_handler hv))) as [first|] eqn:Ef.
  - destruct (field_elt r' _ first Hk' Ef) as (e1 & He1 & Hne1).
    destruct Hk' as ((Hok & Hch & Hfs) & Hrest). assert (Hk' : kept r') by done.
    destruct (chain_last_found name (concat (ngx_http_wasm_htype_list htype r')) first)
      as (k & x & y & Hlast & Hx & Hy & Hxy & Hnx).
    { apply Hch. by eapply lookup_lt_Some. }
    simplify_eq. apply wp_bind, wp_bind. unfold wp at 1, rget. cbn [fst]. apply wp_bind.
    unfold wp at 1, slift. rewrite Hlast. cbn [obind]. eapply wp_write_elt; [done|]. cbn [fst snd].
    destruct h as [h|].
    + destruct (Hout h eq_refl) as (eh & Heh & Hneh). apply wp_bind.
      destruct (decide (h = k)) as [->|Hne].
      * eapply wp_write_elt.
        { cbn [fst]. rewrite list_of_with_headers. cbn [hd_list with_list]. rewrite concat_alter.
          rewrite list_lookup_alter_eq. unfold ngx_http_wasm_htype_list in Hy. by rewrite Hy. }
        unfold wp. cbn -[with_headers]. apply (kept_link r' k k y y); (done || congruence).
      * eapply wp_write_elt.
        { cbn [fst]. rewrite list_of_with_headers. cbn [hd_list with_list]. rewrite concat_alter.
          rewrite list_lookup_alter_ne by done. exact Heh. }
        unfold wp. cbn -[with_headers]. apply (kept_link r' k h y eh); (done || congruence).
    + apply wp_bind. unfold wp. cbn -[with_headers]. eapply kept_write; [done|done|congruence|done|done].
  - apply wp_bind. unfold wp at 1, write_field, rput. cbn [fst snd].
    assert (Hk2 : kept (with_headers htype (with_field (hh_offset (hv_handler hv)) h) r')).
    { apply kept_field; [done|]. intros i ->. destruct (Hout i eq_refl) as (e & He & Hne).
      exists e. split; [done|congruence]. }
    apply wp_bind. destruct h as [h|]; [|exact Hk2].
    destruct (Hout h eq_refl) as (eh & Heh & Hneh). eapply wp_write_elt.
    { cbn [fst]. rewrite list_of_with_headers. exact Heh. }
    unfold wp. cbn -[with_headers]. eapply kept_cut; [done| |done].
    rewrite list_of_with_headers. exact Heh.
Qed.

#[local] Ltac wgo := repeat match goal with
  | |- wp (_ ≫= _) _ _ _ => apply wp_bind
  | |- wp (rget _) _ _ _ => apply wp_rget
  | |- wp (rput _) _ _ _ => apply wp_rput
  | |- wp (mret _) _ _ _ => apply wp_ret
  end.

(** Goes through [ngx_http_wasm_set_builtin_header_handler] and the test of its code. *)
#[local] Ltac wbuiltin Hn :=
  apply wp_bind; eapply wp_mono; [by apply (keeps_builtin Hn)|];
  let rc := fresh "rc" in let s' := fresh "s" in let Hk := fresh "Hk" in
  intros rc s' Hk; destruct (is_ok rc); cbn [negb]; [|exact Hk].

Lemma wp_hv_str s Q F : Q v s -> wp (hv_str hv) s Q F.
Proof. unfold hv_str. rewrite (ok_value hv v Hv). apply wp_deref. Qed.

Lemma wp_str_data w d s Q F : w = Some d -> Q d s -> wp (str_data w) s Q F.
Proof. intros ->. apply wp_deref. Qed.

Lemma str_len_data (w : ngx_str_t) : (str_len w =? 0) = false -> exists d, w = Some d.
Proof. destruct w as [d|]; [by exists d|done]. Qed.

Context (Hn : hh_handler (hv_handler hv) <> set_header_handler).

Lemma keeps_host s (F : fault -> Prop) :
  ((rq_rctx s.1 ≫= rc_step) = Some ProxyWasm.STEP_UPSTREAM_SELECT ->
   (rq_rctx s.1 ≫= rc_upstream_host) = None -> F F_memory) ->
  kept s.1 -> wp (ngx_http_wasm_set_host_header_handler hv) s (fun _ s' => kept s'.1) F.
Proof.
  intros HF Hk. unfold ngx_http_wasm_set_host_header_handler. wgo. case_bool_decide as Hstep.
  - wgo. destruct (rq_rctx s.1 ≫= rc_upstream_host); [apply wp_deref|by apply wp_fault, HF].
    wgo. apply wp_hv_str. wgo. by apply (kept_other_field s.1 (with_upstream_host v)).
  - wbuiltin Hn. wgo. apply wp_hv_str. wgo. by apply (kept_other_field _ (with_in (in_server v))).
Qed.

Lemma keeps_connection_req : keeps (ngx_http_wasm_set_connection_header_handler_req hv).
Proof.
  intros s F Hk. unfold ngx_http_wasm_set_connection_header_handler_req. wbuiltin Hn.
  wgo. apply wp_hv_str. destruct (str_len v =? 0) eqn:El; [exact Hk0|]. wgo.
  destruct (rq_rctx s0.1); [|exact Hk0]. destruct (str_len_data v El) as [d Hd]. wgo.
  apply (wp_str_data v d); [done|]. case_match; [|case_match; [|exact Hk0]]; wgo; cbn [fst].
  - apply (kept_other_field _ (with_keepalive false false)); [done|done|].
    by apply (kept_other_field _ (with_in _)).
  - apply (kept_other_field _ (with_keepalive true true)); [done|done|].
    by apply (kept_other_field _ (with_in _)).
Qed.

Lemma keeps_ua : keeps (ngx_http_wasm_set_ua_header_handler hv).
Proof.
  intros s F Hk. unfold ngx_http_wasm_set_ua_header_handler. wbuiltin Hn.
  wgo. apply wp_hv_str. wgo. pose proof (ok_data hv v Hv) as Hd. destruct v as [d|]; wgo; cbn [fst].
  - apply (kept_other_field _ (with_in _)); [done|done|]. by apply (kept_other_field _ (with_in _)).
  - apply wp_assert; [|wgo; by apply (kept_other_field _ (with_in _))].
    intros _ Hm. apply bool_decide_eq_false in Hm. by destruct (Hd Hm).
Qed.

Lemma keeps_cl s (F : fault -> Prop) :
  (debug = true -> hv_mode hv = NGX_HTTP_WASM_HEADERS_SET -> str_len v = 0 -> F F_assert) ->
  kept s.1 -> wp (ngx_http_wasm_set_cl_header_handler hv) s (fun _ s' => kept s'.1) F.
Proof.
  intros HF Hk. unfold ngx_http_wasm_set_cl_header_handler. apply wp_bind, wp_hv_str, wp_bind.
  match goal with |- wp _ _ ?K _ => assert (HK : forall len, K len s) end.
  { intros [len|]; cbn beta iota.
    - apply wp_bind. eapply wp_mono; [by apply (keeps_builtin Hn)|]. intros rc s' Hk'.
      destruct (is_ok rc); cbn [negb]; wgo; by apply (kept_other_field _ (with_in _)).
    - wgo. by apply (kept_other_field _ (with_in _)). }
  destruct (str_len v =? 0) eqn:El; cbn [negb].
  - case_bool_decide as Ha; [exact (HK None)|]. apply wp_bind, wp_assert; [|exact (HK (Some (-1)))].
    intros Hd Hm. apply bool_decide_eq_false in Hm. apply HF; [done|by destruct (hv_mode hv)|lia].
  - destruct (str_len_data v El) as [d Hd]. apply wp_bind, (wp_str_data v d); [done|]. exact (HK (ngx_atoof d)).
Qed.

Lemma keeps_multi_req s (F : fault -> Prop) :
  hh_handler (hv_handler hv) = set_builtin_multi_header_handler_req ->
  (hv_mode hv = NGX_HTTP_WASM_HEADERS_REMOVE ->
   found_at (concat (ngx_http_wasm_htype_list htype s.1)) hv = O -> F F_memory) ->
  kept s.1 -> wp (ngx_http_wasm_set_builtin_multi_header_handler_req hv) s (fun _ s' => kept s'.1) F.
Proof.
  intros Hm HF Hk. pose proof (ok_fits hv v Hv) as Hfit. unfold handler_fits in Hfit. rewrite Hm in Hfit.
  apply bool_decide_eq_true in Hfit. unfold ngx_http_wasm_set_builtin_multi_header_handler_req.
  rewrite <- Hfit. unfold read_field. wgo.
  match goal with |- context [if ?t then _ else _] => destruct t end; wgo.
  - unfold write_field. wgo. apply keeps_multi; cbn [fst]; [exact Hn| |apply kept_field; [exact Hk|intros i [=]]].
    rewrite list_of_with_headers. exact HF.
  - exact (keeps_multi s F Hn HF Hk).
Qed.

Lemma keeps_clear_field f :
  htype = NGX_HTTP_WASM_HEADERS_RESPONSE -> c = inl f -> keeps (clear_field f).
Proof.
  intros Ht Hc s F Hk. unfold clear_field, read_field, write_field. rewrite <- Ht. wgo.
  destruct (hd_field (headers_of htype s.1) f) as [h|] eqn:Ef; [|exact Hk].
  destruct (field_elt s.1 f h Hk Ef) as (e & He & Hne). wgo. eapply wp_write_elt; [done|]. wgo.
  cbn [fst]. apply kept_field; [|intros i [=]]. eapply kept_write; [done|done|congruence|done|done].
Qed.

#[local] Ltac fits Hh :=
  let Hfit := fresh "Hfit" in
  pose proof (ok_fits hv v Hv) as Hfit; unfold handler_fits in Hfit; rewrite Hh in Hfit;
  apply bool_decide_eq_true in Hfit.

Lemma keeps_location :
  hh_handler (hv_handler hv) = set_location_header_handler ->
  keeps (ngx_http_set_location_header_handler hv).
Proof.
  intros Hh s F Hk. fits Hh. destruct Hfit as [Ht Hoff].
  unfold ngx_http_set_location_header_handler, read_field, write_field. rewrite <- Ht. wbuiltin Hn. wgo.
  destruct (hd_field (headers_of htype s0.1) f_location) as [h|] eqn:Ef; [|exact Hk0].
  destruct (field_elt s0.1 f_location h Hk0 Ef) as (e & He & _). wgo. eapply wp_read_elt; [done|].
  destruct (str_len (te_value e) =? 0) eqn:El; [exact Hk0|].
  destruct (str_len_data _ El) as [d Hd]. cbn [negb]. wgo. apply (wp_str_data _ d); [done|].
  case_bool_decide; [|exact Hk0]. wgo. apply kept_field; [exact Hk0|intros i [=]].
Qed.

Lemma data_of : hv_mode hv <> NGX_HTTP_WASM_HEADERS_REMOVE -> exists d, v = Some d.
Proof. intros Hm. destruct (ok_data hv v Hv Hm) as [d Hd]. by exists d. Qed.

Lemma keeps_last_modified :
  hh_handler (hv_handler hv) = set_last_modified_header_handler ->
  keeps (ngx_http_set_last_modified_header_handler hv).
Proof.
  intros Hh s F Hk. fits Hh. destruct Hfit as [Ht Hoff].
  unfold ngx_http_set_last_modified_header_handler. case_bool_decide as Hm.
  - wgo. eapply wp_mono; [apply (keeps_clear_field f_last_modified); [done| |]|].
    + rewrite <- Hoff. by apply (ok_offset hv v Hv).
    + by apply (kept_other_field _ (with_out _)).
    + intros ? s' Hk'. wgo. exact Hk'.
  - wbuiltin Hn. destruct (data_of Hm) as [d Hd]. wgo. apply wp_hv_str. wgo.
    apply (wp_str_data v d); [done|]. wgo. by apply (kept_other_field _ (with_out _)).
Qed.

Lemma keeps_content_length :
  hh_handler (hv_handler hv) = set_content_length_header_handler ->
  keeps (ngx_http_set_content_length_header_handler hv).
Proof.
  intros Hh s F Hk. fits Hh. destruct Hfit as [Ht Hoff].
  unfold ngx_http_set_content_length_header_handler. case_bool_decide as Hm.
  - wgo. eapply wp_mono; [apply (keeps_clear_field f_content_length); [done| |]|].
    + rewrite <- Hoff. by apply (ok_offset hv v Hv).
    + by apply (kept_other_field _ (with_out _)).
    + intros ? s' Hk'. wgo. exact Hk'.
  - destruct (data_of Hm) as [d Hd]. wgo. apply wp_hv_str. wgo. apply (wp_str_data v d); [done|].
    destruct (ngx_atoof d); [|exact Hk]. wbuiltin Hn. wgo. by apply (kept_other_field _ (with_out _)).
Qed.

Lemma keeps_connection_resp s (F : fault -> Prop) :
  (v = None -> F F_memory) ->
  kept s.1 -> wp (ngx_http_wasm_set_connection_header_handler_resp hv) s (fun _ s' => kept s'.1) F.
Proof.
  intros HF Hk. unfold ngx_http_wasm_set_connection_header_handler_resp. wgo.
  destruct (rq_rctx s.1); [|exact Hk]. wgo. apply wp_hv_str. wgo. unfold str_data.
  destruct v as [d|]; [apply wp_deref|by apply wp_fault, HF].
  cbv zeta. case_match; [|case_match; [|case_match; [|exact Hk]]]; wgo.
  - by apply (kept_other_field _ (with_keepalive _ _)).
  - by apply (kept_other_field _ (with_keepalive _ _)).
  - by apply (kept_other_field _ (with_out _)).
Qed.

(** The accesses of the handlers that nginx does not define: a local variable that was
    never set, the data of [ngx_null_string], a peer that is not there; and the assertion
    on an empty length. *)
Definition handler_fault (r : request) (f : fault) : Prop :=
  (f = F_memory /\ hv_mode hv = NGX_HTTP_WASM_HEADERS_REMOVE /\
   (hh_handler (hv_handler hv) = set_builtin_multi_header_handler_req \/
    hh_handler (hv_handler hv) = set_builtin_multi_header_handler_resp) /\
   found_at (concat (ngx_http_wasm_htype_list htype r)) hv = O) \/
  (f = F_memory /\ hv_mode hv = NGX_HTTP_WASM_HEADERS_REMOVE /\
   hh_handler (hv_handler hv) = set_connection_header_handler_resp) \/
  (f = F_memory /\ hh_handler (hv_handler hv) = set_host_header_handler /\
   (rq_rctx r ≫= rc_step) = Some ProxyWasm.STEP_UPSTREAM_SELECT /\
   (rq_rctx r ≫= rc_upstream_host) = None) \/
  (f = F_assert /\ debug = true /\ hh_handler (hv_handler hv) = set_cl_header_handler /\
   hv_mode hv = NGX_HTTP_WASM_HEADERS_SET /\ str_len v = 0).

End handlers.

Lemma keeps_call_handler hv v s :
  hv_ok hv v -> kept s.1 ->
  wp (call_handler hv) s (fun _ s' => kept s'.1) (handler_fault hv v s.1).
Proof.
  intros Hv Hk. unfold call_handler. destruct (hh_handler (hv_handler hv)) eqn:Hh;
    try (assert (Hn : hh_handler (hv_handler hv) <> set_header_handler) by congruence).
  - by apply (keeps_set_header hv v).
  - by apply (keeps_builtin hv v).
  - apply (keeps_host hv v); try done. intros. right. right. left. auto.
  - by apply (keeps_connection_req hv v).
  - by apply (keeps_ua hv v).
  - apply (keeps_cl hv v); try done. intros. right. right. right. auto.
  - apply (keeps_multi_req hv v); try done. intros. left. auto.
  - by apply (keeps_location hv v).
  - by apply (keeps_last_modified hv v).
  - by apply (keeps_content_length hv v).
  - unfold ngx_http_set_content_type_header_handler. apply wp_bind, (wp_hv_str hv v Hv), wp_bind, wp_rput, wp_ret.
    by apply (kept_other_field _ (with_out _)).
  - apply (keeps_multi hv v); try done. intros. left. auto.
  - apply (keeps_connection_resp hv v); try done. intros ->. right. left. split_and!; [done| |done].
    destruct (decide (hv_mode hv = NGX_HTTP_WASM_HEADERS_REMOVE)) as [|Hm]; [done|].
    destruct (ok_data hv None Hv Hm) as [? ?]. done.
Qed.

End keeps.

(** ** Setting a header keeps the headers well formed *)

Context (fresh_len : forall n, 0 <= n -> zlen (fresh n) = n).

Lemma wp_copy_escaped kind src s (Q : option bytes -> request * P -> Prop) F :
  (forall p, Q None (s.1, p)) -> (forall p, Q (Some (Escape.escape_string kind src)) (s.1, p)) ->
  wp (copy_escaped kind src) s Q F.
Proof.
  intros HN HS. set (ok_m := if 0 <? Escape.escape_count kind src 0 then pnalloc else mret true : M bool).
  assert (Hok : exists ok p, ok_m s = Ret (ok, (s.1, p))).
  { unfold ok_m, pnalloc. destruct s as [r p]. case_match; [|by exists true, p].
    cbn. destruct (ngx_pnalloc p) as [ok p']. by exists ok, p'. }
  destruct Hok as (ok & p & Hok). unfold copy_escaped, wp. fold ok_m. erewrite SM_bind_Ret by exact Hok.
  unfold slift. unfold mbind at 1, SM_bind at 1.
  rewrite (Escape.copy_escaped_eq (fun _ => ok) fresh src kind fresh_len). cbn [obind].
  set (e := Escape.escape_string kind src) in *. case_bool_decide as He; cbn.
  - unfold zlen. rewrite Nat2Z.id, take_ge by done. specialize (HS p). by rewrite He in HS.
  - destruct ok; cbn; [|by apply HN]. unfold zlen. rewrite Nat2Z.id, take_app_length. apply HS.
Qed.

Lemma find_handler_found handlers key :
  (exists h, h ∈ handlers /\ hh_name h = []) ->
  exists h hk, find_handler handlers key = Some (h, hk) /\ h ∈ handlers /\
    ((hh_name h = [] /\ hk = key) \/
     (hh_name h <> [] /\ hk = hh_name h /\ ngx_strlow key = ngx_strlow (hh_name h))).
Proof.
  induction handlers as [|h hs IH]; intros (h' & Hin & Hh'); [by apply not_elem_of_nil in Hin|].
  cbn [find_handler]. destruct (Nat.eqb_spec (length (hh_name h)) 0) as [E|E].
  - exists h, key. split_and!; [done|by left|left; split; [by apply nil_length_inv|done]].
  - destruct ((length key =? length (hh_name h))%nat && strcaseeq key (hh_name h)) eqn:Em.
    + exists h, (hh_name h). split_and!; [done|by left|]. right. apply andb_true_iff in Em as [_ Em].
      unfold strcaseeq in Em. apply bool_decide_eq_true in Em. split_and!; [|done|done].
      intros E0. by rewrite E0 in E.
    + destruct IH as (h2 & hk & Hf & Hin2 & Hc).
      { apply elem_of_cons in Hin as [->|Hin]; [exfalso; by rewrite Hh' in E|by exists h']. }
      exists h2, hk. split_and!; [done|by right|done].
Qed.

(** The tables end, and their handlers are for them. *)
Lemma tables_fit b htype h : h ∈ handlers_of b htype ->
  handler_fits htype h = true /\ (hh_name h = [] -> hh_handler h = set_header_handler) /\
  (hh_name h <> [] -> hh_handler h <> set_header_handler).
Proof.
  assert (Hall : forallb (fun h => handler_fits htype h &&
    Bool.eqb (length (hh_name h) =? 0)%nat
      match hh_handler h with set_header_handler => true | _ => false end) (handlers_of b htype) = true)
    by (destruct htype, b as [[] [] [] []]; vm_compute; reflexivity).
  intros Hin. rewrite List.forallb_forall in Hall. apply list_elem_of_In, Hall in Hin.
  apply andb_true_iff in Hin as [Hf He]. apply Bool.eqb_prop in He. split_and!; [done| |].
  - intros E. rewrite E in He. by destruct (hh_handler h).
  - intros E E'. rewrite E' in He. apply Nat.eqb_eq, nil_length_inv in He. done.
Qed.

Lemma null_in_table b htype : exists h, h ∈ handlers_of b htype /\ hh_name h = [].
Proof.
  exists null_handler. split; [|done]. destruct htype; cbn [handlers_of].
  - unfold ngx_http_wasm_req_headers_handlers. rewrite !elem_of_app, !elem_of_cons. tauto.
  - unfold ngx_http_wasm_resp_headers_handlers. rewrite !elem_of_cons. tauto.
Qed.

(** What [hv] points to for a value that is given, or for none. *)
Definition given (mode : ngx_http_wasm_headers_set_mode_e) (value : option ngx_str_t) : ngx_str_t :=
  match mode with
  | NGX_HTTP_WASM_HEADERS_REMOVE => None
  | _ => Escape.escape_string NGX_HTTP_WASM_ESCAPE_HEADER_VALUE <$> default None value
  end.

Definition hv_of htype key mode (h : ngx_http_wasm_header_handler_t) (hk : bytes) (v : ngx_str_t) :=
  {| hv_handler := h; hv_key := hk; hv_value := Some v; hv_htype := htype; hv_mode := mode;
     hv_hash := ngx_hash_key_lc key |}.

(** Setting, adding or removing any header of a request or a response, whatever the name
    and the value: the function ends, every chain of headers still ends, every field nginx
    reads the header from still points to a header of that name, and no header of another
    name is changed or lost.  It faults only in the accesses of [handler_fault]: removing
    a header that may have several values and has none, removing the response header
    Connection, setting the host of an upstream that is not there, and (debug builds)
    setting an empty Content-Length. *)
Lemma set_header_spec (b : build) htype (key : bytes) value mode r p :
  let key' := Escape.escape_string NGX_HTTP_WASM_ESCAPE_HEADER_NAME key in
  let name := name_of (handlers_of b htype) in
  ngx_hash_key_lc key' <> 0 ->
  (mode <> NGX_HTTP_WASM_HEADERS_REMOVE -> exists v, value = Some (Some v)) ->
  headers_wf name (headers_of htype r) ->
  match ngx_http_wasm_set_header htype (handlers_of b htype) key None value mode (r, p) with
  | Ret (rc, (r', _)) => kept b htype (name key') r r'
  | Fault f =>
      exists h hk, find_handler (handlers_of b htype) key' = Some (h, hk) /\
        handler_fault htype (hv_of htype key' mode h hk (given mode value)) (given mode value) r f
  end.
Proof.
  intros key' name Hh Hval Hwf. set (c := name key').
  set (faults := fun f => exists h hk, find_handler (handlers_of b htype) key' = Some (h, hk) /\
    handler_fault htype (hv_of htype key' mode h hk (given mode value)) (given mode value) r f).
  enough (Hwp : wp (ngx_http_wasm_set_header htype (handlers_of b htype) key None value mode) (r, p)
            (fun _ s' => kept b htype c r s'.1) faults).
  { unfold wp in Hwp. destruct (ngx_http_wasm_set_header _ _ _ _ _ _ _) as [[rc [r' p']]|f]; done. }
  assert (Hk : kept b htype c r r) by (split_and!; [done|reflexivity|done]).
  unfold ngx_http_wasm_set_header. apply wp_bind, wp_copy_escaped; intros p1; [exact Hk|].
  apply wp_bind, wp_ret, wp_bind. fold key'.
  match goal with |- wp _ _ ?K _ =>
    assert (HK : forall v p2, (mode <> NGX_HTTP_WASM_HEADERS_REMOVE -> v = Some (given mode value)) ->
              K (Some v) (r, p2)); [|assert (HN : forall p2, K None (r, p2)) by (intros; exact Hk)] end.
  - intros v p2 Hv. destruct (find_handler_found (handlers_of b htype) key' (null_in_table b htype))
      as (h & hk & Hf & Hin & Hcase).
    destruct (tables_fit b htype h Hin) as (Hfit & Hnull & Hnamed).
    rewrite Hf. apply wp_bind, wp_deref. cbn beta iota zeta.
    match goal with |- context [is_Some ?w] => assert (Hw : w = Some (given mode value)) end.
    { destruct mode; [by apply Hv|by apply Hv|done]. }
    rewrite Hw. apply wp_bind, wp_assert; [by rewrite bool_decide_true by (by eexists)|].
    change {| hv_handler := h; hv_key := hk; hv_value := Some (given mode value); hv_htype := htype;
              hv_mode := mode; hv_hash := ngx_hash_key_lc key' |}
      with (hv_of htype key' mode h hk (given mode value)).
    eapply wp_weaken; [apply (keeps_call_handler b htype c r _ (given mode value)); [|exact Hk]|].
    2: { intros f HF. by exists h, hk. }
    + split; cbn [hv_of hv_htype hv_hash hv_value hv_key hv_handler hv_mode]; try done.
      * destruct Hcase as [[_ ->]|(_ & -> & E)]; [done|]. by apply name_of_case.
      * intros Hne. destruct Hcase as [[E _]|(Hne' & -> & _)]; [by destruct Hne; apply Hnull|].
        unfold c, name, name_of. rewrite Hf. by destruct (hh_name h).
      * intros Hm. destruct (Hval Hm) as [x ->]. destruct mode; [by eexists|by eexists|done].
  - cbn beta iota. destruct value as [[x|]|].
    + apply wp_bind, wp_copy_escaped; intros p2; [apply HN|]. apply HK. intros Hm. by destruct mode.
    + apply wp_ret, HK. intros Hm. by destruct (Hval Hm).
    + apply wp_ret, HK. intros Hm. by destruct (Hval Hm).
Qed.

(** ** Reading a header that was set *)

Lemma get_list_elem_app l1 l2 key :
  get_list_elem (l1 ++ l2) key =
    match get_list_elem l1 key with Some v => Some v | None => get_list_elem l2 key end.
Proof. induction l1 as [|e l1 IH]; [done|]. cbn. by destruct (_ && _). Qed.

Lemma get_list_elem_flat l key :
  list_ok l -> ngx_wasm_get_list_elem l key = Ret (get_list_elem (concat l) key).
Proof.
  destruct l as [|p l]; [done|]. cbn [list_ok]. revert p.
  induction l as [|q l IH]; intros p Hne; cbn [ngx_wasm_get_list_elem concat].
  - rewrite app_nil_r. by destruct (get_list_elem p key).
  - apply Forall_cons in Hne as [Hq Hne]. rewrite get_list_elem_app.
    destruct (get_list_elem p key); [done|]. destruct q as [|x q]; [done|]. exact (IH (x :: q) Hne).
Qed.

Definition same_name (key : bytes) (e : ngx_table_elt_t) : Prop := ngx_strlow (te_key e) = ngx_strlow key.

Lemma strlow_length a c : ngx_strlow a = ngx_strlow c -> length a = length c.
Proof. intros E. apply (f_equal length) in E. unfold ngx_strlow in E. by rewrite !length_fmap in E. Qed.

Lemma get_head e l key :
  same_name key e -> get_list_elem (e :: l) key = Some (te_value e).
Proof.
  intros E. cbn. unfold strcaseeq. rewrite bool_decide_true by exact E.
  by rewrite (strlow_length _ _ E), Nat.eqb_refl.
Qed.

Lemma get_other e l key : ~ same_name key e -> get_list_elem (e :: l) key = get_list_elem l key.
Proof. intros E. cbn. unfold strcaseeq. by rewrite bool_decide_false, andb_false_r. Qed.

(** An element of the name that was not removed matches. *)
Lemma matches_same_name hv e :
  te_hash e = hv_hash hv -> same_name (hv_key hv) e -> elt_matches hv e = true.
Proof.
  intros Hh E. unfold elt_matches, strcaseeq. rewrite Hh, Z.eqb_refl, (strlow_length _ _ E), Nat.eqb_refl.
  by rewrite bool_decide_true.
Qed.

Lemma match_same_name hv e : elt_matches hv e = true -> same_name (hv_key hv) e.
Proof.
  unfold elt_matches, strcaseeq. intros E. apply andb_true_iff in E as [_ E].
  by apply bool_decide_eq_true in E.
Qed.

(** Without removed headers of its name, the header that was set is the one found. *)
Lemma get_header_set hv v es out es' :
  hv_mode hv = NGX_HTTP_WASM_HEADERS_SET -> (found_at es hv <= 1)%nat ->
  (forall e, e ∈ es -> same_name (hv_key hv) e -> te_hash e = hv_hash hv) ->
  header_set hv v es NGX_OK out es' -> get_list_elem es' (hv_key hv) = Some v.
Proof.
  intros Hm Hf Hh. unfold header_set. rewrite Hm.
  assert (Hset : forall l e', te_value e' = v -> te_key e' = hv_key hv ->
    (forall e, e ∈ l -> same_name (hv_key hv) e -> te_hash e = hv_hash hv) ->
    (found_at l hv = O -> get_list_elem (l ++ [e']) (hv_key hv) = Some v) /\
    (found_at l hv <> O -> get_list_elem (set_first hv v l) (hv_key hv) = Some v)).
  { intros l e' Hv' Hk'. assert (Hn' : same_name (hv_key hv) e') by (unfold same_name; by rewrite Hk').
    induction l as [|e l IH]; intros Hl.
    - split; [|done]. intros _. cbn [app]. by rewrite get_head, Hv'.
    - destruct IH as [IH1 IH2]; [intros x Hx; apply Hl; by right|].
      rewrite found_at_cons. cbn [set_first app].
      destruct (elt_matches hv e) eqn:Em.
      + split; [done|]. intros _. by rewrite get_head.
      + assert (Hno : ~ same_name (hv_key hv) e).
        { intros E. assert (Hx : elt_matches hv e = true) by (apply matches_same_name; [apply Hl; [by left|done]|done]).
          congruence. }
        rewrite !get_other by done. by split. }
  destruct (found_at es hv) as [|[|n]] eqn:En; [| |lia].
  - intros [(_ & _ & ->)|(? & _)]; [|done]. by apply (Hset es (new_elt hv v true)).
  - intros (_ & -> & _). apply (Hset es (new_elt hv v true)); [done|done|done|lia].
Qed.

(** Setting a header the tables do not name. *)
Lemma set_plain_spec b htype key v r p :
  Escape.escape_string NGX_HTTP_WASM_ESCAPE_HEADER_NAME key = key ->
  find_handler (handlers_of b htype) key = Some (null_handler, key) ->
  ngx_hash_key_lc key <> 0 -> list_ok (ngx_http_wasm_htype_list htype r) ->
  let v' := Escape.escape_string NGX_HTTP_WASM_ESCAPE_HEADER_VALUE v in
  let hv := hv_of htype key NGX_HTTP_WASM_HEADERS_SET null_handler key (Some v') in
  wp (ngx_http_wasm_set_header htype (handlers_of b htype) key None (Some (Some v)) NGX_HTTP_WASM_HEADERS_SET)
    (r, p)
    (fun rc s' => (rc = NGX_ERROR /\ s'.1 = r) \/
       exists out L, s'.1 = with_elts htype L r /\ list_ok L /\
         header_set hv (Some v') (concat (ngx_http_wasm_htype_list htype r)) rc out (concat L))
    (fun _ => False).
Proof.
  intros Hesc Hf Hh Hok v' hv. unfold ngx_http_wasm_set_header.
  apply wp_bind, wp_copy_escaped; intros p1; [by left|]. rewrite Hesc. apply wp_bind, wp_ret, wp_bind, wp_bind.
  apply wp_copy_escaped; intros p2; [by left|]. apply wp_ret. rewrite Hf. apply wp_bind, wp_deref.
  cbn beta iota zeta. apply wp_bind, wp_assert; [by rewrite bool_decide_true by (by eexists)|].
  change (call_handler _) with (ngx_http_wasm_set_header_handler hv). apply wp_bind.
  destruct (helper_spec hv (Some v') r p2 Hh eq_refl Hok) as (rc & out & L & p3 & E & HL & Hs).
  unfold wp. cbn [fst]. rewrite E. right. by exists out, L.
Qed.

End laws.

End headers.
End Headers.

(** ** Requests to run the definitions on *)

Module HeadersRuns.
Import Acl Headers.

(** A pool that never runs out of memory, lists of parts of 20 elements, and the string
    functions on strings that end with a null byte. *)
Fixpoint push_last (l : ngx_list_t) (e : ngx_table_elt_t) : ngx_list_t :=
  match l with
  | [] => [[e]]
  | [p] => if (length p <? 20)%nat then [p ++ [e]] else [p; [e]]
  | p :: l => p :: push_last l e
  end.

#[export] Instance pool : NgxPool unit := {
  ngx_pnalloc := fun p => (true, p);
  ngx_list_push := fun l e p => (Some (push_last l e), p);
}.

Lemma concat_push_last l e : concat (push_last l e) = concat l ++ [e].
Proof.
  induction l as [|p [|q l] IH]; [done| |].
  - cbn [push_last]. case_match; cbn; by rewrite !app_nil_r.
  - change (push_last (p :: q :: l) e) with (p :: push_last (q :: l) e). cbn [concat].
    rewrite IH. cbn [concat]. by rewrite <- !app_assoc.
Qed.

Lemma push_last_ok ps e : Forall (fun p => p <> []) ps -> Forall (fun p => p <> []) (push_last ps e).
Proof.
  induction 1 as [|p [|q ps] Hp Hps IH]; [by repeat constructor| |].
  - cbn [push_last]. case_match; repeat constructor; try done. by destruct p.
  - change (push_last (p :: q :: ps) e) with (p :: push_last (q :: ps) e). by constructor.
Qed.

#[export] Instance pool_laws : NgxPoolLaws unit.
Proof.
  split.
  - intros l e p l' p' [= <- _]. apply concat_push_last.
  - intros [|p [|q ps]] e q' l' p' Hok [= <- _]; [done| |].
    + cbn [push_last]. case_match; cbn; by repeat constructor.
    + change (push_last (p :: q :: ps) e) with (p :: push_last (q :: ps) e). exact (push_last_ok (q :: ps) e Hok).
Qed.

Fixpoint find_from (pos : Z) (s t : bytes) : option Z :=
  if bool_decide (take (length t) s = t) then Some pos
  else match s with [] => None | _ :: s => find_from (pos + 1) s t end.

Definition decimal (s : bytes) : option Z :=
  match s with
  | [] => None
  | _ => fold_left (fun n c => n ← n; if (48 <=? b2z c) && (b2z c <=? 57)
                                     then Some (10 * n + (b2z c - 48)) else None) s (Some 0)
  end.

#[export] Instance strings : NgxStrings := {
  ngx_hash_key_lc := fun s => fold_left (fun h c => wrap64 (h * 31 + b2z (tolower c))) s 0;
  ngx_strstrn := fun s t n => find_from 0 s (take (Z.to_nat (n + 1)) t);
  ngx_strcasestrn := fun s t n => find_from 0 (ngx_strlow s) (ngx_strlow (take (Z.to_nat (n + 1)) t));
  ngx_atoof := decimal;
  ngx_http_parse_time := fun _ => -1;
  ngx_sprintf_O := fun _ => [];
}.

Definition zeros (n : Z) : bytes := replicate (Z.to_nat n) x00.

Lemma zeros_len n : 0 <= n -> zlen (zeros n) = n.
Proof. intros Hn. unfold zlen, zeros. rewrite length_replicate. lia. Qed.

Definition all_modules : build :=
  {| b_gzip := true; b_x_forwarded_for := true; b_realip := true; b_dav := true |}.

Definition header (k v : String.string) : ngx_table_elt_t :=
  {| te_hash := ngx_hash_key_lc (ngx_string k); te_key := ngx_string k; te_value := Some (ngx_string v);
     te_lowcase_key := Some (ngx_strlow (ngx_string k)); te_next := None |}.
Arguments header k%_string_scope v%_string_scope.

Definition no_headers : headers_t := {| hd_list := [[]]; hd_field := fun _ => None |}.

(** A request with these headers, the ones of the fields included. *)
Definition request_of (elts : list ngx_table_elt_t) (fields : field -> option nat) : request :=
  {| rq_in := {| hi_headers := {| hd_list := [elts]; hd_field := fields |}; hi_server := None;
                 hi_connection_type := 0; hi_keep_alive_n := -1; hi_ua := no_user_agent;
                 hi_content_length_n := -1 |};
     rq_out := {| ho_headers := no_headers; ho_status := 200; ho_content_length_n := -1;
                  ho_content_type := None; ho_content_type_len := 0; ho_content_type_hash := 0;
                  ho_content_type_lowcase := None; ho_last_modified_time := -1 |};
     rq_keepalive := true;
     rq_rctx := Some {| rc_req_keepalive := true; rc_step := Some ProxyWasm.STEP_REQ_HEADERS;
                        rc_upstream_host := None |} |}.

Definition str (s : String.string) : option ngx_str_t := Some (Some (ngx_string s)).
Arguments str s%_string_scope.

Definition set_req (debug : bool) (key : String.string) value mode r :=
  ngx_http_wasm_set_req_header debug zeros all_modules (ngx_string key) value mode (r, tt).
Arguments set_req debug key%_string_scope.

(** The code and the headers that were not removed. *)
Definition seen (htype : ngx_http_wasm_headers_type_e) (o : outcome (ngx_rc * (request * unit)))
    : option (ngx_rc * list (bytes * ngx_str_t)) :=
  match o with
  | Ret (rc, (r, _)) =>
      Some (rc, (fun e => (te_key e, te_value e)) <$>
              filter (fun e => te_hash e <> 0) (concat (ngx_http_wasm_htype_list htype r)))
  | Fault _ => None
  end.
Abbreviation seen_in := (seen NGX_HTTP_WASM_HEADERS_REQUEST).

Definition two_ids : request := request_of [header "X-Id" "1"; header "Host" "a"; header "X-Id" "2"]
  (at_field f_host (Some 1%nat) (fun _ => None)).

(** Setting a header that is there twice removes it. *)
Example set_duplicates :
  seen_in (set_req true "x-id" (str "3") NGX_HTTP_WASM_HEADERS_SET two_ids)
  = Some (NGX_OK, [(ngx_string "Host", Some (ngx_string "a"))]).
Proof. vm_compute. reflexivity. Qed.

Example set_host :
  seen_in (set_req true "host" (str "b") NGX_HTTP_WASM_HEADERS_SET two_ids)
  = Some (NGX_OK, [(ngx_string "X-Id", Some (ngx_string "1")); (ngx_string "Host", Some (ngx_string "b"));
                   (ngx_string "X-Id", Some (ngx_string "2"))]).
Proof. vm_compute. reflexivity. Qed.

(** A header that was removed is still found by [ngx_wasm_get_list_elem]. *)
Definition get_after (o : outcome (ngx_rc * (request * unit))) (key : String.string) :=
  let? (_, (r, _)) := o in ngx_wasm_get_list_elem (ngx_http_wasm_htype_list NGX_HTTP_WASM_HEADERS_REQUEST r) (ngx_string key).

Arguments get_after o key%_string_scope.

Example get_removed :
  get_after (set_req true "X-Id" None NGX_HTTP_WASM_HEADERS_REMOVE two_ids) "X-Id"
  = Ret (Some (Some (ngx_string "1"))).
Proof. vm_compute. reflexivity. Qed.

(** The empty name has the hash 0, so its header cannot be removed again. *)
Example remove_empty_name :
  (let? (_, (r, _)) := set_req true "" (str "x") NGX_HTTP_WASM_HEADERS_SET two_ids in
   set_req true "" None NGX_HTTP_WASM_HEADERS_REMOVE r) = Fault F_fuel.
Proof. vm_compute. reflexivity. Qed.

(** Removing the cookies of a request without any reads an unset variable. *)
Example remove_no_cookie :
  set_req true "Cookie" None NGX_HTTP_WASM_HEADERS_REMOVE two_ids = Fault F_memory.
Proof. vm_compute. reflexivity. Qed.

(** Removing the response header Connection reads a [NULL] string. *)
Example remove_connection :
  ngx_http_wasm_set_resp_header true zeros (ngx_string "Connection") None
    NGX_HTTP_WASM_HEADERS_REMOVE (two_ids, tt) = Fault F_memory.
Proof. vm_compute. reflexivity. Qed.

(** A header of a field cannot be added once it was removed. *)
Example add_after_remove :
  seen_in (let? (_, (r, _)) := set_req true "Host" None NGX_HTTP_WASM_HEADERS_REMOVE two_ids in
           set_req true "Host" (str "b") NGX_HTTP_WASM_HEADERS_APPEND r)
  = Some (NGX_DECLINED, [(ngx_string "X-Id", Some (ngx_string "1"));
                         (ngx_string "X-Id", Some (ngx_string "2"))]).
Proof. vm_compute. reflexivity. Qed.

(** An invalid Content-Length is refused: the header keeps its value, the length of the
    request is forgotten.  An empty one fails an assertion. *)
Definition with_length : request :=
  with_in (in_content_length_n 5) (request_of [header "Content-Length" "5"]
    (at_field f_content_length (Some O) (fun _ => None))).

Example invalid_length :
  let o := set_req true "Content-Length" (str "x") NGX_HTTP_WASM_HEADERS_SET with_length in
  seen_in o = Some (NGX_DECLINED, [(ngx_string "Content-Length", Some (ngx_string "5"))]) /\
  (let? (_, (r, _)) := o in Ret (hi_content_length_n (rq_in r))) = Ret (-1).
Proof. vm_compute. done. Qed.

Example empty_length :
  set_req true "Content-Length" (str "") NGX_HTTP_WASM_HEADERS_SET with_length = Fault F_assert.
Proof. vm_compute. reflexivity. Qed.

(** Any value that is a start of "keep-alive" keeps the connection alive. *)
Example connection_k :
  (let? (rc, (r, _)) := ngx_http_wasm_set_resp_header true zeros (ngx_string "Connection") (str "k")
      NGX_HTTP_WASM_HEADERS_SET (with_keepalive false false two_ids, tt) in Ret (rc, rq_keepalive r))
  = Ret (NGX_OK, true).
Proof. vm_compute. reflexivity. Qed.

(** Clearing the headers renames one whose name is escaped instead of removing it. *)
Example clear_escaped :
  seen_in (ngx_http_wasm_clear_req_headers true zeros all_modules
             (request_of [header "a@b" "1"; header "c" "2"] (fun _ => None), tt))
  = Some (NGX_OK, [(ngx_string "a%40b", Some (ngx_string "1"))]).
Proof. vm_compute. reflexivity. Qed.

(** ** The hypotheses of the theorems *)

Definition two_ids_hv : ngx_http_wasm_header_set_ctx_t :=
  {| hv_handler := null_handler; hv_key := ngx_string "x-id"; hv_value := str "3";
     hv_htype := NGX_HTTP_WASM_HEADERS_REQUEST; hv_mode := NGX_HTTP_WASM_HEADERS_SET;
     hv_hash := ngx_hash_key_lc (ngx_string "x-id") |}.

Lemma set_header_helper_outcome_example :
  exists rc out L p,
    ngx_http_wasm_set_header_helper true two_ids_hv (two_ids, tt)
      = Ret ((rc, out), (with_elts NGX_HTTP_WASM_HEADERS_REQUEST L two_ids, p)) /\
    list_ok L /\
    header_set two_ids_hv (Some (ngx_string "3"))
      (concat (ngx_http_wasm_htype_list NGX_HTTP_WASM_HEADERS_REQUEST two_ids)) rc out (concat L).
Proof.
  apply (set_header_helper_outcome true two_ids_hv (Some (ngx_string "3")) two_ids tt);
    [vm_compute; discriminate|reflexivity|constructor].
Defined.

Lemma two_ids_wf :
  headers_wf (name_of (handlers_of all_modules NGX_HTTP_WASM_HEADERS_REQUEST)) (hi_headers (rq_in two_ids)).
Proof.
  split_and!.
  - constructor.
  - intros i Hi. exists []. do 3 (destruct i as [|i]; [by eapply linked_end|]). cbn in Hi. lia.
  - intros f i. cbn. unfold at_field. case_decide; [|done]. subst f. intros [= <-].
    eexists. split; [reflexivity|vm_compute; reflexivity].
Qed.

Lemma append_keeps :
  match set_req true "X-Id" (str "3") NGX_HTTP_WASM_HEADERS_APPEND two_ids with
  | Ret (rc, (r', _)) =>
      kept all_modules NGX_HTTP_WASM_HEADERS_REQUEST
        (name_of (handlers_of all_modules NGX_HTTP_WASM_HEADERS_REQUEST) (ngx_string "X-Id")) two_ids r'
  | Fault f => False
  end.
Proof.
  pose proof (set_header_spec true zeros zeros_len all_modules NGX_HTTP_WASM_HEADERS_REQUEST
    (ngx_string "X-Id") (str "3") NGX_HTTP_WASM_HEADERS_APPEND two_ids tt) as K.
  cbv zeta in K. apply K; [vm_compute; discriminate|by eexists|apply two_ids_wf].
Defined.

End HeadersRuns.
