(* ===== verification/Maps.v ===== *)
(** * Header maps of the proxy-wasm ABI

    src/src/common/proxy_wasm/ngx_proxy_wasm_maps.c: the maps of headers the guests read
    and write, with the special keys (":path", ":status", ...) that stand for parts of a
    request or response; and the host functions on header maps of
    src/src/common/proxy_wasm/ngx_proxy_wasm_host.c. *)
From S2P Require Import Prelude Acl Host Escape Pairs ProxyWasm Headers.
From stdpp Require Export list.
#[global] Open Scope Z_scope.

Module Maps.
Import Host.
Import Headers.
#[local] Existing Instance ProxyWasm.step_eq_dec.

(** ** Data *)

Inductive ngx_proxy_wasm_map_type_e :=
| NGX_PROXY_WASM_MAP_HTTP_REQUEST_HEADERS
| NGX_PROXY_WASM_MAP_HTTP_REQUEST_TRAILERS
| NGX_PROXY_WASM_MAP_HTTP_RESPONSE_HEADERS
| NGX_PROXY_WASM_MAP_HTTP_RESPONSE_TRAILERS
| NGX_PROXY_WASM_MAP_GRPC_RECEIVE_INITIAL_METADATA
| NGX_PROXY_WASM_MAP_GRPC_RECEIVE_TRAILING_METADATA
| NGX_PROXY_WASM_MAP_HTTP_CALL_RESPONSE_HEADERS
| NGX_PROXY_WASM_MAP_HTTP_CALL_RESPONSE_TRAILERS
| NGX_PROXY_WASM_MAP_HTTP_UPSTREAM_RESPONSE_HEADERS.

#[export] Instance map_type_eq_dec : EqDecision ngx_proxy_wasm_map_type_e.
Proof. solve_decision. Defined.

Inductive ngx_proxy_wasm_map_op_e :=
| NGX_PROXY_WASM_MAP_SET
| NGX_PROXY_WASM_MAP_ADD
| NGX_PROXY_WASM_MAP_REMOVE.

#[export] Instance map_op_eq_dec : EqDecision ngx_proxy_wasm_map_op_e.
Proof. solve_decision. Defined.

(** The fields of the request only this component uses; [h_upstream] are the headers of
    [r->upstream]. *)
Record http_t := {
  h_uri : bytes;
  h_args : bytes;
  h_method_name : ngx_str_t;
  h_err_status : Z;
  h_http_version_9 : bool;
  h_header_sent : bool;
  h_valid_unparsed_uri : bool;
  h_valid_location : bool;
  h_internal : bool;
  h_status_line_len : Z;
  h_upstream : option ngx_list_t;
}.

(** The values kept in the stream context: those of [pw_authority] are its length and its
    data, the others have data when they have a length. *)
Record pwctx_t := {
  pw_step : ProxyWasm.ngx_proxy_wasm_step_e;
  pw_path : bytes;
  pw_scheme : bytes;
  pw_authority : Z * option bytes;
  pw_response_code : Z;
  pw_response_status : bytes;
  pw_dispatch_call_code : Z;
  pw_dispatch_call_status : bytes;
}.

(** [pwexec->dispatch_call]: whether its reader is initialised, the headers and the status
    of the response once there are some, and the status of the socket. *)
Record dispatch_call_t := {
  dc_signature : bool;
  dc_upstream : option (ngx_list_t * Z);
  dc_sock_status : Z;
}.

(** [entered_header_filter] and [req_headers_modified] of the request context. *)
Record flags_t := { fl_entered_header_filter : bool; fl_req_headers_modified : bool }.

(** The state; [ms_trap] is the message of a trap, [ms_memory] the memory of the module. *)
Record map_state (P : Type) := {
  ms_r : request;
  ms_pool : P;
  ms_http : http_t;
  ms_pwctx : pwctx_t;
  ms_call : option dispatch_call_t;
  ms_flags : flags_t;
  ms_trap : option bytes;
  ms_memory : bytes;
}.
Arguments ms_r {P}. Arguments ms_pool {P}. Arguments ms_http {P}. Arguments ms_pwctx {P}.
Arguments ms_call {P}. Arguments ms_flags {P}. Arguments ms_trap {P}. Arguments ms_memory {P}.

(** ** Assignments *)

Section assignments.
Context {P : Type}.
Abbreviation S := (map_state P).

Definition with_rp (r : request) (p : P) (s : S) : S :=
  {| ms_r := r; ms_pool := p; ms_http := ms_http s; ms_pwctx := ms_pwctx s; ms_call := ms_call s;
     ms_flags := ms_flags s; ms_trap := ms_trap s; ms_memory := ms_memory s |}.
Definition with_http (f : http_t -> http_t) (s : S) : S :=
  {| ms_r := ms_r s; ms_pool := ms_pool s; ms_http := f (ms_http s); ms_pwctx := ms_pwctx s;
     ms_call := ms_call s; ms_flags := ms_flags s; ms_trap := ms_trap s; ms_memory := ms_memory s |}.
Definition with_pwctx (f : pwctx_t -> pwctx_t) (s : S) : S :=
  {| ms_r := ms_r s; ms_pool := ms_pool s; ms_http := ms_http s; ms_pwctx := f (ms_pwctx s);
     ms_call := ms_call s; ms_flags := ms_flags s; ms_trap := ms_trap s; ms_memory := ms_memory s |}.
Definition with_flags (x : flags_t) (s : S) : S :=
  {| ms_r := ms_r s; ms_pool := ms_pool s; ms_http := ms_http s; ms_pwctx := ms_pwctx s;
     ms_call := ms_call s; ms_flags := x; ms_trap := ms_trap s; ms_memory := ms_memory s |}.
Definition with_trap (msg : bytes) (s : S) : S :=
  {| ms_r := ms_r s; ms_pool := ms_pool s; ms_http := ms_http s; ms_pwctx := ms_pwctx s;
     ms_call := ms_call s; ms_flags := ms_flags s; ms_trap := Some msg; ms_memory := ms_memory s |}.
Definition with_memory (m : bytes) (s : S) : S :=
  {| ms_r := ms_r s; ms_pool := ms_pool s; ms_http := ms_http s; ms_pwctx := ms_pwctx s;
     ms_call := ms_call s; ms_flags := ms_flags s; ms_trap := ms_trap s; ms_memory := m |}.

Definition set_uri (uri args : bytes) (h : http_t) : http_t :=
  {| h_uri := uri; h_args := args; h_method_name := h_method_name h; h_err_status := h_err_status h;
     h_http_version_9 := h_http_version_9 h; h_header_sent := h_header_sent h;
     h_valid_unparsed_uri := false; h_valid_location := false; h_internal := true;
     h_status_line_len := h_status_line_len h; h_upstream := h_upstream h |}.
Definition set_method_name (v : ngx_str_t) (h : http_t) : http_t :=
  {| h_uri := h_uri h; h_args := h_args h; h_method_name := v; h_err_status := h_err_status h;
     h_http_version_9 := h_http_version_9 h; h_header_sent := h_header_sent h;
     h_valid_unparsed_uri := h_valid_unparsed_uri h; h_valid_location := h_valid_location h;
     h_internal := h_internal h; h_status_line_len := h_status_line_len h; h_upstream := h_upstream h |}.
Definition set_status_line (len : Z) (h : http_t) : http_t :=
  {| h_uri := h_uri h; h_args := h_args h; h_method_name := h_method_name h; h_err_status := 0;
     h_http_version_9 := h_http_version_9 h; h_header_sent := h_header_sent h;
     h_valid_unparsed_uri := h_valid_unparsed_uri h; h_valid_location := h_valid_location h;
     h_internal := h_internal h; h_status_line_len := len; h_upstream := h_upstream h |}.

Definition set_path (v : bytes) (x : pwctx_t) : pwctx_t :=
  {| pw_step := pw_step x; pw_path := v; pw_scheme := pw_scheme x; pw_authority := pw_authority x;
     pw_response_code := pw_response_code x; pw_response_status := pw_response_status x;
     pw_dispatch_call_code := pw_dispatch_call_code x;
     pw_dispatch_call_status := pw_dispatch_call_status x |}.
Definition set_scheme (v : bytes) (x : pwctx_t) : pwctx_t :=
  {| pw_step := pw_step x; pw_path := pw_path x; pw_scheme := v; pw_authority := pw_authority x;
     pw_response_code := pw_response_code x; pw_response_status := pw_response_status x;
     pw_dispatch_call_code := pw_dispatch_call_code x;
     pw_dispatch_call_status := pw_dispatch_call_status x |}.
Definition set_authority (v : Z * option bytes) (x : pwctx_t) : pwctx_t :=
  {| pw_step := pw_step x; pw_path := pw_path x; pw_scheme := pw_scheme x; pw_authority := v;
     pw_response_code := pw_response_code x; pw_response_status := pw_response_status x;
     pw_dispatch_call_code := pw_dispatch_call_code x;
     pw_dispatch_call_status := pw_dispatch_call_status x |}.
Definition set_response (code : Z) (v : bytes) (x : pwctx_t) : pwctx_t :=
  {| pw_step := pw_step x; pw_path := pw_path x; pw_scheme := pw_scheme x;
     pw_authority := pw_authority x; pw_response_code := code; pw_response_status := v;
     pw_dispatch_call_code := pw_dispatch_call_code x;
     pw_dispatch_call_status := pw_dispatch_call_status x |}.
Definition set_dispatch (code : Z) (v : bytes) (x : pwctx_t) : pwctx_t :=
  {| pw_step := pw_step x; pw_path := pw_path x; pw_scheme := pw_scheme x;
     pw_authority := pw_authority x; pw_response_code := pw_response_code x;
     pw_response_status := pw_response_status x; pw_dispatch_call_code := code;
     pw_dispatch_call_status := v |}.
End assignments.

(** ** Special keys *)

Inductive maps_get_pt :=
| get_path | get_method | get_scheme | get_authority | get_response_status
| get_dispatch_response_status | get_dispatch_status.

Inductive maps_set_pt := set_path_ | set_method_ | set_response_status_.

Record ngx_proxy_wasm_maps_key_t := {
  mk_key : bytes;
  mk_map_type : ngx_proxy_wasm_map_type_e;
  mk_get : maps_get_pt;
  mk_set : option maps_set_pt;
}.

Definition special (key : String.string) (t : ngx_proxy_wasm_map_type_e) get set :=
  {| mk_key := ngx_string key; mk_map_type := t; mk_get := get; mk_set := set |}.
Arguments special key%_string_scope.

(** Without the entry that ends the table. *)
Definition ngx_proxy_wasm_maps_special_keys : list ngx_proxy_wasm_maps_key_t :=
  [special ":path" NGX_PROXY_WASM_MAP_HTTP_REQUEST_HEADERS get_path (Some set_path_);
   special ":method" NGX_PROXY_WASM_MAP_HTTP_REQUEST_HEADERS get_method (Some set_method_);
   special ":scheme" NGX_PROXY_WASM_MAP_HTTP_REQUEST_HEADERS get_scheme None;
   special ":authority" NGX_PROXY_WASM_MAP_HTTP_REQUEST_HEADERS get_authority None;
   special ":status" NGX_PROXY_WASM_MAP_HTTP_RESPONSE_HEADERS get_response_status
     (Some set_response_status_);
   special ":status" NGX_PROXY_WASM_MAP_HTTP_CALL_RESPONSE_HEADERS get_dispatch_response_status None;
   special ":dispatch_status" NGX_PROXY_WASM_MAP_HTTP_CALL_RESPONSE_HEADERS get_dispatch_status None].

(** [ngx_wasm_socket_errlist] of a build with SSL. *)
Definition ngx_wasm_socket_errlist : list bytes :=
  [ngx_string "ok"; ngx_string "bad argument"; ngx_string "timeout"; ngx_string "broken connection";
   ngx_string "tls handshake failure"; ngx_string "resolver failure"; ngx_string "reader failure";
   ngx_string "internal failure"].
Definition NGX_WASM_SOCKET_STATUS_INTERNAL_FAILURE : Z := 7.

Definition ngx_wasm_socket_tcp_status_strerror (status : Z) : bytes :=
  let status := wrap64 status in
  nth (Z.to_nat (if status <? NGX_WASM_SOCKET_STATUS_INTERNAL_FAILURE then status
                 else NGX_WASM_SOCKET_STATUS_INTERNAL_FAILURE)) ngx_wasm_socket_errlist [].

(** [ngx_strchr]: the position of the first [c] before a null byte. *)
Definition ngx_strchr (s : bytes) (c : byte) : option nat :=
  match list_find (fun x => x = c \/ x = x00) s with
  | Some (i, x) => if bool_decide (x = c) then Some i else None
  | None => None
  end.

(** What the component calls: the variable "scheme" of a request, its local address, the
    name of the server or the host, and the formats "%ui" and "%03ui"; [ngx_atoi] is
    [None] for [NGX_ERROR].  The shim headers (HttpProxyWasm) are [None] without memory;
    [ngx_proxy_wasm_alloc] calls the module. *)
Class MapsEnv (P : Type) := {
  scheme_variable : option bytes;
  ngx_connection_local_sockaddr : bool;
  server_name : bytes;
  hostname : bytes;
  local_port : Z;
  sprintf_ui : Z -> bytes;
  sprintf_03ui : Z -> bytes;
  ngx_atoi : bytes -> option Z;
  ngx_http_wasm_get_shim_headers : map_state P -> option (list (bytes * bytes));
  ngx_http_wasm_get_shim_header : map_state P -> bytes -> option bytes;
  ngx_proxy_wasm_alloc : bytes -> Z -> Z * bytes;
}.

(** A string of which the data may be missing: its length and its data. *)
Abbreviation str_t := (Z * option bytes)%type.
Definition of_bytes (v : bytes) : str_t := (zlen v, Some v).

Section maps.
Context {P : Type} `{NgxPool P} `{NgxStrings} `{MapsEnv P} (debug : bool) (fresh : Z -> bytes) (b : build).
Abbreviation M := (SM (map_state P)).

Definition gets {A} (f : map_state P -> A) : M A := fun s => Ret (f s, s).
Definition puts (f : map_state P -> map_state P) : M unit := fun s => Ret (tt, f s).
Definition massert (c : bool) : M unit := slift (ngx_wa_assert debug c).

(** A function on the headers of the request. *)
Definition on_request {A} (m : SM (request * P) A) : M A := fun s =>
  let? (a, (r, p)) := m (ms_r s, ms_pool s) in Ret (a, with_rp r p s).

Definition palloc : M bool := on_request pnalloc.

(** ** Reading the special keys *)

Definition ngx_proxy_wasm_maps_get_path : M (option str_t) :=
  x ← gets ms_pwctx;
  if negb (zlen (pw_path x) =? 0) then mret (Some (of_bytes (pw_path x)))
  else
    h ← gets ms_http;
    ok ← palloc;
    if negb ok then mret None
    else
      let path := h_uri h ++ (if zlen (h_args h) =? 0 then [] else "?"%byte :: h_args h) in
      puts (with_pwctx (set_path path));;
      mret (Some (of_bytes path)).

Definition ngx_proxy_wasm_maps_get_method : M (option str_t) :=
  h ← gets ms_http;
  mret (Some (str_len (h_method_name h), h_method_name h)).

Definition ngx_proxy_wasm_maps_get_scheme : M (option str_t) :=
  x ← gets ms_pwctx;
  if negb (zlen (pw_scheme x) =? 0) then mret (Some (of_bytes (pw_scheme x)))
  else
    ok ← palloc;
    if negb ok then mret None
    else
      match scheme_variable with
      | None => mret None
      | Some v => puts (with_pwctx (set_scheme v));; mret (Some (of_bytes v))
      end.

Definition port_ok : bool := negb (local_port =? 0) && (local_port <? 65536).

(** The length is set before the data is allocated. *)
Definition ngx_proxy_wasm_maps_get_authority : M (option str_t) :=
  x ← gets ms_pwctx;
  if negb ((pw_authority x).1 =? 0) then mret (Some (pw_authority x))
  else if negb ngx_connection_local_sockaddr then mret None
  else
    let name := if zlen server_name =? 0 then hostname else server_name in
    let len := zlen name + (if port_ok then 1 + 5 else 0) in
    puts (with_pwctx (set_authority (len, (pw_authority x).2)));;
    ok ← palloc;
    if negb ok then
      puts (with_pwctx (set_authority (len, None)));;
      mret None
    else
      let text := name ++ (if port_ok then ":"%byte :: sprintf_ui local_port else []) in
      (if len <? zlen text then slift (Fault F_memory) else mret tt);;
      puts (with_pwctx (set_authority (of_bytes text)));;
      mret (Some (of_bytes text)).

(** The status kept as a string, formatted again when the code changed. *)
Definition response_status (status code : Z) (kept : bytes) : bytes :=
  if negb (status =? code) then [] else kept.

Definition ngx_proxy_wasm_maps_get_response_status (map_type : ngx_proxy_wasm_map_type_e) : M (option str_t) :=
  massert (bool_decide (map_type = NGX_PROXY_WASM_MAP_HTTP_RESPONSE_HEADERS));;
  h ← gets ms_http;
  r ← gets ms_r;
  let status := if negb (h_err_status h =? 0) then h_err_status h
                else if negb (ho_status (rq_out r) =? 0) then ho_status (rq_out r)
                else if h_http_version_9 h then 9 else 0 in
  if status =? 0 then mret None
  else
    x ← gets ms_pwctx;
    let kept := response_status status (pw_response_code x) (pw_response_status x) in
    puts (with_pwctx (set_response status kept));;
    if zlen kept =? 0 then
      ok ← palloc;
      if negb ok then mret None
      else
        let text := sprintf_03ui status in
        puts (with_pwctx (set_response status text));;
        massert (negb (zlen text =? 0));;
        mret (Some (of_bytes text))
    else mret (Some (of_bytes kept)).

Definition ngx_proxy_wasm_maps_get_dispatch_response_status (map_type : ngx_proxy_wasm_map_type_e)
    : M (option str_t) :=
  massert (bool_decide (map_type = NGX_PROXY_WASM_MAP_HTTP_CALL_RESPONSE_HEADERS));;
  call ← gets ms_call;
  call ← slift (deref call);
  match dc_upstream call with
  | None => mret None
  | Some (_, status) =>
      if status =? 0 then mret None
      else
        x ← gets ms_pwctx;
        let kept := response_status status (pw_dispatch_call_code x) (pw_dispatch_call_status x) in
        puts (with_pwctx (set_dispatch status kept));;
        if zlen kept =? 0 then
          ok ← palloc;
          if negb ok then mret None
          else
            let text := sprintf_03ui status in
            puts (with_pwctx (set_dispatch status text));;
            massert (negb (zlen text =? 0));;
            mret (Some (of_bytes text))
        else mret (Some (of_bytes kept))
  end.

Definition ngx_proxy_wasm_maps_get_dispatch_status (map_type : ngx_proxy_wasm_map_type_e)
    : M (option str_t) :=
  massert (bool_decide (map_type = NGX_PROXY_WASM_MAP_HTTP_CALL_RESPONSE_HEADERS));;
  call ← gets ms_call;
  call ← slift (deref call);
  mret (Some (of_bytes (ngx_wasm_socket_tcp_status_strerror (dc_sock_status call)))).

(** [mkey->get_(instance, map_type)] *)
Definition call_get (g : maps_get_pt) (map_type : ngx_proxy_wasm_map_type_e) : M (option str_t) :=
  match g with
  | get_path => ngx_proxy_wasm_maps_get_path
  | get_method => ngx_proxy_wasm_maps_get_method
  | get_scheme => ngx_proxy_wasm_maps_get_scheme
  | get_authority => ngx_proxy_wasm_maps_get_authority
  | get_response_status => ngx_proxy_wasm_maps_get_response_status map_type
  | get_dispatch_response_status => ngx_proxy_wasm_maps_get_dispatch_response_status map_type
  | get_dispatch_status => ngx_proxy_wasm_maps_get_dispatch_status map_type
  end.

(** ** Writing the special keys *)

(** A value is a pointer: [None] is [NULL]. *)
Definition ngx_proxy_wasm_maps_set_path (value : option ngx_str_t) : M ngx_rc :=
  v ← slift (deref value);
  data ← slift (deref v);
  puts (with_http (fun h =>
    match ngx_strchr data "?"%byte with
    | Some query => set_uri (take query data) (drop (query + 1) data) h
    | None => set_uri data (h_args h) h
    end));;
  puts (with_pwctx (set_path []));;
  mret NGX_OK.

Definition ngx_proxy_wasm_maps_set_method (value : option ngx_str_t) : M ngx_rc :=
  v ← slift (deref value);
  puts (with_http (set_method_name v));;
  mret NGX_OK.

Definition ngx_http_wasm_set_resp_status (status reason_len : Z) : M unit :=
  on_request (rput (with_out (out_status status)));;
  puts (with_http (set_status_line reason_len)).

(** An invalid number is a large one: [NGX_ERROR] as an unsigned integer. *)
Definition ngx_proxy_wasm_maps_set_response_status (value : option ngx_str_t) : M ngx_rc :=
  v ← slift (deref value);
  data ← slift (deref v);
  let status := wrap64 (default (-1) (ngx_atoi data)) in
  if (status <? 100) || (599 <? status) then mret NGX_OK
  else
    ngx_http_wasm_set_resp_status status 0;;
    mret NGX_OK.

Definition call_set (g : maps_set_pt) (value : option ngx_str_t) : M ngx_rc :=
  match g with
  | set_path_ => ngx_proxy_wasm_maps_set_path value
  | set_method_ => ngx_proxy_wasm_maps_set_method value
  | set_response_status_ => ngx_proxy_wasm_maps_set_response_status value
  end.

(** The first entry of the table for a key of a map. *)
Definition special_key (map_type : ngx_proxy_wasm_map_type_e) (key : bytes)
    : option ngx_proxy_wasm_maps_key_t :=
  snd <$> list_find (fun k => mk_map_type k = map_type /\ mk_key k = key) ngx_proxy_wasm_maps_special_keys.

Definition ngx_proxy_wasm_maps_get_special_key (map_type : ngx_proxy_wasm_map_type_e) (key : bytes)
    : M (option str_t) :=
  match special_key map_type key with
  | Some k => call_get (mk_get k) map_type
  | None => mret None
  end.

Definition ngx_proxy_wasm_maps_set_special_key (map_type : ngx_proxy_wasm_map_type_e) (key : bytes)
    (value : option ngx_str_t) : M ngx_rc :=
  match special_key map_type key with
  | Some k =>
      match mk_set k with
      | None => mret NGX_ABORT
      | Some set => call_set set value
      end
  | None => mret NGX_DECLINED
  end.

(** ** Maps *)

(** [None] is [NULL]. *)
Definition ngx_proxy_wasm_maps_get_map (map_type : ngx_proxy_wasm_map_type_e) : M (option ngx_list_t) :=
  match map_type with
  | NGX_PROXY_WASM_MAP_HTTP_REQUEST_HEADERS =>
      gets (fun s => Some (ngx_http_wasm_htype_list NGX_HTTP_WASM_HEADERS_REQUEST (ms_r s)))
  | NGX_PROXY_WASM_MAP_HTTP_RESPONSE_HEADERS =>
      gets (fun s => Some (ngx_http_wasm_htype_list NGX_HTTP_WASM_HEADERS_RESPONSE (ms_r s)))
  | NGX_PROXY_WASM_MAP_HTTP_CALL_RESPONSE_HEADERS =>
      call ← gets ms_call;
      match call with
      | None => mret None
      | Some call =>
          massert (dc_signature call);;
          u ← slift (deref (dc_upstream call));
          mret (Some u.1)
      end
  | NGX_PROXY_WASM_MAP_HTTP_UPSTREAM_RESPONSE_HEADERS =>
      x ← gets ms_pwctx;
      if negb (bool_decide (pw_step x = ProxyWasm.STEP_NEXT_UPSTREAM)) then mret None
      else gets (fun s => h_upstream (ms_http s))
  | _ => mret None
  end.

(** Pushes elements on the array [extras]; the answer is whether there was memory. *)
Fixpoint push_all (elts extras : list (bytes * bytes)) : M (option (list (bytes * bytes))) :=
  match elts with
  | [] => mret (Some extras)
  | e :: elts =>
      ok ← palloc;
      if negb ok then mret None else push_all elts (extras ++ [e])
  end.

(** The special keys that have a value. *)
Fixpoint special_values (map_type : ngx_proxy_wasm_map_type_e) (keys : list ngx_proxy_wasm_maps_key_t)
    (extras : list (bytes * bytes)) : M (option (list (bytes * bytes))) :=
  match keys with
  | [] => mret (Some extras)
  | k :: keys =>
      if negb (bool_decide (map_type = mk_map_type k)) then special_values map_type keys extras
      else
        value ← call_get (mk_get k) map_type;
        match value with
        | None => special_values map_type keys extras
        | Some (len, data) =>
            if len =? 0 then special_values map_type keys extras
            else
              data ← slift (deref data);
              extras ← push_all [(mk_key k, data)] extras;
              match extras with
              | None => mret None
              | Some extras => special_values map_type keys extras
              end
        end
  end.

Definition shim_step (s : ProxyWasm.ngx_proxy_wasm_step_e) : bool :=
  bool_decide (s = ProxyWasm.STEP_RESP_HEADERS) || bool_decide (s = ProxyWasm.STEP_RESP_BODY)
  || bool_decide (s = ProxyWasm.STEP_LOG).

(** The list and the extra pairs, with the shim headers of a response. *)
Definition ngx_proxy_wasm_maps_get_all (map_type : ngx_proxy_wasm_map_type_e)
    : M (option (ngx_list_t * list (bytes * bytes))) :=
  list ← ngx_proxy_wasm_maps_get_map map_type;
  match list with
  | None => mret None
  | Some list =>
      extras ← special_values map_type ngx_proxy_wasm_maps_special_keys [];
      match extras with
      | None => mret None
      | Some extras =>
          x ← gets ms_pwctx;
          if bool_decide (map_type = NGX_PROXY_WASM_MAP_HTTP_RESPONSE_HEADERS) && shim_step (pw_step x) then
            shims ← gets ngx_http_wasm_get_shim_headers;
            shims ← slift (deref shims);
            extras ← push_all shims extras;
            mret ((fun extras => (list, extras)) <$> extras)
          else mret (Some (list, extras))
      end
  end.

Definition ngx_proxy_wasm_maps_get (map_type : ngx_proxy_wasm_map_type_e) (key : bytes)
    : M (option str_t) :=
  value ← ngx_proxy_wasm_maps_get_special_key map_type key;
  match value with
  | Some v => mret (Some v)
  | None =>
      list ← ngx_proxy_wasm_maps_get_map map_type;
      match list with
      | None => mret None
      | Some list =>
          value ← slift (ngx_wasm_get_list_elem list key);
          match value with
          | Some v => mret (Some (str_len v, v))
          | None =>
              if bool_decide (map_type = NGX_PROXY_WASM_MAP_HTTP_RESPONSE_HEADERS) then
                value ← gets (fun s => ngx_http_wasm_get_shim_header s key);
                mret (of_bytes <$> value)
              else mret None
          end
      end
  end.

Definition set_mode (op : ngx_proxy_wasm_map_op_e) : ngx_http_wasm_headers_set_mode_e :=
  match op with
  | NGX_PROXY_WASM_MAP_SET => NGX_HTTP_WASM_HEADERS_SET
  | NGX_PROXY_WASM_MAP_ADD => NGX_HTTP_WASM_HEADERS_APPEND
  | NGX_PROXY_WASM_MAP_REMOVE => NGX_HTTP_WASM_HEADERS_REMOVE
  end.

(** A bad header value is logged only. *)
Definition not_declined (rc : ngx_rc) : ngx_rc := if bool_decide (rc = NGX_DECLINED) then NGX_OK else rc.

(** Copies of the key and the value of a header to set: whether there was memory, and the
    value. *)
Definition copy_pair (value : option ngx_str_t) (op : ngx_proxy_wasm_map_op_e)
    : M (bool * option ngx_str_t) :=
  if bool_decide (op = NGX_PROXY_WASM_MAP_REMOVE) then mret (true, value)
  else
    ok ← palloc;
    if negb ok then mret (false, value)
    else
      v ← slift (deref value);
      ok ← palloc;
      if negb ok then mret (false, value)
      else mret (true, Some (Some (default [] v))).

Definition ngx_proxy_wasm_maps_set (map_type : ngx_proxy_wasm_map_type_e) (key : bytes)
    (value : option ngx_str_t) (op : ngx_proxy_wasm_map_op_e) : M ngx_rc :=
  '(ok, value) ← copy_pair value op;
  if negb ok then mret NGX_ERROR
  else
    rc ← ngx_proxy_wasm_maps_set_special_key map_type key value;
    match rc with
    | NGX_OK | NGX_ERROR | NGX_ABORT => mret rc
    | NGX_DECLINED =>
        match map_type with
        | NGX_PROXY_WASM_MAP_HTTP_REQUEST_HEADERS =>
            rc ← on_request (ngx_http_wasm_set_req_header debug fresh b key value (set_mode op));
            mret (not_declined rc)
        | NGX_PROXY_WASM_MAP_HTTP_RESPONSE_HEADERS =>
            rc ← on_request (ngx_http_wasm_set_resp_header debug fresh key value (set_mode op));
            mret (not_declined rc)
        | _ => massert false;; mret NGX_ERROR
        end
    | _ => massert false;; mret NGX_ERROR
    end.

Fixpoint ngx_proxy_wasm_maps_set_all (map_type : ngx_proxy_wasm_map_type_e)
    (pairs : list (bytes * bytes)) : M ngx_rc :=
  match pairs with
  | [] => mret NGX_OK
  | (k, v) :: pairs =>
      rc ← ngx_proxy_wasm_maps_set map_type k (Some (Some v)) NGX_PROXY_WASM_MAP_SET;
      if negb (is_ok rc) then mret rc else ngx_proxy_wasm_maps_set_all map_type pairs
  end.

(** ** Host functions *)

(** As [Host.ngx_proxy_wasm_result_trap]; the messages here have no conversions and are
    short. *)
Definition ngx_proxy_wasm_result_trap (msg : bytes) (rc : Z) : M host_ret :=
  puts (with_trap msg);;
  mret (rc, Some NGX_PROXY_WASM_RESULT_OK).

Definition before_response : bytes :=
  ngx_string "can only set request headers before response is produced".
Definition before_response_body : bytes :=
  ngx_string "can only set response headers before " ++ quoted "on_response_body".
Definition no_upstream_headers : bytes := ngx_string "cannot set upstream response headers".

(** Whether a step may set request or response headers. *)
Definition req_headers_step (s : ProxyWasm.ngx_proxy_wasm_step_e) (entered_header_filter : bool) : bool :=
  match s with
  | ProxyWasm.STEP_REQ_HEADERS | ProxyWasm.STEP_REQ_BODY | ProxyWasm.STEP_REQ_TRAILERS => true
  | ProxyWasm.STEP_UPSTREAM_SELECT | ProxyWasm.STEP_DISPATCH_RESPONSE => negb entered_header_filter
  | _ => false
  end.

Definition resp_headers_step (s : ProxyWasm.ngx_proxy_wasm_step_e) (header_sent : bool) : bool :=
  match s with
  | ProxyWasm.STEP_REQ_HEADERS | ProxyWasm.STEP_REQ_BODY | ProxyWasm.STEP_REQ_TRAILERS
  | ProxyWasm.STEP_RESP_HEADERS => true
  | ProxyWasm.STEP_DISPATCH_RESPONSE => negb header_sent
  | _ => false
  end.

(** [NGX_OK] and [NGX_WAVM_OK] are the same number: the answer to a bad map is one with
    which the callers go on. *)
Definition ngx_proxy_wasm_hfuncs_set_header_check (map_type : ngx_proxy_wasm_map_type_e) : M host_ret :=
  x ← gets ms_pwctx;
  fl ← gets ms_flags;
  h ← gets ms_http;
  match map_type with
  | NGX_PROXY_WASM_MAP_HTTP_REQUEST_HEADERS =>
      if req_headers_step (pw_step x) (fl_entered_header_filter fl) then
        puts (with_flags {| fl_entered_header_filter := fl_entered_header_filter fl;
                            fl_req_headers_modified := true |});;
        mret (NGX_WAVM_OK, None)
      else ngx_proxy_wasm_result_trap before_response NGX_WAVM_BAD_USAGE
  | NGX_PROXY_WASM_MAP_HTTP_RESPONSE_HEADERS =>
      if resp_headers_step (pw_step x) (h_header_sent h) then mret (NGX_WAVM_OK, None)
      else ngx_proxy_wasm_result_trap before_response_body NGX_WAVM_BAD_USAGE
  | NGX_PROXY_WASM_MAP_HTTP_UPSTREAM_RESPONSE_HEADERS =>
      ngx_proxy_wasm_result_trap no_upstream_headers NGX_WAVM_BAD_USAGE
  | _ => mret ngx_proxy_wasm_result_badarg
  end.

(** The answer for the code of [ngx_proxy_wasm_maps_set]. *)
Definition set_result (rc : ngx_rc) : M host_ret :=
  if bool_decide (rc = NGX_ERROR) then mret ngx_proxy_wasm_result_err
  else
    massert (bool_decide (rc = NGX_OK) || bool_decide (rc = NGX_ABORT));;
    mret ngx_proxy_wasm_result_ok.

Definition hfuncs_set (map_type : ngx_proxy_wasm_map_type_e) (key : bytes) (value : option ngx_str_t)
    (op : ngx_proxy_wasm_map_op_e) : M host_ret :=
  check ← ngx_proxy_wasm_hfuncs_set_header_check map_type;
  if negb (check.1 =? NGX_WAVM_OK) then mret check
  else
    rc ← ngx_proxy_wasm_maps_set map_type key value op;
    set_result rc.

Definition ngx_proxy_wasm_hfuncs_add_header_map_value map_type (key value : bytes) : M host_ret :=
  hfuncs_set map_type key (Some (Some value)) NGX_PROXY_WASM_MAP_ADD.
Definition ngx_proxy_wasm_hfuncs_replace_header_map_value map_type (key value : bytes) : M host_ret :=
  hfuncs_set map_type key (Some (Some value)) NGX_PROXY_WASM_MAP_SET.
Definition ngx_proxy_wasm_hfuncs_remove_header_map_value map_type (key : bytes) : M host_ret :=
  hfuncs_set map_type key None NGX_PROXY_WASM_MAP_REMOVE.

(** [array_ok]: as in [Pairs.ngx_proxy_wasm_pairs_unmarshal]; [map] is the slice of the
    memory of the module. *)
Definition ngx_proxy_wasm_hfuncs_set_header_map_pairs (array_ok pnalloc_ok : Z -> bool)
    (map_type : ngx_proxy_wasm_map_type_e) (map : bytes) : M host_ret :=
  '(rc, headers) ← slift (Pairs.ngx_proxy_wasm_pairs_unmarshal array_ok pnalloc_ok map);
  if negb (is_ok rc) then mret ngx_proxy_wasm_result_err
  else
    check ← ngx_proxy_wasm_hfuncs_set_header_check map_type;
    if negb (check.1 =? NGX_WAVM_OK) then mret check
    else
      let clear m :=
        rc ← on_request m;
        if negb (is_ok rc) then mret ngx_proxy_wasm_result_err
        else
          rc ← ngx_proxy_wasm_maps_set_all map_type
                 ((fun e => (Pairs.key e, Pairs.value e)) <$> headers);
          set_result rc in
      match map_type with
      | NGX_PROXY_WASM_MAP_HTTP_REQUEST_HEADERS => clear (ngx_http_wasm_clear_req_headers debug fresh b)
      | NGX_PROXY_WASM_MAP_HTTP_RESPONSE_HEADERS => clear (ngx_http_wasm_clear_resp_headers debug fresh)
      | _ => mret ngx_proxy_wasm_result_badarg
      end.

(** The answer, and the pointer and the size written to the module.  [abi_0_1_0] tells the
    version of the filter. *)
Definition ngx_proxy_wasm_hfuncs_get_header_map_value (abi_0_1_0 : bool)
    (map_type : ngx_proxy_wasm_map_type_e) (key : bytes) : M (host_ret * option (option Z * Z)) :=
  value ← ngx_proxy_wasm_maps_get map_type key;
  match value with
  | None => mret (if abi_0_1_0 then (ngx_proxy_wasm_result_ok, Some (None, 0))
                  else (ngx_proxy_wasm_result_notfound, None))
  | Some (len, data) =>
      memory ← gets ms_memory;
      let '(p, memory) := ngx_proxy_wasm_alloc memory len in
      puts (with_memory memory);;
      if p =? 0 then mret (ngx_proxy_wasm_result_err, None)
      else if zlen memory <? p + len then mret (ngx_proxy_wasm_result_invalid_mem, None)
      else
        data ← (if len =? 0 then mret [] else slift (deref data));
        memory ← slift (mem_write memory p data);
        puts (with_memory memory);;
        mret (ngx_proxy_wasm_result_ok, Some (Some p, wrap32 len))
  end.

Definition pairs_elt (e : ngx_table_elt_t) : Pairs.ngx_table_elt_t :=
  {| Pairs.hash := te_hash e; Pairs.key := te_key e; Pairs.value := default [] (te_value e) |}.
Definition extra_elt (e : bytes * bytes) : Pairs.ngx_table_elt_t :=
  {| Pairs.hash := 0; Pairs.key := e.1; Pairs.value := e.2 |}.

Definition ngx_proxy_wasm_hfuncs_get_header_map_pairs (max_pairs : Z)
    (map_type : ngx_proxy_wasm_map_type_e) : M (host_ret * option (Z * Z)) :=
  r ← ngx_proxy_wasm_maps_get_all map_type;
  match r with
  | None => mret (ngx_proxy_wasm_result_badarg, None)
  | Some (list, extras) =>
      memory ← gets ms_memory;
      '(out, memory) ← slift (Pairs.ngx_proxy_wasm_marshal debug ngx_proxy_wasm_alloc max_pairs memory
                                (pairs_elt <$> concat list) (Some (extra_elt <$> extras)));
      puts (with_memory memory);;
      match out with
      | Pairs.marshal_failed => mret (ngx_proxy_wasm_result_invalid_mem, None)
      | Pairs.marshalled p size _ => mret (ngx_proxy_wasm_result_ok, Some (p, size))
      | Pairs.marshal_bad_slice =>
          puts (with_trap (ngx_string "invalid slice pointer passed to host function"));;
          mret (ngx_proxy_wasm_result_ok, None)
      end
  end.

(** ** The path of a request *)

(** What is read of a path that was set, with the query the request had before. *)
Definition path_read (v args : bytes) : bytes :=
  let '(uri, args) := match ngx_strchr v "?"%byte with
                      | Some query => (take query v, drop (query + 1) v)
                      | None => (v, args)
                      end in
  uri ++ (if zlen args =? 0 then [] else "?"%byte :: args).

(** Only the pool of [s] may have changed. *)
Definition same_but_pool (s s' : map_state P) : Prop := s' = with_rp (ms_r s) (ms_pool s') s.

Lemma with_rp_id (s : map_state P) : with_rp (ms_r s) (ms_pool s) s = s.
Proof. by destruct s. Qed.

Lemma palloc_spec (s : map_state P) : exists ok p, palloc s = Ret (ok, with_rp (ms_r s) p s).
Proof.
  unfold palloc, on_request, pnalloc. cbn. destruct (ngx_pnalloc (ms_pool s)) as [ok p]. cbn. eauto.
Qed.

Lemma copy_pair_spec v op (s : map_state P) :
  op <> NGX_PROXY_WASM_MAP_REMOVE ->
  exists ok p, copy_pair (Some (Some v)) op s = Ret ((ok, Some (Some v)), with_rp (ms_r s) p s).
Proof.
  intros Hop. unfold copy_pair. rewrite bool_decide_false by done.
  destruct (palloc_spec s) as (ok & p & E). erewrite SM_bind_Ret by exact E.
  destruct ok; cbn [negb]; [|by exists false, p]. erewrite SM_bind_Ret by reflexivity.
  destruct (palloc_spec (with_rp (ms_r s) p s)) as (ok & p' & E'). erewrite SM_bind_Ret by exact E'.
  destruct ok; cbn [negb]; by eexists _, p'.
Qed.

(** Reading a path that was just set. *)
Definition path_state (v : bytes) (s : map_state P) : map_state P :=
  with_pwctx (set_path []) (with_http (fun h =>
    match ngx_strchr v "?"%byte with
    | Some query => set_uri (take query v) (drop (query + 1) v) h
    | None => set_uri v (h_args h) h
    end) s).

Lemma set_path_spec v op (s : map_state P) :
  op <> NGX_PROXY_WASM_MAP_REMOVE ->
  exists p, let s1 := with_rp (ms_r s) p s in
    ngx_proxy_wasm_maps_set NGX_PROXY_WASM_MAP_HTTP_REQUEST_HEADERS (ngx_string ":path") (Some (Some v)) op s
    = Ret (NGX_ERROR, s1) \/
    ngx_proxy_wasm_maps_set NGX_PROXY_WASM_MAP_HTTP_REQUEST_HEADERS (ngx_string ":path") (Some (Some v)) op s
    = Ret (NGX_OK, path_state v s1).
Proof.
  intros Hop. unfold ngx_proxy_wasm_maps_set.
  destruct (copy_pair_spec v op s Hop) as (ok & p & E). exists p. erewrite SM_bind_Ret by exact E.
  cbn beta iota. destruct ok; cbn [negb]; [right|by left]. reflexivity.
Qed.

Lemma ngx_strchr_Some v c q : ngx_strchr v c = Some q -> v !! q = Some c.
Proof.
  unfold ngx_strchr. destruct (list_find _ v) as [[i x]|] eqn:E; [|done].
  case_bool_decide; [|done]. intros [= <-]. subst x. by apply list_find_Some in E as [E _].
Qed.

(** A path with a query is read as it was set, one that ends with "?" without it. *)
Lemma path_read_query v args q :
  ngx_strchr v "?"%byte = Some q ->
  path_read v args = if (q + 1 =? length v)%nat then take q v else v.
Proof.
  intros Hq. unfold path_read. rewrite Hq. apply ngx_strchr_Some in Hq.
  pose proof (lookup_lt_Some _ _ _ Hq) as Hlt.
  destruct (Nat.eqb_spec (q + 1) (length v)) as [E|E].
  - rewrite drop_ge by lia. cbn. apply app_nil_r.
  - destruct (Z.eqb_spec (zlen (drop (q + 1) v)) 0) as [E'|_].
    { unfold zlen in E'. rewrite length_drop in E'. lia. }
    replace (q + 1)%nat with (S q) by lia. by rewrite <- (take_drop_middle v q "?"%byte) at 3.
Qed.

Abbreviation get_path_of :=
  (ngx_proxy_wasm_maps_get NGX_PROXY_WASM_MAP_HTTP_REQUEST_HEADERS (ngx_string ":path")).
Abbreviation set_path_of v op :=
  (ngx_proxy_wasm_maps_set NGX_PROXY_WASM_MAP_HTTP_REQUEST_HEADERS (ngx_string ":path") (Some (Some v)) op).

Lemma get_path_special s v s' :
  ngx_proxy_wasm_maps_get_path s = Ret (Some v, s') -> get_path_of s = Ret (Some v, s').
Proof.
  intros E. unfold ngx_proxy_wasm_maps_get.
  change (ngx_proxy_wasm_maps_get_special_key _ _) with ngx_proxy_wasm_maps_get_path.
  by erewrite SM_bind_Ret by exact E.
Qed.

Lemma get_path_fresh s p :
  pw_path (ms_pwctx s) = [] -> ngx_pnalloc (ms_pool s) = (true, p) ->
  let path := h_uri (ms_http s) ++
              (if zlen (h_args (ms_http s)) =? 0 then [] else "?"%byte :: h_args (ms_http s)) in
  get_path_of s = Ret (Some (of_bytes path), with_pwctx (set_path path) (with_rp (ms_r s) p s)).
Proof.
  intros Hp Ha path. apply get_path_special. unfold ngx_proxy_wasm_maps_get_path.
  erewrite SM_bind_Ret by reflexivity. rewrite Hp.
  change (negb (zlen (@nil byte) =? 0)) with false. cbv iota.
  erewrite SM_bind_Ret by reflexivity.
  erewrite SM_bind_Ret by (unfold palloc, on_request, pnalloc; cbn; rewrite Ha; reflexivity).
  reflexivity.
Qed.

Lemma get_path_kept s :
  pw_path (ms_pwctx s) <> [] -> get_path_of s = Ret (Some (of_bytes (pw_path (ms_pwctx s))), s).
Proof.
  intros Hp. apply get_path_special. unfold ngx_proxy_wasm_maps_get_path.
  erewrite SM_bind_Ret by reflexivity. by destruct (pw_path (ms_pwctx s)).
Qed.

(** C39. Setting ":path", then reading it: the setting fails only without memory and then
    changes nothing; else the path read is the one that was set when it has a query, also
    when it is read again.  A path that ends with "?" is read without it and the request
    loses its query; a path without "?" keeps the query the request had. *)
Theorem path_set_get v op s :
  op <> NGX_PROXY_WASM_MAP_REMOVE ->
  exists s1,
    (set_path_of v op s = Ret (NGX_ERROR, s1) /\ same_but_pool s s1) \/
    (set_path_of v op s = Ret (NGX_OK, s1) /\ ms_r s1 = ms_r s /\
     let path := match ngx_strchr v "?"%byte with
                 | Some q => if (q + 1 =? length v)%nat then take q v else v
                 | None => v ++ (if zlen (h_args (ms_http s)) =? 0 then []
                                 else "?"%byte :: h_args (ms_http s))
                 end in
     forall p, ngx_pnalloc (ms_pool s1) = (true, p) ->
       exists s2, get_path_of s1 = Ret (Some (of_bytes path), s2) /\ ms_http s2 = ms_http s1 /\
         (path <> [] -> get_path_of s2 = Ret (Some (of_bytes path), s2))).
Proof.
  intros Hop. destruct (set_path_spec v op s Hop) as (p & [E|E]);
    [exists (with_rp (ms_r s) p s); left; by rewrite E|].
  exists (path_state v (with_rp (ms_r s) p s)). right. split_and!; [done|done|]. intros path p' Ha.
  assert (Hpath : path = path_read v (h_args (ms_http s))).
  { unfold path. destruct (ngx_strchr v "?"%byte) as [q|] eqn:Eq; [by rewrite (path_read_query _ _ q)|].
    unfold path_read. by rewrite Eq. }
  pose proof (get_path_fresh (path_state v (with_rp (ms_r s) p s)) p' eq_refl Ha) as Hget.
  cbv zeta in Hget. set (s1 := path_state v (with_rp (ms_r s) p s)) in *.
  replace (h_uri (ms_http s1) ++ _) with path in Hget.
  2: { rewrite Hpath. unfold path_read, s1, path_state. cbn. by destruct (ngx_strchr v "?"%byte). }
  eexists. split_and!; [exact Hget|done|]. intros Hne. by rewrite get_path_kept.
Qed.

(** ** What a guest can do to the headers *)

Definition headers_type (map_type : ngx_proxy_wasm_map_type_e) : option ngx_http_wasm_headers_type_e :=
  match map_type with
  | NGX_PROXY_WASM_MAP_HTTP_REQUEST_HEADERS => Some NGX_HTTP_WASM_HEADERS_REQUEST
  | NGX_PROXY_WASM_MAP_HTTP_RESPONSE_HEADERS => Some NGX_HTTP_WASM_HEADERS_RESPONSE
  | _ => None
  end.

(** The headers of a map may be set now: those of the request while it is read, and later
    before the header filter is entered; those of the response until its header is
    sent, at the steps that come before the body. *)
Definition may_set (map_type : ngx_proxy_wasm_map_type_e) (s : map_state P) : bool :=
  let step := pw_step (ms_pwctx s) in
  let reading := [ProxyWasm.STEP_REQ_HEADERS; ProxyWasm.STEP_REQ_BODY; ProxyWasm.STEP_REQ_TRAILERS] in
  let waiting := [ProxyWasm.STEP_UPSTREAM_SELECT; ProxyWasm.STEP_DISPATCH_RESPONSE] in
  match map_type with
  | NGX_PROXY_WASM_MAP_HTTP_REQUEST_HEADERS =>
      bool_decide (step ∈ reading)
      || bool_decide (step ∈ waiting) && negb (fl_entered_header_filter (ms_flags s))
  | NGX_PROXY_WASM_MAP_HTTP_RESPONSE_HEADERS =>
      bool_decide (step ∈ reading ++ [ProxyWasm.STEP_RESP_HEADERS])
      || bool_decide (step = ProxyWasm.STEP_DISPATCH_RESPONSE) && negb (h_header_sent (ms_http s))
  | _ => false
  end.

(** The faults: a special key removed, as its function is given no value; those of
    [Headers.handler_fault]. *)
Definition set_fault htype map_type key (op : ngx_proxy_wasm_map_op_e) (value : option ngx_str_t)
    (s : map_state P) (f : fault) : Prop :=
  (f = F_memory /\ op = NGX_PROXY_WASM_MAP_REMOVE /\
   exists k g, special_key map_type key = Some k /\ mk_set k = Some g) \/
  let key' := Escape.escape_string NGX_HTTP_WASM_ESCAPE_HEADER_NAME key in
  exists h hk, find_handler (handlers_of b htype) key' = Some (h, hk) /\
    handler_fault debug htype (hv_of htype key' (set_mode op) h hk (given (set_mode op) value))
      (given (set_mode op) value) (ms_r s) f.

(** Nothing but the request, its pool, the fields of special keys and the values kept of
    them. *)
Definition only_request (s s' : map_state P) : Prop :=
  ms_call s' = ms_call s /\ ms_flags s' = ms_flags s /\ ms_trap s' = ms_trap s /\
  ms_memory s' = ms_memory s.

Section laws.
Context `{!NgxPoolLaws P} (fresh_len : forall n, 0 <= n -> zlen (fresh n) = n).

(** The special keys leave the lists of headers alone. *)
Lemma call_set_spec g value s :
  match call_set g value s with
  | Ret (rc, s') =>
      rc = NGX_OK /\ only_request s s' /\
      forall htype, headers_of htype (ms_r s') = headers_of htype (ms_r s)
  | Fault f => f = F_memory /\ (forall v, value <> Some (Some v))
  end.
Proof.
  destruct value as [[v|]|], g; try (by split_and!). cbn [call_set].
  unfold ngx_proxy_wasm_maps_set_response_status. do 2 (erewrite SM_bind_Ret by reflexivity).
  cbv zeta. destruct (_ || _); [by split_and!|].
  erewrite SM_bind_Ret by reflexivity. split_and!; [done|done|by intros []].
Qed.

Lemma kept_refl htype c r : headers_wf (name_of (handlers_of b htype)) (headers_of htype r) -> kept b htype c r r.
Proof. intros Hwf. by split_and!. Qed.

Lemma kept_headers htype c r r' :
  headers_wf (name_of (handlers_of b htype)) (headers_of htype r) ->
  (forall t, headers_of t r' = headers_of t r) -> kept b htype c r r'.
Proof. intros Hwf E. split_and!; [by rewrite E|by rewrite E|apply E]. Qed.

(** [value] is given unless the header is removed. *)
Definition value_given (op : ngx_proxy_wasm_map_op_e) (value : option ngx_str_t) : Prop :=
  match op with
  | NGX_PROXY_WASM_MAP_REMOVE => value = None
  | _ => exists v, value = Some (Some v)
  end.

Lemma copy_pair_given op value s :
  value_given op value ->
  exists ok p, copy_pair value op s = Ret ((ok, value), with_rp (ms_r s) p s).
Proof.
  intros Hv. destruct (decide (op = NGX_PROXY_WASM_MAP_REMOVE)) as [->|Hop].
  - exists true, (ms_pool s). unfold copy_pair. rewrite bool_decide_true by done. by rewrite with_rp_id.
  - assert (exists v, value = Some (Some v)) as [v ->] by (by destruct op). by apply copy_pair_spec.
Qed.

Lemma set_headers_spec htype map_type key value op s :
  headers_type map_type = Some htype -> value_given op value ->
  let key' := Escape.escape_string NGX_HTTP_WASM_ESCAPE_HEADER_NAME key in
  let name := name_of (handlers_of b htype) in
  ngx_hash_key_lc key' <> 0 -> headers_wf name (headers_of htype (ms_r s)) ->
  match ngx_proxy_wasm_maps_set map_type key value op s with
  | Ret (rc, s') =>
      (rc = NGX_OK \/ rc = NGX_ERROR \/ rc = NGX_ABORT) /\ only_request s s' /\
      kept b htype (name key') (ms_r s) (ms_r s')
  | Fault f => set_fault htype map_type key op value s f
  end.
Proof.
  intros Ht Hv key' name Hh Hwf. unfold ngx_proxy_wasm_maps_set.
  destruct (copy_pair_given op value s Hv) as (ok & p & E). erewrite SM_bind_Ret by exact E.
  cbn beta iota. set (s1 := with_rp (ms_r s) p s).
  assert (Hkr : kept b htype (name key') (ms_r s) (ms_r s1)) by (by apply kept_refl).
  destruct ok; cbn [negb]; [|split_and!; [auto|done|exact Hkr]].
  unfold ngx_proxy_wasm_maps_set_special_key.
  destruct (special_key map_type key) as [k|] eqn:Ek; [destruct (mk_set k) as [g|] eqn:Eg|].
  - unfold mbind, SM_bind. pose proof (call_set_spec g value s1) as Hs.
    destruct (call_set g value s1) as [[rc s2]|f].
    + destruct Hs as (-> & Ho & Hk). split_and!; [auto|done|]. by apply kept_headers.
    + destruct Hs as [-> Hno]. left. split_and!; [done| |by exists k, g].
      destruct op; [| |done]; destruct Hv as [v Hv]; by destruct (Hno v).
  - erewrite SM_bind_Ret by reflexivity. split_and!; [auto|done|exact Hkr].
  - erewrite SM_bind_Ret by reflexivity. cbn beta iota.
    assert (Hset : forall htype', htype' = htype ->
      match (rc ← on_request (ngx_http_wasm_set_header debug fresh htype' (handlers_of b htype') key None value (set_mode op));
             mret (not_declined rc)) s1 with
      | Ret (rc, s') => (rc = NGX_OK \/ rc = NGX_ERROR \/ rc = NGX_ABORT) /\ only_request s s' /\
          kept b htype (name key') (ms_r s) (ms_r s')
      | Fault f => set_fault htype map_type key op value s f
      end).
    { intros ? ->. unfold on_request, mbind, SM_bind.
      pose proof (set_header_spec debug fresh fresh_len b htype key value (set_mode op) (ms_r s1) (ms_pool s1)) as Hs.
      cbv zeta in Hs. specialize (Hs Hh). assert (Hval : set_mode op <> NGX_HTTP_WASM_HEADERS_REMOVE ->
        exists v, value = Some (Some v)) by (intros Hm; by destruct op).
      specialize (Hs Hval Hwf).
      pose proof (returns_set_header debug fresh htype (handlers_of b htype) key None value (set_mode op)
        (ms_r s1, ms_pool s1)) as Hrc.
      destruct (ngx_http_wasm_set_header _ _ _ _ _ _ _ _ _) as [[rc [r' p']]|f]; cbn [obind].
      - assert (Hrc' : header_rc rc) by exact (Hrc rc (r', p') eq_refl).
        destruct Hrc' as [->|[->| ->]]; split_and!; try done; auto.
      - right. exact Hs. }
    destruct map_type; try done; injection Ht as <-; by apply (Hset _ eq_refl).
Qed.

(** The check of the step. *)
Definition checked (map_type : ngx_proxy_wasm_map_type_e) (s : map_state P) : map_state P :=
  match map_type with
  | NGX_PROXY_WASM_MAP_HTTP_REQUEST_HEADERS =>
      with_flags {| fl_entered_header_filter := fl_entered_header_filter (ms_flags s);
                    fl_req_headers_modified := true |} s
  | _ => s
  end.

Definition trap_message (map_type : ngx_proxy_wasm_map_type_e) : bytes :=
  match map_type with
  | NGX_PROXY_WASM_MAP_HTTP_REQUEST_HEADERS => before_response
  | NGX_PROXY_WASM_MAP_HTTP_RESPONSE_HEADERS => before_response_body
  | _ => no_upstream_headers
  end.

Lemma check_spec htype map_type s :
  headers_type map_type = Some htype ->
  ngx_proxy_wasm_hfuncs_set_header_check map_type s =
    if may_set map_type s then Ret ((NGX_WAVM_OK, None), checked map_type s)
    else Ret ((NGX_WAVM_BAD_USAGE, Some NGX_PROXY_WASM_RESULT_OK), with_trap (trap_message map_type) s).
Proof.
  intros Ht. unfold ngx_proxy_wasm_hfuncs_set_header_check, may_set.
  do 3 (erewrite SM_bind_Ret by reflexivity). destruct map_type; try done.
  - destruct (pw_step (ms_pwctx s)); cbn; try done; by destruct (fl_entered_header_filter _).
  - destruct (pw_step (ms_pwctx s)); cbn; try done; by destruct (h_header_sent _).
Qed.

(** C10. A guest that adds, sets or removes a request or response header (by the host functions of the
    ABI), of a name whose hash is not null, in a list that is well formed: at a step where it may,
    the call answers success or an internal failure, leaves the list of headers well formed, and
    changes no header of another name in it, nothing in the other list, nor the memory of the
    module. At any other step, nothing is changed and the instance traps. The accesses that can
    fault are those of [set_fault]. What else nginx keeps of the headers of that name (their
    pointers, the content length, the connection type) may change with them. *)
Theorem guest_sets_headers htype map_type key value op s :
  headers_type map_type = Some htype -> value_given op value ->
  let key' := Escape.escape_string NGX_HTTP_WASM_ESCAPE_HEADER_NAME key in
  let name := name_of (handlers_of b htype) in
  ngx_hash_key_lc key' <> 0 -> headers_wf name (headers_of htype (ms_r s)) ->
  match hfuncs_set map_type key value op s with
  | Ret ((rc, ret), s') =>
      if may_set map_type s then
        rc = NGX_WAVM_OK /\
        (ret = Some NGX_PROXY_WASM_RESULT_OK \/ ret = Some NGX_PROXY_WASM_RESULT_INTERNAL_FAILURE) /\
        kept b htype (name key') (ms_r s) (ms_r s') /\
        ms_trap s' = ms_trap s /\ ms_memory s' = ms_memory s
      else
        rc = NGX_WAVM_BAD_USAGE /\ ret = Some NGX_PROXY_WASM_RESULT_OK /\
        s' = with_trap (trap_message map_type) s
  | Fault f => may_set map_type s = true /\ set_fault htype map_type key op value s f
  end.
Proof.
  intros Ht Hv key' name Hh Hwf. unfold hfuncs_set, mbind, SM_bind. rewrite (check_spec htype) by done.
  destruct (may_set map_type s) eqn:Em; cbn [fst Z.eqb negb NGX_WAVM_OK]; [|by cbn].
  assert (Hsame : ms_r (checked map_type s) = ms_r s) by (by destruct map_type).
  pose proof (set_headers_spec htype map_type key value op (checked map_type s) Ht Hv Hh) as Hs.
  rewrite Hsame in Hs. specialize (Hs Hwf).
  destruct (ngx_proxy_wasm_maps_set map_type key value op (checked map_type s)) as [[rc s2]|f].
  - destruct Hs as (Hrc & (_ & _ & Htrap & Hmem) & Hk).
    assert (Htm : ms_trap s2 = ms_trap s /\ ms_memory s2 = ms_memory s)
      by (rewrite Htrap, Hmem; by destruct map_type).
    unfold set_result. destruct Hrc as [->|[->| ->]]; cbn [bool_decide];
      rewrite ?bool_decide_true, ?bool_decide_false by done; cbn.
    + unfold massert, slift, mbind, SM_bind. rewrite ngx_wa_assert_true. cbn. tauto.
    + tauto.
    + unfold massert, slift, mbind, SM_bind. rewrite ngx_wa_assert_true. cbn. tauto.
  - split; [done|]. destruct Hs as [Hs|Hs]; [by left|right]. cbv zeta in Hs. by rewrite Hsame in Hs.
Qed.

(** Setting a header of a request and reading it: for a name that is neither a special key
    nor one nginx gives a field, that needs no escape and has a hash that is not null, with
    at most one header of it, not removed before, the value read is the value set, escaped;
    the setting fails only without memory. *)
Lemma header_set_get key v s :
  let es := concat (ngx_http_wasm_htype_list NGX_HTTP_WASM_HEADERS_REQUEST (ms_r s)) in
  let hv := hv_of NGX_HTTP_WASM_HEADERS_REQUEST key NGX_HTTP_WASM_HEADERS_SET null_handler key
              (Some (Escape.escape_string NGX_HTTP_WASM_ESCAPE_HEADER_VALUE v)) in
  Escape.escape_string NGX_HTTP_WASM_ESCAPE_HEADER_NAME key = key ->
  special_key NGX_PROXY_WASM_MAP_HTTP_REQUEST_HEADERS key = None ->
  find_handler (ngx_http_wasm_req_headers_handlers b) key = Some (null_handler, key) ->
  ngx_hash_key_lc key <> 0 -> list_ok (ngx_http_wasm_htype_list NGX_HTTP_WASM_HEADERS_REQUEST (ms_r s)) ->
  (found_at es hv <= 1)%nat ->
  (forall e, e ∈ es -> same_name key e -> te_hash e = ngx_hash_key_lc key) ->
  exists rc s1,
    ngx_proxy_wasm_maps_set NGX_PROXY_WASM_MAP_HTTP_REQUEST_HEADERS key (Some (Some v))
      NGX_PROXY_WASM_MAP_SET s = Ret (rc, s1) /\
    (rc = NGX_ERROR \/
     rc = NGX_OK /\
     ngx_proxy_wasm_maps_get NGX_PROXY_WASM_MAP_HTTP_REQUEST_HEADERS key s1 =
       Ret (Some (of_bytes (Escape.escape_string NGX_HTTP_WASM_ESCAPE_HEADER_VALUE v)), s1)).
Proof.
  intros es hv Hesc Hsp Hf Hh Hok Hone Hlive.
  unfold ngx_proxy_wasm_maps_set.
  destruct (copy_pair_spec v NGX_PROXY_WASM_MAP_SET s) as (ok & p & E); [done|].
  erewrite SM_bind_Ret by exact E. cbn beta iota. set (s1 := with_rp (ms_r s) p s).
  destruct ok; cbn [negb]; [|exists NGX_ERROR, s1; auto].
  unfold ngx_proxy_wasm_maps_set_special_key. rewrite Hsp. erewrite SM_bind_Ret by reflexivity. cbn beta iota.
  pose proof (set_plain_spec debug fresh fresh_len b NGX_HTTP_WASM_HEADERS_REQUEST key v (ms_r s1) (ms_pool s1)
    Hesc Hf Hh Hok) as Hw. cbv zeta in Hw. unfold wp in Hw. cbn [handlers_of] in Hw.
  unfold mbind, SM_bind, on_request, ngx_http_wasm_set_req_header. cbn [set_mode].
  destruct (ngx_http_wasm_set_header _ _ _ _ _ _ _ _ _) as [[rc [r' p']]|]; [|done]. cbn [obind fst] in *.
  destruct Hw as [[-> ->]|(out & L & -> & HL & Hset)].
  - eexists _, _. split; [reflexivity|]. by left.
  - fold hv in Hset. eexists _, _. split; [reflexivity|].
    change (concat (ngx_http_wasm_htype_list NGX_HTTP_WASM_HEADERS_REQUEST (ms_r s1))) with es in Hset.
    destruct (decide (rc = NGX_OK)) as [->|Hrc]; [right|left].
    + split; [done|]. unfold ngx_proxy_wasm_maps_get, ngx_proxy_wasm_maps_get_special_key. rewrite Hsp.
      erewrite SM_bind_Ret by reflexivity. cbn beta iota. erewrite SM_bind_Ret by reflexivity. cbn beta iota.
      cbn [with_rp ms_r]. rewrite list_with_elts, get_list_elem_flat by done.
      by rewrite (get_header_set hv _ es out (concat L) eq_refl Hone Hlive Hset : get_list_elem _ key = _).
    + assert (rc = NGX_ERROR) as ->; [|done]. unfold header_set, added in Hset.
      change (hv_mode hv) with NGX_HTTP_WASM_HEADERS_SET in Hset. cbv iota in Hset.
      destruct (found_at es hv) as [|[|]]; [destruct Hset as [[? _]|[? _]]|destruct Hset as [? _]..]; done.
Qed.

End laws.

End maps.
End Maps.

(** ** States to run the definitions on *)

Module MapsRuns.
Import Host Headers HeadersRuns Maps.

#[export] Instance env : MapsEnv unit := {
  scheme_variable := Some (ngx_string "https");
  ngx_connection_local_sockaddr := true;
  server_name := ngx_string "a.test";
  hostname := ngx_string "host";
  local_port := 443;
  sprintf_ui := fun _ => ngx_string "443";
  sprintf_03ui := fun _ => ngx_string "200";
  ngx_atoi := decimal;
  ngx_http_wasm_get_shim_headers := fun _ => Some [(ngx_string "Connection", ngx_string "close")];
  ngx_http_wasm_get_shim_header := fun _ _ => None;
  ngx_proxy_wasm_alloc := fun m n => (zlen m, m ++ replicate (Z.to_nat n) x00);
}.

(** A guest at a step of the request [two_ids] for "/p?q". *)
Definition guest_at (step : ProxyWasm.ngx_proxy_wasm_step_e) : map_state unit :=
  {| ms_r := two_ids; ms_pool := tt;
     ms_http := {| h_uri := ngx_string "/p"; h_args := ngx_string "q"; h_method_name := Some (ngx_string "GET");
                   h_err_status := 0; h_http_version_9 := false; h_header_sent := false;
                   h_valid_unparsed_uri := true; h_valid_location := true; h_internal := false;
                   h_status_line_len := 0; h_upstream := None |};
     ms_pwctx := {| pw_step := step; pw_path := []; pw_scheme := []; pw_authority := (0, None);
                    pw_response_code := 0; pw_response_status := []; pw_dispatch_call_code := 0;
                    pw_dispatch_call_status := [] |};
     ms_call := None; ms_flags := {| fl_entered_header_filter := false; fl_req_headers_modified := false |};
     ms_trap := None; ms_memory := [] |}.

Definition value_of (o : outcome (option str_t * map_state unit)) : outcome (option (option bytes)) :=
  let? (v, _) := o in Ret (snd <$> v).

Definition get_req (key : String.string) (s : map_state unit) :=
  value_of (ngx_proxy_wasm_maps_get true NGX_PROXY_WASM_MAP_HTTP_REQUEST_HEADERS (ngx_string key) s).
Arguments get_req key%_string_scope.

Example get_special :
  let s := guest_at ProxyWasm.STEP_REQ_HEADERS in
  get_req ":path" s = Ret (Some (Some (ngx_string "/p?q"))) /\
  get_req ":authority" s = Ret (Some (Some (ngx_string "a.test:443"))) /\
  get_req ":scheme" s = Ret (Some (Some (ngx_string "https"))) /\
  get_req "x-id" s = Ret (Some (Some (ngx_string "1"))).
Proof. vm_compute. done. Qed.

(** Setting a path without a query leaves the query of the request. *)
Example path_keeps_query :
  (let? (_, s) := ngx_proxy_wasm_hfuncs_replace_header_map_value true zeros all_modules
      NGX_PROXY_WASM_MAP_HTTP_REQUEST_HEADERS (ngx_string ":path") (ngx_string "/new")
      (guest_at ProxyWasm.STEP_REQ_HEADERS) in get_req ":path" s)
  = Ret (Some (Some (ngx_string "/new?q"))).
Proof. vm_compute. reflexivity. Qed.

(** Removing a special key follows a [NULL] value. *)
Example remove_path :
  ngx_proxy_wasm_hfuncs_remove_header_map_value false zeros all_modules
    NGX_PROXY_WASM_MAP_HTTP_REQUEST_HEADERS (ngx_string ":path") (guest_at ProxyWasm.STEP_REQ_HEADERS)
  = Fault F_memory.
Proof. vm_compute. reflexivity. Qed.

(** Reading the status of a dispatch response when there is no call follows a [NULL] call. *)
Example dispatch_status_no_call :
  ngx_proxy_wasm_maps_get false NGX_PROXY_WASM_MAP_HTTP_CALL_RESPONSE_HEADERS (ngx_string ":status")
    (guest_at ProxyWasm.STEP_REQ_HEADERS) = Fault F_memory.
Proof. vm_compute. reflexivity. Qed.

(** A map that cannot be set is refused as a bad argument, and then set nevertheless: an
    internal failure, or an assertion. *)
Definition add_trailer (debug : bool) :=
  ngx_proxy_wasm_hfuncs_add_header_map_value debug zeros all_modules
    NGX_PROXY_WASM_MAP_HTTP_REQUEST_TRAILERS (ngx_string "a") (ngx_string "b")
    (guest_at ProxyWasm.STEP_REQ_HEADERS).

Example add_to_bad_map :
  (let? (r, _) := add_trailer false in Ret r) = Ret ngx_proxy_wasm_result_err /\
  add_trailer true = Fault F_assert.
Proof. vm_compute. done. Qed.

(** A map that replaces the headers of the request: the old value of a header is read. *)
Example replaced_map_reads_old :
  let map := Pairs.serialize [{| Pairs.hash := 0; Pairs.key := ngx_string "X-Id"; Pairs.value := ngx_string "9" |}] in
  (let? (_, s) := ngx_proxy_wasm_hfuncs_set_header_map_pairs true zeros all_modules (fun _ => true) (fun _ => true)
      NGX_PROXY_WASM_MAP_HTTP_REQUEST_HEADERS map (guest_at ProxyWasm.STEP_REQ_HEADERS) in
   let? v := get_req "X-Id" s in
   Ret (seen_in (Ret (NGX_OK, (ms_r s, tt))), v))
  = Ret (Some (NGX_OK, [(ngx_string "X-Id", Some (ngx_string "9"))]), Some (Some (ngx_string "1"))).
Proof. vm_compute. reflexivity. Qed.

(** ** The hypotheses of the theorems *)

Lemma path_set_get_witness :
  exists s1,
    ngx_proxy_wasm_maps_set true zeros all_modules NGX_PROXY_WASM_MAP_HTTP_REQUEST_HEADERS
      (ngx_string ":path") (Some (Some (ngx_string "/x?y"))) NGX_PROXY_WASM_MAP_SET
      (guest_at ProxyWasm.STEP_REQ_HEADERS) = Ret (NGX_OK, s1) /\
    get_req ":path" s1 = Ret (Some (Some (ngx_string "/x?y"))).
Proof.
  destruct (path_set_get true zeros all_modules (ngx_string "/x?y") NGX_PROXY_WASM_MAP_SET
    (guest_at ProxyWasm.STEP_REQ_HEADERS)) as [s1 [[E _]|(E & _ & Hget)]]; [discriminate| |].
  - exfalso. vm_compute in E. discriminate.
  - exists s1. split; [exact E|]. destruct (Hget (ms_pool s1) eq_refl) as (s2 & E2 & _).
    unfold get_req. rewrite E2. vm_compute. reflexivity.
Defined.

Lemma guest_sets_headers_witness :
  match hfuncs_set true zeros all_modules NGX_PROXY_WASM_MAP_HTTP_REQUEST_HEADERS (ngx_string "a") (str "b")
          NGX_PROXY_WASM_MAP_ADD (guest_at ProxyWasm.STEP_REQ_HEADERS) with
  | Ret ((rc, _), s') =>
      rc = NGX_WAVM_OK /\
      kept all_modules NGX_HTTP_WASM_HEADERS_REQUEST (inr (ngx_string "a")) two_ids (ms_r s')
  | Fault _ => False
  end.
Proof.
  pose proof (guest_sets_headers true zeros all_modules zeros_len NGX_HTTP_WASM_HEADERS_REQUEST
    NGX_PROXY_WASM_MAP_HTTP_REQUEST_HEADERS (ngx_string "a") (str "b") NGX_PROXY_WASM_MAP_ADD
    (guest_at ProxyWasm.STEP_REQ_HEADERS) eq_refl) as K. cbv zeta in K.
  destruct (hfuncs_set _ _ _ _ _ _ _ _) as [[[rc ret] s']|f] eqn:E.
  - destruct K as (Hrc & _ & Hk & _); [by eexists|vm_compute; discriminate|apply two_ids_wf|by split].
  - exfalso. vm_compute in E. discriminate.
Defined.

Lemma header_set_get_example :
  exists rc s1,
    ngx_proxy_wasm_maps_set true zeros all_modules NGX_PROXY_WASM_MAP_HTTP_REQUEST_HEADERS (ngx_string "a")
      (str "b") NGX_PROXY_WASM_MAP_SET (guest_at ProxyWasm.STEP_REQ_HEADERS) = Ret (rc, s1) /\
    (rc = NGX_ERROR \/ rc = NGX_OK /\
     ngx_proxy_wasm_maps_get true NGX_PROXY_WASM_MAP_HTTP_REQUEST_HEADERS (ngx_string "a") s1
       = Ret (Some (of_bytes (ngx_string "b")), s1)).
Proof.
  apply (header_set_get true zeros all_modules zeros_len (ngx_string "a") (ngx_string "b")
    (guest_at ProxyWasm.STEP_REQ_HEADERS)); try (vm_compute; (reflexivity || discriminate || lia)).
  - constructor.
  - intros e He. repeat (apply elem_of_cons in He as [->|He]; [vm_compute; discriminate|]).
    by apply not_elem_of_nil in He.
Defined.

End MapsRuns.
