(* ===== verification/HostBuffers.v ===== *)
(** * Buffers of the guests

    The host functions that read and replace a body or a configuration
    (src/src/common/proxy_wasm/ngx_proxy_wasm_host.c): a guest asks for a part of a buffer
    and gets a copy in its memory, or gives the bytes to store. *)
From S2P Require Import Prelude NginxCore Host Chains BodyFilter Bodies ProxyWasm.
From stdpp Require Export list gmap.
#[global] Open Scope Z_scope.

Module HostBuffers.
Import Host Chains BodyFilter Bodies.
#[local] Existing Instance ProxyWasm.step_eq_dec.

(** [BUFFER_OTHER] is any other number a guest gives. *)
Inductive ngx_proxy_wasm_buffer_type_e :=
| NGX_PROXY_WASM_BUFFER_HTTP_REQUEST_BODY
| NGX_PROXY_WASM_BUFFER_HTTP_RESPONSE_BODY
| NGX_PROXY_WASM_BUFFER_DOWNSTREAM_DATA
| NGX_PROXY_WASM_BUFFER_UPSTREAM_DATA
| NGX_PROXY_WASM_BUFFER_HTTP_CALL_RESPONSE_BODY
| NGX_PROXY_WASM_BUFFER_GRPC_RECEIVE_BUFFER
| NGX_PROXY_WASM_BUFFER_VM_CONFIGURATION
| NGX_PROXY_WASM_BUFFER_PLUGIN_CONFIGURATION
| NGX_PROXY_WASM_BUFFER_FOREIGN_FUNCTION_ARGUMENTS
| NGX_PROXY_WASM_BUFFER_UPSTREAM_CONFIGURATION
| BUFFER_OTHER.

(** What the functions use of the guest's contexts: the step, the configurations of the
    filter and of its module, the request and whether its body is in a file, the context of
    the request and whether it entered the log phase, the body of the dispatched call with its length, the arguments of the
    foreign call, the store of the chains. *)
Record buffers := {
  bf_step : ProxyWasm.ngx_proxy_wasm_step_e;
  bf_config : bytes;
  bf_vm_config : bytes;
  bf_request : request;
  bf_temp_file : bool;
  bf_rctx : ngx_http_wasm_req_ctx_t;
  bf_log_phase : bool;
  bf_call : option (Z * option addr);
  bf_foreign : option (option addr);
  bf_store : store;
}.

Definition set_store (s : store) (e : buffers) : buffers :=
  {| bf_step := bf_step e; bf_config := bf_config e; bf_vm_config := bf_vm_config e;
     bf_request := bf_request e; bf_temp_file := bf_temp_file e; bf_rctx := bf_rctx e; bf_log_phase := bf_log_phase e;
     bf_call := bf_call e; bf_foreign := bf_foreign e; bf_store := s |}.
Definition set_bodies (r : request) (x : ngx_http_wasm_req_ctx_t) (e : buffers) : buffers :=
  {| bf_step := bf_step e; bf_config := bf_config e; bf_vm_config := bf_vm_config e;
     bf_request := r; bf_temp_file := bf_temp_file e; bf_rctx := x; bf_log_phase := bf_log_phase e;
     bf_call := bf_call e; bf_foreign := bf_foreign e; bf_store := bf_store e |}.

Section buffers.
Context (debug : bool).
(** [buf_tag], the address of the http module. *)
Context (buf_tag : Z).
Context (ngx_vsnprintf : nat -> bytes -> option bytes).
Context (ngx_proxy_wasm_alloc : memory -> Z -> Z * memory).
(** The servers of the upstream of the filter: [Upstream.ngx_http_wasm_get_upstreams]. *)
Context (ngx_http_wasm_get_upstreams : ngx_rc * bytes).

Abbreviation M := (SM (host buffers)).
Abbreviation result_trap := (ngx_proxy_wasm_result_trap ngx_vsnprintf).
Abbreviation LIFT := (NGX_WAVM_HOST_LIFT ngx_vsnprintf).
Abbreviation LIFT_SLICE := (NGX_WAVM_HOST_LIFT_SLICE ngx_vsnprintf).

Definition env {A} (f : buffers -> A) : M A := gets (fun h => f (h_env h)).
Definition on_store {A} (m : SM store A) : M A :=
  on_env (fun e => let? (a, s) := m (bf_store e) in Ret (a, set_store s e)).

Definition only_request_body : bytes :=
  ngx_string "can only get request body during " ++ quoted "on_request_body" ++ ngx_string ", "
    ++ quoted "on_log".
Definition only_response_body : bytes :=
  ngx_string "can only get response body during " ++ quoted "on_response_body".
Definition only_dispatch_body : bytes :=
  ngx_string "can only get dispatch response body during " ++ quoted "on_http_dispatch_response".

(** The chain, or [NULL] with whether there is none and the message of a trap. *)
Definition ngx_proxy_wasm_get_buffer_helper (buf_type : ngx_proxy_wasm_buffer_type_e)
    : M (option addr * bool * option bytes) :=
  e ← env id;
  match buf_type with
  | NGX_PROXY_WASM_BUFFER_HTTP_REQUEST_BODY =>
      match bf_step e with
      | ProxyWasm.STEP_REQ_HEADERS | ProxyWasm.STEP_REQ_BODY | ProxyWasm.STEP_LOG =>
          match rq_request_body (bf_request e) with
          | None | Some None => mret (None, true, None)
          | Some (Some bufs) =>
              if bf_temp_file e then mret (None, true, None) else mret (Some bufs, false, None)
          end
      | _ => mret (None, false, Some only_request_body)
      end
  | NGX_PROXY_WASM_BUFFER_HTTP_RESPONSE_BODY =>
      match bf_step e with
      | ProxyWasm.STEP_RESP_BODY =>
          match rx_resp_chunk (bf_rctx e) with
          | None => mret (None, true, None)
          | Some cl => mret (Some cl, false, None)
          end
      | _ => mret (None, false, Some only_response_body)
      end
  | NGX_PROXY_WASM_BUFFER_HTTP_CALL_RESPONSE_BODY =>
      match bf_step e with
      | ProxyWasm.STEP_DISPATCH_RESPONSE | ProxyWasm.STEP_LOG =>
          match bf_call e with
          | None => mret (None, false, None)
          | Some (body_len, body) =>
              if body_len =? 0 then mret (None, true, None)
              else slift (ngx_wa_assert debug (bool_decide (is_Some body)));; mret (body, false, None)
          end
      | _ => mret (None, false, Some only_dispatch_body)
      end
  | NGX_PROXY_WASM_BUFFER_FOREIGN_FUNCTION_ARGUMENTS =>
      match bf_foreign e with
      | None => mret (None, false, None)
      | Some args_out =>
          slift (ngx_wa_assert debug (bool_decide (is_Some args_out)));; mret (args_out, false, None)
      end
  | _ => mret (None, false, None)
  end.

(** The loop that copies a chain of several links to [p]. *)
Fixpoint copy_links (fuel : nat) (cl : option addr) (p len max_len : Z) : M host_ret :=
  match cl with
  | None => mret ngx_proxy_wasm_result_ok
  | Some a =>
      match fuel with
      | O => slift (Fault F_fuel)
      | S fuel =>
          l ← on_store (read_link a);
          let buf := cl_buf l in
          let chunk_len := Z.of_nat (b_last buf) - Z.of_nat (b_pos buf) in
          let len := wrap64 (len + chunk_len) in
          let '(chunk_len, len) :=
            if max_len <? len then (wrap64 (chunk_len - (len - max_len)), 0) else (chunk_len, len) in
          p ← (if negb (chunk_len =? 0) then
                 data ← slift (mem_read (b_mem buf) (Z.of_nat (b_pos buf)) chunk_len);
                 on_memory (fun m => ngx_wavm_memory_cpymem m p data)
               else mret p);
          if negb (chunk_len =? 0) && (p =? 0) then mret ngx_proxy_wasm_result_invalid_mem
          else if is_eof buf then mret ngx_proxy_wasm_result_ok
          else copy_links fuel (cl_next l) p len max_len
      end
  end.

(** Copies [len] bytes of [start], or of the chain, to [p]. *)
Definition copy_out (start : option bytes) (cl : option addr) (p len max_len : Z) : M host_ret :=
  start ← (match start with
           | Some s => mret (Some s)
           | None =>
               slift (ngx_wa_assert debug (bool_decide (is_Some cl)));;
               match cl with
               | None => mret None
               | Some a =>
                   l ← on_store (read_link a);
                   let buf := cl_buf l in
                   if bool_decide (cl_next l = None) && b_alloc buf
                   then mret (Some (drop (b_pos buf) (b_mem buf)))
                   else mret None
               end
           end);
  match start with
  | Some s =>
      data ← slift (mem_read s 0 len);
      ok ← on_memory (fun m => ngx_wavm_memory_memcpy m p data);
      mret (if (ok : bool) then ngx_proxy_wasm_result_ok else ngx_proxy_wasm_result_invalid_mem)
  | None =>
      match cl with
      | None => slift (ngx_wa_assert debug false);; mret ngx_proxy_wasm_result_ok
      | Some a =>
          l ← on_store (read_link a);
          slift (ngx_wa_assert debug (bool_decide (is_Some (cl_next l))));;
          fuel ← env (fun e => links_fuel (bf_store e));
          copy_links fuel cl p 0 max_len
      end
  end.

(** [inl] is the answer, [inr] what to copy: a string or a chain, with its length. *)
Definition buffer_of (buf_type : ngx_proxy_wasm_buffer_type_e)
    : M (host_ret + option bytes * option addr * Z) :=
  match buf_type with
  | NGX_PROXY_WASM_BUFFER_PLUGIN_CONFIGURATION =>
      s ← env bf_config; mret (inr (Some s, None, zlen s))
  | NGX_PROXY_WASM_BUFFER_VM_CONFIGURATION =>
      s ← env bf_vm_config; mret (inr (Some s, None, zlen s))
  | NGX_PROXY_WASM_BUFFER_UPSTREAM_CONFIGURATION =>
      match ngx_http_wasm_get_upstreams.1 with
      | NGX_DECLINED => mret (inr (None, None, 0))
      | NGX_ERROR => mret (inl ngx_proxy_wasm_result_err)
      | _ => mret (inr (Some ngx_http_wasm_get_upstreams.2, None, zlen ngx_http_wasm_get_upstreams.2))
      end
  | _ =>
      '(cl, none, trapmsg) ← ngx_proxy_wasm_get_buffer_helper buf_type;
      match cl, trapmsg, none : bool with
      | None, Some msg, _ => r ← result_trap msg NGX_WAVM_BAD_USAGE; mret (inl r)
      | None, None, true => mret (inl ngx_proxy_wasm_result_notfound)
      | None, None, false => mret (inl ngx_proxy_wasm_result_badarg)
      | Some cl, _, _ =>
          '(len, _) ← on_store (ngx_wasm_chain_len (Some cl) None);
          mret (inr (None, Some cl, Z.of_nat len))
      end
  end.

Definition ngx_proxy_wasm_hfuncs_get_buffer (buf_type : ngx_proxy_wasm_buffer_type_e)
    (args1 args2 args3 args4 : Z) : M host_ret :=
  let offset := size_of_i32 args1 in
  let max_len := size_of_i32 args2 in
  LIFT args3 4 4 (fun rbuf =>
  LIFT args4 4 4 (fun rlen =>
  b ← buffer_of buf_type;
  match b with
  | inl r => mret r
  | inr (start, cl, len) =>
      let len := Z.min len max_len in
      if wrap64 (offset + len) <? offset then mret ngx_proxy_wasm_result_err
      else if len =? 0 then mret ngx_proxy_wasm_result_ok
      else
        p ← alloc ngx_proxy_wasm_alloc len;
        if p =? 0 then mret ngx_proxy_wasm_result_err
        else
          write_at rbuf (enc32 p);;
          write_at rlen (enc32 len);;
          copy_out start cl p len max_len
  end)).

Definition set_request_during : bytes :=
  ngx_string "can only set request body during " ++ quoted "on_request_body".
Definition set_response_during : bytes :=
  ngx_string "can only set response body during " ++ quoted "on_response_body".

(** The end of [ngx_proxy_wasm_hfuncs_set_buffer]. *)
Definition set_result (rc : ngx_rc) : M host_ret :=
  slift (ngx_wa_assert debug (negb (bool_decide (rc = NGX_ABORT))));;
  mret (if is_ok rc then ngx_proxy_wasm_result_ok else ngx_proxy_wasm_result_err).

(** The request and the context of the request after [m]. *)
Definition on_bodies {A} (m : request -> ngx_http_wasm_req_ctx_t -> SM store (A * request * ngx_http_wasm_req_ctx_t))
    : M A :=
  e ← env id;
  '(a, r, x) ← on_store (m (bf_request e) (bf_rctx e));
  puts (fun h => set_env (set_bodies r x (h_env h)) h);;
  mret a.

(** The functions on the chunk of the response leave the request. *)
Definition same_request {A} (m : ngx_http_wasm_req_ctx_t -> SM store (A * ngx_http_wasm_req_ctx_t))
    (r : request) (x : ngx_http_wasm_req_ctx_t) : SM store (A * request * ngx_http_wasm_req_ctx_t) :=
  '(a, x) ← m x; mret (a, r, x).

Definition ngx_proxy_wasm_hfuncs_set_buffer (buf_type : ngx_proxy_wasm_buffer_type_e)
    (args1 args2 args3 args4 : Z) : M host_ret :=
  let offset := size_of_i32 args1 in
  let max := size_of_i32 args2 in
  let buf_len := size_of_i32 args4 in
  LIFT_SLICE args3 buf_len (fun buf_data =>
  let max := if (0 <? offset) && (max =? 0) && (0 <? buf_len) then buf_len else max in
  let prepend := (offset =? 0) && (max =? 0) && (0 <? buf_len) in
  step ← env bf_step;
  log_phase ← env bf_log_phase;
  match buf_type with
  | NGX_PROXY_WASM_BUFFER_HTTP_REQUEST_BODY =>
      match step with
      | ProxyWasm.STEP_REQ_HEADERS | ProxyWasm.STEP_REQ_BODY =>
          rc ← (if prepend then
                  s ← read_at buf_data buf_len;
                  on_bodies (fun r x => ngx_http_wasm_prepend_req_body buf_tag r x s)
                else
                  s ← read_at buf_data (Z.min buf_len max);
                  on_bodies (fun r x => ngx_http_wasm_set_req_body debug buf_tag r x s
                                          (Z.to_nat offset) (Z.to_nat max)));
          set_result rc
      | _ => result_trap set_request_during NGX_WAVM_BAD_USAGE
      end
  | NGX_PROXY_WASM_BUFFER_HTTP_RESPONSE_BODY =>
      match step with
      | ProxyWasm.STEP_RESP_BODY =>
          rc ← (if prepend then
                  s ← read_at buf_data buf_len;
                  on_bodies (same_request (fun x => ngx_http_wasm_prepend_resp_body debug buf_tag x s))
                else
                  s ← read_at buf_data (Z.min buf_len max);
                  on_bodies (same_request (fun x => ngx_http_wasm_set_resp_body debug log_phase x s
                                                      (Z.to_nat offset) (Z.to_nat max))));
          set_result rc
      | _ => result_trap set_response_during NGX_WAVM_BAD_USAGE
      end
  | _ => mret ngx_proxy_wasm_result_badarg
  end).

(** ** Copying a buffer to a guest *)

(** What the loop writes, for the buffers of a chain: after the limit was reached it starts
    again. *)
Fixpoint copied (max acc : Z) (l : list ngx_buf_t) : bytes :=
  match l with
  | [] => []
  | b :: l =>
      let acc := acc + zlen (buf_bytes b) in
      if max <? acc
      then take (Z.to_nat (zlen (buf_bytes b) - (acc - max))) (buf_bytes b)
           ++ (if is_eof b then [] else copied max 0 l)
      else buf_bytes b ++ (if is_eof b then [] else copied max acc l)
  end.

(** It is the part asked for when the limit is not reached before the last buffer. *)
Lemma copied_take max l : forall acc,
  0 <= acc <= max ->
  (forall k b, l = k ++ [b] -> Forall (fun b => is_eof b = false) k /\
                               acc + zlen (concat (buf_bytes <$> k)) <= max) ->
  copied max acc l = take (Z.to_nat (max - acc)) (concat (buf_bytes <$> l)).
Proof.
  induction l as [|b l IH]; intros acc Hacc Hl; [by cbn; rewrite take_nil|]. cbn [copied].
  rewrite fmap_cons. cbn [concat]. pose proof (zlen_nonneg (buf_bytes b)).
  destruct (decide (l = [])) as [->|Hne].
  - cbn [fmap list_fmap concat]. destruct (is_eof b); rewrite !app_nil_r.
    all: case_test; [f_equal; zlia|by rewrite take_ge by zlia].
  - apply exists_last in Hne as (k & b' & ->).
    destruct (Hl (b :: k) b' eq_refl) as [Hk Hm]. apply Forall_cons in Hk as [Hb Hk].
    rewrite fmap_cons in Hm. cbn [concat] in Hm. rewrite zlen_app in Hm.
    pose proof (zlen_nonneg (concat (buf_bytes <$> k))).
    rewrite (proj2 (Z.ltb_ge _ _)) by lia. rewrite Hb, IH; [|lia|].
    + rewrite take_app_ge by zlia. do 2 f_equal. zlia.
    + intros k2 b2 [<- <-]%app_inj_tail. split; [done|lia].
Qed.

Lemma env_Ret {A} (f : buffers -> A) h : env f h = Ret (f (h_env h), h).
Proof. done. Qed.

Lemma on_store_Ret {A} (m : SM store A) a h :
  m (bf_store (h_env h)) = Ret (a, bf_store (h_env h)) -> on_store m h = Ret (a, h).
Proof. unfold on_store, on_env. intros ->. by destruct h as [? ? []]. Qed.

Lemma read_buf b n :
  buf_ok b -> 0 <= n <= zlen (buf_bytes b) ->
  mem_read (b_mem b) (Z.of_nat (b_pos b)) n = Ret (take (Z.to_nat n) (buf_bytes b)).
Proof.
  intros Hok Hn. pose proof (buf_bytes_length b Hok) as Hl. destruct Hok as [Hp _].
  rewrite mem_read_in by zlia. unfold buf_bytes. rewrite take_take, Nat2Z.id. do 2 f_equal. zlia.
Qed.

(** The rest of the loop after the copy of one buffer. *)
Definition next_link (b : ngx_buf_t) (k : M host_ret) : M host_ret :=
  if is_eof b then mret ngx_proxy_wasm_result_ok else k.

Lemma copy_link l s (b : ngx_buf_t) data (p : Z) (h : host buffers) (k : Z -> M host_ret) :
  buf_ok b -> data = take (Z.to_nat l) (buf_bytes b) -> 0 <= l <= zlen (buf_bytes b) ->
  0 < p -> is_u32 p -> p + l <= zlen (mem_data (h_memory h)) -> p + l < 2 ^ 32 -> s = l ->
  exists d, mem_write (mem_data (h_memory h)) p data = Ret d /\
    ((p ← (if negb (s =? 0) then
             data ← slift (mem_read (b_mem b) (Z.of_nat (b_pos b)) s);
             on_memory (fun m => ngx_wavm_memory_cpymem m p data)
           else mret p);
      if negb (s =? 0) && (p =? 0) then mret ngx_proxy_wasm_result_invalid_mem else k p) h)
    = k (p + l) (set_memory (set_data (h_memory h) d) h).
Proof.
  intros Hok -> Hl Hp Hu Hin H32 ->. destruct (Z.eqb_spec l 0) as [->|Hl0]; cbn [negb andb].
  - change (take (Z.to_nat 0) (buf_bytes b)) with (@nil byte). rewrite mem_write_nil by lia.
    eexists. split; [reflexivity|]. rewrite Z.add_0_r. by destruct h as [[] ? ?].
  - set (data := take (Z.to_nat l) (buf_bytes b)).
    assert (Hd : zlen data = l) by (unfold data, zlen in *; rewrite length_take; lia).
    destruct (memcpy_in (h_memory h) p data) as (d & Hw & Hc); [done|done|lia|lia|].
    exists d. split; [done|].
    erewrite SM_bind_Ret.
    2: { erewrite SM_bind_Ret by (unfold slift; rewrite read_buf by done; reflexivity).
         unfold on_memory, ngx_wavm_memory_cpymem. fold data. rewrite Hc. cbn [obind]. reflexivity. }
    cbn beta iota. rewrite wrap32_id by zlia. rewrite Hd.
    rewrite (proj2 (Z.eqb_neq _ _)) by lia. done.
Qed.

Lemma copy_links_spec ls : forall fuel cl p acc max (h : host buffers),
  let bs := bufs (s_links (bf_store (h_env h))) ls in
  seg (s_links (bf_store (h_env h))) cl ls None -> (length ls <= fuel)%nat -> Forall buf_ok bs ->
  0 <= acc <= max -> max < 2 ^ 64 -> acc + zlen (concat (buf_bytes <$> bs)) < 2 ^ 64 ->
  0 < p -> p + zlen (copied max acc bs) <= zlen (mem_data (h_memory h)) ->
  p + zlen (copied max acc bs) < 2 ^ 32 ->
  exists d, mem_write (mem_data (h_memory h)) p (copied max acc bs) = Ret d /\
    copy_links fuel cl p acc max h = Ret (ngx_proxy_wasm_result_ok, set_memory (set_data (h_memory h) d) h).
Proof.
  induction ls as [|a ls IH]; intros fuel cl p acc max h bs Hs Hf Hok Hacc Hm Hm2 Hp Hin H32.
  - cbn in Hs. subst cl bs. cbn in *. rewrite mem_write_nil by zlia. eexists. split; [reflexivity|].
    destruct fuel; cbn; by destruct h as [[] ? ?].
  - cbn [seg] in Hs. destruct Hs as (-> & l & Hl & Hs). destruct fuel as [|fuel]; cbn in Hf; [lia|].
    revert bs Hok Hm2 Hin H32. cbn zeta. rewrite (bufs_cons _ _ _ _ Hl).
    set (b := cl_buf l). set (bs := bufs _ ls). intros [Hokb Hok]%Forall_cons Hm2 Hin H32.
    rewrite fmap_cons in Hm2. cbn [concat] in Hm2. rewrite zlen_app in Hm2.
    pose proof (zlen_nonneg (concat (buf_bytes <$> bs))).
    cbn [copy_links]. erewrite SM_bind_Ret by (apply on_store_Ret; apply read_link_Ret; exact Hl).
    cbn zeta. fold b. pose proof (buf_bytes_length b Hokb) as Hlen. pose proof Hokb as [Hpos _].
    pose proof (zlen_nonneg (buf_bytes b)).
    replace (Z.of_nat (b_last b) - Z.of_nat (b_pos b)) with (zlen (buf_bytes b)) by zlia.
    rewrite (wrap64_id (acc + _)) by zlia. cbn [copied] in *.
    set (over := max <? acc + zlen (buf_bytes b)) in *.
    set (n := if over then zlen (buf_bytes b) - (acc + zlen (buf_bytes b) - max) else zlen (buf_bytes b)).
    assert (Hn : 0 <= n <= zlen (buf_bytes b)).
    { unfold n, over. destruct (Z.ltb_spec max (acc + zlen (buf_bytes b))); lia. }
    set (acc' := if over then 0 else acc + zlen (buf_bytes b)).
    set (rest := if is_eof b then [] else copied max acc' bs).
    replace (if over then take (Z.to_nat (zlen (buf_bytes b) - (acc + zlen (buf_bytes b) - max))) (buf_bytes b) ++ _
             else _) with (take (Z.to_nat n) (buf_bytes b) ++ rest) in *.
    2: { unfold n, rest, acc'. destruct over; [by destruct (is_eof b)|].
         rewrite (take_ge (buf_bytes b)) by zlia. by destruct (is_eof b). }
    assert (Htn : zlen (take (Z.to_nat n) (buf_bytes b)) = n)
      by (unfold zlen in *; rewrite length_take; lia).
    rewrite zlen_app, Htn in *. pose proof (zlen_nonneg rest).
    replace (if over then _ else _) with (n, acc').
    2: { unfold n, acc', over. case_test; [|done]. f_equal. rewrite wrap64_id; zlia. }
    destruct (copy_link n n b _ p h (fun p => if is_eof b then mret ngx_proxy_wasm_result_ok
                                              else copy_links fuel (cl_next l) p acc' max) Hokb eq_refl Hn Hp)
      as (d & Hw & Hk); [zlia|lia|lia|done|]. rewrite Hk. clear Hk.
    unfold rest in *. destruct (is_eof b).
    + exists d. split; [|done]. by rewrite app_nil_r.
    + pose proof (mem_write_length _ _ _ _ Hw) as Hdl.
      destruct (IH fuel (cl_next l) (p + n) acc' max (set_memory (set_data (h_memory h) d) h)) as (d2 & Hw2 & E2);
        try done; try lia.
      { unfold acc', over. case_test; lia. }
      { cbn. fold bs. unfold acc', over. case_test; lia. }
      { assert (Hz : zlen d = zlen (mem_data (h_memory h))) by (unfold zlen; by rewrite Hdl).
        cbn. fold bs. lia. }
      { cbn. fold bs. lia. }
      exists d2. split; [|by rewrite E2].
      eapply mem_write_app; [exact Hw|]. by rewrite Htn.
Qed.

(** A chain whose bytes can be copied: only its last buffer ends it. *)
Record readable (m : gmap addr ngx_chain_t) (cl : addr) (ls : list addr) : Prop := {
  rd_seg : seg m (Some cl) ls None;
  rd_nodup : NoDup ls;
  rd_ok : Forall buf_ok (bufs m ls);
  rd_alloc : Forall (fun b => buf_bytes b <> [] -> b_alloc b = true) (bufs m ls);
  rd_eof : forall k a, ls = k ++ [a] -> Forall (fun b => is_eof b = false) (bufs m k);
  rd_size : zlen (content m ls) < 2 ^ 32;
}.

(** The limit is not reached before the last buffer of the chain. *)
Definition within (m : gmap addr ngx_chain_t) (ls : list addr) (max : Z) : Prop :=
  forall k a, ls = k ++ [a] -> zlen (content m k) <= max.

Lemma copied_within m cl ls max :
  readable m cl ls -> within m ls max -> 0 <= max ->
  copied max 0 (bufs m ls) = take (Z.to_nat max) (content m ls).
Proof.
  intros Hr Hw Hm. rewrite copied_take; [by rewrite Z.sub_0_r|lia|].
  intros k b Hk. destruct (exists_last (l := ls)) as (k' & a & ->).
  { intros ->. by destruct k. }
  destruct (seg_dom m (Some cl) (k' ++ [a]) None a) as [l Hl]; [apply Hr|set_solver|].
  rewrite bufs_app, (bufs_cons _ _ _ _ Hl) in Hk. apply app_inj_tail in Hk as [<- _].
  split; [by eapply rd_eof|]. rewrite Z.add_0_l. by apply (Hw k' a).
Qed.

Lemma copy_out_chain (h : host buffers) cl ls p n max :
  let m := s_links (bf_store (h_env h)) in
  readable m cl ls -> within m ls max -> n = Z.min (zlen (content m ls)) max -> 0 < n -> max < 2 ^ 64 ->
  0 < p -> p + n <= zlen (mem_data (h_memory h)) -> p + n < 2 ^ 32 ->
  exists d, mem_write (mem_data (h_memory h)) p (take (Z.to_nat n) (content m ls)) = Ret d /\
    copy_out None (Some cl) p n max h = Ret (ngx_proxy_wasm_result_ok, set_memory (set_data (h_memory h) d) h).
Proof.
  intros m Hr Hw Hn H0 Hm Hp Hin H32. pose proof (zlen_nonneg (content m ls)).
  assert (Htake : take (Z.to_nat n) (content m ls) = take (Z.to_nat max) (content m ls)).
  { destruct (decide (max <= zlen (content m ls))); [f_equal; lia|rewrite !take_ge by zlia; done]. }
  assert (Hzn : zlen (take (Z.to_nat n) (content m ls)) = n)
    by (unfold zlen in *; rewrite length_take; lia).
  unfold copy_out. pose proof (rd_seg _ _ _ Hr) as Hseg. destruct ls as [|a ls]; [done|].
  destruct Hseg as ([= <-] & l & Hl & Hs).
  assert (Hrd : on_store (read_link cl) h = Ret (l, h)) by (by apply on_store_Ret, read_link_Ret).
  pose proof (rd_ok _ _ _ Hr) as Hok. pose proof (rd_alloc _ _ _ Hr) as Hal.
  destruct ls as [|a ls].
  - cbn [seg] in Hs. rewrite (bufs_cons _ _ _ _ Hl) in Hok, Hal. apply Forall_cons in Hok as [Hok _].
    apply Forall_cons in Hal as [Hal _].
    assert (Hc : content m [cl] = buf_bytes (cl_buf l)) by (rewrite (content_cons _ _ _ _ Hl); apply app_nil_r).
    rewrite Hc in *.
    assert (Ha : b_alloc (cl_buf l) = true) by (apply Hal; intros E; rewrite E, zlen_nil in Hn; lia).
    erewrite SM_bind_Ret.
    2: { erewrite SM_bind_Ret by (unfold slift; rewrite ngx_wa_assert_true; reflexivity).
         erewrite SM_bind_Ret by exact Hrd. cbn zeta. rewrite Hs, Ha. reflexivity. }
    cbn beta iota zeta. set (b := cl_buf l) in *.
    assert (Hread : mem_read (drop (b_pos b) (b_mem b)) 0 n = Ret (take (Z.to_nat n) (buf_bytes b))).
    { destruct Hok as [Hpos _]. unfold buf_bytes in *. rewrite mem_read_in.
      - rewrite drop_0. rewrite take_take. f_equal. f_equal. unfold zlen in *. rewrite length_take, length_drop in *. lia.
      - lia.
      - lia.
      - unfold zlen in *. rewrite length_take, length_drop in *. lia. }
    erewrite SM_bind_Ret by (unfold slift; rewrite Hread; reflexivity). cbn beta iota.
    destruct (memcpy_in (h_memory h) p (take (Z.to_nat n) (buf_bytes b))) as (d & Hd & Hc'); [done|zlia|lia|lia|].
    exists d. split; [done|]. erewrite SM_bind_Ret by (unfold on_memory; rewrite Hc'; reflexivity). done.
  - cbn [seg] in Hs. destruct Hs as (Hnext & Hs).
    erewrite SM_bind_Ret.
    2: { erewrite SM_bind_Ret by (unfold slift; rewrite ngx_wa_assert_true; reflexivity).
         erewrite SM_bind_Ret by exact Hrd. cbn beta zeta. rewrite Hnext. reflexivity. }
    cbn beta iota. erewrite SM_bind_Ret by exact Hrd. cbn beta zeta. rewrite Hnext.
    erewrite SM_bind_Ret by (unfold slift; rewrite ngx_wa_assert_true; reflexivity).
    erewrite SM_bind_Ret by apply env_Ret.
    pose proof (copied_within _ _ _ _ Hr Hw ltac:(lia)) as Hcp. rewrite Htake, <- Hcp in Hzn.
    destruct (copy_links_spec (cl :: a :: ls) (links_fuel (bf_store (h_env h))) (Some cl) p 0 max h) as (d & Hd & E);
      fold m; try done; try lia.
    + apply Hr.
    + pose proof (seg_fuel _ _ _ _ (rd_seg _ _ _ Hr) (rd_nodup _ _ _ Hr)). unfold links_fuel. fold m. lia.
    + pose proof (rd_size _ _ _ Hr). unfold content in *. lia.
    + exists d. split; [|done]. by rewrite Htake, <- Hcp.
Qed.

Lemma buffer_of_chain buf_type h cl ls :
  ngx_proxy_wasm_get_buffer_helper buf_type h = Ret ((Some cl, false, None), h) ->
  readable (s_links (bf_store (h_env h))) cl ls ->
  buffer_of buf_type h =
    Ret (inr (None, Some cl, zlen (content (s_links (bf_store (h_env h))) ls)), h).
Proof.
  intros Hh [Hs Hnd Hok _ Hlast _].
  assert (Hl : on_store (ngx_wasm_chain_len (Some cl) None) h =
    Ret ((length (content (s_links (bf_store (h_env h))) ls), None), h)).
  { apply on_store_Ret. erewrite chain_len_content by done. by destruct (existsb _ _). }
  destruct buf_type; try discriminate Hh; unfold buffer_of.
  all: erewrite SM_bind_Ret by exact Hh; cbn beta iota; erewrite SM_bind_Ret by exact Hl; done.
Qed.

(** C19. A guest that asks for a body (of the request, of a response, of a dispatched call, the
    arguments of a foreign call) has as much of its beginning as it allows copied to the
    memory it allocated, with the pointer and the length written where it said; nothing else
    of its memory changes, and nothing of the host.  An empty part writes nothing.  The
    offset asked for plays no part, and the limit may only fall into the last buffer. *)
Theorem get_buffer_copies buf_type offset max rbuf rlen h cl ls g1 g2 p m' :
  let m := s_links (bf_store (h_env h)) in
  let n := Z.min (zlen (content m ls)) (size_of_i32 max) in
  ngx_proxy_wasm_get_buffer_helper buf_type h = Ret ((Some cl, false, None), h) ->
  readable m cl ls -> within m ls (size_of_i32 max) -> size_of_i32 offset + n < 2 ^ 64 ->
  out_arg (h_memory h) rbuf g1 -> out_arg (h_memory h) rlen g2 ->
  ngx_proxy_wasm_alloc (h_memory h) n = (p, m') -> grown (h_memory h) m' ->
  0 < p -> p + n <= zlen (mem_data m') -> p + n < 2 ^ 32 ->
  exists m2,
    ngx_proxy_wasm_hfuncs_get_buffer buf_type offset max rbuf rlen h =
      Ret (ngx_proxy_wasm_result_ok, set_memory m2 h) /\
    if n =? 0 then m2 = h_memory h
    else
      exists d1 d2,
        mem_write (mem_data m') (wrap32 rbuf) (enc32 p) = Ret d1 /\
        mem_write d1 (wrap32 rlen) (enc32 n) = Ret d2 /\
        mem_write d2 p (take (Z.to_nat n) (content m ls)) = Ret (mem_data m2) /\
        mem_base m2 = mem_base (h_memory h).
Proof.
  intros m n Hh Hr Hw Hoff Hg1 Hg2 Ha Hgr Hp Hin H32.
  assert (Hmax : is_u64 (size_of_i32 max)) by apply wrap64_range.
  assert (Hofs : is_u64 (size_of_i32 offset)) by apply wrap64_range.
  pose proof (zlen_nonneg (content m ls)).
  unfold ngx_proxy_wasm_hfuncs_get_buffer. rewrite (LIFT_arg _ rbuf g1), (LIFT_arg _ rlen g2) by done.
  erewrite SM_bind_Ret by (apply (buffer_of_chain buf_type h cl ls); done). cbn beta iota zeta.
  fold m n. assert (Hn : 0 <= n) by (unfold n; zlia).
  rewrite (wrap64_id (_ + n)) by zlia. rewrite (proj2 (Z.ltb_ge _ _)) by lia.
  destruct (Z.eqb_spec n 0) as [Hn0|Hn0].
  { exists (h_memory h). by destruct h. }
  erewrite SM_bind_Ret by (unfold alloc, on_memory; cbn [obind]; rewrite Ha; reflexivity).
  rewrite (proj2 (Z.eqb_neq _ _)) by lia. set (h1 := set_memory m' h).
  destruct (write_arg rbuf g1 p (h_memory h) h1) as (d1 & Hd1 & E1); [done|done|].
  erewrite SM_bind_Ret by exact E1. set (h2 := set_memory _ h1).
  destruct (write_arg rlen g2 n (h_memory h) h2) as (d2 & Hd2 & E2); [done|by eapply grown_write|].
  erewrite SM_bind_Ret by exact E2. set (h3 := set_memory _ h2).
  pose proof (mem_write_length _ _ _ _ Hd1) as Hl1. pose proof (mem_write_length _ _ _ _ Hd2) as Hl2.
  cbn in Hl1, Hl2.
  destruct (copy_out_chain h3 cl ls p n (size_of_i32 max)) as (d3 & Hd3 & E3); try done; try zlia.
  { cbn. unfold zlen in *. lia. }
  eexists. split; [rewrite E3; by destruct h|]. exists d1, d2. split_and!; [done|done|done|].
  by destruct Hgr.
Qed.

(** ** Setting the body of a request *)

(** The body of the request in [e]: its chain and the free buffers. *)
Record request_body (e : buffers) (bufs : option addr) (ls fs : list addr) : Prop := {
  rb_body : rq_request_body (bf_request e) = Some bufs;
  rb_seg : seg (s_links (bf_store e)) bufs ls None;
  rb_nodup : NoDup ls;
  rb_ok : Forall buf_ok (Chains.bufs (s_links (bf_store e)) ls);
  rb_nonempty : Forall nonempty (Chains.bufs (s_links (bf_store e)) ls);
  rb_eof : forall k a, ls = k ++ [a] -> Forall (fun b => is_eof b = false) (Chains.bufs (s_links (bf_store e)) k);
  rb_free : seg (s_links (bf_store e)) (rx_free_bufs (bf_rctx e)) fs None;
  rb_free_nodup : NoDup fs;
  rb_disjoint : ls ## fs;
}.

(** What the new body is, for the arguments of the guest. *)
Definition new_body (old body : bytes) (offset max len : Z) : bytes :=
  if (offset =? 0) && (max =? 0) && (0 <? len) then body ++ old
  else take (Z.to_nat offset) old
       ++ take (Z.to_nat (if (0 <? offset) && (max =? 0) && (0 <? len) then len else max)) body.

Definition stored (e : buffers) (new : bytes) : Prop :=
  exists bufs ls, rq_request_body (bf_request e) = Some bufs /\ seg (s_links (bf_store e)) bufs ls None /\
    content (s_links (bf_store e)) ls = new /\ rq_content_length_n (bf_request e) = zlen new.

Lemma on_bodies_Ret {A} (f : request -> ngx_http_wasm_req_ctx_t -> SM store (A * request * ngx_http_wasm_req_ctx_t))
    (h : host buffers) a r x s :
  f (bf_request (h_env h)) (bf_rctx (h_env h)) (bf_store (h_env h)) = Ret ((a, r, x), s) ->
  on_bodies f h = Ret (a, set_env (set_bodies r x (set_store s (h_env h))) h).
Proof.
  intros E. unfold on_bodies. erewrite SM_bind_Ret by apply env_Ret. cbn beta.
  erewrite SM_bind_Ret by (unfold on_store, on_env, id; rewrite E; reflexivity). done.
Qed.

Lemma set_result_Ret rc (h : host buffers) :
  rc <> NGX_ABORT ->
  set_result rc h = Ret (if is_ok rc then ngx_proxy_wasm_result_ok else ngx_proxy_wasm_result_err, h).
Proof.
  intros Hrc. unfold set_result. rewrite bool_decide_false by done.
  by erewrite SM_bind_Ret by (unfold slift; rewrite ngx_wa_assert_true; reflexivity).
Qed.

Lemma on_request_body (h : host buffers) offset max len g body bufs ls fs :
  request_body (h_env h) bufs ls fs -> rx_entered_header_filter (bf_rctx (h_env h)) = false ->
  0 <= len -> 0 <= max -> load (h_memory h) g len = Ret body ->
  let old := content (s_links (bf_store (h_env h))) ls in
  let max' := if (0 <? offset) && (max =? 0) && (0 <? len) then len else max in
  exists rc e',
    (if (offset =? 0) && (max' =? 0) && (0 <? len) then
       s ← read_at g len; on_bodies (fun r x => ngx_http_wasm_prepend_req_body buf_tag r x s)
     else
       s ← read_at g (Z.min len max');
       on_bodies (fun r x => ngx_http_wasm_set_req_body debug buf_tag r x s
                               (Z.to_nat offset) (Z.to_nat max'))) h = Ret (rc, set_env e' h) /\
    (rc = NGX_OK /\ stored e' (new_body old body offset max len) \/
     rc = NGX_ERROR /\ ~ exists p, s_pool (bf_store (h_env h)) = true :: true :: p).
Proof.
  intros [Hb Hs Hnd Hok Hne Heof Hf Hfs Hd] Hh Hlen Hmax Hl old max'.
  pose proof (zlen_nonneg body). unfold new_body.
  assert ((offset =? 0) && (max' =? 0) && (0 <? len) = (offset =? 0) && (max =? 0) && (0 <? len)) as ->.
  { unfold max'. by destruct (Z.eqb_spec offset 0) as [->|]. }
  destruct ((offset =? 0) && (max =? 0) && (0 <? len)) eqn:Ep.
  - destruct (load_take _ _ _ len _ Hl) as [Hl' Hz]; [lia|].
    erewrite SM_bind_Ret by (unfold read_at; rewrite Hl; reflexivity).
    destruct (prepend_req_body_content buf_tag (bf_request (h_env h)) (bf_rctx (h_env h)) bufs ls fs body
      (bf_store (h_env h))) as (rc & r' & x' & s' & E & Hpost); try done.
    eexists rc, _. split; [by apply on_bodies_Ret|].
    destruct Hpost as [(-> & bufs' & ls' & Hb' & Hs' & Hc & Hn)|Hpost]; [left|by right].
    split; [done|]. exists bufs', ls'. split_and!; [done|done|done|]. cbn. by rewrite Hn, Hc.
  - destruct (load_take _ _ _ (Z.min len max') _ Hl) as [Hl' Hz].
    { unfold max'. destruct (_ && _ && _); lia. }
    erewrite SM_bind_Ret by (unfold read_at; rewrite Hl'; reflexivity).
    destruct (set_req_body_content debug buf_tag (bf_request (h_env h)) (bf_rctx (h_env h)) bufs ls fs
      (take (Z.to_nat (Z.min len max')) body) (Z.to_nat offset) (Z.to_nat max') (bf_store (h_env h)))
      as [_ Hset]; try done; [by right|].
    destruct (Hset Hh) as (rc & r' & x' & s' & E & Hpost).
    eexists rc, _. split; [by apply on_bodies_Ret|].
    destruct Hpost as [(-> & bufs' & ls' & Hb' & Hs' & (Hc & _) & Hn)|Hpost]; [left|by right].
    split; [done|]. exists bufs', ls'. fold max'.
    assert (Ht : take (Z.to_nat max') (take (Z.to_nat (Z.min len max')) body) = take (Z.to_nat max') body).
    { rewrite take_take. destruct (decide (len <= max')); [|f_equal; lia].
      rewrite !take_ge by zlia. done. }
    rewrite Ht in Hc. split_and!; [done|done|done|]. cbn. by rewrite Hn, Hc.
Qed.

(** C20. A guest that sets the body of a request in one of the steps that allow it: with an
    offset and a length of 0 its bytes precede the body, else they replace what follows the
    offset, at most as many as it allows (all of them when the length is 0); the content
    length is that of the new body.  It fails only without memory; its memory is left as it
    is. *)
Theorem set_buffer_request_body (h : host buffers) offset max data len g body bufs ls fs :
  let old := content (s_links (bf_store (h_env h))) ls in
  bf_step (h_env h) = ProxyWasm.STEP_REQ_HEADERS \/ bf_step (h_env h) = ProxyWasm.STEP_REQ_BODY ->
  request_body (h_env h) bufs ls fs -> rx_entered_header_filter (bf_rctx (h_env h)) = false ->
  slice_arg (h_memory h) data len g body ->
  exists ret h',
    ngx_proxy_wasm_hfuncs_set_buffer NGX_PROXY_WASM_BUFFER_HTTP_REQUEST_BODY offset max data len h =
      Ret (ret, h') /\ h_memory h' = h_memory h /\ h_trap h' = h_trap h /\
    (ret = ngx_proxy_wasm_result_ok /\
       stored (h_env h') (new_body old body (size_of_i32 offset) (size_of_i32 max) len) \/
     ret = ngx_proxy_wasm_result_err /\ ~ exists p, s_pool (bf_store (h_env h)) = true :: true :: p).
Proof.
  intros old Hstep Hb Hh Ha. unfold ngx_proxy_wasm_hfuncs_set_buffer.
  rewrite (LIFT_SLICE_arg _ _ _ g body) by done.
  pose proof (sa_size _ _ _ _ _ Ha) as Hsl. rewrite Hsl. destruct Ha as [Hlen Hlift Hload].
  cbn zeta. do 2 (erewrite SM_bind_Ret by apply env_Ret).
  destruct (on_request_body h (size_of_i32 offset) (size_of_i32 max) len g body bufs ls fs) as
    (rc & e' & E & Hpost); try done; [lia|apply wrap64_range|].
  exists (if is_ok rc then ngx_proxy_wasm_result_ok else ngx_proxy_wasm_result_err), (set_env e' h).
  split_and!; [|done|done|].
  - destruct Hstep as [-> | ->]; erewrite SM_bind_Ret by exact E; apply set_result_Ret.
    all: by destruct Hpost as [[-> _]|[-> _]].
  - destruct Hpost as [[-> H]|[-> H]]; [left|right]; by split.
Qed.

End buffers.

End HostBuffers.

(** ** Executions *)

Module HostBuffersRuns.
Import Host HostRuns Chains ChainRuns BodyFilter Bodies BodyExample HostBuffers.

Definition env_of (step : ProxyWasm.ngx_proxy_wasm_step_e) (l : list bytes) : buffers :=
  {| bf_step := step; bf_config := ngx_string "conf"; bf_vm_config := [];
     bf_request := {| rq_request_body := Some (match l with [] => None | _ => Some 1%positive end);
                      rq_content_length_n := zlen (concat l) |};
     bf_temp_file := false; bf_rctx := request_ctx; bf_log_phase := false; bf_call := None; bf_foreign := None;
     bf_store := {| s_links := link_from 1 ((fun d => data_buf d 7) <$> l); s_pool := [true; true] |} |}.

(** A guest with 64 bytes: the pointer goes to 16, the length to 20, the copy to 32; there is
    "XYZ!!" at 8. *)
Definition guest (step : ProxyWasm.ngx_proxy_wasm_step_e) (l : list bytes) : host buffers :=
  {| h_memory := {| mem_base := 4096;
                    mem_data := replicate 8 x00 ++ ngx_string "XYZ!!" ++ replicate 51 x00 |};
     h_trap := []; h_env := env_of step l |}.

Abbreviation get_buffer := (ngx_proxy_wasm_hfuncs_get_buffer true printf_noargs (alloc_at 32) (NGX_DECLINED, [])).
Abbreviation set_buffer := (ngx_proxy_wasm_hfuncs_set_buffer true 7 printf_noargs).

(** The answer, and what is at 16, 20 and 32. *)
Definition seen (r : outcome (host_ret * host buffers)) (n : Z) : option (host_ret * list (outcome bytes)) :=
  match r with
  | Ret (ret, h) => Some (ret, [peek (h_memory h) 16 4; peek (h_memory h) 20 4; peek (h_memory h) 32 n])
  | Fault _ => None
  end.

Abbreviation BODY := NGX_PROXY_WASM_BUFFER_HTTP_REQUEST_BODY.
Abbreviation at_body := (guest ProxyWasm.STEP_REQ_BODY).

Example get_two_links :
  seen (get_buffer BODY 0 5 16 20 (at_body [ngx_string "abc"; ngx_string "def"])) 6 =
  Some (ngx_proxy_wasm_result_ok, [Ret (enc32 32); Ret (enc32 5); Ret (ngx_string "abcde" ++ [x00])]).
Proof. by vm_compute. Qed.

(** The bytes from 2 are asked for: those from 0 are given. *)
Example offset_ignored :
  seen (get_buffer BODY 2 4 16 20 (at_body [ngx_string "abcdef"])) 4 =
  Some (ngx_proxy_wasm_result_ok, [Ret (enc32 32); Ret (enc32 4); Ret (ngx_string "abcd")]).
Proof. by vm_compute. Qed.

(** 6 bytes are asked for and allocated; the limit falls into the second buffer, and the third
    is copied behind the memory that was allocated. *)
Example copy_overruns :
  seen (get_buffer BODY 0 6 16 20 (at_body [ngx_string "abcd"; ngx_string "efgh"; ngx_string "ijkl"])) 10 =
  Some (ngx_proxy_wasm_result_ok, [Ret (enc32 32); Ret (enc32 6); Ret (ngx_string "abcdefijkl")]).
Proof. by vm_compute. Qed.

(** A misaligned pointer for the length. *)
Example misaligned_pointer :
  match get_buffer BODY 0 5 16 21 (at_body [ngx_string "abc"]) with
  | Ret (ret, h) => ret = (NGX_WAVM_BAD_USAGE, None) /\
                    h_trap h = ngx_string "invalid data pointer passed to host function"
  | Fault _ => False
  end.
Proof. by vm_compute. Qed.

Example get_body_too_late :
  match get_buffer BODY 0 5 16 20 (guest ProxyWasm.STEP_RESP_HEADERS [ngx_string "abc"]) with
  | Ret (ret, h) => ret.1 = NGX_WAVM_BAD_USAGE /\ h_memory h = h_memory (at_body [])
  | Fault _ => False
  end.
Proof. by vm_compute. Qed.

(** The body of the request after [set_buffer]. *)
Definition body_after (r : outcome (host_ret * host buffers)) : option (host_ret * Z * option bytes) :=
  match r with
  | Ret (ret, h) =>
      let e := h_env h in
      Some (ret, rq_content_length_n (bf_request e), walk 9 (s_links (bf_store e)) (default None (rq_request_body (bf_request e))))
  | Fault _ => None
  end.

Example set_from_an_offset :
  body_after (set_buffer BODY 4 3 8 5 (at_body [ngx_string "abc"; ngx_string "def"])) =
  Some (ngx_proxy_wasm_result_ok, 7, Some (ngx_string "abcdXYZ")).
Proof. by vm_compute. Qed.

Example set_before :
  body_after (set_buffer BODY 0 0 8 5 (at_body [ngx_string "abc"; ngx_string "def"])) =
  Some (ngx_proxy_wasm_result_ok, 11, Some (ngx_string "XYZ!!abcdef")).
Proof. by vm_compute. Qed.

(** A chunk of a response that an earlier filter emptied: putting bytes before it fails an
    assertion. *)
Example prepend_to_discarded_chunk :
  set_buffer NGX_PROXY_WASM_BUFFER_HTTP_RESPONSE_BODY 0 0 8 5 (guest ProxyWasm.STEP_RESP_BODY []) = Fault F_assert.
Proof. by vm_compute. Qed.

Definition two_bufs : list bytes := [ngx_string "abc"; ngx_string "def"].

Lemma get_buffer_copies_witness :
  exists m2, get_buffer BODY 0 5 16 20 (at_body two_bufs) =
    Ret (ngx_proxy_wasm_result_ok, set_memory m2 (at_body two_bufs)).
Proof.
  pose proof (get_buffer_copies true printf_noargs (alloc_at 32) (NGX_DECLINED, []) BODY 0 5 16 20 (at_body two_bufs)
    1%positive [1%positive; 2%positive] (Some {| g_base := 4096; g_off := 16 |})
    (Some {| g_base := 4096; g_off := 20 |}) 32 (h_memory (at_body two_bufs))) as H.
  cbv zeta in H. destruct H as (m2 & H & _).
  - reflexivity.
  - split.
    + split; [done|]. eexists. split; [reflexivity|]. split; [done|]. eexists. by split.
    + refine (bool_decide_unpack _ _). by vm_compute.
    + repeat constructor; simpl; lia.
    + repeat constructor.
    + intros [|a [|b k]] c Hk; [by constructor|injection Hk as <- <-; by repeat constructor|by destruct k].
    + reflexivity.
  - intros [|a [|b k]] c Hk; [by vm_compute|injection Hk as <- <-; by vm_compute|by destruct k].
  - by vm_compute.
  - reflexivity.
  - reflexivity.
  - reflexivity.
  - apply grown_refl.
  - lia.
  - by vm_compute.
  - by vm_compute.
  - by exists m2.
Defined.

Lemma set_buffer_request_body_witness :
  exists ret h', set_buffer BODY 4 3 8 5 (at_body two_bufs) = Ret (ret, h') /\
    h_memory h' = h_memory (at_body two_bufs).
Proof.
  pose proof (set_buffer_request_body true 7 printf_noargs (at_body two_bufs) 4 3 8 5
    (Some {| g_base := 4096; g_off := 8 |}) (ngx_string "XYZ!!") (Some 1%positive) [1%positive; 2%positive] []) as H.
  cbv zeta in H. destruct H as (ret & h' & H & Hm & _).
  - by right.
  - split.
    + reflexivity.
    + split; [done|]. eexists. split; [reflexivity|]. split; [done|]. eexists. by split.
    + refine (bool_decide_unpack _ _). by vm_compute.
    + repeat constructor; simpl; lia.
    + repeat constructor; by vm_compute.
    + intros [|a [|b k]] c Hk; [by constructor|injection Hk as <- <-; by repeat constructor|by destruct k].
    + done.
    + constructor.
    + intros x _ ?%not_elem_of_nil. done.
  - reflexivity.
  - split; [lia|reflexivity|reflexivity].
  - by exists ret, h'.
Defined.

End HostBuffersRuns.
