(* ===== verification/HostShm.v ===== *)
(** * Shared data and queues of the guests

    The host functions on the key/value stores and the queues in shared memory
    (src/src/common/proxy_wasm/ngx_proxy_wasm_host.c).  They run under the lock of the zone,
    except for the copy of a value to the guest. *)
From S2P Require Import Prelude NginxCore Host ShmQueue ShmKv ShmZones.
From stdpp Require Export list gmap.
#[global] Open Scope Z_scope.

Module HostShm.
Import Host ShmKv ShmZones.

Section shm.
Context {P : Type} `{Slab P} `{Rbtree}.
Context (debug : bool).
(** [ngx_crc32_long] *)
Context (ngx_crc32_long : bytes -> Z).
Context (geometry : slab_geometry).
Context (ngx_vsnprintf : nat -> bytes -> option bytes).
Context (ngx_proxy_wasm_alloc : memory -> Z -> Z * memory).

(** The environment is the array of the zones. *)
Abbreviation zones := (option (list (ngx_wa_shm_mapping_t P))).
Abbreviation M := (SM (host zones)).
Abbreviation result_trap := (ngx_proxy_wasm_result_trap ngx_vsnprintf).
Abbreviation LIFT := (NGX_WAVM_HOST_LIFT ngx_vsnprintf).
Abbreviation LIFT_SLICE := (NGX_WAVM_HOST_LIFT_SLICE ngx_vsnprintf).

Definition read_zones : M zones := gets h_env.

(** A computation on the data of the zone [i]. *)
Definition on_zone {A} (i : nat) (f : ngx_wa_shm_t P -> outcome (A * shm_data P)) : M A := fun h =>
  let? s := deref (h_env h) in
  let? m := deref (s !! i) in
  let? (a, d) := f (map_zone m) in
  Ret (a, set_env (Some (<[i := with_data d m]> s)) h).

(** [ngx_wa_shm_get_kv] and the data of a queue. *)
Definition kv_of (shm : ngx_wa_shm_t P) : outcome (ngx_wa_shm_kv_t P) :=
  match shm_data_ shm with DATA_KV kv => Ret kv | _ => Fault F_memory end.
Definition queue_of (shm : ngx_wa_shm_t P) : outcome ShmQueue.ngx_wa_shm_queue_t :=
  match shm_data_ shm with DATA_QUEUE q => Ret q | _ => Fault F_memory end.

(** ** Key/value stores *)

Definition get_from_queue : bytes := ngx_string "attempt to get key/value from a queue".
Definition set_in_queue : bytes := ngx_string "attempt to set key/value in a queue".
Definition get_unresolved : bytes := ngx_string "failed getting value from shm (could not resolve namespace)".
Definition set_unresolved : bytes := ngx_string "failed setting value to shm (could not resolve namespace)".
Definition get_no_memory : bytes := ngx_string "failed getting value from shm (no memory)".
Definition set_no_slab : bytes := ngx_string "failed setting value to shm (could not write to slab)".

(** The zone of a key, or the trap. *)
Definition resolve (key abort declined : bytes) : M (host_ret + nat) :=
  s ← read_zones;
  '(rc, out) ← slift (ngx_wa_shm_kv_resolve_key s key);
  match rc with
  | NGX_ABORT => r ← result_trap abort NGX_WAVM_BAD_USAGE; mret (inl r)
  | NGX_DECLINED => r ← result_trap declined NGX_WAVM_BAD_USAGE; mret (inl r)
  | _ =>
      slift (ngx_wa_assert debug (is_ok rc));;
      '(i, _, _) ← slift (deref out);
      mret (inr i)
  end.

(** [ngx_wa_shm_kv_get_locked] and [ngx_wa_shm_kv_set_locked] on the zone [i]: the whole key is
    looked up, with its prefix. *)
Definition kv_get (i : nat) (key : bytes) : M (ngx_rc * option (bytes * Z)) :=
  on_zone i (fun shm =>
    let? kv := kv_of shm in
    let? (rc, kv, out) := ngx_wa_shm_kv_get_locked ngx_crc32_long (shm_eviction shm) geometry kv key None in
    Ret ((rc, out), DATA_KV kv)).

Definition kv_set (i : nat) (key : bytes) (value : option bytes) (cas : Z) : M (ngx_rc * option bool) :=
  on_zone i (fun shm =>
    let? kv := kv_of shm in
    let? (rc, kv, written) := ngx_wa_shm_kv_set_locked ngx_crc32_long (shm_eviction shm) geometry kv key value cas in
    Ret ((rc, written), DATA_KV kv)).

Definition ngx_proxy_wasm_hfuncs_get_shared_data (args0 args1 args2 args3 args4 : Z) : M host_ret :=
  let key_len := size_of_i32 args1 in
  LIFT_SLICE args0 key_len (fun key_data =>
  LIFT args2 4 4 (fun value_data =>
  LIFT args3 4 4 (fun value_size =>
  LIFT args4 4 4 (fun cas =>
  key ← read_at key_data key_len;
  r ← resolve key get_from_queue get_unresolved;
  match r with
  | inl r => mret r
  | inr i =>
      '(rc, out) ← kv_get i key;
      match rc, out with
      | NGX_DECLINED, _ => mret ngx_proxy_wasm_result_notfound
      | _, out =>
          slift (ngx_wa_assert debug (is_ok rc));;
          '(value, c) ← slift (deref out);
          write_at cas (enc32 c);;
          wbuf_ptr ← alloc ngx_proxy_wasm_alloc (zlen value);
          if wbuf_ptr =? 0 then result_trap get_no_memory NGX_WAVM_ERROR
          else
            LIFT_SLICE wbuf_ptr (zlen value) (fun wbuf =>
            write_at wbuf value;;
            write_at value_data (enc32 wbuf_ptr);;
            write_at value_size (enc32 (zlen value));;
            mret ngx_proxy_wasm_result_ok)
      end
  end)))).

(** A value at the null pointer deletes the entry. *)
Definition ngx_proxy_wasm_hfuncs_set_shared_data (args0 args1 args2 args3 args4 : Z) : M host_ret :=
  let key_len := size_of_i32 args1 in
  let value_len := size_of_i32 args3 in
  let cas := wrap32 args4 in
  LIFT_SLICE args0 key_len (fun key_data =>
  LIFT_SLICE args2 value_len (fun value_data =>
  key ← read_at key_data key_len;
  r ← resolve key set_in_queue set_unresolved;
  match r with
  | inl r => mret r
  | inr i =>
      value ← (match value_data with
               | None => mret None
               | Some _ => v ← read_at value_data value_len; mret (Some v)
               end);
      '(rc, written) ← kv_set i key value cas;
      match rc with
      | NGX_ERROR => result_trap set_no_slab NGX_WAVM_ERROR
      | _ =>
          slift (ngx_wa_assert debug (is_ok rc));;
          written ← slift (deref written);
          if negb written then mret ngx_proxy_wasm_result_cas_mismatch
          else mret ngx_proxy_wasm_result_ok
      end
  end)).

(** ** Queues *)

Definition no_queue : bytes := ngx_string "could not find queue".
Definition not_a_queue : bytes := ngx_string "attempt to use a key/value shm store as a queue".
Definition queue_full : bytes := ngx_string "could not enqueue (queue is full)".

Definition ngx_proxy_wasm_hfuncs_register_shared_queue (args0 args1 args2 : Z) : M host_ret :=
  let len := size_of_i32 args1 in
  LIFT_SLICE args0 len (fun name_data =>
  LIFT args2 4 4 (fun token =>
  queue_name ← read_at name_data len;
  s ← read_zones;
  s ← slift (deref s);
  match ngx_wa_shm_lookup_index s queue_name with
  | None => result_trap no_queue NGX_WAVM_BAD_USAGE
  | Some zone_idx =>
      m ← slift (deref (s !! zone_idx));
      if negb (bool_decide (shm_type (map_zone m) = NGX_WA_SHM_TYPE_QUEUE))
      then result_trap not_a_queue NGX_WAVM_BAD_USAGE
      else write_at token (enc32 (Z.of_nat zone_idx));; mret ngx_proxy_wasm_result_ok
  end)).

(** The zone of a token, or the trap. *)
Definition resolve_queue (token : Z) : M (host_ret + nat) :=
  s ← read_zones;
  '(rc, out) ← slift (ngx_wa_shm_queue_resolve s (wrap32 token));
  match rc with
  | NGX_DECLINED => r ← result_trap no_queue NGX_WAVM_BAD_USAGE; mret (inl r)
  | NGX_ABORT => r ← result_trap not_a_queue NGX_WAVM_BAD_USAGE; mret (inl r)
  | _ =>
      slift (ngx_wa_assert debug (is_ok rc));;
      i ← slift (deref out);
      mret (inr i)
  end.

Definition queue_push (i : nat) (data : bytes) : M ngx_rc :=
  on_zone i (fun shm =>
    let? q := queue_of shm in
    let? (rc, q) := ShmQueue.ngx_wa_shm_queue_push_locked debug q data in
    Ret (rc, DATA_QUEUE q)).

Definition ngx_proxy_wasm_hfuncs_enqueue_shared_queue (args0 args1 args2 : Z) : M host_ret :=
  let len := size_of_i32 args2 in
  LIFT_SLICE args1 len (fun data_ptr =>
  r ← resolve_queue args0;
  match r with
  | inl r => mret r
  | inr i =>
      data ← read_at data_ptr len;
      rc ← queue_push i data;
      match rc with
      | NGX_ABORT => result_trap queue_full NGX_WAVM_ERROR
      | _ => slift (ngx_wa_assert debug (is_ok rc));; mret ngx_proxy_wasm_result_ok
      end
  end).

(** The memory for a message: a pointer into the guest's memory, or [NULL]. *)
Definition shared_queue_alloc (m : memory) (n : Z) : option gptr * memory :=
  let '(wasm_ptr, m) := ngx_proxy_wasm_alloc m n in
  if wasm_ptr =? 0 then (None, m) else ((ngx_wavm_memory_lift m wasm_ptr (wrap32 n) 1).1, m).

(** The length of the next message of a queue, with which [shared_queue_alloc] is called. *)
Definition next_length (q : ShmQueue.ngx_wa_shm_queue_t) : outcome Z :=
  if ShmQueue.queue_occupancy q <? 4 then Ret 0
  else let? header := ShmQueue.circular_read debug q (ShmQueue.pop_ptr q) 4 false in deref (dec32 header).

(** [ngx_wa_shm_queue_pop_locked] with that function as its allocator: the code, and the
    message with the pointer it was copied to. *)
Definition queue_pop (i : nat) : M (ngx_rc * option (option gptr * bytes)) := fun h =>
  let? s := deref (h_env h) in
  let? m := deref (s !! i) in
  let? q := queue_of (map_zone m) in
  let? len := next_length q in
  let '(buf, mem) := if len =? 0 then (None, h_memory h) else shared_queue_alloc (h_memory h) len in
  let? (rc, q, out) := ShmQueue.ngx_wa_shm_queue_pop_locked debug q (fun _ => bool_decide (is_Some buf)) in
  let h := set_env (Some (<[i := with_data (DATA_QUEUE q) m]> s)) (set_memory mem h) in
  match out with
  | None => Ret ((rc, None), h)
  | Some data => let? mem := store_at mem buf data in Ret ((rc, Some (buf, data)), set_memory mem h)
  end.

Definition ngx_proxy_wasm_hfuncs_dequeue_shared_queue (args0 args1 args2 : Z) : M host_ret :=
  LIFT args1 4 4 (fun wasm_data_ptr =>
  LIFT args2 4 4 (fun wasm_data_size =>
  r ← resolve_queue args0;
  match r with
  | inl r => mret r
  | inr i =>
      '(rc, out) ← queue_pop i;
      match rc with
      | NGX_ERROR => mret ngx_proxy_wasm_result_err
      | NGX_AGAIN => mret ngx_proxy_wasm_result_empty
      | _ =>
          slift (ngx_wa_assert debug (is_ok rc));;
          '(buf, data) ← slift (deref out);
          write_at wasm_data_ptr (enc32 (match buf with Some g => g_off g | None => 0 end));;
          write_at wasm_data_size (enc32 (zlen data));;
          mret ngx_proxy_wasm_result_ok
      end
  end)).

End shm.

(** ** Finding the zones after a change of their data *)

Section facts.
Context {P : Type} `{Slab P} `{Rbtree}.
Context {SL : SlabLaws P} {RL : RbtreeLaws _}.
Context (debug : bool).
Context (ngx_crc32_long : bytes -> Z).
Context (geometry : slab_geometry) (Hgeo : geometry_ok geometry).
Context (ngx_vsnprintf : nat -> bytes -> option bytes).
Context (ngx_proxy_wasm_alloc : memory -> Z -> Z * memory).

Abbreviation crc := ngx_crc32_long.
Abbreviation zones := (option (list (ngx_wa_shm_mapping_t P))).
Abbreviation get_shared_data :=
  (ngx_proxy_wasm_hfuncs_get_shared_data debug crc geometry ngx_vsnprintf ngx_proxy_wasm_alloc).
Abbreviation set_shared_data := (ngx_proxy_wasm_hfuncs_set_shared_data debug crc geometry ngx_vsnprintf).
Abbreviation dequeue := (ngx_proxy_wasm_hfuncs_dequeue_shared_queue debug ngx_vsnprintf ngx_proxy_wasm_alloc).
Abbreviation enqueue := (ngx_proxy_wasm_hfuncs_enqueue_shared_queue debug ngx_vsnprintf).

Lemma lookup_index_data (s : list (ngx_wa_shm_mapping_t P)) i m d name :
  s !! i = Some m -> ngx_wa_shm_lookup_index (<[i := with_data d m]> s) name = ngx_wa_shm_lookup_index s name.
Proof.
  revert i. induction s as [|m' s IH]; intros i Hm; [done|]. destruct i as [|i]; cbn in *.
  - by injection Hm as ->.
  - case_bool_decide; [done|]. by rewrite IH.
Qed.

Lemma type_data (s : list (ngx_wa_shm_mapping_t P)) i m d j :
  s !! i = Some m ->
  (fun m => shm_type (map_zone m)) <$> (<[i := with_data d m]> s) !! j =
  (fun m => shm_type (map_zone m)) <$> s !! j.
Proof.
  intros Hm. destruct (decide (i = j)) as [<-|Hij].
  - rewrite list_lookup_insert_eq by (by eapply lookup_lt_Some). by rewrite Hm.
  - by rewrite list_lookup_insert_ne.
Qed.

Lemma resolve_key_data (s : list (ngx_wa_shm_mapping_t P)) i m d key :
  s !! i = Some m ->
  ngx_wa_shm_kv_resolve_key (Some (<[i := with_data d m]> s)) key = ngx_wa_shm_kv_resolve_key (Some s) key.
Proof.
  intros Hm. unfold ngx_wa_shm_kv_resolve_key.
  set (p := match slash key with Some _ => _ | None => _ end). destruct p as [ns rest].
  rewrite !(lookup_index_data s i m d) by done.
  set (r := match (if zlen ns =? 0 then None else _) with Some _ => _ | None => _ end).
  destruct r as [[[j ns'] k]|]; [|done].
  pose proof (type_data s i m d j Hm) as Ht.
  destruct (_ !! j) as [m1|] eqn:E1, (s !! j) as [m2|]; try done. cbn in *. by injection Ht as ->.
Qed.

Lemma queue_resolve_data (s : list (ngx_wa_shm_mapping_t P)) i m d token :
  s !! i = Some m ->
  ngx_wa_shm_queue_resolve (Some (<[i := with_data d m]> s)) token = ngx_wa_shm_queue_resolve (Some s) token.
Proof.
  intros Hm. unfold ngx_wa_shm_queue_resolve. unfold zlen. rewrite length_insert.
  destruct (_ <=? _); [done|]. pose proof (type_data s i m d (Z.to_nat token) Hm) as Ht.
  destruct (_ !! Z.to_nat token) as [m1|] eqn:E1, (s !! Z.to_nat token) as [m2|]; try done.
  cbn in *. by injection Ht as ->.
Qed.

(** The zone [i] of the guest's environment holds a store, and a key is resolved to it. *)
Record kv_zone (h : host zones) (key : bytes) (i : nat) (s : list (ngx_wa_shm_mapping_t P))
    (m : ngx_wa_shm_mapping_t P) (kv : ngx_wa_shm_kv_t P) : Prop := {
  kz_zones : h_env h = Some s;
  kz_resolve : exists ns k, ngx_wa_shm_kv_resolve_key (Some s) key = Ret (NGX_OK, Some (i, ns, k));
  kz_mapping : s !! i = Some m;
  kz_data : shm_data_ (map_zone m) = DATA_KV kv;
  kz_wf : wf crc (shm_eviction (map_zone m)) geometry kv;
}.

Lemma resolve_Ret (h : host zones) key i s m kv a b :
  kv_zone h key i s m kv -> resolve debug ngx_vsnprintf key a b h = Ret (inr i, h).
Proof.
  intros [Hz (ns & k & Hr) _ _ _]. unfold resolve. erewrite SM_bind_Ret by reflexivity. rewrite Hz.
  erewrite SM_bind_Ret by (unfold slift; rewrite Hr; reflexivity). cbn beta iota.
  erewrite SM_bind_Ret by (unfold slift; rewrite ngx_wa_assert_true; reflexivity). done.
Qed.

(** The guest's environment after a change of the zone [i]. *)
Definition with_zone (i : nat) (d : shm_data P) (m : ngx_wa_shm_mapping_t P) (s : list (ngx_wa_shm_mapping_t P))
    (h : host zones) : host zones := set_env (Some (<[i := with_data d m]> s)) h.

Lemma with_zone_kv h key i s m kv kv' :
  kv_zone h key i s m kv -> wf crc (shm_eviction (map_zone m)) geometry kv' ->
  kv_zone (with_zone i (DATA_KV kv') m s h) key i (<[i := with_data (DATA_KV kv') m]> s)
    (with_data (DATA_KV kv') m) kv'.
Proof.
  intros [Hz Hr Hm Hd Hw] Hw'. split; [done| | |done|done].
  - by rewrite resolve_key_data.
  - apply list_lookup_insert_eq. by eapply lookup_lt_Some.
Qed.

Lemma kv_get_Ret h key i s m kv :
  kv_zone h key i s m kv ->
  exists kv', wf crc (shm_eviction (map_zone m)) geometry kv' /\ nodes kv' = nodes kv /\
    kv_get crc geometry i key h =
      Ret ((match view kv (crc key) with Some _ => NGX_OK | None => NGX_DECLINED end, view kv (crc key)),
           with_zone i (DATA_KV kv') m s h).
Proof.
  intros [Hz _ Hm Hd Hw].
  destruct (get_spec crc (shm_eviction (map_zone m)) geometry Hgeo kv key None Hw) as (kv' & E & Hw' & Hn & _).
  exists kv'. split; [done|]. split; [done|]. unfold kv_get, on_zone. rewrite Hz. cbn [deref obind]. rewrite Hm.
  cbn [deref obind]. unfold kv_of. rewrite Hd. cbn [obind]. rewrite E. cbn [default]. done.
Qed.

(** A write, whatever its result. *)
Lemma kv_set_Ret h key value cas i s m kv r h' :
  kv_zone h key i s m kv -> kv_set crc geometry i key value cas h = Ret (r, h') ->
  exists kv', ngx_wa_shm_kv_set_locked crc (shm_eviction (map_zone m)) geometry kv key value cas =
                Ret (r.1, kv', r.2) /\ h' = with_zone i (DATA_KV kv') m s h.
Proof.
  intros [Hz _ Hm Hd Hw]. unfold kv_set, on_zone. rewrite Hz. cbn [deref obind]. rewrite Hm.
  cbn [deref obind]. unfold kv_of. rewrite Hd. cbn [obind].
  destruct (ngx_wa_shm_kv_set_locked _ _ _ _ _ _ _) as [[[rc kv'] w]|]; [|done]. cbn.
  intros [= <- <-]. exists kv'. by split.
Qed.

(** The guest of [h] has received a value with its counter: after it allocated, the value is
    where it allocated, and the pointer, the length and the counter where it said. *)
Definition received (h : host zones) (vp sp cp : Z) (value : bytes) (c : Z) (r : outcome (host_ret * host zones)) : Prop :=
  exists d, mem_write (mem_data (h_memory h)) (wrap32 cp) (enc32 c) = Ret d /\
  forall p m', ngx_proxy_wasm_alloc (set_data (h_memory h) d) (zlen value) = (p, m') ->
    grown (h_memory h) m' -> 0 < p -> p + zlen value <= zlen (mem_data m') -> p + zlen value < 2 ^ 32 ->
    exists d1 d2 d3 z,
      mem_write (mem_data m') p value = Ret d1 /\
      mem_write d1 (wrap32 vp) (enc32 p) = Ret d2 /\
      mem_write d2 (wrap32 sp) (enc32 (zlen value)) = Ret d3 /\
      r = Ret (ngx_proxy_wasm_result_ok, set_env z (set_memory (set_data m' d3) h)).

(** What a guest that reads a key gets: the value in the memory it allocates, with the counter,
    the pointer and the length where it said. *)
Lemma get_shared_data_spec h key i s m kv kp kl kg vp vg sp sg cp cg :
  kv_zone h key i s m kv -> slice_arg (h_memory h) kp kl kg key ->
  out_arg (h_memory h) vp vg -> out_arg (h_memory h) sp sg -> out_arg (h_memory h) cp cg ->
  match view kv (crc key) with
  | None => exists z, get_shared_data kp kl vp sp cp h = Ret (ngx_proxy_wasm_result_notfound, set_env z h)
  | Some (value, c) => received h vp sp cp value c (get_shared_data kp kl vp sp cp h)
  end.
Proof.
  intros Hk Ha Hv Hs Hc. destruct (kv_get_Ret h key i s m kv Hk) as (kv' & Hw' & Hn & Eg).
  set (h1 := with_zone i (DATA_KV kv') m s h) in *.
  assert (Epre : get_shared_data kp kl vp sp cp h =
    ('(rc, out) ← kv_get crc geometry i key;
     match rc, out with
     | NGX_DECLINED, _ => mret ngx_proxy_wasm_result_notfound
     | _, out =>
         slift (ngx_wa_assert debug (is_ok rc));;
         '(value, c) ← slift (deref out);
         write_at cg (enc32 c);;
         wbuf_ptr ← alloc ngx_proxy_wasm_alloc (zlen value);
         if wbuf_ptr =? 0 then ngx_proxy_wasm_result_trap ngx_vsnprintf get_no_memory NGX_WAVM_ERROR
         else
           NGX_WAVM_HOST_LIFT_SLICE ngx_vsnprintf wbuf_ptr (zlen value) (fun wbuf =>
           write_at wbuf value;;
           write_at vg (enc32 wbuf_ptr);;
           write_at sg (enc32 (zlen value));;
           mret ngx_proxy_wasm_result_ok)
     end) h).
  { unfold ngx_proxy_wasm_hfuncs_get_shared_data.
    rewrite (LIFT_SLICE_arg _ _ _ kg key), (LIFT_arg _ _ vg), (LIFT_arg _ _ sg), (LIFT_arg _ _ cg) by done.
    erewrite SM_bind_Ret by (eapply read_arg; exact Ha).
    erewrite SM_bind_Ret by (eapply resolve_Ret; exact Hk). done. }
  rewrite Epre. erewrite SM_bind_Ret by exact Eg. cbn beta iota.
  destruct (view kv (crc key)) as [[value c]|]; [|by eexists].
  erewrite SM_bind_Ret by (unfold slift; rewrite ngx_wa_assert_true; reflexivity).
  erewrite SM_bind_Ret by reflexivity. cbn beta iota.
  destruct (write_arg cp cg c (h_memory h) h1) as (d & Hd & Ed); [done|apply grown_refl|].
  exists d. split; [done|]. intros p m' Hal Hgr Hp Hin H32. erewrite SM_bind_Ret by exact Ed.
  change (h_memory h1) with (h_memory h). set (h2 := set_memory _ h1).
  erewrite SM_bind_Ret by (unfold alloc, on_memory; cbn [obind h_memory h2 set_memory]; rewrite Hal; reflexivity).
  rewrite (proj2 (Z.eqb_neq _ _)) by lia. set (h3 := set_memory m' h2). pose proof (zlen_nonneg value).
  assert (Hl3 : ngx_wavm_memory_lift (h_memory h3) (wrap32 p) (zlen value) 1 =
    (Some {| g_base := mem_base m'; g_off := p |}, true)).
  { unfold ngx_wavm_memory_lift, ngx_wavm_memory_data_size. cbn [h_memory h3 set_memory].
    rewrite (wrap32_id p) by zlia. rewrite (proj2 (Z.eqb_neq _ _)) by lia.
    rewrite wrap32_id by zlia. rewrite !(proj2 (Z.ltb_ge _ _)) by lia. done. }
  rewrite (LIFT_SLICE_lifted _ p (zlen value) _ h3 _ ltac:(zlia) Hl3).
  destruct (store_at_in m' p value) as (d1 & Hd1 & E1); [lia|lia|].
  erewrite SM_bind_Ret by (unfold write_at, on_memory; cbn [h_memory h3 set_memory]; rewrite E1; reflexivity).
  set (h4 := set_memory _ h3).
  assert (G4 : grown (h_memory h) (h_memory h4)) by (by eapply (grown_write _ m')).
  destruct (write_arg vp vg p (h_memory h) h4) as (d2 & Hd2 & E2); [done|done|].
  erewrite SM_bind_Ret by exact E2. set (h5 := set_memory _ h4).
  assert (G5 : grown (h_memory h) (h_memory h5)) by (by eapply (grown_write _ (h_memory h4))).
  destruct (write_arg sp sg (zlen value) (h_memory h) h5) as (d3 & Hd3 & E3); [done|done|].
  erewrite SM_bind_Ret by exact E3. exists d1, d2, d3. eexists. by split_and!.
Qed.

(** The codes of a write. *)
Lemma set_locked_code e kv key value cas rc kv' w :
  wf crc e geometry kv ->
  ngx_wa_shm_kv_set_locked crc e geometry kv key (Some value) cas = Ret (rc, kv', w) ->
  rc = NGX_OK \/ rc = NGX_ERROR.
Proof.
  intros Hw Hset. destruct (decide (cas = current_cas kv (crc key))) as [->|Hne].
  - destruct (set_value_outcome crc e geometry Hgeo kv key value Hw) as (kv1 & _ & _ & Ho).
    rewrite Hset in Ho. inversion Ho; subst; auto.
  - rewrite set_mismatch_spec in Hset by done. injection Hset as <- <- <-. by left.
Qed.

(** A write that succeeded stored the value. *)
Lemma set_locked_written e kv key value cas kv' :
  wf crc e geometry kv ->
  ngx_wa_shm_kv_set_locked crc e geometry kv key (Some value) cas = Ret (NGX_OK, kv', Some true) ->
  cas = current_cas kv (crc key) /\ wf crc e geometry kv' /\
  view kv' (crc key) = Some (value, wrap32 (cas + 1)).
Proof.
  intros Hw Hset. destruct (decide (cas = current_cas kv (crc key))) as [->|Hne].
  - destruct (set_value_outcome crc e geometry Hgeo kv key value Hw) as (kv1 & _ & _ & Ho).
    rewrite Hset in Ho. inversion Ho; subst. by split_and!.
  - by rewrite set_mismatch_spec in Hset.
Qed.

(** C26. A value whose write a guest was told to have succeeded is what any guest that reads the key
    receives, with the next counter, once that guest allocated memory for it (growing its memory
    in place if at all): the counter given was the current one (0 for a new key), the writer's
    memory and the other zones are left as they are. *)
Theorem shared_data_set_get h h1 kp kl kg key vp vl vg value cas i s m kv :
  kv_zone h key i s m kv -> slice_arg (h_memory h) kp kl kg key ->
  slice_arg (h_memory h) vp vl (Some vg) value ->
  set_shared_data kp kl vp vl cas h = Ret (ngx_proxy_wasm_result_ok, h1) ->
  wrap32 cas = current_cas kv (crc key) /\ h_memory h1 = h_memory h /\
  exists s1, h_env h1 = Some s1 /\ (forall j, j <> i -> s1 !! j = s !! j) /\
    forall h2 kp2 kl2 kg2 vp2 vg2 sp sg cp cg,
      h_env h2 = Some s1 -> slice_arg (h_memory h2) kp2 kl2 kg2 key ->
      out_arg (h_memory h2) vp2 vg2 -> out_arg (h_memory h2) sp sg -> out_arg (h_memory h2) cp cg ->
      received h2 vp2 sp cp value (wrap32 (wrap32 cas + 1)) (get_shared_data kp2 kl2 vp2 sp cp h2).
Proof.
  intros Hk Ha Hv Hset. unfold ngx_proxy_wasm_hfuncs_set_shared_data in Hset.
  rewrite (LIFT_SLICE_arg _ _ _ kg key), (LIFT_SLICE_arg _ _ _ (Some vg) value) in Hset by done.
  erewrite SM_bind_Ret in Hset by (eapply read_arg; exact Ha).
  erewrite SM_bind_Ret in Hset by (eapply resolve_Ret; exact Hk). cbn beta iota in Hset.
  erewrite SM_bind_Ret in Hset by (erewrite SM_bind_Ret by (eapply read_arg; exact Hv); reflexivity).
  apply SM_bind_Ret_inv in Hset as ([rc w] & h' & Hset & Hret).
  destruct (kv_set_Ret _ _ _ _ _ _ _ _ _ _ Hk Hset) as (kv' & Hl & ->). cbn [fst snd] in Hl.
  destruct (set_locked_code _ _ _ _ _ _ _ _ (kz_wf _ _ _ _ _ _ Hk) Hl) as [->| ->].
  2: { apply SM_bind_Ret_inv in Hret as (? & ? & _ & Hret). discriminate Hret. }
  erewrite SM_bind_Ret in Hret by (unfold slift; rewrite ngx_wa_assert_true; reflexivity).
  destruct w as [[|]|]; cbn in Hret; try discriminate Hret. injection Hret as <-.
  destruct (set_locked_written _ _ _ _ _ _ (kz_wf _ _ _ _ _ _ Hk) Hl) as (Hcas & Hw' & Hview).
  split; [done|]. split; [done|]. exists (<[i := with_data (DATA_KV kv') m]> s). split; [done|].
  split; [intros j Hj; by rewrite list_lookup_insert_ne|].
  intros h2 kp2 kl2 kg2 vp2 vg2 sp sg cp cg Hz2 Ha2 Hv2 Hs2 Hc2.
  pose proof (with_zone_kv _ _ _ _ _ _ kv' Hk Hw') as Hk'.
  assert (Hk2 : kv_zone h2 key i (<[i := with_data (DATA_KV kv') m]> s) (with_data (DATA_KV kv') m) kv').
  { destruct Hk'. by split. }
  pose proof (get_shared_data_spec h2 key i _ _ kv' kp2 kl2 kg2 vp2 vg2 sp sg cp cg Hk2 Ha2 Hv2 Hs2 Hc2) as Hg.
  by rewrite Hview in Hg.
Qed.

(** ** Queues *)

(** The token of a queue that holds the messages [ms]. *)
Record queue_zone (h : host zones) (token : Z) (i : nat) (s : list (ngx_wa_shm_mapping_t P))
    (m : ngx_wa_shm_mapping_t P) (q : ShmQueue.ngx_wa_shm_queue_t) (ms : list bytes) : Prop := {
  qz_zones : h_env h = Some s;
  qz_resolve : ngx_wa_shm_queue_resolve (Some s) (wrap32 token) = Ret (NGX_OK, Some i);
  qz_mapping : s !! i = Some m;
  qz_data : shm_data_ (map_zone m) = DATA_QUEUE q;
  qz_messages : ShmQueue.represents q ms;
}.

Lemma resolve_queue_Ret (h : host zones) token i s m q ms :
  queue_zone h token i s m q ms -> resolve_queue debug ngx_vsnprintf token h = Ret (inr i, h).
Proof.
  intros [Hz Hr _ _ _]. unfold resolve_queue. erewrite SM_bind_Ret by reflexivity. rewrite Hz.
  erewrite SM_bind_Ret by (unfold slift; rewrite Hr; reflexivity). cbn beta iota.
  erewrite SM_bind_Ret by (unfold slift; rewrite ngx_wa_assert_true; reflexivity). done.
Qed.

Lemma with_zone_queue h token i s m q ms q' ms' :
  queue_zone h token i s m q ms -> ShmQueue.represents q' ms' ->
  queue_zone (with_zone i (DATA_QUEUE q') m s h) token i (<[i := with_data (DATA_QUEUE q') m]> s)
    (with_data (DATA_QUEUE q') m) q' ms'.
Proof.
  intros [Hz Hr Hm Hd Hw] Hw'. split; [done| | |done|done].
  - by rewrite queue_resolve_data.
  - apply list_lookup_insert_eq. by eapply lookup_lt_Some.
Qed.

(** A guest that sends a message: it is stored behind the others, or the queue is full. *)
Lemma enqueue_spec h token i s m q ms dp dl dg data :
  queue_zone h token i s m q ms -> slice_arg (h_memory h) dp dl dg data ->
  if ShmQueue.queue_capacity q <? ShmQueue.Spec.occupancy ms + (4 + zlen data)
  then enqueue token dp dl h = (ngx_proxy_wasm_result_trap ngx_vsnprintf queue_full NGX_WAVM_ERROR)
                                 (with_zone i (DATA_QUEUE q) m s h)
  else exists q', ShmQueue.represents q' (ms ++ [data]) /\
         enqueue token dp dl h = Ret (ngx_proxy_wasm_result_ok, with_zone i (DATA_QUEUE q') m s h).
Proof.
  intros Hq Ha. unfold ngx_proxy_wasm_hfuncs_enqueue_shared_queue.
  rewrite (LIFT_SLICE_arg _ _ _ dg data) by done.
  rewrite (SM_bind_Ret _ _ _ _ _ (resolve_queue_Ret _ _ _ _ _ _ _ Hq)). cbn beta iota.
  rewrite (SM_bind_Ret _ _ _ _ _ (read_arg _ _ _ _ _ Ha)).
  pose proof (ShmQueue.push_spec debug q ms data (qz_messages _ _ _ _ _ _ _ Hq)) as Hp.
  destruct Hq as [Hz _ Hm Hd _].
  assert (Hpush : forall rc q', ShmQueue.ngx_wa_shm_queue_push_locked debug q data = Ret (rc, q') ->
    queue_push debug i data h = Ret (rc, with_zone i (DATA_QUEUE q') m s h)).
  { intros rc q' E. unfold queue_push, on_zone. rewrite Hz. cbn [deref obind]. rewrite Hm. cbn [deref obind].
    unfold queue_of. rewrite Hd. cbn [obind]. rewrite E. done. }
  specialize (Hp ltac:(pose proof (sa_len _ _ _ _ _ Ha); rewrite (sa_zlen _ _ _ _ _ Ha); lia)).
  unfold ShmQueue.Spec.entry_size in Hp. destruct (_ <? _).
  - by rewrite (SM_bind_Ret _ _ _ _ _ (Hpush _ _ Hp)).
  - destruct Hp as (q' & E & Hr & _). exists q'. split; [done|].
    rewrite (SM_bind_Ret _ _ _ _ _ (Hpush _ _ E)).
    erewrite SM_bind_Ret by (unfold slift; rewrite ngx_wa_assert_true; reflexivity). done.
Qed.

Lemma next_length_spec q msg ms :
  ShmQueue.represents q (msg :: ms) -> next_length debug q = Ret (zlen msg).
Proof.
  intros Hr. destruct (ShmQueue.contents_cons q msg ms Hr) as (Hs4 & _ & _).
  pose proof (ShmQueue.represents_occupancy _ _ Hr) as Hocc. rewrite ShmQueue.Spec.occupancy_cons in Hocc.
  pose proof (zlen_nonneg msg). pose proof (ShmQueue.Spec.occupancy_nonneg ms).
  destruct Hr as [Hwf _ Hsz]. apply Forall_cons_1 in Hsz as [Hm _].
  pose proof (ShmQueue.occupancy_range q Hwf). unfold next_length.
  rewrite (proj2 (Z.ltb_ge _ _)) by lia.
  rewrite ShmQueue.circular_read_spec by (try apply Hwf; lia || by right).
  rewrite Hs4. cbn [obind]. by rewrite dec32_enc32, wrap32_id by zlia.
Qed.

(** The allocation of a message in the memory of a guest. *)
Definition allocates (mem : memory) (n p : Z) (m' : memory) : Prop :=
  ngx_proxy_wasm_alloc mem n = (p, m') /\ grown mem m' /\ 0 < p /\
  p + n <= zlen (mem_data m') /\ p + n < 2 ^ 32.

Lemma shared_queue_alloc_spec mem n p m' :
  0 <= n -> allocates mem n p m' ->
  shared_queue_alloc ngx_proxy_wasm_alloc mem n = (Some {| g_base := mem_base m'; g_off := p |}, m').
Proof.
  intros Hn (Ha & _ & Hp & Hin & H32). unfold shared_queue_alloc. rewrite Ha.
  rewrite (proj2 (Z.eqb_neq _ _)) by lia. unfold ngx_wavm_memory_lift, ngx_wavm_memory_data_size.
  rewrite (proj2 (Z.eqb_neq _ _)) by lia. rewrite (wrap32_id n) by zlia. rewrite wrap32_id by zlia.
  rewrite !(proj2 (Z.ltb_ge _ _)) by lia. done.
Qed.

(** A guest that takes a message from a queue has the oldest one in the memory it allocates,
    with the pointer and the length where it said. *)
Lemma dequeue_spec h token i s m q msg ms pp pg sp sg p m' :
  queue_zone h token i s m q (msg :: ms) -> msg <> [] ->
  out_arg (h_memory h) pp pg -> out_arg (h_memory h) sp sg ->
  allocates (h_memory h) (zlen msg) p m' ->
  exists q' d1 d2 d3, ShmQueue.represents q' ms /\
    mem_write (mem_data m') p msg = Ret d1 /\
    mem_write d1 (wrap32 pp) (enc32 p) = Ret d2 /\
    mem_write d2 (wrap32 sp) (enc32 (zlen msg)) = Ret d3 /\
    dequeue token pp sp h =
      Ret (ngx_proxy_wasm_result_ok, with_zone i (DATA_QUEUE q') m s (set_memory (set_data m' d3) h)).
Proof.
  intros Hq Hne Hp Hs Hal. unfold ngx_proxy_wasm_hfuncs_dequeue_shared_queue.
  rewrite (LIFT_arg _ _ pg), (LIFT_arg _ _ sg) by done.
  rewrite (SM_bind_Ret _ _ _ _ _ (resolve_queue_Ret _ _ _ _ _ _ _ Hq)). cbn beta iota.
  pose proof (zlen_nonneg msg). assert (Hpos : 0 < zlen msg) by (destruct msg; [done|rewrite zlen_cons; pose proof (zlen_nonneg msg); lia]).
  destruct Hq as [Hz _ Hm Hd Hr].
  pose proof (ShmQueue.pop_spec debug q msg ms (fun _ => true) Hr ltac:(by right)) as Hpop.
  rewrite orb_true_r in Hpop. destruct Hpop as (q' & E & Hr' & _). exists q'.
  pose proof (shared_queue_alloc_spec (h_memory h) (zlen msg) p m' ltac:(lia) Hal) as Ea. destruct Hal as (_ & Hgr & Hp0 & Hin & H32).
  destruct (store_at_in m' p msg) as (d1 & Hd1 & E1); [lia|lia|]. exists d1.
  set (h1 := with_zone i (DATA_QUEUE q') m s (set_memory (set_data m' d1) h)).
  assert (Ep : queue_pop debug ngx_proxy_wasm_alloc i h =
    Ret ((NGX_OK, Some (Some {| g_base := mem_base m'; g_off := p |}, msg)), h1)).
  { unfold queue_pop. rewrite Hz. cbn [deref obind]. rewrite Hm. cbn [deref obind]. unfold queue_of.
    rewrite Hd. cbn [obind]. rewrite (next_length_spec _ _ _ Hr). cbn [obind].
    rewrite (proj2 (Z.eqb_neq _ _)) by lia. rewrite Ea. cbn beta iota.
    change (bool_decide (is_Some (Some _))) with true. rewrite E. cbn [obind]. rewrite E1. done. }
  rewrite (SM_bind_Ret _ _ _ _ _ Ep). cbn beta iota.
  erewrite SM_bind_Ret by (unfold slift; rewrite ngx_wa_assert_true; reflexivity).
  erewrite SM_bind_Ret by reflexivity. cbn beta iota. cbn [g_off].
  assert (G1 : grown (h_memory h) (h_memory h1)) by (by eapply (grown_write _ m')).
  destruct (write_arg pp pg p (h_memory h) h1) as (d2 & Hd2 & E2); [done|done|].
  erewrite SM_bind_Ret by exact E2. set (h2 := set_memory _ h1).
  assert (G2 : grown (h_memory h) (h_memory h2)) by (by eapply (grown_write _ (h_memory h1))).
  destruct (write_arg sp sg (zlen msg) (h_memory h) h2) as (d3 & Hd3 & E3); [done|done|].
  erewrite SM_bind_Ret by exact E3. exists d2, d3. by split_and!.
Qed.

(** Without memory the message stays. *)
Lemma dequeue_refused h token i s m q msg ms pp pg sp sg m' :
  queue_zone h token i s m q (msg :: ms) -> msg <> [] ->
  out_arg (h_memory h) pp pg -> out_arg (h_memory h) sp sg ->
  shared_queue_alloc ngx_proxy_wasm_alloc (h_memory h) (zlen msg) = (None, m') ->
  dequeue token pp sp h =
    Ret (ngx_proxy_wasm_result_err, with_zone i (DATA_QUEUE q) m s (set_memory m' h)).
Proof.
  intros Hq Hne Hp Hs Ha. unfold ngx_proxy_wasm_hfuncs_dequeue_shared_queue.
  rewrite (LIFT_arg _ _ pg), (LIFT_arg _ _ sg) by done.
  rewrite (SM_bind_Ret _ _ _ _ _ (resolve_queue_Ret _ _ _ _ _ _ _ Hq)). cbn beta iota.
  assert (Hpos : 0 < zlen msg) by (destruct msg; [done|rewrite zlen_cons; pose proof (zlen_nonneg msg); lia]).
  destruct Hq as [Hz _ Hm Hd Hr].
  pose proof (ShmQueue.pop_spec debug q msg ms (fun _ => false) Hr ltac:(by right)) as Hpop.
  rewrite orb_false_r, (proj2 (Z.eqb_neq _ _)) in Hpop by lia.
  assert (Ep : queue_pop debug ngx_proxy_wasm_alloc i h =
    Ret ((NGX_ERROR, None), with_zone i (DATA_QUEUE q) m s (set_memory m' h))).
  { unfold queue_pop. rewrite Hz. cbn [deref obind]. rewrite Hm. cbn [deref obind]. unfold queue_of.
    rewrite Hd. cbn [obind]. rewrite (next_length_spec _ _ _ Hr). cbn [obind].
    rewrite (proj2 (Z.eqb_neq _ _)) by lia. rewrite Ha. cbn beta iota.
    change (bool_decide (is_Some None)) with false. rewrite Hpop. done. }
  by rewrite (SM_bind_Ret _ _ _ _ _ Ep).
Qed.

(** C27. A message a guest sends to a queue is stored behind the others, or the queue is full, the
    guest traps and the queue is as it was.  A guest that receives from the queue then gets
    the oldest message, in the memory it allocated, with the pointer and the length where it
    said; when it cannot allocate, the message stays.  The other zones are left as they
    are. *)
Theorem shared_queue_send_receive h token i s m q ms dp dl dg data :
  queue_zone h token i s m q ms -> slice_arg (h_memory h) dp dl dg data ->
  exists q1, let h1 := with_zone i (DATA_QUEUE q1) m s h in
    (if ShmQueue.queue_capacity q <? ShmQueue.Spec.occupancy ms + (4 + zlen data)
     then q1 = q /\
          enqueue token dp dl h = ngx_proxy_wasm_result_trap ngx_vsnprintf queue_full NGX_WAVM_ERROR h1
     else ShmQueue.represents q1 (ms ++ [data]) /\ enqueue token dp dl h = Ret (ngx_proxy_wasm_result_ok, h1)) /\
    forall h2 msg rest pp pg sp sg,
      h_env h2 = h_env h1 -> ShmQueue.represents q1 (msg :: rest) -> msg <> [] ->
      out_arg (h_memory h2) pp pg -> out_arg (h_memory h2) sp sg ->
      exists s1 m1, h_env h1 = Some s1 /\ s1 !! i = Some m1 /\ (forall j, j <> i -> s1 !! j = s !! j) /\
      (forall p m', allocates (h_memory h2) (zlen msg) p m' ->
        exists q2 d1 d2 d3, ShmQueue.represents q2 rest /\
          mem_write (mem_data m') p msg = Ret d1 /\
          mem_write d1 (wrap32 pp) (enc32 p) = Ret d2 /\
          mem_write d2 (wrap32 sp) (enc32 (zlen msg)) = Ret d3 /\
          dequeue token pp sp h2 = Ret (ngx_proxy_wasm_result_ok,
            with_zone i (DATA_QUEUE q2) m1 s1 (set_memory (set_data m' d3) h2))) /\
      (forall m', shared_queue_alloc ngx_proxy_wasm_alloc (h_memory h2) (zlen msg) = (None, m') ->
         dequeue token pp sp h2 = Ret (ngx_proxy_wasm_result_err,
           with_zone i (DATA_QUEUE q1) m1 s1 (set_memory m' h2))).
Proof.
  intros Hq Ha.
  pose proof (enqueue_spec h token i s m q ms dp dl dg data Hq Ha) as He.
  assert (Hsent : exists q1 ms1, ShmQueue.represents q1 ms1 /\
    let h1 := with_zone i (DATA_QUEUE q1) m s h in
    if ShmQueue.queue_capacity q <? ShmQueue.Spec.occupancy ms + (4 + zlen data)
    then q1 = q /\ enqueue token dp dl h = ngx_proxy_wasm_result_trap ngx_vsnprintf queue_full NGX_WAVM_ERROR h1
    else ShmQueue.represents q1 (ms ++ [data]) /\ enqueue token dp dl h = Ret (ngx_proxy_wasm_result_ok, h1)).
  { destruct (_ <? _).
    - exists q, ms. split; [apply Hq|]. by split.
    - destruct He as (q1 & Hr & E). exists q1, (ms ++ [data]). by split_and!. }
  destruct Hsent as (q1 & ms1 & Hr1 & Hsent). exists q1. cbv zeta in Hsent |- *. split; [done|].
  intros h2 msg rest pp pg sp sg Hz2 Hr2 Hne Hp Hs.
  pose proof (with_zone_queue h token i s m q ms q1 (msg :: rest) Hq Hr2) as Hq1.
  exists (<[i := with_data (DATA_QUEUE q1) m]> s), (with_data (DATA_QUEUE q1) m).
  split; [done|]. split; [apply Hq1|]. split; [intros j Hj; by rewrite list_lookup_insert_ne|].
  assert (Hq2 : queue_zone h2 token i (<[i := with_data (DATA_QUEUE q1) m]> s) (with_data (DATA_QUEUE q1) m) q1 (msg :: rest)).
  { destruct Hq1 as [Hz1 ? ? ? ?]. split; try done. }
  split.
  - intros p m' Hal. by eapply dequeue_spec.
  - intros m' Hal. by eapply dequeue_refused.
Qed.

End facts.

End HostShm.

(** ** Executions *)

Module HostShmRuns.
Import Host HostRuns ShmKv ShmZones HostShm Reference.

(** Zones declared by a configuration: two stores, one of them the default one, a queue and the
    metrics, initialised with stores of no entry. *)
Definition declare (type : ngx_wa_shm_type_e) (name : String.string) (s : list (ngx_wa_shm_mapping_t quota)) :=
  ngx_wasm_core_shm_generic_directive geometry_4k quota_pool true true true type (ngx_string name)
    (Some 16384) None s.
Arguments declare type name%_string_scope.

Definition declared : option (list (ngx_wa_shm_mapping_t quota)) :=
  s ← declare NGX_WA_SHM_TYPE_KV "kv1" [];
  s ← declare NGX_WA_SHM_TYPE_KV "*" s;
  declare NGX_WA_SHM_TYPE_QUEUE "jobs" s.

Definition metrics_zone : ngx_wa_shm_mapping_t quota :=
  {| map_name := ngx_string "metrics";
     map_zone := {| shm_type := NGX_WA_SHM_TYPE_METRICS; shm_eviction := NGX_WA_SHM_EVICTION_NONE;
                    shm_name := ngx_string "metrics"; shm_pool := quota_pool 4096; shm_size := 4096;
                    shm_data_ := DATA_NULL |} |}.

Definition started : list (ngx_wa_shm_mapping_t quota) :=
  match ngx_wa_shm_init geometry_4k true (fun shm => Ret (NGX_OK, shm)) (default [] declared ++ [metrics_zone]) with
  | Ret (_, s) => s
  | Fault _ => []
  end.

(** A guest with a key at 8, a value at 24 and room at 64. *)
Definition guest (key value : String.string) (s : list (ngx_wa_shm_mapping_t quota))
    : host (option (list (ngx_wa_shm_mapping_t quota))) :=
  let k := ngx_string key in let v := ngx_string value in
  {| h_memory := {| mem_base := 4096;
       mem_data := replicate 8 x00 ++ k ++ replicate (16 - length k) x00 ++ v
                   ++ replicate (16 - length v) x00 ++ replicate 88 x00 |};
     h_trap := []; h_env := Some s |}.
Arguments guest key%_string_scope value%_string_scope.

Abbreviation get_shared := (ngx_proxy_wasm_hfuncs_get_shared_data true sum_hash geometry_4k printf_noargs (alloc_at 64)).
Abbreviation set_shared := (ngx_proxy_wasm_hfuncs_set_shared_data true sum_hash geometry_4k printf_noargs).
Abbreviation send := (ngx_proxy_wasm_hfuncs_enqueue_shared_queue true printf_noargs).
Abbreviation receive := (ngx_proxy_wasm_hfuncs_dequeue_shared_queue true printf_noargs (alloc_at 64)).

(** Sets a key with a counter; gets a key: the answer and the counter, pointer, length and bytes
    in the memory. *)
Definition set_key (key value : String.string) (cas : Z) (s : list (ngx_wa_shm_mapping_t quota)) :=
  set_shared 8 (zlen (ngx_string key)) 24 (zlen (ngx_string value)) cas (guest key value s).
Arguments set_key key%_string_scope value%_string_scope.
Definition get_key (key : String.string) (n : Z) (s : list (ngx_wa_shm_mapping_t quota)) :=
  match get_shared 8 (zlen (ngx_string key)) 48 52 56 (guest key String.EmptyString s) with
  | Ret (ret, h) => Some (ret, [peek (h_memory h) 56 4; peek (h_memory h) 48 4; peek (h_memory h) 52 4;
                                peek (h_memory h) 64 n])
  | Fault _ => None
  end.
Arguments get_key key%_string_scope.

(** The zones after a call. *)
Definition after {A} (r : outcome (A * host (option (list (ngx_wa_shm_mapping_t quota))))) :=
  match r with Ret (_, h) => default [] (h_env h) | Fault _ => [] end.

Example set_then_get :
  get_key "kv1/k" 5 (after (set_key "kv1/k" "value" 0 started)) =
  Some (ngx_proxy_wasm_result_ok, [Ret (enc32 1); Ret (enc32 64); Ret (enc32 5); Ret (ngx_string "value")]).
Proof. by vm_compute. Qed.

(** "*/k" names the default zone, as "k" does, but is another key in it. *)
Example default_prefix_is_another_key :
  let s := after (set_key "k" "value" 0 started) in
  (exists l, get_key "k" 5 s = Some (ngx_proxy_wasm_result_ok, l)) /\
  exists l, get_key "*/k" 5 s = Some (ngx_proxy_wasm_result_notfound, l).
Proof. split; eexists; by vm_compute. Qed.

(** The prefix is a part of the key in the zone "kv1". *)
Example prefix_is_stored :
  match map_zone <$> after (set_key "kv1/k" "value" 0 started) !! 0%nat with
  | Some shm => exists kv, shm_data_ shm = DATA_KV kv /\ view kv (sum_hash (ngx_string "k")) = None /\
                           view kv (sum_hash (ngx_string "kv1/k")) = Some (ngx_string "value", 1)
  | None => False
  end.
Proof. vm_compute. eexists. by split_and!. Qed.

(** A key with the prefix of the metrics. *)
Example metrics_as_a_queue :
  match set_key "metrics/k" "value" 0 started with
  | Ret (ret, h) => ret.1 = NGX_WAVM_BAD_USAGE /\ h_trap h = set_in_queue
  | Fault _ => False
  end.
Proof. by vm_compute. Qed.

(** A second write with the counter of a new key. *)
Example stale_counter :
  (match set_key "k" "other" 0 (after (set_key "k" "value" 0 started)) with
   | Ret (ret, _) => ret
   | Fault _ => (0, None)
   end) = ngx_proxy_wasm_result_cas_mismatch.
Proof. by vm_compute. Qed.

Definition send_msg (msg : String.string) (s : list (ngx_wa_shm_mapping_t quota)) :=
  send 2 24 (zlen (ngx_string msg)) (guest String.EmptyString msg s).
Arguments send_msg msg%_string_scope.

Example oldest_first :
  let s := after (send_msg "two" (after (send_msg "first" started))) in
  match receive 2 48 52 (guest String.EmptyString String.EmptyString s) with
  | Ret (ret, h) => ret = ngx_proxy_wasm_result_ok /\
      [peek (h_memory h) 48 4; peek (h_memory h) 52 4; peek (h_memory h) 64 5] =
      [Ret (enc32 64); Ret (enc32 5); Ret (ngx_string "first")]
  | Fault _ => False
  end.
Proof. by vm_compute. Qed.

Lemma started_kv : kv_zone sum_hash geometry_4k (guest "kv1/k" "value" started) (ngx_string "kv1/k") 0 started
  (default metrics_zone (started !! 0%nat))
  (store_of NGX_WA_SHM_EVICTION_SLRU 16384 []).
Proof.
  split; [done|by exists (ngx_string "kv1"), (ngx_string "k")|by vm_compute|by vm_compute|].
  apply reachable_wf; [exact geometry_4k_ok|]. by apply store_of_reachable.
Qed.

Lemma shared_data_set_get_witness :
  exists h1, set_key "kv1/k" "value" 0 started = Ret (ngx_proxy_wasm_result_ok, h1) /\
    wrap32 0 = current_cas (store_of NGX_WA_SHM_EVICTION_SLRU 16384 []) (sum_hash (ngx_string "kv1/k")).
Proof.
  eexists. split; [vm_compute; reflexivity|].
  eapply (shared_data_set_get true sum_hash geometry_4k geometry_4k_ok printf_noargs (alloc_at 64)
    (guest "kv1/k" "value" started) _ 8 5 _ (ngx_string "kv1/k") 24 5 _ (ngx_string "value") 0 0 started _ _ started_kv).
  - split; [lia|reflexivity|reflexivity].
  - split; [lia|reflexivity|reflexivity].
  - vm_compute. reflexivity.
Defined.

Definition jobs : ShmQueue.ngx_wa_shm_queue_t :=
  {| ShmQueue.buffer := replicate (Z.to_nat 12288) x00; ShmQueue.push_ptr := 0; ShmQueue.pop_ptr := 0;
     ShmQueue.rising_occupancy := false |}.

Lemma started_queue : queue_zone (guest "" "first" started) 2 2 started (default metrics_zone (started !! 2%nat)) jobs [].
Proof.
  split; [done|by vm_compute|by vm_compute|by vm_compute|].
  split; [split|by vm_compute|done]; split; vm_compute; (discriminate || done).
Qed.

Lemma shared_queue_send_receive_witness :
  exists q1 h1, send_msg "first" started = Ret (ngx_proxy_wasm_result_ok, h1) /\
    ShmQueue.represents q1 [ngx_string "first"].
Proof.
  destruct (shared_queue_send_receive true printf_noargs (alloc_at 64) (guest "" "first" started) 2 2 started _
    jobs [] 24 5 (Some {| g_base := 4096; g_off := 24 |}) (ngx_string "first") started_queue) as (q1 & H & _).
  - split; [lia|reflexivity|reflexivity].
  - match type of H with if ?full then _ else _ => assert (Hroom : full = false) by (vm_compute; reflexivity) end.
    rewrite Hroom in H. destruct H as [Hr E]. exists q1. eexists. split; [exact E|exact Hr].
Defined.

End HostShmRuns.
