(* ===== verification/HostMetrics.v ===== *)
(** * Metrics of the guests

    The host functions that define, update and read a metric
    (src/src/common/proxy_wasm/ngx_proxy_wasm_host.c, "metrics"), over the metrics of
    src/src/common/metrics/ngx_wa_metrics.c ([Metrics]). *)
From S2P Require Import Prelude NginxCore Host Histogram ShmKv Metrics.
From stdpp Require Export list gmap.
#[global] Open Scope Z_scope.

Module HostMetrics.
Import Host Histogram Metrics.

(** [PW_METRIC_OTHER] is any other number a guest gives. *)
Inductive ngx_proxy_wasm_metric_type_e :=
| NGX_PROXY_WASM_METRIC_COUNTER
| NGX_PROXY_WASM_METRIC_GAUGE
| NGX_PROXY_WASM_METRIC_HISTOGRAM
| PW_METRIC_OTHER (n : Z).

(** What the functions use: the metrics, the worker they run in, the time and the name of the
    filter. *)
Record metrics_env (S : Type) := {
  hm_metrics : ngx_wa_metrics_t S;
  hm_worker : option nat;
  hm_now : Z;
  hm_filter_name : bytes;
}.
Arguments hm_metrics {S}. Arguments hm_worker {S}. Arguments hm_now {S}. Arguments hm_filter_name {S}.

Section host_metrics.
Context {S P : Type} `{MetricStore S P} `{Slab P}.
Context (debug : bool).
Context (ngx_crc32_long : bytes -> Z).
Context (ngx_vsnprintf : nat -> bytes -> option bytes).
(** What "%ui" prints. *)
Context (sprintf_ui : Z -> bytes).

Abbreviation M := (SM (host (metrics_env S))).
Abbreviation LIFT := (NGX_WAVM_HOST_LIFT ngx_vsnprintf).
Abbreviation LIFT_SLICE := (NGX_WAVM_HOST_LIFT_SLICE ngx_vsnprintf).

Definition set_metrics (ms : ngx_wa_metrics_t S) (e : metrics_env S) : metrics_env S :=
  {| hm_metrics := ms; hm_worker := hm_worker e; hm_now := hm_now e; hm_filter_name := hm_filter_name e |}.

(** A computation on the metrics. *)
Definition on_metrics {A} (f : metrics_env S -> outcome (A * ngx_wa_metrics_t S)) : M A :=
  on_env (fun e => let? (a, ms) := f e in Ret (a, set_metrics ms e)).

(** ** The messages of the traps

    They are printed to a zeroed array of [NGX_MAX_ERROR_STR] bytes without checking its end,
    and used as a format, up to the first null byte. *)

Definition NGX_MAX_ERROR_STR : Z := 2048.

Definition c_string (s : bytes) : bytes :=
  match list_find (fun c => c = x00) s with Some (i, _) => take i s | None => s end.

Definition result_trap (msg : bytes) : M host_ret :=
  let fmt := c_string msg in
  if (NGX_MAX_ERROR_STR <? zlen msg) || (zlen fmt =? NGX_MAX_ERROR_STR) then slift (Fault F_memory)
  else ngx_proxy_wasm_result_trap ngx_vsnprintf fmt NGX_WAVM_ERROR.

Definition unknown_type (name : bytes) (pw_type : Z) : bytes :=
  ngx_string "could not define metric " ++ x22 :: name ++ x22 :: ngx_string ": unknown type "
    ++ x22 :: sprintf_ui pw_type ++ [x22].
Definition name_too_long (name : bytes) : bytes :=
  ngx_string "could not define metric: name " ++ x22 :: name ++ x22 :: ngx_string " too long".
Definition define_no_memory (name : bytes) : bytes :=
  ngx_string "could not define metric " ++ x22 :: name ++ x22 :: ngx_string ": no memory (increase "
    ++ quoted "slab_size" ++ ngx_string " directive)".
Definition could_not (what : String.string) (id : Z) : bytes :=
  ngx_string what ++ x22 :: sprintf_ui id ++ [x22].
Arguments could_not what%_string_scope.

(** The name in the zone: "pw:%V:%V". *)
Definition prefixed_name (filter_name name : bytes) : bytes :=
  ngx_string "pw:" ++ filter_name ++ ngx_string ":" ++ name.

Definition metric_of (pw_type : ngx_proxy_wasm_metric_type_e) : Z + Z :=
  match pw_type with
  | NGX_PROXY_WASM_METRIC_COUNTER => inl NGX_WA_METRIC_COUNTER
  | NGX_PROXY_WASM_METRIC_GAUGE => inl NGX_WA_METRIC_GAUGE
  | NGX_PROXY_WASM_METRIC_HISTOGRAM => inl NGX_WA_METRIC_HISTOGRAM
  | PW_METRIC_OTHER n => inr n
  end.

Definition ngx_proxy_wasm_hfuncs_define_metric (pw_type : ngx_proxy_wasm_metric_type_e)
    (args1 args2 args3 : Z) : M host_ret :=
  let name_len := size_of_i32 args2 in
  LIFT_SLICE args1 name_len (fun name_data =>
  LIFT_SLICE args3 4 (fun id =>
  name ← read_at name_data name_len;
  match metric_of pw_type with
  | inr n => result_trap (unknown_type name n)
  | inl type =>
      e ← gets h_env;
      if max_metric_name_length (hm_metrics e) <? wrap64 (4 + zlen (hm_filter_name e) + zlen name)
      then result_trap (name_too_long name)
      else
        '(rc, mid) ← on_metrics (fun e =>
          let? (rc, ms, mid) := ngx_wa_metrics_define ngx_crc32_long (hm_metrics e)
                                  (prefixed_name (hm_filter_name e) name) type None 0 in
          Ret ((rc, mid), ms));
        (match mid with Some mid => write_at id (enc32 mid) | None => mret tt end);;
        match rc with
        | NGX_ERROR => result_trap (define_no_memory name)
        | NGX_OK => mret ngx_proxy_wasm_result_ok
        | _ => ngx_proxy_wasm_result_trap ngx_vsnprintf (ngx_string "unknown error") NGX_WAVM_ERROR
        end
  end)).

Definition NGX_WA_METRICS_HISTOGRAM_MAX_SIZE : Z :=
  sizeof_ngx_wa_metrics_histogram_t + sizeof_ngx_wa_metrics_bin_t * NGX_WA_METRICS_HISTOGRAM_BINS_MAX.

Definition set_heap (ms : ngx_wa_metrics_t S) (hs : gmap addr ngx_wa_metrics_histogram_t) : ngx_wa_metrics_t S :=
  {| workers := workers ms; max_metric_name_length := max_metric_name_length ms;
     store := store ms; heap := hs |}.

(** [ngx_wa_metrics_get] with a histogram of the caller's stack for the result. *)
Definition get_on_stack (mid : Z) : M (ngx_rc * option (Z * Z)) :=
  on_metrics (fun e =>
    let ms := hm_metrics e in
    let h_buf : addr := fresh (dom (heap ms)) in
    let? buf := ngx_wa_metrics_histogram_set_buffer NGX_WA_METRICS_HISTOGRAM_MAX_SIZE in
    let? (rc, ms, m) := ngx_wa_metrics_get debug (set_heap ms (<[h_buf := buf]> (heap ms))) mid h_buf in
    Ret ((rc, m), set_heap ms (delete h_buf (heap ms)))).

Definition ngx_proxy_wasm_hfuncs_get_metric (args0 args1 : Z) : M host_ret :=
  let metric_id := wrap32 args0 in
  LIFT args1 8 8 (fun ret_value =>
  '(rc, m) ← get_on_stack metric_id;
  let '(type, value) := default (0, 0) m in
  if is_ok rc && negb (type =? NGX_WA_METRIC_HISTOGRAM) then
    (if (type =? NGX_WA_METRIC_COUNTER) || (type =? NGX_WA_METRIC_GAUGE)
     then write_at ret_value (enc64 value) else mret tt);;
    mret ngx_proxy_wasm_result_ok
  else
    let msg := could_not "could not retrieve metric id " metric_id in
    result_trap (msg ++ match rc with
                        | NGX_DECLINED => ngx_string ": metric not found"
                        | _ => if type =? NGX_WA_METRIC_HISTOGRAM
                               then ngx_string ": metric is a histogram" else []
                        end)).

(** The update failed. *)
Definition update_failed (what : String.string) (metric_id : Z) (rc : ngx_rc) (misuse : String.string) : M host_ret :=
  let msg := could_not what metric_id ++ ngx_string ": " in
  match rc with
  | NGX_DECLINED => result_trap (msg ++ ngx_string "metric not found")
  | NGX_ABORT => result_trap (msg ++ ngx_string misuse)
  | _ => slift (ngx_wa_assert debug (is_ok rc));; result_trap msg
  end.
Arguments update_failed what%_string_scope metric_id rc misuse%_string_scope.

Definition ngx_proxy_wasm_hfuncs_record_metric (args0 args1 : Z) : M host_ret :=
  let metric_id := wrap32 args0 in
  rc ← on_metrics (fun e => ngx_wa_metrics_record (hm_metrics e) (hm_worker e) (hm_now e) metric_id args1);
  if is_ok rc then mret ngx_proxy_wasm_result_ok
  else update_failed "could not record value in metric id " metric_id rc "metric is a counter".

Definition ngx_proxy_wasm_hfuncs_increment_metric (args0 args1 : Z) : M host_ret :=
  let metric_id := wrap32 args0 in
  rc ← on_metrics (fun e => ngx_wa_metrics_increment (hm_metrics e) (hm_worker e) metric_id args1);
  if is_ok rc then mret ngx_proxy_wasm_result_ok
  else update_failed "could not increment metric id " metric_id rc "metric not a counter".

End host_metrics.
Arguments set_metrics {S} ms e.
Arguments could_not sprintf_ui what%_string_scope id.

(** ** What the guests see of a counter *)

Section facts.
Context {S P : Type} `{MS : MetricStore S P} `{SP : Slab P} {crc : bytes -> Z}.
Context {ML : MetricStoreLaws S P crc}.
Context (debug : bool) (ngx_vsnprintf : nat -> bytes -> option bytes) (sprintf_ui : Z -> bytes).

Abbreviation define_metric := (ngx_proxy_wasm_hfuncs_define_metric crc ngx_vsnprintf sprintf_ui).
Abbreviation get_metric := (ngx_proxy_wasm_hfuncs_get_metric debug ngx_vsnprintf sprintf_ui).
Abbreviation increment_metric := (ngx_proxy_wasm_hfuncs_increment_metric debug ngx_vsnprintf sprintf_ui).

(** A guest when the metrics are [ms]. *)
Definition with_metrics (ms : ngx_wa_metrics_t S) (h : host (metrics_env S)) : host (metrics_env S) :=
  set_env (set_metrics ms (h_env h)) h.

(** Guests, each in its worker, increment a metric one after the other. *)
Fixpoint guests_increment (ms : ngx_wa_metrics_t S) (id : Z) (l : list (host (metrics_env S) * Z))
    : outcome (list host_ret * ngx_wa_metrics_t S) :=
  match l with
  | [] => Ret ([], ms)
  | (h, n) :: l =>
      let? (ret, h) := increment_metric id n (with_metrics ms h) in
      let? (rets, ms) := guests_increment (hm_metrics (h_env h)) id l in
      Ret (ret :: rets, ms)
  end.

Definition by_worker (c : host (metrics_env S) * Z) : option nat * Z := (hm_worker (h_env c.1), c.2).

Definition counter_value (ms : ngx_wa_metrics_t S) (mid : Z) : Z :=
  match metric_view ms mid with Some m => sum_words m 0 (workers ms) | None => 0 end.

Lemma guests_increment_spec id l : forall ms ms',
  increments (P := P) ms (wrap32 id) (by_worker <$> l) = Ret (NGX_OK, ms') ->
  guests_increment ms id l = Ret (replicate (length l) ngx_proxy_wasm_result_ok, ms').
Proof.
  induction l as [|[h n] l IH]; intros ms ms'; cbn [fmap list_fmap increments]; [by intros [= <-]|].
  cbn [by_worker fst snd guests_increment]. intros E.
  destruct (ngx_wa_metrics_increment ms (hm_worker (h_env h)) (wrap32 id) n) as [[rc ms1]|] eqn:E1; [|done].
  cbn [obind] in E. destruct (is_ok rc) eqn:Eok; [|apply bool_decide_eq_false in Eok; congruence].
  unfold ngx_proxy_wasm_hfuncs_increment_metric.
  erewrite SM_bind_Ret by (unfold on_metrics, on_env; cbn; rewrite E1; reflexivity).
  rewrite Eok. cbn [obind mret SM_ret]. cbn. rewrite (IH _ _ E). done.
Qed.

Lemma get_on_stack_spec ms mid m t v h :
  ms_ok ms -> metric_view ms mid = Some m -> metric_type m = Ret t ->
  (t = NGX_WA_METRIC_COUNTER /\ get_counter m (workers ms) = Ret v \/
   t = NGX_WA_METRIC_GAUGE /\ get_gauge m (workers ms) = Ret v) ->
  get_on_stack (P := P) debug mid (with_metrics ms h) = Ret ((NGX_OK, Some (t, v)), with_metrics ms h).
Proof.
  intros [Hs Hm] Hv Ht Hc. unfold get_on_stack, on_metrics, on_env. cbn [with_metrics set_env set_metrics h_env hm_metrics].
  set (h_buf := fresh (dom (heap ms))).
  set (buf := ngx_wa_metrics_histogram_set_buffer _). vm_compute in buf. subst buf. cbn [obind].
  assert (Hf : heap ms !! h_buf = None) by (apply not_elem_of_dom, is_fresh).
  rewrite (metrics_get_spec debug _ mid m h_buf t v).
  - cbn -[h_buf]. rewrite delete_insert_id by done. by destruct h, ms.
  - by split.
  - done.
  - done.
  - done.
Qed.

Lemma get_metric_counter ms id m rp rg h :
  ms_ok ms -> metric_view ms (wrap32 id) = Some m -> metric_type m = Ret NGX_WA_METRIC_COUNTER ->
  ngx_wavm_memory_lift (h_memory h) (wrap32 rp) 8 8 = (rg, true) ->
  exists d, mem_write (mem_data (h_memory h)) (wrap32 rp) (enc64 (wrap64 (sum_words m 0 (workers ms)))) = Ret d /\
    get_metric id rp (with_metrics ms h) =
      Ret (ngx_proxy_wasm_result_ok, set_memory (set_data (h_memory h) d) (with_metrics ms h)).
Proof.
  intros Hok Hv Ht Hl. pose proof (get_counter_spec _ _ (ok_metrics _ Hok _ _ Hv)) as Hc.
  pose proof (get_on_stack_spec ms _ m _ _ h Hok Hv Ht (or_introl (conj eq_refl Hc))) as E.
  destruct (write_lifted (wrap32 rp) 8 8 rg (enc64 (wrap64 (sum_words m 0 (workers ms)))) (h_memory h)
    (with_metrics ms h)) as (d & Hd & Ew); try done; [apply wrap32_range|].
  exists d. split; [done|]. unfold ngx_proxy_wasm_hfuncs_get_metric. erewrite LIFT_lifted by exact Hl.
  rewrite (SM_bind_Ret _ _ _ _ _ E). cbn beta iota delta [default from_option Datatypes.id].
  change (is_ok NGX_OK && negb (NGX_WA_METRIC_COUNTER =? NGX_WA_METRIC_HISTOGRAM)) with true.
  change ((NGX_WA_METRIC_COUNTER =? NGX_WA_METRIC_COUNTER) || _) with true. cbv iota.
  by erewrite SM_bind_Ret by exact Ew.
Qed.

(** A guest that defines a counter. *)
Lemma define_counter ms np nl ng name idp idg h :
  ms_ok ms -> slice_arg (h_memory h) np nl ng name ->
  ngx_wavm_memory_lift (h_memory h) (wrap32 idp) 4 1 = (idg, true) ->
  4 + zlen (hm_filter_name (h_env h)) + zlen name <= max_metric_name_length ms < 2 ^ 64 ->
  let mid := crc (prefixed_name (hm_filter_name (h_env h)) name) in
  exists ms1, only ms ms1 mid /\
    ((define_metric NGX_PROXY_WASM_METRIC_COUNTER np nl idp (with_metrics ms h) =
        result_trap ngx_vsnprintf (define_no_memory name) (with_metrics ms1 h) /\
      metric_view ms mid = None /\ metric_view ms1 mid = None) \/
     exists d, mem_write (mem_data (h_memory h)) (wrap32 idp) (enc32 mid) = Ret d /\
       define_metric NGX_PROXY_WASM_METRIC_COUNTER np nl idp (with_metrics ms h) =
         Ret (ngx_proxy_wasm_result_ok, set_memory (set_data (h_memory h) d) (with_metrics ms1 h)) /\
       match metric_view ms mid with
       | Some _ => ms1 = ms
       | None => metric_view ms1 mid = Some (zero_metric (workers ms) NGX_WA_METRIC_COUNTER)
       end).
Proof.
  intros Hok Hn Hid Hlen mid. set (pname := prefixed_name _ _) in mid.
  pose proof (zlen_nonneg name). pose proof (zlen_nonneg (hm_filter_name (h_env h))).
  assert (Hpl : zlen pname = 4 + zlen (hm_filter_name (h_env h)) + zlen name)
    by (unfold pname, prefixed_name; rewrite !zlen_app; change (zlen (ngx_string "pw:")) with 3; change (zlen (ngx_string ":")) with 1; lia).
  pose proof (define_spec ms pname NGX_WA_METRIC_COUNTER None 0 Hok ltac:(lia) ltac:(by left)) as Hd.
  fold mid in Hd. unfold ngx_proxy_wasm_hfuncs_define_metric.
  rewrite (LIFT_SLICE_arg _ _ _ ng name) by done.
  rewrite (LIFT_SLICE_lifted _ _ 4 idg) by (done || lia).
  erewrite SM_bind_Ret by (eapply read_arg; done). cbn [metric_of].
  erewrite SM_bind_Ret by reflexivity.
  change (max_metric_name_length (hm_metrics (h_env (with_metrics ms h)))) with (max_metric_name_length ms).
  change (hm_filter_name (h_env (with_metrics ms h))) with (hm_filter_name (h_env h)).
  rewrite wrap64_id by zlia. rewrite (proj2 (Z.ltb_ge _ _)) by lia.
  assert (Hdef : exists ms1, only ms ms1 mid /\
    ((ngx_wa_metrics_define crc ms pname NGX_WA_METRIC_COUNTER None 0 = Ret (NGX_ERROR, ms1, None) /\
        metric_view ms mid = None /\ metric_view ms1 mid = None) \/
     ngx_wa_metrics_define crc ms pname NGX_WA_METRIC_COUNTER None 0 = Ret (NGX_OK, ms1, Some mid) /\
       match metric_view ms mid with
       | Some _ => ms1 = ms
       | None => metric_view ms1 mid = Some (zero_metric (workers ms) NGX_WA_METRIC_COUNTER)
       end)).
  { destruct (metric_view ms mid).
    - exists ms. split; [by apply only_refl|]. by right.
    - destruct Hd as (ms1 & Ho & [[E Hv]|[E Hv]]); exists ms1; (split; [done|]); [by right|by left]. }
  destruct Hdef as (ms1 & Ho & [(E & Hv & Hv1)|[E Hv]]); exists ms1; (split; [done|]).
  - left. split; [|done].
    erewrite SM_bind_Ret by (unfold on_metrics, on_env; cbn -[ngx_wa_metrics_define prefixed_name];
      fold pname; rewrite E; reflexivity). done.
  - right. destruct (write_lifted (wrap32 idp) 4 1 idg (enc32 mid) (h_memory h) (with_metrics ms1 h))
      as (d & Hw & Ew); try done; [apply wrap32_range|].
    exists d. split; [done|]. split; [|done].
    erewrite SM_bind_Ret by (unfold on_metrics, on_env; cbn -[ngx_wa_metrics_define prefixed_name];
      fold pname; rewrite E; reflexivity). cbn beta iota.
    by erewrite SM_bind_Ret by exact Ew.
Qed.

(** C30. A guest that defines a counter gets the identifier of its name with the prefix of its
    filter, or traps without memory and there is no such metric.  From then on, whatever
    guests increment the counter, in whatever workers and order, each succeeds, and any
    guest reads what the counter was (0 when it is new) plus the sum of the increments,
    modulo 2^64.  No other metric changes. *)
Theorem guest_counter_counts_all ms np nl ng name idp idg h :
  ms_ok ms -> (0 < workers ms)%nat -> slice_arg (h_memory h) np nl ng name ->
  ngx_wavm_memory_lift (h_memory h) (wrap32 idp) 4 1 = (idg, true) ->
  4 + zlen (hm_filter_name (h_env h)) + zlen name <= max_metric_name_length ms < 2 ^ 64 ->
  let mid := crc (prefixed_name (hm_filter_name (h_env h)) name) in
  (forall m, metric_view ms mid = Some m -> metric_type m = Ret NGX_WA_METRIC_COUNTER) ->
  exists ms1, only ms ms1 mid /\
    ((define_metric NGX_PROXY_WASM_METRIC_COUNTER np nl idp (with_metrics ms h) =
        result_trap ngx_vsnprintf (define_no_memory name) (with_metrics ms1 h) /\
      metric_view ms1 mid = None) \/
     exists d, mem_write (mem_data (h_memory h)) (wrap32 idp) (enc32 mid) = Ret d /\
       define_metric NGX_PROXY_WASM_METRIC_COUNTER np nl idp (with_metrics ms h) =
         Ret (ngx_proxy_wasm_result_ok, set_memory (set_data (h_memory h) d) (with_metrics ms1 h)) /\
       forall id calls h2 rp rg,
         wrap32 id = mid ->
         Forall (fun c => (process_slot (by_worker c).1 < workers ms)%nat) calls ->
         ngx_wavm_memory_lift (h_memory h2) (wrap32 rp) 8 8 = (rg, true) ->
         exists ms2 d2,
           guests_increment ms1 id calls = Ret (replicate (length calls) ngx_proxy_wasm_result_ok, ms2) /\
           only ms ms2 mid /\
           mem_write (mem_data (h_memory h2)) (wrap32 rp)
             (enc64 (wrap64 (counter_value ms mid + total (by_worker <$> calls)))) = Ret d2 /\
           get_metric id rp (with_metrics ms2 h2) =
             Ret (ngx_proxy_wasm_result_ok, set_memory (set_data (h_memory h2) d2) (with_metrics ms2 h2))).
Proof.
  intros Hok Hpos Hn Hid Hlen mid Hc.
  destruct (define_counter ms np nl ng name idp idg h Hok Hn Hid Hlen) as (ms1 & Ho & Hdef).
  fold mid in Ho, Hdef. exists ms1. split; [done|].
  destruct Hdef as [(E & _ & Hv1)|(d & Hw & E & Hv)]; [by left|right]. exists d. split; [done|]. split; [done|].
  intros id calls h2 rp rg Hmid Hcalls Hrp.
  assert (Hcounter : exists m, metric_view ms1 mid = Some m /\ metric_type m = Ret NGX_WA_METRIC_COUNTER /\
    sum_words m 0 (workers ms) = counter_value ms mid).
  { unfold counter_value. destruct (metric_view ms mid) as [m|] eqn:Hm.
    - subst ms1. exists m. auto.
    - eexists. split; [exact Hv|]. split; [apply zero_metric_type; unfold is_u32, NGX_WA_METRIC_COUNTER; lia|].
      by rewrite sum_zero_metric. }
  destruct Hcounter as (m & Hm & Ht & Hsum).
  destruct (increments_spec mid (by_worker <$> calls) ms1 m) as (ms2 & m2 & Ei & Ho2 & Hv2 & Ht2 & Hs2);
    [apply Ho|done|done| |].
  { rewrite (only_workers _ _ _ Ho). by apply Forall_fmap. }
  rewrite (only_workers _ _ _ Ho), Hsum in Hs2.
  destruct (get_metric_counter ms2 id m2 rp rg h2) as (d2 & Hd2 & Eg); [apply Ho2|by rewrite Hmid|done|done|].
  rewrite (only_workers _ _ _ Ho2), (only_workers _ _ _ Ho), Hs2 in Hd2.
  exists ms2, d2. split_and!; [apply guests_increment_spec; by rewrite Hmid|by eapply only_trans|done|done].
Qed.

End facts.

End HostMetrics.

(** ** Executions *)

Module HostMetricsRuns.
Import Host HostRuns ShmKv Histogram Metrics HostMetrics NginxCore.Reference.
#[local] Existing Instance Metrics.sum_store.
#[local] Existing Instance Metrics.sum_store_laws.

Abbreviation kv := (ngx_wa_shm_kv_t quota).

(** Metrics of [w] workers in a zone without metrics. *)
Definition no_metrics (w : nat) : ngx_wa_metrics_t kv :=
  {| workers := w; max_metric_name_length := 64; store := store_of NGX_WA_SHM_EVICTION_NONE 4096 [];
     heap := ∅ |}.

Lemma no_metrics_ok w : ms_ok (no_metrics w).
Proof.
  apply kv_ms_ok; [|apply map_Forall_empty].
  apply ShmKv.reachable_wf; [exact geometry_4k_ok|]. by apply store_of_reachable.
Qed.

(** A filter whose guest has a name at 8 and room at 48, in a worker. *)
Definition guest (filter name : String.string) (worker : option nat) (ms : ngx_wa_metrics_t kv)
    : host (metrics_env kv) :=
  let n := ngx_string name in
  {| h_memory := {| mem_base := 4096; mem_data := replicate 8 x00 ++ n ++ replicate (56 - length n) x00 |};
     h_trap := [];
     h_env := {| hm_metrics := ms; hm_worker := worker; hm_now := 100; hm_filter_name := ngx_string filter |} |}.
Arguments guest filter%_string_scope name%_string_scope.

(** Digits are not needed here. *)
Definition ui (n : Z) : bytes := [z2b (48 + n mod 10)].

Abbreviation define := (ngx_proxy_wasm_hfuncs_define_metric sum_hash printf_noargs ui).
Abbreviation increment := (ngx_proxy_wasm_hfuncs_increment_metric true printf_noargs ui).
Abbreviation record := (ngx_proxy_wasm_hfuncs_record_metric true printf_noargs ui).
Abbreviation get := (ngx_proxy_wasm_hfuncs_get_metric true printf_noargs ui).

Definition define_as (type : ngx_proxy_wasm_metric_type_e) (filter name : String.string) (ms : ngx_wa_metrics_t kv) :=
  define type 8 (zlen (ngx_string name)) 48 (guest filter name None ms).
Arguments define_as type filter%_string_scope name%_string_scope.

(** The code, the identifier and the metrics; the trap otherwise. *)
Definition defined (r : outcome (host_ret * host (metrics_env kv))) : outcome (host_ret * outcome bytes * bytes) :=
  let? (ret, h) := r in Ret (ret, peek (h_memory h) 48 4, h_trap h).
Definition metrics_after {A} (r : outcome (A * host (metrics_env kv))) : ngx_wa_metrics_t kv :=
  match r with Ret (_, h) => hm_metrics (h_env h) | Fault _ => no_metrics 1 end.

(** Filters with these names share a metric. *)
Example filters_share_a_metric :
  let one := define_as NGX_PROXY_WASM_METRIC_COUNTER "a" "b:c" (no_metrics 1) in
  let two := define_as NGX_PROXY_WASM_METRIC_GAUGE "a:b" "c" (metrics_after one) in
  prefixed_name (ngx_string "a") (ngx_string "b:c") = prefixed_name (ngx_string "a:b") (ngx_string "c") /\
  defined two = defined one /\ (match defined one with Ret (ret, _, _) => ret | Fault _ => (0, None) end) = ngx_proxy_wasm_result_ok.
Proof. by vm_compute. Qed.

(** A conversion in a name is one of the message. *)
Example name_is_a_format :
  defined (define_as (PW_METRIC_OTHER 7) "f" "hits" (no_metrics 1)) =
    Ret ((NGX_WAVM_ERROR, Some NGX_PROXY_WASM_RESULT_OK), Ret [x00; x00; x00; x00], unknown_type ui (ngx_string "hits") 7) /\
  define_as (PW_METRIC_OTHER 7) "f" "%s" (no_metrics 1) = Fault F_memory.
Proof. by vm_compute. Qed.

(** The message with a long name does not fit. *)
Example long_name_overflows :
  let name := replicate 2048 "n"%byte in
  match define NGX_PROXY_WASM_METRIC_COUNTER 8 2048 4 {|
    h_memory := {| mem_base := 4096; mem_data := replicate 8 x00 ++ name |}; h_trap := [];
    h_env := {| hm_metrics := no_metrics 1; hm_worker := None; hm_now := 0; hm_filter_name := ngx_string "f" |} |} with
  | Fault F_memory => True
  | _ => False
  end.
Proof. by vm_compute. Qed.

(** A metric of another type, and none. *)
Example misuse :
  let ms := metrics_after (define_as NGX_PROXY_WASM_METRIC_GAUGE "f" "g" (no_metrics 1)) in
  let id := sum_hash (prefixed_name (ngx_string "f") (ngx_string "g")) in
  (match increment id 1 (guest "f" "" None ms) with Ret (ret, h) => (ret.1, h_trap h) | Fault _ => (0, []) end)
    = (NGX_WAVM_ERROR, could_not ui "could not increment metric id " id ++ ngx_string ": metric not a counter") /\
  (match get (id + 1) 48 (guest "f" "" None ms) with Ret (ret, h) => (ret.1, h_trap h) | Fault _ => (0, []) end)
    = (NGX_WAVM_ERROR, could_not ui "could not retrieve metric id " (id + 1) ++ ngx_string ": metric not found").
Proof. by vm_compute. Qed.

(** A histogram is recorded but not read. *)
Example histogram_not_read :
  let ms := metrics_after (define_as NGX_PROXY_WASM_METRIC_HISTOGRAM "f" "h" (no_metrics 1)) in
  let id := sum_hash (prefixed_name (ngx_string "f") (ngx_string "h")) in
  let r := record id 5 (guest "f" "" None ms) in
  (match r with Ret (ret, _) => ret | Fault _ => (0, None) end) = ngx_proxy_wasm_result_ok /\
  (match get id 48 (guest "f" "" None (metrics_after r)) with Ret (ret, h) => (ret.1, h_trap h) | Fault _ => (0, []) end)
    = (NGX_WAVM_ERROR, could_not ui "could not retrieve metric id " id ++ ngx_string ": metric is a histogram").
Proof. by vm_compute. Qed.

Lemma guest_counter_counts_all_witness :
  exists ms1 ms2 d2 : _,
    guests_increment true printf_noargs ui ms1 (sum_hash (ngx_string "pw:f:hits"))
      [(guest "f" "" (Some 0%nat) ms1, 5); (guest "g" "" (Some 1%nat) ms1, 2 ^ 64 - 2)] =
      Ret ([ngx_proxy_wasm_result_ok; ngx_proxy_wasm_result_ok], ms2) /\
    mem_write (mem_data (h_memory (guest "f" "" None ms1))) 48 (enc64 3) = Ret d2.
Proof.
  destruct (guest_counter_counts_all (crc := sum_hash) true printf_noargs ui (no_metrics 2) 8 4
    (Some {| g_base := 4096; g_off := 8 |}) (ngx_string "hits") 48 (Some {| g_base := 4096; g_off := 48 |})
    (guest "f" "hits" None (no_metrics 2)) (no_metrics_ok 2)) as (ms1 & _ & [(E & _)|(d & _ & E & Hc)]).
  - cbn. lia.
  - split; [lia|reflexivity|reflexivity].
  - reflexivity.
  - vm_compute. split; [discriminate|reflexivity].
  - intros m Hm. vm_compute in Hm. discriminate.
  - exfalso. vm_compute in E. discriminate.
  - destruct (Hc (sum_hash (ngx_string "pw:f:hits"))
      [(guest "f" "" (Some 0%nat) ms1, 5); (guest "g" "" (Some 1%nat) ms1, 2 ^ 64 - 2)]
      (guest "f" "" None ms1) 48 (Some {| g_base := 4096; g_off := 48 |})) as (ms2 & d2 & E2 & _ & Hw & _).
    + reflexivity.
    + repeat constructor.
    + reflexivity.
    + exists ms1, ms2, d2. split; [exact E2|exact Hw].
Defined.

End HostMetricsRuns.
