(* ===== verification/MetricsReload.v ===== *)
(** * Metrics across a reload

    The configuration of the metrics and the start of a cycle
    (src/src/common/metrics/ngx_wa_metrics.c): the zone of the previous cycle is reused, or
    replaced by a new one to which its metrics are moved. *)
From S2P Require Import Prelude NginxCore ShmKv Histogram Metrics.
From stdpp Require Export list gmap.
#[global] Open Scope Z_scope.

Module MetricsReload.
Import Histogram Metrics.

Definition NGX_WA_METRICS_DEFAULT_MAX_NAME_LEN : Z := 256.
Definition NGX_WA_METRICS_DEFAULT_SLAB_SIZE : Z := 1024 * 1024 * 5.

Section reload.
Context {P : Type} `{Slab P} `{Rbtree}.
Context (ngx_crc32_long : bytes -> Z) (geometry : ShmKv.slab_geometry).
Abbreviation kv := (ShmKv.ngx_wa_shm_kv_t P).

(** The metrics of a cycle and their zone: [None] is [NGX_CONF_UNSET_SIZE] in the
    configuration and [NULL] for the store, which comes with the histograms in the slab. *)
Record metrics_zone := {
  mz_slab_size : option Z;
  mz_max_metric_name_length : option Z;
  mz_workers : nat;
  mz_mapping : bool;
  mz_noreuse : bool;
  mz_pool : P;
  mz_data : option (kv * gmap addr ngx_wa_metrics_histogram_t);
}.

(** The metrics of the new cycle, with those of the previous one. *)
Record metrics_cycle := { mc_metrics : metrics_zone; mc_old_metrics : option metrics_zone }.

Definition set_data (m : metrics_zone) (d : kv * gmap addr ngx_wa_metrics_histogram_t) : metrics_zone :=
  {| mz_slab_size := mz_slab_size m; mz_max_metric_name_length := mz_max_metric_name_length m;
     mz_workers := mz_workers m; mz_mapping := mz_mapping m; mz_noreuse := mz_noreuse m;
     mz_pool := mz_pool m; mz_data := Some d |}.
Definition set_noreuse (m : metrics_zone) (b : bool) : metrics_zone :=
  {| mz_slab_size := mz_slab_size m; mz_max_metric_name_length := mz_max_metric_name_length m;
     mz_workers := mz_workers m; mz_mapping := mz_mapping m; mz_noreuse := b;
     mz_pool := mz_pool m; mz_data := mz_data m |}.

(** [pool] is the slab of a zone that does not exist yet; [None] without memory. *)
Definition ngx_wa_metrics_alloc (pool : P) (alloc_metrics alloc_shm : bool) (old : option metrics_zone)
    : option metrics_cycle :=
  if negb alloc_metrics || negb alloc_shm then None
  else Some {| mc_metrics := {| mz_slab_size := None; mz_max_metric_name_length := None; mz_workers := 0;
                                mz_mapping := false; mz_noreuse := false; mz_pool := pool; mz_data := None |};
               mc_old_metrics := old |}.

(** The boolean is true for [NGX_CONF_OK], which is [NULL]: also what the function returns
    when the array cannot grow. *)
Definition ngx_wa_metrics_init_conf (worker_processes : nat) (pool_of : Z -> P) (push_ok add_ok : bool)
    (mc : metrics_cycle) : bool * metrics_cycle :=
  let m := mc_metrics mc in
  let size := default NGX_WA_METRICS_DEFAULT_SLAB_SIZE (mz_slab_size m) in
  let len := default NGX_WA_METRICS_DEFAULT_MAX_NAME_LEN (mz_max_metric_name_length m) in
  let configured (mapped noreuse : bool) :=
    {| mc_metrics := {| mz_slab_size := Some size; mz_max_metric_name_length := Some len;
                        mz_workers := worker_processes; mz_mapping := mapped; mz_noreuse := noreuse;
                        mz_pool := pool_of size; mz_data := mz_data m |};
       mc_old_metrics := mc_old_metrics mc |} in
  if negb push_ok then (true, configured false false)
  else if negb add_ok then (false, configured true false)
  else
    let noreuse := match mc_old_metrics mc with
                   | Some old => negb (worker_processes =? mz_workers old)%nat
                                 || negb (bool_decide (Some size = mz_slab_size old))
                   | None => false
                   end in
    (true, configured true noreuse).

(** The metrics with the operations of [Metrics]. *)
Definition metrics_of (m : metrics_zone) (d : kv * gmap addr ngx_wa_metrics_histogram_t) : ngx_wa_metrics_t kv :=
  {| workers := mz_workers m; max_metric_name_length := default 0 (mz_max_metric_name_length m);
     store := d.1; heap := d.2 |}.

#[local] Instance zone_store : MetricStore kv P := kv_metric_store ngx_crc32_long geometry.

(** The histograms of the previous zone are read while those of the new one are made. *)
Definition ngx_wa_metrics_shm_init (debug : bool) (now : Z) (mc : metrics_cycle)
    : outcome (ngx_rc * metrics_cycle) :=
  let m := mc_metrics mc in
  if negb (mz_mapping m) then Fault F_memory
  else
    match mc_old_metrics mc, mz_noreuse m with
    | Some old, false =>
        let? d := deref (mz_data old) in
        Ret (NGX_OK, {| mc_metrics := set_data m d; mc_old_metrics := Some old |})
    | old, _ =>
        match ShmKv.ngx_wa_shm_kv_init NGX_WA_SHM_EVICTION_NONE geometry (mz_pool m) with
        | (rc, None) => Ret (rc, mc)
        | (rc, Some s) =>
            match old with
            | None => Ret (NGX_OK, {| mc_metrics := set_data m (s, ∅); mc_old_metrics := None |})
            | Some old =>
                let? (old_kv, old_heap) := deref (mz_data old) in
                let old := set_noreuse old true in
                let m := set_noreuse m false in
                let? (rc, ms) := realloc_metrics ngx_crc32_long debug now (metrics_of m (s, old_heap))
                                   (ShmKv.tree old_kv) (ShmKv.nodes old_kv) (mz_workers old) in
                Ret (rc, {| mc_metrics := set_data m (store ms, heap ms); mc_old_metrics := Some old |})
            end
        end
    end.

End reload.
Arguments metrics_zone P : clear implicits.
Arguments metrics_cycle P : clear implicits.

(** ** A reload keeps the metrics *)

Section facts.
Context {P : Type} `{SlabLaws P} `{R : Rbtree} {RL : RbtreeLaws R}.
Context (crc : bytes -> Z) (geometry : ShmKv.slab_geometry) (Hgeo : ShmKv.geometry_ok geometry).
#[local] Instance zone_store' : MetricStore (ShmKv.ngx_wa_shm_kv_t P) P := kv_metric_store crc geometry.
#[local] Instance zone_laws : MetricStoreLaws (ShmKv.ngx_wa_shm_kv_t P) P crc :=
  kv_metric_store_laws crc geometry Hgeo.

Abbreviation wf := (ShmKv.wf crc NGX_WA_SHM_EVICTION_NONE geometry).

Lemma keys_nodup (l : list (addr * Z)) :
  NoDup l.*1 -> (forall a b h, (a, h) ∈ l -> (b, h) ∈ l -> a = b) -> NoDup l.*2.
Proof.
  induction l as [|[a h] l IH]; intros Hnd Hinj; cbn; [constructor|].
  apply NoDup_cons in Hnd as [Ha Hnd]. apply NoDup_cons. split.
  - intros ([b h'] & -> & Hb)%list_elem_of_fmap. cbn in *.
    assert (b = a) as -> by (eapply Hinj; [by right|by left]).
    apply Ha. apply list_elem_of_fmap. by exists (a, h').
  - apply IH; [done|]. intros b c k Hb Hc. by eapply Hinj; right.
Qed.

Lemma wf_keys (s : ShmKv.ngx_wa_shm_kv_t P) : wf s -> NoDup (rb_keys (ShmKv.tree s)).
Proof.
  intros [L _ _ _]. apply keys_nodup; [apply L|].
  intros a b h Ha Hb. apply (ShmKv.l_tree _ _ _ _ _ _ L) in Ha as (n & Hn & <-), Hb as (n' & Hn' & E).
  by eapply (ShmKv.l_inj _ _ _ _ _ _ L).
Qed.

(** What the previous cycle has: counters and gauges with names that are not too long. *)
Record movable_zone (len : Z) (old : metrics_zone P) (s : ShmKv.ngx_wa_shm_kv_t P) : Prop := {
  mvz_wf : wf s;
  mvz_workers : (0 < mz_workers old)%nat;
  mvz_nodes a n : ShmKv.nodes s !! a = Some n ->
    zlen (ShmKv.n_key n) <= len /\ metric_ok (mz_workers old) (ShmKv.n_value n) /\
    (metric_type (ShmKv.n_value n) = Ret NGX_WA_METRIC_COUNTER \/
     metric_type (ShmKv.n_value n) = Ret NGX_WA_METRIC_GAUGE);
}.

Lemma view_node (s : ShmKv.ngx_wa_shm_kv_t P) h m :
  wf s -> st_view s h = Some m ->
  exists a n, ShmKv.nodes s !! a = Some n /\ (a, h) ∈ rb_elements (ShmKv.tree s) /\ ShmKv.n_value n = m.
Proof.
  intros W Hv. cbn in Hv. apply fmap_Some in Hv as ([v c] & Hv & ->).
  apply (ShmKv.view_Some crc NGX_WA_SHM_EVICTION_NONE geometry) in Hv as (a & n & Hn & Hh & Hval & _); [|done].
  exists a, n. split_and!; [done| |done].
  apply (ShmKv.l_tree _ _ _ _ _ _ (ShmKv.wf_links _ _ _ _ W)). eauto.
Qed.

Lemma moved_refl w (ms : ngx_wa_metrics_t (ShmKv.ngx_wa_shm_kv_t P)) mid m t :
  workers ms = w -> metric_view ms mid = Some m -> metric_type m = Ret t -> moved w m ms mid.
Proof. intros <- Hv Ht. exists t, m. by split_and!. Qed.

(** Making the store of the new zone fails or gives the store that has no metric. *)
Lemma kv_init_inv pool rc os :
  ShmKv.ngx_wa_shm_kv_init NGX_WA_SHM_EVICTION_NONE geometry pool = (rc, os) ->
  (rc = NGX_ERROR /\ os = None) \/
  exists s0, rc = NGX_OK /\ os = Some s0 /\ wf s0 /\ forall h : Z, st_view s0 h = None.
Proof.
  intros E. assert (Hrc : os = None /\ rc = NGX_ERROR \/ os <> None /\ rc = NGX_OK).
  { unfold ShmKv.ngx_wa_shm_kv_init in E. destruct (slab_calloc _ _) as [[? ?]|]; injection E as <- <-; auto. }
  destruct Hrc as [[-> ->]|[Hos ->]]; [by left|right]. destruct os as [s0|]; [|done].
  apply (ShmKv.init_wf crc) in E as (W0 & Hv0 & _); [|exact Hgeo]. exists s0. split_and!; [done|done|done|].
  intros h. cbn. by rewrite Hv0.
Qed.

(** The nodes of a store that may be moved are as [realloc_metrics_spec] asks. *)
Lemma movable_elements len old s a h :
  movable_zone len old s -> (a, h) ∈ rb_elements (ShmKv.tree s) ->
  exists n, ShmKv.nodes s !! a = Some n /\ ShmKv.n_hash n = h /\ h = crc (ShmKv.n_key n) /\
    zlen (ShmKv.n_key n) <= len /\ metric_ok (mz_workers old) (ShmKv.n_value n) /\
    (metric_type (ShmKv.n_value n) = Ret NGX_WA_METRIC_COUNTER \/
     metric_type (ShmKv.n_value n) = Ret NGX_WA_METRIC_GAUGE).
Proof.
  intros [[L _ _ _] _ Hnodes] Hin. apply (ShmKv.l_tree _ _ _ _ _ _ L) in Hin as (n & Hna & Hh).
  exists n. split; [done|]. split; [done|]. split; [|by eapply Hnodes].
  rewrite <- Hh. by eapply (ShmKv.l_hash _ _ _ _ _ _ L).
Qed.

(** A zone that is not reused: made anew, the metrics copied to it. *)
Lemma shm_init_copies debug now m old s hp :
  mz_mapping m = true -> mz_noreuse m = true -> mz_data old = Some (s, hp) ->
  movable_zone (default 0 (mz_max_metric_name_length m)) old s -> (0 < mz_workers m)%nat -> is_u64 now ->
  exists rc mc2,
    ngx_wa_metrics_shm_init crc geometry debug now {| mc_metrics := m; mc_old_metrics := Some old |} = Ret (rc, mc2) /\
    (exists old', mc_old_metrics mc2 = Some old' /\ mz_data old' = Some (s, hp)) /\
    (rc = NGX_ERROR \/
     rc = NGX_OK /\ exists d, mz_data (mc_metrics mc2) = Some d /\
       let ms := metrics_of (mc_metrics mc2) d in
       workers ms = mz_workers m /\
       (forall mid v, st_view s mid = Some v -> moved (mz_workers old) v ms mid) /\
       (forall mid, st_view s mid = None -> metric_view ms mid = None)).
Proof.
  intros Hmap Hnr Hdata Hz Hw Hnow. unfold ngx_wa_metrics_shm_init.
  cbn [mc_metrics mc_old_metrics]. rewrite Hmap, Hnr. cbn [negb].
  destruct (ShmKv.ngx_wa_shm_kv_init _ _ _) as [rc os] eqn:Ei.
  apply kv_init_inv in Ei as [[-> ->]|(s0 & -> & -> & W0 & Hv0)].
  { eexists NGX_ERROR, _. split; [done|]. split; [by exists old|by left]. }
  rewrite Hdata. cbn [deref obind].
  set (m1 := set_noreuse m false). set (ms0 := metrics_of m1 (s0, hp)).
  destruct (realloc_metrics_spec (crc := crc) debug now (mz_workers old) (ShmKv.nodes s) (ShmKv.tree s) ms0)
    as (rc & ms & E & Ho & Hrc); [| |by apply Hz|done|by apply wf_keys, Hz| |intros h _; apply Hv0|]; try done.
  - split; [exact W0|]. intros mid v Hm. cbn in Hm, Hv0. by rewrite Hv0 in Hm.
  - intros a h Hin. destruct (movable_elements _ _ _ _ _ Hz Hin) as (n & ? & ? & ? & ? & ? & ?).
    exists n. split; [done|]. split; [by symmetry|by split].
  - change (mz_workers (set_noreuse old true)) with (mz_workers old).
    unfold zone_store, zone_store' in *. rewrite E. cbn [obind].
    exists rc. eexists. split; [reflexivity|]. split; [eexists; split; [reflexivity|exact Hdata]|].
    destruct Hrc as [->|[-> Hm]]; [by left|right]. split; [done|].
    exists (store ms, heap ms). split; [done|]. cbv zeta. cbn [mc_metrics].
    assert (Ew : workers ms = mz_workers m) by (by rewrite (ok_workers _ _ _ Ho)).
    split; [done|]. split.
    + intros mid v Hv. destruct (view_node s mid v (mvz_wf _ _ _ Hz) Hv) as (a & n & Hna & Hin & <-).
      destruct (Hm a mid n Hin Hna) as (t & m' & Ht & Hv' & Ht' & Hval). exists t, m'. rewrite Ew in Hval. by split_and!.
    + intros mid Hv. transitivity (metric_view ms mid); [done|].
      rewrite (ok_other _ _ _ Ho); [apply Hv0|]. intros ([a h] & -> & Hin)%list_elem_of_fmap.
      destruct (movable_elements _ _ _ _ _ Hz Hin) as (n & Hna & Hh & _).
      assert (ShmKv.view s h = Some (ShmKv.n_value n, ShmKv.n_cas n)) as E2
        by (eapply (ShmKv.view_Some crc NGX_WA_SHM_EVICTION_NONE geometry); [apply Hz|by exists a, n]).
      cbn in Hv. by rewrite E2 in Hv.
Qed.

(** C31. After a reload of the configuration, whatever the number of workers and the size of the zone
    became, when the previous zone holds counters and gauges only (no histogram) and no name is
    longer than the new limit: every one of them has the value it had, under the same identifier,
    and there is no other metric; or the new zone has no room for them and the reload is refused
    with the previous metrics as they were. They are not copied when the numbers of workers and
    the sizes are the same. *)
Theorem reload_keeps_metrics debug now w pool_of (mc mc1 : metrics_cycle P) old s hp :
  mc_old_metrics mc = Some old -> mz_data old = Some (s, hp) ->
  movable_zone (default NGX_WA_METRICS_DEFAULT_MAX_NAME_LEN (mz_max_metric_name_length (mc_metrics mc))) old s ->
  (0 < w)%nat -> is_u64 now ->
  ngx_wa_metrics_init_conf w pool_of true true mc = (true, mc1) ->
  exists rc mc2, ngx_wa_metrics_shm_init crc geometry debug now mc1 = Ret (rc, mc2) /\
    (exists old', mc_old_metrics mc2 = Some old' /\ mz_data old' = Some (s, hp)) /\
    (rc = NGX_ERROR \/
     rc = NGX_OK /\ exists d, mz_data (mc_metrics mc2) = Some d /\
       let ms := metrics_of (mc_metrics mc2) d in
       workers ms = w /\
       (forall mid m, st_view s mid = Some m -> moved (mz_workers old) m ms mid) /\
       (forall mid, st_view s mid = None -> metric_view ms mid = None) /\
       (w = mz_workers old -> mz_slab_size (mc_metrics mc1) = mz_slab_size old -> d = (s, hp))).
Proof.
  intros Hold Hdata Hz Hw Hnow. unfold ngx_wa_metrics_init_conf. cbn [negb]. rewrite Hold.
  set (noreuse := negb (w =? mz_workers old)%nat || _). intros [= <-]. destruct noreuse eqn:Hn.
  - match goal with |- context [{| mc_metrics := ?m |}] =>
      destruct (shm_init_copies debug now m old s hp eq_refl eq_refl Hdata Hz Hw Hnow)
        as (rc & mc2 & E & Ho & Hrc) end.
    exists rc, mc2. split; [exact E|]. split; [exact Ho|].
    destruct Hrc as [->|(-> & d & Hd & Hms & Hmv & Hno)]; [by left|right]. split; [done|].
    exists d. split_and!; [done|done|done|done|].
    intros -> Hsz. exfalso. cbn in Hsz. unfold noreuse in Hn. rewrite Nat.eqb_refl in Hn. cbn in Hn.
    by rewrite bool_decide_true in Hn.
  - unfold ngx_wa_metrics_shm_init. cbn [mc_metrics mc_old_metrics mz_mapping mz_noreuse negb].
    rewrite Hdata. cbn [deref obind]. eexists _, _. split; [reflexivity|].
    split; [by exists old|]. right. split; [done|]. exists (s, hp). split; [done|]. cbv zeta.
    unfold noreuse in Hn. apply orb_false_iff in Hn as [Hn _]. apply negb_false_iff, Nat.eqb_eq in Hn as ->.
    split; [done|]. split; [|by split].
    intros mid m Hv. destruct (view_node s mid m (mvz_wf _ _ _ Hz) Hv) as (a & n & Hna & _ & <-).
    destruct (mvz_nodes _ _ _ Hz a n Hna) as (_ & _ & [Ht|Ht]); (eapply moved_refl; [done|exact Hv|exact Ht]).
Qed.

End facts.

End MetricsReload.

(** ** Executions *)

Module MetricsReloadRuns.
Import ShmKv Metrics MetricsReload NginxCore.Reference.

(** A cycle of one worker with a counter and a gauge, and a new one over it. *)
Definition old_zone : metrics_zone quota :=
  {| mz_slab_size := Some 2000; mz_max_metric_name_length := Some 10; mz_workers := 1; mz_mapping := true;
     mz_noreuse := false; mz_pool := quota_pool 2000; mz_data := Some (store (example_metrics 1), ∅) |}.

Definition new_cycle : metrics_cycle quota :=
  default {| mc_metrics := old_zone; mc_old_metrics := None |}
    (ngx_wa_metrics_alloc (quota_pool 0) true true (Some old_zone)).

Definition started (w : nat) (size : Z) (mc : metrics_cycle quota) : outcome (ngx_rc * metrics_cycle quota) :=
  ngx_wa_metrics_shm_init sum_hash geometry_4k true 7
    (ngx_wa_metrics_init_conf w (fun _ => quota_pool size) true true mc).2.

Definition rc_of (r : outcome (ngx_rc * metrics_cycle quota)) : option ngx_rc :=
  match r with Ret (rc, _) => Some rc | Fault _ => None end.

Definition with_config (size len : option Z) (mc : metrics_cycle quota) : metrics_cycle quota :=
  {| mc_metrics := {| mz_slab_size := size; mz_max_metric_name_length := len; mz_workers := 0;
                      mz_mapping := false; mz_noreuse := false; mz_pool := quota_pool 0; mz_data := None |};
     mc_old_metrics := mc_old_metrics mc |}.

(** Moved to a new zone, moved to one that is too small, and kept. *)
Example reloads :
  (rc_of (started 2 2000 new_cycle), rc_of (started 2 100 new_cycle),
   rc_of (started 1 100 (with_config (Some 2000) None new_cycle))) =
  (Some NGX_OK, Some NGX_ERROR, Some NGX_OK).
Proof. by vm_compute. Qed.

(** A shorter maximal length of the names refuses the reload when the workers change, not otherwise. *)
Example shorter_names_refused :
  (rc_of (started 2 2000 (with_config (Some 2000) (Some 0) new_cycle)),
   rc_of (started 1 2000 (with_config (Some 2000) (Some 0) new_cycle))) = (Some NGX_ERROR, Some NGX_OK).
Proof. by vm_compute. Qed.

(** Without memory for the array the configuration is accepted, and its start follows [NULL]. *)
Example no_memory_accepted :
  let '(conf_ok, mc) := ngx_wa_metrics_init_conf 1 quota_pool false true new_cycle in
  conf_ok = true /\ ngx_wa_metrics_shm_init sum_hash geometry_4k true 7 mc = Fault F_memory.
Proof. by vm_compute. Qed.

Definition movable_node (n : ngx_wa_shm_kv_node_t) : bool :=
  (zlen (n_key n) <=? 256) && (zlen (n_value n) =? metric_size 1) &&
  match metric_type (n_value n) with
  | Ret t => (t =? NGX_WA_METRIC_COUNTER) || (t =? NGX_WA_METRIC_GAUGE)
  | Fault _ => false
  end.

Lemma reload_keeps_metrics_witness :
  exists mc2, started 2 2000 new_cycle = Ret (NGX_OK, mc2).
Proof.
  destruct (reload_keeps_metrics sum_hash geometry_4k geometry_4k_ok true 7 2 (fun _ => quota_pool 2000) new_cycle
    (ngx_wa_metrics_init_conf 2 (fun _ => quota_pool 2000) true true new_cycle).2 old_zone
    (store (example_metrics 1)) ∅) as (rc & mc2 & E & _ & [->|[-> _]]).
  - reflexivity.
  - reflexivity.
  - split; [|cbn; lia|].
    + apply ShmKv.reachable_wf; [exact geometry_4k_ok|]. by apply store_of_reachable.
    + intros a n Hn.
      assert (Hall : map_Forall (fun _ n => movable_node n = true) (nodes (store (example_metrics 1))))
        by (by apply (bool_decide_unpack _)).
      specialize (Hall a n Hn). unfold movable_node in Hall.
      apply andb_true_iff in Hall as [[Hl%Z.leb_le Hs%Z.eqb_eq]%andb_true_iff Ht]. split_and!; [done|done|].
      destruct (metric_type (n_value n)); [|done].
      apply orb_true_iff in Ht as [E%Z.eqb_eq|E%Z.eqb_eq]; rewrite E; auto.
  - lia.
  - unfold is_u64. lia.
  - reflexivity.
  - exfalso. assert (Hr : rc_of (started 2 2000 new_cycle) = Some NGX_OK) by (vm_compute; reflexivity).
    unfold started in Hr. rewrite E in Hr. discriminate.
  - exists mc2. exact E.
Defined.

End MetricsReloadRuns.
