(* ===== verification/Upstream.v ===== *)
(** * Upstreams chosen by filters

    src/src/http/ngx_http_wasm_upstream.c, a load balancer of nginx whose server is chosen by
    the filters of a request: the callbacks nginx calls for each try, the choice itself with
    the access list of the filter, the timeouts, and what a filter is told about the servers
    of an upstream; with the host functions of
    src/src/common/proxy_wasm/ngx_proxy_wasm_host.c that a guest calls in these callbacks. *)
From S2P Require Import Prelude NginxCore Acl Host ProxyWasm.
From stdpp Require Export list gmap relations.
#[global] Open Scope Z_scope.

Module Upstream.
Import Host.
#[local] Existing Instance ProxyWasm.step_eq_dec.

(** ** Data *)

(** An address with its port and its text: a [struct sockaddr] of nginx. *)
Record addr_t := { ad_sockaddr : Acl.sockaddr; ad_port : Z; ad_name : bytes }.

(** The part of [ngx_http_upstream_conf_t] that is used. *)
Record ngx_http_upstream_conf_t := {
  connect_timeout : Z;
  send_timeout : Z;
  read_timeout : Z;
  next_upstream : Z;
  next_upstream_tries : Z;
}.

(** [up->original_conf] is [NULL] until the timeouts are set; [up_sockaddr] stands for
    [sockaddr], [socklen] and [name], set and reset together. *)
Record ngx_http_wasm_upstream_peer_data_t := {
  up_original_conf : option ngx_http_upstream_conf_t;
  up_sockaddr : option addr_t;
  up_tls : Z;
  up_sni : bytes;
  up_host : bytes;
  up_last_peer_state : Z;
  up_last_status : Z;
  up_accept_resp : bool;
}.

Definition new_peer_data : ngx_http_wasm_upstream_peer_data_t :=
  {| up_original_conf := None; up_sockaddr := None; up_tls := 0; up_sni := []; up_host := [];
     up_last_peer_state := 0; up_last_status := 0; up_accept_resp := false |}.

(** Whose data [u->peer.data] is: that of this balancer, or that of the one it replaces. *)
Inductive peer_data := WASM_PEER | OTHER_PEER.

#[export] Instance peer_data_eq_dec : EqDecision peer_data.
Proof. solve_decision. Defined.

(** [r->upstream]: its configuration, [peer.data], the TLS settings of the connection, the
    links of the request to send and whether the first has a buffer of its own, and the status
    of the last try. *)
Record ngx_http_upstream_t := {
  u_conf : option ngx_http_upstream_conf_t;
  u_peer_data : option peer_data;
  u_ssl : bool;
  u_schema : bytes;
  u_ssl_name : bytes;
  u_header_sent : bool;
  u_request_bufs : list addr;
  u_state : option Z;
}.

(** [ngx_peer_connection_t]. *)
Record ngx_peer_connection_t := {
  pc_tries : Z;
  pc_sockaddr : option addr_t;
  pc_cached : bool;
  pc_connection : bool;
}.

(** [ngx_proxy_wasm_ctx_t] as far as it is saved and restored. *)
Record pwctx_t := {
  pc_step : ProxyWasm.ngx_proxy_wasm_step_e;
  pc_last_completed_step : ProxyWasm.ngx_proxy_wasm_step_e;
  pc_background : bool;
}.

(** The request: the result of [ngx_http_wasm_rctx], [rctx->data], its flags, the balancer's
    data, [r->upstream], the connection, the links of the request body and the links and buffers
    given back to the pool; [W] is everything else. *)
Record state (W : Type) := {
  us_rctx : ngx_rc;
  us_pwctx : option pwctx_t;
  us_req_headers_modified : bool;
  us_local_resp_status : Z;
  us_header_sent : bool;
  us_up : ngx_http_wasm_upstream_peer_data_t;
  us_u : option ngx_http_upstream_t;
  us_pc : ngx_peer_connection_t;
  us_request_body : option (list addr);
  us_freed : list addr;
  us_world : W;
}.
Arguments us_rctx {W}. Arguments us_pwctx {W}. Arguments us_req_headers_modified {W}.
Arguments us_local_resp_status {W}. Arguments us_header_sent {W}. Arguments us_up {W}.
Arguments us_u {W}. Arguments us_pc {W}. Arguments us_request_body {W}. Arguments us_freed {W}.
Arguments us_world {W}.

(** ** Assignments *)

Section assignments.
Context {W : Type}.
Implicit Types s : state W.

Definition set_pwctx (c : option pwctx_t) s : state W :=
  {| us_rctx := us_rctx s; us_pwctx := c; us_req_headers_modified := us_req_headers_modified s;
     us_local_resp_status := us_local_resp_status s; us_header_sent := us_header_sent s; us_up := us_up s;
     us_u := us_u s; us_pc := us_pc s; us_request_body := us_request_body s; us_freed := us_freed s;
     us_world := us_world s |}.
Definition set_modified (b : bool) s : state W :=
  {| us_rctx := us_rctx s; us_pwctx := us_pwctx s; us_req_headers_modified := b;
     us_local_resp_status := us_local_resp_status s; us_header_sent := us_header_sent s; us_up := us_up s;
     us_u := us_u s; us_pc := us_pc s; us_request_body := us_request_body s; us_freed := us_freed s;
     us_world := us_world s |}.
Definition set_up (up : ngx_http_wasm_upstream_peer_data_t) s : state W :=
  {| us_rctx := us_rctx s; us_pwctx := us_pwctx s; us_req_headers_modified := us_req_headers_modified s;
     us_local_resp_status := us_local_resp_status s; us_header_sent := us_header_sent s; us_up := up;
     us_u := us_u s; us_pc := us_pc s; us_request_body := us_request_body s; us_freed := us_freed s;
     us_world := us_world s |}.
Definition set_u (u : option ngx_http_upstream_t) s : state W :=
  {| us_rctx := us_rctx s; us_pwctx := us_pwctx s; us_req_headers_modified := us_req_headers_modified s;
     us_local_resp_status := us_local_resp_status s; us_header_sent := us_header_sent s; us_up := us_up s;
     us_u := u; us_pc := us_pc s; us_request_body := us_request_body s; us_freed := us_freed s;
     us_world := us_world s |}.
Definition set_pc (pc : ngx_peer_connection_t) s : state W :=
  {| us_rctx := us_rctx s; us_pwctx := us_pwctx s; us_req_headers_modified := us_req_headers_modified s;
     us_local_resp_status := us_local_resp_status s; us_header_sent := us_header_sent s; us_up := us_up s;
     us_u := us_u s; us_pc := pc; us_request_body := us_request_body s; us_freed := us_freed s;
     us_world := us_world s |}.
Definition set_freed (l : list addr) s : state W :=
  {| us_rctx := us_rctx s; us_pwctx := us_pwctx s; us_req_headers_modified := us_req_headers_modified s;
     us_local_resp_status := us_local_resp_status s; us_header_sent := us_header_sent s; us_up := us_up s;
     us_u := us_u s; us_pc := us_pc s; us_request_body := us_request_body s; us_freed := l;
     us_world := us_world s |}.
Definition set_world (w : W) s : state W :=
  {| us_rctx := us_rctx s; us_pwctx := us_pwctx s; us_req_headers_modified := us_req_headers_modified s;
     us_local_resp_status := us_local_resp_status s; us_header_sent := us_header_sent s; us_up := us_up s;
     us_u := us_u s; us_pc := us_pc s; us_request_body := us_request_body s; us_freed := us_freed s;
     us_world := w |}.
End assignments.

Definition set_sockaddr (a : option addr_t) (up : ngx_http_wasm_upstream_peer_data_t) :=
  {| up_original_conf := up_original_conf up; up_sockaddr := a; up_tls := up_tls up; up_sni := up_sni up;
     up_host := up_host up; up_last_peer_state := up_last_peer_state up; up_last_status := up_last_status up;
     up_accept_resp := up_accept_resp up |}.
Definition set_tls (tls : Z) (up : ngx_http_wasm_upstream_peer_data_t) :=
  {| up_original_conf := up_original_conf up; up_sockaddr := up_sockaddr up; up_tls := tls; up_sni := up_sni up;
     up_host := up_host up; up_last_peer_state := up_last_peer_state up; up_last_status := up_last_status up;
     up_accept_resp := up_accept_resp up |}.
Definition set_sni (sni : bytes) (up : ngx_http_wasm_upstream_peer_data_t) :=
  {| up_original_conf := up_original_conf up; up_sockaddr := up_sockaddr up; up_tls := up_tls up; up_sni := sni;
     up_host := up_host up; up_last_peer_state := up_last_peer_state up; up_last_status := up_last_status up;
     up_accept_resp := up_accept_resp up |}.
Definition set_original_conf (c : option ngx_http_upstream_conf_t) (up : ngx_http_wasm_upstream_peer_data_t) :=
  {| up_original_conf := c; up_sockaddr := up_sockaddr up; up_tls := up_tls up; up_sni := up_sni up;
     up_host := up_host up; up_last_peer_state := up_last_peer_state up; up_last_status := up_last_status up;
     up_accept_resp := up_accept_resp up |}.
Definition set_last_state (st : Z) (up : ngx_http_wasm_upstream_peer_data_t) :=
  {| up_original_conf := up_original_conf up; up_sockaddr := up_sockaddr up; up_tls := up_tls up; up_sni := up_sni up;
     up_host := up_host up; up_last_peer_state := st; up_last_status := up_last_status up;
     up_accept_resp := up_accept_resp up |}.
Definition set_accept (accept : bool) (status : Z) (up : ngx_http_wasm_upstream_peer_data_t) :=
  {| up_original_conf := up_original_conf up; up_sockaddr := up_sockaddr up; up_tls := up_tls up; up_sni := up_sni up;
     up_host := up_host up; up_last_peer_state := up_last_peer_state up; up_last_status := status;
     up_accept_resp := accept |}.

Definition set_conf (c : option ngx_http_upstream_conf_t) (u : ngx_http_upstream_t) :=
  {| u_conf := c; u_peer_data := u_peer_data u; u_ssl := u_ssl u; u_schema := u_schema u; u_ssl_name := u_ssl_name u;
     u_header_sent := u_header_sent u; u_request_bufs := u_request_bufs u; u_state := u_state u |}.
Definition set_peer_data (d : option peer_data) (u : ngx_http_upstream_t) :=
  {| u_conf := u_conf u; u_peer_data := d; u_ssl := u_ssl u; u_schema := u_schema u; u_ssl_name := u_ssl_name u;
     u_header_sent := u_header_sent u; u_request_bufs := u_request_bufs u; u_state := u_state u |}.
Definition set_ssl (ssl : bool) (schema name : bytes) (u : ngx_http_upstream_t) :=
  {| u_conf := u_conf u; u_peer_data := u_peer_data u; u_ssl := ssl; u_schema := schema; u_ssl_name := name;
     u_header_sent := u_header_sent u; u_request_bufs := u_request_bufs u; u_state := u_state u |}.
Definition set_header_sent (b : bool) (u : ngx_http_upstream_t) :=
  {| u_conf := u_conf u; u_peer_data := u_peer_data u; u_ssl := u_ssl u; u_schema := u_schema u;
     u_ssl_name := u_ssl_name u; u_header_sent := b; u_request_bufs := u_request_bufs u; u_state := u_state u |}.
Definition set_request_bufs (l : list addr) (u : ngx_http_upstream_t) :=
  {| u_conf := u_conf u; u_peer_data := u_peer_data u; u_ssl := u_ssl u; u_schema := u_schema u;
     u_ssl_name := u_ssl_name u; u_header_sent := u_header_sent u; u_request_bufs := l; u_state := u_state u |}.

(** ** Configuration *)

(** [wasm_upstream_select [max_tries=N]]: the conditions the directive checks in their order.
    [arg] is the first argument, [ngx_atoi] is [None] for [NGX_ERROR], [vm] tells that there is
    a main VM and [init_upstream] that the upstream already has a balancer. *)
Record srv_conf := { original_init_upstream : option bool; upstream_max_tries : Z }.

Inductive conf_rv := CONF_OK | CONF_ERROR | CONF_NO_WASM | CONF_DUPLICATE.

(** [original_init_upstream] is [Some true] for the balancer of the configuration and
    [Some false] for round robin. *)
Definition ngx_http_wasm_upstream_select_directive (ngx_atoi : bytes -> option Z) (vm init_upstream : bool)
    (arg : option bytes) (c : srv_conf) : conf_rv * srv_conf :=
  let parsed :=
    match arg with
    | None => Some (upstream_max_tries c)
    | Some value =>
        if bool_decide (take 10 value = ngx_string "max_tries=") then ngx_atoi (drop 10 value) else None
    end in
  match parsed with
  | None => (CONF_ERROR, c)
  | Some n =>
      let c := {| original_init_upstream := original_init_upstream c; upstream_max_tries := n |} in
      if negb vm then (CONF_NO_WASM, c)
      else if bool_decide (is_Some (original_init_upstream c)) then (CONF_DUPLICATE, c)
      else (CONF_OK, {| original_init_upstream := Some init_upstream; upstream_max_tries := n |})
  end.

Section upstream.
Context {W : Type} {T HA H : Type} `{!Acl.AclEnv T HA H}.
(** The filters run a step ([FilterChain]); the balancer that was replaced; the response a filter
    gave; the request to send is made again. *)
Context (ngx_proxy_wasm_resume : ProxyWasm.ngx_proxy_wasm_step_e -> SM (state W) ngx_rc).
Context (original_get_peer : SM (state W) ngx_rc) (original_free_peer : Z -> SM (state W) unit).
Context (original_set_session : SM (state W) ngx_rc) (original_save_session : SM (state W) unit).
Context (ngx_http_wasm_flush_local_response : SM (state W) unit).
Context (create_request : SM (state W) ngx_rc).
(** The addresses a text stands for, with the default port: [None] when it is not one. *)
Context (ngx_parse_url : bytes -> Z -> option (list addr_t)).
(** Whether an allocation of the pool succeeds. *)
Context (ngx_palloc : W -> bool * W).
(** The table of nginx: status and mask. *)
Context (ngx_http_upstream_next_errors : list (Z * Z)).

Abbreviation M := (SM (state W)).

Definition get {A} (f : state W -> A) : M A := fun s => Ret (f s, s).
Definition modify (f : state W -> state W) : M unit := fun s => Ret (tt, f s).
Definition get_u : M ngx_http_upstream_t := fun s => let? u := deref (us_u s) in Ret (u, s).
Definition modify_u (f : ngx_http_upstream_t -> ngx_http_upstream_t) : M unit := fun s =>
  let? u := deref (us_u s) in Ret (tt, set_u (Some (f u)) s).
Definition modify_up (f : ngx_http_wasm_upstream_peer_data_t -> ngx_http_wasm_upstream_peer_data_t) : M unit :=
  modify (fun s => set_up (f (us_up s)) s).
Definition palloc : M bool := fun s =>
  let '(ok, w) := ngx_palloc (us_world s) in Ret (ok, set_world w s).

(** [alloc] tells that there was memory, [original] what the replaced [init_peer] answered;
    [ngx_http_wasm_rctx] answers [us_rctx]. *)
Definition ngx_http_wasm_upstream_init_peer (max_tries : Z) (alloc original : bool) : M ngx_rc :=
  if negb alloc then mret NGX_ERROR
  else if negb original then mret NGX_ERROR
  else
    rc ← get us_rctx;
    match rc with
    | NGX_DECLINED => mret NGX_OK
    | NGX_OK =>
        modify (set_up new_peer_data);;
        u ← get_u;
        conf ← slift (deref (u_conf u));
        pc ← get us_pc;
        let tries := if negb (next_upstream_tries conf =? 0) then Z.min (next_upstream_tries conf) max_tries
                     else max_tries in
        modify (set_pc {| pc_tries := tries; pc_sockaddr := pc_sockaddr pc; pc_cached := pc_cached pc;
                          pc_connection := pc_connection pc |});;
        modify_u (set_peer_data (Some WASM_PEER));;
        mret NGX_OK
    | _ => mret NGX_ERROR
    end.

(** ** Running the filters *)

Definition ngx_proxy_wasm_upstream_resume (step : ProxyWasm.ngx_proxy_wasm_step_e) : M ngx_rc :=
  c ← get us_pwctx;
  match c with
  | None => mret NGX_OK
  | Some c =>
      modify (set_pwctx (Some {| pc_step := pc_step c; pc_last_completed_step := pc_last_completed_step c;
                                 pc_background := true |}));;
      rc ← ngx_proxy_wasm_resume step;
      modify (fun s => set_pwctx
        ((fun c' => {| pc_step := pc_step c; pc_last_completed_step := pc_last_completed_step c;
                       pc_background := pc_background c' |}) <$> us_pwctx s) s);;
      mret rc
  end.

(** [r->upstream->peer.data] is the data of this balancer while the filters run. *)
Definition with_peer_data {A} (m : M A) : M A :=
  u ← get_u;
  modify_u (set_peer_data (Some WASM_PEER));;
  a ← m;
  modify_u (set_peer_data (u_peer_data u));;
  mret a.

(** [rc == NGX_ERROR || rc >= NGX_HTTP_SPECIAL_RESPONSE] *)
Definition error_rc (rc : ngx_rc) : bool :=
  match rc with
  | NGX_ERROR => true
  | NGX_STATUS code => 300 <=? code
  | _ => false
  end.

(** The request is made again when a filter changed its headers. *)
Definition remake_request : M ngx_rc :=
  u ← get_u;
  body ← get us_request_body;
  freed ← get us_freed;
  let own := match u_request_bufs u with
             | cl :: _ => if bool_decide (Some cl = body ≫= head) then [] else [cl]
             | [] => []
             end in
  modify (set_freed (u_request_bufs u ++ own ++ freed));;
  modify_u (set_request_bufs (default [] body));;
  create_request.

Definition https : bytes := ngx_string "https://".
Definition http : bytes := ngx_string "http://".

Definition ngx_http_wasm_upstream_get_peer : M ngx_rc :=
  rc ← get us_rctx;
  match rc with
  | NGX_DECLINED => original_get_peer
  | NGX_OK =>
      modify (set_modified false);;
      rc ← with_peer_data (ngx_proxy_wasm_upstream_resume ProxyWasm.STEP_UPSTREAM_SELECT);
      if error_rc rc then mret NGX_ERROR
      else
        status ← get us_local_resp_status;
        if negb (status =? 0) then
          ngx_http_wasm_flush_local_response;;
          sent ← get us_header_sent;
          (if sent : bool then modify_u (set_header_sent true) else mret tt);;
          mret NGX_ERROR
        else
          modified ← get us_req_headers_modified;
          rc ← (if modified : bool then remake_request else mret NGX_OK);
          if negb (is_ok rc) then mret NGX_ERROR
          else
            up ← get us_up;
            match up_sockaddr up with
            | Some a =>
                pc ← get us_pc;
                modify (set_pc {| pc_tries := pc_tries pc; pc_sockaddr := Some a; pc_cached := false;
                                  pc_connection := false |});;
                u ← get_u;
                (if negb (up_tls up =? 0)
                 then modify_u (set_ssl true https (if zlen (up_sni up) =? 0 then u_ssl_name u else up_sni up))
                 else modify_u (set_ssl false http (u_ssl_name u)));;
                mret NGX_OK
            | None => original_get_peer
            end
  | _ => mret NGX_ERROR
  end.

Definition NGX_PEER_FAILED : Z := 4.

(** The state of the last try, when there are no more. *)
Definition last_state (state tries : Z) (u : ngx_http_upstream_t) (conf : ngx_http_upstream_conf_t) : Z :=
  match u_state u with
  | Some status =>
      if (tries =? 0) && (state =? 0) then
        match list_find (fun e => e.1 = status) ngx_http_upstream_next_errors with
        | Some (_, (_, mask)) =>
            if Z.land (next_upstream conf) mask =? mask then NGX_PEER_FAILED else state
        | None => state
        end
      else state
  | None => state
  end.

Definition ngx_http_wasm_upstream_free_peer (st : Z) : M unit :=
  up ← get us_up;
  match up_sockaddr up with
  | Some _ =>
      rc ← get us_rctx;
      match rc with
      | NGX_OK =>
          pc ← get us_pc;
          let tries := if negb (pc_tries pc =? 0) then pc_tries pc - 1 else 0 in
          modify (set_pc {| pc_tries := tries; pc_sockaddr := pc_sockaddr pc; pc_cached := pc_cached pc;
                            pc_connection := pc_connection pc |});;
          u ← get_u;
          conf ← slift (deref (u_conf u));
          modify_up (set_last_state (last_state st tries u conf));;
          modify_up (set_sockaddr None);;
          _ ← with_peer_data (ngx_proxy_wasm_upstream_resume ProxyWasm.STEP_UPSTREAM_INFO);
          mret tt
      | _ => mret tt
      end
  | None => original_free_peer st
  end.

(** The session of TLS is that of the server the original balancer chose. *)
Definition ngx_http_wasm_upstream_set_session : M ngx_rc :=
  up ← get us_up;
  if bool_decide (is_Some (up_sockaddr up)) then mret NGX_OK else original_set_session.
Definition ngx_http_wasm_upstream_save_session : M unit :=
  up ← get us_up;
  if bool_decide (is_Some (up_sockaddr up)) then mret tt else original_save_session.

(** [NGX_DECLINED] keeps the response that was received.  [upstream_peer] tells that
    [rctx->upstream_peer] is set; [peer.data] is afterwards what nginx passed, [data]. *)
Definition ngx_http_wasm_upstream_test_next (upstream_peer : bool) (data : option peer_data) (status : Z) : M ngx_rc :=
  rc ← get us_rctx;
  if negb (is_ok rc) then mret NGX_OK
  else if negb upstream_peer then mret NGX_OK
  else
    up ← get us_up;
    match up_sockaddr up with
    | Some _ =>
        modify_up (set_accept false status);;
        modify_u (set_peer_data (Some WASM_PEER));;
        _ ← ngx_proxy_wasm_upstream_resume ProxyWasm.STEP_NEXT_UPSTREAM;
        modify_u (set_peer_data data);;
        up ← get us_up;
        if up_accept_resp up then mret NGX_DECLINED else mret NGX_OK
    | None => mret NGX_OK
    end.

(** "$wasm_upstream_host": the name a filter set, or the variable "$proxy_host". *)
Definition ngx_http_wasm_upstream_host_variable (upstream_peer : bool) (proxy_host : option bytes)
    (s : state W) : option bytes :=
  if is_ok (us_rctx s) && upstream_peer && negb (zlen (up_host (us_up s)) =? 0)
  then Some (up_host (us_up s)) else proxy_host.

(** The last element of [r->upstream_states]. *)
Definition ngx_http_wasm_get_last_upstream_state {A} (step : ProxyWasm.ngx_proxy_wasm_step_e)
    (upstream_states : option (list A)) : ngx_rc * option A :=
  if negb (bool_decide (step = ProxyWasm.STEP_UPSTREAM_INFO)) then (NGX_DECLINED, None)
  else match upstream_states with
       | None | Some [] => (NGX_DECLINED, None)
       | Some (x :: l) => (NGX_OK, last (x :: l))
       end.

(** ** The choice of a filter *)

(** An address with a colon is one of IPv6, in brackets. *)
Definition url_of (addr : bytes) : outcome bytes :=
  match Acl.ngx_strlchr addr ":" with
  | Some _ =>
      let? c := deref (addr !! 0%nat) in
      Ret (if bool_decide (c = "["%byte) then addr else "["%byte :: addr ++ ["]"%byte])
  | None => Ret addr
  end.

(** [acl] is the list of the root context of the filter, [NULL] when it has none. *)
Definition ngx_http_wasm_set_upstream (acl : option (Acl.ngx_wasm_acl_t T H)) (addr : bytes) (port tls : Z)
    (sni : bytes) : M ngx_rc :=
  up ← get us_up;
  if bool_decide (is_Some (up_sockaddr up)) then mret NGX_DECLINED
  else
    url ← slift (url_of addr);
    ok ← palloc;
    if negb (ok : bool) then mret NGX_ERROR
    else
      match ngx_parse_url url port with
      | None | Some [] => mret NGX_DECLINED
      | Some (a :: _) =>
          if match acl with
             | Some acl => negb (is_ok (Acl.ngx_wasm_acl_check_addr acl (ad_sockaddr a)))
             | None => false
             end
          then mret NGX_DECLINED
          else
            modify_up (fun up => set_tls tls (set_sockaddr (Some a) up));;
            if zlen sni =? 0 then mret NGX_OK
            else
              ok ← palloc;
              if negb (ok : bool) then mret NGX_ERROR
              else modify_up (set_sni sni);; mret NGX_OK
      end.

(** What [r->upstream->peer.data] points to is taken for the data of this balancer. *)
Definition peer_up : M ngx_http_wasm_upstream_peer_data_t :=
  u ← get_u;
  match u_peer_data u with
  | Some WASM_PEER => get us_up
  | _ => slift (Fault F_memory)
  end.

Definition ngx_http_wasm_set_upstream_timeouts (connect send read : Z) : M ngx_rc :=
  up ← peer_up;
  rc ← (match up_original_conf up with
        | Some _ => mret NGX_OK
        | None =>
            ok ← palloc;
            if negb (ok : bool) then mret NGX_ERROR
            else u ← get_u; modify_up (set_original_conf (u_conf u));; mret NGX_OK
        end);
  if negb (is_ok rc) then mret NGX_ERROR
  else
    up ← get us_up;
    u ← get_u;
    orig ← slift (deref (up_original_conf up));
    conf ← slift (deref (u_conf u));
    modify_u (set_conf (Some
      {| connect_timeout := if negb (connect =? 0) then Z.min connect (connect_timeout orig) else connect_timeout conf;
         send_timeout := if negb (send =? 0) then Z.min send (send_timeout orig) else send_timeout conf;
         read_timeout := if negb (read =? 0) then Z.min read (read_timeout orig) else read_timeout conf;
         next_upstream := next_upstream conf; next_upstream_tries := next_upstream_tries conf |}));;
    mret NGX_OK.

(** ** The host functions *)

Context (ngx_vsnprintf : nat -> bytes -> option bytes).
Abbreviation HM := (SM (host (state W))).
Abbreviation LIFT_SLICE := (NGX_WAVM_HOST_LIFT_SLICE ngx_vsnprintf).
Abbreviation result_trap := (ngx_proxy_wasm_result_trap ngx_vsnprintf).

Definition at_step (steps : list ProxyWasm.ngx_proxy_wasm_step_e) (s : state W) : bool :=
  match us_pwctx s with Some c => bool_decide (pc_step c ∈ steps) | None => false end.

Definition not_select : bytes := ngx_string "can only set upstream during " ++ quoted "on_upstream_select".
Definition not_next : bytes := ngx_string "can only accept response during " ++ quoted "on_next_upstream".
Definition not_upstream : bytes :=
  ngx_string "can only get upstream timeouts during " ++ quoted "on_upstream_*" ++ ngx_string " phases".
Definition not_select_timeouts : bytes :=
  ngx_string "can only set upstream timeouts during " ++ quoted "on_upstream_select".
Definition no_upstream : bytes := ngx_string "no upstream available".

Definition ngx_proxy_wasm_hfuncs_proxy_set_upstream (acl : option (Acl.ngx_wasm_acl_t T H))
    (args0 args1 args2 args3 args4 args5 : Z) : HM host_ret :=
  s ← gets h_env;
  if negb (at_step [ProxyWasm.STEP_UPSTREAM_SELECT] s) then result_trap not_select NGX_WAVM_BAD_USAGE
  else
    let addr_size := wrap32 args1 in
    let port := wrap32 args2 in
    let tls := wrap32 args3 in
    let sni_size := wrap32 args5 in
    LIFT_SLICE args0 addr_size (fun addr =>
    LIFT_SLICE args4 sni_size (fun sni =>
    if 65535 <? port then mret ngx_proxy_wasm_result_badarg
    else if negb (tls =? 0) && negb (tls =? 1) then mret ngx_proxy_wasm_result_badarg
    else
      match us_u s ≫= u_peer_data with
      | None => mret ngx_proxy_wasm_result_err
      | Some _ =>
          addr ← read_at addr addr_size;
          sni ← read_at sni sni_size;
          _ ← on_env peer_up;
          rc ← on_env (ngx_http_wasm_set_upstream acl addr port tls sni);
          match rc with
          | NGX_ERROR => mret ngx_proxy_wasm_result_err
          | NGX_DECLINED => mret ngx_proxy_wasm_result_badarg
          | _ => mret ngx_proxy_wasm_result_ok
          end
      end)).

Definition ngx_proxy_wasm_hfuncs_proxy_accept_upstream_response : HM host_ret :=
  s ← gets h_env;
  if negb (at_step [ProxyWasm.STEP_NEXT_UPSTREAM] s) then result_trap not_next NGX_WAVM_BAD_USAGE
  else
    match us_u s with
    | None => result_trap no_upstream NGX_WAVM_BAD_USAGE
    | Some _ =>
        up ← on_env peer_up;
        on_env (modify_up (set_accept true (up_last_status up)));;
        mret ngx_proxy_wasm_result_ok
    end.

Definition ngx_proxy_wasm_hfuncs_proxy_get_upstream_timeouts (args0 args1 args2 : Z) : HM host_ret :=
  LIFT_SLICE args0 4 (fun connect =>
  LIFT_SLICE args1 4 (fun send =>
  LIFT_SLICE args2 4 (fun read =>
  s ← gets h_env;
  if negb (at_step [ProxyWasm.STEP_UPSTREAM_SELECT; ProxyWasm.STEP_NEXT_UPSTREAM; ProxyWasm.STEP_UPSTREAM_INFO] s)
  then result_trap not_upstream NGX_WAVM_BAD_USAGE
  else
    match us_u s ≫= u_conf with
    | None => mret ngx_proxy_wasm_result_err
    | Some conf =>
        write_at connect (enc32 (connect_timeout conf));;
        write_at send (enc32 (send_timeout conf));;
        write_at read (enc32 (read_timeout conf));;
        mret ngx_proxy_wasm_result_ok
    end))).

Definition ngx_proxy_wasm_hfuncs_proxy_set_upstream_timeouts (args0 args1 args2 : Z) : HM host_ret :=
  s ← gets h_env;
  if negb (at_step [ProxyWasm.STEP_UPSTREAM_SELECT] s) then result_trap not_select_timeouts NGX_WAVM_BAD_USAGE
  else
    match us_u s ≫= u_conf with
    | None => mret ngx_proxy_wasm_result_err
    | Some _ =>
        rc ← on_env (ngx_http_wasm_set_upstream_timeouts (wrap32 args0) (wrap32 args1) (wrap32 args2));
        mret (match rc with NGX_ERROR => ngx_proxy_wasm_result_err | _ => ngx_proxy_wasm_result_ok end)
    end.

End upstream.

(** ** The servers of an upstream *)

(** [ngx_http_upstream_server_t] and [ngx_http_upstream_srv_conf_t]. *)
Record server_t := {
  sv_down : bool;
  sv_addrs : list addr_t;
  sv_weight : Z;
  sv_max_fails : Z;
  sv_fail_timeout : Z;
  sv_backup : Z;
}.
Record uscf_t := { uc_host : bytes; uc_servers : list server_t }.

Definition NGX_PROXY_WASM_PTR_SIZE : Z := 4.

Section servers.
(** The text of an address without its port. *)
Context (ngx_sock_ntop : addr_t -> bytes).

(** [len], and the number of addresses. *)
Fixpoint addrs_len (l : list addr_t) (len total : Z) : Z * Z :=
  match l with
  | [] => (len, total)
  | a :: l =>
      addrs_len l (len + NGX_PROXY_WASM_PTR_SIZE + zlen (ngx_sock_ntop a) + NGX_PROXY_WASM_PTR_SIZE
                   + 4 * NGX_PROXY_WASM_PTR_SIZE) (total + 1)
  end.
Fixpoint servers_len (l : list server_t) (len total : Z) : Z * Z :=
  match l with
  | [] => (len, total)
  | sv :: l =>
      let '(len, total) := if sv_down sv then (len, total) else addrs_len (sv_addrs sv) len total in
      servers_len l len total
  end.

(** Writing at [p] and moving it. *)
Definition put (c : bytes * Z) (data : bytes) : outcome (bytes * Z) :=
  let? m := mem_write c.1 c.2 data in Ret (m, c.2 + zlen data).

Fixpoint put_addrs (sv : server_t) (l : list addr_t) (c : bytes * Z) : outcome (bytes * Z) :=
  match l with
  | [] => Ret c
  | a :: l =>
      let ip := ngx_sock_ntop a in
      let? c := put c (enc32 (zlen ip)) in
      let? c := put c ip in
      let? c := put c (enc32 (ad_port a)) in
      let? c := put c (enc32 (sv_weight sv)) in
      let? c := put c (enc32 (sv_max_fails sv)) in
      let? c := put c (enc32 (sv_fail_timeout sv)) in
      let? c := put c (enc32 (sv_backup sv)) in
      put_addrs sv l c
  end.
Fixpoint put_servers (l : list server_t) (c : bytes * Z) : outcome (bytes * Z) :=
  match l with
  | [] => Ret c
  | sv :: l =>
      let? c := if sv_down sv then Ret c else put_addrs sv (sv_addrs sv) c in
      put_servers l c
  end.

(** The upstreams of the configuration, [NULL] without the module; [name] is the one of the
    filter.  Host names have no null byte. *)
Definition ngx_http_wasm_get_upstreams (umcf : option (list uscf_t)) (name : bytes) (alloc : bool)
    : outcome (ngx_rc * bytes) :=
  match umcf with
  | None => Ret (NGX_DECLINED, [])
  | Some upstreams =>
      if zlen name =? 0 then Ret (NGX_DECLINED, [])
      else
        match list_find (fun u => zlen (uc_host u) = zlen name /\ Acl.ngx_strlow (uc_host u) = Acl.ngx_strlow name) upstreams with
        | None => Ret (NGX_DECLINED, [])
        | Some (_, u) =>
            let '(len, total) := servers_len (uc_servers u) NGX_PROXY_WASM_PTR_SIZE 0 in
            if negb alloc then Ret (NGX_ERROR, [])
            else
              let? c := put (replicate (Z.to_nat len) x00, 0) (enc32 total) in
              let? c := put_servers (uc_servers u) c in
              Ret (NGX_OK, c.1)
        end
  end.

(** *** What a filter reads *)

(** The server of the SDK (src/docs/PROXY_WASM.md, "UpstreamServer"), and how it is read. *)
Record UpstreamServer := {
  es_address : bytes;
  es_port : Z;
  es_weight : Z;
  es_max_fails : Z;
  es_fail_timeout : Z;
  es_backup : Z;
}.

Definition get32 (bs : bytes) : option (Z * bytes) := v ← dec32 (take 4 bs); Some (v, drop 4 bs).

Definition decode_server (bs : bytes) : option (UpstreamServer * bytes) :=
  '(n, bs) ← get32 bs;
  let address := take (Z.to_nat n) bs in
  '(port, bs) ← get32 (drop (Z.to_nat n) bs);
  '(weight, bs) ← get32 bs;
  '(max_fails, bs) ← get32 bs;
  '(fail_timeout, bs) ← get32 bs;
  '(backup, bs) ← get32 bs;
  Some ({| es_address := address; es_port := port; es_weight := weight; es_max_fails := max_fails;
           es_fail_timeout := fail_timeout; es_backup := backup |}, bs).

Fixpoint decode_servers (n : nat) (bs : bytes) : option (list UpstreamServer * bytes) :=
  match n with
  | O => Some ([], bs)
  | S n =>
      '(e, bs) ← decode_server bs;
      '(l, bs) ← decode_servers n bs;
      Some (e :: l, bs)
  end.

(** All of the bytes are read. *)
Definition decode_upstreams (bs : bytes) : option (list UpstreamServer) :=
  '(n, bs) ← get32 bs;
  '(l, bs) ← decode_servers (Z.to_nat n) bs;
  if bool_decide (bs = []) then Some l else None.

Definition entry (p : server_t * addr_t) : UpstreamServer :=
  {| es_address := ngx_sock_ntop p.2; es_port := wrap32 (ad_port p.2); es_weight := wrap32 (sv_weight p.1);
     es_max_fails := wrap32 (sv_max_fails p.1); es_fail_timeout := wrap32 (sv_fail_timeout p.1);
     es_backup := wrap32 (sv_backup p.1) |}.

(** The addresses of the servers that are not down, with their server. *)
Definition live (l : list server_t) : list (server_t * addr_t) :=
  l ≫= (fun sv => if sv_down sv then [] else pair sv <$> sv_addrs sv).

(** *** What is written *)

Definition addr_bytes (p : server_t * addr_t) : bytes :=
  enc32 (zlen (ngx_sock_ntop p.2)) ++ ngx_sock_ntop p.2 ++ enc32 (ad_port p.2) ++ enc32 (sv_weight p.1)
  ++ enc32 (sv_max_fails p.1) ++ enc32 (sv_fail_timeout p.1) ++ enc32 (sv_backup p.1).

Definition all_bytes (l : list (server_t * addr_t)) : bytes := concat (addr_bytes <$> l).

Lemma all_bytes_app k l : all_bytes (k ++ l) = all_bytes k ++ all_bytes l.
Proof. unfold all_bytes. by rewrite fmap_app, concat_app. Qed.

Lemma zlen_addr_bytes p : zlen (addr_bytes p) = 24 + zlen (ngx_sock_ntop p.2).
Proof. unfold addr_bytes. autorewrite with wx. lia. Qed.

Lemma addrs_len_spec sv l : forall len total,
  addrs_len l len total = (len + zlen (all_bytes (pair sv <$> l)), total + zlen l).
Proof.
  induction l as [|a l IH]; intros len total; cbn [addrs_len fmap list_fmap].
  - change (all_bytes _) with (@nil byte). f_equal; by rewrite zlen_nil, Z.add_0_r.
  - rewrite IH. unfold all_bytes. rewrite fmap_cons. cbn [concat]. rewrite zlen_app, zlen_addr_bytes, zlen_cons.
    unfold NGX_PROXY_WASM_PTR_SIZE. cbn [snd]. f_equal; lia.
Qed.

Lemma servers_len_spec l : forall len total,
  servers_len l len total = (len + zlen (all_bytes (live l)), total + zlen (live l)).
Proof.
  induction l as [|sv l IH]; intros len total; cbn [servers_len].
  - change (live []) with (@nil (server_t * addr_t)). change (all_bytes []) with (@nil byte). f_equal; by rewrite zlen_nil, Z.add_0_r.
  - unfold live. rewrite bind_cons. fold (live l). rewrite all_bytes_app, !zlen_app.
    destruct (sv_down sv).
    + rewrite IH. change (all_bytes []) with (@nil byte). f_equal; rewrite zlen_nil; lia.
    + rewrite (addrs_len_spec sv), IH, zlen_fmap. f_equal; lia.
Qed.

(** A buffer of which the first part was written. *)
Definition written (w : bytes) (n : nat) : bytes * Z := (w ++ replicate n x00, zlen w).

Lemma wlp_put w n data :
  (length data <= n)%nat -> put (written w n) data = Ret (written (w ++ data) (n - length data)).
Proof.
  intros Hn. unfold put, written. cbn [fst snd]. rewrite mem_write_in by (unfold zlen; rewrite ?length_app, ?length_replicate; lia).
  cbn [obind]. rewrite zlen_app. do 2 f_equal. unfold zlen.
  rewrite Nat2Z.id, take_app_length, <- app_assoc. do 2 f_equal.
  rewrite drop_app_ge by lia. rewrite drop_replicate. do 2 f_equal. lia.
Qed.

Lemma put_addrs_spec sv l : forall w n,
  (length (all_bytes (pair sv <$> l)) <= n)%nat ->
  put_addrs sv l (written w n) =
    Ret (written (w ++ all_bytes (pair sv <$> l)) (n - length (all_bytes (pair sv <$> l)))).
Proof.
  induction l as [|a l IH]; intros w n Hn.
  - cbn. by rewrite app_nil_r, Nat.sub_0_r.
  - unfold all_bytes in *. rewrite !fmap_cons in *. cbn [concat] in *. rewrite length_app in Hn.
    pose proof (zlen_addr_bytes (sv, a)) as Hz. unfold zlen in Hz. cbn [snd] in Hz.
    set (r := concat _) in Hn |- *. cbn [put_addrs].
    do 7 (rewrite wlp_put by (rewrite ?length_enc32; lia); cbn [obind]).
    rewrite IH by (fold r; rewrite !length_enc32; lia). fold r. unfold addr_bytes. cbn [fst snd]. rewrite <- !app_assoc.
    rewrite !length_app, !length_enc32. do 2 f_equal. lia.
Qed.

Lemma put_servers_spec l : forall w n,
  (length (all_bytes (live l)) <= n)%nat ->
  put_servers l (written w n) = Ret (written (w ++ all_bytes (live l)) (n - length (all_bytes (live l)))).
Proof.
  induction l as [|sv l IH]; intros w n Hn; cbn [put_servers].
  - cbn. by rewrite app_nil_r, Nat.sub_0_r.
  - unfold live in *. rewrite bind_cons in *. fold (live l) in *. rewrite all_bytes_app in *.
    rewrite length_app in *. destruct (sv_down sv).
    + cbn [obind]. by rewrite IH by (cbn in Hn; lia).
    + rewrite put_addrs_spec by lia. cbn [obind]. rewrite IH by lia. rewrite <- app_assoc.
      do 2 f_equal. lia.
Qed.

Lemma get32_app v bs : get32 (enc32 v ++ bs) = Some (wrap32 v, bs).
Proof.
  unfold get32. rewrite take_app_length', drop_app_length' by (by rewrite length_enc32).
  by rewrite dec32_enc32.
Qed.

Lemma decode_server_app p bs :
  zlen (ngx_sock_ntop p.2) < 2 ^ 32 -> decode_server (addr_bytes p ++ bs) = Some (entry p, bs).
Proof.
  intros Hl. pose proof (zlen_nonneg (ngx_sock_ntop p.2)). unfold decode_server, addr_bytes.
  rewrite <- !app_assoc, get32_app. cbn [mbind option_bind].
  rewrite wrap32_id by zlia. unfold zlen. rewrite Nat2Z.id, take_app_length, drop_app_length.
  rewrite get32_app. cbn [mbind option_bind]. by do 4 (rewrite get32_app; cbn [mbind option_bind]).
Qed.

Lemma decode_servers_all l : forall bs,
  Forall (fun p => zlen (ngx_sock_ntop p.2) < 2 ^ 32) l ->
  decode_servers (length l) (all_bytes l ++ bs) = Some (entry <$> l, bs).
Proof.
  induction l as [|p l IH]; intros bs Hl; [done|].
  apply Forall_cons in Hl as [Hp Hl]. unfold all_bytes. rewrite !fmap_cons. cbn [concat length decode_servers].
  rewrite <- app_assoc, decode_server_app by done. cbn [mbind option_bind].
  fold (all_bytes l). by rewrite (IH bs Hl).
Qed.

(** C37. A filter that asks for the servers of its upstream reads every address of every server
    that is not down, in the order of the configuration, with the settings of its server, and
    nothing else: the size computed first is the size of what is written. *)
Theorem upstreams_decode pre u post name :
  name <> [] -> zlen (uc_host u) = zlen name -> Acl.ngx_strlow (uc_host u) = Acl.ngx_strlow name ->
  Forall (fun v => Acl.ngx_strlow (uc_host v) <> Acl.ngx_strlow name) pre ->
  zlen (live (uc_servers u)) < 2 ^ 32 ->
  Forall (fun p => zlen (ngx_sock_ntop p.2) < 2 ^ 32) (live (uc_servers u)) ->
  exists bs, ngx_http_wasm_get_upstreams (Some (pre ++ u :: post)) name true = Ret (NGX_OK, bs) /\
    decode_upstreams bs = Some (entry <$> live (uc_servers u)).
Proof.
  intros Hne Hlen Hlow Hpre Htot Hall. unfold ngx_http_wasm_get_upstreams.
  rewrite (proj2 (Z.eqb_neq _ _)) by (destruct name; [done|rewrite zlen_cons; pose proof (zlen_nonneg name); lia]).
  rewrite list_find_app_r by (apply list_find_None; eapply Forall_impl; [exact Hpre|]; cbn; naive_solver).
  cbn [list_find]. rewrite decide_True by done. cbn [fmap option_fmap option_map prod_map fst snd Datatypes.id].
  rewrite servers_len_spec. cbn [negb].
  set (body := all_bytes (live (uc_servers u))).
  change (replicate _ x00, 0) with (written [] (Z.to_nat (NGX_PROXY_WASM_PTR_SIZE + zlen body))).
  assert (Hz : (Z.to_nat (NGX_PROXY_WASM_PTR_SIZE + zlen body) = 4 + length body)%nat)
    by (unfold NGX_PROXY_WASM_PTR_SIZE, zlen; lia).
  rewrite Hz, wlp_put by (rewrite length_enc32; lia). cbn [obind].
  rewrite put_servers_spec by (fold body; rewrite length_enc32; lia). fold body.
  eexists. split; [reflexivity|]. unfold written. cbn [fst].
  rewrite length_enc32. replace (4 + length body - 4 - length body)%nat with 0%nat by lia.
  cbn [replicate]. rewrite app_nil_r, app_nil_l. unfold decode_upstreams. rewrite get32_app.
  cbn [mbind option_bind]. pose proof (zlen_nonneg (live (uc_servers u))).
  rewrite wrap32_id by zlia. replace (Z.to_nat (0 + zlen (live (uc_servers u)))) with (length (live (uc_servers u)))
    by (unfold zlen; lia).
  pose proof (decode_servers_all (live (uc_servers u)) [] Hall) as E. rewrite app_nil_r in E. fold body in E.
  by rewrite E.
Qed.

End servers.

End Upstream.
