(* ===== verification/UpstreamPolicy.v ===== *)
(** * What the choice of an upstream guarantees

    Whatever the filters of a request do while nginx tries its servers ([Upstream]), nginx
    connects to an address the access list of a filter allows or to the server of the balancer
    that was replaced, and no timeout gets longer than the configured one. *)
From S2P Require Import Prelude NginxCore Acl Host ProxyWasm Upstream.
From stdpp Require Export list gmap relations.
#[global] Open Scope Z_scope.

Module UpstreamPolicy.
Import Host Upstream.

(** ** Running the host functions *)

Section host.
Context {E : Type} (ngx_vsnprintf : nat -> bytes -> option bytes).

Lemma wlp_on_env {A} (m : SM E A) (h : host E) Q :
  wlp m (h_env h) (fun a e => Q a (set_env e h)) -> wlp (on_env m) h Q.
Proof.
  intros Hm a h' E1. unfold on_env in E1. destruct (m (h_env h)) as [[b e]|] eqn:Em; [|done].
  injection E1 as <- <-. by apply Hm.
Qed.

Lemma wlp_gets {A} (f : host E -> A) h Q : Q (f h) h -> wlp (gets f) h Q.
Proof. by intros HQ a h' [= <- <-]. Qed.

Lemma wlp_trap msg rc (h : host E) (Q : host_ret -> host E -> Prop) :
  (forall r h', h_env h' = h_env h -> Q r h') -> wlp (ngx_proxy_wasm_result_trap ngx_vsnprintf msg rc) h Q.
Proof.
  intros HQ. unfold ngx_proxy_wasm_result_trap. apply wlp_bind. intros [] h' E1. apply wlp_ret, HQ.
  unfold ngx_wavm_instance_trap_printf in E1. destruct (negb _); [by injection E1 as <-|].
  destruct (deref _); [|done]. by injection E1 as <-.
Qed.

Lemma wlp_LIFT_SLICE ptr len k (h : host E) (Q : host_ret -> host E -> Prop) :
  (forall r h', h_env h' = h_env h -> Q r h') -> (forall g, wlp (k g) h Q) ->
  wlp (NGX_WAVM_HOST_LIFT_SLICE ngx_vsnprintf ptr len k) h Q.
Proof.
  intros HQ Hk. unfold NGX_WAVM_HOST_LIFT_SLICE. apply wlp_bind, wlp_gets.
  destruct (ngx_wavm_memory_lift _ _ _ _) as [g ok]. destruct ok; [apply Hk|]. cbn [negb].
  apply wlp_bind. intros [] h' E1. apply wlp_ret, HQ.
  unfold ngx_wavm_instance_trap_printf in E1. destruct (negb _); [by injection E1 as <-|].
  destruct (deref _); [|done]. by injection E1 as <-.
Qed.

Lemma wlp_read_at g n (h : host E) (Q : bytes -> host E -> Prop) :
  (forall bs, Q bs h) -> wlp (read_at g n) h Q.
Proof. intros HQ a h' E1. unfold read_at in E1. destruct (load _ _ _); [|done]. by injection E1 as <- <-. Qed.

End host.

Section policy.
Context {W : Type} {T HA H : Type} `{!Acl.AclEnv T HA H}.
Context (ngx_proxy_wasm_resume : ProxyWasm.ngx_proxy_wasm_step_e -> SM (state W) ngx_rc).
Context (original_get_peer : SM (state W) ngx_rc) (original_free_peer : Z -> SM (state W) unit).
Context (flush_local_response : SM (state W) unit) (create_request : SM (state W) ngx_rc).
Context (ngx_parse_url : bytes -> Z -> option (list addr_t)) (ngx_palloc : W -> bool * W).
Context (next_errors : list (Z * Z)) (ngx_vsnprintf : nat -> bytes -> option bytes).

(** The access lists of the filters of the request ([None] for a filter without one), and the
    configuration of the upstream. *)
Context (filter_acl : option (Acl.ngx_wasm_acl_t T H) -> Prop) (conf0 : ngx_http_upstream_conf_t).

Abbreviation get_peer := (ngx_http_wasm_upstream_get_peer ngx_proxy_wasm_resume original_get_peer
  flush_local_response create_request).
Abbreviation free_peer := (ngx_http_wasm_upstream_free_peer ngx_proxy_wasm_resume original_free_peer next_errors).
Abbreviation test_next := (ngx_http_wasm_upstream_test_next ngx_proxy_wasm_resume).
Abbreviation hset_upstream := (ngx_proxy_wasm_hfuncs_proxy_set_upstream ngx_parse_url ngx_palloc ngx_vsnprintf).
Abbreviation hset_timeouts := (ngx_proxy_wasm_hfuncs_proxy_set_upstream_timeouts ngx_palloc ngx_vsnprintf).
Abbreviation haccept := (ngx_proxy_wasm_hfuncs_proxy_accept_upstream_response ngx_vsnprintf).

(** ** What guests and nginx do *)

(** What the functions that are not about the choice leave alone. *)
Definition policy_same (s s' : state W) : Prop :=
  up_original_conf (us_up s') = up_original_conf (us_up s) /\
  up_sockaddr (us_up s') = up_sockaddr (us_up s) /\
  u_conf <$> us_u s' = u_conf <$> us_u s.

(** A guest calls a host function: those of this component with any arguments, and others,
    which leave the choice alone. *)
Inductive guest_call (s : state W) : state W -> Prop :=
| call_set_upstream acl m t a0 a1 a2 a3 a4 a5 r h :
    filter_acl acl ->
    hset_upstream acl a0 a1 a2 a3 a4 a5 {| h_memory := m; h_trap := t; h_env := s |} = Ret (r, h) ->
    guest_call s (h_env h)
| call_set_timeouts m t a0 a1 a2 r h :
    hset_timeouts a0 a1 a2 {| h_memory := m; h_trap := t; h_env := s |} = Ret (r, h) ->
    guest_call s (h_env h)
| call_accept m t r h :
    haccept {| h_memory := m; h_trap := t; h_env := s |} = Ret (r, h) -> guest_call s (h_env h)
| call_other s' : policy_same s s' -> guest_call s s'.

(** The filters act by such calls only, and the functions of nginx and of the replaced balancer
    leave the choice alone. *)
Record UpstreamLaws : Prop := {
  resume_calls step s : wlp (ngx_proxy_wasm_resume step) s (fun _ s' => rtc guest_call s s');
  get_peer_same s : wlp original_get_peer s (fun _ s' => policy_same s s');
  free_peer_same st s : wlp (original_free_peer st) s (fun _ s' => policy_same s s');
  flush_same s : wlp flush_local_response s (fun _ s' => policy_same s s');
  create_request_same s : wlp create_request s (fun _ s' => policy_same s s');
}.

(** nginx calls back, in any order and number, or does something else. *)
Inductive nginx_step (s : state W) : state W -> Prop :=
| step_get_peer rc s' : get_peer s = Ret (rc, s') -> nginx_step s s'
| step_free_peer st s' : free_peer st s = Ret (tt, s') -> nginx_step s s'
| step_test_next peer data status rc s' : test_next peer data status s = Ret (rc, s') -> nginx_step s s'
| step_other s' : policy_same s s' -> nginx_step s s'.

(** ** The invariant *)

Definition allowed (a : addr_t) : Prop :=
  exists acl, filter_acl acl /\
    match acl with None => True | Some l => Acl.ngx_wasm_acl_check_addr l (ad_sockaddr a) = NGX_OK end.

Definition within (c : ngx_http_upstream_conf_t) : Prop :=
  connect_timeout c <= connect_timeout conf0 /\ send_timeout c <= send_timeout conf0 /\
  read_timeout c <= read_timeout conf0 /\
  next_upstream c = next_upstream conf0 /\ next_upstream_tries c = next_upstream_tries conf0.

Record policy (s : state W) : Prop := {
  pol_selected a : up_sockaddr (us_up s) = Some a -> allowed a;
  pol_conf : exists c, u_conf <$> us_u s = Some (Some c) /\ within c /\
    match up_original_conf (us_up s) with Some c0 => c0 = conf0 | None => c = conf0 end;
}.

Lemma policy_same_keeps s s' : policy_same s s' -> policy s -> policy s'.
Proof. intros (E1 & E2 & E3) [Hs Hc]. split; [by rewrite E2|by rewrite E1, E3]. Qed.

(** A change of the rest of the state. *)
Ltac same := eapply policy_same_keeps; [|eassumption]; by split_and!.

Lemma wlp_modify_u f s (Q : unit -> state W -> Prop) :
  (forall u, us_u s = Some u -> Q tt (set_u (Some (f u)) s)) -> wlp (modify_u f) s Q.
Proof.
  intros HQ [] s' E. unfold modify_u in E. destruct (us_u s) as [u|] eqn:Eu; [|done].
  injection E as <-. by apply HQ.
Qed.
Lemma wlp_get_u s (Q : ngx_http_upstream_t -> state W -> Prop) :
  (forall u, us_u s = Some u -> Q u s) -> wlp get_u s Q.
Proof.
  intros HQ u s' E. unfold get_u in E. destruct (us_u s) as [u'|] eqn:Eu; [|done].
  injection E as <- <-. by apply HQ.
Qed.
Lemma wlp_palloc s (Q : bool -> state W -> Prop) :
  (forall ok w, Q ok (set_world w s)) -> wlp (palloc ngx_palloc) s Q.
Proof. intros HQ ok s' E. unfold palloc in E. destruct (ngx_palloc _). by injection E as <- <-. Qed.
Lemma wlp_peer_up s (Q : ngx_http_wasm_upstream_peer_data_t -> state W -> Prop) :
  Q (us_up s) s -> wlp peer_up s Q.
Proof.
  intros HQ. apply wlp_bind, wlp_get_u. intros u _.
  destruct (u_peer_data u) as [[]|]; [by intros a s' [= <- <-]|by apply wlp_slift..].
Qed.

Lemma wlp_modify f s (Q : unit -> state W -> Prop) : Q tt (f s) -> wlp (modify f) s Q.
Proof. by intros HQ [] s' [= <-]. Qed.
Lemma wlp_get {A} (f : state W -> A) s (Q : A -> state W -> Prop) : Q (f s) s -> wlp (get f) s Q.
Proof. by intros HQ a s' [= <- <-]. Qed.

(** One step of a computation of the component. *)
Ltac wgo := repeat match goal with
  | |- wlp (_ ≫= _) _ _ => apply wlp_bind
  | |- wlp (mret _) _ _ => apply wlp_ret
  | |- wlp (get _) _ _ => apply wlp_get
  | |- wlp (modify _) _ _ => apply wlp_modify
  | |- wlp (modify_up _) _ _ => apply wlp_modify
  | |- wlp get_u _ _ => apply wlp_get_u; intros ? ?
  | |- wlp (modify_u _) _ _ => apply wlp_modify_u; intros ? ?
  | |- wlp (palloc _) _ _ => apply wlp_palloc; intros [] ?
  | |- wlp peer_up _ _ => apply wlp_peer_up
  | |- wlp (slift _) _ _ => apply wlp_slift; intros ? ?
  end.

Lemma set_upstream_policy acl addr port tls sni s :
  filter_acl acl -> policy s ->
  wlp (ngx_http_wasm_set_upstream ngx_parse_url ngx_palloc acl addr port tls sni) s (fun _ s' => policy s').
Proof.
  intros Hacl Hp. unfold ngx_http_wasm_set_upstream. wgo.
  case_bool_decide; wgo; cbn [negb]; [done| |wgo; same].
  destruct (ngx_parse_url _ _) as [[|ad l]|]; [wgo; same| |wgo; same].
  destruct (match acl with Some _ => _ | None => _ end) eqn:Ec; [wgo; same|]. wgo.
  assert (Ha : policy ((fun s => set_up (set_tls tls (set_sockaddr (Some ad) (us_up s))) s) (set_world w s))).
  { destruct Hp as [Hs Hc]. split; [|exact Hc]. cbn. intros a' [= <-]. exists acl. split; [done|].
    destruct acl as [l'|]; [|done]. apply negb_false_iff, bool_decide_eq_true in Ec. exact Ec. }
  destruct (zlen sni =? 0); wgo; [exact Ha|cbn [negb]; wgo; same|cbn [negb]; wgo; same].
Qed.

Lemma within_min c connect send read :
  within c ->
  within {| connect_timeout := if negb (connect =? 0) then Z.min connect (connect_timeout conf0) else connect_timeout c;
            send_timeout := if negb (send =? 0) then Z.min send (send_timeout conf0) else send_timeout c;
            read_timeout := if negb (read =? 0) then Z.min read (read_timeout conf0) else read_timeout c;
            next_upstream := next_upstream c; next_upstream_tries := next_upstream_tries c |}.
Proof.
  intros (? & ? & ? & ? & ?). unfold within. cbn.
  split_and!; try done; destruct (negb _); lia.
Qed.

Lemma within_refl : within conf0.
Proof. unfold within. split_and!; lia || done. Qed.

Lemma set_timeouts_policy connect send read s :
  policy s -> wlp (ngx_http_wasm_set_upstream_timeouts ngx_palloc connect send read) s (fun _ s' => policy s').
Proof.
  intros Hp. unfold ngx_http_wasm_set_upstream_timeouts. wgo.
  apply (wlp_mono _ _ (fun rc s' => policy s' /\ (rc = NGX_OK -> up_original_conf (us_up s') = Some conf0))).
  - destruct Hp as [Hs (c & Hc & Hw & Ho)]. destruct (up_original_conf (us_up s)) as [c0|] eqn:Eo.
    + wgo. subst c0. split; [split; [done|exists c; by rewrite Eo]|done].
    + wgo; cbn [negb]; wgo.
      * match goal with E : us_u _ = Some ?u |- _ => rename u into u0; rename E into Eu end. cbn in Eu.
        rewrite Eu in Hc. injection Hc as Hc. subst c. split; [split; [exact Hs|]|].
        -- exists conf0. cbn. rewrite Eu. cbn. rewrite Hc. split_and!; [done|exact within_refl|done].
        -- intros _. exact Hc.
      * split; [|done]. split; [exact Hs|]. exists c. cbn. by rewrite Eo.
  - intros rc s1 [Hp1 Horig]. destruct (is_ok rc) eqn:Eok; cbn [negb]; wgo; [|done].
    apply bool_decide_eq_true in Eok. specialize (Horig Eok).
    destruct Hp1 as [Hs1 (c1 & Hc1 & Hw1 & Ho1)]. split; [done|]. cbn.
    eexists. split; [reflexivity|].
    rewrite Horig in *. cbn in *. simplify_eq/=.
    split; [|done]. apply within_min. 
    match goal with E : us_u s1 = Some ?u, E2 : deref (u_conf ?u) = Ret ?c |- within ?c =>
      rewrite E in Hc1; cbn in Hc1; injection Hc1 as Hc1; rewrite Hc1 in E2; by injection E2 as <- end.
Qed.

Lemma accept_policy accept status s : policy s -> policy (set_up (set_accept accept status (us_up s)) s).
Proof. intros Hp. same. Qed.

Lemma guest_call_policy s s' : guest_call s s' -> policy s -> policy s'.
Proof.
  intros [acl m t a0 a1 a2 a3 a4 a5 r h Hacl E|m t a0 a1 a2 r h E|m t r h E|s2 Hs] Hp.
  - revert r h E. change (wlp (hset_upstream acl a0 a1 a2 a3 a4 a5) {| h_memory := m; h_trap := t; h_env := s |}
      (fun _ h => policy (h_env h))).
    unfold ngx_proxy_wasm_hfuncs_proxy_set_upstream. apply wlp_bind, wlp_gets. cbn [h_env].
    assert (Hsame : forall (r : host_ret) (h' : host (state W)), h_env h' = s -> policy (h_env h')) by (by intros ? ? ->).
    destruct (negb _); [by apply wlp_trap|].
    apply wlp_LIFT_SLICE; [exact Hsame|]. intros g1. apply wlp_LIFT_SLICE; [exact Hsame|]. intros g2.
    destruct (65535 <? _); [by apply wlp_ret|]. destruct (_ && _); [by apply wlp_ret|].
    destruct (us_u s ≫= u_peer_data); [|by apply wlp_ret].
    apply wlp_bind, wlp_read_at. intros addr. apply wlp_bind, wlp_read_at. intros sni.
    apply wlp_bind, wlp_on_env, wlp_peer_up. apply wlp_bind, wlp_on_env.
    eapply wlp_mono; [by apply (set_upstream_policy acl)|]. intros rc s2 Hs'.
    destruct rc; by apply wlp_ret.
  - revert r h E. change (wlp (hset_timeouts a0 a1 a2) {| h_memory := m; h_trap := t; h_env := s |}
      (fun _ h => policy (h_env h))).
    unfold ngx_proxy_wasm_hfuncs_proxy_set_upstream_timeouts. apply wlp_bind, wlp_gets. cbn [h_env].
    destruct (negb _); [apply wlp_trap; by intros ? ? ->|].
    destruct (us_u s ≫= u_conf); [|by apply wlp_ret].
    apply wlp_bind, wlp_on_env. eapply wlp_mono; [by apply set_timeouts_policy|].
    intros rc s2 Hs'. by apply wlp_ret.
  - revert r h E. change (wlp (haccept) {| h_memory := m; h_trap := t; h_env := s |}
      (fun _ h => policy (h_env h))).
    unfold ngx_proxy_wasm_hfuncs_proxy_accept_upstream_response. apply wlp_bind, wlp_gets. cbn [h_env].
    destruct (negb _); [apply wlp_trap; by intros ? ? ->|].
    destruct (us_u s); [|apply wlp_trap; by intros ? ? ->].
    apply wlp_bind, wlp_on_env, wlp_peer_up, wlp_bind, wlp_on_env, wlp_modify, wlp_ret.
    by apply accept_policy.
  - by eapply policy_same_keeps.
Qed.

Lemma guest_calls_policy s s' : rtc guest_call s s' -> policy s -> policy s'.
Proof. induction 1 as [|s1 s2 s3 Hc _ IH]; [done|]. intros Hp. by apply IH, (guest_call_policy s1). Qed.

Context (laws : UpstreamLaws).

Lemma resume_policy step s :
  policy s -> wlp (ngx_proxy_wasm_upstream_resume ngx_proxy_wasm_resume step) s (fun _ s' => policy s').
Proof.
  intros Hp. unfold ngx_proxy_wasm_upstream_resume. wgo. destruct (us_pwctx s) as [c|]; wgo; [|done].
  eapply wlp_mono; [apply (resume_calls laws)|]. intros rc s' Hcalls. wgo.
  apply (policy_same_keeps s'); [by split_and!|].
  assert (Hp1 : policy (set_pwctx (Some {| pc_step := pc_step c; pc_last_completed_step := pc_last_completed_step c;
                                           pc_background := true |}) s)) by same.
  by apply (guest_calls_policy _ _ Hcalls).
Qed.

Lemma set_u_policy f s u :
  us_u s = Some u -> u_conf (f u) = u_conf u -> policy s -> policy (set_u (Some (f u)) s).
Proof. intros Eu Ef. apply policy_same_keeps. unfold policy_same. cbn. rewrite Eu. cbn. by rewrite Ef. Qed.

Lemma with_peer_data_policy {A} (m : SM (state W) A) s :
  (forall s, policy s -> wlp m s (fun _ s' => policy s')) ->
  policy s -> wlp (with_peer_data m) s (fun _ s' => policy s').
Proof.
  intros Hm Hp. unfold with_peer_data. wgo. eapply wlp_mono.
  - apply Hm. by apply set_u_policy.
  - intros a s' Hp'. wgo. by apply set_u_policy.
Qed.

Lemma wlp_same (P : state W -> state W -> Prop) {A} (m : SM (state W) A) s :
  wlp m s (fun _ s' => policy_same s s') -> policy s -> wlp m s (fun _ s' => policy s').
Proof. intros Hm Hp. eapply wlp_mono; [exact Hm|]. intros a s' Hs. exact (policy_same_keeps _ _ Hs Hp). Qed.

(** Where nginx connects after [get_peer] succeeded: the address a filter chose, with TLS when it
    asked for it, or what the replaced balancer chose when no filter did. *)
Definition connects (s' : state W) : Prop :=
  (exists a u, up_sockaddr (us_up s') = Some a /\ allowed a /\ pc_sockaddr (us_pc s') = Some a /\
     us_u s' = Some u /\ u_ssl u = negb (up_tls (us_up s') =? 0)) \/
  (exists s1, (us_rctx s1 = NGX_DECLINED \/ up_sockaddr (us_up s1) = None) /\
     original_get_peer s1 = Ret (NGX_OK, s')).

Lemma get_peer_policy s :
  policy s -> wlp get_peer s (fun rc s' => policy s' /\ (rc = NGX_OK -> connects s')).
Proof.
  intros Hp. unfold ngx_http_wasm_upstream_get_peer. wgo.
  destruct (us_rctx s) eqn:Er; wgo; try (by split).
  - eapply (wlp_mono _ _ (fun _ s' => policy s')).
    { apply with_peer_data_policy; [intros; by apply resume_policy|same]. }
    intros rc s1 Hp1. destruct (error_rc rc); wgo; [by split|].
    destruct (negb (us_local_resp_status s1 =? 0)).
    + wgo. eapply wlp_mono; [apply (flush_same laws)|]. intros [] s2 Hs2.
      apply (policy_same_keeps _ _ Hs2) in Hp1. wgo. destruct (us_header_sent s2); wgo; (split; [|done]); [|done].
      by apply set_u_policy.
    + wgo. apply (wlp_mono _ _ (fun _ s' => policy s')).
      * destruct (us_req_headers_modified s1); wgo; [|done]. unfold remake_request. wgo.
        apply wlp_same; [exact policy_same|apply (create_request_same laws)|]. by apply set_u_policy; [..|same].
      * intros rc2 s2 Hp2. destruct (is_ok rc2); cbn [negb]; wgo; [|by split].
        destruct (up_sockaddr (us_up s2)) as [a|] eqn:Ea.
        -- wgo. pose proof (pol_selected _ Hp2 a Ea) as Ha.
           destruct (negb (up_tls (us_up s2) =? 0)) eqn:Et; wgo.
           ++ split; [by apply set_u_policy; [..|same]|]. intros _. left. cbn. do 2 eexists. by split_and!.
           ++ split; [by apply set_u_policy; [..|same]|]. intros _. left. cbn. do 2 eexists. by split_and!.
        -- intros rc3 s3 E3. split.
           ++ eapply policy_same_keeps; [|exact Hp2]. by eapply (get_peer_same laws).
           ++ intros ->. right. exists s2. auto.
  - intros rc3 s3 E3. split.
    + eapply policy_same_keeps; [|exact Hp]. by eapply (get_peer_same laws).
    + intros ->. right. exists s. auto.
Qed.

Lemma unset_policy st s :
  policy s -> policy (set_up (set_sockaddr None (set_last_state st (us_up s))) s).
Proof. intros [_ Hc]. by split. Qed.

Lemma free_peer_policy st s : policy s -> wlp (free_peer st) s (fun _ s' => policy s').
Proof.
  intros Hp. unfold ngx_http_wasm_upstream_free_peer. wgo. destruct (up_sockaddr (us_up s)) eqn:Ea.
  - wgo. destruct (us_rctx s); wgo; try done. eapply wlp_mono.
    + apply with_peer_data_policy; [intros; by apply resume_policy|].
      apply (policy_same_keeps (set_up (set_sockaddr None (set_last_state st (us_up s))) s)); [by split_and!|].
      by apply unset_policy.
    + intros rc s2 Hp2. by wgo.
  - apply wlp_same; [exact policy_same|apply (free_peer_same laws)|done].
Qed.

Lemma test_next_policy peer data status s : policy s -> wlp (test_next peer data status) s (fun _ s' => policy s').
Proof.
  intros Hp. unfold ngx_http_wasm_upstream_test_next. wgo.
  destruct (negb (is_ok (us_rctx s))); wgo; [done|]. destruct (negb peer); wgo; [done|].
  destruct (up_sockaddr (us_up s)) eqn:Ea; wgo; [|done].
  eapply wlp_mono.
  - apply resume_policy. apply set_u_policy; [done|done|]. by apply accept_policy.
  - intros rc s2 Hp2. wgo. destruct (up_accept_resp _); wgo; by apply set_u_policy.
Qed.

Lemma nginx_step_policy s s' : nginx_step s s' -> policy s -> policy s'.
Proof.
  intros [rc s2 E|st s2 E|peer data status rc s2 E|s2 Hs] Hp.
  - by eapply (get_peer_policy s Hp rc s2).
  - by eapply (free_peer_policy st s Hp tt s2).
  - by eapply (test_next_policy peer data status s Hp rc s2).
  - by eapply policy_same_keeps.
Qed.

Lemma init_policy n s s' :
  u_conf <$> us_u s = Some (Some conf0) -> us_rctx s = NGX_OK ->
  ngx_http_wasm_upstream_init_peer n true true s = Ret (NGX_OK, s') -> policy s'.
Proof.
  intros Hc Hr. revert s'. enough (Hw : wlp (ngx_http_wasm_upstream_init_peer n true true) s (fun _ s' => policy s'))
    by (intros s'; apply Hw).
  unfold ngx_http_wasm_upstream_init_peer. cbn [negb]. wgo. rewrite Hr. wgo.
  split; [done|]. exists conf0. cbn in *.
  match goal with E : us_u s = Some ?u |- _ => rewrite E in *; cbn in Hc; injection Hc as Hc end.
  simplify_eq/=. split_and!; [by f_equal|exact within_refl|done].
Qed.

(** C12. From the start of an upstream on, whatever nginx calls back and in whatever order, and
    whatever host functions the filters call meanwhile: when [get_peer] succeeds, nginx
    connects to an address that the access list of a filter of the request allows, with TLS as
    the filter said, or to the server of the balancer that was replaced, which is asked only
    when no filter chose one.  At any time the timeouts are at most the configured ones. *)
Theorem upstream_policy n s0 s1 s :
  u_conf <$> us_u s0 = Some (Some conf0) -> us_rctx s0 = NGX_OK ->
  ngx_http_wasm_upstream_init_peer n true true s0 = Ret (NGX_OK, s1) -> rtc nginx_step s1 s ->
  (forall a, up_sockaddr (us_up s) = Some a -> allowed a) /\
  (exists c, u_conf <$> us_u s = Some (Some c) /\ within c) /\
  (forall s', get_peer s = Ret (NGX_OK, s') -> connects s').
Proof.
  intros Hc Hr Hi Hsteps. apply (init_policy n) in Hi; [|done|done].
  assert (Hp : policy s).
  { clear -laws Hi Hsteps. induction Hsteps as [|s1 s2 s3 Hs _ IH]; [done|]. by apply IH, (nginx_step_policy s1). }
  split; [apply Hp|]. split.
  - destruct (pol_conf _ Hp) as (c & Ec & Hw & _). eauto.
  - intros s' E. by apply (get_peer_policy s Hp NGX_OK s' E).
Qed.

End policy.

End UpstreamPolicy.

(** ** Executions *)

Module UpstreamRuns.
Import Host HostRuns Acl AclReference Upstream UpstreamPolicy.

(** What a filter does in a callback. *)
Inductive command :=
| Choose (addr sni : bytes) (tls : Z)
| Timeouts (connect send read : Z)
| Accept
| Nothing.

(** The commands of the next callbacks. *)
Abbreviation W := (list command).
Abbreviation acl := (ngx_wasm_acl_t (list radix_rule) (list ngx_hash_key_t)).

Definition ten_allowed : acl := {| acl_ctx := (insert_rules empty_ctx block).2; acl_recorded_addrs := [] |}.

Definition parse (url : bytes) (port : Z) : option (list addr_t) :=
  if inet_addr url =? INADDR_NONE then None
  else Some [{| ad_sockaddr := Sockaddr_in (inet_addr url); ad_port := port; ad_name := url |}].
Definition palloc_ok (w : W) : bool * W := (true, w).

Definition memory_with (addr sni : bytes) : memory :=
  {| mem_base := 4096; mem_data := replicate 8 x00 ++ addr ++ replicate (24 - length addr) x00 ++ sni |}.

(** A command is a call of its host function. *)
Definition run (c : command) (s : state W) : outcome (host_ret * host (state W)) :=
  match c with
  | Choose addr sni tls =>
      ngx_proxy_wasm_hfuncs_proxy_set_upstream parse palloc_ok printf_noargs (Some ten_allowed)
        8 (zlen addr) 443 tls 32 (zlen sni)
        {| h_memory := memory_with addr sni; h_trap := []; h_env := s |}
  | Timeouts a b c =>
      ngx_proxy_wasm_hfuncs_proxy_set_upstream_timeouts palloc_ok printf_noargs a b c
        {| h_memory := memory_of 8; h_trap := []; h_env := s |}
  | Accept =>
      ngx_proxy_wasm_hfuncs_proxy_accept_upstream_response printf_noargs
        {| h_memory := memory_of 8; h_trap := []; h_env := s |}
  | Nothing => Ret (ngx_proxy_wasm_result_ok, {| h_memory := memory_of 8; h_trap := []; h_env := s |})
  end.

(** Each callback runs one command. *)
Definition resume (step : ProxyWasm.ngx_proxy_wasm_step_e) : SM (state W) ngx_rc := fun s =>
  let s := set_pwctx ((fun c => {| pc_step := step; pc_last_completed_step := step;
                                   pc_background := pc_background c |}) <$> us_pwctx s) s in
  match us_world s with
  | [] => Ret (NGX_OK, s)
  | c :: w =>
      let? (r, h) := run c (set_world w s) in
      Ret (if r.1 =? NGX_WAVM_OK then NGX_OK else NGX_ERROR, h_env h)
  end.

(** Round robin over one server. *)
Definition configured : addr_t := {| ad_sockaddr := Sockaddr_in 1; ad_port := 80; ad_name := ngx_string "1.0.0.0" |}.
Definition round_robin : SM (state W) ngx_rc := fun s =>
  Ret (NGX_OK, set_pc {| pc_tries := pc_tries (us_pc s); pc_sockaddr := Some configured; pc_cached := false;
                         pc_connection := false |} s).

Definition conf : ngx_http_upstream_conf_t :=
  {| connect_timeout := 3000; send_timeout := 4000; read_timeout := 5000; next_upstream := 2; next_upstream_tries := 0 |}.

Definition fresh_request (script : W) : state W :=
  {| us_rctx := NGX_OK;
     us_pwctx := Some {| pc_step := ProxyWasm.STEP_REQ_HEADERS; pc_last_completed_step := ProxyWasm.STEP_REQ_HEADERS;
                         pc_background := false |};
     us_req_headers_modified := false; us_local_resp_status := 0; us_header_sent := false;
     us_up := new_peer_data;
     us_u := Some {| u_conf := Some conf; u_peer_data := Some OTHER_PEER; u_ssl := false; u_schema := http;
                     u_ssl_name := []; u_header_sent := false; u_request_bufs := []; u_state := Some 502 |};
     us_pc := {| pc_tries := 0; pc_sockaddr := None; pc_cached := false; pc_connection := false |};
     us_request_body := None; us_freed := []; us_world := script |}.

Abbreviation get_peer := (ngx_http_wasm_upstream_get_peer resume round_robin (mret tt) (mret NGX_OK)).
Abbreviation free_peer := (ngx_http_wasm_upstream_free_peer resume (fun _ => mret tt) [(502, 2)]).
Abbreviation test_next := (ngx_http_wasm_upstream_test_next resume true (Some OTHER_PEER)).

Definition started (script : W) : outcome (ngx_rc * state W) :=
  ngx_http_wasm_upstream_init_peer 3 true true (fresh_request script).

(** Tries, each with [get_peer] and then [free_peer], and a last [get_peer]: the code, the
    address, TLS and the name of the server, and the timeout. *)
Fixpoint tries (n : nat) : SM (state W) ngx_rc :=
  match n with
  | O => get_peer
  | S n => _ ← get_peer; free_peer 0;; tries n
  end.
Definition connection (n : nat) (script : W) : outcome (ngx_rc * option bytes * bool * bytes * Z) :=
  let? (_, s) := started script in
  let? (rc, s) := tries n s in
  let? u := deref (us_u s) in
  let? c := deref (u_conf u) in
  Ret (rc, ad_name <$> pc_sockaddr (us_pc s), u_ssl u, u_ssl_name u, connect_timeout c).

Definition ten_one := ngx_string "10.0.0.1".
Definition denied := ngx_string "10.0.0.13".

Example chosen : connection 0 [Choose ten_one (ngx_string "a.test") 1] =
  Ret (NGX_OK, Some ten_one, true, ngx_string "a.test", 3000).
Proof. by vm_compute. Qed.

Example not_allowed : connection 0 [Choose denied [] 0] = Ret (NGX_OK, Some (ngx_string "1.0.0.0"), false, [], 3000).
Proof. by vm_compute. Qed.

Example shorter_timeout : connection 0 [Timeouts 1000 0 0] = Ret (NGX_OK, Some (ngx_string "1.0.0.0"), false, [], 1000).
Proof. by vm_compute. Qed.
Example longer_timeout : connection 0 [Timeouts 9000 0 0] = Ret (NGX_OK, Some (ngx_string "1.0.0.0"), false, [], 3000).
Proof. by vm_compute. Qed.

(** The server of the next try gets the TLS settings of the one before, when no filter chooses
    it ... *)
Example tls_of_the_try_before :
  connection 1 [Choose ten_one (ngx_string "a.test") 1; Nothing; Nothing] =
  Ret (NGX_OK, Some (ngx_string "1.0.0.0"), true, ngx_string "a.test", 3000).
Proof. by vm_compute. Qed.

(** ... and its name when the filter gives none. *)
Example name_of_the_try_before :
  connection 1 [Choose ten_one (ngx_string "a.test") 1; Nothing; Choose ten_one [] 1] =
  Ret (NGX_OK, Some ten_one, true, ngx_string "a.test", 3000).
Proof. by vm_compute. Qed.

(** A filter accepts a response only when it is asked; otherwise it traps, and the try fails. *)
Example accepted :
  (let? (_, s) := started [Choose ten_one [] 0; Accept] in
   let? (_, s) := get_peer s in
   let? (rc, _) := test_next 404 s in Ret rc) = Ret NGX_DECLINED /\
  (let? (_, s) := started [Accept] in let? (rc, _) := get_peer s in Ret rc) = Ret NGX_ERROR.
Proof. by vm_compute. Qed.

Definition filters (l : option acl) : Prop := l = Some ten_allowed.

Lemma calls_example c s r h : run c s = Ret (r, h) ->
  rtc (guest_call parse palloc_ok printf_noargs filters) s (h_env h).
Proof.
  intros E. destruct c as [addr sni tls|a b c| |].
  - apply rtc_once. by eapply call_set_upstream.
  - apply rtc_once. by eapply call_set_timeouts.
  - apply rtc_once. by eapply call_accept.
  - cbn in E. by injection E as <- <-.
Qed.

Lemma run_laws :
  UpstreamLaws resume round_robin (fun _ => mret tt) (mret tt) (mret NGX_OK) parse palloc_ok printf_noargs filters.
Proof.
  split.
  - intros step s rc s' E. unfold resume in E.
    set (s1 := set_pwctx _ s) in E. apply (rtc_l _ _ s1); [apply call_other; by split_and!|].
    destruct (us_world s1) as [|c w]; [by injection E as <- <-|].
    apply (rtc_l _ _ (set_world w s1)); [apply call_other; by split_and!|].
    destruct (run c (set_world w s1)) as [[r h]|] eqn:Er; [|done]. injection E as <- <-.
    by eapply calls_example.
  - intros s rc s' [= <- <-]. by split_and!.
  - intros st s [] s' [= <-]. by split_and!.
  - intros s [] s' [= <-]. by split_and!.
  - intros s rc s' [= <- <-]. by split_and!.
Qed.

Lemma upstream_policy_witness :
  exists s1 s2 : state W, started [Choose ten_one [] 1] = Ret (NGX_OK, s1) /\ get_peer s1 = Ret (NGX_OK, s2) /\
    connects round_robin filters s2.
Proof.
  destruct (started [Choose ten_one [] 1]) as [[rc s1]|] eqn:E1; [|by vm_compute in E1].
  assert (rc = NGX_OK) as -> by (by vm_compute in E1; injection E1).
  destruct (get_peer s1) as [[rc2 s2]|] eqn:E2; [|by vm_compute in E1; injection E1 as <-; vm_compute in E2].
  assert (rc2 = NGX_OK) as -> by (by vm_compute in E1; injection E1 as <-; vm_compute in E2; injection E2).
  exists s1, s2. split_and!; [done|done|].
  destruct (upstream_policy resume round_robin (fun _ => mret tt) (mret tt) (mret NGX_OK) parse palloc_ok [(502, 2)]
    printf_noargs filters conf run_laws 3 (fresh_request [Choose ten_one [] 1]) s1 s1) as (_ & _ & Hc).
  - reflexivity.
  - reflexivity.
  - exact E1.
  - apply rtc_refl.
  - by apply Hc.
Defined.

(** Two servers, one of them down. *)
Definition backend : uscf_t :=
  {| uc_host := ngx_string "Backend";
     uc_servers := [{| sv_down := false; sv_addrs := [configured; configured]; sv_weight := 2; sv_max_fails := 1;
                       sv_fail_timeout := 10; sv_backup := 0 |};
                    {| sv_down := true; sv_addrs := [configured]; sv_weight := 1; sv_max_fails := 1;
                       sv_fail_timeout := 10; sv_backup := 0 |}] |}.

Lemma upstreams_decode_witness :
  exists bs, ngx_http_wasm_get_upstreams ad_name (Some [backend]) (ngx_string "backend") true = Ret (NGX_OK, bs) /\
    decode_upstreams bs = Some (replicate 2 {| es_address := ngx_string "1.0.0.0"; es_port := 80; es_weight := 2;
                                               es_max_fails := 1; es_fail_timeout := 10; es_backup := 0 |}).
Proof.
  apply (upstreams_decode ad_name [] backend [] (ngx_string "backend")).
  - discriminate.
  - reflexivity.
  - reflexivity.
  - constructor.
  - reflexivity.
  - repeat constructor.
Defined.

End UpstreamRuns.
