(* ===== verification/Properties.v ===== *)
(** * Properties

    src/src/common/proxy_wasm/ngx_proxy_wasm_properties.c: what a filter reads and writes by a
    path, the attributes of the proxy-wasm interface, the variables of nginx ("ngx.*") and the
    properties of the host ("wasmx.*"); with the two host functions of
    src/src/common/proxy_wasm/ngx_proxy_wasm_host.c. *)
From S2P Require Import Prelude NginxCore Acl Host Escape Pairs ProxyWasm Headers Maps Upstream.
From stdpp Require Export list gmap.
#[global] Open Scope Z_scope.

Module Properties.
Import Host.
Import Headers.
Import Maps.
#[local] Existing Instance ProxyWasm.step_eq_dec.

(** ** Data *)

(** The functions [getter] points to. *)
Inductive ngx_proxy_wasm_properties_getter :=
| p_nyi | p_not_supported
| p_get_request_id | p_get_referer | p_get_request_time | p_get_request_header | p_is_subrequest
| p_get_response_header
| p_get_upstream_address | p_get_upstream_status | p_get_upstream_connect_time
| p_get_upstream_response_time | p_get_upstream_header_time
| p_get_connection_id | p_get_connection_mtls
| p_get_filter_name | p_get_filter_root_id | p_get_worker_id.

(** [pwm_key_writable] is memory of the hash. *)
Record pwm2ngx_mapping_t := {
  pwm_key : bytes;
  ngx_key : bytes;
  getter : option ngx_proxy_wasm_properties_getter;
}.

(** An attribute that is a variable of nginx, one with a getter. *)
Definition variable (key ngx_key : String.string) : pwm2ngx_mapping_t :=
  {| pwm_key := ngx_string key; ngx_key := ngx_string ngx_key; getter := None |}.
Arguments variable (key ngx_key)%_string_scope.
Definition attribute (key : String.string) (g : ngx_proxy_wasm_properties_getter) : pwm2ngx_mapping_t :=
  {| pwm_key := ngx_string key; ngx_key := []; getter := Some g |}.
Arguments attribute key%_string_scope g.

(** The entries of a build with HTTP, without the one that ends the table. *)
Definition pw2ngx_http : list pwm2ngx_mapping_t :=
  [variable "request.path" "ngx.request_uri";
   variable "request.url_path" "ngx.uri";
   variable "request.host" "ngx.hostname";
   variable "request.scheme" "ngx.scheme";
   variable "request.method" "ngx.request_method";
   variable "request.useragent" "ngx.http_user_agent";
   variable "request.protocol" "ngx.server_protocol";
   variable "request.query" "ngx.args";
   attribute "request.id" p_get_request_id;
   attribute "request.referer" p_get_referer;
   attribute "request.time" p_get_request_time;
   variable "request.duration" "ngx.request_time";
   variable "request.size" "ngx.content_length";
   variable "request.total_size" "ngx.request_length";
   attribute "request.headers.*" p_get_request_header;
   attribute "request.is_subrequest" p_is_subrequest;
   variable "response.code" "ngx.status";
   variable "response.size" "ngx.body_bytes_sent";
   variable "response.total_size" "ngx.bytes_sent";
   attribute "response.grpc_status" p_nyi;
   attribute "response.trailers" p_nyi;
   attribute "response.code_details" p_not_supported;
   attribute "response.flags" p_not_supported;
   attribute "response.headers.*" p_get_response_header;
   attribute "upstream.address" p_get_upstream_address;
   attribute "upstream.status" p_get_upstream_status;
   attribute "upstream.connect_time" p_get_upstream_connect_time;
   attribute "upstream.response_time" p_get_upstream_response_time;
   attribute "upstream.header_time" p_get_upstream_header_time;
   attribute "upstream.tls_version" p_nyi;
   attribute "upstream.subject_local_certificate" p_nyi;
   attribute "upstream.subject_peer_certificate" p_nyi;
   attribute "upstream.dns_san_local_certificate" p_nyi;
   attribute "upstream.dns_san_peer_certificate" p_nyi;
   attribute "upstream.uri_san_local_certificate" p_nyi;
   attribute "upstream.uri_san_peer_certificate" p_nyi;
   attribute "upstream.sha256_peer_certificate_digest" p_nyi;
   attribute "upstream.local_address" p_nyi;
   attribute "upstream.transport_failure_reason" p_nyi;
   variable "destination.address" "ngx.proxy_protocol_addr";
   variable "destination.port" "ngx.proxy_protocol_port";
   variable "connection.requested_server_name" "ngx.ssl_server_name";
   variable "connection.tls_version" "ngx.ssl_protocol";
   variable "connection.subject_local_certificate" "ngx.ssl_client_s_dn";
   attribute "connection.id" p_get_connection_id;
   attribute "connection.mtls" p_get_connection_mtls;
   attribute "connection.subject_peer_certificate" p_nyi;
   attribute "connection.dns_san_local_certificate" p_nyi;
   attribute "connection.dns_san_peer_certificate" p_nyi;
   attribute "connection.uri_san_local_certificate" p_nyi;
   attribute "connection.uri_san_peer_certificate" p_nyi;
   attribute "connection.sha256_peer_certificate_digest" p_nyi;
   attribute "connection.termination_details" p_not_supported].

Definition pw2ngx (debug : bool) : list pwm2ngx_mapping_t :=
  pw2ngx_http ++
  [variable "source.address" "ngx.remote_addr";
   variable "source.port" "ngx.remote_port";
   attribute "plugin_name" p_get_filter_name;
   attribute "plugin_root_id" p_get_filter_root_id;
   attribute "plugin_vm_id" p_nyi;
   attribute "node" p_not_supported;
   attribute "cluster_name" p_not_supported;
   attribute "cluster_metadata" p_not_supported;
   attribute "listener_direction" p_not_supported;
   attribute "listener_metadata" p_not_supported;
   attribute "route_name" p_not_supported;
   attribute "route_metadata" p_not_supported;
   attribute "upstream_host_metadata" p_not_supported] ++
  (if debug then [attribute "worker_id" p_get_worker_id] else []).

Definition ngx_prefix : bytes := ngx_string "ngx.".
Definition host_prefix : bytes := ngx_string "wasmx.".
Definition str_on : bytes := ngx_string "true".
Definition str_off : bytes := ngx_string "false".

(** A property of the host: [None] is a [NULL] value; [hn_freed] tells that the memory of the
    value was given back. *)
Record host_props_node_t := {
  hn_value : option bytes;
  hn_freed : bool;
  hn_is_const : bool;
  hn_is_const_null : bool;
}.

(** A value of a variable, an element of [r->variables]. *)
Record ngx_http_variable_value_t := {
  vv_valid : bool;
  vv_not_found : bool;
  vv_no_cacheable : bool;
  vv_data : option bytes;
}.

(** An element of [r->upstream_states]. *)
Record ngx_http_upstream_state_t := {
  st_peer : option bytes;
  st_status : Z;
  st_connect_time : Z;
  st_response_time : Z;
  st_header_time : Z;
}.

(** [pwctx->data] is [NULL] or the context of a request, which may be a fake one; the strings
    are those kept in the stream context, unset when they are empty; [ps_ffi] are the two
    handlers of Lua. *)
Record props_state (P : Type) := {
  ps_maps : map_state P;
  ps_rctx : option bool;
  ps_variables : list ngx_http_variable_value_t;
  ps_start_time : bytes;
  ps_connection_id : bytes;
  ps_mtls : bytes;
  ps_root_id : bytes;
  ps_worker_id : bytes;
  ps_host_props : gmap bytes host_props_node_t;
  ps_ffi : option addr * option addr;
}.
Arguments ps_maps {P}. Arguments ps_rctx {P}. Arguments ps_variables {P}. Arguments ps_start_time {P}.
Arguments ps_connection_id {P}. Arguments ps_mtls {P}. Arguments ps_root_id {P}.
Arguments ps_worker_id {P}. Arguments ps_host_props {P}. Arguments ps_ffi {P}.

(** ** Assignments *)

Section assignments.
Context {P : Type}.
Implicit Types s : props_state P.

Definition with_maps (m : map_state P) s : props_state P :=
  {| ps_maps := m; ps_rctx := ps_rctx s; ps_variables := ps_variables s; ps_start_time := ps_start_time s;
     ps_connection_id := ps_connection_id s; ps_mtls := ps_mtls s; ps_root_id := ps_root_id s;
     ps_worker_id := ps_worker_id s; ps_host_props := ps_host_props s; ps_ffi := ps_ffi s |}.
Definition with_variables (l : list ngx_http_variable_value_t) s : props_state P :=
  {| ps_maps := ps_maps s; ps_rctx := ps_rctx s; ps_variables := l; ps_start_time := ps_start_time s;
     ps_connection_id := ps_connection_id s; ps_mtls := ps_mtls s; ps_root_id := ps_root_id s;
     ps_worker_id := ps_worker_id s; ps_host_props := ps_host_props s; ps_ffi := ps_ffi s |}.
Definition with_start_time (v : bytes) s : props_state P :=
  {| ps_maps := ps_maps s; ps_rctx := ps_rctx s; ps_variables := ps_variables s; ps_start_time := v;
     ps_connection_id := ps_connection_id s; ps_mtls := ps_mtls s; ps_root_id := ps_root_id s;
     ps_worker_id := ps_worker_id s; ps_host_props := ps_host_props s; ps_ffi := ps_ffi s |}.
Definition with_connection_id (v : bytes) s : props_state P :=
  {| ps_maps := ps_maps s; ps_rctx := ps_rctx s; ps_variables := ps_variables s;
     ps_start_time := ps_start_time s; ps_connection_id := v; ps_mtls := ps_mtls s;
     ps_root_id := ps_root_id s; ps_worker_id := ps_worker_id s; ps_host_props := ps_host_props s;
     ps_ffi := ps_ffi s |}.
Definition with_mtls (v : bytes) s : props_state P :=
  {| ps_maps := ps_maps s; ps_rctx := ps_rctx s; ps_variables := ps_variables s;
     ps_start_time := ps_start_time s; ps_connection_id := ps_connection_id s; ps_mtls := v;
     ps_root_id := ps_root_id s; ps_worker_id := ps_worker_id s; ps_host_props := ps_host_props s;
     ps_ffi := ps_ffi s |}.
Definition with_root_id (v : bytes) s : props_state P :=
  {| ps_maps := ps_maps s; ps_rctx := ps_rctx s; ps_variables := ps_variables s;
     ps_start_time := ps_start_time s; ps_connection_id := ps_connection_id s; ps_mtls := ps_mtls s;
     ps_root_id := v; ps_worker_id := ps_worker_id s; ps_host_props := ps_host_props s;
     ps_ffi := ps_ffi s |}.
Definition with_worker_id (v : bytes) s : props_state P :=
  {| ps_maps := ps_maps s; ps_rctx := ps_rctx s; ps_variables := ps_variables s;
     ps_start_time := ps_start_time s; ps_connection_id := ps_connection_id s; ps_mtls := ps_mtls s;
     ps_root_id := ps_root_id s; ps_worker_id := v; ps_host_props := ps_host_props s;
     ps_ffi := ps_ffi s |}.
Definition with_host_props (t : gmap bytes host_props_node_t) s : props_state P :=
  {| ps_maps := ps_maps s; ps_rctx := ps_rctx s; ps_variables := ps_variables s;
     ps_start_time := ps_start_time s; ps_connection_id := ps_connection_id s; ps_mtls := ps_mtls s;
     ps_root_id := ps_root_id s; ps_worker_id := ps_worker_id s; ps_host_props := t;
     ps_ffi := ps_ffi s |}.
Definition with_ffi (f : option addr * option addr) s : props_state P :=
  {| ps_maps := ps_maps s; ps_rctx := ps_rctx s; ps_variables := ps_variables s;
     ps_start_time := ps_start_time s; ps_connection_id := ps_connection_id s; ps_mtls := ps_mtls s;
     ps_root_id := ps_root_id s; ps_worker_id := ps_worker_id s; ps_host_props := ps_host_props s;
     ps_ffi := f |}.
End assignments.

(** ** What the component calls *)

(** A variable of nginx: its flags, its handler, its index in [r->variables]. *)
Record ngx_http_variable_t (P : Type) := {
  v_changeable : bool;
  v_set_handler : option (map_state P * list ngx_http_variable_value_t -> ngx_http_variable_value_t ->
                          map_state P * list ngx_http_variable_value_t);
  v_indexed : bool;
  v_index : nat;
}.
Arguments v_changeable {P}. Arguments v_set_handler {P}. Arguments v_indexed {P}. Arguments v_index {P}.

(** A combined hash of nginx: a key that ends with "*" is that of the names which begin with
    the rest of it, the others are names. *)
Definition key_matches (key name : bytes) : bool :=
  if bool_decide (last key = Some "*"%byte) then bool_decide (removelast key `prefix_of` name)
  else bool_decide (key = name).

Class NgxHash := {
  ngx_hash_find_combined {A} : list (bytes * A) -> bytes -> option A;
}.

Class NgxHashLaws (H : NgxHash) : Prop := {
  hash_found {A} (keys : list (bytes * A)) name k a :
    NoDup keys.*1 -> (k, a) ∈ keys -> key_matches k name = true ->
    (forall k' a', (k', a') ∈ keys -> key_matches k' name = true -> k' = k) ->
    ngx_hash_find_combined keys name = Some a;
  hash_missed {A} (keys : list (bytes * A)) name :
    (forall k a, (k, a) ∈ keys -> key_matches k name = false) ->
    ngx_hash_find_combined keys name = None;
}.

(** The request, its filters and its variables; [ffi_call] calls a handler of Lua, which answers
    with a code, a value and an error; [stack_size] is the room left on the stack of C and
    [pool_max] the size from which an allocation can be freed.  [current_filter_name] is the name
    of the filter at [exec_index]. *)
Class PropsEnv (P : Type) := {
  start_sec : Z;
  start_msec : Z;
  is_main_request : bool;
  connection_number : Z;
  upstream_states : option (list ngx_http_upstream_state_t);
  root_filter_name : bytes;
  current_filter_name : option bytes;
  ngx_worker : Z;
  sprintf_i : Z -> bytes;
  sprintf_time : Z -> Z -> bytes;
  has_http_main_conf : bool;
  ngx_http_get_variable : map_state P -> list ngx_http_variable_value_t -> bytes ->
    option ngx_http_variable_value_t * (map_state P * list ngx_http_variable_value_t);
  variables_hash : bytes -> option (ngx_http_variable_t P);
  ffi_call : addr -> bytes -> option bytes -> SM (props_state P) (ngx_rc * str_t * bytes);
  stack_size : Z;
  pool_max : Z;
}.

(** The sizes of the buffers numbers are printed to. *)
Definition NGX_OFF_T_LEN : Z := 20.
Definition NGX_TIME_T_LEN : Z := 20.

Definition sprintf_into (size : Z) (text : bytes) : outcome bytes :=
  if size <? zlen text then Fault F_memory else Ret text.

Definition null_str : str_t := (0, None).

Section properties.
Context {P : Type} `{NgxPool P} `{NgxStrings} `{MapsEnv P} `{NgxHash} `{PropsEnv P} (debug : bool).
Abbreviation M := (SM (props_state P)).

Definition gets {A} (f : props_state P -> A) : M A := fun s => Ret (f s, s).
Definition puts (f : props_state P -> props_state P) : M unit := fun s => Ret (tt, f s).
Definition massert (c : bool) : M unit := slift (ngx_wa_assert debug c).

Definition on_maps {A} (m : SM (map_state P) A) : M A := fun s =>
  let? (a, x) := m (ps_maps s) in Ret (a, with_maps x s).

Definition palloc : M bool := on_maps Maps.palloc.

Definition failed (rc : ngx_rc) : M (ngx_rc * str_t) := mret (rc, null_str).
Definition found (v : bytes) : M (ngx_rc * str_t) := mret (NGX_OK, of_bytes v).

(** A copy of a number that was printed to a buffer on the stack. *)
Definition copied (text : bytes) : M (ngx_rc * str_t) :=
  text ← slift (sprintf_into NGX_OFF_T_LEN text);
  ok ← palloc;
  if negb ok then failed NGX_ERROR else found text.

(** ** The variables of nginx *)

(** The name after "ngx.". *)
Definition ngx_name (path : bytes) : bytes := drop (length ngx_prefix) path.

(** [rctx && !rctx->fake_request] is asserted; then [rctx->r] is read. *)
Definition request_ctx : M unit :=
  rctx ← gets ps_rctx;
  massert (bool_decide (rctx = Some false));;
  _ ← slift (deref rctx);
  mret tt.

Definition ngx_proxy_wasm_properties_get_ngx (path : bytes) : M (ngx_rc * str_t) :=
  request_ctx;;
  s ← gets id;
  let '(vv, (maps, variables)) := ngx_http_get_variable (ps_maps s) (ps_variables s) (ngx_name path) in
  puts (fun s => with_maps maps (with_variables variables s));;
  match vv with
  | Some vv =>
      if vv_not_found vv then failed NGX_DECLINED
      else mret (NGX_OK, (zlen (default [] (vv_data vv)), vv_data vv))
  | None => failed NGX_DECLINED
  end.

Definition set_variable (i : nat) (vv : ngx_http_variable_value_t) : M unit :=
  l ← gets ps_variables;
  _ ← slift (deref (l !! i));
  puts (with_variables (<[i := vv]> l)).

(** The value of a variable: that of a [NULL] is not found. *)
Definition value_of_variable (value : option bytes) : ngx_http_variable_value_t :=
  {| vv_valid := bool_decide (is_Some value); vv_not_found := bool_decide (value = None);
     vv_no_cacheable := false; vv_data := value |}.

Definition ngx_proxy_wasm_properties_set_ngx (path : bytes) (value : option bytes) : M ngx_rc :=
  request_ctx;;
  if negb has_http_main_conf then mret NGX_ERROR
  else
    match variables_hash (ngx_name path) with
    | None => mret NGX_DECLINED
    | Some v =>
        if negb (v_changeable v) then mret NGX_ERROR
        else
          match v_set_handler v with
          | Some set_handler =>
              ok ← palloc;
              if negb ok then mret NGX_ERROR
              else
                s ← gets id;
                let '(maps, variables) := set_handler (ps_maps s, ps_variables s) (value_of_variable value) in
                puts (fun s => with_maps maps (with_variables variables s));;
                mret NGX_OK
          | None =>
              if v_indexed v then
                match value with
                | None => set_variable (v_index v) (value_of_variable None);; mret NGX_OK
                | Some data =>
                    ok ← palloc;
                    if negb ok then mret NGX_ERROR
                    else set_variable (v_index v) (value_of_variable (Some data));; mret NGX_OK
                end
              else mret NGX_DECLINED
          end
    end.

(** ** The getters *)

Definition get_map_value (map_type : ngx_proxy_wasm_map_type_e) (name : bytes) : M (ngx_rc * str_t) :=
  r ← on_maps (ngx_proxy_wasm_maps_get debug map_type name);
  match r with
  | None => failed NGX_DECLINED
  | Some v => mret (NGX_OK, v)
  end.

Definition request_headers_prefix_len : nat := 16.
Definition response_headers_prefix_len : nat := 17.

(** A string printed once and kept. *)
Definition keep (get : props_state P -> bytes) (set : bytes -> props_state P -> props_state P)
    (text : M bytes) : M (ngx_rc * str_t) :=
  kept ← gets get;
  if zlen kept =? 0 then
    text ← text;
    ok ← palloc;
    if negb ok then failed NGX_ERROR
    else puts (set text);; kept ← gets get; found kept
  else found kept.

Definition get_request_time : M (ngx_rc * str_t) :=
  keep ps_start_time with_start_time
    (slift (sprintf_into (NGX_TIME_T_LEN + 4) (sprintf_time start_sec start_msec))).

Definition get_connection_id : M (ngx_rc * str_t) :=
  keep ps_connection_id with_connection_id
    (slift (sprintf_into NGX_OFF_T_LEN (sprintf_i connection_number))).

(** The string itself is given to the format "%i", which reads the first word of it: its
    length. *)
Definition get_filter_root_id : M (ngx_rc * str_t) :=
  keep ps_root_id with_root_id
    (root_id ← gets ps_root_id; slift (sprintf_into NGX_OFF_T_LEN (sprintf_i (zlen root_id)))).

Definition get_worker_id : M (ngx_rc * str_t) :=
  keep ps_worker_id with_worker_id (slift (sprintf_into NGX_OFF_T_LEN (sprintf_i ngx_worker))).

(** [ngx_str_eq]. *)
Definition str_is (v : str_t) (text : bytes) : bool :=
  bool_decide (v.1 = zlen text) && bool_decide (default [] v.2 = text).

Definition get_connection_mtls : M (ngx_rc * str_t) :=
  kept ← gets ps_mtls;
  if zlen kept =? 0 then
    '(rc, https_v) ← ngx_proxy_wasm_properties_get_ngx (ngx_string "ngx.https");
    if negb (is_ok rc) then failed rc
    else
      '(rc, verify_v) ← ngx_proxy_wasm_properties_get_ngx (ngx_string "ngx.ssl_client_verify");
      if negb (is_ok rc) then failed rc
      else
        let on := str_is https_v (ngx_string "on") && str_is verify_v (ngx_string "SUCCESS") in
        ok ← palloc;
        if negb ok then failed NGX_ERROR
        else puts (with_mtls (if on then str_on else str_off));; found (if on then str_on else str_off)
  else found kept.

Definition get_filter_name : M (ngx_rc * str_t) :=
  x ← gets (fun s => ms_pwctx (ps_maps s));
  if bool_decide (pw_step x = ProxyWasm.STEP_TICK) then found root_filter_name
  else name ← slift (deref current_filter_name); found name.

(** The state of the last upstream, and what is read of it. *)
Definition upstream_state (k : ngx_http_upstream_state_t -> M (ngx_rc * str_t)) : M (ngx_rc * str_t) :=
  x ← gets (fun s => ms_pwctx (ps_maps s));
  match Upstream.ngx_http_wasm_get_last_upstream_state (pw_step x) upstream_states with
  | (NGX_OK, Some state) => k state
  | _ => failed NGX_DECLINED
  end.

Definition get_upstream_address : M (ngx_rc * str_t) :=
  upstream_state (fun st => match st_peer st with
                            | None => failed NGX_DECLINED
                            | Some peer => found peer
                            end).

Definition get_upstream_status : M (ngx_rc * str_t) :=
  upstream_state (fun st =>
    if st_status st =? 0 then failed NGX_DECLINED else copied (sprintf_ui (st_status st))).

Definition get_upstream_time (msec : Z) : M (ngx_rc * str_t) :=
  if msec =? wrap64 (-1) then failed NGX_DECLINED else copied (sprintf_ui msec).

Definition nyi : M (ngx_rc * str_t) := failed NGX_DECLINED.
Definition not_supported : M (ngx_rc * str_t) := failed NGX_DECLINED.

Definition get_referer : M (ngx_rc * str_t) :=
  get_map_value NGX_PROXY_WASM_MAP_HTTP_REQUEST_HEADERS (ngx_string "referer").
Definition get_request_id : M (ngx_rc * str_t) :=
  get_map_value NGX_PROXY_WASM_MAP_HTTP_REQUEST_HEADERS (ngx_string "x-request-id").
Definition get_request_header (path : bytes) : M (ngx_rc * str_t) :=
  get_map_value NGX_PROXY_WASM_MAP_HTTP_REQUEST_HEADERS (drop request_headers_prefix_len path).
Definition get_response_header (path : bytes) : M (ngx_rc * str_t) :=
  get_map_value NGX_PROXY_WASM_MAP_HTTP_RESPONSE_HEADERS (drop response_headers_prefix_len path).
Definition is_subrequest : M (ngx_rc * str_t) := found (if is_main_request then str_off else str_on).

Definition get_upstream_connect_time : M (ngx_rc * str_t) :=
  upstream_state (fun st => get_upstream_time (st_connect_time st)).
Definition get_upstream_response_time : M (ngx_rc * str_t) :=
  upstream_state (fun st => get_upstream_time (st_response_time st)).
Definition get_upstream_header_time : M (ngx_rc * str_t) :=
  upstream_state (fun st => get_upstream_time (st_header_time st)).

(** [m->getter(pwctx, &p, value)] *)
Definition call_getter (g : ngx_proxy_wasm_properties_getter) (path : bytes) : M (ngx_rc * str_t) :=
  match g with
  | p_nyi => nyi
  | p_not_supported => not_supported
  | p_get_request_id => get_request_id
  | p_get_referer => get_referer
  | p_get_request_time => get_request_time
  | p_get_request_header => get_request_header path
  | p_is_subrequest => is_subrequest
  | p_get_response_header => get_response_header path
  | p_get_upstream_address => get_upstream_address
  | p_get_upstream_status => get_upstream_status
  | p_get_upstream_connect_time => get_upstream_connect_time
  | p_get_upstream_response_time => get_upstream_response_time
  | p_get_upstream_header_time => get_upstream_header_time
  | p_get_connection_id => get_connection_id
  | p_get_connection_mtls => get_connection_mtls
  | p_get_filter_name => get_filter_name
  | p_get_filter_root_id => get_filter_root_id
  | p_get_worker_id => get_worker_id
  end.

(** ** The table of the attributes *)

(** Adds an entry to the keys of the hash.  [add_key] is [ngx_hash_add_key]; the message when it
    fails prints a structure and a C string as pointers to strings. *)
Definition add_mapping_to_hash (pnalloc_ok : bytes -> bool) (add_key : bytes -> bool -> ngx_rc)
    (m : pwm2ngx_mapping_t) : ngx_rc :=
  let wildcard := bool_decide (last (pwm_key m) = Some "*"%byte) in
  if wildcard && negb (pnalloc_ok (pwm_key m)) then NGX_ERROR else add_key (pwm_key m) wildcard.

Fixpoint add_mappings (pnalloc_ok : bytes -> bool) (add_key : bytes -> bool -> ngx_rc)
    (l : list pwm2ngx_mapping_t) (keys : list (bytes * pwm2ngx_mapping_t))
    : outcome (list (bytes * pwm2ngx_mapping_t)) :=
  match l with
  | [] => Ret keys
  | m :: l =>
      if negb (is_ok (add_mapping_to_hash pnalloc_ok add_key m)) then Fault F_memory
      else add_mappings pnalloc_ok add_key l (keys ++ [(pwm_key m, m)])
  end.

(** The keys of [pwm2ngx_hash]. *)
Definition ngx_proxy_wasm_properties_init (array_ok : bool) (pnalloc_ok : bytes -> bool)
    (add_key : bytes -> bool -> ngx_rc) : outcome (list (bytes * pwm2ngx_mapping_t)) :=
  if negb array_ok then Fault F_memory else add_mappings pnalloc_ok add_key (pw2ngx debug) [].

(** Those of a worker that started. *)
Definition pwm2ngx_hash : list (bytes * pwm2ngx_mapping_t) := (fun m => (pwm_key m, m)) <$> pw2ngx debug.

(** ** The properties of the host *)

Definition ngx_proxy_wasm_properties_get_host (path : bytes) : M (ngx_rc * str_t) :=
  t ← gets ps_host_props;
  ffi ← gets ps_ffi;
  match t !! path with
  | None => failed NGX_DECLINED
  | Some hpn =>
      if bool_decide (is_Some ffi.1) && negb (hn_is_const hpn) then failed NGX_DECLINED
      else if hn_is_const_null hpn then failed NGX_BUSY
      else if hn_freed hpn then slift (Fault F_memory)
      else mret (NGX_OK, (zlen (default [] (hn_value hpn)), hn_value hpn))
  end.

(** The node of a value; [None] without memory. *)
Definition set_hpn_value (hpn : host_props_node_t) (value : option bytes) (is_const : bool)
    : M (option host_props_node_t) :=
  match value with
  | None =>
      massert is_const;;
      mret (Some {| hn_value := None; hn_freed := false; hn_is_const := is_const; hn_is_const_null := true |})
  | Some data =>
      ok ← palloc;
      if negb ok then mret None
      else mret (Some {| hn_value := Some data; hn_freed := false; hn_is_const := is_const;
                         hn_is_const_null := hn_is_const_null hpn |})
  end.

Definition new_hpn : host_props_node_t :=
  {| hn_value := None; hn_freed := false; hn_is_const := false; hn_is_const_null := false |}.

(** [ngx_pfree]: only what is larger than a pool is given back. *)
Definition freed_node (hpn : host_props_node_t) : host_props_node_t :=
  {| hn_value := hn_value hpn; hn_freed := hn_freed hpn || (pool_max <? zlen (default [] (hn_value hpn)));
     hn_is_const := hn_is_const hpn; hn_is_const_null := hn_is_const_null hpn |}.

Definition put_node (path : bytes) (hpn : host_props_node_t) : M unit :=
  t ← gets ps_host_props; puts (with_host_props (<[path := hpn]> t)).

(** The code, and the copy of the value for the caller when it retrieves it. *)
Definition ngx_proxy_wasm_properties_set_host (path : bytes) (value : option bytes)
    (is_const retrieve : bool) : M (ngx_rc * option bytes) :=
  (if debug then request_ctx else mret tt);;
  t ← gets ps_host_props;
  match t !! path with
  | Some hpn =>
      if hn_is_const hpn then mret (NGX_DECLINED, value)
      else if bool_decide (value = None) && negb is_const then
        puts (with_host_props (delete path t));; mret (NGX_OK, value)
      else
        let hpn := freed_node hpn in
        put_node path hpn;;
        n ← set_hpn_value hpn value is_const;
        match n with
        | None => mret (NGX_ERROR, value)
        | Some n => put_node path n;; mret (NGX_OK, if retrieve then hn_value n else value)
        end
  | None =>
      if bool_decide (value = None) && negb is_const then mret (NGX_OK, value)
      else
        ok ← palloc;
        if negb ok then mret (NGX_ERROR, value)
        else
          n ← set_hpn_value new_hpn value is_const;
          match n with
          | None => mret (NGX_ERROR, value)
          | Some n => put_node path n;; mret (NGX_OK, if retrieve then hn_value n else value)
          end
  end.

(** ** Reading and writing *)

Definition replace_nulls_by_dots (from : bytes) : bytes :=
  (fun c => if bool_decide (c = x00) then "."%byte else c) <$> from.

(** A buffer on the stack with the dotted path. *)
Definition dotted_path (path : bytes) : M bytes :=
  if stack_size <? zlen path then slift (Fault F_memory) else mret (replace_nulls_by_dots path).

(** [ngx_strchr] on the buffer, which does not end with a null byte. *)
Definition has_dot (p : bytes) : M bool :=
  if bool_decide ("."%byte ∈ p) then mret true else slift (Fault F_memory).

(** Whether a scoped property is used outside of a request. *)
Definition outside_scope (p : bytes) : M bool :=
  rctx ← gets ps_rctx;
  if negb (bool_decide (rctx = Some false)) then has_dot p else mret false.

Definition has_prefix (prefix p : bytes) : bool :=
  (length prefix <? length p)%nat && bool_decide (take (length prefix) p = prefix).

Definition no_err (r : M (ngx_rc * str_t)) : M (ngx_rc * str_t * bytes) := r ← r; mret (r, []).

(** The code, the value and the error of a handler of Lua. *)
Definition ngx_proxy_wasm_properties_get (path : bytes) : M (ngx_rc * str_t * bytes) :=
  p ← dotted_path path;
  scoped ← outside_scope p;
  if scoped : bool then mret (NGX_ERROR, null_str, [])
  else
    match ngx_hash_find_combined pwm2ngx_hash p with
    | Some m =>
        no_err (match getter m with
                | None => ngx_proxy_wasm_properties_get_ngx (ngx_key m)
                | Some g => call_getter g p
                end)
    | None =>
        if has_prefix ngx_prefix p then no_err (ngx_proxy_wasm_properties_get_ngx p)
        else if has_prefix host_prefix p then
          r ← ngx_proxy_wasm_properties_get_host p;
          match r.1 with
          | NGX_OK => mret (r, [])
          | NGX_BUSY => mret (NGX_DECLINED, null_str, [])
          | _ =>
              ffi ← gets ps_ffi;
              match ffi.1 with
              | Some handler => ffi_call handler p None
              | None => mret (r, [])
              end
          end
        else mret (NGX_DECLINED, null_str, [])
    end.

Definition ngx_proxy_wasm_properties_set (path : bytes) (value : option bytes) : M (ngx_rc * bytes) :=
  p ← dotted_path path;
  scoped ← outside_scope p;
  if scoped : bool then mret (NGX_ERROR, [])
  else if has_prefix ngx_prefix p then rc ← ngx_proxy_wasm_properties_set_ngx p value; mret (rc, [])
  else
    let set_rest : M (ngx_rc * bytes) :=
      if has_prefix host_prefix p then
        ffi ← gets ps_ffi;
        match ffi.2 with
        | Some handler => '(rc, _, err) ← ffi_call handler p value; mret (rc, err)
        | None => r ← ngx_proxy_wasm_properties_set_host p value false false; mret (r.1, [])
        end
      else mret (NGX_DECLINED, []) in
    match ngx_hash_find_combined pwm2ngx_hash p with
    | Some m =>
        if negb (zlen (ngx_key m) =? 0) then
          rc ← ngx_proxy_wasm_properties_set_ngx (ngx_key m) value; mret (rc, [])
        else set_rest
    | None => set_rest
    end.

Definition ngx_proxy_wasm_properties_set_ffi_handlers (getter setter : option addr) : M ngx_rc :=
  rctx ← gets ps_rctx;
  if negb (bool_decide (rctx = Some false)) then mret NGX_ERROR
  else
    ffi ← gets ps_ffi;
    if bool_decide (is_Some ffi.1) || bool_decide (is_Some ffi.2) then mret NGX_ABORT
    else puts (with_ffi (getter, setter));; mret NGX_OK.

(** ** The host functions *)

Section guests.
Context (ngx_vsnprintf : nat -> bytes -> option bytes).
Context (ngx_proxy_wasm_alloc : memory -> Z -> Z * memory).
Abbreviation G := (SM (host (props_state P))).
Abbreviation result_trap := (Host.ngx_proxy_wasm_result_trap ngx_vsnprintf).
Abbreviation LIFT := (NGX_WAVM_HOST_LIFT ngx_vsnprintf).
Abbreviation LIFT_SLICE := (NGX_WAVM_HOST_LIFT_SLICE ngx_vsnprintf).

Definition NGX_MAX_ERROR_STR : nat := 2048.

(** The path of a guest gets its dots in the memory of the guest. *)
Definition ngx_proxy_wasm_properties_unmarsh_path (ptr : option gptr) (path : bytes) : G unit :=
  write_at ptr (replace_nulls_by_dots path).

(** At most [n] bytes of the C string at a pointer. *)
Definition c_string (m : memory) (ptr : option gptr) (n : nat) : outcome bytes :=
  let? g := deref ptr in
  let d := drop (Z.to_nat (g_off g)) (mem_data m) in
  match list_find (fun c => c = x00) d with
  | Some (i, _) => Ret (take n (take i d))
  | None => if (n <? length d)%nat then Ret (take n d) else Fault F_memory
  end.

(** The message of a property that failed with an error. *)
Definition property_trap (what : bytes) (ptr : option gptr) (path err : bytes) : G host_ret :=
  ngx_proxy_wasm_properties_unmarsh_path ptr path;;
  m ← Host.gets h_memory;
  dotted_path ← slift (c_string m ptr NGX_MAX_ERROR_STR);
  let msg := what ++ ngx_string " " ++ (x22 :: dotted_path) ++ (x22 :: ngx_string ": ") ++ err in
  result_trap (take (NGX_MAX_ERROR_STR - 1) msg) NGX_WAVM_ERROR.

Definition ngx_proxy_wasm_hfuncs_get_property (args0 args1 args2 args3 : Z) : G host_ret :=
  let len := size_of_i32 args1 in
  LIFT_SLICE args0 len (fun ptr =>
  LIFT args2 4 4 (fun ret_data =>
  LIFT args3 4 4 (fun ret_size =>
  path ← read_at ptr len;
  '(rc, value, err) ← on_env (ngx_proxy_wasm_properties_get path);
  match rc with
  | NGX_DECLINED => mret ngx_proxy_wasm_result_notfound
  | NGX_ERROR =>
      if negb (zlen err =? 0) then property_trap (ngx_string "could not get") ptr path err
      else mret ngx_proxy_wasm_result_err
  | _ =>
      slift (ngx_wa_assert debug (bool_decide (rc = NGX_OK)));;
      p ← alloc ngx_proxy_wasm_alloc value.1;
      if p =? 0 then mret ngx_proxy_wasm_result_err
      else
        data ← (if value.1 =? 0 then mret [] else slift (deref value.2));
        ok ← on_memory (fun m => ngx_wavm_memory_memcpy m p data);
        if negb ok then mret ngx_proxy_wasm_result_invalid_mem
        else
          write_at ret_data (enc32 p);;
          write_at ret_size (enc32 value.1);;
          mret ngx_proxy_wasm_result_ok
  end))).

Definition ngx_proxy_wasm_hfuncs_set_property (args0 args1 args2 args3 : Z) : G host_ret :=
  let len := size_of_i32 args1 in
  LIFT_SLICE args0 len (fun ptr =>
  let value_len := size_of_i32 args3 in
  LIFT_SLICE args2 value_len (fun value_ptr =>
  path ← read_at ptr len;
  data ← read_at value_ptr value_len;
  let value := match value_ptr with None => None | Some _ => Some data end in
  '(rc, err) ← on_env (ngx_proxy_wasm_properties_set path value);
  match rc with
  | NGX_DECLINED => mret ngx_proxy_wasm_result_notfound
  | NGX_ERROR =>
      if negb (zlen err =? 0) then property_trap (ngx_string "could not set") ptr path err
      else mret ngx_proxy_wasm_result_err
  | _ =>
      slift (ngx_wa_assert debug (bool_decide (rc = NGX_OK)));;
      mret ngx_proxy_wasm_result_ok
  end)).
End guests.

(** ** Paths *)

Lemma replace_idempotent p : replace_nulls_by_dots (replace_nulls_by_dots p) = replace_nulls_by_dots p.
Proof.
  unfold replace_nulls_by_dots. rewrite <- list_fmap_compose. apply list_fmap_ext. intros i c _. cbn.
  repeat case_bool_decide; congruence.
Qed.

Lemma zlen_replace p : zlen (replace_nulls_by_dots p) = zlen p.
Proof. apply zlen_fmap. Qed.

(** The separators of a path are dots or null bytes: reading and writing do not tell. *)
Lemma separators_agree p q :
  replace_nulls_by_dots p = replace_nulls_by_dots q ->
  ngx_proxy_wasm_properties_get p = ngx_proxy_wasm_properties_get q /\
  forall v, ngx_proxy_wasm_properties_set p v = ngx_proxy_wasm_properties_set q v.
Proof.
  intros E. assert (dotted_path p = dotted_path q) as Ed.
  { unfold dotted_path. by rewrite <- (zlen_replace p), <- (zlen_replace q), E. }
  unfold ngx_proxy_wasm_properties_get, ngx_proxy_wasm_properties_set. by rewrite Ed.
Qed.

(** A path of a request, on the stack. *)
Lemma dotted_path_plain p (s : props_state P) :
  zlen p <= stack_size -> dotted_path p s = Ret (replace_nulls_by_dots p, s).
Proof. intros Hl. unfold dotted_path. by rewrite (proj2 (Z.ltb_ge _ _)) by lia. Qed.

Lemma in_scope p (s : props_state P) : ps_rctx s = Some false -> outside_scope p s = Ret (false, s).
Proof. intros E. unfold outside_scope. erewrite SM_bind_Ret by reflexivity. by rewrite E. Qed.

(** ** The table *)

Definition wildcard (m : pwm2ngx_mapping_t) : bool := bool_decide (last (pwm_key m) = Some "*"%byte).

(** Every key of the table is found under no other, none begins as a variable or a host
    property, and the variables have the prefix. *)
Definition table_ok : bool :=
  let t := pw2ngx debug in
  bool_decide (NoDup (pwm_key <$> t)) &&
  forallb (fun m =>
    (wildcard m || forallb (fun m' => negb (key_matches (pwm_key m') (pwm_key m))
                                      || bool_decide (pwm_key m' = pwm_key m)) t)
    && negb (has_prefix ngx_prefix (pwm_key m)) && negb (has_prefix host_prefix (pwm_key m))
    && bool_decide (replace_nulls_by_dots (pwm_key m) = pwm_key m)
    && match getter m with
       | Some _ => bool_decide (ngx_key m = [])
       | None => has_prefix ngx_prefix (ngx_key m) && bool_decide (replace_nulls_by_dots (ngx_key m) = ngx_key m)
                 && negb (wildcard m) && forallb (fun m' => negb (key_matches (pwm_key m') (ngx_key m))) t
       end) t.
End properties.

Lemma table_checked debug : table_ok debug = true.
Proof. destruct debug; vm_compute; reflexivity. Qed.

Section attributes.
Context {P : Type} `{NgxPool P} `{NgxStrings} `{MapsEnv P} `{NgxHashLaws} `{PropsEnv P} (debug : bool).
Abbreviation get := (ngx_proxy_wasm_properties_get (P := P) debug).
Abbreviation set := (ngx_proxy_wasm_properties_set (P := P) debug).

Lemma table_keys : (pwm2ngx_hash debug).*1 = pwm_key <$> pw2ngx debug.
Proof. unfold pwm2ngx_hash. rewrite <- list_fmap_compose. by apply list_fmap_ext. Qed.

Lemma table_in k m : (k, m) ∈ pwm2ngx_hash debug <-> k = pwm_key m /\ m ∈ pw2ngx debug.
Proof. unfold pwm2ngx_hash. rewrite list_elem_of_fmap. naive_solver. Qed.

Definition dotted_keys : bool :=
  forallb (fun m => match getter m with None => bool_decide ("."%byte ∈ pwm_key m) | _ => true end) (pw2ngx debug).

Lemma dotted_keys_checked : dotted_keys = true.
Proof. unfold dotted_keys. destruct debug; vm_compute; reflexivity. Qed.

#[local] Opaque pw2ngx pwm2ngx_hash.

(** What [table_ok] says of an entry. *)
Record entry_ok (m : pwm2ngx_mapping_t) : Prop := {
  e_alone : wildcard m = false -> forall m', m' ∈ pw2ngx debug ->
    key_matches (pwm_key m') (pwm_key m) = true -> pwm_key m' = pwm_key m;
  e_not_ngx : has_prefix ngx_prefix (pwm_key m) = false;
  e_not_host : has_prefix host_prefix (pwm_key m) = false;
  e_dotted : replace_nulls_by_dots (pwm_key m) = pwm_key m;
  e_variable : getter m = None ->
    has_prefix ngx_prefix (ngx_key m) = true /\ replace_nulls_by_dots (ngx_key m) = ngx_key m /\
    wildcard m = false /\ forall m', m' ∈ pw2ngx debug -> key_matches (pwm_key m') (ngx_key m) = false;
  e_getter : is_Some (getter m) -> ngx_key m = [];
}.

Lemma forallb_elem {A} (f : A -> bool) l x : forallb f l = true -> x ∈ l -> f x = true.
Proof. rewrite List.forallb_forall. intros Hf Hx. apply Hf. by apply list_elem_of_In. Qed.

Lemma entry_checked m : m ∈ pw2ngx debug -> entry_ok m.
Proof.
  intros Hm. pose proof (table_checked debug) as Ht. unfold table_ok in Ht.
  apply andb_true_iff in Ht as [_ Ht]. apply (forallb_elem _ _ m) in Ht; [|done].
  rewrite !andb_true_iff, !negb_true_iff, bool_decide_eq_true in Ht.
  destruct Ht as [[[[Ha Hn] Hh] Hd] Hg]. split; [|done|done|done| |].
  - intros Hw m' Hm' Hk. rewrite Hw in Ha. apply (forallb_elem _ _ m') in Ha; [|done].
    cbn beta in Ha. rewrite Hk in Ha. by apply bool_decide_eq_true in Ha.
  - intros E. rewrite E in Hg. rewrite !andb_true_iff, negb_true_iff, bool_decide_eq_true in Hg.
    destruct Hg as [[[H1' H2'] H3'] H4']. split_and!; [done|done|done|]. intros m' Hm'.
    apply (forallb_elem _ _ m') in H4'; [|done]. by apply negb_true_iff in H4'.
  - intros [g E]. rewrite E in Hg. by apply bool_decide_eq_true in Hg.
Qed.

Lemma keys_distinct : NoDup (pwm2ngx_hash debug).*1.
Proof.
  rewrite table_keys. pose proof (table_checked debug) as Ht. unfold table_ok in Ht.
  apply andb_true_iff in Ht as [Ht _]. by apply bool_decide_eq_true in Ht.
Qed.

Lemma find_attribute m :
  m ∈ pw2ngx debug -> wildcard m = false -> ngx_hash_find_combined (pwm2ngx_hash debug) (pwm_key m) = Some m.
Proof.
  intros Hm Hw. pose proof (entry_checked m Hm) as He.
  apply (hash_found _ _ (pwm_key m)); [apply keys_distinct|by apply table_in| |].
  - unfold key_matches. unfold wildcard in Hw. rewrite Hw. by apply bool_decide_eq_true.
  - intros k' m' [-> Hm']%table_in Hk. by apply (e_alone m He).
Qed.

Lemma find_variable m :
  m ∈ pw2ngx debug -> getter m = None -> ngx_hash_find_combined (pwm2ngx_hash debug) (ngx_key m) = None.
Proof.
  intros Hm Hg. destruct (e_variable m (entry_checked m Hm) Hg) as (_ & _ & _ & Hn).
  apply hash_missed. intros k m' [-> Hm']%table_in. auto.
Qed.

(** A prefix of a scope has a dot. *)
Lemma outside_scope_dotted p q :
  "."%byte ∈ p -> "."%byte ∈ q -> outside_scope (P := P) p = outside_scope q.
Proof. intros Hp Hq. unfold outside_scope, has_dot. by rewrite !bool_decide_true by done. Qed.

Lemma has_prefix_dot prefix p : "."%byte ∈ prefix -> has_prefix prefix p = true -> "."%byte ∈ p.
Proof.
  intros Hd. unfold has_prefix. rewrite andb_true_iff, bool_decide_eq_true. intros [_ E].
  rewrite <- (take_drop (length prefix) p), E. set_solver.
Qed.

Lemma ngx_prefix_dot : "."%byte ∈ ngx_prefix.
Proof. by apply list_elem_of_lookup_2 with (i := 3%nat). Qed.

(** An attribute that stands for a variable of nginx is that variable. *)
Lemma variable_alias m path s :
  m ∈ pw2ngx debug -> getter m = None -> replace_nulls_by_dots path = pwm_key m ->
  zlen path <= stack_size -> zlen (ngx_key m) <= stack_size ->
  get path s = get (ngx_key m) s /\ forall v, set path v s = set (ngx_key m) v s.
Proof.
  intros Hm Hg Hp Hl1 Hl2. pose proof (entry_checked m Hm) as He.
  destruct (e_variable m He Hg) as (Hpre & Hd & Hw & _).
  assert (outside_scope (P := P) (pwm_key m) = outside_scope (ngx_key m)) as Hsc.
  { apply outside_scope_dotted; [|by apply (has_prefix_dot ngx_prefix); [apply ngx_prefix_dot|]].
    pose proof (forallb_elem _ _ m dotted_keys_checked Hm) as Hdot. cbn beta in Hdot. rewrite Hg in Hdot.
    by apply bool_decide_eq_true in Hdot. }
  unfold ngx_proxy_wasm_properties_get, ngx_proxy_wasm_properties_set.
  split; [|intros v]; rewrite (SM_bind_Ret _ _ _ _ _ (dotted_path_plain path s Hl1)),
      (SM_bind_Ret _ _ _ _ _ (dotted_path_plain (ngx_key m) s Hl2)), Hp, Hd, Hsc; unfold mbind, SM_bind; destruct (outside_scope _ s) as [[[] s1]|]; [reflexivity| |reflexivity|reflexivity| |reflexivity].
  - by rewrite (find_attribute m Hm Hw), (find_variable m Hm Hg), Hpre, Hg.
  - rewrite (e_not_ngx m He), (find_attribute m Hm Hw), Hpre.
    destruct (ngx_key m) as [|c k]; [done|]. rewrite zlen_cons.
    pose proof (zlen_nonneg k). by rewrite (proj2 (Z.eqb_neq _ _)) by lia.
Qed.
End attributes.

(** ** Constant properties of the host *)

Section constants.
Context {P : Type} `{NgxPool P} `{NgxStrings} `{MapsEnv P} `{NgxHash} `{PropsEnv P} (debug : bool).
Abbreviation get := (ngx_proxy_wasm_properties_get (P := P) debug).
Abbreviation set := (ngx_proxy_wasm_properties_set (P := P) debug).

(** A [NULL] is only kept as a constant. *)
Definition nulls_const (s : props_state P) : Prop :=
  forall p n, ps_host_props s !! p = Some n -> hn_is_const_null n = true -> hn_is_const n = true.

(** The constants stay, and the request is the same. *)
Definition consts_kept (s s' : props_state P) : Prop :=
  ps_rctx s' = ps_rctx s /\ (nulls_const s -> nulls_const s') /\
  forall p n, ps_host_props s !! p = Some n -> hn_is_const n = true -> ps_host_props s' !! p = Some n.

#[export] Instance consts_kept_preorder : PreOrder consts_kept.
Proof.
  split; [intros s; unfold consts_kept; auto|]. intros s1 s2 s3 (E1 & N1 & H1') (E2 & N2 & H2'). split_and!; [congruence|auto|eauto].
Qed.

Abbreviation kept m := (preserves consts_kept m).

(** What changes neither the properties nor the request. *)
Lemma kept_fields (f : props_state P -> props_state P) :
  (forall s, ps_rctx (f s) = ps_rctx s) -> (forall s, ps_host_props (f s) = ps_host_props s) -> kept (puts f).
Proof. intros Hr Hp. apply preserves_puts. intros s. unfold consts_kept, nulls_const. rewrite Hr, Hp. auto. Qed.

Lemma kept_on_maps {A} (m : SM (map_state P) A) : kept (on_maps m).
Proof. intros s a s'. unfold on_maps. destruct (m (ps_maps s)) as [[b x]|]; [|done]. by intros [= _ <-]. Qed.

Lemma kept_gets {A} (f : props_state P -> A) : kept (gets f).
Proof. apply preserves_gets, _. Qed.

Lemma kept_massert c : kept (massert debug c).
Proof. apply preserves_slift, _. Qed.

Lemma kept_request_ctx : kept (request_ctx debug).
Proof. unfold request_ctx. preserves_steps. Qed.

Lemma kept_get_ngx path : kept (ngx_proxy_wasm_properties_get_ngx debug path).
Proof.
  unfold ngx_proxy_wasm_properties_get_ngx.
  apply preserves_bind; [apply _|apply kept_request_ctx|intros _].
  apply preserves_bind; [apply _|apply kept_gets|intros s].
  destruct (ngx_http_get_variable _ _ _) as [vv [maps variables]].
  apply preserves_bind; [apply _|by apply kept_fields|intros _]. preserves_steps.
Qed.

Lemma kept_set_variable i vv : kept (set_variable i vv).
Proof. unfold set_variable. preserves_steps. by apply kept_fields. Qed.

Lemma kept_set_ngx path v : kept (ngx_proxy_wasm_properties_set_ngx debug path v).
Proof.
  unfold ngx_proxy_wasm_properties_set_ngx.
  apply preserves_bind; [apply _|apply kept_request_ctx|intros _].
  preserves_steps; first [apply kept_on_maps|apply kept_gets|apply kept_set_variable|by apply kept_fields].
Qed.

Lemma kept_keep (g : props_state P -> bytes) f text :
  (forall v s, ps_rctx (f v s) = ps_rctx s) -> (forall v s, ps_host_props (f v s) = ps_host_props s) ->
  kept text -> kept (keep g f text).
Proof.
  intros Hr Hp Ht. unfold keep.
  preserves_steps; first [apply kept_on_maps|apply kept_gets|done|by apply kept_fields].
Qed.

Lemma kept_getter g path : kept (call_getter debug g path).
Proof.
  destruct g; cbn [call_getter];
    try (apply kept_keep; [done|done|preserves_steps]);
    unfold nyi, not_supported, get_referer, get_request_id, get_request_header, get_response_header,
      is_subrequest, get_upstream_connect_time, get_upstream_response_time, get_upstream_header_time,
      get_map_value, upstream_state, get_upstream_address, get_upstream_status, get_upstream_time,
      copied, get_connection_mtls, get_filter_name, upstream_state, found, failed;
    preserves_steps; first [apply kept_on_maps|apply kept_gets|apply kept_get_ngx|by apply kept_fields].
Qed.

Lemma kept_get_host path : kept (ngx_proxy_wasm_properties_get_host path).
Proof. unfold ngx_proxy_wasm_properties_get_host, failed. preserves_steps. Qed.

(** The node of a value: of the value and as constant as it is said. *)
Lemma set_hpn_value_spec hpn v c (s : props_state P) n s' :
  set_hpn_value debug hpn v c s = Ret (n, s') ->
  ps_rctx s' = ps_rctx s /\ ps_host_props s' = ps_host_props s /\
  forall n', n = Some n' -> hn_value n' = v /\ hn_is_const n' = c /\ hn_freed n' = false /\
    hn_is_const_null n' = (bool_decide (v = None) || hn_is_const_null hpn).
Proof.
  unfold set_hpn_value. destruct v as [d|].
  - intros (ok & s1 & E1 & E2)%SM_bind_Ret_inv. unfold palloc, on_maps in E1.
    destruct (Maps.palloc (ps_maps s)) as [[b x]|]; [|done]. injection E1 as <- <-.
    destruct b; cbn [negb] in E2; injection E2 as <- <-; split_and!; try done. by intros n' [= <-].
  - intros (u & s1 & E1 & E2)%SM_bind_Ret_inv. unfold massert, slift in E1.
    destruct (ngx_wa_assert _ _); [|done]. injection E1 as _ <-. injection E2 as <- <-.
    split_and!; [done|done|]. by intros n' [= <-].
Qed.

(** Putting a node where there is no constant. *)
Lemma consts_put path n (s s1 s2 : props_state P) :
  (forall m, ps_host_props s !! path = Some m -> hn_is_const m = false) ->
  consts_kept s s1 -> (nulls_const s -> hn_is_const_null n = true -> hn_is_const n = true) ->
  ps_rctx s2 = ps_rctx s1 -> ps_host_props s2 = <[path := n]> (ps_host_props s1) -> consts_kept s s2.
Proof.
  intros Hno (E & Hn & Hk) Hc E2 Ht. split_and!; [congruence| |].
  - intros Hs p m. rewrite Ht. destruct (decide (p = path)) as [->|Hne].
    + rewrite lookup_insert_eq. intros [= <-]. auto.
    + rewrite lookup_insert_ne by done. by apply Hn.
  - intros p m Hp Hm. rewrite Ht. rewrite lookup_insert_ne; [by apply Hk|]. intros ->.
    apply Hno in Hp. congruence.
Qed.

Lemma consts_delete path (s : props_state P) :
  (forall m, ps_host_props s !! path = Some m -> hn_is_const m = false) ->
  consts_kept s (with_host_props (delete path (ps_host_props s)) s).
Proof.
  intros Hno. split_and!; [done| |].
  - intros Hs p m. cbn. rewrite lookup_delete_Some. intros [_ Hp]. by apply Hs in Hp.
  - intros p m Hp Hm. cbn. rewrite lookup_delete_ne; [done|]. intros ->. apply Hno in Hp. congruence.
Qed.

Lemma put_node_run path n (s : props_state P) :
  put_node path n s = Ret (tt, with_host_props (<[path := n]> (ps_host_props s)) s).
Proof. reflexivity. Qed.

Lemma checked_in_debug (s s' : props_state P) u :
  (if debug then request_ctx debug else mret tt) s = Ret (u, s') -> s' = s.
Proof.
  destruct debug; [|by intros [= _ <-]]. unfold request_ctx, gets, massert, slift, mbind, SM_bind.
  destruct (ngx_wa_assert _ _); [|done]. cbn. destruct (deref _); [|done]. by intros [= _ <-].
Qed.

(** A property that is already constant is refused; what is accepted is in the tree, as it was
    given, and the rest of it is as it was. *)
Lemma set_host_spec path v c retrieve (s : props_state P) r s' :
  ngx_proxy_wasm_properties_set_host debug path v c retrieve s = Ret (r, s') ->
  consts_kept s s' /\
  match r.1 with
  | NGX_OK =>
      (forall m, ps_host_props s !! path = Some m -> hn_is_const m = false) /\
      (nulls_const s ->
       if bool_decide (v = None) && negb c then ps_host_props s' = delete path (ps_host_props s)
       else exists n, ps_host_props s' = <[path := n]> (ps_host_props s) /\ hn_value n = v /\
              hn_is_const n = c /\ hn_freed n = false /\ hn_is_const_null n = bool_decide (v = None))
  | NGX_DECLINED => s' = s /\ exists m, ps_host_props s !! path = Some m /\ hn_is_const m = true
  | rc => rc = NGX_ERROR
  end.
Proof.
  unfold ngx_proxy_wasm_properties_set_host. intros (u & s0 & E0 & E)%SM_bind_Ret_inv.
  apply checked_in_debug in E0 as ->.
  apply SM_bind_Ret_inv in E as (t & s1 & Et & E). injection Et as <- <-.
  destruct (ps_host_props s !! path) as [hpn|] eqn:Ep.
  - destruct (hn_is_const hpn) eqn:Ec.
    { injection E as <- <-. split; [reflexivity|]. split; [done|]. by exists hpn. }
    assert (forall m, ps_host_props s !! path = Some m -> hn_is_const m = false) as Hno by (rewrite Ep; congruence).
    destruct (bool_decide (v = None) && negb c) eqn:Ed.
    + injection E as <- <-. split; [by apply consts_delete|]. split; [congruence|done].
    + rewrite (SM_bind_Ret _ _ _ _ _ (put_node_run path (freed_node hpn) s)) in E.
      apply SM_bind_Ret_inv in E as (n & s2 & E2 & E).
      apply set_hpn_value_spec in E2 as (Er & Et & En).
      assert (nulls_const s -> hn_is_const_null hpn = false) as Hnull.
      { intros Hs. destruct (hn_is_const_null hpn) eqn:E'; [|done]. by rewrite (Hs path hpn Ep E') in Ec. }
      destruct n as [n|].
      * rewrite (SM_bind_Ret _ _ _ _ _ (put_node_run path n s2)) in E. injection E as <- <-. cbn [fst].
        destruct (En n eq_refl) as (Hv & Hc & Hf & Hcn). rewrite orb_comm in Hcn. split.
        -- eapply (consts_put path n s s); [done|reflexivity| |done|].
           ++ intros Hs. rewrite Hcn. cbn. rewrite (Hnull Hs), Hc. cbn. revert Ed. by destruct v, c.
           ++ cbn. rewrite Et. cbn. by rewrite insert_insert_eq.
        -- split; [congruence|]. intros Hs. exists n. split_and!; [|done|done|done|].
           ++ cbn. rewrite Et. cbn. by rewrite insert_insert_eq.
           ++ rewrite Hcn. cbn. by rewrite (Hnull Hs).
      * injection E as <- <-. split; [|done].
        eapply (consts_put path (freed_node hpn) s s); [done|reflexivity| |done|by rewrite Et].
        intros Hs. cbn. by rewrite (Hnull Hs).
  - assert (forall m, ps_host_props s !! path = Some m -> hn_is_const m = false) as Hno by (by rewrite Ep).
    destruct (bool_decide (v = None) && negb c) eqn:Ed.
    { injection E as <- <-. split; [reflexivity|]. split; [done|]. intros _. cbn [fst].
      by rewrite delete_id. }
    apply SM_bind_Ret_inv in E as (ok & s1 & E1 & E).
    assert (ps_rctx s1 = ps_rctx s /\ ps_host_props s1 = ps_host_props s) as [Er1 Et1].
    { unfold palloc, on_maps in E1. destruct (Maps.palloc _) as [[? ?]|]; [|done]. by injection E1 as _ <-. }
    assert (consts_kept s s1) as Hk1 by (unfold consts_kept, nulls_const; rewrite Er1, Et1; auto).
    destruct ok; cbn [negb] in E; [|by injection E as <- <-].
    apply SM_bind_Ret_inv in E as (n & s2 & E2 & E). apply set_hpn_value_spec in E2 as (Er & Et & En).
    destruct n as [n|].
    + rewrite (SM_bind_Ret _ _ _ _ _ (put_node_run path n s2)) in E. injection E as <- <-. cbn [fst].
      destruct (En n eq_refl) as (Hv & Hc & Hf & Hcn). cbn in Hcn. rewrite orb_false_r in Hcn. split.
      * eapply (consts_put path n s s1); [done|done| |done|cbn; by rewrite Et].
        intros _. rewrite Hcn, Hc. revert Ed. by destruct v, c.
      * split; [congruence|]. intros _. exists n. cbn. rewrite Et, Et1. by split_and!.
    + injection E as <- <-. split; [|done]. unfold consts_kept, nulls_const. rewrite Er, Et, Er1, Et1. auto.
Qed.

(** An update that fails for want of memory gave the old value back: reading it follows the
    pointer, when the value was large. *)
Lemma failed_update_frees path v c retrieve hpn old (s s' : props_state P) r :
  ps_host_props s !! path = Some hpn -> hn_is_const_null hpn = false -> hn_value hpn = Some old ->
  pool_max < zlen old -> ps_ffi s = (None, None) ->
  ngx_proxy_wasm_properties_set_host debug path v c retrieve s = Ret ((NGX_ERROR, r), s') ->
  ps_host_props s' !! path = Some (freed_node hpn) /\ hn_freed (freed_node hpn) = true.
Proof.
  intros Hp Hnull Hold Hl Hffi. unfold ngx_proxy_wasm_properties_set_host.
  intros (u & s0 & E0 & E)%SM_bind_Ret_inv. apply checked_in_debug in E0 as ->.
  apply SM_bind_Ret_inv in E as (t & s1 & Et & E). injection Et as <- <-. rewrite Hp in E.
  destruct (hn_is_const hpn); [done|]. destruct (_ && _) in E; [done|].
  rewrite (SM_bind_Ret _ _ _ _ _ (put_node_run path (freed_node hpn) s)) in E.
  apply SM_bind_Ret_inv in E as (n & s2 & E2 & E). apply set_hpn_value_spec in E2 as (_ & Et & _).
  destruct n as [n|]; [by rewrite (SM_bind_Ret _ _ _ _ _ (put_node_run path n s2)) in E|].
  injection E as _ <-. rewrite Et. split; [apply lookup_insert_eq|]. cbn. rewrite Hold. cbn.
  by rewrite (proj2 (Z.ltb_lt _ _)) by done; rewrite orb_true_r.
Qed.

Lemma kept_set_host path v c retrieve : kept (ngx_proxy_wasm_properties_set_host debug path v c retrieve).
Proof. intros s r s' E. by apply set_host_spec in E as [Hk _]. Qed.

#[local] Hint Resolve kept_get_ngx kept_set_ngx kept_getter kept_get_host kept_set_host : preserve.

Section handlers.
(** The handlers of Lua set properties of the host only as the host does. *)
Context (ffi_keeps : forall a path v, kept (ffi_call a path v)).

Lemma kept_paths path : kept (dotted_path (P := P) path) /\ forall p, kept (outside_scope (P := P) p).
Proof. unfold dotted_path, outside_scope, has_dot. split; intros; preserves_steps. Qed.

Lemma kept_get path : kept (get path).
Proof.
  unfold ngx_proxy_wasm_properties_get, no_err. destruct (kept_paths path) as [Hd Hs]. preserves_steps.
Qed.

Lemma kept_set path v : kept (set path v).
Proof.
  unfold ngx_proxy_wasm_properties_set. destruct (kept_paths path) as [Hd Hs]. preserves_steps.
Qed.

Lemma kept_handlers g h : kept (ngx_proxy_wasm_properties_set_ffi_handlers (P := P) g h).
Proof. unfold ngx_proxy_wasm_properties_set_ffi_handlers. preserves_steps. by apply kept_fields. Qed.

(** What guests and the host do with properties while a request is processed. *)
Inductive props_op :=
| Op_get (path : bytes)
| Op_set (path : bytes) (value : option bytes)
| Op_set_host (path : bytes) (value : option bytes) (is_const retrieve : bool)
| Op_set_handlers (getter setter : option addr).

Definition run_op (op : props_op) : SM (props_state P) unit :=
  match op with
  | Op_get path => _ ← get path; mret tt
  | Op_set path v => _ ← set path v; mret tt
  | Op_set_host path v c r => _ ← ngx_proxy_wasm_properties_set_host debug path v c r; mret tt
  | Op_set_handlers g h => _ ← ngx_proxy_wasm_properties_set_ffi_handlers g h; mret tt
  end.

Fixpoint run_ops (ops : list props_op) : SM (props_state P) unit :=
  match ops with
  | [] => mret tt
  | op :: ops => run_op op;; run_ops ops
  end.

Lemma kept_ops ops : kept (run_ops ops).
Proof.
  induction ops as [|op ops IH]; cbn [run_ops]; [apply preserves_ret, _|].
  apply preserves_bind; [apply _| |done].
  destruct op; cbn [run_op]; (apply preserves_bind; [apply _| |intros; apply preserves_ret, _]);
    auto using kept_get, kept_set, kept_set_host, kept_handlers.
Qed.
End handlers.
End constants.

Section host_properties.
Context {P : Type} `{NgxPool P} `{NgxStrings} `{MapsEnv P} `{NgxHashLaws} `{PropsEnv P} (debug : bool).

(** No attribute is found for a path with the prefix. *)
Definition scopes_apart (prefix : bytes) : bool :=
  let n := length prefix in
  forallb (fun m => negb (has_prefix prefix (pwm_key m)) &&
    (negb (wildcard m) || ((n <=? length (removelast (pwm_key m)))%nat
                           && negb (bool_decide (take n (removelast (pwm_key m)) = prefix))))) (pw2ngx debug).

Lemma scopes_apart_checked : scopes_apart host_prefix = true /\ scopes_apart ngx_prefix = true.
Proof. unfold scopes_apart. destruct debug; split; vm_compute; reflexivity. Qed.

Lemma has_prefix_spec prefix p : has_prefix prefix p = true -> exists r, p = prefix ++ r.
Proof.
  unfold has_prefix. rewrite andb_true_iff, bool_decide_eq_true. intros [_ E].
  exists (drop (length prefix) p). by rewrite <- E at 1; rewrite take_drop.
Qed.

#[local] Opaque pw2ngx pwm2ngx_hash.

Lemma find_scoped prefix p :
  scopes_apart prefix = true -> has_prefix prefix p = true ->
  ngx_hash_find_combined (pwm2ngx_hash debug) p = None.
Proof.
  intros Hap Hp. apply hash_missed. intros k m [-> Hm]%table_in.
  pose proof (forallb_elem _ _ m Hap Hm) as Hs. cbn beta in Hs.
  apply andb_true_iff in Hs as [Hh Hw]. apply negb_true_iff in Hh. unfold key_matches.
  change (bool_decide (last (pwm_key m) = Some "*"%byte)) with (wildcard m).
  destruct (wildcard m); cbn [negb orb] in Hw.
  - apply andb_true_iff in Hw as [Hl%Nat.leb_le Hn%negb_true_iff%bool_decide_eq_false].
    apply bool_decide_eq_false. intros [r Er]. apply Hn.
    apply has_prefix_spec in Hp as [q Eq]. rewrite Eq in Er.
    rewrite <- (take_app_le (removelast (pwm_key m)) r) by done. by rewrite <- Er, take_app_length.
  - apply bool_decide_eq_false. intros E. rewrite E in Hh. congruence.
Qed.

Lemma host_not_ngx p : has_prefix host_prefix p = true -> has_prefix ngx_prefix p = false.
Proof. intros [r ->]%has_prefix_spec. unfold has_prefix. apply andb_false_iff. by right. Qed.

(** What is read of a property of the host when its value is in the tree. *)
Lemma get_constant path p n (s : props_state P) :
  replace_nulls_by_dots path = p -> has_prefix host_prefix p = true -> zlen path <= stack_size ->
  ps_rctx s = Some false -> ps_host_props s !! p = Some n ->
  hn_is_const n = true -> hn_freed n = false -> hn_is_const_null n = bool_decide (hn_value n = None) ->
  ngx_proxy_wasm_properties_get debug path s =
    Ret (match hn_value n with
         | Some v => (NGX_OK, of_bytes v, [])
         | None => (NGX_DECLINED, null_str, [])
         end, s).
Proof.
  intros Ep Hp Hl Hr Hn Hc Hf Hcn. unfold ngx_proxy_wasm_properties_get.
  rewrite (SM_bind_Ret _ _ _ _ _ (dotted_path_plain path s Hl)), Ep.
  rewrite (SM_bind_Ret _ _ _ _ _ (in_scope p s Hr)). cbv iota.
  rewrite (find_scoped host_prefix p (proj1 scopes_apart_checked) Hp), (host_not_ngx p Hp), Hp.
  assert (ngx_proxy_wasm_properties_get_host p s =
    Ret (match hn_value n with Some v => (NGX_OK, of_bytes v) | None => (NGX_BUSY, null_str) end, s)) as E.
  { unfold ngx_proxy_wasm_properties_get_host. do 2 erewrite SM_bind_Ret by reflexivity.
    rewrite Hn, Hc, Hcn, Hf. rewrite andb_false_r. by destruct (hn_value n). }
  rewrite (SM_bind_Ret _ _ _ _ _ E). by destruct (hn_value n).
Qed.

(** C28. A constant property of the host keeps its value: once the host stored it in a request that
    started without properties, and whatever guests and the host read and write after that, with
    handlers of Lua that replace no constant themselves, a guest that reads it, with dots or null
    bytes in a path that fits the stack, gets the value (or that there is none, when the constant
    is [NULL]) whatever those handlers would answer, and every later write of it by the host is
    refused and changes nothing. *)
Theorem constant_property_stable path p v retrieve before after (s s0 s1 s2 : props_state P) r :
  (forall a q w, preserves consts_kept (ffi_call (P := P) a q w)) ->
  ps_rctx s = Some false -> ps_host_props s = ∅ ->
  replace_nulls_by_dots path = p -> has_prefix host_prefix p = true -> zlen path <= stack_size ->
  run_ops debug before s = Ret (tt, s0) ->
  ngx_proxy_wasm_properties_set_host debug p v true retrieve s0 = Ret ((NGX_OK, r), s1) ->
  run_ops debug after s1 = Ret (tt, s2) ->
  ngx_proxy_wasm_properties_get debug path s2 =
    Ret (match v with
         | Some v => (NGX_OK, of_bytes v, [])
         | None => (NGX_DECLINED, null_str, [])
         end, s2) /\
  forall w c q, ngx_proxy_wasm_properties_set_host debug p w c q s2 = Ret ((NGX_DECLINED, w), s2).
Proof.
  intros Hffi Hr Ht Ep Hp Hl E0 E1 E2.
  pose proof (kept_ops debug Hffi before _ _ _ E0) as (Hr0 & Hn0 & _).
  pose proof (kept_ops debug Hffi after _ _ _ E2) as (Hr2 & _ & Hk2).
  apply set_host_spec in E1 as [(Hr1 & _ & _) [_ E1]]. cbn beta iota in E1.
  assert (nulls_const s) as Hs by (intros q m; rewrite Ht; by rewrite lookup_empty).
  specialize (E1 (Hn0 Hs)). rewrite andb_false_r in E1.
  destruct E1 as (n & Et & Hv & Hc & Hf & Hcn).
  assert (ps_host_props s2 !! p = Some n) as Hn by (apply Hk2; [rewrite Et; apply lookup_insert_eq|done]).
  assert (ps_rctx s2 = Some false) as Hrs by congruence. split.
  - rewrite (get_constant path p n s2); [by rewrite Hv|done..|]. by rewrite Hcn, Hv.
  - intros w c q. unfold ngx_proxy_wasm_properties_set_host.
    assert ((if debug then request_ctx debug else mret tt) s2 = Ret (tt, s2)) as Erq.
    { destruct debug; [|done]. unfold request_ctx. erewrite SM_bind_Ret by reflexivity.
      unfold massert. by rewrite Hrs. }
    rewrite (SM_bind_Ret _ _ _ _ _ Erq). erewrite SM_bind_Ret by reflexivity. by rewrite Hn, Hc.
Qed.

(** ** Variables of nginx *)

(** What nginx documents: an indexed variable whose value is known and may be cached is read
    from [r->variables]. *)
Definition indexed_variables : Prop := forall maps l name v vv,
  variables_hash (P := P) name = Some v -> v_indexed v = true -> l !! v_index v = Some vv ->
  vv_valid vv || vv_not_found vv = true -> vv_no_cacheable vv = false ->
  ngx_http_get_variable maps l name = (Some vv, (maps, l)).

(** The paths of a variable: "ngx." and its name, or an attribute. *)
Definition path_of_variable (path name : bytes) : Prop :=
  zlen path <= stack_size /\ zlen (ngx_prefix ++ name) <= stack_size /\
  (replace_nulls_by_dots path = ngx_prefix ++ name \/
   exists m, m ∈ pw2ngx debug /\ getter m = None /\ replace_nulls_by_dots path = pwm_key m /\
     ngx_key m = ngx_prefix ++ name).

Lemma path_of_variable_name path name :
  path_of_variable path name -> replace_nulls_by_dots (ngx_prefix ++ name) = ngx_prefix ++ name.
Proof.
  intros (_ & _ & [E|(m & Hm & Hg & _ & En)]); [by rewrite <- E, replace_idempotent|].
  rewrite <- En. by destruct (e_variable debug m (entry_checked debug m Hm) Hg) as (_ & Hd & _).
Qed.

Lemma path_of_variable_ngx path name s :
  path_of_variable path name ->
  ngx_proxy_wasm_properties_get debug path s = ngx_proxy_wasm_properties_get debug (ngx_prefix ++ name) s /\
  forall v, ngx_proxy_wasm_properties_set debug path v s
            = ngx_proxy_wasm_properties_set debug (ngx_prefix ++ name) v s.
Proof.
  intros Hp. pose proof (path_of_variable_name _ _ Hp) as Hd.
  destruct Hp as (Hl1 & Hl2 & [E|(m & Hm & Hg & E & En)]).
  - destruct (separators_agree debug path (ngx_prefix ++ name)) as [E1 E2]; [congruence|].
    split; [by rewrite E1|]. intros v. by rewrite E2.
  - rewrite <- En in *. by apply variable_alias.
Qed.

(** C29. The paths of a variable of nginx are one: an attribute of the table that stands for the
    variable, or its name after the prefix of nginx, with dots or null bytes between the parts and
    no longer than the stack; reading or writing one does what reading or writing the other does,
    in a request and outside of one. *)
Theorem variable_paths_agree path path' name s :
  path_of_variable path name -> path_of_variable path' name ->
  ngx_proxy_wasm_properties_get debug path s = ngx_proxy_wasm_properties_get debug path' s /\
  forall v, ngx_proxy_wasm_properties_set debug path v s = ngx_proxy_wasm_properties_set debug path' v s.
Proof.
  intros [E1 E2]%(path_of_variable_ngx _ _ s) [E1' E2']%(path_of_variable_ngx _ _ s).
  split; [by rewrite E1|]. intros v. by rewrite E2.
Qed.

Lemma request_ctx_Ret (s : props_state P) : ps_rctx s = Some false -> request_ctx debug s = Ret (tt, s).
Proof.
  intros Hr. unfold request_ctx. erewrite SM_bind_Ret by reflexivity. unfold massert. rewrite Hr.
  by erewrite SM_bind_Ret by (unfold slift; rewrite ngx_wa_assert_true; reflexivity).
Qed.

(** Writing an indexed variable. *)
Lemma set_indexed name v d (s s1 : props_state P) rc :
  ps_rctx s = Some false -> variables_hash name = Some v -> v_set_handler v = None -> v_indexed v = true ->
  ngx_proxy_wasm_properties_set_ngx debug (ngx_prefix ++ name) (Some d) s = Ret (rc, s1) ->
  rc = NGX_ERROR \/
  rc = NGX_OK /\ ps_rctx s1 = Some false /\ ps_variables s1 !! v_index v = Some (value_of_variable (Some d)).
Proof.
  intros Hr Hv Hs Hi. unfold ngx_proxy_wasm_properties_set_ngx.
  rewrite (SM_bind_Ret _ _ _ _ _ (request_ctx_Ret s Hr)).
  destruct has_http_main_conf; cbn [negb]; [|by intros [= <- _]; left].
  replace (ngx_name (ngx_prefix ++ name)) with name by reflexivity. rewrite Hv.
  destruct (v_changeable v); cbn [negb]; [|by intros [= <- _]; left]. rewrite Hs, Hi.
  intros (ok & s2 & E1 & E2)%SM_bind_Ret_inv. unfold palloc, on_maps in E1.
  destruct (Maps.palloc (ps_maps s)) as [[b x]|]; [|done]. injection E1 as <- <-.
  destruct b; cbn [negb] in E2; [|by injection E2 as <- _; left]. right.
  apply SM_bind_Ret_inv in E2 as (u & s3 & E2 & E3). injection E3 as <- <-.
  unfold set_variable in E2. apply SM_bind_Ret_inv in E2 as (l & s4 & E4 & E2). injection E4 as <- <-.
  apply SM_bind_Ret_inv in E2 as (w & s4 & E4 & E2). unfold slift in E4.
  destruct (deref _) eqn:Ed; [|done]. injection E4 as _ <-. injection E2 as _ <-.
  split_and!; [done|done|]. cbn. apply list_lookup_insert_eq.
  apply deref_Ret_inv in Ed. by eapply lookup_lt_Some.
Qed.

Lemma get_indexed name v d (s : props_state P) :
  indexed_variables -> ps_rctx s = Some false -> variables_hash name = Some v -> v_indexed v = true ->
  ps_variables s !! v_index v = Some (value_of_variable (Some d)) ->
  ngx_proxy_wasm_properties_get_ngx debug (ngx_prefix ++ name) s = Ret ((NGX_OK, of_bytes d), s).
Proof.
  intros Hlaw Hr Hv Hi Hvv. unfold ngx_proxy_wasm_properties_get_ngx.
  rewrite (SM_bind_Ret _ _ _ _ _ (request_ctx_Ret s Hr)). erewrite SM_bind_Ret by reflexivity.
  replace (ngx_name (ngx_prefix ++ name)) with name by reflexivity. cbn [id].
  rewrite (Hlaw _ _ name v _ Hv Hi Hvv) by done. cbn beta iota.
  erewrite SM_bind_Ret by reflexivity. cbn. by destruct s.
Qed.

(** A variable of nginx that a filter writes (one that may be changed, indexed and without a
    handler of its own) has the value written for whoever reads it next in the request, under
    any of its paths; the write fails only without memory or when the variable cannot be
    changed. *)
Lemma variable_set_get path path' name v d err rc (s s1 : props_state P) :
  indexed_variables -> name <> [] -> path_of_variable path name -> path_of_variable path' name ->
  ps_rctx s = Some false -> variables_hash name = Some v -> v_set_handler v = None -> v_indexed v = true ->
  ngx_proxy_wasm_properties_set debug path (Some d) s = Ret ((rc, err), s1) ->
  rc = NGX_ERROR \/
  rc = NGX_OK /\ ngx_proxy_wasm_properties_get debug path' s1 = Ret ((NGX_OK, of_bytes d, []), s1).
Proof.
  intros Hlaw Hne Hp Hp' Hr Hv Hs Hi Eset.
  assert (has_prefix ngx_prefix (ngx_prefix ++ name) = true) as Hpre.
  { unfold has_prefix. rewrite take_app_length, bool_decide_true by done. rewrite andb_true_r, length_app.
    apply Nat.ltb_lt. destruct name; [done|]. cbn. lia. }
  pose proof (path_of_variable_name _ _ Hp) as Hd. destruct Hp as (Hl1 & Hl2 & Hp).
  rewrite (proj2 (path_of_variable_ngx path name s (conj Hl1 (conj Hl2 Hp)))) in Eset.
  unfold ngx_proxy_wasm_properties_set in Eset.
  rewrite (SM_bind_Ret _ _ _ _ _ (dotted_path_plain (ngx_prefix ++ name) s Hl2)), Hd,
    (SM_bind_Ret _ _ _ _ _ (in_scope (ngx_prefix ++ name) s Hr)) in Eset. cbv iota in Eset. rewrite Hpre in Eset.
  apply SM_bind_Ret_inv in Eset as (rc' & s2 & Eset & E). injection E as <- <- <-.
  destruct (set_indexed name v d s s2 rc' Hr Hv Hs Hi Eset) as [->|(-> & Hr2 & Hvv)]; [by left|right].
  split; [done|]. rewrite (proj1 (path_of_variable_ngx path' name s2 Hp')).
  unfold ngx_proxy_wasm_properties_get.
  rewrite (SM_bind_Ret _ _ _ _ _ (dotted_path_plain (ngx_prefix ++ name) s2 Hl2)), Hd,
    (SM_bind_Ret _ _ _ _ _ (in_scope (ngx_prefix ++ name) s2 Hr2)). cbv iota.
  rewrite (find_scoped ngx_prefix _ (proj2 scopes_apart_checked) Hpre), Hpre.
  unfold no_err. by rewrite (SM_bind_Ret _ _ _ _ _ (get_indexed name v d s2 Hlaw Hr2 Hv Hi Hvv)).
Qed.

(** ** What a guest gets *)

Section guests.
Context (ngx_vsnprintf : nat -> bytes -> option bytes).
Context (ngx_proxy_wasm_alloc : memory -> Z -> Z * memory).

(** A property that has a value is copied to the memory the guest allocates, and its place and
    length are written where the guest said. *)
Lemma guest_reads_property (h : host (props_state P)) pp pl pg path dp dg sp sg v err e p m' :
  slice_arg (h_memory h) pp pl pg path -> out_arg (h_memory h) dp dg -> out_arg (h_memory h) sp sg ->
  ngx_proxy_wasm_properties_get debug path (h_env h) = Ret ((NGX_OK, of_bytes v, err), e) ->
  ngx_proxy_wasm_alloc (h_memory h) (zlen v) = (p, m') -> grown (h_memory h) m' ->
  0 < p -> p + zlen v <= zlen (mem_data m') -> p + zlen v < 2 ^ 32 ->
  exists m2 d1 d2 d3,
    ngx_proxy_wasm_hfuncs_get_property debug ngx_vsnprintf ngx_proxy_wasm_alloc pp pl dp sp h =
      Ret (ngx_proxy_wasm_result_ok, set_memory m2 (set_env e h)) /\
    mem_write (mem_data m') p v = Ret d1 /\
    mem_write d1 (wrap32 dp) (enc32 p) = Ret d2 /\
    mem_write d2 (wrap32 sp) (enc32 (zlen v)) = Ret d3 /\ mem_data m2 = d3.
Proof.
  intros Ha Hd Hs Hget Hal Hgr Hp Hin H32. pose proof (zlen_nonneg v).
  unfold ngx_proxy_wasm_hfuncs_get_property.
  rewrite (LIFT_SLICE_arg _ _ _ pg path), (LIFT_arg _ dp dg), (LIFT_arg _ sp sg) by done.
  erewrite SM_bind_Ret by (eapply read_arg; exact Ha).
  erewrite SM_bind_Ret by (unfold on_env; rewrite Hget; reflexivity). cbn beta iota.
  erewrite SM_bind_Ret by (unfold slift; rewrite ngx_wa_assert_true; reflexivity).
  set (h0 := set_env e h).
  erewrite SM_bind_Ret by (unfold alloc, on_memory; cbn; rewrite Hal; reflexivity).
  rewrite (proj2 (Z.eqb_neq _ _)) by lia. set (h1 := set_memory m' h0).
  assert ((if (of_bytes v).1 =? 0 then mret [] else slift (deref (of_bytes v).2)) h1 = Ret (v, h1)) as Edata.
  { cbn. destruct (Z.eqb_spec (zlen v) 0) as [E|]; [|done]. destruct v; [done|]. rewrite zlen_cons in E.
    pose proof (zlen_nonneg v). lia. }
  erewrite SM_bind_Ret by exact Edata.
  destruct (memcpy_in m' p v) as (d1 & Hd1 & E1); [lia|zlia|lia|lia|].
  erewrite SM_bind_Ret by (unfold on_memory; cbn; rewrite E1; reflexivity). cbn [negb].
  set (h2 := set_memory _ h1).
  assert (grown (h_memory h) (h_memory h2)) as Hg2 by (by eapply grown_write).
  destruct (write_arg dp dg p (h_memory h) h2 Hd Hg2) as (d2 & Hd2 & E2).
  erewrite SM_bind_Ret by exact E2. set (h3 := set_memory _ h2).
  assert (grown (h_memory h) (h_memory h3)) as Hg3 by (by eapply grown_write).
  destruct (write_arg sp sg (zlen v) (h_memory h) h3 Hs Hg3) as (d3 & Hd3 & E3).
  erewrite SM_bind_Ret by exact E3.
  exists (set_data (h_memory h3) d3), d1, d2, d3. by split_and!.
Qed.
End guests.
End host_properties.
End Properties.

(** ** Requests to run the definitions on *)

Module PropertiesRuns.
Import Host Headers HeadersRuns Maps MapsRuns Properties.

(** A hash that is its list of keys. *)
#[export] Instance list_hash : NgxHash := {
  ngx_hash_find_combined A keys name :=
    snd <$> (snd <$> list_find (fun e : bytes * A => key_matches e.1 name = true) keys);
}.

#[export] Instance list_hash_laws : NgxHashLaws list_hash.
Proof.
  split; cbn.
  - intros A keys name k a Hnd Hin Hm Hone.
    destruct (list_find_elem_of (fun e : bytes * A => key_matches e.1 name = true) keys (k, a) Hin Hm)
      as [[i [k' a']] E]. rewrite E. apply list_find_Some in E as (Ei & Ek & _). cbn in *.
    pose proof (list_elem_of_lookup_2 _ _ _ Ei) as Hin'. rewrite (Hone k' a' Hin' Ek) in *.
    apply list_elem_of_lookup in Hin as [j Ej].
    assert (i = j) as ->; [|congruence].
    apply (NoDup_lookup keys.*1 i j k Hnd); by rewrite list_lookup_fmap, ?Ei, ?Ej.
  - intros A keys name Hno. rewrite (proj2 (list_find_None _ keys)); [done|].
    apply Forall_elem. intros [k a] Hin. cbn. by rewrite (Hno k a Hin).
Qed.

(** Its variables: "args" is the first of the request, "status" cannot be changed. *)
Definition variables (name : bytes) : option (ngx_http_variable_t unit) :=
  if bool_decide (name = ngx_string "args") then
    Some {| v_changeable := true; v_set_handler := None; v_indexed := true; v_index := 0 |}
  else if bool_decide (name = ngx_string "status") then
    Some {| v_changeable := false; v_set_handler := None; v_indexed := true; v_index := 1 |}
  else None.

(** The handler of Lua fails. *)
#[export] Instance props_env : PropsEnv unit := {
  start_sec := 5; start_msec := 7; is_main_request := true; connection_number := 3;
  upstream_states := None; root_filter_name := ngx_string "root"; current_filter_name := Some (ngx_string "f");
  ngx_worker := 0; sprintf_i n := [z2b (48 + n mod 10)]; sprintf_time _ _ := ngx_string "5.007";
  has_http_main_conf := true;
  ngx_http_get_variable maps l name :=
    (match variables name with Some v => l !! v_index v | None => None end, (maps, l));
  variables_hash := variables;
  ffi_call _ _ _ := mret (NGX_ERROR, null_str, ngx_string "failed");
  stack_size := 8192; pool_max := 4;
}.

Definition unset : ngx_http_variable_value_t :=
  {| vv_valid := false; vv_not_found := true; vv_no_cacheable := false; vv_data := None |}.

Definition request (rctx : option bool) : props_state unit :=
  {| ps_maps := guest_at ProxyWasm.STEP_REQ_HEADERS; ps_rctx := rctx; ps_variables := [unset; unset];
     ps_start_time := []; ps_connection_id := []; ps_mtls := []; ps_root_id := []; ps_worker_id := [];
     ps_host_props := ∅; ps_ffi := (None, None) |}.

Definition a_request : props_state unit := request (Some false).

Definition got (o : outcome (ngx_rc * str_t * bytes * props_state unit)) : outcome (ngx_rc * option bytes) :=
  let? (r, _) := o in Ret (r.1.1, r.1.2.2).

Definition get_of (path : String.string) (s : props_state unit) : outcome (ngx_rc * option bytes) :=
  got (ngx_proxy_wasm_properties_get true (ngx_string path) s).
Arguments get_of path%_string_scope s.

Example get_attributes :
  get_of "request.headers.x-id" a_request = Ret (NGX_OK, Some (ngx_string "1")) /\
  get_of "request.is_subrequest" a_request = Ret (NGX_OK, Some (ngx_string "false")) /\
  get_of "connection.id" a_request = Ret (NGX_OK, Some (ngx_string "3")) /\
  get_of "plugin_name" a_request = Ret (NGX_OK, Some (ngx_string "f")) /\
  get_of "request.query" a_request = Ret (NGX_DECLINED, None) /\
  get_of "request.headers" a_request = Ret (NGX_DECLINED, None) /\
  get_of "upstream.address" a_request = Ret (NGX_DECLINED, None).
Proof. vm_compute. done. Qed.

(** The root id is not printed: the length of the string that is to keep it is. *)
Example root_id_is_zero : get_of "plugin_root_id" a_request = Ret (NGX_OK, Some (ngx_string "0")).
Proof. vm_compute. reflexivity. Qed.

(** Outside of a request a scoped property is refused; for another one the search of a dot reads
    past the buffer on the stack. *)
Example no_request :
  get_of "request.path" (request None) = Ret (NGX_ERROR, None) /\
  get_of "plugin_name" (request None) = Fault F_memory.
Proof. vm_compute. done. Qed.

(** The buffer is as long as the path the guest gives. *)
Example long_path :
  got (ngx_proxy_wasm_properties_get true (replicate (Z.to_nat 8193) "a"%byte) a_request) = Fault F_memory.
Proof. vm_compute. reflexivity. Qed.

(** The table of a configuration in which every step succeeds. *)
Example table_of_a_start (debug : bool) :
  ngx_proxy_wasm_properties_init debug true (fun _ => true) (fun _ _ => NGX_OK) = Ret (pwm2ngx_hash debug).
Proof. destruct debug; vm_compute; reflexivity. Qed.

Lemma handlers_keep a q w : preserves consts_kept (ffi_call (P := unit) a q w).
Proof. apply preserves_ret, _. Qed.

Lemma variables_indexed : indexed_variables (P := unit).
Proof. intros maps l name v vv Hv _ Hl _ _. cbn in *. by rewrite Hv, Hl. Qed.

Definition wasmx_x : bytes := ngx_string "wasmx.x".

Definition constant_set :=
  ngx_proxy_wasm_properties_set_host true wasmx_x (Some (ngx_string "v")) true false a_request.
Definition later : list props_op := [Op_set wasmx_x (Some (ngx_string "w")); Op_get wasmx_x].

Lemma constant_set_runs :
  match constant_set with
  | Ret (r, s1) => bool_decide (r = (NGX_OK, Some (ngx_string "v"))) && outcome_ok (run_ops true later s1)
  | Fault _ => false
  end = true.
Proof. vm_compute. reflexivity. Qed.

Lemma constant_property_stable_witness :
  exists s1 s2,
    constant_set = Ret ((NGX_OK, Some (ngx_string "v")), s1) /\ run_ops true later s1 = Ret (tt, s2) /\
    get_of "wasmx.x" s2 = Ret (NGX_OK, Some (ngx_string "v")).
Proof.
  pose proof constant_set_runs as Hr.
  destruct constant_set as [[r s1]|] eqn:E1; [|discriminate].
  apply andb_true_iff in Hr as [Hr%bool_decide_eq_true Hr2]. rewrite Hr in *.
  destruct (run_ops true later s1) as [[[] s2]|] eqn:E2; [|discriminate].
  exists s1, s2. split; [done|]. split; [done|].
  destruct (constant_property_stable true wasmx_x wasmx_x (Some (ngx_string "v")) false [] later
    a_request a_request s1 s2 (Some (ngx_string "v")) handlers_keep eq_refl eq_refl eq_refl eq_refl)
    as [Hg _]; [vm_compute; discriminate|reflexivity|exact E1|exact E2|].
  unfold get_of. change (ngx_string "wasmx.x") with wasmx_x. by rewrite Hg.
Defined.

Lemma two_paths name : name = ngx_string "args" ->
  path_of_variable (P := unit) true (ngx_string "ngx.args") name /\
  path_of_variable (P := unit) true (ngx_string "request.query") name.
Proof.
  intros ->. split; (split; [vm_compute; discriminate|]; split; [vm_compute; discriminate|]).
  - by left.
  - right. exists (variable "request.query" "ngx.args"). split_and!; try done.
    unfold pw2ngx, pw2ngx_http. do 7 (apply list_elem_of_further). apply list_elem_of_here.
Qed.

Lemma variable_paths_agree_witness :
  ngx_proxy_wasm_properties_get true (ngx_string "request.query") a_request =
  ngx_proxy_wasm_properties_get true (ngx_string "ngx.args") a_request.
Proof.
  destruct (two_paths (ngx_string "args") eq_refl) as [H1 H2].
  by destruct (variable_paths_agree true _ _ _ a_request H2 H1).
Defined.

Definition args_set :=
  ngx_proxy_wasm_properties_set true (ngx_string "request.query") (Some (ngx_string "a=b")) a_request.

Lemma args_set_ok : (let? (r, _) := args_set in Ret r) = Ret (NGX_OK, []).
Proof. vm_compute. reflexivity. Qed.

Lemma variable_set_get_example :
  exists s1,
    args_set = Ret ((NGX_OK, []), s1) /\
    ngx_proxy_wasm_properties_get true (ngx_string "ngx.args") s1 = Ret ((NGX_OK, of_bytes (ngx_string "a=b"), []), s1).
Proof.
  pose proof args_set_ok as Hr. destruct args_set as [[r s1]|] eqn:E; [|discriminate].
  injection Hr as ->. exists s1. split; [done|].
  destruct (two_paths (ngx_string "args") eq_refl) as [H1 H2].
  destruct (variable_set_get true (ngx_string "request.query") (ngx_string "ngx.args") (ngx_string "args")
    {| v_changeable := true; v_set_handler := None; v_indexed := true; v_index := 0 |}
    (ngx_string "a=b") [] NGX_OK a_request s1 variables_indexed ltac:(discriminate) H2 H1 eq_refl eq_refl
    eq_refl eq_refl E) as [?|[_ Hg]]; [discriminate|done].
Defined.

(** A guest whose memory holds "wasmx.a%d" at 8, in a request with a handler of Lua that fails:
    the message of the trap, with the path, is a format. *)
Definition guest (path : String.string) : host (props_state unit) :=
  {| h_memory := {| mem_base := 4096; mem_data := replicate 8 x00 ++ ngx_string path ++ replicate 40 x00 |};
     h_trap := []; h_env := with_ffi (Some 1%positive, None) a_request |}.
Arguments guest path%_string_scope.

Definition get_property (path : String.string) :=
  ngx_proxy_wasm_hfuncs_get_property true HostRuns.printf_noargs (HostRuns.alloc_at 32)
    8 (zlen (ngx_string path)) 24 28 (guest path).
Arguments get_property path%_string_scope.

Example path_is_a_format :
  (let? (r, h) := get_property "wasmx.a" in Ret (r.1, take 31 (h_trap h))) =
    Ret (NGX_WAVM_ERROR, ngx_string "could not get " ++ Host.quoted "wasmx.a" ++ ngx_string ": failed") /\
  get_property "wasmx.%d" = Fault F_memory.
Proof. vm_compute. done. Qed.

End PropertiesRuns.
