(* ===== verification/LocalResponse.v ===== *)
(** * Local responses

    A filter may answer a request itself. src/src/http/ngx_http_wasm_local_response.c keeps the
    response (stash), forgets it (discard) and sends it (flush); the host functions that do so
    are those of src/src/http/ngx_http_wasm_host.c and [proxy_send_local_response] of
    src/src/common/proxy_wasm/ngx_proxy_wasm_host.c; what is sent goes to nginx through
    [ngx_http_wasm_send_chain_link] of src/src/http/ngx_http_wasm_util.c. *)
From S2P Require Import Prelude NginxCore Acl Host Chains BodyFilter Bodies Escape Pairs ProxyWasm Headers.
From stdpp Require Export list gmap.
#[global] Open Scope Z_scope.

Module LocalResponse.
Import Host Chains BodyFilter.
#[local] Existing Instance ProxyWasm.step_eq_dec.

(** ** Data *)

(** The flags of the request context which [BodyFilter] does not hold. *)
Inductive flag :=
| local_resp_flushed
| entered_content_phase
| content_executed
| in_req_body_handler
| req_body_waited
| req_body_received
| entered_log_phase
| in_wev
| resp_content_chosen
| resp_content_sent
| resp_finalized
| fake_request.

#[export] Instance flag_eq_dec : EqDecision flag.
Proof. solve_decision. Defined.

(** [local_resp_reason.data]: the text without its null byte, and whether its memory was given
    back. *)
Record reason_t := { rn_text : bytes; rn_freed : bool }.

(** The response that is kept; the array of headers is [None] while its elements are [NULL]. *)
Record local_resp_t := {
  local_resp_status : Z;
  local_resp_reason_len : Z;
  local_resp_reason_data : option reason_t;
  local_resp_headers : option (list (bytes * bytes));
  local_resp_body : option addr;
  local_resp_body_len : Z;
}.

(** The data of [headers_out.status_line]: a text of the host, or a pointer of a guest. *)
Inductive line_data := LINE_HOST (text : bytes) | LINE_GUEST (ptr : gptr).

(** What nginx is asked to send: the header with its status, status line and list, a buffer,
    or only the end of the response. *)
Inductive sent :=
| SENT_HEADER (status : Z) (line : option line_data) (line_len : Z) (headers : Headers.ngx_list_t)
| SENT_BODY (buf : ngx_buf_t)
| SENT_LAST.

(** A request: what [Headers] holds with its pool, the other fields of the request, what
    [ngx_http_wasm_rctx] answers, the local response, the flags, the part of the request context
    for bodies with the store of the chains, the step of the filters, what was sent so far and
    everything else. *)
Record state (P W : Type) := {
  st_r : Headers.request;
  st_pool : P;
  st_err_status : Z;
  st_http_version_9 : bool;
  st_status_line : option line_data * Z;
  st_header_sent : bool;
  st_header_only : bool;
  st_main : bool;
  st_bad_fd : bool;
  st_count : Z;
  st_rctx : ngx_rc;
  st_local : local_resp_t;
  st_flags : flag -> bool;
  st_x : ngx_http_wasm_req_ctx_t;
  st_store : store;
  st_step : ProxyWasm.ngx_proxy_wasm_step_e;
  st_sent : list sent;
  st_world : W;
}.
Arguments st_r {P W}. Arguments st_pool {P W}. Arguments st_err_status {P W}.
Arguments st_http_version_9 {P W}. Arguments st_status_line {P W}. Arguments st_header_sent {P W}.
Arguments st_header_only {P W}. Arguments st_main {P W}. Arguments st_bad_fd {P W}.
Arguments st_count {P W}. Arguments st_rctx {P W}. Arguments st_local {P W}. Arguments st_flags {P W}.
Arguments st_x {P W}. Arguments st_store {P W}. Arguments st_step {P W}. Arguments st_sent {P W}.
Arguments st_world {P W}.

(** ** Assignments *)

Section assignments.
Context {P W : Type}.
Implicit Types s : state P W.

(** Assigns the fields of the request. *)
Definition with_request (r : Headers.request) (p : P) (err_status : Z) (line : option line_data * Z) (count : Z) s
    : state P W :=
  {| st_r := r; st_pool := p; st_err_status := err_status; st_http_version_9 := st_http_version_9 s;
     st_status_line := line; st_header_sent := st_header_sent s; st_header_only := st_header_only s;
     st_main := st_main s; st_bad_fd := st_bad_fd s; st_count := count; st_rctx := st_rctx s;
     st_local := st_local s; st_flags := st_flags s; st_x := st_x s; st_store := st_store s;
     st_step := st_step s; st_sent := st_sent s; st_world := st_world s |}.

(** Assigns those of its context. *)
Definition with_ctx (l : local_resp_t) (f : flag -> bool) (x : ngx_http_wasm_req_ctx_t) (m : store) s : state P W :=
  {| st_r := st_r s; st_pool := st_pool s; st_err_status := st_err_status s;
     st_http_version_9 := st_http_version_9 s; st_status_line := st_status_line s;
     st_header_sent := st_header_sent s; st_header_only := st_header_only s; st_main := st_main s;
     st_bad_fd := st_bad_fd s; st_count := st_count s; st_rctx := st_rctx s; st_local := l; st_flags := f;
     st_x := x; st_store := m; st_step := st_step s; st_sent := st_sent s; st_world := st_world s |}.

Definition with_sent (l : list sent) (w : W) s : state P W :=
  {| st_r := st_r s; st_pool := st_pool s; st_err_status := st_err_status s;
     st_http_version_9 := st_http_version_9 s; st_status_line := st_status_line s;
     st_header_sent := st_header_sent s; st_header_only := st_header_only s; st_main := st_main s;
     st_bad_fd := st_bad_fd s; st_count := st_count s; st_rctx := st_rctx s; st_local := st_local s;
     st_flags := st_flags s; st_x := st_x s; st_store := st_store s; st_step := st_step s; st_sent := l;
     st_world := w |}.

Definition set_r (r : Headers.request) (p : P) s : state P W :=
  with_request r p (st_err_status s) (st_status_line s) (st_count s) s.
Definition set_count (n : Z) s : state P W :=
  with_request (st_r s) (st_pool s) (st_err_status s) (st_status_line s) n s.
Definition set_local (l : local_resp_t) s : state P W := with_ctx l (st_flags s) (st_x s) (st_store s) s.
Definition set_flag (f : flag) (b : bool) s : state P W :=
  with_ctx (st_local s) (fun g => if decide (g = f) then b else st_flags s g) (st_x s) (st_store s) s.
Definition set_x (x : ngx_http_wasm_req_ctx_t) s : state P W :=
  with_ctx (st_local s) (st_flags s) x (st_store s) s.
Definition set_store_ (m : store) s : state P W := with_ctx (st_local s) (st_flags s) (st_x s) m s.
Definition add_sent (x : sent) s : state P W := with_sent (st_sent s ++ [x]) (st_world s) s.
End assignments.

Definition local_status (status : Z) (l : local_resp_t) : local_resp_t :=
  {| local_resp_status := status; local_resp_reason_len := local_resp_reason_len l;
     local_resp_reason_data := local_resp_reason_data l; local_resp_headers := local_resp_headers l;
     local_resp_body := local_resp_body l; local_resp_body_len := local_resp_body_len l |}.
Definition local_reason (len : Z) (data : option reason_t) (l : local_resp_t) : local_resp_t :=
  {| local_resp_status := local_resp_status l; local_resp_reason_len := len;
     local_resp_reason_data := data; local_resp_headers := local_resp_headers l;
     local_resp_body := local_resp_body l; local_resp_body_len := local_resp_body_len l |}.
Definition local_headers (hs : option (list (bytes * bytes))) (l : local_resp_t) : local_resp_t :=
  {| local_resp_status := local_resp_status l; local_resp_reason_len := local_resp_reason_len l;
     local_resp_reason_data := local_resp_reason_data l; local_resp_headers := hs;
     local_resp_body := local_resp_body l; local_resp_body_len := local_resp_body_len l |}.
Definition local_body (body : option addr) (len : Z) (l : local_resp_t) : local_resp_t :=
  {| local_resp_status := local_resp_status l; local_resp_reason_len := local_resp_reason_len l;
     local_resp_reason_data := local_resp_reason_data l; local_resp_headers := local_resp_headers l;
     local_resp_body := body; local_resp_body_len := len |}.

(** That of a new request context. *)
Definition no_local_resp : local_resp_t :=
  {| local_resp_status := 0; local_resp_reason_len := 0; local_resp_reason_data := None;
     local_resp_headers := None; local_resp_body := None; local_resp_body_len := 0 |}.

(** What nginx does: it reads the rest of a request body, finds the content type of a response
    and sends the header, a chain or the end of the response through its filters, which may run
    filters of this module and change everything. *)
Class HttpOut (P W : Type) := {
  ngx_http_discard_request_body : SM (state P W) ngx_rc;
  ngx_http_set_content_type : SM (state P W) ngx_rc;
  ngx_http_send_header : SM (state P W) ngx_rc;
  ngx_http_send_special_last : SM (state P W) ngx_rc;
  ngx_http_output_filter : option addr -> SM (state P W) ngx_rc;
}.

(** Comparisons of a code with numbers. *)
Definition NGX_HTTP_SPECIAL_RESPONSE : Z := 300.
Definition NGX_HTTP_OK : Z := 200.
Definition NGX_HTTP_INTERNAL_SERVER_ERROR : Z := 500.

Definition rc_number (rc : ngx_rc) : Z :=
  match rc with
  | NGX_OK => 0 | NGX_ERROR => -1 | NGX_AGAIN => -2 | NGX_BUSY => -3 | NGX_DONE => -4
  | NGX_DECLINED => -5 | NGX_ABORT => -6 | NGX_STATUS code => code
  end.

(** "%03ui" of a status of three digits. *)
Definition digits3 (n : Z) : bytes := [z2b (48 + n / 100); z2b (48 + n / 10 mod 10); z2b (48 + n mod 10)].

(** The buffer of a response: [len] bytes of it are used.  [sync] is not kept. *)
Definition temp_buf (data : bytes) (last_buf last_in_chain : bool) : ngx_buf_t :=
  set_flags false last_buf last_in_chain
    (set_window 0 (length data) (set_kind 0 true false (set_mem data true zero_buf))).

Section local_response.
Context {P W : Type} `{Headers.NgxPool P} `{Headers.NgxStrings} `{HttpOut P W}.
Context (debug : bool) (fresh : Z -> bytes).
(** [buf_tag], the address of the http module; the size from which [ngx_pfree] gives back. *)
Context (buf_tag : Z) (pool_max : Z).
Abbreviation M := (SM (state P W)).

Definition get {A} (f : state P W -> A) : M A := fun s => Ret (f s, s).
Definition modify (f : state P W -> state P W) : M unit := fun s => Ret (tt, f s).
Definition sassert (c : bool) : M unit := slift (ngx_wa_assert debug c).
Definition flag_is (f : flag) : M bool := get (fun s => st_flags s f).
Definition modify_local (f : local_resp_t -> local_resp_t) : M unit :=
  modify (fun s => set_local (f (st_local s)) s).

Definition on_headers {A} (m : SM (Headers.request * P) A) : M A := fun s =>
  let? (a, (r, p)) := m (st_r s, st_pool s) in Ret (a, set_r r p s).
Definition on_store {A} (m : SM store A) : M A := fun s =>
  let? (a, m) := m (st_store s) in Ret (a, set_store_ m s).

Definition pnalloc : M bool := on_headers Headers.pnalloc.

(** ** Keeping a response *)

(** [ngx_pfree]. *)
Definition pfree_reason (r : reason_t) : outcome reason_t :=
  if pool_max <? zlen (rn_text r) + 1 then
    if rn_freed r then Fault F_memory else Ret {| rn_text := rn_text r; rn_freed := true |}
  else Ret r.

Definition ngx_http_wasm_discard_local_response : M unit :=
  modify (set_flag resp_content_chosen false);;
  modify_local (fun l => local_body (local_resp_body l) (-1)
                           (local_reason 0 (local_resp_reason_data l) (local_status 0 l)));;
  l ← get st_local;
  (match local_resp_reason_data l with
   | Some r => r ← slift (pfree_reason r); modify_local (local_reason 0 (Some r))
   | None => mret tt
   end);;
  match local_resp_body l with
  | Some cl => on_store (ngx_free_chain cl);; modify_local (local_body None (-1))
  | None => mret tt
  end.

(** "ddd reason", with the null byte that follows it. *)
Definition reason_text (status : Z) (reason : bytes) : bytes := digits3 status ++ " "%byte :: reason.

(** Copies of the headers; their array is as large as it needs. *)
Fixpoint copy_headers (l : list (bytes * bytes)) : M bool :=
  match l with
  | [] => mret true
  | _ :: l =>
      ok ← pnalloc;
      if negb ok then mret false
      else
        ok ← pnalloc;
        if negb ok then mret false else copy_headers l
  end.

Definition fail : M ngx_rc := ngx_http_wasm_discard_local_response;; mret NGX_ERROR.

(** [headers] is [None] for [NULL]. *)
Definition stash_headers (headers : option (list (bytes * bytes))) : M bool :=
  ok ← pnalloc;
  if negb ok then mret false
  else
    modify_local (local_headers (Some []));;
    ok ← copy_headers (default [] headers);
    (if (ok : bool) then modify_local (local_headers (Some (default [] headers))) else mret tt);;
    mret ok.

Definition stash_body (body : bytes) : M bool :=
  let data := body ++ [x0a] in
  ok ← on_store (ok ← palloc; if (ok : bool) then palloc else mret false);
  if negb ok then mret false
  else
    main ← get st_main;
    x ← get st_x;
    '(cl, free) ← on_store (ngx_wasm_chain_get_free_buf (rx_free_bufs x) (length data) buf_tag true);
    modify (set_x (Bodies.set_free_bufs free x));;
    match cl with
    | None => mret false
    | Some cl =>
        on_store (write_link cl (fun _ => {| cl_buf := temp_buf data main (negb main); cl_next := None |}));;
        modify_local (local_body (Some cl) (zlen data));;
        mret true
    end.

Definition stash_reason (status : Z) (reason : bytes) : M bool :=
  if zlen reason =? 0 then mret true
  else
    ok ← pnalloc;
    if negb ok then mret false
    else
      modify_local (local_reason (zlen (reason_text status reason))
                      (Some {| rn_text := reason_text status reason; rn_freed := false |}));;
      mret true.

(** The parts of a response, one after the other. *)
Definition stash_parts (status : Z) (reason : bytes) (headers : option (list (bytes * bytes))) (body : bytes)
    : M ngx_rc :=
  modify_local (local_status status);;
  ok ← stash_reason status reason;
  if negb ok then fail
  else
    ok ← stash_headers headers;
    if negb ok then fail
    else
      ok ← (if zlen body =? 0 then mret true else stash_body body);
      if negb ok then fail
      else modify (set_flag resp_content_chosen true);; mret NGX_OK.

Definition ngx_http_wasm_stash_local_response (status : Z) (reason : bytes)
    (headers : option (list (bytes * bytes))) (body : bytes) : M ngx_rc :=
  x ← get st_x;
  l ← get st_local;
  if rx_entered_header_filter x then mret NGX_ABORT
  else if negb (local_resp_status l =? 0) then mret NGX_BUSY
  else if (status <? 100) || (999 <? status) then mret NGX_DECLINED
  else stash_parts status reason headers body.

(** ** Sending *)

(** Asks nginx to send the header, a chain or the end. *)
Definition send_header : M ngx_rc :=
  modify (fun s => add_sent (SENT_HEADER (Headers.ho_status (Headers.rq_out (st_r s))) (st_status_line s).1
                       (st_status_line s).2
                       (Headers.ngx_http_wasm_htype_list Headers.NGX_HTTP_WASM_HEADERS_RESPONSE (st_r s))) s);;
  ngx_http_send_header.

Definition output_filter (cl : addr) : M ngx_rc :=
  l ← on_store (read_link cl);
  modify (add_sent (SENT_BODY (cl_buf l)));;
  ngx_http_output_filter (Some cl).

Definition send_special_last : M ngx_rc := modify (add_sent SENT_LAST);; ngx_http_send_special_last.

(** What is sent after the header. *)
Definition send_in (cin : option addr) : M ngx_rc :=
  match cin with
  | None =>
      rc ← send_special_last;
      mret (if bool_decide (rc = NGX_ERROR) then NGX_ERROR
            else if negb (bool_decide (rc = NGX_AGAIN)) && (rc_number rc <? NGX_HTTP_SPECIAL_RESPONSE)
            then NGX_OK else rc)
  | Some cl => output_filter cl
  end.

(** [done:] *)
Definition sent_done (rc : ngx_rc) : M ngx_rc :=
  (match rc with
   | NGX_AGAIN | NGX_ERROR => mret tt
   | _ =>
       s ← get id;
       (if negb (st_flags s resp_content_sent) && st_flags s entered_content_phase
           && negb (st_flags s in_wev) && st_main s
        then modify (set_count (st_count s + 1)) else mret tt);;
       sassert (0 <=? rc_number rc)
   end);;
  modify (set_flag resp_content_sent true);;
  mret rc.

(** Without a context of the request the last assignment goes through a pointer that was not
    set. *)
Definition ngx_http_wasm_send_chain_link (cin : option addr) : M ngx_rc :=
  rc ← get st_rctx;
  if negb (is_ok rc) then slift (Fault F_memory)
  else
    r ← get st_r;
    (if Headers.ho_status (Headers.rq_out r) =? 0
     then on_headers (Headers.rput (Headers.with_out (Headers.out_status NGX_HTTP_OK))) else mret tt);;
    rc ← send_header;
    if bool_decide (rc = NGX_ERROR) then sent_done NGX_ERROR
    else
      only ← get st_header_only;
      if (0 <? rc_number rc) || only then sent_done rc
      else
        header_sent ← get st_header_sent;
        sassert header_sent;;
        sassert (bool_decide (rc ∈ [NGX_OK; NGX_AGAIN; NGX_DONE; NGX_DECLINED]));;
        rc ← send_in cin;
        sent_done rc.

Definition ngx_http_wasm_set_resp_status (status : Z) (reason : option line_data) (reason_len : Z) : M unit :=
  on_headers (Headers.rput (Headers.with_out (Headers.out_status status)));;
  modify (fun s => with_request (st_r s) (st_pool s) 0
            (match reason with Some l => Some l | None => (st_status_line s).1 end, reason_len) (st_count s) s).

Fixpoint set_headers (l : list (bytes * bytes)) : M ngx_rc :=
  match l with
  | [] => mret NGX_OK
  | (k, v) :: l =>
      rc ← on_headers (Headers.ngx_http_wasm_set_resp_header debug fresh k (Some (Some v))
                         Headers.NGX_HTTP_WASM_HEADERS_SET);
      if negb (is_ok rc) then mret NGX_ERROR else set_headers l
  end.

(** The text of a reason: of memory that was given back it is not read. *)
Definition line_of (r : option reason_t) : outcome (option line_data) :=
  match r with
  | None => Ret None
  | Some r => if rn_freed r then Fault F_memory else Ret (Some (LINE_HOST (rn_text r)))
  end.

(** The status, the headers, the content type and the content length of a response. *)
Definition prepare_response (l : local_resp_t) : M ngx_rc :=
  line ← slift (if local_resp_reason_len l =? 0
                then Ret ((fun r => LINE_HOST (rn_text r)) <$> local_resp_reason_data l)
                else line_of (local_resp_reason_data l));
  ngx_http_wasm_set_resp_status (local_resp_status l) line (local_resp_reason_len l);;
  rc ← set_headers (default [] (local_resp_headers l));
  if negb (is_ok rc) then mret NGX_ERROR
  else
    rc ← (if negb (local_resp_body_len l =? 0) then ngx_http_set_content_type else mret NGX_OK);
    if negb (is_ok rc) then mret NGX_ERROR
    else
      rc ← (if 0 <=? local_resp_body_len l
            then on_headers (Headers.ngx_http_wasm_set_resp_content_length debug fresh (local_resp_body_len l))
            else mret NGX_OK);
      mret (if is_ok rc then NGX_OK else NGX_ERROR).

Definition ngx_http_wasm_flush_local_response : M ngx_rc :=
  l ← get st_local;
  header_sent ← get st_header_sent;
  if (local_resp_status l =? 0) || header_sent then mret NGX_DECLINED
  else
    flushed ← flag_is local_resp_flushed;
    if flushed : bool then sassert false;; mret NGX_ABORT
    else
      rc ← ngx_http_discard_request_body;
      if negb (is_ok rc) then mret NGX_ERROR
      else
        l ← get st_local;
        rc ← prepare_response l;
        if negb (is_ok rc) then mret NGX_ERROR
        else
          modify_local (local_status 0);;
          modify (set_flag local_resp_flushed true);;
          l ← get st_local;
          ngx_http_wasm_send_chain_link (local_resp_body l).

(** ** The host functions of the interface of this module *)

Section guests.
Context (ngx_vsnprintf : nat -> bytes -> option bytes).
Abbreviation G := (SM (host (state P W))).
Abbreviation LIFT_SLICE := (NGX_WAVM_HOST_LIFT_SLICE ngx_vsnprintf).
Abbreviation trap_printf := (ngx_wavm_instance_trap_printf ngx_vsnprintf).

Definition env {A} (f : state P W -> A) : G A := Host.gets (fun h => f (h_env h)).

Definition ngx_http_wasm_hfuncs_resp_get_status : G host_ret :=
  s ← env id;
  if st_bad_fd s then mret (NGX_WAVM_BAD_USAGE, None)
  else
    let status := if negb (st_err_status s =? 0) then st_err_status s
                  else if negb (Headers.ho_status (Headers.rq_out (st_r s)) =? 0)
                  then Headers.ho_status (Headers.rq_out (st_r s))
                  else if st_http_version_9 s then 9 else 0 in
    mret (NGX_WAVM_OK, Some (wrap32 status)).

Definition headers_already_sent : bytes := ngx_string "headers already sent".

Definition ngx_http_wasm_hfuncs_resp_set_status (args0 : Z) : G host_ret :=
  s ← env id;
  if st_bad_fd s then mret (NGX_WAVM_BAD_USAGE, None)
  else if st_header_sent s then trap_printf headers_already_sent;; mret (NGX_WAVM_BAD_USAGE, None)
  else
    on_env (on_headers (Headers.rput (Headers.with_out (Headers.out_status (wrap32 args0)))));;
    on_env (modify (fun s => with_request (st_r s) (st_pool s) 0 (st_status_line s) (st_count s) s));;
    mret (NGX_WAVM_OK, None).

(** A chain of one buffer with the text and a line feed, [NULL] for an empty text; its length. *)
Definition say_body (body : bytes) : M (option (option addr)) :=
  if zlen body =? 0 then mret (Some None)
  else
    rc ← ngx_http_set_content_type;
    if negb (is_ok rc) then mret None
    else
      ok ← on_store (ok ← palloc; if (ok : bool) then palloc else mret false);
      if negb ok then mret None
      else
        ok ← on_store palloc;
        if negb ok then mret None
        else
          cl ← on_store (new_link (temp_buf (body ++ [x0a]) true true));
          mret (Some (Some cl)).

Definition ngx_http_wasm_hfuncs_resp_say (args0 args1 : Z) : G host_ret :=
  let body_len := size_of_i32 args1 in
  LIFT_SLICE args0 body_len (fun ptr =>
  s ← env id;
  if st_bad_fd s then mret (NGX_WAVM_BAD_USAGE, None)
  else if st_header_sent s then trap_printf headers_already_sent;; mret (NGX_WAVM_BAD_USAGE, None)
  else
    body ← read_at ptr body_len;
    cl ← on_env (say_body body);
    match cl with
    | None => mret (NGX_WAVM_ERROR, None)
    | Some cl =>
        let content_len := if body_len =? 0 then body_len else body_len + 1 in
        rc ← on_env (on_headers (Headers.ngx_http_wasm_set_resp_content_length debug fresh content_len));
        if negb (is_ok rc) then mret (NGX_WAVM_ERROR, None)
        else
          rc ← on_env (ngx_http_wasm_send_chain_link cl);
          match rc with
          | NGX_ERROR => mret (NGX_WAVM_ERROR, None)
          | NGX_AGAIN => slift (ngx_wa_assert debug false);; mret (NGX_WAVM_NYI, None)
          | _ => mret (NGX_WAVM_OK, None)
          end
    end).

Definition ngx_http_wasm_hfuncs_local_response (args0 args1 args2 args3 args4 : Z) : G host_ret :=
  let reason_len := size_of_i32 args2 in
  LIFT_SLICE args1 reason_len (fun rptr =>
  let body_len := size_of_i32 args4 in
  LIFT_SLICE args3 body_len (fun bptr =>
  reason ← read_at rptr reason_len;
  body ← read_at bptr body_len;
  rc ← on_env (ngx_http_wasm_stash_local_response args0 reason None body);
  mret (if is_ok rc then NGX_WAVM_OK else NGX_WAVM_ERROR, None))).

Definition ngx_http_wasm_hfuncs_discard_local_response : G host_ret :=
  on_env ngx_http_wasm_discard_local_response;; mret (NGX_WAVM_OK, None).

(** ** The host function of proxy-wasm *)

(** What it uses of the filter: the arrays and the pool of [Pairs], the next action, the
    operations a filter waits for and their cancellation. *)
Context (array_ok pnalloc_ok : Z -> bool).
Context (set_next_action_done : M unit) (dispatch_ops_total : M Z) (dispatch_ops_cancel : M unit).

Definition already_stashed : bytes := ngx_string "local response already stashed".
Definition response_already_sent : bytes := ngx_string "response already sent".

(** In the header filter: the chunk of the response is replaced; the status line is in the
    memory of the guest. *)
Definition override_response (status : Z) (reason : option gptr) (reason_len : Z) (body : bytes) : G host_ret :=
  let set_body m := on_env (fun s => let? ((rc, x), m) := m (st_x s) (st_store s) in
                                     Ret (rc, set_store_ m (set_x x s))) in
  log_phase ← on_env (flag_is entered_log_phase);
  rc ← set_body (fun x => Bodies.ngx_http_wasm_set_resp_body debug log_phase x body 0 (length body));
  if negb (is_ok rc) then mret ngx_proxy_wasm_result_err
  else
    rc ← (if zlen body =? 0 then mret NGX_OK
          else set_body (fun x =>
            '(rc, chunk, free) ← ngx_wasm_chain_append debug (rx_resp_chunk x) (length body) [x0a]
                                   (rx_free_bufs x) (rx_buf_tag x) false;
            mret (rc, set_chunk chunk (rx_resp_chunk_len x) (rx_resp_chunk_eof x) (Bodies.set_free_bufs free x))));
    if negb (is_ok rc) then mret ngx_proxy_wasm_result_err
    else
      on_env (ngx_http_wasm_set_resp_status status (LINE_GUEST <$> reason) reason_len);;
      on_env (modify (fun s => set_x (set_flags_rx (rx_resp_buffering (st_x s)) true
                                        (rx_entered_body_filter (st_x s)) (st_x s)) s));;
      mret ngx_proxy_wasm_result_ok.

Definition ngx_proxy_wasm_hfuncs_send_local_response
    (args0 args1 args2 args3 args4 args5 args6 args7 : Z) : G host_ret :=
  let reason_len := size_of_i32 args2 in
  LIFT_SLICE args1 reason_len (fun rptr =>
  let body_len := size_of_i32 args4 in
  LIFT_SLICE args3 body_len (fun bptr =>
  let map_len := size_of_i32 args6 in
  LIFT_SLICE args5 map_len (fun mptr =>
  slift (ngx_wa_assert debug (args7 =? -1));;
  map ← read_at mptr map_len;
  '(rc, headers) ← slift (Pairs.ngx_proxy_wasm_pairs_unmarshal array_ok pnalloc_ok map);
  if negb (is_ok rc) then mret ngx_proxy_wasm_result_err
  else
    body ← read_at bptr body_len;
    x ← env st_x;
    if rx_entered_header_filter x && negb (rx_entered_body_filter x)
    then override_response args0 rptr reason_len body
    else
      reason ← read_at rptr reason_len;
      rc ← on_env (ngx_http_wasm_stash_local_response args0 reason
                     (Some ((fun e => (Pairs.key e, Pairs.value e)) <$> headers)) body);
      match rc with
      | NGX_OK =>
          step ← env st_step;
          (if negb (bool_decide (step = ProxyWasm.STEP_DISPATCH_RESPONSE))
           then on_env set_next_action_done else mret tt);;
          n ← on_env dispatch_ops_total;
          (if negb (n =? 0) then on_env dispatch_ops_cancel else mret tt);;
          mret ngx_proxy_wasm_result_ok
      | NGX_ERROR => mret ngx_proxy_wasm_result_err
      | NGX_DECLINED => mret ngx_proxy_wasm_result_badarg
      | NGX_BUSY => ngx_proxy_wasm_result_trap ngx_vsnprintf already_stashed NGX_WAVM_BAD_USAGE
      | NGX_ABORT => ngx_proxy_wasm_result_trap ngx_vsnprintf response_already_sent NGX_WAVM_BAD_USAGE
      | _ => slift (ngx_wa_assert debug false);; mret (NGX_WAVM_NYI, None)
      end))).
End guests.

(** ** What a stash does *)

(** [s] with another pool, local response, flags, bodies and store. *)
Definition at_ (p : P) (l : local_resp_t) (f : flag -> bool) (x : ngx_http_wasm_req_ctx_t) (m : store)
    (s : state P W) : state P W := with_ctx l f x m (set_r (st_r s) p s).

Lemma at_id s : s = at_ (st_pool s) (st_local s) (st_flags s) (st_x s) (st_store s) s.
Proof. by destruct s. Qed.

Lemma pnalloc_at p l f x m s : exists ok p', pnalloc (at_ p l f x m s) = Ret (ok, at_ p' l f x m s).
Proof.
  unfold pnalloc, on_headers, Headers.pnalloc. cbn. destruct (Headers.ngx_pnalloc p) as [ok p']. cbn. eauto.
Qed.

Definition live_reason (l : local_resp_t) : Prop :=
  forall r, local_resp_reason_data l = Some r -> rn_freed r = false.

(** No response is kept. *)
Definition nothing_kept (l : local_resp_t) (f : flag -> bool) : Prop :=
  local_resp_status l = 0 /\ local_resp_reason_len l = 0 /\ local_resp_body l = None /\
  local_resp_body_len l = -1 /\ f resp_content_chosen = false.

Lemma discard_at p l f x m s :
  live_reason l ->
  exists l' f' m', ngx_http_wasm_discard_local_response (at_ p l f x m s) = Ret (tt, at_ p l' f' x m' s) /\
    nothing_kept l' f' /\ forall g, g <> resp_content_chosen -> f' g = f g.
Proof.
  intros Hl. unfold ngx_http_wasm_discard_local_response.
  do 3 erewrite SM_bind_Ret by reflexivity. cbn [st_local at_ with_ctx set_flag modify_local set_local].
  set (f' := fun g => if decide (g = resp_content_chosen) then false else f g).
  assert (f' resp_content_chosen = false) as Hc by (unfold f'; by rewrite decide_True).
  assert (forall g, g <> resp_content_chosen -> f' g = f g) as Hf by (intros g Hg; unfold f'; by rewrite decide_False).
  set (l0 := local_body (local_resp_body l) (-1) _).
  assert (exists r, (match local_resp_reason_data l0 with
     | Some r => r ← slift (pfree_reason r); modify_local (local_reason 0 (Some r))
     | None => mret tt
     end) (at_ p l0 f' x m s) = Ret (tt, at_ p (local_reason 0 r l0) f' x m s)) as [r Er].
  { unfold l0. cbn. destruct (local_resp_reason_data l) as [r|] eqn:Ed; [|by exists None].
    unfold pfree_reason. rewrite (Hl r Ed). destruct (_ <? _); eexists (Some _); reflexivity. }
  rewrite (SM_bind_Ret _ _ _ _ _ Er). unfold l0 at 1. cbn [local_resp_body local_body].
  destruct (local_resp_body l) as [cl|] eqn:Eb.
  - eexists _, f', _. split; [reflexivity|]. by split_and!.
  - eexists _, f', m. split; [reflexivity|]. split; [|done]. split_and!; done.
Qed.

Lemma fail_at p l f x m s :
  live_reason l ->
  exists l' f' m', fail (at_ p l f x m s) = Ret (NGX_ERROR, at_ p l' f' x m' s) /\
    nothing_kept l' f' /\ forall g, g <> resp_content_chosen -> f' g = f g.
Proof.
  intros Hl. destruct (discard_at p l f x m s Hl) as (l' & f' & m' & E & Hn & Hf).
  exists l', f', m'. unfold fail. by rewrite (SM_bind_Ret _ _ _ _ _ E).
Qed.

Lemma copy_headers_at hs : forall p l f x m s,
  exists ok p', copy_headers hs (at_ p l f x m s) = Ret (ok, at_ p' l f x m s).
Proof.
  induction hs as [|h hs IH]; intros p l f x m s; cbn [copy_headers]; [by eexists _, _|].
  destruct (pnalloc_at p l f x m s) as (ok & p1 & E1). rewrite (SM_bind_Ret _ _ _ _ _ E1).
  destruct ok; cbn [negb]; [|by eexists _, _].
  destruct (pnalloc_at p1 l f x m s) as (ok & p2 & E2). rewrite (SM_bind_Ret _ _ _ _ _ E2).
  destruct ok; cbn [negb]; [apply IH|by eexists _, _].
Qed.

Lemma stash_headers_at hs p l f x m s :
  exists ok p' l', stash_headers hs (at_ p l f x m s) = Ret (ok, at_ p' l' f x m s) /\
    (live_reason l -> live_reason l') /\
    (ok = true -> l' = local_headers (Some (default [] hs)) l).
Proof.
  unfold stash_headers. destruct (pnalloc_at p l f x m s) as (ok & p1 & E1). rewrite (SM_bind_Ret _ _ _ _ _ E1).
  destruct ok; cbn [negb]; [|by eexists _, _, _].
  erewrite SM_bind_Ret by reflexivity. fold (at_ p1 (local_headers (Some []) l) f x m s).
  change (set_local _ _) with (at_ p1 (local_headers (Some []) l) f x m s).
  destruct (copy_headers_at (default [] hs) p1 (local_headers (Some []) l) f x m s) as (ok & p2 & E2).
  rewrite (SM_bind_Ret _ _ _ _ _ E2). destruct ok; erewrite SM_bind_Ret by reflexivity.
  - eexists _, _, _. split; [reflexivity|]. by split.
  - eexists _, _, _. split; [reflexivity|]. by split.
Qed.

(** The buffer of a body that is kept. *)
Definition holds_body (m : store) (cl : addr) (body : bytes) (main : bool) : Prop :=
  s_links m !! cl = Some {| cl_buf := temp_buf (body ++ [x0a]) main (negb main); cl_next := None |}.

Lemma two_pallocs (m : store) :
  exists ok p, (ok ← palloc; if (ok : bool) then palloc else mret false) m
    = Ret (ok, {| s_links := s_links m; s_pool := p |}).
Proof.
  destruct m as [k [|[] [|[] pool]]]; unfold palloc, mbind, SM_bind; cbn; eauto.
Qed.

Lemma on_store_at {A} (c : SM store A) a m' p l f x m s :
  c m = Ret (a, m') -> on_store c (at_ p l f x m s) = Ret (a, at_ p l f x m' s).
Proof. intros E. unfold on_store. cbn [st_store at_ with_ctx]. by rewrite E. Qed.

Lemma set_x_at y p l f x m s : modify (set_x y) (at_ p l f x m s) = Ret (tt, at_ p l f y m s).
Proof. reflexivity. Qed.

Lemma modify_local_at g p l f x m s : modify_local g (at_ p l f x m s) = Ret (tt, at_ p (g l) f x m s).
Proof. reflexivity. Qed.

Lemma get_at {A} (g : state P W -> A) s : get g s = Ret (g s, s).
Proof. reflexivity. Qed.

Lemma stash_body_at body fs p l f x m s :
  seg (s_links m) (rx_free_bufs x) fs None -> NoDup fs ->
  exists ok l' x' m', stash_body body (at_ p l f x m s) = Ret (ok, at_ p l' f x' m' s) /\
    (exists free, x' = Bodies.set_free_bufs free x) /\ (live_reason l -> live_reason l') /\
    (ok = true -> exists cl, l' = local_body (Some cl) (zlen body + 1) l /\ holds_body m' cl body (st_main s)).
Proof.
  intros Hs Hnd. unfold stash_body. destruct (two_pallocs m) as (ok & pool & E0).
  rewrite (SM_bind_Ret _ _ _ _ _ (on_store_at _ _ _ p l f x m s E0)).
  assert (exists free, x = Bodies.set_free_bufs free x) as Hx by (exists (rx_free_bufs x); by destruct x).
  destruct ok; cbn [negb]; [|by eexists _, l, x, _].
  set (m0 := {| s_links := s_links m; s_pool := pool |}).
  rewrite !(SM_bind_Ret _ _ _ _ _ (get_at _ _)). cbv beta.
  change (st_main (at_ p l f x m0 s)) with (st_main s). change (st_x (at_ p l f x m0 s)) with x.
  destruct (get_free_buf_ok (rx_free_bufs x) fs (length (body ++ [x0a])) buf_tag m0) as
    (r & free & fs' & m1 & pool' & E1 & _ & _ & Hr); [done|done|].
  rewrite (SM_bind_Ret _ _ _ _ _ (on_store_at _ _ _ p l f x m0 s E1)). cbv beta iota.
  rewrite (SM_bind_Ret _ _ _ _ _ (set_x_at _ p l f x _ s)).
  destruct r as [cl|]; [|eexists _, l, _, _; split_and!; [reflexivity|by exists free|done..]].
  destruct (Hr cl eq_refl) as (_ & _ & (b & Hcl & _) & _).
  set (link := {| cl_buf := temp_buf (body ++ [x0a]) (st_main s) (negb (st_main s)); cl_next := None |}).
  assert (write_link cl (fun _ => link) {| s_links := m1; s_pool := pool' |} =
          Ret (tt, {| s_links := <[cl := link]> m1; s_pool := pool' |})) as Ew.
  { unfold write_link. cbn [s_links s_pool]. by rewrite Hcl. }
  rewrite (SM_bind_Ret _ _ _ _ _ (on_store_at _ _ _ p l f _ _ s Ew)), (SM_bind_Ret _ _ _ _ _ (modify_local_at _ _ _ _ _ _ _)).
  eexists _, _, _, _. split_and!; [reflexivity|by exists free|done|]. intros _. exists cl. split.
  - by rewrite zlen_app.
  - unfold holds_body. cbn [s_links]. apply lookup_insert_eq.
Qed.

(** The response is kept: the status, "ddd reason", the headers, and the body with a line feed
    in a buffer that ends the response (of a subrequest, its chain). *)
Definition kept_response (status : Z) (reason : bytes) (headers : option (list (bytes * bytes))) (body : bytes)
    (main : bool) (l l' : local_resp_t) (m : store) : Prop :=
  local_resp_status l' = status /\
  (if zlen reason =? 0 then local_resp_reason_len l' = local_resp_reason_len l
   else local_resp_reason_len l' = zlen (reason_text status reason) /\
        local_resp_reason_data l' = Some {| rn_text := reason_text status reason; rn_freed := false |}) /\
  local_resp_headers l' = Some (default [] headers) /\
  if zlen body =? 0
  then local_resp_body l' = local_resp_body l /\ local_resp_body_len l' = local_resp_body_len l
  else local_resp_body_len l' = zlen body + 1 /\
       exists cl, local_resp_body l' = Some cl /\ holds_body m cl body main.

Lemma stash_reason_at status reason p l f x m s :
  exists ok p' l', stash_reason status reason (at_ p l f x m s) = Ret (ok, at_ p' l' f x m s) /\
    (live_reason l -> live_reason l') /\
    (ok = true -> l' = if zlen reason =? 0 then l
                       else local_reason (zlen (reason_text status reason))
                              (Some {| rn_text := reason_text status reason; rn_freed := false |}) l).
Proof.
  unfold stash_reason. destruct (zlen reason =? 0); [by eexists _, _, _|].
  destruct (pnalloc_at p l f x m s) as (ok & p1 & E1). rewrite (SM_bind_Ret _ _ _ _ _ E1).
  destruct ok; cbn [negb]; [|by eexists _, _, _].
  eexists _, _, _. split; [reflexivity|]. split; [|done]. by intros _ r [= <-].
Qed.

Lemma stash_parts_at status reason headers body fs p l f x m s :
  live_reason l -> seg (s_links m) (rx_free_bufs x) fs None -> NoDup fs ->
  exists rc p' l' f' x' m',
    stash_parts status reason headers body (at_ p l f x m s) = Ret (rc, at_ p' l' f' x' m' s) /\
    (forall g, g <> resp_content_chosen -> f' g = f g) /\
    (exists free, x' = Bodies.set_free_bufs free x) /\
    (rc = NGX_OK /\ f' resp_content_chosen = true /\ kept_response status reason headers body (st_main s) l l' m' \/
     rc = NGX_ERROR /\ nothing_kept l' f').
Proof.
  intros Hl Hs Hnd. unfold stash_parts.
  assert (exists free, x = Bodies.set_free_bufs free x) as Hx by (exists (rx_free_bufs x); by destruct x).
  erewrite SM_bind_Ret by reflexivity.
  change (set_local _ _) with (at_ p (local_status status l) f x m s). set (l0 := local_status status l).
  destruct (stash_reason_at status reason p l0 f x m s) as (ok & p1 & l1 & E1 & Hl1 & Hr).
  specialize (Hl1 Hl). rewrite (SM_bind_Ret _ _ _ _ _ E1).
  destruct ok; cbn [negb].
  2:{ destruct (fail_at p1 l1 f x m s Hl1) as (l' & f' & m' & E & Hn & Hf).
      exists NGX_ERROR, p1, l', f', x, m'. split_and!; auto. }
  destruct (stash_headers_at headers p1 l1 f x m s) as (ok & p2 & l2 & E2 & Hl2 & Hh).
  specialize (Hl2 Hl1). rewrite (SM_bind_Ret _ _ _ _ _ E2).
  destruct ok; cbn [negb].
  2:{ destruct (fail_at p2 l2 f x m s Hl2) as (l' & f' & m' & E & Hn & Hf).
      exists NGX_ERROR, p2, l', f', x, m'. split_and!; auto. }
  specialize (Hr eq_refl). specialize (Hh eq_refl).
  destruct (zlen body =? 0) eqn:Eb.
  - erewrite SM_bind_Ret by reflexivity. cbn [negb].
    eexists NGX_OK, p2, l2, _, x, m. split; [reflexivity|]. split; [|split; [done|left]].
    + intros g Hg. cbn. by rewrite decide_False.
    + split; [done|]. split; [by rewrite decide_True|].
      unfold kept_response. rewrite Eb. subst l2 l1. by destruct (zlen reason =? 0).
  - destruct (stash_body_at body fs p2 l2 f x m s Hs Hnd) as (ok & l3 & x3 & m3 & E3 & Hx3 & Hl3 & Hb).
    rewrite (SM_bind_Ret _ _ _ _ _ E3). destruct ok; cbn [negb].
    2:{ destruct (fail_at p2 l3 f x3 m3 s (Hl3 Hl2)) as (l' & f' & m' & E & Hn & Hf).
        exists NGX_ERROR, p2, l', f', x3, m'. split_and!; auto. }
    destruct (Hb eq_refl) as (cl & -> & Hc).
    eexists NGX_OK, p2, _, _, x3, m3. split; [reflexivity|]. split; [|split; [done|left]].
    + intros g Hg. cbn. by rewrite decide_False.
    + split; [done|]. split; [by rewrite decide_True|].
      unfold kept_response. rewrite Eb. subst l2 l1. destruct (zlen reason =? 0); split_and!; try done; by exists cl.
Qed.

(** What a stash answers and changes. *)
Lemma stash_spec status reason headers body fs s :
  live_reason (st_local s) -> seg (s_links (st_store s)) (rx_free_bufs (st_x s)) fs None -> NoDup fs ->
  exists rc p l f x m,
    ngx_http_wasm_stash_local_response status reason headers body s = Ret (rc, at_ p l f x m s) /\
    (forall g, g <> resp_content_chosen -> f g = st_flags s g) /\
    (exists free, x = Bodies.set_free_bufs free (st_x s)) /\
    let entered := rx_entered_header_filter (st_x s) in
    let there_is := negb (local_resp_status (st_local s) =? 0) in
    let valid := (100 <=? status) && (status <=? 999) in
    match rc with
    | NGX_ABORT => entered = true /\ at_ p l f x m s = s
    | NGX_BUSY => entered = false /\ there_is = true /\ at_ p l f x m s = s
    | NGX_DECLINED => entered = false /\ there_is = false /\ valid = false /\ at_ p l f x m s = s
    | NGX_OK => entered = false /\ there_is = false /\ valid = true /\ f resp_content_chosen = true /\
                kept_response status reason headers body (st_main s) (st_local s) l m
    | NGX_ERROR => entered = false /\ there_is = false /\ valid = true /\ nothing_kept l f
    | _ => False
    end.
Proof.
  intros Hl Hs Hnd. unfold ngx_http_wasm_stash_local_response.
  assert (forall y, Bodies.set_free_bufs (rx_free_bufs y) y = y) as Hid by (by intros []).
  assert (forall rc, exists p l f x m,
    (mret rc : M ngx_rc) s = Ret (rc, at_ p l f x m s) /\ (forall g, g <> resp_content_chosen -> f g = st_flags s g) /\
    (exists free, x = Bodies.set_free_bufs free (st_x s)) /\ at_ p l f x m s = s) as Hnone.
  { intros rc. exists (st_pool s), (st_local s), (st_flags s), (st_x s), (st_store s). rewrite <- at_id.
    split_and!; try done. exists (rx_free_bufs (st_x s)). by rewrite Hid. }
  do 2 erewrite SM_bind_Ret by reflexivity.
  destruct (rx_entered_header_filter (st_x s)).
  { destruct (Hnone NGX_ABORT) as (p & l & f & x & m & E & Hf & Hx & Es).
    exists NGX_ABORT, p, l, f, x, m. by split_and!. }
  destruct (local_resp_status (st_local s) =? 0) eqn:Est; cbn [negb].
  2:{ destruct (Hnone NGX_BUSY) as (p & l & f & x & m & E & Hf & Hx & Es).
      exists NGX_BUSY, p, l, f, x, m. by split_and!. }
  replace ((status <? 100) || (999 <? status)) with (negb ((100 <=? status) && (status <=? 999)))
    by (by rewrite negb_andb, <- !Z.ltb_antisym).
  destruct ((100 <=? status) && (status <=? 999)); cbn [negb].
  2:{ destruct (Hnone NGX_DECLINED) as (p & l & f & x & m & E & Hf & Hx & Es).
      exists NGX_DECLINED, p, l, f, x, m. by split_and!. }
  destruct (stash_parts_at status reason headers body fs (st_pool s) (st_local s) (st_flags s) (st_x s) (st_store s) s
    Hl Hs Hnd) as (rc & p & l & f & x & m & E & Hf & Hx & Hrc). rewrite <- at_id in E.
  exists rc, p, l, f, x, m. split; [done|]. split; [done|]. split; [done|].
  by destruct Hrc as [(-> & Hc & Hk)|[-> Hn]].
Qed.

(** C5. A filter that answers a request (with a chain of free buffers, the reason kept from before not
    freed): when the response has reached the header filter, when there is a response already, or
    with a status that has not three digits, nothing happens and the code tells; otherwise the
    response is kept as it was given, or the call fails and no response is kept, so that the one
    of nginx goes on. Only the response that is kept, the flag that there is one, the free buffers
    and the pools change. *)
Theorem stash_outcome status reason headers body fs s :
  live_reason (st_local s) -> seg (s_links (st_store s)) (rx_free_bufs (st_x s)) fs None -> NoDup fs ->
  exists rc p l f x m,
    ngx_http_wasm_stash_local_response status reason headers body s = Ret (rc, at_ p l f x m s) /\
    (forall g, g <> resp_content_chosen -> f g = st_flags s g) /\
    (exists free, x = Bodies.set_free_bufs free (st_x s)) /\
    let entered := rx_entered_header_filter (st_x s) in
    let there_is := negb (local_resp_status (st_local s) =? 0) in
    let valid := (100 <=? status) && (status <=? 999) in
    match rc with
    | NGX_ABORT => entered = true /\ at_ p l f x m s = s
    | NGX_BUSY => entered = false /\ there_is = true /\ at_ p l f x m s = s
    | NGX_DECLINED => entered = false /\ there_is = false /\ valid = false /\ at_ p l f x m s = s
    | NGX_OK => entered = false /\ there_is = false /\ valid = true /\ f resp_content_chosen = true /\
                kept_response status reason headers body (st_main s) (st_local s) l m
    | NGX_ERROR => entered = false /\ there_is = false /\ valid = true /\ nothing_kept l f
    | _ => False
    end.
Proof. apply stash_spec. Qed.
End local_response.

(** ** What is sent *)

(** nginx reads the request body and finds the content type without touching the response. *)
Definition quiet {P W} (s s' : state P W) : Prop :=
  st_local s' = st_local s /\ st_flags s' = st_flags s /\ st_store s' = st_store s /\ st_sent s' = st_sent s /\
  st_rctx s' = st_rctx s.

(** The status of the response stays, or becomes that of an upgrade. *)
Definition status_stays (r r' : Headers.request) : Prop :=
  Headers.ho_status (Headers.rq_out r') = Headers.ho_status (Headers.rq_out r) \/
  Headers.ho_status (Headers.rq_out r') = Headers.NGX_HTTP_SWITCHING_PROTOCOLS.

(** What is kept while the headers of a response are set. *)
Definition setting {P W} (s s' : state P W) : Prop :=
  quiet s s' /\ st_status_line s' = st_status_line s /\ status_stays (st_r s) (st_r s').

(** What nginx is asked to send while it sends the header or a chain comes after that; it clears
    no flag of those which say that a response was sent or has no body, and leaves the link of
    the local response as it is. *)
Definition sends_on {P W} (s s' : state P W) : Prop :=
  st_sent s `prefix_of` st_sent s' /\
  (st_flags s local_resp_flushed = true -> st_flags s' local_resp_flushed = true) /\
  (st_header_only s = true -> st_header_only s' = true) /\
  st_rctx s' = st_rctx s /\
  forall cl, local_resp_body (st_local s) = Some cl -> s_links (st_store s') !! cl = s_links (st_store s) !! cl.

#[export] Instance quiet_preorder {P W} : PreOrder (@quiet P W).
Proof.
  split; [intros s; by split_and!|]. intros s1 s2 s3 H12 H23. unfold quiet in *. deex. split_and!; congruence.
Qed.

#[export] Instance status_stays_preorder : PreOrder status_stays.
Proof.
  split; [by left|]. intros r1 r2 r3 H12 H23. unfold status_stays in *. destruct H23 as [->|]; [done|by right].
Qed.

#[export] Instance setting_preorder {P W} : PreOrder (@setting P W).
Proof.
  split; [by intros s|]. intros s1 s2 s3 (H1 & L1 & R1) (H2 & L2 & R2). unfold setting.
  split_and!; [by trans s2|congruence|by trans (st_r s2)].
Qed.

Class HttpOutLaws (P W : Type) (O : HttpOut P W) : Prop := {
  discard_body_quiet : preserves (@quiet P W) ngx_http_discard_request_body;
  content_type_setting : preserves (@setting P W) ngx_http_set_content_type;
  send_header_on : preserves (@sends_on P W) ngx_http_send_header;
  send_last_on : preserves (@sends_on P W) ngx_http_send_special_last;
  output_on cl : preserves (@sends_on P W) (ngx_http_output_filter cl);
}.

(** *** The status while headers are set *)

Section status.
Context {P : Type} `{Headers.NgxPool P} `{Headers.NgxStrings}.
Context (debug : bool) (fresh : Z -> bytes).
Import Headers.

Definition on_request (s s' : Headers.request * P) : Prop := status_stays s.1 s'.1.

#[local] Instance on_request_preorder : PreOrder on_request.
Proof. split; [by intros s; unfold on_request|]. intros a b c. unfold on_request. by etrans. Qed.

Lemma stays_rget {A} (f : request -> A) : preserves on_request (rget f).
Proof. apply preserves_gets, _. Qed.

Lemma stays_rput (f : request -> request) : (forall r, status_stays r (f r)) -> preserves on_request (rput f).
Proof. intros Hf s a s' [= _ <-]. apply Hf. Qed.

Lemma stays_with_headers htype f r : status_stays r (with_headers htype f r).
Proof. by left; destruct htype. Qed.

Lemma stays_pnalloc : preserves on_request pnalloc.
Proof. intros s a s'. unfold pnalloc. destruct (ngx_pnalloc _). by intros [= _ <-]; left. Qed.

Lemma stays_push htype e : preserves on_request (push_elt htype e).
Proof.
  intros [r p] a s'. unfold push_elt. destruct (ngx_list_push _ _ _) as [[l|] p']; intros [= _ <-];
    [apply stays_with_headers|by left].
Qed.

#[local] Hint Resolve stays_rget stays_pnalloc stays_push : preserve.
#[local] Hint Extern 1 (preserves _ (rput _)) =>
  apply stays_rput; intros ?; first [apply stays_with_headers | by left | by right] : preserve.

Lemma stays_write htype i f : preserves on_request (write_elt htype i f).
Proof. unfold write_elt, read_elt. preserves_steps. Qed.
#[local] Hint Resolve stays_write : preserve.

Lemma stays_helper hv : preserves on_request (ngx_http_wasm_set_header_helper debug hv).
Proof. unfold ngx_http_wasm_set_header_helper, new_header. preserves_steps. Qed.
#[local] Hint Resolve stays_helper : preserve.

Lemma stays_builtin hv : preserves on_request (ngx_http_wasm_set_builtin_header_handler debug hv).
Proof. unfold ngx_http_wasm_set_builtin_header_handler, read_field, write_field. preserves_steps. Qed.

Lemma stays_multi hv : preserves on_request (multi_header_append debug hv).
Proof. unfold multi_header_append, read_field, write_field. preserves_steps. Qed.
#[local] Hint Resolve stays_builtin stays_multi : preserve.

Lemma stays_clear f : preserves on_request (clear_field f).
Proof. unfold clear_field, read_field, write_field. preserves_steps. Qed.
#[local] Hint Resolve stays_clear : preserve.

Lemma stays_call_handler hv : preserves on_request (call_handler debug hv).
Proof.
  unfold call_handler. destruct (hh_handler (hv_handler hv));
    [> unfold ngx_http_wasm_set_header_handler | | unfold ngx_http_wasm_set_host_header_handler
     | unfold ngx_http_wasm_set_connection_header_handler_req | unfold ngx_http_wasm_set_ua_header_handler
     | unfold ngx_http_wasm_set_cl_header_handler | unfold ngx_http_wasm_set_builtin_multi_header_handler_req
     | unfold ngx_http_set_location_header_handler | unfold ngx_http_set_last_modified_header_handler
     | unfold ngx_http_set_content_length_header_handler | unfold ngx_http_set_content_type_header_handler
     | | unfold ngx_http_wasm_set_connection_header_handler_resp ];
    unfold hv_str, str_data, rassert, read_elt, read_field, write_field; cbv zeta; preserves_steps.
Qed.
#[local] Hint Resolve stays_call_handler : preserve.

Lemma stays_set_header key v mode :
  preserves on_request (ngx_http_wasm_set_resp_header debug fresh key v mode).
Proof.
  unfold ngx_http_wasm_set_resp_header, ngx_http_wasm_set_header, copy_escaped, rassert. preserves_steps.
Qed.
#[local] Hint Resolve stays_set_header : preserve.

Lemma stays_content_length n : preserves on_request (ngx_http_wasm_set_resp_content_length debug fresh n).
Proof. unfold ngx_http_wasm_set_resp_content_length. preserves_steps. Qed.
End status.

(** *** The flush *)

Section sending.
Context {P W : Type} `{Headers.NgxPool P} `{Headers.NgxStrings} `{HttpOutLaws P W}.
Context (debug : bool) (fresh : Z -> bytes).
Abbreviation M := (SM (state P W)).

Lemma setting_on_headers {A} (m : SM (Headers.request * P) A) :
  preserves on_request m -> preserves (@setting P W) (on_headers m).
Proof.
  intros Hm s a s'. unfold on_headers. destruct (m _) as [[b [r p]]|] eqn:E; [|done]. intros [= _ <-].
  split; [by split_and!|]. split; [done|]. apply (Hm _ _ _ E).
Qed.

Lemma setting_set_headers l : preserves (@setting P W) (set_headers debug fresh l).
Proof.
  pose proof (fun k v m => setting_on_headers _ (stays_set_header debug fresh k v m)) as Hset.
  induction l as [|[k v] l IH]; cbn [set_headers]; preserves_steps.
Qed.

(** The line of a response that is kept. *)
Definition line_kept (l : local_resp_t) (line : option line_data * Z) : Prop :=
  line.2 = local_resp_reason_len l /\
  forall r, local_resp_reason_data l = Some r -> line.1 = Some (LINE_HOST (rn_text r)).

(** The status of a response, which only an upgrade changes. *)
Definition status_kept (l : local_resp_t) (status : Z) : Prop :=
  status = local_resp_status l \/ status = Headers.NGX_HTTP_SWITCHING_PROTOCOLS.

Lemma prepare_keeps l (s s1 : state P W) rc :
  prepare_response debug fresh l s = Ret (rc, s1) ->
  quiet s s1 /\ line_kept l (st_status_line s1) /\ status_kept l (Headers.ho_status (Headers.rq_out (st_r s1))).
Proof.
  unfold prepare_response. intros (line & s2 & E1 & E)%SM_bind_Ret_inv.
  assert (s2 = s /\ forall r, local_resp_reason_data l = Some r -> line = Some (LINE_HOST (rn_text r))) as [-> Hline].
  { unfold slift, line_of in E1. destruct (_ =? 0).
    - injection E1 as <- <-. split; [done|]. by intros r ->.
    - destruct (local_resp_reason_data l) as [r|]; [destruct (rn_freed r)|]; try done;
        injection E1 as <- <-; split; try done. by intros r' [= ->]. }
  revert E. intros ([] & s3 & E2 & E)%SM_bind_Ret_inv.
  assert (quiet s s3 /\ line_kept l (st_status_line s3) /\
          Headers.ho_status (Headers.rq_out (st_r s3)) = local_resp_status l) as (Hq & Hl & Hst).
  { injection E2 as <-. split; [by split_and!|]. split; [|done]. split; [done|].
    intros r Hr. cbn. by rewrite (Hline r Hr). }
  enough (setting s3 s1) as (Hq' & Hl' & Hst').
  { split; [by trans s3|]. unfold status_kept. rewrite Hl', <- Hst. by split. }
  refine ((_ : preserves (@setting P W) _) s3 rc s1 E).
  pose proof (setting_on_headers _ (stays_content_length debug fresh (local_resp_body_len l))).
  pose proof (setting_set_headers (default [] (local_resp_headers l))). pose proof content_type_setting.
  preserves_steps.
Qed.

(** What was asked for after the header. *)
Definition body_sent (m : store) (cin : option addr) (after : list sent) : Prop :=
  match cin with
  | None => SENT_LAST ∈ after
  | Some cl => exists lk, s_links m !! cl = Some lk /\ SENT_BODY (cl_buf lk) ∈ after
  end.

Lemma sent_done_keeps rc (s s' : state P W) rc' :
  sent_done debug rc s = Ret (rc', s') ->
  rc' = rc /\ st_sent s' = st_sent s /\ st_header_only s' = st_header_only s /\
  st_flags s' local_resp_flushed = st_flags s local_resp_flushed.
Proof.
  unfold sent_done. intros ([] & s1 & E1 & E)%SM_bind_Ret_inv.
  assert (st_sent s1 = st_sent s /\ st_header_only s1 = st_header_only s /\ st_flags s1 = st_flags s)
    as (Hs & Ho & Hf).
  { revert E1. set (m := (_ ;; _) : M unit).
    assert (forall s' : state P W, m s = Ret (tt, s') ->
      st_sent s' = st_sent s /\ st_header_only s' = st_header_only s /\ st_flags s' = st_flags s) as Hm.
    { intros s2. unfold m. intros (s0 & s3 & E2 & Ek)%SM_bind_Ret_inv. injection E2 as <- <-.
      revert Ek. intros ([] & s3 & E2 & Ek)%SM_bind_Ret_inv. unfold sassert, slift in Ek.
      destruct (ngx_wa_assert debug _); [|done]. injection Ek as _ <-.
      destruct (_ && _); injection E2 as <-; by split_and!. }
    destruct rc; try apply Hm; by intros [= <-]. }
  injection E as <- <-. by split_and!; [..|cbn; rewrite Hf].
Qed.

Lemma send_in_sends cin (s s' : state P W) rc :
  send_in cin s = Ret (rc, s') ->
  exists x s1, s1 = add_sent x s /\ sends_on s1 s' /\ body_sent (st_store s) cin [x].
Proof.
  destruct cin as [cl|]; cbn [send_in].
  - unfold output_filter, on_store. intros (lk & s1 & E1 & E)%SM_bind_Ret_inv.
    unfold read_link in E1. destruct (s_links (st_store s) !! cl) as [lk0|] eqn:El; [|done].
    injection E1 as <- <-. revert E. intros ([] & s1 & E1 & E)%SM_bind_Ret_inv. injection E1 as <-.
    apply output_on in E.
    eexists _, _. split_and!; [reflexivity|done|]. exists lk0. split; [done|by left].
  - unfold send_special_last. intros (rc1 & s2 & E1 & E)%SM_bind_Ret_inv. injection E as _ <-.
    revert E1. intros ([] & s1 & E1 & E)%SM_bind_Ret_inv. injection E1 as <-. apply send_last_on in E.
    eexists _, _. split_and!; [reflexivity|done|]. by left.
Qed.

Lemma assert_same (c : bool) (s s' : state P W) u : sassert debug c s = Ret (u, s') -> s' = s.
Proof. unfold sassert, slift. destruct (ngx_wa_assert _ _); [|done]. by intros [= _ <-]. Qed.

(** The status nginx is given. *)
Definition status_sent (r : Headers.request) : Z :=
  let status := Headers.ho_status (Headers.rq_out r) in if status =? 0 then NGX_HTTP_OK else status.

(** A chain is sent after a header, unless the header could not be sent, ended the request or
    has no body. *)
Lemma send_chain_link_sends cin (s s' : state P W) rc :
  (forall cl, cin = Some cl -> local_resp_body (st_local s) = Some cl) ->
  ngx_http_wasm_send_chain_link debug cin s = Ret (rc, s') ->
  exists hs after,
    st_sent s' = st_sent s ++ SENT_HEADER (status_sent (st_r s)) (st_status_line s).1 (st_status_line s).2 hs :: after /\
    (st_flags s local_resp_flushed = true -> st_flags s' local_resp_flushed = true) /\
    (rc = NGX_ERROR \/ 0 < rc_number rc \/ st_header_only s' = true \/ body_sent (st_store s) cin after).
Proof.
  intros Hcin. unfold ngx_http_wasm_send_chain_link. intros (rx & s0 & E0 & E)%SM_bind_Ret_inv.
  injection E0 as <- <-. destruct (negb (is_ok (st_rctx s))); [done|].
  revert E. intros (r & s0 & E0 & E)%SM_bind_Ret_inv. injection E0 as <- <-.
  revert E. intros ([] & s1 & E1 & E)%SM_bind_Ret_inv.
  assert (quiet s s1 /\ st_status_line s1 = st_status_line s /\
          Headers.ho_status (Headers.rq_out (st_r s1)) = status_sent (st_r s)) as (Hq & Hline & Hst).
  { unfold status_sent. destruct (_ =? 0); injection E1 as <-; by split_and!. }
  destruct Hq as (Hl & Hf & Hm & Hs & _).
  revert E. unfold send_header. intros (rc2 & s2 & E2 & E)%SM_bind_Ret_inv.
  revert E2. intros ([] & s2' & E2' & E2)%SM_bind_Ret_inv. injection E2' as <-.
  apply send_header_on in E2. destruct E2 as ([l2 Hs2] & Hf2 & _ & _ & Hm2).
  rewrite <- Hline, <- Hst. cbn in Hs2, Hf2, Hm2. rewrite Hs in Hs2. rewrite <- app_assoc in Hs2. cbn [app] in Hs2.
  rewrite Hf in Hf2.
  set (h := SENT_HEADER _ _ _ _) in Hs2.
  enough (exists rc3 s3 after, sent_done debug rc3 s3 = Ret (rc, s') /\ st_sent s3 = st_sent s ++ h :: after /\
    (st_flags s local_resp_flushed = true -> st_flags s3 local_resp_flushed = true) /\
    (rc3 = NGX_ERROR \/ 0 < rc_number rc3 \/ st_header_only s3 = true \/ body_sent (st_store s) cin after))
    as (rc3 & s3 & after & Ed & Hs3 & Hf3 & Hend).
  { apply sent_done_keeps in Ed as (-> & E1' & E2' & E3').
    eexists _, after. rewrite E1', E2', E3'.
    split; [exact Hs3|by split]. }
  destruct (bool_decide (rc2 = NGX_ERROR)).
  { exists NGX_ERROR, s2, l2. split; [done|]. split; [done|]. split; [done|]. by left. }
  revert E. intros (only & s3 & E3 & E)%SM_bind_Ret_inv. injection E3 as <- <-.
  destruct ((0 <? rc_number rc2) || st_header_only s2) eqn:Eo.
  { exists rc2, s2, l2. split_and!; [done..|]. apply orb_true_iff in Eo as [Eo|Eo]; [|by eauto].
    apply Z.ltb_lt in Eo. eauto. }
  revert E. intros (sent & s3 & E3 & E)%SM_bind_Ret_inv. injection E3 as <- <-.
  revert E. intros (u & s3 & ->%assert_same & E)%SM_bind_Ret_inv.
  revert E. intros (u' & s3 & ->%assert_same & E)%SM_bind_Ret_inv.
  revert E. intros (rc3 & s3 & (x & s4 & -> & Hon & Hb)%send_in_sends & E)%SM_bind_Ret_inv.
  destruct Hon as ([l3 Hs3] & Hf3 & _). cbn in Hs3, Hf3. rewrite Hs2, <- !app_assoc in Hs3.
  exists rc3, s3, (l2 ++ x :: l3). split_and!; [done|exact Hs3|by auto|].
  right; right; right. unfold body_sent in Hb |- *. destruct cin as [cl|].
  - destruct Hb as (lk & Hlk & Hx). exists lk. rewrite Hm2, Hm in Hlk by (rewrite Hl; auto). split; [done|]. set_solver.
  - set_solver.
Qed.

(** What a flush answers and sends. *)
Lemma flush_spec (s s' : state P W) rc :
  ngx_http_wasm_flush_local_response debug fresh s = Ret (rc, s') ->
  let l := st_local s in
  if (local_resp_status l =? 0) || st_header_sent s then rc = NGX_DECLINED /\ s' = s
  else if st_flags s local_resp_flushed then rc = NGX_ABORT /\ s' = s
  else
    (rc = NGX_ERROR /\ st_sent s' = st_sent s /\ st_local s' = l /\ st_flags s' = st_flags s) \/
    exists status line hs after,
      st_sent s' = st_sent s ++ SENT_HEADER status line.1 line.2 hs :: after /\
      status_kept l status /\ line_kept l line /\ st_flags s' local_resp_flushed = true /\
      (rc = NGX_ERROR \/ 0 < rc_number rc \/ st_header_only s' = true \/
       body_sent (st_store s) (local_resp_body l) after).
Proof.
  unfold ngx_http_wasm_flush_local_response.
  intros (l0 & s0 & E0 & E)%SM_bind_Ret_inv. injection E0 as <- <-.
  revert E. intros (hd & s0 & E0 & E)%SM_bind_Ret_inv. injection E0 as <- <-. cbv zeta.
  destruct ((local_resp_status (st_local s) =? 0) || st_header_sent s) eqn:Enone; [by injection E as <- <-|].
  revert E. intros (fl & s0 & E0 & E)%SM_bind_Ret_inv. injection E0 as <- <-.
  destruct (st_flags s local_resp_flushed).
  { revert E. intros (u & s1 & ->%assert_same & E)%SM_bind_Ret_inv. by injection E as <- <-. }
  revert E. intros (rc1 & s1 & E1%discard_body_quiet & E)%SM_bind_Ret_inv.
  destruct (is_ok rc1); cbn [negb] in E;
    [|left; injection E as <- <-; unfold quiet in E1; deex; by split_and!].
  revert E. intros (l1 & s1' & E1' & E)%SM_bind_Ret_inv. injection E1' as <- <-.
  revert E. intros (rc2 & s2 & (Hq & Hline & Hst)%prepare_keeps & E)%SM_bind_Ret_inv.
  assert (quiet s s2) as (Hl & Hf & Hm & Hs & _) by (by trans s1).
  rewrite (proj1 E1) in Hline, Hst.
  destruct (is_ok rc2); cbn [negb] in E; [|by left; injection E as <- <-; split_and!].
  right. revert E. intros (u & s3 & E3 & E)%SM_bind_Ret_inv. injection E3 as _ <-.
  revert E. intros (u' & s3 & E3 & E)%SM_bind_Ret_inv. injection E3 as _ <-.
  revert E. intros (l3 & s3 & E3 & E)%SM_bind_Ret_inv. injection E3 as <- <-.
  apply send_chain_link_sends in E as (hs & after & Hs' & Hf' & Hend); [|done]. cbn in Hs', Hf', Hend.
  rewrite Hs in Hs'. rewrite Hl, Hm in Hend.
  eexists _, (st_status_line s2), hs, after. split; [exact Hs'|].
  split; [|split_and!; [done|by apply Hf'|done]].
  unfold status_sent. destruct (Z.eqb_spec (Headers.ho_status (Headers.rq_out (st_r s2))) 0) as [E0|]; [|done].
  apply orb_false_iff in Enone as [Enone _]. apply Z.eqb_neq in Enone.
  destruct Hst as [Hst|Hst]; rewrite Hst in E0; done.
Qed.

(** What a flush sends.  A response that is not kept, or whose header was sent, is not sent;
    neither is one a second time.  Otherwise the response stays as it was and nothing is asked
    for, with an error, or nginx is asked for a header with the status and the status line of
    the response (a header of the response may ask for an upgrade instead), then for its body,
    or for the end when there is none, unless nginx could not send the header, ended the request
    or sends no body for it; the response is never sent again. *)
Lemma flush_sends (s s' : state P W) rc :
  ngx_http_wasm_flush_local_response debug fresh s = Ret (rc, s') ->
  let l := st_local s in
  if (local_resp_status l =? 0) || st_header_sent s then rc = NGX_DECLINED /\ s' = s
  else if st_flags s local_resp_flushed then rc = NGX_ABORT /\ s' = s
  else
    (rc = NGX_ERROR /\ st_sent s' = st_sent s /\ st_local s' = l /\ st_flags s' = st_flags s) \/
    exists status line hs after,
      st_sent s' = st_sent s ++ SENT_HEADER status line.1 line.2 hs :: after /\
      status_kept l status /\ line_kept l line /\ st_flags s' local_resp_flushed = true /\
      (rc = NGX_ERROR \/ 0 < rc_number rc \/ st_header_only s' = true \/
       body_sent (st_store s) (local_resp_body l) after).
Proof. apply flush_spec. Qed.
End sending.
End LocalResponse.

(** ** A request whose filters answer it *)

Module LocalResponseRuns.
Import Host Chains BodyFilter HeadersRuns LocalResponse.

(** "%O" of a length. *)
Fixpoint print_decimal (digits : nat) (n : Z) : bytes :=
  match digits with
  | O => []
  | S digits => (if n <? 10 then [] else print_decimal digits (n / 10)) ++ [z2b (48 + n mod 10)]
  end.

#[export] Instance printing : Headers.NgxStrings | 0 := {
  Headers.ngx_hash_key_lc := Headers.ngx_hash_key_lc;
  Headers.ngx_strstrn := Headers.ngx_strstrn;
  Headers.ngx_strcasestrn := Headers.ngx_strcasestrn;
  Headers.ngx_atoof := Headers.ngx_atoof;
  Headers.ngx_http_parse_time := Headers.ngx_http_parse_time;
  Headers.ngx_sprintf_O := print_decimal 20;
}.

(** nginx sends the header once and everything it is asked for. *)
Definition header_sent {W} (s : state unit W) : state unit W :=
  {| st_r := st_r s; st_pool := st_pool s; st_err_status := st_err_status s;
     st_http_version_9 := st_http_version_9 s; st_status_line := st_status_line s; st_header_sent := true;
     st_header_only := st_header_only s; st_main := st_main s; st_bad_fd := st_bad_fd s; st_count := st_count s;
     st_rctx := st_rctx s; st_local := st_local s; st_flags := st_flags s; st_x := st_x s; st_store := st_store s;
     st_step := st_step s; st_sent := st_sent s; st_world := st_world s |}.

#[export] Instance sends : HttpOut unit unit := {
  ngx_http_discard_request_body := mret NGX_OK;
  ngx_http_set_content_type := mret NGX_OK;
  ngx_http_send_header := fun s => Ret (NGX_OK, header_sent s);
  ngx_http_send_special_last := mret NGX_OK;
  ngx_http_output_filter := fun _ => mret NGX_OK;
}.

Lemma sends_on_refl {W} (s s' : state unit W) : s' = s \/ s' = header_sent s -> sends_on s s'.
Proof. intros [->| ->]; by split. Qed.

#[export] Instance sends_laws : HttpOutLaws unit unit sends.
Proof.
  split; try apply preserves_ret, _.
  - intros s rc s' [= _ <-]. apply sends_on_refl. by right.
  - intros s rc s' [= _ <-]. apply sends_on_refl. by left.
  - intros cl s rc s' [= _ <-]. apply sends_on_refl. by left.
Qed.

Definition no_bodies : ngx_http_wasm_req_ctx_t :=
  {| rx_free_bufs := None; rx_resp_bufs := None; rx_resp_buf_last := None; rx_resp_bufs_count := 0;
     rx_resp_chunk := None; rx_resp_chunk_len := 0; rx_resp_chunk_eof := false; rx_resp_buffering := false;
     rx_resp_chunk_override := false; rx_entered_header_filter := false; rx_entered_body_filter := false;
     rx_buf_tag := 1; rx_data := true; rx_main := true |}.

(** A request without a response, and with this one. *)
Definition asked (l : local_resp_t) : state unit unit :=
  {| st_r := request_of [] (fun _ => None); st_pool := tt; st_err_status := 0; st_http_version_9 := false;
     st_status_line := (None, 0); st_header_sent := false; st_header_only := false; st_main := true;
     st_bad_fd := false; st_count := 1; st_rctx := NGX_OK; st_local := l; st_flags := fun _ => false;
     st_x := no_bodies; st_store := {| s_links := ∅; s_pool := replicate 8 true |};
     st_step := ProxyWasm.STEP_REQ_HEADERS;
     st_sent := []; st_world := tt |}.

Abbreviation stash := (ngx_http_wasm_stash_local_response (P := unit) (W := unit) 1 4096).
Abbreviation flush := (ngx_http_wasm_flush_local_response (P := unit) (W := unit) true zeros).
Abbreviation discard := (ngx_http_wasm_discard_local_response (P := unit) (W := unit) 4096).

Definition ran {A S} (o : outcome (A * S)) : option A := match o with Ret (a, _) => Some a | Fault _ => None end.
Definition left_by {A S} (o : outcome (A * S)) : option S := match o with Ret (_, s) => Some s | Fault _ => None end.

Definition teapot : bytes := ngx_string "I am a teapot".

(** A response, then a flush and another one: what was sent. *)
Definition answered : SM (state unit unit) (ngx_rc * ngx_rc * ngx_rc) :=
  rc1 ← stash 418 teapot None (ngx_string "tea");
  rc2 ← flush;
  rc3 ← flush;
  mret (rc1, rc2, rc3).

Example teapot_is_sent :
  ran (answered (asked no_local_resp)) = Some (NGX_OK, NGX_OK, NGX_DECLINED) /\
  (fun s => (fun x => match x with
                      | SENT_HEADER status line len _ => (status, line, len)
                      | SENT_BODY buf => (0, Some (LINE_HOST (b_mem buf)), zlen (b_mem buf))
                      | SENT_LAST => (-1, None, 0)
                      end) <$> st_sent s) <$> left_by (answered (asked no_local_resp))
  = Some [(418, Some (LINE_HOST (ngx_string "418 I am a teapot")), 17);
          (0, Some (LINE_HOST (ngx_string "tea" ++ [x0a])), 4)].
Proof. split; vm_compute; reflexivity. Qed.

(** A long reason is given back twice when the response is forgotten twice. *)
Definition forgotten_twice (reason : bytes) : SM (state unit unit) unit :=
  stash 200 reason None [];; discard;; discard.

Example long_reason_twice :
  ran (forgotten_twice (replicate 4092 x20) (asked no_local_resp)) = None /\
  ran (forgotten_twice teapot (asked no_local_resp)) = Some tt.
Proof. split; vm_compute; reflexivity. Qed.

(** A response without a body has a content length of zero, unless one was forgotten before. *)
Definition body_len_of (m : SM (state unit unit) ngx_rc) : option Z :=
  (fun s => local_resp_body_len (st_local s)) <$> left_by (m (asked no_local_resp)).

Example length_after_discard :
  body_len_of (stash 200 [] None []) = Some 0 /\
  body_len_of (stash 200 [] None [];; discard;; stash 200 [] None []) = Some (-1).
Proof. split; vm_compute; reflexivity. Qed.

(** A response that asks for an upgrade is sent with another status. *)
Example upgrade_changes_status :
  (fun s => (fun x => match x with SENT_HEADER status _ _ _ => status | _ => 0 end) <$> st_sent s) <$>
    left_by ((stash 200 [] (Some [(ngx_string "Connection", ngx_string "upgrade")]) [];; flush) (asked no_local_resp))
  = Some [101; 0].
Proof. vm_compute. reflexivity. Qed.

Lemma stash_outcome_witness :
  exists rc p l f x m,
    stash 418 teapot None (ngx_string "tea") (asked no_local_resp) = Ret (rc, at_ p l f x m (asked no_local_resp)).
Proof.
  destruct (stash_outcome (P := unit) (W := unit) 1 4096 418 teapot None (ngx_string "tea") []
              (asked no_local_resp)) as (rc & p & l & f & x & m & E & _).
  - discriminate.
  - constructor.
  - constructor.
  - by exists rc, p, l, f, x, m.
Defined.

Definition kept_response_of : local_resp_t := local_status 204 no_local_resp.

Lemma flush_runs : ran (flush (asked kept_response_of)) = Some NGX_OK.
Proof. vm_compute. reflexivity. Qed.

Lemma flush_sends_example :
  exists s' rc, flush (asked kept_response_of) = Ret (rc, s') /\
    ((rc = NGX_ERROR /\ st_sent s' = [] /\ st_local s' = kept_response_of /\ st_flags s' = (fun _ => false)) \/
     exists status line hs after, st_sent s' = SENT_HEADER status line.1 line.2 hs :: after /\
       status_kept kept_response_of status).
Proof.
  destruct (flush (asked kept_response_of)) as [[rc s']|] eqn:E;
    [|pose proof flush_runs as Hr; rewrite E in Hr; discriminate Hr].
  exists s', rc. split; [done|].
  destruct (flush_sends (P := unit) (W := unit) true zeros (asked kept_response_of) s' rc E) as
    [Hn|(status & line & hs & after & Hs & Hst & _)]; [by left|].
  right. exists status, line, hs, after. by split.
Defined.
End LocalResponseRuns.
