(* ===== verification/HttpConf.v ===== *)
(** * Configuration of requests

    The configuration of a location, its inheritance and its defaults
    (src/src/http/ngx_http_wasm_module.c), the one of the wasm block with its defaults
    (src/src/wasm/ngx_wasm_core_module.c), and the bits of a request context that are taken from
    both. *)
From S2P Require Import Prelude.
From stdpp Require Export list.
#[global] Open Scope Z_scope.

Module HttpConf.

(** [NGX_CONF_UNSET] and its unsigned variants. *)
Definition NGX_CONF_UNSET : Z := -1.

Definition NGX_WASM_DEFAULT_RESOLVER_TIMEOUT : Z := 30000.
Definition NGX_WASM_DEFAULT_SOCK_CONN_TIMEOUT : Z := 60000.
Definition NGX_WASM_DEFAULT_SOCK_SEND_TIMEOUT : Z := 60000.
Definition NGX_WASM_DEFAULT_SOCK_RECV_TIMEOUT : Z := 60000.
Definition NGX_WASM_DEFAULT_SOCK_BUF_SIZE : Z := 1024.
Definition NGX_PROXY_WASM_ISOLATION_NONE : Z := 1.

Record ngx_bufs_t := { bufs_num : Z; bufs_size : Z }.

Definition NGX_WASM_DEFAULT_SOCK_LARGE_BUFS : ngx_bufs_t := {| bufs_num := 4; bufs_size := 8192 |}.
Definition NGX_WASM_DEFAULT_RESP_BODY_BUFS : ngx_bufs_t := {| bufs_num := 4; bufs_size := 4096 |}.

(** A plan: which one it is, and whether it is populated. *)
Record plan_t := { pl_id : Z; pl_populated : bool }.

Record ngx_http_wasm_loc_conf_t := {
  isolation : Z;
  plan : option plan_t;
  connect_timeout : Z;
  send_timeout : Z;
  recv_timeout : Z;
  socket_buffer_size : Z;
  socket_buffer_reuse : Z;
  socket_large_buffers : ngx_bufs_t;
  resp_body_buffers : ngx_bufs_t;
  postpone_rewrite : Z;
  postpone_access : Z;
  pwm_req_headers_in_access : Z;
  pwm_lua_resolver : Z;
  pwm_log_dispatch_errors : Z;
}.

(** The wasm block, without its VM, its TLS settings, its resolvers and its access lists. *)
Record ngx_wasm_core_conf_t := {
  wcf_backtraces : Z;
  wcf_resolver_timeout : Z;
  wcf_connect_timeout : Z;
  wcf_send_timeout : Z;
  wcf_recv_timeout : Z;
  wcf_socket_buffer_size : Z;
  wcf_socket_large_buffers : ngx_bufs_t;
  wcf_socket_buffer_reuse : Z;
  wcf_pwm_lua_resolver : Z;
  wcf_pwm_log_dispatch_errors : Z;
}.

(** ** Creation and inheritance *)

(** [new_plan]: what [ngx_wasm_ops_plan_new] gives when there is a VM; [None]: no VM, [Some None]:
    no memory. *)
Definition ngx_http_wasm_create_loc_conf (conf_ok : bool) (new_plan : option (option plan_t))
    : option ngx_http_wasm_loc_conf_t :=
  if negb conf_ok then None
  else
    let conf p :=
      {| isolation := NGX_CONF_UNSET; plan := p; connect_timeout := NGX_CONF_UNSET;
         send_timeout := NGX_CONF_UNSET; recv_timeout := NGX_CONF_UNSET;
         socket_buffer_size := NGX_CONF_UNSET; socket_buffer_reuse := NGX_CONF_UNSET;
         socket_large_buffers := {| bufs_num := 0; bufs_size := 0 |};
         resp_body_buffers := {| bufs_num := 0; bufs_size := 0 |};
         postpone_rewrite := NGX_CONF_UNSET; postpone_access := NGX_CONF_UNSET;
         pwm_req_headers_in_access := NGX_CONF_UNSET; pwm_lua_resolver := NGX_CONF_UNSET;
         pwm_log_dispatch_errors := NGX_CONF_UNSET |} in
    match new_plan with
    | None => Some (conf None)
    | Some None => None
    | Some (Some p) => Some (conf (Some p))
    end.

(** nginx's [ngx_conf_merge_value] and [ngx_conf_merge_bufs_value]. *)
Definition merge_value (conf prev default : Z) : Z :=
  if conf =? NGX_CONF_UNSET then if prev =? NGX_CONF_UNSET then default else prev else conf.

Definition merge_bufs_value (conf prev default : ngx_bufs_t) : ngx_bufs_t :=
  if bufs_num conf =? 0 then if negb (bufs_num prev =? 0) then prev else default else conf.

(** [ngx_conf_merge_ptr_value] leaves the plan as it is: it is never [NGX_CONF_UNSET_PTR]. *)
Definition merge_plan (conf prev : option plan_t) : option plan_t :=
  match conf with
  | Some p => if pl_populated p then Some p else prev
  | None => None
  end.

(** The configurations of the outer and of the inner level. *)
Definition ngx_http_wasm_merge_loc_conf (debug : bool) (prev conf : ngx_http_wasm_loc_conf_t)
    : ngx_http_wasm_loc_conf_t * ngx_http_wasm_loc_conf_t :=
  let merge f d := merge_value (f conf) (f prev) d in
  let reuse := if debug then merge socket_buffer_reuse 1 else 1 in
  ({| isolation := if isolation prev =? NGX_CONF_UNSET then NGX_PROXY_WASM_ISOLATION_NONE else isolation prev;
      plan := plan prev; connect_timeout := connect_timeout prev; send_timeout := send_timeout prev;
      recv_timeout := recv_timeout prev; socket_buffer_size := socket_buffer_size prev;
      socket_buffer_reuse := if debug then socket_buffer_reuse prev else 1;
      socket_large_buffers := socket_large_buffers prev; resp_body_buffers := resp_body_buffers prev;
      postpone_rewrite := postpone_rewrite prev; postpone_access := postpone_access prev;
      pwm_req_headers_in_access := pwm_req_headers_in_access prev;
      pwm_lua_resolver := pwm_lua_resolver prev; pwm_log_dispatch_errors := pwm_log_dispatch_errors prev |},
   {| isolation := merge isolation NGX_PROXY_WASM_ISOLATION_NONE;
      plan := merge_plan (plan conf) (plan prev);
      connect_timeout := merge connect_timeout NGX_WASM_DEFAULT_SOCK_CONN_TIMEOUT;
      send_timeout := merge send_timeout NGX_WASM_DEFAULT_SOCK_SEND_TIMEOUT;
      recv_timeout := merge recv_timeout NGX_WASM_DEFAULT_SOCK_RECV_TIMEOUT;
      socket_buffer_size := merge socket_buffer_size NGX_WASM_DEFAULT_SOCK_BUF_SIZE;
      socket_buffer_reuse := reuse;
      socket_large_buffers := merge_bufs_value (socket_large_buffers conf) (socket_large_buffers prev)
                                NGX_WASM_DEFAULT_SOCK_LARGE_BUFS;
      resp_body_buffers := merge_bufs_value (resp_body_buffers conf) (resp_body_buffers prev)
                             NGX_WASM_DEFAULT_RESP_BODY_BUFS;
      postpone_rewrite := merge postpone_rewrite NGX_CONF_UNSET;
      postpone_access := merge postpone_access NGX_CONF_UNSET;
      pwm_req_headers_in_access := merge pwm_req_headers_in_access 0;
      pwm_lua_resolver := merge pwm_lua_resolver 0;
      pwm_log_dispatch_errors := merge pwm_log_dispatch_errors 1 |}).

(** The configuration of a new wasm block, and its defaults. *)
Definition ngx_wasm_core_create_conf : ngx_wasm_core_conf_t :=
  {| wcf_backtraces := NGX_CONF_UNSET; wcf_resolver_timeout := NGX_CONF_UNSET;
     wcf_connect_timeout := NGX_CONF_UNSET; wcf_send_timeout := NGX_CONF_UNSET;
     wcf_recv_timeout := NGX_CONF_UNSET; wcf_socket_buffer_size := NGX_CONF_UNSET;
     wcf_socket_large_buffers := {| bufs_num := 0; bufs_size := 0 |};
     wcf_socket_buffer_reuse := NGX_CONF_UNSET; wcf_pwm_lua_resolver := NGX_CONF_UNSET;
     wcf_pwm_log_dispatch_errors := NGX_CONF_UNSET |}.

Definition init_value (v default : Z) : Z := if v =? NGX_CONF_UNSET then default else v.

Definition ngx_wasm_core_init_conf (wcf : ngx_wasm_core_conf_t) : ngx_wasm_core_conf_t :=
  {| wcf_backtraces := init_value (wcf_backtraces wcf) 0;
     wcf_resolver_timeout := init_value (wcf_resolver_timeout wcf) NGX_WASM_DEFAULT_RESOLVER_TIMEOUT;
     wcf_connect_timeout := init_value (wcf_connect_timeout wcf) NGX_WASM_DEFAULT_SOCK_CONN_TIMEOUT;
     wcf_send_timeout := init_value (wcf_send_timeout wcf) NGX_WASM_DEFAULT_SOCK_SEND_TIMEOUT;
     wcf_recv_timeout := init_value (wcf_recv_timeout wcf) NGX_WASM_DEFAULT_SOCK_RECV_TIMEOUT;
     wcf_socket_buffer_size := init_value (wcf_socket_buffer_size wcf) NGX_WASM_DEFAULT_SOCK_BUF_SIZE;
     wcf_socket_large_buffers :=
       if (bufs_num (wcf_socket_large_buffers wcf) =? 0) || (bufs_size (wcf_socket_large_buffers wcf) =? 0)
       then NGX_WASM_DEFAULT_SOCK_LARGE_BUFS else wcf_socket_large_buffers wcf;
     wcf_socket_buffer_reuse := init_value (wcf_socket_buffer_reuse wcf) 1;
     wcf_pwm_lua_resolver := init_value (wcf_pwm_lua_resolver wcf) 0;
     wcf_pwm_log_dispatch_errors := wcf_pwm_log_dispatch_errors wcf |}.

(** ** The bits of a request *)

Record conf_bits := { cb_buffer_reuse : Z; cb_lua_resolver : Z; cb_log_dispatch_errors : Z }.

(** A bit field of one bit. *)
Definition bit (v : Z) : Z := v mod 2.

Definition of_core (wcf : option ngx_wasm_core_conf_t) (f : ngx_wasm_core_conf_t -> Z) : Z :=
  match wcf with Some w => f w | None => 0 end.

(** Those of a request of a location, and of one that was made up. *)
Definition loc_bits (loc : ngx_http_wasm_loc_conf_t) (wcf : option ngx_wasm_core_conf_t) : conf_bits :=
  let pick v f := bit (if negb (v =? NGX_CONF_UNSET) then v else of_core wcf f) in
  {| cb_buffer_reuse := bit (socket_buffer_reuse loc);
     cb_lua_resolver := pick (pwm_lua_resolver loc) wcf_pwm_lua_resolver;
     cb_log_dispatch_errors := pick (pwm_log_dispatch_errors loc) wcf_pwm_log_dispatch_errors |}.

Definition fake_bits (wcf : option ngx_wasm_core_conf_t) : conf_bits :=
  {| cb_buffer_reuse := 0; cb_lua_resolver := bit (of_core wcf wcf_pwm_lua_resolver);
     cb_log_dispatch_errors := bit (of_core wcf wcf_pwm_log_dispatch_errors) |}.

(** ** What is inherited *)

Lemma merge_value_set conf prev default :
  default <> NGX_CONF_UNSET -> merge_value conf prev default <> NGX_CONF_UNSET.
Proof. unfold merge_value. intros Hd. repeat case_match; lia. Qed.

(** The configurations from the http block to a location. *)
Fixpoint merge_levels (debug : bool) (outer : ngx_http_wasm_loc_conf_t) (l : list ngx_http_wasm_loc_conf_t)
    : ngx_http_wasm_loc_conf_t :=
  match l with
  | [] => outer
  | conf :: l => merge_levels debug (ngx_http_wasm_merge_loc_conf debug outer conf).2 l
  end.

(** The innermost level that has a value gives it; the default is the one of the program. *)
Definition inherited (f : ngx_http_wasm_loc_conf_t -> Z) (default : Z) (l : list ngx_http_wasm_loc_conf_t) : Z :=
  fold_left (fun v conf => if f conf =? NGX_CONF_UNSET then v else f conf) l default.

Lemma inherited_set f default l : default <> NGX_CONF_UNSET -> inherited f default l <> NGX_CONF_UNSET.
Proof.
  unfold inherited. revert default. induction l as [|c l IH]; intros d Hd; [done|]. cbn [fold_left].
  apply IH. by destruct (Z.eqb_spec (f c) NGX_CONF_UNSET).
Qed.

(** A field that is merged as a value. *)
Definition merged_by (debug : bool) (f : ngx_http_wasm_loc_conf_t -> Z) (default : Z) : Prop :=
  forall prev conf, f (ngx_http_wasm_merge_loc_conf debug prev conf).2 = merge_value (f conf) (f prev) default.

Lemma merge_inherits debug f default outer conf l :
  merged_by debug f default -> default <> NGX_CONF_UNSET ->
  f (merge_levels debug outer (conf :: l)) = inherited f default (outer :: conf :: l).
Proof.
  intros Hf Hd. revert outer conf. induction l as [|c l IH]; intros outer conf.
  - cbn [merge_levels]. rewrite Hf. unfold inherited, merge_value. cbn [fold_left].
    destruct (f conf =? NGX_CONF_UNSET), (f outer =? NGX_CONF_UNSET); done.
  - change (merge_levels debug outer (conf :: c :: l))
      with (merge_levels debug (ngx_http_wasm_merge_loc_conf debug outer conf).2 (c :: l)).
    rewrite IH. unfold inherited. cbn [fold_left]. rewrite !Hf.
    pose proof (merge_value_set (f conf) (f outer) default Hd) as Hm.
    apply Z.eqb_neq in Hm. rewrite Hm. unfold merge_value.
    by destruct (f conf =? NGX_CONF_UNSET), (f outer =? NGX_CONF_UNSET).
Qed.

(** The configuration of a request is the one of the innermost level of its location that
    sets it, else a default of the program: what the wasm block says of the resolver, the log and
    the timeouts of sockets does not reach the requests of any location. *)
Lemma location_inherits debug outer conf l wcf :
  let loc := merge_levels debug outer (conf :: l) in
  let levels := outer :: conf :: l in
  connect_timeout loc = inherited connect_timeout NGX_WASM_DEFAULT_SOCK_CONN_TIMEOUT levels /\
  send_timeout loc = inherited send_timeout NGX_WASM_DEFAULT_SOCK_SEND_TIMEOUT levels /\
  recv_timeout loc = inherited recv_timeout NGX_WASM_DEFAULT_SOCK_RECV_TIMEOUT levels /\
  isolation loc = inherited isolation NGX_PROXY_WASM_ISOLATION_NONE levels /\
  pwm_req_headers_in_access loc = inherited pwm_req_headers_in_access 0 levels /\
  cb_lua_resolver (loc_bits loc wcf) = bit (inherited pwm_lua_resolver 0 levels) /\
  cb_log_dispatch_errors (loc_bits loc wcf) = bit (inherited pwm_log_dispatch_errors 1 levels).
Proof.
  cbv zeta. unfold loc_bits, cb_lua_resolver, cb_log_dispatch_errors.
  rewrite (merge_inherits debug pwm_lua_resolver 0), (merge_inherits debug pwm_log_dispatch_errors 1) by done.
  rewrite (proj2 (Z.eqb_neq _ _) (inherited_set pwm_lua_resolver 0 (outer :: conf :: l) ltac:(done))).
  rewrite (proj2 (Z.eqb_neq _ _) (inherited_set pwm_log_dispatch_errors 1 (outer :: conf :: l) ltac:(done))).
  split_and!; try done; by apply merge_inherits.
Qed.
End HttpConf.

(** ** A wasm block that is not heard *)

Module HttpConfRuns.
Import HttpConf.

(** [proxy_wasm_lua_resolver on] and [proxy_wasm_log_dispatch_errors off]. *)
Definition global : ngx_wasm_core_conf_t :=
  {| wcf_backtraces := -1; wcf_resolver_timeout := -1; wcf_connect_timeout := 5000; wcf_send_timeout := -1;
     wcf_recv_timeout := -1; wcf_socket_buffer_size := -1;
     wcf_socket_large_buffers := {| bufs_num := 0; bufs_size := 0 |}; wcf_socket_buffer_reuse := -1;
     wcf_pwm_lua_resolver := 1; wcf_pwm_log_dispatch_errors := 0 |}.

Definition unset : option ngx_http_wasm_loc_conf_t :=
  ngx_http_wasm_create_loc_conf true (Some (Some {| pl_id := 1; pl_populated := true |})).

(** A location without directives of its own has the defaults of the program; only a request
    that was made up hears the wasm block. *)
Example wasm_block_ignored :
  (fun conf => let loc := merge_levels true conf [conf; conf] in
     (loc_bits loc (Some (ngx_wasm_core_init_conf global)), connect_timeout loc)) <$> unset
  = Some ({| cb_buffer_reuse := 1; cb_lua_resolver := 0; cb_log_dispatch_errors := 1 |}, 60000) /\
  fake_bits (Some (ngx_wasm_core_init_conf global))
  = {| cb_buffer_reuse := 0; cb_lua_resolver := 1; cb_log_dispatch_errors := 0 |}.
Proof. split; reflexivity. Qed.
End HttpConfRuns.
