(* ===== verification/HttpPhases.v ===== *)
(** * The phases of a request

    src/src/http/ngx_http_wasm_module.c: the context of a request and the handlers nginx calls
    in its phases, with the header filter of src/src/http/ngx_http_wasm_filter_module.c.  They
    run the operations of a location ([Ops]), send the local response of a filter
    ([LocalResponse]), call the content handler this module took the place of, and finalize the
    request.  The states are those of [LocalResponse] with the fields of the phases as their
    rest. *)
From S2P Require Import Prelude NginxCore Acl Host Chains BodyFilter Bodies Escape Pairs ProxyWasm Headers HttpProxyWasm LocalResponse HttpConf.
From stdpp Require Export list gmap.
#[global] Open Scope Z_scope.

Module HttpPhases.
Import Chains BodyFilter LocalResponse HttpConf.
Import ProxyWasm(ngx_phase(..)).
Import HttpProxyWasm(ngx_wasm_state_e(..)).
#[local] Existing Instance HttpProxyWasm.wasm_state_eq_dec.
#[local] Existing Instance ProxyWasm.phase_eq_dec.

(** ** Data *)

Definition NGX_HTTP_PREACCESS_PHASE : ngx_phase := PHASE_OTHER 5.

(** A content handler: the one of this module, or the one with this number. *)
Inductive handler_pt := ngx_http_wasm_content_handler_pt | other_handler (n : nat).

#[export] Instance handler_eq_dec : EqDecision handler_pt.
Proof. solve_decision. Defined.

Inductive write_handler_pt := ngx_http_core_run_phases_pt | ngx_http_wasm_wev_handler_pt | other_write_handler.

#[export] Instance write_handler_eq_dec : EqDecision write_handler_pt.
Proof. solve_decision. Defined.

(** What a handler did: it resumed the operations of a phase, called the content handler of the
    request or finalized the request. *)
Inductive event :=
| EV_OPS (phase : ngx_phase) (rc : ngx_rc)
| EV_ORIG (rc : ngx_rc)
| EV_FINALIZE (rc : ngx_rc).

(** [server_tokens] *)
Inductive server_tokens_e := TOKENS_ON | TOKENS_BUILD | TOKENS_OFF.

(** A handler in the phase engine and the index of the next phase. *)
Record ngx_http_phase_handler_t := { phe_handler : nat; phe_next : nat }.

(** What the handlers of the phases need besides: whether the request has a context, the plan
    was attached and the cleanup added; the content handlers; the state of the environment, the
    resume handler of a yielding call, the handler of write events, the last phase of the
    operations; the phase engine of nginx with the position of the request in it and the two
    static checks for postponing; and what happened. *)
Record phases (W : Type) := {
  ph_ctx : bool;
  ph_attached : bool;
  ph_cleanup : bool;
  ph_bits : conf_bits;
  ph_content_handler : option handler_pt;
  ph_r_content_handler : option handler_pt;
  ph_env_state : ngx_wasm_state_e;
  ph_resume_handler : bool;
  ph_write_event_handler : write_handler_pt;
  ph_last_phase : option ngx_phase;
  ph_engine : list ngx_http_phase_handler_t;
  ph_phase_handler : nat;
  ph_pcheck_rewrite : bool;
  ph_pcheck_access : bool;
  ph_events : list event;
  ph_world : W;
}.
Arguments ph_ctx {W}. Arguments ph_attached {W}. Arguments ph_cleanup {W}. Arguments ph_bits {W}.
Arguments ph_content_handler {W}. Arguments ph_r_content_handler {W}. Arguments ph_env_state {W}.
Arguments ph_resume_handler {W}. Arguments ph_write_event_handler {W}. Arguments ph_last_phase {W}.
Arguments ph_engine {W}. Arguments ph_phase_handler {W}. Arguments ph_pcheck_rewrite {W}.
Arguments ph_pcheck_access {W}. Arguments ph_events {W}. Arguments ph_world {W}.

Section assignments.
Context {W : Type}.
Implicit Types x : phases W.

Definition with_created (ctx attached cleanup : bool) (bits : conf_bits) x : phases W :=
  {| ph_ctx := ctx; ph_attached := attached; ph_cleanup := cleanup; ph_bits := bits;
     ph_content_handler := ph_content_handler x; ph_r_content_handler := ph_r_content_handler x;
     ph_env_state := ph_env_state x; ph_resume_handler := ph_resume_handler x;
     ph_write_event_handler := ph_write_event_handler x; ph_last_phase := ph_last_phase x;
     ph_engine := ph_engine x; ph_phase_handler := ph_phase_handler x;
     ph_pcheck_rewrite := ph_pcheck_rewrite x; ph_pcheck_access := ph_pcheck_access x;
     ph_events := ph_events x; ph_world := ph_world x |}.

Definition with_handlers (h orig : option handler_pt) (w : write_handler_pt) (st : ngx_wasm_state_e) x : phases W :=
  {| ph_ctx := ph_ctx x; ph_attached := ph_attached x; ph_cleanup := ph_cleanup x; ph_bits := ph_bits x;
     ph_content_handler := h; ph_r_content_handler := orig; ph_env_state := st;
     ph_resume_handler := ph_resume_handler x; ph_write_event_handler := w; ph_last_phase := ph_last_phase x;
     ph_engine := ph_engine x; ph_phase_handler := ph_phase_handler x;
     ph_pcheck_rewrite := ph_pcheck_rewrite x; ph_pcheck_access := ph_pcheck_access x;
     ph_events := ph_events x; ph_world := ph_world x |}.

Definition with_engine (engine : list ngx_http_phase_handler_t) (pos : nat) (rewrite access : bool) x : phases W :=
  {| ph_ctx := ph_ctx x; ph_attached := ph_attached x; ph_cleanup := ph_cleanup x; ph_bits := ph_bits x;
     ph_content_handler := ph_content_handler x; ph_r_content_handler := ph_r_content_handler x;
     ph_env_state := ph_env_state x; ph_resume_handler := ph_resume_handler x;
     ph_write_event_handler := ph_write_event_handler x; ph_last_phase := ph_last_phase x;
     ph_engine := engine; ph_phase_handler := pos; ph_pcheck_rewrite := rewrite; ph_pcheck_access := access;
     ph_events := ph_events x; ph_world := ph_world x |}.

Definition with_events (l : list event) x : phases W :=
  {| ph_ctx := ph_ctx x; ph_attached := ph_attached x; ph_cleanup := ph_cleanup x; ph_bits := ph_bits x;
     ph_content_handler := ph_content_handler x; ph_r_content_handler := ph_r_content_handler x;
     ph_env_state := ph_env_state x; ph_resume_handler := ph_resume_handler x;
     ph_write_event_handler := ph_write_event_handler x; ph_last_phase := ph_last_phase x;
     ph_engine := ph_engine x; ph_phase_handler := ph_phase_handler x;
     ph_pcheck_rewrite := ph_pcheck_rewrite x; ph_pcheck_access := ph_pcheck_access x;
     ph_events := l; ph_world := ph_world x |}.

Definition set_bits (bits : conf_bits) x := with_created (ph_ctx x) (ph_attached x) (ph_cleanup x) bits x.
Definition set_content_handler (h : option handler_pt) x :=
  with_handlers h (ph_r_content_handler x) (ph_write_event_handler x) (ph_env_state x) x.
Definition set_write_handler (w : write_handler_pt) x :=
  with_handlers (ph_content_handler x) (ph_r_content_handler x) w (ph_env_state x) x.
Definition set_env_state (st : ngx_wasm_state_e) x :=
  with_handlers (ph_content_handler x) (ph_r_content_handler x) (ph_write_event_handler x) st x.
End assignments.

(** What the handlers call: the operations of a location for a phase, which give the handler of
    a read body to nginx (its content pass is an argument), the content handler that was
    replaced, the resume handler of a yielding call, and nginx. *)
Class PhaseEnv (P W : Type) := {
  ngx_wasm_ops_resume : SM (state P (phases W)) unit -> ngx_phase -> SM (state P (phases W)) ngx_rc;
  r_content_handler : handler_pt -> SM (state P (phases W)) ngx_rc;
  resume_handler : SM (state P (phases W)) ngx_rc;
  ngx_http_finalize_request : ngx_rc -> SM (state P (phases W)) unit;
  ngx_http_wasm_finalize_fake_request : ngx_rc -> SM (state P (phases W)) unit;
  ngx_http_core_run_phases : SM (state P (phases W)) unit;
  ngx_http_run_posted_requests : SM (state P (phases W)) unit;
  write_handler : SM (state P (phases W)) unit;
  ngx_http_next_header_filter : SM (state P (phases W)) ngx_rc;
}.

(** [rctx->entered_header_filter = 1] *)
Definition set_entered_header_filter (x : ngx_http_wasm_req_ctx_t) : ngx_http_wasm_req_ctx_t :=
  {| rx_free_bufs := rx_free_bufs x; rx_resp_bufs := rx_resp_bufs x; rx_resp_buf_last := rx_resp_buf_last x;
     rx_resp_bufs_count := rx_resp_bufs_count x; rx_resp_chunk := rx_resp_chunk x;
     rx_resp_chunk_len := rx_resp_chunk_len x; rx_resp_chunk_eof := rx_resp_chunk_eof x;
     rx_resp_buffering := rx_resp_buffering x; rx_resp_chunk_override := rx_resp_chunk_override x;
     rx_entered_header_filter := true; rx_entered_body_filter := rx_entered_body_filter x;
     rx_buf_tag := rx_buf_tag x; rx_data := rx_data x; rx_main := rx_main x |}.

Section handlers.
Context {P W : Type} `{Headers.NgxPool P} `{Headers.NgxStrings} `{HttpOut P (phases W)} `{PhaseEnv P W}.
Context (debug : bool) (fresh : Z -> bytes).
(** [buf_tag]; the configurations of the location and of the wasm block; [NGX_WASM_LUA] with the
    rewrite and access handlers of Lua, and [NGX_HTTP_WASM_DONE_IN_LOG]. *)
Context (buf_tag : Z) (loc : ngx_http_wasm_loc_conf_t) (wcf : option ngx_wasm_core_conf_t).
Context (lua_rewrite_handler lua_access_handler : option nat) (done_in_log : bool).
Abbreviation state := (state P (phases W)).
Abbreviation M := (SM state).

Definition ph {A} (f : phases W -> A) : M A := get (fun s => f (st_world s)).
Definition ph_set (f : phases W -> phases W) : M unit := modify (fun s => with_sent (st_sent s) (f (st_world s)) s).
Definition record_event (e : event) : M unit := ph_set (fun x => with_events (ph_events x ++ [e]) x).
Definition count_add (n : Z) : M unit := modify (fun s => set_count (st_count s + n) s).

(** ** The context of a request *)

(** [plan != NULL && plan->populated] *)
Definition plan_populated (p : option plan_t) : bool :=
  match p with Some p => pl_populated p | None => false end.

(** The zeroed context, as far as bodies need it. *)
Definition new_req_ctx (main : bool) : ngx_http_wasm_req_ctx_t :=
  {| rx_free_bufs := None; rx_resp_bufs := None; rx_resp_buf_last := None; rx_resp_bufs_count := 0;
     rx_resp_chunk := None; rx_resp_chunk_len := 0; rx_resp_chunk_eof := false; rx_resp_buffering := false;
     rx_resp_chunk_override := false; rx_entered_header_filter := false; rx_entered_body_filter := false;
     rx_buf_tag := buf_tag; rx_data := false; rx_main := main |}.

Definition with_rctx (r : Headers.request) : Headers.request :=
  {| Headers.rq_in := Headers.rq_in r; Headers.rq_out := Headers.rq_out r;
     Headers.rq_keepalive := Headers.rq_keepalive r;
     Headers.rq_rctx := Some {| Headers.rc_req_keepalive := Headers.rq_keepalive r; Headers.rc_step := None;
                                Headers.rc_upstream_host := None |} |}.

(** The new context of the request [s]. *)
Definition create_rctx (fake : bool) (s : state) : state :=
  {| st_r := with_rctx (st_r s); st_pool := st_pool s; st_err_status := st_err_status s;
     st_http_version_9 := st_http_version_9 s; st_status_line := st_status_line s;
     st_header_sent := st_header_sent s; st_header_only := st_header_only s; st_main := st_main s;
     st_bad_fd := st_bad_fd s; st_count := st_count s; st_rctx := NGX_OK; st_local := no_local_resp;
     st_flags := fun f => bool_decide (f = fake_request) && fake; st_x := new_req_ctx (st_main s);
     st_store := st_store s; st_step := st_step s; st_sent := st_sent s;
     st_world := with_created true false false {| cb_buffer_reuse := 0; cb_lua_resolver := 0;
                                                  cb_log_dispatch_errors := 0 |} (st_world s) |}.

(** The module takes the place of the content handler. *)
Definition inject_content_handler : M unit :=
  h ← ph ph_content_handler;
  if bool_decide (h = Some ngx_http_wasm_content_handler_pt) then mret tt
  else ph_set (fun x => with_handlers (Some ngx_http_wasm_content_handler_pt) h (ph_write_event_handler x)
                          (ph_env_state x) x).

Definition ngx_http_wasm_rctx : M ngx_rc :=
  there_is ← ph ph_ctx;
  if there_is : bool then mret NGX_OK
  else
    fake ← get st_bad_fd;
    if negb fake && negb (plan_populated (plan loc)) then mret NGX_DECLINED
    else
      ok ← on_store palloc;
      if negb ok then mret NGX_ERROR
      else
        modify (create_rctx fake);;
        if fake : bool then ph_set (fun x => set_bits (fake_bits wcf) x);; mret NGX_OK
        else
          ph_set (fun x => with_created true true (ph_cleanup x) (ph_bits x) x);;
          ok ← on_store palloc;
          if negb ok then mret NGX_ERROR
          else
            ph_set (fun x => with_created true true true (ph_bits x) x);;
            inject_content_handler;;
            ph_set (set_bits (loc_bits loc wcf));;
            mret NGX_OK.

(** ** Finalizing *)

Definition finalize_request (rc : ngx_rc) : M unit :=
  record_event (EV_FINALIZE rc);; ngx_http_finalize_request rc.

Definition ngx_http_wasm_check_finalize (rc : ngx_rc) : M ngx_rc :=
  if bool_decide (rc = NGX_AGAIN) then mret rc
  else
    sent ← flag_is resp_content_sent;
    if negb sent then mret rc
    else
      modify (set_flag resp_content_chosen true);;
      s ← get id;
      let rc := if rc_number rc <=? 0 then if st_main s then NGX_DONE else NGX_OK else rc in
      (if st_flags s resp_finalized then mret tt
       else
         modify (set_flag resp_finalized true);;
         if st_flags s entered_content_phase || st_flags s in_wev then finalize_request rc else mret tt);;
      mret rc.

(** ** Content *)

(** Runs the operations of a phase. *)
Definition ops_resume (body : M unit) (phase : ngx_phase) : M ngx_rc :=
  rc ← ngx_wasm_ops_resume body phase;
  record_event (EV_OPS phase rc);;
  mret rc.

Definition flush : M ngx_rc := ngx_http_wasm_flush_local_response debug fresh.

(** [finalize:] *)
Definition finalize_content (rc : ngx_rc) : M ngx_rc :=
  modify (set_flag content_executed true);;
  s ← get id;
  let over := st_flags s in_wev && (st_count s =? 1) && negb (bool_decide (rc = NGX_DECLINED))
              && (rc_number rc <=? 0) in
  rc ← ngx_http_wasm_check_finalize rc;
  mret (if over then NGX_ABORT else rc).

(** [orig:] *)
Definition orig_content : M ngx_rc :=
  h ← ph ph_r_content_handler;
  s ← get id;
  match h with
  | Some h =>
      if negb (st_flags s resp_content_chosen) then
        rc ← r_content_handler h;
        record_event (EV_ORIG rc);;
        if is_ok rc then mret NGX_OK else finalize_content rc
      else finalize_content (if st_header_sent s || st_flags s resp_content_sent then NGX_OK else NGX_DECLINED)
  | None => finalize_content (if st_header_sent s || st_flags s resp_content_sent then NGX_OK else NGX_DECLINED)
  end.

Definition after_ops : M ngx_rc :=
  rc ← flush;
  match rc with
  | NGX_ERROR => mret (NGX_STATUS NGX_HTTP_INTERNAL_SERVER_ERROR)
  | NGX_AGAIN => mret NGX_AGAIN
  | NGX_OK | NGX_DECLINED => orig_content
  | _ => sassert debug (0 <? rc_number rc);; finalize_content rc
  end.

(** [rc == NGX_ERROR || rc == NGX_AGAIN || rc == NGX_DONE || rc >= NGX_HTTP_SPECIAL_RESPONSE] *)
Definition skips (rc : ngx_rc) : bool :=
  match rc with
  | NGX_ERROR | NGX_AGAIN | NGX_DONE => true
  | _ => NGX_HTTP_SPECIAL_RESPONSE <=? rc_number rc
  end.

(** A request that waits is held by one more reference. *)
Definition hold_yielded (rc : ngx_rc) : M ngx_rc :=
  if bool_decide (rc = NGX_AGAIN) then
    s ← get id;
    (if st_main s && negb (st_flags s req_body_waited) && negb (st_flags s in_req_body_handler)
     then count_add 1 else mret tt);;
    mret NGX_DONE
  else mret rc.

(** The part of the handler of a read body that is about the content pass. *)
Definition body_received (content : M ngx_rc) : M unit :=
  modify (set_flag req_body_received true);;
  modify (set_flag in_req_body_handler true);;
  content;;
  modify (set_flag in_req_body_handler false);;
  waited ← flag_is req_body_waited;
  st ← ph ph_env_state;
  if waited && negb (bool_decide (st = NGX_WASM_STATE_YIELD)) then finalize_request NGX_OK else mret tt.

(** The operations may read the body of the request, whose handler runs another pass. *)
Definition ops_content (nested : M ngx_rc) : M ngx_rc :=
  rc ← ops_resume (body_received nested) NGX_HTTP_CONTENT_PHASE;
  rc ← ngx_http_wasm_check_finalize rc;
  if skips rc then rc ← hold_yielded rc; finalize_content rc
  else after_ops.

Definition content_pass (nested : M ngx_rc) : M ngx_rc :=
  st ← ph ph_env_state;
  match st with
  | NGX_WASM_STATE_ERROR => mret (NGX_STATUS NGX_HTTP_INTERNAL_SERVER_ERROR)
  | NGX_WASM_STATE_YIELD => count_add 1;; mret NGX_DONE
  | NGX_WASM_STATE_CONTINUE =>
      rc ← flush;
      match rc with
      | NGX_ERROR => mret (NGX_STATUS NGX_HTTP_INTERNAL_SERVER_ERROR)
      | NGX_AGAIN => mret NGX_AGAIN
      | NGX_OK =>
          s ← get id;
          if st_flags s in_wev && st_flags s entered_content_phase then mret NGX_OK else finalize_content NGX_OK
      | NGX_DECLINED =>
          s ← get id;
          if st_flags s content_executed && negb (st_flags s req_body_received) then orig_content
          else ops_content nested
      | _ => sassert debug (0 <? rc_number rc);; finalize_content rc
      end
  end.

(** Two passes are enough: the body of a request is read once ([content_passes]). *)
Fixpoint content (fuel : nat) : M ngx_rc :=
  match fuel with
  | O => slift (Fault F_fuel)
  | S fuel => content_pass (content fuel)
  end.
Definition ngx_http_wasm_content : M ngx_rc := content 2.

(** ** Yielding and resuming *)

Definition ngx_http_wasm_set_resume_handler : M unit :=
  s ← get id;
  let x := st_world s in
  if bool_decide (ph_env_state x = NGX_WASM_STATE_YIELD) || st_flags s entered_content_phase
     || st_flags s resp_content_chosen || st_flags s fake_request
  then ph_set (set_write_handler ngx_http_wasm_wev_handler_pt)
  else ph_set (set_write_handler ngx_http_core_run_phases_pt).

(** The macros of ngx_wasm_subsystem.h. *)
Definition ngx_wasm_yield : M unit :=
  ph_set (set_env_state NGX_WASM_STATE_YIELD);; ngx_http_wasm_set_resume_handler.
Definition ngx_wasm_continue : M unit :=
  ngx_http_wasm_set_resume_handler;; ph_set (set_env_state NGX_WASM_STATE_CONTINUE).
Definition ngx_wasm_error : M unit := ph_set (set_env_state NGX_WASM_STATE_ERROR).

(** The resume handler of a call that yielded, when there is one: [None] when the handler goes
    on. *)
Definition resume_first : M (option ngx_rc) :=
  there_is ← ph ph_resume_handler;
  if negb there_is then mret None
  else
    rc ← resume_handler;
    match rc with
    | NGX_AGAIN => mret (Some NGX_AGAIN)
    | NGX_OK => mret None
    | _ =>
        sassert debug (bool_decide (rc = NGX_ERROR));;
        mret (Some (NGX_STATUS NGX_HTTP_INTERNAL_SERVER_ERROR))
    end.

(** ** Postponing a handler *)

(** The handler at [cur] goes to the position [last], the ones in between move up. *)
Definition rotate (engine : list ngx_http_phase_handler_t) (cur last : nat) : list ngx_http_phase_handler_t :=
  match engine !! cur with
  | Some h => take cur engine ++ take (last - cur) (drop (S cur) engine) ++ h :: drop (S last) engine
  | None => engine
  end.

(** [conf]: [postpone_rewrite] or [postpone_access]; [lua]: the handler of Lua to come after;
    [back]: how far the last handler of the phase is before the next phase. *)
Definition postpone (conf : Z) (lua : option nat) (back : nat) : M bool :=
  x ← get st_world;
  let pset := negb (conf =? NGX_CONF_UNSET) in
  let p := pset && negb (conf =? 0) in
  cur_ph ← slift (deref (ph_engine x !! ph_phase_handler x));
  let cur := ph_phase_handler x in
  let last := (phe_next cur_ph - back)%nat in
  follows ← (if p then mret true
             else
               match lua with
               | Some lua =>
                   last_ph ← slift (deref (ph_engine x !! last));
                   mret (bool_decide (phe_handler last_ph = lua) && (negb pset || (pset && p)))
               | None => mret false
               end);
  if follows && (cur <? last)%nat then
    ph_set (fun x => with_engine (rotate (ph_engine x) cur last) (cur - 1) (ph_pcheck_rewrite x)
                       (ph_pcheck_access x) x);;
    mret true
  else mret false.

(** ** The handlers of the phases *)

(** The handler of a read body runs the content. *)
Definition resume_ops (phase : ngx_phase) : M ngx_rc := ops_resume (body_received ngx_http_wasm_content) phase.

(** [rc == NGX_OK || rc == NGX_DONE || rc == NGX_AGAIN || rc == NGX_DECLINED] *)
Definition phase_rc (rc : ngx_rc) : bool :=
  match rc with NGX_OK | NGX_DONE | NGX_AGAIN | NGX_DECLINED => true | _ => false end.

Definition rewrite_phase : M ngx_rc :=
  rc ← ngx_http_wasm_rctx;
  if negb (is_ok rc) then mret rc
  else
    resumed ← resume_first;
    match resumed with
    | Some NGX_AGAIN => mret NGX_DONE
    | Some rc => mret rc
    | None =>
        rc ← resume_ops NGX_HTTP_REWRITE_PHASE;
        rc ← ngx_http_wasm_check_finalize rc;
        if bool_decide (rc = NGX_ERROR) || (NGX_HTTP_SPECIAL_RESPONSE <=? rc_number rc) then
          ph_set (fun x => set_content_handler (ph_r_content_handler x) x);;
          mret (NGX_STATUS NGX_HTTP_INTERNAL_SERVER_ERROR)
        else
          sassert debug (phase_rc rc);;
          mret (if bool_decide (rc = NGX_AGAIN) then NGX_DONE else NGX_DECLINED)
    end.

Definition ngx_http_wasm_rewrite_handler : M ngx_rc :=
  pcheck ← ph ph_pcheck_rewrite;
  postponed ← (if pcheck : bool then mret false
               else
                 ph_set (fun x => with_engine (ph_engine x) (ph_phase_handler x) true (ph_pcheck_access x) x);;
                 postpone (postpone_rewrite loc) lua_rewrite_handler 1);
  if postponed : bool then mret NGX_DECLINED else rewrite_phase.

(** In debug builds. *)
Definition ngx_http_wasm_preaccess_handler : M ngx_rc :=
  rc ← ngx_http_wasm_rctx;
  if negb (is_ok rc) then mret rc else resume_ops NGX_HTTP_PREACCESS_PHASE.

Definition access_phase : M ngx_rc :=
  rc ← ngx_http_wasm_rctx;
  if negb (is_ok rc) then mret rc
  else
    resumed ← resume_first;
    match resumed with
    | Some rc => mret rc
    | None =>
        rc ← resume_ops NGX_HTTP_ACCESS_PHASE;
        rc ← ngx_http_wasm_check_finalize rc;
        sassert debug (phase_rc rc);;
        match rc with
        | NGX_AGAIN => ngx_wasm_yield;; mret NGX_AGAIN
        | NGX_DONE => mret NGX_OK
        | _ => mret rc
        end
    end.

Definition ngx_http_wasm_access_handler : M ngx_rc :=
  pcheck ← ph ph_pcheck_access;
  postponed ← (if pcheck : bool then mret false
               else
                 ph_set (fun x => with_engine (ph_engine x) (ph_phase_handler x) (ph_pcheck_rewrite x) true x);;
                 postpone (postpone_access loc) lua_access_handler 2);
  if postponed : bool then mret NGX_DECLINED else access_phase.

Definition ngx_http_wasm_content_handler : M ngx_rc :=
  rc ← ngx_http_wasm_rctx;
  if negb (is_ok rc) then mret rc
  else
    modify (set_flag entered_content_phase true);;
    resumed ← resume_first;
    match resumed with
    | Some NGX_AGAIN =>
        main ← get st_main;
        if main : bool then count_add 1;; mret NGX_DONE else mret NGX_AGAIN
    | Some rc => mret rc
    | None => ngx_http_wasm_content
    end.

Definition ngx_http_wasm_log_handler : M ngx_rc :=
  rc ← ngx_http_wasm_rctx;
  if negb (is_ok rc) then mret NGX_ERROR
  else
    modify (set_flag entered_log_phase true);;
    rc ← resume_ops NGX_HTTP_LOG_PHASE;
    (if done_in_log : bool then resume_ops NGX_WASM_DONE_PHASE else mret NGX_OK);;
    mret rc.

(** When the pool of the request is destroyed. *)
Definition ngx_http_wasm_cleanup : M unit :=
  if done_in_log : bool then mret tt else resume_ops NGX_WASM_DONE_PHASE;; mret tt.

(** ** Write events *)

(** [last_finalize:] *)
Definition last_finalize (rc : ngx_rc) : M unit :=
  s ← get id;
  if st_flags s fake_request then
    sassert debug (st_bad_fd s);; ngx_http_wasm_finalize_fake_request NGX_DONE
  else if st_flags s entered_content_phase
          || st_flags s resp_content_sent && negb (st_flags s entered_content_phase)
             && negb (st_flags s resp_finalized)
  then sassert debug (negb (st_bad_fd s));; finalize_request rc
  else mret tt.

Definition last_rc : M ngx_rc := main ← get st_main; mret (if (main : bool) then NGX_DONE else NGX_OK).

(** The content when the content phase was entered or there is a response, else the phase that
    yielded; a phase that ended lets nginx go on with the next ones. *)
Definition wev_content : M unit :=
  rc ← ngx_http_wasm_content;
  if NGX_HTTP_SPECIAL_RESPONSE <=? rc_number rc then
    sassert debug false;; last_finalize (NGX_STATUS NGX_HTTP_INTERNAL_SERVER_ERROR)
  else
    match rc with
    | NGX_AGAIN | NGX_DONE => last_finalize rc
    | NGX_ABORT => mret tt
    | _ => rc ← last_rc; last_finalize rc
    end.

Definition wev_phase : M unit :=
  last ← ph ph_last_phase;
  phase ← slift (deref last);
  rc ← resume_ops phase;
  match rc with
  | NGX_AGAIN => ngx_wasm_yield
  | NGX_OK | NGX_DONE =>
      main ← get st_main;
      if main : bool then
        ph_set (set_write_handler ngx_http_core_run_phases_pt);;
        ngx_http_core_run_phases;; ngx_http_run_posted_requests
      else rc ← last_rc; last_finalize rc
  | _ => rc ← last_rc; last_finalize rc
  end.

Definition ngx_http_wasm_wev_handler : M unit :=
  rc ← ngx_http_wasm_rctx;
  if negb (is_ok rc) then mret tt
  else
    st ← ph ph_env_state;
    (if bool_decide (st = NGX_WASM_STATE_ERROR) then mret tt else modify (set_flag in_wev true));;
    resumed ← resume_first;
    match resumed with
    | Some NGX_AGAIN => sassert debug false
    | Some rc => last_finalize rc
    | None =>
        s ← get id;
        if st_flags s entered_content_phase || st_flags s resp_content_chosen then wev_content
        else if negb (st_flags s fake_request) then wev_phase
        else rc ← last_rc; last_finalize rc
    end.

Definition ngx_http_wasm_resume : M unit :=
  w ← ph ph_write_event_handler;
  match w with
  | ngx_http_core_run_phases_pt => ngx_http_core_run_phases
  | ngx_http_wasm_wev_handler_pt => ngx_http_wasm_wev_handler
  | other_write_handler => write_handler
  end;;
  ngx_http_run_posted_requests.

(** ** The header filter *)

Section header_filter.
(** [server_tokens] of the location with the texts of nginx; the date of now; [ngx_http_time]. *)
Context (tokens : server_tokens_e) (nginx_ver nginx_ver_build : bytes) (cached_http_time : bytes).
Context (ngx_http_time : Z -> bytes).

Definition set_resp_header (key : bytes) (value : bytes) : M ngx_rc :=
  on_headers (Headers.ngx_http_wasm_set_resp_header debug fresh key (Some (Some value))
                Headers.NGX_HTTP_WASM_HEADERS_SET).

(** A field of the response that is not set. *)
Definition out_unset (f : Headers.field) : M bool :=
  r ← get st_r; mret (bool_decide (Headers.hd_field (Headers.ho_headers (Headers.rq_out r)) f = None)).

Definition server_val : bytes :=
  match tokens with TOKENS_ON => nginx_ver | TOKENS_BUILD => nginx_ver_build | TOKENS_OFF => ngx_string "nginx" end.

Definition produce_last_modified : M ngx_rc :=
  r ← get st_r;
  unset ← out_unset Headers.f_last_modified;
  let time := Headers.ho_last_modified_time (Headers.rq_out r) in
  if unset && negb (time =? -1) then
    ok ← pnalloc;
    if negb ok then mret NGX_ERROR
    else
      rc ← set_resp_header (ngx_string "Last-Modified") (ngx_http_time time);
      if negb (is_ok rc) then mret NGX_ERROR
      else on_headers (Headers.rput (Headers.with_out (Headers.out_last_modified_time (-1))));; mret NGX_OK
  else mret NGX_OK.

Definition ngx_http_wasm_produce_resp_headers : M ngx_rc :=
  unset ← out_unset Headers.f_server;
  rc ← (if unset : bool then set_resp_header (ngx_string "Server") server_val else mret NGX_OK);
  if negb (is_ok rc) then mret NGX_ERROR
  else
    unset ← out_unset Headers.f_date;
    rc ← (if unset : bool then set_resp_header (ngx_string "Date") cached_http_time else mret NGX_OK);
    if negb (is_ok rc) then mret NGX_ERROR else produce_last_modified.

Definition ngx_http_wasm_header_filter_handler : M ngx_rc :=
  rc ← ngx_http_wasm_rctx;
  if bool_decide (rc = NGX_ERROR) then mret NGX_ERROR
  else
    s ← get id;
    if bool_decide (rc = NGX_DECLINED) || rx_entered_header_filter (st_x s) then ngx_http_next_header_filter
    else
      sassert debug (is_ok rc);;
      modify (fun s => set_x (set_entered_header_filter (st_x s)) s);;
      produced ← ngx_http_wasm_produce_resp_headers;
      if negb (is_ok produced) then mret rc
      else
        rc ← resume_ops NGX_HTTP_WASM_HEADER_FILTER_PHASE;
        s ← get id;
        if negb (st_err_status s =? 0) then ngx_http_next_header_filter
        else if bool_decide (rc = NGX_ERROR) then
          sassert debug false;; mret (NGX_STATUS NGX_HTTP_INTERNAL_SERVER_ERROR)
        else
          sassert debug (bool_decide (rc ∈ [NGX_AGAIN; NGX_OK; NGX_DECLINED])
                         || (NGX_HTTP_SPECIAL_RESPONSE <=? rc_number rc));;
          rc ← ngx_http_next_header_filter;
          modify (set_flag resp_content_chosen true);;
          mret rc.
End header_filter.
End handlers.

(** ** What a content pass calls *)

(** The events of a content pass. *)
Definition of_content (e : event) : bool :=
  match e with EV_ORIG _ => true | EV_OPS phase _ => bool_decide (phase = NGX_HTTP_CONTENT_PHASE) | EV_FINALIZE _ => false end.
Definition is_orig (e : event) : bool := match e with EV_ORIG _ => true | _ => false end.

Definition content_events {P W} (s : state P (phases W)) : list event := filter of_content (ph_events (st_world s)).
Definition orig_count {P W} (s : state P (phases W)) : nat := length (filter is_orig (content_events s)).

(** What runs next to a content pass adds none to its events, and reads no body. *)
Definition same {P W} (s s' : state P (phases W)) : Prop :=
  content_events s' = content_events s /\ st_flags s' req_body_received = st_flags s req_body_received.

(** When it sends, a response that was chosen stays so. *)
Definition outputs {P W} (s s' : state P (phases W)) : Prop :=
  same s s' /\ (st_flags s resp_content_chosen = true -> st_flags s' resp_content_chosen = true).

#[export] Instance same_preorder {P W} : PreOrder (@same P W).
Proof. split; [by intros s|]. intros s1 s2 s3 [E1 F1] [E2 F2]. split; congruence. Qed.

#[export] Instance outputs_preorder {P W} : PreOrder (@outputs P W).
Proof. split; [by intros s|]. intros s1 s2 s3 [E1 F1] [E2 F2]. split; [by etrans|auto]. Qed.

(** The operations of a phase give the handler of a read body to nginx only while no body was
    read, so it runs once at most; when it ran, they do not answer that the request goes on
    unless there is a response ([Ops.content_read_body]). *)
Class PhaseLaws (P W : Type) (O : HttpOut P (phases W)) (E : PhaseEnv P W) : Prop := {
  discard_outputs : preserves (@outputs P W) ngx_http_discard_request_body;
  content_type_outputs : preserves (@outputs P W) ngx_http_set_content_type;
  send_header_outputs : preserves (@outputs P W) ngx_http_send_header;
  send_last_outputs : preserves (@outputs P W) ngx_http_send_special_last;
  output_outputs cl : preserves (@outputs P W) (ngx_http_output_filter cl);
  finalize_outputs rc : preserves (@outputs P W) (ngx_http_finalize_request rc);
  orig_outputs h : preserves (@outputs P W) (r_content_handler h);
  ops_body_once cb phase s rc s' :
    ngx_wasm_ops_resume cb phase s = Ret (rc, s') ->
    same s s' \/
    exists s1 s2, same s s1 /\ st_flags s1 req_body_received = false /\ cb s1 = Ret (tt, s2) /\ same s2 s' /\
      (skips rc = true \/ st_flags s' resp_content_chosen = true);
  ops_body_ext cb cb' phase s :
    (forall s1, st_flags s1 req_body_received = false -> cb s1 = cb' s1) ->
    ngx_wasm_ops_resume cb phase s = ngx_wasm_ops_resume cb' phase s;
  ops_body_received cb cb' phase s :
    st_flags s req_body_received = true -> ngx_wasm_ops_resume cb phase s = ngx_wasm_ops_resume cb' phase s;
}.

Section passes.
Context {P W : Type} `{Headers.NgxPool P} `{Headers.NgxStrings} {O : HttpOut P (phases W)} {E : PhaseEnv P W}.
Context `{!PhaseLaws P W O E} (debug : bool) (fresh : Z -> bytes).
Abbreviation state := (state P (phases W)).
Abbreviation M := (SM state).

#[local] Hint Resolve discard_outputs content_type_outputs send_header_outputs send_last_outputs
  output_outputs finalize_outputs orig_outputs : preserve.

Lemma outputs_modify (f : state -> state) :
  (forall s, st_world (f s) = st_world s /\ st_flags (f s) req_body_received = st_flags s req_body_received /\
             (st_flags s resp_content_chosen = true -> st_flags (f s) resp_content_chosen = true)) ->
  preserves (@outputs P W) (modify f).
Proof.
  intros Hf s a s' [= _ <-]. destruct (Hf s) as (Hw & Hr & Hc). unfold outputs, same, content_events. by rewrite Hw, Hr.
Qed.

Lemma outputs_set_flag f b :
  f <> req_body_received -> f <> resp_content_chosen \/ b = true -> preserves (@outputs P W) (modify (set_flag f b)).
Proof.
  intros Hf Hb. apply outputs_modify. intros s. cbn. split; [done|]. split; [by rewrite decide_False|].
  intros Hc. destruct (decide (resp_content_chosen = f)) as [<-|]; [by destruct Hb|done].
Qed.

Lemma outputs_event e : of_content e = false -> preserves (@outputs P W) (record_event e).
Proof.
  intros He s a s' [= _ <-]. split; [|done]. split; [|done]. unfold content_events. cbn.
  by rewrite filter_app, filter_cons, He, app_nil_r.
Qed.

Lemma outputs_on_headers {A} (m : SM (Headers.request * P) A) : preserves (@outputs P W) (on_headers m).
Proof. intros s a s'. unfold on_headers. destruct (m _) as [[b [r p]]|]; [|done]. by intros [= _ <-]. Qed.

Lemma outputs_on_store {A} (m : SM store A) : preserves (@outputs P W) (on_store m).
Proof. intros s a s'. unfold on_store. destruct (m _) as [[b r]|]; [|done]. by intros [= _ <-]. Qed.

Lemma outputs_get {A} (f : state -> A) : preserves (@outputs P W) (get f).
Proof. apply preserves_gets, _. Qed.

Lemma outputs_assert c : preserves (@outputs P W) (sassert debug c).
Proof. apply preserves_slift, _. Qed.

#[local] Hint Resolve outputs_on_headers outputs_on_store outputs_get outputs_assert : preserve.
#[local] Hint Extern 1 (preserves outputs (modify (set_flag _ _))) =>
  apply outputs_set_flag; [done|first [by left|by right]] : preserve.
#[local] Hint Extern 2 (preserves outputs (modify _)) => apply outputs_modify; by intros : preserve.
#[local] Hint Extern 1 (preserves outputs (record_event _)) => apply outputs_event; done : preserve.

Lemma outputs_set_headers l : preserves (@outputs P W) (set_headers debug fresh l).
Proof. induction l as [|[k v] l IH]; cbn [set_headers]; preserves_steps. Qed.
#[local] Hint Resolve outputs_set_headers : preserve.

Lemma outputs_send_chain cin : preserves (@outputs P W) (ngx_http_wasm_send_chain_link debug cin).
Proof.
  unfold ngx_http_wasm_send_chain_link, send_header, send_in, output_filter, send_special_last, sent_done.
  preserves_steps.
Qed.
#[local] Hint Resolve outputs_send_chain : preserve.

Lemma outputs_flush : preserves (@outputs P W) (flush debug fresh).
Proof.
  unfold flush, ngx_http_wasm_flush_local_response, prepare_response, ngx_http_wasm_set_resp_status, flag_is,
    modify_local.
  preserves_steps.
Qed.
#[local] Hint Resolve outputs_flush : preserve.

Lemma outputs_check_finalize rc : preserves (@outputs P W) (ngx_http_wasm_check_finalize rc).
Proof. unfold ngx_http_wasm_check_finalize, finalize_request, flag_is. cbv zeta. preserves_steps. Qed.
#[local] Hint Resolve outputs_check_finalize : preserve.

Lemma outputs_finalize_content rc : preserves (@outputs P W) (finalize_content rc).
Proof. unfold finalize_content. cbv zeta. preserves_steps. Qed.
#[local] Hint Resolve outputs_finalize_content : preserve.

Lemma same_outputs_count (s s' : state) : outputs s s' -> orig_count s' = orig_count s.
Proof. intros [[Eq _] _]. unfold orig_count. by rewrite Eq. Qed.

(** The state after an event. *)
Lemma record_content (e : event) (s s' : state) u :
  record_event e s = Ret (u, s') ->
  content_events s' = content_events s ++ (if of_content e then [e] else []) /\ st_flags s' = st_flags s.
Proof.
  intros [= _ <-]. split; [|done]. unfold content_events. cbn. rewrite filter_app, filter_cons.
  by destruct (of_content e).
Qed.

(** A pass that ends with the replaced handler runs it once at most, never when a response was
    chosen. *)
Definition runs_orig (s s' : state) : Prop :=
  st_flags s' req_body_received = st_flags s req_body_received /\
  exists l, content_events s' = content_events s ++ l /\
    (l = [] \/ st_flags s resp_content_chosen = false /\ exists rc, l = [EV_ORIG rc]).

Lemma runs_outputs s s' : outputs s s' -> runs_orig s s'.
Proof. intros [[Eq Er] _]. split; [done|]. exists []. rewrite app_nil_r. by split; [|left]. Qed.

Lemma outputs_runs s1 s2 s3 : outputs s1 s2 -> runs_orig s2 s3 -> runs_orig s1 s3.
Proof.
  intros [[Eq Er] Hc] (Er2 & l & Eq2 & Hl). split; [congruence|]. exists l. split; [congruence|].
  destruct Hl as [->|[Hf Hl]]; [by left|]. right. split; [|done].
  destruct (st_flags s1 resp_content_chosen); [|done]. by rewrite Hc in Hf.
Qed.

Lemma runs_then s1 s2 s3 : runs_orig s1 s2 -> outputs s2 s3 -> runs_orig s1 s3.
Proof.
  intros (Er & l & Eq & Hl) [[Eq2 Er2] _]. split; [congruence|]. exists l. by rewrite Eq2.
Qed.

Lemma orig_content_runs : preserves runs_orig (@orig_content P W E).
Proof.
  intros s rc s'. unfold orig_content. intros (h & s0 & E0 & Eq)%SM_bind_Ret_inv. injection E0 as <- <-.
  revert Eq. intros (s1 & s2 & E0 & Eq)%SM_bind_Ret_inv. injection E0 as <- <-.
  assert (forall rc rc' s', finalize_content rc s = Ret (rc', s') -> runs_orig s s') as Hfin.
  { intros rc0 rc' s0 E0. apply runs_outputs. by eapply outputs_finalize_content. }
  destruct (ph_r_content_handler (st_world s)) as [h|]; [|by eapply Hfin].
  destruct (st_flags s resp_content_chosen) eqn:Ec; cbn [negb] in Eq; [by eapply Hfin|].
  revert Eq. intros (rc1 & s1 & E1%orig_outputs & Eq)%SM_bind_Ret_inv.
  revert Eq. intros (u & s2 & E2%record_content & Eq)%SM_bind_Ret_inv. destruct E2 as [E2 F2].
  assert (runs_orig s s2) as Hrun.
  { destruct E1 as [[E1 Er] _]. split; [congruence|]. exists [EV_ORIG rc1]. rewrite E2, E1. split; [done|]. eauto. }
  destruct (is_ok rc1); [by injection Eq as _ <-|].
  eapply runs_then; [done|]. by eapply outputs_finalize_content.
Qed.

Lemma after_ops_runs : preserves runs_orig (after_ops debug fresh).
Proof.
  intros s rc s'. unfold after_ops. intros (rc1 & s1 & E1%outputs_flush & Eq)%SM_bind_Ret_inv.
  eapply outputs_runs; [done|].
  assert (forall rc rc' s', (sassert debug (0 <? rc_number rc);; finalize_content rc) s1 = Ret (rc', s') ->
    runs_orig s1 s') as Hfin.
  { intros rc0 rc' s2 E0. apply runs_outputs.
    refine ((_ : preserves (@outputs P W) _) _ _ _ E0). preserves_steps. }
  destruct rc1; try (by eapply Hfin); try (by eapply orig_content_runs);
    injection Eq as _ <-; by apply runs_outputs.
Qed.

Lemma hold_outputs rc : preserves (@outputs P W) (hold_yielded rc).
Proof. unfold hold_yielded, count_add. preserves_steps. Qed.

(** What a pass does once the operations were resumed. *)
Lemma after_resume_runs rc0 :
  preserves runs_orig
    (rc ← ngx_http_wasm_check_finalize rc0;
     if skips rc then rc ← hold_yielded rc; finalize_content rc else after_ops debug fresh).
Proof.
  intros s rc s' (rc1 & s1 & E1%outputs_check_finalize & Eq)%SM_bind_Ret_inv. eapply outputs_runs; [done|].
  destruct (skips rc1); [|by eapply after_ops_runs].
  apply runs_outputs. refine ((_ : preserves (@outputs P W) _) _ _ _ Eq).
  pose proof (hold_outputs rc1). preserves_steps.
Qed.

(** The code of a check is the one given unless a response was sent. *)
Lemma check_finalize_rc rc (s s' : state) rc' :
  ngx_http_wasm_check_finalize rc s = Ret (rc', s') -> rc' = rc \/ st_flags s' resp_content_chosen = true.
Proof.
  unfold ngx_http_wasm_check_finalize. case_bool_decide; [intros [= <- _]; by left|].
  intros (sent & s1 & E1 & Eq)%SM_bind_Ret_inv. injection E1 as <- <-.
  destruct (st_flags s resp_content_sent); cbn [negb] in Eq; [|injection Eq as <- _; by left].
  revert Eq. intros (u & s1 & E1 & Eq)%SM_bind_Ret_inv. injection E1 as _ <-. right.
  set (s1 := set_flag resp_content_chosen true s) in *.
  assert (st_flags s1 resp_content_chosen = true) as Hc by (cbn; by rewrite decide_True).
  enough (outputs s1 s') as [_ Ho] by auto.
  refine ((_ : preserves (@outputs P W) _) _ _ _ Eq). unfold finalize_request. cbv zeta. preserves_steps.
Qed.

(** Without the replaced handler when the operations said so or a response was chosen. *)
Lemma after_resume_none rc0 (s s' : state) rc :
  (rc ← ngx_http_wasm_check_finalize rc0;
   if skips rc then rc ← hold_yielded rc; finalize_content rc else after_ops debug fresh) s = Ret (rc, s') ->
  skips rc0 = true \/ st_flags s resp_content_chosen = true -> content_events s' = content_events s.
Proof.
  intros (rc1 & s1 & E1 & Eq)%SM_bind_Ret_inv Hs.
  pose proof (check_finalize_rc _ _ _ _ E1) as Hrc. apply outputs_check_finalize in E1.
  destruct (skips rc1) eqn:Es.
  - assert (outputs s1 s') as Ho.
    { refine ((_ : preserves (@outputs P W) _) _ _ _ Eq). pose proof (hold_outputs rc1). preserves_steps. }
    destruct E1 as [[E1 _] _], Ho as [[E2 _] _]. congruence.
  - assert (st_flags s1 resp_content_chosen = true) as Hc.
    { destruct Hrc as [->|Hrc]; [|done]. destruct Hs as [Hs|Hs]; [by rewrite Hs in Es|]. by apply E1. }
    apply after_ops_runs in Eq. destruct Eq as (_ & l & Eq & Hl).
    destruct Hl as [->|[Hf _]]; [|by rewrite Hc in Hf].
    rewrite app_nil_r in Eq. rewrite Eq. apply E1.
Qed.

(** A pass runs the replaced handler at most once, those it starts while a body is read
    included. *)
Definition at_most_one (m : M ngx_rc) : Prop :=
  forall s rc s', m s = Ret (rc, s') -> (orig_count s' <= S (orig_count s))%nat.

Lemma runs_orig_count s s' : runs_orig s s' -> (orig_count s' <= S (orig_count s))%nat.
Proof.
  intros (_ & l & Eq & Hl). unfold orig_count. rewrite Eq, filter_app, length_app.
  destruct Hl as [->|(_ & rc & ->)]; [cbn; lia|].
  change (length (filter is_orig [EV_ORIG rc])) with 1%nat. lia.
Qed.

Lemma body_received_count nested (s s' : state) u :
  at_most_one nested -> body_received nested s = Ret (u, s') -> (orig_count s' <= S (orig_count s))%nat.
Proof.
  intros Hn. unfold body_received. intros (u1 & s1 & E1 & Eq)%SM_bind_Ret_inv. injection E1 as _ <-.
  revert Eq. intros (u2 & s2 & E2 & Eq)%SM_bind_Ret_inv. injection E2 as _ <-.
  revert Eq. intros (rc & s3 & E3%Hn & Eq)%SM_bind_Ret_inv.
  assert (outputs s3 s') as Ho.
  { refine ((_ : preserves (@outputs P W) _) _ _ _ Eq). unfold flag_is, ph, finalize_request. preserves_steps. }
  rewrite (same_outputs_count _ _ Ho). exact E3.
Qed.

Lemma ops_content_count nested : at_most_one nested -> at_most_one (ops_content debug fresh nested).
Proof.
  intros Hn s rc s'. unfold ops_content, ops_resume. intros (rc0 & s0 & E0 & Eq)%SM_bind_Ret_inv.
  revert E0. intros (rc1 & s1 & E1 & E2)%SM_bind_Ret_inv.
  revert E2. intros (u & s2 & E2%record_content & E3)%SM_bind_Ret_inv. injection E3 as <- <-.
  destruct E2 as [E2 F2].
  assert (orig_count s2 = orig_count s1) as Hc.
  { unfold orig_count. rewrite E2, filter_app, length_app.
    change (length (filter is_orig _)) with 0%nat at 2. lia. }
  apply ops_body_once in E1. destruct E1 as [[E1 _]|(sa & sb & [Ea _] & _ & Eb & [Ec _] & Hs)].
  - apply after_resume_runs, runs_orig_count in Eq. unfold orig_count in *. rewrite E1 in Hc. lia.
  - apply after_resume_none in Eq; [|by rewrite F2].
    apply body_received_count in Eb; [|done]. unfold orig_count in *. rewrite Eq. rewrite Ec in Hc. rewrite Ea in Eb. lia.
Qed.

Lemma content_pass_count nested : at_most_one nested -> at_most_one (content_pass debug fresh nested).
Proof.
  intros Hn s rc s'. unfold content_pass. intros (st & s0 & E0 & Eq)%SM_bind_Ret_inv. injection E0 as <- <-.
  destruct (ph_env_state (st_world s)); [|injection Eq as _ <-; lia|injection Eq as _ <-; apply Nat.le_succ_diag_r].
  revert Eq. intros (rc1 & s1 & E1%outputs_flush & Eq)%SM_bind_Ret_inv.
  rewrite <- (same_outputs_count _ _ E1).
  assert (forall rc (s1 s' : state) rc', (sassert debug (0 <? rc_number rc);; finalize_content rc) s1 = Ret (rc', s') ->
    (orig_count s' <= S (orig_count s1))%nat) as Hfin.
  { intros rc2 s2 s3 rc3 E2. apply runs_orig_count, runs_outputs.
    refine ((_ : preserves (@outputs P W) _) _ _ _ E2). preserves_steps. }
  destruct rc1; try (by eapply Hfin); try (injection Eq as _ <-; lia).
  - revert Eq. intros (s2 & s3 & E2 & Eq)%SM_bind_Ret_inv. injection E2 as <- <-.
    destruct (_ && _); [injection Eq as _ <-; lia|].
    apply runs_orig_count, runs_outputs. by eapply outputs_finalize_content.
  - revert Eq. intros (s2 & s3 & E2 & Eq)%SM_bind_Ret_inv. injection E2 as <- <-.
    destruct (_ && _); [by apply runs_orig_count; eapply orig_content_runs|by eapply ops_content_count].
Qed.

Lemma content_count n : at_most_one (content debug fresh n).
Proof. induction n as [|n IH]; [done|]. cbn [content]. by apply content_pass_count. Qed.

(** *** The passes end *)

Lemma ops_content_ext nested nested' (s : state) :
  (forall cb cb', cb = body_received nested -> cb' = body_received nested' ->
     ngx_wasm_ops_resume cb NGX_HTTP_CONTENT_PHASE s = ngx_wasm_ops_resume cb' NGX_HTTP_CONTENT_PHASE s) ->
  ops_content debug fresh nested s = ops_content debug fresh nested' s.
Proof. intros He. unfold ops_content, ops_resume, mbind, SM_bind. by rewrite (He _ _ eq_refl eq_refl). Qed.

(** A pass resumes the operations with what a flush left. *)
Lemma content_pass_ext nested nested' (s : state) :
  (forall s1, outputs s s1 -> ops_content debug fresh nested s1 = ops_content debug fresh nested' s1) ->
  content_pass debug fresh nested s = content_pass debug fresh nested' s.
Proof.
  intros He. unfold content_pass. apply SM_bind_ext. intros st s0 [= <- <-].
  destruct (ph_env_state (st_world s)); [|done..]. apply SM_bind_ext. intros rc s1 E1%outputs_flush.
  destruct rc; try done. apply SM_bind_ext. intros s2 s3 [= <- <-]. destruct (_ && _); [done|by apply He].
Qed.

Lemma received_ext nested nested' (s : state) :
  st_flags s req_body_received = true -> content_pass debug fresh nested s = content_pass debug fresh nested' s.
Proof.
  intros Hr. apply content_pass_ext. intros s1 [[_ E1] _]. apply ops_content_ext. intros cb cb' _ _.
  apply ops_body_received. congruence.
Qed.

(** Handling the content of a request takes two passes at most: the second one, which runs
    when the body of the request was read, resumes the operations without reading it again.  So
    it does not matter what a third one would be. *)
Lemma content_passes (last : M ngx_rc) s :
  content_pass debug fresh (content_pass debug fresh last) s = ngx_http_wasm_content debug fresh s.
Proof.
  unfold ngx_http_wasm_content. cbn [content]. apply content_pass_ext. intros s1 _. apply ops_content_ext.
  intros cb cb' -> ->. apply ops_body_ext. intros s2 _. unfold body_received.
  do 2 (apply SM_bind_ext; intros [] ? [= <-]). unfold mbind, SM_bind. by erewrite received_ext.
Qed.

(** C8. Handling the content of a request takes two passes at most, the second one, which the
    reading of the body of the request starts, resuming the operations without reading it
    again (so what a third pass would do does not matter); and a handling that returns, with
    the pass inside of it, has called the content handler the module replaced once at most. *)
Theorem replaced_handler_once (last : M ngx_rc) s :
  content_pass debug fresh (content_pass debug fresh last) s = ngx_http_wasm_content debug fresh s /\
  forall rc s', ngx_http_wasm_content debug fresh s = Ret (rc, s') ->
    (orig_count s' <= S (orig_count s))%nat.
Proof. split; [apply content_passes|]. intros rc s'. apply content_count. Qed.
End passes.

(** ** A filter that answers the request *)

(** What a finalization sends comes after what was sent. *)
Definition sends_more {P W} (s s' : state P (phases W)) : Prop :=
  st_sent s `prefix_of` st_sent s' /\ (st_header_only s = true -> st_header_only s' = true).

#[export] Instance sends_more_preorder {P W} : PreOrder (@sends_more P W).
Proof. split; [by intros s|]. intros s1 s2 s3 [E1 F1] [E2 F2]. split; [by etrans|auto]. Qed.

Section answers.
Context {P W : Type} `{Headers.NgxPool P} `{Headers.NgxStrings} {O : HttpOut P (phases W)} {E : PhaseEnv P W}.
Context `{!HttpOutLaws P (phases W) O} `{!PhaseLaws P W O E}.
Context (finalize_more : forall rc, preserves (@sends_more P W) (ngx_http_finalize_request rc)).
(** nginx does not answer [NGX_DECLINED] when it sends. *)
Context (header_answers : forall s s', ngx_http_send_header s <> Ret (NGX_DECLINED, s')).
Context (output_answers : forall cl s s', ngx_http_output_filter cl s <> Ret (NGX_DECLINED, s')).
Context (debug : bool) (fresh : Z -> bytes) (buf_tag pool_max : Z).
Context (loc : ngx_http_wasm_loc_conf_t) (wcf : option ngx_wasm_core_conf_t).
Abbreviation state := (state P (phases W)).

Lemma more_puts (f : state -> state) :
  (forall s, st_sent (f s) = st_sent s /\ st_header_only (f s) = st_header_only s) -> preserves (@sends_more P W) (modify f).
Proof. intros Hf s u s' [= _ <-]. destruct (Hf s) as [E1 E2]. unfold sends_more. by rewrite E1, E2. Qed.

Lemma finalize_content_more rc : preserves (@sends_more P W) (finalize_content rc).
Proof.
  pose proof (fun f b => more_puts (set_flag f b) (fun s => conj eq_refl eq_refl)) as Hset.
  pose proof (fun e => more_puts (fun s => with_sent (st_sent s)
    (with_events (ph_events (st_world s) ++ [e]) (st_world s)) s) (fun s => conj eq_refl eq_refl)) as Hev.
  pose proof (fun A (f : state -> A) => preserves_gets (@sends_more P W) f) as Hget.
  unfold finalize_content, ngx_http_wasm_check_finalize, finalize_request, flag_is, record_event, ph_set. cbv zeta.
  preserves_steps; apply Hget.
Qed.

(** A response that was sent is finalized with the code of its status, or with one that says it
    was sent. *)
Lemma finalize_content_rc rc (s s' : state) rc' :
  0 < rc_number rc -> finalize_content rc s = Ret (rc', s') -> 0 < rc_number rc'.
Proof.
  intros Hrc. unfold finalize_content. intros (u & s1 & E1 & Eq)%SM_bind_Ret_inv. injection E1 as _ <-.
  revert Eq. intros (s2 & s3 & E2 & Eq)%SM_bind_Ret_inv. injection E2 as <- <-.
  revert Eq. intros (rc1 & s2 & E2 & Eq)%SM_bind_Ret_inv.
  replace (rc_number rc <=? 0) with false in Eq by (symmetry; lia). rewrite andb_false_r in Eq. injection Eq as <- _.
  revert E2. unfold ngx_http_wasm_check_finalize. case_bool_decide; [by intros [= <- _]|].
  intros (sent & s3 & E3 & Eq)%SM_bind_Ret_inv. destruct sent; cbn [negb] in Eq; [|by injection Eq as <- _].
  revert Eq. intros (u1 & s4 & _ & Eq)%SM_bind_Ret_inv. revert Eq. intros (s5 & s6 & _ & Eq)%SM_bind_Ret_inv.
  replace (rc_number rc <=? 0) with false in Eq by (symmetry; lia).
  revert Eq. intros (u2 & s7 & _ & Eq)%SM_bind_Ret_inv. by injection Eq as <- _.
Qed.

Lemma send_chain_answers cin (s s' : state) : ngx_http_wasm_send_chain_link debug cin s <> Ret (NGX_DECLINED, s').
Proof.
  unfold ngx_http_wasm_send_chain_link. intros (rx & s0 & E0 & Eq)%SM_bind_Ret_inv. injection E0 as <- <-.
  destruct (negb (is_ok (st_rctx s))); [done|].
  revert Eq. intros (r & s1 & _ & Eq)%SM_bind_Ret_inv. revert Eq. intros (u & s2 & _ & Eq)%SM_bind_Ret_inv.
  revert Eq. intros (rc & s3 & E3 & Eq)%SM_bind_Ret_inv.
  assert (rc <> NGX_DECLINED) as Hrc.
  { intros ->. revert E3. unfold send_header. intros (u2 & s4 & _ & E4)%SM_bind_Ret_inv. by eapply header_answers. }
  assert (forall rc s1, rc <> NGX_DECLINED -> sent_done debug rc s1 <> Ret (NGX_DECLINED, s')) as Hdone.
  { intros rc0 s4 Hr Ed. apply sent_done_keeps in Ed as [<- _]. done. }
  destruct (bool_decide (rc = NGX_ERROR)); [exact (Hdone NGX_ERROR _ ltac:(done) Eq)|].
  revert Eq. intros (only & s4 & _ & Eq)%SM_bind_Ret_inv. destruct (_ || _); [exact (Hdone _ _ Hrc Eq)|].
  revert Eq. intros (b & s5 & _ & Eq)%SM_bind_Ret_inv. revert Eq. intros (u3 & s6 & _ & Eq)%SM_bind_Ret_inv.
  revert Eq. intros (u4 & s7 & _ & Eq)%SM_bind_Ret_inv. revert Eq. intros (rc1 & s8 & E8 & Eq)%SM_bind_Ret_inv.
  eapply Hdone, Eq. intros ->. destruct cin as [cl|]; cbn [send_in] in E8.
  - revert E8. unfold output_filter. intros (lk & s9 & _ & E9)%SM_bind_Ret_inv.
    revert E9. intros (u5 & s10 & _ & E9)%SM_bind_Ret_inv. by eapply output_answers.
  - revert E8. intros (rc2 & s9 & _ & E9)%SM_bind_Ret_inv. revert E9.
    case_bool_decide; [done|]. destruct rc2; cbn; try done. by destruct (_ <? _).
Qed.

(** A response that is kept is not declined. *)
Lemma flush_answers (s s' : state) :
  local_resp_status (st_local s) <> 0 -> st_header_sent s = false -> flush debug fresh s <> Ret (NGX_DECLINED, s').
Proof.
  intros Hl Hh. unfold flush, ngx_http_wasm_flush_local_response.
  intros (l & s0 & E0 & Eq)%SM_bind_Ret_inv. injection E0 as <- <-.
  revert Eq. intros (h & s0 & E0 & Eq)%SM_bind_Ret_inv. injection E0 as <- <-. rewrite Hh in Eq.
  apply Z.eqb_neq in Hl. rewrite Hl in Eq. cbn [orb] in Eq.
  revert Eq. intros (b & s1 & _ & Eq)%SM_bind_Ret_inv. destruct b.
  { revert Eq. intros (u & s2 & _ & Eq)%SM_bind_Ret_inv. done. }
  revert Eq. intros (rc & s2 & _ & Eq)%SM_bind_Ret_inv. destruct (negb _); [done|].
  revert Eq. intros (l1 & s3 & _ & Eq)%SM_bind_Ret_inv. revert Eq. intros (rc1 & s4 & _ & Eq)%SM_bind_Ret_inv.
  destruct (negb _); [done|]. do 3 (revert Eq; intros (? & ? & _ & Eq)%SM_bind_Ret_inv).
  by eapply send_chain_answers.
Qed.

(** What a content pass does with a response that is kept: it is flushed, and its code tells. *)
Lemma flushed_pass nested (s s' : state) rc :
  ph_env_state (st_world s) = NGX_WASM_STATE_CONTINUE ->
  content_pass debug fresh nested s = Ret (rc, s') ->
  exists rc1 s1, flush debug fresh s = Ret (rc1, s1) /\
    (rc1 <> NGX_DECLINED -> outputs s s' /\ sends_more s1 s' /\
      (rc1 = NGX_ERROR -> rc = NGX_STATUS NGX_HTTP_INTERNAL_SERVER_ERROR /\ s' = s1) /\
      (0 < rc_number rc1 -> 0 < rc_number rc)).
Proof.
  intros Hst. unfold content_pass. intros (st & s0 & E0 & Eq)%SM_bind_Ret_inv. injection E0 as <- <-. rewrite Hst in Eq.
  revert Eq. intros (rc1 & s1 & E1 & Eq)%SM_bind_Ret_inv. exists rc1, s1. split; [done|]. intros Hd.
  apply outputs_flush in E1.
  assert (forall rc rc' s', finalize_content rc s1 = Ret (rc', s') -> outputs s s' /\ sends_more s1 s') as Hfin.
  { intros rc0 rc' s2 E2. split; [etrans; [done|]; by eapply outputs_finalize_content|].
    by eapply finalize_content_more. }
  assert (forall rc0, (sassert debug (0 <? rc_number rc0);; finalize_content rc0) s1 = Ret (rc, s') ->
    outputs s s' /\ sends_more s1 s' /\ (0 < rc_number rc0 -> 0 < rc_number rc)) as Hpos.
  { intros rc0. intros (u & s2 & ->%assert_same & E2)%SM_bind_Ret_inv. destruct (Hfin _ _ _ E2).
    split_and!; [done..|]. intros Hp. by eapply finalize_content_rc. }
  destruct rc1; try done; try (destruct (Hpos _ Eq) as (? & ? & ?); by split_and!).
  - revert Eq. intros (s2 & s3 & E2 & Eq)%SM_bind_Ret_inv. injection E2 as <- <-.
    destruct (_ && _); [injection Eq as _ <-; by split_and!|]. destruct (Hfin _ _ _ Eq). by split_and!.
  - injection Eq as <- <-. by split_and!.
  - injection Eq as <- <-. by split_and!.
Qed.

End answers.
End HttpPhases.

(** ** Requests that run *)

Module HttpPhasesRuns.
Import Chains BodyFilter HeadersRuns LocalResponse LocalResponseRuns HttpConf HttpConfRuns HttpPhases.
Import ProxyWasm(ngx_phase(..)).
#[local] Existing Instance ProxyWasm.phase_eq_dec.

(** nginx sends what it is asked to send. *)
#[export] Instance sends_all : HttpOut unit (phases bool) := {
  ngx_http_discard_request_body := mret NGX_OK;
  ngx_http_set_content_type := mret NGX_OK;
  ngx_http_send_header := fun s => Ret (NGX_OK, header_sent s);
  ngx_http_send_special_last := mret NGX_OK;
  ngx_http_output_filter := fun _ => mret NGX_OK;
}.

#[export] Instance sends_all_laws : HttpOutLaws unit (phases bool) sends_all.
Proof.
  split; try apply preserves_ret, _.
  - intros s rc s' [= _ <-]. apply sends_on_refl. by right.
  - intros s rc s' [= _ <-]. apply sends_on_refl. by left.
  - intros cl s rc s' [= _ <-]. apply sends_on_refl. by left.
Qed.

Abbreviation M := (SM (state unit (phases bool))).

(** In the content phase the operations read the body, when the world says there is one; in the
    others and on the rest of the content they give this answer. *)
Definition script (answer : ngx_phase -> ngx_rc) (body : M unit) (phase : ngx_phase) : M ngx_rc :=
  s ← get id;
  if bool_decide (phase = NGX_HTTP_CONTENT_PHASE) && ph_world (st_world s) && negb (st_flags s req_body_received)
  then body;; chosen ← flag_is resp_content_chosen; mret (if (chosen : bool) then NGX_OK else NGX_DONE)
  else mret (answer phase).

Definition scripted (answer : ngx_phase -> ngx_rc) : PhaseEnv unit bool := {|
  ngx_wasm_ops_resume := script answer;
  r_content_handler := fun _ => mret NGX_DONE;
  resume_handler := mret NGX_OK;
  ngx_http_finalize_request := fun _ => mret tt;
  ngx_http_wasm_finalize_fake_request := fun _ => mret tt;
  ngx_http_core_run_phases := mret tt;
  ngx_http_run_posted_requests := mret tt;
  write_handler := mret tt;
  ngx_http_next_header_filter := fun s => Ret (NGX_OK, header_sent s);
|}.

#[export] Instance declines : PhaseEnv unit bool := scripted (fun _ => NGX_DECLINED).

#[export] Instance declines_laws : PhaseLaws unit bool sends_all declines.
Proof.
  split; try apply preserves_ret, _.
  - intros s rc s' [= _ <-]. by split.
  - intros cl. apply preserves_ret, _.
  - intros rc. apply preserves_ret, _.
  - intros h. apply preserves_ret, _.
  - intros cb phase s rc s'. cbn. unfold script. intros (s0 & s1 & E0 & E)%SM_bind_Ret_inv. injection E0 as <- <-.
    destruct (_ && _) eqn:Eb; [|injection E as _ <-; by left]. right.
    revert E. intros ([] & s1 & E1 & E)%SM_bind_Ret_inv. revert E. intros (c & s2 & E2 & E)%SM_bind_Ret_inv.
    injection E2 as <- <-. injection E as <- <-. exists s, s1. apply andb_true_iff in Eb as [_ Eb].
    apply negb_true_iff in Eb. split_and!; try done. destruct (st_flags s1 resp_content_chosen); [by right|by left].
  - intros cb cb' phase s He. cbn. unfold script. apply SM_bind_ext. intros s0 s1 [= <- <-].
    destruct (_ && _) eqn:Eb; [|done]. apply andb_true_iff in Eb as [_ Eb]. apply negb_true_iff in Eb.
    unfold mbind, SM_bind. by rewrite He.
  - intros cb cb' phase s Hr. cbn. unfold script. apply SM_bind_ext. intros s0 s1 [= <- <-].
    cbn. by rewrite Hr, andb_false_r.
Qed.

Definition handlers_of (body : bool) (orig : option handler_pt) : phases bool :=
  {| ph_ctx := false; ph_attached := false; ph_cleanup := false;
     ph_bits := {| cb_buffer_reuse := 0; cb_lua_resolver := 0; cb_log_dispatch_errors := 0 |};
     ph_content_handler := orig; ph_r_content_handler := None;
     ph_env_state := HttpProxyWasm.NGX_WASM_STATE_CONTINUE; ph_resume_handler := false;
     ph_write_event_handler := ngx_http_core_run_phases_pt; ph_last_phase := None;
     ph_engine := [{| phe_handler := 1; phe_next := 3 |}; {| phe_handler := 2; phe_next := 3 |};
                   {| phe_handler := 3; phe_next := 3 |}; {| phe_handler := 4; phe_next := 4 |}];
     ph_phase_handler := 1; ph_pcheck_rewrite := false; ph_pcheck_access := true; ph_events := [];
     ph_world := body |}.

(** A request with a body or without one, that was not handled yet. *)
Definition arrived (body : bool) (orig : option handler_pt) (pool : list bool) : state unit (phases bool) :=
  {| st_r := request_of [] (fun _ => None); st_pool := tt; st_err_status := 0; st_http_version_9 := false;
     st_status_line := (None, 0); st_header_sent := false; st_header_only := false; st_main := true;
     st_bad_fd := false; st_count := 1; st_rctx := NGX_DECLINED; st_local := no_local_resp;
     st_flags := fun _ => false; st_x := no_bodies; st_store := {| s_links := ∅; s_pool := pool |};
     st_step := ProxyWasm.STEP_REQ_HEADERS; st_sent := []; st_world := handlers_of body orig |}.

Definition location (postpone : Z) : ngx_http_wasm_loc_conf_t :=
  {| isolation := 1; plan := Some {| pl_id := 1; pl_populated := true |}; connect_timeout := 60000;
     send_timeout := 60000; recv_timeout := 60000; socket_buffer_size := 1024; socket_buffer_reuse := 1;
     socket_large_buffers := NGX_WASM_DEFAULT_SOCK_LARGE_BUFS; resp_body_buffers := NGX_WASM_DEFAULT_RESP_BODY_BUFS;
     postpone_rewrite := postpone; postpone_access := -1; pwm_req_headers_in_access := 0; pwm_lua_resolver := 0;
     pwm_log_dispatch_errors := 1 |}.

Definition other : option handler_pt := Some (other_handler 7).
Definition memory : list bool := replicate 12 true.

Abbreviation rewrite debug postpone := (ngx_http_wasm_rewrite_handler debug zeros 1 (location postpone) None None).
Abbreviation access debug := (ngx_http_wasm_access_handler debug zeros 1 (location (-1)) None None).
Abbreviation content_handler := (ngx_http_wasm_content_handler true zeros 1 (location (-1)) None).

(** The request goes through the phases: its body is read in the content phase, the pass that
    starts then calls the handler the module replaced, and the first pass does not. *)
Definition handled : M (ngx_rc * ngx_rc * ngx_rc) :=
  rc1 ← rewrite true (-1); rc2 ← access true; rc3 ← content_handler; mret (rc1, rc2, rc3).

Example body_is_proxied :
  ran (handled (arrived true other memory)) = Some (NGX_DECLINED, NGX_DECLINED, NGX_DONE) /\
  (fun s => (ph_events (st_world s), st_count s)) <$> left_by (handled (arrived true other memory))
  = Some ([EV_OPS NGX_HTTP_REWRITE_PHASE NGX_DECLINED; EV_OPS NGX_HTTP_ACCESS_PHASE NGX_DECLINED;
           EV_OPS NGX_HTTP_CONTENT_PHASE NGX_DECLINED; EV_ORIG NGX_DONE;
           EV_OPS NGX_HTTP_CONTENT_PHASE NGX_DONE], 1).
Proof. split; vm_compute; reflexivity. Qed.

(** A handler that is postponed becomes the last of its phase and the next ones move up; the
    request is at the one before the first of them. *)
Example rewrite_postponed :
  ran (rewrite true 1 (arrived false other memory)) = Some NGX_DECLINED /\
  (fun s => (phe_handler <$> ph_engine (st_world s), ph_phase_handler (st_world s)))
    <$> left_by (rewrite true 1 (arrived false other memory)) = Some ([1; 3; 2; 4]%nat, 0%nat).
Proof. split; vm_compute; reflexivity. Qed.

(** A filter that fails in the access phase: a debug build asserts that it does not. *)
Definition failing : PhaseEnv unit bool :=
  scripted (fun phase => if bool_decide (phase = NGX_HTTP_ACCESS_PHASE) then NGX_STATUS 500 else NGX_OK).

Example access_failure :
  ran (@ngx_http_wasm_access_handler _ _ _ _ _ failing true zeros 1 (location (-1)) None None
         (arrived false other memory)) = None /\
  ran (@ngx_http_wasm_access_handler _ _ _ _ _ failing false zeros 1 (location (-1)) None None
         (arrived false other memory)) = Some (NGX_STATUS 500).
Proof. split; vm_compute; reflexivity. Qed.

(** When there is no memory for the default headers the filter answers that all went well, and
    the header is not sent. *)
Definition no_memory : Headers.NgxPool unit := {|
  Headers.ngx_pnalloc := fun p => (false, p);
  Headers.ngx_list_push := fun l e p => (Some (push_last l e), p);
|}.

Definition filter_header (pool : Headers.NgxPool unit) : option (ngx_rc * bool) :=
  match @ngx_http_wasm_header_filter_handler _ _ pool _ _ _ true zeros 1 (location (-1)) None TOKENS_OFF [] []
          (ngx_string "Thu, 01 Jan 1970 00:00:00 GMT") (fun _ => []) (arrived false other memory) with
  | Ret (rc, s) => Some (rc, st_header_sent s)
  | Fault _ => None
  end.

Example header_is_lost : filter_header HeadersRuns.pool = Some (NGX_OK, true) /\ filter_header no_memory = Some (NGX_OK, false).
Proof. split; vm_compute; reflexivity. Qed.

(** The context of a request whose cleanup could not be added is used by the next handler: its
    filters are not told that the request is done, and its content is left to the other
    handler. *)
Definition created_twice : M (ngx_rc * ngx_rc) :=
  rc1 ← ngx_http_wasm_rctx 1 (location (-1)) None; rc2 ← ngx_http_wasm_rctx 1 (location (-1)) None; mret (rc1, rc2).

Example cleanup_is_lost :
  ran (created_twice (arrived false other [true; false])) = Some (NGX_ERROR, NGX_OK) /\
  (fun s => (ph_cleanup (st_world s), ph_content_handler (st_world s)))
    <$> left_by (created_twice (arrived false other [true; false])) = Some (false, other).
Proof. split; vm_compute; reflexivity. Qed.

Lemma content_runs : ran (ngx_http_wasm_content true zeros (arrived true other memory)) = Some NGX_DONE.
Proof. vm_compute. reflexivity. Qed.

Lemma replaced_handler_once_witness :
  content_pass true zeros (content_pass true zeros (mret NGX_OK)) (arrived true other memory)
    = ngx_http_wasm_content true zeros (arrived true other memory) /\
  exists rc s', ngx_http_wasm_content true zeros (arrived true other memory) = Ret (rc, s') /\
    (orig_count s' <= 1)%nat.
Proof.
  destruct (replaced_handler_once true zeros (mret NGX_OK) (arrived true other memory)) as [E Hcount].
  split; [exact E|].
  destruct (ngx_http_wasm_content true zeros (arrived true other memory)) as [[rc s']|] eqn:Eq;
    [|pose proof content_runs as Hr; rewrite Eq in Hr; discriminate Hr].
  exists rc, s'. split; [done|]. apply (Hcount rc s' eq_refl).
Defined.

(** A request that reached the content phase, and its answer. *)
Definition reached : state unit (phases bool) :=
  create_rctx 1 false (arrived false other memory).

Abbreviation answer := (ngx_http_wasm_stash_local_response 1 4096 418 teapot None (ngx_string "tea")).

Lemma answer_runs : ran (answer reached) = Some NGX_OK /\
  ran ((answer;; content_handler) reached) = Some NGX_DONE.
Proof. split; vm_compute; reflexivity. Qed.

Lemma finalize_sends_nothing rc : preserves (@sends_more unit bool) (ngx_http_finalize_request rc).
Proof. apply preserves_ret, _. Qed.

Lemma header_not_declined (s s' : state unit (phases bool)) : ngx_http_send_header s <> Ret (NGX_DECLINED, s').
Proof. intros [=]. Qed.

Lemma output_not_declined cl (s s' : state unit (phases bool)) :
  ngx_http_output_filter cl s <> Ret (NGX_DECLINED, s').
Proof. intros [=]. Qed.

End HttpPhasesRuns.
