(* ===== verification/Pointers.v ===== *)
(** * Buffers that share their memory

    Sockets and the readers of responses ([SocketTcp], [Readers]) keep several buffers over the
    same memory: a buffer that receives, copies of it, and buffers over the pieces of a body.
    Here pointers are explicit: a region of memory and an offset in it.  The functions are
    [ngx_wasm_chain_get_free_buf] of src/src/wasm/ngx_wasm_util.c, which [Chains] has for buffers
    that own their memory, and the functions of nginx on buffers and chains. *)
From S2P Require Import Prelude NginxCore.
From stdpp Require Export list gmap.
#[global] Open Scope Z_scope.

Module Pointers.

(** ** Pointers *)

(** [At None n] is [n] bytes after [NULL]; [Wild] is what the difference of pointers into
    different objects gives, which nothing may use. *)
Inductive ptr :=
| At (region : option addr) (off : Z)
| Wild.

#[export] Instance ptr_eq_dec : EqDecision ptr.
Proof. solve_decision. Defined.

Definition NULL : ptr := At None 0.

(** [if (p)] *)
Definition set (p : ptr) : bool := negb (bool_decide (p = NULL)).

(** [p + n] *)
Definition padd (p : ptr) (n : Z) : ptr :=
  match p with
  | At r off => At r (off + n)
  | Wild => Wild
  end.

(** [p - q] *)
Definition pdiff (p q : ptr) : option Z :=
  match p, q with
  | At r m, At r' n => if bool_decide (r = r') then Some (m - n) else None
  | _, _ => None
  end.

(** [new + (p - old)] *)
Definition relocate (new old p : ptr) : ptr :=
  match pdiff p old with
  | Some n => padd new n
  | None => Wild
  end.

(** ** Buffers and links *)

(** [ngx_buf_t]: of its flags, the buffers here have [temporary] only. *)
Record ngx_buf_t := {
  b_pos : ptr;
  b_last : ptr;
  b_start : ptr;
  b_end : ptr;
  b_tag : Z;
  b_temporary : bool;
}.

Record ngx_chain_t := { cl_buf : ngx_buf_t; cl_next : option addr }.

Definition zero_buf : ngx_buf_t :=
  {| b_pos := NULL; b_last := NULL; b_start := NULL; b_end := NULL; b_tag := 0;
     b_temporary := false |}.

Definition set_pos (p : ptr) (b : ngx_buf_t) : ngx_buf_t :=
  {| b_pos := p; b_last := b_last b; b_start := b_start b; b_end := b_end b; b_tag := b_tag b;
     b_temporary := b_temporary b |}.
Definition set_last (p : ptr) (b : ngx_buf_t) : ngx_buf_t :=
  {| b_pos := b_pos b; b_last := p; b_start := b_start b; b_end := b_end b; b_tag := b_tag b;
     b_temporary := b_temporary b |}.

Definition on_buf (f : ngx_buf_t -> ngx_buf_t) (l : ngx_chain_t) : ngx_chain_t :=
  {| cl_buf := f (cl_buf l); cl_next := cl_next l |}.
Definition set_next (n : option addr) (l : ngx_chain_t) : ngx_chain_t :=
  {| cl_buf := cl_buf l; cl_next := n |}.

(** The buffer of [len] bytes from [p]. *)
Definition buf_over (p : ptr) (len tag : Z) (temporary : bool) : ngx_buf_t :=
  {| b_pos := p; b_last := p; b_start := p; b_end := padd p len; b_tag := tag;
     b_temporary := temporary |}.

(** ** Memory *)

(** The regions, the links, and whether the next allocations succeed. *)
Record mem := {
  m_regions : gmap addr bytes;
  m_links : gmap addr ngx_chain_t;
  m_pool : list bool;
}.

Definition with_regions (f : gmap addr bytes -> gmap addr bytes) (m : mem) : mem :=
  {| m_regions := f (m_regions m); m_links := m_links m; m_pool := m_pool m |}.
Definition with_links (f : gmap addr ngx_chain_t -> gmap addr ngx_chain_t) (m : mem) : mem :=
  {| m_regions := m_regions m; m_links := f (m_links m); m_pool := m_pool m |}.

Abbreviation M := (SM mem).

Definition gets {A} (f : mem -> A) : M A := fun m => Ret (f m, m).
Definition puts (f : mem -> mem) : M unit := fun m => Ret (tt, f m).
Definition fail {A} (f : fault) : M A := fun _ => Fault f.

Definition link (a : addr) : M ngx_chain_t :=
  ls ← gets m_links; slift (deref (ls !! a)).
Definition write_link (a : addr) (f : ngx_chain_t -> ngx_chain_t) : M unit :=
  l ← link a; puts (with_links (<[a := f l]>)).

(** The first allocation that remains. *)
Definition palloc : M bool := fun m =>
  match m_pool m with
  | [] => Ret (false, m)
  | ok :: p => Ret (ok, {| m_regions := m_regions m; m_links := m_links m; m_pool := p |})
  end.

Definition new_region (data : bytes) : M ptr := fun m =>
  let a := fresh (dom (m_regions m) : gset addr) in
  Ret (At (Some a) 0, with_regions (<[a := data]>) m).
Definition new_link (b : ngx_buf_t) : M addr := fun m =>
  let a := fresh (dom (m_links m) : gset addr) in
  Ret (a, with_links (<[a := {| cl_buf := b; cl_next := None |}]>) m).

(** [ngx_pfree]; nginx frees the large regions, so that none can be used after it. *)
Definition ngx_pfree (p : ptr) : M unit :=
  match p with
  | At (Some r) 0 => puts (with_regions (delete r))
  | _ => mret tt
  end.

(** [ngx_free_chain] *)
Definition ngx_free_chain (a : addr) : M unit := puts (with_links (delete a)).

(** [n] bytes from [p], and writing [data] at [p]; nothing is read or written when there are
    no bytes. *)
Definition load (p : ptr) (n : Z) : M bytes :=
  if n =? 0 then mret []
  else match p with
       | At (Some r) off =>
           rs ← gets m_regions; data ← slift (deref (rs !! r)); slift (mem_read data off n)
       | _ => fail F_memory
       end.
Definition store (p : ptr) (data : bytes) : M unit :=
  if bool_decide (data = []) then mret tt
  else match p with
       | At (Some r) off =>
           rs ← gets m_regions; old ← slift (deref (rs !! r));
           new ← slift (mem_write old off data);
           puts (with_regions (<[r := new]>))
       | _ => fail F_memory
       end.

(** [p - q] of pointers into the same object. *)
Definition distance (p q : ptr) : M Z := slift (deref (pdiff p q)).

(** [ngx_buf_size]: of a buffer that is not in memory, the size of its (empty) file. *)
Definition ngx_buf_size (b : ngx_buf_t) : M Z :=
  if b_temporary b then distance (b_last b) (b_pos b) else mret 0.

(** [ngx_create_temp_buf]: the buffer, [None] for [NULL]. *)
Definition ngx_create_temp_buf (size : Z) : M (option ngx_buf_t) :=
  ok ← palloc;
  if negb ok then mret None
  else
    p ← new_region (replicate (Z.to_nat size) x00);
    mret (Some (buf_over p size 0 true)).

(** ** [ngx_wasm_chain_get_free_buf] *)

(** The link, [None] for [NULL], and the next value of [*free]. *)
Definition ngx_wasm_chain_get_free_buf (free : option addr) (len tag : Z) (reuse : bool)
    : M (option addr * option addr) :=
  match (if reuse then free else None) with
  | Some cl =>
      l ← link cl;
      let free := cl_next l in
      write_link cl (set_next None);;
      let b := cl_buf l in
      room ← (if set (b_start b) then distance (b_end b) (b_start b) else mret 0);
      if set (b_start b) && (len <=? room) then
        write_link cl (on_buf (fun _ => buf_over (b_start b) room tag (negb (len =? 0))));;
        mret (Some cl, free)
      else
        (if b_temporary b && set (b_start b) then ngx_pfree (b_start b) else mret tt);;
        write_link cl (on_buf (fun _ => zero_buf));;
        if len =? 0 then mret (Some cl, free)
        else
          ok ← palloc;
          if negb ok then mret (None, free)
          else
            p ← new_region (replicate (Z.to_nat len) x00);
            write_link cl (on_buf (fun _ => buf_over p len tag true));;
            mret (Some cl, free)
  | None =>
      ok ← palloc;
      if negb ok then mret (None, free)
      else
        b ← (if len =? 0 then
               ok ← palloc; mret (if (ok : bool) then Some zero_buf else None)
             else ngx_create_temp_buf len);
        match b with
        | None => mret (None, free)
        | Some b =>
            cl ← new_link {| b_pos := b_pos b; b_last := b_last b; b_start := b_start b;
                             b_end := b_end b; b_tag := tag; b_temporary := b_temporary b |};
            mret (Some cl, free)
        end
  end.

(** [b->last = ngx_cpymem(b->last, data, len)] *)
Definition cpymem (cl : addr) (data : bytes) : M unit :=
  l ← link cl;
  store (b_last (cl_buf l)) data;;
  write_link cl (on_buf (fun b => set_last (padd (b_last b) (zlen data)) b)).

(** ** Chains *)

(** A walk of a chain meets every link at most once. *)
Definition links_fuel (m : mem) : nat := S (size (m_links m)).
Definition with_fuel {A} (f : nat -> M A) : M A := fun m => f (links_fuel m) m.

(** [for (cl = first; cl; cl = cl->next) { cl->buf->pos = cl->buf->last; }] *)
Fixpoint consume_loop (fuel : nat) (cl : option addr) : M unit :=
  match cl with
  | None => mret tt
  | Some a =>
      match fuel with
      | O => fail F_fuel
      | S fuel =>
          write_link a (on_buf (fun b => set_pos (b_last b) b));;
          l ← link a;
          consume_loop fuel (cl_next l)
      end
  end.

(** [ngx_chain_update_chains] of nginx, which adds [*out] to [*busy] and moves the first links
    of [*busy] to [*free] while they are empty: the next values of [*free] and [*busy]. *)
Class NgxChains := {
  ngx_chain_update_chains : option addr -> option addr -> option addr -> Z -> M (option addr * option addr);
}.

(** A function that does so. *)
Module Reference.

Fixpoint last_link (fuel : nat) (cl : addr) : M addr :=
  match fuel with
  | O => fail F_fuel
  | S fuel =>
      l ← link cl;
      match cl_next l with
      | None => mret cl
      | Some next => last_link fuel next
      end
  end.

Fixpoint move_loop (fuel : nat) (free busy : option addr) (tag : Z)
    : M (option addr * option addr) :=
  match busy with
  | None => mret (free, None)
  | Some cl =>
      match fuel with
      | O => fail F_fuel
      | S fuel =>
          l ← link cl;
          if negb (b_tag (cl_buf l) =? tag) then
            ngx_free_chain cl;; move_loop fuel free (cl_next l) tag
          else
            size ← ngx_buf_size (cl_buf l);
            if negb (size =? 0) then mret (free, busy)
            else
              write_link cl (on_buf (fun b => set_last (b_start b) (set_pos (b_start b) b)));;
              write_link cl (set_next free);;
              move_loop fuel (Some cl) (cl_next l) tag
      end
  end.

#[export] Instance chains : NgxChains := {
  ngx_chain_update_chains free busy out tag :=
    busy ← (match busy, out with
            | Some b, Some _ =>
                e ← with_fuel (fun n => last_link n b); write_link e (set_next out);; mret busy
            | Some _, None => mret busy
            | None, _ => mret out
            end);
    with_fuel (fun n => move_loop n free busy tag);
}.

End Reference.

End Pointers.
