(* ===== verification/Readers.v ===== *)
(** * Reading the response of an HTTP call

    src/src/common/ngx_wa_readers.c and src/src/common/ngx_wasm_socket_tcp_readers.c: the reader
    which a socket calls on the bytes it received, parses the status line and the headers with
    nginx's parsers, keeps the pieces of the body in place and copies the body when it is
    complete.  It reads from the buffer of the socket, which overlays its last input buffer, and
    moves to a large buffer when a line does not fit. *)
From S2P Require Import Prelude NginxCore Pointers.
From stdpp Require Export list gmap.
#[global] Open Scope Z_scope.

Module Readers.
Import Pointers.

(** ** Data *)

(** [ngx_http_status_t] *)
Record ngx_http_status_t := {
  st_http_version : Z;
  st_code : Z;
  st_count : Z;
  st_start : ptr;
  st_end : ptr;
}.

(** What nginx's parser of header lines keeps in the request. *)
Record header_line := {
  hl_hash : Z;
  hl_lowcase_header : bytes;
  hl_lowcase_index : Z;
  hl_name_start : ptr;
  hl_name_end : ptr;
  hl_start : ptr;
  hl_end : ptr;
}.

(** [ngx_http_chunked_t] *)
Record ngx_http_chunked_t := {
  ch_state : Z;
  ch_size : Z;
  ch_length : Z;
}.

(** A header of the response. *)
Record upstream_header := {
  h_hash : Z;
  h_key : bytes;
  h_value : bytes;
  h_lowcase_key : bytes;
}.

(** [r->upstream->headers_in] *)
Record headers_in_t := {
  hi_status_n : Z;
  hi_status_line : option bytes;
  hi_connection_close : bool;
  hi_content_length_n : Z;
  hi_chunked : bool;
  hi_headers : list upstream_header;
}.

(** [ngx_wasm_http_reader_ctx_t], with the fields of its fake request which the parsers use:
    [rd_request_start], set along with [r->header_in], which is the buffer of the socket from
    then on; [rd_state]; [rd_hline].  [rd_upstream] is [None] before
    [ngx_wasm_http_reader_init]; [rd_headers_len] is [None] when it was computed from pointers
    into different buffers. *)
Record reader_t := {
  rd_request_start : ptr;
  rd_state : Z;
  rd_hline : header_line;
  rd_upstream : option headers_in_t;
  rd_status : ngx_http_status_t;
  rd_chunked : ngx_http_chunked_t;
  rd_status_code : Z;
  rd_chunks : option addr;
  rd_body : option addr;
  rd_headers_len : option Z;
  rd_body_len : Z;
  rd_rest : Z;
  rd_header_done : bool;
}.

(** The buffers of a socket. *)
Record sock_bufs := {
  sb_buffer_size : Z;
  sb_buffer_reuse : bool;
  sb_free_bufs : option addr;
  sb_busy_bufs : option addr;
  sb_bufs_in : option addr;
  sb_buf_in : option addr;
  sb_buffer : ngx_buf_t;
  sb_lbusy : Z;
  sb_busy_large_bufs : option addr;
}.

Definition zero_status : ngx_http_status_t :=
  {| st_http_version := 0; st_code := 0; st_count := 0; st_start := NULL; st_end := NULL |}.
Definition zero_line : header_line :=
  {| hl_hash := 0; hl_lowcase_header := []; hl_lowcase_index := 0; hl_name_start := NULL;
     hl_name_end := NULL; hl_start := NULL; hl_end := NULL |}.
Definition zero_chunked : ngx_http_chunked_t := {| ch_state := 0; ch_size := 0; ch_length := 0 |}.
Definition zero_reader : reader_t :=
  {| rd_request_start := NULL; rd_state := 0; rd_hline := zero_line; rd_upstream := None;
     rd_status := zero_status; rd_chunked := zero_chunked; rd_status_code := 0; rd_chunks := None;
     rd_body := None; rd_headers_len := Some 0; rd_body_len := 0; rd_rest := 0;
     rd_header_done := false |}.
Definition zero_bufs : sock_bufs :=
  {| sb_buffer_size := 0; sb_buffer_reuse := false; sb_free_bufs := None; sb_busy_bufs := None;
     sb_bufs_in := None; sb_buf_in := None; sb_buffer := zero_buf; sb_lbusy := 0;
     sb_busy_large_bufs := None |}.

Definition set_status_n (v : Z) (x : headers_in_t) : headers_in_t :=
  {| hi_status_n := v; hi_status_line := hi_status_line x; hi_connection_close :=
     hi_connection_close x; hi_content_length_n := hi_content_length_n x; hi_chunked := hi_chunked
     x; hi_headers := hi_headers x |}.
Definition set_status_line (v : option bytes) (x : headers_in_t) : headers_in_t :=
  {| hi_status_n := hi_status_n x; hi_status_line := v; hi_connection_close :=
     hi_connection_close x; hi_content_length_n := hi_content_length_n x; hi_chunked := hi_chunked
     x; hi_headers := hi_headers x |}.
Definition set_connection_close (v : bool) (x : headers_in_t) : headers_in_t :=
  {| hi_status_n := hi_status_n x; hi_status_line := hi_status_line x; hi_connection_close := v;
     hi_content_length_n := hi_content_length_n x; hi_chunked := hi_chunked x; hi_headers :=
     hi_headers x |}.
Definition set_content_length_n (v : Z) (x : headers_in_t) : headers_in_t :=
  {| hi_status_n := hi_status_n x; hi_status_line := hi_status_line x; hi_connection_close :=
     hi_connection_close x; hi_content_length_n := v; hi_chunked := hi_chunked x; hi_headers :=
     hi_headers x |}.
Definition set_chunked (v : bool) (x : headers_in_t) : headers_in_t :=
  {| hi_status_n := hi_status_n x; hi_status_line := hi_status_line x; hi_connection_close :=
     hi_connection_close x; hi_content_length_n := hi_content_length_n x; hi_chunked := v;
     hi_headers := hi_headers x |}.
Definition set_headers (v : list upstream_header) (x : headers_in_t) : headers_in_t :=
  {| hi_status_n := hi_status_n x; hi_status_line := hi_status_line x; hi_connection_close :=
     hi_connection_close x; hi_content_length_n := hi_content_length_n x; hi_chunked := hi_chunked
     x; hi_headers := v |}.
Definition set_request_start (v : ptr) (x : reader_t) : reader_t :=
  {| rd_request_start := v; rd_state := rd_state x; rd_hline := rd_hline x; rd_upstream :=
     rd_upstream x; rd_status := rd_status x; rd_chunked := rd_chunked x; rd_status_code :=
     rd_status_code x; rd_chunks := rd_chunks x; rd_body := rd_body x; rd_headers_len :=
     rd_headers_len x; rd_body_len := rd_body_len x; rd_rest := rd_rest x; rd_header_done :=
     rd_header_done x |}.
Definition set_state (v : Z) (x : reader_t) : reader_t :=
  {| rd_request_start := rd_request_start x; rd_state := v; rd_hline := rd_hline x; rd_upstream
     := rd_upstream x; rd_status := rd_status x; rd_chunked := rd_chunked x; rd_status_code :=
     rd_status_code x; rd_chunks := rd_chunks x; rd_body := rd_body x; rd_headers_len :=
     rd_headers_len x; rd_body_len := rd_body_len x; rd_rest := rd_rest x; rd_header_done :=
     rd_header_done x |}.
Definition set_hline (v : header_line) (x : reader_t) : reader_t :=
  {| rd_request_start := rd_request_start x; rd_state := rd_state x; rd_hline := v; rd_upstream
     := rd_upstream x; rd_status := rd_status x; rd_chunked := rd_chunked x; rd_status_code :=
     rd_status_code x; rd_chunks := rd_chunks x; rd_body := rd_body x; rd_headers_len :=
     rd_headers_len x; rd_body_len := rd_body_len x; rd_rest := rd_rest x; rd_header_done :=
     rd_header_done x |}.
Definition set_upstream (v : option headers_in_t) (x : reader_t) : reader_t :=
  {| rd_request_start := rd_request_start x; rd_state := rd_state x; rd_hline := rd_hline x;
     rd_upstream := v; rd_status := rd_status x; rd_chunked := rd_chunked x; rd_status_code :=
     rd_status_code x; rd_chunks := rd_chunks x; rd_body := rd_body x; rd_headers_len :=
     rd_headers_len x; rd_body_len := rd_body_len x; rd_rest := rd_rest x; rd_header_done :=
     rd_header_done x |}.
Definition set_status (v : ngx_http_status_t) (x : reader_t) : reader_t :=
  {| rd_request_start := rd_request_start x; rd_state := rd_state x; rd_hline := rd_hline x;
     rd_upstream := rd_upstream x; rd_status := v; rd_chunked := rd_chunked x; rd_status_code :=
     rd_status_code x; rd_chunks := rd_chunks x; rd_body := rd_body x; rd_headers_len :=
     rd_headers_len x; rd_body_len := rd_body_len x; rd_rest := rd_rest x; rd_header_done :=
     rd_header_done x |}.
Definition set_chunks_state (v : ngx_http_chunked_t) (x : reader_t) : reader_t :=
  {| rd_request_start := rd_request_start x; rd_state := rd_state x; rd_hline := rd_hline x;
     rd_upstream := rd_upstream x; rd_status := rd_status x; rd_chunked := v; rd_status_code :=
     rd_status_code x; rd_chunks := rd_chunks x; rd_body := rd_body x; rd_headers_len :=
     rd_headers_len x; rd_body_len := rd_body_len x; rd_rest := rd_rest x; rd_header_done :=
     rd_header_done x |}.
Definition set_status_code (v : Z) (x : reader_t) : reader_t :=
  {| rd_request_start := rd_request_start x; rd_state := rd_state x; rd_hline := rd_hline x;
     rd_upstream := rd_upstream x; rd_status := rd_status x; rd_chunked := rd_chunked x;
     rd_status_code := v; rd_chunks := rd_chunks x; rd_body := rd_body x; rd_headers_len :=
     rd_headers_len x; rd_body_len := rd_body_len x; rd_rest := rd_rest x; rd_header_done :=
     rd_header_done x |}.
Definition set_chunks (v : option addr) (x : reader_t) : reader_t :=
  {| rd_request_start := rd_request_start x; rd_state := rd_state x; rd_hline := rd_hline x;
     rd_upstream := rd_upstream x; rd_status := rd_status x; rd_chunked := rd_chunked x;
     rd_status_code := rd_status_code x; rd_chunks := v; rd_body := rd_body x; rd_headers_len :=
     rd_headers_len x; rd_body_len := rd_body_len x; rd_rest := rd_rest x; rd_header_done :=
     rd_header_done x |}.
Definition set_body (v : option addr) (x : reader_t) : reader_t :=
  {| rd_request_start := rd_request_start x; rd_state := rd_state x; rd_hline := rd_hline x;
     rd_upstream := rd_upstream x; rd_status := rd_status x; rd_chunked := rd_chunked x;
     rd_status_code := rd_status_code x; rd_chunks := rd_chunks x; rd_body := v; rd_headers_len :=
     rd_headers_len x; rd_body_len := rd_body_len x; rd_rest := rd_rest x; rd_header_done :=
     rd_header_done x |}.
Definition set_headers_len (v : option Z) (x : reader_t) : reader_t :=
  {| rd_request_start := rd_request_start x; rd_state := rd_state x; rd_hline := rd_hline x;
     rd_upstream := rd_upstream x; rd_status := rd_status x; rd_chunked := rd_chunked x;
     rd_status_code := rd_status_code x; rd_chunks := rd_chunks x; rd_body := rd_body x;
     rd_headers_len := v; rd_body_len := rd_body_len x; rd_rest := rd_rest x; rd_header_done :=
     rd_header_done x |}.
Definition set_body_len (v : Z) (x : reader_t) : reader_t :=
  {| rd_request_start := rd_request_start x; rd_state := rd_state x; rd_hline := rd_hline x;
     rd_upstream := rd_upstream x; rd_status := rd_status x; rd_chunked := rd_chunked x;
     rd_status_code := rd_status_code x; rd_chunks := rd_chunks x; rd_body := rd_body x;
     rd_headers_len := rd_headers_len x; rd_body_len := v; rd_rest := rd_rest x; rd_header_done :=
     rd_header_done x |}.
Definition set_rest (v : Z) (x : reader_t) : reader_t :=
  {| rd_request_start := rd_request_start x; rd_state := rd_state x; rd_hline := rd_hline x;
     rd_upstream := rd_upstream x; rd_status := rd_status x; rd_chunked := rd_chunked x;
     rd_status_code := rd_status_code x; rd_chunks := rd_chunks x; rd_body := rd_body x;
     rd_headers_len := rd_headers_len x; rd_body_len := rd_body_len x; rd_rest := v; rd_header_done
     := rd_header_done x |}.
Definition set_header_done (v : bool) (x : reader_t) : reader_t :=
  {| rd_request_start := rd_request_start x; rd_state := rd_state x; rd_hline := rd_hline x;
     rd_upstream := rd_upstream x; rd_status := rd_status x; rd_chunked := rd_chunked x;
     rd_status_code := rd_status_code x; rd_chunks := rd_chunks x; rd_body := rd_body x;
     rd_headers_len := rd_headers_len x; rd_body_len := rd_body_len x; rd_rest := rd_rest x;
     rd_header_done := v |}.
Definition set_buffer_size (v : Z) (x : sock_bufs) : sock_bufs :=
  {| sb_buffer_size := v; sb_buffer_reuse := sb_buffer_reuse x; sb_free_bufs := sb_free_bufs x;
     sb_busy_bufs := sb_busy_bufs x; sb_bufs_in := sb_bufs_in x; sb_buf_in := sb_buf_in x;
     sb_buffer := sb_buffer x; sb_lbusy := sb_lbusy x; sb_busy_large_bufs := sb_busy_large_bufs x
     |}.
Definition set_buffer_reuse (v : bool) (x : sock_bufs) : sock_bufs :=
  {| sb_buffer_size := sb_buffer_size x; sb_buffer_reuse := v; sb_free_bufs := sb_free_bufs x;
     sb_busy_bufs := sb_busy_bufs x; sb_bufs_in := sb_bufs_in x; sb_buf_in := sb_buf_in x;
     sb_buffer := sb_buffer x; sb_lbusy := sb_lbusy x; sb_busy_large_bufs := sb_busy_large_bufs x
     |}.
Definition set_free_bufs (v : option addr) (x : sock_bufs) : sock_bufs :=
  {| sb_buffer_size := sb_buffer_size x; sb_buffer_reuse := sb_buffer_reuse x; sb_free_bufs :=
     v; sb_busy_bufs := sb_busy_bufs x; sb_bufs_in := sb_bufs_in x; sb_buf_in := sb_buf_in x;
     sb_buffer := sb_buffer x; sb_lbusy := sb_lbusy x; sb_busy_large_bufs := sb_busy_large_bufs x
     |}.
Definition set_busy_bufs (v : option addr) (x : sock_bufs) : sock_bufs :=
  {| sb_buffer_size := sb_buffer_size x; sb_buffer_reuse := sb_buffer_reuse x; sb_free_bufs :=
     sb_free_bufs x; sb_busy_bufs := v; sb_bufs_in := sb_bufs_in x; sb_buf_in := sb_buf_in x;
     sb_buffer := sb_buffer x; sb_lbusy := sb_lbusy x; sb_busy_large_bufs := sb_busy_large_bufs x
     |}.
Definition set_bufs_in (v : option addr) (x : sock_bufs) : sock_bufs :=
  {| sb_buffer_size := sb_buffer_size x; sb_buffer_reuse := sb_buffer_reuse x; sb_free_bufs :=
     sb_free_bufs x; sb_busy_bufs := sb_busy_bufs x; sb_bufs_in := v; sb_buf_in := sb_buf_in x;
     sb_buffer := sb_buffer x; sb_lbusy := sb_lbusy x; sb_busy_large_bufs := sb_busy_large_bufs x
     |}.
Definition set_buf_in (v : option addr) (x : sock_bufs) : sock_bufs :=
  {| sb_buffer_size := sb_buffer_size x; sb_buffer_reuse := sb_buffer_reuse x; sb_free_bufs :=
     sb_free_bufs x; sb_busy_bufs := sb_busy_bufs x; sb_bufs_in := sb_bufs_in x; sb_buf_in := v;
     sb_buffer := sb_buffer x; sb_lbusy := sb_lbusy x; sb_busy_large_bufs := sb_busy_large_bufs x
     |}.
Definition set_buffer (v : ngx_buf_t) (x : sock_bufs) : sock_bufs :=
  {| sb_buffer_size := sb_buffer_size x; sb_buffer_reuse := sb_buffer_reuse x; sb_free_bufs :=
     sb_free_bufs x; sb_busy_bufs := sb_busy_bufs x; sb_bufs_in := sb_bufs_in x; sb_buf_in :=
     sb_buf_in x; sb_buffer := v; sb_lbusy := sb_lbusy x; sb_busy_large_bufs := sb_busy_large_bufs
     x |}.
Definition set_lbusy (v : Z) (x : sock_bufs) : sock_bufs :=
  {| sb_buffer_size := sb_buffer_size x; sb_buffer_reuse := sb_buffer_reuse x; sb_free_bufs :=
     sb_free_bufs x; sb_busy_bufs := sb_busy_bufs x; sb_bufs_in := sb_bufs_in x; sb_buf_in :=
     sb_buf_in x; sb_buffer := sb_buffer x; sb_lbusy := v; sb_busy_large_bufs := sb_busy_large_bufs
     x |}.
Definition set_busy_large_bufs (v : option addr) (x : sock_bufs) : sock_bufs :=
  {| sb_buffer_size := sb_buffer_size x; sb_buffer_reuse := sb_buffer_reuse x; sb_free_bufs :=
     sb_free_bufs x; sb_busy_bufs := sb_busy_bufs x; sb_bufs_in := sb_bufs_in x; sb_buf_in :=
     sb_buf_in x; sb_buffer := sb_buffer x; sb_lbusy := sb_lbusy x; sb_busy_large_bufs := v |}.

(** What a reader works on: the memory, the free buffers of the request ([rctx->free_bufs]),
    the buffers of its socket, and itself. *)
Record rstate := {
  rs_mem : mem;
  rs_free : option addr;
  rs_sock : sock_bufs;
  rs_reader : reader_t;
}.

Definition with_mem (m : mem) (s : rstate) : rstate :=
  {| rs_mem := m; rs_free := rs_free s; rs_sock := rs_sock s; rs_reader := rs_reader s |}.
Definition with_free (v : option addr) (s : rstate) : rstate :=
  {| rs_mem := rs_mem s; rs_free := v; rs_sock := rs_sock s; rs_reader := rs_reader s |}.
Definition with_sock (f : sock_bufs -> sock_bufs) (s : rstate) : rstate :=
  {| rs_mem := rs_mem s; rs_free := rs_free s; rs_sock := f (rs_sock s); rs_reader := rs_reader s |}.
Definition with_reader (f : reader_t -> reader_t) (s : rstate) : rstate :=
  {| rs_mem := rs_mem s; rs_free := rs_free s; rs_sock := rs_sock s; rs_reader := f (rs_reader s) |}.

Abbreviation R := (SM rstate).

Definition rgets {A} (f : rstate -> A) : R A := fun s => Ret (f s, s).
Definition rputs (f : rstate -> rstate) : R unit := fun s => Ret (tt, f s).
Definition on_mem {A} (m : M A) : R A := fun s =>
  match m (rs_mem s) with
  | Ret (x, h) => Ret (x, with_mem h s)
  | Fault f => Fault f
  end.

(** [src], the buffer of the socket. *)
Definition src : R ngx_buf_t := rgets (fun s => sb_buffer (rs_sock s)).
Definition set_src (b : ngx_buf_t) : R unit := rputs (with_sock (set_buffer b)).

(** The bytes of [src] from its position. *)
Definition src_bytes : R bytes :=
  b ← src; n ← on_mem (distance (b_last b) (b_pos b)); on_mem (load (b_pos b) n).

(** [src->pos += n] *)
Definition advance (n : Z) : R unit := b ← src; set_src (set_pos (padd (b_pos b) n) b).

(** [r->upstream->headers_in] *)
Definition headers_in : R headers_in_t := o ← rgets (fun s => rd_upstream (rs_reader s)); slift (deref o).
Definition set_headers_in (f : headers_in_t -> headers_in_t) : R unit :=
  h ← headers_in; rputs (with_reader (set_upstream (Some (f h)))).

(** [rctx->free_bufs] *)
Definition free_buf (len tag : Z) (reuse : bool) : R (option addr) :=
  free ← rgets rs_free;
  '(cl, free) ← on_mem (ngx_wasm_chain_get_free_buf free len tag reuse);
  rputs (with_free free);; mret cl.

(** ** What the reader calls

    The parsers of nginx: what they answer, the state they keep, and how many bytes they took.
    The parsers of lines are told where the bytes are, as they keep pointers to them.
    [upstream_header_handler] is the handler of the hash [headers_in_hash], the identity when
    the header has none; [None] is an error. *)
Inductive parse_rc := PARSE_OK | PARSE_AGAIN | PARSE_HEADER_DONE | PARSE_INVALID_HEADER.

Class HttpParsers := {
  ngx_http_parse_status_line : Z -> ngx_http_status_t -> ptr -> bytes ->
    ngx_rc * Z * ngx_http_status_t * Z;
  ngx_http_parse_header_line : Z -> header_line -> ptr -> bytes -> parse_rc * Z * header_line * Z;
  ngx_http_parse_chunked : ngx_http_chunked_t -> bytes -> ngx_rc * ngx_http_chunked_t * Z;
  upstream_header_handler : upstream_header -> headers_in_t -> option headers_in_t;
  ngx_strlow : bytes -> bytes;
}.

Section readers.
Context `{HttpParsers}.

(** [debug]; [buf_tag] of the environment; the number and the size of
    [wasm_socket_large_buffers]; whether there is an [http] block. *)
Context (debug : bool) (buf_tag large_num large_size : Z) (http_block : bool).

(** ** [ngx_wa_read_bytes] *)

Definition ngx_wa_read_bytes (buf_in : addr) (bytes : Z) (rest : Z) : R (ngx_rc * Z) :=
  if bytes =? 0 then mret (NGX_ERROR, rest)
  else if rest <=? wrap64 bytes then
    advance rest;;
    b ← src;
    on_mem (write_link buf_in (on_buf (set_last (b_pos b))));;
    mret (NGX_OK, 0)
  else
    on_mem (write_link buf_in (on_buf (fun b => set_last (padd (b_last b) bytes) b)));;
    advance bytes;;
    mret (NGX_AGAIN, wrap64 (rest - bytes)).

(** ** [ngx_wasm_http_alloc_large_buffer] *)

(** The pointers of the parser which move with the status line, and with a header.  The others
    that the function moves when they are set ([request_end], [schema_start], the data of
    [http_protocol] and of [status_line]) are not set while a status line is parsed. *)
Definition move_status (new old : ptr) (st : ngx_http_status_t) : ngx_http_status_t :=
  if set (st_start st) then
    {| st_http_version := st_http_version st; st_code := st_code st; st_count := st_count st;
       st_start := relocate new old (st_start st);
       st_end := if set (st_end st) then relocate new old (st_end st) else st_end st |}
  else st.

Definition move_line (new old : ptr) (l : header_line) : header_line :=
  {| hl_hash := hl_hash l; hl_lowcase_header := hl_lowcase_header l;
     hl_lowcase_index := hl_lowcase_index l; hl_name_start := new;
     hl_name_end := relocate new old (hl_name_end l); hl_start := relocate new old (hl_start l);
     hl_end := relocate new old (hl_end l) |}.

Definition ngx_wasm_http_alloc_large_buffer : R ngx_rc :=
  r ← rgets rs_reader;
  let parsed := negb (rd_status_code r =? 0) in
  let old := if parsed then hl_name_start (rd_hline r) else rd_request_start r in
  if negb parsed && (rd_state r =? 0) then
    (* buffer filled with "\r\n" *)
    b ← src; set_src (set_last (b_start b) (set_pos (b_start b) b));; mret NGX_OK
  else
    b ← src;
    kept ← (if rd_state r =? 0 then mret 0 else on_mem (distance (b_pos b) old));
    if negb (rd_state r =? 0) && (large_size <=? wrap64 kept) then mret NGX_DECLINED
    else
      lbusy ← rgets (fun s => sb_lbusy (rs_sock s));
      if negb (lbusy <? large_num) then mret NGX_DECLINED
      else
        o ← on_mem (ngx_create_temp_buf large_size);
        match o with
        | None => mret NGX_ERROR
        | Some nb =>
            ok ← on_mem palloc;
            if negb ok then mret NGX_ERROR
            else
              cl ← on_mem (new_link nb);
              busy ← rgets (fun s => sb_busy_large_bufs (rs_sock s));
              on_mem (write_link cl (set_next busy));;
              rputs (with_sock (set_busy_large_bufs (Some cl)));;
              rputs (with_sock (set_lbusy (lbusy + 1)));;
              if rd_state r =? 0 then set_src nb;; mret NGX_OK
              else
                room ← on_mem (distance (b_end nb) (b_start nb));
                slift (ngx_wa_assert debug (kept <=? room));;
                let new := b_start nb in
                data ← on_mem (load old kept);
                on_mem (store new data);;
                let nb := set_last (padd new kept) (set_pos (padd new kept) nb) in
                on_mem (write_link cl (on_buf (fun _ => nb)));;
                (if parsed then rputs (with_reader (fun r => set_hline (move_line new old (rd_hline r)) r))
                 else
                   rputs (with_reader (fun r =>
                     set_status (move_status new old (rd_status r)) (set_request_start new r))));;
                rputs (with_sock (set_buf_in (Some cl)));;
                set_src nb;;
                mret NGX_OK
        end.

(** [if (src->last == src->end)], after a parser that needs more bytes. *)
Definition more : R ngx_rc :=
  b ← src;
  if bool_decide (b_last b = b_end b) then
    rc ← ngx_wasm_http_alloc_large_buffer;
    match rc with
    | NGX_ERROR | NGX_DECLINED => mret NGX_ERROR
    | _ => mret NGX_AGAIN
    end
  else mret NGX_AGAIN.

(** ** [ngx_wasm_read_http_response]

    A step returns [Some rc] where the function returns [rc], and [None] where it goes on. *)

(** The status line. *)
Definition read_status_line (buf_in : addr) : R ngx_rc :=
  r ← rgets rs_reader;
  b ← src;
  data ← src_bytes;
  let '(rc, state, status, n) := ngx_http_parse_status_line (rd_state r) (rd_status r) (b_pos b) data in
  rputs (with_reader (fun r => set_status status (set_state state r)));;
  advance n;;
  match rc with
  | NGX_ERROR => mret NGX_ERROR
  | NGX_AGAIN => more
  | _ =>
      slift (ngx_wa_assert debug (is_ok rc));;
      b ← src;
      on_mem (write_link buf_in (on_buf (set_last (b_pos b))));;
      set_headers_in (set_status_n (st_code status));;
      len ← on_mem (distance (st_end status) (st_start status));
      ok ← on_mem palloc;
      if negb ok then mret NGX_ERROR
      else
        line ← on_mem (load (st_start status) len);
        set_headers_in (set_status_line (Some line));;
        (if st_http_version status <? 1001 then set_headers_in (set_connection_close true) else mret tt);;
        h ← headers_in;
        rputs (with_reader (set_status_code (hi_status_n h)));;
        mret NGX_AGAIN
  end.

(** A header, once its line is parsed. *)
Definition push_header : R (option ngx_rc) :=
  l ← rgets (fun s => rd_hline (rs_reader s));
  pushed ← on_mem palloc;
  if negb pushed then mret (Some NGX_ERROR)
  else
    key_len ← on_mem (distance (hl_name_end l) (hl_name_start l));
    value_len ← on_mem (distance (hl_end l) (hl_start l));
    ok ← on_mem palloc;
    if negb ok then mret (Some NGX_ERROR)
    else
      key ← on_mem (load (hl_name_start l) key_len);
      value ← on_mem (load (hl_start l) value_len);
      let lowcase := if key_len =? hl_lowcase_index l
                     then take (Z.to_nat key_len) (hl_lowcase_header l) else ngx_strlow key in
      let h := {| h_hash := hl_hash l; h_key := key; h_value := value; h_lowcase_key := lowcase |} in
      set_headers_in (fun x => set_headers (hi_headers x ++ [h]) x);;
      hin ← headers_in;
      match upstream_header_handler h hin with
      | None => mret (Some NGX_ERROR)
      | Some hin => set_headers_in (fun _ => hin);; mret None
      end.

(** The loop over the headers: [bytes] is what the function was called with. *)
Fixpoint headers_loop (fuel : nat) (buf_in : addr) (bytes : Z) : R (option ngx_rc) :=
  match fuel with
  | O => fun _ => Fault F_fuel
  | S fuel =>
      r ← rgets rs_reader;
      b ← src;
      data ← src_bytes;
      let '(rc, state, line, n) := ngx_http_parse_header_line (rd_state r) (rd_hline r) (b_pos b) data in
      rputs (with_reader (fun r => set_hline line (set_state state r)));;
      advance n;;
      match rc with
      | PARSE_INVALID_HEADER => mret (Some NGX_ERROR)
      | PARSE_AGAIN => rc ← more; mret (Some rc)
      | PARSE_HEADER_DONE =>
          b ← src;
          on_mem (write_link buf_in (on_buf (set_last (b_pos b))));;
          rputs (with_reader (set_header_done true));;
          l ← on_mem (link buf_in);
          rputs (with_reader (set_headers_len (pdiff (b_last (cl_buf l)) (b_start (cl_buf l)))));;
          taken ← on_mem (distance (b_pos b) (b_start b));
          if bytes <=? taken then
            h ← headers_in;
            mret (Some (if hi_content_length_n h =? 0 then NGX_OK else NGX_AGAIN))
          else mret None
      | PARSE_OK =>
          b ← src;
          on_mem (write_link buf_in (on_buf (set_last (b_pos b))));;
          o ← push_header;
          match o with
          | Some rc => mret (Some rc)
          | None => headers_loop fuel buf_in bytes
          end
      end
  end.

(** The last link of [in_ctx->chunks]. *)
Fixpoint tail_loop (fuel : nat) (ll : option addr) : M (option addr) :=
  match ll with
  | None => mret None
  | Some a =>
      match fuel with
      | O => Pointers.fail F_fuel
      | S fuel =>
          l ← link a;
          match cl_next l with
          | None => mret (Some a)
          | Some next => tail_loop fuel (Some next)
          end
      end
  end.

(** A piece of the body: a link over the bytes that came, at the end of [in_ctx->chunks]. *)
Definition read_piece (buf_in : addr) : R ngx_rc :=
  chunks ← rgets (fun s => rd_chunks (rs_reader s));
  ll ← on_mem (with_fuel (fun n => tail_loop n chunks));
  rest ← rgets (fun s => rd_rest (rs_reader s));
  reuse ← rgets (fun s => sb_buffer_reuse (rs_sock s));
  cl ← free_buf rest buf_tag reuse;
  match cl with
  | None => mret NGX_ERROR
  | Some cl =>
      on_mem (write_link cl (on_buf (fun _ => zero_buf)));;
      i ← on_mem (link buf_in);
      on_mem (write_link cl (on_buf (fun b =>
        {| b_pos := b_pos b; b_last := b_last b; b_start := b_start (cl_buf i);
           b_end := b_end b; b_tag := b_tag b; b_temporary := b_temporary b |})));;
      i ← on_mem (link buf_in);
      on_mem (write_link cl (on_buf (fun b =>
        {| b_pos := b_pos b; b_last := b_last b; b_start := b_start b;
           b_end := b_end (cl_buf i); b_tag := b_tag b; b_temporary := b_temporary b |})));;
      (match ll with
       | None => rputs (with_reader (set_chunks (Some cl)))
       | Some ll => on_mem (write_link ll (set_next (Some cl)))
       end);;
      b ← src;
      on_mem (write_link cl (on_buf (set_pos (b_pos b))));;
      bytes ← on_mem (ngx_buf_size b);
      '(rc, rest) ← ngx_wa_read_bytes buf_in bytes rest;
      rputs (with_reader (set_rest rest));;
      i ← on_mem (link buf_in);
      on_mem (write_link cl (on_buf (set_last (b_last (cl_buf i)))));;
      mret rc
  end.

(** The loop over the body. *)
Fixpoint body_loop (fuel : nat) (buf_in : addr) : R (option ngx_rc) :=
  match fuel with
  | O => fun _ => Fault F_fuel
  | S fuel =>
      h ← headers_in;
      r ← rgets rs_reader;
      (* what is left of the body, or of its chunk *)
      o ← (if hi_chunked h && (rd_rest r =? 0) then
             data ← src_bytes;
             let '(rc, chunked, n) := ngx_http_parse_chunked (rd_chunked r) data in
             rputs (with_reader (set_chunks_state chunked));;
             advance n;;
             match rc with
             | NGX_ERROR | NGX_AGAIN => mret (inl (Some rc))
             | _ =>
                 b ← src;
                 on_mem (write_link buf_in (on_buf (set_last (b_pos b))));;
                 match rc with
                 | NGX_DONE => mret (inl None)
                 | _ =>
                     slift (ngx_wa_assert debug (is_ok rc));;
                     rputs (with_reader (fun r =>
                       set_rest (ch_size chunked) (set_body_len (wrap64 (rd_body_len r + ch_size chunked)) r)));;
                     mret (inr tt)
                 end
             end
           else if 0 <=? hi_content_length_n h then
             (if rd_body_len r =? 0 then
                rputs (with_reader (fun r => set_rest (hi_content_length_n h) (set_body_len (hi_content_length_n h) r)))
              else mret tt);;
             rest ← rgets (fun s => rd_rest (rs_reader s));
             mret (if rest =? 0 then inl None else inr tt)
           else mret (inr tt));
      match o with
      | inl done => mret done
      | inr _ =>
          rc ← read_piece buf_in;
          match rc with
          | NGX_ERROR | NGX_AGAIN => mret (Some rc)
          | _ =>
              slift (ngx_wa_assert debug (is_ok rc));;
              rest ← rgets (fun s => rd_rest (rs_reader s));
              slift (ngx_wa_assert debug (rest =? 0));;
              rputs (with_reader (fun r =>
                set_chunks_state {| ch_state := ch_state (rd_chunked r); ch_size := 0;
                                    ch_length := ch_length (rd_chunked r) |} r));;
              body_loop fuel buf_in
          end
      end
  end.

(** The copy of the pieces, which outlives the socket. *)
Fixpoint copy_loop (fuel : nat) (cl : option addr) (body : addr) : R unit :=
  match cl with
  | None => mret tt
  | Some a =>
      match fuel with
      | O => fun _ => Fault F_fuel
      | S fuel =>
          l ← on_mem (link a);
          n ← on_mem (distance (b_last (cl_buf l)) (b_pos (cl_buf l)));
          (if n =? 0 then mret tt
           else
             data ← on_mem (load (b_pos (cl_buf l)) n);
             on_mem (cpymem body data));;
          copy_loop fuel (cl_next l) body
      end
  end.

Definition copy_body : R ngx_rc :=
  r ← rgets rs_reader;
  if rd_body_len r =? 0 then mret NGX_OK
  else
    reuse ← rgets (fun s => sb_buffer_reuse (rs_sock s));
    body ← free_buf (rd_body_len r) buf_tag reuse;
    rputs (with_reader (set_body body));;
    match body with
    | None => mret NGX_ERROR
    | Some body =>
        n ← rgets (fun s => links_fuel (rs_mem s));
        copy_loop n (rd_chunks r) body;;
        mret NGX_OK
    end.

(** [buf_in] is the last input buffer of the socket. *)
Definition ngx_wasm_read_http_response (buf_in : option addr) (bytes : Z) : R ngx_rc :=
  slift (ngx_wa_assert debug (negb (bytes =? 0)));;
  if negb http_block then mret NGX_ERROR
  else
    r ← rgets rs_reader;
    (if set (rd_request_start r) then mret tt
     else b ← src; rputs (with_reader (set_request_start (b_pos b))));;
    h ← headers_in;
    buf_in ← slift (deref buf_in);
    o ← (if rd_header_done r then mret None
         else if hi_status_n h =? 0 then rc ← read_status_line buf_in; mret (Some rc)
         else headers_loop (S (Z.to_nat bytes)) buf_in bytes);
    match o with
    | Some rc => mret rc
    | None =>
        h ← headers_in;
        o ← (if (0 <=? hi_content_length_n h) || hi_chunked h
             then body_loop (S (S (Z.to_nat bytes))) buf_in else mret None);
        match o with
        | Some rc => mret rc
        | None => copy_body
        end
    end.

(** ** [ngx_wasm_http_reader_init]

    [ok1] to [ok4]: whether the allocations succeed; the counters of the request are those of a
    new response. *)
Definition zero_headers_in : headers_in_t :=
  {| hi_status_n := 0; hi_status_line := None; hi_connection_close := false;
     hi_content_length_n := -1; hi_chunked := false; hi_headers := [] |}.

Definition ngx_wasm_http_reader_init : R ngx_rc :=
  r ← rgets rs_reader;
  slift (ngx_wa_assert debug (bool_decide (rd_upstream r = None)));;
  rputs (with_reader (fun r =>
    set_upstream None (set_hline zero_line (set_state 0 (set_request_start NULL r)))));;
  ok1 ← on_mem palloc;
  if negb ok1 then mret NGX_ERROR
  else
    ok2 ← on_mem palloc;
    if negb ok2 then mret NGX_ERROR
    else
      ok3 ← on_mem palloc;
      if negb ok3 then mret NGX_ERROR
      else
        rputs (with_reader (set_upstream (Some zero_headers_in)));;
        ok4 ← on_mem palloc;
        mret (if (ok4 : bool) then NGX_OK else NGX_ERROR).

(** ** [ngx_wasm_socket_read_http_response] (src/src/common/ngx_wasm_socket_tcp.c)

    The reader of the sockets of HTTP calls. *)
Definition ngx_wasm_socket_read_http_response (bytes : Z) : R ngx_rc :=
  if negb (bytes =? 0) then
    buf_in ← rgets (fun s => sb_buf_in (rs_sock s));
    ngx_wasm_read_http_response buf_in bytes
  else mret NGX_OK.

End readers.

End Readers.

(** ** Concrete runs *)

Module ReadersRuns.
Import Pointers Readers.

(** Parsers of a line, one state per byte. *)
Definition ch (c : String.string) : byte := match ngx_string c with b :: _ => b | [] => x00 end.
Arguments ch c%_string_scope.
Definition SP := ch " ".
Definition CR : byte := x0d.
Definition LF : byte := x0a.
Definition digit (b : byte) : Z := b2z b - 48.
Definition strlow (s : bytes) : bytes :=
  (fun b => if (65 <=? b2z b) && (b2z b <=? 90) then z2b (b2z b + 32) else b) <$> s.

Definition status_step (state : Z) (st : ngx_http_status_t) (p : ptr) (c : byte)
    : option (Z * ngx_http_status_t) :=
  let text := {| st_http_version := 1001; st_code := st_code st; st_count := 3;
                 st_start := st_start st; st_end := p |} in
  let code := {| st_http_version := 1001; st_code := 10 * st_code st + digit c; st_count := 0;
                 st_start := if state =? 2 then p else st_start st; st_end := st_end st |} in
  if bool_decide (c = LF) then None
  else if bool_decide (c = CR) then Some (5, text)
  else if state <=? 1 then Some (if bool_decide (c = SP) then 2 else 1, st)
  else if state <=? 3 then Some (if bool_decide (c = SP) then (4, st) else (3, code))
  else Some (4, st).

Fixpoint status_loop (state : Z) (st : ngx_http_status_t) (p : ptr) (n : Z) (data : bytes) :=
  match data with
  | [] => (NGX_AGAIN, state, st, n)
  | c :: data =>
      match status_step state st p c with
      | None => (NGX_OK, 0, st, n + 1)
      | Some (state, st) => status_loop state st (padd p 1) (n + 1) data
      end
  end.

Definition line_step (state : Z) (l : header_line) (p : ptr) (c : byte) : Z * header_line :=
  let name := {| hl_hash := 1; hl_lowcase_header := []; hl_lowcase_index := 0; hl_name_start := p;
                 hl_name_end := p; hl_start := hl_start l; hl_end := hl_end l |} in
  let name_end := {| hl_hash := 1; hl_lowcase_header := []; hl_lowcase_index := 0;
                     hl_name_start := hl_name_start l; hl_name_end := p; hl_start := hl_start l;
                     hl_end := hl_end l |} in
  let value := {| hl_hash := 1; hl_lowcase_header := []; hl_lowcase_index := 0;
                  hl_name_start := hl_name_start l; hl_name_end := hl_name_end l; hl_start := p;
                  hl_end := hl_end l |} in
  let value_end := {| hl_hash := 1; hl_lowcase_header := []; hl_lowcase_index := 0;
                      hl_name_start := hl_name_start l; hl_name_end := hl_name_end l;
                      hl_start := hl_start l; hl_end := p |} in
  if state =? 0 then (if bool_decide (c = CR) then (5, l) else (1, name))
  else if state =? 1 then (if bool_decide (c = ch ":") then (2, name_end) else (1, l))
  else if state =? 2 then (if bool_decide (c = SP) then (2, l) else (3, value))
  else if bool_decide (c = CR) then (4, value_end) else (state, l).

Fixpoint line_loop (state : Z) (l : header_line) (p : ptr) (n : Z) (data : bytes) :=
  match data with
  | [] => (PARSE_AGAIN, state, l, n)
  | c :: data =>
      if bool_decide (c = LF) then
        (if state =? 5 then PARSE_HEADER_DONE else PARSE_OK, 0, l, n + 1)
      else
        let '(state, l) := line_step state l p c in line_loop state l (padd p 1) (n + 1) data
  end.

(** The size of a chunk, its first byte, and what follows it. *)
Fixpoint chunked_loop (c : ngx_http_chunked_t) (n : Z) (data : bytes) :=
  match data with
  | [] => (NGX_AGAIN, c, n)
  | b :: data =>
      let next (state size : Z) := {| ch_state := state; ch_size := size; ch_length := 0 |} in
      if ch_state c =? 0 then
        chunked_loop (if bool_decide (b = CR) then next 1 (ch_size c) else next 0 (16 * ch_size c + digit b))
          (n + 1) data
      else if ch_state c =? 1 then
        (if ch_size c =? 0 then chunked_loop (next 5 0) (n + 1) data
         else chunked_loop (next 2 (ch_size c)) (n + 1) data)
      else if (ch_state c =? 2) && negb (ch_size c =? 0) then (NGX_OK, c, n)
      else if ch_state c =? 2 then chunked_loop (next 3 0) (n + 1) data
      else if ch_state c =? 3 then chunked_loop (next 0 0) (n + 1) data
      else if bool_decide (b = LF) then (NGX_DONE, c, n + 1)
      else chunked_loop c (n + 1) data
  end.

Definition atoi (s : bytes) : Z := foldl (fun n b => 10 * n + digit b) 0 s.

#[export] Instance parsers : HttpParsers := {
  ngx_http_parse_status_line state st p data := status_loop state st p 0 data;
  ngx_http_parse_header_line state l p data := line_loop state l p 0 data;
  ngx_http_parse_chunked c data := chunked_loop c 0 data;
  upstream_header_handler h hin :=
    Some (if bool_decide (h_lowcase_key h = ngx_string "content-length")
          then set_content_length_n (atoi (h_value h)) hin
          else if bool_decide (h_lowcase_key h = ngx_string "transfer-encoding")
          then set_chunked true hin else hin);
  ngx_strlow := strlow;
}.

Definition crlf (s : String.string) : bytes := ngx_string s ++ [CR; LF].
Arguments crlf s%_string_scope.

(** A socket whose input buffer, of [size] bytes, received [data]. *)
Definition ready : mem := {| m_regions := ∅; m_links := ∅; m_pool := replicate 50 true |}.
Definition start_of (size : Z) (reuse : bool) (m : mem) : outcome rstate :=
  match ngx_wasm_chain_get_free_buf None size 7 reuse m with
  | Ret (Some cl, _, m) =>
      let? l := deref (m_links m !! cl) in
      Ret {| rs_mem := m; rs_free := None;
             rs_sock := set_buffer (cl_buf l) (set_buf_in (Some cl) (set_bufs_in (Some cl)
                          (set_buffer_size size (set_buffer_reuse reuse zero_bufs))));
             rs_reader := set_upstream (Some zero_headers_in) zero_reader |}
  | _ => Fault F_memory
  end.

(** [c->recv(c, b->last, avail)] *)
Definition receive (data : bytes) : R unit :=
  b ← src; on_mem (store (b_last b) data);; set_src (set_last (padd (b_last b) (zlen data)) b).

(** The reader after every piece, until it answers. *)
Fixpoint pieces_loop (fuel : nat) (ps : list bytes) : R ngx_rc :=
  match fuel with
  | O => fun _ => Fault F_fuel
  | S fuel =>
      b ← src;
      n ← on_mem (ngx_buf_size b);
      rc ← (if n =? 0 then mret NGX_AGAIN
            else ngx_wasm_socket_read_http_response true 7 4 64 true n);
      b ← src;
      left ← on_mem (ngx_buf_size b);
      match rc with
      | NGX_AGAIN =>
          if negb (left =? 0) then pieces_loop fuel ps
          else match ps with
               | [] => mret NGX_AGAIN
               | p :: ps => receive p;; pieces_loop fuel ps
               end
      | _ => mret rc
      end
  end.

(** The code, the headers and the body the reader ends with. *)
Definition result (size : Z) (reuse : bool) (ps : list bytes) :=
  let? s := start_of size reuse ready in
  let? a := pieces_loop 100 ps s in
  let '(rc, s) := a in
  let body := match rd_body (rs_reader s) with
              | Some cl => l ← m_links (rs_mem s) !! cl;
                           n ← pdiff (b_last (cl_buf l)) (b_pos (cl_buf l));
                           match load (b_pos (cl_buf l)) n (rs_mem s) with
                           | Ret (d, _) => Some d
                           | _ => None
                           end
              | None => None
              end in
  Ret (rc, hi_status_n <$> rd_upstream (rs_reader s),
       (fun h => (h_key h, h_value h)) <$> default [] (hi_headers <$> rd_upstream (rs_reader s)), body).

Definition head : bytes := crlf "HTTP/1.1 200 OK" ++ crlf "A: b" ++ crlf "Content-Length: 5" ++ [CR; LF].

End ReadersRuns.
