(* ===== verification/SocketTcp.v ===== *)
(** * TCP sockets

    src/src/common/ngx_wasm_socket_tcp.c: the sockets of the HTTP calls, driven by the events of
    their connection.  A socket is resolved and connected, sends a chain of buffers, gives what
    it receives to a reader, and is closed; every event resumes the handler of its user.
    Sockets and readers live in a heap, by the address of the call that holds them: what uses
    a call that was freed is [Fault F_memory]. *)
From S2P Require Import Prelude NginxCore Pointers Readers.
From stdpp Require Export list gmap.
#[global] Open Scope Z_scope.

Module SocketTcp.
Import Pointers Readers.

(** ** Data *)

(** [ngx_wasm_socket_status_e], of a build with TLS. *)
Inductive ngx_wasm_socket_status_e :=
| STATUS_OK
| STATUS_BAD_ARGUMENT
| STATUS_TIMEOUT
| STATUS_BROKEN_CONNECTION
| STATUS_TLS_FAILURE
| STATUS_RESOLVER_FAILURE
| STATUS_READER_FAILURE
| STATUS_INTERNAL_FAILURE.

#[export] Instance status_eq_dec : EqDecision ngx_wasm_socket_status_e.
Proof. solve_decision. Defined.

(** The handlers of events of a socket; [no_handler] is [NULL]. *)
Inductive handler_pt := no_handler | nop_handler | connect_handler | send_handler | receive_handler.

(** [sa_port] is 0 where the address has none; [AF_UNIX] and the rest. *)
Inductive family := AF_INET | AF_INET6 | AF_UNIX.
#[export] Instance family_eq_dec : EqDecision family.
Proof. solve_decision. Defined.
Record sockaddr_t := { sa_family : family; sa_data : bytes; sa_port : Z }.

(** [ngx_url_t], as far as it is used: [u_addr] is the address and the
    name of [addrs[0]] when it has an address. *)
Record url_t := { u_url : bytes; u_host : bytes; u_port : Z; u_default_port : Z; u_addr : option (sockaddr_t * bytes) }.

(** [ngx_wasm_upstream_resolved_t] *)
Record resolved_t := { rv_host : bytes; rv_port : Z; rv_sockaddr : option sockaddr_t }.

(** [ngx_wasm_ssl_conf_t] *)
Record ssl_conf_t := { verify_cert : bool; verify_host : bool; no_verify_warn : bool }.

(** [c->ssl]: [ssl_handler] tells that the handler of the handshake is set. *)
Record ssl_t := { ssl_handshaked : bool; ssl_handler : bool; ssl_no_wait_shutdown : bool }.

(** [ngx_event_t]: [ev_timer] is the timeout of its timer, when it is set. *)
Record ngx_event_t := {
  ev_timer : option Z;
  ev_timedout : bool;
  ev_active : bool;
  ev_disabled : bool;
  ev_posted : bool;
  ev_ready : bool;
  ev_closed : bool;
}.

(** [ngx_connection_t]: [c_open] until it is closed; [c_pool] is whether [pool] is set. *)
Record ngx_connection_t := {
  c_read : ngx_event_t;
  c_write : ngx_event_t;
  c_pool : bool;
  c_error : bool;
  c_addr_text : option bytes;
  c_ssl : option ssl_t;
  c_open : bool;
}.

(** [ngx_wasm_socket_tcp_t].  [sk_env] and [sk_resume] tell whether [env] and [resume_handler]
    are set; [errlen] is the length of [sk_err], whose text [NULL] is [None];
    [sk_peer] is [peer.connection]. *)
Record sock_t := {
  sk_env : bool;
  sk_status : ngx_wasm_socket_status_e;
  sk_err : option bytes;
  sk_errno : Z;
  sk_lctx : option addr;
  sk_host : option bytes;
  sk_url : url_t;
  sk_resolved : resolved_t;
  sk_read_timeout : Z;
  sk_send_timeout : Z;
  sk_connect_timeout : Z;
  sk_bufs : sock_bufs;
  sk_peer : option ngx_connection_t;
  sk_peer_sockaddr : option sockaddr_t;
  sk_read_handler : handler_pt;
  sk_write_handler : handler_pt;
  sk_sni : option bytes;
  sk_ssl_server_name : option bytes;
  sk_ssl_conf : option ssl_conf_t;
  sk_connected : bool;
  sk_eof : bool;
  sk_closed : bool;
  sk_read_closed : bool;
  sk_write_closed : bool;
  sk_ssl_ready : bool;
  sk_resume : bool;
}.

Definition zero_event : ngx_event_t :=
  {| ev_timer := None; ev_timedout := false; ev_active := false; ev_disabled := false;
     ev_posted := false; ev_ready := false; ev_closed := false |}.
Definition zero_url : url_t :=
  {| u_url := []; u_host := []; u_port := 0; u_default_port := 0; u_addr := None |}.
Definition zero_sock : sock_t :=
  {| sk_env := false; sk_status := STATUS_OK; sk_err := None; sk_errno := 0; sk_lctx := None;
     sk_host := None; sk_url := zero_url;
     sk_resolved := {| rv_host := []; rv_port := 0; rv_sockaddr := None |};
     sk_read_timeout := 0; sk_send_timeout := 0; sk_connect_timeout := 0; sk_bufs := zero_bufs;
     sk_peer := None; sk_peer_sockaddr := None; sk_read_handler := no_handler;
     sk_write_handler := no_handler; sk_sni := None; sk_ssl_server_name := None;
     sk_ssl_conf := None; sk_connected := false; sk_eof := false; sk_closed := false;
     sk_read_closed := false; sk_write_closed := false; sk_ssl_ready := false; sk_resume := false |}.

Definition set_timer (v : option Z) (x : ngx_event_t) : ngx_event_t :=
  {| ev_timer := v; ev_timedout := ev_timedout x; ev_active := ev_active x; ev_disabled :=
     ev_disabled x; ev_posted := ev_posted x; ev_ready := ev_ready x; ev_closed := ev_closed x |}.
Definition set_posted (v : bool) (x : ngx_event_t) : ngx_event_t :=
  {| ev_timer := ev_timer x; ev_timedout := ev_timedout x; ev_active := ev_active x; ev_disabled
     := ev_disabled x; ev_posted := v; ev_ready := ev_ready x; ev_closed := ev_closed x |}.
Definition set_ready (v : bool) (x : ngx_event_t) : ngx_event_t :=
  {| ev_timer := ev_timer x; ev_timedout := ev_timedout x; ev_active := ev_active x; ev_disabled
     := ev_disabled x; ev_posted := ev_posted x; ev_ready := v; ev_closed := ev_closed x |}.
Definition set_closed (v : bool) (x : ngx_event_t) : ngx_event_t :=
  {| ev_timer := ev_timer x; ev_timedout := ev_timedout x; ev_active := ev_active x; ev_disabled
     := ev_disabled x; ev_posted := ev_posted x; ev_ready := ev_ready x; ev_closed := v |}.
Definition set_c_read (v : ngx_event_t) (x : ngx_connection_t) : ngx_connection_t :=
  {| c_read := v; c_write := c_write x; c_pool := c_pool x; c_error := c_error x; c_addr_text :=
     c_addr_text x; c_ssl := c_ssl x; c_open := c_open x |}.
Definition set_c_write (v : ngx_event_t) (x : ngx_connection_t) : ngx_connection_t :=
  {| c_read := c_read x; c_write := v; c_pool := c_pool x; c_error := c_error x; c_addr_text :=
     c_addr_text x; c_ssl := c_ssl x; c_open := c_open x |}.
Definition set_c_pool (v : bool) (x : ngx_connection_t) : ngx_connection_t :=
  {| c_read := c_read x; c_write := c_write x; c_pool := v; c_error := c_error x; c_addr_text :=
     c_addr_text x; c_ssl := c_ssl x; c_open := c_open x |}.
Definition set_c_error (v : bool) (x : ngx_connection_t) : ngx_connection_t :=
  {| c_read := c_read x; c_write := c_write x; c_pool := c_pool x; c_error := v; c_addr_text :=
     c_addr_text x; c_ssl := c_ssl x; c_open := c_open x |}.
Definition set_c_addr_text (v : option bytes) (x : ngx_connection_t) : ngx_connection_t :=
  {| c_read := c_read x; c_write := c_write x; c_pool := c_pool x; c_error := c_error x;
     c_addr_text := v; c_ssl := c_ssl x; c_open := c_open x |}.
Definition set_c_ssl (v : option ssl_t) (x : ngx_connection_t) : ngx_connection_t :=
  {| c_read := c_read x; c_write := c_write x; c_pool := c_pool x; c_error := c_error x;
     c_addr_text := c_addr_text x; c_ssl := v; c_open := c_open x |}.
Definition set_c_open (v : bool) (x : ngx_connection_t) : ngx_connection_t :=
  {| c_read := c_read x; c_write := c_write x; c_pool := c_pool x; c_error := c_error x;
     c_addr_text := c_addr_text x; c_ssl := c_ssl x; c_open := v |}.
Definition set_sk_status (v : ngx_wasm_socket_status_e) (x : sock_t) : sock_t :=
  {| sk_env := sk_env x; sk_status := v; sk_err := sk_err x; sk_errno := sk_errno x; sk_lctx :=
     sk_lctx x; sk_host := sk_host x; sk_url := sk_url x; sk_resolved := sk_resolved x;
     sk_read_timeout := sk_read_timeout x; sk_send_timeout := sk_send_timeout x; sk_connect_timeout
     := sk_connect_timeout x; sk_bufs := sk_bufs x; sk_peer := sk_peer x; sk_peer_sockaddr :=
     sk_peer_sockaddr x; sk_read_handler := sk_read_handler x; sk_write_handler := sk_write_handler
     x; sk_sni := sk_sni x; sk_ssl_server_name := sk_ssl_server_name x; sk_ssl_conf := sk_ssl_conf
     x; sk_connected := sk_connected x; sk_eof := sk_eof x; sk_closed := sk_closed x;
     sk_read_closed := sk_read_closed x; sk_write_closed := sk_write_closed x; sk_ssl_ready :=
     sk_ssl_ready x; sk_resume := sk_resume x |}.
Definition set_err (v : option bytes) (x : sock_t) : sock_t :=
  {| sk_env := sk_env x; sk_status := sk_status x; sk_err := v; sk_errno := sk_errno x; sk_lctx
     := sk_lctx x; sk_host := sk_host x; sk_url := sk_url x; sk_resolved := sk_resolved x;
     sk_read_timeout := sk_read_timeout x; sk_send_timeout := sk_send_timeout x; sk_connect_timeout
     := sk_connect_timeout x; sk_bufs := sk_bufs x; sk_peer := sk_peer x; sk_peer_sockaddr :=
     sk_peer_sockaddr x; sk_read_handler := sk_read_handler x; sk_write_handler := sk_write_handler
     x; sk_sni := sk_sni x; sk_ssl_server_name := sk_ssl_server_name x; sk_ssl_conf := sk_ssl_conf
     x; sk_connected := sk_connected x; sk_eof := sk_eof x; sk_closed := sk_closed x;
     sk_read_closed := sk_read_closed x; sk_write_closed := sk_write_closed x; sk_ssl_ready :=
     sk_ssl_ready x; sk_resume := sk_resume x |}.
Definition set_errno (v : Z) (x : sock_t) : sock_t :=
  {| sk_env := sk_env x; sk_status := sk_status x; sk_err := sk_err x; sk_errno := v; sk_lctx :=
     sk_lctx x; sk_host := sk_host x; sk_url := sk_url x; sk_resolved := sk_resolved x;
     sk_read_timeout := sk_read_timeout x; sk_send_timeout := sk_send_timeout x; sk_connect_timeout
     := sk_connect_timeout x; sk_bufs := sk_bufs x; sk_peer := sk_peer x; sk_peer_sockaddr :=
     sk_peer_sockaddr x; sk_read_handler := sk_read_handler x; sk_write_handler := sk_write_handler
     x; sk_sni := sk_sni x; sk_ssl_server_name := sk_ssl_server_name x; sk_ssl_conf := sk_ssl_conf
     x; sk_connected := sk_connected x; sk_eof := sk_eof x; sk_closed := sk_closed x;
     sk_read_closed := sk_read_closed x; sk_write_closed := sk_write_closed x; sk_ssl_ready :=
     sk_ssl_ready x; sk_resume := sk_resume x |}.
Definition set_lctx (v : option addr) (x : sock_t) : sock_t :=
  {| sk_env := sk_env x; sk_status := sk_status x; sk_err := sk_err x; sk_errno := sk_errno x;
     sk_lctx := v; sk_host := sk_host x; sk_url := sk_url x; sk_resolved := sk_resolved x;
     sk_read_timeout := sk_read_timeout x; sk_send_timeout := sk_send_timeout x; sk_connect_timeout
     := sk_connect_timeout x; sk_bufs := sk_bufs x; sk_peer := sk_peer x; sk_peer_sockaddr :=
     sk_peer_sockaddr x; sk_read_handler := sk_read_handler x; sk_write_handler := sk_write_handler
     x; sk_sni := sk_sni x; sk_ssl_server_name := sk_ssl_server_name x; sk_ssl_conf := sk_ssl_conf
     x; sk_connected := sk_connected x; sk_eof := sk_eof x; sk_closed := sk_closed x;
     sk_read_closed := sk_read_closed x; sk_write_closed := sk_write_closed x; sk_ssl_ready :=
     sk_ssl_ready x; sk_resume := sk_resume x |}.
Definition set_host (v : option bytes) (x : sock_t) : sock_t :=
  {| sk_env := sk_env x; sk_status := sk_status x; sk_err := sk_err x; sk_errno := sk_errno x;
     sk_lctx := sk_lctx x; sk_host := v; sk_url := sk_url x; sk_resolved := sk_resolved x;
     sk_read_timeout := sk_read_timeout x; sk_send_timeout := sk_send_timeout x; sk_connect_timeout
     := sk_connect_timeout x; sk_bufs := sk_bufs x; sk_peer := sk_peer x; sk_peer_sockaddr :=
     sk_peer_sockaddr x; sk_read_handler := sk_read_handler x; sk_write_handler := sk_write_handler
     x; sk_sni := sk_sni x; sk_ssl_server_name := sk_ssl_server_name x; sk_ssl_conf := sk_ssl_conf
     x; sk_connected := sk_connected x; sk_eof := sk_eof x; sk_closed := sk_closed x;
     sk_read_closed := sk_read_closed x; sk_write_closed := sk_write_closed x; sk_ssl_ready :=
     sk_ssl_ready x; sk_resume := sk_resume x |}.
Definition set_url (v : url_t) (x : sock_t) : sock_t :=
  {| sk_env := sk_env x; sk_status := sk_status x; sk_err := sk_err x; sk_errno := sk_errno x;
     sk_lctx := sk_lctx x; sk_host := sk_host x; sk_url := v; sk_resolved := sk_resolved x;
     sk_read_timeout := sk_read_timeout x; sk_send_timeout := sk_send_timeout x; sk_connect_timeout
     := sk_connect_timeout x; sk_bufs := sk_bufs x; sk_peer := sk_peer x; sk_peer_sockaddr :=
     sk_peer_sockaddr x; sk_read_handler := sk_read_handler x; sk_write_handler := sk_write_handler
     x; sk_sni := sk_sni x; sk_ssl_server_name := sk_ssl_server_name x; sk_ssl_conf := sk_ssl_conf
     x; sk_connected := sk_connected x; sk_eof := sk_eof x; sk_closed := sk_closed x;
     sk_read_closed := sk_read_closed x; sk_write_closed := sk_write_closed x; sk_ssl_ready :=
     sk_ssl_ready x; sk_resume := sk_resume x |}.
Definition set_resolved (v : resolved_t) (x : sock_t) : sock_t :=
  {| sk_env := sk_env x; sk_status := sk_status x; sk_err := sk_err x; sk_errno := sk_errno x;
     sk_lctx := sk_lctx x; sk_host := sk_host x; sk_url := sk_url x; sk_resolved := v;
     sk_read_timeout := sk_read_timeout x; sk_send_timeout := sk_send_timeout x; sk_connect_timeout
     := sk_connect_timeout x; sk_bufs := sk_bufs x; sk_peer := sk_peer x; sk_peer_sockaddr :=
     sk_peer_sockaddr x; sk_read_handler := sk_read_handler x; sk_write_handler := sk_write_handler
     x; sk_sni := sk_sni x; sk_ssl_server_name := sk_ssl_server_name x; sk_ssl_conf := sk_ssl_conf
     x; sk_connected := sk_connected x; sk_eof := sk_eof x; sk_closed := sk_closed x;
     sk_read_closed := sk_read_closed x; sk_write_closed := sk_write_closed x; sk_ssl_ready :=
     sk_ssl_ready x; sk_resume := sk_resume x |}.
Definition set_read_timeout (v : Z) (x : sock_t) : sock_t :=
  {| sk_env := sk_env x; sk_status := sk_status x; sk_err := sk_err x; sk_errno := sk_errno x;
     sk_lctx := sk_lctx x; sk_host := sk_host x; sk_url := sk_url x; sk_resolved := sk_resolved x;
     sk_read_timeout := v; sk_send_timeout := sk_send_timeout x; sk_connect_timeout :=
     sk_connect_timeout x; sk_bufs := sk_bufs x; sk_peer := sk_peer x; sk_peer_sockaddr :=
     sk_peer_sockaddr x; sk_read_handler := sk_read_handler x; sk_write_handler := sk_write_handler
     x; sk_sni := sk_sni x; sk_ssl_server_name := sk_ssl_server_name x; sk_ssl_conf := sk_ssl_conf
     x; sk_connected := sk_connected x; sk_eof := sk_eof x; sk_closed := sk_closed x;
     sk_read_closed := sk_read_closed x; sk_write_closed := sk_write_closed x; sk_ssl_ready :=
     sk_ssl_ready x; sk_resume := sk_resume x |}.
Definition set_send_timeout (v : Z) (x : sock_t) : sock_t :=
  {| sk_env := sk_env x; sk_status := sk_status x; sk_err := sk_err x; sk_errno := sk_errno x;
     sk_lctx := sk_lctx x; sk_host := sk_host x; sk_url := sk_url x; sk_resolved := sk_resolved x;
     sk_read_timeout := sk_read_timeout x; sk_send_timeout := v; sk_connect_timeout :=
     sk_connect_timeout x; sk_bufs := sk_bufs x; sk_peer := sk_peer x; sk_peer_sockaddr :=
     sk_peer_sockaddr x; sk_read_handler := sk_read_handler x; sk_write_handler := sk_write_handler
     x; sk_sni := sk_sni x; sk_ssl_server_name := sk_ssl_server_name x; sk_ssl_conf := sk_ssl_conf
     x; sk_connected := sk_connected x; sk_eof := sk_eof x; sk_closed := sk_closed x;
     sk_read_closed := sk_read_closed x; sk_write_closed := sk_write_closed x; sk_ssl_ready :=
     sk_ssl_ready x; sk_resume := sk_resume x |}.
Definition set_connect_timeout (v : Z) (x : sock_t) : sock_t :=
  {| sk_env := sk_env x; sk_status := sk_status x; sk_err := sk_err x; sk_errno := sk_errno x;
     sk_lctx := sk_lctx x; sk_host := sk_host x; sk_url := sk_url x; sk_resolved := sk_resolved x;
     sk_read_timeout := sk_read_timeout x; sk_send_timeout := sk_send_timeout x; sk_connect_timeout
     := v; sk_bufs := sk_bufs x; sk_peer := sk_peer x; sk_peer_sockaddr := sk_peer_sockaddr x;
     sk_read_handler := sk_read_handler x; sk_write_handler := sk_write_handler x; sk_sni := sk_sni
     x; sk_ssl_server_name := sk_ssl_server_name x; sk_ssl_conf := sk_ssl_conf x; sk_connected :=
     sk_connected x; sk_eof := sk_eof x; sk_closed := sk_closed x; sk_read_closed := sk_read_closed
     x; sk_write_closed := sk_write_closed x; sk_ssl_ready := sk_ssl_ready x; sk_resume :=
     sk_resume x |}.
Definition set_bufs (v : sock_bufs) (x : sock_t) : sock_t :=
  {| sk_env := sk_env x; sk_status := sk_status x; sk_err := sk_err x; sk_errno := sk_errno x;
     sk_lctx := sk_lctx x; sk_host := sk_host x; sk_url := sk_url x; sk_resolved := sk_resolved x;
     sk_read_timeout := sk_read_timeout x; sk_send_timeout := sk_send_timeout x; sk_connect_timeout
     := sk_connect_timeout x; sk_bufs := v; sk_peer := sk_peer x; sk_peer_sockaddr :=
     sk_peer_sockaddr x; sk_read_handler := sk_read_handler x; sk_write_handler := sk_write_handler
     x; sk_sni := sk_sni x; sk_ssl_server_name := sk_ssl_server_name x; sk_ssl_conf := sk_ssl_conf
     x; sk_connected := sk_connected x; sk_eof := sk_eof x; sk_closed := sk_closed x;
     sk_read_closed := sk_read_closed x; sk_write_closed := sk_write_closed x; sk_ssl_ready :=
     sk_ssl_ready x; sk_resume := sk_resume x |}.
Definition set_peer (v : option ngx_connection_t) (x : sock_t) : sock_t :=
  {| sk_env := sk_env x; sk_status := sk_status x; sk_err := sk_err x; sk_errno := sk_errno x;
     sk_lctx := sk_lctx x; sk_host := sk_host x; sk_url := sk_url x; sk_resolved := sk_resolved x;
     sk_read_timeout := sk_read_timeout x; sk_send_timeout := sk_send_timeout x; sk_connect_timeout
     := sk_connect_timeout x; sk_bufs := sk_bufs x; sk_peer := v; sk_peer_sockaddr :=
     sk_peer_sockaddr x; sk_read_handler := sk_read_handler x; sk_write_handler := sk_write_handler
     x; sk_sni := sk_sni x; sk_ssl_server_name := sk_ssl_server_name x; sk_ssl_conf := sk_ssl_conf
     x; sk_connected := sk_connected x; sk_eof := sk_eof x; sk_closed := sk_closed x;
     sk_read_closed := sk_read_closed x; sk_write_closed := sk_write_closed x; sk_ssl_ready :=
     sk_ssl_ready x; sk_resume := sk_resume x |}.
Definition set_peer_sockaddr (v : option sockaddr_t) (x : sock_t) : sock_t :=
  {| sk_env := sk_env x; sk_status := sk_status x; sk_err := sk_err x; sk_errno := sk_errno x;
     sk_lctx := sk_lctx x; sk_host := sk_host x; sk_url := sk_url x; sk_resolved := sk_resolved x;
     sk_read_timeout := sk_read_timeout x; sk_send_timeout := sk_send_timeout x; sk_connect_timeout
     := sk_connect_timeout x; sk_bufs := sk_bufs x; sk_peer := sk_peer x; sk_peer_sockaddr := v;
     sk_read_handler := sk_read_handler x; sk_write_handler := sk_write_handler x; sk_sni := sk_sni
     x; sk_ssl_server_name := sk_ssl_server_name x; sk_ssl_conf := sk_ssl_conf x; sk_connected :=
     sk_connected x; sk_eof := sk_eof x; sk_closed := sk_closed x; sk_read_closed := sk_read_closed
     x; sk_write_closed := sk_write_closed x; sk_ssl_ready := sk_ssl_ready x; sk_resume :=
     sk_resume x |}.
Definition set_read_handler (v : handler_pt) (x : sock_t) : sock_t :=
  {| sk_env := sk_env x; sk_status := sk_status x; sk_err := sk_err x; sk_errno := sk_errno x;
     sk_lctx := sk_lctx x; sk_host := sk_host x; sk_url := sk_url x; sk_resolved := sk_resolved x;
     sk_read_timeout := sk_read_timeout x; sk_send_timeout := sk_send_timeout x; sk_connect_timeout
     := sk_connect_timeout x; sk_bufs := sk_bufs x; sk_peer := sk_peer x; sk_peer_sockaddr :=
     sk_peer_sockaddr x; sk_read_handler := v; sk_write_handler := sk_write_handler x; sk_sni :=
     sk_sni x; sk_ssl_server_name := sk_ssl_server_name x; sk_ssl_conf := sk_ssl_conf x;
     sk_connected := sk_connected x; sk_eof := sk_eof x; sk_closed := sk_closed x; sk_read_closed
     := sk_read_closed x; sk_write_closed := sk_write_closed x; sk_ssl_ready := sk_ssl_ready x;
     sk_resume := sk_resume x |}.
Definition set_write_handler (v : handler_pt) (x : sock_t) : sock_t :=
  {| sk_env := sk_env x; sk_status := sk_status x; sk_err := sk_err x; sk_errno := sk_errno x;
     sk_lctx := sk_lctx x; sk_host := sk_host x; sk_url := sk_url x; sk_resolved := sk_resolved x;
     sk_read_timeout := sk_read_timeout x; sk_send_timeout := sk_send_timeout x; sk_connect_timeout
     := sk_connect_timeout x; sk_bufs := sk_bufs x; sk_peer := sk_peer x; sk_peer_sockaddr :=
     sk_peer_sockaddr x; sk_read_handler := sk_read_handler x; sk_write_handler := v; sk_sni :=
     sk_sni x; sk_ssl_server_name := sk_ssl_server_name x; sk_ssl_conf := sk_ssl_conf x;
     sk_connected := sk_connected x; sk_eof := sk_eof x; sk_closed := sk_closed x; sk_read_closed
     := sk_read_closed x; sk_write_closed := sk_write_closed x; sk_ssl_ready := sk_ssl_ready x;
     sk_resume := sk_resume x |}.
Definition set_sni (v : option bytes) (x : sock_t) : sock_t :=
  {| sk_env := sk_env x; sk_status := sk_status x; sk_err := sk_err x; sk_errno := sk_errno x;
     sk_lctx := sk_lctx x; sk_host := sk_host x; sk_url := sk_url x; sk_resolved := sk_resolved x;
     sk_read_timeout := sk_read_timeout x; sk_send_timeout := sk_send_timeout x; sk_connect_timeout
     := sk_connect_timeout x; sk_bufs := sk_bufs x; sk_peer := sk_peer x; sk_peer_sockaddr :=
     sk_peer_sockaddr x; sk_read_handler := sk_read_handler x; sk_write_handler := sk_write_handler
     x; sk_sni := v; sk_ssl_server_name := sk_ssl_server_name x; sk_ssl_conf := sk_ssl_conf x;
     sk_connected := sk_connected x; sk_eof := sk_eof x; sk_closed := sk_closed x; sk_read_closed
     := sk_read_closed x; sk_write_closed := sk_write_closed x; sk_ssl_ready := sk_ssl_ready x;
     sk_resume := sk_resume x |}.
Definition set_ssl_server_name (v : option bytes) (x : sock_t) : sock_t :=
  {| sk_env := sk_env x; sk_status := sk_status x; sk_err := sk_err x; sk_errno := sk_errno x;
     sk_lctx := sk_lctx x; sk_host := sk_host x; sk_url := sk_url x; sk_resolved := sk_resolved x;
     sk_read_timeout := sk_read_timeout x; sk_send_timeout := sk_send_timeout x; sk_connect_timeout
     := sk_connect_timeout x; sk_bufs := sk_bufs x; sk_peer := sk_peer x; sk_peer_sockaddr :=
     sk_peer_sockaddr x; sk_read_handler := sk_read_handler x; sk_write_handler := sk_write_handler
     x; sk_sni := sk_sni x; sk_ssl_server_name := v; sk_ssl_conf := sk_ssl_conf x; sk_connected :=
     sk_connected x; sk_eof := sk_eof x; sk_closed := sk_closed x; sk_read_closed := sk_read_closed
     x; sk_write_closed := sk_write_closed x; sk_ssl_ready := sk_ssl_ready x; sk_resume :=
     sk_resume x |}.
Definition set_ssl_conf (v : option ssl_conf_t) (x : sock_t) : sock_t :=
  {| sk_env := sk_env x; sk_status := sk_status x; sk_err := sk_err x; sk_errno := sk_errno x;
     sk_lctx := sk_lctx x; sk_host := sk_host x; sk_url := sk_url x; sk_resolved := sk_resolved x;
     sk_read_timeout := sk_read_timeout x; sk_send_timeout := sk_send_timeout x; sk_connect_timeout
     := sk_connect_timeout x; sk_bufs := sk_bufs x; sk_peer := sk_peer x; sk_peer_sockaddr :=
     sk_peer_sockaddr x; sk_read_handler := sk_read_handler x; sk_write_handler := sk_write_handler
     x; sk_sni := sk_sni x; sk_ssl_server_name := sk_ssl_server_name x; sk_ssl_conf := v;
     sk_connected := sk_connected x; sk_eof := sk_eof x; sk_closed := sk_closed x; sk_read_closed
     := sk_read_closed x; sk_write_closed := sk_write_closed x; sk_ssl_ready := sk_ssl_ready x;
     sk_resume := sk_resume x |}.
Definition set_connected (v : bool) (x : sock_t) : sock_t :=
  {| sk_env := sk_env x; sk_status := sk_status x; sk_err := sk_err x; sk_errno := sk_errno x;
     sk_lctx := sk_lctx x; sk_host := sk_host x; sk_url := sk_url x; sk_resolved := sk_resolved x;
     sk_read_timeout := sk_read_timeout x; sk_send_timeout := sk_send_timeout x; sk_connect_timeout
     := sk_connect_timeout x; sk_bufs := sk_bufs x; sk_peer := sk_peer x; sk_peer_sockaddr :=
     sk_peer_sockaddr x; sk_read_handler := sk_read_handler x; sk_write_handler := sk_write_handler
     x; sk_sni := sk_sni x; sk_ssl_server_name := sk_ssl_server_name x; sk_ssl_conf := sk_ssl_conf
     x; sk_connected := v; sk_eof := sk_eof x; sk_closed := sk_closed x; sk_read_closed :=
     sk_read_closed x; sk_write_closed := sk_write_closed x; sk_ssl_ready := sk_ssl_ready x;
     sk_resume := sk_resume x |}.
Definition set_eof (v : bool) (x : sock_t) : sock_t :=
  {| sk_env := sk_env x; sk_status := sk_status x; sk_err := sk_err x; sk_errno := sk_errno x;
     sk_lctx := sk_lctx x; sk_host := sk_host x; sk_url := sk_url x; sk_resolved := sk_resolved x;
     sk_read_timeout := sk_read_timeout x; sk_send_timeout := sk_send_timeout x; sk_connect_timeout
     := sk_connect_timeout x; sk_bufs := sk_bufs x; sk_peer := sk_peer x; sk_peer_sockaddr :=
     sk_peer_sockaddr x; sk_read_handler := sk_read_handler x; sk_write_handler := sk_write_handler
     x; sk_sni := sk_sni x; sk_ssl_server_name := sk_ssl_server_name x; sk_ssl_conf := sk_ssl_conf
     x; sk_connected := sk_connected x; sk_eof := v; sk_closed := sk_closed x; sk_read_closed :=
     sk_read_closed x; sk_write_closed := sk_write_closed x; sk_ssl_ready := sk_ssl_ready x;
     sk_resume := sk_resume x |}.
Definition set_sk_closed (v : bool) (x : sock_t) : sock_t :=
  {| sk_env := sk_env x; sk_status := sk_status x; sk_err := sk_err x; sk_errno := sk_errno x;
     sk_lctx := sk_lctx x; sk_host := sk_host x; sk_url := sk_url x; sk_resolved := sk_resolved x;
     sk_read_timeout := sk_read_timeout x; sk_send_timeout := sk_send_timeout x; sk_connect_timeout
     := sk_connect_timeout x; sk_bufs := sk_bufs x; sk_peer := sk_peer x; sk_peer_sockaddr :=
     sk_peer_sockaddr x; sk_read_handler := sk_read_handler x; sk_write_handler := sk_write_handler
     x; sk_sni := sk_sni x; sk_ssl_server_name := sk_ssl_server_name x; sk_ssl_conf := sk_ssl_conf
     x; sk_connected := sk_connected x; sk_eof := sk_eof x; sk_closed := v; sk_read_closed :=
     sk_read_closed x; sk_write_closed := sk_write_closed x; sk_ssl_ready := sk_ssl_ready x;
     sk_resume := sk_resume x |}.
Definition set_read_closed (v : bool) (x : sock_t) : sock_t :=
  {| sk_env := sk_env x; sk_status := sk_status x; sk_err := sk_err x; sk_errno := sk_errno x;
     sk_lctx := sk_lctx x; sk_host := sk_host x; sk_url := sk_url x; sk_resolved := sk_resolved x;
     sk_read_timeout := sk_read_timeout x; sk_send_timeout := sk_send_timeout x; sk_connect_timeout
     := sk_connect_timeout x; sk_bufs := sk_bufs x; sk_peer := sk_peer x; sk_peer_sockaddr :=
     sk_peer_sockaddr x; sk_read_handler := sk_read_handler x; sk_write_handler := sk_write_handler
     x; sk_sni := sk_sni x; sk_ssl_server_name := sk_ssl_server_name x; sk_ssl_conf := sk_ssl_conf
     x; sk_connected := sk_connected x; sk_eof := sk_eof x; sk_closed := sk_closed x;
     sk_read_closed := v; sk_write_closed := sk_write_closed x; sk_ssl_ready := sk_ssl_ready x;
     sk_resume := sk_resume x |}.
Definition set_write_closed (v : bool) (x : sock_t) : sock_t :=
  {| sk_env := sk_env x; sk_status := sk_status x; sk_err := sk_err x; sk_errno := sk_errno x;
     sk_lctx := sk_lctx x; sk_host := sk_host x; sk_url := sk_url x; sk_resolved := sk_resolved x;
     sk_read_timeout := sk_read_timeout x; sk_send_timeout := sk_send_timeout x; sk_connect_timeout
     := sk_connect_timeout x; sk_bufs := sk_bufs x; sk_peer := sk_peer x; sk_peer_sockaddr :=
     sk_peer_sockaddr x; sk_read_handler := sk_read_handler x; sk_write_handler := sk_write_handler
     x; sk_sni := sk_sni x; sk_ssl_server_name := sk_ssl_server_name x; sk_ssl_conf := sk_ssl_conf
     x; sk_connected := sk_connected x; sk_eof := sk_eof x; sk_closed := sk_closed x;
     sk_read_closed := sk_read_closed x; sk_write_closed := v; sk_ssl_ready := sk_ssl_ready x;
     sk_resume := sk_resume x |}.
Definition set_ssl_ready (v : bool) (x : sock_t) : sock_t :=
  {| sk_env := sk_env x; sk_status := sk_status x; sk_err := sk_err x; sk_errno := sk_errno x;
     sk_lctx := sk_lctx x; sk_host := sk_host x; sk_url := sk_url x; sk_resolved := sk_resolved x;
     sk_read_timeout := sk_read_timeout x; sk_send_timeout := sk_send_timeout x; sk_connect_timeout
     := sk_connect_timeout x; sk_bufs := sk_bufs x; sk_peer := sk_peer x; sk_peer_sockaddr :=
     sk_peer_sockaddr x; sk_read_handler := sk_read_handler x; sk_write_handler := sk_write_handler
     x; sk_sni := sk_sni x; sk_ssl_server_name := sk_ssl_server_name x; sk_ssl_conf := sk_ssl_conf
     x; sk_connected := sk_connected x; sk_eof := sk_eof x; sk_closed := sk_closed x;
     sk_read_closed := sk_read_closed x; sk_write_closed := sk_write_closed x; sk_ssl_ready := v;
     sk_resume := sk_resume x |}.
Definition set_resume (v : bool) (x : sock_t) : sock_t :=
  {| sk_env := sk_env x; sk_status := sk_status x; sk_err := sk_err x; sk_errno := sk_errno x;
     sk_lctx := sk_lctx x; sk_host := sk_host x; sk_url := sk_url x; sk_resolved := sk_resolved x;
     sk_read_timeout := sk_read_timeout x; sk_send_timeout := sk_send_timeout x; sk_connect_timeout
     := sk_connect_timeout x; sk_bufs := sk_bufs x; sk_peer := sk_peer x; sk_peer_sockaddr :=
     sk_peer_sockaddr x; sk_read_handler := sk_read_handler x; sk_write_handler := sk_write_handler
     x; sk_sni := sk_sni x; sk_ssl_server_name := sk_ssl_server_name x; sk_ssl_conf := sk_ssl_conf
     x; sk_connected := sk_connected x; sk_eof := sk_eof x; sk_closed := sk_closed x;
     sk_read_closed := sk_read_closed x; sk_write_closed := sk_write_closed x; sk_ssl_ready :=
     sk_ssl_ready x; sk_resume := v |}.

(** The state: the memory, [rctx->free_bufs] and [rctx->busy_bufs], the sockets and readers, and
    the rest of the world. *)
Record net (W : Type) := {
  n_mem : mem;
  n_free : option addr;
  n_busy : option addr;
  n_socks : gmap addr sock_t;
  n_readers : gmap addr reader_t;
  n_world : W;
}.
Arguments n_mem {W}. Arguments n_free {W}. Arguments n_busy {W}. Arguments n_socks {W}.
Arguments n_readers {W}. Arguments n_world {W}.

(** What the environment of a socket is made of: whether the subsystem is HTTP; whether the
    request is a fake one; the settings of [wasm{}] and of the location; whether the Lua resolver
    is chosen; whether the location has a resolver; [env->ssl_conf], [env->buf_tag]; the settings
    of large buffers; whether there is an [http] block. *)
Record socket_conf := {
  cf_buffer_size : Z; cf_buffer_reuse : bool;
  cf_connect_timeout : Z; cf_send_timeout : Z; cf_recv_timeout : Z; cf_resolver_timeout : Z;
}.
Record env_t := {
  en_http : bool; en_fake_request : bool; en_wcf : socket_conf; en_loc : socket_conf;
  en_lua_resolver : bool; en_loc_resolver : bool; en_ssl_conf : option ssl_conf_t;
  en_buf_tag : Z; en_large_num : Z; en_large_size : Z; en_http_block : bool;
}.

(** ** What sockets call *)

(** [ngx_resolver_ctx_t], when its handler is called: [state], whether it is
    [NGX_WASM_LUA_RESOLVE_ERR], and the addresses. *)
Record resolver_ctx_t := { rx_state : Z; rx_lua_err : bool; rx_addrs : list sockaddr_t }.

Inductive send_result := Sent (n : Z) | Send_error (errno : Z) | Send_again.
Inductive recv_result := Received (data : bytes) | Recv_eof | Recv_error (errno : Z) | Recv_again.

(** nginx's connections, events, resolver and TLS, and the environment of the module.
    [ngx_event_connect_peer] also gives [pc->connection] and the error of the socket;
    [ngx_handle_event] is [ngx_handle_read_event] and [ngx_handle_write_event];
    [c_recv] also gives [rev->ready]; a resolver that answers at once gives what its handler is
    called with; the Lua resolver is asked when the flag is set. *)
Class NetEnv (W : Type) := {
  ngx_event_connect_peer : sockaddr_t -> W -> ngx_rc * option ngx_connection_t * Z * W;
  ngx_handle_event : ngx_event_t -> W -> bool * ngx_event_t * W;
  ngx_del_event : ngx_event_t -> W -> ngx_event_t * W;
  c_send : bytes -> W -> send_result * W;
  c_recv : Z -> W -> recv_result * bool * W;
  so_error : W -> Z * W;
  ngx_close_connection : W -> W;
  ngx_resolve_start : bool -> W -> bool * W;
  ngx_resolve_name : bool -> bytes -> Z -> W -> ngx_rc * option resolver_ctx_t * W;
  ngx_resolve_name_done : W -> W;
  ngx_random : W -> Z * W;
  ngx_ssl_create_connection : W -> option ssl_t * W;
  ngx_ssl_handshake : ssl_t -> W -> ngx_rc * ssl_t * W;
  ngx_ssl_shutdown : W -> W;
  ssl_verify_result : W -> Z;
  ngx_ssl_check_host : bytes -> W -> bool;
  ssl_set_tlsext_host_name : bytes -> W -> bool * W;
  ngx_wasm_lua_thread_cancel : addr -> W -> W;
  ngx_wasm_yield : W -> W;
  ngx_wasm_set_resume_handler : W -> W;
}.

(** Strings of nginx: [ngx_atoi] is [None] for [NGX_ERROR]; [ngx_parse_url], given the url and
    the default port, gives what it sets or its error; [ngx_inet_addr] tells whether the text
    is an IPv4 address. *)
Class NetStrings := {
  ngx_strlchr : bytes -> byte -> option nat;
  ngx_atoi : bytes -> option Z;
  ngx_strerror : Z -> bytes;
  ngx_parse_url : bytes -> Z -> url_t + bytes;
  ngx_inet_addr : bytes -> bool;
  ngx_sock_ntop : sockaddr_t -> bool -> bytes;
  ngx_resolver_strerror : Z -> bytes;
  X509_verify_cert_error_string : Z -> bytes;
  decimal : Z -> bytes;
}.

Definition NGX_MAX_ERROR_STR : Z := 2048.
Definition AGAIN_or_ERROR (rc : ngx_rc) : bool := bool_decide (rc = NGX_OK) || bool_decide (rc = NGX_AGAIN).

Definition ngx_wasm_socket_errlist : list (ngx_wasm_socket_status_e * bytes) :=
  [(STATUS_OK, ngx_string "ok"); (STATUS_BAD_ARGUMENT, ngx_string "bad argument");
   (STATUS_TIMEOUT, ngx_string "timeout"); (STATUS_BROKEN_CONNECTION, ngx_string "broken connection");
   (STATUS_TLS_FAILURE, ngx_string "tls handshake failure");
   (STATUS_RESOLVER_FAILURE, ngx_string "resolver failure");
   (STATUS_READER_FAILURE, ngx_string "reader failure");
   (STATUS_INTERNAL_FAILURE, ngx_string "internal failure")].

(** [ngx_wasm_socket_tcp_status_strerror] *)
Definition ngx_wasm_socket_tcp_status_strerror (status : ngx_wasm_socket_status_e) : bytes :=
  match list_find (fun p => p.1 = status) ngx_wasm_socket_errlist with
  | Some (_, (_, msg)) => msg
  | None => []
  end.

(** [ngx_wasm_socket_tcp_get_peer] *)
Definition ngx_wasm_socket_tcp_get_peer : ngx_rc := NGX_OK.

Section sockets.
Context {W : Type} `{NetEnv W, NetStrings, HttpParsers, NgxChains}.
Context (debug : bool) (env : env_t).

Abbreviation N := (SM (net W)).

Definition nget {A} (f : net W -> A) : N A := fun s => Ret (f s, s).
Definition nput (f : net W -> net W) : N unit := fun s => Ret (tt, f s).
Definition nfail {A} (f : fault) : N A := fun _ => Fault f.

Definition with_mem' (m : mem) (s : net W) : net W :=
  {| n_mem := m; n_free := n_free s; n_busy := n_busy s; n_socks := n_socks s;
     n_readers := n_readers s; n_world := n_world s |}.
Definition with_lists (free busy : option addr) (s : net W) : net W :=
  {| n_mem := n_mem s; n_free := free; n_busy := busy; n_socks := n_socks s;
     n_readers := n_readers s; n_world := n_world s |}.
Definition with_socks (f : gmap addr sock_t -> gmap addr sock_t) (s : net W) : net W :=
  {| n_mem := n_mem s; n_free := n_free s; n_busy := n_busy s; n_socks := f (n_socks s);
     n_readers := n_readers s; n_world := n_world s |}.
Definition with_readers (f : gmap addr reader_t -> gmap addr reader_t) (s : net W) : net W :=
  {| n_mem := n_mem s; n_free := n_free s; n_busy := n_busy s; n_socks := n_socks s;
     n_readers := f (n_readers s); n_world := n_world s |}.
Definition with_world (w : W) (s : net W) : net W :=
  {| n_mem := n_mem s; n_free := n_free s; n_busy := n_busy s; n_socks := n_socks s;
     n_readers := n_readers s; n_world := w |}.

Definition memory {A} (m : M A) : N A := fun s =>
  match m (n_mem s) with
  | Ret (x, h) => Ret (x, with_mem' h s)
  | Fault f => Fault f
  end.

(** What the world does. *)
Definition ask {A} (f : W -> A * W) : N A := fun s =>
  let '(x, w) := f (n_world s) in Ret (x, with_world w s).
Definition tell (f : W -> W) : N unit := fun s => Ret (tt, with_world (f (n_world s)) s).

(** The socket of a call. *)
Definition sock (a : addr) : N sock_t := ss ← nget n_socks; slift (deref (ss !! a)).
Definition upd (a : addr) (f : sock_t -> sock_t) : N unit :=
  s ← sock a; nput (with_socks (<[a := f s]>)).
Definition upd_bufs (a : addr) (f : sock_bufs -> sock_bufs) : N unit :=
  upd a (fun s => set_bufs (f (sk_bufs s)) s).

(** [sock->peer.connection] *)
Definition connection (a : addr) : N ngx_connection_t := s ← sock a; slift (deref (sk_peer s)).
Definition upd_conn (a : addr) (f : ngx_connection_t -> ngx_connection_t) : N unit :=
  c ← connection a; upd a (set_peer (Some (f c))).
Definition upd_read (a : addr) (f : ngx_event_t -> ngx_event_t) : N unit :=
  upd_conn a (fun c => set_c_read (f (c_read c)) c).
Definition upd_write (a : addr) (f : ngx_event_t -> ngx_event_t) : N unit :=
  upd_conn a (fun c => set_c_write (f (c_write c)) c).

(** [ngx_handle_read_event] and [ngx_handle_write_event] *)
Definition handle_read_event (a : addr) : N bool :=
  c ← connection a;
  '(ok, ev) ← ask (ngx_handle_event (c_read c)); upd_read a (fun _ => ev);; mret ok.
Definition handle_write_event (a : addr) : N bool :=
  c ← connection a;
  '(ok, ev) ← ask (ngx_handle_event (c_write c)); upd_write a (fun _ => ev);; mret ok.

(** A computation of the reader of a call. *)
Definition on_reader {A} (a : addr) (m : R A) : N A := fun s =>
  match n_socks s !! a, n_readers s !! a with
  | Some sk, Some rd =>
      match m {| rs_mem := n_mem s; rs_free := n_free s; rs_sock := sk_bufs sk; rs_reader := rd |} with
      | Ret (x, r) =>
          Ret (x, {| n_mem := rs_mem r; n_free := rs_free r; n_busy := n_busy s;
                     n_socks := <[a := set_bufs (rs_sock r) sk]> (n_socks s);
                     n_readers := <[a := rs_reader r]> (n_readers s); n_world := n_world s |})
      | Fault f => Fault f
      end
  | _, _ => Fault F_memory
  end.

(** ** Errors *)

(** [text] is the formatted message, [None] when the format is [NULL]; [sk_err] is empty when
    [errlen] stays 0. *)
Definition ngx_wasm_socket_tcp_err (a : addr) (status : ngx_wasm_socket_status_e)
    (text : option bytes) : N unit :=
  s ← sock a;
  match sk_err s with
  | Some _ => mret tt
  | None =>
      upd a (set_sk_status status);;
      ok ← memory palloc;
      if negb ok then mret tt
      else
        let message (t : bytes) := take (Z.to_nat NGX_MAX_ERROR_STR) (ngx_string "tcp socket - " ++ t) in
        if negb (sk_errno s =? 0) then upd a (set_err (Some (message (ngx_strerror (sk_errno s)))))
        else match text with
             | Some t => upd a (set_err (Some (message t)))
             | None => upd a (set_err (Some []));; slift (ngx_wa_assert debug false)
             end
  end.

(** [sock->errlen] *)
Definition has_errlen (s : sock_t) : bool := negb (bool_decide (default [] (sk_err s) = [])).

(** [sock->env->subsys->kind] is HTTP *)
Definition subsys_http (s : sock_t) : N bool := slift (if sk_env s then Ret (en_http env) else Fault F_memory).

(** ** Creation *)

Definition unix_prefix : bytes := ngx_string "unix:".

(** The port of [host]: the length given to [ngx_atoi] counts from the colon, so that the null
    byte after the host is read too; [in_port_t] is 16-bit. *)
Definition host_port (host : bytes) : Z :=
  let from := if bool_decide (head host = Some "["%byte)
              then default O (ngx_strlchr host "]"%byte) else O in
  match ngx_strlchr (drop from host) ":"%byte with
  | None => 0
  | Some i =>
      let p := (from + i)%nat in
      match ngx_atoi (take (length host - p) (drop (S p) (host ++ [x00]))) with
      | Some n => n mod 2 ^ 16
      | None => (-1) mod 2 ^ 16
      end
  end.

Definition ngx_wasm_socket_tcp_init (a : addr) (host : bytes) (tls : bool) (sni : option bytes) : N ngx_rc :=
  s ← nget (fun s => n_free s); b ← nget (fun s => n_busy s);
  upd a (fun _ => {| sk_env := true; sk_status := STATUS_OK; sk_err := None; sk_errno := 0; sk_lctx := None;
     sk_host := None; sk_url := zero_url;
     sk_resolved := {| rv_host := []; rv_port := 0; rv_sockaddr := None |};
     sk_read_timeout := 0; sk_send_timeout := 0; sk_connect_timeout := 0; sk_bufs := zero_bufs;
     sk_peer := None; sk_peer_sockaddr := None; sk_read_handler := no_handler;
     sk_write_handler := no_handler; sk_sni := None; sk_ssl_server_name := None;
     sk_ssl_conf := None; sk_connected := false; sk_eof := false; sk_closed := false;
     sk_read_closed := false; sk_write_closed := false; sk_ssl_ready := false; sk_resume := false |});;
  if negb (en_http env) then mret NGX_ERROR
  else
    upd_bufs a (fun x => set_free_bufs s (set_busy_bufs b x));;
    ok ← memory palloc;
    if negb ok then mret NGX_ERROR
    else
      upd a (set_host (Some host));;
      upd a (set_ssl_conf (if tls then en_ssl_conf env else None));;
      (if tls && negb (bool_decide (default [] sni = [])) then upd a (set_sni sni) else mret tt);;
      let default_port := if tls then 443 else 80 in
      let port := if bool_decide (take (length unix_prefix) host = unix_prefix) then 0 else host_port host in
      upd a (set_url {| u_url := host; u_host := []; u_port := port; u_default_port := default_port; u_addr := None |});;
      match ngx_parse_url host default_port with
      | inl url => upd a (set_url url);; mret NGX_OK
      | inr err => ngx_wasm_socket_tcp_err a STATUS_BAD_ARGUMENT (Some err);; mret NGX_ERROR
      end.

(** ** Connecting *)

(** [ngx_wasm_socket_tcp_init_addr_text] *)
Definition ngx_wasm_socket_tcp_init_addr_text (a : addr) : N unit :=
  s ← sock a;
  addr ← slift (deref (sk_peer_sockaddr s));
  ok ← memory palloc;
  if negb ok then upd_conn a (set_c_addr_text None)
  else upd_conn a (set_c_addr_text (Some (ngx_sock_ntop addr false))).

(** [ngx_wasm_socket_tcp_test_connect], without kqueue. *)
Definition ngx_wasm_socket_tcp_test_connect : N Z := ask so_error.

(** The text of the messages of a timeout. *)
Definition timed_out (what : bytes) (s : sock_t) (c : ngx_connection_t) : bytes :=
  ngx_string "timed out " ++ what ++ ngx_string " " ++ [x22] ++ default [] (c_addr_text c)
  ++ ngx_string ":" ++ decimal (default 0 (sa_port <$> sk_peer_sockaddr s)) ++ [x22].

Definition ngx_wasm_socket_tcp_connect_handler (a : addr) : N unit :=
  ngx_wasm_socket_tcp_init_addr_text a;;
  s ← sock a;
  c ← connection a;
  if ev_timedout (c_write c) then
    ngx_wasm_socket_tcp_err a STATUS_TIMEOUT (Some (timed_out (ngx_string "connecting to") s c))
  else
    upd a (fun s => set_write_handler nop_handler (set_read_handler nop_handler s));;
    rc ← ngx_wasm_socket_tcp_test_connect;
    if negb (rc =? 0) then
      (if 0 <? rc then upd a (set_errno rc);; ngx_wasm_socket_tcp_err a STATUS_BROKEN_CONNECTION None
       else mret tt)
    else
      upd_write a (set_timer None);;
      ok ← handle_write_event a;
      if negb ok then mret tt
      else
        ok ← handle_read_event a;
        if negb ok then mret tt else upd a (set_connected true).

Definition ngx_wasm_socket_tcp_connect_peer (a : addr) : N ngx_rc :=
  s ← sock a;
  slift (ngx_wa_assert debug (negb (sk_connected s)));;
  slift (ngx_wa_assert debug (bool_decide (is_Some (rv_sockaddr (sk_resolved s)))));;
  upd a (set_peer_sockaddr (rv_sockaddr (sk_resolved s)));;
  addr ← slift (deref (rv_sockaddr (sk_resolved s)));
  '(rc, conn, errno) ← ask (ngx_event_connect_peer addr);
  upd a (set_peer conn);;
  match rc with
  | NGX_ERROR => mret NGX_ERROR
  | NGX_BUSY =>
      ngx_wasm_socket_tcp_err a STATUS_INTERNAL_FAILURE (Some (ngx_string "no live connection"));;
      mret NGX_BUSY
  | NGX_DECLINED =>
      upd a (set_errno errno);;
      ngx_wasm_socket_tcp_err a STATUS_BROKEN_CONNECTION None;;
      mret NGX_ERROR
  | _ =>
      slift (ngx_wa_assert debug (AGAIN_or_ERROR rc));;
      upd a (fun s => set_read_handler connect_handler (set_write_handler connect_handler s));;
      upd_conn a (set_c_pool true);;
      match rc with
      | NGX_OK => ngx_wasm_socket_tcp_connect_handler a;; mret NGX_OK
      | NGX_AGAIN =>
          tell ngx_wasm_set_resume_handler;;
          s ← sock a;
          upd_write a (set_timer (Some (sk_connect_timeout s)));;
          mret NGX_AGAIN
      | _ => mret rc
      end
  end.

(** ** TLS *)

(** [ngx_wasm_socket_tcp_ssl_set_server_name] *)
Definition server_name_len (name : bytes) : nat :=
  let from := if bool_decide (head name = Some "["%byte)
              then default O (ngx_strlchr name "]"%byte) else O in
  match ngx_strlchr (drop from name) ":"%byte with
  | Some i => (from + i)%nat
  | None => length name
  end.

Definition ngx_wasm_socket_tcp_ssl_set_server_name (a : addr) : N ngx_rc :=
  s ← sock a;
  let name := default [] (match sk_sni s with Some sni => Some sni | None => sk_host s end) in
  let len := server_name_len name in
  let failed := upd a (set_ssl_server_name None);; mret NGX_ERROR in
  if (len =? 0)%nat || bool_decide (head name = Some "["%byte) || ngx_inet_addr (take len name) then
    ngx_wasm_socket_tcp_err a STATUS_TLS_FAILURE
      (Some (ngx_string "could not derive tls sni from host (" ++ [x22] ++ default [] (sk_host s)
             ++ [x22] ++ ngx_string ")"));;
    failed
  else
    ok ← memory palloc;
    if negb ok then failed
    else
      upd a (set_ssl_server_name (Some (take len name)));;
      ok ← ask (ssl_set_tlsext_host_name (take len name));
      if negb ok then failed else mret NGX_OK.

(** [ngx_wasm_socket_tcp_ssl_handshake_done] *)
Definition ngx_wasm_socket_tcp_ssl_handshake_done (a : addr) : N ngx_rc :=
  c ← connection a;
  ssl ← slift (deref (c_ssl c));
  if negb (ssl_handshaked ssl) then mret NGX_AGAIN
  else
    s ← sock a;
    conf ← slift (deref (sk_ssl_conf s));
    w ← nget n_world;
    let rc := ssl_verify_result w in
    let name := default [] (sk_ssl_server_name s) in
    if verify_cert conf && negb (rc =? 0) then
      ngx_wasm_socket_tcp_err a STATUS_TLS_FAILURE
        (Some (ngx_string "tls certificate verify error: (" ++ decimal rc ++ ngx_string ":"
               ++ X509_verify_cert_error_string rc ++ ngx_string ")"));;
      mret NGX_ERROR
    else if verify_host conf && negb (ngx_ssl_check_host name w) then
      ngx_wasm_socket_tcp_err a STATUS_TLS_FAILURE
        (Some (ngx_string "tls certificate CN does not match " ++ [x22] ++ name ++ [x22] ++ ngx_string " sni"));;
      mret NGX_ERROR
    else upd a (set_ssl_ready true);; mret NGX_OK.

Definition ngx_wasm_socket_tcp_ssl_handshake (a : addr) : N ngx_rc :=
  s ← sock a;
  if has_errlen s then mret NGX_ERROR
  else if sk_ssl_ready s then mret NGX_OK
  else
    _ ← connection a;
    o ← ask ngx_ssl_create_connection;
    match o with
    | None => mret NGX_ERROR
    | Some ssl =>
        upd_conn a (set_c_ssl (Some ssl));;
        rc ← ngx_wasm_socket_tcp_ssl_set_server_name a;
        if bool_decide (rc = NGX_ERROR) then mret NGX_ERROR
        else
          '(rc, ssl) ← ask (ngx_ssl_handshake ssl);
          upd_conn a (set_c_ssl (Some ssl));;
          match rc with
          | NGX_OK =>
              rc ← ngx_wasm_socket_tcp_ssl_handshake_done a;
              slift (ngx_wa_assert debug (negb (bool_decide (rc = NGX_AGAIN))));;
              mret rc
          | NGX_AGAIN =>
              upd_write a (set_timer (Some (sk_connect_timeout s)));;
              upd_conn a (set_c_ssl (Some {| ssl_handshaked := ssl_handshaked ssl; ssl_handler := true;
                                             ssl_no_wait_shutdown := ssl_no_wait_shutdown ssl |}));;
              mret NGX_AGAIN
          | _ => mret rc
          end
    end.

(** ** Sending *)

(** A round per link and per byte, as [c->send] takes a byte at least of those it is given. *)
Definition send_fuel (m : mem) : nat :=
  S (map_fold (fun _ l n => (n + S (Z.to_nat (default 0%Z (pdiff (b_last (cl_buf l)) (b_pos (cl_buf l))))))%nat)
       O (m_links m)).

Fixpoint send_loop (fuel : nat) (a cl : addr) : N ngx_rc :=
  match fuel with
  | O => nfail F_fuel
  | S fuel =>
      l ← memory (link cl);
      let b := cl_buf l in
      size ← memory (ngx_buf_size b);
      data ← memory (load (b_pos b) size);
      r ← ask (c_send data);
      match r with
      | Sent n =>
          memory (write_link cl (on_buf (set_pos (padd (b_pos b) n))));;
          if bool_decide (padd (b_pos b) n = b_last b) then
            match cl_next l with
            | Some next => send_loop fuel a next
            | None =>
                upd_write a (set_timer None);;
                s ← sock a;
                '(free, busy) ← memory (ngx_chain_update_chains (sb_free_bufs (sk_bufs s)) (sb_busy_bufs (sk_bufs s))
                                          None (en_buf_tag env));
                upd_bufs a (fun x => set_free_bufs free (set_busy_bufs busy x));;
                upd a (set_write_handler nop_handler);;
                ok ← handle_write_event a;
                mret (if (ok : bool) then NGX_OK else NGX_ERROR)
            end
          else send_loop fuel a cl
      | Send_error errno =>
          upd_conn a (set_c_error true);;
          upd a (set_errno errno);;
          ngx_wasm_socket_tcp_err a STATUS_BROKEN_CONNECTION None;;
          mret NGX_ERROR
      | Send_again =>
          upd a (set_write_handler send_handler);;
          s ← sock a;
          upd_write a (set_timer (Some (sk_send_timeout s)));;
          ok ← handle_write_event a;
          if negb ok then mret NGX_ERROR
          else tell ngx_wasm_set_resume_handler;; mret NGX_AGAIN
      end
  end.

Definition not_connected (a : addr) : N ngx_rc :=
  ngx_wasm_socket_tcp_err a STATUS_INTERNAL_FAILURE (Some (ngx_string "not connected"));; mret NGX_ERROR.

Definition ngx_wasm_socket_tcp_send (a cl : addr) : N ngx_rc :=
  s ← sock a;
  if negb (sk_connected s) then not_connected a
  else
    _ ← connection a;
    m ← nget n_mem;
    send_loop (send_fuel m) a cl.

(** ** Receiving *)

(** The buffer after the last one of the socket; [first] when there is none yet. *)
Definition next_buffer (a : addr) (first : bool) : N bool :=
  s ← sock a;
  let x := sk_bufs s in
  '(cl, free) ← memory (ngx_wasm_chain_get_free_buf (sb_free_bufs x) (sb_buffer_size x) (en_buf_tag env)
                          (sb_buffer_reuse x));
  upd_bufs a (set_free_bufs free);;
  match cl with
  | None => mret false
  | Some cl =>
      (if first then upd_bufs a (set_bufs_in (Some cl))
       else in_ ← slift (deref (sb_buf_in x)); memory (write_link in_ (set_next (Some cl))));;
      upd_bufs a (set_buf_in (Some cl));;
      l ← memory (link cl);
      upd_bufs a (set_buffer (cl_buf l));;
      mret true
  end.

(** After the loop: [rc] is [NGX_AGAIN]. *)
Definition wait_read (a : addr) : N ngx_rc :=
  ok ← handle_read_event a;
  if negb ok then mret NGX_ERROR
  else
    tell ngx_wasm_set_resume_handler;;
    c ← connection a;
    s ← sock a;
    (if ev_active (c_read c) then upd_read a (set_timer (Some (sk_read_timeout s))) else mret tt);;
    mret NGX_AGAIN.

(** What is received, in the room of the buffer: [None] goes on. *)
Definition receive (a : addr) : N (option ngx_rc) :=
  s ← sock a;
  let b := sb_buffer (sk_bufs s) in
  avail ← memory (distance (b_end b) (b_last b));
  ok ← (if avail =? 0 then next_buffer a false else mret true);
  if negb ok then mret (Some NGX_ERROR)
  else
    s ← sock a;
    let b := sb_buffer (sk_bufs s) in
    avail ← memory (distance (b_end b) (b_last b));
    '(r, ready) ← ask (fun w => c_recv avail w);
    upd_read a (set_ready ready);;
    match r with
    | Recv_error errno =>
        upd a (set_errno errno);;
        ngx_wasm_socket_tcp_err a STATUS_BROKEN_CONNECTION None;;
        mret (Some NGX_ERROR)
    | Recv_again => rc ← wait_read a; mret (Some rc)
    | Recv_eof => upd a (set_eof true);; mret None
    | Received data =>
        memory (store (b_last b) data);;
        upd_bufs a (fun x => set_buffer (set_last (padd (b_last b) (zlen data)) (sb_buffer x)) x);;
        mret None
    end.

(** [reader] is given the number of bytes to parse; [fuel] bounds the rounds. *)
Fixpoint read_loop (fuel : nat) (a : addr) (reader : Z -> N ngx_rc) : N ngx_rc :=
  match fuel with
  | O => nfail F_fuel
  | S fuel =>
      s ← sock a;
      size ← memory (ngx_buf_size (sb_buffer (sk_bufs s)));
      (* [Some rc]: return; [None]: [continue] or go on to receive *)
      o ← (if negb (size =? 0) || sk_eof s then
             rc ← reader size;
             match rc with
             | NGX_ERROR =>
                 ngx_wasm_socket_tcp_err a STATUS_READER_FAILURE (Some (ngx_string "parser error"));;
                 mret (inl NGX_ERROR)
             | NGX_OK =>
                 upd a (set_read_handler nop_handler);;
                 ok ← handle_read_event a;
                 mret (inl (if (ok : bool) then NGX_OK else NGX_ERROR))
             | _ =>
                 slift (ngx_wa_assert debug (bool_decide (rc = NGX_AGAIN)));;
                 s ← sock a;
                 left ← memory (distance (b_last (sb_buffer (sk_bufs s))) (b_pos (sb_buffer (sk_bufs s))));
                 mret (inr (0 <? left))
             end
           else mret (inr false));
      match o with
      | inl rc => mret rc
      | inr true => read_loop fuel a reader
      | inr false =>
          c ← connection a;
          if ev_active (c_read c) && negb (ev_ready (c_read c)) then wait_read a
          else
            o ← receive a;
            match o with
            | Some rc => mret rc
            | None => read_loop fuel a reader
            end
      end
  end.

Definition ngx_wasm_socket_tcp_read (fuel : nat) (a : addr) (reader : Z -> N ngx_rc) : N ngx_rc :=
  s ← sock a;
  if negb (sk_connected s) then not_connected a
  else
    ok ← (if bool_decide (sb_bufs_in (sk_bufs s) = None) then next_buffer a true else mret true);
    if negb ok then mret NGX_ERROR
    else
      upd a (set_read_handler receive_handler);;
      _ ← connection a;
      read_loop fuel a reader.

(** The reader of the sockets of HTTP calls. *)
Definition http_reader (a : addr) (bytes : Z) : N ngx_rc :=
  on_reader a (ngx_wasm_socket_read_http_response debug (en_buf_tag env) (en_large_num env)
                 (en_large_size env) (en_http_block env) bytes).

(** ** Closing *)

Definition finalize_event (ev : ngx_event_t) : N ngx_event_t :=
  let ev := set_timer None ev in
  ev ← (if ev_active ev || ev_disabled ev then ask (ngx_del_event ev) else mret ev);
  mret (set_closed true (set_posted false ev)).

Definition ngx_wasm_socket_tcp_finalize_read (a : addr) : N unit :=
  s ← sock a;
  if sk_read_closed s then mret tt
  else
    upd a (set_read_closed true);;
    match sb_bufs_in (sk_bufs s) with
    | Some _ =>
        memory (with_fuel (fun n => consume_loop n (sb_bufs_in (sk_bufs s))));;
        upd_bufs a (fun x => set_buffer zero_buf (set_buf_in None (set_bufs_in None
                               (set_free_bufs (sb_bufs_in x) x))))
    | None => mret tt
    end;;
    match sk_peer s with
    | Some c => ev ← finalize_event (c_read c); upd_read a (fun _ => ev)
    | None => mret tt
    end.

Definition ngx_wasm_socket_tcp_finalize_write (a : addr) : N unit :=
  s ← sock a;
  if sk_write_closed s then mret tt
  else
    upd a (set_write_closed true);;
    match sk_peer s with
    | Some c => ev ← finalize_event (c_write c); upd_write a (fun _ => ev)
    | None => mret tt
    end.

Definition ngx_wasm_socket_tcp_close (a : addr) : N unit :=
  s ← sock a;
  if sk_closed s then mret tt
  else
    ngx_wasm_socket_tcp_finalize_read a;;
    ngx_wasm_socket_tcp_finalize_write a;;
    match sk_peer s with
    | Some c =>
        match c_ssl c with
        | Some ssl =>
            upd_conn a (set_c_ssl (Some {| ssl_handshaked := ssl_handshaked ssl;
                                           ssl_handler := ssl_handler ssl; ssl_no_wait_shutdown := true |}));;
            tell ngx_ssl_shutdown
        | None => mret tt
        end;;
        tell ngx_close_connection;;
        upd_conn a (set_c_open false)
    | None => mret tt
    end;;
    upd a (fun s => set_sk_closed true (set_connected false s)).

Fixpoint free_large_loop (fuel : nat) (cl : option addr) : M unit :=
  match cl with
  | None => mret tt
  | Some ln =>
      match fuel with
      | O => Pointers.fail F_fuel
      | S fuel =>
          l ← link ln;
          ngx_pfree (b_start (cl_buf l));;
          ngx_free_chain ln;;
          free_large_loop fuel (cl_next l)
      end
  end.

Definition ngx_wasm_socket_tcp_destroy (a : addr) : N unit :=
  s ← sock a;
  ngx_wasm_socket_tcp_close a;;
  match sk_lctx s with
  | Some l => tell (ngx_wasm_lua_thread_cancel l)
  | None => mret tt
  end;;
  upd a (fun s => set_ssl_server_name None (set_host None s));;
  match sk_peer s with
  | Some _ => upd_conn a (set_c_pool false)
  | None => mret tt
  end;;
  s ← sock a;
  match sb_busy_large_bufs (sk_bufs s) with
  | Some cl =>
      memory (with_fuel (fun n => free_large_loop n (Some cl)));;
      upd_bufs a (fun x => set_lbusy 0 (set_busy_large_bufs None x))
  | None => mret tt
  end.

(** ** Handlers

    [resume_handler] is [sock->resume_handler], the handler of the call that has the socket;
    [ngx_wasm_resume] continues the request. *)

Definition ngx_wasm_socket_tcp_send_handler (a : addr) : N unit :=
  s ← sock a;
  c ← connection a;
  if ev_timedout (c_write c) then
    ngx_wasm_socket_tcp_err a STATUS_TIMEOUT (Some (timed_out (ngx_string "writing to") s c))
  else mret tt.

Definition ngx_wasm_socket_tcp_receive_handler (a : addr) : N unit :=
  s ← sock a;
  c ← connection a;
  if ev_timedout (c_read c) then
    ngx_wasm_socket_tcp_err a STATUS_TIMEOUT (Some (timed_out (ngx_string "reading from") s c))
  else upd_read a (set_timer None).

Definition ngx_wasm_socket_tcp_nop_handler (a : addr) : N unit := mret tt.

Definition run_handler (h : handler_pt) (a : addr) : N unit :=
  match h with
  | no_handler => nfail F_memory
  | nop_handler => ngx_wasm_socket_tcp_nop_handler a
  | connect_handler => ngx_wasm_socket_tcp_connect_handler a
  | send_handler => ngx_wasm_socket_tcp_send_handler a
  | receive_handler => ngx_wasm_socket_tcp_receive_handler a
  end.

Context (resume_handler : addr -> N ngx_rc) (ngx_wasm_resume : N unit).

Definition ngx_wasm_socket_tcp_resume (a : addr) : N ngx_rc :=
  s ← sock a;
  http ← subsys_http s;
  if (http : bool) then
    (if sk_resume s then resume_handler a else nfail F_memory)
  else mret NGX_ERROR.

(** The end of the handlers of events. *)
Definition resume_request (a : addr) : N unit :=
  rc ← ngx_wasm_socket_tcp_resume a;
  if negb (bool_decide (rc = NGX_AGAIN)) then ngx_wasm_resume else mret tt.

(** [ngx_wasm_socket_tcp_handler], on the write event or on the read event. *)
Definition ngx_wasm_socket_tcp_handler (a : addr) (write : bool) : N unit :=
  s ← sock a;
  if sk_closed s then mret tt
  else
    run_handler (if write then sk_write_handler s else sk_read_handler s) a;;
    resume_request a.

Definition ngx_wasm_socket_tcp_ssl_handshake_handler (a : addr) : N unit :=
  rc ← ngx_wasm_socket_tcp_ssl_handshake_done a;
  (if bool_decide (rc = NGX_AGAIN) then
     c ← connection a;
     ngx_wasm_socket_tcp_err a STATUS_TLS_FAILURE
       (Some (if ev_timedout (c_write c) then ngx_string "tls handshake timed out"
              else ngx_string "tls handshake failed"))
   else mret tt);;
  resume_request a.

(** ** Resolving *)

Definition set_port (port : Z) (x : sockaddr_t) : sockaddr_t :=
  if sa_port x =? 0 then {| sa_family := sa_family x; sa_data := sa_data x; sa_port := port |} else x.

(** The end of [ngx_wasm_socket_resolve_handler] at [error]. *)
Definition resolve_error (a : addr) (resume : bool) : N unit :=
  tell ngx_resolve_name_done;;
  s ← sock a;
  (if negb (sk_closed s) then rc ← ngx_wasm_socket_tcp_resume a; mret tt else mret tt);;
  if (resume : bool) then ngx_wasm_resume else mret tt.

Definition ngx_wasm_socket_resolve_handler (a : addr) (ctx : resolver_ctx_t) : N unit :=
  s ← sock a;
  if negb (rx_state ctx =? 0) || bool_decide (rx_addrs ctx = []) then
    if rx_lua_err ctx then
      ngx_wasm_socket_tcp_err a STATUS_RESOLVER_FAILURE (Some (ngx_string "lua resolver failed"));;
      resolve_error a false
    else
      ngx_wasm_socket_tcp_err a STATUS_RESOLVER_FAILURE
        (Some (ngx_string "resolver error: " ++ ngx_resolver_strerror (rx_state ctx)));;
      resolve_error a (negb (en_lua_resolver env))
  else
    let naddrs := zlen (rx_addrs ctx) in
    i ← (if naddrs =? 1 then mret 0 else n ← ask ngx_random; mret (n mod naddrs));
    addr ← slift (deref (rx_addrs ctx !! Z.to_nat i));
    ok ← memory palloc;
    if negb ok then resolve_error a false
    else
      let addr := set_port (rv_port (sk_resolved s)) addr in
      ok ← memory palloc;
      if negb ok then resolve_error a false
      else
        upd a (set_resolved {| rv_host := ngx_sock_ntop addr true; rv_port := rv_port (sk_resolved s);
                               rv_sockaddr := Some addr |});;
        tell ngx_resolve_name_done;;
        tell ngx_wasm_yield;;
        ngx_wasm_socket_tcp_connect_peer a;;
        mret tt.

(** [ngx_wasm_socket_tcp_connect] *)
Definition or_timeout (t default : Z) : Z := if t =? 0 then default else t.

Definition use_conf (c : socket_conf) (s : sock_t) : sock_t :=
  set_connect_timeout (or_timeout (sk_connect_timeout s) (cf_connect_timeout c))
    (set_send_timeout (or_timeout (sk_send_timeout s) (cf_send_timeout c))
      (set_read_timeout (or_timeout (sk_read_timeout s) (cf_recv_timeout c))
        (set_bufs (set_buffer_size (cf_buffer_size c) (set_buffer_reuse (cf_buffer_reuse c) (sk_bufs s))) s))).

(** The timeout of the resolver: that of [wasm{}] when its resolver is used, unless the Lua
    resolver is. *)
Definition resolver_timeout : Z :=
  let loc := negb (en_fake_request env) in
  let own := if loc then cf_resolver_timeout (en_loc env) else 0 in
  if loc && en_loc_resolver env then own
  else if en_lua_resolver env then own else cf_resolver_timeout (en_wcf env).

Definition ngx_wasm_socket_tcp_connect (a : addr) : N ngx_rc :=
  s ← sock a;
  if has_errlen s then mret NGX_ERROR
  else if sk_connected s then
    (if bool_decide (is_Some (sk_ssl_conf s)) then ngx_wasm_socket_tcp_ssl_handshake a else mret NGX_OK)
  else
    http ← subsys_http s;
    (if (http : bool) then upd a (use_conf (if en_fake_request env then en_wcf env else en_loc env)) else mret tt);;
    tell ngx_wasm_set_resume_handler;;
    match u_addr (sk_url s) with
    | Some (addr, name) =>
        upd a (set_resolved {| rv_host := name; rv_port := rv_port (sk_resolved s);
                               rv_sockaddr := Some addr |});;
        rc ← ngx_wasm_socket_tcp_connect_peer a;
        if is_ok rc then
          s ← sock a;
          slift (ngx_wa_assert debug (sk_connected s));;
          (if bool_decide (is_Some (sk_ssl_conf s)) then ngx_wasm_socket_tcp_ssl_handshake a else mret rc)
        else mret rc
    | None =>
        upd a (set_resolved {| rv_host := default [] (sk_host s); rv_port := u_port (sk_url s);
                               rv_sockaddr := rv_sockaddr (sk_resolved s) |});;
        if negb (http : bool) then mret NGX_ERROR
        else
          ok ← ask (ngx_resolve_start (negb (en_fake_request env) && en_loc_resolver env));
          if negb ok then
            ngx_wasm_socket_tcp_err a STATUS_INTERNAL_FAILURE (Some (ngx_string "failed starting resolver"));;
            mret NGX_ERROR
          else
            '(rc, answer) ← ask (ngx_resolve_name (en_lua_resolver env) (u_host (sk_url s)) resolver_timeout);
            match answer with
            | Some ctx => ngx_wasm_socket_resolve_handler a ctx
            | None => mret tt
            end;;
            mret (if AGAIN_or_ERROR rc then NGX_AGAIN else NGX_ERROR)
    end.

End sockets.

(** ** What sockets leave alone

    The functions of a socket create and free no socket and no reader.  [RW] is what the world
    keeps when the environment is asked. *)
Class NetFrame {W : Type} `{NetEnv W} (RW : W -> W -> Prop) : Prop := {
  frame_preorder :: PreOrder RW;
  frame_connect sa w : RW w (ngx_event_connect_peer sa w).2;
  frame_handle ev w : RW w (ngx_handle_event ev w).2;
  frame_del ev w : RW w (ngx_del_event ev w).2;
  frame_send d w : RW w (c_send d w).2;
  frame_recv n w : RW w (c_recv n w).2;
  frame_so_error w : RW w (so_error w).2;
  frame_close w : RW w (ngx_close_connection w);
  frame_start b w : RW w (ngx_resolve_start b w).2;
  frame_resolve b n t w : RW w (ngx_resolve_name b n t w).2;
  frame_done w : RW w (ngx_resolve_name_done w);
  frame_random w : RW w (ngx_random w).2;
  frame_ssl_create w : RW w (ngx_ssl_create_connection w).2;
  frame_ssl_handshake x w : RW w (ngx_ssl_handshake x w).2;
  frame_ssl_shutdown w : RW w (ngx_ssl_shutdown w);
  frame_ssl_name n w : RW w (ssl_set_tlsext_host_name n w).2;
  frame_lua l w : RW w (ngx_wasm_lua_thread_cancel l w);
  frame_yield w : RW w (ngx_wasm_yield w);
  frame_wait w : RW w (ngx_wasm_set_resume_handler w);
}.

Lemma preserves_weaken {S A} (R R' : S -> S -> Prop) (m : SM S A) :
  (forall s s', R s s' -> R' s s') -> preserves R m -> preserves R' m.
Proof. intros HR Hm s a s' E. by eapply HR, Hm. Qed.

Section frame.
Context {W : Type} `{NetEnv W, NetStrings, HttpParsers, NgxChains}.
Context (RW : W -> W -> Prop) `{!NetFrame RW}.
Context (debug : bool) (env : env_t).

Ltac frame := first
  [ apply frame_connect | apply frame_handle | apply frame_del | apply frame_send | apply frame_recv
  | apply frame_so_error | apply frame_close | apply frame_start | apply frame_resolve
  | apply frame_done | apply frame_random | apply frame_ssl_create | apply frame_ssl_handshake
  | apply frame_ssl_shutdown | apply frame_ssl_name | apply frame_lua | apply frame_yield
  | apply frame_wait ].

Definition same (s s' : net W) : Prop :=
  dom (n_socks s') = dom (n_socks s) /\ dom (n_readers s') = dom (n_readers s) /\ RW (n_world s) (n_world s').

#[export] Instance same_preorder : PreOrder same.
Proof.
  split.
  - intros s. by split_and!.
  - intros s1 s2 s3 (E1 & E2 & E3) (E1' & E2' & E3').
    split_and!; [congruence..|by etrans].
Qed.

Lemma same_nget {A} (f : net W -> A) : preserves same (nget f).
Proof. apply preserves_gets, _. Qed.

Lemma same_nfail {A} f : preserves same (@nfail W A f).
Proof. by intros s a s'. Qed.

Lemma same_memory {A} (m : M A) : preserves same (memory (W := W) m).
Proof.
  intros s a s' E. unfold memory in E. destruct (m (n_mem s)) as [[x h]|]; [|done].
  by injection E as _ <-.
Qed.

Lemma same_ask {A} (f : W -> A * W) : (forall w, RW w (f w).2) -> preserves same (ask f).
Proof.
  intros Hf s a s' E. unfold ask in E. specialize (Hf (n_world s)).
  destruct (f (n_world s)) as [x w]. injection E as _ <-. by split_and!.
Qed.

Lemma same_tell (f : W -> W) : (forall w, RW w (f w)) -> preserves same (tell f).
Proof. intros Hf s a s' [= _ <-]. by split_and!; [..|apply Hf]. Qed.

Lemma same_sock a : preserves same (sock (W := W) a).
Proof. unfold sock. apply preserves_bind; [apply _|apply same_nget|]. intros ss. apply preserves_slift, _. Qed.

Lemma same_upd a f : preserves same (upd (W := W) a f).
Proof.
  intros s x s' E. unfold upd, sock in E.
  apply SM_bind_Ret_inv in E as (sk & s1 & E1 & E2).
  apply SM_bind_Ret_inv in E1 as (ss & s2 & [= <- <-] & E1).
  unfold slift in E1. destruct (n_socks s !! a) as [k|] eqn:Ek; cbn in E1; [|done].
  injection E1 as <- <-. injection E2 as _ <-. split; [|done]. cbn.
  rewrite dom_insert_L. apply elem_of_dom_2 in Ek. set_solver.
Qed.

Lemma same_on_reader {A} a (m : R A) : preserves same (on_reader (W := W) a m).
Proof.
  intros s x s' E. unfold on_reader in E.
  destruct (n_socks s !! a) as [sk|] eqn:Es; [|done].
  destruct (n_readers s !! a) as [rd|] eqn:Er; [|done].
  destruct (m _) as [[y r]|]; [|done]. injection E as _ <-. unfold same. cbn.
  apply elem_of_dom_2 in Es, Er. rewrite !dom_insert_L. split_and!; [set_solver..|done].
Qed.
#[local] Hint Resolve same_nget same_nfail same_memory same_sock same_upd same_on_reader : preserve.
#[local] Hint Extern 2 (preserves same (ask _)) => apply same_ask; intros; frame : preserve.
#[local] Hint Extern 2 (preserves same (tell _)) => apply same_tell; intros; frame : preserve.

Lemma same_upd_bufs a f : preserves same (upd_bufs (W := W) a f).
Proof. apply same_upd. Qed.
Lemma same_connection a : preserves same (connection (W := W) a).
Proof. unfold connection. preserves_steps. Qed.
#[local] Hint Resolve same_upd_bufs same_connection : preserve.
Lemma same_upd_conn a f : preserves same (upd_conn (W := W) a f).
Proof. unfold upd_conn. preserves_steps. Qed.
#[local] Hint Resolve same_upd_conn : preserve.
Lemma same_events a f : preserves same (upd_read (W := W) a f) /\ preserves same (upd_write (W := W) a f).
Proof. split; apply same_upd_conn. Qed.
#[local] Hint Extern 1 (preserves same (upd_read _ _)) => apply same_events : preserve.
#[local] Hint Extern 1 (preserves same (upd_write _ _)) => apply same_events : preserve.
Lemma same_handle_read a : preserves same (handle_read_event (W := W) a).
Proof. unfold handle_read_event. preserves_steps. Qed.
Lemma same_handle_write a : preserves same (handle_write_event (W := W) a).
Proof. unfold handle_write_event. preserves_steps. Qed.
#[local] Hint Resolve same_handle_read same_handle_write : preserve.

Lemma same_err a status text : preserves same (ngx_wasm_socket_tcp_err (W := W) debug a status text).
Proof. unfold ngx_wasm_socket_tcp_err. cbv zeta. preserves_steps. Qed.
#[local] Hint Resolve same_err : preserve.

Lemma same_init a host tls sni : preserves same (ngx_wasm_socket_tcp_init (W := W) debug env a host tls sni).
Proof. unfold ngx_wasm_socket_tcp_init. cbv zeta. preserves_steps. Qed.

Lemma same_connect_handler a : preserves same (ngx_wasm_socket_tcp_connect_handler (W := W) debug a).
Proof.
  unfold ngx_wasm_socket_tcp_connect_handler, ngx_wasm_socket_tcp_init_addr_text, ngx_wasm_socket_tcp_test_connect.
  preserves_steps.
Qed.
#[local] Hint Resolve same_connect_handler : preserve.

Lemma same_connect_peer a : preserves same (ngx_wasm_socket_tcp_connect_peer (W := W) debug a).
Proof. unfold ngx_wasm_socket_tcp_connect_peer. preserves_steps. Qed.

Lemma same_handshake_done a : preserves same (ngx_wasm_socket_tcp_ssl_handshake_done (W := W) debug a).
Proof. unfold ngx_wasm_socket_tcp_ssl_handshake_done. cbv zeta. preserves_steps. Qed.
#[local] Hint Resolve same_connect_peer same_handshake_done : preserve.

Lemma same_server_name a : preserves same (ngx_wasm_socket_tcp_ssl_set_server_name (W := W) debug a).
Proof. unfold ngx_wasm_socket_tcp_ssl_set_server_name. cbv zeta. preserves_steps. Qed.
#[local] Hint Resolve same_server_name : preserve.

Lemma same_handshake a : preserves same (ngx_wasm_socket_tcp_ssl_handshake (W := W) debug a).
Proof. unfold ngx_wasm_socket_tcp_ssl_handshake. preserves_steps. Qed.

Lemma same_send_loop fuel : forall a cl, preserves same (send_loop (W := W) debug env fuel a cl).
Proof. induction fuel as [|fuel IH]; intros a cl; cbn [send_loop]; cbv zeta; preserves_steps. Qed.
#[local] Hint Resolve same_handshake same_send_loop : preserve.

Lemma same_send a cl : preserves same (ngx_wasm_socket_tcp_send (W := W) debug env a cl).
Proof. unfold ngx_wasm_socket_tcp_send, not_connected. preserves_steps. Qed.

Lemma same_next_buffer a b : preserves same (next_buffer (W := W) env a b).
Proof. unfold next_buffer. cbv zeta. preserves_steps. Qed.
Lemma same_wait_read a : preserves same (wait_read (W := W) a).
Proof. unfold wait_read. preserves_steps. Qed.
#[local] Hint Resolve same_next_buffer same_wait_read : preserve.
Lemma same_receive a : preserves same (receive (W := W) debug env a).
Proof. unfold receive. cbv zeta. preserves_steps. Qed.
#[local] Hint Resolve same_receive : preserve.

Lemma same_read fuel a reader :
  (forall n, preserves same (reader n)) ->
  preserves same (ngx_wasm_socket_tcp_read (W := W) debug env fuel a reader).
Proof.
  intros Hr. unfold ngx_wasm_socket_tcp_read, not_connected.
  assert (preserves same (read_loop (W := W) debug env fuel a reader)).
  { induction fuel as [|fuel IH]; cbn [read_loop]; preserves_steps. }
  preserves_steps.
Qed.

Lemma same_finalize_event ev : preserves same (finalize_event (W := W) ev).
Proof. unfold finalize_event. cbv zeta. preserves_steps. Qed.
#[local] Hint Resolve same_finalize_event : preserve.
Lemma same_close a : preserves same (ngx_wasm_socket_tcp_close (W := W) a).
Proof.
  unfold ngx_wasm_socket_tcp_close, ngx_wasm_socket_tcp_finalize_read, ngx_wasm_socket_tcp_finalize_write.
  preserves_steps.
Qed.
#[local] Hint Resolve same_close : preserve.
Lemma same_destroy a : preserves same (ngx_wasm_socket_tcp_destroy (W := W) a).
Proof. unfold ngx_wasm_socket_tcp_destroy. preserves_steps. Qed.

Lemma same_run_handler h a : preserves same (run_handler (W := W) debug h a).
Proof.
  destruct h; cbn [run_handler]; unfold ngx_wasm_socket_tcp_nop_handler, ngx_wasm_socket_tcp_send_handler,
    ngx_wasm_socket_tcp_receive_handler; preserves_steps.
Qed.

(** With the handlers that the events resume, whatever these keep. *)
Context (Rn : net W -> net W -> Prop) `{!PreOrder Rn} (Hsame : forall s s', same s s' -> Rn s s').
Context (resume_handler : addr -> SM (net W) ngx_rc) (ngx_wasm_resume : SM (net W) unit).
Context (Hresume : forall a, preserves Rn (resume_handler a)) (Hrequest : preserves Rn ngx_wasm_resume).

Lemma weaken {A} (m : SM (net W) A) : preserves same m -> preserves Rn m.
Proof. by apply preserves_weaken. Qed.
#[local] Hint Extern 3 (preserves Rn _) => apply weaken; solve [eauto with preserve] : preserve.
#[local] Hint Resolve same_run_handler : preserve.

Lemma keeps_resume a : preserves Rn (ngx_wasm_socket_tcp_resume env resume_handler a).
Proof. unfold ngx_wasm_socket_tcp_resume, subsys_http. preserves_steps. Qed.
#[local] Hint Resolve keeps_resume : preserve.
Lemma keeps_resume_request a : preserves Rn (resume_request env resume_handler ngx_wasm_resume a).
Proof. unfold resume_request. preserves_steps. Qed.
#[local] Hint Resolve keeps_resume_request : preserve.
Lemma keeps_handler a write :
  preserves Rn (ngx_wasm_socket_tcp_handler debug env resume_handler ngx_wasm_resume a write).
Proof. unfold ngx_wasm_socket_tcp_handler. preserves_steps. Qed.
Lemma keeps_resolve_handler a ctx :
  preserves Rn (ngx_wasm_socket_resolve_handler debug env resume_handler ngx_wasm_resume a ctx).
Proof.
  unfold ngx_wasm_socket_resolve_handler. cbv zeta.
  assert (forall b, preserves Rn (resolve_error env resume_handler ngx_wasm_resume a b)).
  { intros b. unfold resolve_error. preserves_steps. }
  preserves_steps.
Qed.
#[local] Hint Resolve keeps_resolve_handler : preserve.
Lemma keeps_connect a :
  preserves Rn (ngx_wasm_socket_tcp_connect debug env resume_handler ngx_wasm_resume a).
Proof. unfold ngx_wasm_socket_tcp_connect, subsys_http. preserves_steps. Qed.
End frame.

End SocketTcp.

(** ** A scripted environment *)

Module SocketRuns.
Import Pointers Readers SocketTcp.

(** What the connection, the resolver and the TLS library answer, one element per question: a
    connection is made and takes all it is given when the script is at its end; what was sent;
    what was called. *)
Inductive called := Closed | Yield | Wait | Resolved | Continued | Resumed.

Record script := {
  sc_connect : list (ngx_rc * Z);
  sc_send : list send_result;
  sc_recv : list (recv_result * bool);
  sc_resolve : list (ngx_rc * option resolver_ctx_t);
  sc_errno : Z;
  sc_sent : bytes;
  sc_called : list called;
}.

Definition call_of (c : called) (w : script) : script :=
  {| sc_connect := sc_connect w; sc_send := sc_send w; sc_recv := sc_recv w;
     sc_resolve := sc_resolve w; sc_errno := sc_errno w; sc_sent := sc_sent w;
     sc_called := sc_called w ++ [c] |}.

Definition active : ngx_event_t :=
  {| ev_timer := None; ev_timedout := false; ev_active := true; ev_disabled := false;
     ev_posted := false; ev_ready := true; ev_closed := false |}.
Definition connected : ngx_connection_t :=
  {| c_read := active; c_write := active; c_pool := false; c_error := false; c_addr_text := None;
     c_ssl := None; c_open := true |}.

Definition scripted_connect (w : script) : ngx_rc * option ngx_connection_t * Z * script :=
  let '(rc, errno, l) := match sc_connect w with
                         | [] => (NGX_OK, 0, [])
                         | (rc, errno) :: l => (rc, errno, l)
                         end in
  (rc, if AGAIN_or_ERROR rc then Some connected else None, errno,
   {| sc_connect := l; sc_send := sc_send w; sc_recv := sc_recv w; sc_resolve := sc_resolve w;
      sc_errno := sc_errno w; sc_sent := sc_sent w; sc_called := sc_called w |}).

Definition scripted_send (data : bytes) (w : script) : send_result * script :=
  let '(r, l) := match sc_send w with [] => (Sent (zlen data), []) | r :: l => (r, l) end in
  let n := match r with Sent n => Z.to_nat n | _ => O end in
  (match r with Sent n => Sent (Z.min n (zlen data)) | r => r end,
   {| sc_connect := sc_connect w; sc_send := l; sc_recv := sc_recv w; sc_resolve := sc_resolve w;
      sc_errno := sc_errno w; sc_sent := sc_sent w ++ take n data; sc_called := sc_called w |}).

Definition scripted_recv (avail : Z) (w : script) : recv_result * bool * script :=
  let '(r, ready, l) := match sc_recv w with
                        | [] => (Recv_again, false, [])
                        | (Received d, ready) :: l =>
                            if zlen d <=? avail then (Received d, ready, l)
                            else (Received (take (Z.to_nat avail) d), true,
                                  (Received (drop (Z.to_nat avail) d), ready) :: l)
                        | (r, ready) :: l => (r, ready, l)
                        end in
  (r, ready, {| sc_connect := sc_connect w; sc_send := sc_send w; sc_recv := l;
                sc_resolve := sc_resolve w; sc_errno := sc_errno w; sc_sent := sc_sent w;
                sc_called := sc_called w |}).

Definition scripted_resolve (w : script) : ngx_rc * option resolver_ctx_t * script :=
  let '(rc, ctx, l) := match sc_resolve w with
                       | [] => (NGX_AGAIN, None, [])
                       | (rc, ctx) :: l => (rc, ctx, l)
                       end in
  (rc, ctx, {| sc_connect := sc_connect w; sc_send := sc_send w; sc_recv := sc_recv w;
               sc_resolve := l; sc_errno := sc_errno w; sc_sent := sc_sent w;
               sc_called := sc_called w |}).

#[export] Instance scripted : NetEnv script := {
  ngx_event_connect_peer _ := scripted_connect;
  ngx_handle_event ev w := (true, ev, w);
  ngx_del_event ev w :=
    ({| ev_timer := ev_timer ev; ev_timedout := ev_timedout ev; ev_active := false;
        ev_disabled := false; ev_posted := ev_posted ev; ev_ready := ev_ready ev;
        ev_closed := ev_closed ev |}, w);
  c_send := scripted_send;
  c_recv := scripted_recv;
  so_error w := (sc_errno w, w);
  ngx_close_connection := call_of Closed;
  ngx_resolve_start _ w := (true, w);
  ngx_resolve_name _ _ _ := scripted_resolve;
  ngx_resolve_name_done := call_of Resolved;
  ngx_random w := (0, w);
  ngx_ssl_create_connection w :=
    (Some {| ssl_handshaked := false; ssl_handler := false; ssl_no_wait_shutdown := false |}, w);
  ngx_ssl_handshake ssl w :=
    (NGX_OK, {| ssl_handshaked := true; ssl_handler := ssl_handler ssl;
                ssl_no_wait_shutdown := ssl_no_wait_shutdown ssl |}, w);
  ngx_ssl_shutdown w := w;
  ssl_verify_result _ := 0;
  ngx_ssl_check_host _ _ := true;
  ssl_set_tlsext_host_name _ w := (true, w);
  ngx_wasm_lua_thread_cancel _ w := w;
  ngx_wasm_yield := call_of Yield;
  ngx_wasm_set_resume_handler := call_of Wait;
}.

Fixpoint index_of (b : byte) (s : bytes) : option nat :=
  match s with
  | [] => None
  | c :: s => if bool_decide (c = b) then Some O else S <$> index_of b s
  end.

Definition digits (s : bytes) : option Z :=
  match s with
  | [] => None
  | _ => fold_left (fun n c => n ← n; if (48 <=? b2z c) && (b2z c <=? 57)
                                     then Some (10 * n + (b2z c - 48)) else None) s (Some 0)
  end.

Fixpoint show_loop (fuel : nat) (n : Z) (acc : bytes) : bytes :=
  match fuel with
  | O => acc
  | S fuel => let acc := z2b (48 + n mod 10) :: acc in
              if n <? 10 then acc else show_loop fuel (n / 10) acc
  end.
Definition show (n : Z) : bytes := show_loop 20 n [].

(** Hosts are addresses, but [name.test] which is resolved. *)
Definition address (data : bytes) (port : Z) : sockaddr_t :=
  {| sa_family := AF_INET; sa_data := data; sa_port := port |}.

#[export] Instance strings : NetStrings := {
  ngx_strlchr s b := index_of b s;
  ngx_atoi := digits;
  ngx_strerror n := ngx_string "error " ++ show n;
  ngx_parse_url url port :=
    inl {| u_url := url; u_host := url; u_port := port; u_default_port := port;
           u_addr := if bool_decide (url = ngx_string "name.test") then None
                     else Some (address url port, url) |};
  ngx_inet_addr s := bool_decide (digits s <> None);
  ngx_sock_ntop sa _ := sa_data sa;
  ngx_resolver_strerror n := show n;
  X509_verify_cert_error_string n := show n;
  decimal := show;
}.

Definition nothing : script :=
  {| sc_connect := []; sc_send := []; sc_recv := []; sc_resolve := []; sc_errno := 0; sc_sent := [];
     sc_called := [] |}.

Definition conf (size : Z) (reuse : bool) : socket_conf :=
  {| cf_buffer_size := size; cf_buffer_reuse := reuse; cf_connect_timeout := 1000;
     cf_send_timeout := 1000; cf_recv_timeout := 1000; cf_resolver_timeout := 1000 |}.
Definition http_env (size : Z) (reuse : bool) : env_t :=
  {| en_http := true; en_fake_request := false; en_wcf := conf size reuse; en_loc := conf size reuse;
     en_lua_resolver := false; en_loc_resolver := true; en_ssl_conf := None; en_buf_tag := 7;
     en_large_num := 4; en_large_size := 256; en_http_block := true |}.

End SocketRuns.
