(* ===== verification/Dispatch.v ===== *)
(** * HTTP calls of filters

    src/src/http/proxy_wasm/ngx_http_proxy_wasm_dispatch.c, with the queue of operations of
    src/src/common/proxy_wasm/ngx_proxy_wasm.c and the host function of
    src/src/common/proxy_wasm/ngx_proxy_wasm_host.c: a filter gives a host, headers and a body; an
    event connects the socket of the call, sends the request, reads the response and runs the
    filter again, which continues when its last operation is done. *)
From S2P Require Import Prelude NginxCore Acl Host ProxyWasm Pairs Headers Pointers Readers SocketTcp.
From stdpp Require Export list gmap.
#[global] Open Scope Z_scope.

Module Dispatch.
Import Pointers Readers SocketTcp.
Import ProxyWasm (ngx_proxy_wasm_step_e(..), ngx_phase(..), ngx_proxy_wasm_err_e(..), is_err,
  ACTION_PAUSE, ACTION_CONTINUE).
#[local] Existing Instance ProxyWasm.step_eq_dec.

(** ** Data *)

(** [ngx_http_proxy_wasm_dispatch_state_e] *)
Inductive ngx_http_proxy_wasm_dispatch_state_e :=
| DISPATCH_START
| DISPATCH_CONNECTING
| DISPATCH_SENDING
| DISPATCH_RECEIVING
| DISPATCH_RECEIVED.

(** [ngx_http_proxy_wasm_dispatch_err_e] *)
Inductive ngx_http_proxy_wasm_dispatch_err_e :=
| DISPATCH_ERR_NONE
| DISPATCH_ERR_BAD_METHOD
| DISPATCH_ERR_BAD_PATH
| DISPATCH_ERR_BAD_STEP
| DISPATCH_ERR_NOMEM
| DISPATCH_ERR_MARSHALLING
| DISPATCH_ERR_UNKNOWN.

#[export] Instance dispatch_err_eq_dec : EqDecision ngx_http_proxy_wasm_dispatch_err_e.
Proof. solve_decision. Defined.

(** [ngx_http_proxy_wasm_dispatch_t], without the socket and the reader, which are in the heap of
    [SocketTcp] under its address.  A header is not sent when its hash is 0; [dc_ev] is the event
    that starts the call. *)
Record call_t := {
  dc_pool : bool;
  dc_id : Z;
  dc_timeout : Z;
  dc_error : ngx_http_proxy_wasm_dispatch_err_e;
  dc_host : option bytes;
  dc_method : bytes;
  dc_path : bytes;
  dc_authority : bytes;
  dc_headers : list Pairs.ngx_table_elt_t;
  dc_trailers : list Pairs.ngx_table_elt_t;
  dc_req_body_len : Z;
  dc_req_body : option addr;
  dc_req_out : option addr;
  dc_ev : option addr;
  dc_state : ngx_http_proxy_wasm_dispatch_state_e;
}.

Definition zero_call : call_t :=
  {| dc_pool := false; dc_id := 0; dc_timeout := 0; dc_error := DISPATCH_ERR_NONE; dc_host := None;
     dc_method := []; dc_path := []; dc_authority := []; dc_headers := []; dc_trailers := [];
     dc_req_body_len := 0; dc_req_body := None; dc_req_out := None; dc_ev := None;
     dc_state := DISPATCH_START |}.

(** [ngx_proxy_wasm_dispatch_op_t] *)
Inductive dispatch_op_t := HTTP_CALL (call : addr) | FOREIGN_CALL (call : addr).

#[export] Instance dispatch_op_eq_dec : EqDecision dispatch_op_t.
Proof. solve_decision. Defined.

(** The state of a filter and of its calls: the calls, [pwexec->dispatch_ops] from its head, the
    posted events with the call they start, [pwexec->dispatch_call], the static [callout_ids];
    the step, the phase and the action of the context, [pwexec->ecode] and [in_tick]; whether the
    instance executes a host call, whether and why it trapped; what was logged; the rest. *)
Record dworld (G : Type) := {
  d_calls : gmap addr call_t;
  d_ops : list dispatch_op_t;
  d_events : gmap addr addr;
  d_call : option addr;
  d_callout_ids : Z;
  d_step : ngx_proxy_wasm_step_e;
  d_phase : option ngx_phase;
  d_action : Z;
  d_ecode : ngx_proxy_wasm_err_e;
  d_in_tick : bool;
  d_hostcall : bool;
  d_trapped : bool;
  d_trapmsg : bytes;
  d_log : list bytes;
  d_ext : G;
}.
Arguments d_calls {G}.
Arguments d_ops {G}.
Arguments d_events {G}.
Arguments d_call {G}.
Arguments d_callout_ids {G}.
Arguments d_step {G}.
Arguments d_phase {G}.
Arguments d_action {G}.
Arguments d_ecode {G}.
Arguments d_in_tick {G}.
Arguments d_hostcall {G}.
Arguments d_trapped {G}.
Arguments d_trapmsg {G}.
Arguments d_log {G}.
Arguments d_ext {G}.

Definition set_dc_pool (v : bool) (x : call_t) : call_t :=
  {| dc_pool := v; dc_id := dc_id x; dc_timeout := dc_timeout x; dc_error := dc_error x; dc_host
     := dc_host x; dc_method := dc_method x; dc_path := dc_path x; dc_authority := dc_authority x;
     dc_headers := dc_headers x; dc_trailers := dc_trailers x; dc_req_body_len := dc_req_body_len
     x; dc_req_body := dc_req_body x; dc_req_out := dc_req_out x; dc_ev := dc_ev x; dc_state :=
     dc_state x |}.
Definition set_id (v : Z) (x : call_t) : call_t :=
  {| dc_pool := dc_pool x; dc_id := v; dc_timeout := dc_timeout x; dc_error := dc_error x;
     dc_host := dc_host x; dc_method := dc_method x; dc_path := dc_path x; dc_authority :=
     dc_authority x; dc_headers := dc_headers x; dc_trailers := dc_trailers x; dc_req_body_len :=
     dc_req_body_len x; dc_req_body := dc_req_body x; dc_req_out := dc_req_out x; dc_ev := dc_ev x;
     dc_state := dc_state x |}.
Definition set_timeout (v : Z) (x : call_t) : call_t :=
  {| dc_pool := dc_pool x; dc_id := dc_id x; dc_timeout := v; dc_error := dc_error x; dc_host :=
     dc_host x; dc_method := dc_method x; dc_path := dc_path x; dc_authority := dc_authority x;
     dc_headers := dc_headers x; dc_trailers := dc_trailers x; dc_req_body_len := dc_req_body_len
     x; dc_req_body := dc_req_body x; dc_req_out := dc_req_out x; dc_ev := dc_ev x; dc_state :=
     dc_state x |}.
Definition set_dc_error (v : ngx_http_proxy_wasm_dispatch_err_e) (x : call_t) : call_t :=
  {| dc_pool := dc_pool x; dc_id := dc_id x; dc_timeout := dc_timeout x; dc_error := v; dc_host
     := dc_host x; dc_method := dc_method x; dc_path := dc_path x; dc_authority := dc_authority x;
     dc_headers := dc_headers x; dc_trailers := dc_trailers x; dc_req_body_len := dc_req_body_len
     x; dc_req_body := dc_req_body x; dc_req_out := dc_req_out x; dc_ev := dc_ev x; dc_state :=
     dc_state x |}.
Definition set_dc_host (v : option bytes) (x : call_t) : call_t :=
  {| dc_pool := dc_pool x; dc_id := dc_id x; dc_timeout := dc_timeout x; dc_error := dc_error x;
     dc_host := v; dc_method := dc_method x; dc_path := dc_path x; dc_authority := dc_authority x;
     dc_headers := dc_headers x; dc_trailers := dc_trailers x; dc_req_body_len := dc_req_body_len
     x; dc_req_body := dc_req_body x; dc_req_out := dc_req_out x; dc_ev := dc_ev x; dc_state :=
     dc_state x |}.
Definition set_method (v : bytes) (x : call_t) : call_t :=
  {| dc_pool := dc_pool x; dc_id := dc_id x; dc_timeout := dc_timeout x; dc_error := dc_error x;
     dc_host := dc_host x; dc_method := v; dc_path := dc_path x; dc_authority := dc_authority x;
     dc_headers := dc_headers x; dc_trailers := dc_trailers x; dc_req_body_len := dc_req_body_len
     x; dc_req_body := dc_req_body x; dc_req_out := dc_req_out x; dc_ev := dc_ev x; dc_state :=
     dc_state x |}.
Definition set_path (v : bytes) (x : call_t) : call_t :=
  {| dc_pool := dc_pool x; dc_id := dc_id x; dc_timeout := dc_timeout x; dc_error := dc_error x;
     dc_host := dc_host x; dc_method := dc_method x; dc_path := v; dc_authority := dc_authority x;
     dc_headers := dc_headers x; dc_trailers := dc_trailers x; dc_req_body_len := dc_req_body_len
     x; dc_req_body := dc_req_body x; dc_req_out := dc_req_out x; dc_ev := dc_ev x; dc_state :=
     dc_state x |}.
Definition set_authority (v : bytes) (x : call_t) : call_t :=
  {| dc_pool := dc_pool x; dc_id := dc_id x; dc_timeout := dc_timeout x; dc_error := dc_error x;
     dc_host := dc_host x; dc_method := dc_method x; dc_path := dc_path x; dc_authority := v;
     dc_headers := dc_headers x; dc_trailers := dc_trailers x; dc_req_body_len := dc_req_body_len
     x; dc_req_body := dc_req_body x; dc_req_out := dc_req_out x; dc_ev := dc_ev x; dc_state :=
     dc_state x |}.
Definition set_dc_headers (v : list Pairs.ngx_table_elt_t) (x : call_t) : call_t :=
  {| dc_pool := dc_pool x; dc_id := dc_id x; dc_timeout := dc_timeout x; dc_error := dc_error x;
     dc_host := dc_host x; dc_method := dc_method x; dc_path := dc_path x; dc_authority :=
     dc_authority x; dc_headers := v; dc_trailers := dc_trailers x; dc_req_body_len :=
     dc_req_body_len x; dc_req_body := dc_req_body x; dc_req_out := dc_req_out x; dc_ev := dc_ev x;
     dc_state := dc_state x |}.
Definition set_trailers (v : list Pairs.ngx_table_elt_t) (x : call_t) : call_t :=
  {| dc_pool := dc_pool x; dc_id := dc_id x; dc_timeout := dc_timeout x; dc_error := dc_error x;
     dc_host := dc_host x; dc_method := dc_method x; dc_path := dc_path x; dc_authority :=
     dc_authority x; dc_headers := dc_headers x; dc_trailers := v; dc_req_body_len :=
     dc_req_body_len x; dc_req_body := dc_req_body x; dc_req_out := dc_req_out x; dc_ev := dc_ev x;
     dc_state := dc_state x |}.
Definition set_req_body_len (v : Z) (x : call_t) : call_t :=
  {| dc_pool := dc_pool x; dc_id := dc_id x; dc_timeout := dc_timeout x; dc_error := dc_error x;
     dc_host := dc_host x; dc_method := dc_method x; dc_path := dc_path x; dc_authority :=
     dc_authority x; dc_headers := dc_headers x; dc_trailers := dc_trailers x; dc_req_body_len :=
     v; dc_req_body := dc_req_body x; dc_req_out := dc_req_out x; dc_ev := dc_ev x; dc_state :=
     dc_state x |}.
Definition set_req_body (v : option addr) (x : call_t) : call_t :=
  {| dc_pool := dc_pool x; dc_id := dc_id x; dc_timeout := dc_timeout x; dc_error := dc_error x;
     dc_host := dc_host x; dc_method := dc_method x; dc_path := dc_path x; dc_authority :=
     dc_authority x; dc_headers := dc_headers x; dc_trailers := dc_trailers x; dc_req_body_len :=
     dc_req_body_len x; dc_req_body := v; dc_req_out := dc_req_out x; dc_ev := dc_ev x; dc_state :=
     dc_state x |}.
Definition set_req_out (v : option addr) (x : call_t) : call_t :=
  {| dc_pool := dc_pool x; dc_id := dc_id x; dc_timeout := dc_timeout x; dc_error := dc_error x;
     dc_host := dc_host x; dc_method := dc_method x; dc_path := dc_path x; dc_authority :=
     dc_authority x; dc_headers := dc_headers x; dc_trailers := dc_trailers x; dc_req_body_len :=
     dc_req_body_len x; dc_req_body := dc_req_body x; dc_req_out := v; dc_ev := dc_ev x; dc_state
     := dc_state x |}.
Definition set_ev (v : option addr) (x : call_t) : call_t :=
  {| dc_pool := dc_pool x; dc_id := dc_id x; dc_timeout := dc_timeout x; dc_error := dc_error x;
     dc_host := dc_host x; dc_method := dc_method x; dc_path := dc_path x; dc_authority :=
     dc_authority x; dc_headers := dc_headers x; dc_trailers := dc_trailers x; dc_req_body_len :=
     dc_req_body_len x; dc_req_body := dc_req_body x; dc_req_out := dc_req_out x; dc_ev := v;
     dc_state := dc_state x |}.
Definition set_dc_state (v : ngx_http_proxy_wasm_dispatch_state_e) (x : call_t) : call_t :=
  {| dc_pool := dc_pool x; dc_id := dc_id x; dc_timeout := dc_timeout x; dc_error := dc_error x;
     dc_host := dc_host x; dc_method := dc_method x; dc_path := dc_path x; dc_authority :=
     dc_authority x; dc_headers := dc_headers x; dc_trailers := dc_trailers x; dc_req_body_len :=
     dc_req_body_len x; dc_req_body := dc_req_body x; dc_req_out := dc_req_out x; dc_ev := dc_ev x;
     dc_state := v |}.
Definition set_calls {G} (v : gmap addr call_t) (x : dworld G) : dworld G :=
  {| d_calls := v; d_ops := d_ops x; d_events := d_events x; d_call := d_call x; d_callout_ids
     := d_callout_ids x; d_step := d_step x; d_phase := d_phase x; d_action := d_action x; d_ecode
     := d_ecode x; d_in_tick := d_in_tick x; d_hostcall := d_hostcall x; d_trapped := d_trapped x;
     d_trapmsg := d_trapmsg x; d_log := d_log x; d_ext := d_ext x |}.
Definition set_ops {G} (v : list dispatch_op_t) (x : dworld G) : dworld G :=
  {| d_calls := d_calls x; d_ops := v; d_events := d_events x; d_call := d_call x; d_callout_ids
     := d_callout_ids x; d_step := d_step x; d_phase := d_phase x; d_action := d_action x; d_ecode
     := d_ecode x; d_in_tick := d_in_tick x; d_hostcall := d_hostcall x; d_trapped := d_trapped x;
     d_trapmsg := d_trapmsg x; d_log := d_log x; d_ext := d_ext x |}.
Definition set_events {G} (v : gmap addr addr) (x : dworld G) : dworld G :=
  {| d_calls := d_calls x; d_ops := d_ops x; d_events := v; d_call := d_call x; d_callout_ids :=
     d_callout_ids x; d_step := d_step x; d_phase := d_phase x; d_action := d_action x; d_ecode :=
     d_ecode x; d_in_tick := d_in_tick x; d_hostcall := d_hostcall x; d_trapped := d_trapped x;
     d_trapmsg := d_trapmsg x; d_log := d_log x; d_ext := d_ext x |}.
Definition set_current {G} (v : option addr) (x : dworld G) : dworld G :=
  {| d_calls := d_calls x; d_ops := d_ops x; d_events := d_events x; d_call := v; d_callout_ids
     := d_callout_ids x; d_step := d_step x; d_phase := d_phase x; d_action := d_action x; d_ecode
     := d_ecode x; d_in_tick := d_in_tick x; d_hostcall := d_hostcall x; d_trapped := d_trapped x;
     d_trapmsg := d_trapmsg x; d_log := d_log x; d_ext := d_ext x |}.
Definition set_callout_ids {G} (v : Z) (x : dworld G) : dworld G :=
  {| d_calls := d_calls x; d_ops := d_ops x; d_events := d_events x; d_call := d_call x;
     d_callout_ids := v; d_step := d_step x; d_phase := d_phase x; d_action := d_action x; d_ecode
     := d_ecode x; d_in_tick := d_in_tick x; d_hostcall := d_hostcall x; d_trapped := d_trapped x;
     d_trapmsg := d_trapmsg x; d_log := d_log x; d_ext := d_ext x |}.
Definition set_step {G} (v : ngx_proxy_wasm_step_e) (x : dworld G) : dworld G :=
  {| d_calls := d_calls x; d_ops := d_ops x; d_events := d_events x; d_call := d_call x;
     d_callout_ids := d_callout_ids x; d_step := v; d_phase := d_phase x; d_action := d_action x;
     d_ecode := d_ecode x; d_in_tick := d_in_tick x; d_hostcall := d_hostcall x; d_trapped :=
     d_trapped x; d_trapmsg := d_trapmsg x; d_log := d_log x; d_ext := d_ext x |}.
Definition set_phase {G} (v : option ngx_phase) (x : dworld G) : dworld G :=
  {| d_calls := d_calls x; d_ops := d_ops x; d_events := d_events x; d_call := d_call x;
     d_callout_ids := d_callout_ids x; d_step := d_step x; d_phase := v; d_action := d_action x;
     d_ecode := d_ecode x; d_in_tick := d_in_tick x; d_hostcall := d_hostcall x; d_trapped :=
     d_trapped x; d_trapmsg := d_trapmsg x; d_log := d_log x; d_ext := d_ext x |}.
Definition set_action {G} (v : Z) (x : dworld G) : dworld G :=
  {| d_calls := d_calls x; d_ops := d_ops x; d_events := d_events x; d_call := d_call x;
     d_callout_ids := d_callout_ids x; d_step := d_step x; d_phase := d_phase x; d_action := v;
     d_ecode := d_ecode x; d_in_tick := d_in_tick x; d_hostcall := d_hostcall x; d_trapped :=
     d_trapped x; d_trapmsg := d_trapmsg x; d_log := d_log x; d_ext := d_ext x |}.
Definition set_ecode {G} (v : ngx_proxy_wasm_err_e) (x : dworld G) : dworld G :=
  {| d_calls := d_calls x; d_ops := d_ops x; d_events := d_events x; d_call := d_call x;
     d_callout_ids := d_callout_ids x; d_step := d_step x; d_phase := d_phase x; d_action :=
     d_action x; d_ecode := v; d_in_tick := d_in_tick x; d_hostcall := d_hostcall x; d_trapped :=
     d_trapped x; d_trapmsg := d_trapmsg x; d_log := d_log x; d_ext := d_ext x |}.
Definition set_in_tick {G} (v : bool) (x : dworld G) : dworld G :=
  {| d_calls := d_calls x; d_ops := d_ops x; d_events := d_events x; d_call := d_call x;
     d_callout_ids := d_callout_ids x; d_step := d_step x; d_phase := d_phase x; d_action :=
     d_action x; d_ecode := d_ecode x; d_in_tick := v; d_hostcall := d_hostcall x; d_trapped :=
     d_trapped x; d_trapmsg := d_trapmsg x; d_log := d_log x; d_ext := d_ext x |}.
Definition set_hostcall {G} (v : bool) (x : dworld G) : dworld G :=
  {| d_calls := d_calls x; d_ops := d_ops x; d_events := d_events x; d_call := d_call x;
     d_callout_ids := d_callout_ids x; d_step := d_step x; d_phase := d_phase x; d_action :=
     d_action x; d_ecode := d_ecode x; d_in_tick := d_in_tick x; d_hostcall := v; d_trapped :=
     d_trapped x; d_trapmsg := d_trapmsg x; d_log := d_log x; d_ext := d_ext x |}.
Definition set_trapped {G} (v : bool) (x : dworld G) : dworld G :=
  {| d_calls := d_calls x; d_ops := d_ops x; d_events := d_events x; d_call := d_call x;
     d_callout_ids := d_callout_ids x; d_step := d_step x; d_phase := d_phase x; d_action :=
     d_action x; d_ecode := d_ecode x; d_in_tick := d_in_tick x; d_hostcall := d_hostcall x;
     d_trapped := v; d_trapmsg := d_trapmsg x; d_log := d_log x; d_ext := d_ext x |}.
Definition set_trapmsg {G} (v : bytes) (x : dworld G) : dworld G :=
  {| d_calls := d_calls x; d_ops := d_ops x; d_events := d_events x; d_call := d_call x;
     d_callout_ids := d_callout_ids x; d_step := d_step x; d_phase := d_phase x; d_action :=
     d_action x; d_ecode := d_ecode x; d_in_tick := d_in_tick x; d_hostcall := d_hostcall x;
     d_trapped := d_trapped x; d_trapmsg := v; d_log := d_log x; d_ext := d_ext x |}.
Definition set_d_log {G} (v : list bytes) (x : dworld G) : dworld G :=
  {| d_calls := d_calls x; d_ops := d_ops x; d_events := d_events x; d_call := d_call x;
     d_callout_ids := d_callout_ids x; d_step := d_step x; d_phase := d_phase x; d_action :=
     d_action x; d_ecode := d_ecode x; d_in_tick := d_in_tick x; d_hostcall := d_hostcall x;
     d_trapped := d_trapped x; d_trapmsg := d_trapmsg x; d_log := v; d_ext := d_ext x |}.
Definition set_ext {G} (v : G) (x : dworld G) : dworld G :=
  {| d_calls := d_calls x; d_ops := d_ops x; d_events := d_events x; d_call := d_call x;
     d_callout_ids := d_callout_ids x; d_step := d_step x; d_phase := d_phase x; d_action :=
     d_action x; d_ecode := d_ecode x; d_in_tick := d_in_tick x; d_hostcall := d_hostcall x;
     d_trapped := d_trapped x; d_trapmsg := d_trapmsg x; d_log := d_log x; d_ext := v |}.

(** What calls use of the rest: [ngx_wasm_continue], the destruction of foreign calls, and the
    functions of sockets on the rest of the world. *)
Class DispatchExt (G : Type) := {
  ngx_wasm_continue : G -> G;
  ngx_proxy_wasm_foreign_call_destroy : addr -> G -> G;
  ngx_http_wasm_create_fake_rctx : G -> bool * G;
}.

Definition on_ext {G A} (f : G -> A * G) (w : dworld G) : A * dworld G :=
  let '(x, g) := f (d_ext w) in (x, set_ext g w).
Definition in_ext {G} (f : G -> G) (w : dworld G) : dworld G := set_ext (f (d_ext w)) w.

#[export] Instance dispatch_env {G} `{NetEnv G} : NetEnv (dworld G) := {
  ngx_event_connect_peer sa := on_ext (ngx_event_connect_peer sa);
  ngx_handle_event ev := on_ext (ngx_handle_event ev);
  ngx_del_event ev := on_ext (ngx_del_event ev);
  c_send data := on_ext (c_send data);
  c_recv n w := let '(r, ready, g) := c_recv n (d_ext w) in (r, ready, set_ext g w);
  so_error := on_ext so_error;
  ngx_close_connection := in_ext ngx_close_connection;
  ngx_resolve_start loc := on_ext (ngx_resolve_start loc);
  ngx_resolve_name lua name t := on_ext (ngx_resolve_name lua name t);
  ngx_resolve_name_done := in_ext ngx_resolve_name_done;
  ngx_random := on_ext ngx_random;
  ngx_ssl_create_connection := on_ext ngx_ssl_create_connection;
  ngx_ssl_handshake ssl := on_ext (ngx_ssl_handshake ssl);
  ngx_ssl_shutdown := in_ext ngx_ssl_shutdown;
  ssl_verify_result w := ssl_verify_result (d_ext w);
  ngx_ssl_check_host name w := ngx_ssl_check_host name (d_ext w);
  ssl_set_tlsext_host_name name := on_ext (ssl_set_tlsext_host_name name);
  ngx_wasm_lua_thread_cancel l := in_ext (ngx_wasm_lua_thread_cancel l);
  ngx_wasm_yield := in_ext ngx_wasm_yield;
  ngx_wasm_set_resume_handler := in_ext ngx_wasm_set_resume_handler;
}.

(** ** Errors *)

Definition err_index (e : ngx_http_proxy_wasm_dispatch_err_e) : nat :=
  match e with
  | DISPATCH_ERR_NONE => 0
  | DISPATCH_ERR_BAD_METHOD => 1
  | DISPATCH_ERR_BAD_PATH => 2
  | DISPATCH_ERR_BAD_STEP => 3
  | DISPATCH_ERR_NOMEM => 4
  | DISPATCH_ERR_MARSHALLING => 5
  | DISPATCH_ERR_UNKNOWN => 6
  end.

Definition ngx_http_proxy_wasm_dispatch_errlist : list bytes :=
  [[]; ngx_string "no :method"; ngx_string "no :path"; ngx_string "bad step";
   ngx_string "no memory"; ngx_string "marshalling error"; ngx_string "unknown"].

Definition ngx_http_proxy_wasm_dispatch_strerror (e : ngx_http_proxy_wasm_dispatch_err_e) : bytes :=
  let unknown := default [] (ngx_http_proxy_wasm_dispatch_errlist !! 6%nat) in
  if (err_index e <? 6)%nat
  then default unknown (ngx_http_proxy_wasm_dispatch_errlist !! err_index e) else unknown.

(** The message of [ngx_http_proxy_wasm_dispatch_err]: the text of the socket, and the error of
    the call. *)
Definition dispatch_message (sock_err : bytes) (e : ngx_http_proxy_wasm_dispatch_err_e) : bytes :=
  take (Z.to_nat NGX_MAX_ERROR_STR)
    (ngx_string "dispatch failed"
     ++ (if bool_decide (sock_err = []) then [] else ngx_string ": " ++ sock_err)
     ++ (if bool_decide (e = DISPATCH_ERR_NONE) then []
         else ngx_string ": " ++ ngx_http_proxy_wasm_dispatch_strerror e)).

(** ** The headers a filter gives *)

Definition colon : byte := "058"%byte.

(** What the scan over the headers finds. *)
Record found_t := {
  fd_method : bytes; fd_path : bytes; fd_authority : bytes; fd_ssl : bool;
}.

Definition with_hash (h : Z) (e : Pairs.ngx_table_elt_t) : Pairs.ngx_table_elt_t :=
  {| Pairs.hash := h; Pairs.key := Pairs.key e; Pairs.value := Pairs.value e |}.

Definition same_name (key : bytes) (name : bytes) : bool :=
  (length key =? length name)%nat && bool_decide (Acl.ngx_strlow key = Acl.ngx_strlow name).

(** One header: the first byte of an empty key is the null byte after it. *)
Definition scan_header (e : Pairs.ngx_table_elt_t) (f : found_t) : Pairs.ngx_table_elt_t * found_t :=
  let k := Pairs.key e in
  let v := Pairs.value e in
  if bool_decide (default x00 (head k) = colon) then
    (with_hash 0 e,
     if bool_decide (k = ngx_string ":method") then
       {| fd_method := v; fd_path := fd_path f; fd_authority := fd_authority f; fd_ssl := fd_ssl f |}
     else if bool_decide (k = ngx_string ":path") then
       {| fd_method := fd_method f; fd_path := v; fd_authority := fd_authority f; fd_ssl := fd_ssl f |}
     else if bool_decide (k = ngx_string ":authority") then
       {| fd_method := fd_method f; fd_path := fd_path f; fd_authority := v; fd_ssl := fd_ssl f |}
     else if bool_decide (k = ngx_string ":scheme") && bool_decide (v = ngx_string "https") then
       {| fd_method := fd_method f; fd_path := fd_path f; fd_authority := fd_authority f; fd_ssl := true |}
     else f)
  else if same_name k (ngx_string "Host") || same_name k (ngx_string "Connection") then (with_hash 0 e, f)
  else (with_hash 1 e, f).

Fixpoint scan_headers (l : list Pairs.ngx_table_elt_t) (f : found_t)
    : list Pairs.ngx_table_elt_t * found_t :=
  match l with
  | [] => ([], f)
  | e :: l =>
      let '(e, f) := scan_header e f in
      let '(l, f) := scan_headers l f in (e :: l, f)
  end.

Definition nothing_found : found_t :=
  {| fd_method := []; fd_path := []; fd_authority := []; fd_ssl := false |}.

Section dispatch.
Context {G : Type} `{NetEnv G, DispatchExt G, NetStrings, HttpParsers, NgxChains}.
Context {P : Type} `{Headers.NgxPool P} `{Headers.NgxStrings}.

Abbreviation S := (net (dworld G)).
Abbreviation D := (SM S).

(** [debug]; the environment of the request; [rctx->sock_buffer_reuse] and
    [rctx->pwm_log_dispatch_errors]; the rounds of a read; the pools and the arrays of [Pairs];
    [headers_pool], [headers_fresh] and [headers_build] are those of [Headers], and [rctx_view]
    what it sees of the context. *)
Context (debug : bool) (env : env_t) (sock_buffer_reuse log_dispatch_errors : bool) (io_fuel : nat).
Context (array_ok pnalloc_ok : Z -> bool).
Context (headers_pool : P) (headers_fresh : Z -> bytes) (headers_build : Headers.build)
  (rctx_view : option Headers.req_ctx_t).

(** The filter runs ([ngx_proxy_wasm_run_step] on the step of responses), the chain of the
    filter goes on ([ngx_proxy_wasm_resume]), and the request goes on
    ([ngx_http_wasm_resume], [ngx_wasm_resume]). *)
Context (ngx_proxy_wasm_run_step : ngx_proxy_wasm_step_e -> D ngx_proxy_wasm_err_e)
  (ngx_proxy_wasm_resume : option ngx_phase -> ngx_proxy_wasm_step_e -> D ngx_rc)
  (ngx_http_wasm_resume : D unit).

Definition dget {A} (f : dworld G -> A) : D A := nget (fun s => f (n_world s)).
Definition dput (f : dworld G -> dworld G) : D unit := tell f.

Definition call (a : addr) : D call_t := cs ← dget d_calls; slift (deref (cs !! a)).
Definition upd_call (a : addr) (f : call_t -> call_t) : D unit :=
  c ← call a; dput (fun w => set_calls (<[a := f c]> (d_calls w)) w).

(** [ngx_proxy_wasm_ctx_set_next_action] *)
Definition set_next_action (action : Z) : D unit := dput (set_action action).

(** ** [ngx_http_proxy_wasm_dispatch_destroy] *)

Definition ngx_http_proxy_wasm_dispatch_destroy (a : addr) : D unit :=
  c ← call a;
  match dc_ev c with
  | Some ev => dput (fun w => set_events (delete ev (d_events w)) w);; upd_call a (set_ev None)
  | None => mret tt
  end;;
  ngx_wasm_socket_tcp_destroy a;;
  upd_call a (set_dc_host None);;
  match dc_req_body c with
  | Some cl =>
      memory (with_fuel (fun n => consume_loop n (Some cl)));;
      nput (fun s => with_lists (Some cl) (n_busy s) s)
  | None => mret tt
  end;;
  nput (with_socks (delete a));;
  nput (with_readers (delete a));;
  dput (fun w => set_calls (delete a (d_calls w)) w).

(** ** [invoke_on_http_dispatch_response] *)

Definition invoke_on_http_dispatch_response (a : addr) : D ngx_rc :=
  dput (set_current (Some a));;
  step ← dget d_step;
  dput (set_phase (Some NGX_WASM_BACKGROUND_PHASE));;
  ecode ← ngx_proxy_wasm_run_step STEP_DISPATCH_RESPONSE;
  if is_err ecode then mret NGX_ERROR
  else
    dput (set_step step);;
    dput (set_current None);;
    mret NGX_OK.

(** ** [ngx_http_proxy_wasm_dispatch_err] *)

Definition ngx_http_proxy_wasm_dispatch_err (a : addr) (resume : bool) : D unit :=
  s ← sock a;
  c ← call a;
  (if has_errlen s
   then slift (ngx_wa_assert debug (negb (bool_decide (sk_status s = STATUS_OK)))) else mret tt);;
  let msg := dispatch_message (default [] (sk_err s)) (dc_error c) in
  hostcall ← dget d_hostcall;
  (if negb hostcall || en_fake_request env then
     (if log_dispatch_errors then dput (fun w => set_d_log (d_log w ++ [msg]) w) else mret tt)
   else dput (fun w => set_trapmsg msg (set_trapped true w)));;
  (if resume then rc ← invoke_on_http_dispatch_response a; mret tt else mret tt);;
  ngx_http_proxy_wasm_dispatch_destroy a;;
  dput (set_current None).

(** ** The queue of operations (src/src/common/proxy_wasm/ngx_proxy_wasm.c) *)

Definition ngx_proxy_wasm_dispatch_ops_total : D Z := dget (fun w => zlen (d_ops w)).

(** One round per operation. *)
Fixpoint cancel_loop (fuel : nat) : D unit :=
  ops ← dget d_ops;
  match ops, fuel with
  | [], _ => mret tt
  | _, O => nfail F_fuel
  | op :: ops, Datatypes.S fuel =>
      dput (set_ops ops);;
      match op with
      | HTTP_CALL a => ngx_http_proxy_wasm_dispatch_destroy a
      | FOREIGN_CALL f => dput (in_ext (ngx_proxy_wasm_foreign_call_destroy f))
      end;;
      cancel_loop fuel
  end.

Definition ngx_proxy_wasm_dispatch_ops_cancel : D unit :=
  n ← dget (fun w => length (d_ops w)); cancel_loop n.

(** [ngx_queue_remove] *)
Definition remove_op (a : addr) : D unit :=
  dput (fun w => set_ops (filter (fun op => op <> HTTP_CALL a) (d_ops w)) w).

(** ** [ngx_http_proxy_wasm_dispatch]

    The call, [None] for [NULL].  [no_rctx]: there is no request, the context of a fake request
    is created; the state is the one of that context. *)

(** The label [error], where there is a call. *)
Definition dispatch_failed (a : addr) (e : ngx_http_proxy_wasm_dispatch_err_e) : D (option addr) :=
  upd_call a (set_dc_error e);;
  ngx_http_proxy_wasm_dispatch_err a false;;
  mret None.

(** From [init]: the socket, the reader, the operation and the event. *)
Definition dispatch_init (a : addr) (host : bytes) (ssl : bool) : D (option addr) :=
  let failed := ngx_http_proxy_wasm_dispatch_err a false;; mret None in
  c ← call a;
  rc ← ngx_wasm_socket_tcp_init debug env a host ssl (Some (dc_authority c));
  if negb (is_ok rc) then failed
  else
    upd a (fun s => set_connect_timeout (dc_timeout c)
                      (set_send_timeout (dc_timeout c) (set_read_timeout (dc_timeout c) s)));;
    rc ← on_reader a (ngx_wasm_http_reader_init debug);
    if negb (is_ok rc) then failed
    else
      ok ← memory palloc;
      if negb ok then failed
      else
        ok ← memory palloc;
        if negb ok then failed
        else
          evs ← dget d_events;
          let ev := fresh (dom evs : gset addr) in
          dput (set_events (<[ev := a]> evs));;
          upd_call a (set_ev (Some ev));;
          dput (fun w => set_ops (HTTP_CALL a :: d_ops w) w);;
          set_next_action ACTION_PAUSE;;
          mret (Some a).

Definition dispatch_body (a : addr) (host : bytes) (ssl : bool) (body : bytes) : D (option addr) :=
  if bool_decide (body = []) then dispatch_init a host ssl
  else
    upd_call a (set_req_body_len (zlen body));;
    free ← nget n_free;
    '(cl, free) ← memory (ngx_wasm_chain_get_free_buf free (zlen body) (en_buf_tag env) sock_buffer_reuse);
    nput (fun s => with_lists free (n_busy s) s);;
    upd_call a (set_req_body cl);;
    match cl with
    | None => ngx_http_proxy_wasm_dispatch_err a false;; mret None
    | Some cl => memory (cpymem cl body);; dispatch_init a host ssl
    end.

Definition ngx_http_proxy_wasm_dispatch (no_rctx : bool) (host headers trailers body : bytes)
    (timeout : Z) : D (option addr) :=
  ok ← (if no_rctx then
          ok ← ask (on_ext ngx_http_wasm_create_fake_rctx);
          (if (ok : bool) then nput (with_lists None None) else mret tt);; mret ok
        else mret true);
  if negb ok then mret None
  else
    ok ← memory palloc;
    if negb ok then mret None
    else
      cs ← dget d_calls;
      let a := fresh (dom cs : gset addr) in
      dput (set_calls (<[a := zero_call]> cs));;
      nput (with_socks (<[a := zero_sock]>));;
      nput (with_readers (<[a := zero_reader]>));;
      in_tick ← dget d_in_tick;
      step ← dget d_step;
      if negb in_tick && (bool_decide (step = STEP_LOG) || bool_decide (step = STEP_DONE))
      then dispatch_failed a DISPATCH_ERR_BAD_STEP
      else
        ok ← memory palloc;
        if negb ok then dispatch_failed a DISPATCH_ERR_NOMEM
        else
          upd_call a (set_dc_pool true);;
          id ← dget d_callout_ids;
          dput (set_callout_ids (wrap32 (id + 1)));;
          upd_call a (fun c => set_timeout timeout (set_id id c));;
          ok ← memory palloc;
          if negb ok then dispatch_failed a DISPATCH_ERR_NOMEM
          else
            upd_call a (set_dc_host (Some host));;
            '(rc, hs) ← slift (Pairs.ngx_proxy_wasm_pairs_unmarshal array_ok pnalloc_ok headers);
            '(rc, ts) ← (if is_ok rc then slift (Pairs.ngx_proxy_wasm_pairs_unmarshal array_ok pnalloc_ok trailers)
                         else mret (rc, []));
            if negb (is_ok rc) then dispatch_failed a DISPATCH_ERR_MARSHALLING
            else
              let '(hs, f) := scan_headers hs nothing_found in
              upd_call a (fun c =>
                set_authority (fd_authority f) (set_path (fd_path f) (set_method (fd_method f)
                  (set_trailers ts (set_dc_headers hs c)))));;
              if bool_decide (fd_method f = []) then dispatch_failed a DISPATCH_ERR_BAD_METHOD
              else if bool_decide (fd_path f = []) then dispatch_failed a DISPATCH_ERR_BAD_PATH
              else dispatch_body a host (fd_ssl f) body.

(** ** [ngx_http_proxy_wasm_dispatch_request] *)

Definition CRLF : bytes := [x0d; x0a].
Definition NGX_OFF_T_LEN : Z := 20.

(** [fake_r], whose headers are those of the call. *)
Definition fake_r : Headers.request :=
  {| Headers.rq_in := {| Headers.hi_headers := {| Headers.hd_list := [[]]; Headers.hd_field := fun _ => None |};
                         Headers.hi_server := None; Headers.hi_connection_type := 0;
                         Headers.hi_keep_alive_n := 0;
                         Headers.hi_ua := {| Headers.ua_msie := false; Headers.ua_msie6 := false;
                                             Headers.ua_opera := false; Headers.ua_gecko := false;
                                             Headers.ua_chrome := false; Headers.ua_safari := false;
                                             Headers.ua_konqueror := false |};
                         Headers.hi_content_length_n := 0 |};
     Headers.rq_out := {| Headers.ho_headers := {| Headers.hd_list := [[]]; Headers.hd_field := fun _ => None |};
                          Headers.ho_status := 0; Headers.ho_content_length_n := 0;
                          Headers.ho_content_type := None; Headers.ho_content_type_len := 0;
                          Headers.ho_content_type_hash := 0; Headers.ho_content_type_lowcase := None;
                          Headers.ho_last_modified_time := 0 |};
     Headers.rq_keepalive := false;
     Headers.rq_rctx := rctx_view |}.

(** [ngx_http_proxy_wasm_dispatch_set_header], on the headers whose hash is not 0. *)
Fixpoint set_headers_loop (l : list Pairs.ngx_table_elt_t) (r : Headers.request * P)
    : outcome (bool * (Headers.request * P)) :=
  match l with
  | [] => Ret (true, r)
  | e :: l =>
      if Pairs.hash e =? 0 then set_headers_loop l r
      else
        match Headers.ngx_http_wasm_set_req_header debug headers_fresh headers_build (Pairs.key e)
                (Some (Some (Pairs.value e))) Headers.NGX_HTTP_WASM_HEADERS_APPEND r with
        | Ret (rc, r) => if is_ok rc then set_headers_loop l r else Ret (false, r)
        | Fault f => Fault f
        end
  end.

(** The headers that are sent, and whether [Content-Length] is one of them. *)
Definition request_headers (c : call_t) : outcome (option (list (bytes * bytes) * bool)) :=
  let? r := set_headers_loop (dc_headers c) (fake_r, headers_pool) in
  let '(ok, (r, _)) := r in
  let hs := Headers.hi_headers (Headers.rq_in r) in
  Ret (if (ok : bool) then
         Some ((fun e => (Headers.te_key e, default [] (Headers.te_value e))) <$> concat (Headers.hd_list hs),
               bool_decide (is_Some (Headers.hd_field hs Headers.f_content_length)))
       else None).

(** [len]: [length] tells whether [Content-Length] is added. *)
Definition request_len (c : call_t) (hs : list (bytes * bytes)) (length : bool) : Z :=
  (zlen (dc_method c) + 1 + zlen (dc_path c) + 1 + zlen (ngx_string "HTTP/1.1" ++ CRLF))
  + (zlen (ngx_string "Host") + 2 + zlen (dc_authority c) + 2)
  + (zlen (ngx_string "Connection") + 7 + 2)
  + (if length then zlen (ngx_string "Content-Length") + 2 + NGX_OFF_T_LEN + 2 else 0)
  + foldr (fun h n => zlen h.1 + 2 + zlen h.2 + 2 + n) 0 hs
  + 2.

(** What is written, piece by piece. *)
Definition request_pieces (c : call_t) (hs : list (bytes * bytes)) (length : bool) : list bytes :=
  [dc_method c; ngx_string " "; dc_path c; ngx_string " "; ngx_string "HTTP/1.1" ++ CRLF;
   ngx_string "Host"; ngx_string ": "; dc_authority c; [x0d]; [x0a];
   ngx_string "Connection"; ngx_string ": close" ++ CRLF]
  ++ (if length then [ngx_string "Content-Length"; ngx_string ": " ++ Headers.ngx_sprintf_O (dc_req_body_len c) ++ CRLF]
      else [])
  ++ concat ((fun h => [h.1; [colon]; ngx_string " "; h.2; [x0d]; [x0a]]) <$> hs)
  ++ [[x0d]; [x0a]].

Fixpoint write_pieces (cl : addr) (l : list bytes) : M unit :=
  match l with
  | [] => mret tt
  | p :: l => cpymem cl p;; write_pieces cl l
  end.

Definition ngx_http_proxy_wasm_dispatch_request (a : addr) : D (option addr) :=
  c ← call a;
  match dc_req_out c with
  | Some cl => mret (Some cl)
  | None =>
      s ← sock a;
      (if bool_decide (dc_authority c = []) then
         peer ← slift (deref (sk_peer_sockaddr s));
         upd_call a (set_authority (if bool_decide (sa_family peer = AF_UNIX) then ngx_string "localhost"
                                    else default [] (sk_host s)))
       else mret tt);;
      ok ← memory palloc;
      if negb ok then mret None
      else
        c ← call a;
        o ← slift (request_headers c);
        match o with
        | None => mret None
        | Some (hs, content_length) =>
            let length := negb content_length && (0 <=? dc_req_body_len c) in
            free ← nget n_free;
            '(nl, free) ← memory (ngx_wasm_chain_get_free_buf free (request_len c hs length)
                                    (en_buf_tag env) sock_buffer_reuse);
            nput (fun s => with_lists free (n_busy s) s);;
            match nl with
            | None => mret None
            | Some nl =>
                memory (write_pieces nl (request_pieces c hs length));;
                (if negb (dc_req_body_len c =? 0) then memory (write_link nl (set_next (dc_req_body c))) else mret tt);;
                upd_call a (set_req_out (Some nl));;
                mret (Some nl)
            end
        end
  end.

(** ** [ngx_http_proxy_wasm_dispatch_resume_handler]

    Where the [switch] ends: a [break], or a [goto] to a label, with [rc]. *)
Inductive exit := Break (rc : ngx_rc) | To_error (rc : ngx_rc) | To_done (rc : ngx_rc).

Definition state_received (a : addr) (rc : ngx_rc) : D exit :=
  ngx_wasm_socket_tcp_close a;;
  trapped ← dget d_trapped;
  if (trapped : bool) then
    dput (set_ecode ERR_INSTANCE_TRAPPED);; mret (To_error NGX_ABORT)
  else
    remove_op a;;
    rc' ← invoke_on_http_dispatch_response a;
    if negb (is_ok rc') then
      ngx_http_proxy_wasm_dispatch_err a false;; mret (To_done NGX_ERROR)
    else
      ngx_http_proxy_wasm_dispatch_destroy a;; mret (Break rc).

Definition state_receiving (a : addr) : D exit :=
  rc ← ngx_wasm_socket_tcp_read debug env io_fuel a (http_reader debug env a);
  match rc with
  | NGX_ERROR => mret (To_error NGX_ERROR)
  | NGX_AGAIN => mret (Break NGX_AGAIN)
  | _ =>
      slift (ngx_wa_assert debug (is_ok rc));;
      upd_call a (set_dc_state DISPATCH_RECEIVED);;
      state_received a rc
  end.

(** [rc] is what it is before the state. *)
Definition state_sending (a : addr) (rc : ngx_rc) : D exit :=
  nl ← ngx_http_proxy_wasm_dispatch_request a;
  match nl with
  | None => mret (To_error rc)
  | Some nl =>
      rc ← ngx_wasm_socket_tcp_send debug env a nl;
      match rc with
      | NGX_ERROR => mret (To_error NGX_ERROR)
      | NGX_AGAIN => mret (Break NGX_AGAIN)
      | _ =>
          s ← nget id;
          '(free, busy) ← memory (ngx_chain_update_chains (n_free s) (n_busy s) (Some nl) (en_buf_tag env));
          nput (with_lists free busy);;
          slift (ngx_wa_assert debug (is_ok rc));;
          upd_call a (set_dc_state DISPATCH_RECEIVING);;
          state_receiving a
      end
  end.

(** The handler of a socket which is resolved at once may run inside of the handler, which
    [resume] is. *)
Definition state_connecting (resume : addr -> D ngx_rc) (a : addr) : D exit :=
  rc ← ngx_wasm_socket_tcp_connect debug env resume ngx_http_wasm_resume a;
  match rc with
  | NGX_ERROR => mret (To_error NGX_ERROR)
  | NGX_AGAIN => mret (Break NGX_AGAIN)
  | _ =>
      slift (ngx_wa_assert debug (is_ok rc));;
      upd_call a (set_dc_state DISPATCH_SENDING);;
      state_sending a rc
  end.

Definition switch_state (resume : addr -> D ngx_rc) (a : addr) : D exit :=
  c ← call a;
  match dc_state c with
  | DISPATCH_START => upd_call a (set_dc_state DISPATCH_CONNECTING);; state_connecting resume a
  | DISPATCH_CONNECTING => state_connecting resume a
  | DISPATCH_SENDING => state_sending a NGX_ERROR
  | DISPATCH_RECEIVING => state_receiving a
  | DISPATCH_RECEIVED => state_received a NGX_ERROR
  end.

(** The label [done]. *)
Definition dispatch_done (rc : ngx_rc) : D ngx_rc :=
  total ← ngx_proxy_wasm_dispatch_ops_total;
  if negb (total =? 0) then
    dput ngx_wasm_yield;;
    set_next_action ACTION_PAUSE;;
    mret NGX_AGAIN
  else
    dput (in_ext ngx_wasm_continue);;
    set_next_action ACTION_CONTINUE;;
    if bool_decide (rc = NGX_ERROR) then mret NGX_ERROR
    else
      phase ← dget d_phase;
      step ← dget d_step;
      ngx_proxy_wasm_resume phase step.

(** The label [error], then [error2]. *)
Definition dispatch_error (a : addr) (rc : ngx_rc) : D ngx_rc :=
  remove_op a;;
  let rc := if bool_decide (rc = NGX_ABORT) then NGX_ERROR else rc in
  ngx_http_proxy_wasm_dispatch_err a true;;
  dispatch_done rc.

Fixpoint ngx_http_proxy_wasm_dispatch_resume_handler (fuel : nat) (a : addr) : D ngx_rc :=
  match fuel with
  | O => nfail F_fuel
  | Datatypes.S fuel =>
      s ← sock a;
      _ ← call a;
      if bool_decide (is_Some (sk_err s)) then dispatch_error a NGX_ERROR
      else
        e ← switch_state (ngx_http_proxy_wasm_dispatch_resume_handler fuel) a;
        match e with
        | Break rc => slift (ngx_wa_assert debug (AGAIN_or_ERROR rc));; dispatch_done rc
        | To_error rc => dispatch_error a rc
        | To_done rc => dispatch_done rc
        end
  end.

(** ** [ngx_http_proxy_wasm_dispatch_handler]

    The event [ev] starts its call. *)
Definition ngx_http_proxy_wasm_dispatch_handler (fuel : nat) (ev : addr) : D unit :=
  evs ← dget d_events;
  a ← slift (deref (evs !! ev));
  _ ← call a;
  dput (fun w => set_events (delete ev (d_events w)) w);;
  upd_call a (set_ev None);;
  upd a (set_resume true);;
  rc ← ngx_http_proxy_wasm_dispatch_resume_handler fuel a;
  if negb (bool_decide (rc = NGX_AGAIN)) then ngx_http_wasm_resume else mret tt.

(** The handler of the events of the sockets of calls. *)
Definition socket_event (fuel : nat) (a : addr) (write : bool) : D unit :=
  ngx_wasm_socket_tcp_handler debug env (ngx_http_proxy_wasm_dispatch_resume_handler fuel)
    ngx_http_wasm_resume a write.

(** The answer of the resolver, which comes later. *)
Definition resolver_event (fuel : nat) (a : addr) (ctx : resolver_ctx_t) : D unit :=
  ngx_wasm_socket_resolve_handler debug env (ngx_http_proxy_wasm_dispatch_resume_handler fuel)
    ngx_http_wasm_resume a ctx.

End dispatch.


(** ** [proxy_dispatch_http_call]

    [acl] is the check of the access list of the root context, when it has one; [no_rctx]:
    [ngx_http_proxy_wasm_get_rctx] finds no request. *)
Section guests.
Context {S : Type} (ngx_vsnprintf : nat -> bytes -> option bytes).
Abbreviation GM := (SM (Host.host S)).
Abbreviation LIFT_SLICE := (Host.NGX_WAVM_HOST_LIFT_SLICE ngx_vsnprintf).
Abbreviation LIFT := (Host.NGX_WAVM_HOST_LIFT ngx_vsnprintf).

Context (acl : option (bytes -> ngx_rc)) (no_rctx : bool) (step_of : S -> ngx_proxy_wasm_step_e)
  (id_of : S -> addr -> option Z)
  (dispatch : bool -> bytes -> bytes -> bytes -> bytes -> Z -> SM S (option addr)).

Definition dispatch_usage : bytes :=
  ngx_string "can only send HTTP dispatch during " ++ Host.quoted "on_request_headers" ++ ngx_string ", "
  ++ Host.quoted "on_request_body" ++ ngx_string ", " ++ Host.quoted "on_tick" ++ ngx_string ", "
  ++ Host.quoted "on_dispatch_response" ++ ngx_string ", " ++ Host.quoted "on_foreign_function".

Definition may_dispatch (step : ngx_proxy_wasm_step_e) : bool :=
  match step with
  | STEP_REQ_HEADERS | STEP_REQ_BODY | STEP_TICK | STEP_DISPATCH_RESPONSE | STEP_FOREIGN_CALLBACK => true
  | _ => false
  end.

Definition ngx_proxy_wasm_hfuncs_dispatch_http_call
    (args0 args1 args2 args3 args4 args5 args6 args7 args8 args9 : Z) : GM Host.host_ret :=
  step ← Host.gets (fun h => step_of (Host.h_env h));
  if negb (may_dispatch step) then
    Host.ngx_proxy_wasm_result_trap ngx_vsnprintf dispatch_usage Host.NGX_WAVM_BAD_USAGE
  else
    let host_len := Host.size_of_i32 args1 in
    LIFT_SLICE args0 host_len (fun hptr =>
    host ← Host.read_at hptr host_len;
    if match acl with Some check => negb (is_ok (check host)) | None => false end then
      Host.ngx_wavm_instance_trap_printf ngx_vsnprintf
        (ngx_string "dispatch forbidden: " ++ [x22] ++ host ++ [x22]);;
      mret (Host.NGX_WAVM_BAD_USAGE, Some Host.NGX_PROXY_WASM_RESULT_OK)
    else
      let headers_len := Host.size_of_i32 args3 in
      LIFT_SLICE args2 headers_len (fun mptr =>
      let body_len := Host.size_of_i32 args5 in
      LIFT_SLICE args4 body_len (fun bptr =>
      let trailers_len := Host.size_of_i32 args7 in
      LIFT_SLICE args6 trailers_len (fun tptr =>
      LIFT args9 4 4 (fun callout_id =>
      headers ← Host.read_at mptr headers_len;
      body ← Host.read_at bptr body_len;
      trailers ← Host.read_at tptr trailers_len;
      call ← Host.on_env (dispatch no_rctx host headers trailers body (wrap32 args8));
      match call with
      | None => mret Host.ngx_proxy_wasm_result_err
      | Some a =>
          s ← Host.gets Host.h_env;
          id ← slift (deref (id_of s a));
          Host.write_at callout_id (enc32 id);;
          mret Host.ngx_proxy_wasm_result_ok
      end))))).
End guests.


(** ** The calls and the queue

    A call lives while it is an operation of the queue; between its removal and its end it is
    one of [X].  Its socket and its reader live as long as it does, and the events that start
    calls are those the calls point to. *)
Section queue.
Context {G : Type} `{NetEnv G, DispatchExt G, NetStrings, HttpParsers, NgxChains}.
Context {P : Type} `{Headers.NgxPool P} `{Headers.NgxStrings}.
Abbreviation S := (net (dworld G)).
Abbreviation D := (SM S).
Implicit Types (s : S) (X : gset addr) (a ev : addr).

Definition starts s : gmap addr (option addr) := dc_ev <$> d_calls (n_world s).
Definition ops_of s : list dispatch_op_t := d_ops (n_world s).

Record queue_ok X s : Prop := {
  qo_nodup : NoDup (ops_of s);
  qo_live a : a ∈ dom (starts s) <-> HTTP_CALL a ∈ ops_of s \/ a ∈ X;
  qo_apart a : a ∈ X -> HTTP_CALL a ∉ ops_of s;
  qo_socks : dom (n_socks s) = dom (starts s);
  qo_readers : dom (n_readers s) = dom (starts s);
  qo_events ev a : d_events (n_world s) !! ev = Some a <-> starts s !! a = Some (Some ev);
}.

(** Nothing of this changes. *)
Definition quiet s s' : Prop :=
  ops_of s' = ops_of s /\ d_events (n_world s') = d_events (n_world s) /\ starts s' = starts s /\
  dom (n_socks s') = dom (n_socks s) /\ dom (n_readers s') = dom (n_readers s).

#[export] Instance quiet_preorder : PreOrder quiet.
Proof.
  split.
  - by intros s.
  - intros s1 s2 s3 (E1 & E2 & E3 & E4 & E5) (F1 & F2 & F3 & F4 & F5). split_and!; congruence.
Qed.

Definition kept X s s' : Prop := queue_ok X s -> queue_ok X s'.

#[export] Instance kept_preorder X : PreOrder (kept X).
Proof. split; [by intros s K|intros s1 s2 s3 K1 K2 K; auto]. Qed.

Lemma quiet_kept X s s' : quiet s s' -> kept X s s'.
Proof.
  intros (E1 & E2 & E3 & E4 & E5) [Q1 Q2 Q3 Q4 Q5 Q6].
  split; rewrite ?E1, ?E2, ?E3, ?E4, ?E5; done.
Qed.

(** The state before the first call. *)
Definition no_call s : Prop :=
  d_ops (n_world s) = [] /\ d_calls (n_world s) = ∅ /\ d_events (n_world s) = ∅ /\
  n_socks s = ∅ /\ n_readers s = ∅.

Lemma no_call_ok s : no_call s -> queue_ok ∅ s.
Proof.
  intros (E1 & E2 & E3 & E4 & E5). split; unfold ops_of, starts; rewrite ?E1, ?E2, ?E3, ?E4, ?E5; rewrite ?fmap_empty.
  - constructor.
  - intros a. rewrite dom_empty_L. set_solver.
  - set_solver.
  - by rewrite !dom_empty_L.
  - by rewrite !dom_empty_L.
  - intros ev a. by rewrite !lookup_empty.
Qed.

(** What the environment does to the rest leaves the calls alone. *)
Definition same_queue (w w' : dworld G) : Prop :=
  d_ops w' = d_ops w /\ d_events w' = d_events w /\ d_calls w' = d_calls w.

#[export] Instance dispatch_frame : NetFrame same_queue.
Proof.
  split; intros; try (by unfold same_queue, in_ext; cbn);
    try (unfold same_queue; cbn; unfold on_ext; case_match; by cbn).
  - split; [by intros w|]. intros w1 w2 w3 (E1 & E2 & E3) (F1 & F2 & F3).
    unfold same_queue. split_and!; congruence.
  - unfold same_queue. cbn. case_match. case_match. by cbn.
Qed.

Lemma same_quiet s s' : same same_queue s s' -> quiet s s'.
Proof.
  intros (E1 & E2 & E3 & E4 & E5). unfold quiet, ops_of, starts. rewrite E3, E4, E5, E1, E2.
  by split_and!.
Qed.

Lemma quiet_weaken {A} (m : D A) : preserves (same same_queue) m -> preserves quiet m.
Proof. apply preserves_weaken. apply same_quiet. Qed.

Lemma quiet_dget {A} (f : dworld G -> A) : preserves quiet (dget f).
Proof. apply preserves_gets, _. Qed.
Lemma quiet_dput (f : dworld G -> dworld G) : (forall w, same_queue w (f w)) -> preserves quiet (dput f).
Proof. intros Hf. apply quiet_weaken. by apply same_tell. Qed.
Lemma quiet_nput (f : S -> S) : (forall s, quiet s (f s)) -> preserves quiet (nput f).
Proof. intros Hf s a s' [= _ <-]. apply Hf. Qed.
Lemma quiet_call a : preserves quiet (call (G := G) a).
Proof. unfold call. apply preserves_bind; [apply _|apply quiet_dget|]. intros cs. apply preserves_slift, _. Qed.

Lemma quiet_upd_call a f : (forall c, dc_ev (f c) = dc_ev c) -> preserves quiet (upd_call (G := G) a f).
Proof.
  intros Hf s x s' E. unfold upd_call, call in E.
  apply SM_bind_Ret_inv in E as (c & s1 & E1 & E2).
  apply SM_bind_Ret_inv in E1 as (cs & s2 & [= <- <-] & E1).
  unfold slift in E1. destruct (d_calls (n_world s) !! a) as [c'|] eqn:Ec; cbn in E1; [|done].
  injection E1 as <- <-. injection E2 as _ <-. unfold quiet, starts, ops_of. cbn. split_and!; try done.
  rewrite fmap_insert, Hf. apply insert_id. by rewrite lookup_fmap, Ec.
Qed.

#[local] Hint Resolve quiet_dget quiet_call : preserve.
#[local] Hint Extern 1 (preserves quiet (upd_call _ _)) => apply quiet_upd_call; intros []; reflexivity : preserve.
#[local] Hint Extern 1 (preserves quiet (dput _)) =>
  apply quiet_dput; intros; unfold same_queue, in_ext; repeat split : preserve.
#[local] Hint Extern 2 (preserves quiet (nput _)) => apply quiet_nput; by intros ? : preserve.
#[local] Hint Extern 2 (preserves quiet (memory _)) => apply quiet_weaken, same_memory; apply _ : preserve.
#[local] Hint Extern 2 (preserves quiet (nget _)) => apply preserves_gets; apply _ : preserve.
#[local] Hint Extern 2 (preserves quiet (sock _)) => apply quiet_weaken, same_sock; apply _ : preserve.
#[local] Hint Extern 2 (preserves quiet (upd _ _)) => apply quiet_weaken, same_upd; apply _ : preserve.

Lemma kept_quiet {A} X (m : D A) : preserves quiet m -> preserves (kept X) m.
Proof. apply preserves_weaken. intros s s'. apply quiet_kept. Qed.

(** [queue_ok] after a quiet computation, and after what follows it. *)
Lemma wlp_quiet {A B} X (m : D A) (k : A -> D B) s (Q : B -> S -> Prop) :
  preserves quiet m -> queue_ok X s ->
  (forall x s', quiet s s' -> queue_ok X s' -> wlp (k x) s' Q) -> wlp (m ≫= k) s Q.
Proof.
  intros Hm HX Hk. apply wlp_bind. intros x s' E. pose proof (Hm _ _ _ E) as Hq.
  apply Hk; [done|]. by eapply quiet_kept.
Qed.

Lemma wlp_kept {A} X (m : D A) s :
  preserves (kept X) m -> queue_ok X s -> wlp m s (fun _ => queue_ok X).
Proof. intros Hm HX x s' E. by eapply Hm. Qed.

Lemma wlp_kept_bind {A B} X (m : D A) (k : A -> D B) s (Q : B -> S -> Prop) :
  preserves (kept X) m -> queue_ok X s -> (forall x s', queue_ok X s' -> wlp (k x) s' Q) ->
  wlp (m ≫= k) s Q.
Proof. intros Hm HX Hk. apply wlp_bind. eapply wlp_mono; [by apply wlp_kept|done]. Qed.

(** *** Destruction *)

(** A call whose event is gone. *)
Definition no_event a s : Prop := starts s !! a = Some None.

Lemma quiet_no_event a s s' : quiet s s' -> no_event a s -> no_event a s'.
Proof. unfold no_event. by intros (_ & _ & -> & _). Qed.

Lemma call_Ret a s c s' : call (G := G) a s = Ret (c, s') -> s' = s /\ d_calls (n_world s) !! a = Some c.
Proof.
  intros E. apply SM_bind_Ret_inv in E as (cs & s1 & [= <- <-] & E).
  unfold slift in E. destruct (d_calls (n_world s) !! a) as [c'|]; cbn in E; [|done]. by injection E as <- <-.
Qed.

Lemma starts_call a s c : d_calls (n_world s) !! a = Some c -> starts s !! a = Some (dc_ev c).
Proof. intros E. unfold starts. by rewrite lookup_fmap, E. Qed.

Lemma drop_event a ev X s c :
  queue_ok X s -> d_calls (n_world s) !! a = Some c -> dc_ev c = Some ev ->
  wlp (dput (fun w => set_events (delete ev (d_events w)) w);; upd_call a (set_ev None)) s
    (fun _ s' => queue_ok X s' /\ no_event a s').
Proof.
  intros [Q1 Q2 Q3 Q4 Q5 Q6] Hc Ec. pose proof (starts_call _ _ _ Hc) as Hs. rewrite Ec in Hs.
  intros x s' E. unfold upd_call in E. apply SM_bind_Ret_inv in E as (u & s1 & [= _ <-] & E).
  apply SM_bind_Ret_inv in E as (c' & s2 & E1 & [= _ <-]).
  apply call_Ret in E1 as [-> E1]. cbn in E1. rewrite E1 in Hc. injection Hc as ->.
  match goal with |- queue_ok X ?s' /\ _ => assert (starts s' = <[a := None]> (starts s)) as Est end.
  { unfold starts. cbn. by rewrite fmap_insert. }
  assert (dom (<[a := None]> (starts s)) = dom (starts s)) as Ed.
  { rewrite dom_insert_L. apply elem_of_dom_2 in Hs. set_solver. }
  split.
  - split; unfold ops_of in *; rewrite ?Est, ?Ed; try done.
    intros ev' b. cbn. destruct (decide (b = a)) as [->|Hb].
    + rewrite lookup_insert_eq. split; [|done]. rewrite lookup_delete_Some. intros [Hne Hev].
      apply Q6 in Hev. congruence.
    + rewrite lookup_insert_ne, <- Q6 by done. rewrite lookup_delete_Some.
      split; [by intros [_ ?]|]. intros Hev. split; [|done]. intros ->. apply Q6 in Hs. congruence.
  - unfold no_event. rewrite Est. apply lookup_insert_eq.
Qed.

Lemma end_event a X s c :
  queue_ok X s -> d_calls (n_world s) !! a = Some c ->
  wlp (match dc_ev c with
       | Some ev => dput (fun w => set_events (delete ev (d_events w)) w);; upd_call a (set_ev None)
       | None => mret tt
       end) s (fun _ s' => queue_ok X s' /\ no_event a s').
Proof.
  intros HX Hc. destruct (dc_ev c) as [ev|] eqn:Ec; [by eapply drop_event|].
  apply wlp_ret. split; [done|]. unfold no_event. by rewrite (starts_call _ _ _ Hc), Ec.
Qed.

(** The end of the destruction. *)
Lemma forget_call a X s :
  queue_ok X s -> no_event a s -> a ∈ X ->
  queue_ok (X ∖ {[a]})
    (with_world (set_calls (delete a (d_calls (n_world s))) (n_world s))
       (with_readers (delete a) (with_socks (delete a) s))).
Proof.
  intros [Q1 Q2 Q3 Q4 Q5 Q6] Hn Ha.
  assert (starts (with_world (set_calls (delete a (d_calls (n_world s))) (n_world s))
            (with_readers (delete a) (with_socks (delete a) s))) = delete a (starts s)) as Est.
  { unfold starts. cbn. by rewrite fmap_delete. }
  split; unfold ops_of in *; rewrite ?Est; cbn.
  - done.
  - intros b. rewrite dom_delete_L, !elem_of_difference, !elem_of_singleton, Q2. specialize (Q3 a Ha).
    split; [naive_solver|]. intros [Hb|[Hb Hne]]; [|by auto]. split; [by left|]. by intros ->.
  - intros b Hb. apply Q3. set_solver.
  - by rewrite !dom_delete_L, Q4.
  - by rewrite !dom_delete_L, Q5.
  - intros ev b. rewrite Q6. destruct (decide (b = a)) as [->|Hb].
    + rewrite lookup_delete_eq, Hn. by split.
    + by rewrite lookup_delete_ne.
Qed.

Lemma destroy_ends a X s :
  queue_ok X s -> a ∈ X ->
  wlp (ngx_http_proxy_wasm_dispatch_destroy (G := G) a) s (fun _ s' => queue_ok (X ∖ {[a]}) s').
Proof.
  intros HX Ha. unfold ngx_http_proxy_wasm_dispatch_destroy.
  apply wlp_bind. intros c s0 E0. apply call_Ret in E0 as [-> Hc].
  apply wlp_bind. eapply wlp_mono; [by apply end_event|]. intros ? s1 [HX1 Hn1].
  eapply wlp_quiet; [apply quiet_weaken, same_destroy, _|done|]. intros ? s2 Hq2 HX2.
  apply (quiet_no_event a) in Hq2; [|done].
  eapply wlp_quiet; [preserves_steps|done|]. intros ? s3 Hq3 HX3.
  apply (quiet_no_event a) in Hq3; [|done].
  eapply wlp_quiet; [preserves_steps|done|]. intros ? s4 Hq4 HX4.
  apply (quiet_no_event a) in Hq4; [|done].
  intros u s' E. repeat (apply SM_bind_Ret_inv in E as (? & ? & [= _ <-] & E)).
  injection E as _ <-. by apply forget_call.
Qed.

#[local] Hint Extern 3 (preserves (kept _) _) => apply kept_quiet; solve [preserves_steps] : preserve.

(** *** The queue *)

Lemma ops_total_kept X : preserves (kept X) (ngx_proxy_wasm_dispatch_ops_total (G := G)).
Proof. apply kept_quiet, quiet_dget. Qed.

(** The head of the queue leaves it. *)
Lemma pop_op X s op ops :
  queue_ok X s -> ops_of s = op :: ops ->
  match op with
  | HTTP_CALL a => a ∉ X /\ queue_ok ({[a]} ∪ X) (with_world (set_ops ops (n_world s)) s)
  | FOREIGN_CALL _ => queue_ok X (with_world (set_ops ops (n_world s)) s)
  end.
Proof.
  intros [Q1 Q2 Q3 Q4 Q5 Q6] Eo. rewrite Eo in *. apply NoDup_cons in Q1 as [Hnew Q1].
  assert (forall b, b ∈ X -> HTTP_CALL b ∉ ops) as Hap by (intros b Hb Hin; apply (Q3 b Hb); by right).
  destruct op as [a|f].
  - assert (a ∉ X) as Ha by (intros Hin; apply (Q3 a Hin); by left).
    split; [done|]. split; unfold ops_of; cbn [with_world n_world d_ops set_ops n_socks n_readers]; try done.
    + intros b. change (starts (with_world (set_ops ops (n_world s)) s)) with (starts s).
      rewrite Q2, elem_of_cons, elem_of_union, elem_of_singleton. naive_solver.
    + intros b. rewrite elem_of_union, elem_of_singleton. intros [->|Hb]; [done|by apply Hap].
  - split; unfold ops_of; cbn [with_world n_world d_ops set_ops n_socks n_readers]; try done.
    intros b. change (starts (with_world (set_ops ops (n_world s)) s)) with (starts s).
    rewrite Q2, elem_of_cons. naive_solver.
Qed.

Lemma cancel_loop_kept X fuel : forall s,
  queue_ok X s -> wlp (cancel_loop (G := G) fuel) s (fun _ s' => queue_ok X s' /\ ops_of s' = []).
Proof.
  induction fuel as [|fuel IH]; intros s HX; cbn [cancel_loop];
    apply wlp_bind; intros ops s0 [= <- <-]; fold (ops_of s); destruct (ops_of s) as [|op ops] eqn:Eo;
    try (by apply wlp_ret); [by intros ? ?|].
  apply wlp_bind. intros [] s1 [= <-]. pose proof (pop_op X s op ops HX Eo) as HX1.
  apply wlp_bind. destruct op as [a|f].
  - destruct HX1 as [Ha HX1]. eapply wlp_mono; [apply destroy_ends; [exact HX1|set_solver]|].
    intros [] s2 HX2. apply IH. replace X with (({[a]} ∪ X) ∖ {[a]}) by set_solver. done.
  - intros [] s2 [= <-]. apply IH. revert HX1. apply quiet_kept. by repeat split.
Qed.

Lemma cancel_kept X : preserves (kept X) (ngx_proxy_wasm_dispatch_ops_cancel (G := G)).
Proof.
  intros s x s' E HX. apply SM_bind_Ret_inv in E as (n & s1 & [= <- <-] & E).
  by apply (cancel_loop_kept X _ _ HX) in E as [? _].
Qed.

(** [ngx_queue_remove] *)
Lemma remove_op_out a s :
  queue_ok ∅ s ->
  wlp (remove_op (G := G) a) s (fun _ s' => a ∉ dom (n_socks s') /\ queue_ok ∅ s' \/ queue_ok {[a]} s').
Proof.
  intros [Q1 Q2 Q3 Q4 Q5 Q6] u s' [= _ <-].
  assert (forall b, HTTP_CALL b ∈ filter (fun op => op <> HTTP_CALL a) (ops_of s) <-> HTTP_CALL b ∈ ops_of s /\ b <> a) as Hf.
  { intros b. rewrite list_elem_of_filter. split; intros [? ?]; split; congruence. }
  destruct (decide (HTTP_CALL a ∈ ops_of s)) as [Ha|Ha].
  - right. split; unfold ops_of in *; cbn [with_world n_world d_ops set_ops n_socks n_readers]; try done.
    + by apply NoDup_filter.
    + intros b. rewrite Hf. change (starts (with_world (set_ops _ (n_world s)) s)) with (starts s).
      rewrite Q2, elem_of_singleton. destruct (decide (b = a)) as [->|]; set_solver.
    + intros b ->%elem_of_singleton. rewrite Hf. naive_solver.
  - left. split.
    + cbn. rewrite Q4, Q2. set_solver.
    + split; unfold ops_of in *; cbn [with_world n_world d_ops set_ops n_socks n_readers]; try done.
      * by apply NoDup_filter.
      * intros b. rewrite Hf. change (starts (with_world (set_ops _ (n_world s)) s)) with (starts s).
        rewrite Q2. destruct (decide (b = a)) as [->|]; set_solver.
Qed.
(** *** The creation of a call *)

(** The call [a] is being made. *)
Definition making a X s : Prop := queue_ok ({[a]} ∪ X) s /\ no_event a s /\ a ∉ X.

Lemma wlp_making {A B} a X (m : D A) (k : A -> D B) s (Q : B -> S -> Prop) :
  preserves quiet m -> making a X s -> (forall x s', making a X s' -> wlp (k x) s' Q) -> wlp (m ≫= k) s Q.
Proof.
  intros Hm (HX & Hn & Ha) Hk. eapply wlp_quiet; [done|done|]. intros x s' Hq HX'.
  apply Hk. split_and!; [done| |done]. by eapply quiet_no_event.
Qed.

Lemma new_call X s :
  queue_ok X s ->
  let a := fresh (dom (d_calls (n_world s)) : gset addr) in
  making a X (with_readers (<[a := zero_reader]>) (with_socks (<[a := zero_sock]>)
                (with_world (set_calls (<[a := zero_call]> (d_calls (n_world s))) (n_world s)) s))).
Proof.
  intros [Q1 Q2 Q3 Q4 Q5 Q6] a.
  assert (a ∉ dom (starts s)) as Ha.
  { unfold starts. rewrite dom_fmap_L. apply is_fresh. }
  match goal with |- making _ _ ?s' => assert (starts s' = <[a := None]> (starts s)) as Est end.
  { unfold starts. cbn. by rewrite fmap_insert. }
  assert (a ∉ X /\ HTTP_CALL a ∉ ops_of s) as [HaX Hao] by (rewrite Q2 in Ha; naive_solver).
  split; [|split; [|done]]; [|unfold no_event; rewrite Est; apply lookup_insert_eq].
  split; unfold ops_of in *; rewrite ?Est; cbn.
  - done.
  - intros b. rewrite dom_insert_L, !elem_of_union, elem_of_singleton, Q2. naive_solver.
  - intros b. rewrite elem_of_union, elem_of_singleton. intros [->|Hb]; [done|by apply Q3].
  - by rewrite !dom_insert_L, Q4.
  - by rewrite !dom_insert_L, Q5.
  - intros ev b. rewrite Q6. destruct (decide (b = a)) as [->|Hb].
    + rewrite lookup_insert_eq. rewrite (not_elem_of_dom_1 _ _ Ha). by split.
    + by rewrite lookup_insert_ne.
Qed.

(** The event and the operation of a new call. *)
Lemma enqueue a X s c ev :
  making a X s -> d_calls (n_world s) !! a = Some c -> d_events (n_world s) !! ev = None ->
  queue_ok X
    (with_world (set_ops (HTTP_CALL a :: d_ops (n_world s))
       (set_calls (<[a := set_ev (Some ev) c]> (d_calls (n_world s)))
          (set_events (<[ev := a]> (d_events (n_world s))) (n_world s)))) s).
Proof.
  intros ([Q1 Q2 Q3 Q4 Q5 Q6] & Hn & Ha) Hc Hev.
  match goal with |- queue_ok _ ?s' => assert (starts s' = <[a := Some ev]> (starts s)) as Est end.
  { unfold starts. cbn. by rewrite fmap_insert. }
  assert (dom (<[a := Some ev]> (starts s)) = dom (starts s)) as Ed.
  { rewrite dom_insert_L. apply elem_of_dom_2 in Hn. set_solver. }
  split; unfold ops_of in *; rewrite ?Est, ?Ed; cbn.
  - constructor; [|done]. apply Q3. set_solver.
  - intros b. rewrite Q2, elem_of_cons, elem_of_union, elem_of_singleton. naive_solver.
  - intros b Hb. rewrite elem_of_cons. intros [[= ->]|Hin]; [done|]. apply (Q3 b); [set_solver|done].
  - done.
  - done.
  - intros ev' b. destruct (decide (b = a)) as [->|Hb].
    + rewrite lookup_insert_eq. destruct (decide (ev' = ev)) as [->|Hne]; [by rewrite lookup_insert_eq|].
      rewrite lookup_insert_ne by done. split; [|congruence]. intros He. apply Q6 in He. congruence.
    + rewrite (lookup_insert_ne (starts s)) by done. rewrite <- Q6.
      destruct (decide (ev' = ev)) as [->|Hne]; [|by rewrite lookup_insert_ne].
      rewrite lookup_insert_eq, Hev. split; congruence.
Qed.

(** *** What the filter may do while it runs

    It may make calls and cancel them: it keeps the queue, whatever is out of it. *)
Context (debug : bool) (env : env_t) (sock_buffer_reuse log_dispatch_errors : bool) (io_fuel : nat).
Context (array_ok pnalloc_ok : Z -> bool).
Context (run_step : ngx_proxy_wasm_step_e -> D ngx_proxy_wasm_err_e).
Hypothesis run_step_keeps : forall X step, preserves (kept X) (run_step step).

Lemma kept_invoke X a : preserves (kept X) (invoke_on_http_dispatch_response (G := G) run_step a).
Proof.
  unfold invoke_on_http_dispatch_response.
  apply preserves_bind; [apply _|apply kept_quiet; preserves_steps|intros ?].
  apply preserves_bind; [apply _|apply kept_quiet; preserves_steps|intros ?].
  apply preserves_bind; [apply _|apply kept_quiet; preserves_steps|intros ?].
  apply preserves_bind; [apply _|apply run_step_keeps|intros ?].
  apply kept_quiet. preserves_steps.
Qed.

#[local] Hint Resolve kept_invoke : preserve.

Lemma err_ends a resume X s :
  queue_ok X s -> a ∈ X ->
  wlp (ngx_http_proxy_wasm_dispatch_err (G := G) debug env log_dispatch_errors run_step a resume) s
    (fun _ s' => queue_ok (X ∖ {[a]}) s').
Proof.
  intros HX Ha. unfold ngx_http_proxy_wasm_dispatch_err. cbv zeta.
  do 6 (eapply wlp_kept_bind; [preserves_steps|eassumption|]; clear dependent s; intros ? s HX).
  apply wlp_bind. eapply wlp_mono; [by apply destroy_ends|]. clear dependent s. intros ? s HX.
  apply wlp_kept; [preserves_steps|done].
Qed.

Lemma failed_ends {A} a X (r : A) s :
  making a X s ->
  wlp (ngx_http_proxy_wasm_dispatch_err (G := G) debug env log_dispatch_errors run_step a false;; mret r) s
    (fun _ s' => queue_ok X s').
Proof.
  intros (HX & _ & Ha). apply wlp_bind. eapply wlp_mono; [apply err_ends; [exact HX|set_solver]|].
  intros [] s' HX'. apply wlp_ret. by replace X with (({[a]} ∪ X) ∖ {[a]}) by set_solver.
Qed.

Lemma dispatch_failed_ends a e X s :
  making a X s ->
  wlp (dispatch_failed (G := G) debug env log_dispatch_errors run_step a e) s (fun _ s' => queue_ok X s').
Proof.
  intros HX. unfold dispatch_failed. eapply wlp_making; [preserves_steps|done|]. intros [] s' HX'.
  by apply failed_ends.
Qed.

Lemma init_ends a host ssl X s :
  making a X s ->
  wlp (dispatch_init (G := G) debug env log_dispatch_errors run_step a host ssl) s (fun _ s' => queue_ok X s').
Proof.
  intros HX. unfold dispatch_init. cbv zeta.
  eapply wlp_making; [preserves_steps|done|]. clear dependent s. intros c s HX.
  eapply wlp_making; [apply quiet_weaken, same_init, _|done|]. clear dependent s. intros rc s HX.
  destruct (is_ok rc); cbn [negb]; [|by apply failed_ends].
  eapply wlp_making; [preserves_steps|done|]. clear dependent s. intros [] s HX.
  eapply wlp_making; [apply quiet_weaken, same_on_reader, _|done|]. clear dependent s. intros rc' s HX.
  destruct (is_ok rc'); cbn [negb]; [|by apply failed_ends].
  do 2 (eapply wlp_making; [preserves_steps|done|]; clear dependent s; intros [] s HX;
        cbn [negb]; [|by apply failed_ends]).
  apply wlp_bind. intros evs s0 [= <- <-].
  set (ev := fresh (dom (d_events (n_world s)) : gset addr)).
  assert (d_events (n_world s) !! ev = None) as Hev by (apply not_elem_of_dom, is_fresh).
  intros r s' E. apply SM_bind_Ret_inv in E as ([] & s1 & [= <-] & E).
  apply SM_bind_Ret_inv in E as ([] & s2 & E1 & E).
  apply SM_bind_Ret_inv in E1 as (c' & s3 & E1 & [= <-]).
  apply call_Ret in E1 as [-> Hc]. cbn in Hc.
  apply SM_bind_Ret_inv in E as ([] & s4 & [= <-] & E).
  apply SM_bind_Ret_inv in E as ([] & s5 & [= <-] & [= _ <-]).
  pose proof (enqueue a X s c' ev HX Hc Hev) as HQ. revert HQ. apply quiet_kept. by repeat split.
Qed.

Lemma body_ends a host ssl body X s :
  making a X s ->
  wlp (dispatch_body (G := G) debug env sock_buffer_reuse log_dispatch_errors run_step a host ssl body) s
    (fun _ s' => queue_ok X s').
Proof.
  intros HX. unfold dispatch_body. case_bool_decide; [by apply init_ends|].
  eapply wlp_making; [preserves_steps|done|]. clear dependent s. intros [] s HX.
  eapply wlp_making; [preserves_steps|done|]. clear dependent s. intros free s HX.
  eapply wlp_making; [preserves_steps|done|]. clear dependent s. intros [cl free'] s HX.
  do 2 (eapply wlp_making; [preserves_steps|done|]; clear dependent s; intros [] s HX).
  destruct cl as [cl|]; [|by apply failed_ends].
  eapply wlp_making; [preserves_steps|done|]. clear dependent s. intros [] s HX. by apply init_ends.
Qed.

Lemma dispatch_kept X no_rctx host headers trailers body timeout :
  preserves (kept X)
    (ngx_http_proxy_wasm_dispatch (G := G) debug env sock_buffer_reuse log_dispatch_errors array_ok pnalloc_ok
       run_step no_rctx host headers trailers body timeout).
Proof.
  intros s r s' E HX. revert r s' E. change (wlp (ngx_http_proxy_wasm_dispatch (G := G) debug env sock_buffer_reuse log_dispatch_errors array_ok pnalloc_ok
       run_step no_rctx host headers trailers body timeout) s (fun _ s' => queue_ok X s')).
  unfold ngx_http_proxy_wasm_dispatch.
  eapply wlp_kept_bind; [|done|]; [destruct no_rctx; [|preserves_steps]|].
  { apply kept_quiet. apply preserves_bind; [apply _| |intros []; preserves_steps].
    apply quiet_weaken, same_ask. intros w. unfold same_queue. cbn. unfold on_ext. case_match. by cbn. }
  clear dependent s. intros [] s HX; cbn [negb]; [|by apply wlp_ret].
  eapply wlp_kept_bind; [preserves_steps|done|]. clear dependent s. intros [] s HX; cbn [negb]; [|by apply wlp_ret].
  apply wlp_bind. intros cs s0 [= <- <-].
  pose proof (new_call X s HX) as Hm. cbv zeta in Hm.
  set (a := fresh (dom (d_calls (n_world s)) : gset addr)) in *.
  do 3 (apply wlp_bind; intros [] ? [= <-]).
  match goal with |- wlp _ ?s' _ => set (s1 := s') in * end. clearbody s1. clearbody a. clear dependent s. rename s1 into s.
  eapply wlp_making; [preserves_steps|done|]. clear dependent s. intros tick s Hm.
  eapply wlp_making; [preserves_steps|done|]. clear dependent s. intros step s Hm.
  destruct (_ && _); [by apply dispatch_failed_ends|].
  eapply wlp_making; [preserves_steps|done|]. clear dependent s. intros [] s Hm; cbn [negb]; [|by apply dispatch_failed_ends].
  do 4 (eapply wlp_making; [preserves_steps|done|]; clear dependent s; intros ? s Hm).
  eapply wlp_making; [preserves_steps|done|]. clear dependent s. intros [] s Hm; cbn [negb]; [|by apply dispatch_failed_ends].
  eapply wlp_making; [preserves_steps|done|]. clear dependent s. intros [] s Hm.
  eapply wlp_making; [preserves_steps|done|]. clear dependent s. intros [rc hs] s Hm.
  eapply wlp_making; [preserves_steps|done|]. clear dependent s. intros [rc' ts] s Hm.
  destruct (is_ok rc'); cbn [negb]; [|by apply dispatch_failed_ends].
  destruct (scan_headers hs nothing_found) as [hs' f].
  eapply wlp_making; [preserves_steps|done|]. clear dependent s. intros [] s Hm.
  case_bool_decide; [by apply dispatch_failed_ends|].
  case_bool_decide; [by apply dispatch_failed_ends|]. by apply body_ends.
Qed.
(** So do the chain and the request, when they go on. *)
Context (headers_pool : P) (headers_fresh : Z -> bytes) (headers_build : Headers.build)
  (rctx_view : option Headers.req_ctx_t).
Context (chain_resume : option ngx_phase -> ngx_proxy_wasm_step_e -> D ngx_rc) (request_resume : D unit).
Hypothesis chain_resume_keeps : forall phase step, preserves (kept ∅) (chain_resume phase step).
Hypothesis request_resume_keeps : preserves (kept ∅) request_resume.

(** *** The events of a call *)

Abbreviation resume_handler_ := (ngx_http_proxy_wasm_dispatch_resume_handler (G := G) debug env sock_buffer_reuse
  log_dispatch_errors io_fuel headers_pool headers_fresh headers_build rctx_view run_step chain_resume
  request_resume).

Lemma done_kept rc : preserves (kept ∅) (dispatch_done (G := G) chain_resume rc).
Proof.
  unfold dispatch_done, set_next_action. pose proof (ops_total_kept ∅).
  assert (preserves (kept ∅) (dput (ngx_wasm_yield (W := dworld G)))).
  { apply kept_quiet, quiet_dput. intros w. apply (frame_yield (RW := same_queue)). }
  preserves_steps.
Qed.

Lemma error_kept a rc :
  preserves (kept ∅) (dispatch_error (G := G) debug env log_dispatch_errors run_step chain_resume a rc).
Proof.
  intros s r s' E HX. revert r s' E.
  change (wlp (dispatch_error (G := G) debug env log_dispatch_errors run_step chain_resume a rc) s (fun _ s' => queue_ok ∅ s')).
  unfold dispatch_error. apply wlp_bind. eapply wlp_mono; [by apply remove_op_out|]. cbv beta zeta.
  intros [] s1 [[Ha HX1]|HX1]; apply wlp_bind.
  - intros [] s2 E. exfalso. unfold ngx_http_proxy_wasm_dispatch_err, sock in E. cbv zeta in E.
    apply SM_bind_Ret_inv in E as (sk & s3 & E & _).
    apply SM_bind_Ret_inv in E as (ss & s4 & [= <- <-] & E).
    apply not_elem_of_dom in Ha. unfold slift in E. by rewrite Ha in E.
  - eapply wlp_mono; [apply err_ends; [exact HX1|set_solver]|]. intros [] s2 HX2.
    replace ({[a]} ∖ {[a]}) with (∅ : gset addr) in HX2 by set_solver.
    apply wlp_kept; [apply done_kept|done].
Qed.

Lemma same_request a : preserves quiet
  (ngx_http_proxy_wasm_dispatch_request (G := G) debug env sock_buffer_reuse headers_pool headers_fresh headers_build rctx_view a).
Proof. unfold ngx_http_proxy_wasm_dispatch_request. cbv zeta. preserves_steps. Qed.

Lemma sock_live a s sk s' : sock (W := dworld G) a s = Ret (sk, s') -> s' = s /\ a ∈ dom (n_socks s).
Proof.
  intros E. apply SM_bind_Ret_inv in E as (ss & s1 & [= <- <-] & E).
  unfold slift in E. destruct (n_socks s !! a) as [k|] eqn:Ek; cbn in E; [|done]. injection E as <- <-.
  by apply elem_of_dom_2 in Ek.
Qed.

Lemma close_live a s u s' : ngx_wasm_socket_tcp_close (W := dworld G) a s = Ret (u, s') -> a ∈ dom (n_socks s').
Proof.
  intros E. pose proof (same_close same_queue a _ _ _ E) as (-> & _).
  unfold ngx_wasm_socket_tcp_close in E. apply SM_bind_Ret_inv in E as (sk & s1 & E & _).
  by apply sock_live in E as [_ ?].
Qed.

(** A live call leaves the queue. *)
Lemma remove_live a s :
  queue_ok ∅ s -> a ∈ dom (n_socks s) -> wlp (remove_op (G := G) a) s (fun _ s' => queue_ok {[a]} s').
Proof.
  intros HX Ha [] s' E. pose proof E as E'. destruct (remove_op_out a s HX _ _ E) as [[Hn _]|]; [|done].
  injection E' as <-. done.
Qed.

Lemma received_kept a rc : preserves (kept ∅) (state_received (G := G) debug env log_dispatch_errors run_step a rc).
Proof.
  intros s r s' E HX. revert r s' E.
  change (wlp (state_received (G := G) debug env log_dispatch_errors run_step a rc) s (fun _ s' => queue_ok ∅ s')).
  unfold state_received. apply wlp_bind. intros [] s1 E. pose proof (close_live _ _ _ _ E) as Ha.
  assert (queue_ok ∅ s1) as HX1.
  { eapply quiet_kept; [|exact HX]. by eapply (quiet_weaken _ (same_close same_queue a)). }
  apply wlp_bind. intros trapped s2 [= <- <-]. destruct (d_trapped (n_world s1)).
  { apply wlp_kept; [preserves_steps|done]. }
  apply wlp_bind. eapply wlp_mono; [by apply remove_live|]. clear dependent s. clear dependent s1.
  intros [] s HX. eapply wlp_kept_bind; [apply kept_invoke|done|]. clear dependent s. intros rc' s HX.
  assert ({[a]} ∖ {[a]} = (∅ : gset addr)) as EX by set_solver.
  destruct (is_ok rc'); cbn [negb]; apply wlp_bind; (eapply wlp_mono; [first [apply destroy_ends|apply err_ends]; [exact HX|set_solver]|]);
    intros [] s' HX'; apply wlp_ret; by rewrite <- EX.
Qed.

(** Quiet steps, up to a last one that is known to keep the queue. *)
Ltac kept_binds :=
  first [ solve [auto with nocore]
        | apply preserves_ret; apply _
        | apply preserves_bind; [apply _|apply kept_quiet; solve [preserves_steps]|intros ?]; try case_match; kept_binds ].

Lemma receiving_kept a : preserves (kept ∅) (state_receiving (G := G) debug env log_dispatch_errors io_fuel run_step a).
Proof.
  unfold state_receiving. pose proof (received_kept a).
  apply preserves_bind; [apply _| |intros rc; destruct rc; kept_binds].
  apply kept_quiet, quiet_weaken, same_read; [apply _|]. intros n. apply same_on_reader, _.
Qed.

Lemma sending_kept a rc : preserves (kept ∅)
  (state_sending (G := G) debug env sock_buffer_reuse log_dispatch_errors io_fuel headers_pool headers_fresh headers_build
     rctx_view run_step a rc).
Proof.
  unfold state_sending. pose proof (receiving_kept a).
  apply preserves_bind; [apply _|apply kept_quiet, same_request|intros [nl|]; [|preserves_steps]].
  apply preserves_bind; [apply _|apply kept_quiet, quiet_weaken, same_send, _|].
  intros rc'; destruct rc'; kept_binds.
Qed.

Lemma quiet_is_kept X s s' : same same_queue s s' -> kept X s s'.
Proof. intros Hs. by apply quiet_kept, same_quiet. Qed.

Lemma connecting_kept a resume :
  (forall b, preserves (kept ∅) (resume b)) ->
  preserves (kept ∅)
    (state_connecting (G := G) debug env sock_buffer_reuse log_dispatch_errors io_fuel headers_pool headers_fresh
       headers_build rctx_view run_step request_resume resume a).
Proof.
  intros Hr. unfold state_connecting. pose proof (sending_kept a).
  apply preserves_bind; [apply _| |intros rc; destruct rc; kept_binds].
  exact (keeps_connect same_queue debug env (kept ∅) (quiet_is_kept ∅) resume request_resume Hr request_resume_keeps a).
Qed.

Lemma resume_kept fuel : forall a, preserves (kept ∅) (resume_handler_ fuel a).
Proof.
  induction fuel as [|fuel IH]; intros a; cbn [ngx_http_proxy_wasm_dispatch_resume_handler]; [by intros s x s'|].
  assert (preserves (kept ∅) (switch_state (G := G) debug env sock_buffer_reuse log_dispatch_errors io_fuel headers_pool
            headers_fresh headers_build rctx_view run_step request_resume (resume_handler_ fuel) a)).
  { unfold switch_state. pose proof (connecting_kept a _ IH).
    apply preserves_bind; [apply _|apply kept_quiet; preserves_steps|intros c]. destruct (dc_state c).
    - apply preserves_bind; [apply _|apply kept_quiet; preserves_steps|done].
    - done.
    - apply sending_kept.
    - apply receiving_kept.
    - apply received_kept. }
  apply preserves_bind; [apply _|apply kept_quiet; preserves_steps|intros sk].
  apply preserves_bind; [apply _|apply kept_quiet; preserves_steps|intros c].
  case_bool_decide; [apply error_kept|].
  apply preserves_bind; [apply _|done|intros [rc|rc|rc]]; [|apply error_kept|apply done_kept].
  apply preserves_bind; [apply _|apply kept_quiet; preserves_steps|intros ?]. apply done_kept.
Qed.

(** The functions that nginx and the filters start. *)
Abbreviation dispatch_ := (ngx_http_proxy_wasm_dispatch (G := G) debug env sock_buffer_reuse log_dispatch_errors
  array_ok pnalloc_ok run_step).
Abbreviation start_ := (ngx_http_proxy_wasm_dispatch_handler (G := G) debug env sock_buffer_reuse log_dispatch_errors
  io_fuel headers_pool headers_fresh headers_build rctx_view run_step chain_resume request_resume).
Abbreviation event_ := (socket_event (G := G) debug env sock_buffer_reuse log_dispatch_errors
  io_fuel headers_pool headers_fresh headers_build rctx_view run_step chain_resume request_resume).
Abbreviation resolved_ := (resolver_event (G := G) debug env sock_buffer_reuse log_dispatch_errors
  io_fuel headers_pool headers_fresh headers_build rctx_view run_step chain_resume request_resume).

Lemma start_kept fuel ev : preserves (kept ∅) (start_ fuel ev).
Proof.
  intros s r s' E HX. revert r s' E. change (wlp (start_ fuel ev) s (fun _ s' => queue_ok ∅ s')).
  unfold ngx_http_proxy_wasm_dispatch_handler. apply wlp_bind. intros evs s0 [= <- <-].
  apply wlp_bind. intros a s1 E1. unfold slift in E1.
  destruct (d_events (n_world s) !! ev) as [b|] eqn:Eev; cbn in E1; [|done]. injection E1 as <- <-.
  apply wlp_bind. intros c s2 E2. apply call_Ret in E2 as [-> Hc].
  assert (dc_ev c = Some ev) as Ec.
  { apply (qo_events _ _ HX) in Eev. rewrite (starts_call _ _ _ Hc) in Eev. congruence. }
  intros r s' E. apply SM_bind_Ret_inv in E as ([] & s3 & E3 & E).
  apply SM_bind_Ret_inv in E as ([] & s4 & E4 & E).
  assert (queue_ok ∅ s4) as HX4.
  { refine (proj1 (drop_event _ ev ∅ s c HX Hc Ec tt s4 _)). by rewrite (SM_bind_Ret _ _ _ _ _ E3). }
  revert r s' E. eapply wlp_kept_bind; [preserves_steps|exact HX4|]. intros [] s5 HX5.
  eapply wlp_kept_bind; [apply resume_kept|done|]. intros rc s6 HX6.
  apply wlp_kept; [destruct (negb _); [done|preserves_steps]|done].
Qed.

Lemma event_kept fuel a write : preserves (kept ∅) (event_ fuel a write).
Proof.
  exact (keeps_handler same_queue debug env (kept ∅) (quiet_is_kept ∅) (resume_handler_ fuel) request_resume
           (resume_kept fuel) request_resume_keeps a write).
Qed.

Lemma resolved_kept fuel a ctx : preserves (kept ∅) (resolved_ fuel a ctx).
Proof.
  exact (keeps_resolve_handler same_queue debug env (kept ∅) (quiet_is_kept ∅) (resume_handler_ fuel) request_resume
           (resume_kept fuel) request_resume_keeps a ctx).
Qed.

(** What happens to the calls: a filter makes one or cancels them all; nginx starts one, gives
    an event of its connection or the answer of its resolver; the rest of the state changes. *)
Inductive call_step : S -> S -> Prop :=
| step_dispatch no_rctx host headers trailers body timeout r s s' :
    dispatch_ no_rctx host headers trailers body timeout s = Ret (r, s') -> call_step s s'
| step_cancel s s' :
    ngx_proxy_wasm_dispatch_ops_cancel s = Ret (tt, s') -> call_step s s'
| step_start fuel ev s s' :
    start_ fuel ev s = Ret (tt, s') -> call_step s s'
| step_socket fuel a write s s' :
    event_ fuel a write s = Ret (tt, s') -> call_step s s'
| step_resolver fuel a ctx s s' :
    resolved_ fuel a ctx s = Ret (tt, s') -> call_step s s'
| step_other s s' :
    quiet s s' -> call_step s s'.

Lemma call_step_kept s s' : call_step s s' -> kept ∅ s s'.
Proof.
  intros [? ? ? ? ? ? ? ? ? E|? ? E|? ? ? ? E|? ? ? ? ? E|? ? ? ? ? E|? ? E].
  - by eapply dispatch_kept.
  - by eapply cancel_kept.
  - by eapply start_kept.
  - by eapply event_kept.
  - by eapply resolved_kept.
  - by apply quiet_kept.
Qed.

End queue.

(** *** Filters

    What filters run by the module may do to the calls, while nginx calls them or a host function
    of theirs does: the calls stay as they are, or a filter makes one (which may run filters in
    turn, that do no more), or it cancels them all, several times and in any order. *)
Section filters.
Context {G : Type} `{NetEnv G, DispatchExt G, NetStrings, HttpParsers, NgxChains}.
Context {P : Type} `{Headers.NgxPool P} `{Headers.NgxStrings}.
Abbreviation S := (net (dworld G)).
Abbreviation D := (SM S).
Context (debug : bool) (env : env_t) (sock_buffer_reuse log_dispatch_errors : bool) (io_fuel : nat).
Context (array_ok pnalloc_ok : Z -> bool).

Inductive filters_run : S -> S -> Prop :=
| run_other s s' : quiet s s' -> filters_run s s'
| run_then s1 s2 s3 : filters_run s1 s2 -> filters_run s2 s3 -> filters_run s1 s3
| run_dispatch (run_step : ngx_proxy_wasm_step_e -> D ngx_proxy_wasm_err_e)
    no_rctx host headers trailers body timeout r s s' :
    (forall step s e s', run_step step s = Ret (e, s') -> filters_run s s') ->
    ngx_http_proxy_wasm_dispatch (G := G) debug env sock_buffer_reuse log_dispatch_errors array_ok pnalloc_ok
      run_step no_rctx host headers trailers body timeout s = Ret (r, s') -> filters_run s s'
| run_cancel s s' :
    ngx_proxy_wasm_dispatch_ops_cancel (G := G) s = Ret (tt, s') -> filters_run s s'.

Lemma filters_run_kept s s' : filters_run s s' -> forall X, kept X s s'.
Proof.
  induction 1 as [s s' Hq|s1 s2 s3 _ IH1 _ IH2|rs no_rctx host headers trailers body timeout r s s' _ IH E|s s' E];
    intros X.
  - by apply quiet_kept.
  - intros HX. by apply IH2, IH1.
  - eapply (dispatch_kept debug env sock_buffer_reuse log_dispatch_errors array_ok pnalloc_ok rs); [|exact E].
    intros Y step s1 e s2 E'. by eapply IH.
  - by eapply cancel_kept.
Qed.

Context (headers_pool : P) (headers_fresh : Z -> bytes) (headers_build : Headers.build)
  (rctx_view : option Headers.req_ctx_t).
Context (run_step : ngx_proxy_wasm_step_e -> D ngx_proxy_wasm_err_e)
  (chain_resume : option ngx_phase -> ngx_proxy_wasm_step_e -> D ngx_rc) (request_resume : D unit).
Hypothesis run_step_runs : forall step s e s', run_step step s = Ret (e, s') -> filters_run s s'.
Hypothesis chain_resume_runs : forall phase step s rc s',
  chain_resume phase step s = Ret (rc, s') -> filters_run s s'.
Hypothesis request_resume_runs : forall s s', request_resume s = Ret (tt, s') -> filters_run s s'.

Abbreviation call_step_ := (call_step debug env sock_buffer_reuse log_dispatch_errors io_fuel array_ok pnalloc_ok
  run_step headers_pool headers_fresh headers_build rctx_view chain_resume request_resume).

(** C6. Whatever filters and the network do, in whatever order, as long as filters act on calls by
    making and cancelling them only, and from a state without calls: the calls that are not freed
    are exactly the HTTP calls of the queue of the filter, each once; each has its socket and its
    reader, and no freed call has; and an event waits to start a call exactly when the call
    points to it.  So a call is freed when it leaves the queue, and nothing points to one that is
    freed. *)
Theorem calls_queued s s' a :
  no_call s -> rtc call_step_ s s' ->
  NoDup (d_ops (n_world s')) /\
  (is_Some (d_calls (n_world s') !! a) <-> HTTP_CALL a ∈ d_ops (n_world s')) /\
  (is_Some (n_socks s' !! a) <-> HTTP_CALL a ∈ d_ops (n_world s')) /\
  (is_Some (n_readers s' !! a) <-> HTTP_CALL a ∈ d_ops (n_world s')) /\
  (forall ev, d_events (n_world s') !! ev = Some a <->
              exists c, d_calls (n_world s') !! a = Some c /\ dc_ev c = Some ev).
Proof.
  intros H0' Hr. apply no_call_ok in H0'.
  assert (queue_ok ∅ s') as [Q1 Q2 Q3 Q4 Q5 Q6].
  { induction Hr as [|s1 s2 s3 Hs _ IH]; [done|]. apply IH. revert H0'. eapply call_step_kept; [..|exact Hs].
    - intros X step s0 e s4 E. exact (filters_run_kept _ _ (run_step_runs _ _ _ _ E) X).
    - intros phase step s0 rc s4 E. exact (filters_run_kept _ _ (chain_resume_runs _ _ _ _ _ E) ∅).
    - intros s0 [] s4 E. exact (filters_run_kept _ _ (request_resume_runs _ _ E) ∅). }
  assert (a ∈ dom (starts s') <-> HTTP_CALL a ∈ ops_of s') as Hl by (rewrite Q2; set_solver).
  split; [done|]. rewrite <- !elem_of_dom, Q4, Q5. split_and!; [|done..|].
  - rewrite <- Hl. unfold starts. by rewrite dom_fmap_L.
  - intros ev. rewrite Q6. unfold starts. rewrite lookup_fmap_Some. split; intros (c & ? & ?); eauto.
Qed.
End filters.

End Dispatch.

(** ** Concrete runs *)

Module DispatchRuns.
Import Pointers Readers SocketTcp Dispatch.
Import ProxyWasm (ngx_proxy_wasm_step_e(..), ngx_phase(..), ngx_proxy_wasm_err_e(..)).

#[local] Existing Instances HeadersRuns.pool SocketRuns.scripted SocketRuns.strings ReadersRuns.parsers Pointers.Reference.chains.

#[export] Instance ext : DispatchExt SocketRuns.script := {
  ngx_wasm_continue := SocketRuns.call_of SocketRuns.Continued;
  ngx_proxy_wasm_foreign_call_destroy _ w := w;
  ngx_http_wasm_create_fake_rctx w := (true, w);
}.

#[export] Instance header_strings : Headers.NgxStrings := {
  Headers.ngx_hash_key_lc := @Headers.ngx_hash_key_lc HeadersRuns.strings;
  Headers.ngx_strstrn := @Headers.ngx_strstrn HeadersRuns.strings;
  Headers.ngx_strcasestrn := @Headers.ngx_strcasestrn HeadersRuns.strings;
  Headers.ngx_atoof := @Headers.ngx_atoof HeadersRuns.strings;
  Headers.ngx_http_parse_time := @Headers.ngx_http_parse_time HeadersRuns.strings;
  Headers.ngx_sprintf_O := SocketRuns.show;
}.

Definition build : Headers.build :=
  {| Headers.b_gzip := true; Headers.b_x_forwarded_for := true; Headers.b_realip := false; Headers.b_dav := false |}.

Abbreviation S := (net (dworld SocketRuns.script)).

(** What the filter does when a response comes: it keeps its body in the log.  The chain and
    the request go on without anything else. *)
Definition body_of (s : S) (cl : addr) : option bytes :=
  l ← m_links (n_mem s) !! cl;
  n ← pdiff (b_last (cl_buf l)) (b_pos (cl_buf l));
  match load (b_pos (cl_buf l)) n (n_mem s) with Ret (d, _) => Some d | _ => None end.

Definition filter_runs (step : ngx_proxy_wasm_step_e) : SM S ngx_proxy_wasm_err_e :=
  s ← nget id;
  let body := a ← d_call (n_world s); r ← n_readers s !! a; cl ← rd_body r; body_of s cl in
  dput (fun w => set_d_log (d_log w ++ [default (ngx_string "no body") body]) w);;
  mret ERR_NONE.
Definition chain_resumes (_ : option ngx_phase) (_ : ngx_proxy_wasm_step_e) : SM S ngx_rc :=
  dput (in_ext (SocketRuns.call_of SocketRuns.Resumed));; mret NGX_OK.
Definition request_resumes : SM S unit := mret tt.

Section runs.
Context (env : env_t).
Definition dispatch_ := ngx_http_proxy_wasm_dispatch true env true true (fun _ => true) (fun _ => true) filter_runs false.
Definition start_ := ngx_http_proxy_wasm_dispatch_handler true env true true 40 tt (fun _ => []) build None
                      filter_runs chain_resumes request_resumes 3.
Definition event_ := socket_event true env true true 40 tt (fun _ => []) build None
                      filter_runs chain_resumes request_resumes 3.
Definition resolved_ := resolver_event true env true true 40 tt (fun _ => []) build None
                      filter_runs chain_resumes request_resumes 3.
End runs.

Definition world (w : SocketRuns.script) : dworld SocketRuns.script :=
  {| d_calls := ∅; d_ops := []; d_events := ∅; d_call := None; d_callout_ids := 0;
     d_step := STEP_REQ_HEADERS; d_phase := Some NGX_HTTP_REWRITE_PHASE; d_action := 0;
     d_ecode := ERR_NONE; d_in_tick := false; d_hostcall := true; d_trapped := false; d_trapmsg := [];
     d_log := []; d_ext := w |}.
Definition start (w : SocketRuns.script) : S :=
  {| n_mem := {| m_regions := ∅; m_links := ∅; m_pool := replicate 200 true |}; n_free := None;
     n_busy := None; n_socks := ∅; n_readers := ∅; n_world := world w |}.

Definition pair (key value : String.string) : Pairs.ngx_table_elt_t :=
  {| Pairs.hash := 1; Pairs.key := ngx_string key; Pairs.value := ngx_string value |}.
Arguments pair key%_string_scope value%_string_scope.

Definition get : bytes :=
  Pairs.serialize [pair ":method" "GET"; pair ":path" "/a"; pair "X" "y"; pair "Host" "other"].
Definition post : bytes :=
  Pairs.serialize [pair ":method" "POST"; pair ":path" "/a"; pair ":authority" "b"].

Definition answer (body : String.string) (len : String.string) : bytes :=
  ReadersRuns.crlf "HTTP/1.1 200 OK" ++ ngx_string "Content-Length: " ++ ngx_string len ++ [x0d; x0a] ++ [x0d; x0a] ++ ngx_string body.
Arguments answer body%_string_scope len%_string_scope.

Definition replies (l : list bytes) : SocketRuns.script :=
  {| SocketRuns.sc_connect := []; SocketRuns.sc_send := []; SocketRuns.sc_recv := (fun d => (Received d, true)) <$> l;
     SocketRuns.sc_resolve := []; SocketRuns.sc_errno := 0; SocketRuns.sc_sent := [];
     SocketRuns.sc_called := [] |}.

(** What was sent, the log of the filter, the calls, the queue, what was called. *)
Definition see (o : outcome (unit * S)) :=
  match o with
  | Ret (_, s) => Ret (SocketRuns.sc_sent (d_ext (n_world s)), d_log (n_world s), elements (dom (d_calls (n_world s))),
                       d_ops (n_world s), SocketRuns.sc_called (d_ext (n_world s)))
  | Fault f => Fault f
  end.

Definition small : env_t := SocketRuns.http_env 100 true.

(** A filter makes a call, and its host call returns. *)
Definition makes (env : env_t) (host headers body : bytes) : SM S unit :=
  dput (set_hostcall true);;
  dispatch_ env host headers [] body 100;;
  dput (set_hostcall false).

Definition host_a : bytes := ngx_string "1.2.3.4:80".
Definition get_text : bytes :=
  ReadersRuns.crlf "GET /a HTTP/1.1" ++ ReadersRuns.crlf "Host: 1.2.3.4:80" ++ ReadersRuns.crlf "Connection: close"
  ++ ReadersRuns.crlf "Content-Length: 0" ++ ReadersRuns.crlf "X: y" ++ ReadersRuns.crlf "".
Definition post_text : bytes :=
  ReadersRuns.crlf "POST /a HTTP/1.1" ++ ReadersRuns.crlf "Host: b" ++ ReadersRuns.crlf "Connection: close"
  ++ ReadersRuns.crlf "Content-Length: 4" ++ ReadersRuns.crlf "" ++ ngx_string "data".

Definition continued : list SocketRuns.called :=
  [SocketRuns.Wait; SocketRuns.Closed; SocketRuns.Continued; SocketRuns.Resumed].

(** A call whose response comes in pieces. *)
Example call_answered :
  see ((makes small host_a post (ngx_string "data");; start_ small 1%positive)
         (start (replies [answer "he" "5"; ngx_string "llo"])))
  = Ret (post_text, [ngx_string "hello"], [], [], continued).
Proof. vm_compute. reflexivity. Qed.

(** A response that ends before its body does: the filter is told that it came. *)
Definition then_eof (d : bytes) : SocketRuns.script :=
  {| SocketRuns.sc_connect := []; SocketRuns.sc_send := [];
     SocketRuns.sc_recv := [(Received d, true); (Recv_eof, false)];
     SocketRuns.sc_resolve := []; SocketRuns.sc_errno := 0; SocketRuns.sc_sent := [];
     SocketRuns.sc_called := [] |}.

Example body_cut_short :
  see ((makes small host_a get [];; start_ small 1%positive) (start (then_eof (answer "he" "5"))))
  = Ret (get_text, [ngx_string "no body"], [], [], continued).
Proof. vm_compute. reflexivity. Qed.

(** So is a response whose headers are not complete. *)
Example headers_cut_short :
  see ((makes small host_a get [];; start_ small 1%positive)
         (start (then_eof (ReadersRuns.crlf "HTTP/1.1 200 OK" ++ ngx_string "Content-Le"))))
  = Ret (get_text, [ngx_string "no body"], [], [], continued).
Proof. vm_compute. reflexivity. Qed.

(** The body that the end of the connection ends is lost. *)
Example body_until_close :
  see ((makes small host_a get [];; start_ small 1%positive)
         (start (then_eof (ReadersRuns.crlf "HTTP/1.0 200 OK" ++ [x0d; x0a] ++ ngx_string "body"))))
  = Ret (get_text, [ngx_string "no body"], [], [], continued).
Proof. vm_compute. reflexivity. Qed.

(** Two calls, one after the other; the first response has no body. *)
Definition one_after_other (reuse : bool) (second : list bytes) :=
  let env := SocketRuns.http_env 100 reuse in
  see ((makes env host_a get [];; start_ env 1%positive;; makes env host_a get [];; start_ env 1%positive)
         (start (replies (answer "" "0" :: second)))).

(** The socket of the second one reads into the link the request of the first one was sent from,
    which is still in the free list of the request: the reader takes it for a piece of the body,
    and the length of the piece is garbage.  The code runs when the body comes at once, or when
    buffers are not reused. *)
Example buffer_used_twice :
  one_after_other true [answer "he" "5"; ngx_string "llo"] = Fault F_memory.
Proof. vm_compute. reflexivity. Qed.

Example buffer_not_reused :
  one_after_other false [answer "he" "5"; ngx_string "llo"]
  = Ret (get_text ++ get_text, [ngx_string "no body"; ngx_string "hello"], [], [], continued ++ continued).
Proof. vm_compute. reflexivity. Qed.

(** Two calls at the same time: the second one is sent from the link that carried the body of
    the first one, whose end marks it as sent: only five bytes of the second request are. *)
Example other_request_cut :
  see ((makes small host_a post (ngx_string "data");; start_ small 1%positive;;
        makes small host_a get [];; start_ small 1%positive;;
        event_ small 1%positive false;; event_ small 2%positive true)
         (start {| SocketRuns.sc_connect := []; SocketRuns.sc_send := [Sent 100; Sent 4; Sent 5; Send_again];
                   SocketRuns.sc_recv := [(Recv_again, true); (Received (answer "" "0"), true)];
                   SocketRuns.sc_resolve := []; SocketRuns.sc_errno := 0; SocketRuns.sc_sent := [];
                   SocketRuns.sc_called := [] |}))
  = Ret (post_text ++ take 5 get_text, [ngx_string "no body"], [2%positive], [HTTP_CALL 2],
         [SocketRuns.Wait; SocketRuns.Wait; SocketRuns.Yield; SocketRuns.Wait; SocketRuns.Wait;
          SocketRuns.Yield; SocketRuns.Closed; SocketRuns.Yield; SocketRuns.Wait; SocketRuns.Yield]).
Proof. vm_compute. reflexivity. Qed.

(** A call whose host is a name, until the resolver answers. *)
Definition name_call : SM S unit :=
  makes small (ngx_string "name.test") get [];; start_ small 1%positive.
Definition resolved_to : resolver_ctx_t :=
  {| rx_state := 0; rx_lua_err := false; rx_addrs := [SocketRuns.address (ngx_string "1.2.3.4") 0] |}.

(** The resolver is not told that a call is cancelled: its answer finds a freed socket. *)
Example freed_while_resolving :
  see ((name_call;; ngx_proxy_wasm_dispatch_ops_cancel;; resolved_ small 1%positive resolved_to)
         (start SocketRuns.nothing)) = Fault F_memory.
Proof. vm_compute. reflexivity. Qed.

(** A connection that is refused at once, after its name was resolved: no timer is set, nobody
    is resumed, and the call waits forever. *)
Definition refused : SocketRuns.script :=
  {| SocketRuns.sc_connect := [(NGX_DECLINED, 111)]; SocketRuns.sc_send := []; SocketRuns.sc_recv := [];
     SocketRuns.sc_resolve := []; SocketRuns.sc_errno := 0; SocketRuns.sc_sent := [];
     SocketRuns.sc_called := [] |}.

Example refused_after_resolving :
  let o := (name_call;; resolved_ small 1%positive resolved_to) (start refused) in
  see o = Ret ([], [], [1%positive], [HTTP_CALL 1],
               [SocketRuns.Wait; SocketRuns.Yield; SocketRuns.Resolved; SocketRuns.Yield]) /\
  match o with
  | Ret (_, s) => (fun k => (sk_peer k, sk_status k)) <$> n_socks s !! 1%positive
                  = Some (None, STATUS_BROKEN_CONNECTION)
  | _ => False
  end.
Proof. vm_compute. by split. Qed.

(** With the same answer for an address, the filter is told of the failure. *)
Example refused_address :
  see ((makes small host_a get [];; start_ small 1%positive) (start refused))
  = Ret ([], [ngx_string "dispatch failed: tcp socket - error 111"; ngx_string "no body"], [], [],
         [SocketRuns.Wait; SocketRuns.Continued]).
Proof. vm_compute. reflexivity. Qed.

(** Calls without a method, without a path, and in the log phase, where the host call traps. *)
Definition trap_of (env : env_t) (headers : bytes) (step : ngx_proxy_wasm_step_e) :=
  match (dput (set_step step);; dispatch_ env host_a headers [] [] 100) (start SocketRuns.nothing) with
  | Ret (r, s) => Some (r, d_trapped (n_world s), d_trapmsg (n_world s), elements (dom (d_calls (n_world s))))
  | Fault _ => None
  end.

Example bad_calls :
  trap_of small (Pairs.serialize [pair ":path" "/a"]) STEP_REQ_HEADERS
  = Some (None, true, ngx_string "dispatch failed: no :method", []) /\
  trap_of small (Pairs.serialize [pair ":method" "GET"]) STEP_REQ_HEADERS
  = Some (None, true, ngx_string "dispatch failed: no :path", []) /\
  trap_of small get STEP_LOG = Some (None, true, ngx_string "dispatch failed: bad step", []).
Proof. by split_and!; vm_compute. Qed.

(** A filter that cancels its calls when a response comes, and a chain that makes another call
    when it goes on. *)
Definition cancels (_ : ngx_proxy_wasm_step_e) : SM S ngx_proxy_wasm_err_e :=
  ngx_proxy_wasm_dispatch_ops_cancel;; mret ERR_NONE.
Definition calls_again (_ : option ngx_phase) (_ : ngx_proxy_wasm_step_e) : SM S ngx_rc :=
  ngx_http_proxy_wasm_dispatch true small true true (fun _ => true) (fun _ => true) cancels false host_a get [] [] 100;;
  mret NGX_OK.
Definition start_again :=
  ngx_http_proxy_wasm_dispatch_handler true small true true 40 tt (fun _ => []) build None cancels calls_again
    request_resumes 3 1%positive.
Definition dispatch_again :=
  ngx_http_proxy_wasm_dispatch true small true true (fun _ => true) (fun _ => true) cancels false host_a get [] [] 100.

Definition state_of {A} (o : outcome (A * S)) : S :=
  match o with Ret (_, s) => s | Fault _ => start SocketRuns.nothing end.
Definition s1 : S := state_of (dispatch_again (start (replies [answer "hello" "5"]))).
Definition s2 : S := state_of (start_again s1).

Abbreviation runs_ := (filters_run true small true true (fun _ => true) (fun _ => true)).

Lemma cancels_runs step s e s' : cancels step s = Ret (e, s') -> runs_ s s'.
Proof. intros ([] & s3 & E & [= _ <-])%SM_bind_Ret_inv. by apply run_cancel. Qed.

Lemma calls_again_runs phase step s rc s' : calls_again phase step s = Ret (rc, s') -> runs_ s s'.
Proof.
  intros (r & s3 & E & [= _ <-])%SM_bind_Ret_inv. eapply run_dispatch; [|exact E]. apply cancels_runs.
Qed.

Lemma request_resumes_runs s s' : request_resumes s = Ret (tt, s') -> runs_ s s'.
Proof. intros [= <-]. by apply run_other. Qed.

Lemma calls_queued_witness :
  exists a, HTTP_CALL a ∈ d_ops (n_world s2) /\ is_Some (d_calls (n_world s2) !! a).
Proof.
  exists 1%positive. split; [by vm_compute; left|].
  refine (proj2 (proj1 (proj2 (calls_queued true small true true 40 (fun _ => true) (fun _ => true)
            tt (fun _ => []) build None cancels calls_again request_resumes cancels_runs calls_again_runs
            request_resumes_runs (start (replies [answer "hello" "5"]))
            s2 1%positive _ _))) _).
  - by repeat split.
  - apply (rtc_l _ _ s1).
    { refine (step_dispatch _ _ _ _ _ _ _ _ _ _ _ _ _ _ false host_a get [] [] 100 (Some 1%positive) _ _ _). by vm_compute. }
    apply (rtc_l _ _ s2); [|apply rtc_refl].
    refine (step_start _ _ _ _ _ _ _ _ _ _ _ _ _ _ 3 1%positive _ _ _). by vm_compute.
  - by vm_compute; left.
Defined.

End DispatchRuns.
