(* ===== verification/Wasi.v ===== *)
(** * WASI

    The functions of the WASI interface that modules import
    (src/src/wasm/wasi/ngx_wasi_preview1_host.c): environment, clocks, random bytes and
    writing to the two standard outputs, which are logged.  The environment of the process,
    its clocks and [ngx_random] are in the state of the computations. *)
From S2P Require Import Prelude Host.
From stdpp Require Export list.
#[global] Open Scope Z_scope.

Module Wasi.
Export Host.

(** ** Clocks (src/src/wasm/ngx_wasm_util.c) *)

(** The nearest [double] of a positive integer, as an integer: 53 significant bits, ties to even. *)
Definition round_double (z : Z) : Z :=
  if z <? 2 ^ 53 then z
  else
    let e := Z.log2 z - 52 in
    let q := Z.shiftr z e in
    let r := z mod 2 ^ e in
    let half := 2 ^ (e - 1) in
    let up := (half <? r) || ((r =? half) && Z.odd q) in
    Z.shiftl (if up then q + 1 else q) e.

(** [ngx_timeofday]: seconds and milliseconds. *)
Record ngx_time_t := { sec : Z; msec : Z }.

(** The product with [1e6] is one of [double]s. *)
Definition ngx_wasm_wall_time (tp : ngx_time_t) : Z := wrap64 (round_double ((sec tp * 1000 + msec tp) * 10 ^ 6)).

(** A [struct timespec]. *)
Record timespec := { tv_sec : Z; tv_nsec : Z }.

Definition ngx_wasm_monotonic_time (ts : timespec) : Z := wrap64 (tv_sec ts * 1000 + tv_nsec ts / 1000000).

(** ** State *)

Definition NGX_LOG_ERR : Z := 4.
Definition NGX_LOG_INFO : Z := 7.

(** [we_random] counts the numbers drawn; [we_blocks] the blocks of [ngx_alloc] that were not freed;
    [we_log] has the level and the text of each call of [ngx_log_error], which writes the text
    up to a limit of its own. *)
Record wasi_env := {
  we_environ : list bytes;
  we_timeofday : ngx_time_t;
  we_monotonic : timespec;
  we_random : nat;
  we_blocks : nat;
  we_log : list (Z * bytes);
}.

Definition set_random (n : nat) (e : wasi_env) : wasi_env :=
  {| we_environ := we_environ e; we_timeofday := we_timeofday e; we_monotonic := we_monotonic e;
     we_random := n; we_blocks := we_blocks e; we_log := we_log e |}.

Definition set_blocks (n : nat) (e : wasi_env) : wasi_env :=
  {| we_environ := we_environ e; we_timeofday := we_timeofday e; we_monotonic := we_monotonic e;
     we_random := we_random e; we_blocks := n; we_log := we_log e |}.

Definition log_message (level : Z) (msg : bytes) (e : wasi_env) : wasi_env :=
  {| we_environ := we_environ e; we_timeofday := we_timeofday e; we_monotonic := we_monotonic e;
     we_random := we_random e; we_blocks := we_blocks e; we_log := we_log e ++ [(level, msg)] |}.

Definition WASI_CLOCKID_REALTIME : Z := 0.
Definition WASI_CLOCKID_MONOTONIC : Z := 1.

Definition WASI_ERRNO_SUCCESS : Z := 0.
Definition WASI_ERRNO_BADF : Z := 8.
Definition WASI_ERRNO_EFAULT : Z := 21.
Definition WASI_ERRNO_NOTDIR : Z := 54.
Definition WASI_ERRNO_NOTSUP : Z := 58.

Definition errno (n : Z) : host_ret := (NGX_WAVM_OK, Some n).

(** [&p[off]], in bytes. *)
Definition g_shift (g : option gptr) (off : Z) : option gptr :=
  (fun g => {| g_base := g_base g; g_off := g_off g + off |}) <$> g.

(** ** The functions *)

Section functions.
Context (ngx_vsnprintf : nat -> bytes -> option bytes).
(** The numbers that [ngx_random] draws, and whether [ngx_alloc] has the memory. *)
Context (ngx_random : nat -> Z) (ngx_alloc : Z -> bool).
Abbreviation M := (SM (host wasi_env)).
Abbreviation LIFT := (NGX_WAVM_HOST_LIFT ngx_vsnprintf).
Abbreviation LIFT_SLICE := (NGX_WAVM_HOST_LIFT_SLICE ngx_vsnprintf).

Definition env : M wasi_env := gets h_env.
Definition modify_env (f : wasi_env -> wasi_env) : M unit := puts (fun h => set_env (f (h_env h)) h).

(** Reading a [uint32_t]. *)
Definition read32 (p : option gptr) : M Z := bs ← read_at p 4; slift (deref (dec32 bs)).

Definition ngx_wasi_hfuncs_random_get (a0 a1 : Z) : M host_ret :=
  let buf_len := wrap32 a1 in
  LIFT_SLICE a0 buf_len (fun buf =>
    e ← env;
    write_at buf ((fun i => z2b (ngx_random (we_random e + i)%nat)) <$> seq 0 (Z.to_nat buf_len));;
    modify_env (set_random (we_random e + Z.to_nat buf_len)%nat);;
    mret (errno WASI_ERRNO_SUCCESS)).

Definition ngx_wasi_hfuncs_args_get (a0 a1 : Z) : M host_ret := mret (errno WASI_ERRNO_SUCCESS).

Definition ngx_wasi_hfuncs_args_sizes_get (a0 a1 : Z) : M host_ret :=
  LIFT a0 4 4 (fun args_size =>
  LIFT a1 4 4 (fun args_buf_size =>
    write_at args_size (enc32 0);;
    write_at args_buf_size (enc32 0);;
    mret (errno WASI_ERRNO_SUCCESS))).

Definition ngx_wasi_hfuncs_clock_time_get (a0 a1 a2 : Z) : M host_ret :=
  let clock_id := wrap32 a0 in
  LIFT_SLICE a2 8 (fun rtime =>
    e ← env;
    if clock_id =? WASI_CLOCKID_REALTIME then
      write_at rtime (enc64 (ngx_wasm_wall_time (we_timeofday e)));;
      mret (errno WASI_ERRNO_SUCCESS)
    else if clock_id =? WASI_CLOCKID_MONOTONIC then
      write_at rtime (enc64 (wrap64 (ngx_wasm_monotonic_time (we_monotonic e) * 1000000)));;
      mret (errno WASI_ERRNO_SUCCESS)
    else mret (errno WASI_ERRNO_NOTSUP)).

(** The loop of [environ_get]: [i] entries were written. *)
Fixpoint environ_loop (environ : list bytes) (environ_addrs : option gptr) (i environ_buf_addr : Z) : M host_ret :=
  match environ with
  | [] => mret (errno WASI_ERRNO_SUCCESS)
  | e :: environ =>
      write_at (g_shift environ_addrs (4 * i)) (enc32 environ_buf_addr);;
      let n := zlen e + 1 in
      LIFT_SLICE environ_buf_addr n (fun buf =>
        write_at buf (e ++ [x00]);;
        environ_loop environ environ_addrs (i + 1) (wrap32 (environ_buf_addr + n)))
  end.

(** The slice of [environ_addrs] has as many bytes as there are variables. *)
Definition ngx_wasi_hfuncs_environ_get (a0 a1 : Z) : M host_ret :=
  e ← env;
  LIFT_SLICE a0 (zlen (we_environ e)) (fun environ_addrs =>
    environ_loop (we_environ e) environ_addrs 0 (wrap32 a1)).

(** [*environ_buf_size += ngx_strlen(environ[i]) + 1] *)
Fixpoint environ_sizes_loop (environ : list bytes) (environ_buf_size : option gptr) : M unit :=
  match environ with
  | [] => mret tt
  | e :: environ =>
      size ← read32 environ_buf_size;
      write_at environ_buf_size (enc32 (wrap32 (size + (zlen e + 1))));;
      environ_sizes_loop environ environ_buf_size
  end.

Definition ngx_wasi_hfuncs_environ_sizes_get (a0 a1 : Z) : M host_ret :=
  e ← env;
  LIFT a0 4 4 (fun environ_size =>
  LIFT a1 4 4 (fun environ_buf_size =>
    write_at environ_size (enc32 0);;
    write_at environ_buf_size (enc32 0);;
    environ_sizes_loop (we_environ e) environ_buf_size;;
    write_at environ_size (enc32 (zlen (we_environ e)));;
    mret (errno WASI_ERRNO_SUCCESS))).

Definition ngx_wasi_hfuncs_errno_badf : M host_ret := mret (errno WASI_ERRNO_BADF).
Definition ngx_wasi_hfuncs_errno_notdir : M host_ret := mret (errno WASI_ERRNO_NOTDIR).
Definition ngx_wasi_hfuncs_errno_notsup : M host_ret := mret (errno WASI_ERRNO_NOTSUP).

(** First pass: the size of the string. *)
Fixpoint iovs_size (n : nat) (iovs_ptr msg_size : Z) (k : Z -> M host_ret) : M host_ret :=
  match n with
  | O => k msg_size
  | S n =>
      let iovs_ptr := wrap32 (iovs_ptr + 4) in
      LIFT iovs_ptr 4 4 (fun p =>
        buf_len ← read32 p;
        iovs_size n (wrap32 (iovs_ptr + 4)) (wrap64 (msg_size + buf_len)) k)
  end.

(** Second pass: [msg] is what was copied to [msg_data], which has [size] bytes. *)
Fixpoint iovs_copy (n : nat) (iovs_ptr size : Z) (msg : bytes) (k : bytes -> M host_ret) : M host_ret :=
  match n with
  | O => k msg
  | S n =>
      LIFT iovs_ptr 4 4 (fun p =>
        buf_ptr ← read32 p;
        let iovs_ptr := wrap32 (iovs_ptr + 4) in
        LIFT iovs_ptr 4 4 (fun p =>
          buf_len ← read32 p;
          LIFT_SLICE buf_ptr buf_len (fun buf =>
            bs ← read_at buf buf_len;
            if zlen msg + buf_len <=? size then
              iovs_copy n (wrap32 (iovs_ptr + 4)) size (msg ++ bs) k
            else slift (Fault F_memory))))
  end.

(** Without the newline that ends it. *)
Definition strip_newline (msg : bytes) : bytes :=
  match last msg with
  | Some c => if bool_decide (c = x0a) then take (length msg - 1) msg else msg
  | None => msg
  end.

(** The level of a file descriptor. *)
Definition fd_level (fd : Z) : option Z :=
  if fd =? 1 then Some NGX_LOG_INFO else if fd =? 2 then Some NGX_LOG_ERR else None.

Definition ngx_wasi_hfuncs_fd_write (a0 a1 a2 a3 : Z) : M host_ret :=
  let fd := wrap32 a0 in
  let iovs := wrap32 a1 in
  let iovs_len := Z.to_nat (wrap32 a2) in
  LIFT a3 4 4 (fun nwritten =>
    match fd_level fd with
    | None => mret (errno WASI_ERRNO_BADF)
    | Some level =>
        iovs_size iovs_len iovs 0 (fun msg_size =>
          if msg_size =? 0 then write_at nwritten (enc32 0);; mret (errno WASI_ERRNO_SUCCESS)
          else if negb (ngx_alloc msg_size) then mret (errno WASI_ERRNO_EFAULT)
          else
            e ← env;
            modify_env (set_blocks (S (we_blocks e)));;
            iovs_copy iovs_len iovs msg_size [] (fun msg =>
              write_at nwritten (enc32 (wrap32 (zlen msg)));;
              (if 0 <? zlen msg then modify_env (log_message level (strip_newline msg)) else mret tt);;
              e ← env;
              modify_env (set_blocks (pred (we_blocks e)));;
              mret (errno WASI_ERRNO_SUCCESS)))
    end).

Definition ngx_wasi_hfuncs_nop : M host_ret := mret (NGX_WAVM_NYI, None).

End functions.

(** ** Pointers in bounds *)

Lemma lift_in m p size align :
  0 < p -> 0 <= size -> p + size <= zlen (mem_data m) -> p + size < 2 ^ 32 ->
  (align = 1 \/ Z.land p (align - 1) = 0) ->
  ngx_wavm_memory_lift m p size align = (Some {| g_base := mem_base m; g_off := p |}, true).
Proof.
  intros H0 Hs Hin H32 Hal. destruct (ngx_wavm_memory_lift m p size align) as [g ok] eqn:E. destruct ok.
  - apply lift_ok in E; [|zlia..]. destruct E as [(-> & _)|(_ & _ & ->)]; [lia|done].
  - pose proof (lift_refused m p size align) as Hr. rewrite E in Hr. cbn in Hr.
    destruct Hr as [?|[?|[?|[? ?]]]]; [zlia|zlia|done|lia|lia|lia|]. lia.
Qed.

Section calls.
Context (ngx_vsnprintf : nat -> bytes -> option bytes).
Abbreviation M := (SM (host wasi_env)).

Lemma write_in (h : host wasi_env) p data :
  0 <= p -> p + zlen data <= zlen (mem_data (h_memory h)) ->
  exists d, mem_write (mem_data (h_memory h)) p data = Ret d /\
    write_at (Some {| g_base := mem_base (h_memory h); g_off := p |}) data h =
      Ret (tt, set_memory (set_data (h_memory h) d) h).
Proof.
  intros Hp Hin. destruct (store_at_in (h_memory h) p data) as (d & Hw & Hst); [lia|lia|].
  exists d. split; [done|]. unfold write_at, on_memory. by rewrite Hst.
Qed.

Lemma read_in (h : host wasi_env) p n bs :
  mem_read (mem_data (h_memory h)) p n = Ret bs ->
  read_at (Some {| g_base := mem_base (h_memory h); g_off := p |}) n h = Ret (bs, h).
Proof. intros E. unfold read_at, load. cbn [g_base g_off]. by rewrite Z.eqb_refl, E. Qed.

Lemma read32_in (h : host wasi_env) p z :
  is_u32 z -> mem_read (mem_data (h_memory h)) p 4 = Ret (enc32 z) ->
  read32 (Some {| g_base := mem_base (h_memory h); g_off := p |}) h = Ret (z, h).
Proof.
  intros Hz E. unfold read32. erewrite SM_bind_Ret by by apply read_in.
  unfold slift. rewrite dec32_enc32. cbn. by rewrite wrap32_id.
Qed.

Lemma LIFT_in (h : host wasi_env) p size align (k : option gptr -> M host_ret) :
  0 < p -> 0 <= size -> p + size <= zlen (mem_data (h_memory h)) -> p + size < 2 ^ 32 ->
  Z.land p (align - 1) = 0 ->
  NGX_WAVM_HOST_LIFT ngx_vsnprintf p size align k h =
    k (Some {| g_base := mem_base (h_memory h); g_off := p |}) h.
Proof.
  intros. apply LIFT_lifted. rewrite wrap32_id by zlia. apply lift_in; auto.
Qed.

Lemma LIFT_SLICE_in (h : host wasi_env) p size (k : option gptr -> M host_ret) :
  0 < p -> 0 <= size -> p + size <= zlen (mem_data (h_memory h)) -> p + size < 2 ^ 32 ->
  NGX_WAVM_HOST_LIFT_SLICE ngx_vsnprintf p size k h =
    k (Some {| g_base := mem_base (h_memory h); g_off := p |}) h.
Proof.
  intros. apply LIFT_SLICE_lifted; [lia|]. rewrite wrap32_id by zlia. apply lift_in; auto.
Qed.

(** ** The environment *)

(** The pointers and the strings that [environ_get] leaves. *)
Definition environ_entry (d : bytes) (p q : Z) (total : Z) (j : nat) (e : bytes) : Prop :=
  exists a, q <= a /\ a + zlen e + 1 <= q + total /\
    mem_read d (p + 4 * Z.of_nat j) 4 = Ret (enc32 a) /\ mem_read d a (zlen e + 1) = Ret (e ++ [x00]).

(** The size of the buffer: every variable with the zero that ends it. *)
Fixpoint environ_total (env : list bytes) : Z :=
  match env with
  | [] => 0
  | e :: env => zlen e + 1 + environ_total env
  end.

Lemma environ_total_nonneg env : 0 <= environ_total env.
Proof. induction env as [|e env IH]; cbn; [lia|]. pose proof (zlen_nonneg e). lia. Qed.

Lemma zlen_cstr (e : bytes) : zlen (e ++ [x00]) = zlen e + 1.
Proof. by rewrite zlen_app. Qed.

Lemma environ_loop_spec env : forall (h : host wasi_env) p q i,
  0 <= p + 4 * i -> 0 < q ->
  p + 4 * (i + zlen env) <= zlen (mem_data (h_memory h)) ->
  q + environ_total env <= zlen (mem_data (h_memory h)) -> q + environ_total env < 2 ^ 32 ->
  (p + 4 * (i + zlen env) <= q \/ q + environ_total env <= p + 4 * i) ->
  exists m',
    environ_loop ngx_vsnprintf env (Some {| g_base := mem_base (h_memory h); g_off := p |}) i q h =
      Ret (errno WASI_ERRNO_SUCCESS, set_memory m' h) /\
    mem_base m' = mem_base (h_memory h) /\ zlen (mem_data m') = zlen (mem_data (h_memory h)) /\
    (forall j e, env !! j = Some e ->
       environ_entry (mem_data m') (p + 4 * i) q (environ_total env) j e) /\
    (forall x n, (x + n <= p + 4 * i \/ p + 4 * (i + zlen env) <= x) ->
       (x + n <= q \/ q + environ_total env <= x) ->
       mem_read (mem_data m') x n = mem_read (mem_data (h_memory h)) x n).
Proof.
  induction env as [|e env IH]; intros h p q i Hp Hq Hpin Hqin Hq32 Hdisj.
  { exists (h_memory h). split; [by destruct h|]. by split_and!. }
  cbn [environ_total] in *. rewrite zlen_cons in *.
  pose proof (zlen_nonneg e). pose proof (zlen_nonneg env). pose proof (environ_total_nonneg env).
  cbn [environ_loop]. destruct (write_in h (p + 4 * i) (enc32 q)) as (d1 & Hw1 & E1); [lia|rewrite zlen_enc32; lia|].
  cbn [g_shift fmap option_fmap option_map g_base g_off].
  rewrite (SM_bind_Ret _ _ _ _ _ E1). clear E1.
  set (h1 := set_memory _ h). assert (L1 : zlen d1 = zlen (mem_data (h_memory h)))
    by (unfold zlen; by rewrite (mem_write_length _ _ _ _ Hw1)).
  rewrite LIFT_SLICE_in; [|lia|lia|change (mem_data (h_memory h1)) with d1; lia|lia].
  destruct (write_in h1 q (e ++ [x00])) as (d2 & Hw2 & E2);
    [lia|change (mem_data (h_memory h1)) with d1; rewrite zlen_cstr; lia|].
  rewrite (SM_bind_Ret _ _ _ _ _ E2). clear E2. set (h2 := set_memory _ h1).
  assert (L2 : zlen d2 = zlen d1) by (unfold zlen; by rewrite (mem_write_length _ _ _ _ Hw2)).
  rewrite wrap32_id by zlia. change (mem_base (h_memory h)) with (mem_base (h_memory h2)).
  destruct (IH h2 p (q + (zlen e + 1)) (i + 1)) as (m' & E & Hb & Hl & Hent & Hfr);
    try (change (mem_data (h_memory h2)) with d2); try lia.
  exists m'. split; [exact E|]. split; [exact Hb|]. split; [rewrite Hl; cbn; lia|].
  cbn [h_memory mem_data set_data set_memory h2] in Hfr.
  change (mem_data (h_memory h2)) with d2 in Hfr. change (mem_data (h_memory h1)) with d1 in Hw2. split.
  - intros [|j] e' Hj; cbn in Hj.
    + injection Hj as <-. exists q. split; [lia|]. split; [lia|]. split.
      * rewrite Hfr by lia. rewrite (mem_read_write_other _ _ _ _ _ _ Hw2)
          by (rewrite zlen_cstr; lia).
        rewrite Z.add_0_r. exact (mem_read_write_same _ _ _ _ Hw1).
      * rewrite Hfr by lia. pose proof (mem_read_write_same _ _ _ _ Hw2) as Hr.
        by rewrite zlen_cstr in Hr.
    + destruct (Hent j e' Hj) as (a & ? & ? & Ha & Hs). exists a. split; [lia|]. split; [lia|]. split; [|done].
      rewrite <- Ha. f_equal. lia.
  - intros x n Hx1 Hx2. rewrite Hfr by lia.
    rewrite (mem_read_write_other _ _ _ _ _ _ Hw2) by (rewrite zlen_cstr; lia).
    apply (mem_read_write_other _ _ _ _ _ _ Hw1). rewrite zlen_enc32. lia.
Qed.

(** The sum that the guest reads, when it starts with [z]. *)
Lemma environ_sizes_loop_spec env : forall (h : host wasi_env) b z,
  0 < b -> b + 4 <= zlen (mem_data (h_memory h)) -> 0 <= z -> z + environ_total env < 2 ^ 32 ->
  mem_read (mem_data (h_memory h)) b 4 = Ret (enc32 z) ->
  exists m',
    environ_sizes_loop env (Some {| g_base := mem_base (h_memory h); g_off := b |}) h = Ret (tt, set_memory m' h) /\
    mem_base m' = mem_base (h_memory h) /\ zlen (mem_data m') = zlen (mem_data (h_memory h)) /\
    mem_read (mem_data m') b 4 = Ret (enc32 (z + environ_total env)) /\
    (forall x n, x + n <= b \/ b + 4 <= x ->
       mem_read (mem_data m') x n = mem_read (mem_data (h_memory h)) x n).
Proof.
  induction env as [|e env IH]; intros h b z Hb Hin Hz H32 Hr.
  { exists (h_memory h). cbn. rewrite Z.add_0_r. split; [by destruct h|]. by split_and!. }
  cbn [environ_total] in *.
  pose proof (zlen_nonneg e). pose proof (environ_total_nonneg env). cbn [environ_sizes_loop].
  erewrite SM_bind_Ret by (apply (read32_in _ _ z); [zlia|done]).
  destruct (write_in h b (enc32 (wrap32 (z + (zlen e + 1))))) as (d & Hw & E); [lia|rewrite zlen_enc32; lia|].
  rewrite (SM_bind_Ret _ _ _ _ _ E). clear E. set (h1 := set_memory _ h).
  rewrite wrap32_id in Hw by zlia.
  assert (L : zlen d = zlen (mem_data (h_memory h))) by (unfold zlen; by rewrite (mem_write_length _ _ _ _ Hw)).
  change (mem_base (h_memory h)) with (mem_base (h_memory h1)).
  destruct (IH h1 b (z + (zlen e + 1))) as (m' & E & Hb' & Hl & Hv & Hfr).
  1-4: cbn; lia.
  { exact (mem_read_write_same _ _ _ _ Hw). }
  exists m'. split; [exact E|]. split; [exact Hb'|]. split; [rewrite Hl; exact L|].
  split; [rewrite Hv; do 2 f_equal; lia|].
  intros x n Hx. rewrite Hfr by lia. apply (mem_read_write_other _ _ _ _ _ _ Hw). rewrite zlen_enc32. lia.
Qed.

(** ** Writing *)

(** At [p], the pointers and the lengths of slices with these contents. *)
Fixpoint iovecs (d : bytes) (p : Z) (l : list bytes) : Prop :=
  match l with
  | [] => True
  | bs :: l =>
      (exists ptr, is_u32 ptr /\ mem_read d p 4 = Ret (enc32 ptr) /\ mem_read d (p + 4) 4 = Ret (enc32 (zlen bs)) /\
         zlen bs < 2 ^ 32 /\
         (ptr = 0 /\ bs = [] \/ 0 < ptr /\ ptr + zlen bs < 2 ^ 32 /\ mem_read d ptr (zlen bs) = Ret bs)) /\
      iovecs d (p + 8) l
  end.

Lemma mem_read_bounds (d : bytes) p n bs :
  mem_read d p n = Ret bs -> 0 <= p /\ 0 <= n /\ p + n <= zlen d /\ zlen bs = n.
Proof.
  unfold mem_read. destruct (_ && _) eqn:E; [|done].
  apply andb_true_iff in E as [[E1%Z.leb_le E2%Z.leb_le]%andb_true_iff E3%Z.leb_le].
  intros [= <-]. split_and!; [done..|]. unfold zlen in *. rewrite length_take, length_drop. lia.
Qed.

Lemma aligned4 p : p mod 4 = 0 -> Z.land p (4 - 1) = 0.
Proof. intros Hp. change (4 - 1) with (Z.ones 2). by rewrite Z.land_ones. Qed.

(** An aligned pointer to a [uint32_t] of the memory. *)
Lemma LIFT_read32 (h : host wasi_env) p z (k : Z -> M host_ret) :
  0 < p -> p mod 4 = 0 -> p + 4 < 2 ^ 32 -> is_u32 z -> mem_read (mem_data (h_memory h)) p 4 = Ret (enc32 z) ->
  NGX_WAVM_HOST_LIFT ngx_vsnprintf p 4 4 (fun p => v ← read32 p; k v) h = k z h.
Proof.
  intros Hp Ha H32 Hz Hr. destruct (mem_read_bounds _ _ _ _ Hr) as (_ & _ & ? & _).
  rewrite LIFT_in by (done || lia || by apply aligned4).
  by erewrite SM_bind_Ret by by apply read32_in.
Qed.

Lemma iovs_size_spec (k : Z -> M host_ret) (h : host wasi_env) (l : list bytes) : forall p n,
  iovecs (mem_data (h_memory h)) p l -> 0 < p -> p mod 4 = 0 -> p + 8 * zlen l < 2 ^ 32 ->
  0 <= n -> n + zlen (concat l) < 2 ^ 32 ->
  iovs_size ngx_vsnprintf (length l) p n k h = k (n + zlen (concat l)) h.
Proof.
  induction l as [|bs l IH]; intros p n Hio Hp Ha H32 Hn Htot; [cbn; by rewrite Z.add_0_r|].
  cbn [concat length iovs_size] in *. rewrite zlen_app, zlen_cons in *.
  destruct Hio as [(ptr & _ & _ & Hlen & _ & _) Hio].
  pose proof (zlen_nonneg bs). pose proof (zlen_nonneg l). pose proof (zlen_nonneg (concat l)).
  rewrite (wrap32_id (p + 4)) by zlia.
  rewrite (LIFT_read32 _ _ (zlen bs)); [|lia|by rewrite <- Z.add_mod_idemp_l, Ha|lia|zlia|done].
  rewrite (wrap32_id (p + 4 + 4)), (wrap64_id (n + zlen bs)) by zlia. replace (p + 4 + 4) with (p + 8) by lia.
  rewrite IH; [f_equal; lia|done|lia| |lia|lia|lia].
  rewrite <- Z.add_mod_idemp_l by lia. by rewrite Ha.
Qed.

Lemma iovs_copy_spec size (k : bytes -> M host_ret) (h : host wasi_env) (l : list bytes) : forall p msg,
  iovecs (mem_data (h_memory h)) p l -> 0 < p -> p mod 4 = 0 -> p + 8 * zlen l < 2 ^ 32 ->
  zlen msg + zlen (concat l) <= size ->
  iovs_copy ngx_vsnprintf (length l) p size msg k h = k (msg ++ concat l) h.
Proof.
  induction l as [|bs l IH]; intros p msg Hio Hp Ha H32 Htot; [cbn; by rewrite app_nil_r|].
  cbn [concat length iovs_copy] in *. rewrite zlen_app, zlen_cons in *.
  destruct Hio as [(ptr & Hptr & Hpr & Hlen & Hbs & Hslice) Hio].
  pose proof (zlen_nonneg bs). pose proof (zlen_nonneg l). pose proof (zlen_nonneg (concat l)).
  rewrite (LIFT_read32 _ _ ptr); [|lia|done|lia|done|done].
  rewrite (wrap32_id (p + 4)) by zlia.
  rewrite (LIFT_read32 _ _ (zlen bs)); [|lia|by rewrite <- Z.add_mod_idemp_l, Ha|lia|zlia|done].
  assert (Hs : forall k, NGX_WAVM_HOST_LIFT_SLICE ngx_vsnprintf ptr (zlen bs)
                           (fun buf => bs ← read_at buf (zlen bs); k bs) h = (k bs : M host_ret) h).
  { intros k'. destruct Hslice as [[-> ->]|(Hpos & Hend & Hr)].
    - rewrite (LIFT_SLICE_lifted _ _ _ None); [|done|done]. by erewrite SM_bind_Ret by reflexivity.
    - destruct (mem_read_bounds _ _ _ _ Hr) as (_ & _ & ? & _).
      rewrite LIFT_SLICE_in by lia. by erewrite SM_bind_Ret by by apply read_in. }
  rewrite Hs. rewrite (proj2 (Z.leb_le _ _)) by lia.
  rewrite (wrap32_id (p + 4 + 4)) by zlia. replace (p + 4 + 4) with (p + 8) by lia.
  rewrite IH; [by rewrite <- app_assoc|done|lia| |lia|rewrite zlen_app; lia].
  rewrite <- Z.add_mod_idemp_l by lia. by rewrite Ha.
Qed.

(** What a module writes to its standard outputs, from slices inside of its memory and when the
    host can allocate a copy, is handed to the log of nginx (which cuts long lines), all of it
    and in order, without the newline that may end it: to the first output as information, to
    the second one as errors.  The module reads how many bytes were written, the copy is given
    back (it is not when a slice is refused: [fd_write_leaks]), and writing nothing logs
    nothing.  Other descriptors are refused. *)
Lemma fd_write_logs (ngx_alloc : Z -> bool) (h : host wasi_env) fd iovs nwritten (l : list bytes) :
  let d := mem_data (h_memory h) in
  let n := zlen (concat l) in
  is_u32 fd -> 0 < iovs -> iovs mod 4 = 0 -> iovs + 8 * zlen l < 2 ^ 32 -> iovecs d iovs l -> n < 2 ^ 32 ->
  0 < nwritten -> nwritten mod 4 = 0 -> nwritten + 4 <= zlen d -> nwritten + 4 < 2 ^ 32 -> ngx_alloc n = true ->
  match fd_level fd with
  | None => ngx_wasi_hfuncs_fd_write ngx_vsnprintf ngx_alloc fd iovs (zlen l) nwritten h = Ret (errno WASI_ERRNO_BADF, h)
  | Some level =>
      exists d',
        mem_write d nwritten (enc32 n) = Ret d' /\
        ngx_wasi_hfuncs_fd_write ngx_vsnprintf ngx_alloc fd iovs (zlen l) nwritten h =
          Ret (errno WASI_ERRNO_SUCCESS,
               {| h_memory := set_data (h_memory h) d'; h_trap := h_trap h;
                  h_env := if n =? 0 then h_env h else log_message level (strip_newline (concat l)) (h_env h) |})
  end.
Proof.
  intros d n Hfd Hi Hia Hi32 Hio Hn Hw Hwa Hwin Hw32 Halloc.
  pose proof (zlen_nonneg l). pose proof (zlen_nonneg (concat l)).
  unfold ngx_wasi_hfuncs_fd_write. rewrite LIFT_in by (done || lia || by apply aligned4).
  rewrite (wrap32_id fd), (wrap32_id iovs), (wrap32_id (zlen l)) by zlia.
  destruct (fd_level fd) as [level|]; [|done].
  assert (Hl : Z.to_nat (zlen l) = length l) by (unfold zlen; lia). rewrite Hl.
  rewrite iovs_size_spec by (done || lia). rewrite Z.add_0_l. fold n.
  destruct (write_in h nwritten (enc32 n)) as (d' & Hd & E); [lia|rewrite zlen_enc32; fold d; lia|].
  exists d'. split; [exact Hd|]. destruct (Z.eqb_spec n 0) as [Hz|Hz].
  { rewrite Hz in E. rewrite (SM_bind_Ret _ _ _ _ _ E). by destruct h. }
  rewrite Halloc. cbn [negb]. erewrite SM_bind_Ret by reflexivity. erewrite SM_bind_Ret by reflexivity.
  set (h1 := set_env _ h). change (mem_data (h_memory h)) with (mem_data (h_memory h1)) in Hio.
  rewrite iovs_copy_spec by (done || rewrite ?zlen_nil; fold n; lia). rewrite app_nil_l. fold n.
  rewrite (wrap32_id n) by zlia.
  destruct (write_in h1 nwritten (enc32 n)) as (d2 & Hd2 & E2); [lia|rewrite zlen_enc32; cbn; fold d; lia|].
  change (mem_base (h_memory h)) with (mem_base (h_memory h1)). rewrite (SM_bind_Ret _ _ _ _ _ E2).
  assert (d2 = d') as ->.
  { change (mem_data (h_memory h1)) with d in Hd2. fold d in Hd. congruence. }
  rewrite (proj2 (Z.ltb_lt _ _)) by lia. do 3 erewrite SM_bind_Ret by reflexivity.
  cbn. destruct h as [m t e]. by destruct e.
Qed.

(** C33. A module reads the whole environment of the process: [environ_sizes_get] gives the number of
    variables and the size of the buffer, and once the module passes an array of that many
    pointers and such a buffer, [environ_get] leaves in the array, for every variable, the
    address inside of the buffer of its text ended by a zero, and writes nothing else. *)
Theorem environ_roundtrip (h : host wasi_env) a b :
  let env := we_environ (h_env h) in
  let size := zlen (mem_data (h_memory h)) in
  0 < a -> Z.land a 3 = 0 -> a + 4 <= size -> 0 < b -> Z.land b 3 = 0 -> b + 4 <= size ->
  (a + 4 <= b \/ b + 4 <= a) -> size < 2 ^ 32 -> environ_total env < 2 ^ 32 ->
  exists m1, ngx_wasi_hfuncs_environ_sizes_get ngx_vsnprintf a b h = Ret (errno WASI_ERRNO_SUCCESS, set_memory m1 h) /\
    mem_read (mem_data m1) a 4 = Ret (enc32 (zlen env)) /\
    mem_read (mem_data m1) b 4 = Ret (enc32 (environ_total env)) /\
    forall p q, 0 < p -> p + 4 * zlen env <= size -> 0 < q -> q + environ_total env <= size ->
      (p + 4 * zlen env <= q \/ q + environ_total env <= p) ->
      exists m2,
        ngx_wasi_hfuncs_environ_get ngx_vsnprintf p q (set_memory m1 h) = Ret (errno WASI_ERRNO_SUCCESS, set_memory m2 h) /\
        (forall j e, env !! j = Some e -> environ_entry (mem_data m2) p q (environ_total env) j e) /\
        (forall x n, (x + n <= p \/ p + 4 * zlen env <= x) -> (x + n <= q \/ q + environ_total env <= x) ->
           mem_read (mem_data m2) x n = mem_read (mem_data m1) x n).
Proof.
  intros env size Ha Ha3 Hain Hb Hb3 Hbin Hab Hsize Htot. pose proof (zlen_nonneg env) as Hn.
  unfold ngx_wasi_hfuncs_environ_sizes_get. erewrite SM_bind_Ret by reflexivity.
  rewrite !LIFT_in by (done || lia).
  destruct (write_in h a (enc32 0)) as (d1 & Hw1 & E1); [lia|rewrite zlen_enc32; lia|].
  rewrite (SM_bind_Ret _ _ _ _ _ E1). clear E1. set (h1 := set_memory _ h).
  assert (L1 : zlen d1 = size) by (unfold zlen; by rewrite (mem_write_length _ _ _ _ Hw1)).
  destruct (write_in h1 b (enc32 0)) as (d2 & Hw2 & E2); [lia|rewrite zlen_enc32; cbn; lia|].
  rewrite (SM_bind_Ret _ _ _ _ _ E2). clear E2. set (h2 := set_memory _ h1).
  assert (L2 : zlen d2 = zlen d1) by (unfold zlen; by rewrite (mem_write_length _ _ _ _ Hw2)).
  destruct (environ_sizes_loop_spec (we_environ (h_env h)) h2 b 0) as (m3 & E3 & Hb' & Hl & Hv & Hfr);
    [lia|cbn; lia|lia|fold env; lia|exact (mem_read_write_same _ _ _ _ Hw2)|].
  rewrite (SM_bind_Ret _ _ _ _ _ E3). clear E3. set (h3 := set_memory m3 h2).
  assert (L3 : zlen (mem_data m3) = size) by (rewrite Hl; cbn; lia).
  destruct (write_in h3 a (enc32 (zlen env))) as (d4 & Hw4 & E4); [lia|rewrite zlen_enc32; cbn; lia|].
  assert (L4 : zlen d4 = size) by (rewrite <- L3; unfold zlen; by rewrite (mem_write_length _ _ _ _ Hw4)).
  change (mem_base (h_memory h)) with (mem_base (h_memory h2)). rewrite <- Hb'.
  change (mem_base m3) with (mem_base (h_memory h3)). rewrite (SM_bind_Ret _ _ _ _ _ E4). clear E4.
  exists (set_data m3 d4). split; [done|]. split; [exact (mem_read_write_same _ _ _ _ Hw4)|]. split.
  { cbn [mem_data set_data]. rewrite (mem_read_write_other _ _ _ _ _ _ Hw4) by (rewrite zlen_enc32; lia). exact Hv. }
  intros p q Hp Hpin Hq Hqin Hpq. unfold ngx_wasi_hfuncs_environ_get. erewrite SM_bind_Ret by reflexivity.
  set (h4 := set_memory (set_data m3 d4) h). change (we_environ (h_env h4)) with env.
  rewrite LIFT_SLICE_in; [|lia|lia|change (mem_data (h_memory h4)) with d4; lia|lia].
  destruct (environ_loop_spec env h4 p q 0) as (m5 & E5 & _ & _ & Hent & Hfr5);
    try (change (mem_data (h_memory h4)) with d4); try lia.
  rewrite (wrap32_id q) by (pose proof (environ_total_nonneg env); split; lia). exists m5. split; [exact E5|].
  rewrite Z.mul_0_r, Z.add_0_r in Hent. rewrite Z.mul_0_r, Z.add_0_r in Hfr5. by split.
Qed.

End calls.

End Wasi.

(** ** Executions *)

Module WasiRuns.
Import Wasi.

Definition plain_print (n : nat) (fmt : bytes) : option bytes := Some (take n fmt).

Definition small_env : wasi_env :=
  {| we_environ := [ngx_string "A=aaa"; ngx_string "BB=bbbb"; ngx_string "C="];
     we_timeofday := {| sec := 1700000000; msec := 123 |};
     we_monotonic := {| tv_sec := 5; tv_nsec := 1999999 |};
     we_random := 0; we_blocks := 0; we_log := [] |}.

Definition small_host (d : bytes) : host wasi_env :=
  {| h_memory := {| mem_base := 4096; mem_data := d |}; h_trap := []; h_env := small_env |}.

(** 64 bytes. *)
Definition zeros : host wasi_env := small_host (replicate 64 x00).

(** The environment at 16 and 32. *)
Lemma environ_roundtrip_witness :
  exists m2,
    ngx_wasi_hfuncs_environ_get plain_print 16 32
      (set_memory (set_data (h_memory zeros)
         (enc32 0 ++ enc32 0 ++ enc32 3 ++ enc32 17 ++ replicate 48 x00)) zeros) =
      Ret (errno WASI_ERRNO_SUCCESS, set_memory m2 zeros) /\
    forall j e, we_environ small_env !! j = Some e -> environ_entry (mem_data m2) 16 32 17 j e.
Proof.
  destruct (environ_roundtrip plain_print zeros 8 12) as (m1 & E1 & _ & _ & H);
    [lia|done|done|lia|done|done|lia|done|done|].
  vm_compute in E1. injection E1 as <-.
  destruct (H 16 32) as (m2 & E2 & Hent & _); [lia|done|lia|done|left; done|].
  exists m2. split; [exact E2|exact Hent].
Defined.

(** The array of the pointers has four bytes for each variable, the slice that is checked only one:
    at the end of its memory the module has the host write outside of it. *)
Example environ_get_overruns : ngx_wasi_hfuncs_environ_get plain_print 60 16 zeros = Fault F_memory.
Proof. by vm_compute. Qed.

(** Two slices at 16 and 20: their pointers and lengths are at 32. *)
Definition writing (ptr : Z) : host wasi_env :=
  small_host (replicate 16 x00 ++ ngx_string "he" ++ replicate 2 x00 ++ ngx_string "llo" ++ [x0a] ++
              replicate 8 x00 ++ enc32 16 ++ enc32 2 ++ enc32 ptr ++ enc32 4 ++ replicate 16 x00).

Lemma fd_write_logs_example :
  exists h', ngx_wasi_hfuncs_fd_write plain_print (fun _ => true) 2 32 2 8 (writing 20) =
    Ret (errno WASI_ERRNO_SUCCESS, h') /\ we_log (h_env h') = [(NGX_LOG_ERR, ngx_string "hello")].
Proof.
  destruct (fd_write_logs plain_print (fun _ => true) (writing 20) 2 32 8
    [ngx_string "he"; ngx_string "llo" ++ [x0a]]) as (d' & _ & E);
    [unfold is_u32; lia|lia|done|done| |done|lia|done|done|done|done|].
  - split; [exists 16|split; [exists 20|done]];
      (split_and!; [split; done|reflexivity|reflexivity|done|right; split_and!; [done|done|reflexivity]]).
  - eexists. split; [exact E|reflexivity].
Defined.

(** A pointer out of bounds, seen when the message is being copied: the call traps, and the block
    that [ngx_alloc] gave for the message is not freed. *)
Example fd_write_leaks :
  match ngx_wasi_hfuncs_fd_write plain_print (fun _ => true) 1 32 2 8 (writing 100) with
  | Ret (rc, h') => rc = (NGX_WAVM_BAD_USAGE, None) /\ we_blocks (h_env h') = 1%nat /\
      h_trap h' = ngx_string "invalid slice pointer passed to host function"
  | Fault _ => False
  end.
Proof. by vm_compute. Qed.

(** The nanoseconds of the clock are those of a [double]: the last digits are not zeros. *)
Example wall_time_is_rounded :
  ngx_wasm_wall_time (we_timeofday small_env) = 1700000000123000064.
Proof. by vm_compute. Qed.

Example clocks :
  (fst <$> match ngx_wasi_hfuncs_clock_time_get plain_print 1 0 8 zeros with
           | Ret (rc, h') => Some (rc, take 8 (drop 8 (mem_data (h_memory h')))) | Fault _ => None end,
   match ngx_wasi_hfuncs_clock_time_get plain_print 2 0 8 zeros with Ret (rc, _) => Some rc | Fault _ => None end) =
  (Some (errno WASI_ERRNO_SUCCESS), Some (errno WASI_ERRNO_NOTSUP)).
Proof. by vm_compute. Qed.

End WasiRuns.
