(* ===== verification/WavmHost.v ===== *)
(** * Host functions and the trampoline

    What a module imports from the host: the types of the values it passes, the interfaces
    with their functions (src/src/common/proxy_wasm/ngx_proxy_wasm_host.c,
    src/src/http/ngx_http_wasm_host.c, src/src/wasm/ngx_wasm_core_host.c,
    src/src/wasm/wasi/ngx_wasi_preview1_host.c), the resolution of a name and the call itself
    (src/src/wasm/vm/ngx_wavm_host.c). *)
From S2P Require Import Prelude Host Wasi.
From stdpp Require Export list.
#[global] Open Scope Z_scope.

Module WavmHost.
Export Host.

(** ** Values *)

Inductive wasm_valkind := WASM_I32 | WASM_I64 | WASM_F32 | WASM_F64.

#[export] Instance wasm_valkind_eq_dec : EqDecision wasm_valkind.
Proof. solve_decision. Defined.

Record wasm_val := { val_kind : wasm_valkind; val_of : Z }.

Record wasm_functype := { params : list wasm_valkind; results : list wasm_valkind }.

(** ** Arities *)

Definition i32s (n : nat) : list wasm_valkind := replicate n WASM_I32.

Definition arity_i32 := i32s 1.
Definition arity_i64 := [WASM_I64].
Definition arity_i32x2 := i32s 2.
Definition arity_i32x3 := i32s 3.
Definition arity_i32x4 := i32s 4.
Definition arity_i32x5 := i32s 5.
Definition arity_i32x6 := i32s 6.
Definition arity_i32x8 := i32s 8.
Definition arity_i32x9 := i32s 9.
Definition arity_i32x10 := i32s 10.
Definition arity_i32x12 := i32s 12.
Definition arity_i32_i64 := [WASM_I32; WASM_I64].
Definition arity_i32_i64_i32 := [WASM_I32; WASM_I64; WASM_I32].
Definition arity_i32_i64_i32x2 := [WASM_I32; WASM_I64; WASM_I32; WASM_I32].
Definition arity_i32x5_i64x2_i32x2 := i32s 5 ++ [WASM_I64; WASM_I64] ++ i32s 2.

(** ** Functions

    A function of the host is known by its name; [hfunc_args] are the kinds of the elements of
    [args] that it reads, [hfunc_rets] those of [rets] that it may write, as the functions of
    common/proxy_wasm/ngx_proxy_wasm_host.c ([pw_]), http/ngx_http_wasm_host.c ([http_]),
    wasm/ngx_wasm_core_host.c ([wasm_]) and wasm/wasi/ngx_wasi_preview1_host.c ([wasi_]) do. *)

Inductive hfunc_pt :=
| pw_proxy_log
| pw_get_current_time
| pw_set_effective_context
| pw_set_tick_period
| pw_get_buffer
| pw_set_buffer
| pw_get_header_map_pairs
| pw_get_header_map_value
| pw_set_header_map_pairs
| pw_add_header_map_value
| pw_replace_header_map_value
| pw_remove_header_map_value
| pw_get_property
| pw_set_property
| pw_continue
| pw_resume_http_request
| pw_send_local_response
| pw_dispatch_http_call
| pw_get_shared_data
| pw_set_shared_data
| pw_register_shared_queue
| pw_enqueue_shared_queue
| pw_dequeue_shared_queue
| pw_define_metric
| pw_get_metric
| pw_record_metric
| pw_increment_metric
| pw_call_foreign_function
| pw_get_configuration
| pw_proxy_set_upstream
| pw_proxy_accept_upstream_response
| pw_proxy_get_upstream_timeouts
| pw_proxy_set_upstream_timeouts
| pw_nop
| http_resp_get_status
| http_resp_set_status
| http_resp_say
| http_local_response
| http_discard_local_response
| core_log
| wasi_random_get
| wasi_args_get
| wasi_args_sizes_get
| wasi_clock_time_get
| wasi_environ_get
| wasi_environ_sizes_get
| wasi_errno_badf
| wasi_errno_notdir
| wasi_errno_notsup
| wasi_fd_write
| wasi_nop.

Definition hfunc_args (p : hfunc_pt) : list wasm_valkind :=
  match p with
  | pw_proxy_log | pw_get_header_map_pairs | pw_set_header_map_pairs | pw_remove_header_map_value
  | pw_register_shared_queue | pw_enqueue_shared_queue | pw_dequeue_shared_queue
  | pw_proxy_get_upstream_timeouts | pw_proxy_set_upstream_timeouts | core_log => i32s 3
  | pw_get_current_time | pw_set_effective_context | pw_set_tick_period | pw_continue
  | http_resp_set_status => i32s 1
  | pw_get_buffer | pw_set_buffer | pw_get_header_map_value | pw_add_header_map_value
  | pw_replace_header_map_value | pw_get_shared_data | pw_set_shared_data | http_local_response => i32s 5
  | pw_get_property | pw_set_property | pw_define_metric | wasi_fd_write => i32s 4
  | pw_resume_http_request | pw_proxy_accept_upstream_response | pw_nop | http_resp_get_status
  | http_discard_local_response | wasi_args_get | wasi_errno_badf | wasi_errno_notdir
  | wasi_errno_notsup | wasi_nop => []
  | pw_send_local_response => i32s 8
  | pw_dispatch_http_call => i32s 10
  | pw_get_metric | pw_get_configuration | http_resp_say | wasi_random_get | wasi_args_sizes_get
  | wasi_environ_get | wasi_environ_sizes_get => i32s 2
  | pw_record_metric | pw_increment_metric => [WASM_I32; WASM_I64]
  | pw_call_foreign_function | pw_proxy_set_upstream => i32s 6
  | wasi_clock_time_get => [WASM_I32; WASM_I64; WASM_I32]
  end.

Definition hfunc_rets (p : hfunc_pt) : list wasm_valkind :=
  match p with
  | pw_nop | http_resp_set_status | http_resp_say | http_local_response
  | http_discard_local_response | core_log | wasi_nop => []
  | _ => [WASM_I32]
  end.

(** A row of a table; [NULL] stands for no arguments and no results. *)
Record ngx_wavm_host_func_def_t := {
  hfd_name : bytes;
  hfd_ptr : hfunc_pt;
  hfd_args : option (list wasm_valkind);
  hfd_rets : option (list wasm_valkind);
}.

Definition hf (name : String.string) (ptr : hfunc_pt) (args rets : option (list wasm_valkind)) :=
  {| hfd_name := ngx_string name; hfd_ptr := ptr; hfd_args := args; hfd_rets := rets |}.
Arguments hf name%_string_scope.

(** ** Tables *)

Definition ngx_proxy_wasm_hfuncs : list ngx_wavm_host_func_def_t := [
  hf "proxy_log" pw_proxy_log (Some arity_i32x3) (Some arity_i32);
  hf "proxy_get_log_level" pw_nop (Some arity_i32x2) (Some arity_i32);
  hf "proxy_get_current_time_nanoseconds" pw_get_current_time (Some arity_i32) (Some arity_i32);
  hf "proxy_set_effective_context" pw_set_effective_context (Some arity_i32) (Some arity_i32);
  hf "proxy_context_finalize" pw_nop None (Some arity_i32);
  hf "proxy_done" pw_nop None (Some arity_i32);
  hf "proxy_create_timer" pw_nop (Some arity_i32x3) (Some arity_i32);
  hf "proxy_delete_timer" pw_nop (Some arity_i32) (Some arity_i32);
  hf "proxy_set_tick_period_milliseconds" pw_set_tick_period (Some arity_i32) (Some arity_i32);
  hf "proxy_get_buffer" pw_get_buffer (Some arity_i32x5) (Some arity_i32);
  hf "proxy_get_buffer_bytes" pw_get_buffer (Some arity_i32x5) (Some arity_i32);
  hf "proxy_set_buffer" pw_set_buffer (Some arity_i32x5) (Some arity_i32);
  hf "proxy_set_buffer_bytes" pw_set_buffer (Some arity_i32x5) (Some arity_i32);
  hf "proxy_get_map_values" pw_nop (Some arity_i32x5) (Some arity_i32);
  hf "proxy_get_header_map_pairs" pw_get_header_map_pairs (Some arity_i32x3) (Some arity_i32);
  hf "proxy_get_header_map_value" pw_get_header_map_value (Some arity_i32x5) (Some arity_i32);
  hf "proxy_set_map_values" pw_nop (Some arity_i32x5) (Some arity_i32);
  hf "proxy_set_header_map_pairs" pw_set_header_map_pairs (Some arity_i32x3) (Some arity_i32);
  hf "proxy_add_header_map_value" pw_add_header_map_value (Some arity_i32x5) (Some arity_i32);
  hf "proxy_replace_header_map_value" pw_replace_header_map_value (Some arity_i32x5) (Some arity_i32);
  hf "proxy_remove_header_map_value" pw_remove_header_map_value (Some arity_i32x3) (Some arity_i32);
  hf "proxy_get_property" pw_get_property (Some arity_i32x4) (Some arity_i32);
  hf "proxy_set_property" pw_set_property (Some arity_i32x4) (Some arity_i32);
  hf "proxy_resume_stream" pw_nop (Some arity_i32) (Some arity_i32);
  hf "proxy_resume_downstream" pw_nop (Some arity_i32) (Some arity_i32);
  hf "proxy_resume_upstream" pw_nop (Some arity_i32) (Some arity_i32);
  hf "proxy_continue_stream" pw_continue (Some arity_i32) (Some arity_i32);
  hf "proxy_close_stream" pw_nop (Some arity_i32) (Some arity_i32);
  hf "proxy_resume_http_stream" pw_nop (Some arity_i32) (Some arity_i32);
  hf "proxy_continue_request" pw_resume_http_request None (Some arity_i32);
  hf "proxy_continue_response" pw_nop None (Some arity_i32);
  hf "proxy_send_http_response" pw_send_local_response (Some arity_i32x8) (Some arity_i32);
  hf "proxy_send_local_response" pw_send_local_response (Some arity_i32x8) (Some arity_i32);
  hf "proxy_dispatch_http_call" pw_dispatch_http_call (Some arity_i32x10) (Some arity_i32);
  hf "proxy_http_call" pw_dispatch_http_call (Some arity_i32x10) (Some arity_i32);
  hf "proxy_dispatch_grpc_call" pw_nop (Some arity_i32x12) (Some arity_i32);
  hf "proxy_grpc_call" pw_nop (Some arity_i32x12) (Some arity_i32);
  hf "proxy_open_grpc_stream" pw_nop (Some arity_i32x9) (Some arity_i32);
  hf "proxy_grpc_stream" pw_nop (Some arity_i32x9) (Some arity_i32);
  hf "proxy_send_grpc_stream_message" pw_nop (Some arity_i32x3) (Some arity_i32);
  hf "proxy_grpc_send" pw_nop (Some arity_i32x4) (Some arity_i32);
  hf "proxy_cancel_grpc_call" pw_nop (Some arity_i32) (Some arity_i32);
  hf "proxy_grpc_cancel" pw_nop (Some arity_i32) (Some arity_i32);
  hf "proxy_close_grpc_call" pw_nop (Some arity_i32) (Some arity_i32);
  hf "proxy_grpc_close" pw_nop (Some arity_i32) (Some arity_i32);
  hf "proxy_get_status" pw_nop (Some arity_i32x3) (Some arity_i32);
  hf "proxy_open_shared_kvstore" pw_nop (Some arity_i32x4) (Some arity_i32);
  hf "proxy_get_shared_kvstore_key_values" pw_nop (Some arity_i32x6) (Some arity_i32);
  hf "proxy_get_shared_data" pw_get_shared_data (Some arity_i32x5) (Some arity_i32);
  hf "proxy_set_shared_kvstore_key_values" pw_nop (Some arity_i32x6) (Some arity_i32);
  hf "proxy_set_shared_data" pw_set_shared_data (Some arity_i32x5) (Some arity_i32);
  hf "proxy_add_shared_kvstore_key_values" pw_nop (Some arity_i32x6) (Some arity_i32);
  hf "proxy_remove_shared_kvstore_key" pw_nop (Some arity_i32x6) (Some arity_i32);
  hf "proxy_delete_shared_kvstore" pw_nop (Some arity_i32x6) (Some arity_i32);
  hf "proxy_open_shared_queue" pw_nop (Some arity_i32x4) (Some arity_i32);
  hf "proxy_register_shared_queue" pw_register_shared_queue (Some arity_i32x3) (Some arity_i32);
  hf "proxy_dequeue_shared_queue_item" pw_nop (Some arity_i32x3) (Some arity_i32);
  hf "proxy_dequeue_shared_queue" pw_dequeue_shared_queue (Some arity_i32x3) (Some arity_i32);
  hf "proxy_enqueue_shared_queue_item" pw_nop (Some arity_i32x3) (Some arity_i32);
  hf "proxy_enqueue_shared_queue" pw_enqueue_shared_queue (Some arity_i32x3) (Some arity_i32);
  hf "proxy_delete_shared_queue" pw_nop (Some arity_i32x4) (Some arity_i32);
  hf "proxy_resolve_shared_queue" pw_nop (Some arity_i32x5) (Some arity_i32);
  hf "proxy_create_metric" pw_nop (Some arity_i32x4) (Some arity_i32);
  hf "proxy_define_metric" pw_define_metric (Some arity_i32x4) (Some arity_i32);
  hf "proxy_get_metric_value" pw_nop (Some arity_i32x2) (Some arity_i32);
  hf "proxy_get_metric" pw_get_metric (Some arity_i32x2) (Some arity_i32);
  hf "proxy_set_metric_value" pw_nop (Some arity_i32_i64) (Some arity_i32);
  hf "proxy_record_metric" pw_record_metric (Some arity_i32_i64) (Some arity_i32);
  hf "proxy_increment_metric_value" pw_nop (Some arity_i32_i64) (Some arity_i32);
  hf "proxy_increment_metric" pw_increment_metric (Some arity_i32_i64) (Some arity_i32);
  hf "proxy_delete_metric" pw_nop (Some arity_i32) (Some arity_i32);
  hf "proxy_call_custom_function" pw_nop (Some arity_i32x5) (Some arity_i32);
  hf "proxy_call_foreign_function" pw_call_foreign_function (Some arity_i32x6) (Some arity_i32);
  hf "proxy_get_configuration" pw_get_configuration (Some arity_i32x2) (Some arity_i32);
  hf "proxy_clear_route_cache" pw_nop None (Some arity_i32);
  hf "proxy_set_upstream" pw_proxy_set_upstream (Some arity_i32x6) (Some arity_i32);
  hf "proxy_accept_upstream_response" pw_proxy_accept_upstream_response None (Some arity_i32);
  hf "proxy_get_upstream_timeouts" pw_proxy_get_upstream_timeouts (Some arity_i32x3) (Some arity_i32);
  hf "proxy_set_upstream_timeouts" pw_proxy_set_upstream_timeouts (Some arity_i32x3) (Some arity_i32)
].

Definition ngx_http_wasm_hfuncs : list ngx_wavm_host_func_def_t := [
  hf "ngx_http_resp_get_status" http_resp_get_status None (Some arity_i32);
  hf "ngx_http_resp_set_status" http_resp_set_status (Some arity_i32) None;
  hf "ngx_http_resp_say" http_resp_say (Some arity_i32x2) None;
  hf "ngx_http_local_response" http_local_response (Some arity_i32x5) None;
  hf "ngx_http_discard_local_response" http_discard_local_response None None
].

Definition ngx_wasm_core_hfuncs : list ngx_wavm_host_func_def_t := [
  hf "ngx_log" core_log (Some arity_i32x3) None
].

Definition ngx_wasi_hfuncs : list ngx_wavm_host_func_def_t := [
  hf "args_get" wasi_args_get (Some arity_i32x2) (Some arity_i32);
  hf "args_sizes_get" wasi_args_sizes_get (Some arity_i32x2) (Some arity_i32);
  hf "clock_time_get" wasi_clock_time_get (Some arity_i32_i64_i32) (Some arity_i32);
  hf "environ_get" wasi_environ_get (Some arity_i32x2) (Some arity_i32);
  hf "environ_sizes_get" wasi_environ_sizes_get (Some arity_i32x2) (Some arity_i32);
  hf "fd_close" wasi_errno_badf (Some arity_i32) (Some arity_i32);
  hf "fd_fdstat_get" wasi_errno_badf (Some arity_i32x2) (Some arity_i32);
  hf "fd_fdstat_set_flags" wasi_errno_badf (Some arity_i32x2) (Some arity_i32);
  hf "fd_prestat_get" wasi_errno_badf (Some arity_i32x2) (Some arity_i32);
  hf "fd_prestat_dir_name" wasi_errno_notsup (Some arity_i32x3) (Some arity_i32);
  hf "fd_read" wasi_errno_badf (Some arity_i32x4) (Some arity_i32);
  hf "fd_seek" wasi_errno_badf (Some arity_i32_i64_i32x2) (Some arity_i32);
  hf "fd_write" wasi_fd_write (Some arity_i32x4) (Some arity_i32);
  hf "path_open" wasi_errno_notdir (Some arity_i32x5_i64x2_i32x2) (Some arity_i32);
  hf "proc_exit" wasi_nop (Some arity_i32) None;
  hf "random_get" wasi_random_get (Some arity_i32x2) (Some arity_i32);
  hf "sched_yield" wasi_errno_notsup None (Some arity_i32);
  hf "poll_oneoff" wasi_errno_notsup (Some arity_i32x4) (Some arity_i32)
].
(** ** Interfaces *)

Record ngx_wavm_host_def_t := { hd_name : bytes; hd_funcs : list ngx_wavm_host_func_def_t }.

Definition ngx_proxy_wasm_host := {| hd_name := ngx_string "ngx_proxy_wasm"; hd_funcs := ngx_proxy_wasm_hfuncs |}.
Definition ngx_http_wasm_host_interface := {| hd_name := ngx_string "ngx_http_wasm"; hd_funcs := ngx_http_wasm_hfuncs |}.
Definition ngx_wasm_core_interface := {| hd_name := ngx_string "ngx_wasm_core"; hd_funcs := ngx_wasm_core_hfuncs |}.
Definition ngx_wasip1_host := {| hd_name := ngx_string "ngx_wasi_preview1"; hd_funcs := ngx_wasi_hfuncs |}.

Definition interfaces : list ngx_wavm_host_def_t :=
  [ngx_proxy_wasm_host; ngx_http_wasm_host_interface; ngx_wasm_core_interface; ngx_wasip1_host].

(** ** Resolution *)

Record ngx_wavm_hfunc_t := { hf_def : ngx_wavm_host_func_def_t; hf_functype : wasm_functype; hf_idx : nat }.

Definition ngx_wavm_host_kindvec2typevec (valkinds : option (list wasm_valkind)) : list wasm_valkind :=
  default [] valkinds.

(** [palloc]: there is memory for the result. *)
Fixpoint ngx_wavm_host_hfunc_create (palloc : bool) (funcs : list ngx_wavm_host_func_def_t) (name : bytes)
    : option ngx_wavm_hfunc_t :=
  match funcs with
  | [] => None
  | func :: funcs =>
      if negb (zlen name =? zlen (hfd_name func)) then ngx_wavm_host_hfunc_create palloc funcs name
      else if negb (bool_decide (name = hfd_name func)) then ngx_wavm_host_hfunc_create palloc funcs name
      else
        let functype := {| params := ngx_wavm_host_kindvec2typevec (hfd_args func);
                           results := ngx_wavm_host_kindvec2typevec (hfd_rets func) |} in
        if palloc then Some {| hf_def := func; hf_functype := functype; hf_idx := 0 |} else None
  end.

(** ** Calls *)

(** The build's runtime. *)
Inductive runtime := NGX_WASM_HAVE_WASMTIME | NGX_WASM_HAVE_WASMER | NGX_WASM_HAVE_V8.

(** [args[i].of]: beyond the end, or another member of the union. *)
Definition arg (k : wasm_valkind) (v : option wasm_val) : outcome Z :=
  match v with
  | Some v => if bool_decide (val_kind v = k) then Ret (val_of v) else Fault F_memory
  | None => Fault F_memory
  end.

Fixpoint read_args (kinds : list wasm_valkind) (args : list wasm_val) : outcome (list Z) :=
  match kinds with
  | [] => Ret []
  | k :: kinds =>
      let? a := arg k (head args) in
      let? l := read_args kinds (tail args) in
      Ret (a :: l)
  end.

(** An instance that is called: [ce_hostcall] is [instance->hostcall]. *)
Record callee (E : Type) := { ce_host : host E; ce_hostcall : bool }.
Arguments ce_host {E}. Arguments ce_hostcall {E}.

Section trampoline.
Context {E : Type} (ngx_vsnprintf : nat -> bytes -> option bytes) (rt : runtime) (debug : bool).
(** The functions, on the values they read from their arguments. *)
Context (ptr : hfunc_pt -> list Z -> SM (callee E) host_ret).
Abbreviation M := (SM (callee E)).

Definition on_host (f : host E -> host E) : M unit := fun c =>
  Ret (tt, {| ce_host := f (ce_host c); ce_hostcall := ce_hostcall c |}).
Definition set_hostcall (b : bool) : M unit := fun c => Ret (tt, {| ce_host := ce_host c; ce_hostcall := b |}).
Definition trapmsg : M bytes := fun c => Ret (h_trap (ce_host c), c).

(** ["%V"]: the name, as much as fits. *)
Definition trap_printf_V (s : bytes) : M unit :=
  msg ← trapmsg;
  if negb (zlen msg =? 0) then mret tt else on_host (set_trap (take (NGX_WAVM_HFUNCS_MAX_TRAP_LEN - 1) s)).

Definition err_string (rc : Z) : option bytes :=
  if rc =? NGX_WAVM_OK then None
  else if rc =? NGX_WAVM_ERROR then Some (ngx_string "host trap (internal error)")
  else if rc =? NGX_WAVM_BAD_USAGE then Some (ngx_string "host trap (bad usage)")
  else if rc =? NGX_WAVM_BAD_ARG then Some (ngx_string "host trap (bad argument)")
  else if rc =? NGX_WAVM_NYI then Some (ngx_string "host trap (function not yet implemented)")
  else Some (ngx_string "host trap (invalid rc)").

(** The message of the trap, if there is one, and [rets]. *)
Definition ngx_wavm_hfunc_trampoline (hfunc : ngx_wavm_hfunc_t) (args : list wasm_val)
    : M (option bytes * option Z) :=
  on_host (set_trap []);;
  set_hostcall true;;
  hargs ← slift (read_args (hfunc_args (hfd_ptr (hf_def hfunc))) args);
  '(rc, hret) ← ptr (hfd_ptr (hf_def hfunc)) hargs;
  set_hostcall false;;
  msg ← trapmsg;
  if (rc =? NGX_WAVM_OK) && (zlen msg =? 0) then mret (None, hret)
  else
    (if rc =? NGX_WAVM_NYI then
       slift (ngx_wa_assert debug (zlen msg =? 0));;
       trap_printf_V (hfd_name (hf_def hfunc))
     else mret tt);;
    msg ← trapmsg;
    if negb (zlen msg =? 0) then
      mret (Some (match err_string rc with Some err => err ++ ngx_string ": " ++ msg | None => msg end), hret)
    else
      err ← slift (deref (err_string rc));
      mret (Some (match rt with NGX_WASM_HAVE_WASMER => err | _ => err ++ [x00] end), hret).

End trampoline.

(** The functions of WASI. *)
Section wasi.
Context (ngx_vsnprintf : nat -> bytes -> option bytes) (ngx_random : nat -> Z) (ngx_alloc : Z -> bool).

Definition wasi_ptr (p : hfunc_pt) (args : list Z) : SM (host Wasi.wasi_env) host_ret :=
  match p, args with
  | wasi_random_get, [a0; a1] => Wasi.ngx_wasi_hfuncs_random_get ngx_vsnprintf ngx_random a0 a1
  | wasi_args_get, [] => Wasi.ngx_wasi_hfuncs_args_get 0 0
  | wasi_args_sizes_get, [a0; a1] => Wasi.ngx_wasi_hfuncs_args_sizes_get ngx_vsnprintf a0 a1
  | wasi_clock_time_get, [a0; a1; a2] => Wasi.ngx_wasi_hfuncs_clock_time_get ngx_vsnprintf a0 a1 a2
  | wasi_environ_get, [a0; a1] => Wasi.ngx_wasi_hfuncs_environ_get ngx_vsnprintf a0 a1
  | wasi_environ_sizes_get, [a0; a1] => Wasi.ngx_wasi_hfuncs_environ_sizes_get ngx_vsnprintf a0 a1
  | wasi_errno_badf, [] => Wasi.ngx_wasi_hfuncs_errno_badf
  | wasi_errno_notdir, [] => Wasi.ngx_wasi_hfuncs_errno_notdir
  | wasi_errno_notsup, [] => Wasi.ngx_wasi_hfuncs_errno_notsup
  | wasi_fd_write, [a0; a1; a2; a3] => Wasi.ngx_wasi_hfuncs_fd_write ngx_vsnprintf ngx_alloc a0 a1 a2 a3
  | wasi_nop, [] => Wasi.ngx_wasi_hfuncs_nop
  | _, _ => slift (Fault F_memory)
  end.

(** They do not look at [hostcall]. *)
Definition with_host {E} (m : SM (host E) host_ret) : SM (callee E) host_ret := fun c =>
  let? (r, h) := m (ce_host c) in Ret (r, {| ce_host := h; ce_hostcall := ce_hostcall c |}).

End wasi.

(** ** Types *)

(** Distinct names; a function reads no more than it is given, of the kinds it is given, and
    writes no result that is not declared. *)
Definition well_typed (f : ngx_wavm_host_func_def_t) : bool :=
  bool_decide (hfunc_args (hfd_ptr f) `prefix_of` ngx_wavm_host_kindvec2typevec (hfd_args f)) &&
  bool_decide (hfunc_rets (hfd_ptr f) `prefix_of` ngx_wavm_host_kindvec2typevec (hfd_rets f)).

Lemma interfaces_well_typed :
  forallb (fun host => forallb well_typed (hd_funcs host) && bool_decide (NoDup (hfd_name <$> hd_funcs host)))
    interfaces = true.
Proof. by vm_compute. Qed.

Lemma hfunc_create_Some b funcs name hf :
  ngx_wavm_host_hfunc_create b funcs name = Some hf ->
  hf_def hf ∈ funcs /\ hfd_name (hf_def hf) = name /\
  hf_functype hf = {| params := ngx_wavm_host_kindvec2typevec (hfd_args (hf_def hf));
                      results := ngx_wavm_host_kindvec2typevec (hfd_rets (hf_def hf)) |}.
Proof.
  induction funcs as [|f funcs IH]; cbn; [done|].
  destruct (Z.eqb_spec (zlen name) (zlen (hfd_name f))); cbn [negb]; [|intros (? & ? & ?)%IH; split_and!; [by right|done..]].
  case_bool_decide; cbn [negb]; [|intros (? & ? & ?)%IH; split_and!; [by right|done..]].
  destruct b; [|done]. intros [= <-]. cbn. split_and!; [by left|done..].
Qed.

Lemma hfunc_create_complete funcs f :
  NoDup (hfd_name <$> funcs) -> f ∈ funcs ->
  exists hf, ngx_wavm_host_hfunc_create true funcs (hfd_name f) = Some hf /\ hf_def hf = f.
Proof.
  induction funcs as [|g funcs IH]; cbn; [by intros _ ?%elem_of_nil|].
  intros [Hg Hnd]%NoDup_cons [->|Hin]%elem_of_cons.
  - rewrite Z.eqb_refl, bool_decide_true by done. cbn. eauto.
  - assert (hfd_name f <> hfd_name g) by (intros E; apply Hg; rewrite <- E; by apply list_elem_of_fmap_2).
    rewrite (bool_decide_false (hfd_name f = hfd_name g)) by done. cbn [negb].
    destruct (zlen _ =? zlen _); cbn [negb]; by apply IH.
Qed.

Lemma read_args_prefix kinds : forall vals,
  kinds `prefix_of` (val_kind <$> vals) -> read_args kinds vals = Ret (take (length kinds) (val_of <$> vals)).
Proof.
  induction kinds as [|k kinds IH]; intros vals [l E]; [done|].
  destruct vals as [|v vals]; [done|]. cbn in *. injection E as -> E. rewrite bool_decide_true by done. cbn.
  rewrite IH by by exists l. done.
Qed.

Lemma interface_function host f :
  host ∈ interfaces -> f ∈ hd_funcs host -> well_typed f = true /\ NoDup (hfd_name <$> hd_funcs host).
Proof.
  intros Hh Hf. pose proof interfaces_well_typed as Ht. rewrite forallb_forall in Ht.
  specialize (Ht host (proj1 (list_elem_of_In _ _) Hh)). apply andb_true_iff in Ht as [Ht Hn].
  split; [|by apply bool_decide_eq_true in Hn]. rewrite forallb_forall in Ht. apply Ht. by apply list_elem_of_In.
Qed.

(** C21. The functions of every interface are used at their types: an import that is resolved to a
    function is the one that has this name, and called with values of the type that the runtime
    was told, the function finds every argument it reads, of the kind it reads, and writes no
    result that the type does not have. *)
Theorem host_functions_typed host name palloc hf vals :
  host ∈ interfaces -> ngx_wavm_host_hfunc_create palloc (hd_funcs host) name = Some hf ->
  val_kind <$> vals = params (hf_functype hf) ->
  (forall f, f ∈ hd_funcs host -> hfd_name f = name -> f = hf_def hf) /\
  (exists rest, val_of <$> vals = rest.1 ++ rest.2 /\ read_args (hfunc_args (hfd_ptr (hf_def hf))) vals = Ret rest.1) /\
  (hfunc_rets (hfd_ptr (hf_def hf)) `prefix_of` results (hf_functype hf)).
Proof.
  intros Hh Hc Hv. apply hfunc_create_Some in Hc as (Hin & <- & Hty). rewrite Hty in Hv |- *. cbn in Hv |- *.
  destruct (interface_function _ _ Hh Hin) as [[Ha Hr]%andb_true_iff Hnd].
  apply bool_decide_eq_true in Ha, Hr. split; [|split; [|done]].
  - intros f Hf E. destruct (hfunc_create_complete _ _ Hnd Hf) as (h1 & E1 & <-).
    destruct (hfunc_create_complete _ _ Hnd Hin) as (h2 & E2 & E3). rewrite <- E3. congruence.
  - rewrite <- Hv in Ha. exists (take (length (hfunc_args (hfd_ptr (hf_def hf)))) (val_of <$> vals),
      drop (length (hfunc_args (hfd_ptr (hf_def hf)))) (val_of <$> vals)).
    cbn. split; [by rewrite take_drop|by apply read_args_prefix].
Qed.

(** ** Traps *)

Definition named_nop (f : ngx_wavm_host_func_def_t) : bool :=
  match hfd_ptr f with
  | pw_nop | wasi_nop => (0 <? zlen (hfd_name f)) && (length (hfd_name f) <=? 255)%nat
  | _ => true
  end.

Lemma interfaces_nops : forallb (fun host => forallb named_nop (hd_funcs host)) interfaces = true.
Proof. by vm_compute. Qed.

(** A function of the interfaces that is not implemented traps when it is called, on every
    runtime: the message says so and names the function, nothing is written to the results, and
    the call is over. *)
Lemma unimplemented_traps {E} rt debug (ptr : hfunc_pt -> list Z -> SM (callee E) host_ret) host f hf vals (c : callee E) :
  host ∈ interfaces -> f ∈ hd_funcs host -> hfd_ptr f = pw_nop \/ hfd_ptr f = wasi_nop ->
  (forall c, ptr (hfd_ptr f) [] c = Ret ((NGX_WAVM_NYI, None), c)) ->
  ngx_wavm_host_hfunc_create true (hd_funcs host) (hfd_name f) = Some hf ->
  ngx_wavm_hfunc_trampoline rt debug ptr hf vals c =
    Ret ((Some (ngx_string "host trap (function not yet implemented): " ++ hfd_name f), None),
         {| ce_host := set_trap (hfd_name f) (ce_host c); ce_hostcall := false |}).
Proof.
  intros Hh Hf Hp Hptr Hc. destruct (interface_function _ _ Hh Hf) as [_ Hnd].
  destruct (hfunc_create_complete _ _ Hnd Hf) as (hf' & E' & Hdef). rewrite Hc in E'. injection E' as <-.
  pose proof interfaces_nops as Hn. rewrite forallb_forall in Hn.
  specialize (Hn host (proj1 (list_elem_of_In _ _) Hh)). rewrite forallb_forall in Hn.
  specialize (Hn f (proj1 (list_elem_of_In _ _) Hf)). unfold named_nop in Hn.
  assert (Hname : 0 < zlen (hfd_name f) /\ (length (hfd_name f) <= 255)%nat).
  { destruct Hp as [Hp|Hp]; rewrite Hp in Hn; apply andb_true_iff in Hn as [?%Z.ltb_lt ?%Nat.leb_le]; by split. }
  destruct Hname as [Hpos Hlen]. unfold ngx_wavm_hfunc_trampoline. rewrite Hdef.
  assert (Ha : hfunc_args (hfd_ptr f) = []) by (by destruct Hp as [->| ->]).
  do 2 erewrite SM_bind_Ret by reflexivity. rewrite Ha. cbn [read_args].
  erewrite SM_bind_Ret by reflexivity. rewrite (SM_bind_Ret _ _ _ _ _ (Hptr _)).
  do 2 erewrite SM_bind_Ret by reflexivity. cbn [ce_host h_trap set_trap zlen length].
  change ((NGX_WAVM_NYI =? NGX_WAVM_OK) && _) with false. change (NGX_WAVM_NYI =? NGX_WAVM_NYI) with true. cbv iota.
  erewrite (SM_bind_Ret _ _ _ tt).
  2:{ erewrite SM_bind_Ret by (unfold slift; rewrite ngx_wa_assert_true; reflexivity).
      unfold trap_printf_V. erewrite SM_bind_Ret by reflexivity. cbn [ce_host h_trap set_trap].
      rewrite take_ge by (unfold NGX_WAVM_HFUNCS_MAX_TRAP_LEN; lia). reflexivity. }
  erewrite SM_bind_Ret by reflexivity. cbn [ce_host h_trap set_trap].
  rewrite (proj2 (Z.eqb_neq (zlen (hfd_name f)) 0)) by lia. reflexivity.
Qed.

End WavmHost.

(** ** Executions *)

Module WavmHostRuns.
Import WavmHost Wasi WasiRuns.

Definition import_of (host : ngx_wavm_host_def_t) (name : String.string) : option ngx_wavm_hfunc_t :=
  ngx_wavm_host_hfunc_create true (hd_funcs host) (ngx_string name).
Arguments import_of host name%_string_scope.

Definition i32 (z : Z) : wasm_val := {| val_kind := WASM_I32; val_of := z |}.

Definition wasi_call (rt : runtime) (p : hfunc_pt) (args : list Z) : SM (callee wasi_env) host_ret :=
  with_host (wasi_ptr plain_print (fun _ => 0) (fun _ => true) p args).

(** A module that writes to its second output. *)
Example write_through_the_trampoline :
  match import_of ngx_wasip1_host "fd_write" with
  | Some hf =>
      match ngx_wavm_hfunc_trampoline NGX_WASM_HAVE_WASMTIME true (wasi_call NGX_WASM_HAVE_WASMTIME) hf
              [i32 2; i32 32; i32 2; i32 8] {| ce_host := writing 20; ce_hostcall := false |} with
      | Ret ((trap, ret), c) =>
          trap = None /\ ret = Some WASI_ERRNO_SUCCESS /\
          we_log (h_env (ce_host c)) = [(NGX_LOG_ERR, ngx_string "hello")]
      | Fault _ => False
      end
  | None => False
  end.
Proof. by vm_compute. Qed.

Lemma host_functions_typed_witness :
  exists hf args, import_of ngx_wasip1_host "clock_time_get" = Some hf /\
    read_args (hfunc_args (hfd_ptr (hf_def hf))) [i32 0; {| val_kind := WASM_I64; val_of := 1 |}; i32 8] = Ret args.
Proof.
  destruct (import_of ngx_wasip1_host "clock_time_get") as [hf|] eqn:E; [|by vm_compute in E].
  destruct (host_functions_typed ngx_wasip1_host (ngx_string "clock_time_get") true hf
    [i32 0; {| val_kind := WASM_I64; val_of := 1 |}; i32 8]) as (_ & ([args rest] & _ & Hr) & _).
  - unfold interfaces. do 3 right. by left.
  - exact E.
  - vm_compute in E. by injection E as <-.
  - exists hf, args. split; [done|exact Hr].
Defined.

Lemma unimplemented_traps_example :
  exists hf c, import_of ngx_proxy_wasm_host "proxy_done" = Some hf /\
    ngx_wavm_hfunc_trampoline NGX_WASM_HAVE_V8 true (fun _ _ => mret (NGX_WAVM_NYI, None)) hf []
      {| ce_host := zeros; ce_hostcall := false |} =
      Ret ((Some (ngx_string "host trap (function not yet implemented): proxy_done"), None), c).
Proof.
  destruct (import_of ngx_proxy_wasm_host "proxy_done") as [hf|] eqn:E; [|by vm_compute in E].
  eexists hf, _. split; [done|].
  refine (unimplemented_traps NGX_WASM_HAVE_V8 true (fun _ _ => mret (NGX_WAVM_NYI, None)) ngx_proxy_wasm_host
    (WavmHost.hf "proxy_done" pw_nop None (Some arity_i32)) hf [] _ _ _ (or_introl eq_refl) (fun _ => eq_refl) E).
  - by left.
  - cbn. do 5 right. by left.
Defined.

(** Without a message of the function, the message of the trap ends with a zero byte but on Wasmer. *)
Example trap_without_message :
  match import_of ngx_wasip1_host "sched_yield" with
  | Some hf =>
      let trap rt := match ngx_wavm_hfunc_trampoline rt true (fun _ _ => mret (NGX_WAVM_ERROR, None)) hf []
                             {| ce_host := zeros; ce_hostcall := false |} with
                     | Ret ((trap, _), _) => trap
                     | Fault _ => None
                     end in
      trap NGX_WASM_HAVE_WASMER = Some (ngx_string "host trap (internal error)") /\
      trap NGX_WASM_HAVE_WASMTIME = Some (ngx_string "host trap (internal error)" ++ [x00])
  | None => False
  end.
Proof. by vm_compute. Qed.

End WavmHostRuns.
