(* ===== verification/Wavm.v ===== *)
(** * The WebAssembly VM

    Engine, modules and instances (src/src/wasm/vm/ngx_wavm.c).  The runtime behind
    [ngx_wrt] and the file system are the operations of class [Wrt].  What the code acquires
    from them is kept in a multiset, [w_live]: releasing what is not in it is a fault, and what
    stays in it was leaked.  Allocations of a pool follow a script, [w_alloc]; those of the
    arrays themselves succeed. *)
From S2P Require Import Prelude WavmHost.
From stdpp Require Export list gmultiset.
#[global] Open Scope Z_scope.

Module Wavm.
Export WavmHost.

(** ** Data *)

Inductive wasm_externkind := WASM_EXTERN_FUNC | WASM_EXTERN_GLOBAL | WASM_EXTERN_TABLE | WASM_EXTERN_MEMORY.

#[export] Instance wasm_externkind_eq_dec : EqDecision wasm_externkind.
Proof. solve_decision. Defined.

Record wasm_importtype_t := { it_module : bytes; it_name : bytes; it_kind : wasm_externkind }.
Record wasm_exporttype_t := { et_name : bytes; et_kind : wasm_externkind }.

(** [state] is the five flags; [m_funcs] is [funcs_tree]: the name of a function and its
    [exports_idx]; [m_bytes] is empty when there are none. *)
Record ngx_wavm_module_t := {
  m_name : bytes;
  m_path : bytes;
  m_config : option bytes;
  m_iswat : bool;
  m_loaded_bytes : bool;
  m_loaded : bool;
  m_linked : bool;
  m_invalid : bool;
  m_bytes : bytes;
  m_imports : list wasm_importtype_t;
  m_exports : list wasm_exporttype_t;
  m_funcs : list (bytes * nat);
  m_f_start : option (bytes * nat);
  m_host_def : option ngx_wavm_host_def_t;
  m_hfuncs : list ngx_wavm_hfunc_t;
  m_idx : Z;
}.

(** [v_queue]: [instances] was initialised; nothing is ever inserted in it.  [v_modules] are the
    nodes of [modules_tree] in its order. *)
Record ngx_wavm_t := {
  v_init : bool;
  v_ready : bool;
  v_queue : bool;
  v_modules_max : Z;
  v_modules : list ngx_wavm_module_t;
  v_core_host : option ngx_wavm_host_def_t;
}.

(** An export of an instance; [fn_functype] is [NULL] for what is not a function. *)
Record ngx_wavm_func_t := { fn_idx : nat; fn_name : bytes; fn_functype : option wasm_functype }.

(** [i_id] is its address; an extern that is zeroed is [None]. *)
Record ngx_wavm_instance_t := {
  i_id : nat;
  i_module : ngx_wavm_module_t;
  i_log : bool;
  i_created : bool;
  i_store_created : bool;
  i_trapped : bool;
  i_externs : option (list (option wasm_externkind));
  i_memory : option nat;
  i_funcs : list ngx_wavm_func_t;
}.

(** What is released by hand: the engine, the bytes and the compiled code of a module, the
    function types of an instance, its store and itself. *)
Inductive resource :=
| R_engine
| R_bytes (module : bytes)
| R_module (module : bytes)
| R_hfunc (module : bytes)
| R_store (instance : nat)
| R_instance (instance : nat)
| R_functype (instance : nat).

#[export] Instance resource_eq_dec : EqDecision resource.
Proof. solve_decision. Defined.

Definition resource_code (r : resource) : nat * bytes + nat * nat :=
  match r with
  | R_bytes m => inl (0%nat, m)
  | R_module m => inl (1%nat, m)
  | R_hfunc m => inl (2%nat, m)
  | R_store i => inr (0%nat, i)
  | R_instance i => inr (1%nat, i)
  | R_functype i => inr (2%nat, i)
  | R_engine => inr (3%nat, 0%nat)
  end.

Definition resource_of (c : nat * bytes + nat * nat) : resource :=
  match c with
  | inl (0%nat, m) => R_bytes m
  | inl (1%nat, m) => R_module m
  | inl (_, m) => R_hfunc m
  | inr (0%nat, i) => R_store i
  | inr (1%nat, i) => R_instance i
  | inr (2%nat, i) => R_functype i
  | inr (_, _) => R_engine
  end.

#[export] Instance resource_countable : Countable resource.
Proof. apply (inj_countable' resource_code resource_of). by intros []. Defined.

(** [ngx_wrt], and the files. *)
Class Wrt (W : Type) := {
  wrt_read_file : W -> bytes -> ngx_rc * bytes * W;
  wrt_conf_init : W -> bool * W;
  wrt_engine_init : W -> ngx_rc * W;
  wrt_wat2wasm : W -> bytes -> ngx_rc * bytes * W;
  wrt_validate : W -> bytes -> ngx_rc * W;
  wrt_module_init : W -> bytes -> ngx_rc * (list wasm_importtype_t * list wasm_exporttype_t) * W;
  wrt_module_link : W -> list ngx_wavm_hfunc_t -> ngx_rc * W;
  wrt_store_init : W -> ngx_rc * W;
  wrt_instance_init : W -> ngx_rc * W;
  (** Of an export of the instance; the type when it is a function. *)
  wrt_extern_init : W -> nat -> ngx_rc * wasm_functype * W;
  wrt_call : W -> nat -> bytes -> nat -> list Z -> ngx_rc * list Z * W;
}.

Record world (W : Type) := { w_rt : W; w_alloc : list bool; w_live : gmultiset resource; w_log : list bytes; w_next : nat }.
Arguments w_rt {W}. Arguments w_alloc {W}. Arguments w_live {W}. Arguments w_log {W}. Arguments w_next {W}.

(** ** Assignments *)

Definition set_flags (loaded_bytes loaded linked invalid : bool) (m : ngx_wavm_module_t) : ngx_wavm_module_t :=
  {| m_name := m_name m; m_path := m_path m; m_config := m_config m; m_iswat := m_iswat m;
     m_loaded_bytes := loaded_bytes; m_loaded := loaded; m_linked := linked; m_invalid := invalid;
     m_bytes := m_bytes m; m_imports := m_imports m; m_exports := m_exports m; m_funcs := m_funcs m;
     m_f_start := m_f_start m; m_host_def := m_host_def m; m_hfuncs := m_hfuncs m; m_idx := m_idx m |}.

Definition set_bytes (bytes : bytes) (m : ngx_wavm_module_t) : ngx_wavm_module_t :=
  {| m_name := m_name m; m_path := m_path m; m_config := m_config m; m_iswat := m_iswat m;
     m_loaded_bytes := m_loaded_bytes m; m_loaded := m_loaded m; m_linked := m_linked m; m_invalid := m_invalid m;
     m_bytes := bytes; m_imports := m_imports m; m_exports := m_exports m; m_funcs := m_funcs m;
     m_f_start := m_f_start m; m_host_def := m_host_def m; m_hfuncs := m_hfuncs m; m_idx := m_idx m |}.

Definition set_types (imports : list wasm_importtype_t) (exports : list wasm_exporttype_t) (m : ngx_wavm_module_t) :=
  {| m_name := m_name m; m_path := m_path m; m_config := m_config m; m_iswat := m_iswat m;
     m_loaded_bytes := m_loaded_bytes m; m_loaded := m_loaded m; m_linked := m_linked m; m_invalid := m_invalid m;
     m_bytes := m_bytes m; m_imports := imports; m_exports := exports; m_funcs := m_funcs m;
     m_f_start := m_f_start m; m_host_def := m_host_def m; m_hfuncs := m_hfuncs m; m_idx := m_idx m |}.

Definition set_funcs (funcs : list (bytes * nat)) (f_start : option (bytes * nat)) (m : ngx_wavm_module_t) :=
  {| m_name := m_name m; m_path := m_path m; m_config := m_config m; m_iswat := m_iswat m;
     m_loaded_bytes := m_loaded_bytes m; m_loaded := m_loaded m; m_linked := m_linked m; m_invalid := m_invalid m;
     m_bytes := m_bytes m; m_imports := m_imports m; m_exports := m_exports m; m_funcs := funcs;
     m_f_start := f_start; m_host_def := m_host_def m; m_hfuncs := m_hfuncs m; m_idx := m_idx m |}.

Definition set_idx (idx : Z) (m : ngx_wavm_module_t) : ngx_wavm_module_t :=
  {| m_name := m_name m; m_path := m_path m; m_config := m_config m; m_iswat := m_iswat m;
     m_loaded_bytes := m_loaded_bytes m; m_loaded := m_loaded m; m_linked := m_linked m; m_invalid := m_invalid m;
     m_bytes := m_bytes m; m_imports := m_imports m; m_exports := m_exports m; m_funcs := m_funcs m;
     m_f_start := m_f_start m; m_host_def := m_host_def m; m_hfuncs := m_hfuncs m; m_idx := idx |}.

Definition set_host (host : option ngx_wavm_host_def_t) (hfuncs : list ngx_wavm_hfunc_t) (m : ngx_wavm_module_t) :=
  {| m_name := m_name m; m_path := m_path m; m_config := m_config m; m_iswat := m_iswat m;
     m_loaded_bytes := m_loaded_bytes m; m_loaded := m_loaded m; m_linked := m_linked m; m_invalid := m_invalid m;
     m_bytes := m_bytes m; m_imports := m_imports m; m_exports := m_exports m; m_funcs := m_funcs m;
     m_f_start := m_f_start m; m_host_def := host; m_hfuncs := hfuncs; m_idx := m_idx m |}.

Definition set_state (init ready : bool) (vm : ngx_wavm_t) : ngx_wavm_t :=
  {| v_init := init; v_ready := ready; v_queue := v_queue vm; v_modules_max := v_modules_max vm;
     v_modules := v_modules vm; v_core_host := v_core_host vm |}.

Definition set_modules (max : Z) (modules : list ngx_wavm_module_t) (vm : ngx_wavm_t) : ngx_wavm_t :=
  {| v_init := v_init vm; v_ready := v_ready vm; v_queue := v_queue vm; v_modules_max := max;
     v_modules := modules; v_core_host := v_core_host vm |}.

Definition set_log (b : bool) (i : ngx_wavm_instance_t) : ngx_wavm_instance_t :=
  {| i_id := i_id i; i_module := i_module i; i_log := b; i_created := i_created i;
     i_store_created := i_store_created i; i_trapped := i_trapped i; i_externs := i_externs i;
     i_memory := i_memory i; i_funcs := i_funcs i |}.

Definition set_created (store instance trapped : bool) (i : ngx_wavm_instance_t) : ngx_wavm_instance_t :=
  {| i_id := i_id i; i_module := i_module i; i_log := i_log i; i_created := instance;
     i_store_created := store; i_trapped := trapped; i_externs := i_externs i;
     i_memory := i_memory i; i_funcs := i_funcs i |}.

Definition set_externs (externs : option (list (option wasm_externkind))) (memory : option nat)
    (funcs : list ngx_wavm_func_t) (i : ngx_wavm_instance_t) : ngx_wavm_instance_t :=
  {| i_id := i_id i; i_module := i_module i; i_log := i_log i; i_created := i_created i;
     i_store_created := i_store_created i; i_trapped := i_trapped i; i_externs := externs;
     i_memory := memory; i_funcs := funcs |}.

(** ** Computations *)

Section wavm.
Context {W : Type} `{Wrt W} (rt : runtime) (debug : bool).
(** Where [ngx_str_rbtree_insert_value] puts a module. *)
Context (sn_insert : ngx_wavm_module_t -> list ngx_wavm_module_t -> list ngx_wavm_module_t).
Abbreviation M := (SM (world W)).

Definition with_rt (rt : W) (w : world W) : world W :=
  {| w_rt := rt; w_alloc := w_alloc w; w_live := w_live w; w_log := w_log w; w_next := w_next w |}.
Definition with_live (l : gmultiset resource) (w : world W) : world W :=
  {| w_rt := w_rt w; w_alloc := w_alloc w; w_live := l; w_log := w_log w; w_next := w_next w |}.

(** A call of the runtime. *)
Definition wrt {A} (f : W -> A * W) : M A := fun w => let '(a, rt) := f (w_rt w) in Ret (a, with_rt rt w).

(** An allocation; they succeed when the script is over. *)
Definition palloc : M bool := fun w =>
  Ret (default true (head (w_alloc w)),
       {| w_rt := w_rt w; w_alloc := tail (w_alloc w); w_live := w_live w; w_log := w_log w; w_next := w_next w |}).

Definition log_error (msg : bytes) : M unit := fun w =>
  Ret (tt, {| w_rt := w_rt w; w_alloc := w_alloc w; w_live := w_live w; w_log := w_log w ++ [msg]; w_next := w_next w |}).

Definition acquire (r : resource) : M unit := fun w => Ret (tt, with_live ({[+ r +]} ⊎ w_live w) w).
Definition release (r : resource) : M unit := fun w =>
  if decide (r ∈ w_live w) then Ret (tt, with_live (w_live w ∖ {[+ r +]}) w) else Fault F_memory.

Definition new_id : M nat := fun w =>
  Ret (w_next w, {| w_rt := w_rt w; w_alloc := w_alloc w; w_live := w_live w; w_log := w_log w; w_next := S (w_next w) |}).

Definition NGX_WAVM_NOMEM_CHAR : bytes := ngx_string "no memory".

(** *** Modules *)

Definition has_bytes (m : ngx_wavm_module_t) : bool := negb (zlen (m_bytes m) =? 0).

Fixpoint release_n (n : nat) (r : resource) : M unit :=
  match n with O => mret tt | S n => release r;; release_n n r end.

Definition ngx_wavm_module_destroy (m : ngx_wavm_module_t) : M unit :=
  (if m_loaded m then release (R_module (m_name m)) else mret tt);;
  (if has_bytes m then release (R_bytes (m_name m)) else mret tt);;
  release_n (length (m_hfuncs m)) (R_hfunc (m_name m)).

Definition ngx_wavm_module_lookup (vm : ngx_wavm_t) (name : bytes) : option ngx_wavm_module_t :=
  snd <$> list_find (fun m => m_name m = name) (v_modules vm).

Definition new_module (name path : bytes) : ngx_wavm_module_t :=
  {| m_name := name; m_path := path; m_config := None; m_iswat := false; m_loaded_bytes := false;
     m_loaded := false; m_linked := false; m_invalid := false; m_bytes := []; m_imports := []; m_exports := [];
     m_funcs := []; m_f_start := None; m_host_def := None; m_hfuncs := []; m_idx := 0 |}.

Definition set_config (iswat : bool) (config : option bytes) (m : ngx_wavm_module_t) : ngx_wavm_module_t :=
  {| m_name := m_name m; m_path := m_path m; m_config := config; m_iswat := iswat;
     m_loaded_bytes := m_loaded_bytes m; m_loaded := m_loaded m; m_linked := m_linked m; m_invalid := m_invalid m;
     m_bytes := m_bytes m; m_imports := m_imports m; m_exports := m_exports m; m_funcs := m_funcs m;
     m_f_start := m_f_start m; m_host_def := m_host_def m; m_hfuncs := m_hfuncs m; m_idx := m_idx m |}.

(** The last four bytes of the path, which may start before it. *)
Definition path_suffix (path : bytes) : outcome bytes := mem_read path (zlen path - 4) 4.

Definition ngx_wavm_module_add (vm : ngx_wavm_t) (name path : bytes) (config : option bytes) : M (ngx_rc * ngx_wavm_t) :=
  let error (m : option ngx_wavm_module_t) : M (ngx_rc * ngx_wavm_t) :=
    log_error NGX_WAVM_NOMEM_CHAR;;
    (match m with Some m => ngx_wavm_module_destroy m | None => mret tt end);;
    mret (NGX_ERROR, vm) in
  if v_ready vm then mret (NGX_ABORT, vm)
  else
    match ngx_wavm_module_lookup vm name with
    | Some _ => mret (NGX_DECLINED, vm)
    | None =>
        ok ← palloc;
        if negb ok then error None
        else
          let m := new_module name path in
          ok ← palloc;
          if negb ok then error (Some m)
          else
            ok ← palloc;
            if negb ok then error (Some m)
            else
              suffix ← slift (path_suffix path);
              let iswat := bool_decide (suffix = ngx_string ".wat") in
              ok ← (match config with Some _ => palloc | None => mret true end);
              if negb ok then error (Some (set_config iswat None m))
              else mret (NGX_OK, set_modules (v_modules_max vm) (sn_insert (set_config iswat config m) (v_modules vm)) vm)
    end.

Definition ngx_wavm_module_load_bytes (m : ngx_wavm_module_t) : M (ngx_rc * ngx_wavm_module_t) :=
  let error err m : M (ngx_rc * ngx_wavm_module_t) := log_error err;; mret (NGX_ERROR, m) in
  '(rc, file_bytes) ← wrt (fun w => wrt_read_file w (m_path m));
  if negb (is_ok rc) then mret (rc, m)
  else
    '(rc, wasm) ← (if m_iswat m then wrt (fun w => wrt_wat2wasm w file_bytes) else mret (NGX_OK, file_bytes));
    if negb (is_ok rc) then error [] m
    else
      let m := set_bytes wasm m in
      if negb (has_bytes m) then error (ngx_string "unexpected EOF") m
      else
        acquire (R_bytes (m_name m));;
        rc ← wrt (fun w => wrt_validate w (m_bytes m));
        if negb (is_ok rc) then error (ngx_string "invalid module") m
        else mret (NGX_OK, set_flags true (m_loaded m) (m_linked m) (m_invalid m) m).

(** The exported functions, and the one that starts the module; [None] without memory. *)
Fixpoint build_exports (i : nat) (exports : list wasm_exporttype_t) (funcs : list (bytes * nat))
    (f_start : option (bytes * nat)) : M (list (bytes * nat) * option (bytes * nat) * bool) :=
  match exports with
  | [] => mret (funcs, f_start, true)
  | e :: exports =>
      match et_kind e with
      | WASM_EXTERN_FUNC =>
          ok ← palloc;
          if negb ok then mret (funcs, f_start, false)
          else
            ok ← palloc;
            if negb ok then mret (funcs, f_start, false)
            else
              let funcref := (et_name e, i) in
              let f_start :=
                match f_start with
                | None => if bool_decide (et_name e = ngx_string "_start") || bool_decide (et_name e = ngx_string "_initialize")
                          then Some funcref else None
                | Some _ => f_start
                end in
              build_exports (S i) exports (funcs ++ [funcref]) f_start
      | _ => build_exports (S i) exports funcs f_start
      end
  end.

(** The bytes are deleted on success and on failure. *)
Definition delete_bytes (m : ngx_wavm_module_t) : M ngx_wavm_module_t :=
  (if has_bytes m then release (R_bytes (m_name m)) else mret tt);; mret (set_bytes [] m).

(** With [vm->modules_max]. *)
Definition ngx_wavm_module_load (max : Z) (m : ngx_wavm_module_t) : M (ngx_rc * Z * ngx_wavm_module_t) :=
  let failed m : M (ngx_rc * Z * ngx_wavm_module_t) :=
    m ← delete_bytes (set_flags (m_loaded_bytes m) (m_loaded m) (m_linked m) true m);
    mret (NGX_ERROR, max, m) in
  if m_loaded m then mret (NGX_OK, max, m)
  else if negb (m_loaded_bytes m) then mret (NGX_ERROR, max, m)
  else
    '(rc, (imports, exports)) ← wrt (fun w => wrt_module_init w (m_bytes m));
    if negb (is_ok rc) then log_error [];; failed m
    else
      acquire (R_module (m_name m));;
      let m := set_types imports exports m in
      if negb (forallb (fun i => bool_decide (it_kind i = WASM_EXTERN_FUNC)) imports) then
        log_error (ngx_string "NYI: module import type not supported");; failed m
      else
        '(funcs, f_start, ok) ← build_exports 0 exports [] (m_f_start m);
        let m := set_funcs funcs f_start m in
        if negb (ok : bool) then log_error NGX_WAVM_NOMEM_CHAR;; failed m
        else
          let m := set_idx max (set_flags (m_loaded_bytes m) true (m_linked m) (m_invalid m) m) in
          m ← delete_bytes m;
          mret (NGX_OK, max + 1, m).

(** The loop over the imports: the functions found, and the error that ended it. *)
Fixpoint link_imports (core_host : option ngx_wavm_host_def_t) (host : ngx_wavm_host_def_t) (name : bytes) (i : nat)
    (imports : list wasm_importtype_t) (hfuncs : list ngx_wavm_hfunc_t) : M (list ngx_wavm_hfunc_t * option bytes) :=
  match imports with
  | [] => mret (hfuncs, None)
  | importtype :: imports =>
      if negb (bool_decide (it_module importtype = ngx_string "env")) then
        link_imports core_host host name (S i) imports hfuncs
      else
        slift (ngx_wa_assert debug (bool_decide (it_kind importtype = WASM_EXTERN_FUNC)));;
        let create h : M (option ngx_wavm_hfunc_t) :=
          match ngx_wavm_host_hfunc_create true (hd_funcs h) (it_name importtype) with
          | Some _ => ok ← palloc; mret (ngx_wavm_host_hfunc_create ok (hd_funcs h) (it_name importtype))
          | None => mret None
          end in
        hfunc ← create host;
        hfunc ← (match hfunc, core_host with
                 | None, Some core => create core
                 | _, _ => mret hfunc
                 end);
        match hfunc with
        | None =>
            log_error (ngx_string "missing host function");;
            mret (hfuncs, Some (ngx_string "incompatible host interface"))
        | Some hfunc =>
            acquire (R_hfunc name);;
            ok ← palloc;
            if negb ok then mret (hfuncs, Some NGX_WAVM_NOMEM_CHAR)
            else
              link_imports core_host host name (S i) imports
                (hfuncs ++ [{| hf_def := hf_def hfunc; hf_functype := hf_functype hfunc; hf_idx := i |}])
        end
  end.

(** [same host]: [module->host_def == host], by their names. *)
Definition same_host (h : option ngx_wavm_host_def_t) (host : ngx_wavm_host_def_t) : bool :=
  match h with Some h => bool_decide (hd_name h = hd_name host) | None => false end.

Definition ngx_wavm_module_link (core_host : option ngx_wavm_host_def_t) (host : ngx_wavm_host_def_t)
    (m : ngx_wavm_module_t) : M (ngx_rc * ngx_wavm_module_t) :=
  let error err m : M (ngx_rc * ngx_wavm_module_t) := log_error err;; mret (NGX_ERROR, m) in
  if m_invalid m then error (ngx_string "invalid module") m
  else if negb (m_loaded m) then error (ngx_string "module not loaded") m
  else if m_linked m then
    if negb (same_host (m_host_def m) host) then error (ngx_string "module already linked to a different host") m
    else mret (NGX_OK, m)
  else
    '(hfuncs, err) ← link_imports core_host host (m_name m) 0 (m_imports m) (m_hfuncs m);
    let m := set_host (Some host) hfuncs m in
    match err with
    | Some err => error err m
    | None =>
        rc ← wrt (fun w => wrt_module_link w hfuncs);
        if negb (is_ok rc) then error [] m
        else mret (NGX_OK, set_flags (m_loaded_bytes m) (m_loaded m) true (m_invalid m) m)
    end.

Definition ngx_wavm_module_func_lookup (m : ngx_wavm_module_t) (name : bytes) : option (bytes * nat) :=
  if negb (m_loaded m) then None else snd <$> list_find (fun f => f.1 = name) (m_funcs m).

(** *** The VM *)

Definition zero_vm (core_host : option ngx_wavm_host_def_t) : ngx_wavm_t :=
  {| v_init := false; v_ready := false; v_queue := false; v_modules_max := 0; v_modules := []; v_core_host := core_host |}.

Definition ngx_wavm_engine_destroy (vm : ngx_wavm_t) : M ngx_wavm_t :=
  if v_init vm then release R_engine;; mret (set_state false false vm) else mret vm.

(** Of a queue that was not initialised, the first element is [NULL]. *)
Definition ngx_wavm_destroy_instances (vm : ngx_wavm_t) : M unit :=
  if v_queue vm then mret tt else slift (Fault F_memory).

Fixpoint destroy_modules (modules : list ngx_wavm_module_t) : M unit :=
  match modules with
  | [] => mret tt
  | m :: modules => ngx_wavm_module_destroy m;; destroy_modules modules
  end.

Definition ngx_wavm_destroy (vm : ngx_wavm_t) : M unit :=
  ngx_wavm_destroy_instances vm;;
  destroy_modules (v_modules vm);;
  ngx_wavm_engine_destroy vm;;
  mret tt.

Definition ngx_wavm_create (core_host : option ngx_wavm_host_def_t) : M (option ngx_wavm_t) :=
  ok ← palloc;
  if negb ok then log_error NGX_WAVM_NOMEM_CHAR;; mret None
  else
    ok ← palloc;
    if negb ok then log_error NGX_WAVM_NOMEM_CHAR;; ngx_wavm_destroy (zero_vm core_host);; mret None
    else
      mret (Some {| v_init := false; v_ready := false; v_queue := true; v_modules_max := 0; v_modules := [];
                    v_core_host := core_host |}).

Definition ngx_wavm_engine_init (vm : ngx_wavm_t) : M (ngx_rc * ngx_wavm_t) :=
  if v_init vm then mret (NGX_ABORT, vm)
  else
    let error err : M (ngx_rc * ngx_wavm_t) :=
      log_error err;; vm ← ngx_wavm_engine_destroy vm; mret (NGX_ERROR, vm) in
    config ← wrt wrt_conf_init;
    if negb config then error (ngx_string "invalid configuration")
    else
      rc ← wrt wrt_engine_init;
      if negb (is_ok rc) then error []
      else acquire R_engine;; mret (NGX_OK, set_state true (v_ready vm) vm).

Fixpoint load_bytes_all (modules : list ngx_wavm_module_t) : M (ngx_rc * list ngx_wavm_module_t) :=
  match modules with
  | [] => mret (NGX_OK, [])
  | m :: modules =>
      '(rc, m) ← ngx_wavm_module_load_bytes m;
      if negb (is_ok rc) then mret (rc, m :: modules)
      else '(rc, modules) ← load_bytes_all modules; mret (rc, m :: modules)
  end.

Definition ngx_wavm_init (vm : ngx_wavm_t) : M (ngx_rc * ngx_wavm_t) :=
  '(rc, vm) ← ngx_wavm_engine_init vm;
  '(rc, vm) ←
    (if negb (is_ok rc) then mret (rc, vm)
     else '(rc, modules) ← load_bytes_all (v_modules vm); mret (rc, set_modules (v_modules_max vm) modules vm));
  vm ← ngx_wavm_engine_destroy vm;
  mret (rc, vm).

Fixpoint load_all (max : Z) (modules : list ngx_wavm_module_t) : M (ngx_rc * Z * list ngx_wavm_module_t) :=
  match modules with
  | [] => mret (NGX_OK, max, [])
  | m :: modules =>
      '(rc, max, m) ← ngx_wavm_module_load max m;
      if negb (is_ok rc) then mret (NGX_ERROR, max, m :: modules)
      else '(rc, max, modules) ← load_all max modules; mret (rc, max, m :: modules)
  end.

Definition ngx_wavm_load (vm : ngx_wavm_t) : M (ngx_rc * ngx_wavm_t) :=
  '(rc, vm) ← ngx_wavm_engine_init vm;
  if negb (is_ok rc) then mret (NGX_ERROR, vm)
  else
    '(rc, max, modules) ← load_all (v_modules_max vm) (v_modules vm);
    let vm := set_modules max modules vm in
    if negb (is_ok rc) then mret (NGX_ERROR, vm) else mret (NGX_OK, set_state (v_init vm) true vm).

(** *** A run of nginx

    The modules of the configuration, the start of the master, the start of the worker, the
    modules that its operations link (the [module] directive of
    src/src/wasm/ngx_wasm_directives.c, src/src/wasm/ngx_wasm_core_module.c,
    src/src/wasm/ngx_wasm_ops.c), and the end of the cycle.  The first failure ends the run. *)
Fixpoint add_all (vm : ngx_wavm_t) (l : list (bytes * bytes * option bytes)) : M (ngx_rc * ngx_wavm_t) :=
  match l with
  | [] => mret (NGX_OK, vm)
  | (name, path, config) :: l =>
      '(rc, vm) ← ngx_wavm_module_add vm name path config;
      if negb (is_ok rc) then mret (rc, vm) else add_all vm l
  end.

(** Of a module that is found by its name. *)
Definition link_named (vm : ngx_wavm_t) (name : bytes) (host : ngx_wavm_host_def_t) : M (ngx_rc * ngx_wavm_t) :=
  match list_find (fun m => m_name m = name) (v_modules vm) with
  | None => mret (NGX_ERROR, vm)
  | Some (j, m) =>
      '(rc, m) ← ngx_wavm_module_link (v_core_host vm) host m;
      mret (rc, set_modules (v_modules_max vm) (<[j := m]> (v_modules vm)) vm)
  end.

Fixpoint link_all (vm : ngx_wavm_t) (l : list (bytes * ngx_wavm_host_def_t)) : M (ngx_rc * ngx_wavm_t) :=
  match l with
  | [] => mret (NGX_OK, vm)
  | (name, host) :: l =>
      '(rc, vm) ← link_named vm name host;
      if negb (is_ok rc) then mret (rc, vm) else link_all vm l
  end.

Definition and_then (r : ngx_rc * ngx_wavm_t) (k : ngx_wavm_t -> M (ngx_rc * ngx_wavm_t)) : M (ngx_rc * ngx_wavm_t) :=
  if is_ok r.1 then k r.2 else mret r.

Definition lifetime (core_host : option ngx_wavm_host_def_t) (modules : list (bytes * bytes * option bytes))
    (links : list (bytes * ngx_wavm_host_def_t)) : M ngx_rc :=
  vm ← ngx_wavm_create core_host;
  match vm with
  | None => mret NGX_ERROR
  | Some vm =>
      r ← add_all vm modules;
      r ← and_then r ngx_wavm_init;
      r ← and_then r ngx_wavm_load;
      r ← and_then r (fun vm => link_all vm links);
      ngx_wavm_destroy r.2;;
      mret r.1
  end.

(** *** Instances *)

(** Only of an extern of Wasmtime is something read: the pool of its instance. *)
Definition extern_destroy (e : option wasm_externkind) : outcome unit :=
  match rt, e with
  | NGX_WASM_HAVE_WASMTIME, None => Fault F_memory
  | _, _ => Ret tt
  end.

Fixpoint destroy_externs (l : list (option wasm_externkind)) : outcome unit :=
  match l with
  | [] => Ret tt
  | e :: l => let? _ := extern_destroy e in destroy_externs l
  end.

Definition is_func (f : ngx_wavm_func_t) : bool := bool_decide (is_Some (fn_functype f)).

Definition ngx_wavm_instance_destroy (i : ngx_wavm_instance_t) : M unit :=
  release_n (length (filter (fun f => is_func f = true) (i_funcs i))) (R_functype (i_id i));;
  slift (match i_externs i with Some l => destroy_externs l | None => Ret tt end);;
  (if i_created i then release (R_instance (i_id i)) else mret tt);;
  (if i_store_created i then release (R_store (i_id i)) else mret tt).

Definition new_instance (id : nat) (m : ngx_wavm_module_t) : ngx_wavm_instance_t :=
  {| i_id := id; i_module := m; i_log := false; i_created := false; i_store_created := false; i_trapped := false;
     i_externs := None; i_memory := None; i_funcs := [] |}.

(** The loop over the exports, from index [j]; [false] when it failed. *)
Fixpoint cache_exports (j : nat) (exports : list wasm_exporttype_t) (i : ngx_wavm_instance_t)
    : M (ngx_wavm_instance_t * bool) :=
  match exports with
  | [] => mret (i, true)
  | e :: exports =>
      '(rc, functype) ← wrt (fun w => wrt_extern_init w j);
      if negb (is_ok rc) then mret (i, false)
      else
        let i := set_externs (<[j := Some (et_kind e)]> <$> i_externs i) (i_memory i) (i_funcs i) i in
        ok ← palloc;
        let func ft := {| fn_idx := j; fn_name := et_name e; fn_functype := ft |} in
        let push ft i := set_externs (i_externs i) (i_memory i) (i_funcs i ++ [func ft]) i in
        if negb ok then mret (push None i, false)
        else
          match et_kind e with
          | WASM_EXTERN_FUNC =>
              acquire (R_functype (i_id i));;
              cache_exports (S j) exports (push (Some functype) i)
          | WASM_EXTERN_MEMORY =>
              slift (ngx_wa_assert debug (bool_decide (i_memory i = None)));;
              cache_exports (S j) exports (set_externs (i_externs i) (Some j) (i_funcs i ++ [func None]) i)
          | _ => cache_exports (S j) exports (push None i)
          end
  end.

(** With the code and the results. *)
Definition ngx_wavm_func_call (i : ngx_wavm_instance_t) (f : ngx_wavm_func_t) (args : list Z)
    : M (ngx_rc * list Z * ngx_wavm_instance_t) :=
  if i_trapped i then mret (NGX_ABORT, [], i)
  else
    '(rc, rets) ← wrt (fun w => wrt_call w (i_id i) (fn_name f) (fn_idx f) args);
    mret (rc, rets, if bool_decide (rc = NGX_ABORT) then set_created (i_store_created i) (i_created i) true i else i).

(** [ngx_wavm_val_vec_set]: as many of the variadic arguments as the function has parameters. *)
Definition ngx_wavm_val_vec_set (ft : wasm_functype) (args : list Z) : outcome (list Z) :=
  if (length (params ft) <=? length args)%nat then Ret (take (length (params ft)) args) else Fault F_memory.

Definition ngx_wavm_instance_call_func_va (i : ngx_wavm_instance_t) (f : ngx_wavm_func_t) (args : list Z)
    : M (ngx_rc * list Z * ngx_wavm_instance_t) :=
  ft ← slift (deref (fn_functype f));
  args ← slift (ngx_wavm_val_vec_set ft args);
  '(rc, rets, i) ← ngx_wavm_func_call i f args;
  (if is_ok rc then mret tt else log_error []);;
  slift (ngx_wa_assert debug (bool_decide (rc = NGX_OK \/ rc = NGX_ERROR \/ rc = NGX_ABORT)));;
  mret (rc, rets, i).

(** [args] may be [NULL]; what [func->args] has otherwise is that of the previous call, [prev]. *)
Definition ngx_wavm_instance_call_func_vec (i : ngx_wavm_instance_t) (f : ngx_wavm_func_t) (prev : list Z)
    (args : option (list Z)) : M (ngx_rc * list Z * ngx_wavm_instance_t) :=
  ft ← slift (deref (fn_functype f));
  let call args : M (ngx_rc * list Z * ngx_wavm_instance_t) :=
    '(rc, rets, i) ← ngx_wavm_func_call i f args;
    (if is_ok rc then mret tt else log_error []);;
    mret (rc, rets, i) in
  match args with
  | Some (_ :: _ as args) =>
      if (length args =? length (params ft))%nat then call args
      else log_error (ngx_string "bad args");; mret (NGX_ERROR, [], i)
  | _ => call prev
  end.

(** [funcref->module == instance->module], by their names. *)
Definition ngx_wavm_instance_call_funcref (i : ngx_wavm_instance_t) (module : bytes) (funcref : bytes * nat)
    (args : list Z) : M (ngx_rc * list Z * ngx_wavm_instance_t) :=
  slift (ngx_wa_assert debug (bool_decide (module = m_name (i_module i))));;
  f ← slift (deref (i_funcs i !! funcref.2));
  ngx_wavm_instance_call_func_va i f args.

Definition ngx_wavm_instance_create (m : ngx_wavm_module_t) : M (option ngx_wavm_instance_t) :=
  let error err (i : option ngx_wavm_instance_t) : M (option ngx_wavm_instance_t) :=
    log_error err;;
    (match i with Some i => ngx_wavm_instance_destroy i | None => mret tt end);;
    mret None in
  if negb (m_linked m) then error (ngx_string "module not linked to host") None
  else
    ok ← palloc;
    if negb ok then error NGX_WAVM_NOMEM_CHAR None
    else
      id ← new_id;
      let i := new_instance id m in
      ok ← palloc;
      if negb ok then error NGX_WAVM_NOMEM_CHAR (Some i)
      else
        let i := set_log true i in
        rc ← wrt wrt_store_init;
        if negb (is_ok rc) then error NGX_WAVM_NOMEM_CHAR (Some i)
        else
          acquire (R_store id);;
          let i := set_created true false false i in
          rc ← wrt wrt_instance_init;
          if negb (is_ok rc) then error [] (Some i)
          else
            acquire (R_instance id);;
            let i := set_created true true false i in
            ok ← palloc;
            if negb ok then error NGX_WAVM_NOMEM_CHAR (Some i)
            else
              let i := set_externs (Some (replicate (length (m_exports m)) None)) None [] i in
              '(i, ok) ← cache_exports 0 (m_exports m) i;
              if negb (ok : bool) then error NGX_WAVM_NOMEM_CHAR (Some i)
              else
                match m_f_start m with
                | None => mret (Some i)
                | Some f_start =>
                    '(rc, _, i) ← ngx_wavm_instance_call_funcref i (m_name m) f_start [];
                    if negb (is_ok rc) then error [] (Some i) else mret (Some i)
                end.

(** The calls of a list, with their results. *)
Fixpoint run_funcs (i : ngx_wavm_instance_t) (l : list (ngx_wavm_func_t * list Z)) : M (list ngx_rc * ngx_wavm_instance_t) :=
  match l with
  | [] => mret ([], i)
  | (f, args) :: l =>
      '(rc, _, i) ← ngx_wavm_instance_call_func_va i f args;
      '(rcs, i) ← run_funcs i l;
      mret (rc :: rcs, i)
  end.

End wavm.

(** ** What is owned *)

Section resources.
Context {W : Type} `{Wrt W}.
Abbreviation M := (SM (world W)).

Lemma twp_wrt {A} (f : W -> A * W) w Q :
  (forall a w', w_live w' = w_live w -> Q a w') -> twp (wrt f) w Q.
Proof. intros HQ. unfold twp, wrt. destruct (f (w_rt w)) as [a rt'] eqn:E. eexists _, _. split; [done|]. by apply HQ. Qed.

Lemma twp_palloc w (Q : bool -> world W -> Prop) :
  (forall b w', w_live w' = w_live w -> Q b w') -> twp palloc w Q.
Proof. intros HQ. eexists _, _. split; [reflexivity|]. by apply HQ. Qed.

Lemma twp_log msg w (Q : unit -> world W -> Prop) :
  (forall w', w_live w' = w_live w -> Q tt w') -> twp (log_error msg) w Q.
Proof. intros HQ. eexists _, _. split; [reflexivity|]. by apply HQ. Qed.

Lemma twp_new_id w (Q : nat -> world W -> Prop) :
  (forall n w', w_live w' = w_live w -> Q n w') -> twp new_id w Q.
Proof. intros HQ. eexists _, _. split; [reflexivity|]. by apply HQ. Qed.

Lemma twp_acquire r w (Q : unit -> world W -> Prop) :
  (forall w', w_live w' = {[+ r +]} ⊎ w_live w -> Q tt w') -> twp (acquire r) w Q.
Proof. intros HQ. eexists _, _. split; [reflexivity|]. by apply HQ. Qed.

Lemma twp_release r l w (Q : unit -> world W -> Prop) :
  w_live w = {[+ r +]} ⊎ l -> (forall w', w_live w' = l -> Q tt w') -> twp (release r) w Q.
Proof.
  intros Hl HQ. unfold twp, release. rewrite decide_True by (rewrite Hl; multiset_solver).
  eexists _, _. split; [reflexivity|]. apply HQ. cbn [w_live with_live]. rewrite Hl. multiset_solver.
Qed.

Fixpoint copies (n : nat) (r : resource) : gmultiset resource :=
  match n with O => ∅ | S n => {[+ r +]} ⊎ copies n r end.

Lemma copies_app n k r : copies (n + k) r = copies n r ⊎ copies k r.
Proof. induction n as [|n IH]; cbn [Nat.add copies]; [multiset_solver|]. rewrite IH. multiset_solver. Qed.

Lemma twp_release_n n r l : forall w (Q : unit -> world W -> Prop),
  w_live w = copies n r ⊎ l -> (forall w', w_live w' = l -> Q tt w') -> twp (release_n n r) w Q.
Proof.
  induction n as [|n IH]; intros w Q Hl HQ; cbn [release_n].
  - apply twp_ret, HQ. rewrite Hl. cbn [copies]. multiset_solver.
  - apply twp_bind, (twp_release r (copies n r ⊎ l)); [rewrite Hl; cbn [copies]; multiset_solver|].
    intros w' Hw'. by eapply IH.
Qed.

(** The resources of a module, of modules and of the VM. *)
Definition opt (b : bool) (r : resource) : gmultiset resource := if b then {[+ r +]} else ∅.

Definition owned_m (m : ngx_wavm_module_t) : gmultiset resource :=
  opt (m_loaded m) (R_module (m_name m)) ⊎
  (opt (has_bytes m) (R_bytes (m_name m)) ⊎ copies (length (m_hfuncs m)) (R_hfunc (m_name m))).

Fixpoint owned_l (l : list ngx_wavm_module_t) : gmultiset resource :=
  match l with [] => ∅ | m :: l => owned_m m ⊎ owned_l l end.

Definition owned (vm : ngx_wavm_t) : gmultiset resource := opt (v_init vm) R_engine ⊎ owned_l (v_modules vm).

Lemma owned_l_perm l k : l ≡ₚ k -> owned_l l = owned_l k.
Proof. induction 1; cbn [owned_l]; [done|by f_equal|multiset_solver|by etransitivity]. Qed.

Lemma twp_opt_release (b : bool) r l w (Q : unit -> world W -> Prop) :
  w_live w = opt b r ⊎ l -> (forall w', w_live w' = l -> Q tt w') ->
  twp (if b then release r else mret tt) w Q.
Proof.
  intros Hl HQ. destruct b; cbn [opt] in Hl; [by eapply twp_release|].
  apply twp_ret, HQ. rewrite Hl. multiset_solver.
Qed.

Lemma twp_module_destroy m l w (Q : unit -> world W -> Prop) :
  w_live w = owned_m m ⊎ l -> (forall w', w_live w' = l -> Q tt w') -> twp (ngx_wavm_module_destroy m) w Q.
Proof.
  intros Hl HQ. unfold ngx_wavm_module_destroy, owned_m in *.
  apply twp_bind. eapply twp_opt_release; [rewrite Hl; by rewrite <- (assoc_L (⊎))|]. intros w1 H1.
  apply twp_bind. eapply twp_opt_release; [rewrite H1; by rewrite <- (assoc_L (⊎))|]. intros w2 H2.
  by eapply twp_release_n.
Qed.

Lemma twp_destroy_modules ms : forall l w (Q : unit -> world W -> Prop),
  w_live w = owned_l ms ⊎ l -> (forall w', w_live w' = l -> Q tt w') -> twp (destroy_modules ms) w Q.
Proof.
  induction ms as [|m ms IH]; intros l w Q Hl HQ; cbn [destroy_modules].
  - apply twp_ret, HQ. rewrite Hl. cbn [copies owned_l opt]. multiset_solver.
  - apply twp_bind. eapply twp_module_destroy; [rewrite Hl; cbn [owned_l]; by rewrite <- (assoc_L (⊎))|].
    intros w' Hw'. by eapply IH.
Qed.

(** Destroying the VM releases all it owns. *)
Lemma twp_destroy vm l w (Q : unit -> world W -> Prop) :
  v_queue vm = true -> w_live w = owned vm ⊎ l -> (forall w', w_live w' = l -> Q tt w') -> twp (ngx_wavm_destroy vm) w Q.
Proof.
  intros Hq Hl HQ. unfold ngx_wavm_destroy, ngx_wavm_destroy_instances. rewrite Hq.
  apply twp_bind, twp_ret, twp_bind.
  apply (twp_destroy_modules _ (opt (v_init vm) R_engine ⊎ l)); [rewrite Hl; unfold owned; multiset_solver|].
  intros w1 H1. apply twp_bind. unfold ngx_wavm_engine_destroy. destruct (v_init vm); cbn [opt] in H1.
  - apply twp_bind. eapply twp_release; [done|]. intros w2 H2. by apply twp_ret, twp_ret, HQ.
  - apply twp_ret, twp_ret, HQ. rewrite H1. multiset_solver.
Qed.

End resources.

Ltac wstep :=
  lazymatch goal with
  | |- twp (_ ≫= _) _ _ => apply twp_bind
  | |- twp (mret _) _ _ => apply twp_ret
  | |- twp (wrt _) _ _ => apply twp_wrt; intros
  | |- twp palloc _ _ => apply twp_palloc; intros
  | |- twp (log_error _) _ _ => apply twp_log; intros
  | |- twp new_id _ _ => apply twp_new_id; intros
  | |- twp (acquire _) _ _ => apply twp_acquire; intros
  end.

Ltac live_chain := repeat match goal with E : w_live ?x = _ |- context [w_live ?x] => rewrite E end.

(** ** The operations keep the accounts *)

Section accounts.
Context {W : Type} `{Wrt W}.
Abbreviation M := (SM (world W)).

Context (debug : bool) (sn_insert : ngx_wavm_module_t -> list ngx_wavm_module_t -> list ngx_wavm_module_t).
Hypothesis sn_insert_perm : forall m l, sn_insert m l ≡ₚ m :: l.

(** A module that was added, one whose bytes were read, one that was loaded. *)
Definition added (m : ngx_wavm_module_t) : Prop :=
  m_loaded m = false /\ has_bytes m = false /\ m_hfuncs m = [] /\ m_linked m = false.

Definition unloaded (m : ngx_wavm_module_t) : Prop :=
  m_loaded m = false /\ m_hfuncs m = [] /\ m_linked m = false.

Definition func_imports (m : ngx_wavm_module_t) : Prop :=
  m_loaded m = true -> Forall (fun i => it_kind i = WASM_EXTERN_FUNC) (m_imports m).

Lemma owned_added m : added m -> owned_m m = ∅.
Proof. intros (Hl & Hb & Hh & _). unfold owned_m. rewrite Hl, Hb, Hh. cbn [opt copies length]. multiset_solver. Qed.

Lemma owned_l_added l : Forall added l -> owned_l l = ∅.
Proof.
  induction 1 as [|m l Hm _ IH]; cbn [owned_l]; [done|]. rewrite owned_added by done. rewrite IH. multiset_solver.
Qed.

(** The VM after a module was added, or not. *)
Definition add_post (vm : ngx_wavm_t) (live : gmultiset resource) (r : ngx_rc * ngx_wavm_t) (w' : world W) : Prop :=
  w_live w' = live /\ Forall added (v_modules r.2) /\
  v_init r.2 = v_init vm /\ v_ready r.2 = v_ready vm /\ v_queue r.2 = v_queue vm /\ v_core_host r.2 = v_core_host vm /\
  (r.1 <> NGX_OK -> r.2 = vm).

Lemma module_add_spec vm name path config w :
  4 <= zlen path -> Forall added (v_modules vm) ->
  twp (ngx_wavm_module_add sn_insert vm name path config) w (add_post vm (w_live w)).
Proof.
  intros Hpath Hadd. unfold ngx_wavm_module_add.
  assert (Herr : forall m w1, w_live w1 = w_live w -> (forall m', m = Some m' -> added m') ->
    twp (log_error NGX_WAVM_NOMEM_CHAR;;
         (match m with Some m => ngx_wavm_module_destroy m | None => mret tt end);;
         mret (NGX_ERROR, vm)) w1 (add_post vm (w_live w))).
  { intros m w1 Hw1 Hm. wstep. wstep. wstep. destruct m as [m|].
    - eapply (twp_module_destroy m (w_live w)); [|intros w2 Hw2; wstep; by split_and!].
      rewrite owned_added by by apply Hm. rewrite H0, Hw1. multiset_solver.
    - wstep. wstep. split_and!; [congruence|done..]. }
  destruct (v_ready vm); [wstep; by split_and!|].
  destruct (ngx_wavm_module_lookup vm name); [wstep; by split_and!|].
  wstep. wstep. destruct b; cbn [negb]; [|by apply (Herr None)].
  wstep. wstep. destruct b; cbn [negb]; [|apply (Herr (Some _)); [congruence|by intros ? [= <-]]].
  wstep. wstep. destruct b; cbn [negb]; [|apply (Herr (Some _)); [congruence|by intros ? [= <-]]].
  wstep. unfold path_suffix. rewrite mem_read_in by lia. eapply twp_slift; [reflexivity|].
  set (iswat := bool_decide _). wstep. apply (twp_mono _ _ (fun _ w' => w_live w' = w_live w)).
  { destruct config; wstep; congruence. }
  intros b w1 Hw1. destruct b; cbn [negb]; [|apply (Herr (Some _)); [done|by intros ? [= <-]]].
  wstep. split_and!; [done| |done..]. cbn [snd v_modules set_modules]. rewrite sn_insert_perm. by constructor.
Qed.

(** What a module has after its bytes were read, or were not. *)
Lemma load_bytes_spec m extra w :
  added m -> w_live w = extra ->
  twp (ngx_wavm_module_load_bytes m) w (fun r w' =>
    w_live w' = owned_m r.2 ⊎ extra /\ unloaded r.2 /\ (r.1 = NGX_OK -> m_loaded_bytes r.2 = true)).
Proof.
  intros (Hl & Hb & Hh & Hk) Hw. unfold ngx_wavm_module_load_bytes.
  assert (Hsame : forall (w1 : world W) rc, w_live w1 = w_live w -> rc <> NGX_OK ->
    w_live w1 = owned_m (rc, m).2 ⊎ extra /\ unloaded (rc, m).2 /\ ((rc, m).1 = NGX_OK -> m_loaded_bytes (rc, m).2 = true)).
  { intros w1 rc Hw1 Hrc. cbn [fst snd]. rewrite owned_added by done. split_and!; [|done..].
    rewrite Hw1, Hw. multiset_solver. }
  wstep. wstep. destruct a as [rc file]. destruct (is_ok rc) eqn:Erc; cbn [negb].
  2:{ wstep. apply Hsame; [done|]. by apply bool_decide_eq_false in Erc. }
  wstep. apply (twp_mono _ _ (fun _ w' => w_live w' = w_live w)).
  { destruct (m_iswat m); wstep; congruence. }
  intros [rc' wasm] w2 Hw2. destruct (is_ok rc'); cbn [negb].
  2:{ wstep. wstep. wstep. apply Hsame; [congruence|done]. }
  assert (Ho : forall m', m_loaded m' = false -> m_hfuncs m' = [] -> owned_m m' = opt (has_bytes m') (R_bytes (m_name m'))).
  { intros m' H1' H2'. unfold owned_m. rewrite H1', H2'. cbn [opt copies length]. multiset_solver. }
  destruct (has_bytes (set_bytes wasm m)) eqn:Eb; cbn [negb].
  2:{ wstep. wstep. wstep. cbn [fst snd]. rewrite Ho, Eb by done. cbn [opt]. split_and!; [|done..].
      rewrite H1, Hw2, Hw. multiset_solver. }
  wstep. wstep. wstep. wstep.
  assert (Hw' : w_live w'1 = {[+ R_bytes (m_name m) +]} ⊎ extra) by (rewrite H2, H1, Hw2, Hw; done).
  destruct (is_ok a); cbn [negb].
  - wstep. cbn [fst snd]. rewrite Ho by done.
    change (has_bytes (set_flags _ _ _ _ _)) with (has_bytes (set_bytes wasm m)). rewrite Eb. by split_and!.
  - wstep. wstep. wstep. cbn [fst snd]. rewrite Ho, Eb by done. split_and!; [|done..]. by rewrite H3.
Qed.

Lemma added_unloaded m : added m -> unloaded m.
Proof. by intros (? & _ & ? & ?). Qed.

Lemma load_bytes_all_spec ms extra : forall w,
  Forall added ms -> w_live w = extra ->
  twp (load_bytes_all ms) w (fun r w' => w_live w' = owned_l r.2 ⊎ extra /\ Forall unloaded r.2).
Proof.
  revert extra. induction ms as [|m ms IH]; intros extra w Hall Hw; cbn [load_bytes_all].
  { wstep. cbn [snd owned_l]. split; [|done]. rewrite Hw. multiset_solver. }
  apply Forall_cons_1 in Hall as [Hm Hall]. wstep.
  eapply twp_mono; [by eapply load_bytes_spec|]. intros [rc m'] w1 (Hw1 & Hu & _). cbn [snd fst] in *.
  destruct (is_ok rc); cbn [negb].
  - wstep. eapply twp_mono; [by eapply IH|]. intros [rc' ms'] w2 [Hw2 Hu2]. wstep. cbn [snd owned_l] in *.
    split; [|by constructor]. rewrite Hw2. multiset_solver.
  - wstep. cbn [snd owned_l]. rewrite owned_l_added by done. split.
    + rewrite Hw1. multiset_solver.
    + constructor; [done|]. exact (Forall_weaken _ _ _ Hall added_unloaded).
Qed.

Lemma engine_init_spec vm w :
  v_init vm = false ->
  twp (ngx_wavm_engine_init vm) w (fun r w' =>
    if is_ok r.1 then r.2 = set_state true (v_ready vm) vm /\ w_live w' = {[+ R_engine +]} ⊎ w_live w
    else r.2 = vm /\ w_live w' = w_live w /\ r.1 <> NGX_OK).
Proof.
  intros Hi. unfold ngx_wavm_engine_init. rewrite Hi.
  assert (Herr : forall err (w1 : world W), w_live w1 = w_live w ->
    twp (log_error err;; vm' ← ngx_wavm_engine_destroy vm; mret (NGX_ERROR, vm')) w1 (fun r w' =>
      if is_ok r.1 then r.2 = set_state true (v_ready vm) vm /\ w_live w' = {[+ R_engine +]} ⊎ w_live w
      else r.2 = vm /\ w_live w' = w_live w /\ r.1 <> NGX_OK)).
  { intros err w1 Hw1. unfold ngx_wavm_engine_destroy. rewrite Hi. wstep. wstep. wstep. wstep. wstep.
    cbn [fst snd]. change (is_ok NGX_ERROR) with false. cbv iota. split_and!; [done|congruence|done]. }
  wstep. wstep. destruct a; cbn [negb]; [|by apply Herr].
  wstep. wstep. destruct (is_ok a); cbn [negb]; [|apply Herr; congruence].
  wstep. wstep. wstep. cbn [fst snd]. change (is_ok NGX_OK) with true. cbv iota. split; [done|]. by rewrite H2, H1, H0.
Qed.

(** After [ngx_wavm_init] there is no engine: each process makes its own. *)
Lemma vm_init_spec vm extra w :
  v_init vm = false -> Forall added (v_modules vm) -> w_live w = extra ->
  twp (ngx_wavm_init vm) w (fun r w' =>
    w_live w' = owned r.2 ⊎ extra /\ Forall unloaded (v_modules r.2) /\
    v_init r.2 = false /\ v_queue r.2 = v_queue vm /\ v_core_host r.2 = v_core_host vm).
Proof.
  intros Hi Hall Hw. unfold ngx_wavm_init. wstep. eapply twp_mono; [by apply engine_init_spec|].
  intros [rc vm1] w1 H1. cbn [fst snd] in H1. destruct (is_ok rc); cbn [negb].
  - destruct H1 as [-> Hw1]. wstep. wstep. cbn [v_modules set_state].
    eapply twp_mono; [by eapply (load_bytes_all_spec _ ({[+ R_engine +]} ⊎ extra)); [|by rewrite Hw1, Hw]|].
    intros [rc' ms] w2 [Hw2 Hu]. wstep. cbn [snd] in *. wstep. unfold ngx_wavm_engine_destroy. cbn [v_init set_modules set_state].
    wstep. apply (twp_release _ (owned_l ms ⊎ extra)); [rewrite Hw2; multiset_solver|]. intros w3 Hw3. wstep. wstep.
    cbn [snd v_modules v_init v_queue v_core_host set_state set_modules owned].
    split_and!; [|done..]. unfold owned. cbn [opt v_init v_modules set_state set_modules]. rewrite Hw3. multiset_solver.
  - destruct H1 as (-> & Hw1 & _). wstep. wstep. wstep. unfold ngx_wavm_engine_destroy. rewrite Hi. wstep. wstep.
    cbn [snd]. unfold owned. rewrite Hi, owned_l_added by done. cbn [opt].
    split_and!; [rewrite Hw1, Hw; multiset_solver| |done..].
    exact (Forall_weaken _ _ _ Hall added_unloaded).
Qed.

Lemma delete_bytes_spec m extra (w : world W) :
  w_live w = opt (has_bytes m) (R_bytes (m_name m)) ⊎ extra ->
  twp (delete_bytes m) w (fun m' w' => m' = set_bytes [] m /\ w_live w' = extra).
Proof.
  intros Hw. unfold delete_bytes. wstep. eapply twp_opt_release; [exact Hw|]. intros w' Hw'. by wstep.
Qed.

Lemma build_exports_spec exports : forall j funcs f_start (w : world W),
  twp (build_exports j exports funcs f_start) w (fun _ w' => w_live w' = w_live w).
Proof.
  induction exports as [|e exports IH]; intros j funcs f_start w; cbn [build_exports]; [by wstep|].
  destruct (et_kind e); [|apply IH..].
  wstep. wstep. destruct b; cbn [negb]; [|wstep; congruence].
  wstep. wstep. destruct b; cbn [negb]; [|wstep; congruence].
  eapply twp_mono; [apply IH|]. intros ? w2 E. congruence.
Qed.

(** What a failed load leaves: the compiled module. *)
Definition leak (lost : gmultiset resource) : Prop :=
  forall r, r ∈ lost -> exists n, r = R_module n \/ r = R_hfunc n.

(** The accounts of a module that was loaded, or was not. *)
Definition load_post (m : ngx_wavm_module_t) (extra : gmultiset resource) (r : ngx_rc * Z * ngx_wavm_module_t)
    (w' : world W) : Prop :=
  let '(rc, _, m') := r in
  m_name m' = m_name m /\ m_hfuncs m' = [] /\ m_linked m' = false /\ func_imports m' /\
  exists lost, w_live w' = owned_m m' ⊎ (lost ⊎ extra) /\ leak lost /\ (rc = NGX_OK -> lost = ∅).

Lemma load_failed_spec m m' extra lb ld lk lost max (w : world W) :
  m_name m' = m_name m -> m_bytes m' = m_bytes m -> m_hfuncs m' = [] -> ld = false -> lk = false -> leak lost ->
  w_live w = opt (has_bytes m) (R_bytes (m_name m)) ⊎ (lost ⊎ extra) ->
  twp (m' ← delete_bytes (set_flags lb ld lk true m'); mret (NGX_ERROR, max, m')) w (load_post m extra).
Proof.
  intros Hn Hb Hh -> -> Hlost Hw. wstep. eapply twp_mono; [apply (delete_bytes_spec _ (lost ⊎ extra))|].
  - cbn [m_name set_flags]. rewrite Hn, Hw. unfold has_bytes. cbn [m_bytes set_flags]. by rewrite Hb.
  - intros m2 w2 [-> Hw2]. wstep. unfold load_post. cbn [m_name m_hfuncs m_linked set_bytes set_flags].
    split_and!; [done..|]. exists lost. split_and!; [|done..].
    unfold owned_m. cbn [m_loaded m_hfuncs m_name set_bytes set_flags]. rewrite Hh, Hw2.
    change (has_bytes (set_bytes [] _)) with false. cbn [opt copies length]. multiset_solver.
Qed.

Lemma module_load_spec max m extra w :
  unloaded m -> w_live w = owned_m m ⊎ extra -> twp (ngx_wavm_module_load max m) w (load_post m extra).
Proof.
  intros (Hl & Hh & Hk) Hw. unfold ngx_wavm_module_load. rewrite Hl.
  assert (Hown : owned_m m = opt (has_bytes m) (R_bytes (m_name m))).
  { unfold owned_m. rewrite Hl, Hh. cbn [opt copies length]. multiset_solver. }
  assert (Hempty : leak ∅) by (intros r Hr; multiset_solver).
  destruct (m_loaded_bytes m) eqn:Elb; cbn [negb].
  2:{ wstep. unfold load_post. split_and!; [done..|by intros ?; congruence|]. exists ∅. split_and!; [|done..]. rewrite Hw. multiset_solver. }
  wstep. wstep. destruct a as [rc [imports exports]]. destruct (is_ok rc); cbn [negb].
  2:{ wstep. wstep. apply (load_failed_spec m m _ _ _ _ ∅); [done..|]. rewrite H1, H0, Hw, Hown. multiset_solver. }
  wstep. wstep.
  assert (Hleak : leak {[+ R_module (m_name m) +]}) by (intros r Hr; exists (m_name m); left; multiset_solver).
  assert (Hw1 : w_live w'0 = opt (has_bytes m) (R_bytes (m_name m)) ⊎ ({[+ R_module (m_name m) +]} ⊎ extra)).
  { rewrite H1, H0, Hw, Hown. multiset_solver. }
  destruct (forallb _ imports) eqn:Eimp; cbn [negb].
  2:{ wstep. wstep. apply (load_failed_spec m (set_types imports exports m) _ _ _ _ {[+ R_module (m_name m) +]}); [done..|congruence]. }
  wstep. eapply twp_mono; [apply build_exports_spec|]. intros [[funcs f_start] ok] w2 Hw2.
  destruct ok; cbn [negb].
  2:{ wstep. wstep. apply (load_failed_spec m (set_funcs funcs f_start (set_types imports exports m)) _ _ _ _ {[+ R_module (m_name m) +]}); [done..|congruence]. }
  wstep. eapply twp_mono; [apply (delete_bytes_spec _ ({[+ R_module (m_name m) +]} ⊎ extra))|].
  { cbn [m_name set_idx set_flags set_funcs set_types]. rewrite Hw2, Hw1. done. }
  intros m2 w3 [-> Hw3]. wstep. unfold load_post. cbn [m_name m_hfuncs m_linked set_bytes set_idx set_flags set_funcs set_types].
  split_and!; [done..| |].
  - intros _. cbn [m_imports set_bytes set_idx set_flags set_funcs set_types]. apply List.Forall_forall.
    rewrite forallb_forall in Eimp. intros i Hi. by apply Eimp, bool_decide_eq_true in Hi.
  - exists ∅. split_and!; [|done..]. unfold owned_m.
    cbn [m_loaded m_hfuncs m_name set_bytes set_idx set_flags set_funcs set_types]. rewrite Hh.
    change (has_bytes (set_bytes [] _)) with false. cbn [opt copies length]. rewrite Hw3. multiset_solver.
Qed.

(** Modules that were loaded, and one that may not have been. *)
Definition linkable (m : ngx_wavm_module_t) : Prop := func_imports m /\ (m_linked m = true -> m_loaded m = true).

Lemma leak_union l k : leak l -> leak k -> leak (l ⊎ k).
Proof. intros Hl Hk r Hr. apply gmultiset_elem_of_disj_union in Hr as [?|?]; auto. Qed.

Lemma leak_empty : leak ∅.
Proof. intros r Hr. multiset_solver. Qed.

Lemma unloaded_linkable m : unloaded m -> linkable m.
Proof. intros (Hl & _ & Hk). split; [intros ?|]; congruence. Qed.

Lemma load_all_spec ms : forall max extra w,
  Forall unloaded ms -> w_live w = owned_l ms ⊎ extra ->
  twp (load_all max ms) w (fun '(rc, _, ms') w' =>
    Forall linkable ms' /\
    exists lost, w_live w' = owned_l ms' ⊎ (lost ⊎ extra) /\ leak lost /\ (rc = NGX_OK -> lost = ∅)).
Proof.
  induction ms as [|m ms IH]; intros max extra w Hall Hw; cbn [load_all].
  { wstep. split; [done|]. exists ∅. split_and!; [|apply leak_empty|done]. rewrite Hw. multiset_solver. }
  apply Forall_cons_1 in Hall as [Hm Hall]. cbn [owned_l] in Hw. wstep.
  eapply twp_mono; [apply (module_load_spec _ _ (owned_l ms ⊎ extra)); [done|rewrite Hw; multiset_solver]|].
  intros [[rc max'] m'] w1 (Hn & Hh & Hk & Hf & lost & Hw1 & Hlost & Hok).
  assert (Hm' : linkable m') by (split; [done|congruence]).
  destruct (is_ok rc) eqn:Erc; cbn [negb].
  - apply bool_decide_eq_true in Erc. rewrite (Hok Erc) in Hw1. wstep.
    eapply twp_mono; [apply (IH _ (owned_m m' ⊎ extra)); [done|rewrite Hw1; multiset_solver]|].
    intros [[rc2 max2] ms2] w2 [Hms (lost2 & Hw2 & Hl2 & Hok2)]. wstep. split; [by constructor|].
    exists lost2. split_and!; [|done..]. cbn [owned_l]. rewrite Hw2. multiset_solver.
  - wstep. split; [constructor; [done|]; exact (Forall_weaken _ _ _ Hall unloaded_linkable)|].
    exists lost. split_and!; [|done..]. cbn [owned_l]. rewrite Hw1. multiset_solver.
Qed.

Lemma load_spec vm extra w :
  v_init vm = false -> Forall unloaded (v_modules vm) -> w_live w = owned vm ⊎ extra ->
  twp (ngx_wavm_load vm) w (fun '(rc, vm') w' =>
    Forall linkable (v_modules vm') /\ v_queue vm' = v_queue vm /\ v_core_host vm' = v_core_host vm /\
    exists lost, w_live w' = owned vm' ⊎ (lost ⊎ extra) /\ leak lost /\ (rc = NGX_OK -> lost = ∅)).
Proof.
  intros Hi Hall Hw. unfold ngx_wavm_load. wstep. eapply twp_mono; [by apply engine_init_spec|].
  intros [rc vm1] w1 H1. cbn [fst snd] in H1. destruct (is_ok rc); cbn [negb].
  - destruct H1 as [-> Hw1]. wstep. cbn [v_modules_max v_modules set_state].
    eapply twp_mono; [apply (load_all_spec _ _ ({[+ R_engine +]} ⊎ extra)); [done|]|].
    { rewrite Hw1, Hw. unfold owned. rewrite Hi. cbn [opt]. multiset_solver. }
    intros [[rc' max] ms] w2 [Hms (lost & Hw2 & Hlost & Hok)].
    assert (Howned : forall ready, owned (set_state true ready (set_modules max ms (set_state true (v_ready vm) vm))) =
      {[+ R_engine +]} ⊎ owned_l ms) by done.
    assert (Howned2 : owned (set_modules max ms (set_state true (v_ready vm) vm)) = {[+ R_engine +]} ⊎ owned_l ms) by done.
    destruct (is_ok rc') eqn:Erc; cbn [negb]; wstep; (split_and!; [done..|]).
    + exists ∅. apply bool_decide_eq_true in Erc. rewrite (Hok Erc) in Hw2.
      split_and!; [|apply leak_empty|done]. cbn [v_init set_modules set_state]. rewrite Howned, Hw2. multiset_solver.
    + exists lost. split_and!; [|done..]. rewrite Howned2, Hw2. multiset_solver.
  - destruct H1 as (-> & Hw1 & _). wstep. split_and!; [|done..|].
    { exact (Forall_weaken _ _ _ Hall unloaded_linkable). }
    exists ∅. split_and!; [|apply leak_empty|done]. rewrite Hw1, Hw. multiset_solver.
Qed.

Lemma link_imports_spec core host name imports : forall j hfuncs (w : world W),
  Forall (fun i => it_kind i = WASM_EXTERN_FUNC) imports ->
  twp (link_imports debug core host name j imports hfuncs) w (fun '(hfuncs', err) w' =>
    exists n lost, length hfuncs' = (n + length hfuncs)%nat /\ leak lost /\ (err = None -> lost = ∅) /\
      w_live w' = copies n (R_hfunc name) ⊎ (lost ⊎ w_live w)).
Proof.
  induction imports as [|i imports IH]; intros j hfuncs w Hall; cbn [link_imports].
  { wstep. exists 0%nat, ∅. split_and!; [done|apply leak_empty|done|]. cbn [copies]. multiset_solver. }
  apply Forall_cons_1 in Hall as [Hi Hall].
  destruct (bool_decide (it_module i = _)); cbn [negb]; [|by apply IH].
  wstep. eapply twp_slift; [rewrite bool_decide_true by done; apply ngx_wa_assert_true|].
  wstep. apply (twp_mono _ _ (fun _ w' => w_live w' = w_live w)).
  { destruct (ngx_wavm_host_hfunc_create true (hd_funcs host) _); [wstep; wstep|]; by wstep. }
  intros hfunc w1 Hw1. wstep. apply (twp_mono _ _ (fun _ w' => w_live w' = w_live w)).
  { destruct hfunc, core as [core|]; try (by wstep).
    destruct (ngx_wavm_host_hfunc_create true (hd_funcs core) _); [wstep; wstep|]; wstep; congruence. }
  intros hfunc' w2 Hw2. destruct hfunc' as [hfunc'|].
  - wstep. wstep. wstep. wstep. destruct b; cbn [negb].
    + eapply twp_mono; [by apply IH|]. intros [hfuncs' err] w3 (n & lost & Hn & Hl & He & Hw3).
      exists (S n), lost. rewrite length_app in Hn. cbn [length] in Hn. split_and!; [lia|done|done|].
      cbn [copies]. rewrite Hw3, H1, H0, Hw2. multiset_solver.
    + wstep. exists 0%nat, {[+ R_hfunc name +]}. split_and!; [done| |done|].
      * intros r Hr. exists name. right. multiset_solver.
      * cbn [copies]. rewrite H1, H0, Hw2. multiset_solver.
  - wstep. wstep. wstep. exists 0%nat, ∅. split_and!; [done|apply leak_empty|done|].
    cbn [copies]. rewrite H0, Hw2. multiset_solver.
Qed.

Lemma module_link_spec core host m extra (w : world W) :
  linkable m -> w_live w = owned_m m ⊎ extra ->
  twp (ngx_wavm_module_link debug core host m) w (fun '(rc, m') w' =>
    linkable m' /\ m_name m' = m_name m /\
    exists lost, w_live w' = owned_m m' ⊎ (lost ⊎ extra) /\ leak lost /\ (rc = NGX_OK -> lost = ∅)).
Proof.
  intros Hm Hw. assert (Hf := proj1 Hm). assert (Hk := proj2 Hm). unfold ngx_wavm_module_link.
  assert (Hsame : forall m' rc (w1 : world W), linkable m' -> m_name m' = m_name m -> owned_m m' = owned_m m -> w_live w1 = w_live w ->
    linkable m' /\ m_name m' = m_name m /\
    exists lost, w_live w1 = owned_m m' ⊎ (lost ⊎ extra) /\ leak lost /\ (rc = NGX_OK -> lost = ∅)).
  { intros m' rc w1 Hm' Hn Ho Hw1. split_and!; [done..|]. exists ∅. split_and!; [|apply leak_empty|done].
    rewrite Hw1, Hw, Ho. multiset_solver. }
  destruct (m_invalid m); [wstep; wstep; wstep; by apply Hsame|].
  destruct (m_loaded m) eqn:El; cbn [negb]; [|wstep; wstep; wstep; by apply Hsame].
  destruct (m_linked m) eqn:Ek.
  { destruct (same_host _ host); cbn [negb]; [wstep|wstep; wstep; wstep]; by apply Hsame. }
  wstep. eapply twp_mono; [apply link_imports_spec; by apply Hf|].
  intros [hfuncs err] w1 (n & lost & Hn & Hl & He & Hw1).
  assert (Ho : forall m', m_loaded m' = true -> m_name m' = m_name m -> m_bytes m' = m_bytes m -> m_hfuncs m' = hfuncs ->
    owned_m m' ⊎ (lost ⊎ extra) = w_live w1).
  { intros m' H1' H2' H3' H4'. rewrite Hw1, Hw. unfold owned_m. rewrite H1', H2', H4', El, Hn, copies_app.
    unfold has_bytes. rewrite H3'. multiset_solver. }
  assert (Hm1 : forall b, linkable (set_flags (m_loaded_bytes (set_host (Some host) hfuncs m)) (m_loaded (set_host (Some host) hfuncs m)) b
     (m_invalid (set_host (Some host) hfuncs m)) (set_host (Some host) hfuncs m))) by (intros b; by split).
  destruct err as [err|].
  { wstep. wstep. wstep. split_and!; [by split|done|]. exists lost. split_and!; [|done..].
    by rewrite H0, <- (Ho (set_host (Some host) hfuncs m)). }
  wstep. wstep. rewrite (He eq_refl) in *. destruct (is_ok a) eqn:Ea; cbn [negb].
  - wstep. split_and!; [done..|]. exists ∅. split_and!; [|apply leak_empty|done]. rewrite H0. symmetry. by apply Ho.
  - wstep. wstep. wstep. split_and!; [by split|done|]. exists ∅. split_and!; [|apply leak_empty|done].
    rewrite H1, H0. symmetry. by apply Ho.
Qed.

(** Where a run is: what the VM owns, what was lost, and whether all went well. *)
Definition accounts (Q : ngx_wavm_t -> Prop) (r : ngx_rc * ngx_wavm_t) (w : world W) : Prop :=
  v_queue r.2 = true /\ (r.1 = NGX_OK -> Q r.2) /\
  exists lost, w_live w = owned r.2 ⊎ lost /\ leak lost /\ (r.1 = NGX_OK -> lost = ∅).

Lemma and_then_spec Q Q' r (k : ngx_wavm_t -> M (ngx_rc * ngx_wavm_t)) w :
  accounts Q r w ->
  (forall vm, v_queue vm = true -> Q vm -> w_live w = owned vm -> twp (k vm) w (accounts Q' )) ->
  twp (and_then r k) w (accounts Q').
Proof.
  intros (Hq & HQ & lost & Hw & Hl & Hok) Hk. unfold and_then. destruct (is_ok r.1) eqn:E.
  - apply bool_decide_eq_true in E. apply Hk; [done|by apply HQ|]. rewrite Hw, (Hok E). multiset_solver.
  - apply bool_decide_eq_false in E. wstep. split_and!; [done|by intros ?|]. exists lost. by split_and!.
Qed.

Definition fresh (vm : ngx_wavm_t) : Prop := v_init vm = false /\ Forall added (v_modules vm).

Lemma add_all_spec l : forall vm w,
  Forall (fun x => 4 <= zlen x.1.2) l -> v_queue vm = true -> fresh vm -> w_live w = owned vm ->
  twp (add_all sn_insert vm l) w (accounts fresh).
Proof.
  induction l as [|[[name path] config] l IH]; intros vm w Hl Hq Hf Hw; cbn [add_all].
  { wstep. split_and!; [done..|]. exists ∅. split_and!; [|apply leak_empty|done]. cbn [snd]. rewrite Hw. multiset_solver. }
  apply Forall_cons_1 in Hl as [Hp Hl]. destruct Hf as [Hi Hadd]. wstep.
  eapply twp_mono; [by apply module_add_spec|]. intros [rc vm'] w1 (Hw1 & Hadd' & Hi' & Hr' & Hq' & _). cbn [fst snd] in *.
  assert (Hlive : w_live w1 = owned vm').
  { rewrite Hw1, Hw. unfold owned. by rewrite Hi', !owned_l_added. }
  destruct (is_ok rc); cbn [negb]; [apply IH; [done|congruence|split; [congruence|done]|done]|].
  wstep. split_and!; cbn [fst snd]; [congruence|intros _; split; [congruence|done]|].
  exists ∅. split_and!; [|apply leak_empty|done]. rewrite Hlive. multiset_solver.
Qed.

Lemma link_all_spec l : forall vm w,
  v_queue vm = true -> Forall linkable (v_modules vm) -> w_live w = owned vm ->
  twp (link_all debug vm l) w (accounts (fun _ => True)).
Proof.
  induction l as [|[name host] l IH]; intros vm w Hq Hms Hw; cbn [link_all].
  { wstep. split_and!; [done..|]. exists ∅. split_and!; [|apply leak_empty|done]. cbn [snd]. rewrite Hw. multiset_solver. }
  unfold link_named. destruct (list_find _ _) as [[j m]|] eqn:Efind.
  2:{ wstep. wstep. change (is_ok NGX_ERROR) with false. cbn [negb]. wstep. split_and!; [done..|].
      exists ∅. split_and!; [|apply leak_empty|done]. cbn [snd]. rewrite Hw. multiset_solver. }
  apply list_find_Some in Efind as (Hj & _ & _).
  assert (Hsplit : v_modules vm = take j (v_modules vm) ++ m :: drop (S j) (v_modules vm)) by by rewrite take_drop_middle.
  pose proof (proj1 (Forall_elem _ _) Hms m (list_elem_of_lookup_2 _ _ _ Hj)) as Hm.
  set (rest := opt (v_init vm) R_engine ⊎ owned_l (take j (v_modules vm) ++ drop (S j) (v_modules vm))).
  assert (Hown : forall m', owned (set_modules (v_modules_max vm) (<[j := m']> (v_modules vm)) vm) = owned_m m' ⊎ rest).
  { intros m'. unfold owned. cbn [v_init v_modules set_modules]. rewrite insert_take_drop by by eapply lookup_lt_Some.
    rewrite (owned_l_perm _ (m' :: take j (v_modules vm) ++ drop (S j) (v_modules vm))) by by rewrite Permutation_middle.
    cbn [owned_l]. unfold rest. multiset_solver. }
  wstep. wstep. eapply twp_mono; [apply (module_link_spec _ _ _ rest); [done|]|].
  { rewrite Hw. rewrite <- Hown, list_insert_id by done. by destruct vm. }
  intros [rc m'] w1 (Hm' & _ & lost & Hw1 & Hl & Hok). wstep.
  assert (Hms' : Forall linkable (<[j := m']> (v_modules vm))) by by apply Forall_insert.
  destruct (is_ok rc) eqn:Erc; cbn [negb].
  - apply IH; [done|done|]. apply bool_decide_eq_true in Erc. rewrite Hown, Hw1, (Hok Erc). multiset_solver.
  - wstep. split_and!; [done..|]. exists lost. cbn [fst snd]. rewrite Hown. split_and!; [|done..].
    rewrite Hw1. multiset_solver.
Qed.

Lemma twp_palloc_script (w : world W) (Q : bool -> world W -> Prop) :
  (forall b w', b = default true (head (w_alloc w)) -> w_alloc w' = tail (w_alloc w) -> w_live w' = w_live w -> Q b w') ->
  twp palloc w Q.
Proof. intros HQ. eexists _, _. split; [reflexivity|]. by apply HQ. Qed.

Lemma create_spec core (w : world W) :
  w_alloc w !! 1%nat <> Some false ->
  twp (ngx_wavm_create core) w (fun vm w' =>
    w_live w' = w_live w /\ forall vm', vm = Some vm' -> v_queue vm' = true /\ fresh vm' /\ owned vm' = ∅).
Proof.
  intros Halloc. unfold ngx_wavm_create. wstep. apply twp_palloc_script. intros b w1 _ Ha1 Hl1.
  destruct b; cbn [negb]; [|wstep; wstep; wstep; by split; [congruence|]].
  wstep. apply twp_palloc_script. intros b w2 Hb Ha2 Hl2. destruct b; cbn [negb].
  - wstep. split; [congruence|]. intros vm' [= <-]. split_and!; [done|done|].
    unfold owned. cbn [v_init v_modules opt owned_l]. multiset_solver.
  - exfalso. rewrite Ha1 in Hb. destruct (w_alloc w) as [|? [|[] ?]]; done.
Qed.

(** Whatever the modules (their paths have four bytes at least, as the code reads), the runtime
    and the allocations that fail but the second one, a run of nginx never releases what it
    does not hold, and at its end it holds nothing when all went well: neither the engine, nor
    bytes, compiled code or function types of a module.  When it failed, all that may stay is
    compiled code and function types. *)
Lemma lifetime_accounts core_host modules links (w : world W) :
  w_live w = ∅ -> Forall (fun x => 4 <= zlen x.1.2) modules -> w_alloc w !! 1%nat <> Some false ->
  exists rc w', lifetime debug sn_insert core_host modules links w = Ret (rc, w') /\
    (rc = NGX_OK -> w_live w' = ∅) /\
    forall r, r ∈ w_live w' -> exists name, r = R_module name \/ r = R_hfunc name.
Proof.
  intros Hw Hpaths Halloc.
  enough (Htwp : twp (lifetime debug sn_insert core_host modules links) w
      (fun rc w' => (rc = NGX_OK -> w_live w' = ∅) /\ leak (w_live w'))) by exact Htwp.
  unfold lifetime. wstep. eapply twp_mono; [by apply create_spec|]. rewrite Hw.
  intros [vm|] w1 [Hw1 Hvm]; [|wstep; split; [done|]; rewrite Hw1; apply leak_empty].
  destruct (Hvm vm eq_refl) as (Hq & Hf & Ho). wstep.
  eapply twp_mono; [apply add_all_spec; try done; congruence|]. intros r1 w2 Hr1. wstep.
  eapply twp_mono; [eapply (and_then_spec _ (fun vm => v_init vm = false /\ Forall unloaded (v_modules vm))); [exact Hr1|]|].
  { intros vm2 Hq2 [Hi2 Ha2] Hw2. eapply twp_mono; [apply (vm_init_spec _ (w_live w2)); done|].
    intros [rc vm3] w3 (Hw3 & Hu & Hi & Hq3 & _). cbn [fst snd] in *. split_and!; cbn [fst snd]; [congruence|done|].
    exists ∅. split_and!; [|apply leak_empty|done]. rewrite Hw3, Hw2. unfold owned at 2.
    rewrite Hi2, owned_l_added by done. cbn [opt]. multiset_solver. }
  intros r2 w3 Hr2. wstep.
  eapply twp_mono; [eapply (and_then_spec _ (fun vm => Forall linkable (v_modules vm))); [exact Hr2|]|].
  { intros vm2 Hq2 [Hi2 Hu2] Hw2. eapply twp_mono; [apply (load_spec _ ∅); [done..|rewrite Hw2; multiset_solver]|].
    intros [rc vm3] w4 (Hl & Hq3 & _ & lost & Hw4 & Hlost & Hok). split_and!; cbn [fst snd]; [congruence|done|].
    exists lost. split_and!; [|done..]. rewrite Hw4. multiset_solver. }
  intros r3 w4 Hr3. wstep.
  eapply twp_mono; [eapply (and_then_spec _ (fun _ => True)); [exact Hr3|by intros; apply link_all_spec]|].
  intros r4 w5 (Hq4 & _ & lost & Hw5 & Hlost & Hok). wstep.
  eapply (twp_destroy _ lost); [done..|]. intros w6 Hw6. wstep. rewrite Hw6. by split.
Qed.

End accounts.

(** ** Linking *)

Section linking.
Context {W : Type} `{Wrt W} (rt : runtime) (debug : bool).
Abbreviation M := (SM (world W)).

(** Host functions by name, those of the interface first. *)
Definition resolve (core_host : option ngx_wavm_host_def_t) (host : ngx_wavm_host_def_t) (name : bytes) : option ngx_wavm_hfunc_t :=
  match ngx_wavm_host_hfunc_create true (hd_funcs host) name, core_host with
  | None, Some core => ngx_wavm_host_hfunc_create true (hd_funcs core) name
  | r, _ => r
  end.

(** The imports from [env], each with its function and its index. *)
Fixpoint resolve_all core_host host (j : nat) (imports : list wasm_importtype_t) : option (list ngx_wavm_hfunc_t) :=
  match imports with
  | [] => Some []
  | i :: imports =>
      if bool_decide (it_module i = ngx_string "env") then
        match resolve core_host host (it_name i), resolve_all core_host host (S j) imports with
        | Some h, Some l => Some ({| hf_def := hf_def h; hf_functype := hf_functype h; hf_idx := j |} :: l)
        | _, _ => None
        end
      else resolve_all core_host host (S j) imports
  end.

(** Without allocations that fail, and no call of the runtime. *)
Definition quiet (w w' : world W) : Prop := w_alloc w' = [] /\ w_rt w' = w_rt w.

Lemma twp_palloc_ok (w : world W) (Q : bool -> world W -> Prop) :
  w_alloc w = [] -> (forall w', quiet w w' -> Q true w') -> twp palloc w Q.
Proof. intros Hw HQ. eexists _, _. split; [reflexivity|]. rewrite Hw. by apply HQ. Qed.

Lemma twp_log_quiet msg (w : world W) (Q : unit -> world W -> Prop) :
  w_alloc w = [] -> (forall w', quiet w w' -> Q tt w') -> twp (log_error msg) w Q.
Proof. intros Hw HQ. eexists _, _. split; [reflexivity|]. by apply HQ. Qed.

Lemma twp_acquire_quiet r (w : world W) (Q : unit -> world W -> Prop) :
  w_alloc w = [] -> (forall w', quiet w w' -> Q tt w') -> twp (acquire r) w Q.
Proof. intros Hw HQ. eexists _, _. split; [reflexivity|]. by apply HQ. Qed.

Lemma quiet_trans (w w1 w2 : world W) : quiet w w1 -> quiet w1 w2 -> quiet w w2.
Proof. intros [? ?] [? ?]. split; congruence. Qed.

Lemma quiet_refl (w : world W) : w_alloc w = [] -> quiet w w.
Proof. by split. Qed.

Lemma link_imports_resolves core host name imports : forall j hfuncs (w : world W),
  w_alloc w = [] -> Forall (fun i => it_kind i = WASM_EXTERN_FUNC) imports ->
  twp (link_imports debug core host name j imports hfuncs) w (fun '(hfuncs', err) w' =>
    quiet w w' /\
    match resolve_all core host j imports with
    | Some l => err = None /\ hfuncs' = hfuncs ++ l
    | None => err = Some (ngx_string "incompatible host interface")
    end).
Proof.
  induction imports as [|i imports IH]; intros j hfuncs w Ha Hall; cbn [link_imports resolve_all].
  { wstep. split; [by apply quiet_refl|]. split; [done|by rewrite app_nil_r]. }
  apply Forall_cons_1 in Hall as [Hi Hall].
  destruct (bool_decide (it_module i = _)); cbn [negb]; [|by apply IH].
  wstep. eapply twp_slift; [rewrite bool_decide_true by done; apply ngx_wa_assert_true|].
  assert (Hcreate : forall h (w1 : world W), w_alloc w1 = [] ->
    twp (match ngx_wavm_host_hfunc_create true (hd_funcs h) (it_name i) with
         | Some _ => ok ← palloc; mret (ngx_wavm_host_hfunc_create ok (hd_funcs h) (it_name i))
         | None => mret None
         end) w1 (fun r w' => r = ngx_wavm_host_hfunc_create true (hd_funcs h) (it_name i) /\ quiet w1 w')).
  { intros h w1 Hw1. destruct (ngx_wavm_host_hfunc_create true (hd_funcs h) (it_name i)) eqn:E; [wstep|by wstep].
    apply twp_palloc_ok; [done|]. intros w2 Hq. wstep. by rewrite E. }
  wstep. eapply twp_mono; [by apply Hcreate|]. intros r w1 [-> Hq1]. wstep.
  apply (twp_mono _ _ (fun r w' => r = resolve core host (it_name i) /\ quiet w w')).
  { unfold resolve. destruct (ngx_wavm_host_hfunc_create true (hd_funcs host) (it_name i)); [by wstep|].
    destruct core as [core|]; [|by wstep]. eapply twp_mono; [apply Hcreate, Hq1|].
    intros r w2 [-> Hq2]. split; [done|by eapply quiet_trans]. }
  intros r w2 [-> Hq2]. destruct (resolve core host (it_name i)) as [h|].
  - wstep. apply twp_acquire_quiet; [apply Hq2|]. intros w3 Hq3. wstep. apply twp_palloc_ok; [apply Hq3|].
    intros w4 Hq4. cbn [negb]. eapply twp_mono; [apply IH; [apply Hq4|done]|].
    intros [hfuncs' err] w5 [Hq5 Hr]. split; [eauto using quiet_trans|].
    destruct (resolve_all _ _ _ imports) as [l|]; [|done]. destruct Hr as [-> ->]. by rewrite <- app_assoc.
  - wstep. apply twp_log_quiet; [apply Hq2|]. intros w3 Hq3. wstep. split; [eauto using quiet_trans|done].
Qed.

(** C22. A loaded module is linked exactly when every function it imports from [env] is found by its
    name in the interface, or else in the core interface, and the runtime accepts them: it then
    has these functions, in the order of its imports, for the runtime.  When one is missing the
    module is not linked, and no instance of it is ever made. *)
Theorem link_resolves core_host host m (w : world W) :
  m_invalid m = false -> m_loaded m = true -> m_linked m = false -> func_imports m -> w_alloc w = [] ->
  exists rc m' w', ngx_wavm_module_link debug core_host host m w = Ret ((rc, m'), w') /\
    match resolve_all core_host host 0 (m_imports m) with
    | Some l =>
        m_hfuncs m' = m_hfuncs m ++ l /\ m_host_def m' = Some host /\
        (rc = NGX_OK <-> (wrt_module_link (w_rt w) (m_hfuncs m ++ l)).1 = NGX_OK)
    | None => rc = NGX_ERROR
    end /\
    (rc = NGX_OK <-> m_linked m' = true) /\
    (rc <> NGX_OK -> forall w1, exists w2, ngx_wavm_instance_create rt debug m' w1 = Ret (None, w2)).
Proof.
  intros Hinv Hl Hk Hf Ha.
  assert (Hnone : forall m', m_linked m' = false -> forall w1, exists w2, ngx_wavm_instance_create rt debug m' w1 = Ret (None, w2)).
  { intros m' Hm' w1. unfold ngx_wavm_instance_create. rewrite Hm'. cbn [negb]. eexists. reflexivity. }
  unfold ngx_wavm_module_link. rewrite Hinv, Hl, Hk. cbn [negb].
  destruct (link_imports_resolves core_host host (m_name m) (m_imports m) 0 (m_hfuncs m) w Ha (Hf Hl))
    as ([hfuncs err] & w1 & E & [Ha1 Hrt] & Hr).
  rewrite (SM_bind_Ret _ _ _ _ _ E). destruct (resolve_all _ _ _ _) as [l|].
  - destruct Hr as [-> ->]. unfold wrt, mbind, SM_bind. rewrite Hrt.
    destruct (wrt_module_link (w_rt w) (m_hfuncs m ++ l)) as [rc rt'] eqn:Elink. destruct (is_ok rc) eqn:Erc; cbn [negb].
    + apply bool_decide_eq_true in Erc as ->. eexists _, _, _. split; [reflexivity|]. split_and!; done.
    + apply bool_decide_eq_false in Erc. eexists _, _, _. split; [reflexivity|]. split_and!; try done.
      * cbn [m_linked set_host]. by rewrite Hk.
      * intros _. by apply Hnone.
  - subst err. eexists _, _, _. split; [reflexivity|]. split; [done|]. split.
    + cbn [m_linked set_host]. by rewrite Hk.
    + intros _. by apply Hnone.
Qed.

(** ** Traps *)

(** A function that can be called with these arguments. *)
Definition callable (c : ngx_wavm_func_t * list Z) : Prop :=
  exists ft, fn_functype c.1 = Some ft /\ (length (params ft) <= length c.2)%nat.

Lemma trapped_call i f args (w : world W) :
  i_trapped i = true -> callable (f, args) ->
  exists w', ngx_wavm_instance_call_func_va debug i f args w = Ret ((NGX_ABORT, [], i), w') /\ w_rt w' = w_rt w.
Proof.
  intros Ht (ft & Hft & Hlen). cbn in Hft, Hlen. unfold ngx_wavm_instance_call_func_va, ngx_wavm_val_vec_set.
  rewrite Hft. erewrite SM_bind_Ret by reflexivity. rewrite (proj2 (Nat.leb_le _ _)) by done.
  erewrite SM_bind_Ret by reflexivity. unfold ngx_wavm_func_call. rewrite Ht.
  erewrite SM_bind_Ret by reflexivity. cbn beta iota. erewrite SM_bind_Ret by reflexivity. cbn beta.
  erewrite SM_bind_Ret by (unfold slift; rewrite bool_decide_true by auto; rewrite ngx_wa_assert_true; reflexivity).
  eexists. split; [reflexivity|done].
Qed.

(** C14. An instance that trapped runs no code any more: after a call that ended in a trap, every call
    of any of its functions is refused, and the runtime is not called. *)
Theorem trapped_runs_nothing i f args rets i1 (w w1 : world W) l :
  ngx_wavm_instance_call_func_va debug i f args w = Ret ((NGX_ABORT, rets, i1), w1) -> Forall callable l ->
  exists w2, run_funcs debug i1 l w1 = Ret ((replicate (length l) NGX_ABORT, i1), w2) /\ w_rt w2 = w_rt w1.
Proof.
  intros E Hl.
  assert (Ht : i_trapped i1 = true).
  { unfold ngx_wavm_instance_call_func_va in E. apply SM_bind_Ret_inv in E as (ft & s1 & _ & E).
    apply SM_bind_Ret_inv in E as (args' & s2 & _ & E). apply SM_bind_Ret_inv in E as ([[rc rets'] i'] & s3 & Ec & E).
    apply SM_bind_Ret_inv in E as (? & ? & _ & E). apply SM_bind_Ret_inv in E as (? & ? & _ & E).
    injection E as -> -> -> ->. unfold ngx_wavm_func_call in Ec. destruct (i_trapped i) eqn:Ei.
    - by injection Ec as _ <- _.
    - apply SM_bind_Ret_inv in Ec as ([rc' rets''] & s4 & _ & Ec). injection Ec as -> _ <- _.
      by rewrite bool_decide_true. }
  clear E. revert w1. induction Hl as [|[f' args'] l Hc _ IH]; intros w1; cbn [run_funcs length replicate].
  - exists w1. by split.
  - destruct (trapped_call i1 f' args' w1 Ht Hc) as (w2 & E & Hrt). rewrite (SM_bind_Ret _ _ _ _ _ E).
    destruct (IH w2) as (w3 & E3 & Hrt3). rewrite (SM_bind_Ret _ _ _ _ _ E3). exists w3. split; [done|congruence].
Qed.

End linking.

(** ** Instances *)

Section instances.
Context {W : Type} `{Wrt W} (rt : runtime).
Abbreviation M := (SM (world W)).

Definition nfuncs (i : ngx_wavm_instance_t) : nat := length (filter (fun f => is_func f = true) (i_funcs i)).

Definition owned_i (i : ngx_wavm_instance_t) : gmultiset resource :=
  copies (nfuncs i) (R_functype (i_id i)) ⊎
  (opt (i_created i) (R_instance (i_id i)) ⊎ opt (i_store_created i) (R_store (i_id i))).

(** The externs that [extern_destroy] can be given. *)
Definition destructible (i : ngx_wavm_instance_t) : Prop :=
  match i_externs i with Some l => destroy_externs rt l = Ret tt | None => True end.

Lemma destroy_externs_all l : rt <> NGX_WASM_HAVE_WASMTIME \/ (forall e, e ∈ l -> is_Some e) -> destroy_externs rt l = Ret tt.
Proof.
  intros Hl. induction l as [|e l IH]; cbn [destroy_externs]; [done|].
  assert (extern_destroy rt e = Ret tt) as ->.
  { unfold extern_destroy. destruct Hl as [Hrt|Hl]; [by destruct rt, e|]. destruct (Hl e ltac:(by left)) as [k ->]. by destruct rt. }
  cbn [obind]. apply IH. destruct Hl as [?|Hl]; [by left|right]. intros e' He'. apply Hl. by right.
Qed.

Lemma instance_destroy_spec i l (w : world W) (Q : unit -> world W -> Prop) :
  destructible i -> w_live w = owned_i i ⊎ l -> (forall w', w_live w' = l -> Q tt w') ->
  twp (ngx_wavm_instance_destroy rt i) w Q.
Proof.
  intros Hd Hw HQ. unfold ngx_wavm_instance_destroy, owned_i, destructible in *. wstep.
  eapply twp_release_n; [rewrite Hw; by rewrite <- (assoc_L (⊎))|]. intros w1 Hw1. wstep.
  eapply (twp_slift _ tt); [by destruct (i_externs i)|]. wstep.
  eapply twp_opt_release; [rewrite Hw1; by rewrite <- (assoc_L (⊎))|]. intros w2 Hw2.
  by eapply twp_opt_release.
Qed.

Lemma twp_wrt_from {A} (f : W -> A * W) (w : world W) Q :
  (forall a w', (exists s, a = (f s).1) -> w_live w' = w_live w -> Q a w') -> twp (wrt f) w Q.
Proof.
  intros HQ. unfold twp, wrt. destruct (f (w_rt w)) as [a rt'] eqn:E. eexists _, _. split; [done|].
  apply HQ; [|done]. exists (w_rt w). by rewrite E.
Qed.

(** The functions of an instance, with a type that the runtime gave for their index. *)
Definition funcs_typed (i : ngx_wavm_instance_t) (l : list wasm_exporttype_t) : Prop :=
  forall j e, l !! j = Some e -> et_kind e = WASM_EXTERN_FUNC ->
  exists f ft s, i_funcs i !! j = Some f /\ fn_functype f = Some ft /\ ft = (wrt_extern_init s j).1.2.

(** What stays, of an instance whose exports are cached. *)
Definition same_instance (i i' : ngx_wavm_instance_t) : Prop :=
  i_id i' = i_id i /\ i_module i' = i_module i /\ i_created i' = i_created i /\
  i_store_created i' = i_store_created i /\ i_trapped i' = i_trapped i.

(** After the exports [cached]. *)
Definition caching (cached rest : list wasm_exporttype_t) (extra : gmultiset resource) (i : ngx_wavm_instance_t) (w : world W) : Prop :=
  i_externs i = Some (((fun e => Some (et_kind e)) <$> cached) ++ replicate (length rest) None) /\
  length (i_funcs i) = length cached /\
  w_live w = copies (nfuncs i) (R_functype (i_id i)) ⊎ extra.

Definition push_export (e : wasm_exporttype_t) (j : nat) (ft : option wasm_functype) (m : option nat) (i : ngx_wavm_instance_t) :=
  set_externs (<[j := Some (et_kind e)]> <$> i_externs i) m
    (i_funcs i ++ [{| fn_idx := j; fn_name := et_name e; fn_functype := ft |}]) i.

Lemma caching_push e ft m cached rest extra i (w w' : world W) :
  caching cached (e :: rest) extra i w ->
  w_live w' = match ft with Some _ => {[+ R_functype (i_id i) +]} | None => ∅ end ⊎ w_live w ->
  caching (cached ++ [e]) rest extra (push_export e (length cached) ft m i) w'.
Proof.
  intros (Hext & Hlen & Hw) Hw'. unfold caching, push_export. cbn [i_externs i_funcs i_id set_externs]. split_and!.
  - rewrite Hext. cbn [fmap option_fmap option_map]. f_equal. cbn [length replicate].
    rewrite insert_app_r_alt by by rewrite length_fmap. rewrite length_fmap, Nat.sub_diag. cbn.
    by rewrite fmap_app, <- app_assoc.
  - rewrite !length_app. cbn. lia.
  - rewrite Hw', Hw. unfold nfuncs. cbn [i_funcs set_externs]. rewrite list.filter_app, length_app, copies_app.
    destruct ft as [t|].
    + rewrite filter_cons_True by done. cbn [filter list_filter length copies]. multiset_solver.
    + rewrite filter_cons_False by done. cbn [filter list_filter length copies]. multiset_solver.
Qed.

Lemma typed_push e ft m cached i :
  length (i_funcs i) = length cached -> funcs_typed i cached ->
  (et_kind e = WASM_EXTERN_FUNC -> exists t s, ft = Some t /\ t = (wrt_extern_init s (length cached)).1.2) ->
  funcs_typed (push_export e (length cached) ft m i) (cached ++ [e]).
Proof.
  intros Hlen Hty Hft j e' Hj Hk. unfold push_export. cbn [i_funcs set_externs].
  destruct (decide (j < length cached)%nat).
  - rewrite lookup_app_l in Hj by done. destruct (Hty j e' Hj Hk) as (f & t & s & Hf & Ht & Hs).
    exists f, t, s. split; [|done]. by rewrite lookup_app_l by (rewrite Hlen; lia).
  - rewrite lookup_app_r in Hj by lia. apply list_lookup_singleton_Some in Hj as [Hj ->].
    destruct (Hft Hk) as (t & s & -> & Ht). assert (j = length cached) as -> by lia.
    eexists _, t, s. split; [by rewrite lookup_app_r, Hlen, Nat.sub_diag by lia|]. by split.
Qed.

Lemma caching_destructible cached rest extra i (w : world W) :
  caching cached rest extra i w -> rt <> NGX_WASM_HAVE_WASMTIME \/ rest = [] -> destructible i.
Proof.
  intros (Hext & _) Hrt. unfold destructible. rewrite Hext. apply destroy_externs_all.
  destruct Hrt as [?|Hnil]; [by left|right]. rewrite Hnil. cbn [length replicate]. rewrite app_nil_r.
  intros e (k & -> & _)%list_elem_of_fmap. done.
Qed.

(** What caching the exports leaves, whether it failed or not. *)
Definition cached_post (i : ngx_wavm_instance_t) (exports : list wasm_exporttype_t) (extra : gmultiset resource)
    (r : ngx_wavm_instance_t * bool) (w' : world W) : Prop :=
  same_instance i r.1 /\ destructible r.1 /\ w_live w' = copies (nfuncs r.1) (R_functype (i_id r.1)) ⊎ extra /\
  (r.2 = true -> funcs_typed r.1 exports).

Lemma cached_failed cached rest extra exports i i' (w : world W) :
  rt <> NGX_WASM_HAVE_WASMTIME -> same_instance i i' -> caching cached rest extra i' w ->
  cached_post i exports extra (i', false) w.
Proof. intros Hrt Hs Hc. split; [done|]. split; [eapply caching_destructible; [exact Hc|by left]|]. split; [apply Hc|done]. Qed.

Lemma cache_exports_spec exports extra rest : forall cached i (w : world W),
  rt <> NGX_WASM_HAVE_WASMTIME -> exports = cached ++ rest ->
  caching cached rest extra i w -> funcs_typed i cached ->
  twp (cache_exports false (length cached) rest i) w (cached_post i exports extra).
Proof.
  induction rest as [|e rest IH]; intros cached i w Hrt He Hc Hty; cbn [cache_exports].
  { wstep. split; [done|]. split; [eapply caching_destructible; [exact Hc|by left]|]. split; [apply Hc|].
    intros _. by rewrite He, app_nil_r. }
  wstep. apply twp_wrt_from. intros [rc ft] w1 [s Hs] Hw1. destruct (is_ok rc); cbn [negb].
  2:{ wstep. eapply cached_failed; [done|done|]. destruct Hc as (? & ? & Hl). split_and!; [done..|]. by rewrite Hw1. }
  assert (Hnext : forall t m w2,
    w_live w2 = match t with Some _ => {[+ R_functype (i_id i) +]} | None => ∅ end ⊎ w_live w ->
    (et_kind e = WASM_EXTERN_FUNC -> t = Some ft) ->
    twp (cache_exports false (S (length cached)) rest (push_export e (length cached) t m i)) w2 (cached_post i exports extra)).
  { intros t m w2 Hw2 Ht. replace (S (length cached)) with (length (cached ++ [e])) by (rewrite length_app; cbn; lia).
    eapply twp_mono; [apply IH; [done|by rewrite <- app_assoc|by eapply caching_push|]|].
    - apply typed_push; [apply Hc|done|]. intros Hk. exists ft, s. split; [by apply Ht|]. by rewrite <- Hs.
    - intros r w3 (Hsame & Hr). by split. }
  wstep. wstep. cbn [i_externs i_funcs i_memory set_externs]. destruct b; cbn [negb].
  2:{ wstep. eapply (cached_failed _ rest _ _ _ (push_export e (length cached) None (i_memory i) i)); [done..|].
      eapply caching_push; [exact Hc|]. rewrite H0, Hw1. multiset_solver. }
  unfold push_export in Hnext. destruct (et_kind e) eqn:Ek.
  - wstep. wstep. apply (Hnext (Some ft)); [|done]. by rewrite H1, H0, Hw1.
  - apply (Hnext None); [|done]. rewrite H0, Hw1. multiset_solver.
  - apply (Hnext None); [|done]. rewrite H0, Hw1. multiset_solver.
  - wstep. eapply (twp_slift _ tt); [done|]. apply (Hnext None); [|done]. rewrite H0, Hw1. multiset_solver.
Qed.

(** A call acquires and releases nothing. *)
Definition same_owned (i i' : ngx_wavm_instance_t) : Prop :=
  i_id i' = i_id i /\ owned_i i' = owned_i i /\ i_externs i' = i_externs i.

Lemma call_func_va_spec i f args (w : world W) :
  callable (f, args) ->
  twp (ngx_wavm_instance_call_func_va false i f args) w (fun r w' => same_owned i r.2 /\ w_live w' = w_live w).
Proof.
  intros (ft & Hft & Hlen). cbn [fst snd] in *. unfold ngx_wavm_instance_call_func_va, ngx_wavm_val_vec_set. wstep.
  rewrite Hft. eapply twp_slift; [reflexivity|]. wstep. rewrite (proj2 (Nat.leb_le _ _)) by done.
  eapply twp_slift; [reflexivity|]. wstep.
  apply (twp_mono _ _ (fun r w' => same_owned i r.2 /\ w_live w' = w_live w)).
  - unfold ngx_wavm_func_call. destruct (i_trapped i); [by wstep|]. wstep. wstep. destruct a as [rc rets]. wstep.
    split; [|done]. by destruct (bool_decide _).
  - intros [[rc rets] i'] w1 [Hs Hl]. cbn [snd] in Hs. wstep. apply (twp_mono _ _ (fun _ w' => w_live w' = w_live w)).
    + destruct (is_ok rc); wstep; congruence.
    + intros _ w2 Hl2. wstep. eapply (twp_slift _ tt); [done|]. by wstep.
Qed.

(** The function that starts the module, if any, is an exported one without parameters. *)
Definition start_ok (m : ngx_wavm_module_t) : Prop :=
  match m_f_start m with
  | None => True
  | Some (_, j) => exists e, m_exports m !! j = Some e /\ et_kind e = WASM_EXTERN_FUNC /\
                             forall s, params (wrt_extern_init s j).1.2 = []
  end.

Definition create_post (live : gmultiset resource) (r : option ngx_wavm_instance_t) (w' : world W) : Prop :=
  match r with
  | None => w_live w' = live
  | Some i => destructible i /\ w_live w' = owned_i i ⊎ live
  end.

Lemma instance_error_spec err i live (w : world W) :
  destructible i -> w_live w = owned_i i ⊎ live ->
  twp (log_error err;; ngx_wavm_instance_destroy rt i;; mret None) w (create_post live).
Proof.
  intros Hd Hw. wstep. wstep. wstep. eapply instance_destroy_spec; [done|by rewrite H0|]. intros w2 Hw2. by wstep.
Qed.

Lemma instance_create_spec m (w : world W) :
  rt <> NGX_WASM_HAVE_WASMTIME -> start_ok m ->
  twp (ngx_wavm_instance_create rt false m) w (create_post (w_live w)).
Proof.
  intros Hrt Hstart. unfold ngx_wavm_instance_create.
  destruct (m_linked m); cbn [negb]; [|repeat wstep; cbn [create_post]; congruence].
  wstep. wstep. destruct b; cbn [negb]; [|repeat wstep; cbn [create_post]; congruence].
  wstep. wstep. wstep. wstep. destruct b; cbn [negb].
  2:{ apply instance_error_spec; [done|]. live_chain. unfold owned_i. cbn [i_id i_created i_store_created opt set_created set_log new_instance nfuncs i_funcs]. cbn [copies length]. multiset_solver. }
  wstep. wstep. destruct (is_ok a); cbn [negb].
  2:{ apply instance_error_spec; [done|]. live_chain. unfold owned_i. cbn [i_id i_created i_store_created opt set_created set_log new_instance nfuncs i_funcs]. cbn [copies length]. multiset_solver. }
  wstep. wstep. wstep. wstep. destruct (is_ok a0); cbn [negb].
  2:{ apply instance_error_spec; [done|]. live_chain. unfold owned_i. cbn [i_id i_created i_store_created opt set_created set_log new_instance nfuncs i_funcs]. cbn [copies length]. multiset_solver. }
  wstep. wstep. wstep. wstep.
  destruct b; cbn [negb].
  2:{ apply instance_error_spec; [done|]. live_chain. unfold owned_i. cbn [i_id i_created i_store_created opt set_created set_log new_instance nfuncs i_funcs]. cbn [copies length]. multiset_solver. }
  set (i0 := set_externs _ _ _ _). wstep.
  eapply twp_mono; [apply (cache_exports_spec (m_exports m) ({[+ R_instance n +]} ⊎ ({[+ R_store n +]} ⊎ w_live w)) (m_exports m) [] i0);
    [done|done| |done]|].
  { split_and!; [done|done|]. live_chain. unfold i0, nfuncs. cbn [i_funcs set_externs filter list_filter length copies]. multiset_solver. }
  intros [i ok] w2 ((Hid & Hm & Hc & Hs & _) & Hd & Hl2 & Hty). cbn [fst snd] in *.
  assert (Hown : w_live w2 = owned_i i ⊎ w_live w).
  { unfold owned_i. rewrite Hl2, Hc, Hs, Hid. unfold i0. cbn [i_id i_created i_store_created opt set_externs set_created set_log new_instance]. multiset_solver. }
  destruct ok; cbn [negb]; [|by apply instance_error_spec]. unfold start_ok in Hstart.
  destruct (m_f_start m) as [[name j]|]; [|wstep; by split].
  destruct Hstart as (e & He & Hk & Hp). destruct (Hty eq_refl j e He Hk) as (f & ft & s & Hf & Hft & ->).
  wstep. unfold ngx_wavm_instance_call_funcref. cbn [snd]. wstep. eapply (twp_slift _ tt); [done|]. wstep.
  rewrite Hf. eapply twp_slift; [reflexivity|].
  eapply twp_mono; [apply call_func_va_spec; eexists; split; [exact Hft|by rewrite Hp]|].
  intros [[rc rets] i'] w3 ((Hid' & Ho' & He') & Hl3). cbn [snd] in *.
  assert (Hd' : destructible i') by (unfold destructible in *; by rewrite He').
  destruct (is_ok rc); cbn [negb].
  - wstep. split; [done|]. by rewrite Hl3, Ho'.
  - apply instance_error_spec; [done|]. by rewrite Hl3, Ho'.
Qed.

(** Making an instance fails without keeping anything that it acquired, or the instance holds its
    store, itself and the types of its functions; the calls of its functions change none of
    that, and destroying it, trapped or not, releases all of it and nothing else. *)
Lemma instance_accounts m (w : world W) :
  rt <> NGX_WASM_HAVE_WASMTIME -> start_ok m ->
  exists r w', ngx_wavm_instance_create rt false m w = Ret (r, w') /\
    match r with
    | None => w_live w' = w_live w
    | Some i =>
        forall calls, Forall callable calls ->
          exists rcs i' w1 w2, run_funcs false i calls w' = Ret ((rcs, i'), w1) /\
            ngx_wavm_instance_destroy rt i' w1 = Ret (tt, w2) /\ w_live w2 = w_live w
    end.
Proof.
  intros Hrt Hs. destruct (instance_create_spec m w Hrt Hs) as (r & w' & E & Hr). exists r, w'. split; [done|].
  destruct r as [i|]; [|done]. destruct Hr as [Hd Hl]. intros calls Hcalls.
  assert (Hrun : twp (run_funcs false i calls) w' (fun r w1 => same_owned i r.2 /\ w_live w1 = w_live w')).
  { clear E Hd Hl. revert i w'. induction Hcalls as [|[f args] calls Hc _ IH]; intros i w'; cbn [run_funcs]; [by wstep|].
    wstep. eapply twp_mono; [by apply call_func_va_spec|]. intros [[rc rets] i'] w1 ((H1 & H2 & H3) & Hl1). wstep.
    eapply twp_mono; [apply IH|]. intros [rcs i2] w2 ((H4 & H5 & H6) & Hl2). wstep. cbn [snd] in *.
    split; [split_and!|]; congruence. }
  destruct Hrun as ([rcs i'] & w1 & E1 & (Hid & Ho & He) & Hl1). cbn [snd] in *. exists rcs, i', w1.
  destruct (instance_destroy_spec i' (w_live w) w1 (fun _ w2 => w_live w2 = w_live w)) as (u & w2 & E2 & Hl2).
  - unfold destructible in *. by rewrite He.
  - by rewrite Hl1, Hl, Ho.
  - done.
  - exists w2. destruct u. by split_and!.
Qed.

End instances.

End Wavm.

(** ** Executions *)

Module WavmRuns.
Import Wavm.

(** A runtime that calls from a script of results: a file has its path as content, and what a
    module imports and exports is chosen by the first byte of it. *)
Definition toy : Type := list ngx_rc.

Definition import_func (module name : String.string) : wasm_importtype_t :=
  {| it_module := ngx_string module; it_name := ngx_string name; it_kind := WASM_EXTERN_FUNC |}.
Arguments import_func (module name)%_string_scope.

Definition export (name : String.string) (k : wasm_externkind) : wasm_exporttype_t :=
  {| et_name := ngx_string name; et_kind := k |}.
Arguments export name%_string_scope k.

Definition toy_imports (bs : bytes) : list wasm_importtype_t :=
  match head bs with
  | Some "t"%byte => [{| it_module := ngx_string "env"; it_name := ngx_string "table"; it_kind := WASM_EXTERN_TABLE |}]
  | Some "u"%byte => [import_func "env" "proxy_log"; import_func "env" "unknown"]
  | _ => [import_func "env" "proxy_log"; import_func "wasi_snapshot_preview1" "fd_write"; import_func "env" "ngx_log"]
  end.

Definition toy_exports : list wasm_exporttype_t :=
  [export "memory" WASM_EXTERN_MEMORY; export "_initialize" WASM_EXTERN_FUNC; export "run" WASM_EXTERN_FUNC].

#[export] Instance toy_wrt : Wrt toy := {
  wrt_read_file w path := (NGX_OK, path, w);
  wrt_conf_init w := (true, w);
  wrt_engine_init w := (NGX_OK, w);
  wrt_wat2wasm w bs := (NGX_OK, bs, w);
  wrt_validate w bs := (NGX_OK, w);
  wrt_module_init w bs := (NGX_OK, (toy_imports bs, toy_exports), w);
  wrt_module_link w hfuncs := (NGX_OK, w);
  wrt_store_init w := (NGX_OK, w);
  wrt_instance_init w := (NGX_OK, w);
  wrt_extern_init w j := (NGX_OK, {| params := []; results := [] |}, w);
  wrt_call w i name j args := (default NGX_OK (head w), [], tail w);
}.

Definition world_with (calls : toy) (alloc : list bool) : world toy :=
  {| w_rt := calls; w_alloc := alloc; w_live := ∅; w_log := []; w_next := 0 |}.

Definition run_with (path : String.string) (alloc : list bool) :=
  lifetime true cons (Some ngx_wasm_core_interface) [(ngx_string "m", ngx_string path, None)]
    [(ngx_string "m", ngx_proxy_wasm_host)] (world_with [] alloc).
Arguments run_with path%_string_scope alloc.

Lemma run_ok : match run_with "m.wasm" [] with Ret (rc, _) => rc | Fault _ => NGX_ERROR end = NGX_OK.
Proof. by vm_compute. Qed.

Lemma lifetime_accounts_example : exists w', run_with "m.wasm" [] = Ret (NGX_OK, w') /\ w_live w' = ∅.
Proof.
  destruct (lifetime_accounts true cons (fun m l => Permutation_refl (m :: l)) (Some ngx_wasm_core_interface)
    [(ngx_string "m", ngx_string "m.wasm", None)] [(ngx_string "m", ngx_proxy_wasm_host)] (world_with [] []))
    as (rc & w' & E & Hok & _); [done| |done|].
  - constructor; [by vm_compute|constructor].
  - assert (E2 : run_with "m.wasm" [] = Ret (rc, w')) by exact E.
    pose proof run_ok as Hr. rewrite E2 in Hr. subst rc. exists w'. split; [exact E2|by apply Hok].
Defined.

(** A module that imports a table is refused once it is compiled; what was compiled stays. *)
Example failed_load_leaks :
  match run_with "t.wasm" [] with
  | Ret (rc, w') => rc = NGX_ERROR /\ bool_decide (w_live w' = {[+ R_module (ngx_string "m") +]}) = true /\
      w_log w' = [ngx_string "NYI: module import type not supported"]
  | Fault _ => False
  end.
Proof. by vm_compute. Qed.

(** Without memory for the log of the VM, a VM whose queue of instances is zeroed is destroyed. *)
Example no_memory_for_the_vm : run_with "m.wasm" [true; false] = Fault F_memory.
Proof. by vm_compute. Qed.

(** The four last bytes of a shorter path start before it. *)
Example short_path : run_with "m" [] = Fault F_memory.
Proof. by vm_compute. Qed.

(** A module named for what it imports. *)
Definition loaded (bs : String.string) : ngx_wavm_module_t :=
  set_funcs [(ngx_string "_initialize", 1%nat); (ngx_string "run", 2%nat)] (Some (ngx_string "_initialize", 1%nat))
    (set_types (toy_imports (ngx_string bs)) toy_exports
       (set_flags true true false false (new_module (ngx_string bs) (ngx_string "m.wasm")))).
Arguments loaded bs%_string_scope.

Lemma link_resolves_witness :
  exists rc m' w', ngx_wavm_module_link true (Some ngx_wasm_core_interface) ngx_proxy_wasm_host (loaded "m") (world_with [] []) =
      Ret ((rc, m'), w') /\ rc = NGX_OK /\ m_linked m' = true.
Proof.
  destruct (link_resolves NGX_WASM_HAVE_V8 true (Some ngx_wasm_core_interface) ngx_proxy_wasm_host (loaded "m") (world_with [] []))
    as (rc & m' & w' & E & Hr & Hl & _); [done..| |done|].
  - intros _. repeat constructor.
  - exists rc, m', w'. split; [exact E|].
    assert (Hsome : is_Some (resolve_all (Some ngx_wasm_core_interface) ngx_proxy_wasm_host 0 (m_imports (loaded "m")))).
    { vm_compute. eauto. }
    destruct (resolve_all (Some ngx_wasm_core_interface) ngx_proxy_wasm_host 0 (m_imports (loaded "m"))) as [l|] eqn:El;
      [|destruct Hsome; discriminate].
    destruct Hr as (_ & _ & Hrc). assert (rc = NGX_OK) as -> by (by apply Hrc). split; [done|by apply Hl].
Defined.

(** A function that no interface has, and a second interface. *)
Example unresolved :
  match ngx_wavm_module_link true (Some ngx_wasm_core_interface) ngx_proxy_wasm_host (loaded "u") (world_with [] []) with
  | Ret ((rc, _), w') => rc = NGX_ERROR /\
      w_log w' = [ngx_string "missing host function"; ngx_string "incompatible host interface"]
  | Fault _ => False
  end.
Proof. by vm_compute. Qed.

Definition linked : ngx_wavm_module_t :=
  match ngx_wavm_module_link true (Some ngx_wasm_core_interface) ngx_proxy_wasm_host (loaded "m") (world_with [] []) with
  | Ret ((_, m), _) => m
  | Fault _ => loaded "m"
  end.

Example other_host :
  match ngx_wavm_module_link true None ngx_http_wasm_host_interface linked (world_with [] []) with
  | Ret ((rc, _), w') => rc = NGX_ERROR /\ w_log w' = [ngx_string "module already linked to a different host"]
  | Fault _ => False
  end.
Proof. by vm_compute. Qed.

Definition run_func : ngx_wavm_func_t :=
  {| fn_idx := 2; fn_name := ngx_string "run"; fn_functype := Some {| params := []; results := [] |} |}.

Lemma run_func_callable : callable (run_func, []).
Proof. by exists {| params := []; results := [] |}. Qed.

(** The first call traps, the other ones do not run. *)
Lemma trapped_runs_nothing_witness :
  exists i1 w1 w2,
    ngx_wavm_instance_call_func_va true (new_instance 0 linked) run_func [] (world_with [NGX_ABORT; NGX_OK] []) =
      Ret ((NGX_ABORT, [], i1), w1) /\
    run_funcs true i1 [(run_func, []); (run_func, [])] w1 = Ret (([NGX_ABORT; NGX_ABORT], i1), w2) /\ w_rt w2 = [NGX_OK].
Proof.
  assert (E : exists i1 w1,
    ngx_wavm_instance_call_func_va true (new_instance 0 linked) run_func [] (world_with [NGX_ABORT; NGX_OK] []) =
      Ret ((NGX_ABORT, [], i1), w1) /\ w_rt w1 = [NGX_OK]) by (do 2 eexists; split; reflexivity).
  destruct E as (i1 & w1 & E & Hrt).
  destruct (trapped_runs_nothing true (new_instance 0 linked) run_func [] [] i1 (world_with [NGX_ABORT; NGX_OK] []) w1
    [(run_func, []); (run_func, [])] E) as (w2 & E2 & Hrt2).
  - constructor; [exact run_func_callable|constructor; [exact run_func_callable|constructor]].
  - exists i1, w1, w2. split; [exact E|]. split; [exact E2|congruence].
Defined.

Lemma instance_accounts_example :
  exists i w', ngx_wavm_instance_create NGX_WASM_HAVE_V8 false linked (world_with [] []) = Ret (Some i, w') /\
    exists rcs i' w1 w2, run_funcs false i [(run_func, [])] w' = Ret ((rcs, i'), w1) /\
      ngx_wavm_instance_destroy NGX_WASM_HAVE_V8 i' w1 = Ret (tt, w2) /\ w_live w2 = ∅.
Proof.
  destruct (instance_accounts NGX_WASM_HAVE_V8 linked (world_with [] [])) as (r & w' & E & Hr); [done| |].
  - exists (export "_initialize" WASM_EXTERN_FUNC). by split_and!.
  - destruct r as [i|].
    + exists i, w'. split; [exact E|]. apply Hr. constructor; [exact run_func_callable|constructor].
    + exfalso.
      assert (Hs : match ngx_wavm_instance_create NGX_WASM_HAVE_V8 false linked (world_with [] []) with
                   | Ret (Some _, _) => true | _ => false end = true) by by vm_compute.
      by rewrite E in Hs.
Defined.

(** On Wasmtime, an instance that could not be completed has the externs that were not reached
    destroyed too: they are zeroed, and their instance is read. *)
Example incomplete_instance_faults :
  ngx_wavm_instance_create NGX_WASM_HAVE_WASMTIME false linked (world_with [] [true; true; true; false]) = Fault F_memory.
Proof. by vm_compute. Qed.

End WavmRuns.
